(* ===== verification/_CoqProject ===== *)
-Q . S2P
Prelude.v
Text.v
Inet.v
Access.v
Limit.v
Bitop.v
Buf.v
Double.v
Mp4.v
Dash.v
Bandwidth.v
Mpegts.v
Disk.v
Chunk.v
Shared.v
Queue.v
Pool.v
Amf.v
Receive.v
Send.v
AmfSend.v
Codec.v
Meta.v
Live.v
Recorder.v
LiveOut.v
Broadcast.v
LiveAv.v
Recording.v
Flv.v
Playback.v
LiveState.v
LiveHistory.v
Ping.v
Eval.v
Handshake.v
Greeting.v
Cmd.v
Commands.v
