(* ===== verification/Prelude.v ===== *)
(** * Verification of the streaming core of lmss

    lmss is an RTMP streaming server built on nginx.  The RTMP code under
    src/src/rtmp is its own; nginx (src/src/core, event, http, mail, os) and
    ngx_lua (src/src/lua) are vendored below it.  This development models the
    parts of the RTMP code that carry its logic and proves what they promise.

    ** The way of the data

    After the handshake (Handshake.v) a client sends messages cut into
    chunks.  [ngx_rtmp_recv] gathers them
    from the socket (Chunk.v) and hands every complete message to the handlers
    of its type (Receive.v), which read AMF values (Amf.v); commands (Cmd.v) call the
    modules.  Outgoing messages are written by the AMF writer (Amf.v) or the
    control message functions (Send.v) into buffers shared between sessions
    (Shared.v), get their chunk headers from [ngx_rtmp_prepare_message]
    (Chunk.v) and wait in the queue of each session (Queue.v).  The live
    module (Live.v) keeps the table of streams and passes the packets of a
    publisher on to the players of its stream.  The frames of a published
    stream are also written to files: FLV recordings (Recorder.v), which can be
    played back (Flv.v), DASH segments (Dash.v) made of MP4 boxes (Mp4.v), and
    HLS segments made of MPEG-TS packets (Mpegts.v).
    Codec.v parses the sequence headers of streams with the bit reader of
    Bitop.v; Ping.v watches over idle sessions; Bandwidth.v measures.

    ** Files

    - Prelude.v: machine integers as [Z] with their width written out, bytes,
      byte orders, lists, decimal output, the tactics and hint databases.
    - Bitop.v: ngx_rtmp_bitop.c.  Reading bits and Exp-Golomb codes.
    - Buf.v: [ngx_buf_t] (core/ngx_buf.h) as a block of memory with the
      positions [pos] and [last].
    - Mp4.v: dash/ngx_rtmp_mp4.c.  The box writer as a state monad over a
      buffer; box trees and their serialisation are the specification.
    - Dash.v: dash/ngx_rtmp_dash_module.c.  The ring of fragments, the raw
      files, closing and opening of fragments, playlist and init segments over
      a file system with failures.
    - Bandwidth.v: ngx_rtmp_bandwidth.c.
    - Mpegts.v: hls/ngx_rtmp_mpegts.c.  Packets, PES headers and stuffing over
      the packet array; a demultiplexer is the specification.
    - Chunk.v: ngx_rtmp_handler.c and the session setup of ngx_rtmp_init.c.
      The receive loop with its buffers, chunk size changes, dispatch and
      [ngx_rtmp_prepare_message]; a decoder of byte strings is the
      specification.
    - Shared.v: ngx_rtmp_shared.c over an explicit store of links, with
      reference counts and the free list.
    - Queue.v: the output queue and [ngx_rtmp_send] of ngx_rtmp_handler.c.
    - Amf.v: ngx_rtmp_amf.c.  Reader and writer over element tables, variables
      in memory and buffer chains.
    - Receive.v: ngx_rtmp_receive.c and the table of handlers of ngx_rtmp.c.
      Protocol and user control messages, aggregates, AMF commands by name;
      what the modules registered is a parameter.
    - Send.v: the control messages of ngx_rtmp_send.c, from the bytes in a
      shared buffer to the queue.
    - Codec.v: ngx_rtmp_codec_module.c.  The parsers of AAC and AVC sequence
      headers as a state monad over context and bit reader, and the copies of
      the headers in the pool; the syntax of H.264 and MPEG-4 audio is the
      specification.
    - Ping.v: [ngx_rtmp_cycle] and the ping timer of ngx_rtmp_handler.c over
      the sessions of Chunk.v and Queue.v.
    - Double.v: unsigned integers as IEEE doubles and back, the conversion the
      AMF numbers of the writer go through.
    - Pool.v: the operations on shared buffers as a step relation; [owned]
      accounts every link to its users.
    - AmfSend.v: the AMF messages of ngx_rtmp_send.c.  The AMF writer over
      chains of the pool, and the messages the server sends through it.
    - Meta.v: the metadata handlers of ngx_rtmp_codec_module.c.
    - Live.v: ngx_rtmp_live_module.c and the lookups of
      ngx_rtmp_relay_module.c it uses.  A worker process with its sessions,
      streams and pool as a record, every handler and timer of the module as
      an operation of a state monad over it.
    - LiveOut.v: what sending to a session promises over the whole process.
    - Broadcast.v: one packet and one subscriber, as its peer hears it.
    - LiveAv.v: a packet through [ngx_rtmp_live_av], and runs of the module.
    - LiveState.v: the invariant of the tables of streams and contexts.
    - LiveHistory.v: the invariant over all handlers and timers, by a
      weakest precondition for the monad of Live.v.
    - Disk.v: files, descriptors and the calls of os/unix/ngx_files.c, each of
      which may fail.
    - Recorder.v: ngx_rtmp_record_module.c, every handler and the functions for
      manual control, as a state monad over process, contexts and disk.
    - Recording.v: tags and FLV files as the specification of the recorder.
    - Flv.v: ngx_rtmp_flv_module.c, the player of FLV files.
    - Playback.v: a recording played to a client, as its peer hears it.
    - Handshake.v: ngx_rtmp_handshake.c.  Digests, challenges and responses,
      the two handlers that call each other, errors and timers, over buffers
      and sockets that give and take bytes in pieces.
    - Greeting.v: challenges and responses as the specification, the phases of
      the two sides, and a client and a server connected by streams of bytes.
    - Text.v, Inet.v: numbers and C strings, addresses and networks
      (core/ngx_string.c, ngx_inet.c).
    - Access.v: ngx_rtmp_access_module.c; directives over networks are the
      specification.
    - Limit.v: ngx_rtmp_limit_module.c and its callers for RTMP and HLS clients
      (ngx_rtmp_init.c, hls/ngx_rtmp_hls_module.c), the steps of all workers.
    - Eval.v: ngx_rtmp_eval.c; texts made of tokens are the specification.
    - Cmd.v: ngx_rtmp_cmd_module.c, every handler of a command and the
      answers, over the process of Live.v and the sessions and servers of this
      module; the functions of other modules in front are parameters.
    - Commands.v: the commands from the values a client sends to the call of
      the next module and to the answer.

    ** What the theorems show

    - Chunk: receiving implements the decoder for every cutting of the input,
      is memory safe while the chunk size does not shrink, and a prepared
      message is decoded to what was sent; two theorems exhibit what goes
      wrong when the chunk size shrinks, two more a drift of timestamps and a
      way round the message size limit.
    - Shared and Queue: no link is lost or in two places, reference counts are
      the number of users, the socket gets the queued bytes in order and a
      message is either dropped without a change or queued.
      [shared_message_decodes] composes the two with the chunk layer.
    - Amf: the reader consumes an encoding exactly and assigns what the
      elements ask for, ends on arbitrary input and stays inside the
      variables; the writer produces encodings, and the two are inverse.
    - Mp4, Dash and Mpegts: the writers refine box trees and packets a
      demultiplexer reads back, stay inside their buffers, and the segmenter
      keeps raw files, sample tables and playlist in agreement.
    - Bitop and Bandwidth: bit reading against the list of bits, Exp-Golomb
      decoding, and the mean over the last interval.
    - Receive and Send: an aggregate is taken apart into its messages, also
      when aggregates nest; a command reaches the handlers of its name; a
      control message created by one side is decoded and handled by the other
      with the same arguments (an abort as a chunk size, which is what its
      message says), and leaves no reference behind when it has been sent or
      dropped.
    - Codec: sequence headers give the values their syntax defines, for what
      the parsers know of it, and the copies kept of them are counted exactly;
      examples show headers that are read wrongly, and one theorem a loop
      whose length a peer chooses.
    - Ping: what the timer does to a session in every case, and why a peer
      that reads without answering is never closed.
    - Pool and AmfSend: no history of the pool loses or shares a link by
      mistake; an AMF command arrives at the peer's reader with the values it
      was made of, and sending or failing to build it leaves no link behind.
    - Meta: the metadata kept of a stream is what was published, and is
      relayed unchanged; two lemmas exhibit values that are not.
    - Live: a packet is passed on to every subscriber, whose peer hears it at
      the time of the publisher less what was dropped, or the packet is
      counted as dropped; in every history of commands, packets and timers a
      stream has at most one publisher, sessions and streams refer to each
      other, nothing that is gone is used and no buffer is lost.  Examples
      exhibit a drift of timestamps and counts that are never taken.
    - Recording and Playback: what a recorder without limits of size, frames
      or interval writes of a published stream is an FLV file of the codec
      headers and one tag for every frame, behind the recording it continues,
      and no descriptor is left open; a player that reads the file sends one
      message for every tag, and its peer hears exactly the recording.  The bound 2^31 on times is that of [int32_t] in the code.
      Examples exhibit what failing writes, limits and a full queue do.
    - Greeting: a client and a server finish the handshake however the bytes
      are cut and the events are ordered, and each proves that it has read the
      challenge of the other; a server facing any client only waits for bytes
      of it, under a timer, and repeats an old-style challenge.  Every event
      moves at least one of 4 * 3073 bytes, which bounds their number; four
      calls of the handlers are as deep as they get.
    - Access, Limit and Eval: the first directive that covers an address
      decides, whatever the level it is written at and the form of its
      network; never more sessions than allowed are accepted, though an HLS
      client that is refused is served all the same; a configured string is
      expanded to what its variables and escapes stand for.
    - Commands: whatever values a client sends in a command, the next module
      is called with them, cut to the room of their variables; the host of a
      connection is that of its URL; the first connect is answered by four
      messages, in order, and a second one fails behind the change of host and
      server.  Examples exhibit connects that are accepted or move
      a session although they should be refused, and values that stay from
      earlier commands.

    ** Conventions

    A definition has the name of the function it models; a loop or a part of
    a long function has a name of its own and the manifest gives its lines.
    Error codes are the type [ngx_rc]; [None] stands for an access the C code
    must not make (outside a block, through NULL, to a missing link), so that
    a theorem with [Some] shows memory safety.  Loops have fuel; the theorems
    give a bound that is always enough (bytes left to read, links allocated,
    bytes of a frame) and show that the result exists.  What comes from the
    outside is an argument: the reads of a socket and the outcomes of writes
    are lists of events, the handlers of other modules are functions.

    Allocation of memory and registration of events are taken to succeed;
    logging is left out.

    ** Not modelled

    The modules around the core: the HLS segmenter, the play module around the
    FLV reader and the reader of MP4 files, relay, callbacks, exec,
    statistics, control, logging, billing and the configuration (the manifest
    lists each with the reason); and the vendored nginx and Lua code.
    HMAC-SHA256, which the handshake takes from OpenSSL, is a parameter; the
    theorems ask of it only that its results have
    32 bytes. *)

From Stdlib Require Import ZArith Lia.
From stdpp Require Import base numbers list list_numbers strings.

(* ------------------------------------------------------------------ *)
(** ** Scope, hint databases and tactics of the development *)

Declare Scope lmss_scope.
Delimit Scope lmss_scope with lmss.
Open Scope Z_scope.
Open Scope lmss_scope.

Create HintDb lmss discriminated.
Create Rewrite HintDb lmss_len.

(** Return codes of the nginx API (src/src/core/ngx_core.h). *)
Inductive ngx_rc :=
  | NGX_OK
  | NGX_ERROR
  | NGX_AGAIN
  | NGX_BUSY
  | NGX_DONE
  | NGX_DECLINED
  | NGX_ABORT.

#[export] Instance ngx_rc_eq_dec : EqDecision ngx_rc.
Proof. solve_decision. Defined.

(** Splits every conjunction and boolean test a model definition leaves in
    the context, and closes what [lia] closes. *)
Ltac bool_to_prop :=
  repeat match goal with
  | H : (_ <? _)%Z = true |- _ => apply Z.ltb_lt in H
  | H : (_ <? _)%Z = false |- _ => apply Z.ltb_ge in H
  | H : (_ <=? _)%Z = true |- _ => apply Z.leb_le in H
  | H : (_ <=? _)%Z = false |- _ => apply Z.leb_gt in H
  | H : (_ =? _)%Z = true |- _ => apply Z.eqb_eq in H
  | H : (_ =? _)%Z = false |- _ => apply Z.eqb_neq in H
  | H : (_ <? _)%nat = true |- _ => apply Nat.ltb_lt in H
  | H : (_ <? _)%nat = false |- _ => apply Nat.ltb_ge in H
  | H : (_ <=? _)%nat = true |- _ => apply Nat.leb_le in H
  | H : (_ <=? _)%nat = false |- _ => apply Nat.leb_gt in H
  | H : (_ =? _)%nat = true |- _ => apply Nat.eqb_eq in H
  | H : (_ =? _)%nat = false |- _ => apply Nat.eqb_neq in H
  | H : _ && _ = true |- _ => apply andb_true_iff in H as [? ?]
  | H : _ || _ = false |- _ => apply orb_false_iff in H as [? ?]
  end.

(** A closed decidable proposition, by evaluation. *)
Ltac decided := apply (bool_decide_eq_true_1 _); vm_compute; reflexivity.

(** Case analysis on the first boolean test of the goal. *)
Ltac case_if :=
  match goal with
  | |- context [if ?b then _ else _] =>
      let E := fresh "E" in destruct b eqn:E; bool_to_prop
  end.

(** Length arithmetic on lists: rewrites with the [length_*] lemmas and
    those of [lmss_len], then [lia]. *)
Hint Rewrite @length_app @length_cons @length_nil @length_take @length_drop
  @length_replicate @length_insert @length_fmap @length_reverse
  @length_seq : lmss_len.
Ltac len := autorewrite with lmss_len in *; try lia.

(* ------------------------------------------------------------------ *)
(** ** Machine integers

    A C integer is a [Z]; its width is written out where the source stores
    or converts it. *)

Definition u8 (z : Z) : Z := z mod 2 ^ 8.
Definition u16 (z : Z) : Z := z mod 2 ^ 16.
Definition u32 (z : Z) : Z := z mod 2 ^ 32.
Definition u64 (z : Z) : Z := z mod 2 ^ 64.

(** Conversion to [int32_t]. *)
Definition s32 (z : Z) : Z := (z + 2 ^ 31) mod 2 ^ 32 - 2 ^ 31.

Lemma u8_bound z : 0 <= u8 z < 256.
Proof. apply Z.mod_pos_bound. lia. Qed.

Lemma u16_bound z : 0 <= u16 z < 65536.
Proof. apply Z.mod_pos_bound. lia. Qed.

Lemma u32_bound z : 0 <= u32 z < 4294967296.
Proof. apply Z.mod_pos_bound. lia. Qed.

Lemma u64_bound z : 0 <= u64 z < 2 ^ 64.
Proof. apply Z.mod_pos_bound. lia. Qed.

Lemma u8_small z : 0 <= z < 256 -> u8 z = z.
Proof. apply Z.mod_small. Qed.

Lemma u16_small z : 0 <= z < 65536 -> u16 z = z.
Proof. apply Z.mod_small. Qed.

Lemma u32_small z : 0 <= z < 4294967296 -> u32 z = z.
Proof. apply Z.mod_small. Qed.

Lemma u64_small z : 0 <= z < 2 ^ 64 -> u64 z = z.
Proof. apply Z.mod_small. Qed.

Lemma u64_add_l a x : u64 (u64 a + x) = u64 (a + x).
Proof. unfold u64. now rewrite Zplus_mod_idemp_l. Qed.

Lemma u64_mul_add_l a p y : u64 (u64 a * p + y) = u64 (a * p + y).
Proof.
  unfold u64. rewrite <- (Zplus_mod_idemp_l (a mod 2 ^ 64 * p)).
  now rewrite Zmult_mod_idemp_l, Zplus_mod_idemp_l.
Qed.

#[export] Hint Resolve u8_bound u16_bound u32_bound u64_bound : lmss.

(** Masks and shifts as arithmetic. *)
Lemma land_255 z : Z.land z 255 = z mod 256.
Proof. change 255 with (Z.ones 8). now rewrite Z.land_ones by lia. Qed.

Lemma land_mask k z : 0 <= k -> Z.land z (2 ^ k - 1) = z mod 2 ^ k.
Proof. intros. rewrite <- Z.land_ones by lia. now rewrite Z.ones_equiv, <- Z.sub_1_r. Qed.

Lemma lor_disjoint a b k :
  0 <= k -> 0 <= b < 2 ^ k -> Z.lor (a * 2 ^ k) b = a * 2 ^ k + b.
Proof.
  intros Hk Hb. rewrite <- Z.add_lor_land.
  assert (Z.land (a * 2 ^ k) b = 0) as ->; [|lia].
  apply Z.bits_inj'; intros i Hi; rewrite Z.land_spec, Z.bits_0.
  destruct (Z.lt_ge_cases i k).
  - rewrite Z.mul_pow2_bits_low by lia. reflexivity.
  - rewrite <- (Z.mod_small b (2 ^ k)), Z.mod_pow2_bits_high by lia.
    apply andb_false_r.
Qed.

Lemma lor_disjoint_r a b k :
  0 <= k -> 0 <= b < 2 ^ k -> Z.lor b (a * 2 ^ k) = a * 2 ^ k + b.
Proof. intros. rewrite Z.lor_comm. now apply lor_disjoint. Qed.

(* ------------------------------------------------------------------ *)
(** ** Bytes *)

Definition byte_ok (b : Z) : Prop := 0 <= b < 256.

Definition bytes_ok (l : list Z) : Prop := Forall byte_ok l.

#[export] Instance byte_ok_dec b : Decision (byte_ok b).
Proof. unfold byte_ok. apply _. Defined.

#[export] Instance bytes_ok_dec l : Decision (bytes_ok l).
Proof. unfold bytes_ok. apply _. Defined.

Lemma bytes_ok_nil : bytes_ok [].
Proof. constructor. Qed.

Lemma bytes_ok_app l1 l2 : bytes_ok (l1 ++ l2) <-> bytes_ok l1 /\ bytes_ok l2.
Proof. apply Forall_app. Qed.

Lemma bytes_ok_cons b l : bytes_ok (b :: l) <-> byte_ok b /\ bytes_ok l.
Proof. apply Forall_cons. Qed.

Lemma bytes_ok_take n l : bytes_ok l -> bytes_ok (take n l).
Proof. apply Forall_take. Qed.

Lemma bytes_ok_drop n l : bytes_ok l -> bytes_ok (drop n l).
Proof. apply Forall_drop. Qed.

Lemma bytes_ok_replicate n b : byte_ok b -> bytes_ok (replicate n b).
Proof. intros. now apply Forall_replicate. Qed.

#[export] Hint Resolve bytes_ok_nil bytes_ok_take bytes_ok_drop
  bytes_ok_replicate : lmss.

(** Big-endian encoding of the low [8 * n] bits of a value. *)
Fixpoint be_bytes (n : nat) (v : Z) : list Z :=
  match n with
  | O => []
  | S n' => Z.land (Z.shiftr v (8 * Z.of_nat n')) 255 :: be_bytes n' v
  end.

Definition be_val (l : list Z) : Z := foldl (fun a b => a * 256 + b) 0 l.

(** The same value with the bytes in the order a little-endian host stores
    them. *)
Definition le_bytes (n : nat) (v : Z) : list Z := reverse (be_bytes n v).
Definition le_val (l : list Z) : Z := be_val (reverse l).

Lemma length_be_bytes n v : length (be_bytes n v) = n.
Proof. induction n; simpl; auto. Qed.

Lemma length_le_bytes n v : length (le_bytes n v) = n.
Proof. unfold le_bytes. now rewrite length_reverse, length_be_bytes. Qed.

Hint Rewrite length_be_bytes length_le_bytes : lmss_len.

Lemma be_val_acc l a :
  foldl (fun a b => a * 256 + b) a l = a * 256 ^ Z.of_nat (length l) + be_val l.
Proof.
  unfold be_val. revert a; induction l as [|x l IH]; intros a; simpl.
  - lia.
  - rewrite IH, (IH (0 * 256 + x)).
    rewrite Nat2Z.inj_succ, Z.pow_succ_r by lia. ring.
Qed.

Lemma be_val_cons x l : be_val (x :: l) = x * 256 ^ Z.of_nat (length l) + be_val l.
Proof. unfold be_val at 1. simpl. rewrite be_val_acc. f_equal. Qed.

Lemma be_val_app l1 l2 :
  be_val (l1 ++ l2) = be_val l1 * 256 ^ Z.of_nat (length l2) + be_val l2.
Proof. unfold be_val at 1. rewrite foldl_app, be_val_acc. reflexivity. Qed.

Lemma be_val_be_bytes n v : be_val (be_bytes n v) = v mod 2 ^ (8 * Z.of_nat n).
Proof.
  induction n as [|n IH]; [now rewrite Z.mod_1_r|].
  change (be_bytes (S n) v)
    with (Z.land (Z.shiftr v (8 * Z.of_nat n)) 255 :: be_bytes n v).
  rewrite be_val_cons, IH, length_be_bytes, land_255, Z.shiftr_div_pow2 by lia.
  change 256 with (2 ^ 8) at 2. rewrite <- Z.pow_mul_r by lia.
  replace (8 * Z.of_nat (S n)) with (8 * Z.of_nat n + 8) by lia.
  rewrite Z.pow_add_r by lia.
  rewrite (Z.rem_mul_r v (2 ^ (8 * Z.of_nat n)) (2 ^ 8)) by lia.
  change (2 ^ 8) with 256. ring.
Qed.

Lemma be_val_bound l : bytes_ok l -> 0 <= be_val l < 256 ^ Z.of_nat (length l).
Proof.
  induction 1 as [|x l Hx Hl IH]; [cbn; lia|].
  rewrite be_val_cons, length_cons, Nat2Z.inj_succ, Z.pow_succ_r by lia.
  unfold byte_ok in Hx. nia.
Qed.

Lemma be_bytes_ok n v : bytes_ok (be_bytes n v).
Proof.
  induction n; simpl; constructor; auto.
  unfold byte_ok. rewrite land_255. apply Z.mod_pos_bound. lia.
Qed.

Lemma be_bytes_mod n v k :
  Z.of_nat n <= k -> be_bytes n (v mod 2 ^ (8 * k)) = be_bytes n v.
Proof.
  induction n as [|n IH]; intros Hk; simpl; auto. f_equal; [|apply IH; lia].
  change 255 with (Z.ones 8). rewrite !Z.land_ones by lia.
  apply Z.bits_inj'. intros i Hi. destruct (Z.lt_ge_cases i 8).
  - rewrite !Z.mod_pow2_bits_low, !Z.shiftr_spec, Z.mod_pow2_bits_low by lia. reflexivity.
  - now rewrite !Z.mod_pow2_bits_high by lia.
Qed.

Lemma be_bytes_be_val l : bytes_ok l -> be_bytes (length l) (be_val l) = l.
Proof.
  induction 1 as [|x l Hx Hl IH]; [reflexivity|].
  pose proof (be_val_bound l Hl) as Hb. rewrite be_val_cons.
  change (length (x :: l)) with (S (length l)). simpl be_bytes.
  change 256 with (2 ^ 8) in *. rewrite <- Z.pow_mul_r in * by lia.
  f_equal.
  - rewrite Z.shiftr_div_pow2, Z.div_add_l, Z.div_small, land_255 by lia.
    unfold byte_ok in Hx. rewrite Z.add_0_r. apply Z.mod_small. lia.
  - rewrite <- (be_bytes_mod _ _ (Z.of_nat (length l))) by lia.
    rewrite Z.add_comm, Z.mod_add, Z.mod_small by lia. exact IH.
Qed.

Lemma le_val_le_bytes n v : le_val (le_bytes n v) = v mod 2 ^ (8 * Z.of_nat n).
Proof. unfold le_val, le_bytes. now rewrite reverse_involutive, be_val_be_bytes. Qed.

Lemma le_bytes_ok n v : bytes_ok (le_bytes n v).
Proof. unfold le_bytes, bytes_ok. rewrite Forall_reverse. apply be_bytes_ok. Qed.

#[export] Hint Resolve be_bytes_ok le_bytes_ok be_val_bound : lmss.

(* ------------------------------------------------------------------ *)
(** ** Lists *)

(** [memcpy] into an array: [l] with the cells from [i] on overwritten by
    [k]; the caller checks that they are in range. *)
Definition splice (i : nat) (k l : list Z) : list Z :=
  take i l ++ k ++ drop (i + length k) l.

Lemma length_splice i k l :
  (i + length k <= length l)%nat -> length (splice i k l) = length l.
Proof. intros. unfold splice. len. Qed.

Lemma take_splice i k l :
  (i <= length l)%nat -> take i (splice i k l) = take i l.
Proof.
  intros. unfold splice. rewrite take_app_le by len.
  rewrite take_take. f_equal. lia.
Qed.

Lemma take_splice_le i j k l :
  (j <= i <= length l)%nat -> take j (splice i k l) = take j l.
Proof.
  intros. unfold splice. rewrite take_app_le by len.
  rewrite take_take. f_equal. lia.
Qed.

Lemma take_splice_end i k l :
  (i <= length l)%nat -> take (i + length k) (splice i k l) = take i l ++ k.
Proof.
  intros. unfold splice. rewrite app_assoc, take_app_le by len.
  rewrite take_ge by len. reflexivity.
Qed.

Lemma splice_app i k1 k2 l :
  (i + length k1 <= length l)%nat ->
  splice (i + length k1) k2 (splice i k1 l) = splice i (k1 ++ k2) l.
Proof.
  intros. unfold splice at 1. rewrite take_splice_end by lia.
  rewrite <- app_assoc. unfold splice at 1 2. f_equal. rewrite <- app_assoc.
  do 2 f_equal. rewrite drop_app_ge by len. rewrite drop_app_ge by len.
  rewrite drop_drop. f_equal. len.
Qed.

Lemma splice_nil i l : splice i [] l = l.
Proof. unfold splice. simpl. rewrite Nat.add_0_r. apply take_drop. Qed.

(** Overwriting the head of a block just written. *)
Lemma splice_overwrite i k1 k2 r l :
  length k1 = length k2 -> (i + length (k2 ++ r) <= length l)%nat ->
  splice i k1 (splice i (k2 ++ r) l) = splice i (k1 ++ r) l.
Proof.
  intros Hk Hl. unfold splice at 1. rewrite take_splice by len.
  unfold splice. rewrite <- !app_assoc. do 2 f_equal.
  rewrite (app_assoc (take i l) k2), drop_app_ge by len.
  replace (_ - _)%nat with 0%nat by len. rewrite drop_0. do 2 f_equal. len.
Qed.

Lemma bytes_ok_splice i k l : bytes_ok k -> bytes_ok l -> bytes_ok (splice i k l).
Proof. intros. unfold splice. rewrite !bytes_ok_app. auto with lmss. Qed.

Lemma some_bind {A B} (x : A) (k : A -> option B) : (Some x ≫= k) = k x.
Proof. reflexivity. Qed.

(* ------------------------------------------------------------------ *)
(** ** String literals of the source *)

Definition str (s : string) : list Z :=
  map (fun c => Z.of_N (Ascii.N_of_ascii c)) (String.list_ascii_of_string s).

Lemma str_ok s : bytes_ok (str s).
Proof.
  unfold str, bytes_ok. induction (String.list_ascii_of_string s) as [|c l IH]; [constructor|].
  simpl. constructor; [|exact IH]. unfold byte_ok.
  pose proof (Ascii.N_ascii_bounded c). lia.
Qed.

#[export] Hint Resolve str_ok : lmss.

(** The fields [%ui] and [%uD] of [ngx_sprintf]: an unsigned decimal number;
    twenty digits hold every 64-bit value. *)
Fixpoint dec_digits (fuel : nat) (n : Z) (acc : list Z) : list Z :=
  match fuel with
  | O => acc
  | S fuel =>
      let acc := (48 + n mod 10) :: acc in
      if n / 10 =? 0 then acc else dec_digits fuel (n / 10) acc
  end.

Definition dec (n : Z) : list Z := dec_digits 20 n [].

Lemma dec_digits_ok fuel : forall n acc,
  Forall (fun c => 48 <= c <= 57) acc -> Forall (fun c => 48 <= c <= 57) (dec_digits fuel n acc).
Proof.
  induction fuel as [|fuel IH]; intros n acc Ha; cbn [dec_digits]; [done|].
  assert (48 <= 48 + n mod 10 <= 57) by (pose proof (Z.mod_pos_bound n 10); lia).
  case_if; [|apply IH]; constructor; auto.
Qed.

Lemma dec_ok n : Forall (fun c => 48 <= c <= 57) (dec n).
Proof. apply dec_digits_ok. constructor. Qed.

(** Reading a decimal number back. *)
Definition dec_val (l : list Z) : Z := foldl (fun a c => a * 10 + (c - 48)) 0 l.

Lemma dec_val_acc l : forall a,
  foldl (fun a c => a * 10 + (c - 48)) a l = a * 10 ^ Z.of_nat (length l) + dec_val l.
Proof.
  unfold dec_val. induction l as [|c l IH]; intros a; cbn [foldl]; [cbn; lia|].
  rewrite IH, (IH (0 * 10 + _)), length_cons, Nat2Z.inj_succ, Z.pow_succ_r by lia. ring.
Qed.

Lemma dec_digits_val fuel : forall n acc, 0 <= n < 10 ^ Z.of_nat fuel -> (0 < fuel)%nat ->
  dec_val (dec_digits fuel n acc) = n * 10 ^ Z.of_nat (length acc) + dec_val acc.
Proof.
  induction fuel as [|fuel IH]; intros n acc Hn Hf; [lia|]. cbn [dec_digits].
  assert (dec_val ((48 + n mod 10) :: acc) =
          n mod 10 * 10 ^ Z.of_nat (length acc) + dec_val acc) as Hc.
  { unfold dec_val at 1. cbn [foldl]. rewrite dec_val_acc. f_equal. f_equal. lia. }
  pose proof (Z.div_mod n 10) as Hd. rewrite Nat2Z.inj_succ, Z.pow_succ_r in Hn by lia.
  case_if.
  - rewrite Hc. f_equal. f_equal. lia.
  - assert (0 <= n / 10 < 10 ^ Z.of_nat fuel).
    { split; [apply Z.div_pos; lia|]. apply Z.div_lt_upper_bound; lia. }
    assert (0 < fuel)%nat by (destruct fuel; [cbn in *; lia|lia]).
    rewrite IH, Hc, length_cons, Nat2Z.inj_succ, Z.pow_succ_r by lia.
    replace n with (10 * (n / 10) + n mod 10) at 3 by lia. ring.
Qed.

Lemma dec_val_dec n : 0 <= n < 10 ^ 20 -> dec_val (dec n) = n.
Proof. intros. unfold dec. rewrite dec_digits_val by lia. cbn. lia. Qed.

(** Every [dec n] is at least one digit. *)
Lemma dec_nonempty n : dec n <> [].
Proof.
  unfold dec. cbn [dec_digits].
  assert (forall fuel n c acc, dec_digits fuel n (c :: acc) <> []) as H.
  { induction fuel as [|fuel IH]; intros m c acc; cbn [dec_digits]; [done|].
    case_if; [done|apply IH]. }
  case_if; [done|]. apply (H 19%nat).
Qed.
