(* ===== verification/Text.v ===== *)
(** * Strings (src/src/core/ngx_string.c)

    What the parsers of configured and received texts use of it.  A string is the
    list of its bytes; a C string ends at its first zero. *)

From Stdlib Require Import ZArith Lia.
From stdpp Require Import base numbers list.
From S2P Require Import Prelude.

Module Text.

(** [ngx_atoi]: [Some None] is NGX_ERROR, [None] an overflow, which C leaves
    open. *)
Fixpoint atoi_loop (l : list Z) (v : Z) : option (option Z) :=
  match l with
  | [] => Some (Some v)
  | c :: l =>
      if (c <? 48) || (57 <? c) then Some None
      else
        let v := v * 10 + (c - 48) in
        if 2 ^ 63 <=? v then None else atoi_loop l v
  end.
Definition ngx_atoi (l : list Z) : option (option Z) :=
  match l with [] => Some None | _ => atoi_loop l 0 end.

(** The C string at the beginning of an array. *)
Fixpoint cstr (l : list Z) : list Z :=
  match l with [] => [] | c :: l => if c =? 0 then [] else c :: cstr l end.

(** [ngx_strcmp(a, b) == 0], for a literal [b]. *)
Definition streq (a b : list Z) : bool := bool_decide (cstr a = b).

(** [ngx_strlchr]: where the first [c] is. *)
Fixpoint ngx_strlchr (l : list Z) (c : Z) : option nat :=
  match l with
  | [] => None
  | d :: l => if d =? c then Some 0%nat else S <$> ngx_strlchr l c
  end.

(* ------------------------------------------------------------------ *)
(** ** Laws *)

Definition digits_only (l : list Z) : Prop := Forall (fun c => 48 <= c <= 57) l.

Lemma atoi_loop_spec l : digits_only l -> forall v, 0 <= v -> v * 10 ^ Z.of_nat (length l) + dec_val l < 2 ^ 63 ->
  atoi_loop l v = Some (Some (v * 10 ^ Z.of_nat (length l) + dec_val l)).
Proof.
  induction 1 as [|c l Hc Hl IH]; intros v Hv Hb; cbn [atoi_loop].
  { change (dec_val []) with 0. now rewrite Z.mul_1_r, Z.add_0_r. }
  assert (dec_val (c :: l) = (c - 48) * 10 ^ Z.of_nat (length l) + dec_val l) as Ed.
  { unfold dec_val at 1. cbn [foldl]. rewrite dec_val_acc. f_equal. }
  assert (0 <= dec_val l) as Hd.
  { clear -Hl. induction Hl as [|c l Hc _ IH]; [reflexivity|]. unfold dec_val. cbn [foldl]. rewrite dec_val_acc. nia. }
  rewrite length_cons, Nat2Z.inj_succ, Z.pow_succ_r, Ed in * by lia.
  assert (0 < 10 ^ Z.of_nat (length l)) by lia.
  replace ((c <? 48) || (57 <? c)) with false by (symmetry; apply orb_false_iff; lia).
  rewrite (proj2 (Z.leb_gt _ _)) by nia. rewrite IH by nia. do 2 f_equal. ring.
Qed.

Lemma atoi_dec n : 0 <= n < 2 ^ 63 -> ngx_atoi (dec n) = Some (Some n).
Proof.
  intros Hn. unfold ngx_atoi. pose proof (dec_val_dec n) as Hd. pose proof (dec_nonempty n).
  destruct (dec n) eqn:E; [done|]. rewrite <- E in *.
  rewrite atoi_loop_spec by (rewrite ?Hd by lia; (apply dec_ok || lia)). now rewrite Hd by lia.
Qed.

Lemma strlchr_none l c : Forall (fun d => d <> c) l -> ngx_strlchr l c = None.
Proof. induction 1 as [|d l Hd _ IH]; cbn; [done|]. now rewrite (proj2 (Z.eqb_neq _ _)), IH by done. Qed.

Lemma strlchr_app l c r : Forall (fun d => d <> c) l -> ngx_strlchr (l ++ c :: r) c = Some (length l).
Proof.
  induction 1 as [|d l Hd _ IH]; cbn; [now rewrite Z.eqb_refl|].
  now rewrite (proj2 (Z.eqb_neq _ _)), IH by done.
Qed.

Lemma cstr_id l : Forall (fun c => c <> 0) l -> cstr l = l.
Proof. induction 1 as [|c l Hc _ IH]; cbn; [done|]. now rewrite (proj2 (Z.eqb_neq _ _)), IH by done. Qed.

Lemma cstr_app l r : Forall (fun c => c <> 0) l -> cstr (l ++ 0 :: r) = l.
Proof. induction 1 as [|c l Hc _ IH]; cbn; [done|]. now rewrite (proj2 (Z.eqb_neq _ _)), IH by done. Qed.

Lemma cstr_nonzero l : Forall (fun c => c <> 0) (cstr l).
Proof. induction l as [|c l IH]; cbn; [done|]. destruct (Z.eqb_spec c 0); auto. Qed.

End Text.
