(* ===== verification/Inet.v ===== *)
(** * Addresses and networks (src/src/core/ngx_inet.c)

    The addresses and networks of the access rules: reading them from a
    configuration, and masks.  An [in_addr_t] is the number a little-endian host
    finds in four bytes of the network.  The addresses of the specification are
    byte lists; a network is the first bits of their number. *)

From Stdlib Require Import ZArith Lia.
From stdpp Require Import base numbers list strings.
From S2P Require Import Prelude Text.

Module Inet.

Import Text.

Definition INADDR_NONE : Z := 0xffffffff.

Definition htonl (v : Z) : Z := le_val (be_bytes 4 v).

(** [in6_addr] is a list of 16 bytes. *)
Inductive ngx_cidr_t :=
| Unspec
| AF_INET (addr mask : Z)
| AF_INET6 (addr mask : list Z).

(** [octet] is an [ngx_uint_t]. *)
Fixpoint inet_loop (l : list Z) (addr octet : Z) (n : nat) : option (Z * Z * nat) :=
  match l with
  | [] => Some (addr, octet, n)
  | c :: l =>
      if (48 <=? c) && (c <=? 57) then inet_loop l addr (u64 (octet * 10 + (c - 48))) n
      else if (c =? 46) && (octet <? 256) then inet_loop l (u32 (Z.shiftl addr 8 + octet)) 0 (S n)
      else None
  end.
Definition ngx_inet_addr (text : list Z) : Z :=
  match inet_loop text 0 0 0 with
  | Some (addr, octet, n) =>
      if (n =? 3)%nat && (octet <? 256) then htonl (u32 (Z.shiftl addr 8 + octet)) else INADDR_NONE
  | None => INADDR_NONE
  end.

(** What [ngx_inet6_addr] knows in its loop: the bytes written, the place of the
    double colon, what was behind the last colon, and the group. *)
Record inet6 := Inet6 {
  out : list Z;
  zero : option nat;
  digit : option (list Z);
  nibbles : nat;
  word : Z;
  n : nat
}.

Definition bytes2 (w : Z) : list Z := [u8 (Z.shiftr w 8); u8 (Z.land w 0xff)].

(** [inr] goes on with the loop, [inl (Some _)] breaks out of it. *)
Definition inet6_step (c : Z) (rest : list Z) (x : inet6) : option inet6 + inet6 :=
  if c =? 58 then
    if (0 <? nibbles x)%nat then
      let o := out x ++ bytes2 (word x) in
      if (0 <? n x - 1)%nat then inr (Inet6 o (zero x) (Some rest) 0 0 (n x - 1)) else inl None
    else
      match zero x with
      | None => inr (Inet6 (out x) (Some (length (out x))) (Some rest) (nibbles x) (word x) (n x))
      | Some _ => inl None
      end
  else if (c =? 46) && (0 <? nibbles x)%nat then
    match digit x with
    | Some d =>
        if (n x <? 2)%nat then inl None
        else
          let w := ngx_inet_addr d in
          if w =? INADDR_NONE then inl None
          else
            let w := htonl w in
            inl (Some (Inet6 (out x ++ [u8 (Z.land (Z.shiftr w 24) 0xff); u8 (Z.land (Z.shiftr w 16) 0xff)])
                         (zero x) (digit x) (nibbles x) w (n x - 1)))
    | None => inl None
    end
  else
    let k := S (nibbles x) in
    if (4 <? k)%nat then inl None
    else if (48 <=? c) && (c <=? 57) then
      inr (Inet6 (out x) (zero x) (digit x) k (word x * 16 + (c - 48)) (n x))
    else
      let c := Z.lor c 0x20 in
      if (97 <=? c) && (c <=? 102) then
        inr (Inet6 (out x) (zero x) (digit x) k (word x * 16 + (c - 97) + 10) (n x))
      else inl None.

Fixpoint inet6_loop (l : list Z) (x : inet6) : option inet6 :=
  match l with
  | [] => Some x
  | c :: l => match inet6_step c l x with inl r => r | inr x => inet6_loop l x end
  end.

(** The bytes of the address, [None] for NGX_ERROR.  Behind a double colon they
    move to the end. *)
Definition ngx_inet6_addr (p : list Z) : option (list Z) :=
  match p with
  | [] => None
  | c :: p' =>
      x ← inet6_loop (if c =? 58 then p' else p) (Inet6 [] None None 0 0 8);
      if (nibbles x =? 0)%nat && bool_decide (zero x = None) then None
      else
        let o := out x ++ bytes2 (word x) in
        let n := (n x - 1)%nat in
        match zero x with
        | Some z => if (0 <? n)%nat then Some (take z o ++ replicate (2 * n) 0 ++ drop z o) else None
        | None => if (0 <? n)%nat then None else Some o
        end
  end.

(** The bytes of a mask of [shift] bits. *)
Fixpoint mask6 (k : nat) (shift : Z) : list Z :=
  match k with
  | O => []
  | S k =>
      let s := if 8 <? shift then 8 else shift in
      u8 (Z.shiftl 0xff (8 - s)) :: mask6 k (shift - s)
  end.

(** [None]: the number of bits overflows. *)
Definition ngx_ptocidr (text : list Z) : option (option (ngx_rc * ngx_cidr_t)) :=
  let slash := ngx_strlchr text 47 in
  let addr := take (default (length text) slash) text in
  let shift := match slash with Some k => ngx_atoi (drop (S k) text) | None => Some None end in
  let a := ngx_inet_addr addr in
  if negb (a =? INADDR_NONE) then
    match slash with
    | None => Some (Some (NGX_OK, AF_INET a 0xffffffff))
    | Some _ =>
        shift ← shift;
        match shift with
        | None => Some None
        | Some shift =>
            if 32 <? shift then Some None
            else
              let mask := if shift =? 0 then 0 else htonl (u32 (Z.shiftl 0xffffffff (32 - shift))) in
              if a =? Z.land a mask then Some (Some (NGX_OK, AF_INET a mask))
              else Some (Some (NGX_DONE, AF_INET (Z.land a mask) mask))
        end
    end
  else
    match ngx_inet6_addr addr with
    | Some a =>
        match slash with
        | None => Some (Some (NGX_OK, AF_INET6 a (replicate 16 0xff)))
        | Some _ =>
            shift ← shift;
            match shift with
            | None => Some None
            | Some shift =>
                if 128 <? shift then Some None
                else
                  let mask := mask6 16 shift in
                  let a' := zip_with Z.land a mask in
                  Some (Some (if bool_decide (a = a') then NGX_OK else NGX_DONE, AF_INET6 a' mask))
            end
        end
    | None => Some None
    end.

(* ------------------------------------------------------------------ *)
(** ** Examples *)

Example addresses :
  map ngx_inet_addr [str "127.0.0.1"; str "..."; str "1.2.3"; str "1.2.3.256"; str "255.255.255.255"] =
    [le_val [127; 0; 0; 1]; 0; INADDR_NONE; INADDR_NONE; INADDR_NONE] /\
  map ngx_inet6_addr [str "::1"; str "::ffff:1.2.3.4"; str "2001:db8::"; str "1:2:3:4:5:6:7:8"; str "1::2::3"; str "1:2"] =
    [Some (replicate 15 0 ++ [1]); Some (replicate 10 0 ++ [255; 255; 1; 2; 3; 4]);
     Some ([32; 1; 13; 184] ++ replicate 12 0); Some [0; 1; 0; 2; 0; 3; 0; 4; 0; 5; 0; 6; 0; 7; 0; 8]; None; None].
Proof. vm_compute. done. Qed.

Example networks :
  map ngx_ptocidr [str "10.1.2.3/8"; str "::1"; str "10.0.0.0/33"; str "10.0.0.0/"; str "all"] =
    [Some (Some (NGX_DONE, AF_INET 10 255)); Some (Some (NGX_OK, AF_INET6 (replicate 15 0 ++ [1]) (replicate 16 255)));
     Some None; Some None; Some None].
Proof. vm_compute. done. Qed.

(* ------------------------------------------------------------------ *)
(** ** Masks *)

(** [q] agrees with [p] in the first [k] of [size] bits. *)
Definition in_net (size k : Z) (p q : list Z) : Prop := be_val q / 2 ^ (size - k) = be_val p / 2 ^ (size - k).

#[export] Instance in_net_dec size k p q : Decision (in_net size k p q).
Proof. unfold in_net. apply _. Defined.

Lemma land_block x y a b k : 0 <= k -> 0 <= a < 2 ^ k -> 0 <= b < 2 ^ k ->
  Z.land (x * 2 ^ k + a) (y * 2 ^ k + b) = Z.land x y * 2 ^ k + Z.land a b.
Proof.
  intros Hk Ha Hb.
  assert (0 <= Z.land a b < 2 ^ k) as Hab.
  { split; [apply Z.land_nonneg; lia|]. rewrite <- (Z.mod_small a (2 ^ k)), <- Z.land_ones by lia.
    rewrite <- Z.land_assoc, (Z.land_comm (Z.ones k)), Z.land_assoc, Z.land_ones by lia. apply Z.mod_pos_bound. lia. }
  rewrite <- !lor_disjoint by lia. apply Z.bits_inj'. intros i Hi.
  rewrite Z.land_spec, !Z.lor_spec, Z.land_spec. destruct (Z.lt_ge_cases i k).
  - now rewrite !Z.mul_pow2_bits_low by lia.
  - rewrite !Z.mul_pow2_bits by lia. rewrite Z.land_spec.
    rewrite <- (Z.mod_small a (2 ^ k)), <- (Z.mod_small b (2 ^ k)), !Z.mod_pow2_bits_high by lia.
    now rewrite !orb_false_r.
Qed.

Lemma pow_256 k : 256 ^ Z.of_nat k = 2 ^ (8 * Z.of_nat k).
Proof. change 256 with (2 ^ 8). now rewrite <- Z.pow_mul_r by lia. Qed.

Lemma land_be l : forall l', length l = length l' -> bytes_ok l -> bytes_ok l' ->
  Z.land (be_val l) (be_val l') = be_val (zip_with Z.land l l').
Proof.
  induction l as [|a l IH]; intros [|b l'] Hl Ha Hb; try discriminate; [reflexivity|]. injection Hl as Hl.
  apply bytes_ok_cons in Ha as [Ha Hal], Hb as [Hb Hbl]. cbn [zip_with]. rewrite !be_val_cons.
  pose proof (be_val_bound l Hal). pose proof (be_val_bound l' Hbl).
  rewrite length_zip_with, <- Hl, Nat.min_id in *. rewrite pow_256 in *.
  rewrite land_block by lia. now rewrite IH.
Qed.

Lemma land_ok a b : byte_ok a -> byte_ok b -> byte_ok (Z.land a b).
Proof.
  unfold byte_ok. intros Ha Hb. split; [apply Z.land_nonneg; lia|].
  rewrite <- (Z.mod_small b 256), <- land_255, Z.land_assoc, land_255 by lia. apply Z.mod_pos_bound. lia.
Qed.

Lemma zip_ok l : forall l', bytes_ok l -> bytes_ok l' -> bytes_ok (zip_with Z.land l l').
Proof.
  induction l as [|a l IH]; intros [|b l'] Ha Hb; cbn; auto with lmss.
  apply bytes_ok_cons in Ha as [? ?], Hb as [? ?]. apply bytes_ok_cons. split; [now apply land_ok|auto].
Qed.

(** A mask of the first [k] of [k + m] bits. *)
Lemma land_top x k m : 0 <= k -> 0 <= m -> 0 <= x < 2 ^ (k + m) -> Z.land x ((2 ^ k - 1) * 2 ^ m) = x / 2 ^ m * 2 ^ m.
Proof.
  intros Hk Hm Hx. apply Z.bits_inj'. intros i Hi. rewrite Z.land_spec. destruct (Z.lt_ge_cases i m).
  - rewrite !Z.mul_pow2_bits_low by lia. apply andb_false_r.
  - rewrite !Z.mul_pow2_bits, Z.div_pow2_bits by lia. replace (i - m + m) with i by lia.
    rewrite Z.sub_1_r, <- Z.ones_equiv. destruct (Z.lt_ge_cases (i - m) k).
    + rewrite Z.ones_spec_low by lia. apply andb_true_r.
    + rewrite <- (Z.mod_small x (2 ^ (k + m))), Z.mod_pow2_bits_high by lia. reflexivity.
Qed.

Lemma masked_eq x y k m : 0 <= k -> 0 <= m -> 0 <= x < 2 ^ (k + m) -> 0 <= y < 2 ^ (k + m) ->
  Z.land x ((2 ^ k - 1) * 2 ^ m) = Z.land y ((2 ^ k - 1) * 2 ^ m) <-> x / 2 ^ m = y / 2 ^ m.
Proof. intros. rewrite !land_top by lia. assert (0 < 2 ^ m) by lia. split; [intros; nia|now intros ->]. Qed.

Lemma be_val_inj l l' : length l = length l' -> bytes_ok l -> bytes_ok l' -> be_val l = be_val l' -> l = l'.
Proof. intros Hl H H' E. rewrite <- (be_bytes_be_val l), <- (be_bytes_be_val l') by done. now rewrite Hl, E. Qed.

Lemma mask6_length k : forall shift, length (mask6 k shift) = k.
Proof. induction k; intros; cbn [mask6 length]; auto. Qed.

Lemma mask6_ok k : forall shift, bytes_ok (mask6 k shift).
Proof. induction k; intros; cbn [mask6]; [constructor|]. apply bytes_ok_cons. split; [apply u8_bound|auto]. Qed.

Lemma mask6_val k : forall shift, 0 <= shift <= 8 * Z.of_nat k ->
  be_val (mask6 k shift) = (2 ^ shift - 1) * 2 ^ (8 * Z.of_nat k - shift).
Proof.
  induction k as [|k IH]; intros shift Hs; [replace shift with 0 by lia; reflexivity|].
  cbn [mask6]. rewrite be_val_cons, mask6_length, pow_256. rewrite Nat2Z.inj_succ in *.
  destruct (Z.ltb_spec 8 shift).
  - rewrite IH by lia. replace (u8 (Z.shiftl 255 (8 - 8))) with 255 by reflexivity.
    replace (8 * Z.succ (Z.of_nat k) - shift) with (8 * Z.of_nat k - (shift - 8)) by lia.
    set (m := 8 * Z.of_nat k - (shift - 8)). replace (8 * Z.of_nat k) with ((shift - 8) + m) by lia.
    replace shift with (8 + (shift - 8)) at 3 by lia. rewrite !Z.pow_add_r by lia. lia.
  - replace (shift - shift) with 0 by lia. rewrite IH by lia. rewrite Z.sub_diag, Z.mul_0_l, Z.add_0_r.
    replace (8 * Z.succ (Z.of_nat k) - shift) with ((8 - shift) + 8 * Z.of_nat k) by lia. rewrite Z.pow_add_r, Z.mul_assoc by lia.
    f_equal. assert (shift ∈ [0; 1; 2; 3; 4; 5; 6; 7; 8]) as Hin by (rewrite !elem_of_cons; lia).
    clear -Hin. revert shift Hin. apply Forall_forall. repeat constructor.
Qed.

(** Masked addresses are equal when the addresses agree in the bits of the mask. *)
Lemma zip_net p q mb k : length q = length p -> length mb = length p -> bytes_ok p -> bytes_ok q -> bytes_ok mb ->
  0 <= k <= 8 * Z.of_nat (length p) -> be_val mb = (2 ^ k - 1) * 2 ^ (8 * Z.of_nat (length p) - k) ->
  zip_with Z.land q mb = zip_with Z.land p mb <-> in_net (8 * Z.of_nat (length p)) k p q.
Proof.
  intros Hq Hmb Hp Hqb Hm Hk Em. unfold in_net.
  pose proof (be_val_bound p Hp) as Hbp. pose proof (be_val_bound q Hqb) as Hbq. rewrite Hq, pow_256 in *.
  replace (8 * Z.of_nat (length p)) with (k + (8 * Z.of_nat (length p) - k)) in Hbp, Hbq by lia.
  rewrite <- (masked_eq (be_val q) (be_val p) k), <- Em, !land_be by (lia || done).
  split; [now intros ->|]. intros E. apply be_val_inj; [|now apply zip_ok..|done]. rewrite !length_zip_with. lia.
Qed.

(* ------------------------------------------------------------------ *)
(** ** Four bytes *)

Lemma htonl_be p : length p = 4%nat -> bytes_ok p -> htonl (be_val p) = le_val p.
Proof. intros Hl Hp. unfold htonl. rewrite <- Hl, be_bytes_be_val by done. reflexivity. Qed.

Lemma le_val_inj l l' : length l = length l' -> bytes_ok l -> bytes_ok l' -> le_val l = le_val l' -> l = l'.
Proof.
  intros Hl H H' E. apply (inj reverse), be_val_inj; [|unfold bytes_ok; now rewrite Forall_reverse..|done].
  now rewrite !length_reverse.
Qed.

Lemma land_le p q : length p = 4%nat -> length q = 4%nat -> bytes_ok p -> bytes_ok q ->
  Z.land (le_val p) (le_val q) = le_val (zip_with Z.land p q).
Proof.
  destruct p as [|a [|b [|c [|d [|]]]]], q as [|a' [|b' [|c' [|d' [|]]]]]; try discriminate. intros _ _ Hp Hq.
  change (Z.land (be_val [d; c; b; a]) (be_val [d'; c'; b'; a']) = be_val (zip_with Z.land [d; c; b; a] [d'; c'; b'; a'])).
  apply land_be; [done| |]; unfold bytes_ok in *; rewrite !Forall_cons in *; tauto.
Qed.

Definition mask4 (k : Z) : Z := if k =? 0 then 0 else htonl (u32 (Z.shiftl 0xffffffff (32 - k))).

Lemma mask4_spec k : 0 <= k <= 32 -> exists mb, mask4 k = le_val mb /\ length mb = 4%nat /\ bytes_ok mb /\
  be_val mb = (2 ^ k - 1) * 2 ^ (32 - k).
Proof.
  intros Hk. exists (be_bytes 4 ((2 ^ k - 1) * 2 ^ (32 - k))). split; [|split; [apply length_be_bytes|split; [apply be_bytes_ok|]]].
  - assert (k ∈ map Z.of_nat (seq 0 33)) as Hin.
    { apply list_elem_of_fmap. exists (Z.to_nat k). split; [lia|]. apply elem_of_seq. lia. }
    clear Hk. revert k Hin. apply Forall_forall. cbn [map seq]. repeat constructor.
  - rewrite be_val_be_bytes. apply Z.mod_small. change (2 ^ (8 * Z.of_nat 4)) with (2 ^ 32).
    replace (2 ^ 32) with (2 ^ k * 2 ^ (32 - k)) by (rewrite <- Z.pow_add_r by lia; f_equal; lia).
    assert (0 < 2 ^ k /\ 0 < 2 ^ (32 - k)) by lia. nia.
Qed.

Lemma net4 p q k : length p = 4%nat -> length q = 4%nat -> bytes_ok p -> bytes_ok q -> 0 <= k <= 32 ->
  Z.land (le_val q) (mask4 k) = Z.land (le_val p) (mask4 k) <-> in_net 32 k p q.
Proof.
  intros Hlp Hlq Hp Hq Hk. destruct (mask4_spec k Hk) as (mb & -> & Hl & Hm & Em). rewrite !land_le by done.
  change 32 with (8 * Z.of_nat 4). rewrite <- Hlp, <- (zip_net p q mb) by (rewrite ?Hlp; (lia || done)).
  split; [|now intros ->]. apply le_val_inj; [|now apply zip_ok..]. rewrite !length_zip_with. lia.
Qed.

Lemma net6 p q k : length p = 16%nat -> length q = 16%nat -> bytes_ok p -> bytes_ok q -> 0 <= k <= 128 ->
  zip_with Z.land q (mask6 16 k) = zip_with Z.land p (mask6 16 k) <-> in_net 128 k p q.
Proof.
  intros Hlp Hlq Hp Hq Hk. pose proof (mask6_val 16 k). change 128 with (8 * Z.of_nat 16) in *. rewrite <- Hlp in *.
  apply zip_net; rewrite ?mask6_length; auto using mask6_ok with lia.
Qed.

(* ------------------------------------------------------------------ *)
(** ** Texts of addresses *)

(** Four decimal numbers, or eight groups of hexadecimal digits. *)
Definition quad (p : list Z) : list Z :=
  match p with
  | [a; b; c; d] => dec a ++ 46 :: dec b ++ 46 :: dec c ++ 46 :: dec d
  | _ => []
  end.
Definition hex (v : Z) : Z := if v <? 10 then 48 + v else 87 + v.
Definition group (a b : Z) : list Z := [hex (a / 16); hex (a mod 16); hex (b / 16); hex (b mod 16)].
Fixpoint groups (p : list Z) : list Z :=
  match p with
  | a :: b :: p => group a b ++ match p with [] => [] | _ => 58 :: groups p end
  | _ => []
  end.

Lemma inet_digits l r addr n : digits_only l -> forall o, 0 <= o -> o * 10 ^ Z.of_nat (length l) + dec_val l < 2 ^ 64 ->
  inet_loop (l ++ r) addr o n = inet_loop r addr (o * 10 ^ Z.of_nat (length l) + dec_val l) n.
Proof.
  induction 1 as [|c l Hc Hl IH]; intros o Ho Hb; cbn [Datatypes.app inet_loop].
  { change (dec_val []) with 0. f_equal. change (10 ^ Z.of_nat (@length Z [])) with 1. lia. }
  assert (dec_val (c :: l) = (c - 48) * 10 ^ Z.of_nat (length l) + dec_val l) as Ed.
  { unfold dec_val at 1. cbn [foldl]. rewrite dec_val_acc. f_equal. }
  assert (0 <= dec_val l) as Hd.
  { clear -Hl. induction Hl as [|c l Hc _ IH]; [reflexivity|]. unfold dec_val. cbn [foldl]. rewrite dec_val_acc. nia. }
  rewrite length_cons, Nat2Z.inj_succ, Z.pow_succ_r, Ed in * by lia.
  assert (0 < 10 ^ Z.of_nat (length l)) by lia.
  rewrite (proj2 (Z.leb_le 48 c)), (proj2 (Z.leb_le c 57)) by lia. cbn [andb]. rewrite u64_small by nia.
  rewrite IH by nia. f_equal. ring.
Qed.

Lemma inet_dec a r addr n : byte_ok a -> inet_loop (dec a ++ r) addr 0 n = inet_loop r addr a n.
Proof.
  unfold byte_ok. intros Ha. rewrite inet_digits; rewrite ?dec_val_dec by lia; [f_equal|apply dec_ok|..]; lia.
Qed.

Lemma inet_dot r addr a n : byte_ok a -> inet_loop (46 :: r) addr a n = inet_loop r (u32 (Z.shiftl addr 8 + a)) 0 (S n).
Proof. unfold byte_ok. intros Ha. cbn [inet_loop Z.leb Z.compare Pos.compare Pos.compare_cont andb Z.eqb Pos.eqb]. now rewrite (proj2 (Z.ltb_lt _ _)) by lia. Qed.

Lemma inet_quad p : length p = 4%nat -> bytes_ok p -> ngx_inet_addr (quad p) = le_val p.
Proof.
  intros Hl Hp. rewrite <- htonl_be by done. unfold ngx_inet_addr.
  destruct p as [|a [|b [|c [|d [|]]]]]; try discriminate. unfold bytes_ok in Hp. rewrite !Forall_cons in Hp.
  destruct Hp as (Ha & Hb & Hc & Hd & _). unfold quad.
  rewrite inet_dec, inet_dot, inet_dec, inet_dot, inet_dec, inet_dot by done.
  rewrite <- (app_nil_r (dec d)), inet_dec by done. cbn [inet_loop Nat.eqb andb]. unfold byte_ok in *.
  rewrite (proj2 (Z.ltb_lt _ _)) by lia. f_equal. unfold be_val. cbn [foldl].
  rewrite !Z.shiftl_mul_pow2 by lia. change (2 ^ 8) with 256. rewrite (u32_small (0 * 256 + a)) by lia.
  rewrite (u32_small (_ + b)) by lia. rewrite (u32_small (_ + c)) by lia. now rewrite u32_small by lia.
Qed.

(** Nothing but digits and dots. *)
Lemma inet_loop_none l : Exists (fun c => c <> 46 /\ ~ 48 <= c <= 57) l -> forall addr o n, inet_loop l addr o n = None.
Proof.
  induction 1 as [c l [H1 H2]|c l _ IH]; intros addr o n; cbn [inet_loop].
  - rewrite (proj2 (Z.eqb_neq _ _) H1). replace ((48 <=? c) && (c <=? 57)) with false; [done|].
    symmetry. apply andb_false_iff. lia.
  - repeat case_if; auto.
Qed.

(** A digit is read. *)
Lemma inet6_hex v r o z d k w m : 0 <= v < 16 -> (k < 4)%nat ->
  inet6_loop (hex v :: r) (Inet6 o z d k w m) = inet6_loop r (Inet6 o z d (S k) (w * 16 + v) m).
Proof.
  intros Hv Hk. cbn [inet6_loop]. unfold inet6_step. cbn [nibbles out zero digit word n].
  rewrite (proj2 (Nat.ltb_ge 4 (S k))) by lia.
  assert (0 <= v < 10 /\ hex v = 48 + v \/ 10 <= v < 16 /\ hex v = 87 + v /\ Z.lor (hex v) 0x20 = hex v) as Hx.
  { unfold hex. destruct (Z.ltb_spec v 10); [lia|right]. split; [lia|split; [done|]].
    assert (v ∈ [10; 11; 12; 13; 14; 15]) as Hin by (rewrite !elem_of_cons; lia). clear -Hin.
    revert v Hin. apply Forall_forall. repeat constructor. }
  rewrite !(proj2 (Z.eqb_neq (hex v) _)) by lia. cbn [andb].
  destruct Hx as [[H1 H2]|(H1 & H2 & H3)].
  - rewrite (proj2 (Z.leb_le 48 (hex v))), (proj2 (Z.leb_le (hex v) 57)) by lia. cbn [andb]. do 2 f_equal. lia.
  - rewrite (proj2 (Z.leb_gt (hex v) 57)), andb_false_r, H3 by lia.
    rewrite (proj2 (Z.leb_le 97 (hex v))), (proj2 (Z.leb_le (hex v) 102)) by lia. cbn [andb]. do 2 f_equal. lia.
Qed.

Lemma inet6_group a b r o z d m : byte_ok a -> byte_ok b ->
  inet6_loop (group a b ++ r) (Inet6 o z d 0 0 m) = inet6_loop r (Inet6 o z d 4 (a * 256 + b) m).
Proof.
  unfold byte_ok, group. intros Ha Hb. cbn [Datatypes.app].
  rewrite !inet6_hex by (try lia; (apply Z.mod_pos_bound; lia) || (split; [apply Z.div_pos|apply Z.div_lt_upper_bound]; lia)).
  do 2 f_equal. pose proof (Z.div_mod a 16). pose proof (Z.div_mod b 16). lia.
Qed.

Lemma bytes2_spec a b : byte_ok a -> byte_ok b -> bytes2 (a * 256 + b) = [a; b].
Proof.
  unfold byte_ok, bytes2. intros Ha Hb. rewrite Z.shiftr_div_pow2, land_255 by lia. change (2 ^ 8) with 256.
  rewrite Z.div_add_l, Z.div_small, (Z.add_comm (a * 256)), Z.mod_add, Z.mod_small, Z.add_0_r, !u8_small by lia. done.
Qed.

Lemma inet6_groups k : forall p o d, length p = (2 * S k)%nat -> bytes_ok p -> exists x,
  inet6_loop (groups p) (Inet6 o None d 0 0 (S k)) = Some x /\
  out x ++ bytes2 (word x) = o ++ p /\ zero x = None /\ nibbles x = 4%nat /\ n x = 1%nat.
Proof.
  induction k as [|k IH]; intros p o d Hl Hp; destruct p as [|a [|b p]]; try discriminate; simpl in Hl;
    apply bytes_ok_cons in Hp as [Ha Hp]; apply bytes_ok_cons in Hp as [Hb Hp]; cbn [groups]; rewrite inet6_group by done.
  - destruct p; [|simpl in Hl; lia]. eexists. split; [reflexivity|]. cbn [out word zero nibbles n]. now rewrite bytes2_spec.
  - destruct p as [|c p]; [simpl in Hl; lia|].
    destruct (IH (c :: p) (o ++ [a; b]) (Some (groups (c :: p))) ltac:(simpl in *; lia) Hp) as (x & E & H1 & H2).
    exists x. split; [|now rewrite H1, <- app_assoc]. rewrite <- E. cbn [inet6_loop]. unfold inet6_step.
    cbn [Z.eqb Pos.eqb nibbles Nat.ltb Nat.leb n Nat.sub word out zero]. now rewrite bytes2_spec.
Qed.

Lemma hex_not v c : 0 <= v < 16 -> c = 58 \/ c = 47 -> hex v <> c.
Proof. intros Hv Hc. unfold hex. destruct (Z.ltb_spec v 10); lia. Qed.

Lemma inet6_full p : length p = 16%nat -> bytes_ok p -> ngx_inet6_addr (groups p) = Some p.
Proof.
  intros Hl Hp. destruct (inet6_groups 7 p [] None Hl Hp) as (x & E & H1 & H2 & H3 & H4).
  destruct p as [|a [|b p]]; try discriminate. unfold ngx_inet6_addr.
  cbn [groups group Datatypes.app] in *. apply bytes_ok_cons in Hp as [Ha _]. unfold byte_ok in Ha.
  rewrite (proj2 (Z.eqb_neq _ _)) by (apply hex_not; [split; [apply Z.div_pos|apply Z.div_lt_upper_bound]; lia|lia]).
  rewrite E. cbn [mbind option_bind]. rewrite H2, H3, H4. cbn. now rewrite H1.
Qed.

Lemma groups_not_quad p : length p = 16%nat -> ngx_inet_addr (groups p) = INADDR_NONE.
Proof.
  intros Hl. unfold ngx_inet_addr. rewrite inet_loop_none; [done|]. destruct p as [|a [|b [|c p]]]; try discriminate.
  cbn [groups]. apply Exists_app. right. constructor. lia.
Qed.

End Inet.
