(* ===== verification/Access.v ===== *)
(** * Access rules (src/src/rtmp/ngx_rtmp_access_module.c)

    The module whole: the rules of a configuration, their order across its levels,
    and the check in front of publishing and playing.  [None] is an overflow C
    leaves open, in the number of bits of a network. *)

From Stdlib Require Import ZArith Lia.
From stdpp Require Import base numbers list strings.
From S2P Require Import Prelude Text Inet.

Module Access.

Import Text Inet.

Definition NGX_RTMP_ACCESS_PUBLISH : Z := 0x01.
Definition NGX_RTMP_ACCESS_PLAY : Z := 0x02.

(** [ngx_rtmp_access_rule_t] and [ngx_rtmp_access_rule6_t]. *)
Record rule (A : Type) := Rule { mask : A; addr : A; deny : bool; flags : Z }.
Arguments Rule {A}.
Arguments mask {A}.
Arguments addr {A}.
Arguments deny {A}.
Arguments flags {A}.

Record ngx_rtmp_access_app_conf_t := Conf {
  rules : list (rule Z);
  rules6 : list (rule (list Z))
}.

Definition ngx_rtmp_access_create_app_conf : ngx_rtmp_access_app_conf_t := Conf [] [].

Definition ngx_rtmp_access_merge_rules {A} (prev rules : list (rule A)) : list (rule A) :=
  match prev, rules with
  | [], _ => rules
  | _, [] => prev
  | _, _ => rules ++ prev
  end.
Definition ngx_rtmp_access_merge_app_conf (prev conf : ngx_rtmp_access_app_conf_t) : ngx_rtmp_access_app_conf_t :=
  Conf (ngx_rtmp_access_merge_rules (rules prev) (rules conf)) (ngx_rtmp_access_merge_rules (rules6 prev) (rules6 conf)).

(* ------------------------------------------------------------------ *)
(** ** Directives *)

(** The words between the first and the last one; the contents compared are
    always those of the first of them. *)
Fixpoint access_flags (value1 : list Z) (words : list (list Z)) (flags : Z) : option Z :=
  match words with
  | [] => Some flags
  | v :: words =>
      if (length v =? 7)%nat && streq value1 (str "publish") then
        access_flags value1 words (Z.lor flags NGX_RTMP_ACCESS_PUBLISH)
      else if (length v =? 4)%nat && streq value1 (str "play") then
        access_flags value1 words (Z.lor flags NGX_RTMP_ACCESS_PLAY)
      else None
  end.

(** The rules of a network; [all] is a network of both families. *)
Definition push_rules (all : bool) (cidr : ngx_cidr_t) (deny : bool) (flags : Z)
    (conf : ngx_rtmp_access_app_conf_t) : ngx_rtmp_access_app_conf_t :=
  match cidr with
  | AF_INET6 addr mask => Conf (rules conf) (rules6 conf ++ [Rule mask addr deny flags])
  | AF_INET addr mask => Conf (rules conf ++ [Rule mask addr deny flags]) (rules6 conf)
  | Unspec =>
      let conf := Conf (rules conf) (rules6 conf ++ [Rule (replicate 16 0) (replicate 16 0) deny flags]) in
      if all then Conf (rules conf ++ [Rule 0 0 deny flags]) (rules6 conf) else conf
  end.

(** A directive, its words in [value]; the inner [None] is NGX_CONF_ERROR. *)
Definition ngx_rtmp_access_rule (value : list (list Z)) (conf : ngx_rtmp_access_app_conf_t) :
    option (option ngx_rtmp_access_app_conf_t) :=
  v0 ← value !! 0%nat;
  v1 ← value !! 1%nat;
  let last := default [] (list.last value) in
  match
    if (length value =? 2)%nat then Some (Z.lor NGX_RTMP_ACCESS_PUBLISH NGX_RTMP_ACCESS_PLAY)
    else access_flags v1 (take (length value - 2) (drop 1 value)) 0
  with
  | None => Some None
  | Some flags =>
      let all := (length last =? 3)%nat && streq last (str "all") in
      cidr ← if all then Some (Some (NGX_OK, Unspec)) else ngx_ptocidr last;
      match cidr with
      | None => Some None
      | Some (_, cidr) => Some (Some (push_rules all cidr (default 0 (v0 !! 0%nat) =? 100) flags conf))
      end
  end.

(* ------------------------------------------------------------------ *)
(** ** Requests *)

Definition ngx_rtmp_access_found (deny : bool) : ngx_rc := if deny then NGX_ERROR else NGX_OK.

Fixpoint access_inet (rs : list (rule Z)) (a : Z) (flag : Z) : ngx_rc :=
  match rs with
  | [] => NGX_OK
  | r :: rs =>
      if (Z.land a (mask r) =? addr r) && negb (Z.land flag (flags r) =? 0)
      then ngx_rtmp_access_found (deny r)
      else access_inet rs a flag
  end.
Definition ngx_rtmp_access_inet (conf : ngx_rtmp_access_app_conf_t) (a flag : Z) : ngx_rc :=
  access_inet (rules conf) a flag.

Fixpoint access_inet6 (rs : list (rule (list Z))) (p : list Z) (flag : Z) : ngx_rc :=
  match rs with
  | [] => NGX_OK
  | r :: rs =>
      if bool_decide (zip_with Z.land p (mask r) = addr r) && negb (Z.land flag (flags r) =? 0)
      then ngx_rtmp_access_found (deny r)
      else access_inet6 rs p flag
  end.
Definition ngx_rtmp_access_inet6 (conf : ngx_rtmp_access_app_conf_t) (p : list Z) (flag : Z) : ngx_rc :=
  access_inet6 (rules6 conf) p flag.

Inductive sockaddr := Sin (s_addr : Z) | Sin6 (s6_addr : list Z) | Sun.

Definition v4mapped (p : list Z) : bool := bool_decide (take 12 p = replicate 10 0 ++ [0xff; 0xff]).

(** [sa] is [None] for the sessions of relays. *)
Definition ngx_rtmp_access (conf : option ngx_rtmp_access_app_conf_t) (sa : option sockaddr) (flag : Z) : ngx_rc :=
  match conf, sa with
  | None, _ => NGX_ERROR
  | Some _, None => NGX_OK
  | Some conf, Some (Sin a) => ngx_rtmp_access_inet conf a flag
  | Some conf, Some (Sin6 p) =>
      if v4mapped p then
        let b k := default 0 (p !! k) in
        let a := Z.shiftl (b 12%nat) 24 in
        let a := a + Z.shiftl (b 13%nat) 16 in
        let a := a + Z.shiftl (b 14%nat) 8 in
        let a := a + b 15%nat in
        ngx_rtmp_access_inet conf (htonl (u32 a)) flag
      else ngx_rtmp_access_inet6 conf p flag
  | Some _, Some Sun => NGX_OK
  end.

Section Chain.
Context {S V : Type} (next_publish next_play : S -> V -> ngx_rc * S).

(** What the session [s] says: its configuration, its address, and whether it was
    pushed here by another worker. *)
Context (conf : S -> option ngx_rtmp_access_app_conf_t) (sa : S -> option sockaddr) (auto_pushed : S -> bool).

Definition ngx_rtmp_access_publish (s : S) (v : V) : ngx_rc * S :=
  if auto_pushed s then next_publish s v
  else match ngx_rtmp_access (conf s) (sa s) NGX_RTMP_ACCESS_PUBLISH with
       | NGX_OK => next_publish s v
       | _ => (NGX_ERROR, s)
       end.

Definition ngx_rtmp_access_play (s : S) (v : V) : ngx_rc * S :=
  match ngx_rtmp_access (conf s) (sa s) NGX_RTMP_ACCESS_PLAY with
  | NGX_OK => next_play s v
  | _ => (NGX_ERROR, s)
  end.

End Chain.

(* ------------------------------------------------------------------ *)
(** ** What the directives say *)

(** The network of a directive; [k] is the number of its bits. *)
Inductive network := All | Net4 (p : list Z) (k : option Z) | Net6 (p : list Z) (k : option Z).

Inductive access := Publish | Play.
#[export] Instance access_eq_dec : EqDecision access.
Proof. solve_decision. Defined.

Record directive := Directive { forbids : bool; only : option access; net : network }.

Definition slash (k : option Z) : list Z := match k with Some k => 47 :: dec k | None => [] end.
Definition net_text (w : network) : list Z :=
  match w with
  | All => str "all"
  | Net4 p k => quad p ++ slash k
  | Net6 p k => groups p ++ slash k
  end.

(** The words of a directive. *)
Definition words (d : directive) : list (list Z) :=
  (if forbids d then str "deny" else str "allow") ::
  match only d with Some Publish => [str "publish"] | Some Play => [str "play"] | None => [] end ++ [net_text (net d)].

(** The address of all ones can not be written. *)
Definition net_ok (w : network) : Prop :=
  match w with
  | All => True
  | Net4 p k => length p = 4%nat /\ bytes_ok p /\ p <> [255; 255; 255; 255] /\ 0 <= default 32 k <= 32
  | Net6 p k => length p = 16%nat /\ bytes_ok p /\ 0 <= default 128 k <= 128
  end.

#[export] Instance net_ok_dec w : Decision (net_ok w).
Proof. destruct w; unfold net_ok; apply _. Defined.

Inductive address := V4 (q : list Z) | V6 (q : list Z).
Definition address_ok (a : address) : Prop :=
  match a with V4 q => length q = 4%nat /\ bytes_ok q | V6 q => length q = 16%nat /\ bytes_ok q end.
Definition sockaddr_of (a : address) : sockaddr :=
  match a with V4 q => Sin (le_val q) | V6 q => Sin6 q end.

(** A mapped address is one of four bytes. *)
Definition canonical (a : address) : address :=
  match a with V6 q => if v4mapped q then V4 (drop 12 q) else a | _ => a end.

Definition covers (w : network) (a : address) : bool :=
  match w, canonical a with
  | All, _ => true
  | Net4 p k, V4 q => bool_decide (in_net 32 (default 32 k) p q)
  | Net6 p k, V6 q => bool_decide (in_net 128 (default 128 k) p q)
  | _, _ => false
  end.

(** The first directive that covers the address and the kind of access decides. *)
Definition concerns (act : access) (a : address) (d : directive) : bool :=
  bool_decide (only d = None \/ only d = Some act) && covers (net d) a.
Fixpoint verdict (ds : list directive) (act : access) (a : address) : ngx_rc :=
  match ds with
  | [] => NGX_OK
  | d :: ds => if concerns act a d then (if forbids d then NGX_ERROR else NGX_OK) else verdict ds act a
  end.
Definition flag_of (act : access) : Z := match act with Publish => NGX_RTMP_ACCESS_PUBLISH | Play => NGX_RTMP_ACCESS_PLAY end.

(** Reading the directives of a level. *)
Fixpoint configure (ds : list directive) (conf : ngx_rtmp_access_app_conf_t) : option (option ngx_rtmp_access_app_conf_t) :=
  match ds with
  | [] => Some (Some conf)
  | d :: ds =>
      c ← ngx_rtmp_access_rule (words d) conf;
      match c with Some conf => configure ds conf | None => Some None end
  end.

(* ------------------------------------------------------------------ *)
(** ** Rules and directives *)

Lemma quad_no_slash p : Forall (fun c => c <> 47) (quad p).
Proof.
  assert (forall a, Forall (fun c => c <> 47) (dec a)) as Hd.
  { intros a. eapply Forall_impl; [apply dec_ok|]. cbn. lia. }
  unfold quad. destruct p as [|a [|b [|c [|d [|]]]]]; try constructor.
  repeat first [apply Forall_app; split; [apply Hd|]|constructor; [lia|]]. apply Hd.
Qed.

Lemma groups_no_slash p : (exists k, length p = (2 * k)%nat) -> bytes_ok p -> Forall (fun c => c <> 47) (groups p).
Proof.
  intros [k Hk]. revert p Hk. induction k as [|k IH]; intros p Hk Hp; [destruct p; [constructor|discriminate]|].
  destruct p as [|a [|b p]]; try (simpl in Hk; lia). apply bytes_ok_cons in Hp as [Ha Hp]. apply bytes_ok_cons in Hp as [Hb Hp].
  unfold byte_ok in *. cbn [groups]. apply Forall_app. split.
  - unfold group. repeat constructor; apply hex_not; try lia;
      (apply Z.mod_pos_bound; lia) || (split; [apply Z.div_pos|apply Z.div_lt_upper_bound]; lia).
  - destruct p; [constructor|]. constructor; [lia|]. apply IH; [simpl in *; lia|done].
Qed.

(** A text without slash and the number of bits behind it. *)
Lemma slash_spec x k : Forall (fun c => c <> 47) x -> (forall b, k = Some b -> 0 <= b < 2 ^ 63) ->
  let text := x ++ slash k in
  let at_ := ngx_strlchr text 47 in
  take (default (length text) at_) text = x /\
  match k with
  | Some b => exists j, at_ = Some j /\ ngx_atoi (drop (S j) text) = Some (Some b)
  | None => at_ = None
  end.
Proof.
  intros Hx Hk text at_. subst text at_. destruct k as [b|]; cbn [slash].
  - rewrite strlchr_app by done. cbn [from_option id]. rewrite take_app_length'; [|done]. split; [done|].
    exists (length x). split; [done|]. rewrite (cons_middle 47 x), app_assoc, drop_app_length' by (rewrite length_app; simpl; lia).
    apply atoi_dec. auto.
  - rewrite app_nil_r, strlchr_none by done. cbn [from_option id]. now rewrite take_ge by lia.
Qed.

(** The network of a directive of four bytes. *)
Lemma cidr_net4 p k : net_ok (Net4 p k) -> exists rc a m, ngx_ptocidr (net_text (Net4 p k)) = Some (Some (rc, AF_INET a m)) /\
  forall q, length q = 4%nat -> bytes_ok q -> (Z.land (le_val q) m = a <-> in_net 32 (default 32 k) p q).
Proof.
  cbn [net_ok net_text]. intros (Hl & Hp & Hne & Hk).
  destruct (slash_spec (quad p) k (quad_no_slash p)) as [Et Ek]; [intros b ->; cbn in Hk; lia|].
  unfold ngx_ptocidr. rewrite Et, inet_quad by done.
  rewrite (proj2 (Z.eqb_neq _ _)); [|intros E; apply Hne; apply le_val_inj; [done..| |exact E]; unfold bytes_ok, byte_ok; repeat constructor; lia].
  cbn [negb]. destruct k as [b|]; cbn [from_option id] in *.
  - destruct Ek as (j & -> & ->). cbn [mbind option_bind]. rewrite (proj2 (Z.ltb_ge _ _)) by lia.
    change (if b =? 0 then 0 else htonl (u32 (Z.shiftl 4294967295 (32 - b)))) with (mask4 b).
    exists (if le_val p =? Z.land (le_val p) (mask4 b) then NGX_OK else NGX_DONE), (Z.land (le_val p) (mask4 b)), (mask4 b).
    split; [|intros q Hlq Hq; now apply net4]. destruct (Z.eqb_spec (le_val p) (Z.land (le_val p) (mask4 b))) as [E|]; [|done]. now rewrite <- E at 1.
  - rewrite Ek. exists NGX_OK, (le_val p), 0xffffffff. split; [done|]. intros q Hlq Hq.
    change 0xffffffff with (mask4 32). rewrite <- net4 by (done || lia).
    assert (Z.land (le_val p) (mask4 32) = le_val p) as ->; [|done].
    change (mask4 32) with (Z.ones 32). rewrite Z.land_ones by lia. apply Z.mod_small.
    pose proof (be_val_bound (reverse p)) as Hb. rewrite length_reverse, Hl in Hb. apply Hb. unfold bytes_ok. now rewrite Forall_reverse.
Qed.

Lemma cidr_net6 p k : net_ok (Net6 p k) -> exists rc a m, ngx_ptocidr (net_text (Net6 p k)) = Some (Some (rc, AF_INET6 a m)) /\
  forall q, length q = 16%nat -> bytes_ok q -> (zip_with Z.land q m = a <-> in_net 128 (default 128 k) p q).
Proof.
  cbn [net_ok net_text]. intros (Hl & Hp & Hk).
  destruct (slash_spec (groups p) k) as [Et Ek]; [apply groups_no_slash; [exists 8%nat; lia|done]|intros b ->; cbn in Hk; lia|].
  unfold ngx_ptocidr. rewrite Et, groups_not_quad, inet6_full, Z.eqb_refl by done. cbn [negb].
  destruct k as [b|]; cbn [from_option id] in *.
  - destruct Ek as (j & -> & ->). cbn [mbind option_bind]. rewrite (proj2 (Z.ltb_ge _ _)) by lia. eexists _, _, _.
    split; [reflexivity|]. intros q Hlq Hq. now apply net6.
  - rewrite Ek. exists NGX_OK, p, (replicate 16 0xff). split; [done|]. intros q Hlq Hq.
    change (replicate 16 0xff) with (mask6 16 128). rewrite <- net6 by (done || lia).
    assert (zip_with Z.land p (mask6 16 128) = p) as ->; [|done].
    change (mask6 16 128) with (replicate 16 0xff). rewrite <- Hl. clear -Hp.
    induction Hp as [|c p Hc _ IH]; [done|]. cbn. rewrite IH, land_255. f_equal. apply Z.mod_small. exact Hc.
Qed.

(** Which rule decides, for an address of each kind. *)
Definition hit (flag a : Z) (r : rule Z) : bool := (Z.land a (mask r) =? addr r) && negb (Z.land flag (flags r) =? 0).
Definition hit6 (flag : Z) (q : list Z) (r : rule (list Z)) : bool :=
  bool_decide (zip_with Z.land q (mask r) = addr r) && negb (Z.land flag (flags r) =? 0).

Definition found (o : option bool) : ngx_rc := match o with Some true => NGX_ERROR | _ => NGX_OK end.

Lemma inet_find rs a flag : access_inet rs a flag = found (deny <$> List.find (hit flag a) rs).
Proof. induction rs as [|r rs IH]; [done|]. cbn [access_inet List.find]. unfold hit. case_if; [cbn; now destruct (deny r)|apply IH]. Qed.

Lemma inet6_find rs q flag : access_inet6 rs q flag = found (deny <$> List.find (hit6 flag q) rs).
Proof. induction rs as [|r rs IH]; [done|]. cbn [access_inet6 List.find]. unfold hit6. case_if; [cbn; now destruct (deny r)|apply IH]. Qed.

Lemma verdict_find ds act a : verdict ds act a = found (forbids <$> List.find (concerns act a) ds).
Proof. induction ds as [|d ds IH]; [done|]. cbn [verdict List.find]. destruct (concerns act a d); [cbn; now destruct (forbids d)|apply IH]. Qed.

Lemma find_app {A} (f : A -> bool) l l' : List.find f (l ++ l') = match List.find f l with Some x => Some x | None => List.find f l' end.
Proof. induction l as [|x l IH]; [done|]. cbn. now destruct (f x). Qed.

Lemma find_ext {A} (f g : A -> bool) l : (forall x, f x = g x) -> List.find f l = List.find g l.
Proof. intros H. induction l as [|x l IH]; [done|]. cbn. now rewrite H, IH. Qed.

Lemma fmap_or {A B} (f : A -> B) (o o' : option A) :
  f <$> match o with Some x => Some x | None => o' end = match f <$> o with Some y => Some y | None => f <$> o' end.
Proof. now destruct o. Qed.

(** The rules say what the directives say. *)
Definition represents (ds : list directive) (c : ngx_rtmp_access_app_conf_t) : Prop :=
  (forall act q, length q = 4%nat -> bytes_ok q ->
    deny <$> List.find (hit (flag_of act) (le_val q)) (rules c) = forbids <$> List.find (concerns act (V4 q)) ds) /\
  (forall act q, length q = 16%nat -> bytes_ok q -> v4mapped q = false ->
    deny <$> List.find (hit6 (flag_of act) q) (rules6 c) = forbids <$> List.find (concerns act (V6 q)) ds).

Lemma represents_app ds ds' c c' : represents ds c -> represents ds' c' ->
  represents (ds ++ ds') (Conf (rules c ++ rules c') (rules6 c ++ rules6 c')).
Proof.
  intros [H4 H6] [H4' H6']. split; intros; cbn [rules rules6]; rewrite !find_app, !fmap_or; [rewrite H4, H4'|rewrite H6, H6']; done.
Qed.

Lemma represents_nil : represents [] ngx_rtmp_access_create_app_conf.
Proof. split; done. Qed.

Lemma merge_represents ds ds' prev conf : represents ds conf -> represents ds' prev ->
  represents (ds ++ ds') (ngx_rtmp_access_merge_app_conf prev conf).
Proof.
  intros H H'. assert (forall {A} (a b : list (rule A)), ngx_rtmp_access_merge_rules a b = b ++ a) as E.
  { intros A [|] [|]; cbn; rewrite ?app_nil_r; done. }
  unfold ngx_rtmp_access_merge_app_conf. rewrite !E. now apply represents_app.
Qed.

(** The kinds of access as bits. *)
Definition bits (o : option access) : Z := match o with None => 3 | Some act => flag_of act end.
Lemma bits_spec o act : negb (Z.land (flag_of act) (bits o) =? 0) = bool_decide (o = None \/ o = Some act).
Proof. destruct o as [[]|], act; reflexivity. Qed.

Lemma words_flags d : let value := words d in
  (v1 ← value !! 1%nat;
   if (length value =? 2)%nat then Some (Z.lor NGX_RTMP_ACCESS_PUBLISH NGX_RTMP_ACCESS_PLAY)
   else access_flags v1 (take (length value - 2) (drop 1 value)) 0) = Some (bits (only d)).
Proof. unfold words. now destruct (only d) as [[]|]. Qed.

Lemma pushed_represents all cidr d :
  (forall q, length q = 4%nat -> bytes_ok q ->
     match cidr with AF_INET a m => bool_decide (Z.land (le_val q) m = a) | Unspec => all | _ => false end = covers (net d) (V4 q)) ->
  (forall q, length q = 16%nat -> bytes_ok q -> v4mapped q = false ->
     match cidr with AF_INET6 a m => bool_decide (zip_with Z.land q m = a) | Unspec => true | _ => false end = covers (net d) (V6 q)) ->
  represents [d] (push_rules all cidr (forbids d) (bits (only d)) ngx_rtmp_access_create_app_conf).
Proof.
  assert (forall x : list Z, zip_with Z.land x (replicate (length x) 0) = replicate (length x) 0) as Hz.
  { intros x. induction x as [|c x IH]; [done|]. cbn. now rewrite IH, Z.land_0_r. }
  intros H4 H6. split; intros act q Hl Hq; [specialize (H4 q Hl Hq)|intros Hm; specialize (H6 q Hl Hq Hm)].
  - cbn [List.find]. unfold concerns. rewrite <- H4, <- bits_spec.
    destruct cidr as [|a m|a m]; cbn [push_rules rules rules6 ngx_rtmp_access_create_app_conf Datatypes.app].
    + destruct all; cbn [rules List.find Datatypes.app]; unfold hit; cbn [mask addr flags].
      * rewrite Z.land_0_r. now destruct (negb _).
      * now destruct (negb _).
    + cbn [List.find]. unfold hit. cbn [mask addr flags]. rewrite andb_comm.
      replace (Z.land (le_val q) m =? a) with (bool_decide (Z.land (le_val q) m = a)); [now destruct (_ && _)|].
      destruct (Z.eqb_spec (Z.land (le_val q) m) a); [now apply bool_decide_eq_true_2|now apply bool_decide_eq_false_2].
    + now destruct (negb _).
  - cbn [List.find]. unfold concerns. rewrite <- H6, <- bits_spec.
    destruct cidr as [|a m|a m]; cbn [push_rules rules rules6 ngx_rtmp_access_create_app_conf Datatypes.app].
    + replace (rules6 _) with [Rule (replicate 16 0) (replicate 16 0) (forbids d) (bits (only d))] by now destruct all.
      cbn [List.find]. unfold hit6. cbn [mask addr flags]. rewrite <- Hl, Hz, bool_decide_eq_true_2 by done. now destruct (negb _).
    + now destruct (negb _).
    + cbn [List.find]. unfold hit6. cbn [mask addr flags]. rewrite andb_comm. now destruct (_ && _).
Qed.

(** The word [all] is no address. *)
Lemma all_test w : net_ok w ->
  (length (net_text w) =? 3)%nat && streq (net_text w) (str "all") = match w with All => true | _ => false end.
Proof.
  destruct w as [|p k|p k]; cbn [net_text net_ok]; intros Hw; [reflexivity|..]; apply andb_false_iff.
  - right. apply bool_decide_eq_false_2. destruct Hw as (Hl & _). destruct p as [|a [|b [|c [|d [|]]]]]; try discriminate.
    unfold quad. pose proof (dec_ok a) as Hd. pose proof (dec_nonempty a). destruct (dec a) as [|x l]; [done|].
    apply Forall_cons in Hd as [Hx _]. change (str "all") with [97; 108; 108]. cbn [Datatypes.app cstr].
    destruct (x =? 0); [done|]. intros E'. injection E' as E' _. lia.
  - left. destruct Hw as (Hl & _). destruct p as [|a [|b [|c p]]]; try discriminate.
    apply Nat.eqb_neq. cbn [groups group Datatypes.app length]. lia.
Qed.

(** A directive adds its rules. *)
Lemma rule_spec d conf : net_ok (net d) -> exists c,
  ngx_rtmp_access_rule (words d) conf = Some (Some (Conf (rules conf ++ rules c) (rules6 conf ++ rules6 c))) /\ represents [d] c.
Proof.
  intros Hw. pose proof (words_flags d) as Hf. cbv zeta in Hf. unfold ngx_rtmp_access_rule.
  assert (words d !! 0%nat = Some (if forbids d then str "deny" else str "allow")) as -> by done.
  assert (list.last (words d) = Some (net_text (net d))) as ->.
  { unfold words. rewrite app_comm_cons. apply last_snoc. }
  cbn [mbind option_bind from_option id] in *.
  destruct (words d !! 1%nat) as [v1|]; [|discriminate]. cbn [mbind option_bind] in *. rewrite Hf, all_test by done. clear Hf.
  replace (default 0 ((if forbids d then str "deny" else str "allow") !! 0%nat) =? 100) with (forbids d) by now destruct (forbids d).
  assert (exists rc cidr, (if match net d with All => true | _ => false end then Some (Some (NGX_OK, Unspec)) else ngx_ptocidr (net_text (net d))) =
    Some (Some (rc, cidr)) /\ represents [d] (push_rules (match net d with All => true | _ => false end) cidr (forbids d) (bits (only d)) ngx_rtmp_access_create_app_conf))
    as (rc & cidr & -> & Hr).
  { destruct (net d) as [|p k|p k] eqn:En.
    - eexists _, _. split; [reflexivity|]. apply pushed_represents; intros; now rewrite En.
    - destruct (cidr_net4 p k Hw) as (rc & a & m & -> & H). eexists _, _. split; [reflexivity|].
      apply pushed_represents; intros q Hl Hq; rewrite En.
      + unfold covers. cbn [canonical]. now apply bool_decide_ext, H.
      + intros Hm. unfold covers. cbn [canonical]. now rewrite Hm.
    - destruct (cidr_net6 p k Hw) as (rc & a & m & -> & H). eexists _, _. split; [reflexivity|].
      apply pushed_represents; intros q Hl Hq; rewrite En; [done|].
      intros Hm. unfold covers. cbn [canonical]. rewrite Hm. now apply bool_decide_ext, H. }
  eexists. split; [|exact Hr]. cbn [mbind option_bind]. unfold push_rules. do 2 f_equal.
  destruct cidr; [destruct (net d)|..]; cbn; now rewrite ?app_nil_r.
Qed.

Lemma configure_spec ds : Forall (fun d => net_ok (net d)) ds -> forall ds0 conf, represents ds0 conf -> exists c,
  configure ds conf = Some (Some c) /\ represents (ds0 ++ ds) c.
Proof.
  induction 1 as [|d ds Hd _ IH]; intros ds0 conf Hr; [exists conf; now rewrite app_nil_r|].
  destruct (rule_spec d conf Hd) as (c & E & Hc). cbn [configure]. rewrite E. cbn [mbind option_bind].
  destruct (IH (ds0 ++ [d]) _ (represents_app _ _ _ _ Hr Hc)) as (c' & E' & Hc'). exists c'. now rewrite <- app_assoc in Hc'.
Qed.

Lemma v4_of_mapped q : length q = 16%nat -> bytes_ok q ->
  (let b k := default 0 (q !! k) in
   htonl (u32 (Z.shiftl (b 12%nat) 24 + Z.shiftl (b 13%nat) 16 + Z.shiftl (b 14%nat) 8 + b 15%nat))) = le_val (drop 12 q).
Proof.
  intros Hl Hq. rewrite <- htonl_be by (rewrite ?length_drop; auto with lmss; lia). f_equal.
  apply (Forall_drop _ 12) in Hq. do 12 (destruct q as [|? q]; [discriminate|]). do 4 (destruct q as [|? q]; [discriminate|]).
  destruct q; [|discriminate]. cbn [drop lookup list_lookup from_option id] in *.
  unfold byte_ok in Hq. rewrite !Forall_cons in Hq. rewrite !Z.shiftl_mul_pow2 by lia. rewrite u32_small by lia.
  unfold be_val. cbn [foldl]. lia.
Qed.

Lemma access_represents ds c act a : represents ds c -> address_ok a ->
  ngx_rtmp_access (Some c) (Some (sockaddr_of a)) (flag_of act) = verdict ds act a.
Proof.
  intros [H4 H6] Ha. rewrite verdict_find. destruct a as [q|q]; destruct Ha as [Hl Hq]; cbn [sockaddr_of ngx_rtmp_access].
  - unfold ngx_rtmp_access_inet. rewrite inet_find. f_equal. now apply H4.
  - destruct (v4mapped q) eqn:Em.
    + pose proof (v4_of_mapped q Hl Hq) as E. cbv zeta in E. rewrite E. unfold ngx_rtmp_access_inet. rewrite inet_find. f_equal.
      rewrite H4 by (rewrite ?length_drop; auto with lmss; lia). f_equal. apply find_ext. intros d. unfold concerns, covers. cbn [canonical]. now rewrite Em.
    + unfold ngx_rtmp_access_inet6. rewrite inet6_find. f_equal. now apply H6.
Qed.

(** C35: For the directives a configuration has at its three levels, read from their
    words and merged, the first one that covers the address and the kind of access
    decides, those of the application before those of the server before the global
    ones; without one access is granted.  A mapped address counts as one of four bytes.
    Publishing and playing go on exactly when access is granted; a stream another
    worker pushed here needs no grant.  IPv6 networks are written with all
    their eight groups, and the address 255.255.255.255 is left out. *)
Theorem access_first_match main srv app : Forall (fun d => net_ok (net d)) (app ++ srv ++ main) ->
  exists c0 c1 c2,
    configure main ngx_rtmp_access_create_app_conf = Some (Some c0) /\
    configure srv ngx_rtmp_access_create_app_conf = Some (Some c1) /\
    configure app ngx_rtmp_access_create_app_conf = Some (Some c2) /\
    let conf := ngx_rtmp_access_merge_app_conf (ngx_rtmp_access_merge_app_conf c0 c1) c2 in
    let rule act a := verdict (app ++ srv ++ main) act a in
    (forall act a, address_ok a -> ngx_rtmp_access (Some conf) (Some (sockaddr_of a)) (flag_of act) = rule act a) /\
    forall (S V : Type) (next : S -> V -> ngx_rc * S) sa pushed s v a, address_ok a -> sa s = Some (sockaddr_of a) ->
      ngx_rtmp_access_publish next (fun _ => Some conf) sa pushed s v =
        (if pushed s || bool_decide (rule Publish a = NGX_OK) then next s v else (NGX_ERROR, s)) /\
      ngx_rtmp_access_play next (fun _ => Some conf) sa s v =
        (if bool_decide (rule Play a = NGX_OK) then next s v else (NGX_ERROR, s)).
Proof.
  rewrite !Forall_app. intros (Ha & Hs & Hm).
  destruct (configure_spec main Hm [] _ represents_nil) as (c0 & E0 & H0).
  destruct (configure_spec srv Hs [] _ represents_nil) as (c1 & E1 & H1).
  destruct (configure_spec app Ha [] _ represents_nil) as (c2 & E2 & H2).
  exists c0, c1, c2. do 3 (split; [done|]). intros conf rule.
  assert (represents (app ++ srv ++ main) conf) as Hc by now apply merge_represents, merge_represents.
  split; [intros; now apply access_represents|]. intros S V next sa pushed s v a Hok Hsa.
  unfold ngx_rtmp_access_publish, ngx_rtmp_access_play. rewrite Hsa.
  change NGX_RTMP_ACCESS_PUBLISH with (flag_of Publish). change NGX_RTMP_ACCESS_PLAY with (flag_of Play).
  rewrite !(access_represents _ _ _ _ Hc Hok). fold (rule Publish a) (rule Play a).
  split; [destruct (pushed s); [done|]|]; now destruct (rule _ a).
Qed.

(** Publishing from one network, playing from everywhere but one host. *)
Definition local_only : list directive :=
  [Directive false (Some Publish) (Net4 [10; 0; 0; 0] (Some 8)); Directive true (Some Publish) All].
Definition no_host : list directive := [Directive true None (Net6 ([32; 1] ++ replicate 13 0 ++ [7]) None)].

Lemma access_first_match_witness :
  Forall (fun d => net_ok (net d)) (local_only ++ [] ++ no_host) /\
  verdict (local_only ++ [] ++ no_host) Publish (V6 (replicate 10 0 ++ [255; 255; 10; 1; 2; 3])) = NGX_OK /\
  exists c0 c1 c2, configure no_host ngx_rtmp_access_create_app_conf = Some (Some c0) /\
    configure [] ngx_rtmp_access_create_app_conf = Some (Some c1) /\
    configure local_only ngx_rtmp_access_create_app_conf = Some (Some c2).
Proof.
  assert (Forall (fun d => net_ok (net d)) (local_only ++ [] ++ no_host)) as H.
  { decided. }
  split; [exact H|split; [vm_compute; reflexivity|]].
  destruct (access_first_match no_host [] local_only H) as (c0 & c1 & c2 & E0 & E1 & E2 & _).
  exact (ex_intro _ c0 (ex_intro _ c1 (ex_intro _ c2 (conj E0 (conj E1 E2))))).
Defined.

End Access.
