(* ===== verification/Limit.v ===== *)
(** * Connection limit (src/src/rtmp/ngx_rtmp_limit_module.c)

    All workers count their sessions in one number of shared memory, under a lock.
    The number goes up when a session is set up, for an RTMP client in
    [ngx_rtmp_init_session] and for an HLS client in [ngx_rtmp_hls_init_session], and
    down when it is closed, by [ngx_rtmp_close_session_handler] or by the HLS closer
    [ngx_rtmp_hls_close_connection].  The steps below are those of all workers, in the
    order in which they take the lock.  A worker keeps the configuration it was started
    with, so that workers with different limits, and workers without one, run side by
    side after a reload. *)

From Stdlib Require Import ZArith Lia.
From stdpp Require Import base numbers list gmap.
From S2P Require Import Prelude.

Module Limit.

Definition NGX_CONF_UNSET : Z := -1.

(** [n], a [uint32_t], is compared with [max_conn] as an [ngx_uint_t]. *)
Definition ngx_rtmp_limit_connect (max_conn nconn : Z) : ngx_rc * Z :=
  if max_conn =? NGX_CONF_UNSET then (NGX_OK, nconn)
  else
    let n := u32 (nconn + 1) in
    (if u64 max_conn <? n then NGX_ERROR else NGX_OK, n).

Definition ngx_rtmp_limit_disconnect (max_conn nconn : Z) : ngx_rc * Z :=
  if max_conn =? NGX_CONF_UNSET then (NGX_OK, nconn) else (NGX_OK, u32 (nconn - 1)).

(** A new configuration with a limit takes the number of the old one, if that has a
    limit too. *)
Definition ngx_rtmp_limit_shm_init (data : option Z) : Z := default 0 data.

(** A session: the [max_conn] of the configuration of its worker, whether it is one of
    an HLS client, what the event NGX_RTMP_CONNECT returned, and whether the client was
    passed on: to the handshake, or to the handlers of play. *)
Record client := Client { limit : Z; hls : bool; accepted : bool; passed_on : bool }.

(** The number, and the sessions that were set up and not closed yet. *)
Record server := Server { nconn : Z; sessions : gmap nat client }.

(** The event NGX_RTMP_CONNECT in [ngx_rtmp_init_session]: a session that is refused is
    finalized, which posts its closing, and NULL is returned. *)
Definition init_session (max_conn : Z) (k : nat) (s : server) : server * option nat :=
  let '(rc, n) := ngx_rtmp_limit_connect max_conn (nconn s) in
  let ok := bool_decide (rc = NGX_OK) in
  (Server n (<[k := Client max_conn false ok false]> (sessions s)), if ok then Some k else None).

Definition hls_init_session (max_conn : Z) (k : nat) (s : server) : server * option nat :=
  let '(rc, n) := ngx_rtmp_limit_connect max_conn (nconn s) in
  let ok := bool_decide (rc = NGX_OK) in
  (Server n (<[k := Client max_conn true ok false]> (sessions s)), if ok then Some k else None).

Definition pass_on (k : nat) (s : server) : server :=
  Server (nconn s) (alter (fun c => Client (limit c) (hls c) (accepted c) true) k (sessions s)).

(** [ngx_rtmp_init_connection] starts the handshake when it has a session. *)
Definition init_connection (max_conn : Z) (k : nat) (s : server) : server :=
  match init_session max_conn k s with
  | (s1, None) => s1
  | (s1, Some k) => pass_on k s1
  end.

(** [ngx_rtmp_hls_init_connection] returns NGX_ERROR when it has no session. *)
Definition hls_init_connection (max_conn : Z) (k : nat) (s : server) : server * ngx_rc :=
  match hls_init_session max_conn k s with
  | (s1, None) => (s1, NGX_ERROR)
  | (s1, Some _) => (s1, NGX_OK)
  end.

(** The end of [ngx_rtmp_http_hls_handler], for a connection that has no session yet:
    the result is not looked at, and the session that [hls_data] points to is played. *)
Definition http_hls_handler (max_conn : Z) (k : nat) (s : server) : server :=
  let '(s1, _) := hls_init_connection max_conn k s in pass_on k s1.

(** The event NGX_RTMP_DISCONNECT, in [ngx_rtmp_close_session_handler] and in
    [ngx_rtmp_hls_close_connection]. *)
Definition close_session (k : nat) (c : client) (s : server) : server :=
  Server (snd (ngx_rtmp_limit_disconnect (limit c) (nconn s))) (delete k (sessions s)).

Definition hls_close_connection (k : nat) (c : client) (s : server) : server :=
  Server (snd (ngx_rtmp_limit_disconnect (limit c) (nconn s))) (delete k (sessions s)).

(** The directive takes a number that is not negative. *)
Definition configured (max_conn : Z) : Prop := max_conn = NGX_CONF_UNSET \/ 0 <= max_conn < 2 ^ 63.

(** The sessions of [s] that [P] holds of. *)
Definition count (P : client -> bool) (s : server) : Z :=
  Z.of_nat (size (filter (fun kc => P kc.2 = true) (sessions s))).

Definition limited (c : client) : bool := negb (limit c =? NGX_CONF_UNSET).

(** The accepted sessions of workers whose limit is at most [m]. *)
Definition accepted_under (m : Z) (c : client) : bool := accepted c && limited c && (limit c <=? m).

(** A worker of any configuration sets up a session; a session is closed, once: an HLS
    session that was not refused by its closer too, when the HTTP side closes the
    connection; a new configuration is loaded.  The number has room for the sessions. *)
Inductive step : server -> server -> Prop :=
| step_init k max_conn s : sessions s !! k = None -> configured max_conn -> count limited s < 2 ^ 32 - 1 ->
    step s (init_connection max_conn k s)
| step_hls k max_conn s : sessions s !! k = None -> configured max_conn -> count limited s < 2 ^ 32 - 1 ->
    step s (http_hls_handler max_conn k s)
| step_close k c s : sessions s !! k = Some c -> step s (close_session k c s)
| step_hls_close k c s : sessions s !! k = Some c -> hls c = true -> accepted c = true -> step s (hls_close_connection k c s)
| step_reload s : step s (Server (ngx_rtmp_limit_shm_init (Some (nconn s))) (sessions s)).

Definition started : server := Server (ngx_rtmp_limit_shm_init None) ∅.

(** ** The steps *)

Lemma count_insert P k c n s : sessions s !! k = None ->
  count P (Server n (<[k := c]> (sessions s))) = count P s + if P c then 1 else 0.
Proof.
  intros Hk. unfold count. cbn [sessions]. rewrite map_filter_insert. cbn [snd]. destruct (P c).
  - rewrite decide_True by done. rewrite map_size_insert_None; [lia|]. apply map_lookup_filter_None. now left.
  - rewrite decide_False by done. rewrite delete_id by done. lia.
Qed.

Lemma count_delete P k c n s : sessions s !! k = Some c ->
  count P s = count P (Server n (delete k (sessions s))) + if P c then 1 else 0.
Proof.
  intros Hk. rewrite <- (count_insert P k c n (Server n (delete k (sessions s)))) by apply lookup_delete_eq.
  cbn [sessions]. unfold count. cbn [sessions]. now rewrite insert_delete_id.
Qed.

Lemma count_le P Q s : (forall c, P c = true -> Q c = true) -> count P s <= count Q s.
Proof.
  intros H. unfold count. apply inj_le, map_subseteq_size, map_filter_subseteq_ext. intros k c _ Hp. exact (H c Hp).
Qed.

Lemma accepted_under_limited m s : count (accepted_under m) s <= count limited s.
Proof.
  apply count_le. intros c. unfold accepted_under. rewrite !andb_true_iff. tauto.
Qed.

(** The number is that of the open sessions with a limit; no limit is exceeded by what was
    accepted; an RTMP client is passed on when it was accepted, an HLS client always. *)
Definition counted (s : server) : Prop :=
  nconn s = count limited s /\ count limited s < 2 ^ 32 /\
  (forall m, 0 <= m -> count (accepted_under m) s <= m) /\
  map_Forall (fun _ c => configured (limit c) /\ passed_on c = hls c || accepted c) (sessions s).

Lemma connect_counts max_conn n : configured max_conn -> 0 <= n < 2 ^ 32 - 1 ->
  let c := Client max_conn false false false in
  ngx_rtmp_limit_connect max_conn n =
    (if limited c && (max_conn <=? n) then NGX_ERROR else NGX_OK, n + if limited c then 1 else 0).
Proof.
  intros Hc Hn c. unfold ngx_rtmp_limit_connect, limited, c. cbn [limit].
  destruct (Z.eqb_spec max_conn NGX_CONF_UNSET) as [->|Hu]; cbn [negb andb]; [now rewrite Z.add_0_r|].
  destruct Hc as [|Hc]; [done|]. rewrite u32_small, u64_small by lia.
  now destruct (Z.ltb_spec max_conn (n + 1)), (Z.leb_spec max_conn n); try lia.
Qed.

(** A new session, of either kind. *)
Definition admitted (max_conn : Z) (h : bool) (s : server) : client :=
  let ok := (max_conn =? NGX_CONF_UNSET) || (count limited s <? max_conn) in Client max_conn h ok (h || ok).

Lemma connection_set_up max_conn k s : configured max_conn -> count limited s < 2 ^ 32 - 1 -> nconn s = count limited s ->
  let added h := Server (nconn s + if limited (admitted max_conn h s) then 1 else 0)
                   (<[k := admitted max_conn h s]> (sessions s)) in
  init_connection max_conn k s = added false /\ http_hls_handler max_conn k s = added true.
Proof.
  intros Hc Hr Hn added. subst added.
  assert (0 <= count limited s) by (unfold count; lia).
  unfold init_connection, http_hls_handler, hls_init_connection, init_session, hls_init_session, pass_on, admitted.
  rewrite connect_counts by (try done; lia). rewrite Hn. set (n := count limited s) in *. clearbody n.
  unfold limited. cbn [limit sessions nconn].
  destruct (max_conn =? NGX_CONF_UNSET); cbn [negb orb andb].
  - rewrite bool_decide_eq_true_2 by done. cbn [sessions nconn limit hls accepted]. now rewrite !alter_insert_eq.
  - destruct (Z.leb_spec max_conn n), (Z.ltb_spec n max_conn); try lia.
    + rewrite bool_decide_eq_false_2 by done. cbn [sessions nconn orb]. now rewrite alter_insert_eq.
    + rewrite bool_decide_eq_true_2 by done. cbn [sessions nconn]. now rewrite !alter_insert_eq.
Qed.

Lemma added_counted max_conn h k s : configured max_conn -> sessions s !! k = None -> count limited s < 2 ^ 32 - 1 ->
  counted s ->
  counted (Server (nconn s + if limited (admitted max_conn h s) then 1 else 0) (<[k := admitted max_conn h s]> (sessions s))).
Proof.
  intros Hc Hk Hr (Hn & Hb & Ha & Hs). unfold counted. cbn [nconn sessions]. rewrite count_insert by done.
  split; [now rewrite Hn|split; [destruct (limited _); lia|split]].
  - intros m Hm. rewrite count_insert by done. pose proof (Ha m Hm). pose proof (accepted_under_limited m s).
    unfold accepted_under at 2. unfold admitted. cbn [accepted limit]. set (n := count limited s) in *.
    unfold limited. cbn [limit].
    destruct (max_conn =? NGX_CONF_UNSET); cbn [orb andb negb]; [lia|].
    destruct (Z.ltb_spec n max_conn), (Z.leb_spec max_conn m); cbn [andb]; lia.
  - apply map_Forall_insert_2; [|done]. split; [done|]. reflexivity.
Qed.

Lemma closed_counted k c s : sessions s !! k = Some c -> counted s -> counted (close_session k c s).
Proof.
  intros Hk (Hn & Hb & Ha & Hs). unfold close_session, ngx_rtmp_limit_disconnect, counted.
  destruct (map_Forall_lookup_1 _ _ _ _ Hs Hk) as [Hc _].
  set (n := if limit c =? NGX_CONF_UNSET then nconn s else u32 (nconn s - 1)).
  replace (snd (if limit c =? NGX_CONF_UNSET then (NGX_OK, nconn s) else (NGX_OK, u32 (nconn s - 1)))) with n
    by (unfold n; now destruct (limit c =? NGX_CONF_UNSET)).
  pose proof (count_delete limited k c n s Hk) as E. cbn [nconn sessions].
  assert (0 <= count limited (Server n (delete k (sessions s)))) by (unfold count; lia).
  split; [|split; [destruct (limited c); lia|split; [|now apply map_Forall_delete]]].
  - assert (limited c = negb (limit c =? NGX_CONF_UNSET)) as El by reflexivity. rewrite El in E. clear El.
    set (x := count limited (Server n _)) in *. clearbody x. unfold n.
    destruct (limit c =? NGX_CONF_UNSET); cbn [negb] in E; [lia|]. rewrite u32_small by lia. lia.
  - intros m Hm. pose proof (Ha m Hm). pose proof (count_delete (accepted_under m) k c n s Hk).
    destruct (accepted_under m c); lia.
Qed.

Lemma step_counted s s' : step s s' -> counted s -> counted s'.
Proof.
  intros Hs Hc. destruct Hs as [k mc s Hk Hm Hr|k mc s Hk Hm Hr|k c s Hk|k c s Hk _ _|s].
  - destruct (connection_set_up mc k s Hm Hr (proj1 Hc)) as [-> _]. now apply added_counted.
  - destruct (connection_set_up mc k s Hm Hr (proj1 Hc)) as [_ ->]. now apply added_counted.
  - now apply closed_counted.
  - now apply (closed_counted k c s).
  - exact Hc.
Qed.

Lemma reached_counted s : rtc step started s -> counted s.
Proof.
  intros Hs. assert (counted started) as H0.
  { assert (forall P, count P started = 0) as E by (intros P; unfold count, started; cbn [sessions]; now rewrite map_filter_empty).
    unfold counted. rewrite E. split; [done|split; [done|split; [intros m; now rewrite E|apply map_Forall_empty]]]. }
  induction Hs as [|s s1 s2 H1 _ IH]; [exact H0|]. exact (IH (step_counted s s1 H1 H0)).
Qed.

(** C36: However the workers set up and close the sessions of RTMP and HLS clients, each
    under the limit of its own configuration, which a reload may change or take away, the
    shared number is that of the open sessions whose configuration has a limit.  The
    sessions that were accepted under limits of at most [m] are never more than [m]; the
    next session of a worker with a limit is accepted exactly when the number is below
    it, and without one always.  An RTMP client is passed on to the handshake exactly when
    its session was accepted; an HLS client is passed on to play in any case, refused or
    not, so that the limit holds for accepted sessions and not for HLS clients that are
    served ([hls_limit_ignored]).  The number is that of one zone: it goes over from one
    configuration with a limit to the next, and starts anew after one without. *)
Theorem limit_kept s : rtc step started s ->
  nconn s = count limited s /\
  (forall m, 0 <= m -> count (accepted_under m) s <= m) /\
  map_Forall (fun _ c => passed_on c = hls c || accepted c) (sessions s) /\
  forall k max_conn, sessions s !! k = None -> configured max_conn -> count limited s < 2 ^ 32 - 1 ->
    let ok := (max_conn =? NGX_CONF_UNSET) || (count limited s <? max_conn) in
    sessions (init_connection max_conn k s) !! k = Some (Client max_conn false ok ok) /\
    sessions (http_hls_handler max_conn k s) !! k = Some (Client max_conn true ok true).
Proof.
  intros Hs. destruct (reached_counted s Hs) as (Hn & Hb & Ha & Hf).
  split; [done|split; [done|split]].
  - intros k c Hk. exact (proj2 (Hf k c Hk)).
  - intros k max_conn Hk Hc Hr ok. destruct (connection_set_up max_conn k s Hc Hr Hn) as [-> ->].
    cbn [sessions]. rewrite !lookup_insert_eq. unfold admitted. fold ok. split; reflexivity.
Qed.

(** With a limit of 2, an RTMP and an HLS client are accepted and the next RTMP client is
    refused; it is closed, and so is the HLS client.  A new configuration with a limit of 1
    admits nobody, while one of the old workers takes another client. *)
Lemma limit_kept_witness :
  let s3 := init_connection 2 3 (http_hls_handler 2 2 (init_connection 2 1 started)) in
  let s := hls_close_connection 2 (Client 2 true true true) (close_session 3 (Client 2 false false false) s3) in
  sessions s3 !! 3%nat = Some (Client 2 false false false) /\ nconn s = 1 /\
  sessions (init_connection 1 4 s) !! 4%nat = Some (Client 1 false false false) /\
  sessions (init_connection 2 4 s) !! 4%nat = Some (Client 2 false true true).
Proof.
  intros s3 s. split; [vm_compute; reflexivity|].
  assert (forall m : Z, 0 <= m <= 2 -> configured m) as Hc by (intros m Hm; right; lia).
  assert (rtc step started s) as Hs.
  { apply (rtc_l _ _ (init_connection 2 1 started)); [apply step_init; [vm_compute; reflexivity|apply Hc; lia|vm_compute; reflexivity]|].
    apply (rtc_l _ _ (http_hls_handler 2 2 (init_connection 2 1 started)));
      [apply step_hls; [vm_compute; reflexivity|apply Hc; lia|vm_compute; reflexivity]|].
    apply (rtc_l _ _ s3); [apply step_init; [vm_compute; reflexivity|apply Hc; lia|vm_compute; reflexivity]|].
    apply (rtc_l _ _ (close_session 3 (Client 2 false false false) s3)); [apply step_close; vm_compute; reflexivity|].
    apply rtc_once, step_hls_close; vm_compute; reflexivity. }
  destruct (limit_kept s Hs) as (Hn & _ & _ & Hk). split; [rewrite Hn; vm_compute; reflexivity|].
  split; [destruct (Hk 4%nat 1) as [E _]|destruct (Hk 4%nat 2) as [E _]];
    try (vm_compute; reflexivity); try (apply Hc; lia); rewrite E; vm_compute; reflexivity.
Defined.

(** With a limit of [m], no HLS client is kept out once [m] are there: the session of the
    next one is refused, and the client is passed on to play. *)
Theorem hls_limit_ignored s max_conn k : rtc step started s -> 0 <= max_conn < 2 ^ 63 -> sessions s !! k = None ->
  max_conn <= count limited s < 2 ^ 32 - 1 ->
  snd (hls_init_connection max_conn k s) = NGX_ERROR /\
  sessions (http_hls_handler max_conn k s) !! k = Some (Client max_conn true false true).
Proof.
  intros Hs Hm Hk Hr. destruct (reached_counted s Hs) as (Hn & _).
  assert (configured max_conn) as Hc by (now right).
  destruct (connection_set_up max_conn k s Hc ltac:(lia) Hn) as [_ ->]. split.
  - unfold hls_init_connection, hls_init_session. rewrite connect_counts by (try done; lia).
    unfold limited. cbn [limit]. rewrite (proj2 (Z.eqb_neq _ _)) by (unfold NGX_CONF_UNSET; lia). cbn [negb andb].
    rewrite (proj2 (Z.leb_le _ _)) by lia. now rewrite bool_decide_eq_false_2.
  - cbn [sessions]. rewrite lookup_insert_eq. unfold admitted.
    rewrite (proj2 (Z.eqb_neq _ _)) by (unfold NGX_CONF_UNSET; lia). cbn [orb].
    now rewrite (proj2 (Z.ltb_ge _ _)) by lia.
Qed.

End Limit.
