(* ===== verification/Bitop.v ===== *)
(** * The bit reader (src/src/rtmp/ngx_rtmp_bitop.c)

    [ngx_rtmp_bit_reader_t] reads a buffer bit by bit, most significant bit
    first; the codec module parses AAC and AVC headers with it.  The model
    keeps the bytes between [pos] and [last], the bit offset inside the first
    of them and the sticky error flag.  The theorems relate it to the plain
    list of the remaining bits and to Exp-Golomb coding. *)

From Stdlib Require Import ZArith Lia.
From stdpp Require Import base numbers list.
From S2P Require Import Prelude.

Module Bitop.

(* ------------------------------------------------------------------ *)
(** ** The reader *)

(** [br_data] is the memory from [pos] to [last]; [pos >= last] is
    [br_data = []]. *)
Record ngx_rtmp_bit_reader_t := BitReader {
  br_data : list Z;
  br_offs : Z;
  br_err : Z
}.

Definition ngx_rtmp_bit_init_reader (bytes : list Z) : ngx_rtmp_bit_reader_t :=
  {| br_data := bytes; br_offs := 0; br_err := 0 |}.

(** One pass of the [while (n)] loop per unit of fuel; every pass consumes at
    least one bit, so [n] passes are enough (see [bit_read_next]). *)
Fixpoint bit_read_loop (fuel : nat) (br : ngx_rtmp_bit_reader_t) (v n : Z)
  : Z * ngx_rtmp_bit_reader_t :=
  match fuel with
  | O => (v, br)
  | S fuel' =>
      if n =? 0 then (v, br)
      else
        match br_data br with
        | [] => (0, {| br_data := []; br_offs := br_offs br; br_err := 1 |})
        | b :: rest =>
            let d := if br_offs br + n >? 8 then 8 - br_offs br else n in
            let v := u64 (Z.shiftl v d) in
            let v := u64 (v + Z.land (Z.shiftr b (8 - br_offs br - d))
                                     (Z.shiftr 255 (8 - d))) in
            let offs := br_offs br + d in
            let n := n - d in
            if offs =? 8
            then bit_read_loop fuel'
                   {| br_data := rest; br_offs := 0; br_err := br_err br |} v n
            else bit_read_loop fuel'
                   {| br_data := b :: rest; br_offs := offs; br_err := br_err br |} v n
        end
  end.

Definition ngx_rtmp_bit_read (br : ngx_rtmp_bit_reader_t) (n : Z)
  : Z * ngx_rtmp_bit_reader_t :=
  bit_read_loop (Z.to_nat n) br 0 n.

(** The bits still to be read. *)
Definition bits_left (br : ngx_rtmp_bit_reader_t) : Z :=
  8 * Z.of_nat (length (br_data br)) - br_offs br.

(** [for (n = 0; ngx_rtmp_bit_read(br, 1) == 0 && !br->err; n++);] -- [None]
    when the fuel runs out, which [golomb_total] excludes. *)
Fixpoint golomb_zeros (fuel : nat) (br : ngx_rtmp_bit_reader_t) (n : Z)
  : option (Z * ngx_rtmp_bit_reader_t) :=
  match fuel with
  | O => None
  | S fuel' =>
      let '(bit, br) := ngx_rtmp_bit_read br 1 in
      if (bit =? 0) && (br_err br =? 0)
      then golomb_zeros fuel' br (n + 1)
      else Some (n, br)
  end.

(** [None] is the undefined shift [(uint64_t) 1 << n] of 64 bits or more. *)
Definition ngx_rtmp_bit_read_golomb (br : ngx_rtmp_bit_reader_t)
  : option (Z * ngx_rtmp_bit_reader_t) :=
  match golomb_zeros (S (Z.to_nat (bits_left br))) br 0 with
  | None => None
  | Some (n, br) =>
      if n <? 64
      then let '(v, br) := ngx_rtmp_bit_read br n in
           Some (u64 (Z.shiftl 1 n + v - 1), br)
      else None
  end.

Definition ngx_rtmp_bit_read_8 (br : ngx_rtmp_bit_reader_t)
  : Z * ngx_rtmp_bit_reader_t :=
  let '(v, br) := ngx_rtmp_bit_read br 8 in (u8 v, br).

Definition ngx_rtmp_bit_read_16 (br : ngx_rtmp_bit_reader_t)
  : Z * ngx_rtmp_bit_reader_t :=
  let '(v, br) := ngx_rtmp_bit_read br 16 in (u16 v, br).

Definition ngx_rtmp_bit_read_32 (br : ngx_rtmp_bit_reader_t)
  : Z * ngx_rtmp_bit_reader_t :=
  let '(v, br) := ngx_rtmp_bit_read br 32 in (u32 v, br).

(* ------------------------------------------------------------------ *)
(** ** Specification: lists of bits, most significant first *)

Fixpoint bits_of (k : nat) (v : Z) : list bool :=
  match k with
  | O => []
  | S k' => Z.testbit v (Z.of_nat k') :: bits_of k' v
  end.

Definition bits_val (l : list bool) : Z :=
  foldl (fun a b => 2 * a + Z.b2z b) 0 l.

Definition data_bits (l : list Z) : list bool := l ≫= bits_of 8.

Definition reader_bits (br : ngx_rtmp_bit_reader_t) : list bool :=
  drop (Z.to_nat (br_offs br)) (data_bits (br_data br)).

(** The reader is between two bits of its buffer; an exhausted reader is at
    offset 0. *)
Definition reader_ok (br : ngx_rtmp_bit_reader_t) : Prop :=
  0 <= br_offs br < 8 /\ bytes_ok (br_data br) /\
  (br_data br = [] -> br_offs br = 0).

(** Unsigned Exp-Golomb code of [x]. *)
Definition ue_bits (x : Z) : list bool :=
  let n := Z.to_nat (Z.log2 (x + 1)) in
  replicate n false ++ true :: bits_of n (x + 1).

Lemma length_bits_of k v : length (bits_of k v) = k.
Proof. induction k; simpl; auto. Qed.
Hint Rewrite length_bits_of : lmss_len.

Lemma bits_val_acc l a :
  foldl (fun a b => 2 * a + Z.b2z b) a l = a * 2 ^ Z.of_nat (length l) + bits_val l.
Proof.
  unfold bits_val. revert a; induction l as [|x l IH]; intros a; [cbn; lia|].
  cbn [foldl]. rewrite IH, (IH (2 * 0 + _)). rewrite length_cons. rewrite Nat2Z.inj_succ, Z.pow_succ_r by lia. ring.
Qed.

Lemma bits_val_cons x l :
  bits_val (x :: l) = Z.b2z x * 2 ^ Z.of_nat (length l) + bits_val l.
Proof. unfold bits_val at 1. simpl. rewrite bits_val_acc. reflexivity. Qed.

Lemma bits_val_app l1 l2 :
  bits_val (l1 ++ l2) = bits_val l1 * 2 ^ Z.of_nat (length l2) + bits_val l2.
Proof. unfold bits_val at 1. now rewrite foldl_app, bits_val_acc. Qed.

Lemma bits_val_bound l : 0 <= bits_val l < 2 ^ Z.of_nat (length l).
Proof.
  induction l as [|x l IH]; [cbn; lia|].
  rewrite bits_val_cons, length_cons, Nat2Z.inj_succ, Z.pow_succ_r by lia.
  destruct x; simpl Z.b2z; lia.
Qed.

Lemma bits_val_bits_of k v : bits_val (bits_of k v) = v mod 2 ^ Z.of_nat k.
Proof.
  induction k as [|k IH]; [now rewrite Z.mod_1_r|].
  cbn [bits_of]. rewrite bits_val_cons, IH, length_bits_of, Nat2Z.inj_succ, Z.pow_succ_r by lia.
  rewrite (Z.mul_comm 2), Z.rem_mul_r by lia.
  rewrite Z.testbit_spec' by lia. ring.
Qed.

Lemma take_bits_of j k v :
  take j (bits_of (j + k) v) = bits_of j (Z.shiftr v (Z.of_nat k)).
Proof.
  induction j as [|j IH]; [reflexivity|]. simpl. f_equal; [|exact IH].
  rewrite Z.shiftr_spec by lia. f_equal. lia.
Qed.

Lemma drop_bits_of j k v : drop j (bits_of (j + k) v) = bits_of k v.
Proof. induction j as [|j IH]; [reflexivity|]. exact IH. Qed.

Lemma data_bits_cons b l : data_bits (b :: l) = bits_of 8 b ++ data_bits l.
Proof. reflexivity. Qed.

Lemma length_data_bits l : length (data_bits l) = (8 * length l)%nat.
Proof. induction l; [reflexivity|]. rewrite data_bits_cons. len. Qed.
Hint Rewrite length_data_bits : lmss_len.

Lemma length_reader_bits br :
  reader_ok br -> length (reader_bits br) = Z.to_nat (bits_left br).
Proof. intros (Ho & _). unfold reader_bits, bits_left. len. Qed.

(** One pass of the loop reads exactly the bits [offs .. offs + d). *)
Lemma pass_value b o d :
  (o + d <= 8)%nat -> (0 < d)%nat ->
  Z.land (Z.shiftr b (8 - Z.of_nat o - Z.of_nat d)) (Z.shiftr 255 (8 - Z.of_nat d)) =
  bits_val (take d (drop o (bits_of 8 b))).
Proof.
  intros H Hd. replace 8%nat with (o + (8 - o))%nat at 1 by lia.
  rewrite drop_bits_of. replace (8 - o)%nat with (d + (8 - o - d))%nat by lia.
  rewrite take_bits_of, bits_val_bits_of.
  replace (Z.shiftr 255 (8 - Z.of_nat d)) with (2 ^ Z.of_nat d - 1).
  - rewrite land_mask by lia. do 2 f_equal. lia.
  - assert (d = 1 \/ d = 2 \/ d = 3 \/ d = 4 \/ d = 5 \/ d = 6 \/ d = 7 \/ d = 8)%nat
      as Hc by lia. repeat (destruct Hc as [->|Hc]; [reflexivity|]). now subst.
Qed.

(** The reader after a pass of [d] bits. *)
Definition pass_reader (b : Z) (rest : list Z) (o d err : Z) : ngx_rtmp_bit_reader_t :=
  if o + d =? 8 then BitReader rest 0 err else BitReader (b :: rest) (o + d) err.

Lemma pass_reader_ok b rest o d err :
  reader_ok (BitReader (b :: rest) o err) -> 0 < d -> o + d <= 8 ->
  let br := BitReader (b :: rest) o err in
  let br' := pass_reader b rest o d err in
  reader_ok br' /\
  reader_bits br' = drop (Z.to_nat d) (reader_bits br) /\
  bits_left br' = bits_left br - d /\ br_err br' = err /\
  bits_val (take (Z.to_nat d) (reader_bits br)) =
    Z.land (Z.shiftr b (8 - o - d)) (Z.shiftr 255 (8 - d)).
Proof.
  intros (Ho & Hb & _) Hd Hod br br'. subst br br'. simpl in Ho, Hb. apply bytes_ok_cons in Hb as [Hb Hr].
  unfold pass_reader, reader_bits, bits_left. cbn [br_offs br_data br_err].
  rewrite drop_drop. split_and!.
  - destruct (o + d =? 8) eqn:E; bool_to_prop; unfold reader_ok; cbn [br_offs br_data].
    + repeat split; auto; lia.
    + rewrite bytes_ok_cons. split_and!; auto; lia || done.
  - destruct (o + d =? 8) eqn:E; bool_to_prop; simpl br_offs; simpl br_data.
    + replace (Z.to_nat o + Z.to_nat d)%nat with 8%nat by lia. reflexivity.
    + f_equal. lia.
  - destruct (o + d =? 8) eqn:E; bool_to_prop; simpl; lia.
  - now destruct (o + d =? 8).
  - rewrite data_bits_cons, drop_app_le by len. rewrite take_app_le by len.
    rewrite <- pass_value by lia. rewrite !Z2Nat.id by lia. reflexivity.
Qed.

Lemma bit_read_loop_cons fuel b rest o err v n :
  0 <= o < 8 -> 0 < n ->
  exists d, 0 < d <= n /\ o + d <= 8 /\
  bit_read_loop (S fuel) (BitReader (b :: rest) o err) v n =
  bit_read_loop fuel (pass_reader b rest o d err)
    (u64 (u64 (Z.shiftl v d) +
          Z.land (Z.shiftr b (8 - o - d)) (Z.shiftr 255 (8 - d)))) (n - d).
Proof.
  intros Ho Hn. exists (if o + n >? 8 then 8 - o else n).
  assert ((n =? 0) = false) as En by lia.
  cbn [bit_read_loop br_data br_offs br_err]. rewrite En. unfold pass_reader.
  destruct (o + n >? 8) eqn:E; rewrite Z.gtb_ltb in E; bool_to_prop;
    split_and!; try lia; case_if; reflexivity.
Qed.

(** Enough bits left: the loop returns the next [n] bits and stops behind
    them. *)
Lemma bit_read_loop_enough fuel : forall br v n,
  reader_ok br -> 0 <= n <= bits_left br -> n <= Z.of_nat fuel ->
  exists br',
    bit_read_loop fuel br v n =
      (if n =? 0 then v
       else u64 (v * 2 ^ n + bits_val (take (Z.to_nat n) (reader_bits br))), br') /\
    reader_ok br' /\ reader_bits br' = drop (Z.to_nat n) (reader_bits br) /\
    br_err br' = br_err br.
Proof.
  induction fuel as [|fuel IH]; intros [data o err] v n Hok Hn Hf.
  - exists (BitReader data o err). assert (n = 0) as -> by lia. auto.
  - destruct (n =? 0) eqn:En; bool_to_prop.
    { subst n. exists (BitReader data o err). simpl. auto. }
    destruct data as [|b rest].
    { destruct Hok as (Ho & _). unfold bits_left in Hn; simpl in *; lia. }
    destruct (bit_read_loop_cons fuel b rest o err v n) as (d & Hd & Hod & ->);
      [apply Hok|lia|].
    destruct (pass_reader_ok b rest o d err) as (Hok' & Hbits & Hleft & Herr & Hval); auto; [lia|].
    set (br := BitReader (b :: rest) o err) in *.
    destruct (IH (pass_reader b rest o d err)
                (u64 (u64 (Z.shiftl v d) +
                   Z.land (Z.shiftr b (8 - o - d)) (Z.shiftr 255 (8 - d)))) (n - d))
      as (br' & -> & Hok'' & Hbits' & Herr'); auto; [lia|lia|].
    exists br'. split_and!; auto.
    + rewrite <- Hval. f_equal. rewrite Z.shiftl_mul_pow2 by lia.
      replace (take (Z.to_nat n) (reader_bits br)) with
        (take (Z.to_nat d) (reader_bits br) ++
         take (Z.to_nat (n - d)) (reader_bits (pass_reader b rest o d err))).
      2: { rewrite Hbits. replace (Z.to_nat n) with (Z.to_nat d + Z.to_nat (n - d))%nat by lia.
           rewrite take_take_drop. reflexivity. }
      rewrite bits_val_app, length_take, length_reader_bits by auto.
      replace (Z.of_nat (Z.to_nat (n - d) `min` Z.to_nat (bits_left _))) with (n - d) by lia.
      replace (2 ^ n) with (2 ^ d * 2 ^ (n - d)) by (rewrite <- Z.pow_add_r by lia; f_equal; lia).
      rewrite u64_add_l. destruct (n - d =? 0) eqn:E; bool_to_prop.
      * rewrite E, take_0. change (bits_val []) with 0. f_equal. ring.
      * rewrite u64_mul_add_l. f_equal. ring.
    + rewrite Hbits', Hbits, drop_drop. f_equal. lia.
    + now rewrite Herr', Herr.
Qed.

(** Not enough bits left: the loop empties the reader, sets [err] and
    returns 0. *)
Lemma bit_read_loop_eof fuel : forall br v n,
  reader_ok br -> bits_left br < n -> n <= Z.of_nat fuel ->
  bit_read_loop fuel br v n = (0, BitReader [] 0 1).
Proof.
  induction fuel as [|fuel IH]; intros [data o err] v n Hok Hn Hf.
  - destruct Hok as (Ho & _ & He). unfold bits_left in Hn. simpl in *.
    destruct data; simpl in *; [rewrite He in Hn by done; lia|lia].
  - destruct data as [|b rest].
    { destruct Hok as (_ & _ & He). simpl in He. rewrite (He eq_refl) in *.
      cbn [bit_read_loop br_data]. case_if; [unfold bits_left in Hn; simpl in *; lia|reflexivity]. }
    assert (0 <= bits_left (BitReader (b :: rest) o err)).
    { destruct Hok as (Ho & _). unfold bits_left. simpl in *. lia. }
    destruct (bit_read_loop_cons fuel b rest o err v n) as (d & Hd & Hod & ->);
      [apply Hok|lia|].
    destruct (pass_reader_ok b rest o d err) as (Hok' & _ & Hleft & _); auto; [lia|].
    apply IH; [auto|lia|lia].
Qed.

Lemma bit_read_next br n :
  reader_ok br -> 0 <= n ->
  let bits := reader_bits br in
  if decide (n <= Z.of_nat (length bits)) then
    exists br',
      ngx_rtmp_bit_read br n = (u64 (bits_val (take (Z.to_nat n) bits)), br') /\
      reader_ok br' /\ reader_bits br' = drop (Z.to_nat n) bits /\
      br_err br' = br_err br
  else ngx_rtmp_bit_read br n = (0, BitReader [] 0 1).
Proof.
  intros Hok Hn bits. unfold bits. rewrite length_reader_bits by auto.
  assert (0 <= bits_left br).
  { destruct Hok as (Ho & _ & He). unfold bits_left.
    destruct (br_data br); [rewrite He by done|]; simpl; lia. }
  unfold ngx_rtmp_bit_read. case_decide.
  - destruct (bit_read_loop_enough (Z.to_nat n) br 0 n) as (br' & E & ?); auto; [lia|lia|].
    exists br'. split; [|auto]. rewrite E. case_if; [subst n|f_equal; f_equal; lia].
    rewrite take_0. reflexivity.
  - apply bit_read_loop_eof; auto; lia.
Qed.

(** Reading [n] bits returns the next [n] bits of the buffer as a
    big-endian number (reduced to 64 bits, which is exact for [n <= 64]),
    leaves the reader behind them and keeps the error flag; when fewer than
    [n] bits are left it returns 0, sets [err] and leaves the reader at the
    end of the buffer. *)
Theorem bit_read_spec br n :
  reader_ok br -> 0 <= n ->
  let bits := reader_bits br in
  if decide (n <= Z.of_nat (length bits)) then
    exists br',
      ngx_rtmp_bit_read br n = (u64 (bits_val (take (Z.to_nat n) bits)), br') /\
      reader_ok br' /\ reader_bits br' = drop (Z.to_nat n) bits /\
      br_err br' = br_err br
  else ngx_rtmp_bit_read br n = (0, BitReader [] 0 1).
Proof. exact (bit_read_next br n). Qed.

Lemma bit_read_spec_witness :
  reader_ok (ngx_rtmp_bit_init_reader [178; 15]) /\ 0 <= 11 /\
  exists br', ngx_rtmp_bit_read (ngx_rtmp_bit_init_reader [178; 15]) 11 = (1424, br') /\
              br_err br' = 0.
Proof.
  assert (reader_ok (ngx_rtmp_bit_init_reader [178; 15])) as Hok.
  { unfold reader_ok. cbn. split_and!; [lia|lia|decided|done]. }
  split_and!; [exact Hok|lia|].
  pose proof (bit_read_spec (ngx_rtmp_bit_init_reader [178; 15]) 11 Hok ltac:(lia)) as H.
  cbn in H. destruct H as (br' & E & _ & _ & Herr). exists br'. split; [exact E|exact Herr].
Defined.

Lemma bit_read_one br b rest :
  reader_ok br -> reader_bits br = b :: rest ->
  exists br', ngx_rtmp_bit_read br 1 = (Z.b2z b, br') /\ reader_ok br' /\
              reader_bits br' = rest /\ br_err br' = br_err br.
Proof.
  intros Hok Hb. pose proof (bit_read_loop_enough 1 br 0 1 Hok) as H.
  assert (0 <= 1 <= bits_left br) as Hn.
  { pose proof (length_reader_bits br Hok) as Hl. rewrite Hb in Hl. simpl in Hl. lia. }
  destruct (H Hn ltac:(lia)) as (br' & E & ? & Hb' & ?). exists br'.
  rewrite Hb in *. split_and!; auto.
  unfold ngx_rtmp_bit_read. change (Z.to_nat 1) with 1%nat. rewrite E. f_equal.
  now destruct b.
Qed.

Lemma bit_read_none br :
  reader_ok br -> reader_bits br = [] -> ngx_rtmp_bit_read br 1 = (0, BitReader [] 0 1).
Proof.
  intros Hok Hb. pose proof (bit_read_loop_eof 1 br 0 1 Hok) as H.
  apply H; [|lia]. pose proof (length_reader_bits br Hok) as Hl.
  rewrite Hb in Hl. simpl in Hl. lia.
Qed.

(** The zero run stops at the first one bit ... *)
Lemma golomb_zeros_run k : forall fuel br n rest,
  reader_ok br -> br_err br = 0 -> (k < fuel)%nat ->
  reader_bits br = replicate k false ++ true :: rest ->
  exists br', golomb_zeros fuel br n = Some (n + Z.of_nat k, br') /\
              reader_ok br' /\ reader_bits br' = rest /\ br_err br' = 0.
Proof.
  induction k as [|k IH]; intros fuel br n rest Hok He Hf Hb;
    (destruct fuel as [|fuel]; [lia|]); simpl in Hb;
    destruct (bit_read_one br _ _ Hok Hb) as (br' & E & Hok' & Hb' & He');
    cbn [golomb_zeros]; rewrite E; simpl Z.b2z.
  - exists br'. rewrite Z.add_0_r. split_and!; auto. congruence.
  - rewrite He', He. simpl. destruct (IH fuel br' (n + 1) rest) as (br'' & -> & ?);
      auto; [congruence|lia|]. exists br''. split; auto. do 2 f_equal. lia.
Qed.

(** ... or at the end of the buffer, with [err] set. *)
Lemma golomb_zeros_eof k : forall fuel br n,
  reader_ok br -> br_err br = 0 -> (k < fuel)%nat ->
  reader_bits br = replicate k false ->
  golomb_zeros fuel br n = Some (n + Z.of_nat k, BitReader [] 0 1).
Proof.
  induction k as [|k IH]; intros fuel br n Hok He Hf Hb;
    (destruct fuel as [|fuel]; [lia|]); cbn [golomb_zeros].
  - rewrite bit_read_none by auto. simpl. do 2 f_equal. lia.
  - destruct (bit_read_one br _ _ Hok Hb) as (br' & -> & Hok' & Hb' & He').
    simpl Z.b2z. rewrite He', He. simpl. rewrite IH; auto; [|congruence|lia].
    do 2 f_equal. lia.
Qed.

(** Every bit list starts with a zero run. *)
Lemma zero_run (l : list bool) :
  exists k, l = replicate k false \/ exists rest, l = replicate k false ++ true :: rest.
Proof.
  induction l as [|b l (k & [->|(rest & ->)])].
  - exists 0%nat. auto.
  - destruct b; [exists 0%nat; eauto|exists (S k); auto].
  - destruct b; [exists 0%nat; right; eexists; reflexivity|exists (S k); right; exists rest; auto].
Qed.

(** The loop of the Exp-Golomb reader ends on every buffer: the result is
    undefined only for a run of 64 zero bits or more, where the source shifts
    a 64-bit value by its width. *)
Theorem golomb_total br :
  reader_ok br -> br_err br = 0 ->
  ngx_rtmp_bit_read_golomb br = None <->
  take 64 (reader_bits br) = replicate 64 false.
Proof.
  intros Hok He. unfold ngx_rtmp_bit_read_golomb.
  destruct (zero_run (reader_bits br)) as (k & [Hb|(rest & Hb)]).
  - assert (k < S (Z.to_nat (bits_left br)))%nat as Hk.
    { rewrite <- length_reader_bits, Hb by auto. len. }
    rewrite (golomb_zeros_eof k) by auto. rewrite Hb, take_replicate.
    case_if; [|].
    + destruct (ngx_rtmp_bit_read _ _). split; [done|].
      intros H%(f_equal length). len.
    + split; [|done]. intros _. f_equal. lia.
  - assert (k < S (Z.to_nat (bits_left br)))%nat as Hk.
    { rewrite <- length_reader_bits, Hb by auto. len. }
    destruct (golomb_zeros_run k (S (Z.to_nat (bits_left br))) br 0 rest)
      as (br' & -> & _); auto.
    rewrite Hb. case_if.
    + destruct (ngx_rtmp_bit_read _ _). split; [done|]. intros H.
      assert (k < 64)%nat as Hk' by lia. clear -H Hk'.
      apply (f_equal (lookup k)) in H.
      rewrite lookup_take_lt, lookup_app_r, length_replicate, Nat.sub_diag in H by (len; lia).
      rewrite lookup_replicate_2 in H by lia. done.
    + split; [|done]. intros _. rewrite take_app_le by len.
      rewrite take_replicate. f_equal. lia.
Qed.

Lemma golomb_total_witness :
  (ngx_rtmp_bit_read_golomb (ngx_rtmp_bit_init_reader [0; 0; 0; 0; 0; 0; 0; 0; 255]) = None <->
   take 64 (reader_bits (ngx_rtmp_bit_init_reader [0; 0; 0; 0; 0; 0; 0; 0; 255])) =
     replicate 64 false) /\
  ~ ngx_rtmp_bit_read_golomb (ngx_rtmp_bit_init_reader [0; 0]) = None.
Proof.
  split.
  - apply golomb_total; [|reflexivity]. unfold reader_ok. cbn. split_and!; [lia|lia|decided|done].
  - rewrite golomb_total; [vm_compute; discriminate| |reflexivity].
    unfold reader_ok. cbn. split_and!; [lia|lia|decided|done].
Defined.

(** A code word in front of the reader. *)
Lemma golomb_next br x rest :
  reader_ok br -> br_err br = 0 -> 0 <= x < 2 ^ 64 - 1 ->
  reader_bits br = ue_bits x ++ rest ->
  exists br', ngx_rtmp_bit_read_golomb br = Some (x, br') /\ reader_ok br' /\
              reader_bits br' = rest /\ br_err br' = 0.
Proof.
  intros Hok He Hx Hb. unfold ue_bits in Hb.
  set (n := Z.log2 (x + 1)) in *. assert (0 <= n < 64) as Hn.
  { split; [apply Z.log2_nonneg|]. apply Z.log2_lt_pow2; lia. }
  pose proof (Z.log2_spec (x + 1) ltac:(lia)) as Hl. fold n in Hl.
  rewrite <- app_assoc in Hb. unfold ngx_rtmp_bit_read_golomb.
  assert (Z.to_nat n < S (Z.to_nat (bits_left br)))%nat.
  { rewrite <- length_reader_bits, Hb by auto. len. }
  destruct (golomb_zeros_run (Z.to_nat n) (S (Z.to_nat (bits_left br))) br 0
              (bits_of (Z.to_nat n) (x + 1) ++ rest)) as (br1 & -> & Hok1 & Hb1 & He1); auto.
  rewrite Z.add_0_l, Z2Nat.id by lia. case_if; [|lia].
  pose proof (bit_read_next br1 n Hok1 ltac:(lia)) as H'. cbv zeta in H'.
  rewrite Hb1 in H'. rewrite decide_True in H' by len.
  destruct H' as (br2 & -> & Hok2 & Hb2 & He2). exists br2. split_and!; auto; [|
    rewrite Hb2; rewrite drop_app_length'; [done|len]|congruence].
  rewrite take_app_length' by len. rewrite bits_val_bits_of, Z2Nat.id by lia.
  rewrite Z.shiftl_1_l. do 2 f_equal.
  rewrite (Z.mod_eq (x + 1)) by lia.
  replace ((x + 1) / 2 ^ n) with 1.
  2: { apply (Z.div_unique _ _ _ (x + 1 - 2 ^ n)); [left|];
       rewrite Z.pow_succ_r in Hl by lia; lia. }
  rewrite Z.pow_succ_r in Hl by lia.
  rewrite (u64_small (x + 1 - _)) by lia. rewrite u64_small; lia.
Qed.

(** The Exp-Golomb reader decodes every code word below 2^64 - 1 and stops
    right behind it, without touching the error flag. *)
Theorem golomb_decodes br x rest :
  reader_ok br -> br_err br = 0 -> 0 <= x < 2 ^ 64 - 1 ->
  reader_bits br = ue_bits x ++ rest ->
  exists br', ngx_rtmp_bit_read_golomb br = Some (x, br') /\ reader_ok br' /\
              reader_bits br' = rest /\ br_err br' = 0.
Proof. apply golomb_next. Qed.

Lemma golomb_decodes_witness :
  exists br', ngx_rtmp_bit_read_golomb (ngx_rtmp_bit_init_reader [47]) = Some (4, br') /\
              reader_bits br' = [true; true; true].
Proof.
  destruct (golomb_decodes (ngx_rtmp_bit_init_reader [47]) 4 [true; true; true])
    as (br' & E & _ & Hb & _).
  - unfold reader_ok. cbn. split_and!; [lia|lia|decided|done].
  - reflexivity.
  - lia.
  - vm_compute. reflexivity.
  - exists br'. split; assumption.
Defined.

End Bitop.
