(* ===== verification/Buf.v ===== *)
(** * Buffers (src/src/core/ngx_buf.h)

    [ngx_buf_t] as the RTMP code uses it: a memory block from [start] to
    [end] with the read position [pos] and the write position [last].  The
    positions are offsets from [start]; [end] is the length of the block. *)

From Stdlib Require Import ZArith Lia.
From stdpp Require Import base numbers list.
From S2P Require Import Prelude.

Record ngx_buf_t := Buf {
  b_mem : list Z;
  b_pos : nat;
  b_last : nat
}.

Definition b_end (b : ngx_buf_t) : nat := length (b_mem b).

Definition buf_ok (b : ngx_buf_t) : Prop :=
  (b_pos b <= b_last b)%nat /\ (b_last b <= b_end b)%nat /\ bytes_ok (b_mem b).

#[export] Instance buf_ok_dec b : Decision (buf_ok b).
Proof. unfold buf_ok. apply _. Defined.

(** The bytes between [pos] and [last]. *)
Definition buf_data (b : ngx_buf_t) : list Z :=
  take (b_last b - b_pos b) (drop (b_pos b) (b_mem b)).

(** Everything written so far, from [start] to [last]. *)
Definition buf_written (b : ngx_buf_t) : list Z := take (b_last b) (b_mem b).

(** [end - last]. *)
Definition buf_room (b : ngx_buf_t) : nat := b_end b - b_last b.

(** [b->last = ngx_cpymem(b->last, src, n)], the caller having checked the
    room. *)
Definition buf_push (b : ngx_buf_t) (src : list Z) : ngx_buf_t :=
  {| b_mem := splice (b_last b) src (b_mem b);
     b_pos := b_pos b;
     b_last := b_last b + length src |}.

(** A fresh block of [size] bytes with [pos] and [last] at [offs]. *)
Definition buf_alloc (size offs : nat) : ngx_buf_t :=
  {| b_mem := replicate size 0; b_pos := offs; b_last := offs |}.

Lemma length_buf_data b : buf_ok b -> length (buf_data b) = (b_last b - b_pos b)%nat.
Proof. intros (? & ? & _). unfold buf_data, b_end in *. len. Qed.

Lemma buf_data_ok b : buf_ok b -> bytes_ok (buf_data b).
Proof. intros (_ & _ & ?). unfold buf_data. auto with lmss. Qed.

Lemma buf_data_written b : buf_data b = drop (b_pos b) (buf_written b).
Proof. unfold buf_data, buf_written. now rewrite skipn_firstn_comm. Qed.

Lemma length_buf_written b : buf_ok b -> length (buf_written b) = b_last b.
Proof. intros (_ & ? & _). unfold buf_written, b_end in *. len. Qed.

Lemma buf_alloc_ok size offs : (offs <= size)%nat -> buf_ok (buf_alloc size offs).
Proof.
  intros. unfold buf_ok, buf_alloc, b_end. cbn. len. split_and!; try lia.
  apply bytes_ok_replicate. unfold byte_ok. lia.
Qed.

Section Push.
Context (b : ngx_buf_t) (l : list Z).
Hypothesis Hok : buf_ok b.
Hypothesis Hroom : (length l <= buf_room b)%nat.

Lemma buf_push_end : b_end (buf_push b l) = b_end b.
Proof. unfold b_end, buf_push, buf_room, b_end in *. cbn. apply length_splice.
  destruct Hok as (_ & ? & _). unfold b_end in *. lia. Qed.

Lemma buf_push_ok : bytes_ok l -> buf_ok (buf_push b l).
Proof.
  intros Hl. destruct Hok as (H1 & H2 & H3). unfold buf_ok. rewrite buf_push_end.
  unfold buf_room in Hroom. cbn. split_and!; try lia. now apply bytes_ok_splice.
Qed.

Lemma buf_push_room : buf_room (buf_push b l) = (buf_room b - length l)%nat.
Proof. unfold buf_room. rewrite buf_push_end. cbn. lia. Qed.

Lemma buf_written_push : buf_written (buf_push b l) = buf_written b ++ l.
Proof.
  destruct Hok as (_ & ? & _). unfold buf_written, buf_push, b_end in *. cbn.
  now apply take_splice_end.
Qed.

Lemma buf_data_push : buf_data (buf_push b l) = buf_data b ++ l.
Proof.
  destruct Hok as (Hp & ? & _). rewrite !buf_data_written, buf_written_push.
  rewrite drop_app_le; [done|]. rewrite length_buf_written by done. cbn. lia.
Qed.

Lemma buf_push_push k : buf_push (buf_push b l) k = buf_push b (l ++ k).
Proof.
  destruct Hok as (_ & ? & _). unfold buf_push, buf_room, b_end in *. cbn.
  f_equal; [apply splice_app; lia|]. rewrite length_app. lia.
Qed.
End Push.

Lemma buf_push_nil b : buf_push b [] = b.
Proof. destruct b. unfold buf_push. cbn [b_last b_mem b_pos length]. rewrite splice_nil, Nat.add_0_r. reflexivity. Qed.

#[export] Hint Resolve buf_push_ok buf_data_ok : lmss.
