(* ===== verification/Double.v ===== *)
(** * Numbers of AMF values

    An AMF number is an IEEE 754 double.  The program converts between its
    unsigned integers and doubles by C's conversions; here a double is its 64
    bits, a variable of type [double] the eight bytes in the order of the
    machine (the lowest first). *)

From Stdlib Require Import ZArith Lia.
From stdpp Require Import base numbers list.
From S2P Require Import Prelude.

Module Double.

(** [(double) n] of an unsigned [n]: rounds to the nearest, ties to even. *)
Definition significand (n : Z) : Z :=
  let e := Z.log2 n in
  if e <=? 52 then n * 2 ^ (52 - e)
  else
    let k := e - 52 in
    let q := n / 2 ^ k in
    let r := n mod 2 ^ k in
    if (2 ^ (k - 1) <? r) || ((2 ^ (k - 1) =? r) && Z.odd q) then q + 1 else q.

Definition double_of_uint (n : Z) : Z :=
  if n <=? 0 then 0 else (Z.log2 n + 1023) * 2 ^ 52 + (significand n - 2 ^ 52).

(** [(ngx_uint_t) x]: cuts off the fraction; [None] where C leaves the result
    open. *)
Definition uint_of_double (w : Z) : option Z :=
  let e := Z.land (Z.shiftr w 52) 2047 in
  let m := Z.land w (2 ^ 52 - 1) + 2 ^ 52 in
  if e =? 2047 then None
  else if e <? 1023 then Some 0
  else if Z.testbit w 63 then None
  else
    let v := if 1075 <=? e then m * 2 ^ (e - 1075) else m / 2 ^ (1075 - e) in
    if v <? 2 ^ 64 then Some v else None.

(** A variable of type [double]. *)
Definition double_bytes (w : Z) : list Z := le_bytes 8 w.

Lemma significand_range n : 0 < n -> 2 ^ 52 <= significand n <= 2 ^ 53.
Proof.
  intros Hn. unfold significand. destruct (Z.log2_spec n Hn) as [H1 H2].
  pose proof (Z.log2_nonneg n) as H0. cbv zeta. set (e := Z.log2 n) in *.
  rewrite Z.pow_succ_r in H2 by lia. case_if; bool_to_prop.
  - assert (2 ^ 52 = 2 ^ e * 2 ^ (52 - e)) as E52 by (rewrite <- Z.pow_add_r by lia; f_equal; lia).
    change (2 ^ 53) with (2 * 2 ^ 52). rewrite E52. nia.
  - assert (2 ^ e = 2 ^ 52 * 2 ^ (e - 52)) as Ee by (rewrite <- Z.pow_add_r by lia; f_equal; lia).
    assert (0 < 2 ^ (e - 52)) by (apply Z.pow_pos_nonneg; lia).
    assert (2 ^ 52 <= n / 2 ^ (e - 52)) by (apply Z.div_le_lower_bound; lia).
    assert (n / 2 ^ (e - 52) < 2 ^ 53).
    { apply Z.div_lt_upper_bound; [done|]. change (2 ^ 53) with (2 * 2 ^ 52). lia. }
    case_if; lia.
Qed.

(** The fields of a double that is neither zero nor subnormal. *)
Lemma double_fields e m : 0 <= e < 2047 -> 0 <= m < 2 ^ 52 ->
  let w := e * 2 ^ 52 + m in
  Z.land (Z.shiftr w 52) 2047 = e /\ Z.land w (2 ^ 52 - 1) = m /\ Z.testbit w 63 = false.
Proof.
  intros He Hm w. split; [|split].
  - rewrite Z.shiftr_div_pow2 by lia. unfold w. rewrite Z.div_add_l, (Z.div_small m) by lia.
    change 2047 with (Z.ones 11). rewrite Z.land_ones, Z.mod_small by lia. lia.
  - change (2 ^ 52 - 1) with (Z.ones 52). rewrite Z.land_ones by lia. unfold w.
    rewrite Z.add_comm, Z.mod_add, Z.mod_small by lia. done.
  - apply Z.testbit_false; [lia|]. rewrite Z.div_small; [done|]. unfold w. lia.
Qed.

(** Integers of up to 53 bits are kept. *)
Lemma uint_double n : 0 <= n < 2 ^ 53 -> uint_of_double (double_of_uint n) = Some n.
Proof.
  intros Hn. unfold double_of_uint. case_if; bool_to_prop.
  { assert (n = 0) as -> by lia. reflexivity. }
  assert (Z.log2 n <= 52) as Hl by (apply Z.lt_succ_r, Z.log2_lt_pow2; lia).
  pose proof (Z.log2_nonneg n) as H0. destruct (Z.log2_spec n ltac:(lia)) as [H1 H2].
  rewrite Z.pow_succ_r in H2 by lia.
  assert (significand n = n * 2 ^ (52 - Z.log2 n)) as -> by (unfold significand; case_if; [done|lia]).
  set (e := Z.log2 n) in *.
  assert (2 ^ 52 = 2 ^ e * 2 ^ (52 - e)) as E52 by (rewrite <- Z.pow_add_r by lia; f_equal; lia).
  assert (0 < 2 ^ (52 - e)) as Hp by (apply Z.pow_pos_nonneg; lia).
  destruct (double_fields (e + 1023) (n * 2 ^ (52 - e) - 2 ^ 52)) as (F1 & F2 & F3); [lia|split; nia|].
  unfold uint_of_double. rewrite F1, F2, F3. cbv zeta.
  repeat case_if; bool_to_prop; try lia.
  - assert (e = 52) as He by lia. rewrite He in *. f_equal. change (2 ^ (52 - 52)) with 1.
    change (2 ^ (52 + 1023 - 1075)) with 1. lia.
  - f_equal. replace (1075 - (e + 1023)) with (52 - e) by lia.
    rewrite Z.sub_add, Z.div_mul by lia. done.
  - exfalso. destruct (1075 <=? e + 1023) eqn:Ec; bool_to_prop.
    + assert (e = 52) as He by lia. rewrite He in *. change (2 ^ (52 - 52)) with 1 in *.
      change (2 ^ (52 + 1023 - 1075)) with 1 in *. lia.
    + replace (1075 - (e + 1023)) with (52 - e) in * by lia.
      rewrite Z.sub_add, Z.div_mul in * by lia. lia.
Qed.

Lemma double_range n : 0 < n < 2 ^ 64 -> 0 < double_of_uint n < 2 ^ 63.
Proof.
  intros Hn. unfold double_of_uint. case_if; bool_to_prop; [lia|].
  pose proof (significand_range n ltac:(lia)) as H. pose proof (Z.log2_nonneg n).
  assert (Z.log2 n < 64) by (apply Z.log2_lt_pow2; lia). lia.
Qed.

Lemma double_of_zero : double_of_uint 0 = 0.
Proof. reflexivity. Qed.

Lemma double_bytes_ok w : bytes_ok (double_bytes w).
Proof. apply le_bytes_ok. Qed.

Lemma length_double_bytes w : length (double_bytes w) = 8%nat.
Proof. apply length_le_bytes. Qed.

(** 1.0, 1920.0, and 2^53 + 1, which is rounded to even. *)
Example double_examples :
  double_of_uint 1 = 0x3ff0000000000000 /\ double_of_uint 1920 = 0x409e000000000000 /\
  double_of_uint (2 ^ 53 + 1) = double_of_uint (2 ^ 53) /\
  double_of_uint (2 ^ 53 + 3) = double_of_uint (2 ^ 53 + 4) /\
  double_of_uint (2 ^ 64 - 1) = 0x43f0000000000000.
Proof. repeat split; reflexivity. Qed.

End Double.
