(* ===== verification/Mp4.v ===== *)
(** * The fragmented-MP4 writer (src/src/rtmp/dash/ngx_rtmp_mp4.c)

    The MPEG-DASH module writes its initialisation and media segments with
    these functions.  Every writer appends to a buffer of fixed size; a field
    that does not fit is dropped and its [NGX_ERROR] is ignored by the callers,
    as in the source.  The theorems show that with enough room each writer
    appends the serialisation of a tree of boxes whose size fields are right,
    that the sample table points at the media data behind the [moof] box, and
    that without enough room nothing outside the buffer is written. *)

From Stdlib Require Import ZArith Lia.
From stdpp Require Import base numbers list strings.
From S2P Require Import Prelude Buf.

Module Mp4.

(* ------------------------------------------------------------------ *)
(** ** The writer monad

    A writer changes the buffer and returns a value; [None] is a NULL
    dereference or pointer arithmetic on NULL. *)

Definition W (A : Type) : Type := ngx_buf_t -> option (A * ngx_buf_t).

#[export] Instance W_ret : MRet W := fun A a b => Some (a, b).
#[export] Instance W_bind : MBind W := fun A B f m b =>
  match m b with Some (a, b') => f a b' | None => None end.

Definition crash {A} : W A := fun _ => None.

(* ------------------------------------------------------------------ *)
(** ** Primitive fields *)

(** The common tail of the field writers:
    [if (b->last + sizeof(bytes) > b->end) return NGX_ERROR; b->last = ngx_cpymem(...)]. *)
Definition put_bytes (bytes : list Z) : W ngx_rc := fun b =>
  if (b_end b <? b_last b + length bytes)%nat
  then Some (NGX_ERROR, b)
  else Some (NGX_OK, buf_push b bytes).

Definition ngx_rtmp_mp4_field_32 (n : Z) : W ngx_rc :=
  put_bytes [Z.land (Z.shiftr (u32 n) 24) 255; Z.land (Z.shiftr (u32 n) 16) 255;
             Z.land (Z.shiftr (u32 n) 8) 255; Z.land (u32 n) 255].

Definition ngx_rtmp_mp4_field_24 (n : Z) : W ngx_rc :=
  put_bytes [Z.land (Z.shiftr (u32 n) 16) 255; Z.land (Z.shiftr (u32 n) 8) 255;
             Z.land (u32 n) 255].

Definition ngx_rtmp_mp4_field_16 (n : Z) : W ngx_rc :=
  put_bytes [Z.land (Z.shiftr (u16 n) 8) 255; Z.land (u16 n) 255].

Definition ngx_rtmp_mp4_field_8 (n : Z) : W ngx_rc :=
  put_bytes [Z.land (u8 n) 255].

Definition ngx_rtmp_mp4_put_descr (tag size : Z) : W ngx_rc :=
  ngx_rtmp_mp4_field_8 tag;;
  ngx_rtmp_mp4_field_8 (Z.land size 127);;
  mret NGX_OK.

Definition ngx_rtmp_mp4_data (data : list Z) : W ngx_rc := put_bytes data.

(** [box] is a four-character code. *)
Definition ngx_rtmp_mp4_box (box : list Z) : W ngx_rc := put_bytes box.

(** The returned pointer is an offset into the buffer; [None] is NULL. *)
Definition ngx_rtmp_mp4_start_box (box : list Z) : W (option nat) := fun b =>
  let p := b_last b in
  match ngx_rtmp_mp4_field_32 0 b with
  | Some (NGX_OK, b1) =>
      match ngx_rtmp_mp4_box box b1 with
      | Some (NGX_OK, b2) => Some (Some p, b2)
      | Some (_, b2) => Some (None, b2)
      | None => None
      end
  | Some (_, b1) => Some (None, b1)
  | None => None
  end.

Definition ngx_rtmp_mp4_update_box_size (p : option nat) : W ngx_rc := fun b =>
  match p with
  | None => Some (NGX_ERROR, b)
  | Some p =>
      let curpos := b_last b in
      let b1 := {| b_mem := b_mem b; b_pos := b_pos b; b_last := p |} in
      match ngx_rtmp_mp4_field_32 (Z.of_nat (curpos - p)) b1 with
      | Some (_, b2) =>
          Some (NGX_OK, {| b_mem := b_mem b2; b_pos := b_pos b2; b_last := curpos |})
      | None => None
      end
  end.

Definition ngx_rtmp_mp4_write_matrix (a b c d tx ty : Z) : W ngx_rc :=
  ngx_rtmp_mp4_field_32 (Z.shiftl a 16);;
  ngx_rtmp_mp4_field_32 (Z.shiftl b 16);;
  ngx_rtmp_mp4_field_32 0;;
  ngx_rtmp_mp4_field_32 (Z.shiftl c 16);;
  ngx_rtmp_mp4_field_32 (Z.shiftl d 16);;
  ngx_rtmp_mp4_field_32 0;;
  ngx_rtmp_mp4_field_32 (Z.shiftl tx 16);;
  ngx_rtmp_mp4_field_32 (Z.shiftl ty 16);;
  ngx_rtmp_mp4_field_32 (Z.shiftl 1 30);;
  mret NGX_OK.

(* ------------------------------------------------------------------ *)
(** ** The session data the writer reads *)

(** The fields of [ngx_rtmp_codec_ctx_t] used here and in the DASH module; the headers are the first
    buffers of their chains. *)
Record codec_ctx := CodecCtx {
  width : Z;
  height : Z;
  frame_rate : Z;
  video_data_rate : Z;
  video_codec_id : Z;
  audio_data_rate : Z;
  audio_codec_id : Z;
  avc_profile : Z;
  avc_compat : Z;
  avc_level : Z;
  audio_channels : Z;
  sample_size : Z;
  sample_rate : Z;
  avc_header : option ngx_buf_t;
  aac_header : option ngx_buf_t
}.

Inductive ngx_rtmp_mp4_track_type_t :=
  | NGX_RTMP_MP4_VIDEO_TRACK
  | NGX_RTMP_MP4_AUDIO_TRACK.

#[export] Instance track_type_eq_dec : EqDecision ngx_rtmp_mp4_track_type_t.
Proof. solve_decision. Defined.

Record ngx_rtmp_mp4_sample_t := Sample {
  smp_size : Z;
  smp_duration : Z;
  smp_delay : Z;
  smp_timestamp : Z;
  smp_key : bool
}.

Definition NGX_RTMP_MP4_SAMPLE_SIZE : Z := 1.
Definition NGX_RTMP_MP4_SAMPLE_DURATION : Z := 2.
Definition NGX_RTMP_MP4_SAMPLE_DELAY : Z := 4.
Definition NGX_RTMP_MP4_SAMPLE_KEY : Z := 8.

(* ------------------------------------------------------------------ *)
(** ** File and movie headers *)

Definition ngx_rtmp_mp4_write_ftyp : W ngx_rc :=
  pos ← ngx_rtmp_mp4_start_box (str "ftyp");
  ngx_rtmp_mp4_box (str "iso6");;
  ngx_rtmp_mp4_field_32 1;;
  ngx_rtmp_mp4_box (str "isom");;
  ngx_rtmp_mp4_box (str "iso6");;
  ngx_rtmp_mp4_box (str "dash");;
  ngx_rtmp_mp4_update_box_size pos;;
  mret NGX_OK.

Definition ngx_rtmp_mp4_write_styp : W ngx_rc :=
  pos ← ngx_rtmp_mp4_start_box (str "styp");
  ngx_rtmp_mp4_box (str "iso6");;
  ngx_rtmp_mp4_field_32 1;;
  ngx_rtmp_mp4_box (str "isom");;
  ngx_rtmp_mp4_box (str "iso6");;
  ngx_rtmp_mp4_box (str "dash");;
  ngx_rtmp_mp4_update_box_size pos;;
  mret NGX_OK.

Definition ngx_rtmp_mp4_write_mvhd : W ngx_rc :=
  pos ← ngx_rtmp_mp4_start_box (str "mvhd");
  ngx_rtmp_mp4_field_32 0;;
  ngx_rtmp_mp4_field_32 0;;
  ngx_rtmp_mp4_field_32 0;;
  ngx_rtmp_mp4_field_32 1000;;
  ngx_rtmp_mp4_field_32 0;;
  ngx_rtmp_mp4_field_32 0x00010000;;
  ngx_rtmp_mp4_field_16 0x0100;;
  ngx_rtmp_mp4_field_16 0;;
  ngx_rtmp_mp4_field_32 0;;
  ngx_rtmp_mp4_field_32 0;;
  ngx_rtmp_mp4_write_matrix 1 0 0 1 0 0;;
  ngx_rtmp_mp4_field_32 0;;
  ngx_rtmp_mp4_field_32 0;;
  ngx_rtmp_mp4_field_32 0;;
  ngx_rtmp_mp4_field_32 0;;
  ngx_rtmp_mp4_field_32 0;;
  ngx_rtmp_mp4_field_32 0;;
  ngx_rtmp_mp4_field_32 1;;
  ngx_rtmp_mp4_update_box_size pos;;
  mret NGX_OK.

Definition ngx_rtmp_mp4_write_tkhd (s : option codec_ctx)
    (ttype : ngx_rtmp_mp4_track_type_t) : W ngx_rc :=
  pos ← ngx_rtmp_mp4_start_box (str "tkhd");
  ngx_rtmp_mp4_field_8 0;;
  ngx_rtmp_mp4_field_24 0x0000000f;;
  ngx_rtmp_mp4_field_32 0;;
  ngx_rtmp_mp4_field_32 0;;
  ngx_rtmp_mp4_field_32 1;;
  ngx_rtmp_mp4_field_32 0;;
  ngx_rtmp_mp4_field_32 0;;
  ngx_rtmp_mp4_field_32 0;;
  ngx_rtmp_mp4_field_32 0;;
  ngx_rtmp_mp4_field_32 0;;
  ngx_rtmp_mp4_field_16
    (if decide (ttype = NGX_RTMP_MP4_VIDEO_TRACK) then 0 else 0x0100);;
  ngx_rtmp_mp4_field_16 0;;
  ngx_rtmp_mp4_write_matrix 1 0 0 1 0 0;;
  (if decide (ttype = NGX_RTMP_MP4_VIDEO_TRACK) then
     match s with
     | Some codec_ctx =>
         ngx_rtmp_mp4_field_32 (Z.shiftl (u32 (width codec_ctx)) 16);;
         ngx_rtmp_mp4_field_32 (Z.shiftl (u32 (height codec_ctx)) 16)
     | None => crash
     end
   else
     ngx_rtmp_mp4_field_32 0;;
     ngx_rtmp_mp4_field_32 0);;
  ngx_rtmp_mp4_update_box_size pos;;
  mret NGX_OK.

Definition ngx_rtmp_mp4_write_mdhd : W ngx_rc :=
  pos ← ngx_rtmp_mp4_start_box (str "mdhd");
  ngx_rtmp_mp4_field_32 0;;
  ngx_rtmp_mp4_field_32 0;;
  ngx_rtmp_mp4_field_32 0;;
  ngx_rtmp_mp4_field_32 1000;;
  ngx_rtmp_mp4_field_32 0;;
  ngx_rtmp_mp4_field_16 0x15C7;;
  ngx_rtmp_mp4_field_16 0;;
  ngx_rtmp_mp4_update_box_size pos;;
  mret NGX_OK.

Definition ngx_rtmp_mp4_write_hdlr (ttype : ngx_rtmp_mp4_track_type_t) : W ngx_rc :=
  pos ← ngx_rtmp_mp4_start_box (str "hdlr");
  ngx_rtmp_mp4_field_32 0;;
  ngx_rtmp_mp4_field_32 0;;
  (if decide (ttype = NGX_RTMP_MP4_VIDEO_TRACK)
   then ngx_rtmp_mp4_box (str "vide") else ngx_rtmp_mp4_box (str "soun"));;
  ngx_rtmp_mp4_field_32 0;;
  ngx_rtmp_mp4_field_32 0;;
  ngx_rtmp_mp4_field_32 0;;
  (if decide (ttype = NGX_RTMP_MP4_VIDEO_TRACK)
   then ngx_rtmp_mp4_data (str "VideoHandler" ++ [0])
   else ngx_rtmp_mp4_data (str "SoundHandler" ++ [0]));;
  ngx_rtmp_mp4_update_box_size pos;;
  mret NGX_OK.

Definition ngx_rtmp_mp4_write_vmhd : W ngx_rc :=
  ngx_rtmp_mp4_field_32 20;;
  ngx_rtmp_mp4_box (str "vmhd");;
  ngx_rtmp_mp4_field_32 0x01;;
  ngx_rtmp_mp4_field_32 0;;
  ngx_rtmp_mp4_field_32 0;;
  mret NGX_OK.

Definition ngx_rtmp_mp4_write_smhd : W ngx_rc :=
  ngx_rtmp_mp4_field_32 16;;
  ngx_rtmp_mp4_box (str "smhd");;
  ngx_rtmp_mp4_field_32 0;;
  ngx_rtmp_mp4_field_16 0;;
  ngx_rtmp_mp4_field_16 0;;
  mret NGX_OK.

Definition ngx_rtmp_mp4_write_dref : W ngx_rc :=
  pos ← ngx_rtmp_mp4_start_box (str "dref");
  ngx_rtmp_mp4_field_32 0;;
  ngx_rtmp_mp4_field_32 1;;
  ngx_rtmp_mp4_field_32 0xc;;
  ngx_rtmp_mp4_box (str "url ");;
  ngx_rtmp_mp4_field_32 0x00000001;;
  ngx_rtmp_mp4_update_box_size pos;;
  mret NGX_OK.

Definition ngx_rtmp_mp4_write_dinf : W ngx_rc :=
  pos ← ngx_rtmp_mp4_start_box (str "dinf");
  ngx_rtmp_mp4_write_dref;;
  ngx_rtmp_mp4_update_box_size pos;;
  mret NGX_OK.

(* ------------------------------------------------------------------ *)
(** ** Sample descriptions *)

Definition ngx_rtmp_mp4_write_avcc (s : option codec_ctx) : W ngx_rc :=
  match s with
  | None => mret NGX_ERROR
  | Some codec_ctx =>
      match avc_header codec_ctx with
      | None => mret NGX_ERROR
      | Some buf =>
          pos ← ngx_rtmp_mp4_start_box (str "avcC");
          (if (b_pos buf + 5 <? b_last buf)%nat
           then ngx_rtmp_mp4_data (drop 5 (buf_data buf))
           else mret NGX_OK);;
          ngx_rtmp_mp4_update_box_size pos;;
          mret NGX_OK
      end
  end.

Definition ngx_rtmp_mp4_write_video (s : option codec_ctx) : W ngx_rc :=
  pos ← ngx_rtmp_mp4_start_box (str "avc1");
  ngx_rtmp_mp4_field_32 0;;
  ngx_rtmp_mp4_field_16 0;;
  ngx_rtmp_mp4_field_16 1;;
  ngx_rtmp_mp4_field_16 0;;
  ngx_rtmp_mp4_field_16 0;;
  ngx_rtmp_mp4_field_32 0;;
  ngx_rtmp_mp4_field_32 0;;
  ngx_rtmp_mp4_field_32 0;;
  match s with
  | Some codec_ctx =>
      ngx_rtmp_mp4_field_16 (u16 (width codec_ctx));;
      ngx_rtmp_mp4_field_16 (u16 (height codec_ctx))
  | None => crash
  end;;
  ngx_rtmp_mp4_field_32 0x00480000;;
  ngx_rtmp_mp4_field_32 0x00480000;;
  ngx_rtmp_mp4_field_32 0;;
  ngx_rtmp_mp4_field_16 1;;
  ngx_rtmp_mp4_field_32 0;;
  ngx_rtmp_mp4_field_32 0;;
  ngx_rtmp_mp4_field_32 0;;
  ngx_rtmp_mp4_field_32 0;;
  ngx_rtmp_mp4_field_32 0;;
  ngx_rtmp_mp4_field_32 0;;
  ngx_rtmp_mp4_field_32 0;;
  ngx_rtmp_mp4_field_32 0;;
  ngx_rtmp_mp4_field_16 0x18;;
  ngx_rtmp_mp4_field_16 0xffff;;
  ngx_rtmp_mp4_write_avcc s;;
  ngx_rtmp_mp4_update_box_size pos;;
  mret NGX_OK.

Definition ngx_rtmp_mp4_write_esds (s : option codec_ctx) : W ngx_rc :=
  match s with
  | None => mret NGX_ERROR
  | Some codec_ctx =>
      match aac_header codec_ctx with
      | None => mret NGX_ERROR
      | Some db =>
          if (b_last db <? b_pos db + 2)%nat then mret NGX_ERROR
          else
            let dsi := drop 2 (buf_data db) in
            let dsi_len := Z.of_nat (b_last db - (b_pos db + 2)) in
            pos ← ngx_rtmp_mp4_start_box (str "esds");
            ngx_rtmp_mp4_field_32 0;;
            ngx_rtmp_mp4_put_descr 0x03 (23 + dsi_len);;
            ngx_rtmp_mp4_field_16 1;;
            ngx_rtmp_mp4_field_8 0;;
            ngx_rtmp_mp4_put_descr 0x04 (15 + dsi_len);;
            ngx_rtmp_mp4_field_8 0x40;;
            ngx_rtmp_mp4_field_8 0x15;;
            ngx_rtmp_mp4_field_24 0;;
            ngx_rtmp_mp4_field_32 0x0001F151;;
            ngx_rtmp_mp4_field_32 0x0001F14D;;
            ngx_rtmp_mp4_put_descr 0x05 dsi_len;;
            ngx_rtmp_mp4_data dsi;;
            ngx_rtmp_mp4_put_descr 0x06 1;;
            ngx_rtmp_mp4_field_8 0x02;;
            ngx_rtmp_mp4_update_box_size pos;;
            mret NGX_OK
      end
  end.

Definition ngx_rtmp_mp4_write_audio (s : option codec_ctx) : W ngx_rc :=
  pos ← ngx_rtmp_mp4_start_box (str "mp4a");
  ngx_rtmp_mp4_field_32 0;;
  ngx_rtmp_mp4_field_16 0;;
  ngx_rtmp_mp4_field_16 1;;
  ngx_rtmp_mp4_field_32 0;;
  ngx_rtmp_mp4_field_32 0;;
  match s with
  | Some codec_ctx =>
      ngx_rtmp_mp4_field_16 (u16 (audio_channels codec_ctx));;
      ngx_rtmp_mp4_field_16 (u16 (sample_size codec_ctx * 8))
  | None => crash
  end;;
  ngx_rtmp_mp4_field_32 0;;
  ngx_rtmp_mp4_field_16 1000;;
  match s with
  | Some codec_ctx => ngx_rtmp_mp4_field_16 (u16 (sample_rate codec_ctx))
  | None => crash
  end;;
  ngx_rtmp_mp4_write_esds s;;
  ngx_rtmp_mp4_update_box_size pos;;
  mret NGX_OK.

Definition ngx_rtmp_mp4_write_stsd (s : option codec_ctx)
    (ttype : ngx_rtmp_mp4_track_type_t) : W ngx_rc :=
  pos ← ngx_rtmp_mp4_start_box (str "stsd");
  ngx_rtmp_mp4_field_32 0;;
  ngx_rtmp_mp4_field_32 1;;
  (if decide (ttype = NGX_RTMP_MP4_VIDEO_TRACK)
   then ngx_rtmp_mp4_write_video s else ngx_rtmp_mp4_write_audio s);;
  ngx_rtmp_mp4_update_box_size pos;;
  mret NGX_OK.

Definition ngx_rtmp_mp4_write_stts : W ngx_rc :=
  pos ← ngx_rtmp_mp4_start_box (str "stts");
  ngx_rtmp_mp4_field_32 0;;
  ngx_rtmp_mp4_field_32 0;;
  ngx_rtmp_mp4_update_box_size pos;;
  mret NGX_OK.

Definition ngx_rtmp_mp4_write_stsc : W ngx_rc :=
  pos ← ngx_rtmp_mp4_start_box (str "stsc");
  ngx_rtmp_mp4_field_32 0;;
  ngx_rtmp_mp4_field_32 0;;
  ngx_rtmp_mp4_update_box_size pos;;
  mret NGX_OK.

Definition ngx_rtmp_mp4_write_stsz : W ngx_rc :=
  pos ← ngx_rtmp_mp4_start_box (str "stsz");
  ngx_rtmp_mp4_field_32 0;;
  ngx_rtmp_mp4_field_32 0;;
  ngx_rtmp_mp4_field_32 0;;
  ngx_rtmp_mp4_update_box_size pos;;
  mret NGX_OK.

Definition ngx_rtmp_mp4_write_stco : W ngx_rc :=
  pos ← ngx_rtmp_mp4_start_box (str "stco");
  ngx_rtmp_mp4_field_32 0;;
  ngx_rtmp_mp4_field_32 0;;
  ngx_rtmp_mp4_update_box_size pos;;
  mret NGX_OK.

(* ------------------------------------------------------------------ *)
(** ** The box hierarchy of the movie *)

Definition ngx_rtmp_mp4_write_stbl (s : option codec_ctx)
    (ttype : ngx_rtmp_mp4_track_type_t) : W ngx_rc :=
  pos ← ngx_rtmp_mp4_start_box (str "stbl");
  ngx_rtmp_mp4_write_stsd s ttype;;
  ngx_rtmp_mp4_write_stts;;
  ngx_rtmp_mp4_write_stsc;;
  ngx_rtmp_mp4_write_stsz;;
  ngx_rtmp_mp4_write_stco;;
  ngx_rtmp_mp4_update_box_size pos;;
  mret NGX_OK.

Definition ngx_rtmp_mp4_write_minf (s : option codec_ctx)
    (ttype : ngx_rtmp_mp4_track_type_t) : W ngx_rc :=
  pos ← ngx_rtmp_mp4_start_box (str "minf");
  (if decide (ttype = NGX_RTMP_MP4_VIDEO_TRACK)
   then ngx_rtmp_mp4_write_vmhd else ngx_rtmp_mp4_write_smhd);;
  ngx_rtmp_mp4_write_dinf;;
  ngx_rtmp_mp4_write_stbl s ttype;;
  ngx_rtmp_mp4_update_box_size pos;;
  mret NGX_OK.

Definition ngx_rtmp_mp4_write_mdia (s : option codec_ctx)
    (ttype : ngx_rtmp_mp4_track_type_t) : W ngx_rc :=
  pos ← ngx_rtmp_mp4_start_box (str "mdia");
  ngx_rtmp_mp4_write_mdhd;;
  ngx_rtmp_mp4_write_hdlr ttype;;
  ngx_rtmp_mp4_write_minf s ttype;;
  ngx_rtmp_mp4_update_box_size pos;;
  mret NGX_OK.

Definition ngx_rtmp_mp4_write_trak (s : option codec_ctx)
    (ttype : ngx_rtmp_mp4_track_type_t) : W ngx_rc :=
  pos ← ngx_rtmp_mp4_start_box (str "trak");
  ngx_rtmp_mp4_write_tkhd s ttype;;
  ngx_rtmp_mp4_write_mdia s ttype;;
  ngx_rtmp_mp4_update_box_size pos;;
  mret NGX_OK.

Definition ngx_rtmp_mp4_write_mvex : W ngx_rc :=
  pos ← ngx_rtmp_mp4_start_box (str "mvex");
  ngx_rtmp_mp4_field_32 0x20;;
  ngx_rtmp_mp4_box (str "trex");;
  ngx_rtmp_mp4_field_32 0;;
  ngx_rtmp_mp4_field_32 1;;
  ngx_rtmp_mp4_field_32 1;;
  ngx_rtmp_mp4_field_32 0;;
  ngx_rtmp_mp4_field_32 0;;
  ngx_rtmp_mp4_field_32 0;;
  ngx_rtmp_mp4_update_box_size pos;;
  mret NGX_OK.

Definition ngx_rtmp_mp4_write_moov (s : option codec_ctx)
    (ttype : ngx_rtmp_mp4_track_type_t) : W ngx_rc :=
  pos ← ngx_rtmp_mp4_start_box (str "moov");
  ngx_rtmp_mp4_write_mvhd;;
  ngx_rtmp_mp4_write_mvex;;
  ngx_rtmp_mp4_write_trak s ttype;;
  ngx_rtmp_mp4_update_box_size pos;;
  mret NGX_OK.

(* ------------------------------------------------------------------ *)
(** ** Movie fragments *)

Definition ngx_rtmp_mp4_write_tfhd : W ngx_rc :=
  pos ← ngx_rtmp_mp4_start_box (str "tfhd");
  ngx_rtmp_mp4_field_32 0x00020000;;
  ngx_rtmp_mp4_field_32 1;;
  ngx_rtmp_mp4_update_box_size pos;;
  mret NGX_OK.

Definition ngx_rtmp_mp4_write_tfdt (earliest_pres_time : Z) : W ngx_rc :=
  pos ← ngx_rtmp_mp4_start_box (str "tfdt");
  ngx_rtmp_mp4_field_32 0x00000000;;
  ngx_rtmp_mp4_field_32 earliest_pres_time;;
  ngx_rtmp_mp4_update_box_size pos;;
  mret NGX_OK.

(** [sample_mask & bit]. *)
Definition has (sample_mask bit : Z) : bool := negb (Z.land sample_mask bit =? 0).

Definition trun_nitems (sample_mask : Z) : Z :=
  (if has sample_mask NGX_RTMP_MP4_SAMPLE_DURATION then 1 else 0) +
  (if has sample_mask NGX_RTMP_MP4_SAMPLE_SIZE then 1 else 0) +
  (if has sample_mask NGX_RTMP_MP4_SAMPLE_KEY then 1 else 0) +
  (if has sample_mask NGX_RTMP_MP4_SAMPLE_DELAY then 1 else 0).

Definition trun_flags (sample_mask : Z) : Z :=
  let flags := 0x01 in
  let flags := if has sample_mask NGX_RTMP_MP4_SAMPLE_DURATION
               then Z.lor flags 0x000100 else flags in
  let flags := if has sample_mask NGX_RTMP_MP4_SAMPLE_SIZE
               then Z.lor flags 0x000200 else flags in
  let flags := if has sample_mask NGX_RTMP_MP4_SAMPLE_KEY
               then Z.lor flags 0x000400 else flags in
  if has sample_mask NGX_RTMP_MP4_SAMPLE_DELAY
  then Z.lor flags 0x000800 else flags.

(** The body of the loop over the samples. *)
Definition trun_sample (sample_mask : Z) (sample : ngx_rtmp_mp4_sample_t) : W ngx_rc :=
  (if has sample_mask NGX_RTMP_MP4_SAMPLE_DURATION
   then ngx_rtmp_mp4_field_32 (smp_duration sample) else mret NGX_OK);;
  (if has sample_mask NGX_RTMP_MP4_SAMPLE_SIZE
   then ngx_rtmp_mp4_field_32 (smp_size sample) else mret NGX_OK);;
  (if has sample_mask NGX_RTMP_MP4_SAMPLE_KEY
   then ngx_rtmp_mp4_field_32 (if smp_key sample then 0x00000000 else 0x00010000)
   else mret NGX_OK);;
  (if has sample_mask NGX_RTMP_MP4_SAMPLE_DELAY
   then ngx_rtmp_mp4_field_32 (smp_delay sample) else mret NGX_OK).

Fixpoint trun_samples (sample_mask : Z) (samples : list ngx_rtmp_mp4_sample_t) : W ngx_rc :=
  match samples with
  | [] => mret NGX_OK
  | sample :: samples => trun_sample sample_mask sample;; trun_samples sample_mask samples
  end.

(** [samples] holds the [sample_count] samples of the array; subtracting a
    NULL [pos] or [moof_pos] is undefined. *)
Definition ngx_rtmp_mp4_write_trun (samples : list ngx_rtmp_mp4_sample_t)
    (sample_mask : Z) (moof_pos : option nat) : W ngx_rc :=
  let sample_count := Z.of_nat (length samples) in
  pos ← ngx_rtmp_mp4_start_box (str "trun");
  match pos, moof_pos with
  | Some p, Some m =>
      let offset := u32 ((Z.of_nat p - Z.of_nat m) + 20 +
                         u32 (sample_count * trun_nitems sample_mask * 4) + 8) in
      ngx_rtmp_mp4_field_32 (trun_flags sample_mask);;
      ngx_rtmp_mp4_field_32 sample_count;;
      ngx_rtmp_mp4_field_32 offset;;
      trun_samples sample_mask samples;;
      ngx_rtmp_mp4_update_box_size pos;;
      mret NGX_OK
  | _, _ => crash
  end.

Definition ngx_rtmp_mp4_write_traf (earliest_pres_time : Z)
    (samples : list ngx_rtmp_mp4_sample_t) (sample_mask : Z)
    (moof_pos : option nat) : W ngx_rc :=
  pos ← ngx_rtmp_mp4_start_box (str "traf");
  ngx_rtmp_mp4_write_tfhd;;
  ngx_rtmp_mp4_write_tfdt earliest_pres_time;;
  ngx_rtmp_mp4_write_trun samples sample_mask moof_pos;;
  ngx_rtmp_mp4_update_box_size pos;;
  mret NGX_OK.

Definition ngx_rtmp_mp4_write_mfhd (index : Z) : W ngx_rc :=
  pos ← ngx_rtmp_mp4_start_box (str "mfhd");
  ngx_rtmp_mp4_field_32 0;;
  ngx_rtmp_mp4_field_32 index;;
  ngx_rtmp_mp4_update_box_size pos;;
  mret NGX_OK.

Definition ngx_rtmp_mp4_write_sidx (reference_size earliest_pres_time latest_pres_time : Z)
  : W ngx_rc :=
  let duration := u32 (latest_pres_time - earliest_pres_time) in
  pos ← ngx_rtmp_mp4_start_box (str "sidx");
  ngx_rtmp_mp4_field_32 0;;
  ngx_rtmp_mp4_field_32 1;;
  ngx_rtmp_mp4_field_32 1000;;
  ngx_rtmp_mp4_field_32 earliest_pres_time;;
  ngx_rtmp_mp4_field_32 duration;;
  ngx_rtmp_mp4_field_16 0;;
  ngx_rtmp_mp4_field_16 1;;
  ngx_rtmp_mp4_field_32 reference_size;;
  ngx_rtmp_mp4_field_32 duration;;
  ngx_rtmp_mp4_field_8 0x90;;
  ngx_rtmp_mp4_field_24 0;;
  ngx_rtmp_mp4_update_box_size pos;;
  mret NGX_OK.

Definition ngx_rtmp_mp4_write_moof (earliest_pres_time : Z)
    (samples : list ngx_rtmp_mp4_sample_t) (sample_mask index : Z) : W ngx_rc :=
  pos ← ngx_rtmp_mp4_start_box (str "moof");
  ngx_rtmp_mp4_write_mfhd index;;
  ngx_rtmp_mp4_write_traf earliest_pres_time samples sample_mask pos;;
  ngx_rtmp_mp4_update_box_size pos;;
  mret NGX_OK.

Definition ngx_rtmp_mp4_write_mdat (size : Z) : W ngx_rc :=
  ngx_rtmp_mp4_field_32 size;;
  ngx_rtmp_mp4_box (str "mdat");;
  mret NGX_OK.

(* ------------------------------------------------------------------ *)
(** ** Specification: trees of boxes *)

(** A box is its four-character type, its own fields and its sub-boxes; the
    size field is not part of the tree. *)
#[warnings="-register-all"]
Inductive mbox := MBox (type fields : list Z) (children : list mbox).

Definition box (type payload : list Z) : list Z :=
  be_bytes 4 (8 + Z.of_nat (length payload)) ++ type ++ payload.

Fixpoint serialize (t : mbox) : list Z :=
  match t with
  | MBox type fields children =>
      box type (fields ++ (fix go l := match l with
                                       | [] => []
                                       | c :: l => serialize c ++ go l
                                       end) children)
  end.

Definition serialize_all (l : list mbox) : list Z := concat (map serialize l).

Lemma serialize_eq type fields children :
  serialize (MBox type fields children) = box type (fields ++ serialize_all children).
Proof.
  simpl. do 2 f_equal. unfold serialize_all.
  induction children as [|c l IH]; simpl; [done|]. now rewrite IH.
Qed.

Definition b32 (n : Z) : list Z := be_bytes 4 n.
Definition b24 (n : Z) : list Z := be_bytes 3 n.
Definition b16 (n : Z) : list Z := be_bytes 2 n.
Definition b8 (n : Z) : list Z := be_bytes 1 n.

(* ------------------------------------------------------------------ *)
(** ** Appending with enough room *)

(** Started at offset [at_], [m] succeeds and appends exactly the bytes [l]. *)
Definition appends (m : W ngx_rc) (at_ : nat) (l : list Z) : Prop :=
  bytes_ok l /\
  forall b, buf_ok b -> b_last b = at_ -> (length l <= buf_room b)%nat ->
  m b = Some (NGX_OK, buf_push b l).

(** As [appends], the return code being ignored by the caller. *)
Definition runs (m : W ngx_rc) (at_ : nat) (l : list Z) : Prop :=
  bytes_ok l /\
  forall b, buf_ok b -> b_last b = at_ -> (length l <= buf_room b)%nat ->
  exists rc, m b = Some (rc, buf_push b l).

(** A box opened at [p] with the bytes [l] of its payload written: the rest
    [k] of the writer appends [r] and fills in the size. *)
Definition box_tail (k : W ngx_rc) (p : nat) (type l r : list Z) : Prop :=
  bytes_ok r /\
  forall b, buf_ok b -> bytes_ok (type ++ l) -> b_last b = p ->
  (8 + length l + length r <= buf_room b)%nat ->
  k (buf_push b (b32 0 ++ type ++ l)) = Some (NGX_OK, buf_push b (box type (l ++ r))).

Lemma appends_runs m n l : appends m n l -> runs m n l.
Proof. intros [? H]. split; [done|]. intros b ???. exists NGX_OK. auto. Qed.

Lemma put_bytes_appends bytes n : bytes_ok bytes -> appends (put_bytes bytes) n bytes.
Proof.
  intros Hb. split; [done|]. intros b Hok Hn Hr. unfold put_bytes, buf_room in *.
  case_if; [destruct Hok as (_ & ? & _); lia|reflexivity].
Qed.

Lemma mret_runs n rc : runs (mret rc) n [].
Proof. split; [constructor|]. intros b _ _ _. exists rc. now rewrite buf_push_nil. Qed.

Lemma bind_runs m k n l1 l2 :
  runs m n l1 -> runs k (n + length l1) l2 -> runs (m;; k) n (l1 ++ l2).
Proof.
  intros [Ho Hm] [Ho2 Hk]. split; [now apply bytes_ok_app|]. intros b Hok Hn Hr.
  rewrite length_app in Hr. destruct (Hm b Hok Hn ltac:(lia)) as (rc & E).
  unfold mbind, W_bind. rewrite E. edestruct Hk as (rc' & ->).
  - apply buf_push_ok; auto; lia.
  - cbn. lia.
  - rewrite buf_push_room by (auto; lia). lia.
  - exists rc'. now rewrite buf_push_push by (auto; lia).
Qed.

Lemma bind_appends m k n l1 l2 :
  runs m n l1 -> appends k (n + length l1) l2 -> appends (m;; k) n (l1 ++ l2).
Proof.
  intros [Ho Hm] [Ho2 Hk]. split; [now apply bytes_ok_app|]. intros b Hok Hn Hr.
  rewrite length_app in Hr. destruct (Hm b Hok Hn ltac:(lia)) as (rc & E).
  unfold mbind, W_bind. rewrite E, Hk.
  - now rewrite buf_push_push by (auto; lia).
  - apply buf_push_ok; auto; lia.
  - cbn. lia.
  - rewrite buf_push_room by (auto; lia). lia.
Qed.

Lemma ret_appends n : appends (mret NGX_OK) n [].
Proof. split; [constructor|]. intros b _ _ _. now rewrite buf_push_nil. Qed.

Lemma field_32_bytes v :
  [Z.land (Z.shiftr (u32 v) 24) 255; Z.land (Z.shiftr (u32 v) 16) 255;
   Z.land (Z.shiftr (u32 v) 8) 255; Z.land (u32 v) 255] = b32 v.
Proof. unfold b32. now rewrite <- (be_bytes_mod 4 v 4) by lia. Qed.

Lemma field_24_bytes v :
  [Z.land (Z.shiftr (u32 v) 16) 255; Z.land (Z.shiftr (u32 v) 8) 255;
   Z.land (u32 v) 255] = b24 v.
Proof. unfold b24. now rewrite <- (be_bytes_mod 3 v 4) by lia. Qed.

Lemma field_16_bytes v :
  [Z.land (Z.shiftr (u16 v) 8) 255; Z.land (u16 v) 255] = b16 v.
Proof. unfold b16. now rewrite <- (be_bytes_mod 2 v 2) by lia. Qed.

Lemma field_8_bytes v : [Z.land (u8 v) 255] = b8 v.
Proof. unfold b8. now rewrite <- (be_bytes_mod 1 v 1) by lia. Qed.

Lemma be16_u16 v : b16 (u16 v) = b16 v.
Proof. unfold b16. now rewrite <- (be_bytes_mod 2 v 2) by lia. Qed.

Lemma cstr_ok s : bytes_ok (str s ++ [0]).
Proof. apply bytes_ok_app. split; [apply str_ok|]. decided. Qed.

Lemma field_32_appends v n : appends (ngx_rtmp_mp4_field_32 v) n (b32 v).
Proof. rewrite <- field_32_bytes. apply put_bytes_appends. rewrite field_32_bytes. apply be_bytes_ok. Qed.

Lemma field_24_appends v n : appends (ngx_rtmp_mp4_field_24 v) n (b24 v).
Proof. rewrite <- field_24_bytes. apply put_bytes_appends. rewrite field_24_bytes. apply be_bytes_ok. Qed.

Lemma field_16_appends v n : appends (ngx_rtmp_mp4_field_16 v) n (b16 v).
Proof. rewrite <- field_16_bytes. apply put_bytes_appends. rewrite field_16_bytes. apply be_bytes_ok. Qed.

Lemma field_8_appends v n : appends (ngx_rtmp_mp4_field_8 v) n (b8 v).
Proof. rewrite <- field_8_bytes. apply put_bytes_appends. rewrite field_8_bytes. apply be_bytes_ok. Qed.

Lemma box_code_appends s n : appends (ngx_rtmp_mp4_box (str s)) n (str s).
Proof. apply put_bytes_appends, str_ok. Qed.

Lemma data_appends data n : bytes_ok data -> appends (ngx_rtmp_mp4_data data) n data.
Proof. apply put_bytes_appends. Qed.

Lemma length_b32 v : length (b32 v) = 4%nat. Proof. reflexivity. Qed.
Lemma length_b24 v : length (b24 v) = 3%nat. Proof. reflexivity. Qed.
Lemma length_b16 v : length (b16 v) = 2%nat. Proof. reflexivity. Qed.
Lemma length_b8 v : length (b8 v) = 1%nat. Proof. reflexivity. Qed.

Hint Rewrite length_b32 length_b24 length_b16 length_b8 : lmss_len.

Lemma length_box type payload :
  length type = 4%nat -> length (box type payload) = (8 + length payload)%nat.
Proof. intros. unfold box. len. Qed.

Lemma box_ok type payload : bytes_ok type -> bytes_ok payload -> bytes_ok (box type payload).
Proof. intros. unfold box. rewrite !bytes_ok_app. auto using be_bytes_ok. Qed.

Lemma start_box_spec type b :
  buf_ok b -> length type = 4%nat -> bytes_ok type -> (8 <= buf_room b)%nat ->
  ngx_rtmp_mp4_start_box type b = Some (Some (b_last b), buf_push b (b32 0 ++ type)).
Proof.
  intros Hok Ht Hty Hr. unfold ngx_rtmp_mp4_start_box.
  rewrite (proj2 (field_32_appends 0 (b_last b))) by (auto; len).
  unfold ngx_rtmp_mp4_box.
  rewrite (proj2 (put_bytes_appends type (b_last b + 4) Hty)).
  - now rewrite buf_push_push by (auto; len).
  - apply buf_push_ok; [auto|len|apply be_bytes_ok].
  - reflexivity.
  - rewrite buf_push_room by (auto; len). len.
Qed.

Lemma update_box_size_spec type payload b :
  buf_ok b -> length type = 4%nat -> (8 + length payload <= buf_room b)%nat ->
  ngx_rtmp_mp4_update_box_size (Some (b_last b)) (buf_push b (b32 0 ++ type ++ payload)) =
  Some (NGX_OK, buf_push b (box type payload)).
Proof.
  intros Hok Ht Hr. destruct Hok as (Hp & Hl & Hb). unfold buf_room in Hr.
  pose proof Hl as Hl'. unfold b_end in Hl', Hr. cbn [ngx_rtmp_mp4_update_box_size].
  unfold ngx_rtmp_mp4_field_32. rewrite field_32_bytes.
  cbn [b_mem b_last b_pos buf_push].
  replace (Z.of_nat (b_last b + length (b32 0 ++ type ++ payload) - b_last b))
    with (8 + Z.of_nat (length payload)) by len.
  unfold put_bytes, b_end. cbn [b_mem b_last b_pos]. rewrite length_splice by len.
  case_if; [len|]. do 2 f_equal. unfold buf_push. cbn [b_mem b_last b_pos]. f_equal.
  now rewrite splice_overwrite by len.
Qed.

Lemma box_appends s (body : option nat -> W ngx_rc) p r :
  length (str s) = 4%nat -> box_tail (body (Some p)) p (str s) [] r ->
  appends (pos ← ngx_rtmp_mp4_start_box (str s); body pos) p (box (str s) r).
Proof.
  intros Ht [Hr Hb]. split; [now apply box_ok; [apply str_ok|]|].
  intros b Hok Hp Hroom. rewrite length_box in Hroom by done.
  unfold mbind, W_bind. rewrite start_box_spec by (auto using str_ok; lia). subst p.
  rewrite <- (app_nil_r (str s)) at 1. apply Hb; auto. rewrite app_nil_r. apply str_ok.
Qed.

Lemma tail_step m k p s l x r :
  length (str s) = 4%nat -> runs m (p + 8 + length l) x ->
  box_tail k p (str s) (l ++ x) r -> box_tail (m;; k) p (str s) l (x ++ r).
Proof.
  intros Ht [Hx Hm] [Hr Hk]. split; [now apply bytes_ok_app|].
  intros b Hok Hl Hp Hroom. rewrite length_app in Hroom.
  unfold mbind, W_bind. destruct (Hm (buf_push b (b32 0 ++ str s ++ l))) as (rc & ->).
  - apply buf_push_ok; auto; [len|]. rewrite bytes_ok_app. split; [apply be_bytes_ok|done].
  - cbn. len.
  - rewrite buf_push_room by (auto; len). len.
  - rewrite buf_push_push by (auto; len). rewrite <- !app_assoc.
    rewrite (app_assoc l x r). apply Hk; auto; [|len].
    rewrite app_assoc. now apply bytes_ok_app.
Qed.

Lemma tail_close p s l :
  length (str s) = 4%nat ->
  box_tail (ngx_rtmp_mp4_update_box_size (Some p);; mret NGX_OK) p (str s) l [].
Proof.
  intros Ht. split; [constructor|]. intros b Hok _ Hp Hr. subst p. unfold mbind, W_bind.
  rewrite update_box_size_spec by (auto; simpl in *; lia). now rewrite app_nil_r.
Qed.

Lemma appends_eq m n l l' : appends m n l -> l = l' -> appends m n l'.
Proof. now intros ? <-. Qed.

Lemma runs_eq m n l l' : runs m n l -> l = l' -> runs m n l'.
Proof. now intros ? <-. Qed.

Lemma runs_if P `{Decision P} m1 m2 n l1 l2 :
  runs m1 n l1 -> runs m2 n l2 ->
  runs (if decide P then m1 else m2) n (if decide P then l1 else l2).
Proof. intros. now case_decide. Qed.

Lemma runs_ifb (b : bool) m1 m2 n l1 l2 :
  runs m1 n l1 -> runs m2 n l2 -> runs (if b then m1 else m2) n (if b then l1 else l2).
Proof. intros. now destruct b. Qed.

Create HintDb mp4w.
#[local] Hint Constants Opaque : mp4w.
#[local] Hint Resolve appends_runs field_32_appends field_24_appends
  field_16_appends field_8_appends mret_runs box_code_appends data_appends
  str_ok cstr_ok : mp4w.

(** Runs a straight-line writer, collecting what it appends. *)
Ltac mp4_run :=
  first
    [ solve [eauto with mp4w]
    | eapply runs_if; mp4_run
    | eapply runs_ifb; mp4_run
    | eapply bind_runs; mp4_run ].
Ltac mp4_step :=
  first
    [ apply tail_close; reflexivity
    | eapply tail_step; [reflexivity|mp4_run|mp4_step]
    | apply ret_appends
    | eapply bind_appends; [mp4_run|mp4_step] ].
Ltac mp4_box := apply box_appends; [reflexivity|]; mp4_step.
Ltac mp4_eq :=
  try rewrite serialize_eq; unfold serialize_all; cbn [map concat];
  rewrite ?serialize_eq; unfold serialize_all; cbn [map concat];
  rewrite ?app_nil_r, <- ?app_assoc, ?app_nil_l; reflexivity.

Definition matrix_bytes (a b c d tx ty : Z) : list Z :=
  b32 (Z.shiftl a 16) ++ b32 (Z.shiftl b 16) ++ b32 0 ++
  b32 (Z.shiftl c 16) ++ b32 (Z.shiftl d 16) ++ b32 0 ++
  b32 (Z.shiftl tx 16) ++ b32 (Z.shiftl ty 16) ++ b32 (Z.shiftl 1 30).

Lemma write_matrix_appends a b c d tx ty n :
  appends (ngx_rtmp_mp4_write_matrix a b c d tx ty) n (matrix_bytes a b c d tx ty).
Proof. eapply appends_eq; [unfold ngx_rtmp_mp4_write_matrix; mp4_step|mp4_eq]. Qed.

Lemma put_descr_appends tag size n :
  appends (ngx_rtmp_mp4_put_descr tag size) n (b8 tag ++ b8 (Z.land size 127)).
Proof. eapply appends_eq; [unfold ngx_rtmp_mp4_put_descr; mp4_step|mp4_eq]. Qed.

#[local] Hint Resolve write_matrix_appends put_descr_appends : mp4w.
(** *** The boxes of the initialisation segment *)

Definition brands : list Z :=
  str "iso6" ++ b32 1 ++ str "isom" ++ str "iso6" ++ str "dash".
Definition tree_ftyp : mbox := MBox (str "ftyp") brands [].
Definition tree_styp : mbox := MBox (str "styp") brands [].

Definition tree_mvhd : mbox :=
  MBox (str "mvhd")
    (b32 0 ++ b32 0 ++ b32 0 ++ b32 1000 ++ b32 0 ++ b32 0x00010000 ++
     b16 0x0100 ++ b16 0 ++ b32 0 ++ b32 0 ++ matrix_bytes 1 0 0 1 0 0 ++
     b32 0 ++ b32 0 ++ b32 0 ++ b32 0 ++ b32 0 ++ b32 0 ++ b32 1) [].

Definition tree_tkhd (c : codec_ctx) (ttype : ngx_rtmp_mp4_track_type_t) : mbox :=
  MBox (str "tkhd")
    (b8 0 ++ b24 0xf ++ b32 0 ++ b32 0 ++ b32 1 ++ b32 0 ++ b32 0 ++
     b32 0 ++ b32 0 ++ b32 0 ++
     b16 (if decide (ttype = NGX_RTMP_MP4_VIDEO_TRACK) then 0 else 0x0100) ++ b16 0 ++
     matrix_bytes 1 0 0 1 0 0 ++
     (if decide (ttype = NGX_RTMP_MP4_VIDEO_TRACK)
      then b32 (Z.shiftl (u32 (width c)) 16) ++ b32 (Z.shiftl (u32 (height c)) 16)
      else b32 0 ++ b32 0)) [].

Definition tree_mdhd : mbox :=
  MBox (str "mdhd")
    (b32 0 ++ b32 0 ++ b32 0 ++ b32 1000 ++ b32 0 ++ b16 0x15C7 ++ b16 0) [].

Definition tree_hdlr (ttype : ngx_rtmp_mp4_track_type_t) : mbox :=
  MBox (str "hdlr")
    (b32 0 ++ b32 0 ++
     (if decide (ttype = NGX_RTMP_MP4_VIDEO_TRACK) then str "vide" else str "soun") ++
     b32 0 ++ b32 0 ++ b32 0 ++
     (if decide (ttype = NGX_RTMP_MP4_VIDEO_TRACK)
      then str "VideoHandler" ++ [0] else str "SoundHandler" ++ [0])) [].

Definition tree_vmhd : mbox := MBox (str "vmhd") (b32 1 ++ b32 0 ++ b32 0) [].
Definition tree_smhd : mbox := MBox (str "smhd") (b32 0 ++ b16 0 ++ b16 0) [].
Definition tree_url : mbox := MBox (str "url ") (b32 1) [].
Definition tree_dref : mbox := MBox (str "dref") (b32 0 ++ b32 1) [tree_url].
Definition tree_dinf : mbox := MBox (str "dinf") [] [tree_dref].

Lemma write_ftyp_appends n : appends ngx_rtmp_mp4_write_ftyp n (serialize tree_ftyp).
Proof. eapply appends_eq; [mp4_box|mp4_eq]. Qed.

Lemma write_styp_appends n : appends ngx_rtmp_mp4_write_styp n (serialize tree_styp).
Proof. eapply appends_eq; [mp4_box|mp4_eq]. Qed.

Lemma write_mvhd_appends n : appends ngx_rtmp_mp4_write_mvhd n (serialize tree_mvhd).
Proof. eapply appends_eq; [mp4_box|mp4_eq]. Qed.

Lemma write_tkhd_appends c ttype n :
  appends (ngx_rtmp_mp4_write_tkhd (Some c) ttype) n (serialize (tree_tkhd c ttype)).
Proof. eapply appends_eq; [unfold ngx_rtmp_mp4_write_tkhd; cbv iota; mp4_box|unfold tree_tkhd; mp4_eq]. Qed.

Lemma write_mdhd_appends n : appends ngx_rtmp_mp4_write_mdhd n (serialize tree_mdhd).
Proof. eapply appends_eq; [mp4_box|mp4_eq]. Qed.

Lemma write_hdlr_appends ttype n :
  appends (ngx_rtmp_mp4_write_hdlr ttype) n (serialize (tree_hdlr ttype)).
Proof. eapply appends_eq; [mp4_box|unfold tree_hdlr; mp4_eq]. Qed.

Lemma write_vmhd_appends n : appends ngx_rtmp_mp4_write_vmhd n (serialize tree_vmhd).
Proof. eapply appends_eq; [unfold ngx_rtmp_mp4_write_vmhd; mp4_step|mp4_eq]. Qed.

Lemma write_smhd_appends n : appends ngx_rtmp_mp4_write_smhd n (serialize tree_smhd).
Proof. eapply appends_eq; [unfold ngx_rtmp_mp4_write_smhd; mp4_step|mp4_eq]. Qed.

Lemma write_dref_appends n : appends ngx_rtmp_mp4_write_dref n (serialize tree_dref).
Proof. eapply appends_eq; [mp4_box|mp4_eq]. Qed.
#[local] Hint Resolve write_ftyp_appends write_styp_appends write_mvhd_appends
  write_tkhd_appends write_mdhd_appends write_hdlr_appends write_vmhd_appends
  write_smhd_appends write_dref_appends : mp4w.

Lemma write_dinf_appends n : appends ngx_rtmp_mp4_write_dinf n (serialize tree_dinf).
Proof. eapply appends_eq; [mp4_box|mp4_eq]. Qed.
#[local] Hint Resolve write_dinf_appends : mp4w.

Section Movie.
Context (c : codec_ctx).
Hypothesis avc_ok : forall b, avc_header c = Some b -> buf_ok b.
Hypothesis aac_ok : forall b, aac_header c = Some b -> buf_ok b.

(** The avcC box is the AVC decoder configuration behind the five bytes of
    the FLV tag header; without an AVC header there is no box. *)
Definition trees_avcc : list mbox :=
  match avc_header c with
  | Some b => [MBox (str "avcC") (drop 5 (buf_data b)) []]
  | None => []
  end.

Definition tree_avc1 : mbox :=
  MBox (str "avc1")
    (b32 0 ++ b16 0 ++ b16 1 ++ b16 0 ++ b16 0 ++ b32 0 ++ b32 0 ++ b32 0 ++
     b16 (width c) ++ b16 (height c) ++ b32 0x00480000 ++ b32 0x00480000 ++
     b32 0 ++ b16 1 ++ b32 0 ++ b32 0 ++ b32 0 ++ b32 0 ++ b32 0 ++ b32 0 ++
     b32 0 ++ b32 0 ++ b16 0x18 ++ b16 0xffff) trees_avcc.

(** An MPEG-4 descriptor: tag, seven-bit length, content. *)
Definition descr (tag : Z) (content : list Z) : list Z :=
  b8 tag ++ b8 (Z.land (Z.of_nat (length content)) 127) ++ content.

(** The elementary stream descriptor around the audio specific config. *)
Definition es_descr (dsi : list Z) : list Z :=
  descr 3 (b16 1 ++ b8 0 ++
    descr 4 (b8 0x40 ++ b8 0x15 ++ b24 0 ++ b32 0x0001F151 ++ b32 0x0001F14D ++
      descr 5 dsi) ++
    descr 6 (b8 2)).

Definition trees_esds : list mbox :=
  match aac_header c with
  | Some b => if (b_last b <? b_pos b + 2)%nat then []
              else [MBox (str "esds") (b32 0 ++ es_descr (drop 2 (buf_data b))) []]
  | None => []
  end.

Definition tree_mp4a : mbox :=
  MBox (str "mp4a")
    (b32 0 ++ b16 0 ++ b16 1 ++ b32 0 ++ b32 0 ++ b16 (audio_channels c) ++
     b16 (sample_size c * 8) ++ b32 0 ++ b16 1000 ++ b16 (sample_rate c)) trees_esds.

Definition tree_stsd (ttype : ngx_rtmp_mp4_track_type_t) : mbox :=
  MBox (str "stsd") (b32 0 ++ b32 1)
    [if decide (ttype = NGX_RTMP_MP4_VIDEO_TRACK) then tree_avc1 else tree_mp4a].

Definition tree_stbl (ttype : ngx_rtmp_mp4_track_type_t) : mbox :=
  MBox (str "stbl") []
    [tree_stsd ttype;
     MBox (str "stts") (b32 0 ++ b32 0) [];
     MBox (str "stsc") (b32 0 ++ b32 0) [];
     MBox (str "stsz") (b32 0 ++ b32 0 ++ b32 0) [];
     MBox (str "stco") (b32 0 ++ b32 0) []].

Definition tree_minf (ttype : ngx_rtmp_mp4_track_type_t) : mbox :=
  MBox (str "minf") []
    [if decide (ttype = NGX_RTMP_MP4_VIDEO_TRACK) then tree_vmhd else tree_smhd;
     tree_dinf; tree_stbl ttype].

Definition tree_moov (ttype : ngx_rtmp_mp4_track_type_t) : mbox :=
  MBox (str "moov") []
    [tree_mvhd;
     MBox (str "mvex") []
       [MBox (str "trex") (b32 0 ++ b32 1 ++ b32 1 ++ b32 0 ++ b32 0 ++ b32 0) []];
     MBox (str "trak") []
       [tree_tkhd c ttype;
        MBox (str "mdia") [] [tree_mdhd; tree_hdlr ttype; tree_minf ttype]]].

Lemma write_avcc_runs n :
  runs (ngx_rtmp_mp4_write_avcc (Some c)) n (serialize_all trees_avcc).
Proof.
  unfold ngx_rtmp_mp4_write_avcc, trees_avcc. cbv iota.
  destruct (avc_header c) as [b|] eqn:E; [|apply mret_runs].
  assert (bytes_ok (drop 5 (buf_data b))) as Hb by auto with lmss.
  apply appends_runs. eapply appends_eq; [mp4_box|].
  unfold serialize_all. cbn [map concat]. rewrite serialize_eq, !app_nil_r. f_equal.
  case_if; [reflexivity|]. symmetry. apply drop_ge.
  rewrite length_buf_data by auto. lia.
Qed.
#[local] Hint Resolve write_avcc_runs : mp4w.

Lemma write_video_appends n :
  appends (ngx_rtmp_mp4_write_video (Some c)) n (serialize tree_avc1).
Proof.
  eapply appends_eq; [unfold ngx_rtmp_mp4_write_video; cbv iota; mp4_box|].
  unfold tree_avc1. rewrite serialize_eq. rewrite <- (be16_u16 (width c)), <- (be16_u16 (height c)).
  f_equal. rewrite app_nil_r, <- !app_assoc. reflexivity.
Qed.

Lemma write_esds_runs n :
  runs (ngx_rtmp_mp4_write_esds (Some c)) n (serialize_all trees_esds).
Proof.
  unfold ngx_rtmp_mp4_write_esds, trees_esds. cbv iota.
  destruct (aac_header c) as [b|] eqn:E; [|apply mret_runs].
  case_if; [apply mret_runs|].
  assert (bytes_ok (drop 2 (buf_data b))) as Hb by auto with lmss.
  assert (Z.of_nat (b_last b - (b_pos b + 2)) = Z.of_nat (length (drop 2 (buf_data b)))) as ->.
  { rewrite length_drop, length_buf_data by auto. lia. }
  set (dsi := drop 2 (buf_data b)) in *. cbv zeta.
  apply appends_runs. eapply appends_eq; [mp4_box|].
  unfold serialize_all. cbn [map concat]. rewrite serialize_eq, app_nil_r. f_equal.
  rewrite !app_nil_r, <- !app_assoc. do 2 f_equal. unfold es_descr, descr.
  rewrite <- !app_assoc. autorewrite with lmss_len.
  repeat match goal with
  | |- ?x ++ _ = ?x ++ _ => f_equal
  | |- b8 (Z.land ?a 127) ++ _ = b8 (Z.land ?b 127) ++ _ => replace a with b by lia
  end; reflexivity.
Qed.
#[local] Hint Resolve write_video_appends write_esds_runs : mp4w.

Lemma write_audio_appends n :
  appends (ngx_rtmp_mp4_write_audio (Some c)) n (serialize tree_mp4a).
Proof.
  eapply appends_eq; [unfold ngx_rtmp_mp4_write_audio; cbv iota; mp4_box|].
  unfold tree_mp4a. rewrite serialize_eq, <- (be16_u16 (audio_channels c)),
    <- (be16_u16 (sample_size c * 8)), <- (be16_u16 (sample_rate c)).
  f_equal. rewrite app_nil_r, <- !app_assoc. reflexivity.
Qed.
#[local] Hint Resolve write_audio_appends : mp4w.

Lemma write_stsd_appends ttype n :
  appends (ngx_rtmp_mp4_write_stsd (Some c) ttype) n (serialize (tree_stsd ttype)).
Proof.
  eapply appends_eq; [mp4_box|]. unfold tree_stsd. rewrite serialize_eq. f_equal.
  unfold serialize_all. cbn [map concat]. rewrite !app_nil_r, <- !app_assoc.
  now case_decide.
Qed.

Lemma write_stts_appends n :
  appends ngx_rtmp_mp4_write_stts n (serialize (MBox (str "stts") (b32 0 ++ b32 0) [])).
Proof. eapply appends_eq; [mp4_box|mp4_eq]. Qed.

Lemma write_stsc_appends n :
  appends ngx_rtmp_mp4_write_stsc n (serialize (MBox (str "stsc") (b32 0 ++ b32 0) [])).
Proof. eapply appends_eq; [mp4_box|mp4_eq]. Qed.

Lemma write_stsz_appends n :
  appends ngx_rtmp_mp4_write_stsz n
    (serialize (MBox (str "stsz") (b32 0 ++ b32 0 ++ b32 0) [])).
Proof. eapply appends_eq; [mp4_box|mp4_eq]. Qed.

Lemma write_stco_appends n :
  appends ngx_rtmp_mp4_write_stco n (serialize (MBox (str "stco") (b32 0 ++ b32 0) [])).
Proof. eapply appends_eq; [mp4_box|mp4_eq]. Qed.
#[local] Hint Resolve write_stsd_appends write_stts_appends write_stsc_appends
  write_stsz_appends write_stco_appends : mp4w.

Lemma write_stbl_appends ttype n :
  appends (ngx_rtmp_mp4_write_stbl (Some c) ttype) n (serialize (tree_stbl ttype)).
Proof. eapply appends_eq; [mp4_box|]. unfold tree_stbl. rewrite serialize_eq. reflexivity. Qed.
#[local] Hint Resolve write_stbl_appends : mp4w.

Lemma write_minf_appends ttype n :
  appends (ngx_rtmp_mp4_write_minf (Some c) ttype) n (serialize (tree_minf ttype)).
Proof.
  eapply appends_eq; [mp4_box|]. unfold tree_minf. rewrite serialize_eq. f_equal.
  unfold serialize_all. cbn [map concat]. now case_decide.
Qed.
#[local] Hint Resolve write_minf_appends : mp4w.

Lemma write_mdia_appends ttype n :
  appends (ngx_rtmp_mp4_write_mdia (Some c) ttype) n
    (serialize (MBox (str "mdia") [] [tree_mdhd; tree_hdlr ttype; tree_minf ttype])).
Proof. eapply appends_eq; [mp4_box|]. rewrite serialize_eq. reflexivity. Qed.
#[local] Hint Resolve write_mdia_appends : mp4w.

Definition tree_trak (ttype : ngx_rtmp_mp4_track_type_t) : mbox :=
  MBox (str "trak") []
    [tree_tkhd c ttype; MBox (str "mdia") [] [tree_mdhd; tree_hdlr ttype; tree_minf ttype]].

Lemma write_trak_appends ttype n :
  appends (ngx_rtmp_mp4_write_trak (Some c) ttype) n (serialize (tree_trak ttype)).
Proof. eapply appends_eq; [mp4_box|]. unfold tree_trak. rewrite serialize_eq. reflexivity. Qed.

Lemma write_mvex_appends n :
  appends ngx_rtmp_mp4_write_mvex n
    (serialize (MBox (str "mvex") []
       [MBox (str "trex") (b32 0 ++ b32 1 ++ b32 1 ++ b32 0 ++ b32 0 ++ b32 0) []])).
Proof. eapply appends_eq; [mp4_box|mp4_eq]. Qed.
#[local] Hint Resolve write_trak_appends write_mvex_appends : mp4w.

(** With enough room, [ngx_rtmp_mp4_write_moov] appends exactly the
    serialisation of the movie box tree, every size field (also the constant
    ones of the source) being the length of its box. *)
Lemma write_moov_refines ttype b :
  buf_ok b -> (length (serialize (tree_moov ttype)) <= buf_room b)%nat ->
  ngx_rtmp_mp4_write_moov (Some c) ttype b =
    Some (NGX_OK, buf_push b (serialize (tree_moov ttype))).
Proof.
  intros Hb Hr. eapply (appends_eq _ (b_last b)); [mp4_box| |auto..].
  unfold tree_moov. rewrite serialize_eq. reflexivity.
Qed.

End Movie.

(* ------------------------------------------------------------------ *)
(** ** The boxes of a media segment *)

Definition sample_bytes (sample_mask : Z) (sample : ngx_rtmp_mp4_sample_t) : list Z :=
  (if has sample_mask NGX_RTMP_MP4_SAMPLE_DURATION then b32 (smp_duration sample) else []) ++
  (if has sample_mask NGX_RTMP_MP4_SAMPLE_SIZE then b32 (smp_size sample) else []) ++
  (if has sample_mask NGX_RTMP_MP4_SAMPLE_KEY
   then b32 (if smp_key sample then 0 else 0x00010000) else []) ++
  (if has sample_mask NGX_RTMP_MP4_SAMPLE_DELAY then b32 (smp_delay sample) else []).

Definition tree_trun (samples : list ngx_rtmp_mp4_sample_t) (sample_mask offset : Z) : mbox :=
  MBox (str "trun")
    (b32 (trun_flags sample_mask) ++ b32 (Z.of_nat (length samples)) ++ b32 offset ++
     concat (map (sample_bytes sample_mask) samples)) [].

Definition tree_traf (earliest : Z) (samples : list ngx_rtmp_mp4_sample_t)
    (sample_mask offset : Z) : mbox :=
  MBox (str "traf") []
    [MBox (str "tfhd") (b32 0x00020000 ++ b32 1) [];
     MBox (str "tfdt") (b32 0 ++ b32 earliest) [];
     tree_trun samples sample_mask offset].

(** A movie fragment whose run starts at [offset] from its first byte. *)
Definition tree_moof (earliest : Z) (samples : list ngx_rtmp_mp4_sample_t)
    (sample_mask index offset : Z) : mbox :=
  MBox (str "moof") []
    [MBox (str "mfhd") (b32 0 ++ b32 index) [];
     tree_traf earliest samples sample_mask offset].

Lemma length_sample_bytes mask smp :
  Z.of_nat (length (sample_bytes mask smp)) = 4 * trun_nitems mask.
Proof. unfold sample_bytes, trun_nitems. repeat case_if; reflexivity. Qed.

Lemma length_samples_bytes mask samples :
  Z.of_nat (length (concat (map (sample_bytes mask) samples))) =
  Z.of_nat (length samples) * trun_nitems mask * 4.
Proof.
  induction samples as [|smp l IH]; [reflexivity|]. cbn [map concat].
  rewrite length_app, length_cons, Nat2Z.inj_add, length_sample_bytes, IH. lia.
Qed.

Lemma trun_sample_runs mask smp n : runs (trun_sample mask smp) n (sample_bytes mask smp).
Proof. unfold trun_sample, sample_bytes. mp4_run. Qed.

Lemma trun_samples_runs mask samples : forall n,
  runs (trun_samples mask samples) n (concat (map (sample_bytes mask) samples)).
Proof.
  induction samples as [|smp l IH]; intros n; [apply mret_runs|].
  cbn [trun_samples map concat]. eapply bind_runs; [apply trun_sample_runs|apply IH].
Qed.
#[local] Hint Resolve trun_samples_runs : mp4w.

Lemma be32_mod a b c : b32 (u32 (a + u32 b + c)) = b32 (a + b + c).
Proof.
  unfold b32, u32. change (2 ^ 32) with (2 ^ (8 * 4)). rewrite be_bytes_mod by lia.
  rewrite <- (be_bytes_mod 4 (a + _ + c) 4), <- (be_bytes_mod 4 (a + b + c) 4) by lia.
  f_equal. rewrite <- Zplus_mod_idemp_l, Zplus_mod_idemp_r, Zplus_mod_idemp_l. reflexivity.
Qed.

Lemma write_trun_appends samples mask m p :
  appends (ngx_rtmp_mp4_write_trun samples mask (Some m)) p
    (serialize (tree_trun samples mask
       ((Z.of_nat p - Z.of_nat m) + 20 +
        Z.of_nat (length samples) * trun_nitems mask * 4 + 8))).
Proof.
  eapply appends_eq; [apply box_appends; [reflexivity|]; cbv iota zeta; mp4_step|].
  unfold tree_trun. rewrite serialize_eq, be32_mod, !app_nil_r. reflexivity.
Qed.

Lemma write_tfhd_appends n :
  appends ngx_rtmp_mp4_write_tfhd n
    (serialize (MBox (str "tfhd") (b32 0x00020000 ++ b32 1) [])).
Proof. eapply appends_eq; [mp4_box|mp4_eq]. Qed.

Lemma write_tfdt_appends t n :
  appends (ngx_rtmp_mp4_write_tfdt t) n
    (serialize (MBox (str "tfdt") (b32 0 ++ b32 t) [])).
Proof. eapply appends_eq; [mp4_box|mp4_eq]. Qed.

Lemma write_mfhd_appends i n :
  appends (ngx_rtmp_mp4_write_mfhd i) n
    (serialize (MBox (str "mfhd") (b32 0 ++ b32 i) [])).
Proof. eapply appends_eq; [mp4_box|mp4_eq]. Qed.
#[local] Hint Resolve write_trun_appends write_tfhd_appends write_tfdt_appends
  write_mfhd_appends : mp4w.

(** Both boxes have a fixed length of 16. *)
Lemma length_fullbox s v w :
  length (str s) = 4%nat -> length (serialize (MBox (str s) (b32 v ++ b32 w) [])) = 16%nat.
Proof. intros. rewrite serialize_eq, length_box by done. reflexivity. Qed.

Lemma write_traf_appends e samples mask m p :
  appends (ngx_rtmp_mp4_write_traf e samples mask (Some m)) p
    (serialize (tree_traf e samples mask
       ((Z.of_nat p + 40 - Z.of_nat m) + 20 +
        Z.of_nat (length samples) * trun_nitems mask * 4 + 8))).
Proof.
  eapply appends_eq; [mp4_box|]. unfold tree_traf. rewrite (serialize_eq (str "traf")). f_equal.
  rewrite app_nil_l. unfold serialize_all. cbn [map concat].
  rewrite length_app, !length_fullbox by reflexivity. rewrite !app_nil_r.
  replace (Z.of_nat (p + 8 + (16 + 16))) with (Z.of_nat p + 40) by lia. reflexivity.
Qed.
#[local] Hint Resolve write_traf_appends : mp4w.

(** The offset the source computes for the run of a fragment. *)
Definition moof_offset (samples : list ngx_rtmp_mp4_sample_t) (sample_mask : Z) : Z :=
  92 + Z.of_nat (length samples) * trun_nitems sample_mask * 4.

Lemma length_moof e samples mask index off :
  Z.of_nat (length (serialize (tree_moof e samples mask index off))) + 8 =
  moof_offset samples mask.
Proof.
  unfold tree_moof, tree_traf, tree_trun, moof_offset. rewrite !serialize_eq.
  rewrite !length_box by reflexivity. unfold serialize_all. cbn [map concat].
  rewrite !serialize_eq. autorewrite with lmss_len. rewrite !length_box by reflexivity.
  unfold serialize_all. cbn [map concat]. rewrite !serialize_eq, !app_nil_r.
  autorewrite with lmss_len. rewrite !length_box by reflexivity.
  autorewrite with lmss_len. rewrite <- (length_samples_bytes mask samples). cbn [length]. lia.
Qed.

Lemma write_moof_appends e samples mask index n :
  appends (ngx_rtmp_mp4_write_moof e samples mask index) n
    (serialize (tree_moof e samples mask index (moof_offset samples mask))).
Proof.
  eapply appends_eq; [mp4_box|].
  unfold tree_moof, moof_offset. rewrite (serialize_eq (str "moof")). f_equal.
  rewrite app_nil_l. unfold serialize_all. cbn [map concat]. rewrite !app_nil_r.
  rewrite length_fullbox by reflexivity.
  replace (Z.of_nat (n + 8 + 16) + 40 - Z.of_nat n + 20 +
           Z.of_nat (length samples) * trun_nitems mask * 4 + 8)
    with (92 + Z.of_nat (length samples) * trun_nitems mask * 4) by lia. reflexivity.
Qed.

(** With enough room, [ngx_rtmp_mp4_write_moof] appends a movie fragment
    whose track run points exactly behind the fragment and the eight-byte
    header of the [mdat] box that follows it, for every set of samples and
    every mask of sample fields. *)
Lemma write_moof_refines e samples mask index b :
  buf_ok b ->
  (length (serialize (tree_moof e samples mask index 0)) <= buf_room b)%nat ->
  let moof off := serialize (tree_moof e samples mask index off) in
  ngx_rtmp_mp4_write_moof e samples mask index b =
    Some (NGX_OK, buf_push b (moof (Z.of_nat (length (moof 0)) + 8))).
Proof.
  intros Hb Hr moof. unfold moof. rewrite length_moof.
  apply (write_moof_appends e samples mask index (b_last b)); [done|done|].
  pose proof (length_moof e samples mask index 0).
  pose proof (length_moof e samples mask index (moof_offset samples mask)). lia.
Qed.

Definition tree_sidx (reference_size earliest latest : Z) : mbox :=
  MBox (str "sidx")
    (b32 0 ++ b32 1 ++ b32 1000 ++ b32 earliest ++ b32 (u32 (latest - earliest)) ++
     b16 0 ++ b16 1 ++ b32 reference_size ++ b32 (u32 (latest - earliest)) ++
     b8 0x90 ++ b24 0) [].

Lemma write_sidx_appends r e l n :
  appends (ngx_rtmp_mp4_write_sidx r e l) n (serialize (tree_sidx r e l)).
Proof. eapply appends_eq; [mp4_box|unfold tree_sidx; mp4_eq]. Qed.

Lemma length_sidx r e l : length (serialize (tree_sidx r e l)) = 44%nat.
Proof. unfold tree_sidx. rewrite serialize_eq, length_box by reflexivity. reflexivity. Qed.

Lemma write_mdat_appends size n :
  appends (ngx_rtmp_mp4_write_mdat size) n (b32 size ++ str "mdat").
Proof. eapply appends_eq; [unfold ngx_rtmp_mp4_write_mdat; mp4_step|mp4_eq]. Qed.

(* ------------------------------------------------------------------ *)
(** ** Reading boxes back *)

(** Splits a byte string into its top-level boxes (type and payload), as a
    player does; [None] when a size field is wrong or the data is short. *)
Fixpoint parse_boxes (fuel : nat) (l : list Z) : option (list (list Z * list Z)) :=
  match fuel with
  | O => None
  | S fuel =>
      match l with
      | [] => Some []
      | _ =>
          let size := Z.to_nat (be_val (take 4 l)) in
          if (8 <=? size)%nat && (size <=? length l)%nat
          then
            match parse_boxes fuel (drop size l) with
            | Some boxes => Some ((take 4 (drop 4 l), take (size - 8) (drop 8 l)) :: boxes)
            | None => None
            end
          else None
      end
  end.

Lemma parse_box_cons fuel type payload rest :
  length type = 4%nat -> 8 + Z.of_nat (length payload) < 2 ^ 32 ->
  parse_boxes (S fuel) (box type payload ++ rest) =
  match parse_boxes fuel rest with
  | Some boxes => Some ((type, payload) :: boxes)
  | None => None
  end.
Proof.
  intros Ht Hl. cbn [parse_boxes].
  assert (be_val (take 4 (box type payload ++ rest)) = 8 + Z.of_nat (length payload)) as E.
  { unfold box. rewrite <- !app_assoc, take_app_length' by len.
    rewrite be_val_be_bytes. apply Z.mod_small. lia. }
  destruct (box type payload ++ rest) as [|x l] eqn:El.
  { unfold box in El. apply (f_equal length) in El. len. }
  rewrite E. rewrite <- El. clear x l El E.
  replace (Z.to_nat (8 + Z.of_nat (length payload))) with (8 + length payload)%nat by lia.
  replace ((8 <=? 8 + length payload)%nat && (8 + length payload <=? length _)%nat) with true.
  2: { symmetry. apply andb_true_iff. split; apply Nat.leb_le; [lia|].
       rewrite length_app, length_box by done. lia. }
  rewrite (drop_app_length' (box type payload)) by (now rewrite length_box).
  destruct (parse_boxes fuel rest); [|done]. repeat f_equal.
  - unfold box. rewrite <- !app_assoc, drop_app_length' by len. now rewrite take_app_length' by len.
  - unfold box. rewrite <- !app_assoc, app_assoc, drop_app_length' by len.
    replace (8 + length payload - 8)%nat with (length payload) by lia.
    now rewrite take_app_length' by len.
Qed.

(** The payload of a box, its fields followed by its sub-boxes. *)
Definition tree_type (t : mbox) : list Z := match t with MBox type _ _ => type end.
Definition tree_payload (t : mbox) : list Z :=
  match t with MBox _ fields children => fields ++ serialize_all children end.

(** The size fields the writer produces let a reader split a sequence of
    boxes exactly into the boxes written (for boxes below 4 GB). *)
Lemma parse_serialize ts :
  Forall (fun t => length (tree_type t) = 4%nat /\
                   8 + Z.of_nat (length (tree_payload t)) < 2 ^ 32) ts ->
  parse_boxes (S (length ts)) (serialize_all ts) =
  Some (map (fun t => (tree_type t, tree_payload t)) ts).
Proof.
  induction 1 as [|[type fields children] ts [Ht Hl] _ IH]; [reflexivity|].
  unfold serialize_all. cbn [map concat length]. rewrite serialize_eq.
  rewrite parse_box_cons by auto. fold (serialize_all ts). now rewrite IH.
Qed.

(* ------------------------------------------------------------------ *)
(** ** Safety without enough room *)

(** [b] extends [b0]: same block, same [pos], and everything written before
    [b0]'s end is untouched. *)
Definition extends (b0 b : ngx_buf_t) : Prop :=
  buf_ok b /\ b_end b = b_end b0 /\ b_pos b = b_pos b0 /\
  (b_last b0 <= b_last b)%nat /\ buf_written b0 = take (b_last b0) (b_mem b).

(** Run inside a box opened at [p]. *)
Definition safe_in {A} (p : option nat) (m : W A) : Prop :=
  forall b0 b a b',
    extends b0 b ->
    (forall q, p = Some q -> (b_last b0 <= q)%nat /\ (q + 4 <= b_last b)%nat) ->
    m b = Some (a, b') -> extends b0 b' /\ (b_last b <= b_last b')%nat.

Definition safe {A} (m : W A) : Prop := safe_in None m.

Lemma safe_put l : bytes_ok l -> safe (put_bytes l).
Proof.
  intros Hl b0 b a b' (Hok & He & Hp & Hle & Hw) _. unfold put_bytes.
  case_if; intros [= <- <-]; [unfold extends; split_and!; auto; lia|].
  assert (length l <= buf_room b)%nat as Hr by (unfold buf_room; lia).
  split; [|cbn; lia]. split_and!; auto.
  - apply buf_push_ok; auto.
  - now rewrite buf_push_end.
  - cbn. lia.
  - cbn. rewrite take_splice_le; [auto|]. destruct Hok as (_ & ? & _). unfold b_end in *. lia.
Qed.

Lemma safe_weaken {A} p (m : W A) : safe m -> safe_in p m.
Proof. intros H b0 b a b' He _ E. eapply H; eauto. done. Qed.

Lemma safe_ret {A} p (a : A) : safe_in p (mret a).
Proof. intros b0 b a' b' He _ [= <- <-]. auto. Qed.

Lemma safe_crash {A} p : safe_in p (@crash A).
Proof. intros b0 b a b' _ _ [=]. Qed.

Lemma safe_bind {A B} p (m : W A) (f : A -> W B) :
  safe_in p m -> (forall a, safe_in p (f a)) -> safe_in p (m ≫= f).
Proof.
  intros Hm Hf b0 b a b' He Hq. unfold mbind, W_bind.
  destruct (m b) as [[x b1]|] eqn:E; [|done]. intros E'.
  destruct (Hm b0 b x b1 He Hq E) as [He1 Hl1].
  destruct (Hf x b0 b1 a b' He1) as [He2 Hl2]; auto; [|split; [auto|lia]].
  intros q Hq'. destruct (Hq q Hq'). lia.
Qed.

Lemma safe_update p : safe_in p (ngx_rtmp_mp4_update_box_size p).
Proof.
  intros b0 b a b' He Hq. unfold ngx_rtmp_mp4_update_box_size.
  destruct p as [q|]; [|intros [= <- <-]; auto].
  destruct (Hq q eq_refl) as [Hq1 Hq2]. destruct He as ((Hpl & Hle & Hb) & He & Hp & Hl & Hw).
  unfold ngx_rtmp_mp4_field_32. rewrite field_32_bytes. unfold put_bytes, b_end.
  cbn [b_mem b_pos b_last]. rewrite length_b32.
  case_if; intros [= <- <-]; unfold extends, buf_ok, b_end in *; cbn [b_mem b_pos b_last buf_push];
    [split_and!; auto; lia|].
  rewrite length_splice by (rewrite length_b32; lia). split_and!; auto; try lia.
  - apply bytes_ok_splice; [apply be_bytes_ok|auto].
  - rewrite take_splice_le by lia. exact Hw.
Qed.

Lemma safe_start_box {B} t (body : option nat -> W B) p0 :
  bytes_ok t -> (4 <= length t)%nat ->
  (forall p, safe_in p (body p)) -> safe_in p0 (ngx_rtmp_mp4_start_box t ≫= body).
Proof.
  intros Ht Hlt Hbody. apply safe_weaken. intros b0 b a b' He _.
  unfold mbind, W_bind, ngx_rtmp_mp4_start_box.
  pose proof (safe_put [0; 0; 0; 0] ltac:(decided)) as H32.
  change (ngx_rtmp_mp4_field_32 0) with (put_bytes [0; 0; 0; 0]).
  destruct (put_bytes [0; 0; 0; 0] b) as [[rc b1]|] eqn:E1; [|done].
  destruct (H32 b0 b rc b1 He ltac:(done) E1) as [He1 Hl1].
  destruct rc; try (intros E; destruct (Hbody None b0 b1 a b' He1 ltac:(done) E);
                    split; [done|lia]).
  unfold ngx_rtmp_mp4_box.
  destruct (put_bytes t b1) as [[rc b2]|] eqn:E2; [|done].
  destruct (safe_put t Ht b0 b1 rc b2 He1 ltac:(done) E2) as [He2 Hl2].
  destruct rc; try (intros E; destruct (Hbody None b0 b2 a b' He2 ltac:(done) E);
                    split; [done|lia]).
  intros E. destruct (Hbody (Some (b_last b)) b0 b2 a b' He2) as [He3 Hl3]; auto; [|split; [auto|lia]].
  intros q [= <-]. split; [apply He|].
  revert E1. unfold put_bytes. case_if; [done|]. intros [= <-]. cbn in Hl2. lia.
Qed.

(** A writer that never dereferences NULL. *)
Definition total {A} (m : W A) : Prop := forall b, is_Some (m b).

Lemma total_put l : total (put_bytes l).
Proof. intros b. unfold put_bytes. case_if; eauto. Qed.

Lemma total_ret {A} (a : A) : total (mret a).
Proof. intros b. eexists. reflexivity. Qed.

Lemma total_bind {A B} (m : W A) (f : A -> W B) :
  total m -> (forall a, total (f a)) -> total (m ≫= f).
Proof.
  intros Hm Hf b. unfold mbind, W_bind. destruct (Hm b) as [[a b'] ->]. apply Hf.
Qed.

Lemma total_update p : total (ngx_rtmp_mp4_update_box_size p).
Proof.
  intros b. destruct p as [q|]; [|eexists; reflexivity]. unfold ngx_rtmp_mp4_update_box_size.
  edestruct (total_put (b32 (Z.of_nat (b_last b - q)))) as [[rc b'] E].
  unfold ngx_rtmp_mp4_field_32. rewrite field_32_bytes, E. eauto.
Qed.

Lemma total_start_box t : total (ngx_rtmp_mp4_start_box t).
Proof.
  intros b. unfold ngx_rtmp_mp4_start_box, ngx_rtmp_mp4_field_32, ngx_rtmp_mp4_box.
  edestruct total_put as [[rc b1] ->]. destruct rc; eauto.
  edestruct (total_put t b1) as [[rc b2] ->]. destruct rc; eauto.
Qed.

Create HintDb mp4s.
#[local] Hint Constants Opaque : mp4s.

Lemma safe_field_32 v p : safe_in p (ngx_rtmp_mp4_field_32 v).
Proof. apply safe_weaken. unfold ngx_rtmp_mp4_field_32. rewrite field_32_bytes. apply safe_put, be_bytes_ok. Qed.

Lemma safe_field_24 v p : safe_in p (ngx_rtmp_mp4_field_24 v).
Proof. apply safe_weaken. unfold ngx_rtmp_mp4_field_24. rewrite field_24_bytes. apply safe_put, be_bytes_ok. Qed.

Lemma safe_field_16 v p : safe_in p (ngx_rtmp_mp4_field_16 v).
Proof. apply safe_weaken. unfold ngx_rtmp_mp4_field_16. rewrite field_16_bytes. apply safe_put, be_bytes_ok. Qed.

Lemma safe_field_8 v p : safe_in p (ngx_rtmp_mp4_field_8 v).
Proof. apply safe_weaken. unfold ngx_rtmp_mp4_field_8. rewrite field_8_bytes. apply safe_put, be_bytes_ok. Qed.

Lemma safe_box_code s p : safe_in p (ngx_rtmp_mp4_box (str s)).
Proof. apply safe_weaken, safe_put, str_ok. Qed.

Lemma safe_data data p : bytes_ok data -> safe_in p (ngx_rtmp_mp4_data data).
Proof. intros. now apply safe_weaken, safe_put. Qed.

#[local] Hint Resolve safe_field_32 safe_field_24 safe_field_16 safe_field_8
  safe_box_code safe_data safe_update safe_ret safe_crash safe_weaken str_ok cstr_ok
  total_put total_ret total_update total_start_box : mp4s.

(** Walks through a writer; the box writers are unfolded on the way. *)
Ltac mp4_safe :=
  repeat first
    [ solve [eauto with mp4s]
    | apply safe_start_box; [apply str_ok|vm_compute; lia|intros ?]
    | apply safe_bind; [|intros _]
    | match goal with
      | |- safe_in _ (if ?b then _ else _) => destruct b
      | |- safe_in _ (match ?x with Some _ => _ | None => _ end) => case_eq x; intros
      end ].
Ltac mp4_total :=
  repeat first
    [ solve [eauto with mp4s]
    | progress unfold ngx_rtmp_mp4_field_32, ngx_rtmp_mp4_field_24, ngx_rtmp_mp4_field_16,
        ngx_rtmp_mp4_field_8, ngx_rtmp_mp4_box, ngx_rtmp_mp4_data
    | apply total_bind; [|intros ?]
    | match goal with
      | |- total (if ?b then _ else _) => destruct b
      | |- total (match ?x with Some _ => _ | None => _ end) => case_eq x; intros
      end ].

Lemma total_ftyp : total ngx_rtmp_mp4_write_ftyp.
Proof. unfold ngx_rtmp_mp4_write_ftyp. mp4_total. Qed.

Lemma safe_trun_samples mask samples p : safe_in p (trun_samples mask samples).
Proof.
  induction samples as [|smp l IH]; [apply safe_ret|]. cbn [trun_samples].
  unfold trun_sample. mp4_safe.
Qed.
#[local] Hint Resolve safe_trun_samples : mp4s.

(** Whatever the room left in the buffer, writing a movie fragment stays
    inside the buffer, keeps every byte written before it and never moves the
    write position back; fields that do not fit are dropped. *)
Theorem write_moof_safe e samples mask index b rc b' :
  buf_ok b -> ngx_rtmp_mp4_write_moof e samples mask index b = Some (rc, b') -> extends b b'.
Proof.
  intros Hb E. refine (proj1 (_ : extends b b' /\ _)).
  assert (safe (ngx_rtmp_mp4_write_moof e samples mask index)) as H.
  { unfold ngx_rtmp_mp4_write_moof, ngx_rtmp_mp4_write_mfhd, ngx_rtmp_mp4_write_traf,
      ngx_rtmp_mp4_write_tfhd, ngx_rtmp_mp4_write_tfdt, ngx_rtmp_mp4_write_trun. mp4_safe. }
  eapply H; eauto; [|done]. unfold extends. split_and!; auto.
Qed.

Section MovieSafe.
Context (c : codec_ctx).
Hypothesis avc_ok : forall b, avc_header c = Some b -> buf_ok b.
Hypothesis aac_ok : forall b, aac_header c = Some b -> buf_ok b.

Lemma avc_data_ok b n : avc_header c = Some b -> bytes_ok (drop n (buf_data b)).
Proof. auto with lmss. Qed.

Lemma aac_data_ok b n : aac_header c = Some b -> bytes_ok (drop n (buf_data b)).
Proof. auto with lmss. Qed.
#[local] Hint Resolve avc_data_ok aac_data_ok : mp4s.

Lemma safe_matrix a b c' d tx ty p : safe_in p (ngx_rtmp_mp4_write_matrix a b c' d tx ty).
Proof. unfold ngx_rtmp_mp4_write_matrix. mp4_safe. Qed.

Lemma safe_put_descr tag size p : safe_in p (ngx_rtmp_mp4_put_descr tag size).
Proof. unfold ngx_rtmp_mp4_put_descr. mp4_safe. Qed.
#[local] Hint Resolve safe_matrix safe_put_descr : mp4s.

Lemma safe_video p : safe_in p (ngx_rtmp_mp4_write_video (Some c)).
Proof. unfold ngx_rtmp_mp4_write_video, ngx_rtmp_mp4_write_avcc. cbv iota. mp4_safe. Qed.

Lemma safe_audio p : safe_in p (ngx_rtmp_mp4_write_audio (Some c)).
Proof. unfold ngx_rtmp_mp4_write_audio, ngx_rtmp_mp4_write_esds. cbv iota zeta. mp4_safe. Qed.
#[local] Hint Resolve safe_video safe_audio : mp4s.

Lemma safe_stbl ttype p : safe_in p (ngx_rtmp_mp4_write_stbl (Some c) ttype).
Proof.
  unfold ngx_rtmp_mp4_write_stbl, ngx_rtmp_mp4_write_stsd, ngx_rtmp_mp4_write_stts,
    ngx_rtmp_mp4_write_stsc, ngx_rtmp_mp4_write_stsz, ngx_rtmp_mp4_write_stco. mp4_safe.
Qed.
#[local] Hint Resolve safe_stbl : mp4s.

Lemma safe_minf ttype p : safe_in p (ngx_rtmp_mp4_write_minf (Some c) ttype).
Proof.
  unfold ngx_rtmp_mp4_write_minf, ngx_rtmp_mp4_write_vmhd, ngx_rtmp_mp4_write_smhd,
    ngx_rtmp_mp4_write_dinf, ngx_rtmp_mp4_write_dref. mp4_safe.
Qed.

Lemma safe_tkhd ttype p : safe_in p (ngx_rtmp_mp4_write_tkhd (Some c) ttype).
Proof. unfold ngx_rtmp_mp4_write_tkhd. cbv iota. mp4_safe. Qed.
#[local] Hint Resolve safe_minf safe_tkhd : mp4s.

Lemma total_moov ttype : total (ngx_rtmp_mp4_write_moov (Some c) ttype).
Proof.
  unfold ngx_rtmp_mp4_write_moov, ngx_rtmp_mp4_write_mvhd, ngx_rtmp_mp4_write_mvex,
    ngx_rtmp_mp4_write_trak, ngx_rtmp_mp4_write_tkhd, ngx_rtmp_mp4_write_mdia,
    ngx_rtmp_mp4_write_mdhd, ngx_rtmp_mp4_write_hdlr, ngx_rtmp_mp4_write_minf,
    ngx_rtmp_mp4_write_vmhd, ngx_rtmp_mp4_write_smhd, ngx_rtmp_mp4_write_dinf,
    ngx_rtmp_mp4_write_dref, ngx_rtmp_mp4_write_stbl, ngx_rtmp_mp4_write_stsd,
    ngx_rtmp_mp4_write_stts, ngx_rtmp_mp4_write_stsc, ngx_rtmp_mp4_write_stsz,
    ngx_rtmp_mp4_write_stco, ngx_rtmp_mp4_write_video, ngx_rtmp_mp4_write_avcc,
    ngx_rtmp_mp4_write_audio, ngx_rtmp_mp4_write_esds, ngx_rtmp_mp4_write_matrix,
    ngx_rtmp_mp4_put_descr. cbv iota zeta. mp4_total.
Qed.

(** With a codec context, writing the movie box always returns, in any
    buffer, without writing outside of it or changing an earlier byte. *)
Theorem write_moov_safe ttype b :
  buf_ok b ->
  exists rc b', ngx_rtmp_mp4_write_moov (Some c) ttype b = Some (rc, b') /\ extends b b'.
Proof.
  intros Hb. destruct (total_moov ttype b) as [[rc b'] E]. exists rc, b'. split; [done|].
  assert (safe (ngx_rtmp_mp4_write_moov (Some c) ttype)) as H.
  { unfold ngx_rtmp_mp4_write_moov, ngx_rtmp_mp4_write_mvhd, ngx_rtmp_mp4_write_mvex,
      ngx_rtmp_mp4_write_trak, ngx_rtmp_mp4_write_mdia, ngx_rtmp_mp4_write_mdhd,
      ngx_rtmp_mp4_write_hdlr. mp4_safe. }
  eapply H; eauto; [|done]. unfold extends. split_and!; auto.
Qed.

End MovieSafe.

(* ------------------------------------------------------------------ *)
(** ** Concrete runs *)

Definition sample_ctx : codec_ctx :=
  {| width := 1280; height := 720; frame_rate := 25; video_data_rate := 900;
     video_codec_id := 7; audio_data_rate := 128; audio_codec_id := 10;
     avc_profile := 66; avc_compat := 192; avc_level := 30; audio_channels := 2; sample_size := 2;
     sample_rate := 44100;
     avc_header := Some (Buf [0x17; 0; 0; 0; 0; 1; 66; 192; 30; 255; 225] 0 11);
     aac_header := Some (Buf [0xaf; 0; 18; 16] 0 4) |}.

Definition two_samples : list ngx_rtmp_mp4_sample_t :=
  [Sample 5000 40 0 1000 true; Sample 700 40 0 1040 false].

Lemma sample_ctx_avc b : avc_header sample_ctx = Some b -> buf_ok b.
Proof. intros [= <-]. decided. Qed.

Lemma sample_ctx_aac b : aac_header sample_ctx = Some b -> buf_ok b.
Proof. intros [= <-]. decided. Qed.

Lemma write_moov_refines_witness :
  let b := buf_alloc 1024 0 in
  ngx_rtmp_mp4_write_moov (Some sample_ctx) NGX_RTMP_MP4_AUDIO_TRACK b =
    Some (NGX_OK, buf_push b (serialize (tree_moov sample_ctx NGX_RTMP_MP4_AUDIO_TRACK))).
Proof.
  apply (write_moov_refines sample_ctx sample_ctx_avc sample_ctx_aac); [decided|].
  apply Nat.leb_le. vm_compute. reflexivity.
Defined.

Lemma write_moof_refines_witness :
  let b := buf_alloc 512 0 in
  ngx_rtmp_mp4_write_moof 1000 two_samples 3 7 b =
    Some (NGX_OK, buf_push b (serialize (tree_moof 1000 two_samples 3 7 108))).
Proof. apply (write_moof_refines 1000 two_samples 3 7); [decided|apply Nat.leb_le; reflexivity]. Defined.

Lemma write_moof_safe_witness :
  exists rc b',
    ngx_rtmp_mp4_write_moof 1000 two_samples 3 7 (buf_alloc 100 0) = Some (rc, b') /\
    extends (buf_alloc 100 0) b'.
Proof.
  do 2 eexists. split; [vm_compute; reflexivity|].
  eapply (write_moof_safe 1000 two_samples 3 7); [decided|vm_compute; reflexivity].
Defined.

Lemma write_moov_safe_witness :
  exists rc b',
    ngx_rtmp_mp4_write_moov (Some sample_ctx) NGX_RTMP_MP4_VIDEO_TRACK (buf_alloc 300 10) =
      Some (rc, b') /\ extends (buf_alloc 300 10) b'.
Proof. apply (write_moov_safe sample_ctx sample_ctx_avc sample_ctx_aac). decided. Defined.

End Mp4.
