(* ===== verification/Dash.v ===== *)
(** * The MPEG-DASH segmenter (src/src/rtmp/dash/ngx_rtmp_dash_module.c)

    Audio and video frames are appended to a raw file per track; at a fragment
    boundary the raw file becomes the [mdat] box of a media segment whose
    headers are written with the functions of [Mp4], and the playlist is
    rewritten from a ring of fragment times.  The theorems show what a closed
    segment file holds, that the tables of a track always describe its raw
    file, that no header overflows its buffer, and that the ring lists the
    last fragments. *)

From Stdlib Require Import ZArith Lia.
From stdpp Require Import base numbers list strings gmap.
From S2P Require Import Prelude Buf Mp4.
Import Mp4.

Module Dash.

Definition NGX_RTMP_DASH_BUFSIZE : Z := 1024 * 1024.
Definition NGX_RTMP_DASH_MAX_MDAT : Z := 10 * 1024 * 1024.
Definition NGX_RTMP_DASH_MAX_SAMPLES : Z := 1024.
Definition NGX_RTMP_AUDIO_AAC : Z := 10.
Definition NGX_RTMP_VIDEO_H264 : Z := 7.

(* ------------------------------------------------------------------ *)
(** ** State *)

Record ngx_rtmp_dash_frag_t := Frag { f_timestamp : Z; f_duration : Z }.

(** [t_fd] is the raw file the descriptor refers to: a track writes its file
    from the start and nobody else opens it; [None] is NGX_INVALID_FILE.
    [t_samples] is the whole array, also behind [t_sample_count]. *)
Record ngx_rtmp_dash_track_t := Track {
  t_id : Z;
  t_opened : bool;
  t_mdat_size : Z;
  t_sample_count : Z;
  t_sample_mask : Z;
  t_fd : option (list Z);
  t_type : Z;
  t_earliest_pres_time : Z;
  t_latest_pres_time : Z;
  t_samples : list ngx_rtmp_mp4_sample_t
}.

Record ngx_rtmp_dash_ctx_t := Ctx {
  d_playlist : list Z;
  d_playlist_bak : list Z;
  d_name : list Z;
  d_stream : list Z;
  d_start_sec : Z;
  d_start_gmtoff : Z;
  d_nfrags : Z;
  d_frag : Z;
  d_frags : list ngx_rtmp_dash_frag_t;
  d_opened : bool;
  d_has_video : bool;
  d_has_audio : bool;
  d_id : Z;
  d_audio : ngx_rtmp_dash_track_t;
  d_video : ngx_rtmp_dash_track_t
}.

Record ngx_rtmp_dash_app_conf_t := AppConf {
  dash : bool;
  fraglen : Z;
  nested : bool;
  winfrags : Z
}.

Record tm := Tm { tm_year : Z; tm_mon : Z; tm_mday : Z; tm_hour : Z; tm_min : Z; tm_sec : Z }.

(** What the operating system keeps: the files written so far by path, and
    the number of calls answered. *)
Record env := Env { e_calls : nat; e_files : gmap (list Z) (list Z) }.

(** What the handlers read and change: the session's codec context, the
    module's context and the operating system. *)
Record dash_st := St { st_ctx : ngx_rtmp_dash_ctx_t; st_env : env }.

Section Segmenter.

(** The operating system's answer to its [n]-th call: an error, or at most so
    many bytes done. *)
Context (os : nat -> option nat).
Context (ngx_libc_localtime : Z -> tm).
Context (dacf : ngx_rtmp_dash_app_conf_t).
Context (codec : option codec_ctx).

(* ------------------------------------------------------------------ *)
(** ** System calls *)

Definition tick (e : env) : env := Env (S (e_calls e)) (e_files e).

(** [ngx_open_file(path, ..., NGX_FILE_TRUNCATE, ...)]. *)
Definition ngx_open_file (path : list Z) (e : env) : bool * env :=
  match os (e_calls e) with
  | None => (false, tick e)
  | Some _ => (true, Env (S (e_calls e)) (<[path := []]> (e_files e)))
  end.

(** [ngx_write_fd] on the file [path], which is written sequentially. *)
Definition ngx_write_fd (path data : list Z) (e : env) : option nat * env :=
  match os (e_calls e) with
  | None => (None, tick e)
  | Some m =>
      (Some (min m (length data)),
       Env (S (e_calls e))
         (<[path := default [] (e_files e !! path) ++ take m data]> (e_files e)))
  end.

(** [ngx_rename_file]. *)
Definition ngx_rename_file (from to : list Z) (e : env) : bool * env :=
  match os (e_calls e) with
  | None => (false, tick e)
  | Some _ =>
      (true, Env (S (e_calls e))
         (<[to := default [] (e_files e !! from)]> (delete from (e_files e))))
  end.

(* ------------------------------------------------------------------ *)
(** ** The ring of fragments *)

Definition frag_index (ctx : ngx_rtmp_dash_ctx_t) (n : Z) : nat :=
  Z.to_nat (u64 (d_frag ctx + n) mod (winfrags dacf * 2 + 1)).

(** [None] is an access behind the array. *)
Definition ngx_rtmp_dash_get_frag (ctx : ngx_rtmp_dash_ctx_t) (n : Z)
  : option ngx_rtmp_dash_frag_t :=
  d_frags ctx !! frag_index ctx n.

Definition set_frag (ctx : ngx_rtmp_dash_ctx_t) (n : Z) (f : ngx_rtmp_dash_frag_t)
  : ngx_rtmp_dash_ctx_t :=
  Ctx (d_playlist ctx) (d_playlist_bak ctx) (d_name ctx) (d_stream ctx)
    (d_start_sec ctx) (d_start_gmtoff ctx) (d_nfrags ctx) (d_frag ctx)
    (<[frag_index ctx n := f]> (d_frags ctx)) (d_opened ctx) (d_has_video ctx)
    (d_has_audio ctx) (d_id ctx) (d_audio ctx) (d_video ctx).

Definition set_ring (ctx : ngx_rtmp_dash_ctx_t) (nfrags frag : Z) : ngx_rtmp_dash_ctx_t :=
  Ctx (d_playlist ctx) (d_playlist_bak ctx) (d_name ctx) (d_stream ctx)
    (d_start_sec ctx) (d_start_gmtoff ctx) nfrags frag
    (d_frags ctx) (d_opened ctx) (d_has_video ctx)
    (d_has_audio ctx) (d_id ctx) (d_audio ctx) (d_video ctx).

Definition set_tracks (ctx : ngx_rtmp_dash_ctx_t) (video audio : ngx_rtmp_dash_track_t)
  : ngx_rtmp_dash_ctx_t :=
  Ctx (d_playlist ctx) (d_playlist_bak ctx) (d_name ctx) (d_stream ctx)
    (d_start_sec ctx) (d_start_gmtoff ctx) (d_nfrags ctx) (d_frag ctx)
    (d_frags ctx) (d_opened ctx) (d_has_video ctx)
    (d_has_audio ctx) (d_id ctx) audio video.

Definition set_opened (ctx : ngx_rtmp_dash_ctx_t) (id : Z) (opened : bool)
  : ngx_rtmp_dash_ctx_t :=
  Ctx (d_playlist ctx) (d_playlist_bak ctx) (d_name ctx) (d_stream ctx)
    (d_start_sec ctx) (d_start_gmtoff ctx) (d_nfrags ctx) (d_frag ctx)
    (d_frags ctx) opened (d_has_video ctx)
    (d_has_audio ctx) id (d_audio ctx) (d_video ctx).

Definition set_has (ctx : ngx_rtmp_dash_ctx_t) (video audio : bool) : ngx_rtmp_dash_ctx_t :=
  Ctx (d_playlist ctx) (d_playlist_bak ctx) (d_name ctx) (d_stream ctx)
    (d_start_sec ctx) (d_start_gmtoff ctx) (d_nfrags ctx) (d_frag ctx)
    (d_frags ctx) (d_opened ctx) video audio (d_id ctx) (d_audio ctx) (d_video ctx).

Definition ngx_rtmp_dash_next_frag (ctx : ngx_rtmp_dash_ctx_t) : ngx_rtmp_dash_ctx_t :=
  if d_nfrags ctx =? winfrags dacf
  then set_ring ctx (d_nfrags ctx) (u64 (d_frag ctx + 1))
  else set_ring ctx (u64 (d_nfrags ctx + 1)) (d_frag ctx).

(* ------------------------------------------------------------------ *)
(** ** The playlist *)

(** XML text, a backquote standing for the double quote. *)
Definition xml (s : string) : list Z := map (fun c => if c =? 96 then 34 else c) (str s).
Definition ln (s : string) : list Z := xml s ++ [10].

Definition hex_digit (d : Z) : Z := if d <? 10 then 48 + d else 87 + d.

Fixpoint hex_digits (fuel : nat) (n : Z) (acc : list Z) : list Z :=
  match fuel with
  | O => acc
  | S fuel =>
      let acc := hex_digit (Z.land n 15) :: acc in
      if Z.shiftr n 4 =? 0 then acc else hex_digits fuel (Z.shiftr n 4) acc
  end.

(** Padding on the left to a width. *)
Definition pad (width : nat) (fill : Z) (l : list Z) : list Z :=
  replicate (width - length l) fill ++ l.

Definition hex2 (n : Z) : list Z := pad 2 48 (hex_digits 16 n []).

(** [%d] with a sign. *)
Definition sdec (width : nat) (fill n : Z) : list Z :=
  (if n <? 0 then [45] else []) ++ pad width fill (dec (Z.abs n)).

Definition NGX_RTMP_DASH_MANIFEST_HEADER (start_time end_time : list Z) (fraglen : Z) : list Z :=
  ln "<?xml version=`1.0`?>" ++
  ln "<MPD" ++
  ln "    type=`dynamic`" ++
  ln "    xmlns=`urn:mpeg:dash:schema:mpd:2011`" ++
  xml "    availabilityStartTime=`" ++ start_time ++ ln "`" ++
  xml "    availabilityEndTime=`" ++ end_time ++ ln "`" ++
  xml "    minimumUpdatePeriod=`PT" ++ dec (fraglen / 1000) ++ ln "S`" ++
  xml "    minBufferTime=`PT" ++ dec (fraglen / 1000) ++ ln "S`" ++
  ln "    timeShiftBufferDepth=`PT0H0M0.00S`" ++
  xml "    suggestedPresentationDelay=`PT" ++ dec (fraglen / 500) ++ ln "S`" ++
  ln "    profiles=`urn:hbbtv:dash:profile:isoff-live:2012,urn:mpeg:dash:profile:isoff-live:2011`" ++
  ln "    xmlns:xsi=`http://www.w3.org/2011/XMLSchema-instance`" ++
  ln "    xsi:schemaLocation=`urn:mpeg:DASH:schema:MPD:2011 DASH-MPD.xsd`>" ++
  ln "  <Period start=`PT0S` id=`dash`>".

Definition NGX_RTMP_DASH_MANIFEST_VIDEO (c : codec_ctx) (ctx_name name sep : list Z) : list Z :=
  ln "    <AdaptationSet" ++
  ln "        id=`1`" ++
  ln "        segmentAlignment=`true`" ++
  xml "        maxWidth=`" ++ dec (width c) ++ ln "`" ++
  xml "        maxHeight=`" ++ dec (height c) ++ ln "`" ++
  xml "        maxFrameRate=`" ++ dec (frame_rate c) ++ ln "`>" ++
  ln "      <Representation" ++
  xml "          id=`" ++ ctx_name ++ ln "_H264`" ++
  ln "          mimeType=`video/mp4`" ++
  xml "          codecs=`avc1." ++ hex2 (avc_profile c) ++ hex2 (avc_compat c) ++
    hex2 (avc_level c) ++ ln "`" ++
  xml "          width=`" ++ dec (width c) ++ ln "`" ++
  xml "          height=`" ++ dec (height c) ++ ln "`" ++
  xml "          frameRate=`" ++ dec (frame_rate c) ++ ln "`" ++
  ln "          sar=`1:1`" ++
  ln "          startWithSAP=`1`" ++
  xml "          bandwidth=`" ++ dec (u64 (video_data_rate c * 1000)) ++ ln "`>" ++
  ln "        <SegmentTemplate" ++
  ln "            presentationTimeOffset=`0`" ++
  ln "            timescale=`1000`" ++
  xml "            media=`" ++ name ++ sep ++ ln "$Time$.m4v`" ++
  xml "            initialization=`" ++ name ++ sep ++ ln "init.m4v`>" ++
  ln "          <SegmentTimeline>".

Definition NGX_RTMP_DASH_MANIFEST_VIDEO_FOOTER : list Z :=
  ln "          </SegmentTimeline>" ++
  ln "        </SegmentTemplate>" ++
  ln "      </Representation>" ++
  ln "    </AdaptationSet>".

Definition NGX_RTMP_DASH_MANIFEST_TIME (timestamp duration : Z) : list Z :=
  xml "             <S t=`" ++ dec timestamp ++ xml "` d=`" ++ dec duration ++ ln "`/>".

Definition NGX_RTMP_DASH_MANIFEST_AUDIO (c : codec_ctx) (ctx_name name sep : list Z) : list Z :=
  ln "    <AdaptationSet" ++
  ln "        id=`2`" ++
  ln "        segmentAlignment=`true`>" ++
  ln "      <AudioChannelConfiguration" ++
  ln "          schemeIdUri=`urn:mpeg:dash:23003:3:audio_channel_configuration:2011`" ++
  ln "          value=`1`/>" ++
  ln "      <Representation" ++
  xml "          id=`" ++ ctx_name ++ ln "_AAC`" ++
  ln "          mimeType=`audio/mp4`" ++
  xml "          codecs=`mp4a." ++
    (str (if audio_codec_id c =? NGX_RTMP_AUDIO_AAC then "40.2" else "6b")) ++ ln "`" ++
  xml "          audioSamplingRate=`" ++ dec (sample_rate c) ++ ln "`" ++
  ln "          startWithSAP=`1`" ++
  xml "          bandwidth=`" ++ dec (u64 (audio_data_rate c * 1000)) ++ ln "`>" ++
  ln "        <SegmentTemplate" ++
  ln "            presentationTimeOffset=`0`" ++
  ln "            timescale=`1000`" ++
  xml "            media=`" ++ name ++ sep ++ ln "$Time$.m4a`" ++
  xml "            initialization=`" ++ name ++ sep ++ ln "init.m4a`>" ++
  ln "          <SegmentTimeline>".

Definition NGX_RTMP_DASH_MANIFEST_AUDIO_FOOTER : list Z :=
  ln "          </SegmentTimeline>" ++
  ln "        </SegmentTemplate>" ++
  ln "      </Representation>" ++
  ln "    </AdaptationSet>".

Definition NGX_RTMP_DASH_MANIFEST_FOOTER : list Z :=
  ln "  </Period>" ++
  ln "</MPD>".

(** The time of day, [%4d-%02d-%02dT%02d:%02d:%02d%c%02d:%02d]. *)
Definition time_string (t : tm) (gmtoff : Z) : list Z :=
  sdec 4 32 (tm_year t + 1900) ++ str "-" ++ sdec 2 48 (tm_mon t + 1) ++ str "-" ++
  sdec 2 48 (tm_mday t) ++ str "T" ++ sdec 2 48 (tm_hour t) ++ str ":" ++
  sdec 2 48 (tm_min t) ++ str ":" ++ sdec 2 48 (tm_sec t) ++
  str (if gmtoff <? 0 then "-" else "+") ++
  sdec 2 48 (Z.abs (Z.quot gmtoff 60)) ++ str ":" ++ sdec 2 48 (Z.abs (Z.rem gmtoff 60)).

(** The loop [for (i = 0; i < ctx->nfrags; i++)] over the window. *)
Fixpoint timeline (n : nat) (i : Z) (ctx : ngx_rtmp_dash_ctx_t) : option (list Z) :=
  match n with
  | O => Some []
  | S n =>
      f ← ngx_rtmp_dash_get_frag ctx i;
      rest ← timeline n (i + 1) ctx;
      Some (NGX_RTMP_DASH_MANIFEST_TIME (f_timestamp f) (f_duration f) ++ rest)
  end.

(** [ngx_slprintf] stops at the end of the buffer. *)
Definition slprintf (text : list Z) : list Z :=
  take (Z.to_nat NGX_RTMP_DASH_BUFSIZE) text.

Definition ngx_rtmp_dash_write_init_segments (buffer : list Z) (ctx : ngx_rtmp_dash_ctx_t)
    (e : env) : option (ngx_rc * env) :=
  match codec with
  | None => Some (NGX_ERROR, e)
  | Some _ =>
      let path := d_stream ctx ++ str "init.m4v" in
      let '(ok, e) := ngx_open_file path e in
      if negb ok then Some (NGX_ERROR, e)
      else
        '(_, b) ← (ngx_rtmp_mp4_write_ftyp;;
                   ngx_rtmp_mp4_write_moov codec NGX_RTMP_MP4_VIDEO_TRACK) (Buf buffer 0 0);
        let '(_, e) := ngx_write_fd path (buf_written b) e in
        let path := d_stream ctx ++ str "init.m4a" in
        let '(ok, e) := ngx_open_file path e in
        if negb ok then Some (NGX_ERROR, e)
        else
          '(_, b) ← (ngx_rtmp_mp4_write_ftyp;;
                     ngx_rtmp_mp4_write_moov codec NGX_RTMP_MP4_AUDIO_TRACK)
                    (Buf (b_mem b) 0 0);
          let '(_, e) := ngx_write_fd path (buf_written b) e in
          Some (NGX_OK, e)
  end.

Definition ngx_rtmp_dash_write_playlist (buffer : list Z) (ctx : ngx_rtmp_dash_ctx_t)
    (e : env) : option (ngx_rc * env) :=
  match codec with
  | None => Some (NGX_ERROR, e)
  | Some codec_ctx =>
      '(_, e) ← (if d_id ctx =? 0 then ngx_rtmp_dash_write_init_segments buffer ctx e
                 else Some (NGX_OK, e));
      let '(ok, e) := ngx_open_file (d_playlist_bak ctx) e in
      if negb ok then Some (NGX_ERROR, e)
      else
        f0 ← ngx_rtmp_dash_get_frag ctx 0;
        fl ← ngx_rtmp_dash_get_frag ctx (d_nfrags ctx - 1);
        let start_time :=
          time_string (ngx_libc_localtime (d_start_sec ctx + f_timestamp f0 / 1000))
            (d_start_gmtoff ctx) in
        let end_time :=
          time_string (ngx_libc_localtime
                         (d_start_sec ctx + u32 (f_timestamp fl + f_duration fl) / 1000))
            (d_start_gmtoff ctx) in
        let '(_, e) := ngx_write_fd (d_playlist_bak ctx)
          (slprintf (NGX_RTMP_DASH_MANIFEST_HEADER start_time end_time (fraglen dacf))) e in
        let name := if nested dacf then [] else d_name ctx in
        let sep := str (if nested dacf then String.EmptyString else "-") in
        times ← timeline (Z.to_nat (d_nfrags ctx)) 0 ctx;
        let e :=
          if d_has_video ctx then
            snd (ngx_write_fd (d_playlist_bak ctx)
                   (slprintf (NGX_RTMP_DASH_MANIFEST_VIDEO codec_ctx (d_name ctx) name sep ++
                              times ++ NGX_RTMP_DASH_MANIFEST_VIDEO_FOOTER)) e)
          else e in
        let e :=
          if d_has_audio ctx then
            snd (ngx_write_fd (d_playlist_bak ctx)
                   (slprintf (NGX_RTMP_DASH_MANIFEST_AUDIO codec_ctx (d_name ctx) name sep ++
                              times ++ NGX_RTMP_DASH_MANIFEST_AUDIO_FOOTER)) e)
          else e in
        let '(n, e) := ngx_write_fd (d_playlist_bak ctx)
                         (slprintf NGX_RTMP_DASH_MANIFEST_FOOTER) e in
        match n with
        | None => Some (NGX_ERROR, e)
        | Some _ =>
            let '(ok, e) := ngx_rename_file (d_playlist_bak ctx) (d_playlist ctx) e in
            Some (if ok then NGX_OK else NGX_ERROR, e)
        end
  end.

(* ------------------------------------------------------------------ *)
(** ** Closing a fragment *)

(** [pos = b.last], [b.last = pos]. *)
Definition get_last : W nat := fun b => Some (b_last b, b).
Definition set_last (n : nat) : W unit := fun b => Some (tt, Buf (b_mem b) (b_pos b) n).

(** The headers of a segment: the [sidx] box is written into the 44 bytes
    left free in front of the [moof] box once its size is known. *)
Definition segment_headers (t : ngx_rtmp_dash_track_t) : W ngx_rc :=
  ngx_rtmp_mp4_write_styp;;
  pos ← get_last;
  set_last (pos + 44);;
  ngx_rtmp_mp4_write_moof (t_earliest_pres_time t)
    (take (Z.to_nat (t_sample_count t)) (t_samples t)) (t_sample_mask t) (t_id t);;
  pos1 ← get_last;
  set_last pos;;
  ngx_rtmp_mp4_write_sidx
    (t_mdat_size t + 8 + (Z.of_nat pos1 - (Z.of_nat pos + 44)))
    (t_earliest_pres_time t) (t_latest_pres_time t);;
  set_last pos1;;
  ngx_rtmp_mp4_write_mdat (t_mdat_size t + 8).

Definition segment_path (ctx : ngx_rtmp_dash_ctx_t) (timestamp type : Z) : list Z :=
  d_stream ctx ++ dec timestamp ++ str ".m4" ++ [type].

(** The loop [while (left > 0)]; [raw] is what is left to read of the raw
    file.  [None] when the fuel ends. *)
Fixpoint copy_loop (fuel : nat) (path raw : list Z) (left : Z) (e : env) : option env :=
  if left <=? 0 then Some e
  else
    match fuel with
    | O => None
    | S fuel =>
        match os (e_calls e) with
        | None => Some (tick e)
        | Some m =>
            let chunk := take (min m (Z.to_nat (Z.min NGX_RTMP_DASH_BUFSIZE left))) raw in
            match ngx_write_fd path chunk (tick e) with
            | (None, e) => Some e
            | (Some n, e) => copy_loop fuel path (drop (length chunk) raw) (left - Z.of_nat n) e
            end
        end
    end.

Definition track_closed (t : ngx_rtmp_dash_track_t) : ngx_rtmp_dash_track_t :=
  Track (t_id t) false (t_mdat_size t) (t_sample_count t) (t_sample_mask t) None
    (t_type t) (t_earliest_pres_time t) (t_latest_pres_time t) (t_samples t).

(** The result is the closed track and the files; [None] is an undefined
    pointer operation or a copy loop that outlasts its fuel. *)
Definition ngx_rtmp_dash_close_fragment (fuel : nat) (buffer : list Z)
    (ctx : ngx_rtmp_dash_ctx_t) (t : ngx_rtmp_dash_track_t) (e : env)
  : option (ngx_rtmp_dash_track_t * env) :=
  if negb (t_opened t) then Some (t, e)
  else
    '(_, b) ← segment_headers t (Buf buffer 0 0);
    f ← ngx_rtmp_dash_get_frag ctx (d_nfrags ctx);
    let path := segment_path ctx (f_timestamp f) (t_type t) in
    let '(ok, e) := ngx_open_file path e in
    if negb ok then Some (track_closed t, e)
    else
      match ngx_write_fd path (buf_data b) e with
      | (None, e) => Some (track_closed t, e)
      | (Some _, e) =>
          (* lseek(t->fd, 0, SEEK_SET) *)
          match t_fd t, os (e_calls e) with
          | Some raw, Some _ =>
              e ← copy_loop fuel path raw (t_mdat_size t) (tick e);
              Some (track_closed t, e)
          | _, _ => Some (track_closed t, tick e)
          end
      end.

Definition ngx_rtmp_dash_close_fragments (fuel : nat) (buffer : list Z) (st : dash_st)
  : option (ngx_rc * dash_st) :=
  let ctx := st_ctx st in
  if negb (d_opened ctx) then Some (NGX_OK, st)
  else
    '(video, e) ← ngx_rtmp_dash_close_fragment fuel buffer ctx (d_video ctx) (st_env st);
    '(audio, e) ← ngx_rtmp_dash_close_fragment fuel buffer ctx (d_audio ctx) e;
    let ctx := ngx_rtmp_dash_next_frag (set_tracks ctx video audio) in
    '(_, e) ← ngx_rtmp_dash_write_playlist buffer ctx e;
    Some (NGX_OK, St (set_opened ctx (u64 (d_id ctx + 1)) false) e).

(* ------------------------------------------------------------------ *)
(** ** Opening fragments *)

Definition ngx_rtmp_dash_open_fragment (t : ngx_rtmp_dash_track_t) (id type : Z) (e : env)
  : ngx_rc * ngx_rtmp_dash_track_t * env :=
  if t_opened t then (NGX_OK, t, e)
  else
    match os (e_calls e) with
    | None =>
        (NGX_ERROR,
         Track (t_id t) (t_opened t) (t_mdat_size t) (t_sample_count t) (t_sample_mask t)
           None (t_type t) (t_earliest_pres_time t) (t_latest_pres_time t) (t_samples t),
         tick e)
    | Some _ =>
        (NGX_OK,
         Track id true 0 0
           (if type =? 118 (* 'v' *)
            then Z.lor (Z.lor (Z.lor NGX_RTMP_MP4_SAMPLE_SIZE NGX_RTMP_MP4_SAMPLE_DURATION)
                          NGX_RTMP_MP4_SAMPLE_DELAY) NGX_RTMP_MP4_SAMPLE_KEY
            else Z.lor NGX_RTMP_MP4_SAMPLE_SIZE NGX_RTMP_MP4_SAMPLE_DURATION)
           (Some []) type 0 0 (t_samples t),
         tick e)
    end.

Definition ngx_rtmp_dash_open_fragments (st : dash_st) : ngx_rc * dash_st :=
  let ctx := st_ctx st in
  if d_opened ctx then (NGX_OK, st)
  else
    let '(_, video, e) := ngx_rtmp_dash_open_fragment (d_video ctx) (d_id ctx) 118 (st_env st) in
    let '(_, audio, e) := ngx_rtmp_dash_open_fragment (d_audio ctx) (d_id ctx) 97 e in
    (NGX_OK, St (set_opened (set_tracks ctx video audio) (d_id ctx) true) e).

(* ------------------------------------------------------------------ *)
(** ** Appending frames *)

Definition ngx_rtmp_dash_update_fragments (fuel : nat) (buffer : list Z) (boundary : bool)
    (timestamp : Z) (st : dash_st) : option dash_st :=
  let ctx := st_ctx st in
  f ← ngx_rtmp_dash_get_frag ctx (d_nfrags ctx);
  let d := s32 (timestamp - f_timestamp f) in
  let '(f, hit) :=
    if 0 <=? d then
      let duration := u32 (timestamp - f_timestamp f) in
      (Frag (f_timestamp f) duration, fraglen dacf <=? duration)
    else (f, 1000 <? s32 (- d)) in
  let ctx := set_frag ctx (d_nfrags ctx) f in
  let boundary := if d_has_video ctx && negb hit then false else boundary in
  let boundary := if negb (d_has_video ctx) && d_has_audio ctx then hit else boundary in
  let boundary := if NGX_RTMP_DASH_MAX_MDAT <=? t_mdat_size (d_audio ctx)
                  then true else boundary in
  let boundary := if NGX_RTMP_DASH_MAX_MDAT <=? t_mdat_size (d_video ctx)
                  then true else boundary in
  let boundary := if negb (d_opened ctx) then true else boundary in
  let st := St ctx (st_env st) in
  if boundary then
    '(_, st) ← ngx_rtmp_dash_close_fragments fuel buffer st;
    let '(_, st) := ngx_rtmp_dash_open_fragments st in
    let ctx := st_ctx st in
    f ← ngx_rtmp_dash_get_frag ctx (d_nfrags ctx);
    Some (St (set_frag ctx (d_nfrags ctx) (Frag timestamp (f_duration f))) (st_env st))
  else Some st.

(** The loop that gathers a frame from its chain into the static buffer. *)
Fixpoint gather (ins : list (list Z)) (acc : list Z) : list Z :=
  match ins with
  | [] => acc
  | i :: rest =>
      let size := Z.of_nat (length acc) in
      if size <? NGX_RTMP_DASH_BUFSIZE then
        let bsize := Z.of_nat (length i) in
        let bsize := if NGX_RTMP_DASH_BUFSIZE <? size + bsize
                     then NGX_RTMP_DASH_BUFSIZE - size else bsize in
        gather rest (acc ++ take (Z.to_nat bsize) i)
      else acc
  end.

(** The track a frame belongs to. *)
Inductive track_sel := Video | Audio.

Definition get_track (k : track_sel) (ctx : ngx_rtmp_dash_ctx_t) : ngx_rtmp_dash_track_t :=
  match k with Video => d_video ctx | Audio => d_audio ctx end.

Definition set_track (k : track_sel) (t : ngx_rtmp_dash_track_t) (ctx : ngx_rtmp_dash_ctx_t)
  : ngx_rtmp_dash_ctx_t :=
  match k with
  | Video => set_tracks ctx t (d_audio ctx)
  | Audio => set_tracks ctx (d_video ctx) t
  end.

Definition track_times (t : ngx_rtmp_dash_track_t) (earliest latest : Z)
  : ngx_rtmp_dash_track_t :=
  Track (t_id t) (t_opened t) (t_mdat_size t) (t_sample_count t) (t_sample_mask t) (t_fd t)
    (t_type t) earliest latest (t_samples t).

(** The new sample, and the duration of the sample before it. *)
Definition add_sample (t : ngx_rtmp_dash_track_t) (raw : list Z) (size : Z) (key : bool)
    (timestamp delay : Z) : ngx_rtmp_dash_track_t :=
  let count := Z.to_nat (t_sample_count t) in
  let samples := <[count := Sample (u32 size) 0 delay timestamp key]> (t_samples t) in
  let samples :=
    if 0 <? t_sample_count t then
      match samples !! (count - 1)%nat with
      | Some p => <[(count - 1)%nat :=
                      Sample (smp_size p) (u32 (timestamp - smp_timestamp p))
                        (smp_delay p) (smp_timestamp p) (smp_key p)]> samples
      | None => samples
      end
    else samples in
  Track (t_id t) (t_opened t) (t_mdat_size t + size) (t_sample_count t + 1)
    (t_sample_mask t) (Some raw) (t_type t) (t_earliest_pres_time t)
    (t_latest_pres_time t) samples.

Definition ngx_rtmp_dash_append (fuel : nat) (buffer : list Z) (ins : list (list Z))
    (k : track_sel) (key : bool) (timestamp delay : Z) (st : dash_st)
  : option (ngx_rc * dash_st) :=
  let data := gather ins [] in
  st ← ngx_rtmp_dash_update_fragments fuel buffer key timestamp st;
  let ctx := st_ctx st in
  let e := st_env st in
  let t := get_track k ctx in
  let t := track_times t
             (if t_sample_count t =? 0 then timestamp else t_earliest_pres_time t)
             timestamp in
  if t_sample_count t <? NGX_RTMP_DASH_MAX_SAMPLES then
    match t_fd t, os (e_calls e) with
    | Some raw, Some m =>
        Some (NGX_OK,
          St (set_track k (add_sample t (raw ++ take m data) (Z.of_nat (length data))
                             key timestamp delay) ctx) (tick e))
    | _, _ => Some (NGX_ERROR, St (set_track k t ctx) (tick e))
    end
  else Some (NGX_OK, St (set_track k t ctx) e).

(** The handler of audio messages; [ins] are the buffers of the chain, [mlen]
    and [timestamp] come from the message header.  The chain is returned as
    the handler leaves it: the source moves [in->buf->pos] behind the codec
    headers.  [None] is also an empty chain, which the source dereferences. *)
Definition ngx_rtmp_dash_audio (fuel : nat) (buffer : list Z) (mlen timestamp : Z)
    (ins : list (list Z)) (st : dash_st)
  : option (ngx_rc * list (list Z) * dash_st) :=
  match codec with
  | None => Some (NGX_OK, ins, st)
  | Some codec_ctx =>
      if negb (dash dacf) || (mlen <? 2) then Some (NGX_OK, ins, st)
      else if negb (audio_codec_id codec_ctx =? NGX_RTMP_AUDIO_AAC) ||
              negb (bool_decide (is_Some (aac_header codec_ctx)))
      then Some (NGX_OK, ins, st)
      else
        match ins with
        | [] => None
        | first :: rest =>
            match first with
            | _ :: htype :: data =>
                if negb (htype =? 1) then Some (NGX_OK, ins, st)
                else
                  let ctx := st_ctx st in
                  '(rc, st) ← ngx_rtmp_dash_append fuel buffer (data :: rest) Audio false timestamp 0
                    (St (set_has ctx (d_has_video ctx) true) (st_env st));
                  Some (rc, data :: rest, st)
            | _ => Some (NGX_ERROR, ins, st)
            end
        end
  end.

Definition ngx_rtmp_dash_video (fuel : nat) (buffer : list Z) (mlen timestamp : Z)
    (ins : list (list Z)) (st : dash_st)
  : option (ngx_rc * list (list Z) * dash_st) :=
  match codec with
  | None => Some (NGX_OK, ins, st)
  | Some codec_ctx =>
      if negb (dash dacf) || negb (bool_decide (is_Some (avc_header codec_ctx))) || (mlen <? 5)
      then Some (NGX_OK, ins, st)
      else if negb (video_codec_id codec_ctx =? NGX_RTMP_VIDEO_H264)
      then Some (NGX_OK, ins, st)
      else
        match ins with
        | [] => None
        | first :: rest =>
            match first with
            | b0 :: htype :: b2 :: b3 :: b4 :: data =>
                let ftype := Z.shiftr (Z.land b0 240) 4 in
                if negb (htype =? 1) then Some (NGX_OK, ins, st)
                else
                  let delay := le_val [b4; b3; b2; 0] in
                  let ctx := st_ctx st in
                  '(rc, st) ← ngx_rtmp_dash_append fuel buffer (data :: rest) Video (ftype =? 1) timestamp
                    delay (St (set_has ctx true (d_has_audio ctx)) (st_env st));
                  Some (rc, data :: rest, st)
            | _ => Some (NGX_ERROR, ins, st)
            end
        end
  end.

(** Closing the stream and its end of file both close the fragments, then
    call the next handler of their chains. *)
Definition ngx_rtmp_dash_close_stream (fuel : nat) (buffer : list Z) (st : dash_st)
  : option dash_st :=
  if negb (dash dacf) then Some st
  else snd <$> ngx_rtmp_dash_close_fragments fuel buffer st.

Definition ngx_rtmp_dash_stream_eof (fuel : nat) (buffer : list Z) (st : dash_st)
  : option dash_st :=
  snd <$> ngx_rtmp_dash_close_fragments fuel buffer st.

(* ------------------------------------------------------------------ *)
(** ** The headers of a segment *)

Definition BUF : nat := Z.to_nat NGX_RTMP_DASH_BUFSIZE.

Lemma BUF_val : Z.of_nat BUF = 1048576.
Proof. unfold BUF, NGX_RTMP_DASH_BUFSIZE. lia. Qed.
#[local] Opaque BUF.

Lemma splice_self i n (l : list Z) : splice i (take n (drop i l)) l = l.
Proof.
  unfold splice. transitivity (take i l ++ drop i l); [f_equal|apply take_drop].
  transitivity (take n (drop i l) ++ drop n (drop i l)); [f_equal|apply take_drop].
  rewrite drop_drop. destruct (decide (n <= length (drop i l))%nat).
  - rewrite length_take. f_equal. lia.
  - rewrite !drop_ge; [done|len..].
Qed.

(** Leaving [n] bytes free is writing what was there. *)
Lemma set_last_push n b :
  buf_ok b -> (n <= buf_room b)%nat ->
  set_last (b_last b + n) b =
    Some (tt, buf_push b (take n (drop (b_last b) (b_mem b)))).
Proof.
  intros Hb Hn. unfold set_last, buf_push, buf_room, b_end in *. rewrite splice_self. do 3 f_equal.
  destruct Hb as (_ & ? & _). unfold b_end in *. len.
Qed.

(** Filling a gap of [length x] bytes left in front of [r]. *)
Lemma fill_gap b gap r x :
  buf_ok b -> length gap = length x -> (length (x ++ r) <= buf_room b)%nat ->
  let b1 := buf_push b (gap ++ r) in
  let b2 := buf_push (Buf (b_mem b1) (b_pos b1) (b_last b)) x in
  Buf (b_mem b2) (b_pos b2) (b_last b1) = buf_push b (x ++ r).
Proof.
  intros (_ & Hb & _) Hx Hr. cbv zeta. unfold buf_push. cbn [b_mem b_pos b_last].
  unfold buf_room, b_end in *. rewrite splice_overwrite by len. f_equal. len.
Qed.

Definition used_samples (t : ngx_rtmp_dash_track_t) : list ngx_rtmp_mp4_sample_t :=
  take (Z.to_nat (t_sample_count t)) (t_samples t).

(** The boxes in front of the media data. *)
Definition seg_moof (t : ngx_rtmp_dash_track_t) : mbox :=
  tree_moof (t_earliest_pres_time t) (used_samples t) (t_sample_mask t) (t_id t)
    (moof_offset (used_samples t) (t_sample_mask t)).

Definition seg_sidx (t : ngx_rtmp_dash_track_t) : mbox :=
  tree_sidx (Z.of_nat (length (serialize (seg_moof t))) + 8 + t_mdat_size t)
    (t_earliest_pres_time t) (t_latest_pres_time t).

Definition seg_boxes (t : ngx_rtmp_dash_track_t) : list Z :=
  serialize tree_styp ++ serialize (seg_sidx t) ++ serialize (seg_moof t).

Lemma trun_nitems_bound mask : 0 <= trun_nitems mask <= 4.
Proof. unfold trun_nitems. repeat case_if; lia. Qed.

Lemma length_seg_moof t :
  0 <= t_sample_count t <= NGX_RTMP_DASH_MAX_SAMPLES ->
  Z.of_nat (length (serialize (seg_moof t))) <= 16500.
Proof.
  intros Hc. pose proof (trun_nitems_bound (t_sample_mask t)).
  pose proof (length_moof (t_earliest_pres_time t) (used_samples t) (t_sample_mask t)
                (t_id t) (moof_offset (used_samples t) (t_sample_mask t))) as Hl.
  unfold moof_offset in Hl at 2. fold (seg_moof t) in Hl.
  assert (Z.of_nat (length (used_samples t)) <= 1024).
  { unfold used_samples, NGX_RTMP_DASH_MAX_SAMPLES in *. len. }
  nia.
Qed.

Lemma bytes_ok_mid n i (b : ngx_buf_t) : buf_ok b -> bytes_ok (take n (drop i (b_mem b))).
Proof. intros (_ & _ & ?). auto with lmss. Qed.

Ltac room := first [assumption|reflexivity|rewrite ?length_app; lia].

Lemma segment_headers_spec buffer t :
  length buffer = BUF -> bytes_ok buffer ->
  0 <= t_sample_count t <= NGX_RTMP_DASH_MAX_SAMPLES ->
  segment_headers t (Buf buffer 0 0) =
    Some (NGX_OK, buf_push (Buf buffer 0 0)
                    (seg_boxes t ++ b32 (t_mdat_size t + 8) ++ str "mdat")).
Proof.
  intros Hl Hb Hc. pose proof (length_seg_moof t Hc) as Hm.
  assert (length (serialize tree_styp) = 28%nat) as Hs by reflexivity.
  pose proof BUF_val as EB.
  assert (Z.of_nat (length (seg_boxes t)) <= 16600) as Hsb.
  { unfold seg_boxes, seg_sidx. rewrite !length_app, length_sidx. lia. }
  set (b := Buf buffer 0 0).
  assert (buf_ok b) as Hok by (unfold buf_ok, b_end; cbn; split_and!; auto; lia).
  assert (buf_room b = BUF) as Hr by (unfold buf_room, b_end; cbn; lia).
  unfold segment_headers, mbind, W_bind.
  rewrite (proj2 (write_styp_appends 0)) by room.
  set (b1 := buf_push b (serialize tree_styp)).
  assert (buf_ok b1) as Hok1
    by (apply buf_push_ok; [auto|lia|exact (proj1 (write_styp_appends 0))]).
  assert (buf_room b1 = (BUF - 28)%nat) as Hr1 by (unfold b1; rewrite buf_push_room by first [assumption|lia]; lia).
  unfold get_last at 1. rewrite set_last_push by room.
  set (gap := take 44 _). assert (length gap = 44%nat) as Hg.
  { unfold gap. destruct Hok1 as (_ & ? & _). unfold buf_room, b_end in *. len. }
  fold (used_samples t).
  pose proof (write_moof_appends (t_earliest_pres_time t) (used_samples t)
                (t_sample_mask t) (t_id t) (b_last (buf_push b1 gap))) as [Hmo Hmoof].
  fold (seg_moof t) in Hmo, Hmoof.
  rewrite Hmoof; [|apply buf_push_ok; [room|room|now apply bytes_ok_mid]|done|
                   rewrite buf_push_room by room; lia].
  rewrite buf_push_push by room. set (b2 := buf_push b1 (gap ++ serialize (seg_moof t))).
  unfold get_last, set_last at 1.
  assert (Z.of_nat (b_last b2) - (Z.of_nat (b_last b1) + 44) =
          Z.of_nat (length (serialize (seg_moof t)))) as ->.
  { unfold b2. cbn [buf_push b_last]. rewrite length_app. lia. }
  replace (t_mdat_size t + 8 + Z.of_nat (length (serialize (seg_moof t))))
    with (Z.of_nat (length (serialize (seg_moof t))) + 8 + t_mdat_size t) by lia.
  pose proof (write_sidx_appends
    (Z.of_nat (length (serialize (seg_moof t))) + 8 + t_mdat_size t)
    (t_earliest_pres_time t) (t_latest_pres_time t) (b_last b1)) as [Hso Hsidx].
  fold (seg_sidx t) in Hso, Hsidx.
  assert (length (serialize (seg_sidx t)) = 44%nat) as Hls by (unfold seg_sidx; now rewrite length_sidx).
  assert (b_end b2 = b_end b1) as He2 by (apply buf_push_end; room).
  assert (bytes_ok (b_mem b2)) as Hb2.
  { apply bytes_ok_splice; [apply bytes_ok_app; split; [now apply bytes_ok_mid|done]|apply Hok1]. }
  rewrite Hsidx; [|destruct Hok1 as (? & ? & ?); unfold buf_ok, b_end in *;
                   cbn [b_mem b_pos b_last] in *; split_and!; auto; lia|done|
                   unfold buf_room, b_end in *; cbn [b_mem b_last] in *; lia].
  pose proof (fill_gap b1 gap (serialize (seg_moof t)) (serialize (seg_sidx t))) as Hgap.
  cbv zeta in Hgap. fold b2 in Hgap. unfold set_last. rewrite Hgap by room. unfold b1. rewrite buf_push_push by room.
  fold (seg_boxes t).
  pose proof (write_mdat_appends (t_mdat_size t + 8) (b_last (buf_push b (seg_boxes t))))
    as [_ Hmd].
  rewrite Hmd; [now rewrite buf_push_push by room| |done|].
  - apply buf_push_ok; [room|room|]. unfold seg_boxes. rewrite !bytes_ok_app.
    split_and!; auto. exact (proj1 (write_styp_appends 0)).
  - rewrite buf_push_room by room.
    assert (length (b32 (t_mdat_size t + 8) ++ str "mdat") = 8%nat) as -> by reflexivity. lia.
Qed.

(* ------------------------------------------------------------------ *)
(** ** Segment files *)

(** A disk that does every operation completely. *)
Definition complete : Prop := forall n, exists m, os n = Some m /\ (BUF <= m)%nat.

Section Complete.
Hypothesis Hos : complete.

Lemma open_complete path e :
  ngx_open_file path e = (true, Env (S (e_calls e)) (<[path := []]> (e_files e))).
Proof. unfold ngx_open_file. destruct (Hos (e_calls e)) as (m & -> & _). reflexivity. Qed.

Lemma write_complete path data e :
  (length data <= BUF)%nat ->
  ngx_write_fd path data e =
    (Some (length data),
     Env (S (e_calls e))
       (<[path := default [] (e_files e !! path) ++ data]> (e_files e))).
Proof.
  intros Hd. unfold ngx_write_fd. destruct (Hos (e_calls e)) as (m & -> & Hm).
  rewrite take_ge by lia. do 2 f_equal. lia.
Qed.

(** The copy loop appends the rest of the raw file, and a fuel of one step
    per byte is enough. *)
Lemma copy_loop_complete path fuel : forall raw e,
  (length raw <= fuel)%nat -> is_Some (e_files e !! path) ->
  exists calls,
    copy_loop fuel path raw (Z.of_nat (length raw)) e =
      Some (Env calls (<[path := default [] (e_files e !! path) ++ raw]> (e_files e))).
Proof.
  induction fuel as [|fuel IH]; intros raw e Hf [old Ho]; cbn [copy_loop].
  - destruct raw; [|cbn in Hf; lia]. exists (e_calls e). cbn. rewrite Ho. cbn.
    rewrite app_nil_r, insert_id by done. now destruct e.
  - case_if.
    { destruct raw; [|rewrite length_cons in *; lia]. exists (e_calls e). rewrite Ho. cbn.
      rewrite app_nil_r, insert_id by done. now destruct e. }
    destruct (Hos (e_calls e)) as (m & -> & Hm). pose proof BUF_val as HB.
    assert (min m (Z.to_nat (Z.min NGX_RTMP_DASH_BUFSIZE (Z.of_nat (length raw)))) =
            min BUF (length raw)) as -> by (unfold NGX_RTMP_DASH_BUFSIZE; lia).
    set (chunk := take _ raw).
    assert (length chunk = min BUF (length raw)) as Hc by (unfold chunk; len).
    rewrite write_complete by lia. cbn [e_calls e_files tick]. rewrite Ho. cbn [default].
    edestruct (IH (drop (length chunk) raw)) as (calls & EI); [| |
      replace (Z.of_nat (length raw) - Z.of_nat (length chunk))
        with (Z.of_nat (length (drop (length chunk) raw))) by len;
      exists calls; rewrite EI]; [len|cbn; rewrite lookup_insert_eq; eauto|].
    cbn [e_files]. rewrite lookup_insert_eq. cbn. rewrite insert_insert_eq, <- app_assoc.
    do 4 f_equal. unfold chunk at 1. rewrite Hc. apply take_drop.
Qed.

(** The trees of a segment whose media data is [raw]. *)
Definition segment (t : ngx_rtmp_dash_track_t) (raw : list Z) : list mbox :=
  [tree_styp; seg_sidx t; seg_moof t; MBox (str "mdat") raw []].

Lemma segment_bytes t raw :
  t_mdat_size t = Z.of_nat (length raw) ->
  serialize_all (segment t raw) =
  (seg_boxes t ++ b32 (t_mdat_size t + 8) ++ str "mdat") ++ raw.
Proof.
  intros Hl. unfold serialize_all, segment, seg_boxes. cbn [map concat].
  rewrite (serialize_eq (str "mdat")). unfold box, serialize_all. cbn [map concat].
  rewrite !app_nil_r, <- !app_assoc, Hl. do 4 f_equal. unfold b32. f_equal. lia.
Qed.

(** What a track and its raw file must satisfy when it is closed. *)
Definition track_ready (t : ngx_rtmp_dash_track_t) (raw : list Z) : Prop :=
  t_opened t = true /\ t_fd t = Some raw /\ t_mdat_size t = Z.of_nat (length raw) /\
  0 <= t_sample_count t <= NGX_RTMP_DASH_MAX_SAMPLES.

Lemma close_fragment_complete fuel buffer ctx t raw f e :
  length buffer = BUF -> bytes_ok buffer -> track_ready t raw ->
  ngx_rtmp_dash_get_frag ctx (d_nfrags ctx) = Some f ->
  (length raw <= fuel)%nat ->
  exists calls,
    ngx_rtmp_dash_close_fragment fuel buffer ctx t e =
    Some (track_closed t,
          Env calls (<[segment_path ctx (f_timestamp f) (t_type t) :=
                         serialize_all (segment t raw)]> (e_files e))).
Proof.
  intros Hb Hbo (Ho & Hfd & Hmd & Hc) Hf Hfuel. unfold ngx_rtmp_dash_close_fragment.
  rewrite Ho. cbn [negb]. rewrite segment_headers_spec by auto. cbn [mbind option_bind].
  rewrite Hf. cbn [mbind option_bind]. rewrite open_complete. cbn [negb].
  rewrite segment_bytes by done. set (hdr := seg_boxes t ++ _).
  set (path := segment_path _ _ _). pose proof BUF_val as HB.
  pose proof (length_seg_moof t Hc) as Hm.
  assert (length hdr <= BUF)%nat as Hh.
  { unfold hdr, seg_boxes. rewrite !length_app. unfold seg_sidx. rewrite length_sidx.
    assert (length (serialize tree_styp) = 28%nat) as -> by reflexivity.
    assert (length (str "mdat") = 4%nat) as -> by reflexivity. rewrite length_b32. lia. }
  assert (buf_data (buf_push (Buf buffer 0 0) hdr) = hdr) as ->.
  { rewrite buf_data_push; [reflexivity| |unfold buf_room, b_end; cbn [b_mem b_last]; lia].
    unfold buf_ok, b_end. cbn [b_mem b_pos b_last]. split_and!; auto; lia. }
  rewrite write_complete by done. cbn [e_calls e_files].
  rewrite lookup_insert_eq, insert_insert_eq, app_nil_l, Hfd.
  destruct (Hos (S (S (e_calls e)))) as (m & -> & _). rewrite Hmd.
  edestruct (copy_loop_complete path fuel raw
               (tick (Env (S (S (e_calls e))) (<[path:=hdr]> (e_files e))))) as (calls & ->);
    [done|cbn; rewrite lookup_insert_eq; eauto|].
  exists calls. cbn [mbind option_bind tick e_files]. rewrite lookup_insert_eq. cbn [default].
  now rewrite insert_insert_eq.
Qed.

Lemma segment_sizes t raw :
  0 <= t_sample_count t <= NGX_RTMP_DASH_MAX_SAMPLES -> Z.of_nat (length raw) + 8 < 2 ^ 32 ->
  Forall (fun b => length (tree_type b) = 4%nat /\
                   8 + Z.of_nat (length (tree_payload b)) < 2 ^ 32) (segment t raw).
Proof.
  intros Hc Hl. pose proof (length_seg_moof t Hc) as Hm. unfold segment.
  apply Forall_cons; split; [split; [reflexivity|vm_compute; reflexivity]|].
  apply Forall_cons; split; [split; [reflexivity|]|].
  { change (length (tree_payload (seg_sidx t))) with 36%nat. lia. }
  apply Forall_cons; split; [split; [reflexivity|]|].
  { unfold seg_moof, tree_moof in *. rewrite serialize_eq, length_box in Hm by reflexivity.
    unfold tree_payload. lia. }
  apply Forall_cons; split; [split; [reflexivity|]|constructor].
  cbn [tree_payload]. unfold serialize_all. cbn [map concat]. rewrite app_nil_r. lia.
Qed.

(** C17: on a disk that does its work, closing an open fragment leaves a segment
    file made of exactly the boxes styp, sidx, moof and mdat, the last one
    holding the whole raw file; the file is named after the start time of the
    fragment, and no other file changes. *)
Theorem close_fragment_segment fuel buffer ctx t raw f e :
  length buffer = BUF -> bytes_ok buffer -> track_ready t raw ->
  ngx_rtmp_dash_get_frag ctx (d_nfrags ctx) = Some f ->
  (length raw <= fuel)%nat -> Z.of_nat (length raw) + 8 < 2 ^ 32 ->
  exists e',
    ngx_rtmp_dash_close_fragment fuel buffer ctx t e = Some (track_closed t, e') /\
    (forall p, p <> segment_path ctx (f_timestamp f) (t_type t) ->
       e_files e' !! p = e_files e !! p) /\
    exists file,
      e_files e' !! segment_path ctx (f_timestamp f) (t_type t) = Some file /\
      parse_boxes 5 file =
        Some [(str "styp", brands); (str "sidx", tree_payload (seg_sidx t));
              (str "moof", tree_payload (seg_moof t)); (str "mdat", raw)].
Proof.
  intros Hb Hbo Ht Hf Hfuel Hlen.
  destruct (close_fragment_complete fuel buffer ctx t raw f e) as (calls & ->); auto.
  eexists. split; [reflexivity|]. cbn [e_files]. split.
  { intros p Hp. now rewrite lookup_insert_ne. }
  eexists. rewrite lookup_insert_eq. split; [reflexivity|].
  change 5%nat with (S (length (segment t raw))). rewrite parse_serialize.
  - cbn [map segment tree_type]. unfold tree_payload at 1 4. unfold serialize_all. cbn [map concat].
    now rewrite !app_nil_r.
  - apply segment_sizes; [apply Ht|done].
Qed.

(* ------------------------------------------------------------------ *)
(** ** The invariant of the module *)

Definition ring_ok (ctx : ngx_rtmp_dash_ctx_t) : Prop :=
  0 <= winfrags dacf /\ length (d_frags ctx) = Z.to_nat (winfrags dacf * 2 + 1).

Definition MAX_SAMPLES : nat := Z.to_nat NGX_RTMP_DASH_MAX_SAMPLES.

(** A closed track: only its sample array matters. *)
Definition track_idle (t : ngx_rtmp_dash_track_t) : Prop :=
  t_opened t = false /\ length (t_samples t) = MAX_SAMPLES.

(** An open track that holds [frames]: the raw file is their concatenation
    and the table has one entry of the right size per frame. *)
Definition track_holds (t : ngx_rtmp_dash_track_t) (frames : list (list Z)) : Prop :=
  t_opened t = true /\ length (t_samples t) = MAX_SAMPLES /\
  t_fd t = Some (concat frames) /\
  t_mdat_size t = Z.of_nat (length (concat frames)) /\
  t_sample_count t = Z.of_nat (length frames) /\ (length frames <= MAX_SAMPLES)%nat /\
  Forall2 (fun s f => smp_size s = Z.of_nat (length f)) (used_samples t) frames /\
  t_mdat_size t <= NGX_RTMP_DASH_MAX_MDAT + NGX_RTMP_DASH_BUFSIZE.

Definition ctx_open (ctx : ngx_rtmp_dash_ctx_t) (video audio : list (list Z)) : Prop :=
  ring_ok ctx /\ d_opened ctx = true /\
  track_holds (d_video ctx) video /\ track_holds (d_audio ctx) audio.

Definition ctx_idle (ctx : ngx_rtmp_dash_ctx_t) : Prop :=
  ring_ok ctx /\ d_opened ctx = false /\
  track_idle (d_video ctx) /\ track_idle (d_audio ctx).

Definition ctx_inv (ctx : ngx_rtmp_dash_ctx_t) : Prop :=
  ctx_idle ctx \/ exists video audio, ctx_open ctx video audio.

Lemma get_frag_some ctx n : ring_ok ctx -> exists f, ngx_rtmp_dash_get_frag ctx n = Some f.
Proof.
  intros [Hw Hl]. unfold ngx_rtmp_dash_get_frag, frag_index.
  apply lookup_lt_is_Some. rewrite Hl.
  pose proof (Z.mod_pos_bound (u64 (d_frag ctx + n)) (winfrags dacf * 2 + 1)). lia.
Qed.

Lemma timeline_some ctx n : ring_ok ctx -> forall i, exists l, timeline n i ctx = Some l.
Proof.
  intros Hr. induction n as [|n IH]; intros i; cbn [timeline]; [eauto|].
  destruct (get_frag_some ctx i Hr) as [f ->]. cbn. destruct (IH (i + 1)) as [l ->]. cbn. eauto.
Qed.

Lemma write_init_some buffer ctx e :
  exists rc e', ngx_rtmp_dash_write_init_segments buffer ctx e = Some (rc, e').
Proof.
  unfold ngx_rtmp_dash_write_init_segments. destruct codec as [c|]; [|eauto].
  assert (forall ttype, total (ngx_rtmp_mp4_write_ftyp;;
            ngx_rtmp_mp4_write_moov (Some c) ttype)) as Ht.
  { intros ttype. apply total_bind; [apply total_ftyp|]. intros _. apply total_moov. }
  destruct (ngx_open_file _ e) as [[] e1]; cbn [negb]; [|eauto].
  destruct (Ht NGX_RTMP_MP4_VIDEO_TRACK (Buf buffer 0 0)) as [[rc b] ->]. cbn [mbind option_bind].
  destruct (ngx_write_fd _ _ e1) as [n e2].
  destruct (ngx_open_file _ e2) as [[] e3]; cbn [negb]; [|eauto].
  destruct (Ht NGX_RTMP_MP4_AUDIO_TRACK (Buf (b_mem b) 0 0)) as [[rc' b'] ->].
  cbn [mbind option_bind]. destruct (ngx_write_fd _ _ e3) as [n' e4]. eauto.
Qed.

Lemma write_playlist_some buffer ctx e :
  ring_ok ctx -> exists rc e', ngx_rtmp_dash_write_playlist buffer ctx e = Some (rc, e').
Proof.
  intros Hr. unfold ngx_rtmp_dash_write_playlist. destruct codec as [c|] eqn:Ec; [|eauto].
  assert (exists rc e1, (if d_id ctx =? 0 then ngx_rtmp_dash_write_init_segments buffer ctx e
                 else Some (NGX_OK, e)) = Some (rc, e1)) as (rc & e1 & ->).
  { case_if; [apply write_init_some|eauto]. }
  cbn [mbind option_bind]. destruct (ngx_open_file _ e1) as [[] e2]; cbn [negb]; [|eauto].
  destruct (get_frag_some ctx 0 Hr) as [f0 ->].
  destruct (get_frag_some ctx (d_nfrags ctx - 1) Hr) as [fl ->]. cbn [mbind option_bind].
  destruct (ngx_write_fd _ _ e2) as [n e3].
  destruct (timeline_some ctx (Z.to_nat (d_nfrags ctx)) Hr 0) as [l ->]. cbn [mbind option_bind].
  destruct (ngx_write_fd _ _ _) as [[n'|] e4]; [|eauto].
  destruct (ngx_rename_file _ _ e4) as [[] e5]; eauto.
Qed.

Section Handlers.
Context (fuel : nat) (buffer : list Z).
Hypothesis Hbuf : length buffer = BUF.
Hypothesis Hbytes : bytes_ok buffer.
Hypothesis Hfuel : NGX_RTMP_DASH_MAX_MDAT + NGX_RTMP_DASH_BUFSIZE <= Z.of_nat fuel.

Lemma holds_ready t frames : track_holds t frames -> track_ready t (concat frames).
Proof.
  intros (Ho & _ & Hf & Hm & Hc & Hl & _). unfold track_ready. split_and!; auto; [lia|].
  unfold MAX_SAMPLES, NGX_RTMP_DASH_MAX_SAMPLES in *. lia.
Qed.

Lemma closed_idle t frames : track_holds t frames -> track_idle (track_closed t).
Proof. intros (_ & Hs & _). split; [reflexivity|exact Hs]. Qed.

(** The context after both tracks were closed. *)
Definition fragments_closed (ctx : ngx_rtmp_dash_ctx_t) : ngx_rtmp_dash_ctx_t :=
  let ctx' := ngx_rtmp_dash_next_frag
                (set_tracks ctx (track_closed (d_video ctx)) (track_closed (d_audio ctx))) in
  set_opened ctx' (u64 (d_id ctx + 1)) false.

Lemma next_frag_fields ctx :
  let ctx' := ngx_rtmp_dash_next_frag ctx in
  d_frags ctx' = d_frags ctx /\ d_opened ctx' = d_opened ctx /\ d_video ctx' = d_video ctx /\
  d_audio ctx' = d_audio ctx /\ d_id ctx' = d_id ctx.
Proof. unfold ngx_rtmp_dash_next_frag. case_if; split_and!; reflexivity. Qed.

Lemma close_fragments_complete ctx video audio e :
  ctx_open ctx video audio ->
  exists e', ngx_rtmp_dash_close_fragments fuel buffer (St ctx e) =
             Some (NGX_OK, St (fragments_closed ctx) e').
Proof.
  intros (Hr & Ho & Hv & Ha). unfold ngx_rtmp_dash_close_fragments.
  cbn [st_ctx st_env]. rewrite Ho. cbn [negb].
  assert (forall t frames, track_holds t frames -> (length (concat frames) <= fuel)%nat) as Hl.
  { intros t frames (_ & _ & _ & Hm & _ & _ & _ & Hb). lia. }
  destruct (get_frag_some ctx (d_nfrags ctx) Hr) as [f Hf].
  destruct (close_fragment_complete fuel buffer ctx (d_video ctx) (concat video) f e)
    as (c1 & ->); eauto using holds_ready. cbn [mbind option_bind].
  match goal with |- context [ngx_rtmp_dash_close_fragment _ _ _ (d_audio ctx) ?e1] =>
    destruct (close_fragment_complete fuel buffer ctx (d_audio ctx) (concat audio) f e1)
      as (c2 & ->); eauto using holds_ready end. cbn [mbind option_bind].
  match goal with |- context [ngx_rtmp_dash_write_playlist _ ?c ?e1] =>
    destruct (write_playlist_some buffer c e1) as (rc & e' & ->) end.
  { unfold ring_ok in *. now rewrite (proj1 (next_frag_fields _)). }
  exists e'. cbn [mbind option_bind]. unfold fragments_closed.
  now rewrite !(proj2 (proj2 (proj2 (proj2 (next_frag_fields _))))).
Qed.

Lemma fragments_closed_idle ctx video audio :
  ctx_open ctx video audio -> ctx_idle (fragments_closed ctx).
Proof.
  intros (Hr & Ho & Hv & Ha). unfold ctx_idle, fragments_closed, ring_ok in *. cbv zeta.
  destruct (next_frag_fields
    (set_tracks ctx (track_closed (d_video ctx)) (track_closed (d_audio ctx))))
    as (Ef & _ & Ev & Ea & _).
  cbn [d_opened d_video d_audio d_frags set_opened]. rewrite Ef, Ev, Ea.
  split; [exact Hr|]. split; [reflexivity|]. split; [exact (closed_idle _ _ Hv)|].
  exact (closed_idle _ _ Ha).
Qed.

Lemma open_fragment_complete t id type e :
  track_idle t ->
  exists t', ngx_rtmp_dash_open_fragment t id type e = (NGX_OK, t', tick e) /\ track_holds t' [].
Proof.
  intros [Ho Hs]. unfold ngx_rtmp_dash_open_fragment. rewrite Ho.
  destruct (Hos (e_calls e)) as (m & -> & _). eexists. split; [reflexivity|].
  unfold track_holds, used_samples, NGX_RTMP_DASH_MAX_MDAT, NGX_RTMP_DASH_BUFSIZE.
  cbn. split_and!; auto; lia.
Qed.

Lemma open_fragments_complete ctx e :
  ctx_idle ctx ->
  exists ctx', ngx_rtmp_dash_open_fragments (St ctx e) = (NGX_OK, St ctx' (tick (tick e))) /\
    ctx_open ctx' [] [] /\ d_nfrags ctx' = d_nfrags ctx.
Proof.
  intros (Hr & Ho & Hv & Ha). unfold ngx_rtmp_dash_open_fragments. cbn [st_ctx st_env].
  rewrite Ho. destruct (open_fragment_complete (d_video ctx) (d_id ctx) 118 e Hv) as (v & -> & Hv').
  destruct (open_fragment_complete (d_audio ctx) (d_id ctx) 97 (tick e) Ha) as (a & -> & Ha').
  eexists. split; [reflexivity|]. split; [|reflexivity]. unfold ctx_open. cbn. auto.
Qed.

Lemma set_frag_open ctx n f video audio :
  ctx_open ctx video audio -> ctx_open (set_frag ctx n f) video audio.
Proof.
  intros ([Hw Hl] & H). unfold ctx_open, ring_ok. cbn. rewrite length_insert. auto.
Qed.

Lemma set_frag_idle ctx n f : ctx_idle ctx -> ctx_idle (set_frag ctx n f).
Proof.
  intros ([Hw Hl] & H). unfold ctx_idle, ring_ok. cbn. rewrite length_insert. auto.
Qed.

(** Both tracks are below the limit at which a fragment is closed. *)
Definition below_limit (ctx : ngx_rtmp_dash_ctx_t) : Prop :=
  t_mdat_size (d_video ctx) < NGX_RTMP_DASH_MAX_MDAT /\
  t_mdat_size (d_audio ctx) < NGX_RTMP_DASH_MAX_MDAT.

Lemma fresh_below_limit ctx : ctx_open ctx [] [] -> below_limit ctx.
Proof.
  intros (_ & _ & (_ & _ & _ & Hv & _) & (_ & _ & _ & Ha & _)).
  unfold below_limit. rewrite Hv, Ha. unfold NGX_RTMP_DASH_MAX_MDAT. cbn. lia.
Qed.

(** The fragment switch: close if open, open again, stamp the new fragment. *)
Lemma switch_complete ctx e timestamp :
  ctx_inv ctx ->
  exists ctx' e',
    ('(_, st) ← ngx_rtmp_dash_close_fragments fuel buffer (St ctx e);
     let '(_, st) := ngx_rtmp_dash_open_fragments st in
     let ctx := st_ctx st in
     f ← ngx_rtmp_dash_get_frag ctx (d_nfrags ctx);
     Some (St (set_frag ctx (d_nfrags ctx) (Frag timestamp (f_duration f))) (st_env st))) =
    Some (St ctx' e') /\ ctx_open ctx' [] [].
Proof.
  intros Hi. assert (exists ctx1 e1,
    ngx_rtmp_dash_close_fragments fuel buffer (St ctx e) = Some (NGX_OK, St ctx1 e1) /\
    ctx_idle ctx1) as (ctx1 & e1 & -> & H1).
  { destruct Hi as [Hi|(v & a & Hop)].
    - exists ctx, e. split; [|done]. unfold ngx_rtmp_dash_close_fragments. cbn [st_ctx].
      now rewrite (proj1 (proj2 Hi)).
    - destruct (close_fragments_complete ctx v a e Hop) as (e1 & ->).
      eauto using fragments_closed_idle. }
  cbn [mbind option_bind]. destruct (open_fragments_complete ctx1 e1 H1) as (ctx2 & -> & H2 & _).
  cbn [st_ctx st_env]. destruct (get_frag_some ctx2 (d_nfrags ctx2) (proj1 H2)) as [f ->].
  cbn [mbind option_bind]. do 2 eexists. split; [reflexivity|]. now apply set_frag_open.
Qed.

Lemma update_fragments_complete boundary timestamp ctx e :
  ctx_inv ctx ->
  exists ctx' e' video audio,
    ngx_rtmp_dash_update_fragments fuel buffer boundary timestamp (St ctx e) =
      Some (St ctx' e') /\
    ctx_open ctx' video audio /\ below_limit ctx' /\
    (video = [] /\ audio = [] \/ ctx_open ctx video audio).
Proof.
  intros Hi. unfold ngx_rtmp_dash_update_fragments. cbn [st_ctx st_env].
  assert (ring_ok ctx) as Hr by (destruct Hi as [[? _]|(? & ? & ? & _)]; done).
  destruct (get_frag_some ctx (d_nfrags ctx) Hr) as [f ->]. rewrite some_bind.
  destruct (if 0 <=? s32 (timestamp - f_timestamp f) then _ else _) as [f' hit].
  set (ctx1 := set_frag ctx (d_nfrags ctx) f').
  assert (ctx_inv ctx1) as Hi1.
  { destruct Hi as [Hi|(v & a & Ho)]; [left; now apply set_frag_idle|].
    right. exists v, a. now apply set_frag_open. }
  match goal with |- context [if ?b then mbind _ _ else Some (St ctx1 e)] =>
    destruct b eqn:Eb end.
  - destruct (switch_complete ctx1 e timestamp Hi1) as (ctx2 & e2 & E & H2).
    cbv zeta in E. rewrite E.
    exists ctx2, e2, [], [].
    split; [done|]. split; [done|]. split; [now apply fresh_below_limit|now left].
  - repeat match type of Eb with (if ?b then _ else _) = _ => destruct b eqn:?; try done end.
    all: bool_to_prop; destruct Hi1 as [(_ & H1 & _)|(v & a & Hop)];
      [rewrite H1 in *; done|].
    all: exists ctx1, e, v, a; split; [reflexivity|]; split; [exact Hop|];
      split; [split; unfold ctx1 in *; cbn in *; lia|].
    all: right; destruct Hi as [(_ & H1 & _)|(v' & a' & Hop')];
      [unfold ctx1 in *; cbn in *; rewrite H1 in *; done|].
    all: destruct Hop as (_ & _ & Hv & Ha), Hop' as (Hr' & Ho' & _ & _);
      unfold ctx_open; auto.
Qed.

Lemma gather_bound ins : forall acc,
  Z.of_nat (length acc) <= NGX_RTMP_DASH_BUFSIZE ->
  Z.of_nat (length (gather ins acc)) <= NGX_RTMP_DASH_BUFSIZE.
Proof.
  induction ins as [|i ins IH]; intros acc Ha; cbn [gather]; [done|].
  case_if; [|done]. apply IH. case_if; len.
Qed.

(** Up to the size of the buffer, the frame is the whole chain. *)
Lemma gather_all ins : forall acc,
  Z.of_nat (length (acc ++ concat ins)) <= NGX_RTMP_DASH_BUFSIZE ->
  gather ins acc = acc ++ concat ins.
Proof.
  induction ins as [|i ins IH]; intros acc Ha; cbn [gather concat]; [now rewrite app_nil_r|].
  cbn [concat] in Ha. rewrite !length_app in Ha. case_if.
  - case_if; [lia|]. rewrite Nat2Z.id, take_ge by lia. rewrite IH, app_assoc; [done|].
    rewrite !length_app. lia.
  - assert (i = []) as -> by (destruct i; [done|rewrite length_cons in *; lia]).
    assert (concat ins = []) as -> by (destruct (concat ins); [done|rewrite length_cons in *; lia]).
    now rewrite !app_nil_r.
Qed.

Lemma used_samples_add t raw size key timestamp delay frames frame :
  track_holds t frames -> (length frames < MAX_SAMPLES)%nat -> size = Z.of_nat (length frame) ->
  0 <= size <= NGX_RTMP_DASH_BUFSIZE ->
  Forall2 (fun s f => smp_size s = Z.of_nat (length f))
    (used_samples (add_sample t raw size key timestamp delay)) (frames ++ [frame]).
Proof.
  intros (_ & Hs & _ & _ & Hc & _ & HF & _) Hl Hsz Hsb. unfold used_samples, add_sample in *.
  cbn [t_sample_count t_samples]. rewrite Hc, Nat2Z.id in *.
  replace (Z.to_nat (Z.of_nat (length frames) + 1)) with (S (length frames)) by lia.
  set (new := Sample _ _ _ _ _). set (l1 := <[length frames := new]> (t_samples t)).
  assert (take (S (length frames)) l1 = take (length frames) (t_samples t) ++ [new]) as E1.
  { unfold l1. erewrite take_S_r by (apply list_lookup_insert_eq; lia).
    f_equal. apply take_insert_ge. lia. }
  assert (Forall2 (fun s f => smp_size s = Z.of_nat (length f))
            (take (S (length frames)) l1) (frames ++ [frame])) as H1.
  { rewrite E1. apply Forall2_app; [done|]. constructor; [|constructor]. unfold new.
    cbn [smp_size]. rewrite u32_small; unfold NGX_RTMP_DASH_BUFSIZE in *; lia. }
  case_if; [|done]. destruct (l1 !! (length frames - 1)%nat) as [p|] eqn:Ep; [|done].
  rewrite take_insert_lt by lia.
  destruct (lookup_lt_is_Some_2 (frames ++ [frame]) (length frames - 1)) as [g Hg]; [len|].
  rewrite <- (list_insert_id (frames ++ [frame]) _ _ Hg).
  apply Forall2_insert; [done|]. cbn [smp_size].
  eapply Forall2_lookup_lr in H1; [exact H1| |exact Hg]. rewrite lookup_take_lt by lia. exact Ep.
Qed.

Lemma add_sample_holds t frames data key timestamp delay e l :
  track_holds t frames -> (length frames < MAX_SAMPLES)%nat ->
  t_mdat_size t < NGX_RTMP_DASH_MAX_MDAT ->
  Z.of_nat (length data) <= NGX_RTMP_DASH_BUFSIZE ->
  track_holds (add_sample (track_times t e l) (concat frames ++ data)
                 (Z.of_nat (length data)) key timestamp delay) (frames ++ [data]).
Proof.
  intros Ht Hl Hm Hd. assert (track_holds (track_times t e l) frames) as Ht' by exact Ht.
  pose proof (used_samples_add (track_times t e l) (concat frames ++ data)
    (Z.of_nat (length data)) key timestamp delay frames data Ht' Hl eq_refl ltac:(lia)) as HF.
  destruct Ht as (Ho & Hs & Hfd & Hmd & Hc & _ & _ & _). unfold track_holds.
  split; [exact Ho|]. split.
  { cbn [add_sample t_samples track_times t_sample_count]. 
    repeat match goal with
    | |- context [if ?b then _ else _] => destruct b
    | |- context [match ?o with Some _ => _ | None => _ end] => destruct o
    end; rewrite ?length_insert; done. }
  rewrite concat_app. cbn [concat]. rewrite app_nil_r.
  cbn [add_sample t_fd t_mdat_size t_sample_count track_times]. rewrite !length_app.
  split_and!; [done|lia|cbn; lia|cbn; lia|exact HF|lia].
Qed.

Lemma set_track_open k t ctx video audio frames :
  ctx_open ctx video audio -> track_holds t frames ->
  exists video' audio', ctx_open (set_track k t ctx) video' audio' /\
    track_holds (get_track k (set_track k t ctx)) frames.
Proof.
  intros (Hr & Ho & Hv & Ha) Ht.
  destruct k; [exists frames, audio|exists video, frames]; (split; [|exact Ht]);
    (split; [exact Hr|split; [exact Ho|split; assumption]]).
Qed.

(** C32: on a disk that does its work, appending a frame always succeeds and
    keeps the module's invariant: with [frames] the frames of the track in the
    current fragment (none, if the frame starts a new fragment), the track then
    holds [frames] and the new frame - raw file, sample table and sizes agree -
    unless its table is full, in which case the frame is dropped. *)
Theorem dash_append_holds ins k key timestamp delay ctx e :
  ctx_inv ctx ->
  exists ctx' e' frames,
    ngx_rtmp_dash_append fuel buffer ins k key timestamp delay (St ctx e) =
      Some (NGX_OK, St ctx' e') /\
    ctx_inv ctx' /\
    (frames = [] \/ track_holds (get_track k ctx) frames) /\
    track_holds (get_track k ctx')
      (if decide (length frames < MAX_SAMPLES)%nat
       then frames ++ [gather ins []] else frames).
Proof.
  intros Hi. unfold ngx_rtmp_dash_append.
  destruct (update_fragments_complete key timestamp ctx e Hi)
    as (ctx1 & e1 & v & a & -> & Hop & [Hlv Hla] & Hcase).
  rewrite some_bind. cbn [st_ctx st_env]. cbv zeta.
  assert (exists frames, track_holds (get_track k ctx1) frames /\
            t_mdat_size (get_track k ctx1) < NGX_RTMP_DASH_MAX_MDAT /\
            (frames = [] \/ track_holds (get_track k ctx) frames))
    as (frames & Hf & Hm & Hfr).
  { destruct Hop as (_ & _ & Hv & Ha).
    destruct k; [exists v|exists a]; (split; [done|split; [done|]]);
      (destruct Hcase as [[-> ->]|(_ & _ & ? & ?)]; [now left|now right]). }
  set (t := get_track k ctx1) in *. set (es := if t_sample_count t =? 0 then _ else _).
  pose proof Hf as (Ho & Hs & Hfd & Hmd & Hc & Hle & HF & Hb).
  change (t_sample_count (track_times t es timestamp)) with (t_sample_count t).
  change (t_fd (track_times t es timestamp)) with (t_fd t). rewrite Hc, Hfd.
  assert (Z.of_nat MAX_SAMPLES = NGX_RTMP_DASH_MAX_SAMPLES) as HM
    by (unfold MAX_SAMPLES, NGX_RTMP_DASH_MAX_SAMPLES; lia).
  assert (Z.of_nat (length (gather ins [])) <= NGX_RTMP_DASH_BUFSIZE) as Hg
    by (apply gather_bound; unfold NGX_RTMP_DASH_BUFSIZE; cbn; lia).
  case_if.
  - destruct (Hos (e_calls e1)) as (m & -> & HmB). pose proof BUF_val.
    rewrite take_ge by (unfold NGX_RTMP_DASH_BUFSIZE in *; lia).
    pose proof (add_sample_holds t frames (gather ins []) key timestamp delay es timestamp
                  Hf ltac:(lia) Hm Hg) as Ht'.
    destruct (set_track_open k _ ctx1 v a _ Hop Ht') as (v' & a' & Ho' & Hk').
    do 2 eexists. exists frames. rewrite decide_True by lia.
    split; [reflexivity|]. split; [right; exists v', a'; exact Ho'|]. now split.
  - destruct (set_track_open k (track_times t es timestamp) ctx1 v a frames Hop Hf)
      as (v' & a' & Ho' & Hk').
    do 2 eexists. exists frames. rewrite decide_False by lia.
    split; [reflexivity|]. split; [right; exists v', a'; exact Ho'|]. now split.
Qed.

End Handlers.

End Complete.

(* ------------------------------------------------------------------ *)
(** ** The window of the playlist *)

(** The ring holds the finished fragments [fs], oldest first. *)
Definition lists (ctx : ngx_rtmp_dash_ctx_t) (fs : list ngx_rtmp_dash_frag_t) : Prop :=
  d_nfrags ctx = Z.of_nat (length fs) /\
  forall i f, fs !! i = Some f -> ngx_rtmp_dash_get_frag ctx (Z.of_nat i) = Some f.

(** No overflow of the fragment counter. *)
Definition ring_small (ctx : ngx_rtmp_dash_ctx_t) : Prop :=
  0 <= d_frag ctx /\ d_frag ctx + winfrags dacf * 2 + 2 < 2 ^ 64.

Lemma frag_index_inj ctx i j :
  0 <= winfrags dacf -> ring_small ctx ->
  0 <= i <= winfrags dacf -> 0 <= j <= winfrags dacf ->
  frag_index ctx i = frag_index ctx j -> i = j.
Proof.
  intros Hw [Hf Hs] Hi Hj. unfold frag_index. rewrite !u64_small by lia.
  set (m := winfrags dacf * 2 + 1). intros H%Z2Nat.inj;
    [|apply Z.mod_pos_bound; lia|apply Z.mod_pos_bound; lia].
  assert ((i - j) mod m = 0) as H0.
  { replace (i - j) with ((d_frag ctx + i) - (d_frag ctx + j)) by lia.
    rewrite Zminus_mod, H, Z.sub_diag. apply Z.mod_0_l. lia. }
  destruct (Z.lt_trichotomy (i - j) 0) as [Hlt|[He|Hgt]]; [|lia|].
  - rewrite <- (Z_mod_plus_full _ 1), Z.mod_small in H0; lia.
  - rewrite Z.mod_small in H0; lia.
Qed.

Lemma timeline_lists ctx : forall fs i,
  (forall k f, fs !! k = Some f -> ngx_rtmp_dash_get_frag ctx (i + Z.of_nat k) = Some f) ->
  timeline (length fs) i ctx =
  Some (concat (map (fun f => NGX_RTMP_DASH_MANIFEST_TIME (f_timestamp f) (f_duration f)) fs)).
Proof.
  induction fs as [|f fs IH]; intros i H; cbn [length timeline map concat]; [done|].
  pose proof (H 0%nat f eq_refl) as H0. rewrite Z.add_0_r in H0. rewrite H0, some_bind.
  rewrite IH, some_bind; [done|]. intros k g Hg. specialize (H (S k) g Hg).
  replace (i + 1 + Z.of_nat k) with (i + Z.of_nat (S k)) by lia. exact H.
Qed.

Lemma set_frag_lookup ctx n f :
  ring_ok ctx -> ngx_rtmp_dash_get_frag (set_frag ctx n f) n = Some f.
Proof.
  intros Hr. destruct (get_frag_some ctx n Hr) as [g Hg].
  unfold ngx_rtmp_dash_get_frag, set_frag, frag_index in *. cbn [d_frags d_frag].
  apply list_lookup_insert_eq. eapply lookup_lt_Some. exact Hg.
Qed.

Lemma lists_current ctx fs f :
  ring_ok ctx -> ring_small ctx -> Z.of_nat (length fs) <= winfrags dacf -> lists ctx fs ->
  forall i g, (fs ++ [f]) !! i = Some g ->
  ngx_rtmp_dash_get_frag (set_frag ctx (d_nfrags ctx) f) (Z.of_nat i) = Some g.
Proof.
  intros Hr Hs Hl [Hn Hg] i g Hi. pose proof (lookup_lt_Some _ _ _ Hi) as Hlt.
  rewrite length_app in Hlt. cbn in Hlt.
  destruct (decide (i < length fs)%nat).
  - rewrite lookup_app_l in Hi by done. rewrite <- (Hg i g Hi).
    unfold ngx_rtmp_dash_get_frag. cbn [d_frags set_frag]. apply list_lookup_insert_ne.
    intros E%frag_index_inj; [lia|apply Hr|done|lia|lia].
  - assert (i = length fs) as -> by lia. rewrite lookup_app_r, Nat.sub_diag in Hi by lia.
    injection Hi as <-. rewrite <- Hn. now apply set_frag_lookup.
Qed.

(** C39: when the current fragment [f] is finished, the ring lists the same
    fragments followed by [f], the oldest one being dropped once the window
    is full; the playlist's timeline prints exactly these. *)
Theorem next_frag_window ctx fs f :
  ring_ok ctx -> ring_small ctx -> Z.of_nat (length fs) <= winfrags dacf -> lists ctx fs ->
  let ctx' := ngx_rtmp_dash_next_frag (set_frag ctx (d_nfrags ctx) f) in
  let fs' := if Z.of_nat (length fs) =? winfrags dacf
             then drop 1 (fs ++ [f]) else fs ++ [f] in
  lists ctx' fs' /\ Z.of_nat (length fs') <= winfrags dacf /\
  timeline (Z.to_nat (d_nfrags ctx')) 0 ctx' =
    Some (concat (map (fun f => NGX_RTMP_DASH_MANIFEST_TIME (f_timestamp f) (f_duration f)) fs')).
Proof.
  intros Hr Hs Hl Hfs. pose proof (lists_current ctx fs f Hr Hs Hl Hfs) as Hcur.
  destruct Hfs as [Hn Hg]. destruct Hr as [Hw Hlen]. cbv zeta. unfold ngx_rtmp_dash_next_frag.
  change (d_nfrags (set_frag ctx (d_nfrags ctx) f)) with (d_nfrags ctx). rewrite Hn.
  set (fs' := if Z.of_nat (length fs) =? winfrags dacf then drop 1 _ else _).
  match goal with |- lists ?c fs' /\ _ => assert (lists c fs') as HL end.
  { unfold fs'. case_if; split.
    - cbn [d_nfrags set_ring]. rewrite length_drop, length_app. cbn [length]. lia.
    - intros i g Hi. rewrite lookup_drop in Hi. apply Hcur in Hi. rewrite Hn in Hi.
      unfold ngx_rtmp_dash_get_frag, frag_index in *. cbn [d_frags d_frag set_ring set_frag] in *.
      rewrite (u64_small (d_frag ctx + 1)) by (destruct Hs; lia).
      replace (d_frag ctx + 1 + Z.of_nat i) with (d_frag ctx + Z.of_nat (1 + i)) by lia. exact Hi.
    - cbn [d_nfrags set_ring]. rewrite length_app. cbn [length].
      rewrite u64_small; destruct Hs; lia.
    - intros i g Hi. apply Hcur in Hi. rewrite Hn in Hi. exact Hi. }
  split; [exact HL|]. split.
  { unfold fs'. case_if; [rewrite length_drop|]; rewrite length_app; cbn [length]; lia. }
  destruct HL as [HLn HLg]. rewrite HLn, Nat2Z.id. apply timeline_lists. exact HLg.
Qed.

(* ------------------------------------------------------------------ *)
(** ** A raw file that is too short *)

(** If the raw file is shorter than the size the track recorded (a partial
    write to a full disk: [ngx_rtmp_dash_append] adds the whole frame), the copy
    loop never ends: once the raw file is exhausted every read returns 0 and
    [left] no longer decreases. *)
Theorem copy_loop_diverges path raw left :
  (forall n, is_Some (os n)) -> Z.of_nat (length raw) < left ->
  forall fuel e, copy_loop fuel path raw left e = None.
Proof.
  intros Hos Hl fuel. revert raw left Hl.
  induction fuel as [|fuel IH]; intros raw left Hl e; cbn [copy_loop].
  - case_if; [lia|done].
  - case_if; [lia|]. destruct (Hos (e_calls e)) as [m ->].
    unfold ngx_write_fd. cbn [e_calls tick e_files].
    destruct (Hos (S (e_calls e))) as [m' ->]. apply IH.
    rewrite length_drop, !length_take. lia.
Qed.

End Segmenter.

(* ------------------------------------------------------------------ *)
(** ** Concrete runs *)

Definition good_os : nat -> option nat := fun _ => Some BUF.
Definition some_time : Z -> tm := fun _ => Tm 114 0 1 12 0 0.
Definition some_conf : ngx_rtmp_dash_app_conf_t := AppConf true 5000 false 2.
Definition zero_buffer : list Z := replicate BUF 0.

Definition idle_track : ngx_rtmp_dash_track_t :=
  Track 0 false 0 0 0 None 0 0 0 (replicate MAX_SAMPLES (Sample 0 0 0 0 false)).

Definition new_ctx : ngx_rtmp_dash_ctx_t :=
  Ctx (str "/tmp/a.mpd") (str "/tmp/a.mpd.bak") (str "a") (str "/tmp/a-") 0 0 0 0
    (replicate 5 (Frag 0 0)) false false false 0 idle_track idle_track.

Definition small_track : ngx_rtmp_dash_track_t :=
  Track 1 true 3 1 3 (Some [1; 2; 3]) 118 40 40 [Sample 3 0 0 40 true].

Definition no_files : env := Env 0 gmap_empty.

Lemma good_os_complete : complete good_os.
Proof. intros n. exists BUF. split; [reflexivity|lia]. Qed.

Lemma length_zero_buffer : length zero_buffer = BUF.
Proof. unfold zero_buffer. apply length_replicate. Qed.

Lemma zero_buffer_ok : bytes_ok zero_buffer.
Proof. apply bytes_ok_replicate. unfold byte_ok. lia. Qed.

Lemma close_fragment_segment_witness :
  exists e' file,
    ngx_rtmp_dash_close_fragment good_os some_conf 3 zero_buffer new_ctx small_track no_files =
      Some (track_closed small_track, e') /\
    e_files e' !! str "/tmp/a-0.m4v" = Some file /\
    parse_boxes 5 file =
      Some [(str "styp", brands); (str "sidx", tree_payload (seg_sidx small_track));
            (str "moof", tree_payload (seg_moof small_track)); (str "mdat", [1; 2; 3])].
Proof.
  destruct (close_fragment_segment good_os some_conf good_os_complete 3 zero_buffer new_ctx
              small_track [1; 2; 3] (Frag 0 0) no_files)
    as (e' & E & _ & file & Ef & Ep).
  - exact length_zero_buffer.
  - exact zero_buffer_ok.
  - unfold track_ready, NGX_RTMP_DASH_MAX_SAMPLES. cbn. split_and!; [done|done|done|lia|lia].
  - reflexivity.
  - cbn. lia.
  - cbn. lia.
  - exists e', file. split; [exact E|]. split; [exact Ef|exact Ep].
Defined.

Lemma dash_append_holds_witness :
  exists ctx' e' frames,
    ngx_rtmp_dash_append good_os some_time some_conf (Some sample_ctx)
      (Z.to_nat 11534336) zero_buffer [[1; 2]; [3]] Video true 40 0 (St new_ctx no_files) =
      Some (NGX_OK, St ctx' e') /\
    ctx_inv some_conf ctx' /\
    (frames = [] \/ track_holds (get_track Video new_ctx) frames) /\
    track_holds (get_track Video ctx')
      (if decide (length frames < MAX_SAMPLES)%nat
       then frames ++ [gather [[1; 2]; [3]] []] else frames).
Proof.
  apply (dash_append_holds good_os some_time some_conf (Some sample_ctx) good_os_complete
           (Z.to_nat 11534336) zero_buffer length_zero_buffer zero_buffer_ok).
  - unfold NGX_RTMP_DASH_MAX_MDAT, NGX_RTMP_DASH_BUFSIZE. lia.
  - left. unfold ctx_idle, ring_ok, track_idle. split; [cbn; lia|].
    split; [reflexivity|]. split; (split; [reflexivity|apply length_replicate]).
Defined.

Lemma next_frag_window_witness :
  lists some_conf (ngx_rtmp_dash_next_frag some_conf (set_frag some_conf new_ctx 0 (Frag 7 9)))
    [Frag 7 9].
Proof.
  apply (next_frag_window some_conf new_ctx [] (Frag 7 9)).
  - unfold ring_ok. cbn. lia.
  - unfold ring_small. cbn. lia.
  - cbn. lia.
  - split; [reflexivity|]. intros i f H. discriminate H.
Defined.

Lemma copy_loop_diverges_witness :
  copy_loop good_os 100 (str "x") [1; 2] 3 no_files = None.
Proof.
  apply (copy_loop_diverges good_os).
  - intros n. eexists. reflexivity.
  - cbn. lia.
Defined.

End Dash.
