(* ===== verification/Bandwidth.v ===== *)
(** * Bandwidth counters (src/src/rtmp/ngx_rtmp_bandwidth.c)

    Byte counters with a rate that is recomputed when a measuring interval
    ends.  The theorems show that the total is the sum of the updates and that
    the rate published at the end of an interval is the mean over its two
    seconds, or 0 after a pause. *)

From Stdlib Require Import ZArith Lia.
From stdpp Require Import base numbers list.
From S2P Require Import Prelude.

Module Bandwidth.

Definition NGX_RTMP_BANDWIDTH_INTERVAL : Z := 1.

Record ngx_rtmp_bandwidth_t := Bw {
  bytes : Z;
  bandwidth : Z;
  intl_end : Z;
  intl_end_timestamp : Z;
  intl_bytes : Z
}.

Definition bw_zero : ngx_rtmp_bandwidth_t := Bw 0 0 0 0 0.

(** [now] is [ngx_cached_time->sec], a [time_t]; [n] is a [uint32_t]. *)
Definition ngx_rtmp_update_bandwidth (now : Z) (bw : ngx_rtmp_bandwidth_t) (n : Z)
  : ngx_rtmp_bandwidth_t :=
  let bw :=
    if intl_end bw <? now then
      Bw (bytes bw)
        (if intl_end bw + NGX_RTMP_BANDWIDTH_INTERVAL <? now then 0
         else intl_bytes bw / (NGX_RTMP_BANDWIDTH_INTERVAL + (now - intl_end bw)))
        (now + NGX_RTMP_BANDWIDTH_INTERVAL) (intl_end_timestamp bw) 0
    else bw in
  Bw (u64 (bytes bw + u32 n)) (bandwidth bw) (intl_end bw) (intl_end_timestamp bw)
    (u64 (intl_bytes bw + u32 n)).

(** The same by message timestamps; these are [uint32_t] and wrap around. *)
Definition ngx_rtmp_update_bandwidth_real (bw : ngx_rtmp_bandwidth_t) (n timestamp : Z)
  : ngx_rtmp_bandwidth_t :=
  let bw :=
    if intl_end_timestamp bw <? timestamp then
      Bw (bytes bw)
        (if u32 (intl_end_timestamp bw + NGX_RTMP_BANDWIDTH_INTERVAL) <? timestamp then 0
         else intl_bytes bw /
              u32 (NGX_RTMP_BANDWIDTH_INTERVAL + (timestamp - intl_end_timestamp bw)))
        (intl_end bw) (u32 (timestamp + NGX_RTMP_BANDWIDTH_INTERVAL)) 0
    else bw in
  Bw (u64 (bytes bw + u32 n)) (bandwidth bw) (intl_end bw) (intl_end_timestamp bw)
    (u64 (intl_bytes bw + u32 n)).

(* ------------------------------------------------------------------ *)
(** ** Traces *)

(** A trace of updates, each with its time. *)
Definition run (bw : ngx_rtmp_bandwidth_t) (us : list (Z * Z)) : ngx_rtmp_bandwidth_t :=
  foldl (fun bw u => ngx_rtmp_update_bandwidth (fst u) bw (snd u)) bw us.

Definition total (us : list (Z * Z)) : Z := foldr (fun u a => snd u + a) 0 us.

Definition updates_ok (us : list (Z * Z)) : Prop :=
  Forall (fun u => 0 <= snd u < 2 ^ 32) us.

Lemma total_nonneg us : updates_ok us -> 0 <= total us.
Proof.
  unfold updates_ok. induction us as [|u us IH]; intros H; cbn [total foldr]; [lia|].
  apply Forall_cons in H as [Hu H]. specialize (IH H). unfold total in IH. lia.
Qed.

Lemma run_within s us : forall bw,
  updates_ok us -> Forall (fun u => fst u <= s + 1) us -> intl_end bw = s + 1 ->
  0 <= intl_bytes bw -> intl_bytes bw + total us < 2 ^ 64 ->
  let bw' := run bw us in
  intl_end bw' = s + 1 /\ intl_bytes bw' = intl_bytes bw + total us /\
  bandwidth bw' = bandwidth bw.
Proof.
  induction us as [|[t n] us IH]; intros bw Hok Ht He Hb Hs; cbn [run foldl total foldr].
  - split_and!; auto; lia.
  - cbn [total foldr snd] in Hs. fold (total us) in *.
    apply Forall_cons in Hok as [Hn Hok], Ht as [Ht1 Ht]. cbn [fst snd] in *.
    pose proof (total_nonneg us Hok).
    assert (intl_end (ngx_rtmp_update_bandwidth t bw n) = s + 1 /\
            intl_bytes (ngx_rtmp_update_bandwidth t bw n) = intl_bytes bw + n /\
            bandwidth (ngx_rtmp_update_bandwidth t bw n) = bandwidth bw) as (E1 & E2 & E3).
    { unfold ngx_rtmp_update_bandwidth. case_if; [lia|]. cbn.
      rewrite (u32_small n), u64_small by lia. auto. }
    destruct (IH (ngx_rtmp_update_bandwidth t bw n)) as (R1 & R2 & R3); auto; try lia.
    unfold run in *. split_and!; [exact R1|rewrite R2, E2|rewrite R3; exact E3].
    unfold total. lia.
Qed.

Lemma run_bytes us : forall bw,
  updates_ok us -> 0 <= bytes bw < 2 ^ 64 -> bytes (run bw us) = u64 (bytes bw + total us).
Proof.
  induction us as [|[t n] us IH]; intros bw Hok Hb; cbn [run foldl total foldr].
  - rewrite Z.add_0_r, u64_small; lia.
  - apply Forall_cons in Hok as [Hn Hok]. cbn [fst snd] in *. fold (run (ngx_rtmp_update_bandwidth t bw n) us).
    assert (bytes (ngx_rtmp_update_bandwidth t bw n) = u64 (bytes bw + n)) as E.
    { unfold ngx_rtmp_update_bandwidth. case_if; cbn; now rewrite (u32_small n) by lia. }
    rewrite IH, E by (auto; rewrite E; apply u64_bound). rewrite u64_add_l.
    f_equal. cbn [snd]. unfold total. lia.
Qed.

(** An interval opened at second [s] that saw the updates [us] during [s]
    and [s + 1] ends at the first later update, at [t]: the rate becomes the
    mean over the two seconds if [t] is the very next second and 0 otherwise,
    the new update opens the next interval, and the byte total is the sum of
    all updates. *)
Theorem bandwidth_interval bw s us t n :
  intl_end bw = s + 1 -> intl_bytes bw = 0 -> 0 <= bytes bw < 2 ^ 64 ->
  updates_ok (us ++ [(t, n)]) -> Forall (fun u => fst u <= s + 1) us -> s + 1 < t ->
  total us < 2 ^ 64 ->
  let bw' := run bw (us ++ [(t, n)]) in
  bandwidth bw' = (if t =? s + 2 then total us / 2 else 0) /\
  intl_end bw' = t + 1 /\ intl_bytes bw' = n /\
  bytes bw' = u64 (bytes bw + total us + n).
Proof.
  intros He Hz Hb Hok Hts Ht Hlt bw'. unfold bw'. rewrite run_bytes by auto.
  pose proof (proj1 (Forall_app _ _ _) Hok) as [Hok1 Hok2].
  apply Forall_cons in Hok2 as [Hn _]. cbn [snd] in Hn.
  destruct (run_within s us bw) as (E1 & E2 & E3); auto; try lia.
  assert (total (us ++ [(t, n)]) = total us + n) as ->.
  { clear. induction us as [|u us IH]; cbn [app total foldr snd]; [lia|].
    unfold total in IH. lia. }
  unfold run in *. rewrite foldl_app. cbn [foldl fst snd].
  set (b1 := foldl _ bw us) in *. unfold ngx_rtmp_update_bandwidth, NGX_RTMP_BANDWIDTH_INTERVAL.
  rewrite E1. case_if; [|lia]. cbn [bandwidth intl_end intl_bytes bytes].
  rewrite (u32_small n), (u64_small (0 + n)), Z.add_assoc by lia. split_and!; try lia; try reflexivity.
  case_if; case_if; try lia. rewrite E2, Hz. f_equal; lia.
Qed.

Lemma bandwidth_interval_witness :
  let bw := run (Bw 0 0 101 0 0) [(100, 3000); (101, 1000); (102, 70)] in
  bandwidth bw = 2000 /\ intl_bytes bw = 70 /\ bytes bw = 4070.
Proof.
  destruct (bandwidth_interval (Bw 0 0 101 0 0) 100 [(100, 3000); (101, 1000)] 102 70)
    as (E1 & _ & E3 & E4);
    [reflexivity|reflexivity|cbn; lia|repeat constructor; cbn; lia|
     repeat constructor; cbn; lia|lia|cbn; lia|].
  split_and!; [exact E1|exact E3|exact E4].
Defined.

End Bandwidth.
