(* ===== verification/Mpegts.v ===== *)
(** The MPEG-TS writer of HLS (src/src/rtmp/hls/ngx_rtmp_mpegts.c).

    A frame is written as a PES packet cut into transport packets of 188
    bytes.  The packet array of [ngx_rtmp_mpegts_write_frame] is a list of
    bytes with the write position beside it, and a write past its end is
    [None]; the array keeps its contents from one packet to the next as it
    does on the stack.  [ngx_write_file] runs over the outcomes of the
    [pwrite] calls.

    The specification is a demultiplexer of byte strings that shares nothing
    with the writer: [mpegts_frame_demuxes] shows that it gets the frame and
    its time stamps back, for every frame and every outcome of the writes. *)

From Stdlib Require Import ZArith Lia.
From stdpp Require Import base numbers list list_numbers strings.
From S2P Require Import Prelude.

Module Mpegts.

(* ------------------------------------------------------------------ *)
(** ** Files *)

(** [ngx_file_t]: the contents and [offset]. *)
Record ngx_file_t := File { f_data : list Z; f_offset : nat }.

(** The file after a [pwrite] of [l] at [off]; a gap reads as zeros. *)
Definition pwrite (off : nat) (l : list Z) (d : list Z) : list Z :=
  splice off l (d ++ replicate (off - length d) 0).

(** The loop of [ngx_write_file]: [evs] lists what the following [pwrite]
    calls do, [None] a failure and [Some n] that at most [n] bytes are taken;
    the calls behind the end of the list take everything. *)
Fixpoint ngx_write_file (evs : list (option nat)) (file : ngx_file_t) (buf : list Z) (offset : nat)
  : bool * ngx_file_t * list (option nat) :=
  match evs with
  | [] => (true, File (pwrite offset buf (f_data file)) (f_offset file + length buf), [])
  | None :: evs => (false, file, evs)
  | Some n :: evs =>
      let n := Nat.min n (length buf) in
      let file := File (pwrite offset (take n buf) (f_data file)) (f_offset file + n) in
      if (n =? length buf)%nat then (true, file, evs)
      else ngx_write_file evs file (drop n buf) (offset + n)
  end.

(* ------------------------------------------------------------------ *)
(** ** Frames and packets *)

Record ngx_rtmp_mpegts_frame_t := Frame {
  pts : Z;
  dts : Z;
  pid : Z;
  sid : Z;
  cc : Z;
  key : bool
}.

Definition ngx_rtmp_mpegts_header : list Z :=
  [0x47; 0x40; 0x00; 0x10; 0x00;
   0x00; 0xb0; 0x0d; 0x00; 0x01; 0xc1; 0x00; 0x00;
   0x00; 0x01; 0xf0; 0x01;
   0x2e; 0x70; 0x19; 0x05] ++ replicate 167 0xff ++
  [0x47; 0x50; 0x01; 0x10; 0x00;
   0x02; 0xb0; 0x17; 0x00; 0x01; 0xc1; 0x00; 0x00;
   0xe1; 0x00;
   0xf0; 0x00;
   0x1b; 0xe1; 0x00; 0xf0; 0x00;
   0x0f; 0xe1; 0x01; 0xf0; 0x00;
   0x2f; 0x44; 0xb9; 0x9b] ++ replicate 157 0xff.

Definition NGX_RTMP_HLS_DELAY : Z := 63000.

Definition ngx_rtmp_mpegts_write_header (evs : list (option nat)) (file : ngx_file_t)
  : ngx_rc * ngx_file_t * list (option nat) :=
  let '(ok, file, evs) := ngx_write_file evs file ngx_rtmp_mpegts_header 0 in
  (if ok : bool then NGX_OK else NGX_ERROR, file, evs).

(** [packet] and [p]. *)
Abbreviation packet := (list Z * nat)%type.

(** [*p++] for each byte of [l]. *)
Definition put (l : list Z) (k : packet) : option packet :=
  let '(pk, p) := k in
  if (p + length l <=? length pk)%nat then Some (splice p l pk, p + length l)%nat else None.

(** [packet[i] |= m]. *)
Definition or_at (i : nat) (m : Z) (k : packet) : option packet :=
  let '(pk, p) := k in b ← pk !! i; Some (<[i := Z.lor b m]> pk, p).

Definition ngx_rtmp_mpegts_write_pcr (pcr : Z) : packet -> option packet :=
  put [u8 (Z.shiftr pcr 25); u8 (Z.shiftr pcr 17); u8 (Z.shiftr pcr 9); u8 (Z.shiftr pcr 1);
       u8 (Z.lor (Z.shiftl pcr 7) 0x7e); 0].

Definition ngx_rtmp_mpegts_write_pts (fb pts : Z) : packet -> option packet :=
  let val0 := Z.lor (Z.lor (Z.shiftl fb 4) (Z.shiftl (Z.land (Z.shiftr pts 30) 0x07) 1)) 1 in
  let val1 := Z.lor (Z.shiftl (Z.land (Z.shiftr pts 15) 0x7fff) 1) 1 in
  let val2 := Z.lor (Z.shiftl (Z.land pts 0x7fff) 1) 1 in
  put [u8 val0; u8 (Z.shiftr val1 8); u8 val1; u8 (Z.shiftr val2 8); u8 val2].

(** The four bytes of the packet header. *)
Definition ts_header (f : ngx_rtmp_mpegts_frame_t) (first : bool) (k : packet) : option packet :=
  k ← put [0x47; u8 (Z.shiftr (pid f) 8)] k;
  k ← (if first then or_at (k.2 - 1) 0x40 k else Some k);
  put [u8 (pid f); Z.lor 0x10 (Z.land (cc f) 0x0f)] k.

(** The adaptation field and the PES header of the first packet; [size] is
    [b->last - b->pos]. *)
Definition pes_header (f : ngx_rtmp_mpegts_frame_t) (size : nat) (k : packet) : option packet :=
  k ← (if key f then
         k ← or_at 3 0x20 k;
         k ← put [7; 0x50] k;
         ngx_rtmp_mpegts_write_pcr (u64 (dts f - NGX_RTMP_HLS_DELAY)) k
       else Some k);
  k ← put [0x00; 0x00; 0x01; u8 (sid f)] k;
  let header_size := if dts f =? pts f then 5 else 5 + 5 in
  let flags := if dts f =? pts f then 0x80 else Z.lor 0x80 0x40 in
  let pes_size := Z.of_nat size + header_size + 3 in
  let pes_size := if 0xffff <? pes_size then 0 else pes_size in
  k ← put [u8 (Z.shiftr pes_size 8); u8 pes_size; 0x80; u8 flags; u8 header_size] k;
  k ← ngx_rtmp_mpegts_write_pts (Z.shiftr flags 6) (u64 (pts f + NGX_RTMP_HLS_DELAY)) k;
  if dts f =? pts f then Some k
  else ngx_rtmp_mpegts_write_pts 1 (u64 (dts f + NGX_RTMP_HLS_DELAY)) k.

(** [ngx_movemem] of the bytes from [base] up to [p], [n] bytes on. *)
Definition move (base n : nat) (k : packet) : option packet :=
  let '(pk, p) := k in
  if (base <=? p)%nat && (p + n <=? length pk)%nat
  then Some (splice (base + n) (drop base (take p pk)) pk, p + n)%nat else None.

(** [packet[i..] = l] without a change of [p]. *)
Definition put_at (i : nat) (l : list Z) (k : packet) : option packet :=
  let '(pk, p) := k in
  if (i + length l <=? length pk)%nat then Some (splice i l pk, p) else None.

(** Stuffing in front of the last piece of a frame. *)
Definition stuff (stuff_size : nat) (k : packet) : option packet :=
  b3 ← k.1 !! 3%nat;
  if negb (Z.land b3 0x20 =? 0) then
    b4 ← k.1 !! 4%nat;
    let base := (5 + Z.to_nat b4)%nat in
    k ← move base stuff_size k;
    k ← put_at base (replicate stuff_size 0xff) k;
    b4 ← k.1 !! 4%nat;
    put_at 4 [u8 (b4 + u8 (Z.of_nat stuff_size))] k
  else
    k ← or_at 3 0x20 k;
    k ← move 4 stuff_size k;
    k ← put_at 4 [u8 (Z.of_nat stuff_size - 1)] k;
    if (2 <=? stuff_size)%nat then
      k ← put_at 5 [0] k;
      put_at 6 (replicate (stuff_size - 2) 0xff) k
    else Some k.

(** One packet: the bytes written and the rest of the frame. *)
Definition write_packet (f : ngx_rtmp_mpegts_frame_t) (first : bool) (b pk : list Z)
  : option (list Z * list Z) :=
  k ← ts_header f first (pk, 0%nat);
  k ← (if first then pes_header f (length b) k else Some k);
  let body_size := (length pk - k.2)%nat in
  let in_size := length b in
  if (body_size <=? in_size)%nat then
    k ← put (take body_size b) k;
    Some (k.1, drop body_size b)
  else
    k ← stuff (body_size - in_size) k;
    k ← put b k;
    Some (k.1, []).

Definition inc_cc (f : ngx_rtmp_mpegts_frame_t) : ngx_rtmp_mpegts_frame_t :=
  Frame (pts f) (dts f) (pid f) (sid f) (u64 (cc f + 1)) (key f).

(** Every packet takes at least one byte of the frame, so that the length of
    [b] bounds the number of passes. *)
Fixpoint frame_loop (fuel : nat) (evs : list (option nat)) (file : ngx_file_t)
    (f : ngx_rtmp_mpegts_frame_t) (first : bool) (b pk : list Z)
  : option (ngx_rc * ngx_file_t * ngx_rtmp_mpegts_frame_t * list Z * list (option nat)) :=
  match b with
  | [] => Some (NGX_OK, file, f, [], evs)
  | _ =>
      match fuel with
      | O => None
      | S fuel =>
          let f := inc_cc f in
          '(pk, b) ← write_packet f first b pk;
          let '(ok, file, evs) := ngx_write_file evs file pk (f_offset file) in
          if ok : bool then frame_loop fuel evs file f false b pk
          else Some (NGX_ERROR, file, f, b, evs)
      end
  end.

(** [pk] is what the array [packet] holds at entry. *)
Definition ngx_rtmp_mpegts_write_frame (pk : list Z) (evs : list (option nat)) (file : ngx_file_t)
    (f : ngx_rtmp_mpegts_frame_t) (b : list Z) :=
  frame_loop (length b) evs file f true b pk.

(* ------------------------------------------------------------------ *)
(** ** The specification: a demultiplexer *)

(** The adaptation field behind its length: the random access indicator and
    the 33 bits of the clock reference; the rest is stuffing. *)
Definition parse_adapt (a : list Z) : option (bool * option Z) :=
  match a with
  | [] => Some (false, None)
  | fl :: a =>
      if negb (Z.land fl 0xaf =? 0) then None
      else
        let n := if Z.testbit fl 4 then 6%nat else 0%nat in
        if (length a <? n)%nat || negb (forallb (Z.eqb 0xff) (drop n a)) then None
        else Some (Z.testbit fl 6,
                   if Z.testbit fl 4 then Some (be_val (take 5 a) / 128) else None)
  end.

(** A transport packet: payload unit start, pid, continuity counter, the
    adaptation field and the payload. *)
Definition ts_parse (l : list Z) : option (bool * Z * Z * (bool * option Z) * list Z) :=
  match l with
  | b0 :: b1 :: b2 :: b3 :: r =>
      if negb (b0 =? 0x47) || negb (length l =? 188)%nat || negb (b1 / 64 =? 0) && negb (b1 / 64 =? 1)
      then None
      else
        '(ad, pay) ←
          (if b3 / 16 =? 1 then Some ((false, None), r)
           else if b3 / 16 =? 3 then
             match r with
             | n :: r => ad ← parse_adapt (take (Z.to_nat n) r); Some (ad, drop (Z.to_nat n) r)
             | [] => None
             end
           else None);
        Some (Z.testbit b1 6, b1 mod 32 * 256 + b2, b3 mod 16, ad, pay)
  | _ => None
  end.

(** A 33-bit time stamp with its prefix and marker bits. *)
Definition parse_stamp (fb : Z) (l : list Z) : option Z :=
  match l with
  | [b0; b1; b2; b3; b4] =>
      if (b0 / 16 =? fb) && Z.odd b0 && Z.odd b2 && Z.odd b4
      then Some (b0 / 2 mod 8 * 2 ^ 30 + be_val [b1; b2] / 2 * 2 ^ 15 + be_val [b3; b4] / 2)
      else None
  | _ => None
  end.

(** A PES packet: stream id, the two time stamps and the data.  A length of
    zero stands for an unbounded packet. *)
Definition pes_parse (l : list Z) : option (Z * Z * Z * list Z) :=
  match l with
  | 0 :: 0 :: 1 :: sid :: l1 :: l0 :: 0x80 :: fl :: hl :: r =>
      let n := be_val [l1; l0] in
      if negb (n =? 0) && negb (n =? 3 + Z.of_nat (length r)) then None
      else
        let hdr := take (Z.to_nat hl) r in
        let data := drop (Z.to_nat hl) r in
        if fl =? 0x80 then t ← parse_stamp 2 hdr; Some (sid, t, t, data)
        else if fl =? 0xc0 then
          t ← parse_stamp 3 (take 5 hdr);
          t' ← parse_stamp 1 (drop 5 hdr);
          Some (sid, t, t', data)
        else None
  | _ => None
  end.

Record pes := Pes {
  pes_pid : Z;
  pes_cc : Z;           (** the counter of the first packet *)
  pes_key : bool;
  pes_pcr : option Z;
  pes_sid : Z;
  pes_pts : Z;
  pes_dts : Z;
  pes_data : list Z
}.

(** The payload of the packets that continue a frame of [pid] after the
    counter [c]. *)
Fixpoint demux_rest (pid c : Z) (ps : list (list Z)) : option (list Z) :=
  match ps with
  | [] => Some []
  | p :: ps =>
      '(start, pid', c', ad, pay) ← ts_parse p;
      if start || negb (pid' =? pid) || negb (c' =? (c + 1) mod 16) || fst ad then None
      else match snd ad with
           | Some _ => None
           | None => rest ← demux_rest pid c' ps; Some (pay ++ rest)
           end
  end.

Definition demux (ps : list (list Z)) : option pes :=
  match ps with
  | [] => None
  | p :: ps =>
      '(start, pid, c, ad, pay) ← ts_parse p;
      if start : bool then
        rest ← demux_rest pid c ps;
        '(sid, t, t', data) ← pes_parse (pay ++ rest);
        Some (Pes pid c (fst ad) (snd ad) sid t t' data)
      else None
  end.

(** CRC-32/MPEG-2, bit by bit. *)
Fixpoint crc_bits (n : nat) (c : Z) : Z :=
  match n with
  | O => c
  | S n => crc_bits n (if Z.testbit c 31 then Z.lxor (u32 (Z.shiftl c 1)) 0x04c11db7
                       else Z.shiftl c 1)
  end.
Definition crc32 (l : list Z) : Z :=
  foldl (fun c b => crc_bits 8 (Z.lxor c (Z.shiftl b 24))) 0xffffffff l.

(** A section in the payload of a packet: the table id and the body between
    the eight bytes of its header and its checksum, which must be right; the
    rest is stuffing. *)
Definition parse_section (pay : list Z) : option (Z * list Z) :=
  match pay with
  | 0 :: t :: l1 :: l0 :: r =>
      let n := Z.to_nat (l1 mod 16 * 256 + l0) in
      let sec := t :: l1 :: l0 :: take n r in
      if (n <=? length r)%nat && (9 <=? n)%nat && (crc32 sec =? 0) &&
         forallb (Z.eqb 0xff) (drop n r)
      then Some (t, take (n - 9) (drop 5 r))
      else None
  | _ => None
  end.

(** The programs of an association table: number and pid of the map. *)
Fixpoint parse_pat (fuel : nat) (l : list Z) : option (list (Z * Z)) :=
  match fuel, l with
  | _, [] => Some []
  | S fuel, n1 :: n0 :: p1 :: p0 :: l =>
      r ← parse_pat fuel l; Some ((be_val [n1; n0], p1 mod 32 * 256 + p0) :: r)
  | _, _ => None
  end.

(** The streams of a program map: type and pid. *)
Fixpoint parse_streams (fuel : nat) (l : list Z) : option (list (Z * Z)) :=
  match fuel, l with
  | _, [] => Some []
  | S fuel, ty :: p1 :: p0 :: n1 :: n0 :: l =>
      r ← parse_streams fuel (drop (Z.to_nat (n1 mod 16 * 256 + n0)) l);
      Some ((ty, p1 mod 32 * 256 + p0) :: r)
  | _, _ => None
  end.
Definition parse_pmt (l : list Z) : option (Z * list (Z * Z)) :=
  match l with
  | p1 :: p0 :: n1 :: n0 :: l =>
      r ← parse_streams (length l) (drop (Z.to_nat (n1 mod 16 * 256 + n0)) l);
      Some (p1 mod 32 * 256 + p0, r)
  | _ => None
  end.

(** The section a packet carries, with its pid. *)
Definition ts_section (l : list Z) : option (Z * (Z * list Z)) :=
  '(start, pid, c, ad, pay) ← ts_parse l;
  if start : bool then sec ← parse_section pay; Some (pid, sec) else None.

(* ------------------------------------------------------------------ *)
(** ** The packet as a list of written bytes

    [at_pos l k]: the bytes before the position are [l], the array has 188
    cells. *)

Definition at_pos (l : list Z) (k : packet) : Prop :=
  exists r, k = (l ++ r, length l) /\ (length l + length r)%nat = 188%nat.

Lemma at_pos_start pk : length pk = 188%nat -> at_pos [] (pk, 0%nat).
Proof. intros. now exists pk. Qed.

Lemma at_pos_full l k : at_pos l k -> length l = 188%nat -> k.1 = l.
Proof.
  intros (r & -> & Hr) Hl. assert (r = []) as -> by (apply nil_length_inv; lia). apply app_nil_r.
Qed.

Lemma at_pos_snd l k : at_pos l k -> k.2 = length l.
Proof. now intros (r & -> & _). Qed.

Lemma at_pos_lookup l k i b : at_pos l k -> l !! i = Some b -> k.1 !! i = Some b.
Proof. intros (r & -> & _) Hi. now apply lookup_app_l_Some. Qed.

Lemma packet_put_spec m l k : at_pos l k -> (length l + length m <= 188)%nat ->
  exists k', put m k = Some k' /\ at_pos (l ++ m) k'.
Proof.
  intros (r & -> & Hr) Hm. unfold put. rewrite length_app, (proj2 (Nat.leb_le _ _)) by lia.
  eexists. split; [reflexivity|]. exists (drop (length m) r). split; [|len].
  f_equal; [|len]. unfold splice. rewrite take_app_length, drop_app_ge by lia.
  rewrite <- app_assoc. do 3 f_equal. lia.
Qed.

Lemma or_at_spec m l1 b l2 k i : at_pos (l1 ++ b :: l2) k -> i = length l1 ->
  exists k', or_at i m k = Some k' /\ at_pos (l1 ++ Z.lor b m :: l2) k'.
Proof.
  intros (r & -> & Hr) ->. unfold or_at.
  rewrite <- app_assoc, lookup_app_r, Nat.sub_diag by lia. cbn [app lookup list_lookup mbind option_bind].
  eexists. split; [reflexivity|]. exists r. split; [|len].
  rewrite insert_app_r_alt, Nat.sub_diag by lia. cbn [insert list_insert].
  rewrite <- app_assoc. f_equal. len.
Qed.

Lemma move_spec n l1 l2 k i : at_pos (l1 ++ l2) k -> i = length l1 ->
  (length l1 + length l2 + n <= 188)%nat ->
  exists g k', move i n k = Some k' /\ length g = n /\ at_pos (l1 ++ g ++ l2) k'.
Proof.
  intros (r & -> & Hr) -> Hn. rewrite length_app in Hr. unfold move. rewrite !length_app.
  rewrite (proj2 (Nat.leb_le _ _)), (proj2 (Nat.leb_le _ _)) by lia. cbn [andb].
  rewrite <- (length_app l1 l2), take_app_length, drop_app_length.
  exists (take n (l2 ++ r)). eexists. split; [reflexivity|]. split; [len|].
  exists (drop n r). split; [|len]. f_equal; [|len].
  unfold splice. rewrite <- app_assoc, (take_app_ge l1), drop_app_ge by lia.
  rewrite drop_app_ge by lia. rewrite <- !app_assoc. do 4 f_equal; [f_equal|]; lia.
Qed.

(** Overwriting a part of what is written. *)
Lemma put_at_spec m l1 g l2 k i : at_pos (l1 ++ g ++ l2) k -> i = length l1 -> length m = length g ->
  exists k', put_at i m k = Some k' /\ at_pos (l1 ++ m ++ l2) k'.
Proof.
  intros (r & -> & Hr) -> Hm. unfold put_at.
  rewrite (proj2 (Nat.leb_le _ _)) by len.
  eexists. split; [reflexivity|]. exists r. split; [|len]. f_equal; [|len].
  unfold splice. rewrite <- app_assoc, take_app_length, <- !app_assoc. do 2 f_equal.
  rewrite (app_assoc l1 g), drop_app_ge by len.
  replace (_ - _)%nat with 0%nat by len. now rewrite drop_0.
Qed.

(** What the header writers put. *)
Definition pcr_bytes (pcr : Z) : list Z :=
  [u8 (Z.shiftr pcr 25); u8 (Z.shiftr pcr 17); u8 (Z.shiftr pcr 9); u8 (Z.shiftr pcr 1);
   u8 (Z.lor (Z.shiftl pcr 7) 0x7e); 0].

Definition stamp_bytes (fb t : Z) : list Z :=
  [u8 (Z.lor (Z.lor (Z.shiftl fb 4) (Z.shiftl (Z.land (Z.shiftr t 30) 0x07) 1)) 1)] ++
  be_bytes 2 (Z.lor (Z.shiftl (Z.land (Z.shiftr t 15) 0x7fff) 1) 1) ++
  be_bytes 2 (Z.lor (Z.shiftl (Z.land t 0x7fff) 1) 1).

Definition has_dts (f : ngx_rtmp_mpegts_frame_t) : bool := negb (dts f =? pts f).

Definition pes_bytes (f : ngx_rtmp_mpegts_frame_t) (size : nat) : list Z :=
  let header_size := if has_dts f then 10 else 5 in
  let pes_size := Z.of_nat size + header_size + 3 in
  [0; 0; 1; u8 (sid f)] ++ be_bytes 2 (if 0xffff <? pes_size then 0 else pes_size) ++
  [0x80; if has_dts f then 0xc0 else 0x80; header_size] ++
  stamp_bytes (if has_dts f then 3 else 2) (u64 (pts f + NGX_RTMP_HLS_DELAY)) ++
  if has_dts f then stamp_bytes 1 (u64 (dts f + NGX_RTMP_HLS_DELAY)) else [].

Definition ts_bytes (f : ngx_rtmp_mpegts_frame_t) (first adapt : bool) : list Z :=
  [0x47; Z.lor (u8 (Z.shiftr (pid f) 8)) (if first then 0x40 else 0); u8 (pid f);
   Z.lor (Z.lor 0x10 (Z.land (cc f) 0x0f)) (if adapt then 0x20 else 0)].

(** The adaptation field with [n] bytes of stuffing. *)
Definition adapt_bytes (f : ngx_rtmp_mpegts_frame_t) (first : bool) (n : nat) : option (list Z) :=
  if first && key f then
    Some ([0x50] ++ pcr_bytes (u64 (dts f - NGX_RTMP_HLS_DELAY)) ++ replicate n 0xff)
  else
    match n with
    | O => None
    | S O => Some []
    | S (S n) => Some ([0] ++ replicate n 0xff)
    end.

Definition field_bytes (o : option (list Z)) : list Z :=
  match o with Some a => u8 (Z.of_nat (length a)) :: a | None => [] end.

Definition has_field (o : option (list Z)) : bool :=
  match o with Some _ => true | None => false end.

Lemma be_bytes_2 v : be_bytes 2 v = [u8 (Z.shiftr v 8); u8 v].
Proof.
  cbn [be_bytes]. rewrite !land_255. change (8 * Z.of_nat 1) with 8.
  change (8 * Z.of_nat 0) with 0. now rewrite Z.shiftr_0_r.
Qed.

Lemma write_pts_put fb t : ngx_rtmp_mpegts_write_pts fb t = put (stamp_bytes fb t).
Proof. unfold stamp_bytes. now rewrite !be_bytes_2. Qed.

Lemma length_stamp_bytes fb t : length (stamp_bytes fb t) = 5%nat.
Proof. reflexivity. Qed.

Lemma length_pcr_bytes p : length (pcr_bytes p) = 6%nat.
Proof. reflexivity. Qed.

Lemma length_pes_bytes f n : length (pes_bytes f n) = (if has_dts f then 19 else 14)%nat.
Proof. unfold pes_bytes. now destruct (has_dts f). Qed.

Lemma length_ts_bytes f first a : length (ts_bytes f first a) = 4%nat.
Proof. reflexivity. Qed.

Hint Rewrite length_stamp_bytes length_pcr_bytes length_pes_bytes length_ts_bytes : lmss_len.

Lemma ts_header_spec f first pk : length pk = 188%nat ->
  exists k, ts_header f first (pk, 0%nat) = Some k /\ at_pos (ts_bytes f first false) k.
Proof.
  intros Hpk. unfold ts_header, ts_bytes.
  destruct (packet_put_spec [0x47; u8 (Z.shiftr (pid f) 8)] _ _ (at_pos_start _ Hpk)) as (k & -> & A);
    [cbn; lia|]. cbn [mbind option_bind].
  assert (exists k', (if first then or_at (k.2 - 1) 0x40 k else Some k) = Some k' /\
          at_pos [0x47; Z.lor (u8 (Z.shiftr (pid f) 8)) (if first then 0x40 else 0)] k')
    as (k' & -> & A').
  { replace (k.2 - 1)%nat with 1%nat by now rewrite (at_pos_snd _ _ A).
    destruct first; [|exists k; rewrite Z.lor_0_r; now split].
    destruct (or_at_spec 0x40 [0x47] (u8 (Z.shiftr (pid f) 8)) [] k 1 A) as (k' & -> & A');
      [reflexivity|]. now exists k'. }
  destruct (packet_put_spec [u8 (pid f); Z.lor 0x10 (Z.land (cc f) 0x0f)] _ _ A') as (k2 & E & A2);
    [cbn; lia|].
  exists k2. rewrite Z.lor_0_r. now split.
Qed.

Lemma pes_header_spec f n k : at_pos (ts_bytes f true false) k ->
  exists k', pes_header f n k = Some k' /\
    at_pos (ts_bytes f true (key f) ++ field_bytes (adapt_bytes f true 0) ++ pes_bytes f n) k'.
Proof.
  intros A. unfold pes_header.
  assert (exists k', (if key f then
       k ← or_at 3 0x20 k;
       k ← put [7; 0x50] k;
       ngx_rtmp_mpegts_write_pcr (u64 (dts f - NGX_RTMP_HLS_DELAY)) k
     else Some k) = Some k' /\
     at_pos (ts_bytes f true (key f) ++ field_bytes (adapt_bytes f true 0)) k') as (k1 & -> & A1).
  { unfold adapt_bytes. cbn [andb]. destruct (key f); [|exists k; now rewrite app_nil_r].
    destruct (or_at_spec 0x20 (take 3 (ts_bytes f true false)) _ [] k 3 A) as (k1 & -> & A1);
      [reflexivity|]. cbn [mbind option_bind].
    destruct (packet_put_spec [7; 0x50] _ _ A1) as (k2 & -> & A2); [cbn; lia|]. cbn [mbind option_bind].
    destruct (packet_put_spec (pcr_bytes (u64 (dts f - NGX_RTMP_HLS_DELAY))) _ _ A2) as (k3 & E3 & A3);
      [cbn; lia|]. exists k3. split; [exact E3|].
    cbn [take ts_bytes] in A3. rewrite Z.lor_0_r in A3. exact A3. }
  cbn [mbind option_bind].
  assert (length (ts_bytes f true (key f) ++ field_bytes (adapt_bytes f true 0)) <= 12)%nat as Hl.
  { rewrite length_app, length_ts_bytes. unfold adapt_bytes. destruct (key f); cbn; lia. }
  rewrite app_assoc. revert A1 Hl.
  generalize (ts_bytes f true (key f) ++ field_bytes (adapt_bytes f true 0)). intros l A1 Hl.
  destruct (packet_put_spec [0; 0; 1; u8 (sid f)] _ _ A1) as (k2 & -> & A2); [cbn; lia|].
  cbn [mbind option_bind]. rewrite !write_pts_put.
  unfold pes_bytes, has_dts. rewrite be_bytes_2.
  match goal with |- context [put ?m k2] =>
    destruct (packet_put_spec m _ _ A2) as (k3 & -> & A3); [len; cbn; lia|] end.
  cbn [mbind option_bind].
  match goal with |- context [put ?m k3] =>
    destruct (packet_put_spec m _ _ A3) as (k4 & -> & A4); [len; cbn; lia|] end.
  cbn [mbind option_bind]. rewrite <- !app_assoc in A4.
  destruct (dts f =? pts f); cbn [negb].
  - exists k4. split; [reflexivity|]. now rewrite app_nil_r.
  - destruct (packet_put_spec (stamp_bytes 1 (u64 (dts f + NGX_RTMP_HLS_DELAY))) _ _ A4) as (k5 & E & A5);
      [len; cbn; lia|]. exists k5. split; [exact E|]. now rewrite <- !app_assoc in A5.
Qed.

Lemma adapt_bit f first a b : ts_bytes f first a !! 3%nat = Some b ->
  negb (Z.land b 0x20 =? 0) = a.
Proof.
  cbn. intros [= <-]. rewrite Z.land_lor_distr_l, Z.land_lor_distr_l, <- Z.land_assoc.
  change (Z.land 0x10 0x20) with 0. change (Z.land 0x0f 0x20) with 0.
  rewrite Z.land_0_r. now destruct a.
Qed.

(** Stuffing behind an adaptation field and in a new one. *)
Lemma stuff_more n h a r k b : at_pos (h ++ (u8 (Z.of_nat (length a)) :: a) ++ r) k ->
  length h = 4%nat -> h !! 3%nat = Some b -> negb (Z.land b 0x20 =? 0) = true ->
  (5 + length a + length r + n <= 188)%nat ->
  exists k', stuff n k = Some k' /\
    at_pos (h ++ (u8 (Z.of_nat (length (a ++ replicate n 0xff))) :: a ++ replicate n 0xff) ++ r) k'.
Proof.
  intros A Hh Hb Hbit Hl. unfold stuff.
  rewrite (at_pos_lookup _ _ _ _ A (lookup_app_l_Some _ _ _ _ Hb)). cbn [mbind option_bind].
  rewrite Hbit. assert (forall x y : list Z, (h ++ (u8 (Z.of_nat (length a)) :: x) ++ y) !! 4%nat =
                        Some (u8 (Z.of_nat (length a)))) as H4.
  { intros. rewrite lookup_app_r by lia. now rewrite Hh. }
  rewrite (at_pos_lookup _ _ _ _ A (H4 a r)). cbn [mbind option_bind].
  replace (5 + Z.to_nat (u8 (Z.of_nat (length a))))%nat with (5 + length a)%nat
    by (rewrite u8_small; lia).
  rewrite app_assoc in A.
  destruct (move_spec n _ _ _ (5 + length a) A) as (g & k1 & -> & Hg & A1); [len; cbn; lia..|].
  cbn [mbind option_bind].
  destruct (put_at_spec (replicate n 0xff) _ _ _ _ (5 + length a) A1) as (k2 & -> & A2);
    [len; cbn; lia..|]. cbn [mbind option_bind].
  rewrite <- app_assoc in A2. rewrite (at_pos_lookup _ _ _ _ A2 (H4 _ _)). cbn [mbind option_bind].
  rewrite <- app_comm_cons in A2.
  destruct (put_at_spec [u8 (u8 (Z.of_nat (length a)) + u8 (Z.of_nat n))] h
    [u8 (Z.of_nat (length a))] _ _ 4 A2) as (k3 & -> & A3); [done..|].
  exists k3. split; [reflexivity|]. rewrite <- app_comm_cons, <- app_assoc.
  rewrite length_app, length_replicate, Nat2Z.inj_add. unfold u8 at 1. rewrite Zplus_mod. exact A3.
Qed.

Lemma stuff_new n h b r k : at_pos (h ++ b :: r) k -> length h = 3%nat ->
  negb (Z.land b 0x20 =? 0) = false -> (0 < n)%nat -> (4 + length r + n <= 188)%nat ->
  exists k', stuff n k = Some k' /\
    at_pos (h ++ Z.lor b 0x20 ::
      (u8 (Z.of_nat n - 1) :: match n with S (S n) => 0 :: replicate n 0xff | _ => [] end) ++ r) k'.
Proof.
  intros A Hh Hbit Hn Hl. unfold stuff.
  assert ((h ++ b :: r) !! 3%nat = Some b) as H3 by (rewrite lookup_app_r by lia; now rewrite Hh).
  rewrite (at_pos_lookup _ _ _ _ A H3). cbn [mbind option_bind]. rewrite Hbit.
  destruct (or_at_spec 0x20 _ _ _ _ 3 A) as (k1 & -> & A1); [done|]. cbn [mbind option_bind].
  rewrite cons_middle, app_assoc in A1.
  destruct (move_spec n _ _ _ 4 A1) as (g & k2 & -> & Hg & A2); [len; cbn; lia..|].
  cbn [mbind option_bind]. destruct g as [|g0 g]; [cbn in Hg; lia|].
  destruct (put_at_spec [u8 (Z.of_nat n - 1)] _ [g0] _ _ 4 A2) as (k3 & -> & A3); [len; cbn; lia|done|].
  cbn [mbind option_bind]. rewrite <- app_assoc in A3.
  destruct n as [|[|n]]; [lia| |]; cbn [Nat.leb].
  - assert (g = []) as -> by (apply nil_length_inv; cbn in Hg; lia). now exists k3.
  - destruct g as [|g1 g]; [discriminate|]. cbn [length] in Hg.
    rewrite (app_assoc [_]), app_assoc in A3.
    destruct (put_at_spec [0] _ [g1] _ _ 5 A3) as (k4 & -> & A4); [len; cbn; lia|done|].
    cbn [mbind option_bind]. rewrite app_assoc in A4.
    destruct (put_at_spec (replicate (S (S n) - 2) 0xff) _ g _ _ 6 A4) as (k5 & -> & A5);
      [len; cbn; lia|len|].
    exists k5. split; [reflexivity|]. rewrite <- !app_assoc in A5.
    replace (S (S n) - 2)%nat with n in A5 by lia. exact A5.
Qed.

Lemma stuff_spec f first n r k : (0 < n)%nat ->
  at_pos (ts_bytes f first (first && key f) ++ field_bytes (adapt_bytes f first 0) ++ r) k ->
  (4 + length (field_bytes (adapt_bytes f first 0)) + length r + n <= 188)%nat ->
  exists k', stuff n k = Some k' /\
    at_pos (ts_bytes f first true ++ field_bytes (adapt_bytes f first n) ++ r) k'.
Proof.
  intros Hn A Hl. unfold adapt_bytes in *. destruct (first && key f).
  - rewrite app_nil_r in *. cbn [field_bytes] in *.
    edestruct (stuff_more n) as (k' & E & A'); [exact A|done|reflexivity|now apply (adapt_bit f first true)|..].
    { rewrite length_cons in Hl. lia. }
    exists k'. exact (conj E A').
  - cbn [field_bytes] in *. rewrite app_nil_l in A.
    destruct (stuff_new n (take 3 (ts_bytes f first false)) _ _ _ A) as (k' & E & A');
      [done|now apply (adapt_bit f first false)|done|cbn in Hl; lia|].
    exists k'. split; [exact E|]. cbn [ts_bytes take] in A'. rewrite Z.lor_0_r in A'.
    unfold ts_bytes. cbn [app] in A' |- *.
    replace (field_bytes match n with
             | 0%nat => None
             | 1%nat => Some []
             | S (S n) => Some (0 :: replicate n 255) end)
      with (u8 (Z.of_nat n - 1) :: match n with S (S n) => 0 :: replicate n 0xff | _ => [] end);
      [exact A'|].
    destruct n as [|[|n]]; [lia|done|]. cbn [field_bytes]. do 3 f_equal. len.
Qed.

(** The payload a packet adds: the first one starts with the PES header. *)
Definition head_bytes (f : ngx_rtmp_mpegts_frame_t) (first : bool) (size : nat) : list Z :=
  if first then pes_bytes f size else [].

Lemma length_field f first n : first && key f = false -> length (field_bytes (adapt_bytes f first n)) = n.
Proof. intros E. unfold adapt_bytes. rewrite E. destruct n as [|[|n]]; cbn; len. Qed.

Lemma length_field_key f first n : first && key f = true ->
  length (field_bytes (adapt_bytes f first n)) = (8 + n)%nat.
Proof. intros E. unfold adapt_bytes. rewrite E. cbn. len. Qed.

Lemma length_field_add f first n : length (field_bytes (adapt_bytes f first n)) =
  (length (field_bytes (adapt_bytes f first 0)) + n)%nat.
Proof.
  destruct (first && key f) eqn:E;
    [rewrite !length_field_key by done|rewrite !length_field by done]; lia.
Qed.

(** A packet is its header, the adaptation field with [n] bytes of stuffing
    and the next [m] bytes of the frame. *)
Lemma write_packet_spec f first b pk : length pk = 188%nat -> (0 < length b)%nat ->
  exists n m pk', write_packet f first b pk = Some (pk', drop m b) /\
    (0 < m)%nat /\ length pk' = 188%nat /\
    pk' = ts_bytes f first (has_field (adapt_bytes f first n)) ++
          field_bytes (adapt_bytes f first n) ++ head_bytes f first (length b) ++ take m b.
Proof.
  intros Hpk Hb. unfold write_packet.
  destruct (ts_header_spec f first pk Hpk) as (k1 & -> & A1). cbn [mbind option_bind].
  assert (exists k2, (if first then pes_header f (length b) k1 else Some k1) = Some k2 /\
    at_pos (ts_bytes f first (first && key f) ++ field_bytes (adapt_bytes f first 0) ++
            head_bytes f first (length b)) k2) as (k2 & -> & A2).
  { destruct first; [now apply pes_header_spec|]. exists k1. now split. }
  cbn [mbind option_bind]. rewrite (at_pos_snd _ _ A2), Hpk.
  set (fl := length (field_bytes (adapt_bytes f first 0))).
  set (hl := length (head_bytes f first (length b))).
  assert (fl <= 8 /\ hl <= 19)%nat as [Hfl Hhl].
  { subst fl hl. unfold head_bytes. split.
    - destruct (first && key f) eqn:E; [rewrite length_field_key|rewrite length_field]; trivial; lia.
    - destruct first; [rewrite length_pes_bytes; destruct (has_dts f)|]; cbn; lia. }
  replace (length _) with (4 + fl + hl)%nat by (subst fl hl; len).
  case_if.
  - edestruct (packet_put_spec (take (188 - (4 + fl + hl)) b)) as (k3 & -> & A3); [exact A2|len|].
    cbn [mbind option_bind]. exists 0%nat, (188 - (4 + fl + hl))%nat. eexists.
    split; [reflexivity|]. split; [lia|]. rewrite <- !app_assoc in A3.
    rewrite (at_pos_full _ _ A3) by len. split; [len|].
    do 2 f_equal. unfold adapt_bytes. now destruct (first && key f).
  - edestruct (stuff_spec f first (188 - (4 + fl + hl) - length b)) as (k3 & -> & A3);
      [lia|exact A2|fold fl hl; lia|]. cbn [mbind option_bind].
    edestruct (packet_put_spec b) as (k4 & -> & A4); [exact A3| |].
    { rewrite !length_app, length_ts_bytes, length_field_add. fold fl hl. lia. }
    cbn [mbind option_bind]. exists (188 - (4 + fl + hl) - length b)%nat, (length b). eexists.
    rewrite drop_all, firstn_all. split; [reflexivity|]. split; [lia|].
    rewrite <- !app_assoc in A4.
    rewrite (at_pos_full _ _ A4) by (rewrite !length_app, length_ts_bytes, length_field_add; fold fl hl; lia).
    split; [rewrite !length_app, length_ts_bytes, length_field_add; fold fl hl; lia|].
    f_equal. unfold adapt_bytes. destruct (first && key f); [done|].
    destruct (_ - _ - _)%nat as [|[|?]] eqn:En; [lia|done|done].
Qed.

(* ------------------------------------------------------------------ *)
(** ** Reading the headers back *)

Lemma pcr_value t : be_val (take 5 (pcr_bytes t)) / 128 = t mod 2 ^ 33.
Proof.
  unfold pcr_bytes, u8. cbn [take].
  assert (Z.lor (Z.shiftl t 7) 0x7e mod 2 ^ 8 = t mod 2 * 128 + 126) as ->.
  { rewrite Z.shiftl_mul_pow2, lor_disjoint by lia. change (2 ^ 8) with (128 * 2).
    change (2 ^ 7) with 128. rewrite Z.add_comm, (Z.mul_comm t), <- Z.add_mod_idemp_r by lia.
    rewrite Z.mul_mod_distr_l by lia. rewrite Z.mod_small; [lia|].
    pose proof (Z.mod_pos_bound t 2). lia. }
  rewrite !Z.shiftr_div_pow2 by lia. unfold be_val. cbn [foldl].
  change (2 ^ 25) with (2 * 2 ^ 24). change (2 ^ 17) with (2 * 2 ^ 16).
  change (2 ^ 9) with (2 * 2 ^ 8). rewrite <- !Z.div_div by lia. change (2 ^ 1) with 2.
  change (2 ^ 33) with (2 * 2 ^ 32). rewrite Z.rem_mul_r by lia.
  set (q := t / 2). pose proof (Z.mod_pos_bound t 2).
  Z.to_euclidean_division_equations. lia.
Qed.

Lemma odd_val x : Z.lor (Z.shiftl x 1) 1 = 2 * x + 1.
Proof. rewrite Z.shiftl_mul_pow2, lor_disjoint by lia. lia. Qed.

Lemma odd_u8 x : Z.odd (u8 (2 * x + 1)) = true.
Proof.
  unfold u8. rewrite <- Z.bit0_odd, Z.mod_pow2_bits_low, Z.bit0_odd by lia.
  rewrite Z.odd_add, Z.odd_mul. reflexivity.
Qed.

Lemma stamp_value fb t : 0 <= fb < 16 -> parse_stamp fb (stamp_bytes fb t) = Some (t mod 2 ^ 33).
Proof.
  intros Hfb. unfold stamp_bytes. change 0x7fff with (2 ^ 15 - 1). change 0x07 with (2 ^ 3 - 1).
  rewrite !land_mask, !odd_val, !Z.shiftr_div_pow2 by lia.
  change (2 ^ 3) with 8.
  assert (forall x, 0 <= x < 8 ->
    Z.lor (Z.lor (Z.shiftl fb 4) (Z.shiftl x 1)) 1 = 2 * (8 * fb + x) + 1) as Hx.
  { intros x Hx. rewrite !Z.shiftl_mul_pow2, lor_disjoint by lia.
    replace (fb * 2 ^ 4 + x * 2 ^ 1) with ((8 * fb + x) * 2 ^ 1) by lia.
    rewrite lor_disjoint by lia. lia. }
  rewrite Hx by now apply Z.mod_pos_bound.
  pose proof (Z.mod_pos_bound (t / 2 ^ 30) 8). pose proof (Z.mod_pos_bound (t / 2 ^ 15) (2 ^ 15)).
  pose proof (Z.mod_pos_bound t (2 ^ 15)).
  rewrite !be_bytes_2. cbn [app parse_stamp]. rewrite <- !be_bytes_2, !be_val_be_bytes, !odd_u8.
  change (2 ^ (8 * Z.of_nat 2)) with 65536. rewrite u8_small, !(Z.mod_small _ 65536) by lia.
  rewrite !andb_true_r.
  rewrite (proj2 (Z.eqb_eq _ _)) by (Z.to_euclidean_division_equations; lia).
  f_equal. change (2 ^ 30) with (2 ^ 15 * 2 ^ 15) in *. change (2 ^ 33) with (2 ^ 15 * (2 ^ 15 * 8)).
  rewrite <- Z.div_div, !Z.rem_mul_r by lia.
  Z.to_euclidean_division_equations; lia.
Qed.

Definition expect_adapt (f : ngx_rtmp_mpegts_frame_t) (first : bool) : bool * option Z :=
  (first && key f,
   if first && key f then Some ((dts f - NGX_RTMP_HLS_DELAY) mod 2 ^ 33) else None).

Lemma forallb_replicate_ff n : forallb (Z.eqb 0xff) (replicate n 0xff) = true.
Proof. induction n; [done|exact IHn]. Qed.

Lemma u64_33 z : u64 z mod 2 ^ 33 = z mod 2 ^ 33.
Proof. unfold u64. now rewrite Z.mod_mod_divide by (now exists (2 ^ 31)). Qed.

Lemma adapt_parses f first n a : adapt_bytes f first n = Some a ->
  parse_adapt a = Some (expect_adapt f first).
Proof.
  unfold adapt_bytes, expect_adapt. destruct (first && key f).
  - pose proof (pcr_value (u64 (dts f - NGX_RTMP_HLS_DELAY))) as Hv. rewrite u64_33 in Hv.
    pose proof (length_pcr_bytes (u64 (dts f - NGX_RTMP_HLS_DELAY))) as Hl.
    revert Hv Hl. generalize (pcr_bytes (u64 (dts f - NGX_RTMP_HLS_DELAY))). intros q Hv Hl [= <-].
    unfold parse_adapt. cbn [app].
    change (Z.testbit 0x50 4) with true. change (Z.testbit 0x50 6) with true.
    change (negb (Z.land 0x50 0xaf =? 0)) with false. cbv zeta iota.
    rewrite drop_app_length', forallb_replicate_ff by done.
    rewrite (proj2 (Nat.ltb_ge _ _)) by len. cbn [orb negb].
    rewrite take_app_le, Hv by lia. reflexivity.
  - destruct n as [|[|n]]; [done|now intros [= <-]|intros [= <-]].
    unfold parse_adapt. cbn [app].
    change (negb (Z.land 0 0xaf =? 0)) with false. change (Z.testbit 0 4) with false.
    change (Z.testbit 0 6) with false. cbv zeta iota. rewrite drop_0, forallb_replicate_ff. reflexivity.
Qed.

Lemma start_byte p (first : bool) : 0 <= p < 8192 ->
  Z.lor (u8 (Z.shiftr p 8)) (if first then 0x40 else 0) = p / 256 + (if first then 64 else 0).
Proof.
  intros Hp. assert (0 <= p / 256 < 32) by (Z.to_euclidean_division_equations; lia).
  rewrite Z.shiftr_div_pow2 by lia. change (2 ^ 8) with 256. rewrite u8_small by lia.
  destruct first; [|now rewrite Z.lor_0_r, Z.add_0_r].
  change 0x40 with (1 * 2 ^ 6) at 1. rewrite lor_disjoint_r by lia. lia.
Qed.

Lemma count_byte c (a : bool) :
  Z.lor (Z.lor 0x10 (Z.land c 0x0f)) (if a then 0x20 else 0) =
  (if a then 3 else 1) * 16 + c mod 16.
Proof.
  change 0x0f with (2 ^ 4 - 1). rewrite land_mask by lia. change (2 ^ 4) with 16.
  pose proof (Z.mod_pos_bound c 16).
  change (Z.lor 0x10 (c mod 16)) with (Z.lor (1 * 2 ^ 4) (c mod 16)).
  rewrite lor_disjoint by lia. destruct a; [|rewrite Z.lor_0_r; lia].
  change 0x20 with (1 * 2 ^ 5). rewrite lor_disjoint_r by lia. lia.
Qed.

Lemma packet_parses f first n pay : 0 <= pid f < 8192 ->
  length (ts_bytes f first (has_field (adapt_bytes f first n)) ++
    field_bytes (adapt_bytes f first n) ++ pay) = 188%nat ->
  ts_parse (ts_bytes f first (has_field (adapt_bytes f first n)) ++
    field_bytes (adapt_bytes f first n) ++ pay) =
  Some (first, pid f, cc f mod 16, expect_adapt f first, pay).
Proof.
  intros Hp Hl. unfold ts_parse. rewrite Hl. unfold ts_bytes. cbn [app].
  rewrite start_byte, count_byte by done. cbn [negb Z.eqb orb Nat.eqb].
  pose proof (Z.mod_pos_bound (cc f) 16) as Hc.
  assert (0 <= pid f / 256 < 32) as Hd by (Z.to_euclidean_division_equations; lia).
  assert ((pid f / 256 + (if first then 64 else 0)) / 64 = if first then 1 else 0) as ->
    by (destruct first; Z.to_euclidean_division_equations; lia).
  replace (_ && _) with false by now destruct first.
  assert (forall a : bool, ((if a then 3 else 1) * 16 + cc f mod 16) / 16 = if a then 3 else 1) as ->
    by (intros []; rewrite Z.div_add_l, Z.div_small by lia; lia).
  assert (Z.testbit (pid f / 256 + (if first then 64 else 0)) 6 = first) as ->.
  { rewrite Z.testbit_odd, Z.shiftr_div_pow2 by lia. change (2 ^ 6) with 64.
    destruct first; [replace (_ / 64) with 1|replace (_ / 64) with 0];
      trivial; Z.to_euclidean_division_equations; lia. }
  replace ((pid f / 256 + (if first then 64 else 0)) mod 32 * 256 + u8 (pid f)) with (pid f)
    by (unfold u8; destruct first; Z.to_euclidean_division_equations; lia).
  rewrite Z.add_comm, Z.mod_add, Z.mod_mod by lia.
  destruct (adapt_bytes f first n) as [a|] eqn:Ea; cbn [has_field field_bytes Z.eqb Pos.eqb] in *.
  - assert (length a <= 183)%nat by (revert Hl; len).
    cbn [app]. rewrite u8_small, Nat2Z.id, take_app_length, drop_app_length by lia.
    rewrite (adapt_parses _ _ _ _ Ea). reflexivity.
  - cbn [app mbind option_bind]. unfold adapt_bytes in Ea. unfold expect_adapt.
    destruct (first && key f); [discriminate|]. reflexivity.
Qed.

Lemma pes_parses f b n : 0 <= sid f < 256 -> n = length b ->
  pes_parse (pes_bytes f n ++ b) =
  Some (sid f, (pts f + NGX_RTMP_HLS_DELAY) mod 2 ^ 33, (dts f + NGX_RTMP_HLS_DELAY) mod 2 ^ 33, b).
Proof.
  intros Hs ->. unfold pes_bytes. rewrite be_bytes_2, u8_small by done.
  set (size := if 0xffff <? _ then _ else _). rewrite <- !app_assoc. cbn [app pes_parse].
  rewrite <- be_bytes_2, be_val_be_bytes.
  assert (size mod 2 ^ (8 * Z.of_nat 2) = size) as ->.
  { apply Z.mod_small. subst size. case_if; [lia|]. destruct (has_dts f); lia. }
  assert (length (stamp_bytes (if has_dts f then 3 else 2) (u64 (pts f + NGX_RTMP_HLS_DELAY)) ++
    (if has_dts f then stamp_bytes 1 (u64 (dts f + NGX_RTMP_HLS_DELAY)) else []) ++ b) =
    ((if has_dts f then 10 else 5) + length b)%nat) as Hl
    by (rewrite !length_app; destruct (has_dts f); len).
  rewrite Hl. assert (negb (size =? 0) && negb (size =? 3 + Z.of_nat ((if has_dts f then 10 else 5) +
    length b)) = false) as ->.
  { subst size. case_if; [done|]. apply andb_false_iff. right. apply negb_false_iff, Z.eqb_eq.
    destruct (has_dts f); lia. }
  unfold has_dts. destruct (dts f =? pts f) eqn:E; cbn [negb Z.eqb Pos.eqb]; bool_to_prop.
  - rewrite app_nil_l, take_app_length', drop_app_length' by reflexivity.
    rewrite stamp_value, u64_33, E by lia. reflexivity.
  - rewrite app_assoc, take_app_length', drop_app_length' by reflexivity.
    rewrite take_app_length', drop_app_length' by reflexivity.
    rewrite !stamp_value, !u64_33 by lia. reflexivity.
Qed.

(* ------------------------------------------------------------------ *)
(** ** Writing the packets *)

Definition at_end (file : ngx_file_t) : Prop := f_offset file = length (f_data file).

Lemma pwrite_end l d : pwrite (length d) l d = d ++ l.
Proof.
  unfold pwrite, splice. rewrite Nat.sub_diag, app_nil_r, firstn_all, drop_ge by lia.
  now rewrite app_nil_r.
Qed.

(** What writing [out] at the end of a file may do: [ok] when all of it is
    there, a prefix after a failure among [evs]. *)
Definition written (evs evs' : list (option nat)) (file file' : ngx_file_t) (ok : bool)
    (out : list Z) : Prop :=
  at_end file' /\ (exists pre, evs = pre ++ evs' /\ (ok = false -> None ∈ pre)) /\
  exists k, f_data file' = f_data file ++ take k out /\ (ok = true -> (length out <= k)%nat).

Lemma written_all evs file buf : at_end file ->
  written evs evs (File (f_data file) (f_offset file))
    (File (pwrite (f_offset file) buf (f_data file)) (f_offset file + length buf)) true buf.
Proof.
  intros He. unfold written, at_end in *. cbn [f_data f_offset]. rewrite He, pwrite_end.
  split; [len|]. split; [now exists []|]. exists (length buf). now rewrite firstn_all.
Qed.

Lemma ngx_write_file_spec evs : forall file buf, at_end file ->
  let '(ok, file', evs') := ngx_write_file evs file buf (f_offset file) in
  written evs evs' file file' ok buf.
Proof.
  induction evs as [|[n|] evs IH]; intros file buf He; cbn [ngx_write_file].
  - destruct file. now apply written_all.
  - set (m := Nat.min n (length buf)).
    set (file1 := File (pwrite (f_offset file) (take m buf) (f_data file)) (f_offset file + m)).
    assert (f_data file1 = f_data file ++ take m buf) as Hd.
    { unfold file1. cbn [f_data]. rewrite He. apply pwrite_end. }
    assert (at_end file1) as He1 by (unfold at_end; rewrite Hd; cbn; unfold at_end in He; len).
    case_if.
    + split; [done|]. split; [now exists [Some n]|]. exists m. split; [done|lia].
    + specialize (IH file1 (drop m buf) He1).
      change (f_offset file + m)%nat with (f_offset file1).
      destruct (ngx_write_file _ _ _ _) as [[ok file2] evs2].
      destruct IH as (He2 & (pre & -> & Hpre) & k & Hk & Hok). split; [done|]. split.
      * exists (Some n :: pre). split; [done|]. intros. apply elem_of_cons. auto.
      * exists (m + k)%nat. split; [|intros Ho; specialize (Hok Ho); revert Hok; len].
        rewrite Hk, Hd, <- app_assoc. f_equal. apply take_take_drop.
  - split; [done|]. split; [exists [None]; split; [done|]; intros; now apply list_elem_of_singleton|].
    exists 0%nat. split; [now rewrite take_0, app_nil_r|done].
Qed.

(** The result of the loop against the packets [ps] of the whole frame. *)
Definition wrote (evs : list (option nat)) (file : ngx_file_t) (f : ngx_rtmp_mpegts_frame_t)
    (ps : list (list Z))
    (r : option (ngx_rc * ngx_file_t * ngx_rtmp_mpegts_frame_t * list Z * list (option nat))) : Prop :=
  exists rc file' f' b' evs',
    r = Some (rc, file', f', b', evs') /\
    written evs evs' file file' (bool_decide (rc = NGX_OK)) (concat ps) /\
    (rc = NGX_OK -> b' = [] /\ f' = Frame (pts f) (dts f) (pid f) (sid f)
                                      (u64 (cc f + Z.of_nat (length ps))) (key f)).

Lemma wrote_step evs file f p ps fuel first b pk b1 :
  at_end file -> b <> [] -> write_packet (inc_cc f) first b pk = Some (p, b1) ->
  (forall evs file, at_end file ->
     wrote evs file (inc_cc f) ps (frame_loop fuel evs file (inc_cc f) false b1 p)) ->
  wrote evs file f (p :: ps) (frame_loop (S fuel) evs file f first b pk).
Proof.
  intros He Hb Hw IH. destruct b as [|b0 b]; [done|]. cbn [frame_loop]. rewrite Hw.
  cbn [mbind option_bind].
  pose proof (ngx_write_file_spec evs file p He) as Hf.
  destruct (ngx_write_file _ _ _ _) as [[[] file1] evs1].
  - destruct Hf as (He1 & (pre & -> & Hpre) & k & Hk & Hok).
    destruct (IH evs1 file1 He1) as (rc & file2 & f2 & b2 & evs2 & -> & Hw2 & Hr).
    exists rc, file2, f2, b2, evs2. split; [done|]. split.
    + destruct Hw2 as (He2 & (pre2 & -> & Hpre2) & k2 & Hk2 & Hok2). split; [done|]. split.
      * exists (pre ++ pre2). rewrite app_assoc. split; [done|]. intros. apply elem_of_app. auto.
      * exists (length p + k2)%nat. cbn [concat]. split; [|intros Ho; specialize (Hok2 Ho); len].
        rewrite Hk2, Hk, <- app_assoc, (take_ge p) by auto. f_equal.
        now rewrite take_app_ge, Nat.add_sub_swap, Nat.sub_diag by lia.
    + intros Ho. destruct (Hr Ho) as [-> ->]. split; [done|]. cbn [inc_cc pts dts pid sid cc key].
      rewrite u64_add_l, length_cons. do 2 f_equal. lia.
  - exists NGX_ERROR, file1, (inc_cc f), b1, evs1. split; [done|]. split; [|done].
    destruct Hf as (He1 & Hpre & k & Hk & Hok). split; [done|]. split; [done|].
    exists (Nat.min k (length p)). split; [|done]. cbn [concat].
    rewrite take_app_le, Hk by lia. f_equal.
    destruct (Nat.le_ge_cases k (length p)); [now rewrite Nat.min_l by lia|].
    now rewrite Nat.min_r, !take_ge by lia.
Qed.

Lemma next_count c : u64 (c + 1) mod 16 = (c mod 16 + 1) mod 16.
Proof. unfold u64. now rewrite Z.mod_mod_divide, Zplus_mod_idemp_l by (now exists (2 ^ 60)). Qed.

Lemma wrote_none evs file f fuel pk : at_end file ->
  0 <= cc f < 2 ^ 64 -> wrote evs file f [] (frame_loop fuel evs file f false [] pk).
Proof.
  intros He Hc. exists NGX_OK, file, f, [], evs. split; [now destruct fuel|]. split.
  - split; [done|]. split; [now exists []|]. exists 0%nat. split; [now rewrite app_nil_r|cbn; lia].
  - intros _. split; [done|]. rewrite Z.add_0_r, u64_small by done. now destruct f.
Qed.

Lemma rest_demuxes fuel : forall f b pk,
  length pk = 188%nat -> 0 <= pid f < 8192 -> 0 <= cc f < 2 ^ 64 -> (length b <= fuel)%nat ->
  exists ps, demux_rest (pid f) (cc f mod 16) ps = Some b /\ Forall (fun p => length p = 188%nat) ps /\
    forall evs file, at_end file -> wrote evs file f ps (frame_loop fuel evs file f false b pk).
Proof.
  induction fuel as [|fuel IH]; intros f b pk Hpk Hpid Hc Hfuel.
  { destruct b; [|cbn in Hfuel; lia]. exists []. split; [done|]. split; [constructor|].
    intros. now apply wrote_none. }
  destruct b as [|b0 b]; [exists []; split; [done|]; split; [constructor|]; intros; now apply wrote_none|].
  destruct (write_packet_spec (inc_cc f) false (b0 :: b) pk) as (n & m & p & Hw & Hm & Hp & Ep);
    [done|cbn; lia|].
  destruct (IH (inc_cc f) (drop m (b0 :: b)) p) as (ps & Hd & Hps & Hl);
    [done|done|apply u64_bound|rewrite length_drop; lia|].
  exists (p :: ps). split; [|split; [now constructor|]].
  - cbn [demux_rest]. rewrite Ep in Hp |- *. rewrite packet_parses by done.
    cbn [mbind option_bind inc_cc pid cc expect_adapt andb fst snd orb head_bytes app].
    rewrite Z.eqb_refl, next_count, Z.eqb_refl. cbn [negb orb].
    cbn [inc_cc pid cc] in Hd. rewrite next_count in Hd. rewrite Hd. cbn [mbind option_bind].
    now rewrite take_drop.
  - intros evs file He. eapply wrote_step; [done|done|exact Hw|exact Hl].
Qed.

Lemma frame_demuxes pk f b : length pk = 188%nat -> 0 <= pid f < 8192 -> 0 <= sid f < 256 -> b <> [] ->
  exists ps,
    demux ps = Some (Pes (pid f) ((cc f + 1) mod 16) (key f)
      (if key f then Some ((dts f - NGX_RTMP_HLS_DELAY) mod 2 ^ 33) else None) (sid f)
      ((pts f + NGX_RTMP_HLS_DELAY) mod 2 ^ 33) ((dts f + NGX_RTMP_HLS_DELAY) mod 2 ^ 33) b) /\
    Forall (fun p => length p = 188%nat) ps /\
    forall evs file, at_end file -> wrote evs file f ps (ngx_rtmp_mpegts_write_frame pk evs file f b).
Proof.
  intros Hpk Hpid Hsid Hb.
  assert (exists fuel, length b = S fuel) as [fuel Hf] by (destruct b; [done|now eexists]).
  destruct (write_packet_spec (inc_cc f) true b pk) as (n & m & p & Hw & Hm & Hp & Ep); [done|lia|].
  destruct (rest_demuxes fuel (inc_cc f) (drop m b) p) as (ps & Hd & Hps & Hl);
    [done|done|apply u64_bound|rewrite length_drop; lia|].
  exists (p :: ps). split; [|split; [now constructor|]].
  - cbn [demux]. rewrite Ep in Hp |- *. rewrite packet_parses by done.
    cbn [mbind option_bind]. rewrite Hd. cbn [mbind option_bind head_bytes].
    rewrite <- app_assoc, take_drop, pes_parses by done. cbn [mbind option_bind].
    unfold expect_adapt. cbn [andb fst snd inc_cc key cc dts pid sid pts].
    now rewrite next_count, Zplus_mod_idemp_l.
  - intros. unfold ngx_rtmp_mpegts_write_frame. rewrite Hf.
    eapply wrote_step; [done|done|exact Hw|exact Hl].
Qed.

(* ------------------------------------------------------------------ *)
(** ** Properties *)

(** C18: Writing a frame ends and stays inside the packet array.  There are
    packets of 188 bytes that a demultiplexer reads back as the frame: one
    payload unit on the pid of the frame with consecutive continuity
    counters, the stream id, the time stamps delayed by 700 ms, the clock
    reference on a key frame, and exactly the bytes of the frame.  When the
    writes succeed, in whatever pieces, these packets are appended to the
    file, the buffer is consumed and the counter has advanced by the number
    of packets; when one fails the call returns an error with a prefix of
    them in the file. *)
Theorem mpegts_frame_demuxes pk f b evs file :
  length pk = 188%nat -> 0 <= pid f < 8192 -> 0 <= sid f < 256 -> b <> [] ->
  f_offset file = length (f_data file) ->
  exists ps rc file' f' b' evs' k,
    demux ps = Some (Pes (pid f) ((cc f + 1) mod 16) (key f)
      (if key f then Some ((dts f - 63000) mod 2 ^ 33) else None) (sid f)
      ((pts f + 63000) mod 2 ^ 33) ((dts f + 63000) mod 2 ^ 33) b) /\
    Forall (fun p => length p = 188%nat) ps /\
    ngx_rtmp_mpegts_write_frame pk evs file f b = Some (rc, file', f', b', evs') /\
    f_data file' = f_data file ++ take k (concat ps) /\
    f_offset file' = length (f_data file') /\
    (rc = NGX_OK /\ f_data file' = f_data file ++ concat ps /\ b' = [] /\
       f' = Frame (pts f) (dts f) (pid f) (sid f) (u64 (cc f + Z.of_nat (length ps))) (key f) \/
     rc <> NGX_OK /\ None ∈ evs).
Proof.
  intros Hpk Hpid Hsid Hb He.
  destruct (frame_demuxes pk f b Hpk Hpid Hsid Hb) as (ps & Hd & Hps & Hw).
  destruct (Hw evs file He) as (rc & file' & f' & b' & evs' & Hr & Hwr & Hok).
  destruct Hwr as (He' & (pre & Hpre & Hbad) & k & Hk & Hall).
  exists ps, rc, file', f', b', evs', k. do 5 (split; [done|]).
  destruct (decide (rc = NGX_OK)) as [->|Hne].
  - left. destruct (Hok eq_refl) as [-> ->]. rewrite bool_decide_true in Hall by done.
    specialize (Hall eq_refl). rewrite take_ge in Hk by done. done.
  - right. split; [done|]. rewrite Hpre. apply elem_of_app. left. apply Hbad.
    now apply bool_decide_false.
Qed.

Lemma mpegts_frame_demuxes_witness :
  let f := Frame 97000 90000 256 0xe0 41 true in
  let b := replicate 200 7 in
  exists ps rc file' f' b' evs' k,
    demux ps = Some (Pes 256 10 true (Some 27000) 0xe0 160000 153000 b) /\
    Forall (fun p => length p = 188%nat) ps /\
    ngx_rtmp_mpegts_write_frame (replicate 188 0) [Some 100%nat; Some 188%nat; None]
      (File [1; 2] 2) f b = Some (rc, file', f', b', evs') /\
    f_data file' = [1; 2] ++ take k (concat ps) /\
    f_offset file' = length (f_data file') /\
    (rc = NGX_OK /\ f_data file' = [1; 2] ++ concat ps /\ b' = [] /\
       f' = Frame 97000 90000 256 0xe0 (u64 (41 + Z.of_nat (length ps))) true \/
     rc <> NGX_OK /\ None ∈ [Some 100%nat; Some 188%nat; None]).
Proof.
  apply (mpegts_frame_demuxes (replicate 188 0) (Frame 97000 90000 256 0xe0 41 true)
    (replicate 200 7) [Some 100%nat; Some 188%nat; None] (File [1; 2] 2));
    [reflexivity|cbn; lia|cbn; lia|discriminate|reflexivity].
Defined.

(** The header of every segment is two packets with correct checksums:
    the association table on pid 0 names one program whose map is on pid
    0x1001, and the map there names the video stream on 0x100, which carries
    the clock, and the audio stream on 0x101.  Writing it to a new file puts
    exactly these bytes there or reports the failed write. *)
Theorem mpegts_header_tables evs :
  let '(rc, file, evs') := ngx_rtmp_mpegts_write_header evs (File [] 0) in
  (exists pat pmt, ngx_rtmp_mpegts_header = pat ++ pmt /\
     (exists body, ts_section pat = Some (0, (0, body)) /\ parse_pat 4 body = Some [(1, 0x1001)]) /\
     (exists body, ts_section pmt = Some (0x1001, (2, body)) /\
        parse_pmt body = Some (0x100, [(0x1b, 0x100); (0x0f, 0x101)]))) /\
  (rc = NGX_OK /\ f_data file = ngx_rtmp_mpegts_header \/ rc = NGX_ERROR /\ None ∈ evs).
Proof.
  unfold ngx_rtmp_mpegts_write_header.
  pose proof (ngx_write_file_spec evs (File [] 0) ngx_rtmp_mpegts_header eq_refl) as Hw.
  cbn [f_offset] in Hw. destruct (ngx_write_file _ _ _ _) as [[ok file] evs'].
  destruct Hw as (_ & (pre & -> & Hpre) & k & Hk & Hok). split.
  - exists (take 188 ngx_rtmp_mpegts_header), (drop 188 ngx_rtmp_mpegts_header).
    split; [symmetry; apply take_drop|].
    split; eexists; (split; [vm_compute; reflexivity|reflexivity]).
  - destruct ok; [left|right]; (split; [done|]).
    + rewrite Hk, take_ge; [done|auto].
    + apply elem_of_app. left. now apply Hpre.
Qed.

End Mpegts.
