(* ===== verification/Disk.v ===== *)
(** * Files and descriptors (src/src/os/unix/ngx_files.c, ngx_files.h)

    What the recorder and the player ask of the operating system: a table of
    open descriptors over named files.  [ngx_write_file] is that of Mpegts.v, on
    the file a descriptor stands for; here are the other calls and the choice of
    descriptors.  No file is renamed or removed by these modules, so that a
    descriptor is tied to a path. *)

From Stdlib Require Import ZArith Lia.
From stdpp Require Import base numbers list gmap.
From S2P Require Import Prelude Mpegts.

Module Disk.

(* ------------------------------------------------------------------ *)
(** ** State *)

(** An open descriptor: a file, or a socket or another thing one can not seek
    in. *)
Inductive descriptor := File (path : list Z) | Other.

(** [sys] lists what the system calls to come do: [None] a failure, [Some n]
    that at most [n] bytes are moved; the calls behind the end of the list do
    what they are asked for. *)
Record disk := Disk {
  files : gmap (list Z) (list Z);
  fds : gmap nat descriptor;
  sys : list (option nat)
}.

(** [ngx_file_t]; [NGX_INVALID_FILE] is [None]. *)
Record ngx_file_t := NgxFile {
  fd : option nat;
  offset : Z
}.

Definition set_files f d := Disk f (fds d) (sys d).
Definition set_fds t d := Disk (files d) t (sys d).

(** One system call: how it ends, and the calls behind it. *)
Definition call (d : disk) : option (option nat) * disk :=
  match sys d with
  | [] => (Some None, d)
  | e :: es => (Some <$> e, Disk (files d) (fds d) es)
  end.

(** The file a descriptor stands for. *)
Definition target (f : ngx_file_t) (d : disk) : option (list Z) :=
  k ← fd f; x ← fds d !! k; match x with File p => Some p | Other => None end.

Definition contents (p : list Z) (d : disk) : list Z := default [] (files d !! p).

(* ------------------------------------------------------------------ *)
(** ** Calls *)

Inductive create := Truncate | CreateOrOpen | OpenOnly.

(** The lowest number that is no descriptor. *)
Definition lowest (t : gmap nat descriptor) : option nat :=
  List.find (fun k => bool_decide (t !! k = None)) (seq 0 (S (size t))).

Definition ngx_open_file (path : list Z) (c : create) (d : disk) : option nat * disk :=
  let '(r, d) := call d in
  match r, lowest (fds d) with
  | Some _, Some k =>
      let opened f := (Some k, Disk f (<[k := File path]> (fds d)) (sys d)) in
      match c, files d !! path with
      | Truncate, _ => opened (<[path := []]> (files d))
      | CreateOrOpen, None => opened (<[path := []]> (files d))
      | OpenOnly, None => (None, d)
      | _, Some _ => opened (files d)
      end
  | _, _ => (None, d)
  end.

(** [close]: the descriptor is gone even when an error is reported. *)
Definition ngx_close_file (k : option nat) (d : disk) : bool * disk :=
  match k with
  | Some k =>
      match fds d !! k with
      | Some _ => let '(r, d) := call d in (bool_decide (is_Some r), set_fds (delete k (fds d)) d)
      | None => (false, d)
      end
  | None => (false, d)
  end.

(** [lseek(fd, 0, SEEK_END)]. *)
Definition lseek_end (f : ngx_file_t) (d : disk) : option Z * disk :=
  match target f d with
  | Some p =>
      let '(r, d) := call d in
      (match r with Some _ => Some (Z.of_nat (length (contents p d))) | None => None end, d)
  | None => (None, d)
  end.

(** The bytes read, [None] for an error. *)
Definition ngx_read_file (f : ngx_file_t) (size off : Z) (d : disk) : option (list Z) * ngx_file_t * disk :=
  match target f d with
  | Some p =>
      if off <? 0 then (None, f, d)
      else
        let '(r, d) := call d in
        match r with
        | Some n =>
            let got := take (Z.to_nat size) (drop (Z.to_nat off) (contents p d)) in
            let got := match n with Some n => take n got | None => got end in
            (Some got, NgxFile (fd f) (offset f + Z.of_nat (length got)), d)
        | None => (None, f, d)
        end
  | None => (None, f, d)
  end.

Definition ngx_write_file (f : ngx_file_t) (buf : list Z) (off : Z) (d : disk) : bool * ngx_file_t * disk :=
  match target f d with
  | Some p =>
      if off <? 0 then (false, f, d)
      else
        let '(ok, x, es) := Mpegts.ngx_write_file (sys d) (Mpegts.File (contents p d) 0) buf (Z.to_nat off) in
        (ok, NgxFile (fd f) (offset f + Z.of_nat (Mpegts.f_offset x)),
         Disk (<[p := Mpegts.f_data x]> (files d)) (fds d) es)
  | None => (false, f, d)
  end.

(* ------------------------------------------------------------------ *)
(** ** Laws *)

Lemma lowest_spec t : exists k, lowest t = Some k /\ t !! k = None.
Proof.
  unfold lowest. destruct (List.find _ _) as [k|] eqn:E.
  - exists k. apply find_some in E as [_ E]. now apply bool_decide_eq_true_1 in E.
  - exfalso. assert (list_to_set (seq 0 (S (size t))) ⊆ dom t) as Hs.
    { intros k Hk. apply elem_of_list_to_set, list_elem_of_In in Hk.
      pose proof (find_none _ _ E k Hk) as Hn. cbn beta in Hn. apply bool_decide_eq_false_1 in Hn.
      apply elem_of_dom. now destruct (t !! k). }
    apply subseteq_size in Hs. rewrite size_dom, size_list_to_set, length_seq in Hs by apply NoDup_seq. lia.
Qed.

(** No more trouble to come. *)
Definition calm (d : disk) : Prop := sys d = [].

Section Calm.
Context (d : disk) (H : calm d).

Lemma calm_call : call d = (Some None, d).
Proof. unfold call. now rewrite H. Qed.

Lemma open_truncate p : exists k, fds d !! k = None /\
  ngx_open_file p Truncate d = (Some k, Disk (<[p := []]> (files d)) (<[k := File p]> (fds d)) []).
Proof.
  destruct (lowest_spec (fds d)) as (k & E & Hk). exists k. split; [done|].
  unfold ngx_open_file. rewrite calm_call, E. now rewrite H.
Qed.

Lemma open_append p : exists k, fds d !! k = None /\
  ngx_open_file p CreateOrOpen d =
    (Some k, Disk (<[p := contents p d]> (files d)) (<[k := File p]> (fds d)) []).
Proof.
  destruct (lowest_spec (fds d)) as (k & E & Hk). exists k. split; [done|].
  unfold ngx_open_file, contents. rewrite calm_call, E. unfold calm in H. rewrite H.
  destruct (files d !! p) as [x|] eqn:Ep; cbn; [|done]. now rewrite (insert_id (files d)).
Qed.

Lemma calm_close k x : fds d !! k = Some x ->
  ngx_close_file (Some k) d = (true, set_fds (delete k (fds d)) d).
Proof. intros E. unfold ngx_close_file. now rewrite E, calm_call. Qed.

Lemma calm_seek f p : target f d = Some p -> lseek_end f d = (Some (Z.of_nat (length (contents p d))), d).
Proof. intros E. unfold lseek_end. now rewrite E, calm_call. Qed.

Lemma calm_read f p size off : target f d = Some p -> 0 <= off ->
  let got := take (Z.to_nat size) (drop (Z.to_nat off) (contents p d)) in
  ngx_read_file f size off d = (Some got, NgxFile (fd f) (offset f + Z.of_nat (length got)), d).
Proof.
  intros E Ho got. unfold ngx_read_file. rewrite E, (proj2 (Z.ltb_ge _ _)) by lia. now rewrite calm_call.
Qed.

Lemma calm_write f p buf off : target f d = Some p -> 0 <= off ->
  ngx_write_file f buf off d =
    (true, NgxFile (fd f) (offset f + Z.of_nat (length buf)),
     Disk (<[p := Mpegts.pwrite (Z.to_nat off) buf (contents p d)]> (files d)) (fds d) []).
Proof. intros E Ho. unfold ngx_write_file. rewrite E, (proj2 (Z.ltb_ge _ _)) by lia. now rewrite H. Qed.

End Calm.

End Disk.
