(* ===== verification/Chunk.v ===== *)
(** * The chunk layer (src/src/rtmp/ngx_rtmp_handler.c)

    Messages travel over a connection as chunks of several chunk streams.
    [ngx_rtmp_recv] reads the socket into fixed-size buffers, parses the chunk
    headers, gathers the chunks of each message and hands complete messages to
    the event handlers; [ngx_rtmp_prepare_message] writes the headers of an
    outgoing message in front of its buffers; [ngx_rtmp_set_chunk_size]
    re-buffers the messages in progress.  Stream 0 is the list of free buffers.

    Memory allocation and the registration of events are taken to succeed. *)

From Stdlib Require Import ZArith Lia.
From stdpp Require Import base numbers list.
From S2P Require Import Prelude Buf Bandwidth.

Module Chunk.

Definition NGX_RTMP_MAX_CHUNK_HEADER : nat := 18.
Definition NGX_RTMP_MSG_MAX : Z := 22.

(* ------------------------------------------------------------------ *)
(** ** Data *)

Record ngx_rtmp_header_t := Hdr {
  csid : Z;
  timestamp : Z;
  mlen : Z;
  type : Z;
  msid : Z
}.

(** [st_in] is the ring of buffers of a message in progress, first to last;
    for stream 0 it is the list of free buffers. *)
Record ngx_rtmp_stream_t := Stream {
  st_hdr : ngx_rtmp_header_t;
  st_dtime : Z;
  st_len : Z;
  st_ext : bool;
  st_in : list ngx_buf_t
}.

Record ngx_rtmp_core_srv_conf_t := SrvConf {
  max_streams : Z;
  max_message : Z;
  publish_time_fix : bool;
  play_time_fix : bool
}.

(** What a handler may ask of the chunk layer. *)
Inductive command :=
  | SetChunkSize (size : Z)
  | SetAckSize (size : Z).

(** The handlers of a message type work on the state [A] of the modules; they
    see the header and the contents of the buffers of the message. *)
Definition ngx_rtmp_handler_pt (A : Type) : Type :=
  A -> ngx_rtmp_header_t -> list (list Z) -> ngx_rc * A * list command.

(** The part of [ngx_rtmp_session_t] this file works on. *)
Record session (A : Type) := Session {
  in_streams : list ngx_rtmp_stream_t;
  in_csid : Z;
  in_chunk_size : Z;
  in_chunk_size_changing : bool;
  in_pool : bool;
  in_old_pool : bool;
  in_bytes : Z;
  in_last_ack : Z;
  ack_size : Z;
  ping_reset : bool;
  bw_in : Bandwidth.ngx_rtmp_bandwidth_t;
  app : A
}.

Arguments Session {A}.
Arguments in_streams {A}.
Arguments in_csid {A}.
Arguments in_chunk_size {A}.
Arguments in_chunk_size_changing {A}.
Arguments in_pool {A}.
Arguments in_old_pool {A}.
Arguments in_bytes {A}.
Arguments in_last_ack {A}.
Arguments ack_size {A}.
Arguments ping_reset {A}.
Arguments bw_in {A}.
Arguments app {A}.

(** What the socket has for [c->recv]: bytes, or the end of the connection;
    nothing left is NGX_AGAIN. *)
Inductive sock_ev := Data (d : list Z) | Closed.

Inductive recv_res :=
  | RAgain
  | RClosed
  | RData (d : list Z) (sock : list sock_ev).

(** Why a session is finalised; [FullBuffer] is a [recv] into no room, whose
    result 0 is taken for the end of the connection. *)
Inductive reason := PeerClosed | FullBuffer | AckFailed | BadCsid | TooBig | HandlerError.

(** How [ngx_rtmp_recv] ends; [Overflow] is a copy behind the end of a buffer
    and [Crash] an access to a stream or buffer that does not exist. *)
Inductive outcome := Waiting | Finalized (why : reason) | Overflow | Crash.

Definition c_recv (room : nat) (sock : list sock_ev) : recv_res :=
  match sock with
  | [] => RAgain
  | Closed :: _ => RClosed
  | Data d :: sock =>
      if (length d <=? room)%nat then RData d sock
      else RData (take room d) (Data (drop room d) :: sock)
  end.

(* ------------------------------------------------------------------ *)
(** ** Chunk headers *)

(** The basic header at the front of [l]: the format, the chunk stream and the
    number of bytes; [None] when more bytes are needed. *)
Definition basic_header (l : list Z) : option (Z * Z * nat) :=
  match l with
  | [] => None
  | p0 :: l =>
      let fmt := Z.land (Z.shiftr p0 6) 3 in
      let csid := Z.land p0 63 in
      if csid =? 0 then
        match l with
        | p1 :: _ => Some (fmt, 64 + p1, 2%nat)
        | _ => None
        end
      else if csid =? 1 then
        match l with
        | p1 :: p2 :: _ => Some (fmt, 64 + p1 + 256 * p2, 3%nat)
        | _ => None
        end
      else Some (fmt, csid, 1%nat)
  end.

(** The optional extended timestamp; the result is the timestamp and the
    number of bytes. *)
Definition ext_header (ext : bool) (ts : Z) (l : list Z) : option (bool * Z * nat) :=
  if ext then
    match l with
    | p3 :: p2 :: p1 :: p0 :: _ => Some (ext, be_val [p3; p2; p1; p0], 4%nat)
    | _ => None
    end
  else Some (ext, ts, 0%nat).

Definition add_len (n : nat) (r : option (bool * Z * nat)) : option (bool * Z * nat) :=
  match r with Some (ext, ts, k) => Some (ext, ts, (n + k)%nat) | None => None end.

Definition set_mlen_type (h : ngx_rtmp_header_t) (mlen type : Z) : ngx_rtmp_header_t :=
  Hdr (csid h) (timestamp h) mlen type (msid h).
Definition set_msid (h : ngx_rtmp_header_t) (msid : Z) : ngx_rtmp_header_t :=
  Hdr (csid h) (timestamp h) (mlen h) (type h) msid.
Definition set_timestamp (h : ngx_rtmp_header_t) (ts : Z) : ngx_rtmp_header_t :=
  Hdr (csid h) ts (mlen h) (type h) (msid h).
Definition set_csid (h : ngx_rtmp_header_t) (n : Z) : ngx_rtmp_header_t :=
  Hdr n (timestamp h) (mlen h) (type h) (msid h).

(** The message header and the extended timestamp.  The fields are stored in
    [h] as they are read, also when the header turns out to be incomplete
    ([None]); the result is [ext], the timestamp and the number of bytes. *)
Definition message_header (fmt : Z) (st : ngx_rtmp_stream_t) (l : list Z)
  : ngx_rtmp_header_t * option (bool * Z * nat) :=
  let h := st_hdr st in
  if fmt <=? 2 then
    match l with
    | t2 :: t1 :: t0 :: l =>
        let ts := be_val [t2; t1; t0] in
        let ext := ts =? 0x00ffffff in
        if fmt <=? 1 then
          match l with
          | m2 :: m1 :: m0 :: ty :: l =>
              let h := set_mlen_type h (be_val [m2; m1; m0]) ty in
              if fmt =? 0 then
                match l with
                | s0 :: s1 :: s2 :: s3 :: l =>
                    (set_msid h (le_val [s0; s1; s2; s3]), add_len 11 (ext_header ext ts l))
                | _ => (h, None)
                end
              else (h, add_len 7 (ext_header ext ts l))
          | _ => (h, None)
          end
        else (h, add_len 3 (ext_header ext ts l))
    | _ => (h, None)
    end
  else (h, ext_header (st_ext st) (st_dtime st) l).

(** What the complete header does to the stream at the start of a message. *)
Definition header_done (cscf : ngx_rtmp_core_srv_conf_t) (fmt : Z) (st : ngx_rtmp_stream_t)
    (h : ngx_rtmp_header_t) (ext : bool) (ts : Z) : ngx_rtmp_stream_t :=
  if st_len st =? 0 then
    let ext := ext && publish_time_fix cscf in
    if fmt =? 0 then Stream (set_timestamp h ts) 0 (st_len st) ext (st_in st)
    else Stream h ts (st_len st) ext (st_in st)
  else Stream h (st_dtime st) (st_len st) (st_ext st) (st_in st).

(* ------------------------------------------------------------------ *)
(** ** Buffers and streams of a session *)

Section Layer.
Context {A : Type}.
Context (cscf : ngx_rtmp_core_srv_conf_t).
(** [ngx_cached_time->sec]. *)
Context (now : Z).
(** [cmcf->events]. *)
Context (events : Z -> list (ngx_rtmp_handler_pt A)).
(** [ngx_rtmp_send_ack]. *)
Context (ngx_rtmp_send_ack : A -> Z -> ngx_rc * A).

Implicit Types s : session A.

Definition set_streams s (l : list ngx_rtmp_stream_t) : session A :=
  Session l (in_csid s) (in_chunk_size s) (in_chunk_size_changing s) (in_pool s)
    (in_old_pool s) (in_bytes s) (in_last_ack s) (ack_size s) (ping_reset s) (bw_in s) (app s).
Definition set_in_csid s (n : Z) : session A :=
  Session (in_streams s) n (in_chunk_size s) (in_chunk_size_changing s) (in_pool s)
    (in_old_pool s) (in_bytes s) (in_last_ack s) (ack_size s) (ping_reset s) (bw_in s) (app s).
Definition set_app s (a : A) : session A :=
  Session (in_streams s) (in_csid s) (in_chunk_size s) (in_chunk_size_changing s) (in_pool s)
    (in_old_pool s) (in_bytes s) (in_last_ack s) (ack_size s) (ping_reset s) (bw_in s) a.
Definition set_ack_size s (n : Z) : session A :=
  Session (in_streams s) (in_csid s) (in_chunk_size s) (in_chunk_size_changing s) (in_pool s)
    (in_old_pool s) (in_bytes s) (in_last_ack s) n (ping_reset s) (bw_in s) (app s).
Definition set_counters s (bytes last : Z) : session A :=
  Session (in_streams s) (in_csid s) (in_chunk_size s) (in_chunk_size_changing s) (in_pool s)
    (in_old_pool s) bytes last (ack_size s) (ping_reset s) (bw_in s) (app s).
Definition set_traffic s (bw : Bandwidth.ngx_rtmp_bandwidth_t) : session A :=
  Session (in_streams s) (in_csid s) (in_chunk_size s) (in_chunk_size_changing s) (in_pool s)
    (in_old_pool s) (in_bytes s) (in_last_ack s) (ack_size s) true bw (app s).

Definition with_in (st : ngx_rtmp_stream_t) (l : list ngx_buf_t) : ngx_rtmp_stream_t :=
  Stream (st_hdr st) (st_dtime st) (st_len st) (st_ext st) l.
Definition with_hdr (st : ngx_rtmp_stream_t) (h : ngx_rtmp_header_t) : ngx_rtmp_stream_t :=
  Stream h (st_dtime st) (st_len st) (st_ext st) (st_in st).

Definition ngx_rtmp_alloc_in_buf (chunk_size : Z) : ngx_buf_t :=
  buf_alloc (Z.to_nat chunk_size + NGX_RTMP_MAX_CHUNK_HEADER) 0.

(** [st->in], the buffer being filled: the first free buffer or the last of a
    ring. *)
Definition in_buf (id : Z) (st : ngx_rtmp_stream_t) : option ngx_buf_t :=
  if id =? 0 then head (st_in st) else last (st_in st).

Definition set_in_buf (id : Z) (st : ngx_rtmp_stream_t) (b : ngx_buf_t) : ngx_rtmp_stream_t :=
  with_in st (if id =? 0 then b :: drop 1 (st_in st)
              else take (length (st_in st) - 1) (st_in st) ++ [b]).

Definition get_stream s (n : Z) : option ngx_rtmp_stream_t := in_streams s !! Z.to_nat n.
Definition set_stream s (n : Z) (st : ngx_rtmp_stream_t) : session A :=
  set_streams s (<[Z.to_nat n := st]> (in_streams s)).

(* ------------------------------------------------------------------ *)
(** ** Changing the chunk size *)

(** The inner loop of [ngx_rtmp_set_chunk_size]: [bis] are the buffers still to
    be copied, [bo] the buffer being filled, [acc] the full ones.  A buffer
    that is filled to its end keeps its [last]. *)
Fixpoint rebuffer (fuel : nat) (size : Z) (bis : list ngx_buf_t) (bo : ngx_buf_t)
    (acc : list ngx_buf_t) : option (list ngx_buf_t) :=
  match fuel, bis with
  | S fuel, bi :: rest =>
      if (length (buf_data bi) <=? buf_room bo)%nat then
        let bo := buf_push bo (buf_data bi) in
        match rest with
        | [] => Some (acc ++ [bo])
        | _ => rebuffer fuel size rest bo acc
        end
      else
        let k := buf_room bo in
        let bo' := Buf (b_mem (buf_push bo (take k (buf_data bi)))) (b_pos bo) (b_last bo) in
        let bi' := Buf (b_mem bi) (b_pos bi + k) (b_last bi) in
        rebuffer fuel size (bi' :: rest) (ngx_rtmp_alloc_in_buf size) (acc ++ [bo'])
  | _, _ => None
  end.

(** A step for every buffer copied and at most one more before it, and a step
    for every buffer filled, are enough (see [rebuffer_total]). *)
Definition rebuffer_fuel (bis : list ngx_buf_t) : nat :=
  2 * length bis + length (concat (map buf_data bis)) + 1.

Definition rebuffer_stream (size : Z) (st : ngx_rtmp_stream_t) : option ngx_rtmp_stream_t :=
  match st_in st with
  | [] => Some st
  | bis => l ← rebuffer (rebuffer_fuel bis) size bis (ngx_rtmp_alloc_in_buf size) [];
           Some (with_in st l)
  end.

(** The ring of the stream whose message is being handled has been cut; here
    it is empty while the handlers run. *)
Definition ngx_rtmp_set_chunk_size s (size : Z) : option (session A) :=
  let old_pool := in_pool s in
  '(streams, changing) ←
    (if old_pool then
       match in_streams s with
       | [] => None
       | st0 :: rest =>
           rest ← mapM (rebuffer_stream size) rest;
           Some (with_in st0 [] :: rest, true)
       end
     else Some (in_streams s, in_chunk_size_changing s));
  Some (Session streams (in_csid s) size changing true old_pool (in_bytes s)
          (in_last_ack s) (ack_size s) (ping_reset s) (bw_in s) (app s)).

Definition ngx_rtmp_finalize_set_chunk_size s : session A :=
  if in_chunk_size_changing s && in_old_pool s then
    Session (in_streams s) (in_csid s) (in_chunk_size s) false (in_pool s) false (in_bytes s)
      (in_last_ack s) (ack_size s) (ping_reset s) (bw_in s) (app s)
  else s.

(** What [ngx_rtmp_init_session] sets up of the receiving side; the record is
    zeroed memory. *)
Definition calloc_stream : ngx_rtmp_stream_t := Stream (Hdr 0 0 0 0 0) 0 0 false [].
Definition NGX_RTMP_DEFAULT_CHUNK_SIZE : Z := 128.

Definition ngx_rtmp_init_session (bw : Bandwidth.ngx_rtmp_bandwidth_t) (a : A)
  : option (session A) :=
  let s := Session (replicate (Z.to_nat (max_streams cscf)) calloc_stream) 0 0 false false false
             0 0 0 false bw a in
  ngx_rtmp_set_chunk_size s NGX_RTMP_DEFAULT_CHUNK_SIZE.

(* ------------------------------------------------------------------ *)
(** ** Messages *)

Definition run_command s (c : command) : option (session A) :=
  match c with
  | SetChunkSize n => ngx_rtmp_set_chunk_size s n
  | SetAckSize n => Some (set_ack_size s n)
  end.

Fixpoint run_commands s (cs : list command) : option (session A) :=
  match cs with
  | [] => Some s
  | c :: cs => s ← run_command s c; run_commands s cs
  end.

Fixpoint call_handlers s (h : ngx_rtmp_header_t) (chain : list (list Z))
    (evhs : list (ngx_rtmp_handler_pt A)) : option (ngx_rc * session A) :=
  match evhs with
  | [] => Some (NGX_OK, s)
  | evh :: evhs =>
      let '(rc, a, cs) := evh (app s) h chain in
      s ← run_commands (set_app s a) cs;
      match rc with
      | NGX_ERROR => Some (NGX_ERROR, s)
      | NGX_DONE => Some (NGX_OK, s)
      | _ => call_handlers s h chain evhs
      end
  end.

Definition ngx_rtmp_receive_message s (h : ngx_rtmp_header_t) (chain : list (list Z))
  : option (ngx_rc * session A) :=
  if NGX_RTMP_MSG_MAX <? type h then Some (NGX_OK, s)
  else call_handlers s h chain (events (type h)).

(* ------------------------------------------------------------------ *)
(** ** The receive loop *)

(** The way through one pass of the loop: go on reading, go to the next chunk
    with the bytes left over, or end. *)
Inductive pass :=
  | Again (s : session A)
  | Next (s : session A) (old : list Z)
  | Stop (o : outcome) (s : session A).

(** Moves the buffer at the head of stream 0 to the ring of stream [n]. *)
Definition link_orphan s (n : Z) : option (session A) :=
  st0 ← get_stream s 0;
  b ← head (st_in st0);
  let s := set_stream s 0 (with_in st0 (drop 1 (st_in st0))) in
  st ← get_stream s n;
  let st := with_in st (st_in st ++ [b]) in
  Some (set_in_csid (set_stream s n (with_hdr st (set_csid (st_hdr st) n))) n).

Definition or_crash {X} (s : session A) (o : option X) (k : X -> pass) : pass :=
  match o with Some x => k x | None => Stop Crash s end.

(** From the payload in the buffer on. *)
Definition recv_body s : pass :=
  or_crash s (get_stream s (in_csid s)) (fun st =>
  or_crash s (in_buf (in_csid s) st) (fun b =>
    let h := st_hdr st in
    let size := Z.of_nat (b_last b - b_pos b) in
    let fsize := u32 (mlen h - st_len st) in
    if size <? Z.min fsize (in_chunk_size s) then Again s
    else if in_chunk_size s <? fsize then
      let n := Z.to_nat (in_chunk_size s) in
      let old := drop n (buf_data b) in
      let st := set_in_buf (in_csid s) st (Buf (b_mem b) (b_pos b) (b_pos b + n)) in
      let st := Stream (st_hdr st) (st_dtime st) (u32 (st_len st + in_chunk_size s))
                  (st_ext st) (st_in st) in
      Next (set_in_csid (set_stream s (in_csid s) st) 0) old
    else
      let n := Z.to_nat fsize in
      let old := drop n (buf_data b) in
      let st := set_in_buf (in_csid s) st (Buf (b_mem b) (b_pos b) (b_pos b + n)) in
      let chain := st_in st in
      let h := set_timestamp h (u32 (timestamp h + st_dtime st)) in
      let s1 := set_stream s (in_csid s) (Stream h (st_dtime st) 0 (st_ext st) []) in
      or_crash s1 (ngx_rtmp_receive_message s1 h (map buf_data chain)) (fun '(rc, s2) =>
        if decide (rc = NGX_OK) then
          if in_chunk_size_changing s2 then
            let s2 := match old with
                      | [] => ngx_rtmp_finalize_set_chunk_size s2
                      | _ => s2
                      end in
            Next (set_in_csid s2 0) old
          else
            or_crash s2 (get_stream s2 0) (fun st0 =>
              Next (set_in_csid (set_stream s2 0 (with_in st0 (chain ++ st_in st0))) 0) old)
        else Stop (Finalized HandlerError) s2))).

(** The message header of the current stream, behind a basic header of [n]
    bytes in the buffer [b], then the payload. *)
Definition recv_header s (fmt : Z) (n : nat) (b : ngx_buf_t) : pass :=
  or_crash s (get_stream s (in_csid s)) (fun st =>
    match message_header fmt st (drop n (buf_written b)) with
    | (h, None) => Again (set_stream s (in_csid s) (with_hdr st h))
    | (h, Some (ext, ts, k)) =>
        let st := header_done cscf fmt st h ext ts in
        let st := set_in_buf (in_csid s) st (Buf (b_mem b) (n + k) (b_last b)) in
        let s := set_stream s (in_csid s) st in
        if max_message cscf <? mlen (st_hdr st) then Stop (Finalized TooBig) s
        else recv_body s
    end).

(** The headers, if they have not been read yet, and the payload. *)
Definition recv_parse s : pass :=
  or_crash s (get_stream s (in_csid s)) (fun st =>
  or_crash s (in_buf (in_csid s) st) (fun b =>
    if (b_pos b =? 0)%nat then
      match basic_header (buf_written b) with
      | None => Again s
      | Some (fmt, id, n) =>
          if max_streams cscf <=? id then Stop (Finalized BadCsid) s
          else
            or_crash s (if in_csid s =? 0 then link_orphan s id else Some s) (fun s =>
              recv_header s fmt n b)
      end
    else recv_body s)).

(** The byte counters and the acknowledgement after [n] received bytes. *)
Definition recv_account s (n : Z) : bool * session A :=
  let s := set_traffic s (Bandwidth.ngx_rtmp_update_bandwidth now (bw_in s) n) in
  let bytes := u32 (in_bytes s + n) in
  let s := if 0xf0000000 <=? bytes then set_counters s 0 0
           else set_counters s bytes (in_last_ack s) in
  if negb (ack_size s =? 0) && (ack_size s <=? u32 (in_bytes s - in_last_ack s)) then
    let s := set_counters s (in_bytes s) (in_bytes s) in
    let '(rc, a) := ngx_rtmp_send_ack (app s) (in_bytes s) in
    (bool_decide (rc = NGX_OK), set_app s a)
  else (true, s).

(** The loop; [old] is [None] for a NULL [old_pos], otherwise the bytes left
    over behind the last chunk.  [None] when the fuel ends. *)
Fixpoint recv_loop (fuel : nat) s (old : option (list Z)) (sock : list sock_ev)
  : option (outcome * session A * list sock_ev) :=
  match fuel with
  | O => None
  | S fuel =>
      match get_stream s (in_csid s) with
      | None => Some (Crash, s, sock)
      | Some st =>
          let st := match st_in st with
                    | [] => with_in st [ngx_rtmp_alloc_in_buf (in_chunk_size s)]
                    | _ => st
                    end in
          let s := set_stream s (in_csid s) st in
          match in_buf (in_csid s) st with
          | None => Some (Crash, s, sock)
          | Some b =>
              let parse s sock :=
                match recv_parse s with
                | Again s => recv_loop fuel s None sock
                | Next s old => recv_loop fuel s (Some old) sock
                | Stop o s => Some (o, s, sock)
                end in
              match old with
              | Some (x :: l) =>
                  if (b_end b <? length (x :: l))%nat then Some (Overflow, s, sock)
                  else
                    let b := buf_push (Buf (b_mem b) 0 0) (x :: l) in
                    let s := set_stream s (in_csid s) (set_in_buf (in_csid s) st b) in
                    parse (if in_chunk_size_changing s
                           then ngx_rtmp_finalize_set_chunk_size s else s) sock
              | _ =>
                  let b := match old with Some _ => Buf (b_mem b) 0 0 | None => b end in
                  let s := set_stream s (in_csid s) (set_in_buf (in_csid s) st b) in
                  match c_recv (buf_room b) sock with
                  | RAgain => Some (Waiting, s, sock)
                  | RClosed => Some (Finalized PeerClosed, s, sock)
                  | RData [] sock =>
                      Some (Finalized (if (buf_room b =? 0)%nat then FullBuffer
                                       else PeerClosed), s, sock)
                  | RData d sock =>
                      let s := set_stream s (in_csid s)
                                 (set_in_buf (in_csid s) st (buf_push b d)) in
                      match recv_account s (Z.of_nat (length d)) with
                      | (false, s) => Some (Finalized AckFailed, s, sock)
                      | (true, s) => parse s sock
                      end
                  end
              end
          end
      end
  end.

Definition ngx_rtmp_recv (fuel : nat) (destroyed : bool) s (sock : list sock_ev)
  : option (outcome * session A * list sock_ev) :=
  if destroyed then Some (Waiting, s, sock) else recv_loop fuel s None sock.

(* ------------------------------------------------------------------ *)
(** ** Preparing a message *)

Definition buf_size (b : ngx_buf_t) : Z := Z.of_nat (b_last b - b_pos b).

(** The format of the first header: how much of the last header [lh] of the
    chunk stream is repeated. *)
Definition prep_fmt (h : ngx_rtmp_header_t) (lh : option ngx_rtmp_header_t) (mlen' : Z) : Z :=
  match lh with
  | Some lh =>
      if negb (csid lh =? 0) && (msid h =? msid lh) then
        if (type h =? type lh) && negb (mlen' =? 0) && (mlen' =? mlen lh) then
          if timestamp h =? timestamp lh then 3 else 2
        else 1
      else 0
  | None => 0
  end.

Definition prep_timestamp (h : ngx_rtmp_header_t) (lh : option ngx_rtmp_header_t) : Z :=
  match lh with
  | Some lh => if negb (csid lh =? 0) && (msid h =? msid lh)
               then u32 (timestamp h - timestamp lh) else timestamp h
  | None => timestamp h
  end.

Definition hdrsize (fmt : Z) : nat :=
  if fmt =? 0 then 12 else if fmt =? 1 then 8 else if fmt =? 2 then 4 else 1.

Definition basic_bytes (fmt csid : Z) : list Z :=
  let p := Z.shiftl fmt 6 in
  if (2 <=? csid) && (csid <=? 63) then [Z.lor p (Z.land (u8 csid) 63)]
  else if (64 <=? csid) && (csid <? 320) then [p; u8 (csid - 64)]
  else [Z.lor p 1; u8 (csid - 64); u8 (Z.shiftr (u32 (csid - 64)) 8)].

Definition message_bytes (fmt ts mlen' type' msid' : Z) : list Z :=
  if fmt <=? 2 then
    be_bytes 3 ts ++
    (if fmt <=? 1 then
       be_bytes 3 mlen' ++ [type'] ++ (if fmt =? 0 then le_bytes 4 msid' else [])
     else [])
  else [].

(** [b->pos -= n] and a copy of [l] there; [None] when [pos] would leave the
    block. *)
Definition prepend (n : nat) (l : list Z) (b : ngx_buf_t) : option ngx_buf_t :=
  if (n <=? b_pos b)%nat
  then Some (Buf (splice (b_pos b - n) l (b_mem b)) (b_pos b - n) (b_last b))
  else None.

(** [None] inside is the finalised session; [None] outside an empty chain or a
    block without room for the header. *)
Definition ngx_rtmp_prepare_message (h : ngx_rtmp_header_t) (lh : option ngx_rtmp_header_t)
    (out : list ngx_buf_t) : option (option (list ngx_buf_t)) :=
  if max_streams cscf <=? csid h then Some None
  else
    match out with
    | [] => None
    | b :: rest =>
        let mlen' := u32 (foldr (fun b n => buf_size b + n) 0 out) in
        let fmt := prep_fmt h lh mlen' in
        let ts := prep_timestamp h lh in
        let ext := if 0x00ffffff <=? ts then ts else 0 in
        let ts := if 0x00ffffff <=? ts then 0x00ffffff else ts in
        let hsize := (hdrsize fmt + (if (ext =? 0)%Z then 0 else 4) +
                      (if (64 <=? csid h)%Z then if (320 <=? csid h)%Z then 2 else 1 else 0))%nat in
        let basic := basic_bytes fmt (csid h) in
        let th := match basic with p :: l => Z.lor p 0xc0 :: l | [] => [] end in
        let extb := if ext =? 0 then [] else be_bytes 4 ext in
        let th := th ++ (if play_time_fix cscf then extb else []) in
        b ← prepend hsize
              (basic ++ message_bytes fmt ts mlen' (type h) (msid h) ++ extb) b;
        rest ← mapM (prepend (length th) th) rest;
        Some (Some (b :: rest))
    end.

(* ------------------------------------------------------------------ *)
(** ** Specification: a decoder of byte strings

    The decoder has no buffers: it works on the bytes received so far.  A
    stream is the stream's record (its [st_in] unused) and the payloads of the
    chunks of the message in progress. *)

Record decoder := Dec {
  d_streams : list (ngx_rtmp_stream_t * list (list Z));
  d_chunk : Z;
  d_app : A
}.

(** The pieces of a message in progress, copied into buffers of [cap] bytes. *)
Fixpoint repack (fuel cap : nat) (pieces : list (list Z)) (cur : list Z)
    (acc : list (list Z)) : option (list (list Z)) :=
  match fuel, pieces with
  | S fuel, p :: rest =>
      if (length p <=? cap - length cur)%nat then
        match rest with
        | [] => Some (acc ++ [cur ++ p])
        | _ => repack fuel cap rest (cur ++ p) acc
        end
      else repack fuel cap (drop (cap - length cur) p :: rest) [] (acc ++ [cur])
  | _, _ => None
  end.

Definition repack_fuel (pieces : list (list Z)) : nat :=
  2 * length pieces + length (concat pieces) + 1.

Definition dec_cap (size : Z) : nat := Z.to_nat size + NGX_RTMP_MAX_CHUNK_HEADER.

Definition repack_stream (size : Z) (x : ngx_rtmp_stream_t * list (list Z))
  : option (ngx_rtmp_stream_t * list (list Z)) :=
  match x.2 with
  | [] => Some x
  | pieces => l ← repack (repack_fuel pieces) (dec_cap size) pieces [] []; Some (x.1, l)
  end.

Definition dec_command (d : decoder) (c : command) : option decoder :=
  match c with
  | SetChunkSize n =>
      match d_streams d with
      | [] => None
      | x0 :: rest => rest ← mapM (repack_stream n) rest; Some (Dec (x0 :: rest) n (d_app d))
      end
  | SetAckSize _ => Some d
  end.

Fixpoint dec_commands (d : decoder) (cs : list command) : option decoder :=
  match cs with
  | [] => Some d
  | c :: cs => d ← dec_command d c; dec_commands d cs
  end.

Fixpoint dec_handlers (d : decoder) (h : ngx_rtmp_header_t) (chain : list (list Z))
    (evhs : list (ngx_rtmp_handler_pt A)) : option (ngx_rc * decoder) :=
  match evhs with
  | [] => Some (NGX_OK, d)
  | evh :: evhs =>
      let '(rc, a, cs) := evh (d_app d) h chain in
      d ← dec_commands (Dec (d_streams d) (d_chunk d) a) cs;
      match rc with
      | NGX_ERROR => Some (NGX_ERROR, d)
      | NGX_DONE => Some (NGX_OK, d)
      | _ => dec_handlers d h chain evhs
      end
  end.

Definition dec_message (d : decoder) (h : ngx_rtmp_header_t) (chain : list (list Z))
  : option (ngx_rc * decoder) :=
  if NGX_RTMP_MSG_MAX <? type h then Some (NGX_OK, d)
  else dec_handlers d h chain (events (type h)).

Inductive dec_pass :=
  | DMore
  | DStop (why : reason) (d : decoder)
  | DNext (d : decoder) (rest : list Z).

(** The payload of a chunk of stream [id] behind its header. *)
Definition dec_body (d : decoder) (id : Z) (st : ngx_rtmp_stream_t) (pieces : list (list Z))
    (l : list Z) : option dec_pass :=
  let fsize := u32 (mlen (st_hdr st) - st_len st) in
  if Z.of_nat (length l) <? Z.min fsize (d_chunk d) then Some DMore
  else if d_chunk d <? fsize then
    let n := Z.to_nat (d_chunk d) in
    let st := Stream (st_hdr st) (st_dtime st) (u32 (st_len st + d_chunk d)) (st_ext st) [] in
    Some (DNext (Dec (<[Z.to_nat id := (st, pieces ++ [take n l])]> (d_streams d))
                   (d_chunk d) (d_app d)) (drop n l))
  else
    let n := Z.to_nat fsize in
    let h := set_timestamp (st_hdr st) (u32 (timestamp (st_hdr st) + st_dtime st)) in
    let st := Stream h (st_dtime st) 0 (st_ext st) [] in
    '(rc, d) ← dec_message (Dec (<[Z.to_nat id := (st, [])]> (d_streams d))
                              (d_chunk d) (d_app d)) h (pieces ++ [take n l]);
    if decide (rc = NGX_OK) then Some (DNext d (drop n l))
    else Some (DStop HandlerError d).

(** One chunk at the front of [l]. *)
Definition dec_chunk (d : decoder) (l : list Z) : option dec_pass :=
  match basic_header l with
  | None => Some DMore
  | Some (fmt, id, n) =>
      if max_streams cscf <=? id then Some (DStop BadCsid d)
      else
        '(st, pieces) ← d_streams d !! Z.to_nat id;
        let st := with_hdr st (set_csid (st_hdr st) id) in
        match message_header fmt st (drop n l) with
        | (_, None) => Some DMore
        | (h, Some (ext, ts, k)) =>
            let st := header_done cscf fmt st h ext ts in
            if max_message cscf <? mlen (st_hdr st) then Some (DStop TooBig d)
            else dec_body d id st pieces (drop (n + k) l)
        end
  end.

(** All complete chunks of [l]: the end is reached with the bytes of an
    incomplete chunk, or the connection is given up. *)
Fixpoint decode (fuel : nat) (d : decoder) (l : list Z)
  : option (option reason * decoder * list Z) :=
  match fuel with
  | O => None
  | S fuel =>
      match dec_chunk d l with
      | None => None
      | Some DMore => Some (None, d, l)
      | Some (DStop why d) => Some (Some why, d, l)
      | Some (DNext d rest) => decode fuel d rest
      end
  end.

(* ------------------------------------------------------------------ *)
(** ** Headers and more bytes *)

Lemma basic_header_app l x r : basic_header l = Some r -> basic_header (l ++ x) = Some r.
Proof.
  destruct l as [|p0 l]; [done|]. rewrite <- app_comm_cons. unfold basic_header.
  case_if; [now destruct l|]. case_if; [|done]. now destruct l as [|? [|? ?]].
Qed.

Lemma basic_header_len l fmt id n :
  basic_header l = Some (fmt, id, n) -> (1 <= n <= length l)%nat.
Proof.
  destruct l as [|p0 l]; [done|]. cbn [basic_header].
  case_if; [destruct l|case_if; [destruct l as [|? [|? ?]]|]]; intros [= <- <- <-]; cbn; lia.
Qed.

Lemma basic_header_id l fmt id n : bytes_ok l -> basic_header l = Some (fmt, id, n) -> 2 <= id.
Proof.
  intros Hl. destruct l as [|p0 l]; [done|]. cbn [basic_header].
  apply bytes_ok_cons in Hl as [_ Hl].
  assert (0 <= Z.land p0 63) by (apply Z.land_nonneg; right; lia).
  case_if; [|case_if; [|intros [= <- <- <-]; lia]].
  - destruct l as [|p1 l]; [done|]. apply bytes_ok_cons in Hl as [? ?].
    intros [= <- <- <-]. unfold byte_ok in *. lia.
  - destruct l as [|p1 [|p2 l]]; [done|done|]. rewrite !bytes_ok_cons in Hl.
    intros [= <- <- <-]. unfold byte_ok in *. lia.
Qed.

Lemma ext_header_app ext ts l x r :
  ext_header ext ts l = Some r -> ext_header ext ts (l ++ x) = Some r.
Proof. destruct ext; [|done]. destruct l as [|? [|? [|? [|? ?]]]]; done. Qed.

Lemma ext_header_len ext ts l e t k :
  ext_header ext ts l = Some (e, t, k) -> (k <= length l)%nat.
Proof.
  destruct ext; cbn; [|intros [= <- <- <-]; lia].
  destruct l as [|? [|? [|? [|? ?]]]]; try done. intros [= <- <- <-]. cbn. lia.
Qed.

Lemma add_len_Some n r e t k :
  add_len n r = Some (e, t, k) -> exists j, r = Some (e, t, j) /\ k = (n + j)%nat.
Proof. destruct r as [[[? ?] j]|]; [|done]. cbn. intros [= -> -> <-]. eauto. Qed.

Lemma message_header_app fmt st l x h r :
  message_header fmt st l = (h, Some r) -> message_header fmt st (l ++ x) = (h, Some r).
Proof.
  unfold message_header. intros H.
  assert (forall ext ts n m, add_len n (ext_header ext ts m) = Some r ->
            add_len n (ext_header ext ts (m ++ x)) = Some r) as Ha.
  { intros ext ts n m E. destruct r as [[e t] k]. apply add_len_Some in E as (j & E & ->).
    now rewrite (ext_header_app _ _ _ _ _ E). }
  case_if; [|injection H as <- H; f_equal; now apply ext_header_app].
  destruct l as [|t2 [|t1 [|t0 l]]]; try done. cbn [Datatypes.app].
  case_if; [|injection H as <- H; f_equal; now apply Ha].
  destruct l as [|m2 [|m1 [|m0 [|ty l]]]]; try done. cbn [Datatypes.app].
  case_if; [|injection H as <- H; f_equal; now apply Ha].
  destruct l as [|s0 [|s1 [|s2 [|s3 l]]]]; try done. cbn [Datatypes.app].
  injection H as <- H. f_equal. now apply Ha.
Qed.

Lemma message_header_len fmt st l h e t k :
  message_header fmt st l = (h, Some (e, t, k)) -> (k <= length l)%nat.
Proof.
  assert (forall ext ts n m, add_len n (ext_header ext ts m) = Some (e, t, k) ->
            (k <= n + length m)%nat) as Ha.
  { intros ext ts n m E. apply add_len_Some in E as (j & E & ->).
    apply ext_header_len in E. lia. }
  unfold message_header. case_if; [|intros [= <- H]; eapply ext_header_len, H].
  destruct l as [|t2 [|t1 [|t0 l]]]; try done.
  case_if; [|intros [= <- H]; apply Ha in H; cbn; lia].
  destruct l as [|m2 [|m1 [|m0 [|ty l]]]]; try done.
  case_if; [|intros [= <- H]; apply Ha in H; cbn; lia].
  destruct l as [|s0 [|s1 [|s2 [|s3 l]]]]; try done.
  intros [= <- H]. apply Ha in H. cbn. lia.
Qed.

(** Reading an incomplete header again, with more bytes, has the same result. *)
Lemma message_header_again fmt st l x h :
  message_header fmt st l = (h, None) ->
  message_header fmt (with_hdr st h) (l ++ x) = message_header fmt st (l ++ x).
Proof.
  unfold message_header. cbn [st_hdr st_ext st_dtime with_hdr]. intros H.
  case_if; [|now injection H as <- _].
  destruct l as [|t2 [|t1 [|t0 l]]]; try (injection H as <-; reflexivity). cbn [Datatypes.app].
  case_if; [|now injection H as <- _].
  destruct l as [|m2 [|m1 [|m0 [|ty l]]]]; try (injection H as <-; reflexivity). cbn [Datatypes.app].
  case_if; [|now injection H as <- _].
  destruct l as [|s0 [|s1 [|s2 [|s3 l]]]]; injection H as <-; reflexivity.
Qed.

(* ------------------------------------------------------------------ *)
(** ** Re-buffering *)

(** A buffer of the session: allocated for the current chunk size. *)
Definition fits (size : Z) (b : ngx_buf_t) : Prop := buf_ok b /\ b_end b = dec_cap size.

Lemma alloc_fits size : fits size (ngx_rtmp_alloc_in_buf size).
Proof.
  split; [apply buf_alloc_ok; lia|]. unfold b_end, ngx_rtmp_alloc_in_buf. cbn. now len.
Qed.

Lemma fresh_room size bo :
  fits size bo -> b_pos bo = 0%nat ->
  buf_room bo = (dec_cap size - length (buf_data bo))%nat.
Proof.
  intros [Hok He] Hp. unfold buf_room. rewrite He, length_buf_data, Hp by done. lia.
Qed.

Lemma buf_data_behind b x :
  buf_ok b -> (length x <= buf_room b)%nat ->
  buf_data (Buf (b_mem (buf_push b x)) (b_pos b) (b_last b)) = buf_data b.
Proof.
  intros Hok Hx. rewrite !buf_data_written. unfold buf_written. cbn [b_pos b_last b_mem buf_push].
  destruct Hok as (_ & Hl & _). unfold b_end in Hl. now rewrite take_splice.
Qed.

Lemma rebuffer_repack size fuel : forall bis bo acc,
  Forall buf_ok bis -> fits size bo -> b_pos bo = 0%nat -> Forall (fits size) acc ->
  match rebuffer fuel size bis bo acc with
  | Some l => repack fuel (dec_cap size) (map buf_data bis) (buf_data bo) (map buf_data acc) =
                Some (map buf_data l) /\ Forall (fits size) l
  | None => repack fuel (dec_cap size) (map buf_data bis) (buf_data bo) (map buf_data acc) = None
  end.
Proof.
  induction fuel as [|fuel IH]; intros bis bo acc Hb Hbo Hp Hacc; [done|].
  destruct bis as [|bi rest]; [done|]. apply Forall_cons in Hb as [Hbi Hrest].
  cbn [rebuffer repack map]. rewrite (fresh_room size bo) by done.
  pose proof (fresh_room size bo Hbo Hp) as Hroom. case_if.
  - assert (fits size (buf_push bo (buf_data bi))) as Hpush.
    { destruct Hbo as [Hok He]. split; [apply buf_push_ok; auto with lmss; lia|].
      rewrite buf_push_end; auto; lia. }
    assert (buf_data (buf_push bo (buf_data bi)) = buf_data bo ++ buf_data bi) as Ed
      by (apply buf_data_push; [apply Hbo|lia]).
    destruct rest as [|r rest].
    + cbn [map]. rewrite map_app. cbn [map]. rewrite Ed. split; [done|].
      apply Forall_app. auto.
    + specialize (IH (r :: rest) (buf_push bo (buf_data bi)) acc).
      rewrite Ed in IH. apply IH; auto.
  - set (k := (dec_cap size - length (buf_data bo))%nat) in *.
    assert (length (take k (buf_data bi)) <= buf_room bo)%nat as Htk by (len; lia).
    set (bo' := Buf _ (b_pos bo) (b_last bo)). set (bi' := Buf (b_mem bi) _ _).
    assert (buf_data bo' = buf_data bo) as Eo by (apply buf_data_behind; [apply Hbo|done]).
    assert (buf_data bi' = drop k (buf_data bi)) as Ei.
    { rewrite !buf_data_written. unfold bi', buf_written. cbn [b_pos b_last b_mem].
      now rewrite drop_drop. }
    specialize (IH (bi' :: rest) (ngx_rtmp_alloc_in_buf size) (acc ++ [bo'])).
    rewrite map_app in IH. cbn [map] in IH. rewrite Eo, Ei in IH.
    assert (buf_data (ngx_rtmp_alloc_in_buf size) = []) as Ea by reflexivity.
    rewrite Ea in IH. apply IH; [| |reflexivity|].
    + constructor; [|done]. rewrite length_buf_data in E by done.
      destruct Hbi as (? & ? & ?). unfold buf_ok, bi', b_end in *. cbn [b_pos b_last b_mem] in *.
      split_and!; auto; lia.
    + apply alloc_fits.
    + apply Forall_app. split; [done|]. constructor; [|constructor].
      destruct Hbo as [Hok He]. destruct Hok as (H1 & H2 & H3).
      assert (b_end (buf_push bo (take k (buf_data bi))) = b_end bo) as Hpe
        by (apply buf_push_end; [done|lia]).
      unfold fits, buf_ok, bo' in *. unfold b_end in *. cbn [b_pos b_last b_mem] in *.
      rewrite Hpe. split_and!; auto. apply bytes_ok_splice; auto with lmss.
Qed.

Lemma repack_total cap : (1 <= cap)%nat -> forall fuel pieces cur acc,
  pieces <> [] -> (length cur <= cap)%nat ->
  (2 * length pieces + length (concat pieces) + (if (length cur =? cap)%nat then 1 else 0)
     <= fuel)%nat ->
  is_Some (repack fuel cap pieces cur acc).
Proof.
  intros Hc. induction fuel as [|fuel IH]; intros pieces cur acc Hp Hl Hf;
    (destruct pieces as [|p rest]; [done|]); cbn [length concat] in Hf; [lia|].
  cbn [repack]. rewrite length_app in Hf. case_if.
  - destruct rest as [|r rest]; [eauto|]. apply IH; [done|len|].
    cbn [length concat] in *. case_if; lia.
  - apply IH; [done|cbn; lia|]. cbn [length concat]. rewrite length_app, length_drop.
    destruct (0 =? cap)%nat eqn:E0; bool_to_prop; [lia|].
    destruct (length cur =? cap)%nat eqn:E1; bool_to_prop; lia.
Qed.

(* ------------------------------------------------------------------ *)
(** ** The session refines the decoder *)

Definition abs_stream (st : ngx_rtmp_stream_t) : ngx_rtmp_stream_t * list (list Z) :=
  (with_in st [], map buf_data (st_in st)).

(** The streams other than [0] and [c] are those of the decoder. *)
Definition agree (c : nat) s (d : decoder) : Prop :=
  length (in_streams s) = length (d_streams d) /\
  forall i, i <> 0%nat -> i <> c -> d_streams d !! i = abs_stream <$> in_streams s !! i.

Definition bufs_fit (size : Z) (sts : list ngx_rtmp_stream_t) : Prop :=
  Forall (fun st => Forall (fits size) (st_in st)) sts.

Record sim s (d : decoder) : Prop := {
  sim_chunk : in_chunk_size s = d_chunk d;
  sim_pos : 0 <= in_chunk_size s;
  sim_app : app s = d_app d;
  sim_fits : bufs_fit (in_chunk_size s) (in_streams s);
  sim_pool : in_pool s = true;
  sim_len : max_streams cscf <= Z.of_nat (length (in_streams s));
  sim_zero : (0 < length (in_streams s))%nat
}.

(** Between two chunks, [old] being the bytes left over. *)
Definition idle s (d : decoder) (old : list Z) : Prop :=
  sim s d /\ agree 0 s d /\ in_csid s = 0 /\ bytes_ok old /\
  (in_chunk_size_changing s = true -> in_old_pool s = true /\ old <> []).

Definition cmd_ok (c : command) : Prop :=
  match c with SetChunkSize n => 0 <= n | SetAckSize _ => True end.

Hypothesis events_ok : forall ty evh a h chain rc a' cs,
  evh ∈ events ty -> evh a h chain = (rc, a', cs) -> Forall cmd_ok cs.

Lemma rebuffer_streams_sim size sts :
  Forall (fun st => Forall buf_ok (st_in st)) sts ->
  exists sts', mapM (rebuffer_stream size) sts = Some sts' /\
    mapM (repack_stream size) (map abs_stream sts) = Some (map abs_stream sts') /\
    bufs_fit size sts'.
Proof.
  induction 1 as [|st sts Hst _ IH]; [exists []; split_and!; [done|done|constructor]|].
  destruct IH as (sts' & E1 & E2 & Hf).
  assert (exists st', rebuffer_stream size st = Some st' /\
            repack_stream size (abs_stream st) = Some (abs_stream st') /\
            Forall (fits size) (st_in st')) as (st' & Es1 & Es2 & Hs).
  { unfold rebuffer_stream, repack_stream, abs_stream. cbn [fst snd].
    destruct (st_in st) as [|b bs] eqn:Ei.
    - exists st. rewrite Ei. auto.
    - pose proof (rebuffer_repack size (rebuffer_fuel (b :: bs)) (b :: bs)
        (ngx_rtmp_alloc_in_buf size) [] Hst (alloc_fits size) eq_refl (Forall_nil_2 _)) as H.
      assert (rebuffer_fuel (b :: bs) = repack_fuel (map buf_data (b :: bs))) as Ef.
      { unfold rebuffer_fuel, repack_fuel. now rewrite length_map. }
      change (buf_data (ngx_rtmp_alloc_in_buf size)) with (@nil Z) in H.
      destruct (rebuffer _ _ _ _ _) as [l|].
      + destruct H as [H Hl]. exists (with_in st l).
        rewrite Ef in H. cbn [map] in *. rewrite H. auto.
      + exfalso. rewrite Ef in H.
        destruct (repack_total (dec_cap size) ltac:(unfold dec_cap, NGX_RTMP_MAX_CHUNK_HEADER; lia)
          (repack_fuel (map buf_data (b :: bs))) (map buf_data (b :: bs)) [] []) as [r Hr];
          [done|cbn; lia| |cbn [map] in *; congruence].
        unfold repack_fuel, dec_cap, NGX_RTMP_MAX_CHUNK_HEADER. case_if; lia. }
  exists (st' :: sts'). cbn [mapM map]. rewrite Es1, E1, Es2, E2.
  split_and!; [done|done|]. constructor; auto.
Qed.

Lemma agree_lists s d :
  agree 0 s d -> (0 < length (in_streams s))%nat ->
  exists st0 x0 rest, in_streams s = st0 :: rest /\ d_streams d = x0 :: map abs_stream rest.
Proof.
  intros [Hl Ha] Hz. destruct (in_streams s) as [|st0 rest] eqn:Es; [cbn in Hz; lia|].
  destruct (d_streams d) as [|x0 xs] eqn:Ed; [done|]. exists st0, x0, rest. split; [done|].
  f_equal. apply list_eq. intros i. specialize (Ha (S i) ltac:(lia) ltac:(lia)). cbn in Ha.
  etrans; [exact Ha|]. symmetry. apply list_lookup_fmap.
Qed.

Lemma lists_agree s d st0 x0 rest :
  in_streams s = st0 :: rest -> d_streams d = x0 :: map abs_stream rest -> agree 0 s d.
Proof.
  intros Es Ed. split; [rewrite Es, Ed; cbn; now rewrite length_map|].
  intros [|i] Hi _; [done|]. rewrite Es, Ed. cbn. apply list_lookup_fmap.
Qed.

(** The state in which the handlers run: every stream agrees. *)
Definition handling s (d : decoder) : Prop :=
  sim s d /\ agree 0 s d /\ (in_chunk_size_changing s = true -> in_old_pool s = true).

(** The handlers leave the current stream alone, and the chunk size unless
    they start to change it. *)
Definition keeps s s' : Prop :=
  in_csid s' = in_csid s /\
  (in_chunk_size_changing s' = false ->
   in_chunk_size s' = in_chunk_size s /\ in_chunk_size_changing s = false).

Lemma keeps_refl s : keeps s s.
Proof. now split. Qed.

Lemma keeps_trans s1 s2 s3 : keeps s1 s2 -> keeps s2 s3 -> keeps s1 s3.
Proof.
  intros [E1 H1] [E2 H2]. split; [congruence|]. intros H.
  destruct (H2 H) as [? H']. destruct (H1 H'). split; congruence.
Qed.

Lemma set_chunk_size_sim s d n :
  handling s d -> 0 <= n ->
  exists s' d', ngx_rtmp_set_chunk_size s n = Some s' /\
    dec_command d (SetChunkSize n) = Some d' /\ handling s' d' /\
    keeps s s'.
Proof.
  intros (Hs & Ha & _) Hn. destruct (agree_lists s d Ha (sim_zero _ _ Hs))
    as (st0 & x0 & rest & Es & Ed).
  unfold ngx_rtmp_set_chunk_size, dec_command. rewrite Ed, Es, (sim_pool _ _ Hs). cbv iota.
  destruct (rebuffer_streams_sim n rest) as (rest' & E1 & E2 & Hf).
  { pose proof (sim_fits _ _ Hs) as Hfit. rewrite Es in Hfit. apply Forall_cons in Hfit as [_ Hfit].
    eapply Forall_impl; [exact Hfit|]. intros st Hst. eapply Forall_impl; [exact Hst|].
    now intros b []. }
  rewrite E1, E2, !some_bind. do 2 eexists. split; [reflexivity|]. split; [reflexivity|].
  assert (length rest' = length rest) as Hlen by (symmetry; eapply length_mapM, E1).
  split; [|done]. split; [|split; [|done]].
  - constructor; cbn; auto; try apply Hs.
    + constructor; [constructor|exact Hf].
    + pose proof (sim_len _ _ Hs) as H. rewrite Es in H. cbn in H. lia.
    + lia.
  - eapply lists_agree; reflexivity.
Qed.

Lemma commands_sim cs : forall s d,
  handling s d -> Forall cmd_ok cs ->
  exists s' d', run_commands s cs = Some s' /\ dec_commands d cs = Some d' /\
    handling s' d' /\ keeps s s'.
Proof.
  induction cs as [|c cs IH]; intros s d Hh Hcs; [eauto 8 using keeps_refl|].
  apply Forall_cons in Hcs as [Hc Hcs]. cbn [run_commands dec_commands].
  assert (exists s1 d1, run_command s c = Some s1 /\ dec_command d c = Some d1 /\
            handling s1 d1 /\ keeps s s1) as (s1 & d1 & -> & -> & H1 & Ei).
  { destruct c as [n|n].
    - destruct (set_chunk_size_sim s d n Hh Hc) as (s1 & d1 & E1 & E2 & H1 & Ei).
      exists s1, d1. auto.
    - exists (set_ack_size s n), d. split; [done|]. split; [done|]. split; [|now split].
      destruct Hh as ([] & Ha & Hch). split; [constructor; auto|]. auto. }
  rewrite !some_bind. destruct (IH s1 d1 H1 Hcs) as (s2 & d2 & E1 & E2 & H2 & Ei2).
  exists s2, d2. eauto using keeps_trans.
Qed.

Lemma handlers_sim h chain evhs : forall s d,
  handling s d -> (forall evh, evh ∈ evhs -> forall a rc a' cs,
    evh a h chain = (rc, a', cs) -> Forall cmd_ok cs) ->
  exists rc s' d', call_handlers s h chain evhs = Some (rc, s') /\
    dec_handlers d h chain evhs = Some (rc, d') /\
    handling s' d' /\ keeps s s'.
Proof.
  induction evhs as [|evh evhs IH]; intros s d Hh Hev; [eauto 10 using keeps_refl|].
  cbn [call_handlers dec_handlers]. rewrite (sim_app _ _ (proj1 Hh)).
  destruct (evh (d_app d) h chain) as [[rc a] cs] eqn:Ee.
  assert (handling (set_app s a) (Dec (d_streams d) (d_chunk d) a)) as H0.
  { destruct Hh as ([] & Ha & Hch). split; [constructor; auto|]. auto. }
  destruct (commands_sim cs _ _ H0) as (s1 & d1 & -> & -> & H1 & Ei).
  { eapply Hev; [apply list_elem_of_here|exact Ee]. }
  rewrite !some_bind.
  destruct (IH s1 d1 H1) as (rc' & s2 & d2 & E1 & E2 & H2 & Ei2).
  { intros evh' Hin. apply Hev. now apply list_elem_of_further. }
  assert (keeps s s1) as Ei' by exact Ei. assert (keeps s s2) as Ei3 by eauto using keeps_trans.
  destruct rc;
    first [solve [exists rc', s2, d2; auto]|solve [exists NGX_ERROR, s1, d1; auto]
          |exists NGX_OK, s1, d1; auto].
Qed.

Lemma message_sim s d h chain :
  handling s d ->
  exists rc s' d', ngx_rtmp_receive_message s h chain = Some (rc, s') /\
    dec_message d h chain = Some (rc, d') /\ handling s' d' /\ keeps s s'.
Proof.
  intros Hh. unfold ngx_rtmp_receive_message, dec_message. case_if; [eauto 10 using keeps_refl|].
  apply handlers_sim; eauto.
Qed.

(** The buffer [b] of the current stream [st] is being filled behind the
    buffers [pre]. *)
Record filling s (d : decoder) (st : ngx_rtmp_stream_t) (pre : list ngx_buf_t)
    (b : ngx_buf_t) : Prop := {
  fl_sim : sim s d;
  fl_agree : agree (Z.to_nat (in_csid s)) s d;
  fl_id : 1 <= in_csid s;
  fl_st : get_stream s (in_csid s) = Some st;
  fl_in : st_in st = pre ++ [b];
  fl_changing : in_chunk_size_changing s = false
}.

Lemma in_buf_snoc id st pre b : id <> 0 -> st_in st = pre ++ [b] -> in_buf id st = Some b.
Proof. intros Hi E. unfold in_buf. rewrite E. case_if; [done|]. apply last_snoc. Qed.

Lemma set_in_buf_snoc id st pre b b' :
  id <> 0 -> st_in st = pre ++ [b] -> set_in_buf id st b' = with_in st (pre ++ [b']).
Proof.
  intros Hi E. unfold set_in_buf. rewrite E. case_if; [done|]. f_equal.
  rewrite length_app. cbn [length]. replace (length pre + 1 - 1)%nat with (length pre) by lia.
  now rewrite take_app_length.
Qed.

Lemma agree_insert s d c st x :
  agree c s d -> (c < length (in_streams s))%nat -> x = abs_stream st ->
  agree 0 (set_streams s (<[c := st]> (in_streams s)))
    (Dec (<[c := x]> (d_streams d)) (d_chunk d) (d_app d)).
Proof.
  intros [Hl Ha] Hc ->. split; cbn; [now rewrite !length_insert|]. intros i Hi _.
  destruct (decide (i = c)) as [->|Hne].
  - rewrite !list_lookup_insert_eq; [done|done|lia].
  - rewrite !list_lookup_insert_ne by done. auto.
Qed.

Lemma sim_set_stream s d c st xs :
  sim s d -> Forall (fits (in_chunk_size s)) (st_in st) ->
  sim (set_streams s (<[c := st]> (in_streams s))) (Dec xs (d_chunk d) (d_app d)).
Proof.
  intros [] Hst. constructor; cbn; auto; rewrite ?length_insert; auto.
  apply Forall_insert; auto.
Qed.

Lemma filling_fits s d st pre b :
  filling s d st pre b -> Forall (fits (in_chunk_size s)) (pre ++ [b]).
Proof.
  intros [Hs _ _ Est Ein _]. rewrite <- Ein.
  exact (Forall_lookup_1 _ _ _ _ (sim_fits _ _ Hs) Est).
Qed.

Lemma cut_fits size b n :
  fits size b -> (n <= length (buf_data b))%nat ->
  let b' := Buf (b_mem b) (b_pos b) (b_pos b + n) in
  fits size b' /\ buf_data b' = take n (buf_data b).
Proof.
  intros [Hok He] Hn b'. rewrite length_buf_data in Hn by done. destruct Hok as (H1 & H2 & H3).
  split.
  - split; [|exact He]. unfold buf_ok, b_end, b' in *. cbn [b_mem b_pos b_last]. split_and!; auto; lia.
  - unfold buf_data, b'. cbn [b_mem b_pos b_last]. rewrite take_take. f_equal. lia.
Qed.

Lemma sim_set_csid s d n : sim s d -> sim (set_in_csid s n) d.
Proof. intros []. now constructor. Qed.

(** The used buffers of a message go to the free list. *)
Lemma release_idle s d chain rest st0 :
  handling s d -> in_chunk_size_changing s = false -> bytes_ok rest ->
  Forall (fits (in_chunk_size s)) chain -> get_stream s 0 = Some st0 ->
  idle (set_in_csid (set_stream s 0 (with_in st0 (chain ++ st_in st0))) 0) d rest.
Proof.
  intros (Hs & Ha & _) Hch Hr Hc E0. split.
  { apply sim_set_csid. replace d with (Dec (d_streams d) (d_chunk d) (d_app d)) by now destruct d.
    apply sim_set_stream; [done|]. cbn [st_in with_in]. apply Forall_app. split; [done|].
    exact (Forall_lookup_1 _ _ _ _ (sim_fits _ _ Hs) E0). }
  split; [|split; [done|split; [done|]]].
  - destruct Ha as [Hl Ha]. split; cbn; [now rewrite length_insert|]. intros i Hi _.
    rewrite list_lookup_insert_ne by (intros H; apply Hi; rewrite <- H; reflexivity). auto.
  - intros H. change (in_chunk_size_changing s = true) in H. congruence.
Qed.

Lemma finalize_sim s d : sim s d -> sim (ngx_rtmp_finalize_set_chunk_size s) d.
Proof. intros Hs. unfold ngx_rtmp_finalize_set_chunk_size. case_if; [|done]. destruct Hs. now constructor. Qed.

(** While the chunk size changes, the free list is empty and stays so. *)
Lemma changing_idle s d rest :
  handling s d -> in_chunk_size_changing s = true -> bytes_ok rest ->
  idle (set_in_csid (match rest with
                     | [] => ngx_rtmp_finalize_set_chunk_size s
                     | _ => s
                     end) 0) d rest.
Proof.
  intros (Hs & Ha & Ho) Hch Hr. pose proof (Ho Hch) as Hop.
  split; [apply sim_set_csid; destruct rest; [now apply finalize_sim|done]|].
  split; [|split; [done|split; [done|]]].
  - unfold ngx_rtmp_finalize_set_chunk_size. rewrite Hch, Hop. destruct rest; exact Ha.
  - destruct rest; [|done]. unfold ngx_rtmp_finalize_set_chunk_size. rewrite Hch, Hop. done.
Qed.

Lemma recv_body_sim s d st pre b :
  filling s d st pre b ->
  match dec_body d (in_csid s) (with_in st []) (map buf_data pre) (buf_data b) with
  | Some DMore => recv_body s = Again s
  | Some (DStop why d') =>
      exists s', recv_body s = Stop (Finalized why) s' /\ app s' = d_app d'
  | Some (DNext d' rest) => exists s', recv_body s = Next s' rest /\ idle s' d' rest
  | None => False
  end.
Proof.
  intros Hf. pose proof (filling_fits _ _ _ _ _ Hf) as Hfits.
  destruct Hf as [Hs Ha Hid Est Ein Hch]. apply Forall_app in Hfits as [Hpre Hb].
  apply Forall_cons in Hb as [Hb _]. unfold recv_body, dec_body.
  rewrite Est. cbn [or_crash]. rewrite (in_buf_snoc (in_csid s) st pre b) by (lia || done).
  cbn [or_crash]. rewrite <- length_buf_data by apply Hb.
  cbn [st_hdr st_len st_dtime st_ext with_in]. rewrite <- (sim_chunk _ _ Hs).
  set (fsize := u32 (mlen (st_hdr st) - st_len st)).
  assert (0 <= fsize) as Hfs by apply u32_bound. pose proof (sim_pos _ _ Hs) as Hcs.
  assert (Z.to_nat (in_csid s) < length (in_streams s))%nat as Hlt
    by (eapply lookup_lt_Some, Est).
  assert (bytes_ok (buf_data b)) as Hbo by (apply buf_data_ok, Hb).
  case_if; [done|]. rewrite (sim_chunk _ _ Hs). case_if.
  - destruct (cut_fits (in_chunk_size s) b (Z.to_nat (d_chunk d)) Hb
      ltac:(rewrite (sim_chunk _ _ Hs) in *; lia)) as [Hb' Ed].
    eexists. split; [reflexivity|].
    rewrite (set_in_buf_snoc (in_csid s) st pre b) by (lia || done).
    cbn [st_hdr st_dtime st_len st_ext st_in with_in].
    split; [|split; [|split; [reflexivity|split; [auto with lmss|]]]].
    + apply sim_set_csid, sim_set_stream; [done|]. apply Forall_app. auto.
    + eapply agree_insert; [exact Ha|exact Hlt|]. unfold abs_stream. cbn [st_in with_in].
      rewrite map_app. cbn [map]. now rewrite Ed.
    + intros H. change (in_chunk_size_changing s = true) in H. congruence.
  - destruct (cut_fits (in_chunk_size s) b (Z.to_nat fsize) Hb
      ltac:(rewrite (sim_chunk _ _ Hs) in *; lia)) as [Hb' Ed].
    rewrite (set_in_buf_snoc (in_csid s) st pre b) by (lia || done).
    cbn [st_hdr st_dtime st_len st_ext st_in with_in].
    set (chain := pre ++ [_]). set (h := set_timestamp _ _).
    set (s1 := set_stream s _ _). set (d1 := Dec _ _ _).
    assert (handling s1 d1) as H1.
    { split; [apply sim_set_stream; [done|constructor]|]. split; [|exact (fun H => ltac:(
        change (in_chunk_size_changing s = true) in H; congruence))].
      eapply agree_insert; [exact Ha|exact Hlt|reflexivity]. }
    assert (map buf_data chain = map buf_data pre ++ [take (Z.to_nat fsize) (buf_data b)]) as Ec.
    { unfold chain. rewrite map_app. cbn [map]. now rewrite Ed. }
    rewrite <- Ec. destruct (message_sim s1 d1 h (map buf_data chain) H1)
      as (rc & s2 & d2 & -> & -> & H2 & [Hk1 Hk2]).
    rewrite some_bind. cbn [or_crash]. case_decide; [|exists s2; split; [done|apply H2]].
    destruct (in_chunk_size_changing s2) eqn:Ech.
    + eexists. split; [reflexivity|]. apply changing_idle; auto with lmss.
    + destruct (get_stream s2 0) as [st0|] eqn:Est0.
      2: { apply lookup_ge_None in Est0. pose proof (sim_zero _ _ (proj1 H2)). cbn in Est0. lia. }
      cbn [or_crash]. eexists. split; [reflexivity|].
      apply release_idle; auto with lmss. destruct (Hk2 eq_refl) as [-> _].
      unfold chain. apply Forall_app. auto.
Qed.

(** The stream as the decoder has it when a chunk of stream [c] starts. *)
Definition opened (c : Z) (dst : ngx_rtmp_stream_t) : ngx_rtmp_stream_t :=
  with_hdr dst (set_csid (st_hdr dst) c).

(** How far the header of the chunk [l] of the current stream has been read:
    not completely, or completely and stored. *)
Definition header_read s (d : decoder) (l : list Z) (st : ngx_rtmp_stream_t)
    (pre : list ngx_buf_t) (b : ngx_buf_t) : Prop :=
  exists dst fmt n,
    d_streams d !! Z.to_nat (in_csid s) = Some (dst, map buf_data pre) /\
    basic_header l = Some (fmt, in_csid s, n) /\ in_csid s < max_streams cscf /\
    ((b_pos b = 0%nat /\ exists h,
        message_header fmt (opened (in_csid s) dst) (drop n l) = (h, None) /\
        with_in st [] = with_hdr (opened (in_csid s) dst) h) \/
     (exists h ext ts k,
        message_header fmt (opened (in_csid s) dst) (drop n l) = (h, Some (ext, ts, k)) /\
        b_pos b = (n + k)%nat /\
        with_in st [] = header_done cscf fmt (opened (in_csid s) dst) h ext ts /\
        mlen (st_hdr st) <= max_message cscf)).

(** Waiting for more bytes, those of [pend] having been read. *)
Definition waiting s (d : decoder) (pend : list Z) : Prop :=
  sim s d /\ in_chunk_size_changing s = false /\ bytes_ok pend /\
  dec_chunk d pend = Some DMore /\
  ((in_csid s = 0 /\ agree 0 s d /\ exists st0, get_stream s 0 = Some st0 /\
      match st_in st0 with
      | [] => pend = []
      | b :: _ => b_pos b = 0%nat /\ buf_written b = pend
      end /\ basic_header pend = None) \/
   (exists st pre b, filling s d st pre b /\ buf_written b = pend /\
      header_read s d pend st pre b)).

(** The current buffer holds [l], the bytes read so far of a chunk. *)
Definition loaded s (d : decoder) (l : list Z) : Prop :=
  bytes_ok l /\ in_chunk_size_changing s = false /\
  ((in_csid s = 0 /\ sim s d /\ agree 0 s d /\ exists st0 b rest,
      get_stream s 0 = Some st0 /\ st_in st0 = b :: rest /\ b_pos b = 0%nat /\
      buf_written b = l) \/
   (exists st pre b pend, filling s d st pre b /\ buf_written b = l /\
      pend `prefix_of` l /\ header_read s d pend st pre b)).

(** The outcome of a pass over [l], as the decoder has it. *)
Definition pass_sim (p : pass) (d : decoder) (l : list Z) (r : option dec_pass) : Prop :=
  match r with
  | Some DMore => exists s', p = Again s' /\ waiting s' d l
  | Some (DStop why d') => exists s', p = Stop (Finalized why) s' /\ app s' = d_app d'
  | Some (DNext d' rest) => exists s', p = Next s' rest /\ idle s' d' rest
  | None => False
  end.

Lemma filling_set s d st pre b st' pre' b' :
  filling s d st pre b -> st_in st' = pre' ++ [b'] ->
  Forall (fits (in_chunk_size s)) (pre' ++ [b']) ->
  filling (set_stream s (in_csid s) st') d st' pre' b'.
Proof.
  intros [Hs [Hl Ha] Hid Est Ein Hch] Ei Hf.
  assert (Z.to_nat (in_csid s) < length (in_streams s))%nat as Hlt
    by (eapply lookup_lt_Some, Est).
  constructor; auto.
  - replace d with (Dec (d_streams d) (d_chunk d) (d_app d)) by now destruct d.
    apply sim_set_stream; [done|]. now rewrite Ei.
  - split; cbn; [now rewrite length_insert|]. intros i Hi Hc.
    rewrite list_lookup_insert_ne by done. auto.
  - unfold get_stream. cbn. now apply list_lookup_insert_eq.
Qed.

Lemma header_done_in fmt st h ext ts l :
  with_in (header_done cscf fmt st h ext ts) l = header_done cscf fmt (with_in st l) h ext ts.
Proof. unfold header_done. cbn [st_len with_in]. repeat case_if; reflexivity. Qed.

Lemma header_done_st_in fmt st h ext ts : st_in (header_done cscf fmt st h ext ts) = st_in st.
Proof. unfold header_done. repeat case_if; reflexivity. Qed.

Lemma header_done_hdr fmt st h0 h ext ts :
  header_done cscf fmt (with_hdr st h0) h ext ts = header_done cscf fmt st h ext ts.
Proof. reflexivity. Qed.

(** The buffer with its read position behind the headers. *)
Lemma skip_fits size b p :
  fits size b -> (p <= length (buf_written b))%nat ->
  fits size (Buf (b_mem b) p (b_last b)) /\
  buf_data (Buf (b_mem b) p (b_last b)) = drop p (buf_written b).
Proof.
  intros [Hok He] Hp. rewrite length_buf_written in Hp by done. destruct Hok as (H1 & H2 & H3).
  split; [split; [|exact He]|exact (buf_data_written (Buf (b_mem b) p (b_last b)))].
  unfold buf_ok, b_end in *. cbn [b_mem b_pos b_last]. auto.
Qed.

(** The headers have been read: what is left is the payload. *)
Lemma payload_sim s d st pre b dst fmt n l h ext ts k :
  filling s d st pre b -> buf_written b = l -> bytes_ok l ->
  b_pos b = (n + k)%nat ->
  d_streams d !! Z.to_nat (in_csid s) = Some (dst, map buf_data pre) ->
  basic_header l = Some (fmt, in_csid s, n) -> in_csid s < max_streams cscf ->
  message_header fmt (opened (in_csid s) dst) (drop n l) = (h, Some (ext, ts, k)) ->
  with_in st [] = header_done cscf fmt (opened (in_csid s) dst) h ext ts ->
  mlen (st_hdr st) <= max_message cscf ->
  pass_sim (recv_body s) d l (dec_chunk d l).
Proof.
  intros Hf Hw Hl Hp Hd Hbh Hid Hmh Hst Hmax.
  assert (mlen (st_hdr (with_in st [])) <= max_message cscf) as Hmax' by exact Hmax.
  rewrite Hst in Hmax'.
  assert (dec_chunk d l = dec_body d (in_csid s) (with_in st []) (map buf_data pre) (buf_data b))
    as Edc.
  { unfold dec_chunk. rewrite Hbh. case_if; [lia|]. rewrite Hd, some_bind.
    fold (opened (in_csid s) dst). rewrite Hmh. case_if; [lia|].
    rewrite Hst, buf_data_written, Hw, Hp. reflexivity. }
  pose proof (recv_body_sim s d st pre b Hf) as H. rewrite <- Edc in H.
  unfold pass_sim. destruct (dec_chunk d l) as [[]|] eqn:Er; [|done..].
  exists s. split; [done|]. split; [apply Hf|]. split; [apply Hf|]. split; [done|].
  split; [done|]. right. exists st, pre, b. split; [done|]. split; [done|].
  exists dst, fmt, n. split_and!; auto. right. exists h, ext, ts, k. auto.
Qed.

(** The message header, from the start. *)
Lemma recv_header_sim s d st pre b dst fmt n l h0 :
  filling s d st pre b -> b_pos b = 0%nat -> buf_written b = l -> bytes_ok l ->
  d_streams d !! Z.to_nat (in_csid s) = Some (dst, map buf_data pre) ->
  basic_header l = Some (fmt, in_csid s, n) -> in_csid s < max_streams cscf ->
  with_in st [] = with_hdr (opened (in_csid s) dst) h0 ->
  message_header fmt (with_hdr (opened (in_csid s) dst) h0) (drop n l) =
    message_header fmt (opened (in_csid s) dst) (drop n l) ->
  pass_sim (recv_header s fmt n b) d l (dec_chunk d l).
Proof.
  intros Hf Hp Hw Hl Hd Hbh Hid Hst Hmh. unfold recv_header.
  rewrite (fl_st _ _ _ _ _ Hf), Hw. cbn [or_crash].
  assert (message_header fmt st (drop n l) =
          message_header fmt (opened (in_csid s) dst) (drop n l)) as ->.
  { rewrite <- Hmh, <- Hst. reflexivity. }
  pose proof (filling_fits _ _ _ _ _ Hf) as Hfits.
  destruct (message_header fmt (opened (in_csid s) dst) (drop n l)) as [h [[[ext ts] k]|]] eqn:Er.
  - apply Forall_app in Hfits as [Hpre Hb]. apply Forall_cons in Hb as [Hb _].
    pose proof (basic_header_len _ _ _ _ Hbh). pose proof (message_header_len _ _ _ _ _ _ _ Er) as Hk.
    rewrite length_drop in Hk.
    destruct (skip_fits (in_chunk_size s) b (n + k) Hb ltac:(rewrite Hw; lia)) as [Hb1 Ed1].
    set (b1 := Buf (b_mem b) (n + k) (b_last b)) in *.
    rewrite (set_in_buf_snoc (in_csid s) _ pre b b1);
      [|pose proof (fl_id _ _ _ _ _ Hf); lia|
        rewrite header_done_st_in; apply (fl_in _ _ _ _ _ Hf)].
    set (st1 := with_in (header_done cscf fmt st h ext ts) (pre ++ [b1])).
    assert (with_in st1 [] = header_done cscf fmt (opened (in_csid s) dst) h ext ts) as Est1.
    { unfold st1. change (with_in (header_done cscf fmt st h ext ts) [] =
        header_done cscf fmt (opened (in_csid s) dst) h ext ts).
      now rewrite header_done_in, Hst, header_done_hdr. }
    assert (filling (set_stream s (in_csid s) st1) d st1 pre b1) as Hf1.
    { eapply filling_set; [exact Hf|reflexivity|]. apply Forall_app. auto. }
    case_if.
    + unfold dec_chunk. rewrite Hbh. case_if; [lia|]. rewrite Hd, some_bind.
      fold (opened (in_csid s) dst). rewrite Er, <- Est1. case_if.
      * eexists. split; [reflexivity|]. apply (fl_sim _ _ _ _ _ Hf1).
      * exfalso. change (mlen (st_hdr (with_in st1 []))) with (mlen (st_hdr st1)) in *. lia.
    + eapply (payload_sim (set_stream s (in_csid s) st1)); try eassumption; [reflexivity..].
  - assert (dec_chunk d l = Some DMore) as Edc.
    { unfold dec_chunk. rewrite Hbh. case_if; [lia|]. rewrite Hd, some_bind.
      fold (opened (in_csid s) dst). now rewrite Er. }
    rewrite Edc. eexists. split; [reflexivity|].
    assert (filling (set_stream s (in_csid s) (with_hdr st h)) d (with_hdr st h) pre b) as Hf1.
    { eapply filling_set; [exact Hf|apply Hf|done]. }
    split; [apply Hf1|]. split; [apply Hf1|]. split; [done|]. split; [done|].
    right. exists (with_hdr st h), pre, b. split; [done|]. split; [done|].
    exists dst, fmt, n. split; [done|]. split; [done|]. split; [done|]. left. split; [done|].
    exists h. split; [done|].
    change (with_hdr (with_in st []) h = with_hdr (opened (in_csid s) dst) h). now rewrite Hst.
Qed.

Lemma link_orphan_sim s d st0 b rest id :
  sim s d -> agree 0 s d -> in_csid s = 0 -> in_chunk_size_changing s = false ->
  get_stream s 0 = Some st0 -> st_in st0 = b :: rest -> 2 <= id < max_streams cscf ->
  exists s' st dst,
    link_orphan s id = Some s' /\ in_csid s' = id /\
    d_streams d !! Z.to_nat id = Some (dst, map buf_data (st_in st)) /\
    filling s' d (opened id (with_in st (st_in st ++ [b]))) (st_in st) b /\
    with_in (opened id (with_in st (st_in st ++ [b]))) [] = opened id dst.
Proof.
  intros Hs [Hl Ha] Hz Hch E0 Ein Hid. pose proof (sim_len _ _ Hs) as Hlen.
  destruct (lookup_lt_is_Some_2 (in_streams s) (Z.to_nat id)) as [st Est]; [lia|].
  assert (Z.to_nat id <> 0%nat) as Hne by lia.
  unfold link_orphan. rewrite E0, some_bind, Ein. cbn [head]. rewrite some_bind.
  unfold get_stream at 1. cbn [in_streams set_stream set_streams].
  rewrite list_lookup_insert_ne by lia. rewrite Est, some_bind.
  eexists _, st, (with_in st []). split; [reflexivity|]. split; [reflexivity|].
  split. { rewrite Ha by lia. now rewrite Est. }
  split; [|reflexivity].
  pose proof (Forall_lookup_1 _ _ _ _ (sim_fits _ _ Hs) E0) as Hf0. cbv beta in Hf0. rewrite Ein in Hf0.
  apply Forall_cons in Hf0 as [Hb Hrest].
  pose proof (Forall_lookup_1 _ _ _ _ (sim_fits _ _ Hs) Est) as Hfst.
  constructor; cbn [in_csid set_in_csid]; try lia; auto.
  - apply sim_set_csid.
    replace d with (Dec (d_streams d) (d_chunk d) (d_app d)) by now destruct d.
    refine (sim_set_stream _ (Dec (d_streams d) (d_chunk d) (d_app d)) _ _ (d_streams d)
              (sim_set_stream s d _ _ (d_streams d) Hs _) _).
    + exact Hrest.
    + apply Forall_app. split; [exact Hfst|now constructor].
  - split; cbn; [now rewrite !length_insert|]. intros i Hi Hc.
    rewrite !list_lookup_insert_ne by (auto; lia). auto.
  - unfold get_stream. cbn. apply list_lookup_insert_eq. rewrite length_insert. lia.
Qed.

Lemma recv_parse_sim s d l :
  loaded s d l -> pass_sim (recv_parse s) d l (dec_chunk d l).
Proof.
  intros (Hl & Hch & [(Hz & Hs & Ha & st0 & b & rest & E0 & Ein & Hp & Hw)|
                      (st & pre & b & pend & Hf & Hw & [x ->] & dst & fmt & n & Hd & Hbh & Hid & Hh)]).
  - unfold recv_parse. rewrite Hz, E0. cbn [or_crash]. unfold in_buf. rewrite Ein. cbn [Z.eqb head or_crash].
    rewrite Hp. cbn [Nat.eqb]. rewrite Hw.
    destruct (basic_header l) as [[[fmt id] n]|] eqn:Eb.
    + case_if.
      { unfold dec_chunk. rewrite Eb. case_if; [|lia]. exists s. split; [done|apply Hs]. }
      pose proof (basic_header_id l fmt id n Hl Eb) as Hid.
      destruct (link_orphan_sim s d st0 b rest id) as (s1 & st & dst & -> & Hid1 & Hd & Hf & Hst); auto.
      cbn [or_crash]. subst id.
      eapply (recv_header_sim s1 d _ _ b dst fmt n l); [exact Hf|done..|].
      reflexivity.
    + assert (dec_chunk d l = Some DMore) as Edc by (unfold dec_chunk; now rewrite Eb).
      rewrite Edc. exists s. split; [done|]. split; [done|]. split; [done|]. split; [done|].
      split; [done|]. left. split; [done|]. split; [done|]. exists st0. rewrite Ein. auto.
  - pose proof (basic_header_len _ _ _ _ Hbh) as Hn.
    assert (drop n (pend ++ x) = drop n pend ++ x) as Edrop by (apply drop_app_le; lia).
    pose proof (basic_header_app _ x _ Hbh) as Hbh'.
    unfold recv_parse. rewrite (fl_st _ _ _ _ _ Hf). cbn [or_crash].
    rewrite (in_buf_snoc (in_csid s) st pre b);
      [|pose proof (fl_id _ _ _ _ _ Hf); lia|apply Hf]. cbn [or_crash].
    destruct Hh as [(Hp & h & Hmh & Hst)|(h & ext & ts & k & Hmh & Hp & Hst & Hmax)].
    + rewrite Hp, Hw, Hbh'. cbn [Nat.eqb]. case_if; [lia|]. pose proof (fl_id _ _ _ _ _ Hf).
      case_if; [lia|]. cbn [or_crash].
      eapply recv_header_sim; eauto. rewrite Edrop. now apply message_header_again.
    + destruct (b_pos b =? 0)%nat eqn:E0; bool_to_prop; [lia|].
      eapply payload_sim; eauto. rewrite Edrop. now apply message_header_app.
Qed.

(* ------------------------------------------------------------------ *)
(** ** More bytes do not change a chunk *)

Lemma dec_body_app d id st pieces l x :
  0 <= d_chunk d ->
  match dec_body d id st pieces l with
  | Some (DNext d' rest) => dec_body d id st pieces (l ++ x) = Some (DNext d' (rest ++ x))
  | Some (DStop why d') => dec_body d id st pieces (l ++ x) = Some (DStop why d')
  | Some DMore => True
  | None => dec_body d id st pieces (l ++ x) = None
  end.
Proof.
  intros Hc. unfold dec_body. set (fsize := u32 _). assert (0 <= fsize) by apply u32_bound.
  destruct (Z.of_nat (length l) <? Z.min fsize (d_chunk d)) eqn:E; [done|]. bool_to_prop.
  destruct (Z.of_nat (length (l ++ x)) <? Z.min fsize (d_chunk d)) eqn:E'; bool_to_prop.
  { rewrite length_app in E'. lia. }
  case_if.
  - rewrite take_app_le, drop_app_le by lia. done.
  - rewrite take_app_le, drop_app_le by lia.
    destruct (dec_message _ _ _) as [[rc d1]|]; [|done]. rewrite !some_bind. now case_decide.
Qed.

Lemma dec_chunk_app d l x :
  0 <= d_chunk d ->
  match dec_chunk d l with
  | Some (DNext d' rest) => dec_chunk d (l ++ x) = Some (DNext d' (rest ++ x))
  | Some (DStop why d') => dec_chunk d (l ++ x) = Some (DStop why d')
  | Some DMore => True
  | None => dec_chunk d (l ++ x) = None
  end.
Proof.
  intros Hc. unfold dec_chunk.
  destruct (basic_header l) as [[[fmt id] n]|] eqn:Eb; [|done].
  rewrite (basic_header_app _ x _ Eb). case_if; [done|].
  destruct (d_streams d !! Z.to_nat id) as [[st pieces]|]; [|done]. rewrite !some_bind.
  pose proof (basic_header_len _ _ _ _ Eb) as Hn. cbv zeta. rewrite (drop_app_le l x n) by lia.
  destruct (message_header _ _ (drop n l)) as [h [[[ext ts] k]|]] eqn:Em; [|done].
  rewrite (message_header_app _ _ _ x _ _ Em).
  pose proof (message_header_len _ _ _ _ _ _ _ Em) as Hk. rewrite length_drop in Hk.
  case_if; [done|]. rewrite (drop_app_le l x (n + k)) by lia. now apply dec_body_app.
Qed.

(** A chunk takes at least the byte of its basic header. *)
Lemma dec_chunk_shrinks d l d' rest :
  dec_chunk d l = Some (DNext d' rest) -> (length rest < length l)%nat.
Proof.
  unfold dec_chunk. destruct (basic_header l) as [[[fmt id] n]|] eqn:Eb; [|done].
  case_if; [done|]. destruct (d_streams d !! Z.to_nat id) as [[st pieces]|]; [|done].
  rewrite some_bind. cbv zeta.
  destruct (message_header _ _ (drop n l)) as [h [[[ext ts] k]|]] eqn:Em; [|done].
  case_if; [done|]. pose proof (basic_header_len _ _ _ _ Eb) as Hn. unfold dec_body.
  case_if; [done|]. case_if.
  - intros [= <- <-]. rewrite !length_drop. lia.
  - destruct (dec_message _ _ _) as [[rc d1]|]; [|done]. rewrite some_bind.
    case_decide; [|done]. intros [= <- <-]. rewrite !length_drop. lia.
Qed.

(** An incomplete chunk is shorter than a buffer: a header has at most 18
    bytes. *)
Lemma ext_header_short ext ts l : ext_header ext ts l = None -> (length l < 4)%nat.
Proof. destruct ext; [|done]. destruct l as [|? [|? [|? [|? ?]]]]; cbn; [lia..|done]. Qed.

Lemma message_header_short fmt st l h :
  message_header fmt st l = (h, None) -> (length l < 15)%nat.
Proof.
  assert (forall ext ts n m, add_len n (ext_header ext ts m) = None -> (length m < 4)%nat) as Ha.
  { intros ext ts n m. destruct (ext_header ext ts m) as [[[? ?] ?]|] eqn:E; [done|].
    intros _. now apply ext_header_short in E. }
  unfold message_header.
  case_if; [|intros [= <- H%ext_header_short]; lia].
  destruct l as [|t2 [|t1 [|t0 l]]]; try (intros _; cbn; lia).
  case_if; [|intros [= <- H%Ha]; cbn; lia].
  destruct l as [|m2 [|m1 [|m0 [|ty l]]]]; try (intros _; cbn; lia).
  case_if; [|intros [= <- H%Ha]; cbn; lia].
  destruct l as [|s0 [|s1 [|s2 [|s3 l]]]]; try (intros _; cbn; lia).
  intros [= <- H%Ha]. cbn. lia.
Qed.

Lemma basic_header_max l fmt id n : basic_header l = Some (fmt, id, n) -> (n <= 3)%nat.
Proof.
  destruct l as [|p0 l]; [done|]. cbn [basic_header].
  case_if; [destruct l|case_if; [destruct l as [|? [|? ?]]|]]; intros [= <- <- <-]; lia.
Qed.

Lemma message_header_max fmt st l h e t k :
  message_header fmt st l = (h, Some (e, t, k)) -> (k <= 15)%nat.
Proof.
  assert (forall ext ts m j, ext_header ext ts m = Some (e, t, j) -> (j <= 4)%nat) as Hx.
  { intros ext ts m j. destruct ext; cbn; [|intros [= <- <- <-]; lia].
    destruct m as [|? [|? [|? [|? ?]]]]; try done. intros [= <- <- <-]. lia. }
  assert (forall ext ts n m, (n <= 11)%nat -> add_len n (ext_header ext ts m) = Some (e, t, k) ->
            (k <= 15)%nat) as Ha.
  { intros ext ts n m Hn E. apply add_len_Some in E as (j & E%Hx & ->). lia. }
  unfold message_header.
  case_if; [|intros [= <- H%Hx]; lia].
  destruct l as [|t2 [|t1 [|t0 l]]]; try done.
  case_if; [|intros [= <- H%Ha]; lia].
  destruct l as [|m2 [|m1 [|m0 [|ty l]]]]; try done.
  case_if; [|intros [= <- H%Ha]; lia].
  destruct l as [|s0 [|s1 [|s2 [|s3 l]]]]; try done. intros [= <- H%Ha]; lia.
Qed.

Lemma dec_more_short d l :
  0 <= d_chunk d -> dec_chunk d l = Some DMore -> (length l < dec_cap (d_chunk d))%nat.
Proof.
  intros Hc. unfold dec_chunk, dec_cap, NGX_RTMP_MAX_CHUNK_HEADER.
  destruct (basic_header l) as [[[fmt id] n]|] eqn:Eb.
  2: { intros _. destruct l as [|p0 l]; [cbn; lia|]. cbn [basic_header] in Eb.
       destruct (Z.land p0 63 =? 0); [destruct l; [cbn; lia|done]|].
       destruct (Z.land p0 63 =? 1); [|done].
       destruct l as [|? [|? ?]]; [cbn; lia..|done]. }
  pose proof (basic_header_max _ _ _ _ Eb) as Hn.
  case_if; [done|]. destruct (d_streams d !! Z.to_nat id) as [[st pieces]|]; [|done].
  rewrite some_bind. cbv zeta.
  destruct (message_header _ _ (drop n l)) as [h [[[ext ts] k]|]] eqn:Em.
  - pose proof (message_header_max _ _ _ _ _ _ _ Em) as Hk.
    case_if; [done|]. unfold dec_body. case_if; [|case_if; [done|]].
    + intros _. rewrite length_drop in *. lia.
    + destruct (dec_message _ _ _) as [[rc d1]|]; [|done]. rewrite some_bind. now case_decide.
  - intros _. apply message_header_short in Em. rewrite length_drop in Em. lia.
Qed.

Lemma decode_enough n m d l :
  (length l < n)%nat -> (length l < m)%nat -> decode n d l = decode m d l.
Proof.
  revert m d l. induction n as [|n IH]; intros m d l Hn Hm; [lia|].
  destruct m as [|m]; [lia|]. cbn [decode].
  destruct (dec_chunk d l) as [[| |d' rest]|] eqn:E; try done.
  apply dec_chunk_shrinks in E. apply IH; lia.
Qed.

(* ------------------------------------------------------------------ *)
(** ** The receive loop *)

(** The acknowledgements are sent and do not concern the modules. *)
Hypothesis ack_quiet : forall a n, ngx_rtmp_send_ack a n = (NGX_OK, a).

Lemma recv_account_ok s n :
  exists bytes last bw,
    recv_account s n =
    (true, Session (in_streams s) (in_csid s) (in_chunk_size s) (in_chunk_size_changing s)
             (in_pool s) (in_old_pool s) bytes last (ack_size s) true bw (app s)).
Proof.
  unfold recv_account. cbv zeta.
  set (s1 := if 0xf0000000 <=? _ then _ else _).
  assert (exists bytes last bw,
    s1 = Session (in_streams s) (in_csid s) (in_chunk_size s) (in_chunk_size_changing s)
             (in_pool s) (in_old_pool s) bytes last (ack_size s) true bw (app s))
    as (bytes & last & bw & ->) by (unfold s1; case_if; do 3 eexists; reflexivity).
  case_if; [|do 3 eexists; reflexivity]. rewrite ack_quiet. rewrite bool_decide_eq_true_2 by done.
  do 3 eexists. reflexivity.
Qed.

Lemma loaded_account s d l bytes last bw p :
  loaded s d l ->
  loaded (Session (in_streams s) (in_csid s) (in_chunk_size s) (in_chunk_size_changing s)
            (in_pool s) (in_old_pool s) bytes last (ack_size s) p bw (app s)) d l.
Proof.
  intros (Hl & Hch & H). split; [done|]. split; [done|].
  destruct H as [(Hz & [] & Ha & H)|(st & pre & b & pend & [[] ? ? ? ? ?] & Hw & Hp & Hh)].
  - left. split; [done|]. split; [now constructor|]. split; [exact Ha|exact H].
  - right. exists st, pre, b, pend. split; [constructor; auto; now constructor|].
    split; [done|]. split; [done|]. exact Hh.
Qed.

(** The states the decoder goes through from [d0]. *)
Inductive dec_reach (d0 : decoder) : decoder -> Prop :=
  | reach_start : dec_reach d0 d0
  | reach_chunk d l d' rest :
      dec_reach d0 d -> dec_chunk d l = Some (DNext d' rest) -> dec_reach d0 d'.

(** A message received after [d0] makes the chunks smaller. *)
Definition shrinks (d0 : decoder) : Prop :=
  exists d l d' rest, dec_reach d0 d /\ dec_chunk d l = Some (DNext d' rest) /\
    d_chunk d' < d_chunk d.

(** The session at the head of the loop, and the bytes not yet consumed. *)
Definition at_head (d0 : decoder) s (d : decoder) (old : option (list Z)) (pend : list Z)
  : Prop :=
  dec_reach d0 d /\
  match old with
  | Some l => idle s d l /\ pend = l /\ ((length l <= dec_cap (d_chunk d))%nat \/ shrinks d0)
  | None => waiting s d pend
  end.

Definition ensured s (st : ngx_rtmp_stream_t) : ngx_rtmp_stream_t :=
  match st_in st with
  | [] => with_in st [ngx_rtmp_alloc_in_buf (in_chunk_size s)]
  | _ => st
  end.

Lemma set_same_stream s n st : get_stream s n = Some st -> set_stream s n st = s.
Proof.
  intros E. unfold set_stream. rewrite list_insert_id by exact E. now destruct s.
Qed.

Lemma agree_zero s d st : agree 0 s d -> agree 0 (set_stream s 0 st) d.
Proof.
  intros [Hl Ha]. split; cbn; [now rewrite length_insert|]. intros i Hi _.
  rewrite list_lookup_insert_ne by (intros H; apply Hi; rewrite <- H; reflexivity). auto.
Qed.

Lemma sim_set s d n st :
  sim s d -> Forall (fits (in_chunk_size s)) (st_in st) -> sim (set_stream s n st) d.
Proof.
  intros Hs Hf. replace d with (Dec (d_streams d) (d_chunk d) (d_app d)) by now destruct d.
  now apply sim_set_stream.
Qed.

Lemma zero_stream s d : sim s d -> exists st0, get_stream s 0 = Some st0.
Proof. intros Hs. apply lookup_lt_is_Some_2. exact (sim_zero _ _ Hs). Qed.

(** The first free buffer, allocated if there is none. *)
Lemma ensured_zero s st0 :
  bufs_fit (in_chunk_size s) (in_streams s) -> get_stream s 0 = Some st0 ->
  exists b rest, st_in (ensured s st0) = b :: rest /\
    Forall (fits (in_chunk_size s)) (b :: rest) /\
    (st_in st0 = [] -> b_pos b = 0%nat /\ buf_written b = []) /\
    (st_in st0 <> [] -> ensured s st0 = st0).
Proof.
  intros Hf E0. pose proof (Forall_lookup_1 _ _ _ _ Hf E0) as Hf0. cbv beta in Hf0.
  unfold ensured. destruct (st_in st0) as [|b rest] eqn:Ein.
  - exists (ngx_rtmp_alloc_in_buf (in_chunk_size s)), []. split; [done|].
    split; [constructor; [apply alloc_fits|constructor]|]. done.
  - exists b, rest. rewrite Ein. done.
Qed.

Lemma reset_fits size b l :
  fits size b -> bytes_ok l -> (length l <= dec_cap size)%nat ->
  let b' := buf_push (Buf (b_mem b) 0 0) l in
  fits size b' /\ b_pos b' = 0%nat /\ buf_written b' = l.
Proof.
  intros [Hok He] Hl Hlen b'. destruct Hok as (H1 & H2 & H3). unfold b_end in *.
  assert (buf_ok (Buf (b_mem b) 0 0)) as Hok0.
  { unfold buf_ok, b_end. cbn [b_mem b_pos b_last]. split_and!; auto; lia. }
  assert (length l <= buf_room (Buf (b_mem b) 0 0))%nat as Hr.
  { unfold buf_room, b_end. cbn [b_mem b_last]. lia. }
  split; [split; [now apply buf_push_ok|]|split; [done|]].
  - unfold b'. rewrite buf_push_end by done. exact He.
  - unfold b'. now rewrite buf_written_push.
Qed.

(** The current buffer of a session that reads: its contents and its room. *)
Lemma waiting_buf s d pend :
  waiting s d pend ->
  exists st b, get_stream s (in_csid s) = Some st /\
    in_buf (in_csid s) (ensured s st) = Some b /\ (0 < buf_room b)%nat /\
    buf_written b = pend /\ fits (in_chunk_size s) b /\
    waiting (set_stream s (in_csid s) (ensured s st)) d pend /\
    (forall x, bytes_ok x -> (length x <= buf_room b)%nat ->
       loaded (set_stream s (in_csid s)
                 (set_in_buf (in_csid s) (ensured s st) (buf_push b x))) d (pend ++ x)).
Proof.
  intros (Hs & Hch & Hb & Hdc & H).
  pose proof (sim_pos _ _ Hs) as Hpos. rewrite (sim_chunk _ _ Hs) in Hpos.
  pose proof (dec_more_short d pend Hpos Hdc) as Hshort. rewrite <- (sim_chunk _ _ Hs) in Hshort.
  assert (forall b, fits (in_chunk_size s) b -> buf_written b = pend -> (0 < buf_room b)%nat) as Hroom.
  { intros b [Hok He] Hw. unfold buf_room. rewrite He.
    rewrite <- Hw, length_buf_written in Hshort by done. lia. }
  assert (forall b x, fits (in_chunk_size s) b -> buf_written b = pend -> bytes_ok x ->
    (length x <= buf_room b)%nat -> fits (in_chunk_size s) (buf_push b x) /\
    buf_written (buf_push b x) = pend ++ x) as Hpush.
  { intros b x [Hok He] Hw Hx Hr. split; [split; [now apply buf_push_ok|]|].
    - now rewrite buf_push_end.
    - now rewrite buf_written_push, Hw. }
  destruct H as [(Hz & Ha & st0 & E0 & Hst0 & Hbh)|(st & pre & b & Hf & Hw & Hh)].
  - destruct (ensured_zero s st0 (sim_fits _ _ Hs) E0) as (b & rest & Ein & Hfit & He1 & He2).
    assert (b_pos b = 0%nat /\ buf_written b = pend) as [Hp Hw].
    { destruct (st_in st0) as [|b0 r0] eqn:E.
      - destruct (He1 eq_refl) as [? Hw]. rewrite Hst0. auto.
      - rewrite He2, E in Ein by done. injection Ein as -> ->. apply Hst0. }
    rewrite Hz. exists st0, b. split; [done|]. split; [unfold in_buf; rewrite Ein; reflexivity|].
    apply Forall_cons in Hfit as [Hfb Hfr].
    split; [now apply Hroom|]. split; [done|]. split; [done|].
    assert (sim (set_stream s 0 (ensured s st0)) d) as Hs'.
    { apply sim_set; [done|]. rewrite Ein. now constructor. }
    split.
    + split; [done|]. split; [done|]. split; [done|]. split; [done|]. left. split; [exact Hz|].
      split; [now apply agree_zero|]. exists (ensured s st0). split.
      { unfold get_stream. cbn. apply list_lookup_insert_eq. exact (sim_zero _ _ Hs). }
      rewrite Ein. auto.
    + intros x Hx Hr. destruct (Hpush b x Hfb Hw Hx Hr) as [Hf' Hw'].
      split; [apply bytes_ok_app; auto|]. split; [done|]. left. split; [exact Hz|].
      unfold set_in_buf. rewrite Ein. cbn [Z.eqb drop].
      split; [apply sim_set; [done|]; now constructor|]. split; [now apply agree_zero|].
      eexists _, _, _. split.
      { unfold get_stream. cbn. apply list_lookup_insert_eq. exact (sim_zero _ _ Hs). }
      split; [reflexivity|]. auto.
  - pose proof (filling_fits _ _ _ _ _ Hf) as Hfits. apply Forall_app in Hfits as [Hpre Hfb].
    apply Forall_cons in Hfb as [Hfb _]. pose proof (fl_id _ _ _ _ _ Hf) as Hid.
    pose proof (fl_in _ _ _ _ _ Hf) as Ein.
    assert (ensured s st = st) as Ee by (unfold ensured; rewrite Ein; now destruct pre).
    exists st, b. rewrite Ee. split; [apply Hf|].
    split; [apply (in_buf_snoc (in_csid s) st pre b); [lia|done]|].
    split; [now apply Hroom|]. split; [done|]. split; [done|].
    rewrite set_same_stream by apply Hf. split.
    + split; [done|]. split; [done|]. split; [done|]. split; [done|]. right. eauto 8.
    + intros x Hx Hr. destruct (Hpush b x Hfb Hw Hx Hr) as [Hf' Hw'].
      rewrite (set_in_buf_snoc (in_csid s) st pre b) by (lia || done).
      split; [apply bytes_ok_app; auto|]. split; [done|]. right.
      exists (with_in st (pre ++ [buf_push b x])), pre, (buf_push b x), pend. split.
      { eapply filling_set; [exact Hf|reflexivity|]. apply Forall_app. auto. }
      split; [done|]. split; [now apply prefix_app_r|]. exact Hh.
Qed.

Lemma free_list_set s d st0 l :
  sim s d -> agree 0 s d -> Forall (fits (in_chunk_size s)) l ->
  let s' := set_stream s 0 (with_in st0 l) in
  sim s' d /\ agree 0 s' d /\ get_stream s' 0 = Some (with_in st0 l).
Proof.
  intros Hs Ha Hl. split; [now apply sim_set|]. split; [now apply agree_zero|].
  unfold get_stream. cbn. apply list_lookup_insert_eq. exact (sim_zero _ _ Hs).
Qed.

(** The start of a chunk in a fresh buffer. *)
Lemma idle_loaded s d l st0 b rest :
  idle s d l -> l <> [] -> get_stream s 0 = Some st0 -> st_in (ensured s st0) = b :: rest ->
  (length l <= b_end b)%nat ->
  let s1 := set_stream s 0 (set_in_buf 0 (ensured s st0) (buf_push (Buf (b_mem b) 0 0) l)) in
  loaded (if in_chunk_size_changing s1 then ngx_rtmp_finalize_set_chunk_size s1 else s1) d l.
Proof.
  intros (Hs & Ha & Hz & Hb & Hch) Hne E0 Ein Hlen.
  destruct (ensured_zero s st0 (sim_fits _ _ Hs) E0) as (b' & rest' & Ein' & Hfit & _).
  rewrite Ein in Ein'. injection Ein' as <- <-. apply Forall_cons in Hfit as [Hfb Hfr].
  destruct (reset_fits (in_chunk_size s) b l Hfb Hb) as (Hf' & Hp' & Hw').
  { destruct Hfb as [_ He]. lia. }
  unfold set_in_buf. rewrite Ein. cbn [Z.eqb drop]. cbv zeta.
  set (s1 := set_stream s 0 _).
  assert (sim s1 d) as Hs1 by (apply sim_set; [done|]; now constructor).
  assert (agree 0 s1 d) as Ha1 by now apply agree_zero.
  assert (forall s2, in_streams s2 = in_streams s1 -> in_csid s2 = 0 ->
    in_chunk_size_changing s2 = false -> sim s2 d -> agree 0 s2 d -> loaded s2 d l) as H.
  { intros s2 E1 E2 E3 E4 E5. split; [done|]. split; [done|]. left. split; [done|].
    split; [done|]. split; [done|]. eexists _, _, _. unfold get_stream. rewrite E1. cbn.
    rewrite list_lookup_insert_eq by exact (sim_zero _ _ Hs). split; [reflexivity|].
    split; [reflexivity|]. auto. }
  change (in_chunk_size_changing s1) with (in_chunk_size_changing s).
  destruct (in_chunk_size_changing s) eqn:Ec; [|now apply H].
  destruct (Hch eq_refl) as [Ho _]. unfold ngx_rtmp_finalize_set_chunk_size.
  change (in_chunk_size_changing s1) with (in_chunk_size_changing s).
  change (in_old_pool s1) with (in_old_pool s). rewrite Ec, Ho. cbn [andb].
  apply H; auto. destruct Hs1. now constructor.
Qed.

(** Nothing is left over: the session waits with a fresh buffer. *)
Lemma idle_waiting s d st0 b rest :
  idle s d [] -> get_stream s 0 = Some st0 -> st_in (ensured s st0) = b :: rest ->
  let b' := Buf (b_mem b) 0 0 in
  let s1 := set_stream s 0 (set_in_buf 0 (ensured s st0) b') in
  waiting s1 d [] /\ (0 < buf_room b')%nat /\
  (forall x, bytes_ok x -> (length x <= buf_room b')%nat ->
     loaded (set_stream s 0 (set_in_buf 0 (ensured s st0) (buf_push b' x))) d x).
Proof.
  intros Hi E0 Ein b' s1. pose proof Hi as (Hs & Ha & Hz & Hb & Hch).
  assert (in_chunk_size_changing s = false) as Hc
    by (destruct (in_chunk_size_changing s); [now destruct (Hch eq_refl)|done]).
  destruct (ensured_zero s st0 (sim_fits _ _ Hs) E0) as (b'' & rest' & Ein' & Hfit & _).
  rewrite Ein in Ein'. injection Ein' as <- <-. apply Forall_cons in Hfit as [Hfb Hfr].
  destruct (reset_fits (in_chunk_size s) b [] Hfb) as (Hf' & Hp' & Hw'); [constructor|cbn; lia|].
  rewrite buf_push_nil in *. fold b' in Hf', Hp', Hw'.
  assert (forall x, bytes_ok x -> (length x <= buf_room b')%nat ->
     fits (in_chunk_size s) (buf_push b' x) /\ b_pos (buf_push b' x) = 0%nat /\
     buf_written (buf_push b' x) = x) as Hx.
  { intros x Hx Hr. apply reset_fits; auto. destruct Hfb as [_ He]. unfold buf_room, b_end in *.
    cbn [b_mem b_last b'] in Hr. lia. }
  unfold s1, set_in_buf. rewrite Ein. cbn [Z.eqb drop].
  pose proof (fun b1 H => free_list_set s d (ensured s st0) (b1 :: rest) Hs Ha
                (Forall_cons_2 _ _ _ H Hfr)) as Hset.
  split; [|split].
  - destruct (Hset b' Hf') as (H1 & H2 & H3). split; [done|]. split; [done|].
    split; [constructor|]. split; [done|]. left. split; [done|]. split; [done|].
    eexists. split; [exact H3|]. cbn [st_in with_in]. auto.
  - destruct Hfb as [_ He]. unfold buf_room, b_end, b' in *. cbn [b_mem b_last]. rewrite He.
    unfold dec_cap, NGX_RTMP_MAX_CHUNK_HEADER. lia.
  - intros x Hxb Hr. destruct (Hx x Hxb Hr) as (Hf1 & Hp1 & Hw1).
    destruct (Hset (buf_push b' x) Hf1) as (H1 & H2 & H3). split; [done|]. split; [done|].
    left. split; [done|]. split; [done|]. split; [done|]. eexists _, _, _.
    split; [exact H3|]. split; [reflexivity|]. auto.
Qed.

(** A socket that only delivers bytes, and these bytes. *)
Definition only_data (sock : list sock_ev) : Prop :=
  Forall (fun e => exists d, e = Data d /\ d <> [] /\ bytes_ok d) sock.
Definition sock_bytes (sock : list sock_ev) : list Z :=
  concat (map (fun e => match e with Data d => d | Closed => [] end) sock).

Lemma c_recv_data room sock :
  only_data sock -> (0 < room)%nat ->
  match c_recv room sock with
  | RAgain => sock = []
  | RClosed => False
  | RData x sock' =>
      x <> [] /\ bytes_ok x /\ (length x <= room)%nat /\ only_data sock' /\
      sock_bytes sock = x ++ sock_bytes sock'
  end.
Proof.
  intros Hs Hr. destruct sock as [|e sock]; [done|]. apply Forall_cons in Hs as [(x & -> & Hx & Hb) Hs].
  cbn [c_recv]. case_if; [done|]. split_and!; auto with lmss.
  - intros H%(f_equal length). rewrite length_take in H. cbn in H. destruct x; [done|cbn in *; lia].
  - rewrite length_take. lia.
  - constructor; [|done]. exists (drop room x). split_and!; auto with lmss.
    intros H%(f_equal length). rewrite length_drop in H. cbn in H. lia.
  - unfold sock_bytes. cbn [map concat]. now rewrite app_assoc, take_drop.
Qed.

(** What the loop returns, against the decoder. *)
Definition loop_sim (d0 : decoder) (r : option (outcome * session A * list sock_ev))
    (d : decoder) (l : list Z) : Prop :=
  exists o s' sock', r = Some (o, s', sock') /\
    (o = Overflow /\ shrinks d0 \/
     exists n why d' rest, decode n d l = Some (why, d', rest) /\
       match why with
       | None => o = Waiting /\ sock' = [] /\ waiting s' d' rest
       | Some why => o = Finalized why /\ app s' = d_app d'
       end).

Lemma loop_sim_next d0 r d l d' rest x :
  dec_chunk d l = Some (DNext d' rest) -> 0 <= d_chunk d ->
  loop_sim d0 r d' (rest ++ x) -> loop_sim d0 r d (l ++ x).
Proof.
  intros E Hc (o & s' & sock' & Er & H). exists o, s', sock'. split; [done|].
  destruct H as [H|(n & why & d'' & rest' & En & H)]; [now left|right].
  exists (S n), why, d'', rest'. split; [|done]. cbn [decode].
  pose proof (dec_chunk_app d l x Hc) as Ha. rewrite E in Ha. now rewrite Ha.
Qed.

Lemma loop_sim_stop d0 s o sock d l d' why x :
  dec_chunk d l = Some (DStop why d') -> 0 <= d_chunk d -> o = Finalized why ->
  app s = d_app d' -> loop_sim d0 (Some (o, s, sock)) d (l ++ x).
Proof.
  intros E Hc -> Ha. exists (Finalized why), s, sock. split; [done|]. right.
  exists 1%nat, (Some why), d', (l ++ x). split; [|done]. cbn [decode].
  pose proof (dec_chunk_app d l x Hc) as H. rewrite E in H. now rewrite H.
Qed.

(** Bytes still to be looked at; the passes are bounded by it. *)
Definition work (old : option (list Z)) (pend : list Z) (sock : list sock_ev) : nat :=
  2 * length (sock_bytes sock) + length pend + match old with Some _ => 1 | None => 0 end.

Definition loop_ok (fuel : nat) : Prop := forall d0 s d old pend sock,
  at_head d0 s d old pend -> only_data sock -> (work old pend sock < fuel)%nat ->
  loop_sim d0 (recv_loop fuel s old sock) d (pend ++ sock_bytes sock).

Lemma loaded_chunk s d l : loaded s d l -> 0 <= d_chunk d.
Proof.
  intros (_ & _ & [(_ & Hs & _)|(st & pre & b & pend & Hf & _)]);
    [|pose proof (fl_sim _ _ _ _ _ Hf) as Hs]; rewrite <- (sim_chunk _ _ Hs); apply Hs.
Qed.

Lemma loaded_len s d l : loaded s d l -> (length l <= dec_cap (d_chunk d))%nat.
Proof.
  assert (forall b, fits (d_chunk d) b -> (length (buf_written b) <= dec_cap (d_chunk d))%nat) as H.
  { intros b [Hok He]. rewrite length_buf_written, <- He by done. apply Hok. }
  intros (_ & _ & [(_ & Hs & _ & st0 & b & rest & E0 & Ein & _ & <-)|
                   (st & pre & b & pend & Hf & <- & _)]); apply H.
  - pose proof (Forall_lookup_1 _ _ _ _ (sim_fits _ _ Hs) E0) as Hf. cbv beta in Hf.
    rewrite Ein, (sim_chunk _ _ Hs) in Hf. now apply Forall_cons in Hf as [? _].
  - pose proof (filling_fits _ _ _ _ _ Hf) as Hfits.
    rewrite (sim_chunk _ _ (fl_sim _ _ _ _ _ Hf)) in Hfits.
    apply Forall_app in Hfits as [_ Hb]. now apply Forall_cons in Hb as [? _].
Qed.

Lemma parse_step fuel d0 s d l sock :
  loop_ok fuel -> dec_reach d0 d -> loaded s d l -> only_data sock ->
  (2 * length (sock_bytes sock) + length l < fuel)%nat ->
  loop_sim d0 (match recv_parse s with
            | Again s => recv_loop fuel s None sock
            | Next s old => recv_loop fuel s (Some old) sock
            | Stop o s => Some (o, s, sock)
            end) d (l ++ sock_bytes sock).
Proof.
  intros IH Hre Hl Hd Hw. pose proof (loaded_chunk _ _ _ Hl) as Hc.
  pose proof (recv_parse_sim s d l Hl) as Hp. unfold pass_sim in Hp.
  destruct (dec_chunk d l) as [[|why d'|d' rest]|] eqn:E; [..|done].
  - destruct Hp as (s' & -> & Hw'). apply IH; [now split|done|]. unfold work. lia.
  - destruct Hp as (s' & -> & Ha). eapply loop_sim_stop; eauto.
  - destruct Hp as (s' & -> & Hi). eapply loop_sim_next; [exact E|done|].
    pose proof (dec_chunk_shrinks _ _ _ _ E) as Hsh. apply IH; [|done|unfold work; lia].
    split; [eapply reach_chunk; eauto|]. split; [done|]. split; [done|].
    destruct (Z.lt_ge_cases (d_chunk d') (d_chunk d)); [right; now exists d, l, d', rest|left].
    pose proof (loaded_len _ _ _ Hl). unfold dec_cap in *. lia.
Qed.

(** A [recv] into the buffer [b] of a session that waits. *)
Lemma recv_step fuel d0 s st d pend sock b :
  loop_ok fuel -> dec_reach d0 d -> waiting s d pend -> (0 < buf_room b)%nat -> only_data sock ->
  (forall x, bytes_ok x -> (length x <= buf_room b)%nat ->
     loaded (set_stream s (in_csid s) (set_in_buf (in_csid s) st (buf_push b x))) d (pend ++ x)) ->
  (2 * length (sock_bytes sock) + length pend < S fuel)%nat ->
  loop_sim d0
    (match c_recv (buf_room b) sock with
     | RAgain => Some (Waiting, s, sock)
     | RClosed => Some (Finalized PeerClosed, s, sock)
     | RData [] sock =>
         Some (Finalized (if (buf_room b =? 0)%nat then FullBuffer else PeerClosed), s, sock)
     | RData ((_ :: _) as x) sock =>
         match recv_account
                 (set_stream s (in_csid s) (set_in_buf (in_csid s) st (buf_push b x)))
                 (Z.of_nat (length x)) with
         | (false, s) => Some (Finalized AckFailed, s, sock)
         | (true, s) =>
             match recv_parse s with
             | Again s => recv_loop fuel s None sock
             | Next s old => recv_loop fuel s (Some old) sock
             | Stop o s => Some (o, s, sock)
             end
         end
     end) d (pend ++ sock_bytes sock).
Proof.
  intros IH Hre Hwt Hr Hd Hx Hw. pose proof (c_recv_data (buf_room b) sock Hd Hr) as H.
  destruct (c_recv (buf_room b) sock) as [| |x sock']; [|done|].
  - subst sock. unfold sock_bytes. cbn [map concat]. rewrite app_nil_r.
    exists Waiting, s, []. split; [done|]. right. exists 1%nat, None, d, pend.
    cbn [decode]. rewrite (proj1 (proj2 (proj2 (proj2 Hwt)))). auto.
  - destruct H as (Hne & Hxb & Hxl & Hd' & Es). rewrite Es in *. destruct x as [|x0 x]; [done|].
    specialize (Hx (x0 :: x) Hxb Hxl).
    edestruct recv_account_ok as (bytes & last & bw & ->).
    rewrite app_assoc. apply parse_step; [done|done|exact (loaded_account _ _ _ _ _ _ _ Hx)|done|].
    rewrite !length_app in *. cbn [length] in *. lia.
Qed.

Lemma set_stream_twice s n x y : set_stream (set_stream s n x) n y = set_stream s n y.
Proof. unfold set_stream. cbn. now rewrite list_insert_insert_eq. Qed.

Lemma set_in_buf_same id st b : in_buf id st = Some b -> set_in_buf id st b = st.
Proof.
  unfold in_buf, set_in_buf. destruct st as [h dt ln ex l]. cbn [st_in].
  case_if; intros H.
  - destruct l; [done|]. now injection H as ->.
  - apply last_Some in H as [l' ->]. unfold with_in. cbn. f_equal.
    rewrite length_app. cbn [length]. replace (length l' + 1 - 1)%nat with (length l') by lia.
    now rewrite take_app_length.
Qed.

Lemma recv_loop_sim fuel : loop_ok fuel.
Proof.
  induction fuel as [|fuel IH]; intros d0 s d old pend sock [Hre Hh] Hd Hw; [lia|].
  cbn [recv_loop]. unfold work in Hw. destruct old as [l|].
  - destruct Hh as (Hi & -> & Hlen). pose proof Hi as (Hs & _ & Hz & _). rewrite Hz.
    destruct (zero_stream s d Hs) as [st0 E0]. rewrite E0. fold (ensured s st0).
    destruct (ensured_zero s st0 (sim_fits _ _ Hs) E0) as (b & rest & Ein & Hfit & _).
    assert (in_csid (set_stream s 0 (ensured s st0)) = 0) as Hz1 by exact Hz. rewrite Hz1.
    unfold in_buf at 1. rewrite Ein. cbn [Z.eqb head]. destruct l as [|x l].
    + cbv zeta. rewrite !set_stream_twice.
      destruct (idle_waiting s d st0 b rest Hi E0 Ein) as (Hw1 & Hr & Hx).
      apply recv_step; auto; [|cbn [length] in *; lia]. intros x Hxb Hxl.
      change (in_csid (set_stream s 0 _)) with (in_csid s). rewrite Hz, set_stream_twice. auto.
    + case_if.
      { exists Overflow. do 2 eexists. split; [reflexivity|]. left. split; [done|].
        destruct Hlen as [Hlen|]; [exfalso|done].
        apply Forall_cons in Hfit as [[_ He] _]. rewrite <- (sim_chunk _ _ Hs) in Hlen. lia. }
      cbv zeta. rewrite set_stream_twice. apply parse_step; [done|done| |done|lia].
      now apply (idle_loaded s d (x :: l) st0 b rest).
  - destruct (waiting_buf s d pend Hh) as (st & b & Est & Eb & Hr & Hwr & Hfb & Hw1 & Hx).
    rewrite Est. fold (ensured s st). cbv zeta.
    change (in_csid (set_stream s (in_csid s) (ensured s st))) with (in_csid s).
    rewrite Eb. cbv iota zeta. rewrite set_stream_twice, (set_in_buf_same _ _ _ Eb).
    apply recv_step; auto; [|lia]. intros x Hxb Hxl.
    change (in_csid (set_stream s _ _)) with (in_csid s). rewrite set_stream_twice. auto.
Qed.

Definition decode_all (d : decoder) (l : list Z) : option (option reason * decoder * list Z) :=
  decode (S (length l)) d l.

Lemma decode_more n m d l r : decode n d l = Some r -> (n <= m)%nat -> decode m d l = Some r.
Proof.
  revert m d l. induction n as [|n IH]; intros m d l H Hm; [done|]. destruct m as [|m]; [lia|].
  cbn [decode] in *. destruct (dec_chunk d l) as [[| |d' rest]|]; try done. apply IH; [done|lia].
Qed.

Lemma decode_decode_all n d l r : decode n d l = Some r -> decode_all d l = Some r.
Proof.
  intros H. unfold decode_all. rewrite (decode_enough _ (max n (S (length l)))) by lia.
  eapply decode_more; [exact H|lia].
Qed.

Lemma recv_decodes fuel s d pend sock :
  waiting s d pend -> only_data sock -> (work None pend sock < fuel)%nat ->
  exists o s' sock', ngx_rtmp_recv fuel false s sock = Some (o, s', sock') /\
    (o = Overflow /\ shrinks d \/
     exists why d' rest, decode_all d (pend ++ sock_bytes sock) = Some (why, d', rest) /\
       match why with
       | None => o = Waiting /\ sock' = [] /\ waiting s' d' rest
       | Some why => o = Finalized why /\ app s' = d_app d'
       end).
Proof.
  intros Hw Hd Hf.
  destruct (recv_loop_sim fuel d s d None pend sock) as (o & s' & sock' & E & H); auto.
  { split; [constructor|done]. }
  exists o, s', sock'. split; [exact E|]. destruct H as [H|(n & why & d' & rest & En & H)]; [now left|].
  right. exists why, d', rest. split; [|done]. eapply decode_decode_all, En.
Qed.

(** C1: [ngx_rtmp_recv] implements the byte-string decoder: however the socket
    cuts the input into pieces, and however full the current buffer is, the
    call returns after a number of passes bounded by the bytes, has delivered
    to the handlers exactly the messages the decoder finds in all the bytes
    received so far, and keeps exactly the bytes of the incomplete chunk;
    the only other outcome is a copy behind the end of a buffer, after a
    message that made the chunks smaller. *)
Theorem recv_refines_decoder fuel s d pend sock :
  waiting s d pend -> only_data sock -> (work None pend sock < fuel)%nat ->
  exists o s' sock', ngx_rtmp_recv fuel false s sock = Some (o, s', sock') /\
    (o = Overflow /\ shrinks d \/
     exists why d' rest, decode_all d (pend ++ sock_bytes sock) = Some (why, d', rest) /\
       match why with
       | None => o = Waiting /\ sock' = [] /\ waiting s' d' rest
       | Some why => o = Finalized why /\ app s' = d_app d'
       end).
Proof. apply recv_decodes. Qed.

(** Without a shrinking chunk size, the result of a call depends only on the
    bytes received and not on how the socket cuts them: two sockets with the
    same bytes lead to the same outcome and the same state of the modules. *)
Lemma recv_segmentation fuel1 fuel2 s d pend sock1 sock2 :
  waiting s d pend -> ~ shrinks d -> only_data sock1 -> only_data sock2 ->
  sock_bytes sock1 = sock_bytes sock2 ->
  (work None pend sock1 < fuel1)%nat -> (work None pend sock2 < fuel2)%nat ->
  exists o s1 s2 l1 l2,
    ngx_rtmp_recv fuel1 false s sock1 = Some (o, s1, l1) /\
    ngx_rtmp_recv fuel2 false s sock2 = Some (o, s2, l2) /\ app s1 = app s2.
Proof.
  intros Hw Hns Hd1 Hd2 Eb Hf1 Hf2.
  destruct (recv_decodes fuel1 s d pend sock1 Hw Hd1 Hf1)
    as (o1 & s1 & l1 & E1 & [[_ ?]|(why1 & d1 & r1 & D1 & H1)]); [done|].
  destruct (recv_decodes fuel2 s d pend sock2 Hw Hd2 Hf2)
    as (o2 & s2 & l2 & E2 & [[_ ?]|(why2 & d2 & r2 & D2 & H2)]); [done|].
  rewrite Eb, D2 in D1. injection D1 as -> -> ->.
  destruct why1 as [why|].
  - destruct H1 as [-> H1], H2 as [-> H2]. exists (Finalized why), s1, s2, l1, l2.
    split_and!; auto. congruence.
  - destruct H1 as (-> & _ & H1 & _), H2 as (-> & _ & H2 & _). exists Waiting, s1, s2, l1, l2.
    split_and!; auto. rewrite (sim_app _ _ H1), (sim_app _ _ H2). reflexivity.
Qed.

(* ------------------------------------------------------------------ *)
(** ** Chunk sizes that only grow *)

Fixpoint cmds_grow (cur : Z) (cs : list command) : Prop :=
  match cs with
  | [] => True
  | SetChunkSize n :: cs => cur <= n /\ cmds_grow n cs
  | SetAckSize _ :: cs => cmds_grow cur cs
  end.

Fixpoint cmds_final (cur : Z) (cs : list command) : Z :=
  match cs with
  | [] => cur
  | SetChunkSize n :: cs => cmds_final n cs
  | SetAckSize _ :: cs => cmds_final cur cs
  end.

(** The decoder gives up for three reasons only. *)
Lemma dec_chunk_reasons d l why d' :
  dec_chunk d l = Some (DStop why d') -> why = BadCsid \/ why = TooBig \/ why = HandlerError.
Proof.
  unfold dec_chunk. destruct (basic_header l) as [[[fmt id] n]|]; [|done].
  case_if; [intros [= <- <-]; auto|].
  destruct (d_streams d !! Z.to_nat id) as [[st pieces]|]; [|done]. rewrite some_bind. cbv zeta.
  destruct (message_header _ _ _) as [h [[[ext ts] k]|]]; [|done].
  case_if; [intros [= <- <-]; auto|]. unfold dec_body. case_if; [done|]. case_if; [done|].
  destruct (dec_message _ _ _) as [[rc d1]|]; [|done]. rewrite some_bind.
  case_decide; [done|]. intros [= <- <-]. auto.
Qed.

Lemma decode_reasons n d l why d' rest :
  decode n d l = Some (Some why, d', rest) -> why = BadCsid \/ why = TooBig \/ why = HandlerError.
Proof.
  revert d l. induction n as [|n IH]; intros d l; cbn [decode]; [done|].
  destruct (dec_chunk d l) as [[|why' d1|d1 r1]|] eqn:E; [done| |apply IH|done].
  intros [= -> _ _]. eapply dec_chunk_reasons, E.
Qed.

Ltac elem := solve [repeat first [apply list_elem_of_here|apply list_elem_of_further]].

Section Grow.
(** What the modules keep of their state and the chunk size. *)
Context (I : A -> Z -> Prop).
Hypothesis handlers_grow : forall ty evh a h chain rc a' cs cur,
  evh ∈ events ty -> I a cur -> evh a h chain = (rc, a', cs) ->
  cmds_grow cur cs /\ I a' (cmds_final cur cs).

Lemma commands_grow cs : forall d d',
  dec_commands d cs = Some d' -> cmds_grow (d_chunk d) cs ->
  d_chunk d <= d_chunk d' /\ d_chunk d' = cmds_final (d_chunk d) cs /\ d_app d' = d_app d.
Proof.
  induction cs as [|c cs IH]; intros d d' E Hg; cbn [dec_commands] in E.
  - injection E as <-. cbn [cmds_final]. split_and!; [lia|done|done].
  - destruct (dec_command d c) as [d1|] eqn:Ec; [|done]. rewrite some_bind in E.
    destruct c as [n|n]; cbn [cmds_grow cmds_final] in *.
    + unfold dec_command in Ec. destruct (d_streams d) as [|x0 xs]; [done|].
      destruct (mapM _ xs) as [xs'|]; [|done]. rewrite some_bind in Ec. injection Ec as <-.
      destruct Hg as [Hn Hg]. destruct (IH _ _ E Hg) as (H1 & H2 & H3). cbn in *.
      split_and!; [lia|done|done].
    + injection Ec as <-. auto.
Qed.

Lemma handlers_grow_all h chain evhs : forall d rc d',
  (forall evh, evh ∈ evhs -> exists ty, evh ∈ events ty) ->
  dec_handlers d h chain evhs = Some (rc, d') -> I (d_app d) (d_chunk d) ->
  d_chunk d <= d_chunk d' /\ I (d_app d') (d_chunk d').
Proof.
  induction evhs as [|evh evhs IH]; intros d rc d' Hev E Hi; cbn [dec_handlers] in E.
  - injection E as <- <-. split; [lia|done].
  - destruct (evh (d_app d) h chain) as [[rc1 a] cs] eqn:Ee.
    destruct (Hev evh) as [ty Hty]; [apply list_elem_of_here|].
    destruct (handlers_grow ty evh _ _ _ _ _ _ _ Hty Hi Ee) as [Hg Hi'].
    destruct (dec_commands _ cs) as [d1|] eqn:Ec; [|done]. rewrite some_bind in E.
    destruct (commands_grow cs _ _ Ec Hg) as (H1 & H2 & H3). cbn [d_chunk d_app] in *.
    assert (I (d_app d1) (d_chunk d1)) as Hi1 by (rewrite H3, H2; exact Hi').
    assert (forall r, dec_handlers d1 h chain evhs = Some r -> r = (rc, d') ->
              d_chunk d <= d_chunk d' /\ I (d_app d') (d_chunk d')) as Hrec.
    { intros r Er ->. destruct (IH d1 rc d') as [? ?]; auto; [|split; [lia|done]].
      intros evh' Hin. apply Hev. now apply list_elem_of_further. }
    destruct rc1; try (eapply Hrec; [exact E|reflexivity]); injection E as <- <-; auto.
Qed.

Lemma dec_chunk_grow d l d' rest :
  dec_chunk d l = Some (DNext d' rest) -> I (d_app d) (d_chunk d) ->
  d_chunk d <= d_chunk d' /\ I (d_app d') (d_chunk d').
Proof.
  unfold dec_chunk. destruct (basic_header l) as [[[fmt id] n]|]; [|done].
  case_if; [done|]. destruct (d_streams d !! Z.to_nat id) as [[st pieces]|]; [|done].
  rewrite some_bind. cbv zeta. destruct (message_header _ _ _) as [h [[[ext ts] k]|]]; [|done].
  case_if; [done|]. unfold dec_body. case_if; [done|]. case_if.
  { intros [= <- <-] Hi. cbn [d_chunk d_app]. split; [lia|done]. }
  destruct (dec_message _ _ _) as [[rc d1]|] eqn:Em; [|done]. rewrite some_bind.
  case_decide; [|done]. intros [= <- <-] Hi. unfold dec_message in Em. revert Em. case_if.
  - intros [= _ <-]. cbn [d_chunk d_app]. split; [lia|done].
  - intros Em. eapply handlers_grow_all in Em; eauto.
Qed.

Lemma grow_no_shrink d : I (d_app d) (d_chunk d) -> ~ shrinks d.
Proof.
  intros Hi (d1 & l & d2 & rest & Hr & E & Hlt).
  assert (I (d_app d1) (d_chunk d1)) as H1.
  { clear -Hr Hi handlers_grow. induction Hr as [|d1 l d2 rest Hr IH E]; [done|].
    apply (dec_chunk_grow d1 l d2 rest E IH). }
  destruct (dec_chunk_grow d1 l d2 rest E H1). lia.
Qed.

(** C33: as long as the handlers never make the chunks smaller, receiving is
    memory safe and never stalls: no bytes are copied behind a buffer, no
    missing stream or buffer is touched, and the socket is never read into a
    full buffer (which would be taken for the end of the connection); the
    call ends waiting for input, or with a bad chunk stream, too long a
    message or a failing handler. *)
Theorem recv_safe fuel s d pend sock :
  waiting s d pend -> I (d_app d) (d_chunk d) -> only_data sock ->
  (work None pend sock < fuel)%nat ->
  exists o s' sock', ngx_rtmp_recv fuel false s sock = Some (o, s', sock') /\
    o ∈ [Waiting; Finalized BadCsid; Finalized TooBig; Finalized HandlerError].
Proof.
  intros Hw Hi Hd Hf. destruct (recv_decodes fuel s d pend sock Hw Hd Hf)
    as (o & s' & sock' & E & [[_ Hs]|(why & d' & rest & D & H)]).
  { now apply grow_no_shrink in Hs. }
  exists o, s', sock'. split; [exact E|]. destruct why as [why|]; [|destruct H as [-> _]; elem].
  destruct H as [-> _]. apply decode_reasons in D. destruct D as [-> |[-> | ->]]; elem.
Qed.

End Grow.

(* ------------------------------------------------------------------ *)
(** ** Prepared messages are decoded *)

Section RoundTrip.
Context (h : ngx_rtmp_header_t) (lh : option ngx_rtmp_header_t).
Hypothesis h_csid : 2 <= csid h < 65600.
Hypothesis h_max : csid h < max_streams cscf.
Hypothesis h_ts : 0 <= timestamp h < 2 ^ 32.
Hypothesis h_type : 0 <= type h < 256.
Hypothesis h_msid : 0 <= msid h < 2 ^ 32.
Hypothesis fixes : play_time_fix cscf = publish_time_fix cscf.

Lemma basic_head fmt p : 0 <= fmt < 4 -> 0 <= p < 64 ->
  Z.land (Z.shiftr (Z.lor (Z.shiftl fmt 6) p) 6) 3 = fmt /\
  Z.land (Z.lor (Z.shiftl fmt 6) p) 63 = p.
Proof.
  intros Hf Hp. rewrite Z.shiftl_mul_pow2, lor_disjoint by lia. split.
  - rewrite Z.shiftr_div_pow2, Z.div_add_l, Z.div_small by lia.
    change 3 with (2 ^ 2 - 1). rewrite land_mask by lia. rewrite Z.add_0_r. apply Z.mod_small. lia.
  - change 63 with (2 ^ 6 - 1). rewrite land_mask by lia.
    rewrite Z.add_comm, Z.mod_add by lia. apply Z.mod_small. lia.
Qed.

(** The basic header is read back. *)
Lemma basic_header_bytes fmt x :
  0 <= fmt < 4 ->
  basic_header (basic_bytes fmt (csid h) ++ x) =
    Some (fmt, csid h, length (basic_bytes fmt (csid h))).
Proof.
  intros Hf. unfold basic_bytes. case_if.
  - bool_to_prop. cbn [Datatypes.app basic_header length]. rewrite (u8_small (csid h)) by lia.
    replace (Z.land (csid h) 63) with (csid h).
    2: { change 63 with (2 ^ 6 - 1). rewrite land_mask by lia. symmetry. apply Z.mod_small. lia. }
    destruct (basic_head fmt (csid h) Hf ltac:(lia)) as [-> ->].
    case_if; [lia|]. case_if; [lia|done].
  - apply andb_false_iff in E. bool_to_prop.
    destruct (basic_head fmt 0 Hf ltac:(lia)) as [E1 E2].
    destruct (basic_head fmt 1 Hf ltac:(lia)) as [E3 E4]. rewrite Z.lor_0_r in *.
    case_if; bool_to_prop.
    + cbn [Datatypes.app basic_header length]. rewrite E1, E2. cbn [Z.eqb]. rewrite u8_small by lia.
      do 4 f_equal. lia.
    + cbn [Datatypes.app basic_header length]. rewrite E3, E4. cbn [Z.eqb].
      apply andb_false_iff in E0.
      assert (320 <= csid h) as H320.
      { destruct E as [E|E]; bool_to_prop; [lia|]. destruct E0 as [E0|E0]; bool_to_prop; lia. }
      rewrite (u32_small (csid h - 64)) by lia. rewrite (u8_small (Z.shiftr _ _)).
      2: { rewrite Z.shiftr_div_pow2 by lia. split; [apply Z.div_pos; lia|].
           apply Z.div_lt_upper_bound; lia. }
      do 4 f_equal. rewrite Z.shiftr_div_pow2 by lia. unfold u8.
      pose proof (Z.div_mod (csid h - 64) (2 ^ 8)). lia.
Qed.

Lemma length_basic fmt :
  length (basic_bytes fmt (csid h)) =
  (1 + (if (64 <=? csid h)%Z then if (320 <=? csid h)%Z then 2 else 1 else 0))%nat.
Proof.
  unfold basic_bytes. repeat case_if; bool_to_prop; try reflexivity; try lia.
  all: repeat match goal with H : _ && _ = false |- _ => apply andb_false_iff in H as [H|H]; bool_to_prop end; lia.
Qed.

(** The header of the following chunks. *)
Lemma basic_th fmt :
  0 <= fmt < 4 ->
  match basic_bytes fmt (csid h) with p :: l => Z.lor p 0xc0 :: l | [] => [] end =
  basic_bytes 3 (csid h).
Proof.
  intros Hf. unfold basic_bytes.
  assert (forall p, Z.lor (Z.lor (Z.shiftl fmt 6) p) 192 = Z.lor (Z.shiftl 3 6) p) as H.
  { intros p. rewrite (Z.lor_comm _ 192), Z.lor_assoc. f_equal.
    assert (fmt = 0 \/ fmt = 1 \/ fmt = 2 \/ fmt = 3) as [-> |[-> |[-> | ->]]] by lia; reflexivity. }
  pose proof (H 0) as H0. rewrite !Z.lor_0_r in H0. repeat case_if; now rewrite ?H, ?H0.
Qed.

(** The message header is read back. *)
Definition ts_field (ts : Z) : Z := if 0x00ffffff <=? ts then 0x00ffffff else ts.
Definition ext_bytes (ts : Z) : list Z := if 0x00ffffff <=? ts then be_bytes 4 ts else [].

Lemma ext_header_bytes ts x :
  0 <= ts < 2 ^ 32 ->
  ext_header (ts_field ts =? 0x00ffffff) (ts_field ts) (ext_bytes ts ++ x) =
    Some (0x00ffffff <=? ts, ts, length (ext_bytes ts)).
Proof.
  intros Ht. unfold ts_field, ext_bytes. case_if.
  - rewrite Z.eqb_refl. unfold ext_header.
    pose proof (be_val_be_bytes 4 ts) as Hv. cbn [be_bytes Datatypes.app] in *. rewrite Hv.
    rewrite Z.mod_small by lia. reflexivity.
  - destruct (ts =? 16777215) eqn:E'; bool_to_prop; [lia|]. reflexivity.
Qed.

Definition read_hdr (fmt : Z) (h0 : ngx_rtmp_header_t) (ml ty ms : Z) : ngx_rtmp_header_t :=
  if fmt =? 0 then set_msid (set_mlen_type h0 ml ty) ms
  else if fmt =? 1 then set_mlen_type h0 ml ty else h0.

Lemma ts_field_bound ts : 0 <= ts -> 0 <= ts_field ts <= 0x00ffffff.
Proof. intros. unfold ts_field. case_if; lia. Qed.

Lemma message_header_bytes fmt st ts ml ty ms x :
  0 <= fmt <= 2 -> 0 <= ts < 2 ^ 32 -> 0 <= ml < 2 ^ 24 -> 0 <= ms < 2 ^ 32 ->
  message_header fmt st (message_bytes fmt (ts_field ts) ml ty ms ++ ext_bytes ts ++ x) =
    (read_hdr fmt (st_hdr st) ml ty ms,
     Some (0x00ffffff <=? ts, ts,
           (length (message_bytes fmt (ts_field ts) ml ty ms) + length (ext_bytes ts))%nat)).
Proof.
  intros Hf Ht Hm Hs. pose proof (be_val_be_bytes 3 (ts_field ts)) as E1.
  rewrite Z.mod_small in E1 by (pose proof (ts_field_bound ts); lia).
  pose proof (be_val_be_bytes 3 ml) as E2. rewrite Z.mod_small in E2 by lia.
  pose proof (le_val_le_bytes 4 ms) as E3. rewrite Z.mod_small in E3 by lia.
  unfold message_header, message_bytes, read_hdr.
  assert (exists t2 t1 t0, be_bytes 3 (ts_field ts) = [t2; t1; t0]) as (t2 & t1 & t0 & Eb1)
    by (do 3 eexists; reflexivity).
  assert (exists m2 m1 m0, be_bytes 3 ml = [m2; m1; m0]) as (m2 & m1 & m0 & Eb2)
    by (do 3 eexists; reflexivity).
  assert (exists s0 s1 s2 s3 : Z, le_bytes 4 ms = [s0; s1; s2; s3]) as (s0 & s1 & s2 & s3 & Eb3)
    by (do 4 eexists; reflexivity).
  rewrite Eb1, Eb2, Eb3 in *.
  assert (fmt = 0 \/ fmt = 1 \/ fmt = 2) as [-> |[-> | ->]] by lia;
    cbn [Z.leb Z.compare Z.eqb Pos.compare Pos.compare_cont Datatypes.app];
    rewrite ?E1, ?E2, ?E3, ext_header_bytes by done; reflexivity.
Qed.

(** The decoder goes through complete chunks. *)
Inductive dec_run : decoder -> list Z -> decoder -> list Z -> Prop :=
  | run_here d l : dec_run d l d l
  | run_step d l d1 l1 d2 l2 :
      dec_chunk d l = Some (DNext d1 l1) -> dec_run d1 l1 d2 l2 -> dec_run d l d2 l2.

Lemma dec_run_all d l d' l' : dec_run d l d' l' -> decode_all d l = decode_all d' l'.
Proof.
  induction 1 as [|d l d1 l1 d2 l2 E _ IH]; [done|]. rewrite <- IH. unfold decode_all.
  change (decode (S (length l)) d l) with
    (match dec_chunk d l with
     | None => None
     | Some DMore => Some (None, d, l)
     | Some (DStop why d) => Some (Some why, d, l)
     | Some (DNext d rest) => decode (length l) d rest
     end).
  rewrite E. apply dec_chunk_shrinks in E. apply decode_enough; lia.
Qed.

(** A message of [ml] bytes with timestamp field [ts], cut into pieces. *)
Section Pieces.
Context (ml ts : Z).
Hypothesis h_ml : 0 <= ml < 2 ^ 24.
Hypothesis h_mlmax : ml <= max_message cscf.
Hypothesis ts_range : 0 <= ts < 2 ^ 32.

Definition total (ps : list (list Z)) : Z := Z.of_nat (length (concat ps)).

(** All pieces but the last have the size of a chunk. *)
Fixpoint chunked (chunk : Z) (ps : list (list Z)) : Prop :=
  match ps with
  | [] => False
  | [p] => Z.of_nat (length p) <= chunk
  | p :: ps => Z.of_nat (length p) = chunk /\ ps <> [[]] /\ chunked chunk ps
  end.

Definition next_bytes : list Z :=
  basic_bytes 3 (csid h) ++ (if play_time_fix cscf then ext_bytes ts else []).

Definition next_chunks (ps : list (list Z)) : list Z := concat (map (fun p => next_bytes ++ p) ps).

Lemma chunked_total chunk ps : 0 < chunk -> chunked chunk ps -> ps <> [[]] -> 0 < total ps.
Proof.
  intros Hc Hp Hne. destruct ps as [|p [|q ps]]; [done| |].
  - unfold total. cbn [concat]. rewrite app_nil_r. destruct p; [done|cbn; lia].
  - destruct Hp as [Hp _]. unfold total. cbn [concat]. rewrite length_app. lia.
Qed.

(** The header of a following chunk leads to its payload. *)
Lemma next_chunk_body d st acc x :
  d_streams d !! Z.to_nat (csid h) = Some (st, acc) ->
  st_len st <> 0 -> csid (st_hdr st) = csid h -> mlen (st_hdr st) = ml -> st_in st = [] ->
  st_ext st = (0x00ffffff <=? ts) && publish_time_fix cscf ->
  dec_chunk d (next_bytes ++ x) = dec_body d (csid h) st acc x.
Proof.
  intros Hd Hl Hid Hml Hin Hext. unfold dec_chunk, next_bytes. rewrite <- app_assoc.
  rewrite basic_header_bytes by lia. case_if; [lia|]. rewrite Hd, some_bind. cbv zeta.
  assert (with_hdr st (set_csid (st_hdr st) (csid h)) = st) as ->.
  { destruct st as [[] ? ? ? ?]. cbn in *. subst. reflexivity. }
  rewrite drop_app_length.
  assert (exists t, message_header 3 st ((if play_time_fix cscf then ext_bytes ts else []) ++ x) =
    (st_hdr st, Some (st_ext st, t,
       length (if play_time_fix cscf then ext_bytes ts else [])))) as [t ->].
  { unfold message_header. cbn [Z.leb Z.compare Pos.compare Pos.compare_cont].
    rewrite Hext, fixes. unfold ext_bytes, ext_header.
    destruct (publish_time_fix cscf); [|rewrite andb_false_r; eexists; reflexivity].
    rewrite andb_true_r. destruct (0x00ffffff <=? ts); eexists; reflexivity. }
  unfold header_done. replace (st_len st =? 0) with false by (symmetry; now apply Z.eqb_neq).
  assert (Stream (st_hdr st) (st_dtime st) (st_len st) (st_ext st) (st_in st) = st) as ->
    by now destruct st.
  case_if; [lia|]. f_equal. rewrite app_assoc, <- length_app. apply drop_app_length.
Qed.

Lemma body_run ps : forall p acc d st l x d',
  dec_chunk d l = dec_body d (csid h) st acc (p ++ next_chunks ps ++ x) ->
  0 < d_chunk d -> chunked (d_chunk d) (p :: ps) ->
  0 <= st_len st -> st_len st + total (p :: ps) = ml ->
  csid (st_hdr st) = csid h -> mlen (st_hdr st) = ml ->
  st_ext st = (0x00ffffff <=? ts) && publish_time_fix cscf ->
  (Z.to_nat (csid h) < length (d_streams d))%nat ->
  let h' := set_timestamp (st_hdr st) (u32 (timestamp (st_hdr st) + st_dtime st)) in
  dec_message (Dec (<[Z.to_nat (csid h) := (Stream h' (st_dtime st) 0 (st_ext st) [], [])]>
                      (d_streams d)) (d_chunk d) (d_app d)) h' (acc ++ p :: ps) =
    Some (NGX_OK, d') ->
  dec_run d l d' x.
Proof.
  induction ps as [|q ps IH]; intros p acc d st l x d' Edc Hc Hch Hl Ht Hid Hml Hext Hlt h' Hmsg.
  - unfold next_chunks, total in *. cbn [map concat] in *. rewrite app_nil_r in *.
    cbn [Datatypes.app] in Edc. eapply run_step; [|apply run_here]. rewrite Edc. unfold dec_body.
    cbn [chunked] in Hch.
    assert (u32 (mlen (st_hdr st) - st_len st) = Z.of_nat (length p)) as ->
      by (rewrite u32_small; lia).
    rewrite length_app. case_if; [lia|]. case_if; [lia|]. rewrite Nat2Z.id.
    rewrite take_app_length, drop_app_length. fold h'. rewrite Hmsg, some_bind.
    now rewrite decide_True.
  - destruct Hch as (Hp & Hne & Hch). pose proof (chunked_total _ _ Hc Hch Hne) as Hpos.
    assert (total (p :: q :: ps) = Z.of_nat (length p) + total (q :: ps)) as Et.
    { unfold total. cbn [concat]. rewrite length_app. lia. }
    set (st2 := Stream (st_hdr st) (st_dtime st) (u32 (st_len st + d_chunk d)) (st_ext st) []).
    set (d2 := Dec (<[Z.to_nat (csid h) := (st2, acc ++ [p])]> (d_streams d)) (d_chunk d) (d_app d)).
    assert (u32 (st_len st + d_chunk d) = st_len st + d_chunk d) as El by (rewrite u32_small; lia).
    apply (run_step _ _ d2 (next_chunks (q :: ps) ++ x)).
    { rewrite Edc. unfold dec_body.
      assert (u32 (mlen (st_hdr st) - st_len st) = ml - st_len st) as -> by (rewrite u32_small; lia).
      rewrite length_app. case_if; [lia|]. case_if; [|lia].
      rewrite take_app_le, drop_app_le, take_ge, drop_ge by lia. reflexivity. }
    apply (IH q (acc ++ [p]) d2 st2); cbn [d_chunk d_streams d_app d2 st2 st_hdr st_len st_ext st_dtime];
      auto; try lia.
    + unfold next_chunks. cbn [map concat]. rewrite <- !app_assoc. apply next_chunk_body; auto.
      * cbn [d2 d_streams]. now apply list_lookup_insert_eq.
      * cbn [st2 st_len]. lia.
    + now rewrite length_insert.
    + rewrite list_insert_insert_eq, <- app_assoc. exact Hmsg.
Qed.

End Pieces.

(** The decoder's stream as the sender's last header [lh] describes it; a
    header of format 3 repeats the last time difference, so that must be 0. *)
Definition in_sync (ml : Z) (st : ngx_rtmp_stream_t) : Prop :=
  let fmt := prep_fmt h lh ml in
  st_len st = 0 /\ st_in st = [] /\
  (1 <= fmt -> msid (st_hdr st) = msid h /\
     exists l, lh = Some l /\ timestamp (st_hdr st) = timestamp l) /\
  (2 <= fmt -> mlen (st_hdr st) = ml /\ type (st_hdr st) = type h) /\
  (fmt = 3 -> st_dtime st = 0 /\ st_ext st = false).

Lemma prep_fmt_range ml : 0 <= prep_fmt h lh ml <= 3.
Proof. unfold prep_fmt. destruct lh; [|lia]. repeat case_if; lia. Qed.

Lemma prep_timestamp_range : 0 <= prep_timestamp h lh < 2 ^ 32.
Proof. unfold prep_timestamp. destruct lh; [|lia]. case_if; [apply u32_bound|lia]. Qed.

(** The format decides which timestamp is sent. *)
Lemma prep_timestamp_fmt ml l :
  lh = Some l ->
  (prep_fmt h lh ml = 0 -> prep_timestamp h lh = timestamp h) /\
  (1 <= prep_fmt h lh ml -> prep_timestamp h lh = u32 (timestamp h - timestamp l)) /\
  (prep_fmt h lh ml = 3 -> timestamp h = timestamp l).
Proof.
  intros ->. unfold prep_fmt, prep_timestamp.
  destruct (negb (csid l =? 0) && (msid h =? msid l)); [|split_and!; [done|lia|lia]].
  split_and!; [|done|].
  - repeat case_if; lia.
  - case_if; [|lia]. case_if; lia.
Qed.

Definition first_bytes (ml : Z) : list Z :=
  let fmt := prep_fmt h lh ml in
  let ts := prep_timestamp h lh in
  basic_bytes fmt (csid h) ++ message_bytes fmt (ts_field ts) ml (type h) (msid h) ++
  ext_bytes ts.

Lemma u32_add_sub a b : 0 <= a < 2 ^ 32 -> u32 (b + u32 (a - b)) = a.
Proof.
  intros Ha. unfold u32. rewrite Zplus_mod_idemp_r. replace (b + (a - b)) with a by lia.
  now apply Z.mod_small.
Qed.

Lemma prep_timestamp_zero ml : prep_fmt h lh ml = 0 -> prep_timestamp h lh = timestamp h.
Proof.
  intros H. destruct lh as [l|] eqn:El; [|reflexivity]. rewrite <- El in *.
  exact (proj1 (prep_timestamp_fmt ml l El) H).
Qed.

Section First.
Context (ml : Z) (st : ngx_rtmp_stream_t).
Hypothesis h_ml : 0 <= ml < 2 ^ 24.
Hypothesis sync : in_sync ml st.

Local Abbreviation fmt := (prep_fmt h lh ml).
Local Abbreviation ts := (prep_timestamp h lh).
Local Abbreviation st1 := (with_hdr st (set_csid (st_hdr st) (csid h))).
Local Abbreviation h1 := (read_hdr fmt (st_hdr st1) ml (type h) (msid h)).
(** The time difference the decoder finds. *)
Local Abbreviation dt := (if fmt =? 3 then 0 else ts).

Lemma first_fmt3 : fmt = 3 -> ts = 0.
Proof.
  intros E3. destruct sync as (_ & _ & H1 & _).
  destruct (H1 ltac:(lia)) as (_ & l & El & _).
  destruct (prep_timestamp_fmt ml l El) as (_ & Hts & Heq).
  rewrite (Hts ltac:(lia)), (Heq E3), Z.sub_diag. reflexivity.
Qed.

Lemma first_header x :
  message_header fmt st1
    (message_bytes fmt (ts_field ts) ml (type h) (msid h) ++ ext_bytes ts ++ x) =
  (h1, Some (0x00ffffff <=? ts, dt,
    (length (message_bytes fmt (ts_field ts) ml (type h) (msid h)) + length (ext_bytes ts))%nat)).
Proof.
  pose proof (prep_fmt_range ml) as Hf.
  pose proof prep_timestamp_range as Ht.
  case_if.
  - destruct sync as (_ & _ & _ & _ & H3). destruct (H3 E) as [Hdt Hex].
    rewrite (first_fmt3 E), E. unfold message_header, read_hdr.
    cbn [Z.leb Z.compare Pos.compare Pos.compare_cont with_hdr st_ext st_dtime].
    now rewrite Hex, Hdt.
  - apply message_header_bytes; lia.
Qed.

Lemma first_fields :
  mlen h1 = ml /\ csid h1 = csid h /\ type h1 = type h /\ msid h1 = msid h /\
  (1 <= fmt -> timestamp h1 = timestamp (st_hdr st)).
Proof.
  destruct sync as (_ & _ & H1 & H2 & _).
  pose proof (prep_fmt_range ml) as Hf.
  unfold read_hdr. case_if; [cbn; split_and!; auto; lia|].
  case_if; cbn; [split_and!; auto; apply H1; lia|].
  destruct (H1 ltac:(lia)) as [? _]. destruct (H2 ltac:(lia)) as [? ?]. auto.
Qed.

(** The decoder gets back the sender's header. *)
Lemma first_restored :
  let h2 := if fmt =? 0 then set_timestamp h1 dt else h1 in
  let dt2 := if fmt =? 0 then 0 else dt in
  set_timestamp h2 (u32 (timestamp h2 + dt2)) = Hdr (csid h) (timestamp h) ml (type h) (msid h).
Proof.
  destruct first_fields as (Em1 & Ec1 & Et1 & Es1 & Ets1).
  destruct sync as (_ & _ & H1 & _).
  pose proof (prep_fmt_range ml) as Hf. cbv zeta.
  destruct (fmt =? 0) eqn:E0; bool_to_prop; unfold set_timestamp; cbn [csid timestamp mlen type msid];
    f_equal; auto.
  - case_if; [lia|]. rewrite Z.add_0_r. rewrite (prep_timestamp_zero ml E0).
    apply u32_small. lia.
  - destruct (H1 ltac:(lia)) as (_ & l & El & Etl). rewrite Ets1, Etl by lia.
    destruct (prep_timestamp_fmt ml l El) as (_ & Hts & Heq). case_if.
    + rewrite Z.add_0_r, <- (Heq E). apply u32_small. lia.
    + rewrite Hts by lia. apply u32_add_sub. lia.
Qed.

(** The first header leads to the payload, with the header restored. *)
Lemma first_chunk_body d x :
  ml <= max_message cscf -> d_streams d !! Z.to_nat (csid h) = Some (st, []) ->
  dec_chunk d (first_bytes ml ++ x) =
    dec_body d (csid h)
      (Stream (if fmt =? 0 then set_timestamp h1 dt else h1) (if fmt =? 0 then 0 else dt) 0
         ((0x00ffffff <=? ts) && publish_time_fix cscf) []) [] x.
Proof.
  intros Hmax Hd. pose proof (prep_fmt_range ml) as Hf.
  destruct first_fields as (Em1 & _). pose proof sync as (Hl & Hin & _).
  unfold dec_chunk, first_bytes. cbv zeta. rewrite <- !app_assoc.
  rewrite basic_header_bytes by lia. case_if; [lia|]. rewrite Hd, some_bind. cbv zeta.
  rewrite drop_app_length, first_header. unfold header_done.
  cbn [st_len with_hdr st_in]. rewrite Hl, Hin. cbn [Z.eqb].
  rewrite !app_assoc, drop_app_length' by (rewrite !length_app; lia).
  destruct (fmt =? 0); cbn [st_hdr mlen set_timestamp]; rewrite Em1; (case_if; [lia|reflexivity]).
Qed.

End First.

Lemma prepend_data n l b :
  buf_ok b -> length l = n -> (n <= b_pos b)%nat ->
  exists b', prepend n l b = Some b' /\ buf_data b' = l ++ buf_data b.
Proof.
  intros (Hp & Hl & _) Hn Hpos. unfold prepend. case_if; [|lia]. eexists. split; [reflexivity|].
  unfold buf_data, b_end in *. cbn [b_mem b_pos b_last]. unfold splice.
  rewrite drop_app_length' by len. replace (b_pos b - n + length l)%nat with (b_pos b) by lia.
  replace (b_last b - (b_pos b - n))%nat with (length l + (b_last b - b_pos b))%nat by lia.
  now rewrite take_app_add.
Qed.

Lemma prepend_all l out :
  Forall (fun b => buf_ok b /\ (length l <= b_pos b)%nat) out ->
  exists out', mapM (prepend (length l) l) out = Some out' /\
    map buf_data out' = map (fun p => l ++ p) (map buf_data out).
Proof.
  induction 1 as [|b out [Hok Hl] _ IH]; [now exists []|]. destruct IH as (out' & E1 & E2).
  destruct (prepend_data (length l) l b Hok eq_refl Hl) as (b' & Eb & Ed).
  exists (b' :: out'). cbn [mapM map]. rewrite Eb, E1. split; [done|]. cbn [map]. congruence.
Qed.

Lemma length_first_bytes ml :
  length (first_bytes ml) =
  (hdrsize (prep_fmt h lh ml) + length (ext_bytes (prep_timestamp h lh)) +
   (if (64 <=? csid h)%Z then if (320 <=? csid h)%Z then 2 else 1 else 0))%nat.
Proof.
  pose proof (prep_fmt_range ml). unfold first_bytes. rewrite !length_app, length_basic.
  assert (length (message_bytes (prep_fmt h lh ml) (ts_field (prep_timestamp h lh)) ml (type h)
            (msid h)) = (hdrsize (prep_fmt h lh ml) - 1)%nat) as ->.
  { assert (prep_fmt h lh ml = 0 \/ prep_fmt h lh ml = 1 \/ prep_fmt h lh ml = 2 \/
            prep_fmt h lh ml = 3) as [-> |[-> |[-> | ->]]] by lia; reflexivity. }
  assert (1 <= hdrsize (prep_fmt h lh ml))%nat by (unfold hdrsize; repeat case_if; lia). lia.
Qed.

Lemma length_ext_bytes ts : (length (ext_bytes ts) <= 4)%nat.
Proof. unfold ext_bytes. case_if; [reflexivity|cbn; lia]. Qed.

(** The buffers of an outgoing message, with room for the headers. *)
Definition sendable (b : ngx_buf_t) : Prop :=
  buf_ok b /\ (NGX_RTMP_MAX_CHUNK_HEADER <= b_pos b)%nat.

Lemma total_sizes out :
  Forall sendable out ->
  foldr (fun b n => buf_size b + n) 0 out = total (map buf_data out).
Proof.
  unfold total. induction 1 as [|b out [Hok _] _ IH]; [done|]. cbn [foldr map concat].
  rewrite length_app, length_buf_data, IH by done. unfold buf_size. lia.
Qed.

(** The headers in front of the buffers. *)
Lemma prepare_prepends b out ml :
  Forall sendable (b :: out) -> ml = total (map buf_data (b :: out)) -> ml < 2 ^ 24 ->
  let nb := next_bytes (prep_timestamp h lh) in
  ngx_rtmp_prepare_message h lh (b :: out) =
    (b ← prepend (length (first_bytes ml)) (first_bytes ml) b;
     out ← mapM (prepend (length nb) nb) out; Some (Some (b :: out))).
Proof.
  intros Hout Hml Hb nb. unfold ngx_rtmp_prepare_message. case_if; [lia|].
  rewrite total_sizes, <- Hml by done. pose proof prep_timestamp_range as Ht.
  pose proof (prep_fmt_range ml) as Hf.
  assert (0 <= ml) by (unfold total in Hml; lia). rewrite (u32_small ml) by lia.
  rewrite length_first_bytes. unfold nb, first_bytes. set (ts := prep_timestamp h lh) in *. cbv zeta.
  assert ((if (if 0x00ffffff <=? ts then ts else 0) =? 0 then [] else
             be_bytes 4 (if 0x00ffffff <=? ts then ts else 0)) = ext_bytes ts) as ->.
  { unfold ext_bytes. destruct (0x00ffffff <=? ts) eqn:E'; bool_to_prop; [|done].
    case_if; [lia|done]. }
  assert ((if (if 0x00ffffff <=? ts then ts else 0) =? 0 then 0%nat else 4%nat) =
          length (ext_bytes ts)) as ->.
  { unfold ext_bytes. destruct (0x00ffffff <=? ts) eqn:E'; bool_to_prop; [|done].
    case_if; [lia|done]. }
  fold (ts_field ts). rewrite basic_th by lia. fold (next_bytes ts). done.
Qed.

Lemma header_lengths ml :
  (length (first_bytes ml) <= NGX_RTMP_MAX_CHUNK_HEADER)%nat /\
  (length (next_bytes (prep_timestamp h lh)) <= NGX_RTMP_MAX_CHUNK_HEADER)%nat.
Proof.
  pose proof (length_ext_bytes (prep_timestamp h lh)) as Hle. unfold NGX_RTMP_MAX_CHUNK_HEADER. split.
  - rewrite length_first_bytes. unfold hdrsize. repeat case_if; lia.
  - unfold next_bytes. rewrite length_app, length_basic.
    destruct (play_time_fix cscf); repeat case_if; cbn [length] in *; lia.
Qed.

(** What [ngx_rtmp_prepare_message] puts on the wire. *)
Lemma prepare_wire out ml :
  Forall sendable out -> out <> [] -> ml = total (map buf_data out) -> ml < 2 ^ 24 ->
  exists out' p ps,
    map buf_data out = p :: ps /\ ngx_rtmp_prepare_message h lh out = Some (Some out') /\
    concat (map buf_data out') =
      first_bytes ml ++ p ++ next_chunks (prep_timestamp h lh) ps.
Proof.
  intros Hout Hne Hml Hb. destruct out as [|b out]; [done|].
  rewrite (prepare_prepends b out ml Hout Hml Hb). destruct (header_lengths ml) as [H1 H2].
  apply Forall_cons in Hout as [[Hok Hpos] Hout].
  destruct (prepend_data _ (first_bytes ml) b Hok eq_refl ltac:(lia)) as (b' & -> & Eb'). rewrite some_bind.
  destruct (prepend_all (next_bytes (prep_timestamp h lh)) out) as (out' & -> & Eo').
  { eapply Forall_impl; [exact Hout|]. intros b1 [Hok1 Hp1]. split; [done|lia]. }
  rewrite some_bind. exists (b' :: out'), (buf_data b), (map buf_data out).
  split; [done|]. split; [done|]. cbn [map concat]. rewrite Eb', Eo'. unfold next_chunks.
  now rewrite <- !app_assoc.
Qed.

Lemma prepared_decodes d st out :
  Forall sendable out -> 0 < d_chunk d -> chunked (d_chunk d) (map buf_data out) ->
  total (map buf_data out) < 2 ^ 24 -> total (map buf_data out) <= max_message cscf ->
  d_streams d !! Z.to_nat (csid h) = Some (st, []) ->
  in_sync (total (map buf_data out)) st ->
  exists out' dt ext,
    ngx_rtmp_prepare_message h lh out = Some (Some out') /\
    let h' := Hdr (csid h) (timestamp h) (total (map buf_data out)) (type h) (msid h) in
    forall d' x,
    dec_message (Dec (<[Z.to_nat (csid h) := (Stream h' dt 0 ext [], [])]> (d_streams d))
                   (d_chunk d) (d_app d)) h' (map buf_data out) = Some (NGX_OK, d') ->
    decode_all d (concat (map buf_data out') ++ x) = decode_all d' x.
Proof.
  intros Hout Hc Hch Hml Hmax Hd Hsync.
  assert (out <> []) as Hne by now destruct out.
  destruct (prepare_wire out _ Hout Hne eq_refl Hml) as (out' & p & ps & Ep & E & Ew).
  assert (0 <= total (map buf_data out)) as Hpos by (unfold total; lia).
  pose proof (first_restored _ _ Hsync) as Hrest. cbv zeta in Hrest.
  pose proof (first_fields _ _ Hsync) as (Em1 & Ec1 & _).
  pose proof (fun x => first_chunk_body _ _ (conj Hpos Hml) Hsync d x Hmax Hd) as Hfirst.
  apply lookup_lt_Some in Hd.
  eexists out', _, _. split; [exact E|]. cbv zeta. intros d' x Hmsg. apply dec_run_all. rewrite Ew.
  rewrite <- !app_assoc.
  apply (body_run (total (map buf_data out)) (prep_timestamp h lh) (conj Hpos Hml) Hmax ps p [] d _
           _ _ _ (Hfirst _)); cbn [st_len st_hdr st_ext st_dtime]; auto; try lia.
  - now rewrite <- Ep.
  - rewrite Ep. lia.
  - now destruct (_ =? 0).
  - now destruct (_ =? 0).
  - rewrite Hrest. cbn [Datatypes.app]. rewrite <- Ep. exact Hmsg.
Qed.

(** C2: a message prepared by [ngx_rtmp_prepare_message] is received as it was
    sent: the decoder of a peer whose stream is in step with the last header
    delivers one message with the sender's header (its length filled in) and
    payload, and goes on behind it.  The buffers must have the chunk size of
    the peer (only the last may be shorter) and room for the headers. *)
Theorem prepare_message_decodes d st out :
  Forall sendable out -> 0 < d_chunk d -> chunked (d_chunk d) (map buf_data out) ->
  total (map buf_data out) < 2 ^ 24 -> total (map buf_data out) <= max_message cscf ->
  d_streams d !! Z.to_nat (csid h) = Some (st, []) ->
  in_sync (total (map buf_data out)) st ->
  exists out' dt ext,
    ngx_rtmp_prepare_message h lh out = Some (Some out') /\
    let h' := Hdr (csid h) (timestamp h) (total (map buf_data out)) (type h) (msid h) in
    forall d' x,
    dec_message (Dec (<[Z.to_nat (csid h) := (Stream h' dt 0 ext [], [])]> (d_streams d))
                   (d_chunk d) (d_app d)) h' (map buf_data out) = Some (NGX_OK, d') ->
    decode_all d (concat (map buf_data out') ++ x) = decode_all d' x.
Proof. apply prepared_decodes. Qed.

End RoundTrip.

(* ------------------------------------------------------------------ *)
(** ** A new session *)

Definition init_decoder (a : A) : decoder :=
  Dec (replicate (Z.to_nat (max_streams cscf)) (calloc_stream, [])) NGX_RTMP_DEFAULT_CHUNK_SIZE a.

Lemma init_waiting bw a :
  0 < max_streams cscf ->
  exists s, ngx_rtmp_init_session bw a = Some s /\ waiting s (init_decoder a) [].
Proof.
  intros Hm. eexists. split; [reflexivity|]. split; [constructor|].
  all: cbn [in_chunk_size init_decoder d_chunk app d_app in_streams in_pool].
  - reflexivity.
  - unfold NGX_RTMP_DEFAULT_CHUNK_SIZE. lia.
  - reflexivity.
  - apply Forall_replicate. constructor.
  - reflexivity.
  - rewrite length_replicate. lia.
  - rewrite length_replicate. lia.
  - split; [reflexivity|]. split; [constructor|]. split; [reflexivity|]. left.
    split; [reflexivity|]. split.
    + split; [cbn; now rewrite !length_replicate|]. intros i _ _.
      cbn [in_streams init_decoder d_streams].
      destruct (decide (i < Z.to_nat (max_streams cscf))%nat) as [Hi|Hi].
      * now rewrite !lookup_replicate_2 by done.
      * rewrite !lookup_ge_None_2 by (rewrite length_replicate; lia). done.
    + exists calloc_stream. split; [|done]. unfold get_stream. cbn [in_streams].
      apply lookup_replicate_2. lia.
Qed.

(* ------------------------------------------------------------------ *)
(** ** Changing the chunk size *)

Lemma repack_fits cap : forall pieces fuel cur acc,
  pieces <> [] -> (length cur + length (concat pieces) <= cap)%nat ->
  (length pieces <= fuel)%nat ->
  repack fuel cap pieces cur acc = Some (acc ++ [cur ++ concat pieces]).
Proof.
  induction pieces as [|p pieces IH]; intros fuel cur acc Hne Hl Hf; [done|].
  destruct fuel as [|fuel]; cbn [length] in Hf; [lia|]. cbn [repack concat] in *.
  rewrite length_app in Hl. case_if; [|lia].
  destruct pieces as [|q pieces]; [cbn [concat]; now rewrite app_nil_r|].
  rewrite IH; [now rewrite app_assoc|done|rewrite length_app; lia|lia].
Qed.

(** The bytes of a message in progress. *)
Definition pending (st : ngx_rtmp_stream_t) : list Z := concat (map buf_data (st_in st)).

Lemma repack_stream_fits size st y :
  (length (pending st) <= dec_cap size)%nat -> repack_stream size (abs_stream st) = Some y ->
  y.1 = with_in st [] /\ concat y.2 = pending st.
Proof.
  unfold repack_stream, abs_stream, pending. cbn [fst snd]. intros Hl.
  destruct (map buf_data (st_in st)) as [|p l] eqn:E; [intros [= <-]; auto|].
  rewrite repack_fits by (try done; unfold repack_fuel; cbn [length] in *; lia).
  rewrite some_bind. intros [= <-]. cbn [fst snd Datatypes.app concat]. now rewrite app_nil_r.
Qed.

(** Changing the chunk size keeps every message in progress that fits in one
    new buffer: the bytes received so far and the header of every stream other
    than the list of free buffers (which is dropped) are unchanged, and every
    buffer has the new size. *)
Theorem set_chunk_size_keeps s size :
  in_pool s = true -> in_streams s <> [] ->
  Forall (fun st => Forall buf_ok (st_in st) /\ (length (pending st) <= dec_cap size)%nat)
    (in_streams s) ->
  exists s', ngx_rtmp_set_chunk_size s size = Some s' /\
    in_chunk_size s' = size /\ in_chunk_size_changing s' = true /\
    bufs_fit size (in_streams s') /\ length (in_streams s') = length (in_streams s) /\
    forall n st st', n <> 0%nat -> in_streams s !! n = Some st -> in_streams s' !! n = Some st' ->
      with_in st' [] = with_in st [] /\ pending st' = pending st.
Proof.
  intros Hp Hne Hst. unfold ngx_rtmp_set_chunk_size. rewrite Hp.
  destruct (in_streams s) as [|st0 sts] eqn:Es; [done|]. apply Forall_cons in Hst as [_ Hst].
  destruct (rebuffer_streams_sim size sts) as (sts' & E1 & E2 & Hf).
  { eapply Forall_impl; [exact Hst|]. now intros st [? _]. }
  rewrite E1, !some_bind. eexists. split; [reflexivity|].
  cbn [in_chunk_size in_chunk_size_changing in_streams]. split; [done|]. split; [done|].
  split; [constructor; [constructor|exact Hf]|]. split; [cbn; f_equal; symmetry; eapply length_mapM, E1|].
  intros [|n] st st' Hn E E'; [done|].
  change (sts !! n = Some st) in E. change (sts' !! n = Some st') in E'. apply mapM_Some_1 in E2.
  destruct (Forall_lookup_1 _ _ _ _ Hst E) as [_ Hl].
  destruct (Forall2_lookup_l _ _ _ n (abs_stream st) E2) as (y & Ey & Hy).
  { rewrite list_lookup_fmap. now rewrite E. }
  rewrite list_lookup_fmap, E' in Ey. injection Ey as <-.
  destruct (repack_stream_fits size st _ Hl Hy) as [H1 H2]. exact (conj H1 H2).
Qed.

End Layer.

(* ------------------------------------------------------------------ *)
(** ** Concrete sessions *)

(** Handlers that log the messages; the chunk size message is obeyed. *)
Definition log : Type := list (ngx_rtmp_header_t * list (list Z)).
Definition log_handler : ngx_rtmp_handler_pt log :=
  fun a h chain => (NGX_OK, a ++ [(h, chain)], []).
Definition size_handler : ngx_rtmp_handler_pt log :=
  fun a h chain => (NGX_OK, a, [SetChunkSize (be_val (take 4 (concat chain)))]).
Definition log_events (ty : Z) : list (ngx_rtmp_handler_pt log) := [log_handler].
Definition size_events (ty : Z) : list (ngx_rtmp_handler_pt log) :=
  if ty =? 1 then [size_handler] else [log_handler].
Definition quiet_ack (a : log) (n : Z) : ngx_rc * log := (NGX_OK, a).
Definition conf : ngx_rtmp_core_srv_conf_t := SrvConf 8 1000 true true.
Definition no_bw : Bandwidth.ngx_rtmp_bandwidth_t := Bandwidth.bw_zero.

Lemma log_events_ok : forall ty evh (a : log) h chain rc a' cs,
  evh ∈ log_events ty -> evh a h chain = (rc, a', cs) -> Forall cmd_ok cs.
Proof.
  intros ty evh a h chain rc a' cs Hin. apply list_elem_of_singleton in Hin as ->.
  intros [= <- <- <-]. constructor.
Qed.

Lemma log_events_grow : forall ty evh (a : log) h chain rc a' cs cur,
  evh ∈ log_events ty -> True -> evh a h chain = (rc, a', cs) -> cmds_grow cur cs /\ True.
Proof.
  intros ty evh a h chain rc a' cs cur Hin _. apply list_elem_of_singleton in Hin as ->.
  intros [= <- <- <-]. done.
Qed.

(** Two messages: 3 bytes on stream 3, and 2 bytes of type 9 with a 1-byte
    header on it again, cut in two places. *)
Definition wire : list Z :=
  [3; 0; 0; 5; 0; 0; 3; 8; 1; 0; 0; 0; 10; 11; 12; 67; 0; 0; 7; 0; 0; 2; 9; 20; 21].
Definition cut1 : list sock_ev := [Data wire].
Definition cut2 : list sock_ev :=
  [Data (take 4 wire); Data (take 16 (drop 4 wire)); Data (drop 20 wire)].

Ltac data_tac :=
  unfold only_data, cut1, cut2; repeat (apply Forall_cons; split;
    [eexists; split; [reflexivity|split; [by vm_compute|refine (bool_decide_unpack _ _); exact Logic.I]]|]);
  exact (Forall_nil_2 _).

Lemma cut1_data : only_data cut1.
Proof. data_tac. Qed.
Lemma cut2_data : only_data cut2.
Proof. data_tac. Qed.

(** The session after [ngx_rtmp_init_session]. *)
Definition fresh : session log :=
  Session (replicate 8 calloc_stream) 0 128 false true false 0 0 0 false no_bw [].

Lemma fresh_waiting events : waiting conf events fresh (init_decoder conf []) [].
Proof.
  destruct (init_waiting conf events no_bw ([] : log) ltac:(done)) as (s & E & H).
  injection E as <-. exact H.
Qed.

(** Both messages are delivered; the second has the timestamp 5 + 7. *)
Lemma recv_refines_decoder_witness :
  exists s', ngx_rtmp_recv conf 0 log_events quiet_ack 100 false fresh cut2 =
      Some (Waiting, s', []) /\
    app s' = [(Hdr 3 5 3 8 1, [[10; 11; 12]]); (Hdr 3 12 2 9 1, [[20; 21]])].
Proof.
  destruct (recv_refines_decoder conf 0 log_events quiet_ack log_events_ok (fun _ _ => eq_refl)
    100 fresh (init_decoder conf []) [] cut2 (fresh_waiting _) cut2_data ltac:(vm_compute; lia))
    as (o & s' & sock' & E & _).
  vm_compute in E. injection E as <- <- <-. eexists. split; [vm_compute; reflexivity|reflexivity].
Defined.

Lemma recv_segmentation_witness :
  exists s1 s2 l1 l2 o,
    ngx_rtmp_recv conf 0 log_events quiet_ack 100 false fresh cut1 = Some (o, s1, l1) /\
    ngx_rtmp_recv conf 0 log_events quiet_ack 100 false fresh cut2 = Some (o, s2, l2) /\
    app s1 = app s2.
Proof.
  destruct (recv_segmentation conf 0 log_events quiet_ack log_events_ok (fun _ _ => eq_refl)
    100 100 fresh (init_decoder conf []) [] cut1 cut2 (fresh_waiting _)
    (grow_no_shrink conf log_events (fun _ _ => True) log_events_grow _ Logic.I)
    cut1_data cut2_data eq_refl ltac:(vm_compute; lia) ltac:(vm_compute; lia))
    as (o & s1 & s2 & l1 & l2 & H). exists s1, s2, l1, l2, o. exact H.
Defined.

Lemma recv_safe_witness :
  exists o s' sock', ngx_rtmp_recv conf 0 log_events quiet_ack 100 false fresh cut2 =
      Some (o, s', sock') /\
    o ∈ [Waiting; Finalized BadCsid; Finalized TooBig; Finalized HandlerError].
Proof.
  exact (recv_safe conf 0 log_events quiet_ack log_events_ok (fun _ _ => eq_refl)
    (fun _ _ => True) log_events_grow 100 fresh (init_decoder conf []) [] cut2
    (fresh_waiting _) Logic.I cut2_data ltac:(vm_compute; lia)).
Defined.

(** An outgoing buffer: room for the headers, then the payload. *)
Definition out_buf (l : list Z) : ngx_buf_t := Buf (replicate 18 0 ++ l) 18 (18 + length l).

Lemma out_buf_sendable l : bytes_ok l -> sendable (out_buf l).
Proof.
  intros Hl. split; [|reflexivity]. unfold out_buf, buf_ok, b_end. cbn [b_mem b_pos b_last].
  rewrite length_app, length_replicate. split; [lia|]. split; [lia|].
  apply bytes_ok_app. split; [now apply bytes_ok_replicate|done].
Qed.

Ltac bufs_tac :=
  repeat (apply Forall_cons_2; [apply out_buf_sendable; refine (bool_decide_unpack _ _); exact Logic.I|]);
  exact (Forall_nil_2 _).

(** A message of 130 bytes on stream 4 in two chunks. *)
Definition msg : ngx_rtmp_header_t := Hdr 4 7 0 9 1.
Definition msg_out : list ngx_buf_t := [out_buf (replicate 128 5); out_buf [6; 7]].

Lemma prepare_message_decodes_witness :
  exists out' d', ngx_rtmp_prepare_message conf msg None msg_out = Some (Some out') /\
    decode_all conf log_events (init_decoder conf []) (concat (map buf_data out')) =
      Some (None, d', []) /\
    d_app d' = [(Hdr 4 7 130 9 1, [replicate 128 5; [6; 7]])].
Proof.
  destruct (prepare_message_decodes conf log_events msg None ltac:(done) ltac:(done) ltac:(done)
    ltac:(done) ltac:(done) eq_refl (init_decoder conf []) calloc_stream msg_out) as (out' & dt & ext & E & H).
  - bufs_tac.
  - done.
  - vm_compute. split; [done|]. split; done.
  - done.
  - done.
  - reflexivity.
  - split; [done|]. split; [done|]. vm_compute. split; [done|]. split; done.
  - exists out'. specialize (H _ [] eq_refl). rewrite app_nil_r in H. rewrite H.
    eexists. split; [exact E|]. split; [reflexivity|reflexivity].
Defined.

(** Streams with messages in progress in three full chunks of 128 bytes. *)
Definition three_chunks : list ngx_buf_t :=
  [out_buf (replicate 128 1); out_buf (replicate 128 2); out_buf (replicate 128 3)].
Definition busy_stream : ngx_rtmp_stream_t := Stream (Hdr 3 0 500 9 1) 0 384 false three_chunks.
Definition busy : session log := set_stream fresh 3 busy_stream.

Lemma set_chunk_size_keeps_witness :
  exists s', ngx_rtmp_set_chunk_size busy 4096 = Some s' /\
    forall n st st', n <> 0%nat -> in_streams busy !! n = Some st ->
      in_streams s' !! n = Some st' -> pending st' = pending st.
Proof.
  destruct (set_chunk_size_keeps busy 4096) as (s' & E & _ & _ & _ & _ & H).
  - reflexivity.
  - done.
  - change (in_streams busy) with
      (replicate 3 calloc_stream ++ busy_stream :: replicate 4 calloc_stream).
    apply Forall_app_2; [|apply Forall_cons_2].
    1, 3: apply Forall_replicate; split; [constructor|cbn; lia].
    split; [bufs_tac|]. apply Nat.leb_le. vm_compute. reflexivity.
  - exists s'. split; [exact E|]. intros n st st' Hn E1 E2. exact (proj2 (H n st st' Hn E1 E2)).
Defined.

(** A message in progress that does not fit in one new buffer loses bytes
    when the chunk size changes: the part of a buffer copied to the end of a
    full one is skipped, but [last] of the full one is not moved.  Of 384 bytes
    in progress 294 are left after a change to 200. *)
Theorem set_chunk_size_loses :
  exists st st' s', get_stream busy 3 = Some st /\
    ngx_rtmp_set_chunk_size busy 200 = Some s' /\ get_stream s' 3 = Some st' /\
    length (pending st) = 384%nat /\ length (pending st') = 294%nat /\
    st_len st' = st_len st.
Proof. do 3 eexists. split_and!; vm_compute; reflexivity. Qed.

(** A peer overruns the receive buffer: a message that sets the chunk size to 1,
    followed in the same segment by 20 bytes or more, is answered by a copy of
    these bytes into a new buffer of 19 bytes. *)
Example recv_overflows :
  Forall (fun n => exists s', ngx_rtmp_recv conf 0 size_events quiet_ack 100 false fresh
      [Data ([2; 0; 0; 0; 0; 0; 4; 1; 0; 0; 0; 0; 0; 0; 0; 1] ++ replicate n 3)] =
    Some (Overflow, s', [])) [20; 120]%nat.
Proof. repeat constructor; eexists; vm_compute; reflexivity. Qed.

(** Three audio messages of one byte with the timestamps 0, 40 and 40, each
    prepared with the header before it. *)
Definition audio_hdr (ts : Z) : ngx_rtmp_header_t := Hdr 4 ts 1 8 1.
Definition prepared (h : ngx_rtmp_header_t) (lh : option ngx_rtmp_header_t) (l : list Z)
  : list Z :=
  match ngx_rtmp_prepare_message conf h lh [out_buf l] with
  | Some (Some out) => concat (map buf_data out)
  | _ => []
  end.
Definition drift_wire : list Z :=
  prepared (audio_hdr 0) None [1] ++ prepared (audio_hdr 40) (Some (audio_hdr 0)) [2] ++
  prepared (audio_hdr 40) (Some (audio_hdr 40)) [3].

(** The sender and the receiver disagree about headers of format 3 at the
    start of a message: the sender uses them for an equal timestamp, the
    receiver adds the last difference again, so that three messages sent at 0,
    40 and 40 are received at 0, 40 and 80. *)
Theorem fmt3_drift :
  exists s', ngx_rtmp_recv conf 0 log_events quiet_ack 100 false fresh [Data drift_wire] =
      Some (Waiting, s', []) /\
    map (fun x => timestamp x.1) (app s') = [0; 40; 80].
Proof. eexists. split; vm_compute; reflexivity. Qed.

(** A chunk of 128 bytes of a message of 200 bytes; then a header that says
    the message has 100 bytes; then more chunks. *)
Definition shorter_wire : list Z :=
  [3; 0; 0; 0; 0; 0; 200; 8; 1; 0; 0; 0] ++ replicate 128 1 ++
  [67; 0; 0; 0; 0; 0; 100; 8] ++ replicate 128 2 ++
  concat (replicate 10 (195 :: replicate 128 3)).

(** The limit [max_message] (here 1000) can be passed: a header in the middle
    of a message may announce a length below the bytes already received, the
    number of missing bytes wraps around to almost 2^32, and chunk after chunk
    is kept. *)
Theorem max_message_passed :
  exists s' st, ngx_rtmp_recv conf 0 log_events quiet_ack 100 false fresh [Data shorter_wire] =
      Some (Waiting, s', []) /\
    get_stream s' 3 = Some st /\ length (pending st) = 1536%nat /\ app s' = [].
Proof. do 2 eexists. split; [vm_compute; reflexivity|]. split; [reflexivity|]. now vm_compute. Qed.

End Chunk.
