(* ===== verification/Shared.v ===== *)
(** * Shared output buffers (src/src/rtmp/ngx_rtmp_shared.c)

    Outgoing messages are chains of buffers that several sessions send at the
    same time.  A chain has a reference count in front of its first link; a
    chain nobody refers to any more goes to the list [cscf->free], from which
    new buffers are taken.  The links live in a store, so that a wrong count
    would show as a buffer that is in two places.

    The memory of the pool is never given back; allocation is taken to
    succeed. *)

From Stdlib Require Import ZArith Lia.
From stdpp Require Import base numbers list gmap sorting.
From S2P Require Import Prelude Buf Bandwidth Chunk.

Module Shared.

Definition loc := nat.

(** A link with its buffer and the reference count in front of it. *)
Record ngx_chain_t := Cell {
  next : option loc;
  ref : Z;
  buf : ngx_buf_t
}.

(** The pool of [ngx_rtmp_core_srv_conf_t]: links [0 .. brk - 1] have been
    allocated. *)
Record pool := Pool {
  cells : gmap loc ngx_chain_t;
  brk : nat;
  free : option loc;
  chunk_size : nat
}.

Definition set_cell (h : pool) (l : loc) (c : ngx_chain_t) : pool :=
  Pool (<[l := c]> (cells h)) (brk h) (free h) (chunk_size h).
Definition set_free (h : pool) (f : option loc) : pool :=
  Pool (cells h) (brk h) f (chunk_size h).

Definition set_next (h : pool) (l : loc) (n : option loc) : option pool :=
  c ← cells h !! l; Some (set_cell h l (Cell n (ref c) (buf c))).
Definition set_buf (h : pool) (l : loc) (b : ngx_buf_t) : option pool :=
  c ← cells h !! l; Some (set_cell h l (Cell (next c) (ref c) b)).
Definition set_ref (h : pool) (l : loc) (n : Z) : option pool :=
  c ← cells h !! l; Some (set_cell h l (Cell (next c) n (buf c))).

(** [ngx_rtmp_ref_get] and [ngx_rtmp_ref_put], with the new count. *)
Definition ngx_rtmp_ref_get (h : pool) (l : loc) : option (pool * Z) :=
  c ← cells h !! l; let n := u32 (ref c + 1) in h ← set_ref h l n; Some (h, n).
Definition ngx_rtmp_ref_put (h : pool) (l : loc) : option (pool * Z) :=
  c ← cells h !! l; let n := u32 (ref c - 1) in h ← set_ref h l n; Some (h, n).

Definition ngx_rtmp_acquire_shared_chain (h : pool) (l : loc) : option pool :=
  '(h, _) ← ngx_rtmp_ref_get h l; Some h.

Definition hdr_room : nat := Chunk.NGX_RTMP_MAX_CHUNK_HEADER.

(** [b->pos = b->last = b->start + NGX_RTMP_MAX_CHUNK_HEADER]. *)
Definition rewind (b : ngx_buf_t) : ngx_buf_t := Buf (b_mem b) hdr_room hdr_room.

Definition ngx_rtmp_alloc_shared_buf (h : pool) : option (pool * loc) :=
  '(h, l, b) ←
    match free h with
    | Some l => c ← cells h !! l; Some (set_free h (next c), l, buf c)
    | None =>
        let b := Buf (replicate (chunk_size h + hdr_room) 0) 0 0 in
        Some (Pool (cells h) (S (brk h)) (free h) (chunk_size h), brk h, b)
    end;
  Some (set_cell h l (Cell None 1 (rewind b)), l).

(** The last link of a chain; [None] also when the fuel ends. *)
Fixpoint last_link (fuel : nat) (h : pool) (l : loc) : option loc :=
  match fuel with
  | O => None
  | S fuel => c ← cells h !! l;
              match next c with None => Some l | Some l => last_link fuel h l end
  end.

(** A chain has no more links than were allocated. *)
Definition ngx_rtmp_free_shared_chain (h : pool) (l : loc) : option pool :=
  '(h, n) ← ngx_rtmp_ref_put h l;
  if n =? 0 then
    cl ← last_link (brk h) h l;
    h ← set_next h cl (free h);
    Some (set_free h (Some l))
  else Some h.

(** The inner loop of [ngx_rtmp_append_shared_bufs]: the buffers of [in] that
    fit; [p] is the rest of the current one. *)
Fixpoint fill (b : ngx_buf_t) (p : list Z) (ins : list (list Z))
  : ngx_buf_t * option (list Z * list (list Z)) :=
  if (length p <=? buf_room b)%nat then
    let b := buf_push b p in
    match ins with
    | [] => (b, None)
    | p :: ins => fill b p ins
    end
  else (b, Some (p, ins)).

Fixpoint append_loop (fuel : nat) (h : pool) (head l : option loc) (p : list Z)
    (ins : list (list Z)) : option (pool * option loc) :=
  match fuel with
  | O => None
  | S fuel =>
      '(h, head, l) ←
        match l with
        | None => '(h, l) ← ngx_rtmp_alloc_shared_buf h; Some (h, Some l, l)
        | Some l =>
            c ← cells h !! l;
            if (b_last (buf c) =? b_end (buf c))%nat then
              '(h, l') ← ngx_rtmp_alloc_shared_buf h;
              h ← set_next h l (Some l'); Some (h, head, l')
            else Some (h, head, l)
        end;
      c ← cells h !! l;
      match fill (buf c) p ins with
      | (b, None) => h ← set_buf h l b; Some (h, head)
      | (b, Some (p, ins)) =>
          let size := buf_room b in
          h ← set_buf h l (buf_push b (take size p));
          append_loop fuel h head (Some l) (drop size p) ins
      end
  end.

(** [in] is given by the contents of its buffers, none of which is written.
    Every pass but the last copies a byte, see [append_shared_bufs_spec]. *)
Definition ngx_rtmp_append_shared_bufs (h : pool) (head : option loc) (ins : list (list Z))
  : option (pool * option loc) :=
  match ins with
  | [] => None
  | p :: ins =>
      l ← match head with
          | None => Some None
          | Some l => l ← last_link (brk h) h l; Some (Some l)
          end;
      append_loop (S (length (p ++ concat ins))) h head l p ins
  end.

(* ------------------------------------------------------------------ *)
(** ** Linked lists *)

(** The links [ls] lead from [p] to [q]. *)
Fixpoint seg (m : gmap loc ngx_chain_t) (p q : option loc) (ls : list loc) : Prop :=
  match ls with
  | [] => p = q
  | l :: ls => p = Some l /\ exists c, m !! l = Some c /\ seg m (next c) q ls
  end.

Lemma seg_cell m p q ls l : seg m p q ls -> l ∈ ls -> is_Some (m !! l).
Proof.
  revert p. induction ls as [|l' ls IH]; intros p H Hin; [now apply not_elem_of_nil in Hin|].
  destruct H as (-> & c & E & H). apply elem_of_cons in Hin as [-> |Hin]; eauto.
Qed.

Lemma seg_frame m m' p q ls :
  (forall l, l ∈ ls -> next <$> m' !! l = next <$> m !! l) -> seg m p q ls -> seg m' p q ls.
Proof.
  revert p. induction ls as [|l ls IH]; intros p Hf H; [done|].
  destruct H as (-> & c & E & H). split; [done|].
  pose proof (Hf l (list_elem_of_here _ _)) as El. rewrite E in El.
  destruct (m' !! l) as [c'|]; [|done]. injection El as El. exists c'. split; [done|].
  rewrite El. apply IH; [|done]. intros l' Hl'. apply Hf. now apply list_elem_of_further.
Qed.

Lemma seg_app m p q r ls1 ls2 : seg m p q ls1 -> seg m q r ls2 -> seg m p r (ls1 ++ ls2).
Proof.
  revert p. induction ls1 as [|l ls1 IH]; intros p H1 H2; cbn in *; [now subst|].
  destruct H1 as (-> & c & E & H1). eauto.
Qed.

(** A chain with its last link. *)
Lemma seg_snoc m p q ls l :
  seg m p q (ls ++ [l]) <-> seg m p (Some l) ls /\ exists c, m !! l = Some c /\ next c = q.
Proof.
  split.
  - revert p. induction ls as [|l' ls IH]; intros p H; cbn in *.
    + destruct H as (-> & c & E & H). eauto.
    + destruct H as (-> & c & E & H). destruct (IH _ H) as [? ?]. eauto.
  - intros (H1 & c & E & H2). eapply seg_app; [exact H1|]. cbn. eauto.
Qed.

Lemma last_link_seg h ls l : forall fuel p,
  seg (cells h) (Some p) None (ls ++ [l]) -> (length ls < fuel)%nat ->
  last_link fuel h p = Some l.
Proof.
  induction ls as [|l' ls IH]; intros fuel p H Hf; (destruct fuel as [|fuel]; [cbn in Hf; lia|]);
    destruct H as ([= ->] & c & E & H); cbn [last_link]; rewrite E, some_bind.
  - cbn in H. now rewrite H.
  - assert (exists p', next c = Some p') as [p' Ep].
    { destruct ls; destruct H as [-> _]; eauto. }
    rewrite Ep in *. apply IH; [done|cbn [length] in Hf; lia].
Qed.

(* ------------------------------------------------------------------ *)
(** ** Well-formed pools *)

Definition fits (h : pool) (b : ngx_buf_t) : Prop :=
  buf_ok b /\ b_end b = (chunk_size h + hdr_room)%nat.

(** [live] are the chains in use: they and the free list are linked lists that
    share no link, and every allocated link is in one of them. *)
Record wf (h : pool) (live : list (list loc)) : Prop := {
  wf_free : exists fl, seg (cells h) (free h) None fl /\ fl ++ concat live ≡ₚ seq 0 (brk h);
  wf_live : Forall (fun ls => ls <> [] /\ seg (cells h) (head ls) None ls) live;
  wf_bufs : forall l c, cells h !! l = Some c -> fits h (buf c)
}.

#[export] Instance wf_perm h : Proper ((≡ₚ) ==> iff) (wf h).
Proof.
  assert (forall l1 l2, l1 ≡ₚ l2 -> wf h l1 -> wf h l2) as H.
  { intros l1 l2 Hp [(fl & Hs & Hfl) Hl Hb]. constructor.
    - exists fl. split; [done|]. now rewrite <- Hp.
    - now rewrite <- Hp.
    - done. }
  intros l1 l2 Hp. split; apply H; [done|now symmetry].
Qed.

(** The chains of [live] are as they were. *)
Definition same_chains (h h' : pool) (live : list (list loc)) : Prop :=
  forall l, l ∈ concat live -> cells h' !! l = cells h !! l.

Lemma same_chains_trans h1 h2 h3 live :
  same_chains h1 h2 live -> same_chains h2 h3 live -> same_chains h1 h3 live.
Proof. intros H1 H2 l Hl. rewrite (H2 l Hl). auto. Qed.

Lemma elem_concat (l : loc) ls live : ls ∈ live -> l ∈ ls -> l ∈ concat live.
Proof.
  intros H Hl. induction live as [|x live IH]; [now apply not_elem_of_nil in H|].
  cbn. apply elem_of_app. apply elem_of_cons in H as [-> |H]; auto.
Qed.

Lemma wf_live_frame h h' live :
  (forall l, l ∈ concat live -> next <$> cells h' !! l = next <$> cells h !! l) ->
  Forall (fun ls => ls <> [] /\ seg (cells h) (head ls) None ls) live ->
  Forall (fun ls => ls <> [] /\ seg (cells h') (head ls) None ls) live.
Proof.
  intros Hf. rewrite !Forall_forall. intros H ls Hls. destruct (H ls Hls) as [Hne Hs].
  split; [done|]. eapply seg_frame; [|exact Hs]. intros l Hl. apply Hf. eapply elem_concat; eauto.
Qed.

Lemma insert_other (m : gmap loc ngx_chain_t) l l' c : l <> l' -> <[l := c]> m !! l' = m !! l'.
Proof. apply lookup_insert_ne. Qed.

Lemma rewind_fits h b : fits h b -> fits h (rewind b).
Proof.
  intros [(H1 & H2 & H3) He]. unfold fits, buf_ok, rewind, b_end in *. cbn.
  repeat split; auto; lia.
Qed.

Lemma rewind_data b : buf_data (rewind b) = [].
Proof. unfold buf_data, rewind. cbn [b_last b_pos]. now rewrite Nat.sub_diag. Qed.

(** A new buffer is no part of the chains in use. *)
Lemma alloc_spec h live :
  wf h live ->
  exists h' l b, ngx_rtmp_alloc_shared_buf h = Some (h', l) /\ wf h' ([l] :: live) /\
    chunk_size h' = chunk_size h /\ same_chains h h' live /\ (l ∉ concat live) /\
    cells h' !! l = Some (Cell None 1 b) /\ fits h b /\ b_pos b = hdr_room /\
    buf_data b = [] /\ buf_room b = chunk_size h.
Proof.
  intros [(fl & Hs & Hp) Hl Hb].
  assert (NoDup (fl ++ concat live)) as Hnd by (rewrite Hp; apply NoDup_seq).
  unfold ngx_rtmp_alloc_shared_buf.
  assert (exists h1 l b fl', match free h with
    | Some l => (c ← cells h !! l; Some (set_free h (next c), l, buf c))
    | None => Some (Pool (cells h) (S (brk h)) (free h) (chunk_size h), brk h,
                    Buf (replicate (chunk_size h + hdr_room) 0) 0 0)
    end = Some (h1, l, b) /\ cells h1 = cells h /\ chunk_size h1 = chunk_size h /\
    fits h b /\ seg (cells h) (free h1) None fl' /\
    l :: fl' ++ concat live ≡ₚ seq 0 (brk h1) /\ l ∉ fl' ++ concat live)
    as (h1 & l & b & fl' & -> & Ec & Ek & Hfb & Hs' & Hp' & Hn).
  { destruct fl as [|l fl].
    - cbn in Hs. rewrite Hs. do 3 eexists. exists []. split; [reflexivity|].
      split; [done|]. split; [done|]. split.
      { split; [|unfold b_end; cbn; now rewrite length_replicate].
        unfold buf_ok, b_end. cbn. split; [lia|]. split; [lia|].
        apply bytes_ok_replicate. unfold byte_ok. lia. }
      split; [done|]. cbn [Datatypes.app] in *. split.
      + cbn [brk]. rewrite seq_S, Hp. apply Permutation_cons_append.
      + rewrite Hp, elem_of_seq. lia.
    - destruct Hs as (-> & c & E & Hs). rewrite E, some_bind. do 3 eexists. exists fl.
      split; [reflexivity|]. split; [done|]. split; [done|]. split; [eauto|]. split; [done|].
      split; [done|]. now apply NoDup_cons in Hnd as [? _]. }
  rewrite some_bind. do 3 eexists. split; [reflexivity|].
  apply not_elem_of_app in Hn as [Hn1 Hn2].
  assert (same_chains h (set_cell h1 l (Cell None 1 (rewind b))) live) as Hsame.
  { intros l' Hl'. cbn. rewrite Ec. apply insert_other. congruence. }
  split; [|split; [done|]].
  - constructor.
    + exists fl'. cbn [cells set_cell free brk concat]. split.
      * eapply seg_frame; [|exact Hs']. intros l' Hl'. rewrite Ec, insert_other; [done|congruence].
      * rewrite <- Hp'. cbn [Datatypes.app]. symmetry. apply Permutation_middle.
    + apply Forall_cons_2.
      * split; [done|]. cbn. split; [done|]. eexists. now rewrite lookup_insert_eq.
      * eapply wf_live_frame; [|exact Hl]. intros l' Hl'. now rewrite (Hsame l' Hl').
    + intros l' c. cbn. rewrite Ec. intros [[<- <-]|[_ E]]%lookup_insert_Some.
      * unfold fits. cbn [chunk_size set_cell]. rewrite Ek. now apply rewind_fits.
      * unfold fits. cbn [chunk_size set_cell]. rewrite Ek. eapply Hb, E.
  - split; [done|]. split; [done|]. cbn. rewrite lookup_insert_eq. split; [reflexivity|].
    split; [now apply rewind_fits|]. split; [done|]. split; [apply rewind_data|].
    destruct Hfb as [_ He]. unfold buf_room, rewind, b_end in *. cbn. lia.
Qed.

(** A change of one link that keeps its [next]. *)
Lemma wf_set_cell h live l c c' :
  wf h live -> cells h !! l = Some c -> next c' = next c -> fits h (buf c') ->
  wf (set_cell h l c') live.
Proof.
  intros [(fl & Hs & Hp) Hl Hb] E En Hf.
  assert (forall l', next <$> <[l := c']> (cells h) !! l' = next <$> cells h !! l') as Hn.
  { intros l'. destruct (decide (l' = l)) as [-> |Hne].
    - rewrite lookup_insert_eq, E. cbn. now rewrite En.
    - now rewrite insert_other by congruence. }
  constructor.
  - exists fl. split; [|done]. eapply seg_frame; [|exact Hs]. intros; apply Hn.
  - eapply wf_live_frame; [|exact Hl]. intros; apply Hn.
  - intros l' c1. cbn. intros [[<- <-]|[_ E1]]%lookup_insert_Some; [exact Hf|exact (Hb _ _ E1)].
Qed.

(** The links of one chain and of the others. *)
Lemma wf_disjoint h ls live l : wf h (ls :: live) -> l ∈ ls -> l ∉ concat live.
Proof.
  intros [(fl & _ & Hp) _ _] Hl Hin.
  assert (NoDup (fl ++ concat (ls :: live))) as Hnd by (rewrite Hp; apply NoDup_seq).
  cbn in Hnd. apply NoDup_app in Hnd as (_ & _ & Hnd). apply NoDup_app in Hnd as (_ & Hd & _).
  exact (Hd l Hl Hin).
Qed.

Lemma wf_chain_len h ls live : wf h (ls :: live) -> (length ls <= brk h)%nat.
Proof.
  intros [(fl & _ & Hp) _ _]. apply Permutation_length in Hp. revert Hp. cbn. len. Qed.

Lemma same_set_cell h ls live l c :
  wf h (ls :: live) -> l ∈ ls -> same_chains h (set_cell h l c) live.
Proof.
  intros Hw Hl l' Hl'. cbn. apply insert_other. intros <-. eapply wf_disjoint; eauto.
Qed.

Lemma wf_head h ls live :
  wf h (ls :: live) -> exists l ls', ls = l :: ls' /\ is_Some (cells h !! l).
Proof.
  intros [_ Hl _]. apply Forall_cons in Hl as [[Hne Hs] _]. destruct ls as [|l ls]; [done|].
  destruct Hs as (_ & c & E & _). eauto.
Qed.

(** The chain goes back to the free list. *)
Lemma release_chain h ls live l :
  wf h (ls :: live) -> head ls = Some l ->
  exists h', (cl ← last_link (brk h) h l; h ← set_next h cl (free h); Some (set_free h (Some l)))
      = Some h' /\ wf h' live /\ same_chains h h' live /\ chunk_size h' = chunk_size h.
Proof.
  intros Hw Hh. pose proof Hw as [(fl & Hs & Hp) Hl Hb]. apply Forall_cons in Hl as [[Hne Hc] Hl].
  destruct (exists_last Hne) as (ls0 & z & Els).
  assert (z ∈ ls) as Hz by (rewrite Els; apply elem_of_app; right; apply list_elem_of_here).
  pose proof (wf_chain_len _ _ _ Hw) as Hlen.
  assert (length ls = S (length ls0)) as Hlen' by (rewrite Els, length_app; cbn; lia).
  rewrite Hh in Hc. pose proof Hc as Hc'. rewrite Els in Hc'.
  rewrite (last_link_seg h ls0 z (brk h) l Hc'), some_bind by lia.
  apply seg_snoc in Hc' as (Hc1 & c & Ez & En). unfold set_next. rewrite Ez, !some_bind.
  eexists. split; [reflexivity|].
  assert (NoDup (fl ++ ls ++ concat live)) as Hnd by (cbn in Hp; rewrite Hp; apply NoDup_seq).
  apply NoDup_app in Hnd as (_ & Hd & Hnd). apply NoDup_app in Hnd as (Hnd & _ & _).
  assert (same_chains h (set_cell h z (Cell (free h) (ref c) (buf c))) live) as Hsame
    by (eapply same_set_cell; eauto).
  split; [|split; [exact Hsame|done]].
  constructor; cbn [set_free set_cell cells free brk].
  - exists (ls ++ fl). split.
    + rewrite Els, <- app_assoc. cbn [Datatypes.app]. eapply seg_app.
      * eapply seg_frame; [|exact Hc1]. intros l' Hl'. rewrite insert_other; [done|].
        rewrite Els in Hnd. apply NoDup_app in Hnd as (_ & Hd' & _). intros <-.
        eapply Hd'; [exact Hl'|apply list_elem_of_here].
      * cbn. split; [done|]. eexists. split; [apply lookup_insert_eq|]. cbn.
        eapply seg_frame; [|exact Hs]. intros l' Hl'. rewrite insert_other; [done|].
        intros <-. apply (Hd z Hl'). apply elem_of_app. now left.
    + rewrite <- Hp. cbn [concat]. rewrite !app_assoc. f_equiv. apply Permutation_app_comm.
  - eapply (wf_live_frame h (set_cell h z _)); [|exact Hl]. intros l' Hl'.
    now rewrite (Hsame l' Hl').
  - intros l' c1. intros [[<- <-]|[_ E1]]%lookup_insert_Some; [exact (Hb _ _ Ez)|exact (Hb _ _ E1)].
Qed.

Lemma free_spec h ls live l c :
  wf h (ls :: live) -> head ls = Some l -> cells h !! l = Some c -> 1 <= ref c < 2 ^ 32 ->
  exists h', ngx_rtmp_free_shared_chain h l = Some h' /\ same_chains h h' live /\
    chunk_size h' = chunk_size h /\
    (ref c = 1 -> wf h' live) /\
    (1 < ref c -> wf h' (ls :: live) /\ h' = set_cell h l (Cell (next c) (ref c - 1) (buf c))).
Proof.
  intros Hw Hh E Hr. unfold ngx_rtmp_free_shared_chain, ngx_rtmp_ref_put, set_ref.
  rewrite E, !some_bind, u32_small by lia.
  set (h1 := set_cell h l _).
  assert (wf h1 (ls :: live)) as Hw1.
  { eapply wf_set_cell; eauto. apply Hw in E. exact E. }
  assert (l ∈ ls) as Hl by (destruct ls; [done|]; injection Hh as ->; apply list_elem_of_here).
  assert (same_chains h h1 live) as Hs by (eapply same_set_cell; eauto).
  case_if.
  - destruct (release_chain h1 ls live l Hw1 Hh) as (h' & -> & Hw' & Hs' & Hk).
    exists h'. split; [done|]. split; [eapply same_chains_trans; eauto|]. split; [done|].
    split; [done|lia].
  - exists h1. split; [done|]. split; [done|]. split; [done|]. split; [lia|done].
Qed.

Lemma free_chunk_size h l h' :
  ngx_rtmp_free_shared_chain h l = Some h' -> chunk_size h' = chunk_size h.
Proof.
  unfold ngx_rtmp_free_shared_chain, ngx_rtmp_ref_put, set_ref, set_next.
  destruct (cells h !! l); [|done]. rewrite !some_bind. case_if; [|now intros [= <-]].
  destruct (last_link _ _ _) as [cl|]; [|done]. rewrite some_bind.
  destruct (cells _ !! cl); [|done]. rewrite some_bind. now intros [= <-].
Qed.

(** Giving up a reference: the last one returns all links of the chain to the
    free list, any other one only lowers the count; the other chains in use are
    not touched, and no link is lost or in two lists. *)
Theorem free_shared_chain_spec h ls live l c :
  wf h (ls :: live) -> head ls = Some l -> cells h !! l = Some c -> 1 <= ref c < 2 ^ 32 ->
  exists h', ngx_rtmp_free_shared_chain h l = Some h' /\ same_chains h h' live /\
    chunk_size h' = chunk_size h /\
    (ref c = 1 -> wf h' live) /\
    (1 < ref c -> wf h' (ls :: live) /\ h' = set_cell h l (Cell (next c) (ref c - 1) (buf c))).
Proof. apply free_spec. Qed.

(** One more reference. *)
Lemma acquire_spec h ls live l c :
  wf h (ls :: live) -> head ls = Some l -> cells h !! l = Some c -> 0 <= ref c < 2 ^ 32 - 1 ->
  ngx_rtmp_acquire_shared_chain h l = Some (set_cell h l (Cell (next c) (ref c + 1) (buf c))) /\
  wf (set_cell h l (Cell (next c) (ref c + 1) (buf c))) (ls :: live) /\
  same_chains h (set_cell h l (Cell (next c) (ref c + 1) (buf c))) live.
Proof.
  intros Hw Hh E Hr. unfold ngx_rtmp_acquire_shared_chain, ngx_rtmp_ref_get, set_ref.
  rewrite E, !some_bind, u32_small by lia. split; [done|]. split.
  - eapply wf_set_cell; eauto. apply Hw in E. exact E.
  - eapply same_set_cell; [exact Hw|]. destruct ls; [done|]. injection Hh as ->.
    apply list_elem_of_here.
Qed.

(* ------------------------------------------------------------------ *)
(** ** Appending *)

(** [x] cut into pieces of [n] bytes. *)
Fixpoint pieces (fuel n : nat) (x : list Z) : list (list Z) :=
  match fuel, x with
  | S fuel, _ :: _ => take n x :: pieces fuel n (drop n x)
  | _, _ => []
  end.

Lemma pieces_fuel n : (0 < n)%nat -> forall f1 f2 x, (length x <= f1)%nat -> (length x <= f2)%nat ->
  pieces f1 n x = pieces f2 n x.
Proof.
  intros Hn. induction f1 as [|f1 IH]; intros f2 x H1 H2.
  - destruct x; [|cbn in H1; lia]. now destruct f2.
  - destruct x as [|y x]; [now destruct f2|]. destruct f2 as [|f2]; [cbn in H2; lia|].
    cbn [pieces]. f_equal. apply IH; rewrite length_drop; cbn [length] in *; lia.
Qed.

(** [fill] copies what fits. *)
Lemma fill_spec : forall ins b p, buf_ok b ->
  let x := p ++ concat ins in
  bytes_ok x ->
  match fill b p ins with
  | (b', None) => b' = buf_push b x /\ (length x <= buf_room b)%nat
  | (b', Some (p', ins')) =>
      buf_push b' (take (buf_room b') p') = buf_push b (take (buf_room b) x) /\
      drop (buf_room b') p' ++ concat ins' = drop (buf_room b) x /\ (buf_room b < length x)%nat
  end.
Proof.
  induction ins as [|q ins IH]; intros b p Hb x Hx; unfold x in *; clear x; cbn [fill concat] in *.
  - rewrite app_nil_r in *. case_if; [done|]. cbn [concat]. rewrite app_nil_r. auto.
  - case_if.
    + apply bytes_ok_app in Hx as [Hp Hx].
      pose proof (buf_push_room b p Hb ltac:(lia)) as Hr.
      pose proof (buf_push_push b p Hb ltac:(lia)) as Hpp.
      pose proof (IH (buf_push b p) q (buf_push_ok b p Hb ltac:(lia) Hp) Hx) as H. cbv zeta in H.
      destruct (fill (buf_push b p) q ins) as [b' [[p' ins']|]].
      * rewrite Hr, Hpp in H. destruct H as (H1 & H2 & H3).
        rewrite take_app_ge, drop_app_ge, length_app by lia. split_and!; auto. lia.
      * rewrite Hr, Hpp in H. destruct H as (-> & H2). rewrite length_app. split; [done|lia].
    + rewrite take_app_le, drop_app_le, length_app by lia. split_and!; [done|done|lia].
Qed.

(** What a chain holds: the counts, positions and contents of its links. *)
Definition link_view (h : pool) (l : loc) : option (Z * nat * list Z) :=
  (fun c => (ref c, b_pos (buf c), buf_data (buf c))) <$> cells h !! l.
Definition view (h : pool) (ls : list loc) : list (option (Z * nat * list Z)) :=
  map (link_view h) ls.

Lemma view_app h ls1 ls2 : view h (ls1 ++ ls2) = view h ls1 ++ view h ls2.
Proof. apply map_app. Qed.

Lemma view_same h h' ls :
  (forall l, l ∈ ls -> link_view h' l = link_view h l) -> view h' ls = view h ls.
Proof.
  intros H. apply map_ext_in. intros l Hl. apply H. now apply list_elem_of_In.
Qed.

(** Links two chains. *)
Lemma wf_link h ls0 l l' live c :
  wf h ([l'] :: (ls0 ++ [l]) :: live) -> cells h !! l = Some c ->
  exists h', set_next h l (Some l') = Some h' /\ wf h' (((ls0 ++ [l]) ++ [l']) :: live) /\
    (forall k, link_view h' k = link_view h k) /\ same_chains h h' live /\
    chunk_size h' = chunk_size h /\ cells h' !! l' = cells h !! l'.
Proof.
  intros Hw E. pose proof Hw as [(fl & Hs & Hp) Hl Hb].
  apply Forall_cons in Hl as [[_ Hl'] Hl]. apply Forall_cons in Hl as [[_ Hc] Hl].
  unfold set_next. rewrite E, some_bind. set (c1 := Cell (Some l') (ref c) (buf c)).
  assert (l <> l') as Hne.
  { intros <-. eapply wf_disjoint; [exact Hw|apply list_elem_of_here|].
    cbn. apply elem_of_app. left. apply elem_of_app. right. apply list_elem_of_here. }
  assert (NoDup (fl ++ l' :: (ls0 ++ [l]) ++ concat live)) as Hnd
    by (cbn in Hp; rewrite Hp; apply NoDup_seq).
  apply NoDup_app in Hnd as (_ & Hd & Hnd). apply NoDup_cons in Hnd as [Hn' Hnd].
  apply NoDup_app in Hnd as (Hnd & Hd2 & _). apply NoDup_app in Hnd as (_ & Hd3 & _).
  assert (l ∈ ls0 ++ [l]) as Hin by (apply elem_of_app; right; apply list_elem_of_here).
  assert (same_chains h (set_cell h l c1) live) as Hsame.
  { intros k Hk. cbn. apply insert_other. intros <-. exact (Hd2 l Hin Hk). }
  eexists. split; [reflexivity|]. split; [|split; [|split; [done|split; [done|]]]].
  - constructor; cbn [set_cell cells free brk].
    + exists fl. split.
      * eapply seg_frame; [|exact Hs]. intros k Hk. rewrite insert_other; [done|]. intros <-.
        apply (Hd l Hk). apply elem_of_cons. right. apply elem_of_app. now left.
      * rewrite <- Hp. cbn [concat]. rewrite (app_assoc [l']).
        now rewrite (Permutation_app_comm [l'] (ls0 ++ [l])).
    + apply Forall_cons_2.
      * split; [now destruct ls0|].
        replace (head ((ls0 ++ [l]) ++ [l'])) with (head (ls0 ++ [l])) by now destruct ls0.
        apply seg_snoc in Hc as [Hc1 _]. destruct Hl' as (_ & c' & E' & Hn).
        eapply seg_app; [|cbn; split; [reflexivity|]; exists c'; rewrite insert_other by done; auto].
        apply seg_snoc. split; [|exists c1; rewrite lookup_insert_eq; auto].
        eapply seg_frame; [|exact Hc1]. intros k Hk. rewrite insert_other; [done|]. intros <-.
        apply (Hd3 l Hk). apply list_elem_of_here.
      * eapply (wf_live_frame h (set_cell h l c1)); [|exact Hl]. intros k Hk. now rewrite Hsame.
    + intros k c2. intros [[<- <-]|[_ E2]]%lookup_insert_Some; [exact (Hb _ _ E)|exact (Hb _ _ E2)].
  - intros k. unfold link_view. cbn. destruct (decide (k = l)) as [-> |Hk].
    + now rewrite lookup_insert_eq, E.
    + now rewrite insert_other by congruence.
  - cbn. now apply insert_other.
Qed.

(** The contents of the new links when [x] is written behind a link with [r]
    bytes of room; a full link is always followed by a new one. *)
Definition spilled (r n : nat) (x : list Z) : list (list Z) :=
  match r, x with
  | O, [] => [[]]
  | _, _ => pieces (length x) n (drop r x)
  end.

Definition new_link (d : list Z) : option (Z * nat * list Z) := Some (1, hdr_room, d).

Lemma spilled_full n x :
  (0 < n)%nat ->
  spilled 0 n x = take n x :: pieces (length x) n (drop n x).
Proof.
  intros Hn. unfold spilled. destruct x as [|y x]; [now rewrite take_nil, drop_nil|].
  rewrite drop_0. change (pieces (length (y :: x)) n (y :: x)) with
    (take n (y :: x) :: pieces (length x) n (drop n (y :: x))).
  f_equal. apply pieces_fuel; auto; rewrite length_drop; cbn [length]; lia.
Qed.

Lemma spilled_room r n x : (0 < r)%nat -> spilled r n x = pieces (length x) n (drop r x).
Proof. now destruct r; [lia|]. Qed.

Lemma spilled_more n x : x <> [] -> spilled 0 n x = pieces (length x) n x.
Proof. now destruct x. Qed.

(** The chain [ls ++ [l]] of [h] has become one of [h'] with [x] appended,
    [c] being the link [l] before. *)
Definition appended (h h' : pool) (live : list (list loc)) (ls : list loc) (l : loc)
    (c : ngx_chain_t) (x : list Z) : Prop :=
  same_chains h h' live /\ chunk_size h' = chunk_size h /\
  exists ls2, wf h' (((ls ++ [l]) ++ ls2) :: live) /\ view h' ls = view h ls /\
    link_view h' l = Some (ref c, b_pos (buf c), buf_data (buf c) ++ take (buf_room (buf c)) x) /\
    view h' ls2 = map new_link (spilled (buf_room (buf c)) (chunk_size h) x).

Lemma head_snoc (ls : list loc) l ls2 : head ((ls ++ [l]) ++ ls2) = head (ls ++ [l]).
Proof. now destruct ls. Qed.

Section Append.
Context (live : list (list loc)).

Definition loop_spec (fuel : nat) : Prop := forall h ls l c p ins,
  let x := p ++ concat ins in
  (0 < chunk_size h)%nat -> wf h ((ls ++ [l]) :: live) -> cells h !! l = Some c ->
  bytes_ok x -> (length x < fuel)%nat ->
  exists h', append_loop fuel h (head (ls ++ [l])) (Some l) p ins = Some (h', head (ls ++ [l])) /\
    appended h h' live ls l c x.

(** Writing to the last link. *)
Lemma push_spec h ls l c y :
  wf h ((ls ++ [l]) :: live) -> cells h !! l = Some c -> bytes_ok y ->
  (length y <= buf_room (buf c))%nat ->
  let c' := Cell (next c) (ref c) (buf_push (buf c) y) in
  let h' := set_cell h l c' in
  set_buf h l (buf_push (buf c) y) = Some h' /\ wf h' ((ls ++ [l]) :: live) /\
  same_chains h h' live /\ view h' ls = view h ls /\ cells h' !! l = Some c' /\
  buf_data (buf c') = buf_data (buf c) ++ y.
Proof.
  intros Hw E Hy Hr c' h'. unfold set_buf. rewrite E, some_bind. split; [done|].
  pose proof (wf_bufs _ _ Hw _ _ E) as [Hok He].
  split; [|split; [|split; [|split]]].
  - eapply wf_set_cell; eauto. split; cbn [buf c']; [now apply buf_push_ok|].
    now rewrite buf_push_end.
  - eapply same_set_cell; [exact Hw|]. apply elem_of_app. right. apply list_elem_of_here.
  - apply view_same. intros k Hk. unfold link_view, h'. cbn. rewrite insert_other; [done|].
    intros <-. destruct Hw as [(fl & _ & Hp) _ _].
    assert (NoDup (fl ++ (ls ++ [l]) ++ concat live)) as Hnd
      by (cbn in Hp; rewrite Hp; apply NoDup_seq).
    apply NoDup_app in Hnd as (_ & _ & Hnd). apply NoDup_app in Hnd as (Hnd & _ & _).
    apply NoDup_app in Hnd as (_ & Hd & _). apply (Hd l Hk). apply list_elem_of_here.
  - apply lookup_insert_eq.
  - now apply buf_data_push.
Qed.

(** The rest of a pass, once the last link has room. *)
Lemma body_spec fuel h ls l c p ins :
  let x := p ++ concat ins in
  loop_spec fuel -> (0 < chunk_size h)%nat -> wf h ((ls ++ [l]) :: live) ->
  cells h !! l = Some c -> (0 < buf_room (buf c))%nat -> bytes_ok x -> (length x <= fuel)%nat ->
  exists h', match fill (buf c) p ins with
    | (b, None) => h ← set_buf h l b; Some (h, head (ls ++ [l]))
    | (b, Some (p, ins)) =>
        let size := buf_room b in
        h ← set_buf h l (buf_push b (take size p));
        append_loop fuel h (head (ls ++ [l])) (Some l) (drop size p) ins
    end = Some (h', head (ls ++ [l])) /\ appended h h' live ls l c x.
Proof.
  intros x IH Hk Hw E Hr Hx Hf. pose proof (wf_bufs _ _ Hw _ _ E) as [Hok _].
  pose proof (fill_spec ins (buf c) p Hok Hx) as H. cbv zeta in H. fold x in H.
  destruct (fill (buf c) p ins) as [b [[p' ins']|]].
  - destruct H as (Hb & Hx' & Hlen). cbv zeta. rewrite Hb.
    destruct (push_spec h ls l c (take (buf_room (buf c)) x)) as (-> & Hw1 & Hs1 & Hv1 & E1 & Hd1);
      auto with lmss; [len|]. rewrite some_bind.
    set (h1 := set_cell h l _) in *. set (c1 := Cell _ _ _) in *.
    destruct (IH h1 ls l c1 (drop (buf_room b) p') ins') as (h' & -> & Hs & Hk' & ls2 & Hw' & Hv & Hl & Hv2);
      auto; rewrite ?Hx'; auto with lmss; [rewrite length_drop; lia|].
    exists h'. split; [done|]. split; [eapply same_chains_trans; eauto|]. split; [done|].
    exists ls2. split; [done|]. split; [congruence|].
    assert (buf_room (buf c1) = 0%nat) as Hr1.
    { cbn [buf c1]. rewrite buf_push_room; auto; len. }
    rewrite Hr1 in *. split.
    + rewrite Hl, Hd1, app_nil_r. reflexivity.
    + assert (drop (buf_room (buf c)) x <> []) as Hne.
      { intros Ed. apply (f_equal length) in Ed. rewrite length_drop in Ed. cbn in Ed. lia. }
      rewrite Hv2, Hx', spilled_more, spilled_room by done. f_equal.
      apply pieces_fuel; auto. rewrite length_drop. lia.
  - destruct H as (-> & Hlen).
    destruct (push_spec h ls l c x) as (-> & Hw1 & Hs1 & Hv1 & E1 & Hd1); auto. rewrite some_bind.
    eexists. split; [reflexivity|]. split; [done|]. split; [done|]. exists [].
    rewrite app_nil_r. split; [done|]. split; [done|]. split.
    + unfold link_view. rewrite E1. cbn [fmap option_fmap option_map]. rewrite Hd1.
      now rewrite take_ge by lia.
    + rewrite spilled_room, drop_ge by lia. now destruct (length x).
Qed.

Lemma loop_holds fuel : loop_spec fuel.
Proof.
  induction fuel as [|fuel IH]; intros h ls l c p ins x Hk Hw E Hx Hf; [lia|].
  cbn [append_loop]. rewrite E, some_bind. pose proof (wf_bufs _ _ Hw _ _ E) as [Hok _].
  assert ((b_last (buf c) =? b_end (buf c))%nat = (buf_room (buf c) =? 0)%nat) as ->.
  { destruct Hok as (_ & Hle & _). unfold buf_room. apply eq_iff_eq_true.
    rewrite !Nat.eqb_eq. lia. }
  destruct (buf_room (buf c) =? 0)%nat eqn:Er; bool_to_prop.
  - destruct (alloc_spec h _ Hw) as (h1 & l' & b & -> & Hw1 & Hk1 & Hs1 & Hn & E1 & Hf1 & Hpos & Hd & Hr).
    rewrite some_bind.
    assert (forall k, k ∈ ls ++ [l] -> cells h1 !! k = cells h !! k) as Hsl.
    { intros k Hin. apply Hs1. cbn. apply elem_of_app. now left. }
    assert (cells h1 !! l = Some c) as El.
    { rewrite Hsl; [done|]. apply elem_of_app. right. apply list_elem_of_here. }
    destruct (wf_link h1 ls l l' live c Hw1 El) as (h2 & -> & Hw2 & Hv2 & Hs2 & Hk2 & E2).
    rewrite !some_bind, E2, E1, some_bind.
    destruct (body_spec fuel h2 (ls ++ [l]) l' (Cell None 1 b) p ins) as
      (h' & Eb & Hs & Hk' & ls2 & Hw' & Hv & Hl & Hvl); auto;
      [now rewrite Hk2, Hk1|congruence|cbn [buf]; lia|fold x; lia|].
    cbn [buf] in *. rewrite head_snoc in Eb. rewrite Eb. exists h'. split; [done|].
    split; [|split; [congruence|]].
    + intros k Hin. rewrite Hs, Hs2, Hs1 by (done || (cbn; apply elem_of_app; now right)). done.
    + exists (l' :: ls2). rewrite <- app_assoc in Hw'. split; [done|].
      rewrite !view_app in Hv.
      apply app_inj_2 in Hv as [Hv Hvl']; [|done]. injection Hvl' as Hvl'.
      assert (forall k, k ∈ ls ++ [l] -> link_view h2 k = link_view h k) as Hv0.
      { intros k Hin. rewrite Hv2. unfold link_view. now rewrite Hsl. }
      split; [|split].
      * rewrite Hv. apply view_same. intros k Hin. apply Hv0. apply elem_of_app. now left.
      * rewrite Hvl', Hv0 by (apply elem_of_app; right; apply list_elem_of_here).
        unfold link_view. rewrite E, Er, app_nil_r. done.
      * unfold view in *. cbn [map]. rewrite Hl, Hvl, Er, spilled_full by done.
        cbn [map ref]. rewrite Hpos, Hd, Hr, Hk2, Hk1. now rewrite (spilled_room _ _ _ Hk).
  - rewrite some_bind, E, some_bind. apply body_spec; auto; fold x; lia.
Qed.

Lemma append_new h ins :
  wf h live -> (0 < chunk_size h)%nat -> ins <> [] -> bytes_ok (concat ins) ->
  exists h' l ls, ngx_rtmp_append_shared_bufs h None ins = Some (h', Some l) /\
    wf h' ((l :: ls) :: live) /\ same_chains h h' live /\ chunk_size h' = chunk_size h /\
    view h' (l :: ls) = map new_link (spilled 0 (chunk_size h) (concat ins)).
Proof.
  intros Hw Hk Hne Hb. destruct ins as [|p ins]; [done|]. cbn [concat] in *.
  unfold ngx_rtmp_append_shared_bufs. rewrite some_bind. cbn [append_loop].
  destruct (alloc_spec h live Hw) as (h1 & l & b & -> & Hw1 & Hk1 & Hs1 & Hn & E1 & Hf1 & Hpos & Hd & Hr).
  rewrite !some_bind, E1, some_bind.
  destruct (body_spec (length (p ++ concat ins)) h1 [] l (Cell None 1 b) p ins) as
    (h' & Eb & Hs & Hk' & ls2 & Hw' & _ & Hl & Hv);
    auto; cbn [buf]; try (rewrite ?Hk1; lia); [apply loop_holds|].
  cbn [Datatypes.app buf head ref] in *. rewrite Eb. exists h', l, ls2.
  split; [done|]. split; [done|]. split; [eapply same_chains_trans; eauto|]. split; [congruence|].
  unfold view in *. cbn [map]. rewrite Hl, Hv, spilled_full by done.
  rewrite Hpos, Hd, Hr, Hk1, (spilled_room _ _ _ Hk). done.
Qed.

Lemma append_old h ls l c ins :
  wf h ((ls ++ [l]) :: live) -> cells h !! l = Some c -> (0 < chunk_size h)%nat -> ins <> [] ->
  bytes_ok (concat ins) ->
  exists h', ngx_rtmp_append_shared_bufs h (head (ls ++ [l])) ins = Some (h', head (ls ++ [l])) /\
    appended h h' live ls l c (concat ins).
Proof.
  intros Hw E Hk Hne Hb. destruct ins as [|p ins]; [done|]. cbn [concat] in *.
  unfold ngx_rtmp_append_shared_bufs. pose proof (wf_chain_len _ _ _ Hw) as Hlen.
  rewrite length_app in Hlen. cbn [length] in Hlen.
  pose proof (wf_live _ _ Hw) as Hl. apply Forall_cons in Hl as [[_ Hs] _].
  destruct (head (ls ++ [l])) as [hd|] eqn:Eh; [|now destruct ls].
  rewrite (last_link_seg h ls l (brk h) hd Hs), !some_bind by lia. rewrite <- Eh.
  apply loop_holds; auto.
Qed.

End Append.

Lemma pieces_concat n : (0 < n)%nat -> forall f x, (length x <= f)%nat -> concat (pieces f n x) = x.
Proof.
  intros Hn. induction f as [|f IH]; intros [|y x] Hf; try done; [cbn in Hf; lia|].
  cbn [pieces concat]. rewrite IH by (rewrite length_drop; cbn [length] in *; lia).
  apply take_drop.
Qed.

Lemma spilled_concat n x : (0 < n)%nat -> concat (spilled 0 n x) = x.
Proof.
  intros Hn. rewrite spilled_full by done. cbn [concat].
  rewrite pieces_concat by (done || rewrite length_drop; lia). apply take_drop.
Qed.

Lemma pieces_chunked n : (0 < n)%nat -> forall f x, x <> [] -> (length x <= f)%nat ->
  Chunk.chunked (Z.of_nat n) (pieces f n x) /\ pieces f n x <> [[]].
Proof.
  intros Hn. induction f as [|f IH]; intros [|y x] Hne Hf; try done; [cbn in Hf; lia|].
  cbn [pieces]. destruct (drop n (y :: x)) as [|z r] eqn:Ed.
  - destruct f; cbn [pieces Chunk.chunked]; (split; [rewrite length_take; lia|]);
      destruct n; [lia|done|lia|done].
  - assert (length (drop n (y :: x)) = length (z :: r)) as Hl by now rewrite Ed.
    rewrite length_drop in Hl. cbn [length] in *.
    destruct (IH (z :: r)) as [H1 H2]; [done|cbn [length]; lia|].
    destruct (pieces f n (z :: r)) as [|q ps] eqn:Ep; [done|].
    split; [|done]. cbn [Chunk.chunked]. split; [rewrite length_take; cbn [length]; lia|]. auto.
Qed.

Lemma spilled_chunked n x : (0 < n)%nat -> Chunk.chunked (Z.of_nat n) (spilled 0 n x).
Proof.
  intros Hn. destruct x as [|y x]; [cbn; lia|]. rewrite spilled_more by done.
  now apply pieces_chunked.
Qed.

(** Copying a message into a new chain of shared buffers: the chain holds the
    bytes of the message in pieces of the chunk size (only the last may be
    shorter), each behind room for the headers, with the count 1; its links
    come from the free list or are new, and no chain in use is touched. *)
Theorem append_new_chain h live ins :
  wf h live -> (0 < chunk_size h)%nat -> ins <> [] -> bytes_ok (concat ins) ->
  exists h' l ls ds, ngx_rtmp_append_shared_bufs h None ins = Some (h', Some l) /\
    wf h' ((l :: ls) :: live) /\ same_chains h h' live /\
    view h' (l :: ls) = map new_link ds /\ concat ds = concat ins /\
    Chunk.chunked (Z.of_nat (chunk_size h)) ds.
Proof.
  intros Hw Hk Hne Hb. destruct (append_new live h ins Hw Hk Hne Hb) as (h' & l & ls & E & Hw' & Hs & _ & Hv).
  exists h', l, ls, (spilled 0 (chunk_size h) (concat ins)). split; [done|]. split; [done|].
  split; [done|]. split; [done|]. split; [now apply spilled_concat|now apply spilled_chunked].
Qed.

(** Appending to a chain in use: its links keep their contents, the last one is
    filled up first, the rest goes to new links; the chain stays in front of
    the same first link with the same count, and no other chain is touched. *)
Theorem append_to_chain h live ls l c ins :
  wf h ((ls ++ [l]) :: live) -> cells h !! l = Some c -> (0 < chunk_size h)%nat -> ins <> [] ->
  bytes_ok (concat ins) ->
  exists h' ls2 ds, let r := buf_room (buf c) in
    ngx_rtmp_append_shared_bufs h (head (ls ++ [l])) ins = Some (h', head (ls ++ [l])) /\
    wf h' (((ls ++ [l]) ++ ls2) :: live) /\ same_chains h h' live /\
    view h' ls = view h ls /\
    link_view h' l = Some (ref c, b_pos (buf c), buf_data (buf c) ++ take r (concat ins)) /\
    view h' ls2 = map new_link ds /\ concat ds = drop r (concat ins).
Proof.
  intros Hw E Hk Hne Hb.
  destruct (append_old live h ls l c ins Hw E Hk Hne Hb) as (h' & Ea & Hs & _ & ls2 & Hw' & H1 & H2 & H3).
  exists h', ls2, (spilled (buf_room (buf c)) (chunk_size h) (concat ins)). cbv zeta.
  do 6 (split; [done|]). destruct (buf_room (buf c)) as [|r] eqn:Er.
  - now apply spilled_concat.
  - rewrite spilled_room by lia. apply pieces_concat; [done|]. rewrite length_drop. lia.
Qed.

(** The buffers of a chain. *)
Definition bufs (h : pool) (ls : list loc) : list ngx_buf_t :=
  omap (fun l => buf <$> cells h !! l) ls.

Lemma bufs_view h live ls ds :
  wf h (ls :: live) -> view h ls = map new_link ds ->
  map buf_data (bufs h ls) = ds /\ Forall Chunk.sendable (bufs h ls).
Proof.
  intros Hw. pose proof (wf_bufs _ _ Hw) as Hb. clear Hw. revert ds.
  induction ls as [|l ls IH]; intros [|d ds] Hv; try done.
  unfold view in Hv. cbn [map] in Hv. injection Hv as Hl Hv. destruct (IH ds Hv) as [H1 H2].
  unfold link_view in Hl. unfold bufs. cbn [omap list_omap].
  destruct (cells h !! l) as [c|] eqn:E; [|done]. cbn in *. injection Hl as Hr Hp Hd.
  unfold bufs in *. split; [congruence|]. constructor; [|done].
  destruct (Hb l c E) as [Hok _]. split; [done|]. rewrite Hp. unfold hdr_room. lia.
Qed.

(* ------------------------------------------------------------------ *)
(** ** From a message to the peer *)

Section Message.
Context {A : Type} (cscf : Chunk.ngx_rtmp_core_srv_conf_t).
Context (events : Z -> list (Chunk.ngx_rtmp_handler_pt A)).
Context (h : Chunk.ngx_rtmp_header_t) (lh : option Chunk.ngx_rtmp_header_t).

(** A header [ngx_rtmp_prepare_message] can send. *)
Record header_ok : Prop := {
  h_csid : 2 <= Chunk.csid h < 65600;
  h_max : Chunk.csid h < Chunk.max_streams cscf;
  h_ts : 0 <= Chunk.timestamp h < 2 ^ 32;
  h_type : 0 <= Chunk.type h < 256;
  h_msid : 0 <= Chunk.msid h < 2 ^ 32
}.

Definition full_header (n : Z) : Chunk.ngx_rtmp_header_t :=
  Chunk.Hdr (Chunk.csid h) (Chunk.timestamp h) n (Chunk.type h) (Chunk.msid h).

(** C9: the way of a message: copied into shared buffers, prepared and put on the
    wire, it reaches the handlers of a peer with the same chunk size as one
    message with the same header and the same bytes. *)
Theorem shared_message_decodes p live ins d st :
  header_ok -> Chunk.play_time_fix cscf = Chunk.publish_time_fix cscf ->
  wf p live -> (0 < chunk_size p)%nat -> ins <> [] -> bytes_ok (concat ins) ->
  let n := Z.of_nat (length (concat ins)) in
  n < 2 ^ 24 -> n <= Chunk.max_message cscf ->
  Chunk.d_chunk d = Z.of_nat (chunk_size p) ->
  Chunk.d_streams d !! Z.to_nat (Chunk.csid h) = Some (st, []) -> Chunk.in_sync h lh n st ->
  exists p' l ls out chunks dt ext,
    ngx_rtmp_append_shared_bufs p None ins = Some (p', Some l) /\
    wf p' ((l :: ls) :: live) /\
    Chunk.ngx_rtmp_prepare_message cscf h lh (bufs p' (l :: ls)) = Some (Some out) /\
    concat chunks = concat ins /\
    forall d' x,
      Chunk.dec_message events
        (Chunk.Dec (<[Z.to_nat (Chunk.csid h) := (Chunk.Stream (full_header n) dt 0 ext [], [])]>
                      (Chunk.d_streams d)) (Chunk.d_chunk d) (Chunk.d_app d))
        (full_header n) chunks = Some (NGX_OK, d') ->
      Chunk.decode_all cscf events d (concat (map buf_data out) ++ x) =
      Chunk.decode_all cscf events d' x.
Proof.
  intros [] Hfix Hw Hk Hne Hb n Hn Hmax Hc Hd Hsync.
  destruct (append_new live p ins Hw Hk Hne Hb) as (p' & l & ls & E & Hw' & _ & _ & Hv).
  destruct (bufs_view _ _ _ _ Hw' Hv) as [Hdata Hsend].
  assert (Chunk.total (map buf_data (bufs p' (l :: ls))) = n) as Ht.
  { rewrite Hdata. unfold Chunk.total. now rewrite spilled_concat. }
  destruct (Chunk.prepared_decodes cscf events h lh ltac:(done) ltac:(done) ltac:(done) ltac:(done)
    ltac:(done) Hfix d st (bufs p' (l :: ls))) as (out & dt & ext & Ep & H);
    rewrite ?Ht; auto; [lia|rewrite Hdata, Hc; now apply spilled_chunked|].
  exists p', l, ls, out, (spilled 0 (chunk_size p) (concat ins)), dt, ext.
  rewrite Ht, Hdata in H. split; [done|]. split; [done|]. split; [done|].
  split; [now apply spilled_concat|exact H].
Qed.

End Message.

(* ------------------------------------------------------------------ *)
(** ** Concrete pools *)

Definition empty_pool (n : nat) : pool := Pool ∅ 0 None n.

Lemma empty_pool_wf n : wf (empty_pool n) [].
Proof. constructor; [now exists []|constructor|]. intros l c E. cbn in E. now rewrite lookup_empty in E. Qed.

Ltac concrete_bytes := refine (bool_decide_unpack _ _); exact Logic.I.

Lemma append_new_chain_witness :
  exists h' l ls ds, ngx_rtmp_append_shared_bufs (empty_pool 4) None [[1; 2; 3]; [4; 5; 6]] =
      Some (h', Some l) /\ wf h' [l :: ls] /\ view h' (l :: ls) = map new_link ds /\
    concat ds = [1; 2; 3; 4; 5; 6] /\ Chunk.chunked 4 ds.
Proof.
  destruct (append_new_chain (empty_pool 4) [] [[1; 2; 3]; [4; 5; 6]] (empty_pool_wf 4)
    ltac:(cbn; lia) ltac:(done) ltac:(concrete_bytes)) as (h' & l & ls & ds & E & Hw & _ & Hv & Hd & Hc).
  exists h', l, ls, ds. auto.
Defined.

(** A chain of two links with six bytes that two sessions refer to. *)
Definition link1 : ngx_chain_t := Cell None 1 (Buf (replicate 18 0 ++ [5; 6; 0; 0]) 18 20).
Definition pool1 : pool :=
  Pool (<[0%nat := Cell (Some 1%nat) 2 (Buf (replicate 18 0 ++ [1; 2; 3; 4]) 18 22)]>
          {[1%nat := link1]}) 2 None 4.

Lemma pool1_wf : wf pool1 [[0%nat; 1%nat]].
Proof.
  constructor.
  - exists []. done.
  - constructor; [|constructor]. split; [done|]. cbn. split; [done|].
    eexists. split; [reflexivity|]. split; [done|]. eexists. split; reflexivity.
  - intros l c. cbn. intros [[<- <-]|[_ [<- <-]%lookup_singleton_Some]]%lookup_insert_Some;
      (split; [concrete_bytes|reflexivity]).
Qed.

Lemma append_to_chain_witness :
  exists h' ls2 ds, ngx_rtmp_append_shared_bufs pool1 (Some 0%nat) [[7; 8; 9]] =
      Some (h', Some 0%nat) /\
    link_view h' 1%nat = Some (1, 18%nat, [5; 6; 7; 8]) /\
    view h' ls2 = map new_link ds /\ concat ds = [9].
Proof.
  destruct (append_to_chain pool1 [] [0%nat] 1%nat link1 [[7; 8; 9]] pool1_wf eq_refl ltac:(cbn; lia)
    ltac:(done) ltac:(concrete_bytes)) as (h' & ls2 & ds & E & _ & _ & _ & H1 & H2 & H3).
  exists h', ls2, ds. auto.
Defined.

Lemma free_shared_chain_spec_witness :
  exists h' c, ngx_rtmp_free_shared_chain pool1 0%nat = Some h' /\ wf h' [[0%nat; 1%nat]] /\
    cells h' !! 0%nat = Some c /\ ref c = 1.
Proof.
  destruct (free_shared_chain_spec pool1 [0%nat; 1%nat] [] 0%nat _ pool1_wf eq_refl eq_refl
    ltac:(cbn; lia)) as (h' & E & _ & _ & _ & H).
  destruct (H ltac:(cbn; lia)) as [Hw ->]. do 2 eexists. split; [exact E|]. split; [exact Hw|].
  split; [reflexivity|]. reflexivity.
Defined.

Lemma shared_message_decodes_witness :
  exists p' l out d', ngx_rtmp_append_shared_bufs (empty_pool 128) None [replicate 130 7] =
      Some (p', Some l) /\
    Chunk.decode_all Chunk.conf Chunk.log_events (Chunk.init_decoder Chunk.conf [])
      (concat (map buf_data out)) = Some (None, d', []) /\
    exists chunks, Chunk.d_app d' = [(Chunk.Hdr 4 7 130 9 1, chunks)] /\
      concat chunks = replicate 130 7.
Proof.
  destruct (shared_message_decodes Chunk.conf Chunk.log_events Chunk.msg None (empty_pool 128) []
    [replicate 130 7] (Chunk.init_decoder Chunk.conf []) Chunk.calloc_stream)
    as (p' & l & ls & out & chunks & dt & ext & E & _ & _ & Hc & H).
  - by constructor.
  - reflexivity.
  - apply empty_pool_wf.
  - cbn; lia.
  - done.
  - concrete_bytes.
  - done.
  - done.
  - reflexivity.
  - reflexivity.
  - split; [done|]. split; [done|]. vm_compute. split; [done|]. split; done.
  - exists p', l, out. specialize (H _ [] eq_refl). rewrite app_nil_r in H. rewrite H.
    eexists. split; [exact E|]. split; [reflexivity|]. exists chunks. split; [reflexivity|exact Hc].
Defined.

End Shared.
