(* ===== verification/Queue.v ===== *)
(** * The output queue of a session (src/src/rtmp/ngx_rtmp_handler.c,
    src/src/rtmp/ngx_rtmp_init.c)

    [ngx_rtmp_send_message] puts a chain of shared buffers into a ring of
    pointers, or drops it when the ring is too full for its priority;
    [ngx_rtmp_send] writes the chains to the socket as far as it takes them and
    gives up the references; [ngx_rtmp_close_session_handler] gives up the
    references left.

    The timers and the posted events of other modules are not modelled. *)

From Stdlib Require Import ZArith Lia.
From stdpp Require Import base numbers list gmap.
From S2P Require Import Prelude Buf Bandwidth Chunk Shared.

Module Queue.
Import Shared.

(** The counters [ngx_rtmp_send] updates: the global one, and that of the live
    stream with the one for billing, if the session has a stream. *)
Record traffic := Traffic {
  bw_out : Bandwidth.ngx_rtmp_bandwidth_t;
  stream_bw : option (Bandwidth.ngx_rtmp_bandwidth_t * Bandwidth.ngx_rtmp_bandwidth_t)
}.

(** The part of [ngx_rtmp_session_t] this file works on; [out] is the array of
    chains, [out_bpos] an offset in the buffer of [out_chain]; [is_relay] tells
    whether [flashver] starts with NGX_RTMP_RELAY_NAME and [write_active] is
    [connection->write->active]. *)
Record session := Session {
  out : list (option loc);
  out_pos : Z;
  out_last : Z;
  out_chain : option loc;
  out_bpos : nat;
  out_queue : Z;
  out_cork : Z;
  out_buffer : bool;
  out_bytes : Z;
  hls : bool;
  is_relay : bool;
  ping_reset : bool;
  write_active : bool;
  counters : traffic
}.

Definition set_current (s : session) (l : option loc) (n : nat) : session :=
  Session (out s) (out_pos s) (out_last s) l n (out_queue s) (out_cork s) (out_buffer s)
    (out_bytes s) (hls s) (is_relay s) (ping_reset s) (write_active s) (counters s).
Definition set_pos (s : session) (n : Z) : session :=
  Session (out s) n (out_last s) (out_chain s) (out_bpos s) (out_queue s) (out_cork s)
    (out_buffer s) (out_bytes s) (hls s) (is_relay s) (ping_reset s) (write_active s) (counters s).
Definition set_active (s : session) (a : bool) : session :=
  Session (out s) (out_pos s) (out_last s) (out_chain s) (out_bpos s) (out_queue s) (out_cork s)
    (out_buffer s) (out_bytes s) (hls s) (is_relay s) (ping_reset s) a (counters s).
Definition set_slot (s : session) (l : loc) (last : Z) : session :=
  Session (<[Z.to_nat (out_last s) := Some l]> (out s)) (out_pos s) last (out_chain s) (out_bpos s)
    (out_queue s) (out_cork s) (out_buffer s) (out_bytes s) (hls s) (is_relay s) (ping_reset s)
    (write_active s) (counters s).

(** [now] is [ngx_cached_time->sec]. *)
Definition account (now : Z) (s : session) (n : nat) : session :=
  let up bw := Bandwidth.ngx_rtmp_update_bandwidth now bw (Z.of_nat n) in
  Session (out s) (out_pos s) (out_last s) (out_chain s) (out_bpos s) (out_queue s) (out_cork s)
    (out_buffer s) (u32 (out_bytes s + Z.of_nat n)) (hls s) (is_relay s) true (write_active s)
    (Traffic (up (bw_out (counters s)))
       match stream_bw (counters s) with
       | Some (bw, billing) => Some (up bw, if is_relay s then billing else up billing)
       | None => None
       end).

(** What the socket does at a call of [c->send]: it takes up to [n] bytes, or
    fails; nothing more is NGX_AGAIN. *)
Inductive send_ev := Accept (n : nat) | SendError.

(** How [ngx_rtmp_send] ends; [Finalized] is a finalised session. *)
Inductive send_end := Sent | Blocked | Finalized.

Definition slot (s : session) (n : Z) : option loc := mjoin (out s !! Z.to_nat n).

(** What follows when the buffer of [out_chain] has been sent: [None] inside
    when the queue is empty. *)
Definition next_buf (p : pool) (s : session) (c : ngx_chain_t)
  : option (pool * session * option loc) :=
  match next c with
  | Some l => Some (p, s, Some l)
  | None =>
      l ← slot s (out_pos s);
      p ← ngx_rtmp_free_shared_chain p l;
      let s := set_pos s ((out_pos s + 1) mod out_queue s) in
      if out_pos s =? out_last s then Some (p, s, None)
      else l ← slot s (out_pos s); Some (p, s, Some l)
  end.

(** The loop of [ngx_rtmp_send]; [wire] are the bytes written so far.  The
    result [None] is an access to a chain that does not exist. *)
Fixpoint send_loop (now : Z) (sock : list send_ev) (p : pool) (s : session) (wire : list Z)
  : option (send_end * pool * session * list Z) :=
  match out_chain s with
  | None => Some (Sent, p, set_active s false, wire)
  | Some l =>
      match sock with
      | [] => Some (Blocked, p, set_active s true, wire)
      | SendError :: _ => Some (Finalized, p, s, wire)
      | Accept n :: sock =>
          c ← cells p !! l;
          let n := Nat.min n (b_last (buf c) - out_bpos s) in
          if (n =? 0)%nat then Some (Blocked, p, set_active s true, wire)
          else
            let wire := wire ++ take n (drop (out_bpos s) (b_mem (buf c))) in
            let s := set_current (account now s n) (Some l) (out_bpos s + n) in
            if (out_bpos s =? b_last (buf c))%nat then
              '(p, s, l) ← next_buf p s c;
              match l with
              | None => Some (Sent, p, set_active (set_current s None (out_bpos s)) false, wire)
              | Some l => c ← cells p !! l;
                          send_loop now sock p (set_current s (Some l) (b_pos (buf c))) wire
              end
            else send_loop now sock p s wire
      end
  end.

Definition ngx_rtmp_send (now : Z) (destroyed timedout : bool) (sock : list send_ev) (p : pool)
    (s : session) : option (send_end * pool * session * list Z) :=
  if destroyed then Some (Sent, p, s, [])
  else if timedout then Some (Finalized, p, s, [])
  else
    s ← match out_chain s with
        | None =>
            if out_pos s =? out_last s then Some s
            else l ← slot s (out_pos s); c ← cells p !! l;
                 Some (set_current s (Some l) (b_pos (buf c)))
        | Some _ => Some s
        end;
    send_loop now sock p s [].

(** The number of the message in the queue, as the code computes it. *)
Definition nmsg (s : session) : Z := u64 (out_last s - out_pos s) mod out_queue s + 1.

(** [ngx_rtmp_send_message] with the end of the [ngx_rtmp_send] in it: [Sent]
    too when it writes nothing. *)
Definition queue_message (now : Z) (destroyed timedout : bool) (sock : list send_ev)
    (p : pool) (s : session) (l : loc) (priority : Z)
  : option (ngx_rc * send_end * pool * session * list Z) :=
  if hls s then Some (NGX_OK, Sent, p, s, [])
  else
    let priority := if 3 <? priority then 3 else priority in
    if out_queue s <=? nmsg s + priority * out_queue s / 4 then Some (NGX_AGAIN, Sent, p, s, [])
    else
      let n := nmsg s in
      let s := set_slot s l ((out_last s + 1) mod out_queue s) in
      p ← ngx_rtmp_acquire_shared_chain p l;
      if negb (priority =? 0) && out_buffer s && (n <? out_cork s) then Some (NGX_OK, Sent, p, s, [])
      else if negb (write_active s) then
        '(e, p, s, wire) ← ngx_rtmp_send now destroyed timedout sock p s;
        Some (NGX_OK, e, p, s, wire)
      else Some (NGX_OK, Sent, p, s, []).

Definition ngx_rtmp_send_message (now : Z) (destroyed timedout : bool) (sock : list send_ev)
    (p : pool) (s : session) (l : loc) (priority : Z)
  : option (ngx_rc * pool * session * list Z) :=
  '(rc, _, p, s, wire) ← queue_message now destroyed timedout sock p s l priority;
  Some (rc, p, s, wire).

(** The queue in [ngx_rtmp_close_session_handler]; [None] also when the fuel
    ends. *)
Fixpoint release_queue (fuel : nat) (p : pool) (s : session) : option (pool * session) :=
  match fuel with
  | O => None
  | S fuel =>
      if out_pos s =? out_last s then Some (p, s)
      else
        l ← slot s (out_pos s);
        p ← ngx_rtmp_free_shared_chain p l;
        release_queue fuel p (set_pos s ((out_pos s + 1) mod out_queue s))
  end.

(* ------------------------------------------------------------------ *)
(** ** The bytes of a chain *)

(** The bytes of the links from [l] on. *)
Fixpoint tail_bytes (fuel : nat) (p : pool) (l : option loc) : list Z :=
  match fuel, l with
  | S fuel, Some l =>
      match cells p !! l with
      | Some c => buf_data (buf c) ++ tail_bytes fuel p (next c)
      | None => []
      end
  | _, _ => []
  end.

(** A chain has no more links than were allocated. *)
Definition chain_bytes (p : pool) (l : loc) : list Z := tail_bytes (brk p) p (Some l).

Lemma tail_bytes_seg p : forall ls fuel l,
  seg (cells p) l None ls -> (length ls <= fuel)%nat ->
  tail_bytes fuel p l = concat (map buf_data (bufs p ls)).
Proof.
  induction ls as [|l' ls IH]; intros fuel l Hs Hf.
  - cbn in Hs. subst. now destruct fuel.
  - destruct Hs as (-> & c & E & Hs). cbn [length] in Hf. destruct fuel as [|fuel]; [lia|].
    cbn [tail_bytes]. unfold bufs in *. cbn [omap list_omap]. rewrite E.
    cbn [fmap option_fmap option_map map concat]. f_equal. apply IH; [done|lia].
Qed.

(** The bytes still to be sent: [pend] are the chains in the queue. *)
Definition remaining (p : pool) (s : session) (pend : list loc) : list Z :=
  match out_chain s with
  | None => concat (map (chain_bytes p) pend)
  | Some l =>
      match cells p !! l with
      | Some c =>
          take (b_last (buf c) - out_bpos s) (drop (out_bpos s) (b_mem (buf c))) ++
          tail_bytes (brk p) p (next c) ++ concat (map (chain_bytes p) (tail pend))
      | None => []
      end
  end.

(* ------------------------------------------------------------------ *)
(** ** References *)

Fixpoint occ (l : loc) (pend : list loc) : Z :=
  match pend with
  | [] => 0
  | l' :: pend => (if decide (l = l') then 1 else 0) + occ l pend
  end.

Lemma occ_pos l pend : 0 <= occ l pend.
Proof. induction pend as [|l' pend IH]; cbn; [lia|]. case_decide; lia. Qed.

Lemma occ_elem l pend : l ∈ pend -> 1 <= occ l pend.
Proof.
  induction pend as [|l' pend IH]; [now intros H%not_elem_of_nil|].
  pose proof (occ_pos l pend) as Ho. cbn. intros [-> |H]%elem_of_cons; case_decide; try done; try lia.
  specialize (IH H). lia.
Qed.

Lemma occ_app l l1 l2 : occ l (l1 ++ l2) = occ l l1 + occ l l2.
Proof. induction l1 as [|l' l1 IH]; cbn [Datatypes.app occ]; [done|]. rewrite IH. lia. Qed.

Lemma occ_none l refs : occ l refs = 0 -> l ∉ refs.
Proof. intros H Hl%occ_elem. lia. Qed.

#[export] Instance occ_perm l : Proper ((≡ₚ) ==> eq) (occ l).
Proof. induction 1; cbn [occ]; lia. Qed.

(** [refs] are all references: those of this queue, of other sessions and of
    callers.  The chains in use are exactly the chains referred to, and the
    count of each is the number of references to it. *)
Record owned (p : pool) (live : list (list loc)) (refs : list loc) : Prop := {
  owned_wf : wf p live;
  owned_live : forall l, l ∈ refs -> exists ls, ls ∈ live /\ head ls = Some l;
  owned_used : forall ls l, ls ∈ live -> head ls = Some l -> l ∈ refs;
  owned_ref : forall l c, l ∈ refs -> cells p !! l = Some c -> ref c = occ l refs /\ ref c < 2 ^ 32
}.

#[export] Instance owned_perm p live : Proper ((≡ₚ) ==> iff) (owned p live).
Proof.
  assert (forall r1 r2, r1 ≡ₚ r2 -> owned p live r1 -> owned p live r2) as H.
  { intros r1 r2 Hp [H1 H2 H3 H4]. constructor; [done|..].
    - intros l. rewrite <- Hp. apply H2.
    - intros ls l. rewrite <- Hp. apply H3.
    - intros l c. rewrite <- Hp. apply H4. }
  intros r1 r2 Hp. split; apply H; [done|now symmetry].
Qed.

Lemma head_elem (ls : list loc) l : head ls = Some l -> l ∈ ls.
Proof. destruct ls; [done|]. intros [= ->]. apply list_elem_of_here. Qed.

Lemma live_seg p live ls : wf p live -> ls ∈ live ->
  seg (cells p) (head ls) None ls /\ (length ls <= brk p)%nat.
Proof.
  intros Hw Hin. apply elem_of_Permutation in Hin as [live' Hp]. rewrite Hp in Hw.
  split; [|eapply wf_chain_len, Hw]. apply wf_live, Forall_cons in Hw as [[_ Hs] _]. exact Hs.
Qed.

Lemma live_bytes p live ls l : wf p live -> ls ∈ live -> head ls = Some l ->
  chain_bytes p l = concat (map buf_data (bufs p ls)).
Proof.
  intros Hw Hin Hh. destruct (live_seg _ _ _ Hw Hin) as [Hs Hl]. rewrite Hh in Hs.
  now apply tail_bytes_seg.
Qed.

Lemma bufs_same p p' ls :
  (forall l, l ∈ ls -> buf <$> cells p' !! l = buf <$> cells p !! l) -> bufs p' ls = bufs p ls.
Proof.
  intros H. unfold bufs. induction ls as [|l ls IH]; [done|]. cbn [omap list_omap].
  rewrite (H l) by apply list_elem_of_here. rewrite IH; [done|].
  intros l' Hl'. apply H. now apply list_elem_of_further.
Qed.

(** Two chains in use with the same first link are the same. *)
Lemma live_unique p ls live ls' l :
  wf p (ls :: live) -> head ls = Some l -> ls' ∈ live -> head ls' = Some l -> False.
Proof.
  intros Hw H1 Hin H2. eapply wf_disjoint; [exact Hw|apply head_elem, H1|].
  eapply elem_concat; [exact Hin|]. now apply head_elem.
Qed.

Lemma bytes_frame p p' live live' ls l :
  wf p live -> wf p' live' -> ls ∈ live -> ls ∈ live' -> head ls = Some l ->
  (forall l, l ∈ ls -> buf <$> cells p' !! l = buf <$> cells p !! l) ->
  chain_bytes p' l = chain_bytes p l.
Proof.
  intros Hw Hw' Hin Hin' Hh Hb. rewrite (live_bytes _ _ _ _ Hw Hin Hh), (live_bytes _ _ _ _ Hw' Hin' Hh).
  now rewrite (bufs_same p p').
Qed.

(** A new chain with its one reference. *)
Lemma new_owned p p' live refs ls l c :
  owned p live refs -> wf p' (ls :: live) -> same_chains p p' live -> head ls = Some l ->
  cells p' !! l = Some c -> ref c = 1 ->
  owned p' (ls :: live) (l :: refs) /\
  forall k, k ∈ refs -> chain_bytes p' k = chain_bytes p k.
Proof.
  intros [Hw Hlive Hused Href] Hw' Hs Hh E Hr.
  assert (forall k ls', k ∈ refs -> ls' ∈ live -> head ls' = Some k -> k <> l /\ cells p' !! k = cells p !! k) as Hold.
  { intros k ls' Hk Hin Hh'. split; [intros ->; exact (live_unique _ _ _ _ _ Hw' Hh Hin Hh')|].
    apply Hs. eapply elem_concat; [exact Hin|]. now apply head_elem. }
  split; [constructor; [done|..]|].
  - intros k [-> |Hk]%elem_of_cons; [exists ls; split; [apply list_elem_of_here|done]|].
    destruct (Hlive k Hk) as (ls' & Hin & Hh'). exists ls'. split; [now apply list_elem_of_further|done].
  - intros ls' k [-> |Hin]%elem_of_cons Hh'.
    + rewrite Hh in Hh'. injection Hh' as ->. apply list_elem_of_here.
    + apply list_elem_of_further. eauto.
  - intros k c' [-> |Hk]%elem_of_cons E'; cbn [occ].
    + rewrite E in E'. injection E' as <-. rewrite decide_True by done.
      assert (occ l refs = 0) as ->; [|lia]. destruct (decide (l ∈ refs)) as [Hl|Hl].
      * destruct (Hlive l Hl) as (ls' & Hin & Hh'). now destruct (Hold l ls' Hl Hin Hh').
      * clear -Hl. induction refs as [|k refs IH]; [done|]. cbn [occ].
        rewrite not_elem_of_cons in Hl. rewrite decide_False, IH by tauto. done.
    + destruct (Hlive k Hk) as (ls' & Hin & Hh'). destruct (Hold k ls' Hk Hin Hh') as [Hne Ek].
      rewrite decide_False by done. rewrite Ek in E'. specialize (Href k c' Hk E'). lia.
  - intros k Hk. destruct (Hlive k Hk) as (ls' & Hin & Hh').
    apply (bytes_frame p p' live (ls :: live) ls'); auto; [now apply list_elem_of_further|].
    intros j Hj. f_equal. apply Hs. eapply elem_concat; eauto.
Qed.

(** The chains of [refs] have the same links with the same buffers. *)
Definition frames (p p' : pool) (live live' : list (list loc)) (refs : list loc) : Prop :=
  forall ls k, ls ∈ live -> head ls = Some k -> k ∈ refs ->
  ls ∈ live' /\ forall j, j ∈ ls ->
    (fun c => (next c, buf c)) <$> cells p' !! j = (fun c => (next c, buf c)) <$> cells p !! j.

Lemma frames_bytes p p' live live' refs refs' :
  owned p live refs -> wf p' live' -> refs' ⊆ refs -> frames p p' live live' refs' ->
  forall k, k ∈ refs' -> chain_bytes p' k = chain_bytes p k.
Proof.
  intros [Hw Hlive _ _] Hw' Hsub Hf k Hk. destruct (Hlive k (Hsub k Hk)) as (ls & Hin & Hh).
  destruct (Hf ls k Hin Hh Hk) as [Hin' Hj].
  eapply bytes_frame; [exact Hw|exact Hw'|exact Hin|exact Hin'|exact Hh|].
  intros j Hj'. specialize (Hj j Hj'). destruct (cells p' !! j), (cells p !! j); try done.
  cbn in *. congruence.
Qed.

Lemma frames_refl p live refs : frames p p live live refs.
Proof. now intros ls k Hin _ _. Qed.

Lemma frames_trans p1 p2 p3 live1 live2 live3 refs :
  frames p1 p2 live1 live2 refs -> frames p2 p3 live2 live3 refs -> frames p1 p3 live1 live3 refs.
Proof.
  intros H1 H2 ls k Hin Hh Hk. destruct (H1 ls k Hin Hh Hk) as [Hin2 E1].
  destruct (H2 ls k Hin2 Hh Hk) as [Hin3 E2]. split; [done|]. intros j Hj. now rewrite E2, E1.
Qed.

Lemma frames_sub p p' live live' refs refs' :
  refs' ⊆ refs -> frames p p' live live' refs -> frames p p' live live' refs'.
Proof. intros Hs H ls k Hin Hh Hk. apply (H ls k Hin Hh), Hs, Hk. Qed.

(** Giving up one reference. *)
Lemma free_frames p live l rest :
  owned p live (l :: rest) ->
  exists p' live', ngx_rtmp_free_shared_chain p l = Some p' /\ owned p' live' rest /\
    frames p p' live live' rest.
Proof.
  intros [Hw Hlive Hused Href]. destruct (Hlive l (list_elem_of_here _ _)) as (ls & Hin & Hh).
  pose proof Hin as Hin'. apply elem_of_Permutation in Hin' as [live0 Hp]. rewrite Hp in Hw.
  destruct (wf_head _ _ _ Hw) as (l0 & ls0 & Els & c & E).
  assert (l0 = l) as -> by (rewrite Els in Hh; now injection Hh).
  pose proof (Href l c (list_elem_of_here _ _) E) as Hr. cbn [occ] in Hr.
  rewrite decide_True in Hr by done. pose proof (occ_pos l rest) as Ho.
  destruct (free_spec p ls live0 l c Hw Hh E ltac:(lia)) as (p' & Ef & Hs & _ & H1 & H2).
  assert (forall l', l' ∈ rest -> exists ls', ls' ∈ ls :: live0 /\ head ls' = Some l') as Hrest.
  { intros l' Hl'. setoid_rewrite <- Hp. apply Hlive. now apply list_elem_of_further. }
  assert (forall l' c', l' ∈ rest -> cells p !! l' = Some c' -> l' <> l ->
            ref c' = occ l' rest /\ ref c' < 2 ^ 32) as Href'.
  { intros l' c' Hl' E' Hne. specialize (Href l' c' (list_elem_of_further _ _ _ Hl') E').
    cbn [occ] in Href. rewrite decide_False in Href by done. lia. }
  exists p'. destruct (Z.eq_dec (ref c) 1) as [H|H].
  - assert (l ∉ rest) as Hn by (apply occ_none; lia).
    assert (forall l', l' ∈ rest -> exists ls', ls' ∈ live0 /\ head ls' = Some l') as Hrest'.
    { intros l' Hl'. destruct (Hrest l' Hl') as (ls' & [-> |Hls']%elem_of_cons & Hh'); [|eauto].
      rewrite Hh in Hh'. injection Hh' as ->. done. }
    exists live0. split; [done|]. split; [constructor; auto|].
    + intros ls' l' Hls' Hh'. assert (l' ∈ l :: rest) as Hl'.
      { apply (Hused ls'); [|done]. rewrite Hp. now apply list_elem_of_further. }
      apply elem_of_cons in Hl' as [-> |Hl']; [|done]. exfalso.
      exact (live_unique _ _ _ _ _ Hw Hh Hls' Hh').
    + intros l' c' Hl' E'. apply Href'; [done| |congruence].
      destruct (Hrest' l' Hl') as (ls' & Hls' & Hh'). rewrite <- Hs; [done|].
      eapply elem_concat; [exact Hls'|]. now apply head_elem.
    + intros ls' k Hls' Hh' Hk. rewrite Hp in Hls'. apply elem_of_cons in Hls' as [-> |Hls'].
      { rewrite Hh in Hh'. injection Hh' as ->. done. }
      split; [done|]. intros j Hj. rewrite Hs; [done|]. eapply elem_concat; eauto.
  - destruct (H2 ltac:(lia)) as [Hw' ->]. exists (ls :: live0). split; [done|].
    assert (l ∈ rest) as Hl.
    { destruct (decide (l ∈ rest)) as [Hl|Hl]; [done|]. exfalso.
      assert (occ l rest = 0); [|lia]. clear -Hl. induction rest as [|k rest IH]; [done|].
      apply not_elem_of_cons in Hl as [Hne Hl]. cbn. rewrite decide_False by done. now rewrite IH. }
    split; [constructor; auto|].
    + intros ls' l' Hls' Hh'. rewrite <- Hp in Hls'.
      specialize (Hused ls' l' Hls' Hh'). now apply elem_of_cons in Hused as [-> |Hu].
    + intros l' c' Hl' E'. cbn in E'. destruct (decide (l' = l)) as [-> |Hne].
      * rewrite lookup_insert_eq in E'. injection E' as <-. cbn [ref]. lia.
      * rewrite insert_other in E' by congruence. eapply Href'; eauto.
    + intros ls' k Hls' Hh' Hk. rewrite Hp in Hls'. split; [done|]. intros j Hj. cbn.
      destruct (decide (j = l)) as [-> |Hne].
      * now rewrite lookup_insert_eq, E.
      * now rewrite insert_other by congruence.
Qed.

Lemma free_owned p live l rest :
  owned p live (l :: rest) ->
  exists p' live', ngx_rtmp_free_shared_chain p l = Some p' /\ owned p' live' rest /\
    forall l', l' ∈ rest -> chain_bytes p' l' = chain_bytes p l'.
Proof.
  intros Ho. destruct (free_frames p live l rest Ho) as (p' & live' & E & Ho' & Hf).
  exists p', live'. split; [done|]. split; [done|].
  eapply frames_bytes; [exact Ho|apply Ho'| |exact Hf]. intros k. apply list_elem_of_further.
Qed.

(* ------------------------------------------------------------------ *)
(** ** The ring *)

(** [pend] are the chains of the ring, the oldest first. *)
Record ring (s : session) (pend : list loc) : Prop := {
  ring_len : Z.of_nat (length (out s)) = out_queue s;
  ring_pos : 0 <= out_pos s < out_queue s;
  ring_last : out_last s = (out_pos s + Z.of_nat (length pend)) mod out_queue s;
  ring_free : Z.of_nat (length pend) < out_queue s;
  ring_slots : forall i l, pend !! i = Some l ->
    out s !! Z.to_nat ((out_pos s + Z.of_nat i) mod out_queue s) = Some (Some l)
}.

Lemma ring_index pos i q :
  0 <= pos < q -> 0 <= i < q -> (pos + i) mod q = if pos + i <? q then pos + i else pos + i - q.
Proof.
  intros Hp Hi. case_if.
  - apply Z.mod_small. lia.
  - symmetry. apply (Z.mod_unique_pos _ _ 1); lia.
Qed.

Lemma ring_pop s l rest :
  ring s (l :: rest) ->
  slot s (out_pos s) = Some l /\ ring (set_pos s ((out_pos s + 1) mod out_queue s)) rest.
Proof.
  intros [H1 H2 H3 H4 H5]. cbn [length] in *. split.
  - unfold slot. specialize (H5 0%nat l eq_refl). rewrite Z.add_0_r, Z.mod_small in H5 by lia.
    now rewrite H5.
  - pose proof (Z.mod_pos_bound (out_pos s + 1) (out_queue s) ltac:(lia)) as Hb.
    constructor; cbn; auto; try lia.
    + rewrite H3, Zplus_mod_idemp_l. f_equal. lia.
    + intros i k E. rewrite Zplus_mod_idemp_l. specialize (H5 (S i) k E). rewrite <- H5.
      do 2 f_equal. f_equal. lia.
Qed.

Lemma ring_empty s pend : ring s pend -> (out_pos s =? out_last s) = bool_decide (pend = []).
Proof.
  intros [_ H2 H3 H4 _]. rewrite H3, ring_index by lia. destruct pend as [|l pend].
  - rewrite bool_decide_eq_true_2 by done. apply Z.eqb_eq. cbn [length]. case_if; lia.
  - rewrite bool_decide_eq_false_2 by done. apply Z.eqb_neq. cbn [length] in *. case_if; lia.
Qed.

Lemma ring_push s pend l :
  ring s pend -> Z.of_nat (length pend) + 1 < out_queue s ->
  ring (set_slot s l ((out_last s + 1) mod out_queue s)) (pend ++ [l]).
Proof.
  intros [H1 H2 H3 H4 H5] Hlt. rewrite H3.
  assert (0 <= (out_pos s + Z.of_nat (length pend)) mod out_queue s < out_queue s) as Hb
    by (apply Z.mod_pos_bound; lia).
  constructor; cbn; auto; rewrite ?length_app; cbn [length]; try lia.
  - now rewrite length_insert.
  - rewrite Zplus_mod_idemp_l. f_equal. lia.
  - intros i k E. rewrite H3. apply lookup_snoc_Some in E as [[Hi E]|[-> <-]].
    + rewrite list_lookup_insert_ne; [now apply H5|]. intros Heq. apply Z2Nat.inj in Heq; try lia.
      * revert Heq. rewrite !ring_index by lia. repeat case_if; lia.
      * apply Z.mod_pos_bound. lia.
    + rewrite list_lookup_insert_eq; [done|]. lia.
Qed.

(* ------------------------------------------------------------------ *)
(** ** Sending *)

(** The current buffer is in the first chain of the queue. *)
Definition current (p : pool) (s : session) (live : list (list loc)) (pend : list loc) : Prop :=
  match out_chain s with
  | None => True
  | Some l => exists hd rest ls1 ls2 c, pend = hd :: rest /\ (ls1 ++ l :: ls2) ∈ live /\
      head (ls1 ++ l :: ls2) = Some hd /\ cells p !! l = Some c /\
      (b_pos (buf c) <= out_bpos s <= b_last (buf c))%nat
  end.

Section Sharing.
(** The references other sessions and callers hold. *)
Context (held : list loc).

Record queue_ok (p : pool) (s : session) (live : list (list loc)) (pend : list loc) : Prop := {
  ok_ring : ring s pend;
  ok_owned : owned p live (pend ++ held);
  ok_current : current p s live pend
}.

(** The chains of the others keep their bytes. *)
Definition kept (p p' : pool) : Prop :=
  forall l, l ∈ held -> chain_bytes p' l = chain_bytes p l.

Lemma kept_refl p : kept p p.
Proof. now intros l Hl. Qed.

Lemma kept_trans p1 p2 p3 : kept p1 p2 -> kept p2 p3 -> kept p1 p3.
Proof. intros H1 H2 l Hl. rewrite H2 by done. auto. Qed.

Lemma frames_kept p p' live live' refs refs' :
  owned p live (refs ++ held) -> owned p' live' refs' -> frames p p' live live' held -> kept p p'.
Proof.
  intros Ho Ho' Hf. intros k. eapply (frames_bytes p p' live live' (refs ++ held) held); eauto.
  - apply Ho'.
  - intros j Hj. apply elem_of_app. auto.
Qed.

#[local] Hint Resolve kept_refl : core.

Lemma seg_suffix m p q ls1 ls2 : seg m p q (ls1 ++ ls2) -> exists r, seg m r q ls2.
Proof.
  revert p. induction ls1 as [|l ls1 IH]; intros p H; [eauto|].
  destruct H as (_ & c & _ & H). eauto.
Qed.

(** The first buffer of a chain in use. *)
Lemma owned_first p live pend l :
  owned p live pend -> l ∈ pend ->
  exists ls c, l :: ls ∈ live /\ cells p !! l = Some c /\ buf_ok (buf c) /\
    chain_bytes p l = buf_data (buf c) ++ tail_bytes (brk p) p (next c).
Proof.
  intros [Hw Hlive _] Hl. destruct (Hlive l Hl) as (ls & Hin & Hh).
  destruct ls as [|l' ls]; [done|]. injection Hh as ->.
  destruct (live_seg _ _ _ Hw Hin) as [Hs Hlen]. cbn [head] in Hs.
  unfold chain_bytes. rewrite (tail_bytes_seg p _ _ _ Hs Hlen).
  destruct Hs as (_ & c & E & Hs). exists ls, c. split; [done|]. split; [done|].
  split; [apply (wf_bufs _ _ Hw l c E)|].
  cbn [length] in Hlen. rewrite (tail_bytes_seg p ls) by (done || lia).
  unfold bufs. cbn [omap list_omap]. now rewrite E.
Qed.

(** Starting with the first chain. *)
Lemma start_chain p s live l rest n :
  ring s (l :: rest) -> owned p live (l :: rest ++ held) ->
  exists c, cells p !! l = Some c /\
    queue_ok p (set_current s (Some l) (b_pos (buf c))) live (l :: rest) /\
    remaining p (set_current s (Some l) (b_pos (buf c))) (l :: rest) =
      concat (map (chain_bytes p) (l :: rest)) /\
    remaining p (set_current s None n) (l :: rest) = concat (map (chain_bytes p) (l :: rest)).
Proof.
  intros Hr Ho. destruct (owned_first _ _ _ l Ho (list_elem_of_here _ _)) as (ls & c & Hin & E & Hok & Hb).
  exists c. split; [done|]. split; [constructor; auto|].
  - destruct Hr. now constructor.
  - unfold current. cbn [out_chain set_current out_bpos]. exists l, rest, [], ls, c.
    split; [done|]. split; [done|]. split; [done|]. split; [done|]. destruct Hok. lia.
  - split; [|done]. unfold remaining. cbn [out_chain set_current out_bpos tail map concat].
    rewrite E, Hb, <- app_assoc. done.
Qed.

Lemma ring_eq s s' pend :
  out s' = out s -> out_pos s' = out_pos s -> out_last s' = out_last s ->
  out_queue s' = out_queue s -> ring s pend -> ring s' pend.
Proof. intros E1 E2 E3 E4 []. constructor; rewrite ?E1, ?E2, ?E3, ?E4; auto. Qed.

(** The end of a chain. *)
Lemma next_buf_end p s live hd rest c :
  ring s (hd :: rest) -> owned p live (hd :: rest ++ held) -> next c = None ->
  exists p' s' live' nl, next_buf p s c = Some (p', s', nl) /\ frames p p' live live' held /\
    match nl with
    | None => rest = [] /\ queue_ok p' (set_current s' None (out_bpos s')) live' []
    | Some l => exists c', cells p' !! l = Some c' /\
        queue_ok p' (set_current s' (Some l) (b_pos (buf c'))) live' rest /\
        remaining p' (set_current s' (Some l) (b_pos (buf c'))) rest =
          concat (map (chain_bytes p) rest)
    end.
Proof.
  intros Hr Ho En. unfold next_buf. rewrite En. destruct (ring_pop s hd rest Hr) as [-> Hr'].
  destruct (free_frames p live hd (rest ++ held) Ho) as (p' & live' & Ef & Ho' & Hf).
  assert (forall k, k ∈ rest ++ held -> chain_bytes p' k = chain_bytes p k) as Hb.
  { eapply frames_bytes; [exact Ho|apply Ho'| |exact Hf]. intros k. apply list_elem_of_further. }
  rewrite some_bind, Ef, some_bind. cbv zeta. rewrite (ring_empty _ _ Hr').
  assert (frames p p' live live' held) as Hkept
    by (eapply frames_sub; [|exact Hf]; intros k Hk; apply elem_of_app; auto).
  set (s1 := set_pos s _) in *. exists p', s1, live'. destruct rest as [|l rest].
  - rewrite bool_decide_eq_true_2 by done. exists None. split; [done|]. split; [done|]. split; [done|].
    constructor; [|done|done]. eapply ring_eq; [..|exact Hr']; done.
  - rewrite bool_decide_eq_false_2 by done. destruct (ring_pop s1 l rest Hr') as [-> _].
    rewrite some_bind. exists (Some l). split; [done|]. split; [done|].
    destruct (start_chain p' s1 live' l rest 0 Hr' Ho') as (c' & Ec' & Hq & Hrem & _).
    exists c'. split; [done|]. split; [done|]. rewrite Hrem. f_equal. apply map_ext_in.
    intros l' Hl'. apply Hb, elem_of_app. left. now apply list_elem_of_In.
Qed.

(** The end of a buffer. *)
Lemma next_buf_spec p s live pend l c :
  queue_ok p s live pend -> out_chain s = Some l -> cells p !! l = Some c ->
  out_bpos s = b_last (buf c) ->
  exists p' s' live' pend' nl, next_buf p s c = Some (p', s', nl) /\ pend' `suffix_of` pend /\
    frames p p' live live' held /\
    match nl with
    | None => pend' = [] /\ queue_ok p' (set_current s' None (out_bpos s')) live' [] /\
        remaining p s pend = []
    | Some l => exists c', cells p' !! l = Some c' /\
        queue_ok p' (set_current s' (Some l) (b_pos (buf c'))) live' pend' /\
        remaining p' (set_current s' (Some l) (b_pos (buf c'))) pend' = remaining p s pend
    end.
Proof.
  intros [Hr Ho Hc] El E Hb. unfold current in Hc. rewrite El in Hc.
  destruct Hc as (hd & rest & ls1 & ls2 & c1 & -> & Hin & Hh & E1 & _).
  rewrite E in E1. injection E1 as <-.
  assert (remaining p s (hd :: rest) =
          tail_bytes (brk p) p (next c) ++ concat (map (chain_bytes p) rest)) as Erem.
  { unfold remaining. rewrite El, E, Hb, Nat.sub_diag. done. }
  destruct (live_seg _ _ _ (owned_wf _ _ _ Ho) Hin) as [Hs Hlen]. rewrite length_app in Hlen.
  cbn [length] in Hlen. apply seg_suffix in Hs as (q & -> & c1 & E1 & Hs).
  rewrite E in E1. injection E1 as <-.
  destruct (next c) as [l'|] eqn:En.
  - unfold next_buf. rewrite En. exists p, s, live, (hd :: rest), (Some l'). split; [done|].
    split; [done|]. split; [apply frames_refl|]. destruct ls2 as [|l2 ls2]; [done|]. pose proof Hs as Hs'.
    destruct Hs as ([= <-] & c' & E' & Hs). exists c'. split; [done|]. split.
    + constructor; [|done|].
      * eapply ring_eq; [..|exact Hr]; done.
      * exists hd, rest, (ls1 ++ [l]), ls2, c'. rewrite <- app_assoc. cbn [Datatypes.app].
        do 4 (split; [done|]). cbn [set_current out_bpos].
        destruct (wf_bufs _ _ (owned_wf _ _ _ Ho) _ _ E') as [[? _] _]. lia.
    + rewrite Erem. unfold remaining. cbn [out_chain set_current out_bpos tail]. rewrite E', app_assoc.
      f_equal. cbn [length] in Hlen. rewrite (tail_bytes_seg p ls2), (tail_bytes_seg p (l' :: ls2))
        by first [done | cbn [length]; lia].
      unfold bufs. cbn [omap list_omap]. now rewrite E'.
  - destruct (next_buf_end p s live hd rest c Hr Ho En) as (p' & s' & live' & nl & -> & Hkept & H).
    exists p', s', live', rest, nl. split; [done|]. split; [now exists [hd]|]. split; [done|].
    assert (tail_bytes (brk p) p None = []) as Et by now destruct (brk p).
    rewrite Erem, Et. destruct nl as [l'|]; [exact H|]. destruct H as [-> H]. done.
Qed.

Lemma queue_ok_active p s live pend a : queue_ok p s live pend -> queue_ok p (set_active s a) live pend.
Proof. intros [Hr Ho Hc]. constructor; [|done|exact Hc]. eapply ring_eq; [..|exact Hr]; done. Qed.

(** [n] bytes of the current buffer have been sent. *)
Lemma advance p s live pend l c now n :
  queue_ok p s live pend -> out_chain s = Some l -> cells p !! l = Some c ->
  (n <= b_last (buf c) - out_bpos s)%nat ->
  let s' := set_current (account now s n) (Some l) (out_bpos s + n) in
  queue_ok p s' live pend /\
  take n (drop (out_bpos s) (b_mem (buf c))) ++ remaining p s' pend = remaining p s pend.
Proof.
  intros [Hr Ho Hc] El E Hn s'. unfold current in Hc. rewrite El in Hc.
  destruct Hc as (hd & rest & ls1 & ls2 & c1 & -> & Hin & Hh & E1 & Hb).
  rewrite E in E1. injection E1 as <-. split.
  - constructor; [|done|].
    + eapply ring_eq; [..|exact Hr]; done.
    + exists hd, rest, ls1, ls2, c. do 4 (split; [done|]). cbn [s' set_current out_bpos]. lia.
  - unfold remaining. rewrite El. cbn [s' set_current out_chain out_bpos]. rewrite E, !app_assoc.
    do 2 f_equal. rewrite <- drop_drop.
    replace (b_last (buf c) - out_bpos s)%nat with (n + (b_last (buf c) - (out_bpos s + n)))%nat by lia.
    now rewrite take_take_drop.
Qed.

Lemma send_loop_spec now sock : forall p s live pend wire,
  queue_ok p s live pend -> (out_chain s = None -> pend = []) ->
  exists e p' s' live' pend' w, send_loop now sock p s wire = Some (e, p', s', wire ++ w) /\
    queue_ok p' s' live' pend' /\ frames p p' live live' held /\ pend' `suffix_of` pend /\
    w ++ remaining p' s' pend' = remaining p s pend /\ (e = Sent -> pend' = []).
Proof.
  induction sock as [|ev sock IH]; intros p s live pend wire Hq Hn; cbn [send_loop];
    destruct (out_chain s) as [l|] eqn:El.
  2, 4: exists Sent, p, (set_active s false), live, pend, []; rewrite app_nil_r;
    (split; [done|]); (split; [now apply queue_ok_active|]); (split; [done|]); (split; [done|]);
    (split; [done|]); auto.
  { exists Blocked, p, (set_active s true), live, pend, []. rewrite app_nil_r. split; [done|].
    split; [now apply queue_ok_active|]. split; [done|]. split; [done|]. split; [done|done]. }
  destruct ev as [n|]; cbn [send_loop]; rewrite ?El.
  2: { exists Finalized, p, s, live, pend, []. rewrite app_nil_r. split; [done|].
       split; [done|]. split; [done|]. split; [done|]. split; [done|done]. }
  pose proof (ok_current _ _ _ _ Hq) as Hc. unfold current in Hc. rewrite El in Hc.
  destruct Hc as (hd & rest & ls1 & ls2 & c & Ep & Hin & Hh & E & Hb).
  rewrite E, some_bind. cbv zeta. set (k := Nat.min n (b_last (buf c) - out_bpos s)) in *.
  destruct (k =? 0)%nat eqn:Ek.
  { exists Blocked, p, (set_active s true), live, pend, []. rewrite app_nil_r. split; [done|].
    split; [now apply queue_ok_active|]. split; [done|]. split; [done|]. split; [done|done]. }
  destruct (advance p s live pend l c now k Hq El E ltac:(lia)) as [Hq1 Hrem].
  set (s1 := set_current _ _ _) in *. set (w := take k _) in *. case_if.
  - destruct (next_buf_spec p s1 live pend l c Hq1 eq_refl E E0)
      as (p' & s' & live' & pend' & nl & -> & Hsuf & Hkept & H). rewrite some_bind.
    destruct nl as [l'|].
    + destruct H as (c' & E' & Hq' & Hrem'). rewrite E', some_bind.
      destruct (IH p' (set_current s' (Some l') (b_pos (buf c'))) live' pend' (wire ++ w) Hq' ltac:(done))
        as (e & p2 & s2 & live2 & pend2 & w2 & -> & Hq2 & Hkept2 & Hsuf2 & Hw2 & He).
      exists e, p2, s2, live2, pend2, (w ++ w2). rewrite <- !app_assoc. split; [done|].
      split; [done|]. split; [now apply (frames_trans p p' p2 live live')|]. split; [now transitivity pend'|].
      split; [|done]. rewrite Hw2. congruence.
    + destruct H as (-> & Hq' & Hrem').
      exists Sent, p', (set_active (set_current s' None (out_bpos s')) false), live', [], w.
      split; [done|]. split; [now apply queue_ok_active|]. split; [done|]. split; [apply suffix_nil|].
      split; [|done]. rewrite <- Hrem, Hrem'. done.
  - destruct (IH p s1 live pend (wire ++ w) Hq1 ltac:(done))
      as (e & p2 & s2 & live2 & pend2 & w2 & -> & Hq2 & Hkept2 & Hsuf2 & Hw2 & He).
    exists e, p2, s2, live2, pend2, (w ++ w2). rewrite <- !app_assoc. split; [done|].
    split; [done|]. split; [done|]. split; [done|]. split; [|done]. now rewrite Hw2.
Qed.

Lemma send_spec now sock p s live pend :
  queue_ok p s live pend ->
  exists e p' s' live' pend' w, ngx_rtmp_send now false false sock p s = Some (e, p', s', w) /\
    queue_ok p' s' live' pend' /\ frames p p' live live' held /\ pend' `suffix_of` pend /\
    w ++ remaining p' s' pend' = remaining p s pend /\ (e = Sent -> pend' = []).
Proof.
  intros Hq. unfold ngx_rtmp_send. destruct (out_chain s) as [l|] eqn:El.
  - rewrite some_bind.
    destruct (send_loop_spec now sock p s live pend [] Hq ltac:(congruence)) as (e & p' & s' & live' & pend' & w & H).
    exists e, p', s', live', pend', w. exact H.
  - rewrite (ring_empty _ _ (ok_ring _ _ _ _ Hq)). destruct pend as [|l rest].
    + rewrite bool_decide_eq_true_2, some_bind by done.
      destruct (send_loop_spec now sock p s live [] [] Hq ltac:(done)) as (e & p' & s' & live' & pend' & w & H).
      exists e, p', s', live', pend', w. exact H.
    + rewrite bool_decide_eq_false_2 by done. destruct Hq as [Hr Ho _].
      destruct (ring_pop s l rest Hr) as [-> _]. rewrite some_bind.
      destruct (start_chain p s live l rest 0 Hr Ho) as (c & -> & Hq & Hrem & _). rewrite !some_bind.
      destruct (send_loop_spec now sock p _ live _ [] Hq ltac:(done)) as (e & p' & s' & live' & pend' & w & E & H1 & Hkept & H2 & H3 & H4).
      exists e, p', s', live', pend', w. split; [exact E|]. split; [done|]. split; [done|]. split; [done|].
      split; [|done]. rewrite H3, Hrem. unfold remaining. now rewrite El.
Qed.

(** Also when the session is being closed. *)
Lemma send_any now destroyed timedout sock p s live pend :
  queue_ok p s live pend ->
  exists e p' s' live' pend' w, ngx_rtmp_send now destroyed timedout sock p s = Some (e, p', s', w) /\
    queue_ok p' s' live' pend' /\ frames p p' live live' held /\
    w ++ remaining p' s' pend' = remaining p s pend.
Proof.
  intros Hq. destruct destroyed; [exists Sent, p, s, live, pend, []; auto using frames_refl|].
  destruct timedout; [exists Finalized, p, s, live, pend, []; auto using frames_refl|].
  destruct (send_spec now sock p s live pend Hq) as (e & p' & s' & live' & pend' & w & E & Hq' & Hf & _ & Hw & _).
  exists e, p', s', live', pend', w. auto.
Qed.

(** C24: bytes leave in the order of the queue: whatever the socket takes at each
    call, [ngx_rtmp_send] writes the next bytes of the queued chains, none
    skipped and none twice, and leaves the session with exactly the rest; the
    references of the chains sent completely are given up (the queue holds one
    for every chain that is left), and no freed chain is touched. *)
Theorem send_in_order now sock p s live pend :
  queue_ok p s live pend ->
  exists e p' s' live' pend' w, ngx_rtmp_send now false false sock p s = Some (e, p', s', w) /\
    queue_ok p' s' live' pend' /\ kept p p' /\ pend' `suffix_of` pend /\
    w ++ remaining p' s' pend' = remaining p s pend /\ (e = Sent -> pend' = []).
Proof.
  intros Hq. destruct (send_spec now sock p s live pend Hq) as (e & p' & s' & live' & pend' & w & E & Hq' & Hf & H).
  exists e, p', s', live', pend', w. split; [done|]. split; [done|]. split; [|done].
  eapply frames_kept; [apply Hq|apply Hq'|done].
Qed.

(* ------------------------------------------------------------------ *)
(** ** Progress *)

(** No buffer is empty. *)
Definition no_empty (p : pool) : Prop :=
  forall l c, cells p !! l = Some c -> (b_pos (buf c) < b_last (buf c))%nat.

Lemma free_bufs p l p' :
  ngx_rtmp_free_shared_chain p l = Some p' ->
  forall k, buf <$> cells p' !! k = buf <$> cells p !! k.
Proof.
  unfold ngx_rtmp_free_shared_chain, ngx_rtmp_ref_put, set_ref. intros H k.
  assert (forall q j c c', cells q !! j = Some c -> buf c' = buf c ->
            buf <$> cells (set_cell q j c') !! k = buf <$> cells q !! k) as Hset.
  { intros q j c c' E Eb. cbn. destruct (decide (k = j)) as [-> |Hne].
    - rewrite lookup_insert_eq, E. cbn. now rewrite Eb.
    - now rewrite insert_other by congruence. }
  destruct (cells p !! l) as [c|] eqn:E; [|done]. rewrite !some_bind in H. revert H. case_if.
  - set (q := set_cell p l _). destruct (last_link (brk q) q l) as [cl|]; [|done]. rewrite some_bind.
    unfold set_next. destruct (cells q !! cl) as [c2|] eqn:E2; [|done]. rewrite !some_bind.
    intros [= <-]. cbn [set_free cells]. rewrite (Hset q cl c2 _ E2) by done.
    now apply (Hset p l c).
  - intros [= <-]. now apply (Hset p l c).
Qed.

Lemma next_buf_no_empty p s c p' s' nl :
  next_buf p s c = Some (p', s', nl) -> no_empty p -> no_empty p'.
Proof.
  unfold next_buf. destruct (next c); [now intros [= <- <- <-]|].
  destruct (slot s (out_pos s)) as [l|]; [|done]. rewrite some_bind.
  destruct (ngx_rtmp_free_shared_chain p l) as [p1|] eqn:Ef; [|done]. rewrite some_bind.
  intros H Hne.
  assert (p' = p1) as ->.
  { revert H. cbv zeta. case_if; [now intros [= <- <- <-]|].
    destruct (slot _ _); [|done]. rewrite some_bind. now intros [= <- <- <-]. }
  intros k c' E. pose proof (free_bufs _ _ _ Ef k) as Hk. rewrite E in Hk.
  destruct (cells p !! k) as [c0|] eqn:E0; [|done]. injection Hk as ->. eauto.
Qed.

(** The current buffer has bytes left. *)
Definition has_bytes (p : pool) (s : session) : Prop :=
  forall l c, out_chain s = Some l -> cells p !! l = Some c -> (out_bpos s < b_last (buf c))%nat.

Lemma remaining_pos p s live pend l :
  queue_ok p s live pend -> has_bytes p s -> out_chain s = Some l -> remaining p s pend <> [].
Proof.
  intros Hq Hb El. pose proof (ok_current _ _ _ _ Hq) as Hc. unfold current in Hc. rewrite El in Hc.
  destruct Hc as (hd & rest & ls1 & ls2 & c & -> & Hin & Hh & E & _). specialize (Hb l c El E).
  destruct (wf_bufs _ _ (owned_wf _ _ _ (ok_owned _ _ _ _ Hq)) _ _ E) as [(_ & Hl & _) _].
  unfold remaining, b_end in *. rewrite El, E. intros H. apply (f_equal length) in H.
  rewrite length_app, length_take, length_drop in H. cbn [length] in H. lia.
Qed.

Lemma send_loop_progress now sock : forall p s live pend wire,
  queue_ok p s live pend -> (out_chain s = None -> pend = []) -> no_empty p -> has_bytes p s ->
  Forall (fun ev => exists n, ev = Accept n /\ (0 < n)%nat) sock ->
  (length (remaining p s pend) <= length sock)%nat ->
  exists p' s', send_loop now sock p s wire = Some (Sent, p', s', wire ++ remaining p s pend).
Proof.
  induction sock as [|ev sock IH]; intros p s live pend wire Hq Hn Hne Hb Hs Hlen; cbn [send_loop];
    destruct (out_chain s) as [l|] eqn:El.
  2, 4: rewrite (Hn eq_refl); unfold remaining; rewrite El; cbn; rewrite app_nil_r; eauto.
  { apply (remaining_pos _ _ _ _ _ Hq Hb) in El. destruct (remaining p s pend); [done|].
    cbn in Hlen. lia. }
  apply Forall_cons in Hs as [(n & -> & Hpos) Hs].
  pose proof (ok_current _ _ _ _ Hq) as Hc. unfold current in Hc. rewrite El in Hc.
  destruct Hc as (hd & rest & ls1 & ls2 & c & Ep & Hin & Hh & E & _).
  pose proof (Hb l c El E) as Hlt. rewrite E, some_bind. cbv zeta.
  set (k := Nat.min n (b_last (buf c) - out_bpos s)) in *. case_if; [lia|].
  destruct (advance p s live pend l c now k Hq El E ltac:(lia)) as [Hq1 Hrem].
  destruct (wf_bufs _ _ (owned_wf _ _ _ (ok_owned _ _ _ _ Hq)) _ _ E) as [(_ & Hl & _) _].
  set (s1 := set_current _ _ _) in *. set (w := take k _) in *.
  assert (length w = k) as Hw by (unfold w, b_end in *; len).
  assert (length (remaining p s1 pend) <= length sock)%nat as Hlen1.
  { rewrite <- Hrem, length_app in Hlen. cbn [length] in Hlen. lia. }
  rewrite <- Hrem, app_assoc. case_if.
  - destruct (next_buf_spec p s1 live pend l c Hq1 eq_refl E E1)
      as (p' & s' & live' & pend' & nl & Enb & Hsuf & _ & H). rewrite Enb, some_bind.
    apply next_buf_no_empty in Enb; [|done]. destruct nl as [l'|].
    + destruct H as (c' & E' & Hq' & Hrem'). rewrite E', some_bind, <- Hrem'.
      eapply IH; eauto; [done| |now rewrite Hrem']. intros l2 c2 [= <-] E2. rewrite E' in E2.
      injection E2 as <-. eapply Enb, E'.
    + destruct H as (_ & _ & ->). rewrite app_nil_r. eauto.
  - eapply IH; eauto. intros l2 c2 [= <-] E2. rewrite E in E2. injection E2 as <-.
    cbn [s1 set_current out_bpos] in *. lia.
Qed.

(** C38: if the socket always takes at least one byte and no buffer is empty, the
    whole queue is sent, after no more calls than there are bytes. *)
Theorem send_completes now sock p s live pend :
  queue_ok p s live pend -> no_empty p -> has_bytes p s ->
  Forall (fun ev => exists n, ev = Accept n /\ (0 < n)%nat) sock ->
  (length (remaining p s pend) <= length sock)%nat ->
  exists p' s', ngx_rtmp_send now false false sock p s = Some (Sent, p', s', remaining p s pend).
Proof.
  intros Hq Hne Hb Hs Hlen. unfold ngx_rtmp_send. destruct (out_chain s) as [l|] eqn:El.
  - rewrite some_bind. apply (send_loop_progress now sock p s live pend []); auto. congruence.
  - rewrite (ring_empty _ _ (ok_ring _ _ _ _ Hq)). destruct pend as [|l rest].
    + rewrite bool_decide_eq_true_2, some_bind by done.
      now apply (send_loop_progress now sock p s live [] []).
    + rewrite bool_decide_eq_false_2 by done. destruct Hq as [Hr Ho _].
      destruct (ring_pop s l rest Hr) as [-> _]. rewrite some_bind.
      destruct (start_chain p s live l rest 0 Hr Ho) as (c & E & Hq & Hrem & _).
      rewrite E, !some_bind.
      assert (remaining p s (l :: rest) = remaining p (set_current s (Some l) (b_pos (buf c))) (l :: rest))
        as Er by (rewrite Hrem; unfold remaining; now rewrite El).
      rewrite Er in *.
      apply (send_loop_progress now sock p _ live (l :: rest) []); auto; [done|].
      intros l2 c2 [= <-] E2. rewrite E in E2. injection E2 as <-. eapply Hne, E.
Qed.

(* ------------------------------------------------------------------ *)
(** ** Putting a message into the queue *)

(** The length of the queue is right when it divides 2^64. *)
Lemma nmsg_length s pend :
  ring s pend -> (out_queue s | 2 ^ 64) -> nmsg s = Z.of_nat (length pend) + 1.
Proof.
  intros [_ H2 H3 H4 _] Hd. unfold nmsg, u64. f_equal. rewrite Z.mod_mod_divide by done.
  rewrite H3, Zminus_mod_idemp_l. replace (_ + _ - _) with (Z.of_nat (length pend)) by lia.
  apply Z.mod_small. lia.
Qed.

Lemma tail_bytes_ext p p' :
  (forall k, (fun c => (next c, buf c)) <$> cells p' !! k = (fun c => (next c, buf c)) <$> cells p !! k) ->
  forall fuel l, tail_bytes fuel p' l = tail_bytes fuel p l.
Proof.
  intros H. induction fuel as [|fuel IH]; intros [l|]; try done. cbn [tail_bytes].
  specialize (H l). destruct (cells p' !! l) as [c'|], (cells p !! l) as [c|]; try done.
  injection H as En Eb. rewrite En, Eb. f_equal. apply IH.
Qed.

(** One more reference to a chain in use. *)
Lemma acquire_owned p live refs ls l c :
  owned p live refs -> ls ∈ live -> head ls = Some l -> cells p !! l = Some c -> ref c < 2 ^ 32 - 1 ->
  let p' := set_cell p l (Cell (next c) (ref c + 1) (buf c)) in
  ngx_rtmp_acquire_shared_chain p l = Some p' /\ owned p' live (l :: refs) /\
  forall fuel k, tail_bytes fuel p' k = tail_bytes fuel p k.
Proof.
  intros [Hw Hlive Hused Href] Hin Hh E Hr p'. pose proof Hin as Hin'.
  apply elem_of_Permutation in Hin' as [live0 Hp]. pose proof Hw as Hw'. rewrite Hp in Hw'.
  pose proof (Hused ls l Hin Hh) as Hl. pose proof (Href l c Hl E) as Hrl.
  pose proof (occ_pos l refs) as Ho.
  destruct (acquire_spec p ls live0 l c Hw' Hh E ltac:(lia)) as (Ea & Hw2 & _).
  split; [exact Ea|]. split; [constructor|].
  - now rewrite Hp.
  - intros k [-> |Hk]%elem_of_cons; eauto.
  - intros ls' k Hls' Hh'. apply list_elem_of_further. eauto.
  - intros k c' Hk E'. cbn [occ]. cbn in E'. destruct (decide (k = l)) as [-> |Hne].
    + rewrite lookup_insert_eq in E'. injection E' as <-. cbn [ref]. lia.
    + rewrite insert_other in E' by congruence.
      apply elem_of_cons in Hk as [-> |Hk]; [done|]. specialize (Href k c' Hk E'). lia.
  - intros fuel k. apply tail_bytes_ext. intros j. cbn. destruct (decide (j = l)) as [-> |Hne].
    + now rewrite lookup_insert_eq, E.
    + now rewrite insert_other by congruence.
Qed.

(** The queue with one more message. *)
Lemma enqueue_ok p s live pend ls l c :
  queue_ok p s live pend -> Z.of_nat (length pend) + 1 < out_queue s ->
  ls ∈ live -> head ls = Some l -> cells p !! l = Some c -> ref c < 2 ^ 32 - 1 ->
  let s' := set_slot s l ((out_last s + 1) mod out_queue s) in
  exists p', ngx_rtmp_acquire_shared_chain p l = Some p' /\ queue_ok p' s' live (pend ++ [l]) /\
    frames p p' live live held /\ remaining p' s' (pend ++ [l]) = remaining p s pend ++ chain_bytes p l.
Proof.
  intros [Hr Ho Hc] Hlen Hin Hh E Href s'.
  destruct (acquire_owned p live (pend ++ held) ls l c Ho Hin Hh E Href) as (Ea & Ho' & Ht).
  rewrite Permutation_cons_append, <- app_assoc, (Permutation_app_comm held), app_assoc in Ho'.
  set (p' := set_cell p l _) in *. exists p'. split; [done|].
  assert (forall x, map (chain_bytes p') x = map (chain_bytes p) x) as Hcb.
  { intros x. apply map_ext. intros k. apply Ht. }
  assert (frames p p' live live held) as Hf.
  { intros ls' k Hin' _ _. split; [done|]. intros j _. cbn [p' set_cell cells].
    destruct (decide (j = l)) as [-> |Hne].
    - now rewrite lookup_insert_eq, E.
    - now rewrite insert_other by congruence. }
  split; [constructor; [now apply ring_push|done|]|split; [exact Hf|]].
  - unfold current in *. cbn [s' set_slot out_chain out_bpos]. destruct (out_chain s) as [l0|]; [|done].
    destruct Hc as (hd & rest & ls1 & ls2 & c0 & -> & Hin0 & Hh0 & E0 & Hb).
    exists hd, (rest ++ [l]), ls1, ls2. cbn [p' set_cell cells].
    destruct (decide (l0 = l)) as [-> |Hne].
    + rewrite E in E0. injection E0 as <-. eexists. do 3 (split; [done|]).
      rewrite lookup_insert_eq. split; [reflexivity|done].
    + exists c0. do 3 (split; [done|]). now rewrite insert_other by congruence.
  - unfold remaining. cbn [s' set_slot out_chain out_bpos]. unfold current in Hc.
    destruct (out_chain s) as [l0|].
    + destruct Hc as (hd & rest & ls1 & ls2 & c0 & -> & Hin0 & Hh0 & E0 & Hb). rewrite E0.
      assert (exists c1, cells p' !! l0 = Some c1 /\ next c1 = next c0 /\ buf c1 = buf c0)
        as (c1 & -> & -> & ->).
      { cbn [p' set_cell cells]. destruct (decide (l0 = l)) as [-> |Hne].
        - rewrite E in E0. injection E0 as <-. rewrite lookup_insert_eq. eauto.
        - rewrite insert_other by congruence. eauto. }
      cbn [Datatypes.app tail]. rewrite Ht, Hcb, map_app, concat_app. cbn [map concat].
      now rewrite app_nil_r, <- !app_assoc.
    + rewrite Hcb, map_app, concat_app. cbn [map concat]. now rewrite app_nil_r.
Qed.

(** A message is dropped or put into the queue. *)
Lemma queue_message_spec now destroyed timedout sock p s live pend ls l c priority :
  queue_ok p s live pend -> hls s = false -> (out_queue s | 2 ^ 64) -> 0 <= priority ->
  ls ∈ live -> head ls = Some l -> cells p !! l = Some c -> ref c < 2 ^ 32 - 1 ->
  let drop := out_queue s <=? Z.of_nat (length pend) + 1 + Z.min 3 priority * out_queue s / 4 in
  exists e p' s' w, queue_message now destroyed timedout sock p s l priority =
      Some (if drop then NGX_AGAIN else NGX_OK, e, p', s', w) /\
    if drop then e = Sent /\ p' = p /\ s' = s /\ w = []
    else exists live' pend', queue_ok p' s' live' pend' /\ frames p p' live live' held /\
      w ++ remaining p' s' pend' = remaining p s pend ++ chain_bytes p l.
Proof.
  intros Hq Hh Hd Hp Hin Hhd E Href drop. unfold queue_message. rewrite Hh.
  rewrite (nmsg_length s pend (ok_ring _ _ _ _ Hq) Hd).
  replace (if 3 <? priority then 3 else priority) with (Z.min 3 priority) by (case_if; lia).
  cbv zeta. fold drop. pose proof (ring_pos _ _ (ok_ring _ _ _ _ Hq)) as Hpos.
  destruct drop eqn:Ed; [eauto 10|]. unfold drop in Ed. bool_to_prop.
  assert (0 <= Z.min 3 priority * out_queue s / 4) by (apply Z.div_pos; [apply Z.mul_nonneg_nonneg|]; lia).
  destruct (enqueue_ok p s live pend ls l c Hq ltac:(lia) Hin Hhd E Href) as (p1 & -> & Hq1 & Hk1 & Hr1).
  rewrite some_bind. set (s1 := set_slot s l ((out_last s + 1) mod out_queue s)) in *.
  case_if; [exists Sent, p1, s1, []; split; [done|]; exists live, (pend ++ [l]); done|].
  case_if; [|exists Sent, p1, s1, []; split; [done|]; exists live, (pend ++ [l]); done].
  destruct (send_any now destroyed timedout sock p1 _ live (pend ++ [l]) Hq1)
    as (e & p' & s' & live' & pend' & w & -> & Hq' & Hk' & Hw).
  rewrite some_bind. exists e, p', s', w. split; [done|]. exists live', pend'. split; [done|].
  split; [now apply (frames_trans p p1 p' live live)|]. congruence.
Qed.

Lemma send_message_spec now sock p s live pend ls l c priority :
  queue_ok p s live pend -> hls s = false -> (out_queue s | 2 ^ 64) -> 0 <= priority ->
  ls ∈ live -> head ls = Some l -> cells p !! l = Some c -> ref c < 2 ^ 32 - 1 ->
  let drop := out_queue s <=? Z.of_nat (length pend) + 1 + Z.min 3 priority * out_queue s / 4 in
  exists p' s' w, ngx_rtmp_send_message now false false sock p s l priority =
      Some (if drop then NGX_AGAIN else NGX_OK, p', s', w) /\
    if drop then p' = p /\ s' = s /\ w = []
    else exists live' pend', queue_ok p' s' live' pend' /\ kept p p' /\
      w ++ remaining p' s' pend' = remaining p s pend ++ chain_bytes p l.
Proof.
  intros Hq Hh Hd Hp Hin Hhd E Href drop.
  destruct (queue_message_spec now false false sock p s live pend ls l c priority Hq Hh Hd Hp Hin Hhd E Href)
    as (e & p' & s' & w & Em & H). fold drop in Em, H. unfold ngx_rtmp_send_message. rewrite Em, some_bind.
  exists p', s', w. split; [done|]. destruct drop; [now destruct H|].
  destruct H as (live' & pend' & Hq' & Hf & Hw). exists live', pend'. split; [done|]. split; [|done].
  eapply frames_kept; [apply Hq|apply Hq'|done].
Qed.

(** C23: [ngx_rtmp_send_message] on a queue whose size divides 2^64 (as the default
    256 does): a message of priority 0 is dropped only when all slots but one
    are in use, one of priority 1, 2 or 3 already when about three quarters, a
    half or a quarter of them are; a drop changes nothing.  Otherwise the queue
    takes a reference, the message goes out behind everything queued before,
    and what the call itself writes is the beginning of that.  The messages
    other sessions and callers refer to stay as they are. *)
Theorem send_message_fifo now sock p s live pend ls l c priority :
  queue_ok p s live pend -> hls s = false -> (out_queue s | 2 ^ 64) -> 0 <= priority ->
  ls ∈ live -> head ls = Some l -> cells p !! l = Some c -> ref c < 2 ^ 32 - 1 ->
  let drop := out_queue s <=? Z.of_nat (length pend) + 1 + Z.min 3 priority * out_queue s / 4 in
  exists p' s' w, ngx_rtmp_send_message now false false sock p s l priority =
      Some (if drop then NGX_AGAIN else NGX_OK, p', s', w) /\
    if drop then p' = p /\ s' = s /\ w = []
    else exists live' pend', queue_ok p' s' live' pend' /\ kept p p' /\
      w ++ remaining p' s' pend' = remaining p s pend ++ chain_bytes p l.
Proof. apply send_message_spec. Qed.

Lemma release_spec : forall pend fuel p s live,
  ring s pend -> owned p live (pend ++ held) -> (length pend < fuel)%nat ->
  exists p' s' live', release_queue fuel p s = Some (p', s') /\ owned p' live' held /\ kept p p' /\
    out_pos s' = out_last s'.
Proof.
  induction pend as [|l pend IH]; intros fuel p s live Hr Ho Hf;
    (destruct fuel as [|fuel]; [cbn in Hf; lia|]); cbn [release_queue];
    rewrite (ring_empty _ _ Hr).
  - rewrite bool_decide_eq_true_2 by done. exists p, s, live. split; [done|]. split; [done|]. split; [done|].
    pose proof (ring_empty _ _ Hr) as He. rewrite bool_decide_eq_true_2 in He by done. lia.
  - rewrite bool_decide_eq_false_2 by done. destruct (ring_pop s l pend Hr) as [-> Hr'].
    rewrite some_bind.
    destruct (free_owned p live l (pend ++ held) Ho) as (p' & live' & -> & Ho' & Hb).
    rewrite some_bind. cbn [length] in Hf.
    destruct (IH fuel p' (set_pos s ((out_pos s + 1) mod out_queue s)) live' Hr' Ho' ltac:(lia))
      as (p2 & s2 & live2 & E & Ho2 & Hk2 & He).
    exists p2, s2, live2. split; [exact E|]. split; [done|]. split; [|done].
    apply (kept_trans p p'); [|done]. intros k Hk. apply Hb, elem_of_app. auto.
Qed.

(** Closing a session gives up every reference the queue holds, and nothing
    else; the loop ends after one pass for every message in the queue. *)
Theorem release_queue_gives_up p s live pend :
  queue_ok p s live pend ->
  exists p' s' live', release_queue (S (length pend)) p s = Some (p', s') /\
    owned p' live' held /\ kept p p' /\ out_pos s' = out_last s'.
Proof. intros [Hr Ho _]. eapply release_spec; eauto. Qed.

End Sharing.

(** The messages in the queue. *)
Definition pending (s : session) : list loc :=
  omap (fun i => slot s ((out_pos s + Z.of_nat i) mod out_queue s))
    (seq 0 (Z.to_nat ((out_last s - out_pos s) mod out_queue s))).

Lemma omap_seq {B} (f : nat -> option B) (l : list B) : forall n,
  (forall i x, l !! i = Some x -> f (n + i)%nat = Some x) -> omap f (seq n (length l)) = l.
Proof.
  induction l as [|x l IH]; intros n H; [done|]. cbn [length seq omap list_omap].
  pose proof (H 0%nat x eq_refl) as H0. rewrite Nat.add_0_r in H0. rewrite H0. f_equal.
  apply IH. intros i y E. specialize (H (S i) y E). now rewrite Nat.add_succ_r in H.
Qed.

Lemma ring_pending s pend : ring s pend -> pending s = pend.
Proof.
  intros [H1 H2 H3 H4 H5]. unfold pending. rewrite H3, Zminus_mod_idemp_l.
  replace (out_pos s + Z.of_nat (length pend) - out_pos s) with (Z.of_nat (length pend)) by lia.
  rewrite Z.mod_small, Nat2Z.id by lia. apply omap_seq. intros i l E. cbn [Nat.add].
  unfold slot. now rewrite (H5 i l E).
Qed.

(** A queue in a pool that has changed elsewhere. *)
Lemma queue_frame held held' p p' s live live' pend :
  queue_ok held p s live pend -> owned p' live' (pend ++ held') -> frames p p' live live' pend ->
  queue_ok held' p' s live' pend /\ remaining p' s pend = remaining p s pend.
Proof.
  intros [Hr Ho Hc] Ho' Hf.
  assert (forall x, x ⊆ pend -> map (chain_bytes p') x = map (chain_bytes p) x) as Hb.
  { intros x Hx. apply map_ext_in. intros k Hk%list_elem_of_In.
    apply (frames_bytes p p' live live' (pend ++ held) pend); auto; [apply Ho'|].
    intros j Hj. apply elem_of_app. auto. }
  unfold remaining, current in *. destruct (out_chain s) as [l|] eqn:El.
  - destruct Hc as (hd & rest & ls1 & ls2 & c & -> & Hin & Hh & E & Hpos).
    destruct (Hf _ hd Hin Hh (list_elem_of_here _ _)) as [Hin' Hj].
    pose proof (Hj l ltac:(apply elem_of_app; right; apply list_elem_of_here)) as Hl.
    rewrite E in *. destruct (cells p' !! l) as [c'|] eqn:E'; [|done].
    cbn in Hl. injection Hl as En Eb. split.
    + split; [done|done|]. unfold current. rewrite El. exists hd, rest, ls1, ls2, c'.
      rewrite Eb. auto.
    + rewrite Eb, En. cbn [tail]. rewrite Hb by (intros j; apply list_elem_of_further). do 2 f_equal.
      assert (forall q lv, wf q lv -> (ls1 ++ l :: ls2) ∈ lv -> forall d, cells q !! l = Some d ->
        tail_bytes (brk q) q (next d) = concat (map buf_data (bufs q ls2))) as Ht.
      { intros q lv Hw Hi d Ed. destruct (live_seg q lv _ Hw Hi) as [Hs Hlen].
        apply seg_suffix in Hs as [r Hs]. destruct Hs as (-> & d' & Ed' & Hs).
        rewrite Ed in Ed'. injection Ed' as <-. apply tail_bytes_seg; [done|].
        rewrite length_app in Hlen. cbn in Hlen. lia. }
      rewrite <- En at 1. rewrite (Ht p' live' (owned_wf _ _ _ Ho') Hin' c' E').
      rewrite (Ht p live (owned_wf _ _ _ Ho) Hin c E). f_equal. f_equal.
      apply bufs_same. intros j Hj'. specialize (Hj j ltac:(apply elem_of_app; right; now apply list_elem_of_further)).
      destruct (cells p' !! j), (cells p !! j); try done. cbn in *. congruence.
  - split; [|now rewrite Hb]. split; [done|done|]. unfold current. now rewrite El.
Qed.

(* ------------------------------------------------------------------ *)
(** ** Concrete queues *)

Definition no_traffic : traffic := Traffic Bandwidth.bw_zero None.

(** A queue of [n] slots. *)
Definition queue (slots : list (option loc)) (pos last : Z) (active : bool) : session :=
  Session slots pos last None 0 (Z.of_nat (length slots)) 0 false 0 false false false active
    no_traffic.

(** The chain of [Shared.pool1] in a queue of four; another session refers to
    it too. *)
Definition one_queued : session := queue [Some 0%nat; None; None; None] 0 1 false.

Lemma one_queued_ok : queue_ok [0%nat] pool1 one_queued [[0%nat; 1%nat]] [0%nat].
Proof.
  constructor; [|constructor|exact Logic.I].
  - constructor; try done. intros i l H. destruct i as [|[|i]]; [|done|done]. now injection H as <-.
  - apply pool1_wf.
  - intros l Hl. exists [0%nat; 1%nat]. split; [apply list_elem_of_here|].
    now apply elem_of_cons in Hl as [-> | ->%list_elem_of_singleton].
  - intros ls l ->%list_elem_of_singleton [= <-]. apply list_elem_of_here.
  - intros l c Hl. assert (l = 0%nat) as ->
      by now apply elem_of_cons in Hl as [-> | ->%list_elem_of_singleton].
    intros [= <-]. now vm_compute.
Qed.

Definition slow_socket : list send_ev := [Accept 3; Accept 10].

Lemma send_in_order_witness :
  exists e p' s' live' pend' w,
    ngx_rtmp_send 0 false false slow_socket pool1 one_queued = Some (e, p', s', w) /\
    queue_ok [0%nat] p' s' live' pend' /\ w = [1; 2; 3; 4] /\ remaining p' s' pend' = [5; 6].
Proof.
  destruct (send_in_order [0%nat] 0 slow_socket _ _ _ _ one_queued_ok)
    as (e & p' & s' & live' & pend' & w & E & Hq & _ & _ & Hw & _).
  exists e, p', s', live', pend', w. split; [exact E|]. split; [exact Hq|].
  assert (w = [1; 2; 3; 4]) as -> by (vm_compute in E; congruence).
  split; [done|]. change (remaining pool1 one_queued [0%nat]) with [1; 2; 3; 4; 5; 6] in Hw.
  now injection Hw.
Defined.

Lemma send_completes_witness :
  exists p' s', ngx_rtmp_send 0 false false (repeat (Accept 1) 6) pool1 one_queued =
    Some (Sent, p', s', [1; 2; 3; 4; 5; 6]).
Proof.
  apply (send_completes [0%nat] 0 (repeat (Accept 1) 6) pool1 one_queued _ _ one_queued_ok).
  - intros l c. cbn. intros [[<- <-]|[_ [<- <-]%lookup_singleton_Some]]%lookup_insert_Some; cbn; lia.
  - done.
  - cbn [repeat]. repeat (apply Forall_cons_2; [exists 1%nat; auto|]). apply Forall_nil_2.
  - vm_compute. lia.
Defined.

Lemma send_message_fifo_witness :
  exists p' s' w live' pend',
    ngx_rtmp_send_message 0 false false slow_socket pool1 one_queued 0%nat 0 =
      Some (NGX_OK, p', s', w) /\ queue_ok [0%nat] p' s' live' pend' /\
    w ++ remaining p' s' pend' = [1; 2; 3; 4; 5; 6; 1; 2; 3; 4; 5; 6].
Proof.
  destruct (send_message_fifo [0%nat] 0 slow_socket pool1 one_queued [[0%nat; 1%nat]] [0%nat]
    [0%nat; 1%nat] 0%nat (Cell (Some 1%nat) 2 (Buf (replicate 18 0 ++ [1; 2; 3; 4]) 18 22)) 0)
    as (p' & s' & w & E & live' & pend' & Hq & _ & Hw).
  - apply one_queued_ok.
  - reflexivity.
  - exists (2 ^ 62). reflexivity.
  - lia.
  - apply list_elem_of_here.
  - reflexivity.
  - reflexivity.
  - vm_compute. reflexivity.
  - exists p', s', w, live', pend'. auto.
Defined.

Lemma release_queue_gives_up_witness :
  exists p' s' live', release_queue 2 pool1 one_queued = Some (p', s') /\ owned p' live' [0%nat] /\
    out_pos s' = out_last s'.
Proof.
  destruct (release_queue_gives_up [0%nat] _ _ _ _ one_queued_ok) as (p' & s' & live' & E & Ho & _ & He).
  exists p', s', live'. auto.
Defined.

(** A queue of five slots with four messages. *)
Definition full_queue : session :=
  queue [None; Some 0%nat; Some 0%nat; Some 0%nat; Some 0%nat] 1 0 true.

(** On a queue whose size does not divide 2^64 the length is computed wrongly
    once the positions have wrapped around: with four messages in a queue of
    five the fifth, which should be dropped, takes the last slot, and the queue
    counts as empty; the messages are not sent, and their references are kept. *)
Theorem queue_overrun :
  ring full_queue [0; 0; 0; 0]%nat /\ nmsg full_queue = 1 /\
  exists p' s' c, ngx_rtmp_send_message 0 false false [] pool1 full_queue 0%nat 0 =
      Some (NGX_OK, p', s', []) /\
    out_pos s' = out_last s' /\ ring s' [] /\ cells p' !! 0%nat = Some c /\ ref c = 3.
Proof.
  split; [|split; [reflexivity|]].
  - constructor; try done. intros i l H.
    do 4 (destruct i as [|i]; [injection H as <-; reflexivity|]). done.
  - do 3 eexists. split; [vm_compute; reflexivity|]. split; [done|]. split; [now constructor|].
    split; reflexivity.
Qed.

End Queue.
