(* ===== verification/Pool.v ===== *)
(** * Histories of the pool of shared buffers

    Shared.v and Queue.v show what each operation on shared buffers does.  Here
    the operations are the steps of a relation, with the references that are
    held and the bytes they stand for as the specification: whatever the order
    in which sessions copy messages, share them and give them up, the links of
    the pool stay well formed and every reference keeps its message. *)

From Stdlib Require Import ZArith Lia.
From stdpp Require Import base numbers list gmap relations.
From S2P Require Import Prelude Buf Chunk Shared Queue.

Module Pool.

Import Shared.
Import Queue.

(** A new chain and its one reference. *)
Lemma append_owned p live refs ins :
  owned p live refs -> (0 < chunk_size p)%nat -> ins <> [] -> bytes_ok (concat ins) ->
  exists p' l live', ngx_rtmp_append_shared_bufs p None ins = Some (p', Some l) /\
    owned p' live' (l :: refs) /\ chain_bytes p' l = concat ins /\
    (forall k, k ∈ refs -> chain_bytes p' k = chain_bytes p k) /\ chunk_size p' = chunk_size p.
Proof.
  intros Ho Hk Hne Hb.
  destruct (append_new live p ins (owned_wf _ _ _ Ho) Hk Hne Hb) as (p' & l & ls & E & Hw & Hs & Hsize & Hv).
  destruct (wf_head _ _ _ Hw) as (l0 & ls0 & [= <- <-] & c & Ec).
  assert (ref c = 1) as Hr.
  { rewrite spilled_full in Hv by done. unfold view, link_view in Hv. cbn [map] in Hv.
    injection Hv as Hv _. rewrite Ec in Hv. now injection Hv. }
  destruct (new_owned p p' live refs (l :: ls) l c Ho Hw Hs eq_refl Ec Hr) as [Ho' Hkept].
  exists p', l, ((l :: ls) :: live). split; [done|]. split; [done|]. split; [|done].
  rewrite (live_bytes p' _ (l :: ls) l Hw (list_elem_of_here _ _) eq_refl).
  destruct (bufs_view _ _ _ _ Hw Hv) as [-> _]. now apply spilled_concat.
Qed.

Lemma acquire_held p live refs l :
  owned p live refs -> l ∈ refs -> occ l refs < 2 ^ 32 - 1 ->
  exists p', ngx_rtmp_acquire_shared_chain p l = Some p' /\ owned p' live (l :: refs) /\
    chunk_size p' = chunk_size p /\ forall k, k ∈ refs -> chain_bytes p' k = chain_bytes p k.
Proof.
  intros Ho Hl Hocc. destruct (owned_live _ _ _ Ho l Hl) as (ls & Hin & Hh).
  assert (is_Some (cells p !! l)) as [c E].
  { destruct (live_seg _ _ _ (owned_wf _ _ _ Ho) Hin) as [Hs _].
    eapply seg_cell; [exact Hs|]. now apply head_elem. }
  destruct (owned_ref _ _ _ Ho l c Hl E) as [Hr _].
  destruct (acquire_owned p live refs ls l c Ho Hin Hh E ltac:(lia)) as (Ea & Ho' & Hb).
  eexists. split; [exact Ea|]. split; [exact Ho'|]. split; [done|]. intros k _. apply Hb.
Qed.

(** The references that are held, each with its message. *)
Abbreviation holding := (list (loc * list Z)).

Inductive pool_step : pool * holding -> pool * holding -> Prop :=
  | step_new p held ins p' l :
      ins <> [] -> bytes_ok (concat ins) ->
      ngx_rtmp_append_shared_bufs p None ins = Some (p', Some l) ->
      pool_step (p, held) (p', (l, concat ins) :: held)
  | step_acquire p held l x p' :
      (l, x) ∈ held -> occ l (map fst held) < 2 ^ 32 - 1 ->
      ngx_rtmp_acquire_shared_chain p l = Some p' ->
      pool_step (p, held) (p', (l, x) :: held)
  | step_free p held1 l x held2 p' :
      ngx_rtmp_free_shared_chain p l = Some p' ->
      pool_step (p, held1 ++ (l, x) :: held2) (p', held1 ++ held2).

(** The pool is well formed, the counts are the numbers of references, and the
    chains hold the messages. *)
Definition typed (n : nat) (s : pool * holding) : Prop :=
  chunk_size (fst s) = n /\
  (exists live, owned (fst s) live (map fst (snd s))) /\
  forall l x, (l, x) ∈ snd s -> chain_bytes (fst s) l = x.

Lemma step_typed n s s' : (0 < n)%nat -> pool_step s s' -> typed n s -> typed n s'.
Proof.
  intros Hn Hs. destruct Hs as [p held ins p' l Hne Hb E|p held l x p' Hl Hocc E|p h1 l x h2 p' E];
    intros (Hk & (live & Ho) & Hx); cbn [fst snd] in *.
  - destruct (append_owned p live _ ins Ho ltac:(lia) Hne Hb) as (p1 & l1 & live1 & E1 & Ho1 & Hl1 & Hb1 & Hk1).
    rewrite E in E1. injection E1 as <- <-. split; [cbn; lia|]. split; [now exists live1|].
    intros k y [[= -> ->]|Hin]%elem_of_cons; [done|]. cbn [fst].
    rewrite Hb1 by (apply list_elem_of_fmap; exists (k, y); done). now apply Hx.
  - assert (l ∈ map fst held) as Hl' by (apply list_elem_of_fmap; now exists (l, x)).
    destruct (acquire_held p live _ l Ho Hl' Hocc) as (p1 & E1 & Ho1 & Hk1 & Hb1).
    rewrite E in E1. injection E1 as <-. split; [cbn; lia|]. split; [now exists live|].
    intros k y [[= -> ->]|Hin]%elem_of_cons; cbn [fst].
    + rewrite Hb1 by done. now apply Hx.
    + rewrite Hb1 by (apply list_elem_of_fmap; exists (k, y); done). now apply Hx.
  - rewrite map_app in Ho. cbn [map fst] in Ho. rewrite <- Permutation_middle in Ho.
    destruct (free_owned p live l _ Ho) as (p1 & live1 & E1 & Ho1 & Hb1).
    rewrite E in E1. injection E1 as <-. rewrite <- map_app in *. split; [|split; [now exists live1|]].
    + cbn [fst]. now rewrite (free_chunk_size _ _ _ E).
    + intros k y Hin. cbn [fst snd] in *.
      rewrite Hb1 by (apply list_elem_of_fmap; exists (k, y); done). apply Hx.
      apply elem_of_app in Hin as [Hin|Hin]; apply elem_of_app; [now left|right].
      now apply list_elem_of_further.
Qed.

Lemma empty_typed n : typed n (empty_pool n, []).
Proof.
  split; [done|]. split; [exists []|intros l x H; now apply not_elem_of_nil in H].
  split; [apply empty_pool_wf|..].
  - intros l H. now apply not_elem_of_nil in H.
  - intros ls l H. now apply not_elem_of_nil in H.
  - intros l c H. now apply not_elem_of_nil in H.
Qed.

(** C29: the pool in any history: from an empty pool, whatever messages are
    copied, shared and given up in whatever order, every link is in exactly
    one chain or in the free list, the counts are the numbers of references,
    and every reference still stands for the message it was made for; each
    reference can be given up, and when none is left every link is free. *)
Theorem pool_histories n p held : (0 < n)%nat -> rtc pool_step (empty_pool n, []) (p, held) ->
  (exists live, owned p live (map fst held)) /\
  (forall l x, (l, x) ∈ held -> chain_bytes p l = x /\ is_Some (ngx_rtmp_free_shared_chain p l)) /\
  (held = [] -> wf p []).
Proof.
  intros Hn Hr.
  assert (typed n (p, held)) as (_ & (live & Ho) & Hx).
  { remember (empty_pool n, []) as s0 eqn:E0. assert (typed n s0) as H0 by (subst; apply empty_typed).
    clear E0. induction Hr as [|s1 s2 s3 H12 _ IH]; [done|]. apply IH. now apply (step_typed n s1). }
  cbn [fst snd] in *. split; [now exists live|]. split.
  - intros l x Hin. split; [now apply Hx|].
    apply list_elem_of_split in Hin as (h1 & h2 & ->). rewrite map_app in Ho. cbn [map fst] in Ho.
    rewrite <- Permutation_middle in Ho. destruct (free_owned p live l _ Ho) as (p' & _ & -> & _). eauto.
  - intros ->. destruct live as [|ls live]; [apply Ho|].
    destruct (wf_head _ _ _ (owned_wf _ _ _ Ho)) as (l & ls' & -> & _).
    pose proof (owned_used _ _ _ Ho _ l (list_elem_of_here _ _) eq_refl) as H. now apply not_elem_of_nil in H.
Qed.

(** A message is copied, shared and given up twice. *)
Lemma pool_histories_witness :
  exists p, rtc pool_step (empty_pool 4, []) (p, []) /\ wf p [].
Proof.
  assert (exists p, rtc pool_step (empty_pool 4, []) (p, [])) as [p H].
  { eexists. eapply rtc_l; [eapply (step_new _ [] [[1; 2; 3]; [4; 5]])|].
    - discriminate.
    - refine (bool_decide_unpack _ _). exact Logic.I.
    - vm_compute. reflexivity.
    - eapply rtc_l; [eapply step_acquire; [apply list_elem_of_here|reflexivity|vm_compute; reflexivity]|].
      eapply rtc_l; [eapply (step_free _ []); vm_compute; reflexivity|].
      eapply rtc_l; [eapply (step_free _ []); vm_compute; reflexivity|]. apply rtc_refl. }
  exists p. split; [exact H|]. apply (pool_histories 4 p []); [lia|exact H|reflexivity].
Defined.

End Pool.
