(* ===== verification/Amf.v ===== *)
(** * AMF values (src/src/rtmp/ngx_rtmp_amf.c)

    Commands and metadata are sequences of AMF values.  The caller describes
    what it wants to read or write by an array of elements, each with a type,
    a name (in an object) and a place in memory; [ngx_rtmp_amf_read] parses the
    bytes of a chain of buffers and stores the values it finds,
    [ngx_rtmp_amf_write] appends the encoded values to a chain.

    The allocation of links is taken to succeed. *)

From Stdlib Require Import ZArith Lia.
From stdpp Require Import base numbers list gmap.
From S2P Require Import Prelude Buf.

Module Amf.

Definition NGX_RTMP_AMF_NUMBER : Z := 0x00.
Definition NGX_RTMP_AMF_BOOLEAN : Z := 0x01.
Definition NGX_RTMP_AMF_STRING : Z := 0x02.
Definition NGX_RTMP_AMF_OBJECT : Z := 0x03.
Definition NGX_RTMP_AMF_NULL : Z := 0x05.
Definition NGX_RTMP_AMF_ARRAY_NULL : Z := 0x06.
Definition NGX_RTMP_AMF_MIXED_ARRAY : Z := 0x08.
Definition NGX_RTMP_AMF_END : Z := 0x09.
Definition NGX_RTMP_AMF_ARRAY : Z := 0x0a.
Definition NGX_RTMP_AMF_INT8 : Z := 0x0100.
Definition NGX_RTMP_AMF_INT16 : Z := 0x0101.
Definition NGX_RTMP_AMF_INT32 : Z := 0x0102.
Definition NGX_RTMP_AMF_VARIANT_ : Z := 0x0103.
Definition NGX_RTMP_AMF_OPTIONAL : Z := 0x1000.
Definition NGX_RTMP_AMF_TYPELESS : Z := 0x2000.
Definition NGX_RTMP_AMF_CONTEXT : Z := 0x4000.
Definition NGX_RTMP_AMF_VARIANT : Z := Z.lor NGX_RTMP_AMF_VARIANT_ NGX_RTMP_AMF_TYPELESS.

(* ------------------------------------------------------------------ *)
(** ** Data *)

Definition addr := nat.

(** [ngx_rtmp_amf_elt_t].  What [data] points to depends on the type: a
    variable (a region of memory), a context, or an array of elements, whose
    length stands for [len / sizeof(ngx_rtmp_amf_elt_t)]. *)
Inductive ngx_rtmp_amf_elt_t :=
  | Elt (type : Z) (name : list Z) (data : place) (len : Z)
with place :=
  | DNull
  | DMem (a : addr)
  | DCtx (a : addr)
  | DElts (l : list ngx_rtmp_amf_elt_t).

Definition type (e : ngx_rtmp_amf_elt_t) : Z := match e with Elt t _ _ _ => t end.
Definition name (e : ngx_rtmp_amf_elt_t) : list Z := match e with Elt _ n _ _ => n end.
Definition data (e : ngx_rtmp_amf_elt_t) : place := match e with Elt _ _ d _ => d end.
Definition elt_len (e : ngx_rtmp_amf_elt_t) : Z := match e with Elt _ _ _ n => n end.

(** [ngx_rtmp_amf_ctx_t] for reading: the contents of the buffers from [link]
    on, and the offset in the first. *)
Record ngx_rtmp_amf_ctx_t := Ctx {
  link : list (list Z);
  offset : nat
}.

Abbreviation memory := (gmap addr (list Z)).

Record state := State {
  ctx : ngx_rtmp_amf_ctx_t;
  mem : memory;
  saved : gmap addr ngx_rtmp_amf_ctx_t
}.

Definition set_ctx (s : state) (c : ngx_rtmp_amf_ctx_t) : state := State c (mem s) (saved s).
Definition set_mem (s : state) (m : memory) : state := State (ctx s) m (saved s).

(** How a call ends; [NullAccess] is an access through a NULL pointer,
    [Overrun] an access outside of the memory of a variable. *)
Inductive result := Ret (rc : ngx_rc) | NullAccess | Overrun.

(* ------------------------------------------------------------------ *)
(** ** Reading bytes *)

(** The loop of [ngx_rtmp_amf_get]: the result, the bytes copied and the
    context, which is left alone at the end of the data. *)
Fixpoint get_loop (l : list (list Z)) (offset : nat) (n : Z) (acc : list Z)
  : ngx_rc * list Z * option ngx_rtmp_amf_ctx_t :=
  match l with
  | [] => (NGX_DONE, acc, None)
  | b :: l' =>
      let d := drop offset b in
      if n <=? Z.of_nat (length d)
      then (NGX_OK, acc ++ take (Z.to_nat n) d, Some (Ctx l (offset + Z.to_nat n)))
      else get_loop l' 0 (n - Z.of_nat (length d)) (acc ++ d)
  end.

Definition ngx_rtmp_amf_get (s : state) (n : Z) : ngx_rc * list Z * state :=
  if n =? 0 then (NGX_OK, [], s)
  else
    match get_loop (link (ctx s)) (offset (ctx s)) n [] with
    | (rc, d, Some c) => (rc, d, set_ctx s c)
    | (rc, d, None) => (rc, d, s)
    end.

(** Stores bytes in a variable, from the index [i] on; [None] when they are
    outside.  A NULL place is only passed on where the code accepts it. *)
Definition store_mem (m : memory) (p : place) (i : nat) (d : list Z) : option memory :=
  match p with
  | DNull => Some m
  | DMem a =>
      old ← m !! a;
      if (i + length d <=? length old)%nat then Some (<[a := splice i d old]> m) else None
  | _ => match d with [] => Some m | _ => None end
  end.

Definition store (s : state) (p : place) (i : nat) (d : list Z) : option state :=
  m ← store_mem (mem s) p i d; Some (set_mem s m).

(** [ngx_rtmp_amf_get(ctx, data, n)] into a variable. *)
Definition get_to (s : state) (p : place) (n : Z) : option (ngx_rc * state) :=
  let '(rc, d, s) := ngx_rtmp_amf_get s n in
  s ← store s p 0 d; Some (rc, s).

(** [ngx_rtmp_amf_get] into [buf] and [ngx_rtmp_amf_reverse_copy] to [data]. *)
Definition get_number (s : state) (p : place) (n : Z) : result * state :=
  match ngx_rtmp_amf_get s n with
  | (NGX_OK, d, s) => match store s p 0 (reverse d) with
                      | Some s => (Ret NGX_OK, s)
                      | None => (Overrun, s)
                      end
  | (_, _, s) => (Ret NGX_ERROR, s)
  end.

Definition get_byte (s : state) (p : place) : result * state :=
  match get_to s p 1 with
  | Some (NGX_OK, s) => (Ret NGX_OK, s)
  | Some (_, s) => (Ret NGX_ERROR, s)
  | None => (Overrun, s)
  end.

(** The case NGX_RTMP_AMF_STRING behind the length, for a [data] that is not
    NULL.  With an [elts->len] of 0 the first read would be of 2^64 - 1 bytes. *)
Definition get_chars (s : state) (p : place) (elen len : Z) : result * state :=
  if elen <=? len then
    if elen <=? 0 then (Overrun, s)
    else
      match get_to s p (elen - 1) with
      | Some (NGX_OK, s) =>
          match store s p (Z.to_nat (elen - 1)) [0] with
          | Some s => match ngx_rtmp_amf_get s (len - elen + 1) with
                      | (NGX_OK, _, s) => (Ret NGX_OK, s)
                      | (_, _, s) => (Ret NGX_ERROR, s)
                      end
          | None => (Overrun, s)
          end
      | Some (_, s) => (Ret NGX_ERROR, s)
      | None => (Overrun, s)
      end
  else
    match get_to s p len with
    | Some (rc, s) =>
        match store s p (Z.to_nat len) [0] with
        | Some s => (Ret (if decide (rc = NGX_OK) then NGX_OK else NGX_ERROR), s)
        | None => (Overrun, s)
        end
    | None => (Overrun, s)
    end.

Definition get_string (s : state) (p : place) (elen : Z) : result * state :=
  match ngx_rtmp_amf_get s 2 with
  | (NGX_OK, buf, s) =>
      let len := be_val buf in
      match p with
      | DNull => match ngx_rtmp_amf_get s len with
                 | (NGX_OK, _, s) => (Ret NGX_OK, s)
                 | (_, _, s) => (Ret NGX_ERROR, s)
                 end
      | _ => get_chars s p elen len
      end
  | (_, _, s) => (Ret NGX_ERROR, s)
  end.

(* ------------------------------------------------------------------ *)
(** ** Reading values *)

Definition ngx_rtmp_amf_is_compatible_type (t1 t2 : Z) : bool :=
  (t1 =? t2) || ((t1 =? NGX_RTMP_AMF_OBJECT) && (t2 =? NGX_RTMP_AMF_MIXED_ARRAY))
  || ((t2 =? NGX_RTMP_AMF_OBJECT) && (t1 =? NGX_RTMP_AMF_MIXED_ARRAY)).

Definition has (t flag : Z) : bool := negb (Z.land t flag =? 0).

(** The type of the next value and the place for it; a NULL [elts] is [None].
    The left result is an early return. *)
Definition read_type (e : option ngx_rtmp_amf_elt_t) (s : state)
  : (result * state) + (Z * place * state) :=
  match e with
  | Some e' =>
      if has (type e') NGX_RTMP_AMF_TYPELESS
      then inr (Z.land (type e') (Z.lnot NGX_RTMP_AMF_TYPELESS), data e', s)
      else
        match ngx_rtmp_amf_get s 1 with
        | (NGX_OK, d, s) =>
            let t := be_val d in
            let p := if ngx_rtmp_amf_is_compatible_type (Z.land (type e') 0xff) t
                     then data e' else DNull in
            if has (type e') NGX_RTMP_AMF_CONTEXT then
              match p with
              | DNull => inr (t, DNull, s)
              | DCtx a => inr (t, DNull, State (ctx s) (mem s) (<[a := ctx s]> (saved s)))
              | _ => inl (Overrun, s)
              end
            else inr (t, p, s)
        | (_, _, s) => inl (Ret (if has (type e') NGX_RTMP_AMF_OPTIONAL then NGX_OK
                                 else NGX_ERROR), s)
        end
  | None =>
      match ngx_rtmp_amf_get s 1 with
      | (NGX_OK, d, s) => inr (be_val d, DNull, s)
      | (_, _, s) => inl (NullAccess, s)
      end
  end.

(** The values that are no containers. *)
Definition read_leaf (t : Z) (e : option ngx_rtmp_amf_elt_t) (p : place) (s : state)
  : result * state :=
  if t =? NGX_RTMP_AMF_NUMBER then get_number s p 8
  else if t =? NGX_RTMP_AMF_BOOLEAN then get_byte s p
  else if t =? NGX_RTMP_AMF_STRING then
    get_string s p (match e with Some e => elt_len e | None => 0 end)
  else if (t =? NGX_RTMP_AMF_NULL) || (t =? NGX_RTMP_AMF_ARRAY_NULL) then (Ret NGX_OK, s)
  else if t =? NGX_RTMP_AMF_INT8 then get_byte s p
  else if t =? NGX_RTMP_AMF_INT16 then get_number s p 2
  else if t =? NGX_RTMP_AMF_INT32 then get_number s p 4
  else if t =? NGX_RTMP_AMF_END then (Ret NGX_OK, s)
  else (Ret NGX_ERROR, s).

(** The array [data] points to; [None] when it is a variable. *)
Definition elts_of (p : place) : option (list ngx_rtmp_amf_elt_t) :=
  match p with
  | DNull => Some []
  | DElts l => Some l
  | _ => None
  end.

(** [ngx_strncmp(a, b, n) == 0]. *)
Fixpoint strncmp_eq (n : nat) (a b : list Z) : bool :=
  match n, a, b with
  | S n, x :: a, y :: b => (x =? y) && ((x =? 0) || strncmp_eq n a b)
  | _, _, _ => true
  end.

Definition find_elt (elts : list ngx_rtmp_amf_elt_t) (len : Z) (key : list Z)
  : option ngx_rtmp_amf_elt_t :=
  List.find (fun e => (len =? Z.of_nat (length (name e))) && strncmp_eq (Z.to_nat len) key (name e))
    elts.

Definition max_name (elts : list ngx_rtmp_amf_elt_t) : Z :=
  foldr (fun e n => Z.max (Z.of_nat (length (name e))) n) 0 elts.

(** The key of a property, cut to the longest name of the elements. *)
Definition get_key (s : state) (len maxlen : Z) : ngx_rc * list Z * state :=
  if len <=? maxlen then ngx_rtmp_amf_get s len
  else
    match ngx_rtmp_amf_get s maxlen with
    | (NGX_OK, key, s) =>
        let '(rc, _, s) := ngx_rtmp_amf_get s (len - maxlen) in (rc, key, s)
    | (_, key, s) => (NGX_ERROR, key, s)
    end.

(** The element of [ngx_rtmp_amf_read_variant]. *)
Definition pick (t : Z) (r e : ngx_rtmp_amf_elt_t) : ngx_rtmp_amf_elt_t :=
  if t =? type e then Elt (type r) [] (data e) (elt_len e) else r.
Definition variant_elt (elts : list ngx_rtmp_amf_elt_t) (t : Z) : ngx_rtmp_amf_elt_t :=
  foldl (pick t) (Elt (Z.lor t NGX_RTMP_AMF_TYPELESS) [] DNull 0) elts.

(** The functions call each other: [rd] is [ngx_rtmp_amf_read], [again] the
    next pass of the loop. *)
Section Bodies.
Context (rd : state -> list (option ngx_rtmp_amf_elt_t) -> option (result * state)).

(** One pass of the loop of [ngx_rtmp_amf_read_object]. *)
Definition ngx_rtmp_amf_read_object
    (again : state -> list ngx_rtmp_amf_elt_t -> option (result * state))
    (s : state) (elts : list ngx_rtmp_amf_elt_t) : option (result * state) :=
  match ngx_rtmp_amf_get s 2 with
  | (NGX_OK, buf, s) =>
      let len := be_val buf in
      if len =? 0 then
        match ngx_rtmp_amf_get s 1 with
        | (NGX_OK, d, s) =>
            Some (Ret (if be_val d =? NGX_RTMP_AMF_END then NGX_OK else NGX_ERROR), s)
        | (_, _, s) => Some (Ret NGX_ERROR, s)
        end
      else
        match get_key s len (max_name elts) with
        | (NGX_OK, key, s) =>
            r ← rd s [find_elt elts len key];
            match r with
            | (Ret NGX_OK, s) => again s elts
            | (Ret _, s) => Some (Ret NGX_ERROR, s)
            | r => Some r
            end
        | (_, _, s) => Some (Ret NGX_ERROR, s)
        end
  | (_, _, s) => Some (Ret NGX_OK, s)
  end.

(** One pass of the loop of [ngx_rtmp_amf_read_array]: [n] more values. *)
Definition ngx_rtmp_amf_read_array
    (again : state -> list ngx_rtmp_amf_elt_t -> Z -> option (result * state))
    (s : state) (elts : list ngx_rtmp_amf_elt_t) (n : Z) : option (result * state) :=
  if n <=? 0 then Some (Ret NGX_OK, s)
  else
    r ← rd s [head elts];
    match r with
    | (Ret NGX_OK, s) => again s (tail elts) (n - 1)
    | (Ret _, s) => Some (Ret NGX_ERROR, s)
    | r => Some r
    end.

Definition ngx_rtmp_amf_read_variant (s : state) (elts : list ngx_rtmp_amf_elt_t)
  : option (result * state) :=
  match ngx_rtmp_amf_get s 1 with
  | (NGX_OK, d, s) => rd s [Some (variant_elt elts (be_val d))]
  | (rc, _, s) => Some (Ret rc, s)
  end.

End Bodies.

(** [None] when the fuel ends. *)
Fixpoint ngx_rtmp_amf_read (fuel : nat) (s : state) (es : list (option ngx_rtmp_amf_elt_t))
  : option (result * state) :=
  match es, fuel with
  | [], _ => Some (Ret NGX_OK, s)
  | _, O => None
  | e :: es, S fuel =>
      match read_type e s with
      | inl r => Some r
      | inr (t, p, s) =>
          let container (k : list ngx_rtmp_amf_elt_t -> option (result * state)) :=
            match elts_of p with Some l => k l | None => Some (Overrun, s) end in
          r ← (if t =? NGX_RTMP_AMF_MIXED_ARRAY then
                 match ngx_rtmp_amf_get s 4 with
                 | (NGX_OK, _, s) => container (read_object fuel s)
                 | (_, _, s) => Some (Ret NGX_ERROR, s)
                 end
               else if t =? NGX_RTMP_AMF_OBJECT then container (read_object fuel s)
               else if t =? NGX_RTMP_AMF_ARRAY then container (fun l =>
                 match ngx_rtmp_amf_get s 4 with
                 | (NGX_OK, buf, s) => read_items fuel s l (be_val buf)
                 | (_, _, s) => Some (Ret NGX_ERROR, s)
                 end)
               else if t =? NGX_RTMP_AMF_VARIANT_ then container (read_variant fuel s)
               else Some (read_leaf t e p s));
          match r with
          | (Ret NGX_OK, s) =>
              if t =? NGX_RTMP_AMF_END then Some (Ret NGX_OK, s) else ngx_rtmp_amf_read fuel s es
          | (Ret _, s) => Some (Ret NGX_ERROR, s)
          | r => Some r
          end
      end
  end
with read_object (fuel : nat) (s : state) (elts : list ngx_rtmp_amf_elt_t)
  : option (result * state) :=
  match fuel with
  | O => None
  | S fuel => ngx_rtmp_amf_read_object (ngx_rtmp_amf_read fuel) (read_object fuel) s elts
  end
with read_items (fuel : nat) (s : state) (elts : list ngx_rtmp_amf_elt_t) (n : Z)
  : option (result * state) :=
  match fuel with
  | O => None
  | S fuel => ngx_rtmp_amf_read_array (ngx_rtmp_amf_read fuel) (read_items fuel) s elts n
  end
with read_variant (fuel : nat) (s : state) (elts : list ngx_rtmp_amf_elt_t)
  : option (result * state) :=
  match fuel with
  | O => None
  | S fuel => ngx_rtmp_amf_read_variant (ngx_rtmp_amf_read fuel) s elts
  end.

(* ------------------------------------------------------------------ *)
(** ** The bytes of a context *)

Definition rest (c : ngx_rtmp_amf_ctx_t) : list Z := drop (offset c) (concat (link c)).

(** The offset is in the first buffer. *)
Definition ctx_ok (c : ngx_rtmp_amf_ctx_t) : Prop :=
  match link c with
  | [] => offset c = 0%nat
  | b :: _ => (offset c <= length b)%nat
  end.

Lemma get_loop_spec : forall l offset n acc,
  0 <= n -> ctx_ok (Ctx l offset) ->
  let r := drop offset (concat l) in
  if n <=? Z.of_nat (length r) then
    (l = [] /\ n = 0) \/
    exists c, get_loop l offset n acc = (NGX_OK, acc ++ take (Z.to_nat n) r, Some c) /\
      ctx_ok c /\ rest c = drop (Z.to_nat n) r
  else get_loop l offset n acc = (NGX_DONE, acc ++ r, None).
Proof.
  induction l as [|b l IH]; intros off n acc Hn Hok; cbn [concat get_loop].
  - rewrite drop_nil. cbn [length]. case_if; [left; split; [done|lia]|]. now rewrite app_nil_r.
  - cbn in Hok. rewrite drop_app_le by done. cbv zeta.
    rewrite length_app. destruct (n <=? Z.of_nat (length (drop off b))) eqn:E; bool_to_prop.
    + case_if; [|lia]. right. eexists. split; [rewrite take_app_le by lia; reflexivity|].
      rewrite length_drop in E. split.
      * cbn. lia.
      * unfold rest. cbn [offset link concat]. rewrite drop_app_le by lia.
        rewrite drop_app_le by (rewrite length_drop; lia). now rewrite drop_drop.
    + specialize (IH 0%nat (n - Z.of_nat (length (drop off b))) (acc ++ drop off b) ltac:(lia)).
      rewrite drop_0 in IH. cbv zeta in IH.
      assert (ctx_ok (Ctx l 0)) as Hok0 by (destruct l; cbn; lia). specialize (IH Hok0).
      destruct (n <=? _) eqn:E2 at 1; bool_to_prop.
      * destruct (n - _ <=? _) eqn:E3 in IH; bool_to_prop; [|lia].
        destruct IH as [[-> Hz]|(c & -> & Hc & Hr)].
        { cbn in E2. lia. }
        right. exists c. rewrite take_app_ge, drop_app_ge, <- app_assoc by lia.
        replace (Z.to_nat n - length (drop off b))%nat with
          (Z.to_nat (n - Z.of_nat (length (drop off b)))) by lia. done.
      * destruct (n - _ <=? _) eqn:E3 in IH; bool_to_prop; [lia|].
        rewrite IH, <- app_assoc. done.
Qed.

(** [ngx_rtmp_amf_get] cuts [n] bytes off, or leaves the context alone. *)
Lemma get_spec s n :
  0 <= n -> ctx_ok (ctx s) ->
  if n <=? Z.of_nat (length (rest (ctx s))) then
    exists c, ngx_rtmp_amf_get s n = (NGX_OK, take (Z.to_nat n) (rest (ctx s)), set_ctx s c) /\
      ctx_ok c /\ rest c = drop (Z.to_nat n) (rest (ctx s))
  else ngx_rtmp_amf_get s n = (NGX_DONE, rest (ctx s), s).
Proof.
  intros Hn Hok. unfold ngx_rtmp_amf_get. destruct (n =? 0) eqn:E0; bool_to_prop.
  - subst n. case_if; [|lia]. exists (ctx s). now destruct s.
  - pose proof (get_loop_spec (link (ctx s)) (offset (ctx s)) n [] Hn) as H.
    assert (Ctx (link (ctx s)) (offset (ctx s)) = ctx s) as Ec by now destruct (ctx s).
    rewrite Ec in H. specialize (H Hok). cbv zeta in H. fold (rest (ctx s)) in H.
    destruct (n <=? _).
    + destruct H as [[_ ?]|(c & -> & Hc & Hr)]; [lia|]. exists c. auto.
    + now rewrite H.
Qed.

(** The bytes [d] at the front. *)
Lemma get_front s d r n :
  ctx_ok (ctx s) -> rest (ctx s) = d ++ r -> n = Z.of_nat (length d) ->
  exists c, ngx_rtmp_amf_get s n = (NGX_OK, d, set_ctx s c) /\ ctx_ok c /\ rest c = r.
Proof.
  intros Hok Hr ->. pose proof (get_spec s (Z.of_nat (length d)) ltac:(lia) Hok) as H.
  rewrite Hr, length_app in H. destruct (_ <=? _) eqn:E in H; bool_to_prop; [|lia].
  destruct H as (c & H & Hc & Hr'). rewrite Nat2Z.id, take_app_length in H.
  rewrite Nat2Z.id, drop_app_length in Hr'. eauto.
Qed.

(* ------------------------------------------------------------------ *)
(** ** Values and what they mean to the caller *)

(** AMF values; a number is given by its eight bytes, a mixed array also by the
    four bytes of its length, which the code ignores. *)
#[local] Unset Elimination Schemes.
Inductive val :=
  | VNum (d : list Z)
  | VBool (b : Z)
  | VStr (l : list Z)
  | VNull
  | VArrNull
  | VObj (kvs : list (list Z * val))
  | VMix (idx : list Z) (kvs : list (list Z * val))
  | VArr (l : list val).
#[local] Set Elimination Schemes.

Definition vtype (v : val) : Z :=
  match v with
  | VNum _ => NGX_RTMP_AMF_NUMBER
  | VBool _ => NGX_RTMP_AMF_BOOLEAN
  | VStr _ => NGX_RTMP_AMF_STRING
  | VNull => NGX_RTMP_AMF_NULL
  | VArrNull => NGX_RTMP_AMF_ARRAY_NULL
  | VObj _ => NGX_RTMP_AMF_OBJECT
  | VMix _ _ => NGX_RTMP_AMF_MIXED_ARRAY
  | VArr _ => NGX_RTMP_AMF_ARRAY
  end.

Definition short (l : list Z) : list Z := be_bytes 2 (Z.of_nat (length l)) ++ l.

Fixpoint encode (v : val) : list Z :=
  let props := fix props (kvs : list (list Z * val)) : list Z :=
    match kvs with
    | [] => [0; 0; NGX_RTMP_AMF_END]
    | (k, w) :: kvs => short k ++ encode w ++ props kvs
    end in
  vtype v ::
  match v with
  | VNum d => d
  | VBool b => [b]
  | VStr l => short l
  | VNull | VArrNull => []
  | VObj kvs => props kvs
  | VMix idx kvs => idx ++ props kvs
  | VArr l => be_bytes 4 (Z.of_nat (length l)) ++ concat (map encode l)
  end.

Fixpoint encode_props (kvs : list (list Z * val)) : list Z :=
  match kvs with
  | [] => [0; 0; NGX_RTMP_AMF_END]
  | (k, w) :: kvs => short k ++ encode w ++ encode_props kvs
  end.

(** Values the encoding can express. *)
Fixpoint val_ok (v : val) : Prop :=
  let props := fix props (kvs : list (list Z * val)) : Prop :=
    match kvs with
    | [] => True
    | (k, w) :: kvs => (0 < length k)%nat /\ Z.of_nat (length k) < 2 ^ 16 /\ val_ok w /\ props kvs
    end in
  match v with
  | VNum d => length d = 8%nat
  | VBool b => True
  | VStr l => Z.of_nat (length l) < 2 ^ 16
  | VNull | VArrNull => True
  | VObj kvs => props kvs
  | VMix idx kvs => length idx = 4%nat /\ props kvs
  | VArr l => Z.of_nat (length l) < 2 ^ 32 /\
      (fix items (l : list val) : Prop :=
         match l with [] => True | w :: l => val_ok w /\ items l end) l
  end.

Fixpoint props_ok (kvs : list (list Z * val)) : Prop :=
  match kvs with
  | [] => True
  | (k, w) :: kvs => (0 < length k)%nat /\ Z.of_nat (length k) < 2 ^ 16 /\ val_ok w /\ props_ok kvs
  end.

Fixpoint items_ok (l : list val) : Prop :=
  match l with [] => True | w :: l => val_ok w /\ items_ok l end.

(** The element of a variant for a value of type [t], the last one of the type. *)
Definition alternative (l : list ngx_rtmp_amf_elt_t) (t : Z) : ngx_rtmp_amf_elt_t :=
  foldl (pick t) (Elt t [] DNull 0) l.

Definition effective (e : option ngx_rtmp_amf_elt_t) (t : Z) : option ngx_rtmp_amf_elt_t :=
  match e with
  | Some (Elt te _ (DElts l) _) =>
      if te =? NGX_RTMP_AMF_VARIANT then Some (alternative l t) else e
  | _ => e
  end.

(** The place of an element for a value of type [t], and the room there. *)
Definition place_for (e : option ngx_rtmp_amf_elt_t) (t : Z) : place :=
  match effective e t with
  | None => DNull
  | Some e => if ngx_rtmp_amf_is_compatible_type (Z.land (type e) 0xff) t then data e else DNull
  end.

Definition len_of (e : option ngx_rtmp_amf_elt_t) : Z :=
  match e with Some e => elt_len e | None => 0 end.
Definition len_for (e : option ngx_rtmp_amf_elt_t) (t : Z) : Z := len_of (effective e t).

(** A string in a buffer of [n] bytes: cut if need be, and terminated. *)
Definition store_string (m : memory) (p : place) (n : Z) (l : list Z) : option memory :=
  match p with
  | DNull => Some m
  | _ =>
      if n <=? 0 then None
      else
        let l := take (Z.to_nat (n - 1)) l in
        m ← store_mem m p 0 l; store_mem m p (length l) [0]
  end.

(** Stores a value where the element wants it: [None] when it does not fit. *)
Fixpoint assign (m : memory) (e : option ngx_rtmp_amf_elt_t) (v : val) {struct v} : option memory :=
  let p := place_for e (vtype v) in
  let props := fix props (elts : list ngx_rtmp_amf_elt_t) (m : memory)
      (kvs : list (list Z * val)) : option memory :=
    match kvs with
    | [] => Some m
    | (k, w) :: kvs => m ← assign m (find_elt elts (Z.of_nat (length k)) k) w; props elts m kvs
    end in
  match v with
  | VNum d => store_mem m p 0 (reverse d)
  | VBool b => store_mem m p 0 [b]
  | VStr l => store_string m p (len_for e (vtype v)) l
  | VNull | VArrNull => Some m
  | VObj kvs | VMix _ kvs => elts ← elts_of p; props elts m kvs
  | VArr l =>
      elts ← elts_of p;
      (fix items (elts : list ngx_rtmp_amf_elt_t) (m : memory) (l : list val) : option memory :=
         match l with
         | [] => Some m
         | w :: l => m ← assign m (head elts) w; items (tail elts) m l
         end) elts m l
  end.

Fixpoint assign_props (elts : list ngx_rtmp_amf_elt_t) (m : memory) (kvs : list (list Z * val))
  : option memory :=
  match kvs with
  | [] => Some m
  | (k, w) :: kvs =>
      m ← assign m (find_elt elts (Z.of_nat (length k)) k) w; assign_props elts m kvs
  end.

Fixpoint assign_items (elts : list ngx_rtmp_amf_elt_t) (m : memory) (l : list val) : option memory :=
  match l with
  | [] => Some m
  | w :: l => m ← assign m (head elts) w; assign_items (tail elts) m l
  end.

(** Stores a value at a place. *)
Definition assign_at (m : memory) (p : place) (n : Z) (v : val) : option memory :=
  match v with
  | VNum d => store_mem m p 0 (reverse d)
  | VBool b => store_mem m p 0 [b]
  | VStr l => store_string m p n l
  | VNull | VArrNull => Some m
  | VObj kvs | VMix _ kvs => elts ← elts_of p; assign_props elts m kvs
  | VArr l => elts ← elts_of p; assign_items elts m l
  end.

Lemma assign_eq m e v : assign m e v = assign_at m (place_for e (vtype v)) (len_for e (vtype v)) v.
Proof. now destruct v. Qed.

Definition is_variant (e : ngx_rtmp_amf_elt_t) : bool :=
  match e with Elt t _ (DElts _) _ => t =? NGX_RTMP_AMF_VARIANT | _ => false end.

(** Variants, and elements without flags for typeless values or contexts. *)
Fixpoint plain (e : ngx_rtmp_amf_elt_t) : Prop :=
  match e with
  | Elt t _ d _ =>
      is_variant e || negb (has t NGX_RTMP_AMF_TYPELESS) && negb (has t NGX_RTMP_AMF_CONTEXT) = true /\
      match d with
      | DElts l => (fix all (l : list ngx_rtmp_amf_elt_t) : Prop :=
                      match l with [] => True | e :: l => plain e /\ all l end) l
      | _ => True
      end
  end.

Definition plain_opt (e : option ngx_rtmp_amf_elt_t) : Prop :=
  match e with Some e => plain e | None => True end.

Lemma plain_elts t n l len : plain (Elt t n (DElts l) len) -> Forall plain l.
Proof.
  cbn. intros (_ & H). induction l as [|e l IH]; [constructor|]. destruct H. constructor; auto.
Qed.

Lemma alternative_type l t : type (alternative l t) = t.
Proof.
  unfold alternative. assert (forall r, type r = t -> type (foldl (pick t) r l) = t) as H; [|now apply H].
  induction l as [|e l IH]; intros r Hr; [done|]. cbn [foldl]. apply IH. unfold pick. now case_if.
Qed.

(** A typeless copy of the alternative. *)
Lemma variant_alternative l t :
  data (variant_elt l t) = data (alternative l t) /\
  elt_len (variant_elt l t) = elt_len (alternative l t) /\
  type (variant_elt l t) = Z.lor t NGX_RTMP_AMF_TYPELESS.
Proof.
  unfold variant_elt, alternative.
  assert (forall r1 r2, data r1 = data r2 -> elt_len r1 = elt_len r2 ->
    data (foldl (pick t) r1 l) = data (foldl (pick t) r2 l) /\
    elt_len (foldl (pick t) r1 l) = elt_len (foldl (pick t) r2 l) /\
    type (foldl (pick t) r1 l) = type r1) as H; [|now apply H].
  induction l as [|e l IH]; intros r1 r2 H1 H2; [done|]. cbn [foldl].
  destruct (IH (pick t r1 e) (pick t r2 e)) as (? & ? & Ht); [unfold pick; now case_if..|].
  split; [done|]. split; [done|]. rewrite Ht. unfold pick. now case_if.
Qed.

Lemma data_plain e l : plain e -> data e = DElts l -> Forall plain l.
Proof. destruct e as [t n d len]. cbn [data]. intros H ->. exact (plain_elts t n l len H). Qed.

Lemma alternative_plain l t l' : Forall plain l -> data (alternative l t) = DElts l' -> Forall plain l'.
Proof.
  intros Hl. unfold alternative.
  assert (forall r, (data r = DNull \/ forall l', data r = DElts l' -> Forall plain l') ->
    data (foldl (pick t) r l) = DElts l' -> Forall plain l') as H; [|apply H; now left].
  induction Hl as [|e l He Hl IH]; intros r Hr; cbn [foldl].
  - intros E. destruct Hr as [Hr|Hr]; [congruence|auto].
  - apply IH. unfold pick. case_if; [|exact Hr]. right. intros l1 E1. exact (data_plain e l1 He E1).
Qed.

Lemma effective_plain e t l : plain_opt e -> forall e', effective e t = Some e' -> data e' = DElts l ->
  Forall plain l.
Proof.
  intros Hp e'. unfold effective. destruct e as [[te n d len]|]; [|done].
  assert (forall l, d = DElts l -> Forall plain l) as Hd by (intros l1 ->; exact (plain_elts te n l1 len Hp)).
  destruct d as [|a|a|l1]; try (intros [= <-]; cbn [data]; intros E; now apply Hd).
  case_if.
  - intros [= <-]. apply alternative_plain. now apply Hd.
  - intros [= <-]. cbn [data]. intros E1. now apply Hd.
Qed.

Lemma plain_place e t l : plain_opt e -> elts_of (place_for e t) = Some l -> Forall plain l.
Proof.
  intros Hp. unfold place_for. destruct (effective e t) as [e'|] eqn:E; [|intros [= <-]; constructor].
  case_if; [|intros [= <-]; constructor].
  destruct (data e') as [| | |l'] eqn:Ed; intros [= <-]; [constructor|].
  eapply effective_plain; eauto.
Qed.

Lemma plain_find elts n k : Forall plain elts -> plain_opt (find_elt elts n k).
Proof.
  intros H. unfold find_elt. destruct (List.find _ elts) as [e|] eqn:E; [|done].
  apply List.find_some in E as [E _]. rewrite Forall_forall in H. apply H. now apply list_elem_of_In.
Qed.

Lemma plain_head elts : Forall plain elts -> plain_opt (head elts) /\ Forall plain (tail elts).
Proof. intros []; cbn; [split; [done|constructor]|auto]. Qed.

(* ------------------------------------------------------------------ *)
(** ** Reading an encoded value *)

Lemma encode_obj kvs : encode (VObj kvs) = NGX_RTMP_AMF_OBJECT :: encode_props kvs.
Proof. reflexivity. Qed.
Lemma encode_mix idx kvs : encode (VMix idx kvs) = NGX_RTMP_AMF_MIXED_ARRAY :: idx ++ encode_props kvs.
Proof. reflexivity. Qed.
Lemma assign_obj m e kvs :
  assign m e (VObj kvs) = (elts ← elts_of (place_for e NGX_RTMP_AMF_OBJECT); assign_props elts m kvs).
Proof. reflexivity. Qed.
Lemma assign_mix m e idx kvs :
  assign m e (VMix idx kvs) =
    (elts ← elts_of (place_for e NGX_RTMP_AMF_MIXED_ARRAY); assign_props elts m kvs).
Proof. reflexivity. Qed.
Lemma assign_arr m e l :
  assign m e (VArr l) = (elts ← elts_of (place_for e NGX_RTMP_AMF_ARRAY); assign_items elts m l).
Proof. reflexivity. Qed.

(** What reading a value does to the state [s]: its bytes are consumed and the
    memory is as [o] says, or there is an overrun. *)
Definition reads (s : state) (r : option (result * state)) (o : option memory) (rem : list Z)
    (k : state -> option (result * state)) : Prop :=
  match o with
  | Some m => exists c, r = k (State c m (saved s)) /\ ctx_ok c /\ rest c = rem
  | None => exists s', r = Some (Overrun, s')
  end.

(** The type byte. *)
Lemma read_type_spec s e t r :
  plain_opt e -> match e with Some e => is_variant e | None => false end = false ->
  ctx_ok (ctx s) -> rest (ctx s) = t :: r ->
  exists c, read_type e s = inr (t, place_for e t, set_ctx s c) /\ len_for e t = len_of e /\
    ctx_ok c /\ rest c = r.
Proof.
  intros Hp Hv Hok Hr. destruct (get_front s [t] r 1 Hok Hr eq_refl) as (c & E & Hc & Hr').
  exists c. assert (effective e t = e) as He.
  { destruct e as [[te n d len]|]; [|done]. cbn in Hv |- *. destruct d; try done. now rewrite Hv. }
  unfold len_for, place_for. rewrite He. split; [|done]. unfold read_type. destruct e as [[te n d len]|].
  - cbn [plain_opt plain] in Hp. rewrite Hv in Hp. destruct Hp as [[H1%negb_true_iff H2%negb_true_iff]%andb_true_iff _].
    cbn [type]. rewrite H1, E, H2.
    cbn [be_val foldl data type]. rewrite Z.mul_0_l, Z.add_0_l. done.
  - rewrite E. cbn [be_val foldl]. now rewrite Z.mul_0_l, Z.add_0_l.
Qed.

(** The same for a value that is no container. *)
Definition leaf (s : state) (x : result * state) (o : option memory) (rem : list Z) : Prop :=
  match o with
  | Some m => exists c, x = (Ret NGX_OK, State c m (saved s)) /\ ctx_ok c /\ rest c = rem
  | None => exists s', x = (Overrun, s')
  end.

Lemma get_number_spec s p d r n :
  ctx_ok (ctx s) -> rest (ctx s) = d ++ r -> n = Z.of_nat (length d) ->
  leaf s (get_number s p n) (store_mem (mem s) p 0 (reverse d)) r.
Proof.
  intros Hok Hr Hn. destruct (get_front s d r n Hok Hr Hn) as (c & E & Hc & Hr').
  unfold get_number, leaf, store. rewrite E. cbn [set_ctx mem].
  destruct (store_mem _ p 0 (reverse d)); cbn; eauto.
Qed.

Lemma get_byte_spec s p b r :
  ctx_ok (ctx s) -> rest (ctx s) = b :: r -> leaf s (get_byte s p) (store_mem (mem s) p 0 [b]) r.
Proof.
  intros Hok Hr. destruct (get_front s [b] r 1 Hok Hr eq_refl) as (c & E & Hc & Hr').
  unfold get_byte, get_to, leaf, store. rewrite E. cbn [set_ctx mem].
  destruct (store_mem _ p 0 [b]); cbn; eauto.
Qed.

Lemma short_len (l : list Z) :
  Z.of_nat (length l) < 2 ^ 16 -> be_val (be_bytes 2 (Z.of_nat (length l))) = Z.of_nat (length l).
Proof. intros H. rewrite be_val_be_bytes. apply Z.mod_small. lia. Qed.

Lemma store_string_place m p n (l : list Z) :
  p <> DNull ->
  store_string m p n l =
    if n <=? 0 then None
    else
      let l := take (Z.to_nat (n - 1)) l in
      m1 ← store_mem m p 0 l; store_mem m1 p (length l) [0].
Proof. now destruct p. Qed.

Lemma get_chars_spec s p n (l : list Z) r :
  p <> DNull -> ctx_ok (ctx s) -> rest (ctx s) = l ++ r ->
  leaf s (get_chars s p n (Z.of_nat (length l))) (store_string (mem s) p n l) r.
Proof.
  intros Hp Hok Hr. rewrite store_string_place by done. unfold get_chars, get_to, store. cbv zeta.
  destruct (n <=? Z.of_nat (length l)) eqn:En; bool_to_prop.
  - case_if; [eexists; reflexivity|].
    rewrite <- (take_drop (Z.to_nat (n - 1)) l), <- app_assoc in Hr.
    destruct (get_front s _ _ (n - 1) Hok Hr) as (c & -> & Hc & Hr1); [len|].
    assert (length (take (Z.to_nat (n - 1)) l) = Z.to_nat (n - 1)) as -> by len.
    cbn [set_ctx mem]. destruct (store_mem _ p 0 _) as [m1|]; [|cbn; eauto].
    rewrite !some_bind. cbn [set_mem mem].
    destruct (store_mem m1 p (Z.to_nat (n - 1)) [0]) as [m2|]; [|cbn; eauto]. rewrite some_bind.
    destruct (get_front (State c m2 (saved s)) _ _ (Z.of_nat (length l) - n + 1) Hc Hr1)
      as (c2 & E2 & Hc2 & Hr2); [len|]. change (set_mem (set_mem (set_ctx s c) m1) m2) with (State c m2 (saved s)).
    rewrite E2. exists c2. auto.
  - rewrite take_ge by lia. case_if; [lia|].
    destruct (get_front s l r _ Hok Hr eq_refl) as (c & -> & Hc & Hr1). rewrite Nat2Z.id.
    cbn [set_ctx mem]. destruct (store_mem _ p 0 l) as [m1|]; [|cbn; eauto].
    rewrite !some_bind. cbn [set_mem mem].
    destruct (store_mem m1 p (length l) [0]) as [m2|]; [|cbn; eauto]. exists c. auto.
Qed.

Lemma get_string_spec s p n (l : list Z) r :
  Z.of_nat (length l) < 2 ^ 16 -> ctx_ok (ctx s) -> rest (ctx s) = short l ++ r ->
  leaf s (get_string s p n) (store_string (mem s) p n l) r.
Proof.
  intros Hl Hok Hr. unfold short in Hr. rewrite <- app_assoc in Hr.
  destruct (get_front s _ _ 2 Hok Hr) as (c & E & Hc & Hr1); [now rewrite length_be_bytes|].
  unfold get_string. rewrite E, short_len by done. cbv zeta.
  assert (p = DNull \/ p <> DNull) as [-> |Hp] by (destruct p; auto; right; done).
  - destruct (get_front (set_ctx s c) l r _ Hc Hr1 eq_refl) as (c2 & -> & Hc2 & Hr2).
    exists c2. auto.
  - pose proof (get_chars_spec (set_ctx s c) p n l r Hp Hc Hr1) as H. now destruct p.
Qed.

Lemma max_name_bound elts e : e ∈ elts -> Z.of_nat (length (name e)) <= max_name elts.
Proof.
  induction elts as [|e' elts IH]; [now intros H%not_elem_of_nil|].
  unfold max_name in *. cbn [foldr]. intros [-> |H]%elem_of_cons; [lia|]. specialize (IH H). lia.
Qed.

Lemma max_name_nonneg elts : 0 <= max_name elts.
Proof. unfold max_name. induction elts as [|e elts IH]; cbn [foldr]; lia. Qed.

Lemma find_long elts n key : max_name elts < n -> find_elt elts n key = None.
Proof.
  intros H. unfold find_elt. destruct (List.find _ elts) as [e|] eqn:E; [|done].
  apply List.find_some in E as [Hin E]. apply list_elem_of_In, max_name_bound in Hin.
  apply andb_true_iff in E as [E _]. bool_to_prop. lia.
Qed.

(** The key of a property leads to the element with its name. *)
Lemma get_key_spec s elts (k : list Z) r :
  ctx_ok (ctx s) -> rest (ctx s) = k ++ r ->
  let len := Z.of_nat (length k) in
  exists key c, get_key s len (max_name elts) = (NGX_OK, key, set_ctx s c) /\ ctx_ok c /\
    rest c = r /\ find_elt elts len key = find_elt elts len k.
Proof.
  intros Hok Hr len. unfold get_key. pose proof (max_name_nonneg elts) as Hm. case_if.
  - destruct (get_front s k r len Hok Hr eq_refl) as (c & -> & Hc & Hr'). eauto 10.
  - rewrite <- (take_drop (Z.to_nat (max_name elts)) k), <- app_assoc in Hr.
    destruct (get_front s _ _ (max_name elts) Hok Hr) as (c & -> & Hc & Hr1); [len|].
    destruct (get_front (set_ctx s c) _ _ (len - max_name elts) Hc Hr1) as (c2 & -> & Hc2 & Hr2); [len|].
    do 2 eexists. split; [reflexivity|]. split; [done|]. split; [done|].
    now rewrite !find_long.
Qed.

Lemma read_leaf_spec t e p s v r :
  (v = VNull \/ v = VArrNull \/ (exists d, v = VNum d) \/ (exists b, v = VBool b) \/
   exists l, v = VStr l) ->
  val_ok v -> ctx_ok (ctx s) -> rest (ctx s) = tail (encode v) ++ r -> t = vtype v ->
  leaf s (read_leaf t e p s) (assign_at (mem s) p (len_of e) v) r.
Proof.
  intros Hv Hok Hc Hr ->.
  destruct Hv as [-> |[-> |[[d ->]|[[b ->]|[l ->]]]]]; cbn in Hr; cbn [read_leaf vtype assign_at].
  - exists (ctx s). now destruct s.
  - exists (ctx s). now destruct s.
  - apply get_number_spec; auto. cbn in Hok. now rewrite Hok.
  - now apply get_byte_spec.
  - now apply get_string_spec.
Qed.

Definition value_spec (fuel : nat) : Prop := forall v s e es r,
  val_ok v -> plain_opt e -> ctx_ok (ctx s) -> rest (ctx s) = encode v ++ r ->
  (4 * length (encode v) <= fuel)%nat ->
  reads s (ngx_rtmp_amf_read fuel s (e :: es)) (assign (mem s) e v) r
    (fun s => ngx_rtmp_amf_read (fuel - 1) s es).

Definition object_spec (fuel : nat) : Prop := forall kvs s elts r,
  props_ok kvs -> Forall plain elts -> ctx_ok (ctx s) -> rest (ctx s) = encode_props kvs ++ r ->
  (4 * length (encode_props kvs) <= fuel)%nat ->
  reads s (read_object fuel s elts) (assign_props elts (mem s) kvs) r
    (fun s => Some (Ret NGX_OK, s)).

Definition items_spec (fuel : nat) : Prop := forall l s elts r,
  items_ok l -> Forall plain elts -> ctx_ok (ctx s) -> rest (ctx s) = concat (map encode l) ++ r ->
  (4 * length (concat (map encode l)) < fuel)%nat ->
  reads s (read_items fuel s elts (Z.of_nat (length l))) (assign_items elts (mem s) l) r
    (fun s => Some (Ret NGX_OK, s)).

Lemma encode_pos v : (1 <= length (encode v))%nat.
Proof. destruct v; cbn; lia. Qed.

Lemma object_step fuel : value_spec fuel -> object_spec fuel -> object_spec (S fuel).
Proof.
  intros Hv Ho [|[k w] kvs] s elts r Hok Hp Hc Hr Hf;
    cbn [read_object encode_props assign_props] in *; unfold ngx_rtmp_amf_read_object.
  - destruct (get_front s [0; 0] (9 :: r) 2 Hc Hr eq_refl) as (c & -> & Hc1 & Hr1). cbn [be_val foldl].
    destruct (get_front (set_ctx s c) [9] r 1 Hc1 Hr1 eq_refl) as (c2 & -> & Hc2 & Hr2).
    exists c2. auto.
  - destruct Hok as (Hk1 & Hk2 & Hw & Hok). unfold short in Hr. rewrite <- !app_assoc in Hr.
    unfold short in Hf. rewrite !length_app, length_be_bytes in Hf.
    destruct (get_front s _ _ 2 Hc Hr) as (c & -> & Hc1 & Hr1); [now rewrite length_be_bytes|].
    rewrite short_len by done. case_if; [lia|].
    destruct (get_key_spec (set_ctx s c) elts k _ Hc1 Hr1) as (key & c2 & -> & Hc2 & Hr2 & ->).
    pose proof (Hv w (State c2 (mem s) (saved s)) (find_elt elts (Z.of_nat (length k)) k) [] _ Hw
      (plain_find _ _ _ Hp) Hc2 Hr2 ltac:(lia)) as H. cbn [mem] in H.
    change (set_ctx (set_ctx s c) c2) with (State c2 (mem s) (saved s)).
    destruct (assign (mem s) _ w) as [m1|].
    + destruct H as (c3 & -> & Hc3 & Hr3). rewrite some_bind.
      assert (forall s', ngx_rtmp_amf_read (fuel - 1) s' [] = Some (Ret NGX_OK, s')) as ->
        by now destruct (fuel - 1)%nat.
      rewrite some_bind. exact (Ho kvs (State c3 m1 (saved s)) elts r Hok Hp Hc3 Hr3 ltac:(lia)).
    + destruct H as (s' & ->). rewrite !some_bind. now exists s'.
Qed.

Lemma items_step fuel : value_spec fuel -> items_spec fuel -> items_spec (S fuel).
Proof.
  intros Hv Hi [|w l] s elts r Hok Hp Hc Hr Hf; cbn [read_items map concat assign_items length] in *;
    unfold ngx_rtmp_amf_read_array.
  - exists (ctx s). destruct s. auto.
  - destruct Hok as [Hw Hok]. destruct (plain_head elts Hp) as [Hp1 Hp2].
    rewrite <- app_assoc in Hr. rewrite length_app in Hf. pose proof (encode_pos w) as Hpos.
    case_if; [lia|].
    pose proof (Hv w s (head elts) [] _ Hw Hp1 Hc Hr ltac:(lia)) as H.
    destruct (assign (mem s) _ w) as [m1|].
    + destruct H as (c3 & -> & Hc3 & Hr3). rewrite some_bind.
      assert (forall s', ngx_rtmp_amf_read (fuel - 1) s' [] = Some (Ret NGX_OK, s')) as ->
        by now destruct (fuel - 1)%nat.
      rewrite some_bind. replace (Z.of_nat (S (length l)) - 1) with (Z.of_nat (length l)) by lia.
      exact (Hi l (State c3 m1 (saved s)) (tail elts) r Hok Hp2 Hc3 Hr3 ltac:(lia)).
    + destruct H as (s' & ->). rewrite !some_bind. now exists s'.
Qed.

(** How a pass of [ngx_rtmp_amf_read] goes on behind a value. *)
Lemma value_cont s s0 t x o r fuel es :
  t <> NGX_RTMP_AMF_END -> saved s0 = saved s ->
  reads s0 x o r (fun s => Some (Ret NGX_OK, s)) ->
  reads s
    (r ← x;
     match r with
     | (Ret NGX_OK, s) =>
         if t =? NGX_RTMP_AMF_END then Some (Ret NGX_OK, s) else ngx_rtmp_amf_read fuel s es
     | (Ret _, s) => Some (Ret NGX_ERROR, s)
     | r => Some r
     end) o r (fun s => ngx_rtmp_amf_read (S fuel - 1) s es).
Proof.
  intros Ht Hs H. unfold reads in *. rewrite Nat.sub_succ, Nat.sub_0_r. destruct o as [m|].
  - destruct H as (c & -> & Hc & Hr). rewrite some_bind. case_if; [done|]. rewrite Hs. eauto.
  - destruct H as (s' & ->). rewrite some_bind. eauto.
Qed.

Lemma leaf_reads s x o r : leaf s x o r -> reads s (Some x) o r (fun s => Some (Ret NGX_OK, s)).
Proof.
  unfold leaf, reads. destruct o; [intros (c & -> & H); eauto|intros (s' & ->); eauto].
Qed.

(** A value behind its type byte. *)
Definition value_body (fuel : nat) (t : Z) (e : option ngx_rtmp_amf_elt_t) (p : place) (s : state)
  : option (result * state) :=
  let container (k : list ngx_rtmp_amf_elt_t -> option (result * state)) :=
    match elts_of p with Some l => k l | None => Some (Overrun, s) end in
  if t =? NGX_RTMP_AMF_MIXED_ARRAY then
    match ngx_rtmp_amf_get s 4 with
    | (NGX_OK, _, s) => container (read_object fuel s)
    | (_, _, s) => Some (Ret NGX_ERROR, s)
    end
  else if t =? NGX_RTMP_AMF_OBJECT then container (read_object fuel s)
  else if t =? NGX_RTMP_AMF_ARRAY then container (fun l =>
    match ngx_rtmp_amf_get s 4 with
    | (NGX_OK, buf, s) => read_items fuel s l (be_val buf)
    | (_, _, s) => Some (Ret NGX_ERROR, s)
    end)
  else if t =? NGX_RTMP_AMF_VARIANT_ then container (read_variant fuel s)
  else Some (read_leaf t e p s).

Lemma body_reads fuel v e p s b r : object_spec fuel -> items_spec fuel ->
  val_ok v -> encode v = vtype v :: b -> ctx_ok (ctx s) -> rest (ctx s) = b ++ r ->
  (4 * length b <= fuel)%nat ->
  (forall l, elts_of p = Some l -> Forall plain l) ->
  reads s (value_body fuel (vtype v) e p s) (assign_at (mem s) p (len_of e) v) r
    (fun s => Some (Ret NGX_OK, s)).
Proof.
  intros Ho Hi Hok Eb Hc Hr Hf Hpl. destruct v as [d|d|l| | |kvs|idx kvs|l].
  1-5: apply leaf_reads, read_leaf_spec; eauto 10; rewrite Eb; exact Hr.
  - rewrite encode_obj in Eb. injection Eb as <-. cbn [assign_at]. unfold value_body. cbn [vtype].
    change (NGX_RTMP_AMF_OBJECT =? NGX_RTMP_AMF_MIXED_ARRAY) with false. cbn match.
    rewrite Z.eqb_refl. destruct (elts_of _) as [elts|] eqn:El; [|cbn; eauto]. rewrite some_bind.
    apply (Ho kvs s elts r); auto.
  - rewrite encode_mix in Eb. injection Eb as <-. cbn [assign_at]. unfold value_body. cbn [vtype].
    destruct Hok as [H4 Hok]. rewrite <- app_assoc in Hr. rewrite length_app in Hf.
    rewrite Z.eqb_refl.
    destruct (get_front s idx _ 4 Hc Hr) as (c2 & -> & Hc2 & Hr2); [now rewrite H4|].
    destruct (elts_of _) as [elts|] eqn:El; [|cbn; eauto]. rewrite some_bind.
    apply (Ho kvs (State c2 (mem s) (saved s)) elts r); auto. lia.
  - destruct Hok as [Hl Hok]. cbn [assign_at]. unfold value_body. cbn [vtype].
    assert (b = be_bytes 4 (Z.of_nat (length l)) ++ concat (map encode l)) as ->
      by (symmetry; injection Eb as Eb; exact Eb).
    rewrite <- app_assoc in Hr. rewrite length_app, length_be_bytes in Hf.
    change (NGX_RTMP_AMF_ARRAY =? NGX_RTMP_AMF_MIXED_ARRAY) with false.
    change (NGX_RTMP_AMF_ARRAY =? NGX_RTMP_AMF_OBJECT) with false. cbn match. rewrite Z.eqb_refl.
    destruct (elts_of _) as [elts|] eqn:El; [|cbn; eauto]. rewrite some_bind.
    destruct (get_front s _ _ 4 Hc Hr) as (c2 & -> & Hc2 & Hr2); [now rewrite length_be_bytes|].
    rewrite be_val_be_bytes, Z.mod_small by lia.
    apply (Hi l (State c2 (mem s) (saved s)) elts r); auto. lia.
Qed.

Lemma read_unfold fuel s e es : ngx_rtmp_amf_read (S fuel) s (e :: es) =
  match read_type e s with
  | inl r => Some r
  | inr (t, p, s) =>
      r ← value_body fuel t e p s;
      match r with
      | (Ret NGX_OK, s) =>
          if t =? NGX_RTMP_AMF_END then Some (Ret NGX_OK, s) else ngx_rtmp_amf_read fuel s es
      | (Ret _, s) => Some (Ret NGX_ERROR, s)
      | r => Some r
      end
  end.
Proof. reflexivity. Qed.

(** The type of a value takes one byte. *)
Lemma vtype_byte v : 0 <= vtype v < 256.
Proof. destruct v; vm_compute; split; congruence. Qed.

(** A variant: its type byte, and a typeless read of the value. *)
Lemma variant_reads fuel v l s b r : object_spec fuel -> items_spec fuel ->
  val_ok v -> encode v = vtype v :: b -> ctx_ok (ctx s) -> rest (ctx s) = encode v ++ r ->
  (4 * length b <= fuel)%nat -> Forall plain l ->
  let a := alternative l (vtype v) in
  reads s (read_variant (S (S fuel)) s l) (assign_at (mem s) (data a) (elt_len a) v) r
    (fun s => Some (Ret NGX_OK, s)).
Proof.
  intros Ho Hi Hok Eb Hc Hr Hf Hl a. rewrite Eb in Hr.
  destruct (get_front s [vtype v] (b ++ r) 1 Hc Hr eq_refl) as (c & E & Hc1 & Hr1).
  cbn [read_variant]. unfold ngx_rtmp_amf_read_variant. rewrite E.
  cbn [be_val foldl]. rewrite Z.mul_0_l, Z.add_0_l, read_unfold.
  destruct (variant_alternative l (vtype v)) as (Hd & Hn & Ht). fold a in Hd, Hn.
  unfold read_type. rewrite Ht.
  assert (has (Z.lor (vtype v) NGX_RTMP_AMF_TYPELESS) NGX_RTMP_AMF_TYPELESS = true) as ->
    by now destruct v.
  assert (Z.land (Z.lor (vtype v) NGX_RTMP_AMF_TYPELESS) (Z.lnot NGX_RTMP_AMF_TYPELESS) = vtype v) as ->
    by now destruct v.
  rewrite Hd, <- Hn.
  pose proof (body_reads fuel v (Some (variant_elt l (vtype v))) (data a) (set_ctx s c) b r Ho Hi Hok Eb
    Hc1 Hr1 Hf) as H. cbn [len_of] in H.
  assert (forall l0, elts_of (data a) = Some l0 -> Forall plain l0) as Hp.
  { intros l0. destruct (data a) as [| | |l1] eqn:Ea; intros [= <-]; [constructor|].
    exact (alternative_plain l (vtype v) l1 Hl Ea). }
  specialize (H Hp). unfold reads in *. cbn [set_ctx mem saved] in *.
  destruct (assign_at _ _ _ _) as [m1|].
  - destruct H as (c2 & -> & H2). rewrite some_bind. exists c2. split; [|done].
    assert ((vtype v =? NGX_RTMP_AMF_END) = false) as -> by now destruct v. now destruct fuel.
  - destruct H as (s' & ->). rewrite some_bind. now exists s'.
Qed.

Lemma variant_place l nm len t : 0 <= t < 256 ->
  let e := Some (Elt NGX_RTMP_AMF_VARIANT nm (DElts l) len) in
  place_for e t = data (alternative l t) /\ len_for e t = elt_len (alternative l t).
Proof.
  intros Hb. unfold place_for, len_for, effective. rewrite Z.eqb_refl.
  rewrite alternative_type. unfold ngx_rtmp_amf_is_compatible_type. cbn [len_of].
  rewrite land_255, Z.mod_small, Z.eqb_refl by lia. done.
Qed.

Lemma value_step fuel : object_spec fuel -> items_spec fuel ->
  object_spec (fuel - 2) -> items_spec (fuel - 2) -> value_spec (S fuel).
Proof.
  intros Ho Hi Ho2 Hi2 v s e es r Hok Hp Hc Hr Hf.
  assert (exists b, encode v = vtype v :: b) as [b Eb] by (destruct v; eexists; reflexivity).
  pose proof Hf as Hf'. rewrite Eb in Hf'. cbn [length] in Hf'. rewrite assign_eq, read_unfold.
  destruct (match e with Some e => is_variant e | None => false end) eqn:Ev.
  - destruct e as [[te nm d len]|]; [|done]. destruct d as [| | |l]; try done. cbn in Ev.
    apply Z.eqb_eq in Ev as ->. change (read_type _ s) with
      (inr (A := result * state) (NGX_RTMP_AMF_VARIANT_, DElts l, s)).
    destruct (variant_place l nm len (vtype v)) as [-> ->]; [apply vtype_byte|].
    apply (value_cont s s); [done|done|].
    change (value_body fuel NGX_RTMP_AMF_VARIANT_ _ (DElts l) s) with (read_variant fuel s l).
    destruct fuel as [|[|fuel]]; [lia|lia|]. rewrite !Nat.sub_succ, Nat.sub_0_r in *.
    apply (variant_reads fuel v l s b r); auto; [lia|exact (plain_elts _ _ _ _ Hp)].
  - rewrite Eb in Hr. cbn [Datatypes.app] in Hr.
    destruct (read_type_spec s e (vtype v) (b ++ r) Hp Ev Hc Hr) as (c & -> & -> & Hc1 & Hr1).
    apply (value_cont s (set_ctx s c)); [now destruct v|done|].
    change (mem s) with (mem (set_ctx s c)).
    apply (body_reads fuel v e _ (set_ctx s c) b r); auto; [lia|].
    intros l. now apply plain_place.
Qed.

Lemma specs_hold fuel : value_spec fuel /\ object_spec fuel /\ items_spec fuel.
Proof.
  induction (lt_wf fuel) as [[|fuel] _ IH].
  - split_and!.
    + intros v s e es r _ _ _ _ Hf. pose proof (encode_pos v). lia.
    + intros kvs s elts r _ _ _ _ Hf. destruct kvs as [|[k w] kvs]; cbn in Hf; lia.
    + intros l s elts r _ _ _ _ Hf. lia.
  - destruct (IH fuel ltac:(lia)) as (IHv & IHo & IHi).
    destruct (IH (fuel - 2)%nat ltac:(lia)) as (_ & IHo2 & IHi2).
    split_and!; [now apply value_step|now apply object_step|now apply items_step].
Qed.

(** Stores a sequence of values. *)
Fixpoint assign_all (m : memory) (es : list (option ngx_rtmp_amf_elt_t)) (vs : list val)
  : option memory :=
  match es, vs with
  | e :: es, v :: vs => m ← assign m e v; assign_all m es vs
  | _, _ => Some m
  end.

Lemma read_values : forall vs fuel s es r,
  Forall val_ok vs -> Forall plain_opt es -> length es = length vs -> ctx_ok (ctx s) ->
  rest (ctx s) = concat (map encode vs) ++ r -> (4 * length (concat (map encode vs)) <= fuel)%nat ->
  reads s (ngx_rtmp_amf_read fuel s es) (assign_all (mem s) es vs) r (fun s => Some (Ret NGX_OK, s)).
Proof.
  induction vs as [|v vs IH]; intros fuel s es r Hv He Hlen Hc Hr Hf;
    (destruct es as [|e es]; [|try done]); cbn [map concat assign_all] in *; try done.
  - exists (ctx s). destruct s. destruct fuel; auto.
  - apply Forall_cons in Hv as [Hv1 Hv]. apply Forall_cons in He as [He1 He].
    rewrite <- app_assoc in Hr. rewrite length_app in Hf. pose proof (encode_pos v) as Hpos.
    pose proof (proj1 (specs_hold fuel) v s e es _ Hv1 He1 Hc Hr ltac:(lia)) as H.
    destruct (assign (mem s) e v) as [m1|].
    + destruct H as (c & -> & Hc1 & Hr1). rewrite some_bind.
      apply (IH (fuel - 1)%nat (State c m1 (saved s)) es r); auto; lia.
    + destruct H as (s' & ->). now exists s'.
Qed.

(** C19: reading does what the encoding means: on the encoding of a sequence of
    values, however it is spread over buffers, [ngx_rtmp_amf_read] consumes
    exactly its bytes and stores exactly the values the elements ask for -
    members of objects by name, items of arrays by position, variants by the
    type of the value, strings cut and terminated, values of another type or
    without an element skipped - or runs into a variable that is too small. *)
Theorem amf_read_assigns vs fuel s es r :
  Forall val_ok vs -> Forall plain_opt es -> length es = length vs -> ctx_ok (ctx s) ->
  rest (ctx s) = concat (map encode vs) ++ r -> (4 * length (concat (map encode vs)) <= fuel)%nat ->
  match assign_all (mem s) es vs with
  | Some m => exists c, ngx_rtmp_amf_read fuel s es = Some (Ret NGX_OK, State c m (saved s)) /\
                ctx_ok c /\ rest c = r
  | None => exists s', ngx_rtmp_amf_read fuel s es = Some (Overrun, s')
  end.
Proof. apply read_values. Qed.

(* ------------------------------------------------------------------ *)
(** ** Arbitrary input *)

(** Steps a reading of elements without bytes can take. *)
Fixpoint weight (e : ngx_rtmp_amf_elt_t) : nat :=
  match e with
  | Elt _ _ d _ =>
      (2 + 2 * match d with
              | DElts l => (fix sum (l : list ngx_rtmp_amf_elt_t) : nat :=
                              match l with [] => 0%nat | e :: l => (weight e + sum l)%nat end) l
              | _ => 0%nat
              end)%nat
  end.

Fixpoint weights (l : list ngx_rtmp_amf_elt_t) : nat :=
  match l with [] => 0%nat | e :: l => (weight e + weights l)%nat end.

Definition weight_opt (e : option ngx_rtmp_amf_elt_t) : nat :=
  match e with Some e => weight e | None => 0%nat end.

Fixpoint weights_opt (l : list (option ngx_rtmp_amf_elt_t)) : nat :=
  match l with [] => 0%nat | e :: l => (weight_opt e + weights_opt l)%nat end.

Lemma weight_elts t n l len : weight (Elt t n (DElts l) len) = (2 + 2 * weights l)%nat.
Proof. reflexivity. Qed.

Section Safety.
(** The sizes of the variables. *)
Context (size : addr -> option nat).

(** A variable of [k] bytes is big enough for a value of type [t]. *)
Definition enough (t len : Z) (k : nat) : Prop :=
  if t =? NGX_RTMP_AMF_NUMBER then (8 <= k)%nat
  else if t =? NGX_RTMP_AMF_BOOLEAN then (1 <= k)%nat
  else if t =? NGX_RTMP_AMF_STRING then 1 <= len <= Z.of_nat k
  else if t =? NGX_RTMP_AMF_INT8 then (1 <= k)%nat
  else if t =? NGX_RTMP_AMF_INT16 then (2 <= k)%nat
  else if t =? NGX_RTMP_AMF_INT32 then (4 <= k)%nat
  else True.

Definition is_container (t : Z) : bool :=
  (t =? NGX_RTMP_AMF_OBJECT) || (t =? NGX_RTMP_AMF_MIXED_ARRAY) || (t =? NGX_RTMP_AMF_ARRAY) ||
  (t =? NGX_RTMP_AMF_VARIANT_).

(** The type that selects the place of an element. *)
Definition base_type (t : Z) : Z :=
  if has t NGX_RTMP_AMF_TYPELESS then Z.land t (Z.lnot NGX_RTMP_AMF_TYPELESS) else Z.land t 0xff.

(** An element whose [data] is NULL or of the right kind and size. *)
Fixpoint safe (e : ngx_rtmp_amf_elt_t) : Prop :=
  match e with
  | Elt t _ d len =>
      match d with
      | DNull => True
      | DMem a => has t NGX_RTMP_AMF_CONTEXT = false /\ is_container (base_type t) = false /\
                  exists k, size a = Some k /\ enough (base_type t) len k
      | DCtx _ => has t NGX_RTMP_AMF_CONTEXT = true /\ has t NGX_RTMP_AMF_TYPELESS = false
      | DElts l => has t NGX_RTMP_AMF_CONTEXT = false /\ is_container (base_type t) = true /\
                   (fix all (l : list ngx_rtmp_amf_elt_t) : Prop :=
                      match l with [] => True | e :: l => safe e /\ all l end) l
      end
  end.

Definition safe_opt (e : option ngx_rtmp_amf_elt_t) : Prop :=
  match e with Some e => safe e | None => True end.

(** The place for a value of type [t]. *)
Definition safe_place (p : place) (t len : Z) : Prop :=
  match p with
  | DNull => True
  | DMem a => is_container t = false /\ exists k, size a = Some k /\ enough t len k
  | DCtx _ => False
  | DElts l => is_container t = true /\ Forall safe l
  end.

Definition vars_fit (m : memory) : Prop :=
  (forall a, length <$> m !! a = size a) /\ forall a d, m !! a = Some d -> bytes_ok d.

Definition inv (s : state) : Prop :=
  ctx_ok (ctx s) /\ bytes_ok (rest (ctx s)) /\ vars_fit (mem s).

Definition left (s : state) : nat := length (rest (ctx s)).

(** A step to a good state, without an overrun if [ok] holds. *)
Definition good (s : state) (ok : Prop) (x : result * state) : Prop :=
  inv (snd x) /\ (left (snd x) <= left s)%nat /\ (ok -> fst x <> Overrun).

Lemma get_any s n :
  0 <= n -> inv s ->
  exists rc d c, ngx_rtmp_amf_get s n = (rc, d, set_ctx s c) /\ inv (set_ctx s c) /\ bytes_ok d /\
    (rc = NGX_OK /\ length d = Z.to_nat n /\ (left (set_ctx s c) + Z.to_nat n = left s)%nat \/
     rc = NGX_DONE /\ (length d < Z.to_nat n)%nat /\ c = ctx s).
Proof.
  intros Hn (Hc & Hb & Hs). pose proof (get_spec s n Hn Hc) as H. unfold left.
  destruct (n <=? _) eqn:E in H; bool_to_prop.
  - destruct H as (c & -> & Hc' & Hr). exists NGX_OK. do 2 eexists. split; [reflexivity|].
    split; [split; [done|]; split; [change (bytes_ok (rest c)); rewrite Hr; auto with lmss|done]|].
    split; [auto with lmss|]. left. split; [done|].
    change (ctx (set_ctx s c)) with c. rewrite Hr. len.
  - exists NGX_DONE, (rest (ctx s)), (ctx s). rewrite H. split; [now destruct s|].
    split; [split; [done|]; split; done|]. split; [done|]. right. split; [done|]. split; [lia|done].
Qed.

Lemma store_inv s p i d s' : inv s -> bytes_ok d -> store s p i d = Some s' -> inv s' /\ left s' = left s.
Proof.
  intros (Hc & Hb & Hs & Hm) Hd H. unfold store in H.
  destruct (store_mem (mem s) p i d) as [m|] eqn:E; [|done]. rewrite some_bind in H.
  injection H as <-. split; [|done]. split; [done|]. split; [done|]. cbn [set_mem mem].
  unfold store_mem in E. destruct p as [|b|b|l].
  - now injection E as <-.
  - destruct (mem s !! b) as [old|] eqn:Eb; [|done]. rewrite some_bind in E. revert E. case_if; [|done].
    intros [= <-]. split; intros a.
    + rewrite <- Hs. destruct (decide (a = b)) as [-> |Hne].
      * rewrite lookup_insert_eq, Eb. cbn. f_equal. apply length_splice. lia.
      * now rewrite lookup_insert_ne.
    + intros x [[<- <-]|[_ Hx]]%lookup_insert_Some; [|eauto]. apply bytes_ok_splice; eauto.
  - destruct d; [|done]. now injection E as <-.
  - destruct d; [|done]. now injection E as <-.
Qed.

Lemma store_fits s a i d k :
  inv s -> size a = Some k -> (i + length d <= k)%nat -> is_Some (store s (DMem a) i d).
Proof.
  intros (_ & _ & Hs & _) Hk Hl. specialize (Hs a). rewrite Hk in Hs. unfold store, store_mem.
  destruct (mem s !! a) as [old|]; [|done]. injection Hs as Hs. rewrite some_bind. case_if; [|lia].
  rewrite some_bind. eauto.
Qed.

(** A place that takes [n] bytes. *)
Definition takes (p : place) (n : Z) : Prop :=
  match p with
  | DNull => True
  | DMem a => exists k, size a = Some k /\ n <= Z.of_nat k
  | _ => False
  end.

Lemma store_good s p i d :
  inv s -> bytes_ok d ->
  match store s p i d with
  | Some s' => inv s' /\ left s' = left s
  | None => ~ takes p (Z.of_nat (i + length d))
  end.
Proof.
  intros Hi Hd. destruct (store s p i d) as [s'|] eqn:E; [now apply (store_inv s p i d)|].
  destruct p as [|a|a|l]; try done; [|tauto..].
  intros (k & Hk & Hl). destruct (store_fits s a i d k Hi Hk ltac:(lia)). congruence.
Qed.

Lemma number_good s p n : 0 <= n -> inv s -> good s (takes p n) (get_number s p n).
Proof.
  intros Hn Hi. unfold get_number.
  destruct (get_any s n Hn Hi) as (rc & d & c & -> & Hi' & Hd & [(-> & Hl & Hleft)|(-> & _ & ->)]).
  - pose proof (store_good (set_ctx s c) p 0 (reverse d) Hi' (proj2 (Forall_reverse _ d) Hd)) as H.
    destruct (store _ p 0 _) as [s'|]; unfold good; cbn [fst snd].
    + destruct H as [H1 H2]. split; [done|]. split; [lia|done].
    + split; [done|]. split; [lia|]. intros Ht. destruct H. rewrite length_reverse, Hl. cbn.
      now rewrite Z2Nat.id by lia.
  - split; [done|]. split; [done|done].
Qed.

Lemma get_to_good s p n :
  0 <= n -> inv s ->
  match get_to s p n with
  | Some (rc, s') => inv s' /\ (left s' <= left s)%nat
  | None => ~ takes p n
  end.
Proof.
  intros Hn Hi. unfold get_to.
  destruct (get_any s n Hn Hi) as (rc & d & c & -> & Hi' & Hd & Hcase).
  pose proof (store_good (set_ctx s c) p 0 d Hi' Hd) as H.
  assert (length d <= Z.to_nat n /\ left (set_ctx s c) <= left s)%nat as [Hl Hle].
  { destruct Hcase as [(_ & H1 & H2)|(_ & H1 & ->)]; [lia|]. split; [lia|]. now destruct s. }
  destruct (store _ p 0 d) as [s'|].
  - rewrite some_bind. destruct H as [H1 H2]. split; [done|lia].
  - intros Ht. apply H. destruct p; try done. destruct Ht as (k & Hk & Hkl).
    exists k. split; [done|]. cbn. lia.
Qed.

Lemma byte_good s p : inv s -> good s (takes p 1) (get_byte s p).
Proof.
  intros Hi. unfold get_byte. pose proof (get_to_good s p 1 ltac:(lia) Hi) as H.
  destruct (get_to s p 1) as [[rc s']|].
  - destruct H as [H1 H2]. destruct rc; (split; [done|]); (split; [done|done]).
  - split; [done|]. split; [done|]. intros Ht. done.
Qed.

(** Skipping bytes. *)
Lemma skip_good s n P :
  0 <= n -> inv s ->
  good s P match ngx_rtmp_amf_get s n with
           | (NGX_OK, _, s) => (Ret NGX_OK, s)
           | (_, _, s) => (Ret NGX_ERROR, s)
           end.
Proof.
  intros Hn Hi. destruct (get_any s n Hn Hi) as (rc & d & c & -> & Hi' & Hd & [(-> & Hl & Hleft)|(-> & _ & ->)]);
    (split; [done|]); (split; [cbn [snd]; try lia; done|done]).
Qed.

Lemma good_mono s s' (P Q : Prop) x :
  (left s' <= left s)%nat -> (Q -> P) -> good s' P x -> good s Q x.
Proof. intros H1 H2 (H3 & H4 & H5). split; [done|]. split; [lia|auto]. Qed.

Lemma takes_le p n n' : n' <= n -> takes p n -> takes p n'.
Proof. destruct p; try done. intros Hn (k & Hk & Hl). exists k. split; [done|lia]. Qed.

Lemma zero_ok : bytes_ok [0].
Proof. refine (bool_decide_unpack _ _). exact Logic.I. Qed.

Lemma chars_good s p n len :
  0 <= len -> inv s -> good s (1 <= n /\ takes p n) (get_chars s p n len).
Proof.
  intros Hlen Hi. unfold get_chars. case_if.
  - case_if; [split; [done|]; split; [done|]; intros [? _]; lia|].
    pose proof (get_to_good s p (n - 1) ltac:(lia) Hi) as H.
    destruct (get_to s p (n - 1)) as [[rc s1]|].
    2: { split; [done|]. split; [done|]. intros [_ Ht]. apply (takes_le _ _ (n - 1)) in Ht; [done|lia]. }
    destruct H as [Hi1 Hl1].
    destruct rc; try (split; [done|]; split; [done|done]).
    pose proof (store_good s1 p (Z.to_nat (n - 1)) [0] Hi1 zero_ok) as H2.
    destruct (store s1 p _ [0]) as [s2|].
    + destruct H2 as [Hi2 Hl2]. eapply good_mono; [|intros H; exact H|apply skip_good; [lia|done]]. lia.
    + split; [done|]. split; [done|]. intros [_ Ht]. destruct H2. eapply takes_le; [|exact Ht]. cbn. lia.
  - pose proof (get_to_good s p len Hlen Hi) as H.
    destruct (get_to s p len) as [[rc s1]|].
    2: { split; [done|]. split; [done|]. intros [_ Ht]. apply (takes_le _ _ len) in Ht; [done|lia]. }
    destruct H as [Hi1 Hl1]. pose proof (store_good s1 p (Z.to_nat len) [0] Hi1 zero_ok) as H2.
    destruct (store s1 p _ [0]) as [s2|].
    + destruct H2 as [Hi2 Hl2]. split; [done|]. split; [cbn [snd]; lia|done].
    + split; [done|]. split; [done|]. intros [_ Ht]. destruct H2. eapply takes_le; [|exact Ht]. cbn. lia.
Qed.

Lemma be_val_nonneg l : bytes_ok l -> 0 <= be_val l.
Proof. intros H. apply be_val_bound in H. lia. Qed.

Lemma string_good s p n :
  inv s -> good s (match p with DNull => True | _ => 1 <= n /\ takes p n end) (get_string s p n).
Proof.
  intros Hi. unfold get_string.
  destruct (get_any s 2 ltac:(lia) Hi) as (rc & d & c & -> & Hi' & Hd & [(-> & Hl & Hleft)|(-> & _ & ->)]).
  - apply be_val_nonneg in Hd.
    pose proof (skip_good (set_ctx s c) (be_val d) True Hd Hi') as H1.
    pose proof (chars_good (set_ctx s c) p n (be_val d) Hd Hi') as H2.
    destruct p; (eapply good_mono; [|intros H; exact H|eassumption]; lia).
  - split; [done|]. split; [done|done].
Qed.

Lemma leaf_good t e p s :
  is_container t = false -> inv s -> good s (safe_place p t (len_of e)) (read_leaf t e p s).
Proof.
  intros Ht Hi.
  assert (forall P : Prop, good s P (Ret NGX_OK, s) /\ good s P (Ret NGX_ERROR, s)) as Hret
    by (intros P; split; (split; [done|]); (split; [done|done])).
  assert (forall n, (forall k, enough t (len_of e) k -> n <= Z.of_nat k) ->
            safe_place p t (len_of e) -> takes p n) as Htake.
  { intros n Hn Hp. destruct p as [|a|a|l]; try done.
    - destruct Hp as (_ & k & Hk & He). exists k. auto.
    - destruct Hp as [Hp _]. congruence. }
  assert (forall n, (forall k, enough t (len_of e) k -> (n <= k)%nat) ->
            safe_place p t (len_of e) -> takes p (Z.of_nat n)) as Htake'
    by (intros n Hn; apply Htake; intros k Hk; apply Hn in Hk; lia).
  unfold read_leaf.
  repeat (case_if; [try (apply Hret); bool_to_prop; try (subst t)|]); try apply Hret.
  - eapply good_mono; [done|apply (Htake' 8%nat)|now apply number_good]. exact (fun k H => H).
  - eapply good_mono; [done|apply (Htake' 1%nat)|now apply byte_good]. exact (fun k H => H).
  - eapply good_mono; [done| |now apply string_good]. intros Hp.
    destruct p as [|a|a|l]; [done| |done|now destruct Hp].
    destruct Hp as (_ & k & Hk & He). change (1 <= len_of e <= Z.of_nat k) in He.
    split; [destruct e; cbn in *; lia|]. exists k. split; [done|]. destruct e; cbn in *; lia.
  - eapply good_mono; [done|apply (Htake' 1%nat)|now apply byte_good]. exact (fun k H => H).
  - eapply good_mono; [done|apply (Htake' 2%nat)|now apply number_good]. exact (fun k H => H).
  - eapply good_mono; [done|apply (Htake' 4%nat)|now apply number_good]. exact (fun k H => H).
Qed.

(** Facts about one-byte types, by cases. *)
Lemma byte_type t :
  0 <= t < 256 ->
  base_type t = t /\ base_type (Z.lor t NGX_RTMP_AMF_TYPELESS) = t /\
  has t NGX_RTMP_AMF_CONTEXT = false /\
  has (Z.lor t NGX_RTMP_AMF_TYPELESS) NGX_RTMP_AMF_CONTEXT = false.
Proof.
  intros Ht.
  assert (forallb (fun t => (base_type t =? t) && (base_type (Z.lor t NGX_RTMP_AMF_TYPELESS) =? t) &&
    negb (has t NGX_RTMP_AMF_CONTEXT) &&
    negb (has (Z.lor t NGX_RTMP_AMF_TYPELESS) NGX_RTMP_AMF_CONTEXT)) (seqZ 0 256) = true) as H
    by (vm_compute; reflexivity).
  rewrite forallb_forall in H. specialize (H t). rewrite !andb_true_iff, !negb_true_iff in H.
  destruct H as [[[H1 H2] H3] H4]; [apply list_elem_of_In, elem_of_seqZ; lia|].
  bool_to_prop. auto.
Qed.

Lemma safe_all t n l len :
  safe (Elt t n (DElts l) len) ->
  has t NGX_RTMP_AMF_CONTEXT = false /\ is_container (base_type t) = true /\ Forall safe l.
Proof.
  cbn. intros (H1 & H2 & H). split; [done|]. split; [done|].
  induction l as [|e l IH]; [constructor|]. destruct H. constructor; auto.
Qed.

Lemma all_safe l :
  Forall safe l -> (fix all (l : list ngx_rtmp_amf_elt_t) : Prop :=
                      match l with [] => True | e :: l => safe e /\ all l end) l.
Proof. induction 1; auto. Qed.

(** The element of a variant is as safe as those it is chosen from. *)
Lemma variant_safe t elts :
  0 <= t < 256 -> Forall safe elts -> safe (variant_elt elts t).
Proof.
  intros Ht Hs. destruct (byte_type t Ht) as (B1 & B2 & B3 & B4). unfold variant_elt.
  assert (forall r, type r = Z.lor t NGX_RTMP_AMF_TYPELESS -> safe r ->
    safe (foldl (pick t) r elts)) as H; [|apply H; done].
  induction Hs as [|e elts He Hs IH]; intros r Hr Hsr; [done|]. cbn [foldl].
  apply IH; unfold pick; (case_if; [|done]); [done|]. destruct e as [te n d len]. cbn [type data elt_len] in *. subst te. rewrite Hr.
  destruct d as [|a|a|l].
  - done.
  - cbn in He |- *. rewrite B1 in He. rewrite B2, B4. destruct He as (_ & He). auto.
  - cbn in He. rewrite B3 in He. now destruct He.
  - apply safe_all in He as (_ & He & Hl). cbn. rewrite B1 in He. rewrite B2, B4.
    split; [done|]. split; [done|]. now apply all_safe.
Qed.

Lemma variant_weight t elts : (weight (variant_elt elts t) <= 2 + weights elts)%nat.
Proof.
  unfold variant_elt.
  assert (forall r, weight (foldl (pick t) r elts) <= weight r + weights elts)%nat as H.
  { induction elts as [|e elts IH]; intros r; cbn [foldl weights]; [lia|].
    etransitivity; [apply IH|]. unfold pick. case_if; [|lia]. destruct e as [te n d len].
    cbn [data type elt_len]. assert (weight (Elt (type r) [] d len) = weight (Elt te n d len)) as ->
      by reflexivity. lia. }
  etransitivity; [apply H|]. cbn [weight]. lia.
Qed.

(** The type and the place of a value. *)
Lemma type_good e s :
  inv s ->
  match read_type e s with
  | inl x => good s (safe_opt e) x /\ (e = None -> fst x <> Ret NGX_OK)
  | inr (t, p, s') => inv s' /\ (left s' <= left s)%nat /\
      (safe_opt e -> safe_place p t (len_of e)) /\
      (e = None -> (left s' < left s)%nat) /\
      ((left s' < left s)%nat \/ (2 <= weight_opt e)%nat) /\
      (forall l, elts_of p = Some l -> l = [] \/ (2 + 2 * weights l = weight_opt e)%nat)
  end.
Proof.
  intros Hi. unfold read_type.
  destruct (get_any s 1 ltac:(lia) Hi) as (rc & d & c & Eg & Hi' & Hd & Hcase).
  destruct e as [[te n dp len]|].
  2: { rewrite Eg. destruct Hcase as [(-> & _ & Hl)|(-> & _ & ->)].
       - split; [done|]. split; [lia|]. split; [done|]. split; [lia|]. split; [lia|].
         intros l [= <-]. auto.
       - split; [split; [done|]; split; done|done]. }
  assert (forall l, elts_of dp = Some l ->
            l = [] \/ (2 + 2 * weights l = weight_opt (Some (Elt te n dp len)))%nat) as Hw.
  { intros l El. destruct dp as [|a|a|l']; try done; injection El as <-; auto. }
  cbn [type data]. destruct (has te NGX_RTMP_AMF_TYPELESS) eqn:Et.
  - split; [done|]. split; [done|]. split; [|split; [done|split; [right; cbn; lia|done]]].
    cbn [safe_opt]. unfold safe_place. destruct dp as [|a|a|l].
    + done.
    + cbn. unfold base_type. rewrite Et. intros (_ & H). exact H.
    + cbn. rewrite Et. intros [_ H]. done.
    + intros H%safe_all. unfold base_type in H. rewrite Et in H. now destruct H as (_ & H).
  - rewrite Eg. destruct Hcase as [(-> & Hl1 & Hl)|(-> & _ & ->)].
    2: { split; [|done]. split; [done|]. split; [done|]. cbn. intros _. now case_if. }
    set (t := be_val d). set (p := if ngx_rtmp_amf_is_compatible_type (Z.land te 255) t then dp else DNull).
    assert (forall l, elts_of p = Some l ->
            l = [] \/ (2 + 2 * weights l = weight_opt (Some (Elt te n dp len)))%nat) as Hwp.
    { unfold p. case_if; [done|]. intros l [= <-]. auto. }
    assert (has te NGX_RTMP_AMF_CONTEXT = false -> safe (Elt te n dp len) -> safe_place p t len) as Hsp.
    { intros Hctx Hs. unfold p, ngx_rtmp_amf_is_compatible_type. case_if; [|done].
      unfold base_type in *. destruct dp as [|a|a|l]; [done| | |].
      - cbn in Hs. unfold base_type in Hs. rewrite Et in Hs. destruct Hs as (_ & Hc & k & Hk & He).
        unfold is_container in Hc. rewrite !orb_false_iff in Hc. destruct Hc as [[[C1 C2] C3] C4].
        rewrite C1, C2, !andb_false_r, !orb_false_r in E. bool_to_prop. rewrite E in *.
        unfold safe_place, is_container. split; [|eauto]. rewrite !orb_false_iff.
        repeat split; now apply Z.eqb_neq.
      - cbn in Hs. destruct Hs. congruence.
      - apply safe_all in Hs as (_ & Hc & Hs). split; [|done]. unfold base_type in Hc. rewrite Et in Hc.
        rewrite !orb_true_iff, !andb_true_iff in E. destruct E as [[E|[_ E]]|[E _]]; bool_to_prop.
        + now rewrite E in Hc.
        + rewrite E. reflexivity.
        + rewrite E. reflexivity. }
    destruct (has te NGX_RTMP_AMF_CONTEXT) eqn:Ec.
    + destruct p as [|a|a|l] eqn:Ep.
      * split; [done|]. split; [lia|]. split; [done|]. split; [done|]. split; [lia|].
        intros l [= <-]. auto.
      * split; [|done]. split; [done|]. split; [cbn [snd]; lia|]. cbn [safe_opt fst]. intros Hs.
        unfold p in Ep. revert Ep. case_if; [|done]. intros ->. cbn in Hs. destruct Hs. congruence.
      * set (s2 := State _ _ _). change (left s2) with (left (set_ctx s c)).
        split; [done|]. split; [lia|]. split; [done|]. split; [done|]. split; [lia|].
        intros l [= <-]. auto.
      * split; [|done]. split; [done|]. split; [cbn [snd]; lia|]. cbn [safe_opt fst]. intros Hs.
        unfold p in Ep. revert Ep. case_if; [|done]. intros ->. apply safe_all in Hs. destruct Hs. congruence.
    + split; [done|]. split; [lia|]. split; [auto|]. split; [done|]. split; [lia|done].
Qed.

(** A result within the fuel; reading a value without element takes a byte. *)
Definition read_total (fuel : nat) : Prop := forall s es,
  inv s -> (2 * left s + weights_opt es + 1 <= fuel)%nat ->
  exists x, ngx_rtmp_amf_read fuel s es = Some x /\ good s (Forall safe_opt es) x /\
    (head es = Some None -> fst x = Ret NGX_OK -> (left (snd x) < left s)%nat).
Definition object_total (fuel : nat) : Prop := forall s elts,
  inv s -> (2 * left s + weights elts + 1 <= fuel)%nat ->
  exists x, read_object fuel s elts = Some x /\ good s (Forall safe elts) x.
Definition items_total (fuel : nat) : Prop := forall s elts n,
  inv s -> (2 * left s + 2 * weights elts + 2 <= fuel)%nat ->
  exists x, read_items fuel s elts n = Some x /\ good s (Forall safe elts) x.
Definition variant_total (fuel : nat) : Prop := forall s elts,
  inv s -> (2 * left s + weights elts + 2 <= fuel)%nat ->
  exists x, read_variant fuel s elts = Some x /\ good s (Forall safe elts) x.

Lemma good_ret s s' P rc : inv s' -> (left s' <= left s)%nat -> good s P (Ret rc, s').
Proof. intros H1 H2. split; [done|]. split; [done|done]. Qed.

Lemma find_weight elts n k : (weight_opt (find_elt elts n k) <= weights elts)%nat.
Proof.
  unfold find_elt. induction elts as [|e elts IH]; [done|]. cbn [List.find weights].
  destruct (_ && _); cbn [weight_opt] in *; lia.
Qed.

Lemma find_safe elts n k : Forall safe elts -> safe_opt (find_elt elts n k).
Proof.
  intros H. unfold find_elt. destruct (List.find _ elts) as [e|] eqn:E; [|done].
  apply List.find_some in E as [E _]. rewrite Forall_forall in H. apply H. now apply list_elem_of_In.
Qed.

Lemma key_good s len maxlen :
  0 <= maxlen -> 0 < len -> inv s ->
  exists rc key c, get_key s len maxlen = (rc, key, set_ctx s c) /\ inv (set_ctx s c) /\
    (left (set_ctx s c) <= left s)%nat.
Proof.
  intros Hm Hl Hi. unfold get_key. case_if.
  - destruct (get_any s len ltac:(lia) Hi) as (rc & d & c & -> & Hi' & _ & Hcase).
    exists rc, d, c. split; [done|]. split; [done|].
    destruct Hcase as [(_ & _ & H)|(_ & _ & ->)]; [lia|now destruct s].
  - destruct (get_any s maxlen Hm Hi) as (rc & d & c & -> & Hi' & _ & Hcase).
    assert (left (set_ctx s c) <= left s)%nat as Hle
      by (destruct Hcase as [(_ & _ & H)|(_ & _ & ->)]; [lia|now destruct s]).
    destruct rc; try (do 3 eexists; split; [reflexivity|]; done).
    destruct (get_any (set_ctx s c) (len - maxlen) ltac:(lia) Hi') as (rc & d2 & c2 & -> & Hi2 & _ & Hcase2).
    exists rc, d, c2. split; [done|]. split; [done|].
    change (set_ctx (set_ctx s c) c2) with (set_ctx s c2) in *.
    destruct Hcase2 as [(_ & _ & H)|(_ & _ & ->)]; [lia|done].
Qed.

(** A nested value, then the rest. *)
Lemma then_good s s1 (P : Prop) x rest_ :
  (left s1 <= left s)%nat -> good s1 P x ->
  (forall s2, x = (Ret NGX_OK, s2) -> exists y, rest_ s2 = Some y /\ good s2 P y) ->
  exists y, (r ← Some x; match r with
                         | (Ret NGX_OK, s) => rest_ s
                         | (Ret _, s) => Some (Ret NGX_ERROR, s)
                         | r => Some r
                         end) = Some y /\ good s P y.
Proof.
  intros Hle Hx Hk. rewrite some_bind. pose proof Hx as (H1 & H2 & H3). destruct x as [[rc| |] s2];
    try (eexists; split; [reflexivity|]; eapply good_mono; [exact Hle|intros H; exact H|exact Hx]).
  cbn [snd] in *. destruct rc.
  1: { destruct (Hk s2 eq_refl) as (y & -> & Hy). exists y. split; [done|].
       eapply good_mono; [|intros H; exact H|exact Hy]. lia. }
  all: eexists; split; [reflexivity|]; apply good_ret; [done|lia].
Qed.

Lemma object_total_step fuel : read_total fuel -> object_total fuel -> object_total (S fuel).
Proof.
  intros Hr Ho s elts Hi Hf. cbn [read_object]. unfold ngx_rtmp_amf_read_object.
  destruct (get_any s 2 ltac:(lia) Hi) as (rc & d & c & -> & Hi1 & Hd & [(-> & _ & Hl)|(-> & _ & ->)]).
  2: { eexists. split; [reflexivity|]. apply good_ret; [done|now destruct s]. }
  apply be_val_nonneg in Hd. case_if.
  - destruct (get_any (set_ctx s c) 1 ltac:(lia) Hi1) as (rc & d2 & c2 & -> & Hi2 & _ & [(-> & _ & Hl2)|(-> & _ & ->)]);
      (eexists; split; [reflexivity|]; apply good_ret; [done|]).
    + change (set_ctx (set_ctx s c) c2) with (set_ctx s c2) in *. lia.
    + change (ctx (set_ctx s c)) with c. change (set_ctx (set_ctx s c) c) with (set_ctx s c). lia.
  - destruct (key_good (set_ctx s c) (be_val d) (max_name elts) (max_name_nonneg _) ltac:(lia) Hi1)
      as (rc & key & c2 & -> & Hi2 & Hl2).
    destruct rc; try (eexists; split; [reflexivity|]; apply good_ret; [done|lia]).
    pose proof (find_weight elts (be_val d) key) as Hw.
    set (s2 := set_ctx (set_ctx s c) c2) in *. set (e := find_elt _ _ _) in *.
    destruct (Hr s2 [e] Hi2) as (x & -> & Hx & _); [cbn [weights_opt]; lia|].
    apply (then_good s s2 (Forall safe elts)); [lia| |].
    + eapply good_mono; [reflexivity| |exact Hx]. intros H. constructor; [|constructor]. now apply find_safe.
    + intros s3 ->. destruct Hx as (Hi3 & Hl3 & _). cbn [snd] in *. apply Ho; [done|lia].
Qed.

Lemma items_total_step fuel : read_total fuel -> items_total fuel -> items_total (S fuel).
Proof.
  intros Hr Hit s elts n Hi Hf. cbn [read_items]. unfold ngx_rtmp_amf_read_array. case_if.
  { eexists. split; [reflexivity|]. now apply good_ret. }
  assert (weight_opt (head elts) + weights (tail elts) = weights elts)%nat as Hw by now destruct elts.
  assert (2 * weights (tail elts) + 2 <= 2 * weights elts \/ head elts = None)%nat as Hw2.
  { destruct elts as [|[? ? ? ?] ?]; [auto|]. left. cbn [tail weights weight]. lia. }
  destruct (Hr s [head elts] Hi) as (x & -> & Hx & Hn); [cbn [weights_opt]; lia|].
  apply (then_good s s (Forall safe elts)); [lia| |].
  - eapply good_mono; [reflexivity| |exact Hx]. intros H. constructor; [|constructor]. now destruct H.
  - intros s3 ->. destruct Hx as (Hi3 & Hl3 & _). cbn [snd fst] in *.
    destruct (Hit s3 (tail elts) (n - 1) Hi3) as (y & -> & Hy).
    + destruct Hw2 as [Hw2|Hw2]; [lia|]. rewrite Hw2 in Hn. specialize (Hn eq_refl eq_refl). lia.
    + exists y. split; [done|]. eapply good_mono; [reflexivity| |exact Hy]. intros H. now destruct H.
Qed.

Lemma variant_total_step fuel : read_total fuel -> variant_total (S fuel).
Proof.
  intros Hr s elts Hi Hf. cbn [read_variant]. unfold ngx_rtmp_amf_read_variant.
  destruct (get_any s 1 ltac:(lia) Hi) as (rc & d & c & -> & Hi1 & Hd & [(-> & Hld & Hl)|(-> & _ & ->)]).
  2: { eexists. split; [reflexivity|]. apply good_ret; [done|now destruct s]. }
  pose proof (be_val_bound d Hd) as Hb. rewrite Hld in Hb. change (256 ^ Z.of_nat (Z.to_nat 1)) with 256 in Hb.
  pose proof (variant_weight (be_val d) elts) as Hw.
  destruct (Hr (set_ctx s c) [Some (variant_elt elts (be_val d))] Hi1) as (x & -> & Hx & _);
    [cbn [weights_opt weight_opt]; lia|].
  exists x. split; [done|]. eapply good_mono; [| |exact Hx]; [lia|]. intros H.
  constructor; [|constructor]. now apply variant_safe.
Qed.

(** A container, for which the place holds elements. *)
Lemma container_good s p t len (k : list ngx_rtmp_amf_elt_t -> option (result * state)) :
  is_container t = true -> inv s ->
  (forall l, elts_of p = Some l -> exists x, k l = Some x /\ good s (Forall safe l) x) ->
  exists x, match elts_of p with Some l => k l | None => Some (Overrun, s) end = Some x /\
    good s (safe_place p t len) x.
Proof.
  intros Ht Hi Hk. destruct (elts_of p) as [l|] eqn:El.
  - destruct (Hk l eq_refl) as (x & -> & Hx). exists x. split; [done|].
    eapply good_mono; [done| |exact Hx]. intros Hs. destruct p as [|a|a|l']; try done.
    + injection El as <-. constructor.
    + injection El as <-. now destruct Hs.
  - eexists. split; [reflexivity|]. split; [done|]. split; [done|]. intros Hs.
    destruct p as [|a|a|l']; try done. destruct Hs. congruence.
Qed.

(** The switch over the type. *)
Lemma switch_good fuel t e p s :
  object_total fuel -> items_total fuel -> variant_total fuel -> inv s ->
  (forall l, elts_of p = Some l -> 2 * left s + 2 * weights l + 2 <= fuel)%nat ->
  exists x,
    (let container (k : list ngx_rtmp_amf_elt_t -> option (result * state)) :=
       match elts_of p with Some l => k l | None => Some (Overrun, s) end in
     if t =? NGX_RTMP_AMF_MIXED_ARRAY then
       match ngx_rtmp_amf_get s 4 with
       | (NGX_OK, _, s) => container (read_object fuel s)
       | (_, _, s) => Some (Ret NGX_ERROR, s)
       end
     else if t =? NGX_RTMP_AMF_OBJECT then container (read_object fuel s)
     else if t =? NGX_RTMP_AMF_ARRAY then container (fun l =>
       match ngx_rtmp_amf_get s 4 with
       | (NGX_OK, buf, s) => read_items fuel s l (be_val buf)
       | (_, _, s) => Some (Ret NGX_ERROR, s)
       end)
     else if t =? NGX_RTMP_AMF_VARIANT_ then container (read_variant fuel s)
     else Some (read_leaf t e p s)) = Some x /\ good s (safe_place p t (len_of e)) x.
Proof.
  intros Ho Hit Hv Hi Hf. cbv zeta.
  destruct (get_any s 4 ltac:(lia) Hi) as (rc & d & c & Eg & Hi1 & Hd & Hcase).
  assert (left (set_ctx s c) <= left s)%nat as Hl1.
  { destruct Hcase as [(_ & _ & H)|(_ & _ & ->)]; [lia|now destruct s]. }
  case_if.
  { rewrite Eg. destruct rc; try (eexists; split; [reflexivity|]; now apply good_ret).
    apply (container_good s p t (len_of e)); [now subst t|done|]. intros l El. specialize (Hf l El).
    destruct (Ho (set_ctx s c) l Hi1) as (x & -> & Hx); [lia|].
    exists x. split; [done|]. eapply good_mono; [exact Hl1|intros H; exact H|exact Hx]. }
  case_if.
  { apply (container_good s p t (len_of e)); [now subst t|done|]. intros l El. specialize (Hf l El).
    apply Ho; [done|lia]. }
  case_if.
  { apply (container_good s p t (len_of e)); [now subst t|done|]. intros l El. specialize (Hf l El).
    rewrite Eg. destruct rc; try (eexists; split; [reflexivity|]; now apply good_ret).
    destruct (Hit (set_ctx s c) l (be_val d) Hi1) as (x & -> & Hx); [lia|].
    exists x. split; [done|]. eapply good_mono; [exact Hl1|intros H; exact H|exact Hx]. }
  case_if.
  { apply (container_good s p t (len_of e)); [now subst t|done|]. intros l El. specialize (Hf l El).
    apply Hv; [done|lia]. }
  eexists. split; [reflexivity|]. apply leaf_good; [|done]. unfold is_container.
  rewrite !orb_false_iff. repeat split; now apply Z.eqb_neq.
Qed.

Lemma read_total_step fuel :
  read_total fuel -> object_total fuel -> items_total fuel -> variant_total fuel ->
  read_total (S fuel).
Proof.
  intros Hr Ho Hit Hv s es Hi Hf. destruct es as [|e es].
  { eexists. split; [reflexivity|]. split; [now apply good_ret|done]. }
  cbn [ngx_rtmp_amf_read]. cbn [weights_opt] in Hf. pose proof (type_good e s Hi) as Ht.
  assert (Forall safe_opt (e :: es) -> safe_opt e) as Hse by (intros H; now apply Forall_cons in H).
  destruct (read_type e s) as [x|[[t p] s1]].
  { destruct Ht as [Hx Hn]. exists x. split; [done|]. split.
    - eapply good_mono; [done|exact Hse|done].
    - cbn [head]. intros [= ->] E. now destruct (Hn eq_refl). }
  destruct Ht as (Hi1 & Hl1 & Hs & Hnone & Hprog & Hw).
  destruct (switch_good fuel t e p s1 Ho Hit Hv Hi1) as (x & Ex & Hx).
  { intros l El. destruct (Hw l El) as [-> |Hwl]; cbn [weights] in *; lia. }
  cbv zeta in Ex |- *. rewrite Ex, some_bind. pose proof Hx as (Hi2 & Hl2 & _).
  assert (good s (Forall safe_opt (e :: es)) x) as Hgx.
  { eapply good_mono; [exact Hl1| |exact Hx]. intros H. apply Hs, Hse, H. }
  assert (forall o, head (e :: es) = Some None -> fst x = o -> (left (snd x) < left s)%nat) as Hlt.
  { intros o [= ->] _. specialize (Hnone eq_refl). lia. }
  destruct x as [[rc| |] s2]; try (eexists; split; [reflexivity|]; split; [done|done]).
  cbn [fst snd] in *. destruct rc.
  2-7: eexists; split; [reflexivity|]; split; [apply good_ret; [done|lia]|done].
  case_if; [eexists; split; [reflexivity|]; split; [done|]; intros Hh _; now apply (Hlt (Ret NGX_OK))|].
  destruct (Hr s2 es Hi2) as (y & -> & Hy & _); [lia|]. exists y. split; [done|]. split.
  - eapply good_mono; [|intros H; apply Forall_cons in H as [_ H]; exact H|exact Hy]. lia.
  - intros Hh _. specialize (Hlt (Ret NGX_OK) Hh eq_refl). destruct Hy as (_ & Hy & _). lia.
Qed.

Lemma totals_hold fuel :
  read_total fuel /\ object_total fuel /\ items_total fuel /\ variant_total fuel.
Proof.
  induction fuel as [|fuel (H1 & H2 & H3 & H4)].
  - split; [|split; [|split]]; intros s; intros; lia.
  - split; [now apply read_total_step|]. split; [now apply object_total_step|].
    split; [now apply items_total_step|now apply variant_total_step].
Qed.

(** C22: reading arbitrary bytes ends: after a number of steps bounded by the bytes
    left and the elements the call has returned; it never goes back in the
    data, and if the variables are as big as the elements say, nothing is
    written outside of them, whatever the bytes are. *)
Theorem amf_read_safe s es :
  inv s ->
  exists r s', ngx_rtmp_amf_read (2 * left s + weights_opt es + 1) s es = Some (r, s') /\
    inv s' /\ (left s' <= left s)%nat /\ (Forall safe_opt es -> r <> Overrun).
Proof.
  intros Hi. destruct (totals_hold (2 * left s + weights_opt es + 1)) as [H _].
  destruct (H s es Hi ltac:(lia)) as ([r s'] & E & (H1 & H2 & H3) & _). eauto 10.
Qed.

End Safety.

(* ------------------------------------------------------------------ *)
(** ** Writing *)

(** What the writer asks of the place it writes to: [ngx_rtmp_amf_put] over the
    links from [ctx->first] to [ctx->link]; [None] is an access it must not
    make.  The laws say that the bytes are appended. *)
Class Sink (C : Type) := amf_put : C -> list Z -> option C.

Class SinkLaws (C : Type) {snk : Sink C} := {
  sink_ok : C -> Prop;
  sink_bytes : C -> list Z;
  amf_put_spec : forall c p, sink_ok c -> bytes_ok p ->
    exists c', amf_put c p = Some c' /\ sink_ok c' /\ sink_bytes c' = sink_bytes c ++ p
}.

(** [n] bytes of a variable; [None] is an access through NULL or behind the
    end. *)
Definition load (m : memory) (p : place) (n : nat) : option (list Z) :=
  match p with
  | DMem a => d ← m !! a; if (n <=? length d)%nat then Some (take n d) else None
  | _ => if (n =? 0)%nat then Some [] else None
  end.

Fixpoint strlen (d : list Z) : option nat :=
  match d with
  | [] => None
  | x :: d => if x =? 0 then Some 0%nat else n ← strlen d; Some (S n)
  end.

(** The length of a string: [len], or up to the NUL. *)
Definition string_len (m : memory) (p : place) (len : Z) : option Z :=
  let len := u16 len in
  if len =? 0 then
    match p with
    | DNull => Some len
    | DMem a => d ← m !! a; n ← strlen d; Some (u16 (Z.of_nat n))
    | _ => None
    end
  else Some len.

Section Write.
Context {C : Type} {snk : Sink C}.

Definition write_leaf (m : memory) (c : C) (t : Z) (p : place) (len : Z)
  : option (ngx_rc * C) :=
  let number n := d ← load m p n; c ← amf_put c (reverse d); Some (NGX_OK, c) in
  if t =? NGX_RTMP_AMF_NUMBER then number 8%nat
  else if t =? NGX_RTMP_AMF_BOOLEAN then
    d ← load m p 1; c ← amf_put c d; Some (NGX_OK, c)
  else if t =? NGX_RTMP_AMF_STRING then
    n ← string_len m p len;
    c ← amf_put c (be_bytes 2 n);
    d ← load m p (Z.to_nat n);
    c ← amf_put c d;
    Some (NGX_OK, c)
  else if (t =? NGX_RTMP_AMF_NULL) || (t =? NGX_RTMP_AMF_ARRAY_NULL) then Some (NGX_OK, c)
  else if t =? NGX_RTMP_AMF_INT8 then
    d ← load m p 1; c ← amf_put c d; Some (NGX_OK, c)
  else if t =? NGX_RTMP_AMF_INT16 then number 2%nat
  else if t =? NGX_RTMP_AMF_INT32 then number 4%nat
  else Some (NGX_ERROR, c).

(** Goes on after NGX_OK. *)
Definition and_then (r : option (ngx_rc * C)) (k : C -> option (ngx_rc * C))
  : option (ngx_rc * C) :=
  '(rc, c) ← r; match rc with NGX_OK => k c | _ => Some (NGX_ERROR, c) end.

(** [ngx_rtmp_amf_write_object] and the loop of [ngx_rtmp_amf_write_array];
    [w] writes one element. *)
Definition write_object (w : C -> ngx_rtmp_amf_elt_t -> option (ngx_rc * C)) :=
  fix write_object (c : C) (l : list ngx_rtmp_amf_elt_t) {struct l} : option (ngx_rc * C) :=
    match l with
    | [] => c ← amf_put c [0; 0]; Some (NGX_OK, c)
    | e :: l =>
        let len := u16 (Z.of_nat (length (name e))) in
        c ← amf_put c (be_bytes 2 len);
        c ← amf_put c (take (Z.to_nat len) (name e));
        and_then (w c e) (fun c => write_object c l)
    end.

Definition write_items (w : C -> ngx_rtmp_amf_elt_t -> option (ngx_rc * C)) :=
  fix write_items (c : C) (l : list ngx_rtmp_amf_elt_t) {struct l} : option (ngx_rc * C) :=
    match l with
    | [] => Some (NGX_OK, c)
    | e :: l => and_then (w c e) (fun c => write_items c l)
    end.

(** One element of [ngx_rtmp_amf_write]. *)
Fixpoint write_elt (m : memory) (c : C) (e : ngx_rtmp_amf_elt_t) {struct e}
  : option (ngx_rc * C) :=
  match e with
  | Elt t _ d len =>
      let typeless := has t NGX_RTMP_AMF_TYPELESS in
      c ← (if typeless then Some c else amf_put c [u8 t]);
      let t := if typeless then Z.land t (Z.lnot NGX_RTMP_AMF_TYPELESS) else t in
      let object c :=
        and_then match d with
                 | DNull => write_object (write_elt m) c []
                 | DElts l => write_object (write_elt m) c l
                 | _ => None
                 end (fun c => c ← amf_put c [NGX_RTMP_AMF_END]; Some (NGX_OK, c)) in
      if t =? NGX_RTMP_AMF_MIXED_ARRAY then
        c ← amf_put c [0; 0; 0; 0]; object c
      else if t =? NGX_RTMP_AMF_OBJECT then object c
      else if t =? NGX_RTMP_AMF_ARRAY then
        match d with
        | DNull => c ← amf_put c (be_bytes 4 0); Some (NGX_OK, c)
        | DElts l => c ← amf_put c (be_bytes 4 (u32 (Z.of_nat (length l))));
                     write_items (write_elt m) c l
        | _ => None
        end
      else write_leaf m c t d len
  end.

Fixpoint ngx_rtmp_amf_write (m : memory) (c : C) (es : list ngx_rtmp_amf_elt_t)
  : option (ngx_rc * C) :=
  match es with
  | [] => Some (NGX_OK, c)
  | e :: es => and_then (write_elt m c e) (fun c => ngx_rtmp_amf_write m c es)
  end.

End Write.

(* ------------------------------------------------------------------ *)
(** ** Written values *)

(** The value an element stands for. *)
Definition name_ok (e : ngx_rtmp_amf_elt_t) : bool :=
  bool_decide (bytes_ok (name e)) && (0 <? length (name e))%nat &&
  (Z.of_nat (length (name e)) <? 2 ^ 16).

Definition denote_props (f : ngx_rtmp_amf_elt_t -> option val) :=
  fix props (l : list ngx_rtmp_amf_elt_t) : option (list (list Z * val)) :=
    match l with
    | [] => Some []
    | e :: l => if name_ok e then v ← f e; kvs ← props l; Some ((name e, v) :: kvs) else None
    end.

Definition denote_items (f : ngx_rtmp_amf_elt_t -> option val) :=
  fix items (l : list ngx_rtmp_amf_elt_t) : option (list val) :=
    match l with
    | [] => Some []
    | e :: l => v ← f e; vs ← items l; Some (v :: vs)
    end.

Fixpoint denote (m : memory) (e : ngx_rtmp_amf_elt_t) {struct e} : option val :=
  match e with
  | Elt t _ d len =>
      if t =? NGX_RTMP_AMF_NUMBER then x ← load m d 8; Some (VNum (reverse x))
      else if t =? NGX_RTMP_AMF_BOOLEAN then x ← load m d 1; Some (VBool (be_val x))
      else if t =? NGX_RTMP_AMF_STRING then
        n ← string_len m d len; x ← load m d (Z.to_nat n); Some (VStr x)
      else if t =? NGX_RTMP_AMF_NULL then Some VNull
      else if t =? NGX_RTMP_AMF_ARRAY_NULL then Some VArrNull
      else if t =? NGX_RTMP_AMF_OBJECT then
        kvs ← match d with
              | DNull => Some []
              | DElts l => denote_props (denote m) l
              | _ => None
              end;
        Some (VObj kvs)
      else if t =? NGX_RTMP_AMF_MIXED_ARRAY then
        kvs ← match d with
              | DNull => Some []
              | DElts l => denote_props (denote m) l
              | _ => None
              end;
        Some (VMix [0; 0; 0; 0] kvs)
      else if t =? NGX_RTMP_AMF_ARRAY then
        match d with
        | DNull => Some (VArr [])
        | DElts l =>
            vs ← denote_items (denote m) l;
            if Z.of_nat (length l) <? 2 ^ 32 then Some (VArr vs) else None
        | _ => None
        end
      else None
  end.

Section Encodes.
Context {C : Type} {snk : Sink C} {laws : SinkLaws C}.
Context (m : memory).
Hypothesis mem_ok : forall a d, m !! a = Some d -> bytes_ok d.

(** The sink after a step that appends [d]. *)
Definition wrote (c c' : C) (d : list Z) : Prop :=
  sink_ok c' /\ sink_bytes c' = sink_bytes c ++ d.

Lemma wrote_trans c1 c2 c3 d1 d2 : wrote c1 c2 d1 -> wrote c2 c3 d2 -> wrote c1 c3 (d1 ++ d2).
Proof. intros [_ E1] [Hok E2]. split; [done|]. now rewrite E2, E1, app_assoc. Qed.

Lemma load_ok p n d : load m p n = Some d -> bytes_ok d /\ length d = n.
Proof.
  unfold load. destruct p as [|a|a|l]; [..|];
    try (case_if; [intros [= <-]; subst; split; [constructor|done]|done]).
  destruct (m !! a) as [x|] eqn:E; [|done]. rewrite some_bind. case_if; [|done]. intros [= <-].
  apply mem_ok in E. split; [auto with lmss|len].
Qed.

(** A step of writing. *)
Definition writes (r : option (ngx_rc * C)) (c : C) (d : list Z) : Prop :=
  exists c', r = Some (NGX_OK, c') /\ wrote c c' d.

Lemma writes_nil c : sink_ok c -> writes (Some (NGX_OK, c)) c [].
Proof. intros H. exists c. split; [done|]. split; [done|now rewrite app_nil_r]. Qed.

Lemma put_writes c p d (k : C -> option (ngx_rc * C)) :
  sink_ok c -> bytes_ok p -> (forall c1, sink_ok c1 -> writes (k c1) c1 d) ->
  writes (c1 ← amf_put c p; k c1) c (p ++ d).
Proof.
  intros Hc Hp Hk. destruct (amf_put_spec c p Hc Hp) as (c1 & -> & Hw). rewrite some_bind.
  destruct (Hk c1 (proj1 Hw)) as (c2 & -> & Hw2). exists c2. split; [done|].
  eapply wrote_trans; eauto.
Qed.

Lemma put_last c p :
  sink_ok c -> bytes_ok p -> writes (c1 ← amf_put c p; Some (NGX_OK, c1)) c p.
Proof.
  intros Hc Hp. rewrite <- (app_nil_r p) at 2. apply put_writes; auto. apply writes_nil.
Qed.

Lemma and_then_writes c r d0 d (k : C -> option (ngx_rc * C)) :
  writes r c d0 -> (forall c1, sink_ok c1 -> writes (k c1) c1 d) ->
  writes (and_then r k) c (d0 ++ d).
Proof.
  intros (c1 & -> & Hw) Hk. unfold and_then. rewrite some_bind.
  destruct (Hk c1 (proj1 Hw)) as (c2 & -> & Hw2). exists c2. split; [done|].
  eapply wrote_trans; eauto.
Qed.

Definition elt_spec (e : ngx_rtmp_amf_elt_t) : Prop := forall v c,
  denote m e = Some v -> sink_ok c -> writes (write_elt m c e) c (encode v) /\ val_ok v.

Lemma object_writes l : Forall elt_spec l -> forall kvs c,
  denote_props (denote m) l = Some kvs -> sink_ok c ->
  writes (and_then (write_object (write_elt m) c l)
            (fun c => c ← amf_put c [NGX_RTMP_AMF_END]; Some (NGX_OK, c))) c
    (encode_props kvs) /\ props_ok kvs.
Proof.
  assert (bytes_ok [0; 0] /\ bytes_ok [NGX_RTMP_AMF_END]) as [Hz He]
    by (split; refine (bool_decide_unpack _ _); exact Logic.I).
  intros Hl. assert (forall kvs c, denote_props (denote m) l = Some kvs -> sink_ok c ->
    exists d, encode_props kvs = d ++ [NGX_RTMP_AMF_END] /\
      writes (write_object (write_elt m) c l) c d /\ props_ok kvs) as H.
  { induction Hl as [|e l He' Hl IH]; intros kvs c; cbn [denote_props write_object].
    - intros [= <-] Hc. exists [0; 0]. split; [done|]. split; [now apply put_last|done].
    - destruct (name_ok e) eqn:En; [|done].
      destruct (denote m e) as [v|] eqn:Ev; [|done]. rewrite some_bind.
      destruct (denote_props (denote m) l) as [kvs'|]; [|done]. rewrite some_bind. intros [= <-] Hc.
      unfold name_ok in En. rewrite !andb_true_iff in En. destruct En as [[En1 En2] En3].
      apply bool_decide_eq_true in En1. bool_to_prop.
      assert (u16 (Z.of_nat (length (name e))) = Z.of_nat (length (name e))) as Eu.
      { apply u16_small. lia. }
      cbv zeta. fold (write_object (write_elt m)). rewrite Eu, Nat2Z.id, take_ge by lia.
      assert (forall c, sink_ok c -> exists d, encode_props kvs' = d ++ [NGX_RTMP_AMF_END] /\
        writes (write_object (write_elt m) c l) c d /\ props_ok kvs') as IH' by eauto.
      destruct (IH' c Hc) as (d & Ed & _ & Hok). destruct (He' v c Ev Hc) as [_ Hv].
      exists (short (name e) ++ encode v ++ d). split; [|split].
      + cbn [encode_props]. now rewrite Ed, <- !app_assoc.
      + unfold short. rewrite <- !app_assoc. apply put_writes; [done|apply be_bytes_ok|].
        intros c1 Hc1. apply put_writes; [done|done|]. intros c2 Hc2.
        apply and_then_writes; [now apply He'|]. intros c3 Hc3.
        destruct (IH' c3 Hc3) as (d' & Ed' & Hw & _).
        assert (d' = d) as -> by (rewrite Ed in Ed'; now apply app_inj_2 in Ed' as [? _]). exact Hw.
      + cbn. auto. }
  intros kvs c Ek Hc. destruct (H kvs c Ek Hc) as (d & -> & Hw & Hok). split; [|done].
  apply and_then_writes; [exact Hw|]. intros c1 Hc1. now apply put_last.
Qed.

Lemma items_write l : Forall elt_spec l -> forall vs c,
  denote_items (denote m) l = Some vs -> sink_ok c ->
  writes (write_items (write_elt m) c l) c (concat (map encode vs)) /\ items_ok vs /\
  length vs = length l.
Proof.
  induction 1 as [|e l He Hl IH]; intros vs c; cbn [denote_items write_items].
  - intros [= <-] Hc. split; [now apply writes_nil|done].
  - destruct (denote m e) as [v|] eqn:Ev; [|done]. rewrite some_bind.
    destruct (denote_items (denote m) l) as [vs'|]; [|done]. rewrite some_bind. intros [= <-] Hc.
    destruct (He v c Ev Hc) as [Hw Hv]. destruct (IH vs' c eq_refl Hc) as (_ & Hok & Hlen).
    split; [|cbn; auto]. cbn [map concat]. apply and_then_writes; [exact Hw|]. intros c1 Hc1.
    now apply IH.
Qed.

Lemma string_len_range p len n : string_len m p len = Some n -> 0 <= n < 2 ^ 16.
Proof.
  unfold string_len. cbv zeta. pose proof (u16_bound len) as Hb. case_if; [|intros [= <-]; lia].
  destruct p as [|a|a|l]; [intros [= <-]; lia| |done|done].
  destruct (m !! a) as [d|]; [|done]. rewrite some_bind. destruct (strlen d) as [k|]; [|done].
  rewrite some_bind. intros [= <-]. pose proof (u16_bound (Z.of_nat k)). lia.
Qed.

Lemma leaf_writes t d len v c :
  is_container t = false -> denote m (Elt t [] d len) = Some v -> sink_ok c ->
  writes (write_leaf m c t d len) c (tail (encode v)) /\ val_ok v /\
  has t NGX_RTMP_AMF_TYPELESS = false /\ u8 t = vtype v.
Proof.
  intros Ht. unfold is_container in Ht. rewrite !orb_false_iff in Ht. destruct Ht as [[[T1 T2] T3] T4].
  cbn [denote]. unfold write_leaf. rewrite T1, T2, T3. cbv zeta.
  destruct (t =? NGX_RTMP_AMF_NUMBER) eqn:E1.
  { bool_to_prop. subst t. destruct (load m d 8) as [x|] eqn:El; [|done]. rewrite some_bind.
    intros [= <-] Hc. apply load_ok in El as [Hb Hl]. rewrite some_bind. split.
    - apply put_last; [done|]. now apply Forall_reverse.
    - split; [cbn; now rewrite length_reverse|done]. }
  destruct (t =? NGX_RTMP_AMF_BOOLEAN) eqn:E2.
  { bool_to_prop. subst t. destruct (load m d 1) as [x|] eqn:El; [|done]. rewrite some_bind.
    intros [= <-] Hc. apply load_ok in El as [Hb Hl]. rewrite some_bind.
    destruct x as [|b [|? ?]]; try done. split; [|done]. cbn [encode tail].
    unfold be_val. cbn [foldl]. rewrite Z.mul_0_l, Z.add_0_l. now apply put_last. }
  destruct (t =? NGX_RTMP_AMF_STRING) eqn:E3.
  { bool_to_prop. subst t. destruct (string_len m d len) as [n|] eqn:En; [|done]. rewrite !some_bind.
    apply string_len_range in En. destruct (load m d (Z.to_nat n)) as [x|] eqn:El; [|done].
    rewrite some_bind. intros [= <-] Hc. apply load_ok in El as [Hb Hl].
    split; [|split; [cbn; lia|done]]. cbn [encode tail]. unfold short. rewrite Hl, Z2Nat.id by lia.
    apply put_writes; [done|apply be_bytes_ok|]. intros c1 Hc1. rewrite some_bind. now apply put_last. }
  destruct (t =? NGX_RTMP_AMF_NULL) eqn:E4.
  { bool_to_prop. subst t. intros [= <-] Hc. split; [now apply writes_nil|done]. }
  destruct (t =? NGX_RTMP_AMF_ARRAY_NULL) eqn:E5; [|done].
  bool_to_prop. subst t. intros [= <-] Hc. split; [now apply writes_nil|done].
Qed.

Lemma elts_spec n : forall e, (weight e <= n)%nat -> elt_spec e.
Proof.
  induction n as [|n IH]; intros [t nm d len] Hn; [cbn in Hn; lia|].
  assert (forall l, d = DElts l -> Forall elt_spec l) as Hl.
  { intros l ->. rewrite weight_elts in Hn. apply Forall_forall. intros e He. apply IH.
    assert (weight e <= weights l)%nat; [|lia]. clear -He. induction l as [|e' l IH];
      [now apply not_elem_of_nil in He|]. cbn [weights]. apply elem_of_cons in He as [-> |He]; [lia|].
    specialize (IH He). lia. }
  assert (bytes_ok [3] /\ bytes_ok [8] /\ bytes_ok [10] /\ bytes_ok [0; 0; 0; 0]) as (B3 & B8 & B10 & B0)
    by (split_and!; refine (bool_decide_unpack _ _); exact Logic.I).
  intros v c Ev Hc. cbn [write_elt]. destruct (is_container t) eqn:Ec.
  2: { destruct (leaf_writes t d len v c Ec Ev Hc) as (_ & Hv & Ht & Hu). split; [|done].
       rewrite Ht. assert (encode v = [vtype v] ++ tail (encode v)) as -> by now destruct v.
       pose proof Ec as Ec'. unfold is_container in Ec'. rewrite !orb_false_iff in Ec'.
       destruct Ec' as [[[T1 T2] T3] T4]. rewrite Hu, T1, T2, T3.
       apply put_writes; [done| |].
       - apply bytes_ok_cons. split; [|constructor]. rewrite <- Hu. unfold byte_ok. apply u8_bound.
       - intros c1 Hc1. eapply leaf_writes; eauto. }
  set (object := fun c : C => and_then match d with
                 | DNull => write_object (write_elt m) c []
                 | DElts l => write_object (write_elt m) c l
                 | _ => None
                 end (fun c => c ← amf_put c [NGX_RTMP_AMF_END]; Some (NGX_OK, c))).
  set (props := match d with
                | DNull => Some []
                | DElts l => denote_props (denote m) l
                | _ => None
                end).
  assert (forall c kvs, props = Some kvs -> sink_ok c ->
    writes (object c) c (encode_props kvs) /\ props_ok kvs) as Hobj.
  { intros c1 kvs Ek Hc1. unfold props, object in *. destruct d as [|a|a|l]; [|done|done|].
    - now apply (object_writes []).
    - apply object_writes; auto. }
  unfold is_container in Ec. rewrite !orb_true_iff in Ec.
  destruct Ec as [[[Et|Et]|Et]|Et]; bool_to_prop; subst t.
  - change (denote m _) with (kvs ← props; Some (VObj kvs)) in Ev.
    destruct props as [kvs|]; [|done]. rewrite some_bind in Ev. injection Ev as <-.
    split; [|now apply (Hobj c)]. rewrite encode_obj.
    apply (put_writes c [3]); auto. intros c1 Hc1. now apply Hobj.
  - change (denote m _) with (kvs ← props; Some (VMix [0; 0; 0; 0] kvs)) in Ev.
    destruct props as [kvs|]; [|done]. rewrite some_bind in Ev. injection Ev as <-.
    split; [|split; [done|now apply (Hobj c)]]. rewrite encode_mix.
    apply (put_writes c [8]); auto. intros c1 Hc1. apply (put_writes c1 [0; 0; 0; 0]); auto.
    intros c2 Hc2. now apply Hobj.
  - destruct d as [|a|a|l]; [|done|done|].
    + injection Ev as <-. split; [|done]. apply (put_writes c [10]); auto. intros c1 Hc1.
      change (concat _) with (@nil Z). rewrite app_nil_r. apply put_last; [done|apply be_bytes_ok].
    + change (denote m _) with
        (vs ← denote_items (denote m) l; if Z.of_nat (length l) <? 2 ^ 32 then Some (VArr vs) else None) in Ev.
      destruct (denote_items (denote m) l) as [vs|] eqn:Ei; [|done]. rewrite some_bind in Ev.
      revert Ev. case_if; [|done]. intros [= <-].
      destruct (items_write l (Hl l eq_refl) vs c Ei Hc) as (_ & Hok & Hlen).
      split; [|split; [lia|exact Hok]]. apply (put_writes c [10]); auto. intros c1 Hc1.
      rewrite <- Hlen, u32_small by lia. apply put_writes; [done|apply be_bytes_ok|]. intros c2 Hc2.
      now apply (items_write l (Hl l eq_refl)).
  - done.
Qed.

Lemma write_values : forall es vs c,
  denote_items (denote m) es = Some vs -> sink_ok c ->
  writes (ngx_rtmp_amf_write m c es) c (concat (map encode vs)) /\ Forall val_ok vs /\
  length vs = length es.
Proof.
  induction es as [|e es IH]; intros vs c; cbn [denote_items ngx_rtmp_amf_write].
  - intros [= <-] Hc. split; [now apply writes_nil|]. split; [constructor|done].
  - fold (denote_items (denote m)). destruct (denote m e) as [v|] eqn:Ev; [|done]. rewrite some_bind.
    destruct (denote_items (denote m) es) as [vs'|]; [|done]. rewrite some_bind. intros [= <-] Hc.
    destruct (elts_spec (weight e) e (Nat.le_refl _) v c Ev Hc) as [Hw Hv].
    destruct (IH vs' c eq_refl Hc) as (_ & Hok & Hlen). split; [|split; [auto|cbn; lia]].
    cbn [map concat]. apply and_then_writes; [exact Hw|]. intros c1 Hc1. now apply IH.
Qed.

(** Whatever the result, the sink stays in order. *)
Definition keeps (r : option (ngx_rc * C)) : Prop := forall rc c', r = Some (rc, c') -> sink_ok c'.

Lemma ret_keeps rc c : sink_ok c -> keeps (Some (rc, c)).
Proof. intros H rc' c' [= <- <-]. exact H. Qed.

Lemma put_keeps c p (k : C -> option (ngx_rc * C)) :
  sink_ok c -> bytes_ok p -> (forall c1, sink_ok c1 -> keeps (k c1)) -> keeps (c1 ← amf_put c p; k c1).
Proof.
  intros Hc Hp Hk. destruct (amf_put_spec c p Hc Hp) as (c1 & -> & H1 & _). rewrite some_bind. auto.
Qed.

Lemma and_then_keeps r (k : C -> option (ngx_rc * C)) :
  keeps r -> (forall c1, sink_ok c1 -> keeps (k c1)) -> keeps (and_then r k).
Proof.
  intros Hr Hk. unfold and_then. destruct r as [[rc c1]|]; [|done]. rewrite some_bind.
  pose proof (Hr rc c1 eq_refl) as H1. destruct rc; auto using ret_keeps.
Qed.

Lemma object_keeps (w : C -> ngx_rtmp_amf_elt_t -> option (ngx_rc * C)) l :
  Forall (fun e => bytes_ok (name e) /\ forall c, sink_ok c -> keeps (w c e)) l ->
  forall c, sink_ok c -> keeps (write_object w c l).
Proof.
  induction 1 as [|e l [Hn He] _ IH]; intros c Hc; cbn [write_object].
  - apply put_keeps; auto using ret_keeps. refine (bool_decide_unpack _ _); exact Logic.I.
  - apply put_keeps; [done|apply be_bytes_ok|]. intros c1 H1. apply put_keeps; [done|auto with lmss|].
    intros c2 H2. apply and_then_keeps; auto.
Qed.

Lemma items_keep (w : C -> ngx_rtmp_amf_elt_t -> option (ngx_rc * C)) l :
  Forall (fun e => bytes_ok (name e) /\ forall c, sink_ok c -> keeps (w c e)) l ->
  forall c, sink_ok c -> keeps (write_items w c l).
Proof.
  induction 1 as [|e l [Hn He] _ IH]; intros c Hc; cbn [write_items]; auto using ret_keeps.
  apply and_then_keeps; auto.
Qed.

Lemma leaf_keeps c t p len : sink_ok c -> keeps (write_leaf m c t p len).
Proof.
  intros Hc. unfold write_leaf.
  assert (forall n (f : list Z -> list Z), (forall d, bytes_ok d -> bytes_ok (f d)) ->
    keeps (d ← load m p n; c ← amf_put c (f d); Some (NGX_OK, c))) as Hput.
  { intros n f Hf. destruct (load m p n) as [d|] eqn:El; [|done]. rewrite some_bind.
    apply load_ok in El as [Hd _]. apply put_keeps; auto using ret_keeps. }
  pose proof (fun n => Hput n reverse (fun d Hd => proj2 (Forall_reverse _ d) Hd)) as Hnum.
  pose proof (fun n => Hput n (fun d => d) (fun d Hd => Hd)) as Hbyte.
  repeat case_if; auto using ret_keeps.
  destruct (string_len m p len) as [n|]; [|done]. rewrite some_bind.
  apply put_keeps; [done|apply be_bytes_ok|]. intros c1 H1.
  destruct (load m p (Z.to_nat n)) as [d|] eqn:El; [|done]. rewrite some_bind.
  apply load_ok in El as [Hd _]. apply put_keeps; auto using ret_keeps.
Qed.

(** The names in an element. *)
Fixpoint names_ok (e : ngx_rtmp_amf_elt_t) : Prop :=
  match e with
  | Elt _ nm d _ =>
      bytes_ok nm /\
      match d with
      | DElts l => (fix all (l : list ngx_rtmp_amf_elt_t) : Prop :=
                      match l with [] => True | e :: l => names_ok e /\ all l end) l
      | _ => True
      end
  end.

Lemma names_elts t nm l len : names_ok (Elt t nm (DElts l) len) -> Forall names_ok l.
Proof. intros [_ H]. induction l as [|e l IH]; [constructor|]. destruct H. auto. Qed.

Lemma names_name e : names_ok e -> bytes_ok (name e).
Proof. destruct e. now intros [H _]. Qed.

Lemma elt_keeps n : forall e, (weight e <= n)%nat -> names_ok e -> forall c, sink_ok c ->
  keeps (write_elt m c e).
Proof.
  induction n as [|n IH]; intros [t nm d len] Hn Hnames c Hc; [cbn in Hn; lia|].
  assert (forall l, d = DElts l ->
    Forall (fun e => bytes_ok (name e) /\ forall c, sink_ok c -> keeps (write_elt m c e)) l) as Hl.
  { intros l ->. rewrite weight_elts in Hn. apply names_elts in Hnames.
    assert (weights l <= n)%nat as Hw by lia. clear -IH Hw Hnames.
    induction Hnames as [|e l He Hl IHl]; [constructor|]. cbn [weights] in Hw.
    constructor; [|apply IHl; lia]. split; [now apply names_name|]. intros c Hc. apply IH; [lia|done|done]. }
  cbn [write_elt]. set (object := fun c : C => and_then match d with
                 | DNull => write_object (write_elt m) c []
                 | DElts l => write_object (write_elt m) c l
                 | _ => None
                 end (fun c => c ← amf_put c [NGX_RTMP_AMF_END]; Some (NGX_OK, c))).
  assert (forall c, sink_ok c -> keeps (object c)) as Hobj.
  { intros c1 H1. unfold object. apply and_then_keeps.
    - destruct d as [|a|a|l]; [|done|done|]; apply object_keeps; auto.
    - intros c2 H2. apply put_keeps; auto using ret_keeps. refine (bool_decide_unpack _ _); exact Logic.I. }
  set (rest := fun (t : Z) (c : C) =>
    if t =? NGX_RTMP_AMF_MIXED_ARRAY then c ← amf_put c [0; 0; 0; 0]; object c
    else if t =? NGX_RTMP_AMF_OBJECT then object c
    else if t =? NGX_RTMP_AMF_ARRAY then
      match d with
      | DNull => c ← amf_put c (be_bytes 4 0); Some (NGX_OK, c)
      | DElts l => c ← amf_put c (be_bytes 4 (u32 (Z.of_nat (length l)))); write_items (write_elt m) c l
      | _ => None
      end
    else write_leaf m c t d len).
  assert (forall t c, sink_ok c -> keeps (rest t c)) as Hrest.
  { intros t' c1 H1. unfold rest. repeat case_if; auto using leaf_keeps.
    - apply put_keeps; auto. refine (bool_decide_unpack _ _); exact Logic.I.
    - destruct d as [|a|a|l]; [|done|done|]; (apply put_keeps; [done|apply be_bytes_ok|]);
        auto using ret_keeps, items_keep. }
  destruct (has t NGX_RTMP_AMF_TYPELESS).
  - rewrite some_bind. now apply Hrest.
  - apply put_keeps; [done| |intros c1 H1; now apply Hrest].
    apply bytes_ok_cons. split; [|constructor]. unfold byte_ok. apply u8_bound.
Qed.

Lemma write_keeps es : Forall names_ok es -> forall c, sink_ok c -> keeps (ngx_rtmp_amf_write m c es).
Proof.
  induction 1 as [|e es He _ IH]; intros c Hc; cbn [ngx_rtmp_amf_write]; auto using ret_keeps.
  apply and_then_keeps; auto. now apply (elt_keeps (weight e)).
Qed.

End Encodes.

(* ------------------------------------------------------------------ *)
(** ** A chain of buffers *)

Section Chain.
(** What [ctx->alloc] returns. *)
Context (alloc : ngx_buf_t).

(** The links from [ctx->first] to [ctx->link]. *)
Abbreviation chain := (list ngx_buf_t).

(** The loop of [ngx_rtmp_amf_put]; [None] when the fuel ends. *)
Fixpoint put_loop (fuel : nat) (c : chain) (p : list Z) : option chain :=
  match p, fuel with
  | [], _ => Some c
  | _, O => None
  | _, S fuel =>
      let c := match last c with
               | Some b => if (b_last b =? b_end b)%nat then c ++ [alloc] else c
               | None => [alloc]
               end in
      b ← last c;
      let c' b := take (length c - 1) c ++ [b] in
      let size := buf_room b in
      if (length p <=? size)%nat then Some (c' (buf_push b p))
      else put_loop fuel (c' (buf_push b (take size p))) (drop size p)
  end.

Definition ngx_rtmp_amf_put (c : chain) (p : list Z) : option chain :=
  put_loop (length p) c p.

#[local] Instance chain_sink : Sink chain := ngx_rtmp_amf_put.

Hypothesis alloc_ok : buf_ok alloc.
Hypothesis alloc_empty : buf_data alloc = [].
Hypothesis alloc_room : (0 < buf_room alloc)%nat.

Definition chain_ok (c : chain) : Prop := Forall buf_ok c.
Definition chain_bytes (c : chain) : list Z := concat (map buf_data c).

(** The chain after a step that appends [d]. *)
Definition chain_wrote (c c' : chain) (d : list Z) : Prop :=
  chain_ok c' /\ chain_bytes c' = chain_bytes c ++ d.

Lemma chain_wrote_trans c1 c2 c3 d1 d2 : chain_wrote c1 c2 d1 -> chain_wrote c2 c3 d2 -> chain_wrote c1 c3 (d1 ++ d2).
Proof. intros [_ E1] [H E2]. split; [done|]. now rewrite E2, E1, app_assoc. Qed.

Lemma chain_bytes_snoc c b : chain_bytes (c ++ [b]) = chain_bytes c ++ buf_data b.
Proof. unfold chain_bytes. rewrite map_app, concat_app. cbn. now rewrite app_nil_r. Qed.

Lemma put_loop_spec : forall fuel c p, (length p <= fuel)%nat -> chain_ok c -> bytes_ok p ->
  exists c', put_loop fuel c p = Some c' /\ chain_wrote c c' p.
Proof.
  induction fuel as [|fuel IH]; intros c p Hf Hc Hp.
  { destruct p; [|cbn in Hf; lia]. exists c. split; [done|]. split; [done|now rewrite app_nil_r]. }
  destruct p as [|x p]; [exists c; split; [done|]; split; [done|now rewrite app_nil_r]|].
  set (q := x :: p) in *.
  (* the link to write to *)
  assert (exists c0 b, match last c with
      | Some b => if (b_last b =? b_end b)%nat then c ++ [alloc] else c
      | None => [alloc]
      end = c0 ++ [b] /\ Forall buf_ok c0 /\ buf_ok b /\ (0 < buf_room b)%nat /\
      chain_bytes (c0 ++ [b]) = chain_bytes c) as (c0 & b & E & Hc0 & Hb & Hr & Hbytes).
  { destruct (last c) as [b|] eqn:El.
    - apply last_Some in El as [c0 ->]. apply Forall_app in Hc as [Hc0 Hb]. apply Forall_cons in Hb as [Hb _].
      case_if.
      + exists (c0 ++ [b]), alloc. split; [done|]. split; [apply Forall_app; auto|]. split; [done|].
        split; [done|]. rewrite chain_bytes_snoc, alloc_empty. now rewrite app_nil_r.
      + exists c0, b. split; [done|]. split; [done|]. split; [done|]. split; [|done].
        destruct Hb as (_ & Hb & _). unfold buf_room. lia.
    - apply last_None in El as ->. exists [], alloc. split; [done|]. split; [constructor|].
      split; [done|]. split; [done|]. unfold chain_bytes. cbn. now rewrite alloc_empty. }
  change (put_loop (S fuel) c q) with
    (let c := match last c with
              | Some b => if (b_last b =? b_end b)%nat then c ++ [alloc] else c
              | None => [alloc]
              end in
     b ← last c;
     let c' b := take (length c - 1) c ++ [b] in
     let size := buf_room b in
     if (length q <=? size)%nat then Some (c' (buf_push b q))
     else put_loop fuel (c' (buf_push b (take size q))) (drop size q)).
  cbv zeta. rewrite E, last_snoc, some_bind, length_app. cbn [length].
  replace (length c0 + 1 - 1)%nat with (length c0) by lia. rewrite take_app_length.
  assert (forall y, (length y <= buf_room b)%nat -> bytes_ok y -> chain_wrote c (c0 ++ [buf_push b y]) y) as Hw.
  { intros y Hy Hyb. split.
    - apply Forall_app. split; [done|]. constructor; [now apply buf_push_ok|constructor].
    - rewrite <- Hbytes, !chain_bytes_snoc, buf_data_push by done. now rewrite app_assoc. }
  case_if.
  - eexists. split; [reflexivity|]. now apply Hw.
  - destruct (Hw (take (buf_room b) q)) as [H1 H2]; [len|auto with lmss|].
    destruct (IH (c0 ++ [buf_push b (take (buf_room b) q)]) (drop (buf_room b) q)) as (c' & -> & Hw');
      [len|done|auto with lmss|]. exists c'. split; [done|].
    rewrite <- (take_drop (buf_room b) q). eapply chain_wrote_trans; [split; [exact H1|exact H2]|done].
Qed.

Lemma chain_put_spec c p : chain_ok c -> bytes_ok p ->
  exists c', ngx_rtmp_amf_put c p = Some c' /\ chain_ok c' /\ chain_bytes c' = chain_bytes c ++ p.
Proof. intros. now apply put_loop_spec. Qed.

#[local] Instance chain_laws : SinkLaws chain :=
  {| sink_ok := chain_ok; sink_bytes := chain_bytes; amf_put_spec := chain_put_spec |}.

Context (m : memory).
Hypothesis mem_ok : forall a d, m !! a = Some d -> bytes_ok d.

(** [ngx_rtmp_amf_write] appends exactly the encoding of the values its
    elements stand for, wherever the buffers end. *)
Theorem amf_write_encodes es vs c :
  denote_items (denote m) es = Some vs -> chain_ok c ->
  exists c', ngx_rtmp_amf_write m c es = Some (NGX_OK, c') /\ chain_ok c' /\
    chain_bytes c' = chain_bytes c ++ concat (map encode vs).
Proof.
  intros Hd Hc. destruct (write_values (laws := chain_laws) m mem_ok es vs c Hd Hc) as ((c' & E & H1 & H2) & _). eauto.
Qed.

(** C20: what one side writes the other reads: the chain written for a list of
    elements is read back completely, and the reader's variables get the values
    the writer's elements stood for, for any elements the reader asks with. *)
Theorem amf_round_trip es vs :
  denote_items (denote m) es = Some vs ->
  exists c, ngx_rtmp_amf_write m [] es = Some (NGX_OK, c) /\
    forall es' m1 m2 sv fuel,
      Forall plain_opt es' -> length es' = length es -> assign_all m1 es' vs = Some m2 ->
      (4 * length (chain_bytes c) <= fuel)%nat ->
      exists x, ngx_rtmp_amf_read fuel (State (Ctx (map buf_data c) 0) m1 sv) es' =
        Some (Ret NGX_OK, State x m2 sv) /\ rest x = [].
Proof.
  intros Hd. destruct (write_values (laws := chain_laws) m mem_ok es vs [] Hd (Forall_nil_2 _)) as ((c & E & H1 & H2) & Hv & Hlen).
  exists c. split; [exact E|]. intros es' m1 m2 sv fuel Hp Hl Ha Hf.
  change (chain_bytes c = concat (map encode vs)) in H2. rewrite H2 in Hf.
  set (s := State (Ctx (map buf_data c) 0) m1 sv).
  assert (ctx_ok (ctx s)) as Hok by (destruct c; cbn; lia).
  assert (rest (ctx s) = concat (map encode vs) ++ []) as Hr.
  { rewrite app_nil_r. unfold rest. cbn [s ctx link offset]. rewrite drop_0. exact H2. }
  pose proof (read_values vs fuel s es' [] Hv Hp ltac:(congruence) Hok Hr Hf) as H.
  change (mem s) with m1 in H. rewrite Ha in H. destruct H as (x & -> & _ & Hx). eauto.
Qed.

End Chain.

(* ------------------------------------------------------------------ *)
(** ** Concrete elements *)

(** The variables of a command: a name in a buffer of 8 bytes, a number, and
    the member "app" of an object in a buffer of 4 bytes. *)
Definition vars : memory :=
  <[0%nat := replicate 8 0]> (<[1%nat := replicate 8 0]> {[2%nat := replicate 4 0]}).
Definition cmd_elts : list ngx_rtmp_amf_elt_t :=
  [Elt NGX_RTMP_AMF_STRING [] (DMem 0%nat) 8; Elt NGX_RTMP_AMF_NUMBER [] (DMem 1%nat) 0;
   Elt NGX_RTMP_AMF_OBJECT [] (DElts [Elt NGX_RTMP_AMF_STRING [97; 112; 112] (DMem 2%nat) 4]) 1].

(** "connect", 1.0, and an object with "fl" and "app". *)
Definition cmd_vals : list val :=
  [VStr [99; 111; 110; 110; 101; 99; 116]; VNum [63; 240; 0; 0; 0; 0; 0; 0];
   VObj [([102; 108], VBool 1); ([97; 112; 112], VStr [108; 105; 118; 101])]].

(** Two buffers that cut the encoding. *)
Definition cmd_bytes : list Z := concat (map encode cmd_vals).
Definition cmd_state : state :=
  State (Ctx [take 11 cmd_bytes; drop 11 cmd_bytes] 0) vars ∅.

Lemma cmd_vals_ok : Forall val_ok cmd_vals.
Proof. repeat constructor; cbn; lia. Qed.

Lemma cmd_elts_plain : Forall plain_opt (map Some cmd_elts).
Proof. repeat constructor. Qed.

(** The name is stored whole, "live" is cut to three bytes. *)
Lemma amf_read_assigns_witness :
  exists c m, ngx_rtmp_amf_read 200 cmd_state (map Some cmd_elts) = Some (Ret NGX_OK, State c m ∅) /\
    rest c = [] /\ m !! 0%nat = Some [99; 111; 110; 110; 101; 99; 116; 0] /\
    m !! 1%nat = Some [0; 0; 0; 0; 0; 0; 240; 63] /\ m !! 2%nat = Some [108; 105; 118; 0].
Proof.
  destruct (amf_read_assigns cmd_vals 200 cmd_state (map Some cmd_elts) []) as (c & E & _ & Hr).
  - apply cmd_vals_ok.
  - apply cmd_elts_plain.
  - reflexivity.
  - cbn. lia.
  - reflexivity.
  - vm_compute. lia.
  - do 2 eexists. split; [exact E|]. split; [exact Hr|]. split; [reflexivity|]. split; reflexivity.
Defined.

(** The variables of a program hold bytes. *)
Lemma vars_ok (m : memory) : map_Forall (fun _ d => bytes_ok d) m ->
  forall a d, m !! a = Some d -> bytes_ok d.
Proof. intros H a d E. exact (H a d E). Qed.

Definition var_size (a : addr) : option nat := length <$> vars !! a.

Lemma amf_read_safe_witness :
  exists r s', ngx_rtmp_amf_read (2 * left cmd_state + weights_opt (map Some cmd_elts) + 1)
      cmd_state (map Some cmd_elts) = Some (r, s') /\ r <> Overrun.
Proof.
  destruct (amf_read_safe var_size cmd_state (map Some cmd_elts)) as (r & s' & E & _ & _ & H).
  - split; [cbn; lia|]. split; [refine (bool_decide_unpack _ _); exact Logic.I|]. split; [reflexivity|].
    apply vars_ok. refine (bool_decide_unpack _ _); exact Logic.I.
  - exists r, s'. split; [exact E|]. apply H. constructor; [|constructor; [|constructor; [|constructor]]].
    + split; [reflexivity|]. split; [reflexivity|]. exists 8%nat. split; [reflexivity|].
      change (1 <= 8 <= Z.of_nat 8). lia.
    + split; [reflexivity|]. split; [reflexivity|]. exists 8%nat. split; [reflexivity|].
      change (8 <= 8)%nat. lia.
    + split; [reflexivity|]. split; [reflexivity|]. split; [|exact Logic.I].
      split; [reflexivity|]. split; [reflexivity|]. exists 4%nat. split; [reflexivity|].
      change (1 <= 4 <= Z.of_nat 4). lia.
Defined.

(** The same command written: the name is given by its NUL. *)
Definition out_vars : memory :=
  <[0%nat := [99; 111; 110; 110; 101; 99; 116; 0]]> (<[1%nat := [0; 0; 0; 0; 0; 0; 240; 63]]>
    {[2%nat := [108; 105; 118; 101]]}).
Definition out_elts : list ngx_rtmp_amf_elt_t :=
  [Elt NGX_RTMP_AMF_STRING [] (DMem 0%nat) 0; Elt NGX_RTMP_AMF_NUMBER [] (DMem 1%nat) 0;
   Elt NGX_RTMP_AMF_OBJECT [] (DElts [Elt NGX_RTMP_AMF_STRING [97; 112; 112] (DMem 2%nat) 4]) 1].
Definition out_vals : list val :=
  [VStr [99; 111; 110; 110; 101; 99; 116]; VNum [63; 240; 0; 0; 0; 0; 0; 0];
   VObj [([97; 112; 112], VStr [108; 105; 118; 101])]].

Lemma out_vars_ok : forall a d, out_vars !! a = Some d -> bytes_ok d.
Proof. apply vars_ok. refine (bool_decide_unpack _ _). exact Logic.I. Qed.

Lemma amf_write_encodes_witness :
  exists c', ngx_rtmp_amf_write (snk := chain_sink (buf_alloc 5 0)) out_vars [] out_elts = Some (NGX_OK, c') /\
    chain_bytes c' = concat (map encode out_vals).
Proof.
  destruct (amf_write_encodes (buf_alloc 5 0) (buf_alloc_ok 5 0 ltac:(lia)) eq_refl ltac:(cbn; lia)
    out_vars out_vars_ok out_elts out_vals []) as (c' & E & _ & H).
  - reflexivity.
  - constructor.
  - exists c'. split; [exact E|exact H].
Defined.

Lemma amf_round_trip_witness :
  exists c x m, ngx_rtmp_amf_write (snk := chain_sink (buf_alloc 5 0)) out_vars [] out_elts = Some (NGX_OK, c) /\
    ngx_rtmp_amf_read 200 (State (Ctx (map buf_data c) 0) vars ∅) (map Some cmd_elts) =
      Some (Ret NGX_OK, State x m ∅) /\ m !! 2%nat = Some [108; 105; 118; 0].
Proof.
  destruct (amf_round_trip (buf_alloc 5 0) (buf_alloc_ok 5 0 ltac:(lia)) eq_refl ltac:(cbn; lia)
    out_vars out_vars_ok out_elts out_vals eq_refl) as (c & E & H).
  destruct (H (map Some cmd_elts) vars _ ∅ 200%nat cmd_elts_plain eq_refl eq_refl) as (x & E2 & _).
  { vm_compute in E. injection E as <-. vm_compute. lia. }
  exists c, x. eexists. split; [exact E|]. split; [exact E2|]. reflexivity.
Defined.

(** A NULL pointer is followed when the data ends behind the name of a member
    nobody asked for: the object that is cut off in [{ a: ] makes
    [ngx_rtmp_amf_read] look at the type of an element that does not exist. *)
Theorem amf_null_access m sv :
  exists s', ngx_rtmp_amf_read 100
      (State (Ctx [[NGX_RTMP_AMF_OBJECT; 0; 1; 97]] 0) m sv)
      [Some (Elt NGX_RTMP_AMF_OBJECT [] (DElts [Elt NGX_RTMP_AMF_STRING [98] (DMem 0%nat) 4]) 1)] =
    Some (NullAccess, s').
Proof. eexists. vm_compute. reflexivity. Qed.

End Amf.
