(* ===== verification/Receive.v ===== *)
(** * Message handlers of the core (src/src/rtmp/ngx_rtmp_receive.c)

    The handlers [ngx_rtmp_init_event_handlers] (ngx_rtmp.c) registers behind
    those of the modules: protocol control messages, user control messages,
    aggregates and AMF commands.  They are handlers of the chunk layer
    (Chunk.v), so that the theorems there apply to them; the calls they make
    to the modules go to [hook].

    What a handler asks of the chunk layer is gathered as commands that run
    behind it; nothing a handler reads depends on them. *)

From Stdlib Require Import ZArith Lia.
From stdpp Require Import base numbers list gmap strings.
From S2P Require Import Prelude Text Chunk Amf.

Module Receive.

Import Text Chunk.

Definition NGX_RTMP_MSG_CHUNK_SIZE : Z := 1.
Definition NGX_RTMP_MSG_ABORT : Z := 2.
Definition NGX_RTMP_MSG_ACK : Z := 3.
Definition NGX_RTMP_MSG_USER : Z := 4.
Definition NGX_RTMP_MSG_ACK_SIZE : Z := 5.
Definition NGX_RTMP_MSG_BANDWIDTH : Z := 6.
Definition NGX_RTMP_MSG_AMF3_META : Z := 15.
Definition NGX_RTMP_MSG_AMF3_SHARED : Z := 16.
Definition NGX_RTMP_MSG_AMF3_CMD : Z := 17.
Definition NGX_RTMP_MSG_AMF_META : Z := 18.
Definition NGX_RTMP_MSG_AMF_SHARED : Z := 19.
Definition NGX_RTMP_MSG_AMF_CMD : Z := 20.
Definition NGX_RTMP_MSG_AGGREGATE : Z := 22.

Definition NGX_RTMP_USER_STREAM_BEGIN : Z := 0.
Definition NGX_RTMP_USER_STREAM_EOF : Z := 1.
Definition NGX_RTMP_USER_STREAM_DRY : Z := 2.
Definition NGX_RTMP_USER_SET_BUFLEN : Z := 3.
Definition NGX_RTMP_USER_RECORDED : Z := 4.
Definition NGX_RTMP_USER_PING_REQUEST : Z := 6.
Definition NGX_RTMP_USER_PING_RESPONSE : Z := 7.
Definition NGX_RTMP_USER_START_HLS_SLICE : Z := 32.

(** The calls of the user message handler. *)
Inductive call :=
  | StreamBegin (msid : Z)
  | StreamEof (msid : Z)
  | StreamDry (msid : Z)
  | StartHlsSlice (msid frag frag_ts : Z)
  | SetBuflen (msid buflen : Z)
  | Recorded (msid : Z)
  | SendPingResponse (timestamp : Z)
  | ResetPing.

(** [s->buflen] and the state of the modules. *)
Record modules (B : Type) := Mods { buflen : Z; others : B }.
Arguments Mods {B}.
Arguments buflen {B}.
Arguments others {B}.

(** The eight bytes [NGX_RTMP_USER_OUT8] writes: the lower half of the number
    first, each half in network order. *)
Definition val8 (l : list Z) : Z := be_val (take 4 l) + 2 ^ 32 * be_val (drop 4 l).

Section Handlers.
Context {B : Type}.
(** The chains of functions the modules put behind [ngx_rtmp_stream_begin] and
    the others, [ngx_rtmp_send_ping_response] and [ngx_rtmp_reset_ping]. *)
Context (hook : B -> call -> ngx_rc * B).
(** What the memory behind the bytes of a buffer holds. *)
Context (stale : nat -> Z).

Abbreviation A := (modules B).
Abbreviation handler := (ngx_rtmp_handler_pt A).

(** [in->buf]; the chunk layer passes at least one buffer. *)
Definition in_buf0 (chain : list (list Z)) : list Z :=
  match chain with b :: _ => b | [] => [] end.

Definition ngx_rtmp_protocol_message_handler : handler := fun a h chain =>
  let b := in_buf0 chain in
  if (length b <? 4)%nat then (NGX_OK, a, [])
  else
    let val := u32 (be_val (take 4 b)) in
    if type h =? NGX_RTMP_MSG_CHUNK_SIZE then (NGX_OK, a, [SetChunkSize val])
    else if type h =? NGX_RTMP_MSG_ABORT then (NGX_OK, a, [])
    else if type h =? NGX_RTMP_MSG_ACK then (NGX_OK, a, [])
    else if type h =? NGX_RTMP_MSG_ACK_SIZE then (NGX_OK, a, [SetAckSize val])
    else if type h =? NGX_RTMP_MSG_BANDWIDTH then (NGX_OK, a, [])
    else (NGX_ERROR, a, []).

(** [b->pos[i .. i + n - 1]], also behind [b->last]. *)
Definition peek (b : list Z) (i n : nat) : list Z :=
  map (fun i => nth i b (stale i)) (seq i n).

Definition call_hook (a : A) (c : call) : ngx_rc * A * list command :=
  let '(rc, m) := hook (others a) c in (rc, Mods (buflen a) m, []).

Definition ngx_rtmp_user_message_handler : handler := fun a h chain =>
  let b := in_buf0 chain in
  if (length b <? 6)%nat then (NGX_OK, a, [])
  else
    let evt := be_val (peek b 0 2) in
    let val := be_val (peek b 2 4) in
    if evt =? NGX_RTMP_USER_STREAM_BEGIN then call_hook a (StreamBegin val)
    else if evt =? NGX_RTMP_USER_STREAM_EOF then call_hook a (StreamEof val)
    else if evt =? NGX_RTMP_USER_STREAM_DRY then call_hook a (StreamDry val)
    else if evt =? NGX_RTMP_USER_START_HLS_SLICE then
      call_hook a (StartHlsSlice val (val8 (peek b 6 8)) (val8 (peek b 14 8)))
    else if evt =? NGX_RTMP_USER_SET_BUFLEN then
      if (length b <? 10)%nat then (NGX_OK, a, [])
      else
        let v := be_val (peek b 6 4) in
        call_hook (Mods v (others a)) (SetBuflen val v)
    else if evt =? NGX_RTMP_USER_RECORDED then call_hook a (Recorded val)
    else if evt =? NGX_RTMP_USER_PING_REQUEST then call_hook a (SendPingResponse val)
    else if evt =? NGX_RTMP_USER_PING_RESPONSE then
      let '(_, a, cs) := call_hook a ResetPing in (NGX_OK, a, cs)
    else (NGX_OK, a, []).

(* ------------------------------------------------------------------ *)
(** ** Aggregates *)

(** [None] is NGX_DONE, the chain being used up. *)
Fixpoint ngx_rtmp_fetch (chain : list (list Z)) : option (Z * list (list Z)) :=
  match chain with
  | [] => None
  | [] :: chain => ngx_rtmp_fetch chain
  | (x :: b) :: chain => Some (x, b :: chain)
  end.

(** The bytes go to [r[n - 1] .. r[0]] of a little-endian number. *)
Fixpoint fetch_uint (n : nat) (v : Z) (chain : list (list Z)) : option (Z * list (list Z)) :=
  match n with
  | O => Some (v, chain)
  | S n => '(x, chain) ← ngx_rtmp_fetch chain; fetch_uint n (v * 256 + x) chain
  end.
Definition ngx_rtmp_fetch_uint32 (n : nat) (chain : list (list Z)) : option (Z * list (list Z)) :=
  fetch_uint n 0 chain.

(** The header of an aggregated message behind its type: length, timestamp and
    message stream. *)
Definition fetch_header (chain : list (list Z)) : option (Z * Z * Z * list (list Z)) :=
  '(mlen, chain) ← ngx_rtmp_fetch_uint32 3 chain;
  '(low, chain) ← ngx_rtmp_fetch_uint32 3 chain;
  '(high, chain) ← ngx_rtmp_fetch chain;
  '(msid, chain) ← ngx_rtmp_fetch_uint32 3 chain;
  Some (mlen, high * 2 ^ 24 + low, msid, chain).

(** The loop that limits the chain to [mlen] bytes: the buffers of the message
    and those from behind it on; [len] bytes are in [pre]. *)
Fixpoint limit_chain (mlen len : Z) (pre chain : list (list Z))
  : option (list (list Z) * list (list Z)) :=
  match chain with
  | [] => None
  | b :: chain =>
      let len' := len + Z.of_nat (length b) in
      if mlen <? len' then
        let n := Z.to_nat (Z.of_nat (length b) - (len' - mlen)) in
        Some (pre ++ [take n b], drop n b :: chain)
      else limit_chain mlen len' (pre ++ [b]) chain
  end.

(** [base_time] is [None] before the first message.  [rcv] is
    [ngx_rtmp_receive_message]. *)
Fixpoint aggregate_loop (fuel : nat) (rcv : handler) (h : ngx_rtmp_header_t) (base_time : option Z)
    (a : A) (cs : list command) (chain : list (list Z)) : option (ngx_rc * A * list command) :=
  match chain with
  | [] => Some (NGX_OK, a, cs)
  | _ =>
      match fuel with
      | O => None
      | S fuel =>
          match ngx_rtmp_fetch chain with
          | None => Some (NGX_OK, a, cs)
          | Some (ty, chain) =>
              match fetch_header chain with
              | None => Some (NGX_ERROR, a, cs)
              | Some (mlen, ts, msid, chain) =>
                  let base := match base_time with Some b => b | None => ts end in
                  match limit_chain mlen 0 [] chain with
                  | None => Some (NGX_ERROR, a, cs)
                  | Some (sub, chain) =>
                      let ch := Hdr (csid h) (u32 (timestamp h + ts - base)) mlen ty msid in
                      let '(rc, a, cs') := rcv a ch sub in
                      if decide (rc = NGX_OK) then
                        match ngx_rtmp_fetch_uint32 4 chain with
                        | None => Some (NGX_OK, a, cs ++ cs')
                        | Some (_, chain) =>
                            aggregate_loop fuel rcv h (Some base) a (cs ++ cs') chain
                        end
                      else Some (rc, a, cs ++ cs')
                  end
              end
          end
      end
  end.

(** Every pass takes a byte from the chain, so that the fuel does not end
    (see [nesting_bounded]). *)
Definition ngx_rtmp_aggregate_message_handler (rcv : handler) : handler := fun a h chain =>
  match aggregate_loop (S (length (concat chain))) rcv h None a [] chain with
  | Some r => r
  | None => (NGX_ERROR, a, [])
  end.

(* ------------------------------------------------------------------ *)
(** ** AMF commands *)

Definition lower (c : Z) : Z := if (65 <=? c) && (c <=? 90) then Z.lor c 0x20 else c.

(** [cmcf->amf_arrays]: the handlers in [cmcf->amf] grouped by name. *)
Fixpoint add_amf (name : list Z) (eh : handler) (arrays : list (list Z * list handler))
  : list (list Z * list handler) :=
  match arrays with
  | [] => [(name, [eh])]
  | (k, l) :: arrays =>
      if bool_decide (name = k) then (k, l ++ [eh]) :: arrays
      else (k, l) :: add_amf name eh arrays
  end.
Definition amf_arrays (amf : list (list Z * handler)) : list (list Z * list handler) :=
  foldl (fun arrays '(name, eh) => add_amf name eh arrays) [] amf.

(** [ngx_hash_find] in the hash of the names in lower case. *)
Definition hash_find (arrays : list (list Z * list handler)) (name : list Z) : list handler :=
  match List.find (fun x => bool_decide (map lower (fst x) = name)) arrays with
  | Some (_, l) => l
  | None => []
  end.

Fixpoint call_all (a : A) (h : ngx_rtmp_header_t) (chain : list (list Z)) (phs : list handler)
    (cs : list command) : ngx_rc * A * list command :=
  match phs with
  | [] => (NGX_OK, a, cs)
  | ph :: phs =>
      let '(rc, a, cs') := ph a h chain in
      match rc with
      | NGX_ERROR => (NGX_ERROR, a, cs ++ cs')
      | NGX_DONE => (NGX_OK, a, cs ++ cs')
      | _ => call_all a h chain phs (cs ++ cs')
      end
  end.

Definition is_amf3 (ty : Z) : bool :=
  (ty =? NGX_RTMP_MSG_AMF3_SHARED) || (ty =? NGX_RTMP_MSG_AMF3_META) || (ty =? NGX_RTMP_MSG_AMF3_CMD).
Definition is_shared (ty : Z) : bool :=
  (ty =? NGX_RTMP_MSG_AMF_SHARED) || (ty =? NGX_RTMP_MSG_AMF3_SHARED).

(** The static array [func] and the element for it. *)
Definition func_size : nat := 128.
Definition func_elt (ty : Z) : Amf.ngx_rtmp_amf_elt_t :=
  Amf.Elt (if is_shared ty then Z.lor Amf.NGX_RTMP_AMF_STRING Amf.NGX_RTMP_AMF_TYPELESS
           else Amf.NGX_RTMP_AMF_STRING)
    [] (Amf.DMem 0%nat) (Z.of_nat func_size).

(** The name takes no more steps of the reader than the chain has bytes. *)
Definition read_func (ty : Z) (chain : list (list Z)) : option (list Z * list (list Z)) :=
  let s := Amf.State (Amf.Ctx chain 0) {[0%nat := replicate func_size 0]} ∅ in
  match Amf.ngx_rtmp_amf_read (2 * length (concat chain) + 5) s [Some (func_elt ty)] with
  | Some (Amf.Ret NGX_OK, s) =>
      m ← Amf.mem s !! 0%nat;
      match Amf.link (Amf.ctx s) with
      | b :: chain => Some (cstr m, drop (Amf.offset (Amf.ctx s)) b :: chain)
      | [] => None
      end
  | _ => None
  end.

Definition ngx_rtmp_amf_message_handler (amf : list (list Z * handler)) : handler := fun a h chain =>
  let chain :=
    match chain with
    | (_ :: b) :: rest => if is_amf3 (type h) then b :: rest else chain
    | _ => chain
    end in
  match read_func (type h) chain with
  | None => (NGX_ERROR, a, [])
  | Some (func, chain) =>
      call_all a h chain (hash_find (amf_arrays amf) (map lower func)) []
  end.

(** What the handlers of commands read the rest of their message with. *)
Definition ngx_rtmp_receive_amf (fuel : nat) (m : Amf.memory) (chain : list (list Z))
    (elts : list (option Amf.ngx_rtmp_amf_elt_t)) : option (Amf.result * Amf.state) :=
  Amf.ngx_rtmp_amf_read fuel (Amf.State (Amf.Ctx chain 0) m ∅) elts.

(* ------------------------------------------------------------------ *)
(** ** The table of handlers *)

Definition receive_message (events : Z -> list handler) : handler := fun a h chain =>
  if NGX_RTMP_MSG_MAX <? type h then (NGX_OK, a, [])
  else call_all a h chain (events (type h)) [].

Context (amf : list (list Z * handler)).
(** The handlers the modules registered. *)
Context (mods : Z -> list handler).

Definition pm_events : list Z :=
  [NGX_RTMP_MSG_CHUNK_SIZE; NGX_RTMP_MSG_ABORT; NGX_RTMP_MSG_ACK; NGX_RTMP_MSG_ACK_SIZE;
   NGX_RTMP_MSG_BANDWIDTH].
Definition amf_events : list Z :=
  [NGX_RTMP_MSG_AMF_CMD; NGX_RTMP_MSG_AMF_META; NGX_RTMP_MSG_AMF_SHARED; NGX_RTMP_MSG_AMF3_CMD;
   NGX_RTMP_MSG_AMF3_META; NGX_RTMP_MSG_AMF3_SHARED].

Definition core_handlers (rcv : handler) (ty : Z) : list handler :=
  (if bool_decide (ty ∈ pm_events) then [ngx_rtmp_protocol_message_handler] else []) ++
  (if bool_decide (ty ∈ amf_events) then [ngx_rtmp_amf_message_handler amf] else []) ++
  (if ty =? NGX_RTMP_MSG_USER then [ngx_rtmp_user_message_handler] else []) ++
  (if ty =? NGX_RTMP_MSG_AGGREGATE then [ngx_rtmp_aggregate_message_handler rcv] else []).

(** [cmcf->events], for aggregates nested [depth] deep. *)
Fixpoint events (depth : nat) (ty : Z) : list handler :=
  mods ty ++
  core_handlers (receive_message (match depth with O => fun _ => [] | S d => events d end)) ty.

End Handlers.

(* ------------------------------------------------------------------ *)
(** ** Reading a chain *)

Lemma fetch_spec x r : forall chain, concat chain = x :: r ->
  exists c, ngx_rtmp_fetch chain = Some (x, c) /\ concat c = r.
Proof.
  induction chain as [|[|y b] chain IH]; intros H; [done|exact (IH H)|].
  cbn in H. injection H as -> Hr. exists (b :: chain). now split.
Qed.

Lemma fetch_end : forall chain, concat chain = [] -> ngx_rtmp_fetch chain = None.
Proof. induction chain as [|[|y b] chain IH]; intros H; [done|exact (IH H)|done]. Qed.

Lemma fetch_uint_spec d r : forall v chain, concat chain = d ++ r ->
  exists c, fetch_uint (length d) v chain = Some (foldl (fun a b => a * 256 + b) v d, c) /\
    concat c = r.
Proof.
  induction d as [|x d IH]; intros v chain H; cbn [length fetch_uint foldl]; [now exists chain|].
  destruct (fetch_spec x (d ++ r) chain H) as (c & -> & Hc). rewrite some_bind. now apply IH.
Qed.

Lemma fetch_be n v r chain : concat chain = be_bytes n v ++ r -> 0 <= v < 2 ^ (8 * Z.of_nat n) ->
  exists c, ngx_rtmp_fetch_uint32 n chain = Some (v, c) /\ concat c = r.
Proof.
  intros H Hv. destruct (fetch_uint_spec _ _ 0 _ H) as (c & E & Hc). exists c. split; [|done].
  rewrite length_be_bytes in E. unfold ngx_rtmp_fetch_uint32. rewrite E. do 2 f_equal.
  change (be_val (be_bytes n v) = v). rewrite be_val_be_bytes. now apply Z.mod_small.
Qed.

(** The chain is cut behind the bytes [d], if something is left of it. *)
Lemma limit_spec r : r <> [] -> forall chain d len pre, concat chain = d ++ r -> 0 <= len ->
  exists sub c, limit_chain (len + Z.of_nat (length d)) len pre chain = Some (pre ++ sub, c) /\
    concat sub = d /\ concat c = r.
Proof.
  intros Hr. induction chain as [|b chain IH]; intros d len pre H Hlen; cbn [concat limit_chain] in *.
  { symmetry in H. apply app_nil in H as [-> ->]. done. }
  case_if.
  - replace (Z.to_nat _) with (length d) by lia. exists [take (length d) b]. eexists.
    split; [reflexivity|]. cbn [concat]. rewrite app_nil_r.
    pose proof (f_equal (take (length d)) H) as Ht. pose proof (f_equal (drop (length d)) H) as Hd.
    rewrite take_app_length, take_app_le in Ht by lia.
    rewrite drop_app_length, drop_app_le in Hd by lia. done.
  - pose proof (f_equal (take (length b)) H) as Ht. pose proof (f_equal (drop (length b)) H) as Hd.
    rewrite take_app_length, take_app_le in Ht by lia.
    rewrite drop_app_length, drop_app_le in Hd by lia.
    destruct (IH (drop (length b) d) (len + Z.of_nat (length b)) (pre ++ [b]) Hd ltac:(lia))
      as (sub & c & El & Hs & Hc).
    exists (b :: sub), c. rewrite length_drop in El.
    replace (len + Z.of_nat (length b) + Z.of_nat (length d - length b))
      with (len + Z.of_nat (length d)) in El by lia.
    rewrite El, <- app_assoc. split; [done|]. split; [|done]. cbn [concat]. rewrite Hs, Ht at 1.
    apply take_drop.
Qed.

(* ------------------------------------------------------------------ *)
(** ** Specification of aggregates *)

(** A message in an aggregate, with the back pointer behind it. *)
Record tag := Tag {
  t_type : Z;
  t_time : Z;
  t_msid : Z;
  t_data : list Z;
  t_prev : list Z
}.

Definition encode_tag (t : tag) : list Z :=
  t_type t :: be_bytes 3 (Z.of_nat (length (t_data t))) ++ be_bytes 3 (t_time t mod 2 ^ 24) ++
  [t_time t / 2 ^ 24] ++ be_bytes 3 (t_msid t) ++ t_data t ++ t_prev t.

Record tag_ok (t : tag) : Prop := {
  tag_time : 0 <= t_time t < 2 ^ 32;
  tag_msid : 0 <= t_msid t < 2 ^ 24;
  tag_len : Z.of_nat (length (t_data t)) < 2 ^ 24;
  tag_prev : length (t_prev t) = 4%nat
}.

Section Aggregates.
Context {B : Type} (rcv : ngx_rtmp_handler_pt (modules B)).

(** The messages one after the other, with the timestamps moved so that the
    first has that of the aggregate; the first result other than NGX_OK ends
    it.  A message comes with the chain that holds it. *)
Fixpoint deliver (h : ngx_rtmp_header_t) (base : Z) (a : modules B) (cs : list command)
    (l : list (tag * list (list Z))) : ngx_rc * modules B * list command :=
  match l with
  | [] => (NGX_OK, a, cs)
  | (t, sub) :: l =>
      let ch := Hdr (csid h) (u32 (timestamp h + t_time t - base))
                  (Z.of_nat (length (t_data t))) (t_type t) (t_msid t) in
      let '(rc, a, cs') := rcv a ch sub in
      if decide (rc = NGX_OK) then deliver h base a (cs ++ cs') l else (rc, a, cs ++ cs')
  end.

Definition holds (t : tag) (sub : list (list Z)) : Prop := concat sub = t_data t.

Lemma header_fetched t r chain : tag_ok t -> concat chain =
    be_bytes 3 (Z.of_nat (length (t_data t))) ++ be_bytes 3 (t_time t mod 2 ^ 24) ++
    [t_time t / 2 ^ 24] ++ be_bytes 3 (t_msid t) ++ r ->
  exists c, fetch_header chain =
    Some (Z.of_nat (length (t_data t)), t_time t, t_msid t, c) /\ concat c = r.
Proof.
  intros [Ht Hm Hl Hp] H. unfold fetch_header.
  destruct (fetch_be 3 _ _ _ H) as (c1 & -> & H1); [lia|]. rewrite some_bind.
  destruct (fetch_be 3 _ _ _ H1) as (c2 & -> & H2); [now apply Z.mod_pos_bound|]. rewrite some_bind.
  destruct (fetch_spec _ _ _ H2) as (c3 & -> & H3). rewrite some_bind.
  destruct (fetch_be 3 _ _ _ H3) as (c4 & -> & H4); [lia|]. rewrite some_bind.
  exists c4. split; [|done]. do 4 f_equal. pose proof (Z.div_mod (t_time t) (2 ^ 24)). lia.
Qed.

(** One message. *)
Lemma aggregate_step fuel h base a cs t r chain : tag_ok t -> concat chain = encode_tag t ++ r ->
  exists sub c, holds t sub /\ concat c = r /\
    aggregate_loop (S fuel) rcv h base a cs chain =
    let b := match base with Some b => b | None => t_time t end in
    let ch := Hdr (csid h) (u32 (timestamp h + t_time t - b))
                (Z.of_nat (length (t_data t))) (t_type t) (t_msid t) in
    let '(rc, a, cs') := rcv a ch sub in
    if decide (rc = NGX_OK) then aggregate_loop fuel rcv h (Some b) a (cs ++ cs') c
    else Some (rc, a, cs ++ cs').
Proof.
  intros Ht H. unfold encode_tag in H. rewrite <- app_comm_cons, <- !app_assoc in H.
  destruct (fetch_spec _ _ _ H) as (c1 & E1 & H1).
  destruct (header_fetched t _ _ Ht H1) as (c2 & E2 & H2). pose proof (tag_prev _ Ht) as Hp.
  destruct (limit_spec (t_prev t ++ r) ltac:(now destruct (t_prev t)) c2 (t_data t) 0 [] H2
    ltac:(lia)) as (sub & c3 & E3 & H3 & H4).
  destruct (fetch_uint_spec _ _ 0 _ H4) as (c4 & E4 & H5). rewrite Hp in E4.
  exists sub, c4. split; [done|]. split; [done|].
  destruct chain as [|b0 chain]; [done|]. cbn [aggregate_loop]. rewrite E1, E2.
  rewrite Z.add_0_l in E3. rewrite E3. cbn [Datatypes.app]. destruct (rcv _ _ _) as [[rc a'] cs'].
  case_decide; [|done]. unfold ngx_rtmp_fetch_uint32. now rewrite E4.
Qed.

Lemma aggregate_delivers h base : forall ts fuel a cs chain,
  Forall tag_ok ts -> concat chain = concat (map encode_tag ts) -> (length ts < fuel)%nat ->
  exists subs, Forall2 holds ts subs /\
    aggregate_loop fuel rcv h (Some base) a cs chain = Some (deliver h base a cs (zip ts subs)).
Proof.
  induction ts as [|t ts IH]; intros fuel a cs chain Hts H Hf.
  - exists []. split; [constructor|]. destruct fuel; [lia|]. cbn in H.
    destruct chain as [|b chain]; [done|]. cbn [aggregate_loop]. now rewrite fetch_end.
  - apply Forall_cons in Hts as [Ht Hts]. destruct fuel as [|fuel]; [lia|]. cbn [map concat] in H.
    destruct (aggregate_step fuel h (Some base) a cs t _ chain Ht H) as (sub & c & Hs & Hc & ->).
    cbv zeta iota. destruct (rcv _ _ _) as [[rc a'] cs'] eqn:Er. case_decide as Ed.
    + destruct (IH fuel a' (cs ++ cs') c Hts Hc) as (subs & Hsubs & E); [cbn in Hf; lia|].
      exists (sub :: subs). split; [now constructor|]. cbn [zip zip_with deliver].
      rewrite Er, E. now rewrite decide_True.
    + destruct (IH fuel a' (cs ++ cs') c Hts Hc) as (subs & Hsubs & _); [cbn in Hf; lia|].
      exists (sub :: subs). split; [now constructor|]. cbn [zip zip_with deliver].
      rewrite Er. now rewrite decide_False.
Qed.

Lemma encode_tag_len t : (1 <= length (encode_tag t))%nat.
Proof. cbn. lia. Qed.

Lemma tags_len ts : (length ts <= length (concat (map encode_tag ts)))%nat.
Proof.
  induction ts as [|t ts IH]; [done|]. cbn [map concat]. rewrite length_app.
  pose proof (encode_tag_len t). cbn [length]. lia.
Qed.

(** C30: an aggregate is taken apart into its messages: however its bytes are
    spread over buffers, the messages are received in order, each with its
    type, length and message stream, a timestamp moved by the same amount,
    and a chain with exactly its bytes; the first message that is not handled
    ends the aggregate with its result. *)
Theorem aggregate_splits a h chain t ts :
  Forall tag_ok (t :: ts) -> concat chain = concat (map encode_tag (t :: ts)) ->
  exists subs, Forall2 holds (t :: ts) subs /\
    ngx_rtmp_aggregate_message_handler rcv a h chain =
    deliver h (t_time t) a [] (zip (t :: ts) subs).
Proof.
  intros Hts H. unfold ngx_rtmp_aggregate_message_handler.
  pose proof (tags_len (t :: ts)) as Hl. rewrite <- H in Hl.
  apply Forall_cons in Hts as [Ht Hts]. cbn [map concat] in H.
  destruct (aggregate_step (length (concat chain)) h None a [] t _ chain Ht H)
    as (sub & c & Hs & Hc & ->). cbv zeta iota.
  destruct (rcv _ _ _) as [[rc a'] cs'] eqn:Er.
  destruct (aggregate_delivers h (t_time t) ts (length (concat chain)) a' ([] ++ cs') c Hts Hc)
    as (subs & Hsubs & E); [cbn in Hl; lia|].
  exists (sub :: subs). split; [now constructor|]. cbn [zip zip_with deliver]. rewrite Er.
  case_decide as Ed; [now rewrite E|done].
Qed.

End Aggregates.

(* ------------------------------------------------------------------ *)
(** ** Commands by name *)

Section Names.
Context {B : Type}.
Implicit Types (eh : ngx_rtmp_handler_pt (modules B)).
Implicit Types (amf : list (list Z * ngx_rtmp_handler_pt (modules B))).

(** No two names differ in the case of their letters only. *)
Definition case_ok (names : list (list Z)) : Prop :=
  forall n k, n ∈ names -> k ∈ names -> map lower n = map lower k -> n = k.

Lemma find_add_amf n eh x : forall arrays,
  (forall k, k ∈ map fst arrays -> map lower k = map lower n -> k = n) ->
  hash_find (add_amf n eh arrays) x =
  hash_find arrays x ++ (if bool_decide (map lower n = x) then [eh] else []).
Proof.
  unfold hash_find. induction arrays as [|[k l] arrays IH]; intros Hk; cbn [add_amf].
  - cbn [List.find fst]. now case_bool_decide.
  - assert (forall k, k ∈ map fst arrays -> map lower k = map lower n -> k = n) as Hk'
      by (intros; apply Hk; [now apply list_elem_of_further|done]).
    specialize (Hk k (list_elem_of_here _ _)). destruct (bool_decide (n = k)) eqn:Enk; cbn [List.find fst].
    + apply bool_decide_eq_true in Enk as ->. case_bool_decide; [done|]. now rewrite app_nil_r.
    + apply bool_decide_eq_false in Enk.
      destruct (bool_decide (map lower k = x)) eqn:E1; [|now apply IH].
      apply bool_decide_eq_true in E1.
      rewrite bool_decide_false; [now rewrite app_nil_r|]. intros E2. apply Enk. symmetry. apply Hk. congruence.
Qed.

Lemma add_amf_keys n eh k : forall arrays,
  k ∈ map fst (add_amf n eh arrays) -> k = n \/ k ∈ map fst arrays.
Proof.
  induction arrays as [|[k' l] arrays IH]; cbn [add_amf map fst].
  - intros ->%list_elem_of_singleton. now left.
  - case_bool_decide; cbn [map fst]; [now right|].
    intros [-> |H']%elem_of_cons; [right; apply list_elem_of_here|].
    destruct (IH H'); [now left|right; now apply list_elem_of_further].
Qed.

Lemma amf_arrays_snoc amf n eh : amf_arrays (amf ++ [(n, eh)]) = add_amf n eh (amf_arrays amf).
Proof. unfold amf_arrays. now rewrite foldl_app. Qed.

Lemma amf_arrays_keys k : forall amf, k ∈ map fst (amf_arrays amf) -> k ∈ map fst amf.
Proof.
  induction amf as [|[n eh] amf IH] using rev_ind; [done|].
  rewrite amf_arrays_snoc, map_app, elem_of_app.
  intros [-> |H]%add_amf_keys; [right; apply list_elem_of_here|left; auto].
Qed.

(** The handlers of a name, in the order of their registration. *)
Definition named (name : list Z) amf : list (ngx_rtmp_handler_pt (modules B)) :=
  map snd (List.filter (fun x => bool_decide (map lower (fst x) = map lower name)) amf).

Lemma hash_find_named name : forall amf, case_ok (map fst amf) ->
  hash_find (amf_arrays amf) (map lower name) = named name amf.
Proof.
  induction amf as [|[n eh] amf IH] using rev_ind; intros Hc; [done|].
  rewrite map_app in Hc.
  rewrite amf_arrays_snoc, find_add_amf, IH.
  - unfold named. rewrite List.filter_app, map_app. f_equal. cbn [List.filter fst].
    now case_bool_decide.
  - intros n1 n2 H1 H2. apply Hc; apply elem_of_app; auto.
  - intros k Hk%amf_arrays_keys. apply Hc; apply elem_of_app; [auto|right; apply list_elem_of_here].
Qed.

End Names.

(* ------------------------------------------------------------------ *)
(** ** The name of a command *)

Definition linked (s : Amf.state) : Prop := Amf.link (Amf.ctx s) <> [].

Lemma get_loop_linked : forall l off n acc rc d c,
  Amf.get_loop l off n acc = (rc, d, Some c) -> Amf.link c <> [].
Proof.
  induction l as [|b l IH]; intros off n acc rc d c; cbn [Amf.get_loop]; [done|].
  case_if; [now intros [= _ _ <-]|apply IH].
Qed.

Lemma get_linked s n rc d s' : Amf.ngx_rtmp_amf_get s n = (rc, d, s') -> linked s -> linked s'.
Proof.
  unfold Amf.ngx_rtmp_amf_get. case_if; [now intros [= _ _ <-]|].
  destruct (Amf.get_loop _ _ _ _) as [[rc' d'] [c|]] eqn:El; intros [= _ _ <-] Hs; [|done].
  exact (get_loop_linked _ _ _ _ _ _ _ El).
Qed.

Lemma store_linked s p i d s' : Amf.store s p i d = Some s' -> linked s -> linked s'.
Proof. unfold Amf.store. destruct (Amf.store_mem _ _ _ _); [now intros [= <-]|done]. Qed.

Lemma get_to_linked s p n rc s' : Amf.get_to s p n = Some (rc, s') -> linked s -> linked s'.
Proof.
  unfold Amf.get_to. destruct (Amf.ngx_rtmp_amf_get _ _) as [[rc' d] s1] eqn:E1.
  destruct (Amf.store s1 p 0 d) as [s2|] eqn:E2; [|done]. intros [= _ <-] Hs.
  eapply store_linked, get_linked; eassumption.
Qed.

Lemma chars_linked s p n m x s' : Amf.get_chars s p n m = (x, s') -> linked s -> linked s'.
Proof.
  unfold Amf.get_chars. intros H Hs.
  repeat match type of H with
  | context [match ?b with _ => _ end] => let E := fresh "E" in destruct b eqn:E
  end; injection H as <- <-;
    repeat match goal with
    | H : Amf.get_to _ _ _ = Some _ |- _ => apply get_to_linked in H; [|assumption]
    | H : Amf.store _ _ _ _ = Some _ |- _ => apply store_linked in H; [|assumption]
    | H : Amf.ngx_rtmp_amf_get _ _ = _ |- _ => apply get_linked in H; [|assumption]
    end; assumption.
Qed.

Lemma string_linked s p n x s' : Amf.get_string s p n = (x, s') -> linked s -> linked s'.
Proof.
  unfold Amf.get_string. intros H Hs.
  destruct (Amf.ngx_rtmp_amf_get s 2) as [[rc d] s1] eqn:E1. apply get_linked in E1; [|done].
  destruct rc; try now injection H as <- <-.
  destruct p; try now (eapply chars_linked in H).
  destruct (Amf.ngx_rtmp_amf_get s1 _) as [[rc d'] s2] eqn:E2. apply get_linked in E2; [|done].
  destruct rc; now injection H as <- <-.
Qed.

(** The string is stored in [func], cut to 127 bytes. *)
Lemma func_stored name : Forall (fun c => c <> 0) name -> exists m,
  Amf.store_string {[0%nat := replicate func_size 0]} (Amf.DMem 0%nat) (Z.of_nat func_size) name =
    Some {[0%nat := m]} /\ cstr m = take 127 name.
Proof.
  intros Hn. rewrite Amf.store_string_place by done. change (Z.of_nat func_size) with 128.
  cbn [Z.leb Z.compare]. change (Z.to_nat (128 - 1)) with 127%nat. set (l := take 127 name).
  assert (length l <= 127)%nat by (subst l; len).
  unfold Amf.store_mem. rewrite lookup_singleton_eq, some_bind, length_replicate.
  change func_size with 128%nat. rewrite (proj2 (Nat.leb_le _ _)) by lia. rewrite some_bind.
  rewrite insert_singleton_eq, lookup_singleton_eq, some_bind, length_splice by len.
  rewrite length_replicate, (proj2 (Nat.leb_le _ _)) by (cbn; lia).
  rewrite insert_singleton_eq. eexists. split; [reflexivity|].
  unfold splice. rewrite take_0, app_nil_l, take_app_length, drop_app_ge by lia.
  cbn [Datatypes.app]. apply cstr_app. now apply Forall_take.
Qed.

Lemma read_func_spec ty chain name r :
  Z.of_nat (length name) < 2 ^ 16 -> Forall (fun c => c <> 0) name ->
  concat chain = (if is_shared ty then [] else [Amf.NGX_RTMP_AMF_STRING]) ++ Amf.short name ++ r ->
  exists c, read_func ty chain = Some (take 127 name, c) /\ concat c = r.
Proof.
  intros Hlen Hnz H. unfold read_func.
  destruct (func_stored name Hnz) as (m & Em & Hm).
  set (s := Amf.State _ _ _).
  assert (exists c, Amf.read_type (Some (func_elt ty)) s =
    inr (Amf.NGX_RTMP_AMF_STRING, Amf.DMem 0%nat, Amf.set_ctx s c) /\ Amf.ctx_ok c /\
    Amf.rest c = Amf.short name ++ r /\ linked (Amf.set_ctx s c)) as (c & Et & Hc & Hr & Hl).
  { assert (linked s) as Hs by (subst s; unfold linked; cbn; intros ->; now destruct (is_shared ty)).
    unfold func_elt. destruct (is_shared ty).
    - exists (Amf.Ctx chain 0). split; [reflexivity|]. split; [destruct chain; cbn; lia|done].
    - destruct (Amf.get_front s [Amf.NGX_RTMP_AMF_STRING] (Amf.short name ++ r) 1)
        as (c & E & Hc & Hr); [destruct chain; cbn; lia|exact H|done|].
      exists c. split; [|split; [done|split; [done|now apply get_linked in E]]].
      unfold Amf.read_type. cbn [Amf.type]. change (Amf.has Amf.NGX_RTMP_AMF_STRING _) with false at 1.
      cbv iota. now rewrite E. }
  replace (2 * length (concat chain) + 5)%nat with (S (2 * length (concat chain) + 4)) by lia.
  cbn [Amf.ngx_rtmp_amf_read]. rewrite Et.
  pose proof (Amf.get_string_spec (Amf.set_ctx s c) (Amf.DMem 0%nat) (Z.of_nat func_size) name r
    Hlen Hc Hr) as Hg.
  unfold Amf.leaf in Hg. cbn [Amf.set_ctx Amf.mem Amf.ctx Amf.saved s] in Hg. rewrite Em in Hg.
  destruct Hg as (c2 & E2 & Hc2 & Hr2). pose proof (string_linked _ _ _ _ _ E2 Hl) as Hl2.
  assert (Amf.read_leaf Amf.NGX_RTMP_AMF_STRING (Some (func_elt ty)) (Amf.DMem 0%nat)
    (Amf.set_ctx s c) = (Amf.Ret NGX_OK, Amf.State c2 {[0%nat := m]} ∅)) as E3 by exact E2.
  cbv zeta.
  change (Amf.NGX_RTMP_AMF_STRING =? Amf.NGX_RTMP_AMF_MIXED_ARRAY) with false.
  change (Amf.NGX_RTMP_AMF_STRING =? Amf.NGX_RTMP_AMF_OBJECT) with false.
  change (Amf.NGX_RTMP_AMF_STRING =? Amf.NGX_RTMP_AMF_ARRAY) with false.
  change (Amf.NGX_RTMP_AMF_STRING =? Amf.NGX_RTMP_AMF_VARIANT_) with false.
  change (Amf.NGX_RTMP_AMF_STRING =? Amf.NGX_RTMP_AMF_END) with false.
  cbv iota. rewrite E3, some_bind.
  assert (forall f s, Amf.ngx_rtmp_amf_read f s [] = Some (Amf.Ret NGX_OK, s)) as ->
    by now destruct f.
  cbn [Amf.mem Amf.ctx]. rewrite lookup_singleton_eq, some_bind, Hm.
  unfold linked in Hl2. cbn [Amf.ctx] in Hl2. unfold Amf.rest in Hr2. unfold Amf.ctx_ok in Hc2.
  destruct (Amf.link c2) as [|b l]; [done|]. eexists. split; [reflexivity|].
  cbn [concat] in *. now rewrite <- Hr2, drop_app_le.
Qed.

(** The handlers of the name at the front of a message. *)
Lemma dispatch_spec {B} (amf : list (list Z * ngx_rtmp_handler_pt (modules B))) a h chain x name r :
  case_ok (map fst amf) -> Z.of_nat (length name) < 2 ^ 16 -> Forall (fun c => c <> 0) name ->
  in_buf0 chain <> [] ->
  concat chain = (if is_amf3 (type h) then [x] else []) ++
    (if is_shared (type h) then [] else [Amf.NGX_RTMP_AMF_STRING]) ++ Amf.short name ++ r ->
  exists c, concat c = r /\
    ngx_rtmp_amf_message_handler amf a h chain =
    call_all a h c (named (take 127 name) amf) [].
Proof.
  intros Hc Hlen Hnz Hb H. unfold ngx_rtmp_amf_message_handler.
  destruct chain as [|[|y b] rest]; [done|done|]. destruct (is_amf3 (type h)).
  - cbn [Datatypes.app concat] in H. injection H as _ H.
    destruct (read_func_spec (type h) (b :: rest) name r Hlen Hnz H) as (c & -> & Hr).
    exists c. split; [done|]. now rewrite hash_find_named.
  - destruct (read_func_spec (type h) ((y :: b) :: rest) name r Hlen Hnz H) as (c & -> & Hr).
    exists c. split; [done|]. now rewrite hash_find_named.
Qed.

(** C31: a command reaches the handlers of its name: the name at the front of
    the message, with or without its type byte and behind the prefix of an
    AMF3 message, is read whatever buffers it is spread over; the handlers
    registered under it, without regard to case and in the order of their
    registration, are called with the chain positioned behind the name.  Of a
    long name the first 127 bytes count. *)
Theorem amf_dispatches {B} (amf : list (list Z * ngx_rtmp_handler_pt (modules B))) a h chain x name r :
  case_ok (map fst amf) -> Z.of_nat (length name) < 2 ^ 16 -> Forall (fun c => c <> 0) name ->
  in_buf0 chain <> [] ->
  concat chain = (if is_amf3 (type h) then [x] else []) ++
    (if is_shared (type h) then [] else [Amf.NGX_RTMP_AMF_STRING]) ++ Amf.short name ++ r ->
  exists c, concat c = r /\
    ngx_rtmp_amf_message_handler amf a h chain =
    call_all a h c (named (take 127 name) amf) [].
Proof. apply dispatch_spec. Qed.

(* ------------------------------------------------------------------ *)
(** ** The handlers in the chunk layer *)

(** The commands of a handler may wait until it has returned. *)
Lemma run_commands_app {A} (s : session A) a : forall cs,
  run_commands (set_app s a) cs = (fun s => set_app s a) <$> run_commands s cs.
Proof.
  intros cs. revert s. induction cs as [|c cs IH]; intros s; [done|]. cbn [run_commands].
  assert (run_command (set_app s a) c = (fun s => set_app s a) <$> run_command s c) as ->.
  { destruct c as [n|n]; [|done]. cbn [run_command]. unfold ngx_rtmp_set_chunk_size, set_app.
    cbn [in_pool in_streams in_chunk_size_changing in_csid in_bytes in_last_ack ack_size ping_reset bw_in].
    destruct (in_pool s); [|done]. destruct (in_streams s) as [|st0 rest]; [done|].
    now destruct (mapM _ rest). }
  destruct (run_command s c) as [s'|]; [|done]. cbn. apply IH.
Qed.

Lemma run_commands_snoc {A} (s : session A) cs1 cs2 :
  run_commands s (cs1 ++ cs2) = (s ← run_commands s cs1; run_commands s cs2).
Proof.
  revert s. induction cs1 as [|c cs1 IH]; intros s; [done|].
  cbn [Datatypes.app run_commands]. destruct (run_command s c); [|done]. cbn. apply IH.
Qed.

Section Deferred.
Context {B : Type}.
Abbreviation handler := (ngx_rtmp_handler_pt (modules B)).
Implicit Types (s : session (modules B)).

Lemma call_all_cs a h chain : forall (phs : list handler) cs,
  call_all a h chain phs cs =
  let '(rc, a', cs') := call_all a h chain phs [] in (rc, a', cs ++ cs').
Proof.
  intros phs. revert a. induction phs as [|ph phs IH]; intros a cs; cbn [call_all];
    [now rewrite app_nil_r|].
  destruct (ph a h chain) as [[rc a'] cs']. cbn [Datatypes.app].
  destruct rc; try done; rewrite (IH a' (cs ++ cs')), (IH a' cs');
    destruct (call_all a' h chain phs []) as [[rc'' a''] cs'']; now rewrite app_assoc.
Qed.

Lemma call_handlers_deferred h chain : forall (phs : list handler) s,
  call_handlers s h chain phs =
  let '(rc, a, cs) := call_all (app s) h chain phs [] in
  s ← run_commands (set_app s a) cs; Some (rc, s).
Proof.
  induction phs as [|ph phs IH]; intros s; cbn [call_handlers call_all]; [now destruct s|].
  destruct (ph (app s) h chain) as [[rc a] cs]. cbn [Datatypes.app].
  assert ((s0 ← run_commands (set_app s a) cs; call_handlers s0 h chain phs) =
    let '(rc, a', cs') := call_all a h chain phs cs in
    s0 ← run_commands (set_app s a') cs'; Some (rc, s0)) as Hgo.
  { rewrite (call_all_cs a h chain phs cs).
    destruct (call_all a h chain phs []) as [[rc2 a2] cs2] eqn:E2.
    rewrite !run_commands_app, run_commands_snoc.
    destruct (run_commands s cs) as [s1|]; [|done]. cbn [fmap option_fmap option_map].
    rewrite !some_bind, IH. change (app (set_app s1 a)) with a. rewrite E2. rewrite !run_commands_app.
    now destruct (run_commands s1 cs2). }
  destruct rc; try done; exact Hgo.
Qed.

(** The dispatch the aggregate handler uses is that of the chunk layer:
    receiving a message in a session calls the same handlers with the same
    results, and what they ask of the session is done in the same order. *)
Theorem receive_message_deferred (events : Z -> list handler) s h chain :
  ngx_rtmp_receive_message events s h chain =
  let '(rc, a, cs) := receive_message events (app s) h chain in
  s ← run_commands (set_app s a) cs; Some (rc, s).
Proof.
  unfold ngx_rtmp_receive_message, receive_message. case_if; [now destruct s|].
  apply call_handlers_deferred.
Qed.

End Deferred.

(* ------------------------------------------------------------------ *)
(** ** What the handlers may ask for *)

Section Commands.
Context {B : Type} (hook : B -> call -> ngx_rc * B) (stale : nat -> Z).
Abbreviation handler := (ngx_rtmp_handler_pt (modules B)).

Definition cmds_ok (evh : handler) : Prop :=
  forall a h chain rc a' cs, evh a h chain = (rc, a', cs) -> Forall cmd_ok cs.

Lemma call_all_ok h chain : forall (phs : list handler) a cs rc a' cs',
  Forall cmds_ok phs -> Forall cmd_ok cs -> call_all a h chain phs cs = (rc, a', cs') ->
  Forall cmd_ok cs'.
Proof.
  induction phs as [|ph phs IH]; intros a cs rc a' cs' Hp Hcs; cbn [call_all];
    [now intros [= _ _ <-]|].
  apply Forall_cons in Hp as [Hp Hps]. destruct (ph a h chain) as [[rc1 a1] cs1] eqn:E1.
  assert (Forall cmd_ok (cs ++ cs1)) as Hcs1 by (apply Forall_app; eauto).
  destruct rc1; try (intros [= _ _ <-]; done); now apply IH.
Qed.

Lemma receive_ok (events : Z -> list handler) :
  (forall ty, Forall cmds_ok (events ty)) -> cmds_ok (receive_message events).
Proof.
  intros He a h chain rc a' cs. unfold receive_message. case_if; [now intros [= _ _ <-]|].
  apply call_all_ok; [apply He|constructor].
Qed.

Lemma protocol_ok : cmds_ok ngx_rtmp_protocol_message_handler.
Proof.
  intros a h chain rc a' cs. unfold ngx_rtmp_protocol_message_handler. cbv zeta.
  repeat case_if; intros [= _ _ <-]; repeat constructor; apply u32_bound.
Qed.

Lemma user_ok : cmds_ok (ngx_rtmp_user_message_handler hook stale).
Proof.
  intros a h chain rc a' cs. unfold ngx_rtmp_user_message_handler, call_hook. cbv zeta.
  repeat case_if; try (destruct (hook _ _)); intros [= _ _ <-]; constructor.
Qed.

Lemma aggregate_loop_ok rcv h : cmds_ok rcv -> forall fuel base a cs chain rc a' cs',
  Forall cmd_ok cs -> aggregate_loop fuel rcv h base a cs chain = Some (rc, a', cs') ->
  Forall cmd_ok cs'.
Proof.
  intros Hr. induction fuel as [|fuel IH]; intros base a cs chain rc a' cs' Hcs;
    (destruct chain as [|b chain]; [now intros [= _ _ <-]|]); cbn [aggregate_loop]; [done|].
  destruct (ngx_rtmp_fetch _) as [[ty c1]|]; [|now intros [= _ _ <-]].
  destruct (fetch_header c1) as [[[[mlen ts] msid] c2]|]; [|now intros [= _ _ <-]].
  destruct (limit_chain _ _ _ _) as [[sub c3]|]; [|now intros [= _ _ <-]].
  destruct (rcv _ _ _) as [[rc1 a1] cs1] eqn:E1.
  assert (Forall cmd_ok (cs ++ cs1)) as Hcs1 by (apply Forall_app; eauto).
  case_decide; [|now intros [= _ _ <-]].
  destruct (ngx_rtmp_fetch_uint32 4 c3) as [[? c4]|]; [|now intros [= _ _ <-]]. now apply IH.
Qed.

Lemma aggregate_ok rcv : cmds_ok rcv -> cmds_ok (ngx_rtmp_aggregate_message_handler rcv).
Proof.
  intros Hr a h chain rc a' cs. unfold ngx_rtmp_aggregate_message_handler.
  destruct (aggregate_loop _ _ _ _ _ _ _) as [r|] eqn:E; [|now intros [= _ _ <-]].
  intros ->. eapply aggregate_loop_ok; [exact Hr|constructor|exact E].
Qed.

Lemma add_amf_ok n (eh : handler) : cmds_ok eh -> forall arrays,
  Forall (fun x => Forall cmds_ok (snd x)) arrays ->
  Forall (fun x => Forall cmds_ok (snd x)) (add_amf n eh arrays).
Proof.
  intros He. induction 1 as [|[k l] arrays Hl Hr IH]; cbn [add_amf].
  - repeat constructor. exact He.
  - case_bool_decide; constructor; auto. cbn [snd] in *. apply Forall_app. auto.
Qed.

Lemma amf_arrays_ok amf : Forall (fun x => cmds_ok (snd x)) amf ->
  Forall (fun x => Forall cmds_ok (snd x)) (amf_arrays amf).
Proof.
  induction amf as [|[n eh] amf IH] using rev_ind; intros H; [constructor|].
  apply Forall_app in H as [H1 [H2 _]%Forall_cons].
  rewrite amf_arrays_snoc. apply add_amf_ok; [exact H2|now apply IH].
Qed.

Lemma amf_ok amf : Forall (fun x => cmds_ok (snd x)) amf -> cmds_ok (ngx_rtmp_amf_message_handler amf).
Proof.
  intros Ha a h chain rc a' cs. unfold ngx_rtmp_amf_message_handler.
  destruct (read_func _ _) as [[func c]|]; [|now intros [= _ _ <-]].
  apply call_all_ok; [|constructor]. unfold hash_find.
  destruct (List.find _ _) as [[k l]|] eqn:E; [|constructor].
  apply List.find_some in E as [Hin _]. apply list_elem_of_In in Hin.
  apply (proj1 (Forall_forall _ _) (amf_arrays_ok amf Ha) (k, l) Hin).
Qed.

Context (amf : list (list Z * handler)) (mods : Z -> list handler).
Hypothesis amf_cmds : Forall (fun x => cmds_ok (snd x)) amf.
Hypothesis mods_cmds : forall ty, Forall cmds_ok (mods ty).

Lemma core_handlers_ok rcv ty : cmds_ok rcv -> Forall cmds_ok (core_handlers hook stale amf rcv ty).
Proof.
  intros Hr. unfold core_handlers. rewrite !Forall_app.
  split_and!; case_match; constructor; try constructor;
    [apply protocol_ok|now apply amf_ok|apply user_ok|now apply aggregate_ok].
Qed.

Lemma events_cmds d : forall ty, Forall cmds_ok (events hook stale amf mods d ty).
Proof.
  induction d as [|d IH]; intros ty; cbn [events]; apply Forall_app; (split; [apply mods_cmds|]);
    apply core_handlers_ok, receive_ok; [constructor|exact IH].
Qed.

End Commands.

(* ------------------------------------------------------------------ *)
(** ** Nesting *)

Lemma fetch_len : forall chain x c, ngx_rtmp_fetch chain = Some (x, c) ->
  length (concat chain) = S (length (concat c)).
Proof.
  induction chain as [|[|y b] chain IH]; intros x c; cbn [ngx_rtmp_fetch]; [done|apply IH|].
  now intros [= <- <-].
Qed.

Lemma fetch_uint_len n : forall v chain x c, fetch_uint n v chain = Some (x, c) ->
  (length (concat c) <= length (concat chain))%nat.
Proof.
  induction n as [|n IH]; intros v chain x c; cbn [fetch_uint]; [now intros [= _ <-]|].
  destruct (ngx_rtmp_fetch chain) as [[y c1]|] eqn:E1; [|done]. rewrite some_bind. intros E2.
  apply IH in E2. apply fetch_len in E1. lia.
Qed.

Lemma fetch_header_len chain r c : fetch_header chain = Some (r, c) ->
  (length (concat c) <= length (concat chain))%nat.
Proof.
  unfold fetch_header, ngx_rtmp_fetch_uint32.
  destruct (fetch_uint 3 0 chain) as [[x1 c1]|] eqn:E1; [|done]. rewrite some_bind.
  destruct (fetch_uint 3 0 c1) as [[x2 c2]|] eqn:E2; [|done]. rewrite some_bind.
  destruct (ngx_rtmp_fetch c2) as [[x3 c3]|] eqn:E3; [|done]. rewrite some_bind.
  destruct (fetch_uint 3 0 c3) as [[x4 c4]|] eqn:E4; [|done]. rewrite some_bind. intros [= _ <-].
  apply fetch_uint_len in E1, E2, E4. apply fetch_len in E3. lia.
Qed.

Lemma limit_len mlen : forall chain len pre sub c, limit_chain mlen len pre chain = Some (sub, c) ->
  (length (concat sub) + length (concat c) = length (concat pre) + length (concat chain))%nat.
Proof.
  induction chain as [|b chain IH]; intros len pre sub c; cbn [limit_chain]; [done|]. case_if.
  - intros [= <- <-]. rewrite concat_app, length_app. cbn [concat]. rewrite !length_app. cbn [length].
    set (n := Z.to_nat _). rewrite length_take, length_drop. lia.
  - intros Hl%IH. rewrite Hl, concat_app, length_app. cbn [concat]. rewrite !length_app. cbn. lia.
Qed.

Section Nesting.
Context {B : Type}.
Abbreviation handler := (ngx_rtmp_handler_pt (modules B)).

Definition same_below (n : nat) (h1 h2 : handler) : Prop :=
  forall a h chain, (length (concat chain) < n)%nat -> h1 a h chain = h2 a h chain.

(** The loop ends and only hands out shorter chains. *)
Lemma aggregate_same rcv1 rcv2 h n : same_below n rcv1 rcv2 -> forall fuel base a cs chain,
  (length (concat chain) <= n)%nat -> (length (concat chain) < fuel)%nat ->
  exists r, aggregate_loop fuel rcv1 h base a cs chain = Some r /\
    aggregate_loop fuel rcv2 h base a cs chain = Some r.
Proof.
  intros Hs. induction fuel as [|fuel IH]; intros base a cs chain Hn Hf; [lia|].
  destruct chain as [|b chain]; [now eexists|]. cbn [aggregate_loop].
  destruct (ngx_rtmp_fetch _) as [[ty c1]|] eqn:E1; [|now eexists]. apply fetch_len in E1.
  destruct (fetch_header c1) as [[[[mlen ts] msid] c2]|] eqn:E2; [|now eexists].
  apply fetch_header_len in E2.
  destruct (limit_chain _ _ _ _) as [[sub c3]|] eqn:E3; [|now eexists]. apply limit_len in E3.
  cbn [concat length] in E3. rewrite <- (Hs _ _ sub) by lia.
  destruct (rcv1 _ _ _) as [[rc1 a1] cs1]. case_decide; [|now eexists].
  destruct (ngx_rtmp_fetch_uint32 4 c3) as [[? c4]|] eqn:E4; [|now eexists].
  apply fetch_uint_len in E4. apply IH; lia.
Qed.

Lemma aggregate_handler_same rcv1 rcv2 n : same_below n rcv1 rcv2 ->
  same_below (S n) (ngx_rtmp_aggregate_message_handler rcv1) (ngx_rtmp_aggregate_message_handler rcv2).
Proof.
  intros Hs a h chain Hl. unfold ngx_rtmp_aggregate_message_handler.
  destruct (aggregate_same rcv1 rcv2 h n Hs (S (length (concat chain))) None a [] chain)
    as (r & -> & ->); [lia|lia|done].
Qed.

Lemma call_all_same n h chain : (length (concat chain) < n)%nat -> forall (l1 l2 : list handler),
  Forall2 (same_below n) l1 l2 -> forall a cs, call_all a h chain l1 cs = call_all a h chain l2 cs.
Proof.
  intros Hn l1 l2. induction 1 as [|h1 h2 l1 l2 Hh _ IH]; intros a cs; [done|]. cbn [call_all].
  rewrite Hh by done. destruct (h2 a h chain) as [[rc a'] cs']. destruct rc; auto.
Qed.

Lemma same_refl n (l : list handler) : Forall2 (same_below n) l l.
Proof. apply Forall2_same_length_lookup_2; [done|]. intros i x y H1 H2. rewrite H1 in H2. now injection H2 as ->. Qed.

Context (hook : B -> call -> ngx_rc * B) (stale : nat -> Z).
Context (amf : list (list Z * handler)) (mods : Z -> list handler).

Lemma core_same rcv1 rcv2 n ty : same_below n rcv1 rcv2 ->
  Forall2 (same_below (S n)) (core_handlers hook stale amf rcv1 ty) (core_handlers hook stale amf rcv2 ty).
Proof.
  intros Hs. unfold core_handlers. repeat apply Forall2_app; try apply same_refl.
  case_if; [|constructor]. constructor; [|constructor]. now apply aggregate_handler_same.
Qed.

Lemma receive_same n (e1 e2 : Z -> list handler) :
  (forall ty, Forall2 (same_below n) (e1 ty) (e2 ty)) ->
  same_below n (receive_message e1) (receive_message e2).
Proof.
  intros He a h chain Hl. unfold receive_message. case_if; [done|].
  apply (call_all_same n); [done|apply He].
Qed.

Lemma events_same d : forall n ty, (n <= d)%nat ->
  Forall2 (same_below (S n)) (events hook stale amf mods d ty) (events hook stale amf mods (S d) ty).
Proof.
  induction d as [|d IH]; intros n ty Hn.
  - cbn [events]. apply Forall2_app; [apply same_refl|]. apply core_same. intros a h chain Hl. lia.
  - change (Forall2 (same_below (S n))
      (mods ty ++ core_handlers hook stale amf (receive_message (events hook stale amf mods d)) ty)
      (mods ty ++ core_handlers hook stale amf (receive_message (events hook stale amf mods (S d))) ty)).
    apply Forall2_app; [apply same_refl|]. apply core_same.
    destruct n as [|n]; [intros a h chain Hl; lia|]. apply receive_same. intros ty'. apply IH. lia.
Qed.

(** The loop ends, with any handlers. *)
Lemma aggregate_total (rcv : handler) h base a cs chain :
  is_Some (aggregate_loop (S (length (concat chain))) rcv h base a cs chain).
Proof.
  destruct (aggregate_same rcv rcv h (length (concat chain)) (fun _ _ _ _ => eq_refl)
    (S (length (concat chain))) base a cs chain) as (r & -> & _); [lia|lia|now eexists].
Qed.

(** C34: aggregates may contain aggregates: on a message of [n] bytes a table
    of handlers for nesting [n] deep or deeper gives the same result as any
    deeper one, so that the bound on the nesting is no restriction; and the
    loop of the aggregate handler, which the handler runs with one pass more
    than the message has bytes, ends on arbitrary input with any handlers. *)
Theorem nesting_bounded a h chain d k :
  (length (concat chain) <= d)%nat ->
  receive_message (events hook stale amf mods (k + d)) a h chain =
    receive_message (events hook stale amf mods d) a h chain /\
  forall rcv, is_Some (aggregate_loop (S (length (concat chain))) rcv h None a [] chain).
Proof.
  intros Hd. split; [|intros rcv; apply aggregate_total].
  induction k as [|k IH]; [done|]. rewrite <- IH. symmetry.
  apply (receive_same (S (length (concat chain)))); [|lia]. intros ty. apply events_same. lia.
Qed.

End Nesting.

(* ------------------------------------------------------------------ *)
(** ** Concrete messages *)

(** Modules that log the calls, and a handler that logs the bytes it gets as
    the time stamp of a ping. *)
Definition log_hook (b : list call) (c : call) : ngx_rc * list call := (NGX_OK, b ++ [c]).
Definition log_bytes : ngx_rtmp_handler_pt (modules (list call)) := fun a h chain =>
  (NGX_OK, Mods (buflen a) (others a ++ [SendPingResponse (be_val (concat chain) + timestamp h)]), []).
Definition no_mods : modules (list call) := Mods 0 [].

Definition tag1 : tag := Tag 8 100 1 [5; 6; 7] [0; 0; 0; 14].
Definition tag2 : tag := Tag 9 130 1 [9] [0; 0; 0; 12].

Lemma tags_ok : Forall tag_ok [tag1; tag2].
Proof. repeat constructor; cbn; lia. Qed.

Lemma aggregate_splits_witness :
  let chain := [take 5 (encode_tag tag1); drop 5 (encode_tag tag1) ++ encode_tag tag2] in
  exists subs, Forall2 holds [tag1; tag2] subs /\
    ngx_rtmp_aggregate_message_handler log_bytes no_mods (Hdr 4 1000 0 22 0) chain =
    deliver log_bytes (Hdr 4 1000 0 22 0) 100 no_mods [] (zip [tag1; tag2] subs).
Proof.
  apply (aggregate_splits log_bytes no_mods (Hdr 4 1000 0 22 0)
    [take 5 (encode_tag tag1); drop 5 (encode_tag tag1) ++ encode_tag tag2] tag1 [tag2]);
    [exact tags_ok|reflexivity].
Defined.

Lemma nesting_bounded_witness :
  (receive_message (events log_hook (fun _ => 0) [] (fun _ => []) (100 + 30)) no_mods
    (Hdr 4 1000 0 22 0) [encode_tag tag1] =
  receive_message (events log_hook (fun _ => 0) [] (fun _ => []) 30) no_mods
    (Hdr 4 1000 0 22 0) [encode_tag tag1]) /\
  forall rcv, is_Some (aggregate_loop (S (length (concat [encode_tag tag1]))) rcv
    (Hdr 4 1000 0 22 0) None no_mods [] [encode_tag tag1]).
Proof. apply (nesting_bounded log_hook (fun _ => 0) [] (fun _ => [])). vm_compute. lia. Defined.

(** The command "ping" in two buffers, for a handler registered as "Ping". *)
Definition ping_table : list (list Z * ngx_rtmp_handler_pt (modules (list call))) :=
  [(str "Ping", log_bytes); (str "other", log_bytes)].

Lemma ping_table_case : case_ok (map fst ping_table).
Proof.
  intros n k [-> |[-> |H]%elem_of_cons]%elem_of_cons [-> |[-> |H']%elem_of_cons]%elem_of_cons;
    try done; try (now apply not_elem_of_nil in H); now apply not_elem_of_nil in H'.
Qed.

Lemma amf_dispatches_witness :
  exists c, concat c = [1; 2] /\
    ngx_rtmp_amf_message_handler ping_table no_mods (Hdr 3 0 0 17 0)
      [[0; 2; 0]; [4] ++ str "piNg" ++ [1]; [2]] =
    call_all no_mods (Hdr 3 0 0 17 0) c (named (take 127 (str "piNg")) ping_table) [].
Proof.
  apply (amf_dispatches ping_table no_mods (Hdr 3 0 0 17 0)
    [[0; 2; 0]; [4] ++ str "piNg" ++ [1]; [2]] 0 (str "piNg") [1; 2]);
    [exact ping_table_case|vm_compute; reflexivity|repeat constructor; discriminate|discriminate|reflexivity].
Defined.

(** A user message of six bytes that announces an HLS slice is accepted,
    and the slice number and time the modules get are whatever the memory
    behind the message holds. *)
Theorem hls_slice_stale (hook : list call -> call -> ngx_rc * list call) stale a :
  ngx_rtmp_user_message_handler hook stale a (Hdr 2 0 6 4 0) [[0; 32; 0; 0; 0; 1]] =
  call_hook hook a (StartHlsSlice 1 (val8 (map stale (seq 6 8))) (val8 (map stale (seq 14 8)))).
Proof. reflexivity. Qed.

(** The back pointer of the last message of an aggregate is not optional
    although its absence is tested for: without it the message is refused and
    never delivered. *)
Theorem aggregate_needs_pointer rcv a :
  ngx_rtmp_aggregate_message_handler (B := list call) rcv a (Hdr 4 1000 0 22 0)
    [take 14 (encode_tag tag1)] = (NGX_ERROR, a, []) /\
  take 14 (encode_tag tag1) ++ t_prev tag1 = encode_tag tag1.
Proof. split; vm_compute; reflexivity. Qed.

End Receive.
