(* ===== verification/Send.v ===== *)
(** * Control messages (src/src/rtmp/ngx_rtmp_send.c)

    The functions that create and send protocol and user control messages,
    each a single shared buffer (Shared.v) with its chunk header (Chunk.v).
    [control_round_trip] composes them with the peer: what one side creates
    is decoded by the chunk layer of the other and handled (Receive.v) with
    the same arguments.

    The writes through [__b->last] are not checked by the code; here one
    behind the end of the buffer is [None]. *)

From Stdlib Require Import ZArith Lia.
From stdpp Require Import base numbers list gmap.
From S2P Require Import Prelude Buf Bandwidth Chunk Shared Queue Amf Receive.

Module Send.

Import Shared.
Import Receive.
#[local] Existing Instance Queue.owned_perm.

Section Create.
Context (cscf : Chunk.ngx_rtmp_core_srv_conf_t).

(** The links of a chain. *)
Fixpoint links (fuel : nat) (p : pool) (l : option loc) : option (list loc) :=
  match l with
  | None => Some []
  | Some l =>
      match fuel with
      | O => None
      | S fuel => c ← cells p !! l; ls ← links fuel p (next c); Some (l :: ls)
      end
  end.

Fixpoint store_bufs (p : pool) (ls : list loc) (bs : list ngx_buf_t) : option pool :=
  match ls, bs with
  | [], [] => Some p
  | l :: ls, b :: bs => p ← set_buf p l b; store_bufs p ls bs
  | _, _ => None
  end.

(** [ngx_rtmp_prepare_message] on a chain of the pool; its result is not
    looked at by the callers here. *)
Definition prepare_chain (p : pool) (h : Chunk.ngx_rtmp_header_t)
    (lh : option Chunk.ngx_rtmp_header_t) (l : loc) : option pool :=
  ls ← links (brk p) p (Some l);
  r ← Chunk.ngx_rtmp_prepare_message cscf h lh (bufs p ls);
  match r with
  | Some out => store_bufs p ls out
  | None => Some p
  end.

(** [*(__b->last++)] for each byte. *)
Definition put_bytes (p : pool) (l : loc) (d : list Z) : option pool :=
  c ← cells p !! l;
  if (length d <=? buf_room (buf c))%nat then set_buf p l (buf_push (buf c) d) else None.

(** The macros NGX_RTMP_USER_OUT1, OUT4 and OUT8. *)
Definition out1 (v : Z) : list Z := be_bytes 1 v.
Definition out4 (v : Z) : list Z := be_bytes 4 v.
Definition out8 (v : Z) : list Z := be_bytes 4 v ++ be_bytes 4 (Z.shiftr v 32).

(** NGX_RTMP_USER_START, the bytes between, NGX_RTMP_USER_END. *)
Definition user_message (p : pool) (tp : Z) (d : list Z) : option (pool * loc) :=
  '(p, l) ← ngx_rtmp_alloc_shared_buf p;
  p ← put_bytes p l d;
  p ← prepare_chain p (Chunk.Hdr 2 0 0 tp 0) None l;
  Some (p, l).

(** NGX_RTMP_UCTL_START. *)
Definition uctl_message (p : pool) (utype : Z) (d : list Z) : option (pool * loc) :=
  user_message p NGX_RTMP_MSG_USER ([u8 (Z.shiftr utype 8); u8 utype] ++ d).

Definition ngx_rtmp_create_chunk_size (p : pool) (chunk_size : Z) :=
  user_message p NGX_RTMP_MSG_CHUNK_SIZE (out4 chunk_size).
Definition ngx_rtmp_create_abort (p : pool) (csid : Z) :=
  user_message p NGX_RTMP_MSG_CHUNK_SIZE (out4 csid).
Definition ngx_rtmp_create_ack (p : pool) (seq : Z) :=
  user_message p NGX_RTMP_MSG_ACK (out4 seq).
Definition ngx_rtmp_create_ack_size (p : pool) (ack_size : Z) :=
  user_message p NGX_RTMP_MSG_ACK_SIZE (out4 ack_size).
Definition ngx_rtmp_create_bandwidth (p : pool) (ack_size limit_type : Z) :=
  user_message p NGX_RTMP_MSG_BANDWIDTH (out4 ack_size ++ out1 limit_type).
Definition ngx_rtmp_create_stream_begin (p : pool) (msid : Z) :=
  uctl_message p NGX_RTMP_USER_STREAM_BEGIN (out4 msid).
Definition ngx_rtmp_create_stream_eof (p : pool) (msid : Z) :=
  uctl_message p NGX_RTMP_USER_STREAM_EOF (out4 msid).
Definition ngx_rtmp_create_stream_dry (p : pool) (msid : Z) :=
  uctl_message p NGX_RTMP_USER_STREAM_DRY (out4 msid).
Definition ngx_rtmp_create_set_buflen (p : pool) (msid buflen_msec : Z) :=
  uctl_message p NGX_RTMP_USER_SET_BUFLEN (out4 msid ++ out4 buflen_msec).
Definition ngx_rtmp_create_start_hls_slice (p : pool) (msid frag frag_ts : Z) :=
  uctl_message p NGX_RTMP_USER_START_HLS_SLICE (out4 msid ++ out8 frag ++ out8 frag_ts).
Definition ngx_rtmp_create_recorded (p : pool) (msid : Z) :=
  uctl_message p NGX_RTMP_USER_RECORDED (out4 msid).
Definition ngx_rtmp_create_ping_request (p : pool) (timestamp : Z) :=
  uctl_message p NGX_RTMP_USER_PING_REQUEST (out4 timestamp).
Definition ngx_rtmp_create_ping_response (p : pool) (timestamp : Z) :=
  uctl_message p NGX_RTMP_USER_PING_RESPONSE (out4 timestamp).

(* ------------------------------------------------------------------ *)
(** ** Sending *)

(** [cl] is not NULL, allocation being taken to succeed. *)
Definition ngx_rtmp_send_shared_packet (now : Z) (destroyed timedout : bool)
    (sock : list Queue.send_ev) (s : Queue.session) (cl : option (pool * loc))
  : option (ngx_rc * pool * Queue.session * list Z) :=
  '(p, l) ← cl;
  '(rc, p, s, wire) ← Queue.ngx_rtmp_send_message now destroyed timedout sock p s l 0;
  p ← ngx_rtmp_free_shared_chain p l;
  Some (rc, p, s, wire).

Section Senders.
Context (now : Z) (destroyed timedout : bool) (sock : list Queue.send_ev).
Abbreviation send := (ngx_rtmp_send_shared_packet now destroyed timedout sock).

Definition ngx_rtmp_send_chunk_size (s : Queue.session) (p : pool) (chunk_size : Z) :=
  send s (ngx_rtmp_create_chunk_size p chunk_size).
Definition ngx_rtmp_send_abort (s : Queue.session) (p : pool) (csid : Z) :=
  send s (ngx_rtmp_create_abort p csid).
Definition ngx_rtmp_send_ack (s : Queue.session) (p : pool) (seq : Z) :=
  send s (ngx_rtmp_create_ack p seq).
Definition ngx_rtmp_send_ack_size (s : Queue.session) (p : pool) (ack_size : Z) :=
  send s (ngx_rtmp_create_ack_size p ack_size).
Definition ngx_rtmp_send_bandwidth (s : Queue.session) (p : pool) (ack_size limit_type : Z) :=
  send s (ngx_rtmp_create_bandwidth p ack_size limit_type).
Definition ngx_rtmp_send_stream_begin (s : Queue.session) (p : pool) (msid : Z) :=
  send s (ngx_rtmp_create_stream_begin p msid).
Definition ngx_rtmp_send_stream_eof (s : Queue.session) (p : pool) (msid : Z) :=
  send s (ngx_rtmp_create_stream_eof p msid).
Definition ngx_rtmp_send_stream_dry (s : Queue.session) (p : pool) (msid : Z) :=
  send s (ngx_rtmp_create_stream_dry p msid).
Definition ngx_rtmp_send_set_buflen (s : Queue.session) (p : pool) (msid buflen_msec : Z) :=
  send s (ngx_rtmp_create_set_buflen p msid buflen_msec).
Definition ngx_rtmp_send_start_hls_slice (s : Queue.session) (p : pool) (msid frag frag_ts : Z) :=
  send s (ngx_rtmp_create_start_hls_slice p msid frag frag_ts).
Definition ngx_rtmp_send_recorded (s : Queue.session) (p : pool) (msid : Z) :=
  send s (ngx_rtmp_create_recorded p msid).
Definition ngx_rtmp_send_ping_request (s : Queue.session) (p : pool) (timestamp : Z) :=
  send s (ngx_rtmp_create_ping_request p timestamp).
Definition ngx_rtmp_send_ping_response (s : Queue.session) (p : pool) (timestamp : Z) :=
  send s (ngx_rtmp_create_ping_response p timestamp).

End Senders.

(* ------------------------------------------------------------------ *)
(** ** The message in the pool *)

Lemma prepend_fits p n l b b' : fits p b -> bytes_ok l -> length l = n ->
  Chunk.prepend n l b = Some b' -> fits p b'.
Proof.
  intros [(H1 & H2 & H3) He] Hl Hn. unfold Chunk.prepend. case_if; [|done]. intros [= <-].
  unfold fits, buf_ok, b_end in *. cbn [b_mem b_pos b_last].
  rewrite length_splice by lia. repeat split; try lia. now apply bytes_ok_splice.
Qed.

Lemma push_fits p b d : fits p b -> bytes_ok d -> (length d <= buf_room b)%nat -> fits p (buf_push b d).
Proof.
  intros [Hok He] Hd Hr. split; [now apply buf_push_ok|]. now rewrite buf_push_end.
Qed.

(** The bytes of the headers. *)
Lemma basic_bytes_ok fmt csid : 0 <= fmt <= 3 -> 2 <= csid -> bytes_ok (Chunk.basic_bytes fmt csid).
Proof.
  intros Hf Hc. unfold Chunk.basic_bytes.
  assert (forall x, 0 <= x < 64 -> 0 <= Z.lor (Z.shiftl fmt 6) x < 256) as Hlor.
  { intros x Hx. rewrite Z.shiftl_mul_pow2, (lor_disjoint fmt x 6) by lia. lia. }
  assert (forall x, 0 <= Z.land x 63 < 64) as Hland.
  { intros x. change 63 with (Z.ones 6). rewrite Z.land_ones by lia. apply Z.mod_pos_bound. lia. }
  pose proof (Hlor 1 ltac:(lia)). pose proof (Z.shiftl_mul_pow2 fmt 6 ltac:(lia)).
  pose proof (u8_bound (csid - 64)). pose proof (u8_bound (Z.shiftr (u32 (csid - 64)) 8)).
  pose proof (Hlor _ (Hland (u8 csid))).
  repeat case_if; rewrite ?bytes_ok_cons; unfold byte_ok; repeat split; try lia; constructor.
Qed.

Lemma first_bytes_ok h lh ml : 2 <= Chunk.csid h -> 0 <= Chunk.type h < 256 ->
  bytes_ok (Chunk.first_bytes h lh ml).
Proof.
  intros Hc Ht. pose proof (Chunk.prep_fmt_range h lh ml). unfold Chunk.first_bytes, Chunk.message_bytes,
    Chunk.ext_bytes. cbv zeta. rewrite !bytes_ok_app. split; [now apply basic_bytes_ok|].
  split; [|case_if; [apply be_bytes_ok|constructor]]. case_if; [|constructor].
  rewrite bytes_ok_app. split; [apply be_bytes_ok|]. case_if; [|constructor].
  rewrite bytes_ok_app. split; [apply be_bytes_ok|]. apply bytes_ok_cons. split; [unfold byte_ok; lia|].
  case_if; [apply le_bytes_ok|constructor].
Qed.

Lemma next_bytes_ok h ts : 2 <= Chunk.csid h -> bytes_ok (Chunk.next_bytes cscf h ts).
Proof.
  intros Hc. unfold Chunk.next_bytes, Chunk.ext_bytes. rewrite bytes_ok_app.
  split; [apply basic_bytes_ok; lia|]. destruct (Chunk.play_time_fix cscf); [|constructor].
  case_if; [apply be_bytes_ok|constructor].
Qed.

Lemma prepend_all_fits p l : bytes_ok l -> forall bs out, Forall (fits p) bs ->
  mapM (Chunk.prepend (length l) l) bs = Some out -> Forall (fits p) out /\ length out = length bs.
Proof.
  intros Hl bs out Hb E. apply mapM_Some in E. induction E as [|b o bs out Eb E IH]; [done|].
  apply Forall_cons in Hb as [Hb Hbs]. destruct (IH Hbs) as [H1 H2].
  split; [|cbn; lia]. constructor; [|done]. now apply (prepend_fits p (length l) l b).
Qed.

Lemma prepare_fits p h lh bs : header_ok cscf h -> Chunk.play_time_fix cscf = Chunk.publish_time_fix cscf ->
  Forall (fits p) bs -> Forall Chunk.sendable bs -> bs <> [] ->
  Chunk.total (map buf_data bs) < 2 ^ 24 ->
  exists out, Chunk.ngx_rtmp_prepare_message cscf h lh bs = Some (Some out) /\
    Forall (fits p) out /\ length out = length bs.
Proof.
  intros [] Hfix Hf Hs Hne Hn.
  destruct (Chunk.prepare_wire cscf h lh ltac:(done) ltac:(done) ltac:(done) ltac:(done) ltac:(done)
    Hfix bs _ Hs Hne eq_refl Hn) as (out & _ & _ & _ & E & _).
  exists out. split; [done|]. destruct bs as [|b bs]; [done|].
  rewrite (Chunk.prepare_prepends cscf h lh ltac:(done) ltac:(done) ltac:(done) b bs _ Hs eq_refl Hn) in E.
  apply Forall_cons in Hf as [Hb Hf].
  destruct (Chunk.prepend _ _ b) as [b'|] eqn:Eb; [|done]. rewrite some_bind in E.
  destruct (mapM _ bs) as [bs'|] eqn:Es; [|done]. rewrite some_bind in E. injection E as <-.
  destruct (prepend_all_fits p _ (next_bytes_ok h _ ltac:(lia)) bs bs' Hf Es) as [H1 H2].
  split; [|cbn; lia]. constructor; [|done].
  refine (prepend_fits _ _ _ _ _ Hb _ eq_refl Eb). apply first_bytes_ok; [lia|done].
Qed.

(** The chain keeps its links, with the new buffers. *)
Lemma store_bufs_spec p live ls bs : wf p (ls :: live) -> NoDup ls -> length bs = length ls ->
  Forall (fits p) bs ->
  exists p', store_bufs p ls bs = Some p' /\ wf p' (ls :: live) /\ same_chains p p' live /\
    bufs p' ls = bs /\ chunk_size p' = chunk_size p /\
    forall l, ref <$> cells p' !! l = ref <$> cells p !! l.
Proof.
  intros Hw Hnd Hlen Hf. assert (forall done rest bs p, ls = done ++ rest -> wf p (ls :: live) ->
    length bs = length rest -> Forall (fits p) bs ->
    exists p', store_bufs p rest bs = Some p' /\ wf p' (ls :: live) /\ same_chains p p' live /\
      bufs p' rest = bs /\ (forall l, l ∉ rest -> cells p' !! l = cells p !! l) /\
      chunk_size p' = chunk_size p /\ forall l, ref <$> cells p' !! l = ref <$> cells p !! l) as H.
  2: { destruct (H [] ls bs p eq_refl Hw Hlen Hf) as (p' & E & H1 & H2 & H3 & _ & H4 & H5). eauto 10. }
  clear p bs Hw Hlen Hf. intros done rest. revert done.
  induction rest as [|l rest IH]; intros done bs p El Hw Hlen Hf.
  { destruct bs; [|done]. exists p. split; [done|]. split; [done|]. split; [now intros l _|]. done. }
  destruct bs as [|b bs]; [done|]. apply Forall_cons in Hf as [Hb Hf].
  assert (l ∈ ls) as Hin by (subst ls; apply elem_of_app; right; apply list_elem_of_here).
  assert (is_Some (cells p !! l)) as [c Ec].
  { destruct Hw as [_ Hl _]. apply Forall_cons in Hl as [[_ Hs] _]. eapply seg_cell; eauto. }
  cbn [store_bufs]. unfold set_buf. rewrite Ec, some_bind.
  set (p1 := set_cell p l (Cell (next c) (ref c) b)). rewrite some_bind.
  assert (wf p1 (ls :: live)) as Hw1 by (eapply wf_set_cell; [exact Hw|exact Ec|done|exact Hb]).
  destruct (IH (done ++ [l]) bs p1) as (p' & E & Hw' & Hs & Hbs & Hold & Hk & Hr);
    [now rewrite <- app_assoc|exact Hw1|now injection Hlen|exact Hf|].
  exists p'. split; [done|]. split; [done|].
  assert (l ∉ rest) as Hnl by (subst ls; now apply NoDup_app in Hnd as (_ & _ & [? _]%NoDup_cons)).
  split; [|split; [|split; [|split; [done|]]]].
  - eapply same_chains_trans; [|exact Hs]. now apply (same_set_cell p ls live l).
  - unfold bufs. cbn [omap list_omap]. rewrite Hold by done. unfold p1. cbn [set_cell cells].
    rewrite lookup_insert_eq. cbn. now rewrite <- Hbs.
  - intros k [Hk1 Hk2]%not_elem_of_cons. rewrite Hold by done. unfold p1. cbn. now rewrite insert_other by congruence.
  - intros k. rewrite Hr. unfold p1. cbn. destruct (decide (k = l)) as [-> |Hne].
    + now rewrite lookup_insert_eq, Ec.
    + now rewrite insert_other by congruence.
Qed.

Lemma links_seg p : forall ls l fuel, seg (cells p) l None ls -> (length ls <= fuel)%nat ->
  links fuel p l = Some ls.
Proof.
  induction ls as [|l ls IH]; intros o fuel Hs Hf; cbn [seg] in Hs.
  - subst o. now destruct fuel.
  - destruct Hs as (-> & c & E & Hs). destruct fuel as [|fuel]; [cbn in Hf; lia|].
    cbn [links]. rewrite E, some_bind, (IH _ fuel Hs) by (cbn in Hf; lia). done.
Qed.

(** Headers for a chain of new links: the chain stays, each buffer has its
    header. *)
Lemma prepare_chain_spec p live ls l ds h lh : header_ok cscf h ->
  Chunk.play_time_fix cscf = Chunk.publish_time_fix cscf ->
  wf p (ls :: live) -> head ls = Some l -> view p ls = map new_link ds ->
  Chunk.total ds < 2 ^ 24 ->
  exists p' k, prepare_chain p h lh l = Some p' /\ wf p' (ls :: live) /\ same_chains p p' live /\
    cells p' !! l = Some k /\ ref k = 1 /\
    Chunk.ngx_rtmp_prepare_message cscf h lh (bufs p ls) = Some (Some (bufs p' ls)).
Proof.
  intros Hh Hfix Hw Hl Hv Hn. destruct (bufs_view _ _ _ _ Hw Hv) as [Hd Hs].
  pose proof Hw as [(fl & _ & Hp) Hlive Hb]. apply Forall_cons in Hlive as [[Hne Hseg] _].
  assert (NoDup ls) as Hnd.
  { assert (NoDup (fl ++ ls ++ concat live)) as H by (cbn in Hp; rewrite Hp; apply NoDup_seq).
    apply NoDup_app in H as (_ & _ & H). now apply NoDup_app in H as (H & _ & _). }
  assert (Forall (fits p) (bufs p ls)) as Hf.
  { unfold bufs. clear -Hb. induction ls as [|x ls IH]; [constructor|]. cbn [omap list_omap].
    destruct (cells p !! x) as [c|] eqn:E; cbn; [|exact IH]. constructor; [eapply Hb; eauto|exact IH]. }
  assert (length (bufs p ls) = length ls) as Hlen.
  { transitivity (length (view p ls)); [|apply length_map].
    rewrite Hv, length_map, <- Hd. now rewrite length_map. }
  destruct (prepare_fits p h lh (bufs p ls) Hh Hfix Hf Hs) as (out & E & Hfo & Hlo);
    [intros H; rewrite H in Hlen; now destruct ls|now rewrite Hd|].
  destruct (store_bufs_spec p live ls out Hw Hnd ltac:(congruence) Hfo) as (p' & Es & Hw' & Hsame & Hbs & _ & Hr).
  unfold prepare_chain. rewrite <- Hl, (links_seg p ls (head ls) (brk p) Hseg) by (eapply wf_chain_len; eauto).
  rewrite some_bind, E, some_bind. destruct ls as [|l0 ls]; [done|]. injection Hl as ->.
  unfold view in Hv. cbn [map] in Hv. destruct ds as [|d ds]; [done|]. injection Hv as Hv _.
  specialize (Hr l). unfold link_view in Hv. destruct (cells p !! l) as [c|]; [|done].
  cbn in Hv. injection Hv as Href _ _. destruct (cells p' !! l) as [k|] eqn:Ek; [|done].
  exists p', k. do 4 (split; [done|]). injection Hr as Hr. split; [congruence|]. now rewrite Hbs.
Qed.

Lemma store_chunk_size : forall ls bs p p', store_bufs p ls bs = Some p' -> chunk_size p' = chunk_size p.
Proof.
  induction ls as [|l ls IH]; intros [|b bs] p p'; cbn [store_bufs]; try done; [now intros [= <-]|].
  unfold set_buf. destruct (cells p !! l); [|done]. rewrite !some_bind. intros H%IH. exact H.
Qed.

Lemma prepare_chunk_size p h lh l p' : prepare_chain p h lh l = Some p' -> chunk_size p' = chunk_size p.
Proof.
  unfold prepare_chain. destruct (links _ _ _) as [ls|]; [|done]. rewrite some_bind.
  destruct (Chunk.ngx_rtmp_prepare_message _ _ _ _) as [[out|]|]; [|..|done]; rewrite some_bind.
  - apply store_chunk_size.
  - now intros [= <-].
Qed.

(** The chunk header of a control message of [n] bytes. *)
Definition control_header (tp : Z) (n : nat) : list Z :=
  [2] ++ be_bytes 3 0 ++ be_bytes 3 (Z.of_nat n) ++ [tp] ++ le_bytes 4 0.

Lemma prepare_control tp b n : 2 < Chunk.max_streams cscf -> buf_ok b ->
  n = length (buf_data b) -> Z.of_nat n < 2 ^ 24 ->
  Chunk.ngx_rtmp_prepare_message cscf (Chunk.Hdr 2 0 0 tp 0) None [b] =
  (b' ← Chunk.prepend 12 (control_header tp n) b; Some (Some [b'])).
Proof.
  intros Hm Hok Hn Hl. unfold Chunk.ngx_rtmp_prepare_message. cbn [Chunk.csid Chunk.timestamp Chunk.msid Chunk.type].
  case_if; [lia|]. cbn [foldr].
  assert (Chunk.buf_size b + 0 = Z.of_nat n) as ->.
  { unfold Chunk.buf_size. rewrite Hn, length_buf_data by done. destruct Hok. lia. }
  rewrite u32_small by lia. reflexivity.
Qed.

Lemma message_created p live tp d :
  wf p live -> 2 < Chunk.max_streams cscf -> 0 <= tp < 256 -> bytes_ok d ->
  (length d <= chunk_size p)%nat -> Z.of_nat (length d) < 2 ^ 24 ->
  exists p' l c b, user_message p tp d = Some (p', l) /\ wf p' ([l] :: live) /\
    same_chains p p' live /\ cells p' !! l = Some c /\ next c = None /\ ref c = 1 /\
    Chunk.sendable b /\ buf_data b = d /\
    Chunk.ngx_rtmp_prepare_message cscf (Chunk.Hdr 2 0 0 tp 0) None [b] = Some (Some [buf c]) /\
    buf_data (buf c) = control_header tp (length d) ++ d.
Proof.
  intros Hw Hm Htp Hd Hlen Hn. unfold user_message.
  destruct (alloc_spec p live Hw) as (p1 & l & b & -> & Hw1 & Hk & Hs & Hnl & El & Hf & Hp & Hb & Hr).
  rewrite some_bind. unfold put_bytes. rewrite El, some_bind. cbn [buf].
  rewrite Hr, (proj2 (Nat.leb_le _ _)) by done. unfold set_buf. rewrite El, some_bind. cbn [next ref].
  set (b1 := buf_push b d). set (p2 := set_cell p1 l _). rewrite some_bind.
  assert (fits p1 b) as Hf1 by (unfold fits in *; now rewrite Hk).
  assert (fits p1 b1) as Hfb1 by (apply push_fits; [done|done|lia]).
  assert (cells p2 !! l = Some (Cell None 1 b1)) as E2 by apply lookup_insert_eq.
  assert (wf p2 ([l] :: live)) as Hw2 by (eapply wf_set_cell; [exact Hw1|exact El|done|exact Hfb1]).
  assert (buf_data b1 = d) as Hb1.
  { unfold b1. rewrite buf_data_push; [now rewrite Hb|apply Hf1|lia]. }
  assert (Chunk.sendable b1) as Hsend by (split; [apply Hfb1|cbn; rewrite Hp; unfold hdr_room; lia]).
  pose proof (prepare_control tp b1 (length d) Hm (proj1 Hfb1) ltac:(now rewrite Hb1) Hn) as Epr.
  destruct (Chunk.prepend_data 12 (control_header tp (length d)) b1 (proj1 Hfb1) eq_refl)
    as (b2 & Eb2 & Hb2); [cbn; rewrite Hp; unfold hdr_room, Chunk.NGX_RTMP_MAX_CHUNK_HEADER; lia|].
  rewrite Eb2, some_bind in Epr.
  assert (fits p2 b2) as Hfb2.
  { eapply prepend_fits; [exact Hfb1| |reflexivity|exact Eb2]. unfold control_header.
    rewrite !bytes_ok_app. split_and!; auto with lmss; (constructor; [unfold byte_ok; lia|constructor]). }
  unfold prepare_chain. pose proof (wf_chain_len _ _ _ Hw2) as Hbrk. cbn [length] in Hbrk.
  assert (links (brk p2) p2 (Some l) = Some [l]) as ->.
  { destruct (brk p2) as [|k]; [lia|]. cbn [links]. rewrite E2. cbn. now destruct k. }
  rewrite some_bind. assert (bufs p2 [l] = [b1]) as -> by (unfold bufs; cbn [omap list_omap]; now rewrite E2).
  rewrite Epr, some_bind. cbn [store_bufs]. unfold set_buf. rewrite E2, !some_bind. cbn [next ref].
  exists (set_cell p2 l (Cell None 1 b2)), l, (Cell None 1 b2), b1. split; [done|].
  split; [eapply wf_set_cell; [exact Hw2|exact E2|done|exact Hfb2]|].
  split; [|split; [apply lookup_insert_eq|do 5 (split; [done|]); cbn [buf]; now rewrite Hb2, Hb1]].
  intros l' Hl'. assert (l <> l') by congruence. cbn. rewrite !lookup_insert_ne by done. now apply Hs.
Qed.

End Create.

(* ------------------------------------------------------------------ *)
(** ** From one side to the other *)

(** The messages of all control functions, and what they do at the peer. *)
Inductive control :=
  | CChunkSize (n : Z)
  | CAbort (csid : Z)
  | CAck (n : Z)
  | CAckSize (n : Z)
  | CBandwidth (n limit : Z)
  | CStreamBegin (m : Z)
  | CStreamEof (m : Z)
  | CStreamDry (m : Z)
  | CSetBuflen (m n : Z)
  | CStartHlsSlice (m frag frag_ts : Z)
  | CRecorded (m : Z)
  | CPingRequest (t : Z)
  | CPingResponse (t : Z).

Definition create (cscf : Chunk.ngx_rtmp_core_srv_conf_t) (p : pool) (c : control)
  : option (pool * loc) :=
  match c with
  | CChunkSize n => ngx_rtmp_create_chunk_size cscf p n
  | CAbort n => ngx_rtmp_create_abort cscf p n
  | CAck n => ngx_rtmp_create_ack cscf p n
  | CAckSize n => ngx_rtmp_create_ack_size cscf p n
  | CBandwidth n l => ngx_rtmp_create_bandwidth cscf p n l
  | CStreamBegin m => ngx_rtmp_create_stream_begin cscf p m
  | CStreamEof m => ngx_rtmp_create_stream_eof cscf p m
  | CStreamDry m => ngx_rtmp_create_stream_dry cscf p m
  | CSetBuflen m n => ngx_rtmp_create_set_buflen cscf p m n
  | CStartHlsSlice m f t => ngx_rtmp_create_start_hls_slice cscf p m f t
  | CRecorded m => ngx_rtmp_create_recorded cscf p m
  | CPingRequest t => ngx_rtmp_create_ping_request cscf p t
  | CPingResponse t => ngx_rtmp_create_ping_response cscf p t
  end.

(** The arguments at the width of the C functions. *)
Definition control_ok (c : control) : Prop :=
  match c with
  | CChunkSize n | CAbort n | CAck n | CAckSize n | CStreamBegin n | CStreamEof n | CStreamDry n
  | CRecorded n | CPingRequest n | CPingResponse n => 0 <= n < 2 ^ 32
  | CBandwidth n l => 0 <= n < 2 ^ 32 /\ 0 <= l < 256
  | CSetBuflen m n => 0 <= m < 2 ^ 32 /\ 0 <= n < 2 ^ 32
  | CStartHlsSlice m f t => 0 <= m < 2 ^ 32 /\ 0 <= f < 2 ^ 64 /\ 0 <= t < 2 ^ 64
  end.

Definition message_type (c : control) : Z :=
  match c with
  | CChunkSize _ | CAbort _ => NGX_RTMP_MSG_CHUNK_SIZE
  | CAck _ => NGX_RTMP_MSG_ACK
  | CAckSize _ => NGX_RTMP_MSG_ACK_SIZE
  | CBandwidth _ _ => NGX_RTMP_MSG_BANDWIDTH
  | _ => NGX_RTMP_MSG_USER
  end.

Definition message_body (c : control) : list Z :=
  match c with
  | CChunkSize n | CAbort n | CAck n | CAckSize n => out4 n
  | CBandwidth n l => out4 n ++ out1 l
  | CStreamBegin m => [0; 0] ++ out4 m
  | CStreamEof m => [0; 1] ++ out4 m
  | CStreamDry m => [0; 2] ++ out4 m
  | CSetBuflen m n => [0; 3] ++ out4 m ++ out4 n
  | CRecorded m => [0; 4] ++ out4 m
  | CPingRequest t => [0; 6] ++ out4 t
  | CPingResponse t => [0; 7] ++ out4 t
  | CStartHlsSlice m f t => [0; 32] ++ out4 m ++ out8 f ++ out8 t
  end.

Section Peer.
Context {B : Type} (hook : B -> call -> ngx_rc * B) (stale : nat -> Z).

(** What receiving the message does to the modules and asks of the chunk
    layer.  The message of an abort has the type of a chunk size, and that is how
    the peer takes it. *)
Definition effect (a : modules B) (c : control) : ngx_rc * modules B * list Chunk.command :=
  match c with
  | CChunkSize n | CAbort n => (NGX_OK, a, [Chunk.SetChunkSize n])
  | CAckSize n => (NGX_OK, a, [Chunk.SetAckSize n])
  | CAck _ | CBandwidth _ _ => (NGX_OK, a, [])
  | CStreamBegin m => call_hook hook a (StreamBegin m)
  | CStreamEof m => call_hook hook a (StreamEof m)
  | CStreamDry m => call_hook hook a (StreamDry m)
  | CSetBuflen m n => call_hook hook (Mods n (others a)) (SetBuflen m n)
  | CStartHlsSlice m f t => call_hook hook a (StartHlsSlice m f t)
  | CRecorded m => call_hook hook a (Recorded m)
  | CPingRequest t => call_hook hook a (SendPingResponse t)
  | CPingResponse t => (NGX_OK, snd (fst (call_hook hook a ResetPing)), [])
  end.

Lemma create_message cscf p c :
  create cscf p c = user_message cscf p (message_type c) (message_body c).
Proof. now destruct c. Qed.

Lemma out4_val n : 0 <= n < 2 ^ 32 -> be_val (out4 n) = n.
Proof. intros. unfold out4. rewrite be_val_be_bytes. now apply Z.mod_small. Qed.

Lemma out8_val n : 0 <= n < 2 ^ 64 -> val8 (out8 n) = n.
Proof.
  intros Hn. unfold val8, out8.
  rewrite take_app_length', drop_app_length', !be_val_be_bytes by reflexivity.
  change (2 ^ (8 * Z.of_nat 4)) with (2 ^ 32). rewrite Z.shiftr_div_pow2 by lia.
  rewrite (Z.mod_small (n / 2 ^ 32)); [pose proof (Z.div_mod n (2 ^ 32)); lia|].
  split; [apply Z.div_pos; lia|]. apply Z.div_lt_upper_bound; lia.
Qed.

Lemma body_ok c : control_ok c -> bytes_ok (message_body c) /\ (length (message_body c) <= 22)%nat /\
  0 <= message_type c < 256.
Proof.
  intros _. split; [|split; [destruct c; cbn; lia|destruct c; done]].
  destruct c; cbn [message_body]; rewrite ?bytes_ok_app; unfold out1, out4, out8;
    rewrite ?bytes_ok_app; split_and?; try apply be_bytes_ok;
    (constructor; [unfold byte_ok; lia|]; constructor; [unfold byte_ok; lia|constructor]).
Qed.

(** The handlers of the message types. *)
Lemma user_effect c a h : message_type c = NGX_RTMP_MSG_USER -> control_ok c ->
  ngx_rtmp_user_message_handler hook stale a h [message_body c] = effect a c.
Proof.
  intros Ht Hc. unfold ngx_rtmp_user_message_handler. cbn [in_buf0].
  assert (forall m k r, message_body c = [0; k] ++ out4 m ++ r ->
    be_val (peek stale (message_body c) 0 2) = k /\
    peek stale (message_body c) 2 4 = out4 m /\ (length (message_body c) <? 6)%nat = false) as Hm.
  { intros m k r ->. split; [cbn; lia|]. split; reflexivity. }
  destruct c as [| | | | |m|m|m|m n|m f t|m|t|t]; try discriminate Ht; cbn [control_ok] in Hc;
    (destruct (Hm _ _ _ eq_refl) as (-> & -> & ->) ||
     (destruct (Hm _ _ [] ltac:(rewrite app_nil_r; reflexivity)) as (-> & -> & ->)));
    rewrite out4_val by lia; try reflexivity.
  - change (peek stale (message_body (CSetBuflen m n)) 6 4) with (out4 n).
    rewrite out4_val by lia. reflexivity.
  - change (peek stale (message_body (CStartHlsSlice m f t)) 6 8) with (out8 f).
    change (peek stale (message_body (CStartHlsSlice m f t)) 14 8) with (out8 t).
    rewrite !out8_val by lia. reflexivity.
  - unfold effect, call_hook. now destruct (hook (others a) ResetPing).
Qed.

Lemma protocol_effect c a h : message_type c <> NGX_RTMP_MSG_USER -> control_ok c ->
  Chunk.type h = message_type c ->
  ngx_rtmp_protocol_message_handler a h [message_body c] = effect a c.
Proof.
  intros Ht Hc Hh. unfold ngx_rtmp_protocol_message_handler. cbn [in_buf0].
  assert (forall n r, message_body c = out4 n ++ r -> 0 <= n < 2 ^ 32 ->
    u32 (be_val (take 4 (message_body c))) = n /\ (length (message_body c) <? 4)%nat = false) as Hm.
  { intros n r -> Hn. rewrite take_app_length', out4_val by done. now rewrite u32_small. }
  destruct c as [n|n|n|n|n l| | | | | | | | ]; try (exfalso; now apply Ht); cbn [control_ok] in Hc;
    (destruct (Hm n _ eq_refl ltac:(lia)) as (-> & ->) ||
     (destruct (Hm n [] ltac:(now rewrite app_nil_r) ltac:(lia)) as (-> & ->)));
    rewrite Hh; reflexivity.
Qed.

Context (amf : list (list Z * Chunk.ngx_rtmp_handler_pt (modules B))).
Context (mods : Z -> list (Chunk.ngx_rtmp_handler_pt (modules B))).
(** No module registers for the control messages. *)
Hypothesis mods_control : forall ty, ty <= NGX_RTMP_MSG_BANDWIDTH -> mods ty = [].
Context (depth : nat).
Abbreviation events := (Receive.events hook stale amf mods depth).

(** The table has one handler for a control message. *)
Lemma control_handled c d h : control_ok c -> Chunk.type h = message_type c ->
  Chunk.dec_message events d h [message_body c] =
  let '(rc, a, cs) := effect (Chunk.d_app d) c in
  d ← Chunk.dec_commands (Chunk.Dec (Chunk.d_streams d) (Chunk.d_chunk d) a) cs;
  Some (match rc with NGX_ERROR => NGX_ERROR | _ => NGX_OK end, d).
Proof.
  intros Hc Hh. unfold Chunk.dec_message. rewrite Hh.
  assert (exists evh, events (message_type c) = [evh] /\
    evh (Chunk.d_app d) h [message_body c] = effect (Chunk.d_app d) c) as (evh & -> & E).
  { assert (message_type c <= NGX_RTMP_MSG_BANDWIDTH) as Hle by (destruct c; done).
    destruct (decide (message_type c = NGX_RTMP_MSG_USER)) as [Hu|Hu].
    - exists (ngx_rtmp_user_message_handler hook stale). split; [|now apply user_effect].
      unfold Receive.events. destruct depth; rewrite mods_control, Hu by done; reflexivity.
    - exists ngx_rtmp_protocol_message_handler. split; [|now apply protocol_effect].
      unfold Receive.events. destruct depth; rewrite mods_control by done; destruct c; try done;
        now destruct Hu. }
  assert ((Chunk.NGX_RTMP_MSG_MAX <? message_type c) = false) as -> by (destruct c; done).
  cbn [Chunk.dec_handlers]. rewrite E. destruct (effect _ _) as [[rc a] cs].
  destruct (Chunk.dec_commands _ _); [|done]. rewrite !some_bind. now destruct rc.
Qed.

(** C10: what one side says the other hears: the message that any of the thirteen
    control functions creates - one shared buffer with one reference, no other chain
    being touched - is decoded by a peer with the same chunk size and handled with
    the arguments of the call: the chunk size or acknowledgement window is set, or
    the modules are called, as [effect] says; an acknowledgement and a bandwidth
    change nothing.  For twelve of them this is what the
    function stands for; the message of [ngx_rtmp_create_abort] is not heard as an
    abort: the peer sets its chunk size to the number of the chunk stream. *)
Theorem control_round_trip cscf p live c d st :
  wf p live -> (22 <= chunk_size p)%nat -> control_ok c ->
  2 < Chunk.max_streams cscf -> 22 <= Chunk.max_message cscf ->
  Chunk.play_time_fix cscf = Chunk.publish_time_fix cscf ->
  Chunk.d_chunk d = Z.of_nat (chunk_size p) ->
  Chunk.d_streams d !! 2%nat = Some (st, []) -> Chunk.st_len st = 0 -> Chunk.st_in st = [] ->
  exists p' l k st', create cscf p c = Some (p', l) /\ wf p' ([l] :: live) /\
    same_chains p p' live /\ cells p' !! l = Some k /\ next k = None /\ ref k = 1 /\
    forall x rc a cs d', effect (Chunk.d_app d) c = (rc, a, cs) -> rc <> NGX_ERROR ->
      Chunk.dec_commands (Chunk.Dec (<[2%nat := (st', [])]> (Chunk.d_streams d)) (Chunk.d_chunk d) a) cs =
        Some d' ->
      Chunk.decode_all cscf events d (buf_data (buf k) ++ x) = Chunk.decode_all cscf events d' x.
Proof.
  intros Hw Hk Hc Hmax Hmsg Hfix Hdc Hst Hlen Hin.
  destruct (body_ok c Hc) as (Hb & Hl & Ht).
  destruct (message_created cscf p live (message_type c) (message_body c) Hw Hmax Ht Hb
    ltac:(lia) ltac:(lia)) as (p' & l & k & b & E & Hw' & Hs & El & Hn & Hr & Hsend & Hbd & Epr & _).
  assert (Chunk.total [message_body c] = Z.of_nat (length (message_body c))) as Htot
    by (unfold Chunk.total; cbn [concat]; now rewrite app_nil_r).
  destruct (Chunk.prepared_decodes cscf events (Chunk.Hdr 2 0 0 (message_type c) 0) None
    ltac:(cbn; lia) ltac:(cbn; lia) ltac:(cbn; lia) ltac:(cbn; lia) ltac:(cbn; lia) Hfix d st [b])
    as (out & dt & ext & Eout & H);
    cbn [map Chunk.csid Chunk.timestamp Chunk.type Chunk.msid] in *; rewrite ?Hbd, ?Htot.
  - now constructor.
  - lia.
  - cbn. lia.
  - lia.
  - lia.
  - exact Hst.
  - split; [done|]. split; [done|]. cbn. split; [lia|]. split; lia.
  - rewrite Epr in Eout. injection Eout as <-. rewrite Hbd, Htot in H.
    exists p', l, k. eexists. rewrite create_message. do 6 (split; [done|]).
    intros x rc a cs d' Eff Hrc Hcmd. cbn [map concat] in H. rewrite app_nil_r in H. apply H.
    rewrite control_handled by done. cbn [Chunk.d_app Chunk.d_streams Chunk.d_chunk].
    rewrite Eff. change (Z.to_nat 2) with 2%nat. rewrite Hcmd, some_bind. now destruct rc.
Qed.

End Peer.

(** A new session of each side: the peer hears a buffer length. *)
Lemma control_round_trip_witness :
  exists p' l k d', create Chunk.conf (empty_pool 128) (CSetBuflen 1 3000) = Some (p', l) /\
    cells p' !! l = Some k /\
    Chunk.decode_all Chunk.conf (Receive.events log_hook (fun _ => 0) [] (fun _ => []) 0)
      (Chunk.init_decoder Chunk.conf no_mods) (buf_data (buf k)) = Some (None, d', []) /\
    Chunk.d_app d' = Mods 3000 [SetBuflen 1 3000].
Proof.
  destruct (control_round_trip log_hook (fun _ => 0) [] (fun _ => []) (fun _ _ => eq_refl) 0 Chunk.conf
    (empty_pool 128) [] (CSetBuflen 1 3000) (Chunk.init_decoder Chunk.conf no_mods)
    Chunk.calloc_stream) as (p' & l & k & st' & E & _ & _ & El & _ & _ & H).
  - apply empty_pool_wf.
  - cbn. lia.
  - cbn. lia.
  - reflexivity.
  - cbn. lia.
  - reflexivity.
  - reflexivity.
  - reflexivity.
  - reflexivity.
  - reflexivity.
  - exists p', l, k. eexists. split; [exact E|]. split; [exact El|].
    rewrite <- (app_nil_r (buf_data _)), (H [] NGX_OK _ [] _ eq_refl ltac:(done) eq_refl).
    split; reflexivity.
Defined.

(* ------------------------------------------------------------------ *)
(** ** Into the queue *)

(** The bytes of a message on the wire. *)
Definition control_bytes (c : control) : list Z :=
  control_header (message_type c) (length (message_body c)) ++ message_body c.

Lemma same_frames p p' live ls refs : same_chains p p' live ->
  Queue.frames p p' live (ls :: live) refs.
Proof.
  intros Hs x k Hx Hh Hk. split; [now apply list_elem_of_further|]. intros j Hj.
  rewrite Hs; [done|]. eapply elem_concat; eauto.
Qed.

(** A new chain in the pool, with the reference of its creator. *)
Lemma created_held held p p' s live pend ls l k :
  Queue.queue_ok held p s live pend -> wf p' (ls :: live) -> same_chains p p' live ->
  head ls = Some l -> cells p' !! l = Some k -> ref k = 1 ->
  Queue.queue_ok (l :: held) p' s (ls :: live) pend /\
  Queue.remaining p' s pend = Queue.remaining p s pend /\ Queue.kept held p p'.
Proof.
  intros Hq Hw' Hs Hh El Hr. pose proof (Queue.ok_owned _ _ _ _ _ Hq) as Ho.
  destruct (Queue.new_owned p p' live (pend ++ held) ls l k Ho Hw' Hs Hh El Hr) as [Ho' Hkept].
  destruct (Queue.queue_frame held (l :: held) p p' s live (ls :: live) pend Hq) as [Hq' Hrem].
  { now rewrite <- Permutation_middle. }
  { now apply same_frames. }
  split; [done|]. split; [done|]. intros j Hj. apply Hkept, elem_of_app. auto.
Qed.

(** The creator gives up its reference. *)
Lemma creator_done held p s live pend l :
  Queue.queue_ok (l :: held) p s live pend ->
  exists p' live', ngx_rtmp_free_shared_chain p l = Some p' /\
    Queue.queue_ok held p' s live' pend /\
    Queue.remaining p' s pend = Queue.remaining p s pend /\ Queue.kept held p p'.
Proof.
  intros Hq. pose proof (Queue.ok_owned _ _ _ _ _ Hq) as Ho.
  rewrite <- Permutation_middle in Ho.
  destruct (Queue.free_frames p live l (pend ++ held) Ho) as (p' & live' & E & Ho' & Hf).
  exists p', live'. split; [done|].
  destruct (Queue.queue_frame (l :: held) held p p' s live live' pend Hq Ho') as [Hq' Hr].
  { intros ls k H1 H2 H3. apply (Hf ls k H1 H2), elem_of_app. auto. }
  split; [done|]. split; [done|]. intros j Hj.
  apply (Queue.frames_bytes p p' live live' (l :: pend ++ held) (pend ++ held)); auto.
  - apply Ho'.
  - intros i. apply list_elem_of_further.
  - apply elem_of_app. auto.
Qed.

(** A created message goes into the queue or is given up. *)
Lemma packet_sent held now sock p p1 s live pend ls l k :
  Queue.queue_ok held p s live pend -> Queue.hls s = false -> (Queue.out_queue s | 2 ^ 64) ->
  wf p1 (ls :: live) -> same_chains p p1 live -> head ls = Some l -> cells p1 !! l = Some k ->
  ref k = 1 ->
  let full := Queue.out_queue s <=? Z.of_nat (length pend) + 1 in
  exists p' s' w live' pend',
    ngx_rtmp_send_shared_packet now false false sock s (Some (p1, l)) =
      Some (if full then NGX_AGAIN else NGX_OK, p', s', w) /\
    Queue.queue_ok held p' s' live' pend' /\ Queue.kept held p p' /\
    w ++ Queue.remaining p' s' pend' =
      Queue.remaining p s pend ++ (if full then [] else Queue.chain_bytes p1 l).
Proof.
  intros Hq Hh Hd Hw1 Hs Hhd El Hr full.
  destruct (created_held held p p1 s live pend ls l k Hq Hw1 Hs Hhd El Hr) as (Hq1 & Hrem1 & Hk1).
  unfold ngx_rtmp_send_shared_packet. rewrite some_bind.
  destruct (Queue.send_message_spec (l :: held) now sock p1 s (ls :: live) pend ls l k 0 Hq1 Hh Hd
    ltac:(lia) (list_elem_of_here _ _) Hhd El ltac:(lia)) as (p2 & s2 & w & E2 & H2).
  rewrite E2, some_bind. clear E2. change (Z.min 3 0 * Queue.out_queue s / 4) with 0 in *.
  rewrite Z.add_0_r in *. fold full in H2 |- *.
  assert (exists live2 pend2, Queue.queue_ok (l :: held) p2 s2 live2 pend2 /\
    Queue.kept (l :: held) p1 p2 /\
    w ++ Queue.remaining p2 s2 pend2 =
      Queue.remaining p s pend ++ (if full then [] else Queue.chain_bytes p1 l))
    as (live2 & pend2 & Hq2 & Hk2 & Hw).
  { destruct full.
    - destruct H2 as (-> & -> & ->). exists (ls :: live), pend. split; [done|].
      split; [apply Queue.kept_refl|]. now rewrite app_nil_r, Hrem1.
    - destruct H2 as (live2 & pend2 & Hq2 & Hk2 & Hw). exists live2, pend2.
      rewrite Hrem1 in Hw. auto. }
  destruct (creator_done held p2 s2 live2 pend2 l Hq2) as (p3 & live3 & E3 & Hq3 & Hr3 & Hk3).
  rewrite E3, some_bind. exists p3, s2, w, live3, pend2. split; [done|]. split; [done|].
  split; [|now rewrite Hr3]. intros j Hj. rewrite Hk3, Hk2 by (done || now apply list_elem_of_further).
  auto.
Qed.

Lemma control_sent_spec held cscf now sock p s live pend c :
  Queue.queue_ok held p s live pend -> Queue.hls s = false -> (Queue.out_queue s | 2 ^ 64) ->
  (22 <= chunk_size p)%nat -> control_ok c -> 2 < Chunk.max_streams cscf ->
  let full := Queue.out_queue s <=? Z.of_nat (length pend) + 1 in
  exists p' s' w live' pend',
    ngx_rtmp_send_shared_packet now false false sock s (create cscf p c) =
      Some (if full then NGX_AGAIN else NGX_OK, p', s', w) /\
    Queue.queue_ok held p' s' live' pend' /\ Queue.kept held p p' /\
    w ++ Queue.remaining p' s' pend' =
      Queue.remaining p s pend ++ (if full then [] else control_bytes c).
Proof.
  intros Hq Hh Hd Hk Hc Hmax full. destruct (body_ok c Hc) as (Hb & Hl & Ht).
  destruct (message_created cscf p live (message_type c) (message_body c)
    (Queue.owned_wf _ _ _ (Queue.ok_owned _ _ _ _ _ Hq)) Hmax Ht Hb ltac:(lia) ltac:(lia))
    as (p1 & l & k & b & E & Hw' & Hs & El & Hn & Hr & _ & _ & _ & Hd').
  rewrite create_message, E.
  assert (Queue.chain_bytes p1 l = control_bytes c) as <-.
  { rewrite (Queue.live_bytes p1 _ [l] l Hw' (list_elem_of_here _ _) eq_refl). unfold bufs.
    cbn [omap list_omap]. rewrite El. cbn [fmap option_fmap option_map map concat].
    now rewrite app_nil_r. }
  exact (packet_sent held now sock p p1 s live pend [l] l k Hq Hh Hd Hw' Hs eq_refl El Hr).
Qed.

(** Sending a control message from creation to the end: it goes out behind
    everything queued before, or, when all slots but one are in use, is
    dropped with the queue as it was; either way the caller holds no reference
    afterwards and no buffer is lost: the references that are left are those
    of the queue and of other holders, whose messages keep their bytes. *)
Theorem control_sent held cscf now sock p s live pend c :
  Queue.queue_ok held p s live pend -> Queue.hls s = false -> (Queue.out_queue s | 2 ^ 64) ->
  (22 <= chunk_size p)%nat -> control_ok c -> 2 < Chunk.max_streams cscf ->
  let full := Queue.out_queue s <=? Z.of_nat (length pend) + 1 in
  exists p' s' w live' pend',
    ngx_rtmp_send_shared_packet now false false sock s (create cscf p c) =
      Some (if full then NGX_AGAIN else NGX_OK, p', s', w) /\
    Queue.queue_ok held p' s' live' pend' /\ Queue.kept held p p' /\
    w ++ Queue.remaining p' s' pend' =
      Queue.remaining p s pend ++ (if full then [] else control_bytes c).
Proof. apply control_sent_spec. Qed.

(** A new session sends a ping request. *)
Definition idle_queue : Queue.session := Queue.queue [None; None; None; None] 0 0 false.

Lemma idle_queue_ok : Queue.queue_ok [] (empty_pool 128) idle_queue [] [].
Proof.
  split; [|split; [apply empty_pool_wf|..]|done].
  - now constructor.
  - intros l H. now apply not_elem_of_nil in H.
  - intros ls l H. now apply not_elem_of_nil in H.
  - intros l c H. now apply not_elem_of_nil in H.
Qed.

Lemma control_sent_witness :
  exists p' s' w live' pend',
    ngx_rtmp_send_shared_packet 0 false false [Queue.Accept 5] idle_queue
      (create Chunk.conf (empty_pool 128) (CPingRequest 7)) = Some (NGX_OK, p', s', w) /\
    Queue.queue_ok [] p' s' live' pend' /\ Queue.kept [] (empty_pool 128) p' /\
    w ++ Queue.remaining p' s' pend' = control_bytes (CPingRequest 7).
Proof.
  apply (control_sent [] Chunk.conf 0 [Queue.Accept 5] (empty_pool 128) idle_queue [] [] (CPingRequest 7)).
  - exact idle_queue_ok.
  - reflexivity.
  - exists (2 ^ 62). reflexivity.
  - cbn. lia.
  - cbn. lia.
  - reflexivity.
Defined.

(** An abort message is created as a chunk size message: the peer sets the
    size of its chunks to the number of the chunk stream. *)
Lemma abort_is_chunk_size cscf p csid :
  ngx_rtmp_create_abort cscf p csid = ngx_rtmp_create_chunk_size cscf p csid.
Proof. reflexivity. Qed.

End Send.
