(* ===== verification/AmfSend.v ===== *)
(** * AMF messages (src/src/rtmp/ngx_rtmp_send.c)

    The functions that create and send commands, statuses and metadata: the
    AMF writer (Amf.v) over shared buffers (Shared.v) and the chunk headers
    (Chunk.v).  [pool_sink] is the writer's interface [Sink] over the pool of
    shared buffers; its laws are proved here, so what Amf.v proves of the
    writer holds of the messages.

    [amf_message_decodes] and [status_arrives] compose the sender with the
    peer's chunk layer and message handlers (Receive.v), [amf_sent] with the
    output queue (Queue.v). *)

From Stdlib Require Import ZArith Lia.
From stdpp Require Import base numbers list strings gmap.
From S2P Require Import Prelude Buf Double Chunk Shared Queue Amf Receive Send.

Module AmfSend.

Import Shared.
#[local] Existing Instance Queue.owned_perm.

(* ------------------------------------------------------------------ *)
(** ** The writer over shared buffers *)

(** [ngx_rtmp_amf_ctx_t] for writing: [first] and [link]; [alloc] is
    [ngx_rtmp_alloc_amf_buf]. *)
Record amf_out := AmfOut {
  out_pool : pool;
  out_first : option loc;
  out_link : option loc
}.

Definition ngx_rtmp_alloc_amf_buf (h : pool) : option (pool * loc) := ngx_rtmp_alloc_shared_buf h.

(** [b == NULL || b->last == b->end] *)
Definition no_room (c : amf_out) : option bool :=
  match out_link c with
  | None => Some true
  | Some l => k ← cells (out_pool c) !! l; Some (b_last (buf k) =? b_end (buf k))%nat
  end.

(** A new link behind the last one. *)
Definition grow (c : amf_out) : option amf_out :=
  '(h, ln) ← ngx_rtmp_alloc_amf_buf (out_pool c);
  let first := match out_first c with None => Some ln | first => first end in
  h ← match out_link c with
      | Some l => set_next h l (Some ln)
      | None => Some h
      end;
  Some (AmfOut h first (Some ln)).

(** The loop of [ngx_rtmp_amf_put]; [None] when the fuel ends or a link does
    not exist. *)
Fixpoint put_shared (fuel : nat) (c : amf_out) (p : list Z) : option amf_out :=
  match p, fuel with
  | [], _ => Some c
  | _, O => None
  | _, S fuel =>
      full ← no_room c;
      c ← (if full : bool then grow c else Some c);
      l ← out_link c;
      k ← cells (out_pool c) !! l;
      let size := buf_room (buf k) in
      if (length p <=? size)%nat then
        h ← set_buf (out_pool c) l (buf_push (buf k) p);
        Some (AmfOut h (out_first c) (Some l))
      else
        h ← set_buf (out_pool c) l (buf_push (buf k) (take size p));
        put_shared fuel (AmfOut h (out_first c) (Some l)) (drop size p)
  end.

#[local] Instance pool_sink : Amf.Sink amf_out := fun c p =>
  let first := match out_link c, out_first c with
               | Some l, None => Some l
               | _, first => first
               end in
  put_shared (length p) (AmfOut (out_pool c) first (out_link c)) p.

(* ------------------------------------------------------------------ *)
(** ** Messages *)

(** [first] and [last] are pointers to pointers, [None] being NULL. *)
Definition ngx_rtmp_append_amf (p : pool) (first last : option (option loc))
    (m : Amf.memory) (elts : list Amf.ngx_rtmp_amf_elt_t)
  : option (ngx_rc * pool * option (option loc) * option (option loc)) :=
  '(rc, act) ← Amf.ngx_rtmp_amf_write m
    (AmfOut p (default None first) (default None last)) elts;
  Some (rc, out_pool act, (fun _ => out_first act) <$> first, (fun _ => out_link act) <$> last).

Section Create.
Context (cscf : Chunk.ngx_rtmp_core_srv_conf_t).

(** The chain, [None] being NULL. *)
Definition ngx_rtmp_create_amf (p : pool) (h : Chunk.ngx_rtmp_header_t) (m : Amf.memory)
    (elts : list Amf.ngx_rtmp_amf_elt_t) : option (pool * option loc) :=
  '(rc, p, first, _) ← ngx_rtmp_append_amf p (Some None) None m elts;
  let first := mjoin first in
  '(p, first) ← match rc, first with
                | NGX_OK, _ | _, None => Some (p, first)
                | _, Some l => p ← ngx_rtmp_free_shared_chain p l; Some (p, None)
                end;
  match first with
  | None => Some (p, None)
  | Some l => p ← Send.prepare_chain cscf p h None l; Some (p, Some l)
  end.

Definition NGX_RTMP_CSID_AMF : Z := 5.
Definition NGX_RTMP_MSID : Z := 1.

Abbreviation elt := Amf.Elt.
Definition c_str (s : list Z) : list Z := s ++ [0].

(** The strings are the memory behind the arguments; the variables are the
    static variables and the strings the elements point to. *)
Definition status_vars (code level desc : list Z) : Amf.memory :=
  <[0%nat := c_str (str "onStatus")]> (<[1%nat := Double.double_bytes 0]>
    (<[2%nat := level]> (<[3%nat := code]> {[4%nat := desc]}))).

Definition status_elts : list Amf.ngx_rtmp_amf_elt_t :=
  let out_inf :=
    [elt Amf.NGX_RTMP_AMF_STRING (str "level") (Amf.DMem 2%nat) 0;
     elt Amf.NGX_RTMP_AMF_STRING (str "code") (Amf.DMem 3%nat) 0;
     elt Amf.NGX_RTMP_AMF_STRING (str "description") (Amf.DMem 4%nat) 0] in
  [elt Amf.NGX_RTMP_AMF_STRING [] (Amf.DMem 0%nat) 0;
   elt Amf.NGX_RTMP_AMF_NUMBER [] (Amf.DMem 1%nat) 0;
   elt Amf.NGX_RTMP_AMF_NULL [] Amf.DNull 0;
   elt Amf.NGX_RTMP_AMF_OBJECT [] (Amf.DElts out_inf) (Z.of_nat (length out_inf))].

Definition ngx_rtmp_create_status (p : pool) (code level desc : list Z)
  : option (pool * option loc) :=
  ngx_rtmp_create_amf p (Chunk.Hdr NGX_RTMP_CSID_AMF 0 0 Receive.NGX_RTMP_MSG_AMF_CMD NGX_RTMP_MSID)
    (status_vars code level desc) status_elts.

Definition play_status_vars (code level : list Z) (duration bytes : Z) : Amf.memory :=
  <[0%nat := c_str (str "onPlayStatus")]> (<[1%nat := code]> (<[2%nat := level]>
    (<[3%nat := Double.double_bytes (Double.double_of_uint duration)]>
      {[4%nat := Double.double_bytes (Double.double_of_uint bytes)]}))).

Definition play_status_elts : list Amf.ngx_rtmp_amf_elt_t :=
  let out_inf :=
    [elt Amf.NGX_RTMP_AMF_STRING (str "code") (Amf.DMem 1%nat) 0;
     elt Amf.NGX_RTMP_AMF_STRING (str "level") (Amf.DMem 2%nat) 0;
     elt Amf.NGX_RTMP_AMF_NUMBER (str "duration") (Amf.DMem 3%nat) 0;
     elt Amf.NGX_RTMP_AMF_NUMBER (str "bytes") (Amf.DMem 4%nat) 0] in
  [elt Amf.NGX_RTMP_AMF_STRING [] (Amf.DMem 0%nat) 0;
   elt Amf.NGX_RTMP_AMF_OBJECT [] (Amf.DElts out_inf) (Z.of_nat (length out_inf))].

Definition ngx_rtmp_create_play_status (p : pool) (code level : list Z) (duration bytes : Z)
  : option (pool * option loc) :=
  ngx_rtmp_create_amf p
    (Chunk.Hdr NGX_RTMP_CSID_AMF (u32 duration) 0 Receive.NGX_RTMP_MSG_AMF_META NGX_RTMP_MSID)
    (play_status_vars code level duration bytes) play_status_elts.

(** [access] is an [int]; a boolean is written from its first byte. *)
Definition access_vars : Amf.memory :=
  <[0%nat := c_str (str "|RtmpSampleAccess")]> {[1%nat := le_bytes 4 1]}.

Definition access_elts : list Amf.ngx_rtmp_amf_elt_t :=
  [elt Amf.NGX_RTMP_AMF_STRING [] (Amf.DMem 0%nat) 0;
   elt Amf.NGX_RTMP_AMF_BOOLEAN [] (Amf.DMem 1%nat) 0;
   elt Amf.NGX_RTMP_AMF_BOOLEAN [] (Amf.DMem 1%nat) 0].

Definition ngx_rtmp_create_sample_access (p : pool) : option (pool * option loc) :=
  ngx_rtmp_create_amf p (Chunk.Hdr NGX_RTMP_CSID_AMF 0 0 Receive.NGX_RTMP_MSG_AMF_META NGX_RTMP_MSID)
    access_vars access_elts.

(* ------------------------------------------------------------------ *)
(** ** Sending *)

Section Senders.
Context (now : Z) (destroyed timedout : bool) (sock : list Queue.send_ev).

(** [ngx_rtmp_send_shared_packet] of a chain that may be NULL. *)
Definition send (s : Queue.session) (cl : option (pool * option loc))
  : option (ngx_rc * pool * Queue.session * list Z) :=
  '(p, cl) ← cl;
  match cl with
  | None => Some (NGX_ERROR, p, s, [])
  | Some l => Send.ngx_rtmp_send_shared_packet now destroyed timedout sock s (Some (p, l))
  end.

Definition ngx_rtmp_send_amf (s : Queue.session) (p : pool) (h : Chunk.ngx_rtmp_header_t)
    (m : Amf.memory) (elts : list Amf.ngx_rtmp_amf_elt_t) :=
  send s (ngx_rtmp_create_amf p h m elts).
Definition ngx_rtmp_send_status (s : Queue.session) (p : pool) (code level desc : list Z) :=
  send s (ngx_rtmp_create_status p code level desc).
Definition ngx_rtmp_send_play_status (s : Queue.session) (p : pool) (code level : list Z)
    (duration bytes : Z) :=
  send s (ngx_rtmp_create_play_status p code level duration bytes).
Definition ngx_rtmp_send_sample_access (s : Queue.session) (p : pool) :=
  send s (ngx_rtmp_create_sample_access p).

End Senders.
End Create.

(* ------------------------------------------------------------------ *)
(** ** The laws of the writer *)

Section Laws.
Context (p0 : pool) (live : list (list loc)).
Abbreviation size := (chunk_size p0).

(** The chain being written: full links and a last one. *)
Record writing (h : pool) (ls : list loc) (l : loc) (ds : list (list Z)) (d : list Z) : Prop := {
  w_wf : wf h ((ls ++ [l]) :: live);
  w_size : chunk_size h = size;
  w_same : same_chains p0 h live;
  w_view : view h (ls ++ [l]) = map new_link (ds ++ [d]);
  w_full : Forall (fun x => length x = size) ds;
  w_last : (length d <= size)%nat
}.

Definition out_ok (c : amf_out) : Prop :=
  match out_link c with
  | None => out_first c = None /\ wf (out_pool c) live /\ chunk_size (out_pool c) = size /\
            same_chains p0 (out_pool c) live
  | Some l => exists ls ds d, out_first c = head (ls ++ [l]) /\ (0 < length d)%nat /\
                writing (out_pool c) ls l ds d
  end.

Definition out_bytes (c : amf_out) : list Z :=
  match out_first c with Some l => Queue.chain_bytes (out_pool c) l | None => [] end.

Lemma chain_view h ls ds l : wf h (ls :: live) -> view h ls = map new_link ds -> head ls = Some l ->
  Queue.chain_bytes h l = concat ds.
Proof.
  intros Hw Hv Hh. rewrite (Queue.live_bytes _ _ _ _ Hw (list_elem_of_here _ _) Hh).
  now rewrite (proj1 (bufs_view _ _ _ _ Hw Hv)).
Qed.

Lemma writing_bytes h ls l ds d : writing h ls l ds d ->
  out_bytes (AmfOut h (head (ls ++ [l])) (Some l)) = concat (ds ++ [d]).
Proof.
  intros H. unfold out_bytes. cbn [out_first out_pool].
  destruct (head (ls ++ [l])) as [l0|] eqn:E; [|now destruct ls].
  exact (chain_view _ _ _ _ (w_wf _ _ _ _ _ H) (w_view _ _ _ _ _ H) E).
Qed.

Lemma writing_cell h ls l ds d : writing h ls l ds d ->
  exists b, cells h !! l = Some (Cell None 1 b) /\ b_pos b = hdr_room /\ buf_data b = d /\
    fits h b /\ buf_room b = (size - length d)%nat.
Proof.
  intros H. pose proof (w_wf _ _ _ _ _ H) as Hw. pose proof (w_view _ _ _ _ _ H) as Hv.
  rewrite view_app, map_app in Hv.
  assert (link_view h l = new_link d) as Hl by now apply app_inj_2 in Hv as [_ [= ?]].
  unfold link_view in Hl. destruct (cells h !! l) as [[n r b]|] eqn:E; [|done].
  cbn in Hl. injection Hl as -> Hp Hd. pose proof (wf_bufs _ _ Hw l _ E) as Hf. cbn [buf] in Hf.
  exists b. assert (n = None) as ->.
  { destruct Hw as [_ Hl _]. apply Forall_cons in Hl as [[_ Hs] _].
    apply seg_snoc in Hs as [_ (k & Ek & Hn)]. rewrite E in Ek. injection Ek as <-. done. }
  do 4 (split; [done|]). pose proof (w_size _ _ _ _ _ H) as Hs. pose proof (w_last _ _ _ _ _ H).
  destruct Hf as [Hok He]. pose proof (length_buf_data b Hok) as Hlen. rewrite Hd, Hp in Hlen.
  destruct Hok as (Ho & _). unfold buf_room. lia.
Qed.

(** A link is pushed to. *)
Lemma writing_push h ls l ds d b y : writing h ls l ds d -> cells h !! l = Some (Cell None 1 b) ->
  bytes_ok y -> (length d + length y <= size)%nat ->
  exists h', set_buf h l (buf_push b y) = Some h' /\ writing h' ls l ds (d ++ y).
Proof.
  intros H El Hy Hlen. destruct (writing_cell _ _ _ _ _ H) as (b' & El' & Hp & Hd & _ & Hr).
  rewrite El in El'. injection El' as <-. destruct H as [Hw Hk Hs Hv Hf Hl].
  destruct (push_spec live h ls l (Cell None 1 b) y Hw El Hy ltac:(cbn; lia)) as (E & Hw' & Hs' & Hv' & El' & Hd').
  cbn [next ref buf] in *. exists (set_cell h l (Cell None 1 (buf_push b y))).
  split; [done|]. split; try done.
  - eapply same_chains_trans; eauto.
  - rewrite view_app, map_app in *. apply app_inj_2 in Hv as [Hv _]; [|done].
    rewrite Hv', Hv. f_equal. unfold view. cbn [map]. unfold link_view. rewrite El'.
    cbn [fmap option_fmap option_map ref buf buf_push b_pos]. fold (buf_push b y). now rewrite Hp, Hd', Hd.
  - rewrite length_app. lia.
Qed.

(** A new link behind a full one, or the first. *)
Lemma writing_grow h ls l ds d : writing h ls l ds d -> length d = size ->
  exists h' l', grow (AmfOut h (head (ls ++ [l])) (Some l)) =
      Some (AmfOut h' (head ((ls ++ [l]) ++ [l'])) (Some l')) /\
    writing h' (ls ++ [l]) l' (ds ++ [d]) [].
Proof.
  intros [Hw Hk Hs Hv Hf Hl] Hd. unfold grow, ngx_rtmp_alloc_amf_buf. cbn [out_pool out_first out_link].
  destruct (alloc_spec h _ Hw) as (h1 & l' & b & -> & Hw1 & Hk1 & Hs1 & Hnl & El' & _ & Hp & Hb & _).
  rewrite some_bind.
  assert (forall k, k ∈ ls ++ [l] -> cells h1 !! k = cells h !! k) as Hold.
  { intros k Hin. apply Hs1. cbn. apply elem_of_app. now left. }
  assert (is_Some (cells h1 !! l)) as [c El].
  { destruct Hw1 as [_ Hl1 _]. apply Forall_cons in Hl1 as [_ Hl1]. apply Forall_cons in Hl1 as [[_ Hl1] _].
    eapply seg_cell; [exact Hl1|]. apply elem_of_app. right. apply list_elem_of_here. }
  destruct (wf_link h1 ls l l' live c Hw1 El) as (h2 & -> & Hw2 & Hv2 & Hs2 & Hk2 & El2).
  rewrite some_bind. exists h2, l'. split; [f_equal; f_equal; rewrite head_snoc; now destruct ls|].
  split.
  - exact Hw2.
  - congruence.
  - intros k Hin. rewrite Hs2, Hs1; auto. cbn. apply elem_of_app. now right.
  - rewrite view_app, map_app. f_equal.
    + rewrite <- Hv. apply view_same. intros k Hin. rewrite Hv2. unfold link_view. now rewrite Hold.
    + unfold view. cbn [map]. rewrite Hv2. unfold link_view. rewrite El'. cbn. now rewrite Hp, Hb.
  - apply Forall_app. auto.
  - cbn. lia.
Qed.

Lemma first_link h : wf h live -> chunk_size h = size -> same_chains p0 h live ->
  exists h' l, grow (AmfOut h None None) = Some (AmfOut h' (Some l) (Some l)) /\ writing h' [] l [] [].
Proof.
  intros Hw Hk Hs. unfold grow, ngx_rtmp_alloc_amf_buf. cbn [out_pool out_first out_link].
  destruct (alloc_spec h _ Hw) as (h1 & l & b & -> & Hw1 & Hk1 & Hs1 & Hnl & El & _ & Hp & Hb & _).
  rewrite !some_bind. exists h1, l. split; [done|]. split; try done.
  - congruence.
  - eapply same_chains_trans; eauto.
  - unfold view. cbn [map Datatypes.app]. unfold link_view. rewrite El. cbn. now rewrite Hp, Hb.
  - cbn. lia.
Qed.

Hypothesis size_pos : (0 < size)%nat.

(** The link the next byte goes to. *)
Lemma room_spec c : out_ok c ->
  exists full h ls l ds d, no_room c = Some full /\
    (if full : bool then grow c else Some c) = Some (AmfOut h (head (ls ++ [l])) (Some l)) /\
    writing h ls l ds d /\ (length d < size)%nat /\ concat (ds ++ [d]) = out_bytes c.
Proof.
  destruct c as [h first link]. unfold out_ok, no_room. cbn [out_link out_first out_pool].
  destruct link as [l|].
  - intros (ls & ds & d & -> & Hd & Hw). destruct (writing_cell _ _ _ _ _ Hw) as (b & El & _ & _ & Hf & Hr).
    rewrite El, some_bind. cbn [buf]. rewrite (writing_bytes _ _ _ _ _ Hw).
    pose proof (w_last _ _ _ _ _ Hw) as Hl. destruct Hf as [(_ & Hb & _) _]. unfold buf_room in Hr.
    destruct (b_last b =? b_end b)%nat eqn:Ef; bool_to_prop.
    + destruct (writing_grow _ _ _ _ _ Hw ltac:(lia)) as (h' & l' & E & Hw').
      exists true, h', (ls ++ [l]), l', (ds ++ [d]), []. do 3 (split; [done|]). split; [cbn; lia|].
      rewrite (concat_app (ds ++ [d])). cbn. now rewrite !app_nil_r.
    + exists false, h, ls, l, ds, d. do 3 (split; [done|]). split; [lia|done].
  - intros (-> & Hw & Hk & Hs). destruct (first_link h Hw Hk Hs) as (h' & l & E & Hw').
    exists true, h', [], l, [], []. auto.
Qed.

Lemma put_shared_spec : forall fuel c p, (length p <= fuel)%nat -> out_ok c -> bytes_ok p ->
  exists c', put_shared fuel c p = Some c' /\ out_ok c' /\ out_bytes c' = out_bytes c ++ p.
Proof.
  induction fuel as [|fuel IH]; intros c p Hf Hc Hp.
  { destruct p; [|cbn in Hf; lia]. exists c. now rewrite app_nil_r. }
  destruct p as [|x p]; [exists c; now rewrite app_nil_r|].
  destruct (room_spec c Hc) as (full & h & ls & l & ds & d & E1 & E2 & Hw & Hd & Hb).
  destruct (writing_cell _ _ _ _ _ Hw) as (b & El & _ & _ & _ & Hr).
  set (q := x :: p) in *. assert (0 < length q)%nat as Hq by (cbn; lia).
  change (put_shared (S fuel) c q) with
    (full ← no_room c; c ← (if full : bool then grow c else Some c); l ← out_link c;
     k ← cells (out_pool c) !! l;
     let size := buf_room (buf k) in
     if (length q <=? size)%nat then
       h ← set_buf (out_pool c) l (buf_push (buf k) q); Some (AmfOut h (out_first c) (Some l))
     else
       h ← set_buf (out_pool c) l (buf_push (buf k) (take size q));
       put_shared fuel (AmfOut h (out_first c) (Some l)) (drop size q)).
  rewrite E1, some_bind, E2, some_bind. cbn [out_link out_pool out_first]. rewrite some_bind, El, some_bind.
  cbn [buf]. rewrite Hr, <- Hb.
  assert (forall h' y, writing h' ls l ds (d ++ y) -> y <> [] ->
    out_ok (AmfOut h' (head (ls ++ [l])) (Some l)) /\
    out_bytes (AmfOut h' (head (ls ++ [l])) (Some l)) = concat (ds ++ [d]) ++ y) as Hdone.
  { intros h' y Hw' Hy. split.
    - exists ls, ds, (d ++ y). split; [done|]. split; [|done]. rewrite length_app.
      destruct y; [done|cbn; lia].
    - rewrite (writing_bytes _ _ _ _ _ Hw'), !concat_app. cbn. now rewrite !app_nil_r, app_assoc. }
  cbv zeta. case_if; bool_to_prop.
  - destruct (writing_push _ _ _ _ _ b q Hw El Hp ltac:(lia)) as (h' & -> & Hw'). rewrite some_bind.
    eexists. split; [reflexivity|]. now apply Hdone.
  - set (n := (size - length d)%nat) in *.
    destruct (writing_push _ _ _ _ _ b (take n q) Hw El) as (h' & -> & Hw');
      [auto with lmss|rewrite length_take; lia|]. rewrite some_bind.
    destruct (Hdone _ _ Hw') as [Hok Hby].
    { intros H0. apply (f_equal length) in H0. rewrite length_take in H0. cbn [length] in H0. lia. }
    destruct (IH _ (drop n q) ltac:(rewrite length_drop; lia) Hok) as (c' & -> & Hc' & Hb');
      [auto with lmss|]. exists c'. split; [done|]. split; [done|].
    rewrite Hb', Hby, <- app_assoc. now rewrite take_drop.
Qed.

Lemma pool_put c p : out_ok c -> bytes_ok p ->
  exists c', Amf.amf_put c p = Some c' /\ out_ok c' /\ out_bytes c' = out_bytes c ++ p.
Proof.
  destruct c as [h first link]. intros Hc Hp. unfold Amf.amf_put, pool_sink. cbn [out_pool out_first out_link].
  assert (link = None \/ first <> None) as Hl.
  { destruct link as [l|]; [right|now left]. destruct Hc as (ls & ds & d & E & _).
    cbn [out_first] in E. subst first. now destruct ls. }
  destruct link as [l|], first as [l0|]; try (now destruct Hl); now apply put_shared_spec.
Qed.

Definition pool_laws : Amf.SinkLaws amf_out :=
  {| Amf.sink_ok := out_ok; Amf.sink_bytes := out_bytes; Amf.amf_put_spec := pool_put |}.

Lemma out_nil : wf p0 live -> out_ok (AmfOut p0 None None).
Proof. intros Hw. split; [done|]. split; [done|]. split; [done|]. intros l _. done. Qed.

(** What [ngx_rtmp_append_amf] leaves. *)
Lemma written_chain c : out_ok c -> out_bytes c <> [] ->
  exists ls l ds, out_first c = Some l /\ head ls = Some l /\ wf (out_pool c) (ls :: live) /\
    chunk_size (out_pool c) = size /\ same_chains p0 (out_pool c) live /\
    view (out_pool c) ls = map new_link ds /\ Chunk.chunked (Z.of_nat size) ds /\
    out_bytes c = concat ds.
Proof.
  destruct c as [h first [l|]]; unfold out_ok; cbn [out_link out_first out_pool].
  2: { intros (-> & _) H. now destruct H. }
  intros (ls & ds & d & -> & Hd & Hw) _. pose proof (writing_bytes _ _ _ _ _ Hw) as Hb.
  destruct Hw as [Hw Hk Hs Hv Hf Hl]. destruct (head (ls ++ [l])) as [l0|] eqn:Eh; [|now destruct ls].
  exists (ls ++ [l]), l0, (ds ++ [d]). do 6 (split; [done|]). split; [|done].
  clear -Hf Hl Hd. induction Hf as [|x ds Hx Hf IH]; [cbn; lia|].
  cbn [Datatypes.app]. destruct (ds ++ [d]) as [|y r] eqn:E; [now destruct ds|].
  split; [lia|]. split; [|done]. intros [= -> ->]. destruct ds as [|z ds]; injection E; intros.
  - subst. cbn in Hd. lia.
  - now destruct ds.
Qed.

End Laws.

(* ------------------------------------------------------------------ *)
(** ** The created message *)

Lemma encode_ne v : Amf.encode v <> [].
Proof. now destruct v. Qed.

(** A chain written for elements. *)
Lemma amf_written (m : Amf.memory) p live es vs :
  (forall a d, m !! a = Some d -> bytes_ok d) ->
  wf p live -> (0 < chunk_size p)%nat -> Amf.denote_items (Amf.denote m) es = Some vs -> es <> [] ->
  exists p1 ls l ds, ngx_rtmp_append_amf p (Some None) None m es = Some (NGX_OK, p1, Some (Some l), None) /\
    head ls = Some l /\ wf p1 (ls :: live) /\ same_chains p p1 live /\
    view p1 ls = map new_link ds /\ Chunk.chunked (Z.of_nat (chunk_size p)) ds /\
    concat ds = concat (map Amf.encode vs) /\ Forall Amf.val_ok vs /\ chunk_size p1 = chunk_size p.
Proof.
  intros Hm Hw Hk Hd Hne. unfold ngx_rtmp_append_amf. cbn [from_option id].
  destruct (Amf.write_values (laws := pool_laws p live Hk) m Hm es vs (AmfOut p None None) Hd
    (out_nil p live Hw)) as ((c & E & Hc & Hb) & Hv & Hlen).
  rewrite E, some_bind. change (out_bytes c = concat (map Amf.encode vs)) in Hb.
  assert (concat (map Amf.encode vs) <> []) as Hx0.
  { destruct vs as [|v vs]; [destruct es; [done|discriminate Hlen]|]. cbn [map concat].
    intros [H _]%app_nil. now apply encode_ne in H. }
  destruct (written_chain p live c Hc ltac:(congruence)) as (ls & l & ds & -> & Hh & Hw' & Hsz & Hs & Hv' & Hch & Hcat).
  exists (out_pool c), ls, l, ds. split; [done|]. do 5 (split; [done|]). split; [congruence|done].
Qed.

Section Created.
Context (cscf : Chunk.ngx_rtmp_core_srv_conf_t) (h : Chunk.ngx_rtmp_header_t) (m : Amf.memory).
Hypothesis mem_ok : forall a d, m !! a = Some d -> bytes_ok d.

(** A message that can be received: [ls] is its chain, [x] its payload. *)
Record prepared (p' : pool) (ls : list loc) (n : nat) (x : list Z) (bs : list ngx_buf_t) : Prop := {
  pr_sendable : Forall Chunk.sendable bs;
  pr_chunked : Chunk.chunked (Z.of_nat n) (map buf_data bs);
  pr_payload : concat (map buf_data bs) = x;
  pr_message : Chunk.ngx_rtmp_prepare_message cscf h None bs = Some (Some (bufs p' ls))
}.

Hypothesis hdr : header_ok cscf h.
Hypothesis fix_same : Chunk.play_time_fix cscf = Chunk.publish_time_fix cscf.

Lemma chain_prepared p1 live ls l ds n : wf p1 (ls :: live) -> head ls = Some l ->
  view p1 ls = map new_link ds -> Chunk.chunked (Z.of_nat n) ds -> Z.of_nat (length (concat ds)) < 2 ^ 24 ->
  exists p' k bs, Send.prepare_chain cscf p1 h None l = Some p' /\ wf p' (ls :: live) /\
    same_chains p1 p' live /\ cells p' !! l = Some k /\ ref k = 1 /\ prepared p' ls n (concat ds) bs.
Proof.
  intros Hw Hh Hv Hch Hn. destruct (bufs_view _ _ _ _ Hw Hv) as [Hds Hsend].
  destruct (Send.prepare_chain_spec cscf p1 live ls l ds h None hdr fix_same Hw Hh Hv Hn)
    as (p' & k & E & Hw2 & Hs2 & Ek & Hr & Ep).
  exists p', k, (bufs p1 ls). do 5 (split; [done|]). split; try done; now rewrite Hds.
Qed.

Lemma amf_created p live es vs :
  wf p live -> (0 < chunk_size p)%nat -> Amf.denote_items (Amf.denote m) es = Some vs -> es <> [] ->
  let x := concat (map Amf.encode vs) in
  Z.of_nat (length x) < 2 ^ 24 ->
  exists p' ls l k bs, ngx_rtmp_create_amf cscf p h m es = Some (p', Some l) /\
    head ls = Some l /\ wf p' (ls :: live) /\ same_chains p p' live /\
    cells p' !! l = Some k /\ ref k = 1 /\ prepared p' ls (chunk_size p) x bs /\ Forall Amf.val_ok vs /\
    chunk_size p' = chunk_size p.
Proof.
  intros Hw Hk Hd Hne x Hx. unfold ngx_rtmp_create_amf.
  destruct (amf_written m p live es vs mem_ok Hw Hk Hd Hne)
    as (p1 & ls & l & ds & -> & Hh & Hw1 & Hs1 & Hv1 & Hch & Hcat & Hv & Hsz).
  rewrite some_bind. cbn [mjoin option_join]. rewrite some_bind.
  destruct (chain_prepared p1 live ls l ds _ Hw1 Hh Hv1 Hch) as (p' & k & bs & E & Hw2 & Hs2 & Ek & Hr & Hp);
    [now rewrite Hcat|]. pose proof (Send.prepare_chunk_size _ _ _ _ _ _ E) as Hsz'.
  rewrite E, Hcat in *. exists p', ls, l, k, bs. do 3 (split; [done|]).
  split; [eapply same_chains_trans; eauto|]. rewrite Hsz', Hsz. done.
Qed.

(** A message that cannot be written leaves nothing behind. *)
Lemma amf_given_up p live es rc c :
  wf p live -> (0 < chunk_size p)%nat -> Forall Amf.names_ok es ->
  Amf.ngx_rtmp_amf_write m (AmfOut p None None) es = Some (rc, c) -> rc <> NGX_OK ->
  exists p', ngx_rtmp_create_amf cscf p h m es = Some (p', None) /\ wf p' live /\ same_chains p p' live.
Proof.
  intros Hw Hk Hn E Hrc.
  pose proof (Amf.write_keeps (laws := pool_laws p live Hk) m mem_ok es Hn _ (out_nil p live Hw) _ _ E) as Hc.
  change (out_ok p live c) in Hc. unfold ngx_rtmp_create_amf, ngx_rtmp_append_amf. cbn [from_option id].
  rewrite E, !some_bind. cbn [fmap option_fmap option_map mjoin option_join].
  destruct c as [h1 first [l|]]; unfold out_ok in Hc; cbn [out_link out_first out_pool] in *.
  - destruct Hc as (ls & ds & d & -> & _ & Hw1). pose proof (w_view _ _ _ _ _ _ _ Hw1) as Hv.
    pose proof (w_same _ _ _ _ _ _ _ Hw1) as Hs. pose proof (w_wf _ _ _ _ _ _ _ Hw1) as Hw2.
    destruct (head (ls ++ [l])) as [l0|] eqn:Eh; [|now destruct ls].
    assert (exists k, cells h1 !! l0 = Some k /\ ref k = 1) as (k & Ek & Hr).
    { destruct (ls ++ [l]) as [|l1 r]; [done|]. injection Eh as ->. unfold view in Hv. cbn [map] in Hv.
      destruct (ds ++ [d]) as [|d0 ds0]; [done|]. injection Hv as Hv _. unfold link_view in Hv.
      destruct (cells h1 !! l0) as [k|]; [|done]. injection Hv as Hv _ _. eauto. }
    destruct (free_spec h1 _ live l0 k Hw2 Eh Ek ltac:(lia)) as (p' & Ef & Hs' & _ & Hw' & _).
    exists p'. split; [|split; [auto|eapply same_chains_trans; eauto]].
    destruct rc; [done|..]; now rewrite Ef, !some_bind.
  - destruct Hc as (-> & Hw1 & _ & Hs). exists h1. split; [|done]. now destruct rc.
Qed.

End Created.

(* ------------------------------------------------------------------ *)
(** ** From one side to the other *)

(** The values of a chain. *)
Lemma chain_read vs c es m1 m2 fuel : Forall Amf.val_ok vs -> concat c = concat (map Amf.encode vs) ->
  Forall Amf.plain_opt es -> length es = length vs -> Amf.assign_all m1 es vs = Some m2 ->
  (4 * length (concat (map Amf.encode vs)) <= fuel)%nat ->
  exists s, Receive.ngx_rtmp_receive_amf fuel m1 c es = Some (Amf.Ret NGX_OK, s) /\ Amf.mem s = m2.
Proof.
  intros Hv Hc Hp Hlen Ha Hf. unfold Receive.ngx_rtmp_receive_amf.
  pose proof (Amf.read_values vs fuel (Amf.State (Amf.Ctx c 0) m1 ∅) es [] Hv Hp Hlen) as H.
  cbn [Amf.mem] in H. rewrite Ha in H. destruct H as (x & -> & _).
  - destruct c; cbn; lia.
  - unfold Amf.rest. cbn [Amf.link Amf.offset Amf.ctx]. now rewrite drop_0, app_nil_r.
  - lia.
  - eexists. split; [reflexivity|]. done.
Qed.

Section Peer.
Context {B : Type} (hook : B -> Receive.call -> ngx_rc * B) (stale : nat -> Z).
Context (amf : list (list Z * Chunk.ngx_rtmp_handler_pt (Receive.modules B))).
Context (mods : Z -> list (Chunk.ngx_rtmp_handler_pt (Receive.modules B))) (depth : nat).
(** Commands and metadata are registered for by their names only. *)
Hypothesis mods_amf : forall ty, ty ∈ Receive.amf_events -> mods ty = [].
Hypothesis names_ok : Receive.case_ok (map fst amf).
Abbreviation events := (Receive.events hook stale amf mods depth).

Context (cscf : Chunk.ngx_rtmp_core_srv_conf_t) (h : Chunk.ngx_rtmp_header_t) (m : Amf.memory).
Hypothesis hdr : header_ok cscf h.
Hypothesis amf_type : Chunk.type h = Receive.NGX_RTMP_MSG_AMF_CMD \/
  Chunk.type h = Receive.NGX_RTMP_MSG_AMF_META.
Hypothesis fix_same : Chunk.play_time_fix cscf = Chunk.publish_time_fix cscf.
Hypothesis mem_ok : forall a d, m !! a = Some d -> bytes_ok d.

(** The handlers a command is given to. *)
Lemma command_handled d n chain name r :
  Z.of_nat (length name) < 2 ^ 16 -> Forall (fun c => c <> 0) name ->
  Receive.in_buf0 chain <> [] -> concat chain = Amf.encode (Amf.VStr name) ++ r ->
  exists c, concat c = r /\
    Chunk.dec_message events d (full_header h n) chain =
    let '(rc, a, cs) := Receive.call_all (Chunk.d_app d) (full_header h n) c
                          (Receive.named (take 127 name) amf) [] in
    d ← Chunk.dec_commands (Chunk.Dec (Chunk.d_streams d) (Chunk.d_chunk d) a) cs;
    Some (match rc with NGX_ERROR => NGX_ERROR | _ => NGX_OK end, d).
Proof.
  intros Hn Hz Hb Hc.
  assert (Chunk.type (full_header h n) = Chunk.type h) as Ht by done.
  destruct (Receive.dispatch_spec amf (Chunk.d_app d) (full_header h n) chain 0 name r names_ok Hn Hz Hb)
    as (c & Hr & E).
  { rewrite Ht, Hc. destruct amf_type as [-> | ->]; reflexivity. }
  exists c. split; [done|]. unfold Chunk.dec_message. rewrite Ht.
  assert (events (Chunk.type h) = [Receive.ngx_rtmp_amf_message_handler amf]) as ->.
  { unfold Receive.events. destruct depth; destruct amf_type as [-> | ->];
      rewrite mods_amf by (apply (bool_decide_unpack _); exact Logic.I); reflexivity. }
  assert ((Chunk.NGX_RTMP_MSG_MAX <? Chunk.type h) = false) as ->
    by (destruct amf_type as [-> | ->]; reflexivity).
  cbn [Chunk.dec_handlers]. rewrite E. destruct (Receive.call_all _ _ _ _ _) as [[rc a] cs].
  destruct (Chunk.dec_commands _ _); [|done]. rewrite !some_bind. now destruct rc.
Qed.

(** A prepared command goes to the handlers of its name. *)
Lemma message_arrives p' live ls l n name vs bs d st :
  wf p' (ls :: live) -> head ls = Some l -> (0 < n)%nat ->
  let vs' := Amf.VStr name :: vs in
  let len := Z.of_nat (length (concat (map Amf.encode vs'))) in
  prepared cscf h p' ls n (concat (map Amf.encode vs')) bs -> Forall Amf.val_ok vs' ->
  Forall (fun c => c <> 0) name -> len < 2 ^ 24 -> len <= Chunk.max_message cscf ->
  Chunk.d_chunk d = Z.of_nat n ->
  Chunk.d_streams d !! Z.to_nat (Chunk.csid h) = Some (st, []) -> Chunk.st_len st = 0 ->
  Chunk.st_in st = [] ->
  exists st' c, concat c = concat (map Amf.encode vs) /\
    forall x rc a cs d',
      Receive.call_all (Chunk.d_app d) (full_header h len) c (Receive.named (take 127 name) amf) [] =
        (rc, a, cs) -> rc <> NGX_ERROR ->
      Chunk.dec_commands (Chunk.Dec (<[Z.to_nat (Chunk.csid h) := (st', [])]> (Chunk.d_streams d))
        (Chunk.d_chunk d) a) cs = Some d' ->
      Chunk.decode_all cscf events d (Queue.chain_bytes p' l ++ x) = Chunk.decode_all cscf events d' x.
Proof.
  intros Hw' Hh Hn0 vs' len [Hsend Hch Hcat Ep] Hv Hz Hn Hmax Hc Hst Hl0 Hin0.
  assert (Chunk.total (map buf_data bs) = len) as Ht by (unfold Chunk.total; now rewrite Hcat).
  assert (Chunk.in_sync h None len st) as Hsync by (unfold Chunk.in_sync; cbn; repeat split; auto; lia).
  destruct hdr as [H1 H2 H3 H4 H5].
  destruct (Chunk.prepared_decodes cscf events h None H1 H2 H3 H4 H5 fix_same d st bs)
    as (out & dt & ext & Eout & Hdec); rewrite ?Ht; auto; [lia|now rewrite Hc|].
  rewrite Ep in Eout. injection Eout as <-. rewrite Ht in Hdec. cbv zeta in Hdec.
  apply Forall_cons in Hv as [Hname Hv].
  destruct (command_handled
    (Chunk.Dec (<[Z.to_nat (Chunk.csid h) := (Chunk.Stream (full_header h len) dt 0 ext [], [])]>
       (Chunk.d_streams d)) (Chunk.d_chunk d) (Chunk.d_app d)) len (map buf_data bs) name
    (concat (map Amf.encode vs)) Hname Hz) as (c & Hcr & Emsg); [|exact Hcat|].
  { destruct (map buf_data bs) as [|b [|b2 r]]; [done| |].
    - cbn [concat] in Hcat. rewrite app_nil_r in Hcat. subst b. done.
    - destruct Hch as [Hb _]. cbn. intros ->. cbn in Hb. lia. }
  exists (Chunk.Stream (full_header h len) dt 0 ext []), c. split; [done|].
  intros x rc a cs d' Ec Hrc Ecs.
  rewrite (Queue.live_bytes _ _ _ _ Hw' (list_elem_of_here _ _) Hh). apply Hdec.
  etransitivity; [exact Emsg|]. cbn [Chunk.d_app Chunk.d_streams Chunk.d_chunk].
  rewrite Ec, Ecs, some_bind. now destruct rc.
Qed.

(** C11: what one side commands the other hears: a command or metadata message
    written from elements - over as many shared buffers as it takes, each with
    its chunk header - is decoded by a peer with the same chunk size and given
    to the handlers registered under its name; a handler that reads its
    arguments gets the values the sender's elements stood for.  The message is
    one chain with one reference, no other chain being touched. *)
Theorem amf_command_arrives p live es name vs d st :
  wf p live -> (0 < chunk_size p)%nat ->
  Amf.denote_items (Amf.denote m) es = Some (Amf.VStr name :: vs) -> Forall (fun c => c <> 0) name ->
  let n := Z.of_nat (length (concat (map Amf.encode (Amf.VStr name :: vs)))) in
  n < 2 ^ 24 -> n <= Chunk.max_message cscf ->
  Chunk.d_chunk d = Z.of_nat (chunk_size p) ->
  Chunk.d_streams d !! Z.to_nat (Chunk.csid h) = Some (st, []) -> Chunk.st_len st = 0 ->
  Chunk.st_in st = [] ->
  exists p' ls l k st' c, ngx_rtmp_create_amf cscf p h m es = Some (p', Some l) /\
    head ls = Some l /\ wf p' (ls :: live) /\ same_chains p p' live /\
    cells p' !! l = Some k /\ ref k = 1 /\
    (forall x rc a cs d',
      Receive.call_all (Chunk.d_app d) (full_header h n) c (Receive.named (take 127 name) amf) [] =
        (rc, a, cs) -> rc <> NGX_ERROR ->
      Chunk.dec_commands (Chunk.Dec (<[Z.to_nat (Chunk.csid h) := (st', [])]> (Chunk.d_streams d))
        (Chunk.d_chunk d) a) cs = Some d' ->
      Chunk.decode_all cscf events d (Queue.chain_bytes p' l ++ x) = Chunk.decode_all cscf events d' x) /\
    (forall es' m1 m2 fuel, Forall Amf.plain_opt es' -> length es' = length vs ->
      Amf.assign_all m1 es' vs = Some m2 -> 4 * n <= Z.of_nat fuel ->
      exists s, Receive.ngx_rtmp_receive_amf fuel m1 c es' = Some (Amf.Ret NGX_OK, s) /\ Amf.mem s = m2).
Proof.
  intros Hw Hk Hd Hz n Hn Hmax Hc Hst Hl0 Hin0.
  assert (es <> []) as Hne by (intros ->; discriminate Hd).
  destruct (amf_created cscf h m mem_ok hdr fix_same p live es _ Hw Hk Hd Hne Hn)
    as (p' & ls & l & k & bs & E & Hh & Hw' & Hs & Ek & Hr & Hp & Hv & _).
  destruct (message_arrives p' live ls l _ name vs bs d st Hw' Hh Hk Hp Hv Hz Hn Hmax Hc Hst Hl0 Hin0)
    as (st' & c & Hcr & Hdec).
  exists p', ls, l, k, st', c. do 6 (split; [done|]). split; [exact Hdec|].
  intros es' m1 m2 fuel Hpl Hlen Ha Hf. apply Forall_cons in Hv as [_ Hv].
  apply (chain_read vs c es' m1 m2 fuel); auto.
  unfold n in Hf. cbn [map concat] in Hf. rewrite length_app in Hf. lia.
Qed.

End Peer.

(* ------------------------------------------------------------------ *)
(** ** Into the queue *)

Section Sent.
Context (cscf : Chunk.ngx_rtmp_core_srv_conf_t) (h : Chunk.ngx_rtmp_header_t) (m : Amf.memory).
Hypothesis hdr : header_ok cscf h.
Hypothesis fix_same : Chunk.play_time_fix cscf = Chunk.publish_time_fix cscf.
Hypothesis mem_ok : forall a d, m !! a = Some d -> bytes_ok d.

(** C25: sending a command or metadata message from its elements to the end: it
    goes out whole behind everything queued before, or is dropped when all
    slots but one are in use; the caller holds no reference afterwards and
    other messages keep their bytes. *)
Theorem amf_sent held now sock p s live pend es vs :
  Queue.queue_ok held p s live pend -> Queue.hls s = false -> (Queue.out_queue s | 2 ^ 64) ->
  (0 < chunk_size p)%nat -> Amf.denote_items (Amf.denote m) es = Some vs -> es <> [] ->
  Z.of_nat (length (concat (map Amf.encode vs))) < 2 ^ 24 ->
  let full := Queue.out_queue s <=? Z.of_nat (length pend) + 1 in
  exists p1 l p' s' w live' pend', ngx_rtmp_create_amf cscf p h m es = Some (p1, Some l) /\
    ngx_rtmp_send_amf cscf now false false sock s p h m es =
      Some (if full then NGX_AGAIN else NGX_OK, p', s', w) /\
    Queue.queue_ok held p' s' live' pend' /\ Queue.kept held p p' /\
    w ++ Queue.remaining p' s' pend' =
      Queue.remaining p s pend ++ (if full then [] else Queue.chain_bytes p1 l).
Proof.
  intros Hq Hh Hd Hk He Hne Hn full.
  destruct (amf_created cscf h m mem_ok hdr fix_same p live es vs
    (Queue.owned_wf _ _ _ (Queue.ok_owned _ _ _ _ _ Hq)) Hk He Hne Hn)
    as (p1 & ls & l & k & bs & E & Hl & Hw & Hs & Ek & Hr & _).
  unfold ngx_rtmp_send_amf, send. rewrite E, some_bind.
  destruct (Send.packet_sent held now sock p p1 s live pend ls l k Hq Hh Hd Hw Hs Hl Ek Hr)
    as (p' & s' & w & live' & pend' & E' & H). exists p1, l, p', s', w, live', pend'. auto.
Qed.

(** C26: a message whose elements cannot be written is an error and nothing else:
    the links written before the failure go back to the free list, the chains
    in use are as they were, and the session and the socket are not touched. *)
Theorem amf_failed now destroyed timedout sock p s live es rc c :
  wf p live -> (0 < chunk_size p)%nat -> Forall Amf.names_ok es ->
  Amf.ngx_rtmp_amf_write m (AmfOut p None None) es = Some (rc, c) -> rc <> NGX_OK ->
  exists p', ngx_rtmp_send_amf cscf now destroyed timedout sock s p h m es = Some (NGX_ERROR, p', s, []) /\
    wf p' live /\ same_chains p p' live.
Proof.
  intros Hw Hk Hn E Hrc. destruct (amf_given_up cscf h m mem_ok p live es rc c Hw Hk Hn E Hrc) as (p' & E' & H).
  exists p'. unfold ngx_rtmp_send_amf, send. now rewrite E', some_bind.
Qed.

End Sent.

(* ------------------------------------------------------------------ *)
(** ** The messages of the server *)

(** A C string without its NUL. *)
Definition text (s : list Z) : Prop :=
  bytes_ok s /\ Forall (fun c => c <> 0) s /\ Z.of_nat (length s) < 2 ^ 16.

Lemma strlen_c_str s : Forall (fun c => c <> 0) s -> Amf.strlen (c_str s) = Some (length s).
Proof.
  unfold c_str. induction 1 as [|x s Hx _ IH]; [done|]. cbn [Datatypes.app Amf.strlen length].
  rewrite (proj2 (Z.eqb_neq x 0) Hx), IH. done.
Qed.

Lemma denote_text m a s nm : m !! a = Some (c_str s) -> text s ->
  Amf.denote m (Amf.Elt Amf.NGX_RTMP_AMF_STRING nm (Amf.DMem a) 0) = Some (Amf.VStr s).
Proof.
  intros E (_ & Hz & Hl). cbn [Amf.denote].
  change (Amf.NGX_RTMP_AMF_STRING =? Amf.NGX_RTMP_AMF_NUMBER) with false.
  change (Amf.NGX_RTMP_AMF_STRING =? Amf.NGX_RTMP_AMF_BOOLEAN) with false. cbv iota.
  rewrite Z.eqb_refl. unfold Amf.string_len, Amf.load. cbv zeta.
  change (u16 0 =? 0) with true. cbv iota.
  rewrite E, some_bind, (strlen_c_str s Hz), !some_bind, u16_small, Nat2Z.id by lia.
  unfold c_str. rewrite length_app, (proj2 (Nat.leb_le _ _)) by (cbn; lia).
  now rewrite take_app_length, some_bind.
Qed.

Lemma denote_double m a w nm : m !! a = Some (Double.double_bytes w) ->
  Amf.denote m (Amf.Elt Amf.NGX_RTMP_AMF_NUMBER nm (Amf.DMem a) 0) = Some (Amf.VNum (be_bytes 8 w)).
Proof.
  intros E. cbn [Amf.denote]. change (Amf.NGX_RTMP_AMF_NUMBER =? Amf.NGX_RTMP_AMF_NUMBER) with true.
  cbv iota. unfold Amf.load. rewrite E, some_bind, Double.length_double_bytes.
  change (8 <=? 8)%nat with true. cbv iota. rewrite some_bind, take_ge by now rewrite Double.length_double_bytes.
  unfold Double.double_bytes, le_bytes. now rewrite reverse_involutive.
Qed.

Definition status_vals (code level desc : list Z) : list Amf.val :=
  [Amf.VStr (str "onStatus"); Amf.VNum (be_bytes 8 0); Amf.VNull;
   Amf.VObj [(str "level", Amf.VStr level); (str "code", Amf.VStr code);
             (str "description", Amf.VStr desc)]].

Definition play_status_vals (code level : list Z) (duration bytes : Z) : list Amf.val :=
  [Amf.VStr (str "onPlayStatus");
   Amf.VObj [(str "code", Amf.VStr code); (str "level", Amf.VStr level);
             (str "duration", Amf.VNum (be_bytes 8 (Double.double_of_uint duration)));
             (str "bytes", Amf.VNum (be_bytes 8 (Double.double_of_uint bytes)))]].

Definition access_vals : list Amf.val :=
  [Amf.VStr (str "|RtmpSampleAccess"); Amf.VBool 1; Amf.VBool 1].

Lemma str_text s : forallb (fun c => negb (c =? 0)) (str s) = true ->
  Z.of_nat (length (str s)) < 2 ^ 16 -> text (str s).
Proof.
  intros H Hl. split; [apply str_ok|]. split; [|done]. apply Forall_forall. intros x Hx.
  rewrite forallb_forall in H. apply list_elem_of_In in Hx. specialize (H x Hx).
  destruct (x =? 0) eqn:E; [done|]. now apply Z.eqb_neq.
Qed.

Lemma denote_obj m l nm n :
  Amf.denote m (Amf.Elt Amf.NGX_RTMP_AMF_OBJECT nm (Amf.DElts l) n) =
  (kvs ← Amf.denote_props (Amf.denote m) l; Some (Amf.VObj kvs)).
Proof. reflexivity. Qed.

Lemma status_denotes code level desc : text code -> text level -> text desc ->
  Amf.denote_items (Amf.denote (status_vars (c_str code) (c_str level) (c_str desc))) status_elts =
    Some (status_vals code level desc).
Proof.
  intros Hc Hl Hd. unfold status_elts, Amf.denote_items.
  rewrite (denote_text _ 0%nat (str "onStatus")), some_bind by (done || now apply str_text).
  rewrite (denote_double _ 1%nat 0) by done.
  rewrite some_bind, denote_obj. cbn [Amf.denote_props Amf.name].
  rewrite (denote_text _ 2%nat level), (denote_text _ 3%nat code), (denote_text _ 4%nat desc) by done.
  reflexivity.
Qed.

Lemma play_status_denotes code level duration bytes : text code -> text level ->
  Amf.denote_items (Amf.denote (play_status_vars (c_str code) (c_str level) duration bytes))
    play_status_elts = Some (play_status_vals code level duration bytes).
Proof.
  intros Hc Hl. unfold play_status_elts, Amf.denote_items.
  rewrite (denote_text _ 0%nat (str "onPlayStatus")), some_bind by (done || now apply str_text).
  rewrite denote_obj. cbn [Amf.denote_props Amf.name].
  rewrite (denote_text _ 1%nat code), (denote_text _ 2%nat level) by done.
  rewrite (denote_double _ 3%nat (Double.double_of_uint duration)),
    (denote_double _ 4%nat (Double.double_of_uint bytes)) by done.
  reflexivity.
Qed.

Lemma access_denotes :
  Amf.denote_items (Amf.denote access_vars) access_elts = Some access_vals.
Proof. reflexivity. Qed.

(* ------------------------------------------------------------------ *)
(** ** A concrete status *)

Definition status_hdr : Chunk.ngx_rtmp_header_t :=
  Chunk.Hdr NGX_RTMP_CSID_AMF 0 0 Receive.NGX_RTMP_MSG_AMF_CMD NGX_RTMP_MSID.
Definition start_vars : Amf.memory :=
  status_vars (c_str (str "NetStream.Play.Start")) (c_str (str "status")) (c_str (str "Start live")).
Definition start_vals : list Amf.val :=
  status_vals (str "NetStream.Play.Start") (str "status") (str "Start live").

Lemma start_denotes : Amf.denote_items (Amf.denote start_vars) status_elts = Some start_vals.
Proof. apply status_denotes; now apply str_text. Qed.

Lemma start_vars_ok : forall a d, start_vars !! a = Some d -> bytes_ok d.
Proof. apply Amf.vars_ok. refine (bool_decide_unpack _ _). exact Logic.I. Qed.

Lemma status_hdr_ok : header_ok Chunk.conf status_hdr.
Proof. split; cbn; unfold NGX_RTMP_CSID_AMF, NGX_RTMP_MSID, Receive.NGX_RTMP_MSG_AMF_CMD; lia. Qed.

(** A handler that notes how many bytes of arguments it got, and the variables
    it would read them to: the number, and the code of the object. *)
Definition status_table : list (list Z * Chunk.ngx_rtmp_handler_pt (Receive.modules (list Receive.call))) :=
  [(str "onStatus", fun a _ c =>
      (NGX_OK, Receive.Mods (Z.of_nat (length (concat c))) (Receive.others a), []))].
Definition arg_elts : list (option Amf.ngx_rtmp_amf_elt_t) :=
  [Some (Amf.Elt Amf.NGX_RTMP_AMF_NUMBER [] (Amf.DMem 0%nat) 0); None;
   Some (Amf.Elt Amf.NGX_RTMP_AMF_OBJECT []
     (Amf.DElts [Amf.Elt Amf.NGX_RTMP_AMF_STRING (str "code") (Amf.DMem 1%nat) 32]) 1)].
Definition arg_vars : Amf.memory := <[0%nat := replicate 8 1]> {[1%nat := replicate 32 0]}.
Definition read_vars : Amf.memory :=
  <[0%nat := replicate 8 0]> {[1%nat := str "NetStream.Play.Start" ++ replicate 12 0]}.

Lemma amf_command_arrives_witness :
  exists p' l c d' s,
    ngx_rtmp_create_amf Chunk.conf (empty_pool 128) status_hdr start_vars status_elts = Some (p', Some l) /\
    Chunk.decode_all Chunk.conf (Receive.events Receive.log_hook (fun _ => 0) status_table (fun _ => []) 0)
      (Chunk.init_decoder Chunk.conf Receive.no_mods) (Queue.chain_bytes p' l) = Some (None, d', []) /\
    Chunk.d_app d' = Receive.Mods (Z.of_nat (length (concat c))) [] /\
    Receive.ngx_rtmp_receive_amf 1000 arg_vars c arg_elts = Some (Amf.Ret NGX_OK, s) /\
    Amf.mem s !! 1%nat = Some (str "NetStream.Play.Start" ++ replicate 12 0).
Proof.
  destruct (amf_command_arrives Receive.log_hook (fun _ => 0) status_table (fun _ => []) 0
    (fun _ _ => eq_refl)) with (cscf := Chunk.conf) (h := status_hdr) (m := start_vars)
    (p := empty_pool 128) (live := @nil (list loc)) (es := status_elts) (name := str "onStatus")
    (vs := tail start_vals) (d := Chunk.init_decoder Chunk.conf Receive.no_mods)
    (st := Chunk.calloc_stream) as (p' & ls & l & k & st' & c & E & _ & _ & _ & _ & _ & Hdec & Hread).
  - intros n1 n2 H1 H2 _. apply list_elem_of_singleton in H1 as ->. now apply list_elem_of_singleton in H2 as ->.
  - exact status_hdr_ok.
  - left. reflexivity.
  - reflexivity.
  - exact start_vars_ok.
  - apply empty_pool_wf.
  - cbn. lia.
  - exact start_denotes.
  - apply Forall_forall. intros x Hx. refine (proj1 (Forall_forall _ _) (proj1 (proj2 (str_text "onStatus" eq_refl _))) x Hx).
    vm_compute. reflexivity.
  - vm_compute. reflexivity.
  - vm_compute. discriminate.
  - reflexivity.
  - reflexivity.
  - reflexivity.
  - reflexivity.
  - destruct (Hread arg_elts arg_vars read_vars 1000%nat) as (s & Es & Em).
    + repeat constructor.
    + reflexivity.
    + vm_compute. reflexivity.
    + vm_compute. discriminate.
    + exists p', l, c. do 2 eexists. split; [exact E|].
      rewrite <- (app_nil_r (Queue.chain_bytes p' l)),
        (Hdec [] NGX_OK _ [] _ eq_refl ltac:(done) eq_refl).
      split; [reflexivity|]. split; [reflexivity|]. split; [exact Es|]. rewrite Em. reflexivity.
Defined.

Lemma amf_sent_witness :
  exists p1 l p' s' w live' pend',
    ngx_rtmp_create_amf Chunk.conf (empty_pool 128) status_hdr start_vars status_elts = Some (p1, Some l) /\
    ngx_rtmp_send_amf Chunk.conf 0 false false [Queue.Accept 100] Send.idle_queue (empty_pool 128)
      status_hdr start_vars status_elts = Some (NGX_OK, p', s', w) /\
    Queue.queue_ok [] p' s' live' pend' /\ Queue.kept [] (empty_pool 128) p' /\
    w ++ Queue.remaining p' s' pend' = Queue.chain_bytes p1 l.
Proof.
  apply (amf_sent Chunk.conf status_hdr start_vars status_hdr_ok eq_refl start_vars_ok []
    0 [Queue.Accept 100] (empty_pool 128) Send.idle_queue [] [] status_elts start_vals).
  - exact Send.idle_queue_ok.
  - reflexivity.
  - exists (2 ^ 62). reflexivity.
  - cbn. lia.
  - exact start_denotes.
  - discriminate.
  - vm_compute. reflexivity.
Defined.

(** A status with an element of a type the writer does not know. *)
Definition bad_elts : list Amf.ngx_rtmp_amf_elt_t :=
  status_elts ++ [Amf.Elt 0x0104 [] Amf.DNull 0].

Lemma amf_failed_witness :
  exists p', ngx_rtmp_send_amf Chunk.conf 0 false false [] Send.idle_queue (empty_pool 128)
      status_hdr start_vars bad_elts = Some (NGX_ERROR, p', Send.idle_queue, []) /\
    wf p' [] /\ same_chains (empty_pool 128) p' [].
Proof.
  eapply (amf_failed Chunk.conf status_hdr start_vars start_vars_ok 0 false false [] (empty_pool 128)
    Send.idle_queue [] bad_elts NGX_ERROR).
  - apply empty_pool_wf.
  - cbn. lia.
  - repeat constructor; refine (bool_decide_unpack _ _); exact Logic.I.
  - vm_compute. reflexivity.
  - discriminate.
Defined.

End AmfSend.
