(* ===== verification/Codec.v ===== *)
(** * Codec headers (src/src/rtmp/ngx_rtmp_codec_module.c)

    The codec module looks at every audio and video message of a session,
    notes the codec, parses the AAC and AVC sequence headers with the bit
    reader (Bitop.v) and keeps copies of the headers in shared buffers
    (Shared.v) for players that come later.

    The parsers write into the context while they read; their model is a state
    monad over the context and the reader.  [None] is an undefined shift in
    the Exp-Golomb reader, or the end of the fuel of the one loop whose length
    the input chooses. *)

From Stdlib Require Import ZArith Lia.
From stdpp Require Import base numbers list strings gmap.
From S2P Require Import Prelude Bitop Buf Chunk Shared Queue Pool Receive.

Module Codec.

Import Bitop.
Import Shared.
Import Queue.
Import Pool.

Definition NGX_RTMP_MSG_AUDIO : Z := 8.
Definition NGX_RTMP_MSG_VIDEO : Z := 9.
Definition NGX_RTMP_AUDIO_AAC : Z := 10.
Definition NGX_RTMP_VIDEO_H264 : Z := 7.

(* ------------------------------------------------------------------ *)
(** ** The context *)

(** The fields of [ngx_rtmp_codec_ctx_t] in groups; [info] are those only the
    metadata handler writes. *)
Record aac_fields := Aac {
  aac_profile : Z; aac_chan_conf : Z; aac_sbr : Z; aac_ps : Z
}.
Record avc_fields := Avc {
  avc_profile : Z; avc_compat : Z; avc_level : Z; avc_nal_bytes : Z; avc_ref_frames : Z
}.
Record audio_fields := Audio {
  audio_codec_id : Z; sample_rate : Z; sample_size : Z; audio_channels : Z
}.
Record video_fields := Video {
  video_codec_id : Z; width : Z; height : Z
}.
Record chain_fields := Chains {
  avc_header : option loc; aac_header : option loc; meta : option loc; meta_version : Z
}.
Record info_fields := Info {
  duration : Z; frame_rate : Z; video_data_rate : Z; audio_data_rate : Z;
  profile : list Z; level : list Z
}.
Record ngx_rtmp_codec_ctx_t := Ctx {
  aac : aac_fields; avc : avc_fields; audio : audio_fields; video : video_fields;
  chains : chain_fields; info : info_fields
}.

(** [ngx_pcalloc]. *)
Definition calloc_ctx : ngx_rtmp_codec_ctx_t :=
  Ctx (Aac 0 0 0 0) (Avc 0 0 0 0 0) (Audio 0 0 0 0) (Video 0 0 0) (Chains None None None 0)
    (Info 0 0 0 0 (replicate 32 0) (replicate 32 0)).

Definition on_aac (f : aac_fields -> aac_fields) c :=
  Ctx (f (aac c)) (avc c) (audio c) (video c) (chains c) (info c).
Definition on_avc (f : avc_fields -> avc_fields) c :=
  Ctx (aac c) (f (avc c)) (audio c) (video c) (chains c) (info c).
Definition on_audio (f : audio_fields -> audio_fields) c :=
  Ctx (aac c) (avc c) (f (audio c)) (video c) (chains c) (info c).
Definition on_video (f : video_fields -> video_fields) c :=
  Ctx (aac c) (avc c) (audio c) (f (video c)) (chains c) (info c).
Definition on_chains (f : chain_fields -> chain_fields) c :=
  Ctx (aac c) (avc c) (audio c) (video c) (f (chains c)) (info c).

Definition set_aac_profile v := on_aac (fun a => Aac v (aac_chan_conf a) (aac_sbr a) (aac_ps a)).
Definition set_aac_chan_conf v := on_aac (fun a => Aac (aac_profile a) v (aac_sbr a) (aac_ps a)).
Definition set_aac_sbr v := on_aac (fun a => Aac (aac_profile a) (aac_chan_conf a) v (aac_ps a)).
Definition set_aac_ps v := on_aac (fun a => Aac (aac_profile a) (aac_chan_conf a) (aac_sbr a) v).
Definition set_sample_rate v :=
  on_audio (fun a => Audio (audio_codec_id a) v (sample_size a) (audio_channels a)).
Definition set_avc_profile v :=
  on_avc (fun a => Avc v (avc_compat a) (avc_level a) (avc_nal_bytes a) (avc_ref_frames a)).
Definition set_avc_compat v :=
  on_avc (fun a => Avc (avc_profile a) v (avc_level a) (avc_nal_bytes a) (avc_ref_frames a)).
Definition set_avc_level v :=
  on_avc (fun a => Avc (avc_profile a) (avc_compat a) v (avc_nal_bytes a) (avc_ref_frames a)).
Definition set_avc_nal_bytes v :=
  on_avc (fun a => Avc (avc_profile a) (avc_compat a) (avc_level a) v (avc_ref_frames a)).
Definition set_avc_ref_frames v :=
  on_avc (fun a => Avc (avc_profile a) (avc_compat a) (avc_level a) (avc_nal_bytes a) v).
Definition set_size w h := on_video (fun v => Video (video_codec_id v) w h).

Definition audio_codecs : list string :=
  [EmptyString;"ADPCM";"MP3";"LinearLE";"Nellymoser16";"Nellymoser8";"Nellymoser";"G711A";"G711U";EmptyString;"AAC";
   "Speex";EmptyString;EmptyString;"MP3-8K";"DeviceSpecific";"Uncompressed"].
Definition video_codecs : list string :=
  [EmptyString;"Jpeg";"Sorenson-H263";"ScreenVideo";"On2-VP6";"On2-VP6-Alpha";"ScreenVideo2";"H264"].

Definition ngx_rtmp_get_audio_codec_name (id : Z) : string :=
  if id <? Z.of_nat (length audio_codecs) then nth (Z.to_nat id) audio_codecs EmptyString else EmptyString.
Definition ngx_rtmp_get_video_codec_name (id : Z) : string :=
  if id <? Z.of_nat (length video_codecs) then nth (Z.to_nat id) video_codecs EmptyString else EmptyString.

(* ------------------------------------------------------------------ *)
(** ** Parsing *)

Definition P (A : Type) : Type :=
  ngx_rtmp_codec_ctx_t * ngx_rtmp_bit_reader_t ->
  option (A * (ngx_rtmp_codec_ctx_t * ngx_rtmp_bit_reader_t)).
#[export] Instance P_ret : MRet P := fun A a s => Some (a, s).
#[export] Instance P_bind : MBind P := fun A B f m s =>
  match m s with Some (a, s) => f a s | None => None end.

Definition read (n : Z) : P Z := fun '(c, br) =>
  let '(v, br) := ngx_rtmp_bit_read br n in Some (v, (c, br)).
Definition read_8 : P Z := fun '(c, br) =>
  let '(v, br) := ngx_rtmp_bit_read_8 br in Some (v, (c, br)).
Definition golomb : P Z := fun '(c, br) =>
  match ngx_rtmp_bit_read_golomb br with
  | Some (v, br) => Some (v, (c, br))
  | None => None
  end.
Definition put (f : ngx_rtmp_codec_ctx_t -> ngx_rtmp_codec_ctx_t) : P unit := fun '(c, br) =>
  Some (tt, (f c, br)).

Definition aac_sample_rates : list Z :=
  [96000; 88200; 64000; 48000; 44100; 32000; 24000; 22050; 16000; 12000; 11025; 8000; 7350; 0; 0; 0].

(** The object type, 5 bits or 5 and 6. *)
Definition read_profile : P Z :=
  p ← read 5;
  if p =? 31 then q ← read 6; mret (u64 (q + 32)) else mret p.

(** The sample rate, by index or in 24 bits. *)
Definition read_sample_rate : P Z :=
  idx ← read 4;
  if idx =? 15 then read 24 else mret (nth (Z.to_nat idx) aac_sample_rates 0).

Definition ngx_rtmp_codec_parse_aac_header : P unit :=
  read 16;;
  profile ← read_profile;
  put (set_aac_profile profile);;
  rate ← read_sample_rate;
  put (set_sample_rate rate);;
  conf ← read 4;
  put (set_aac_chan_conf conf);;
  if (profile =? 5) || (profile =? 29) then
    (if profile =? 29 then put (set_aac_ps 1) else mret tt);;
    put (set_aac_sbr 1);;
    rate ← read_sample_rate;
    put (set_sample_rate rate);;
    profile ← read_profile;
    put (set_aac_profile profile)
  else mret tt.

(** A loop that reads [n] flags. *)
Fixpoint read_flags (n : nat) : P unit :=
  match n with
  | O => mret tt
  | S n => read 1;; read_flags n
  end.

Definition is_high (profile_idc : Z) : bool :=
  bool_decide (profile_idc ∈ [100; 110; 122; 244; 44; 83; 86; 118]).

(** What only the high profiles have. *)
Definition read_chroma : P unit :=
  cf_idc ← golomb;
  (if cf_idc =? 3 then read 1;; mret tt else mret tt);;
  golomb;;
  golomb;;
  read 1;;
  scaling ← read 1;
  if scaling =? 0 then mret tt else read_flags (if cf_idc =? 3 then 12 else 8).

(** [for (n = 0; n < num_ref_frames; n++)], one pass per unit of fuel. *)
Fixpoint offset_loop (fuel : nat) (n num_ref_frames : Z) : P unit :=
  if n <? num_ref_frames then
    match fuel with
    | O => fun _ => None
    | S fuel => golomb;; offset_loop fuel (n + 1) num_ref_frames
    end
  else mret tt.

(** The switch on the type of the picture order count. *)
Definition read_pic_order (fuel : nat) : P unit :=
  ty ← golomb;
  if ty =? 0 then golomb;; mret tt
  else if ty =? 1 then
    read 1;;
    golomb;;
    golomb;;
    num_ref_frames ← golomb;
    offset_loop fuel 0 num_ref_frames
  else mret tt.

Definition read_crop : P (Z * Z * Z * Z) :=
  cropping ← read 1;
  if cropping =? 0 then mret (0, 0, 0, 0)
  else
    crop_left ← golomb;
    crop_right ← golomb;
    crop_top ← golomb;
    crop_bottom ← golomb;
    mret (crop_left, crop_right, crop_top, crop_bottom).

Definition frame_width (width crop_left crop_right : Z) : Z :=
  u64 ((width + 1) * 16 - (crop_left + crop_right) * 2).
Definition frame_height (frame_mbs_only height crop_top crop_bottom : Z) : Z :=
  u64 ((2 - frame_mbs_only) * (height + 1) * 16 - (crop_top + crop_bottom) * 2).

(** The sequence parameter set behind its type. *)
Definition read_sps (fuel : nat) : P unit :=
  profile_idc ← read 8;
  read 8;;
  read 8;;
  golomb;;
  (if is_high profile_idc then read_chroma else mret tt);;
  golomb;;
  read_pic_order fuel;;
  ref_frames ← golomb;
  put (set_avc_ref_frames ref_frames);;
  read 1;;
  width ← golomb;
  height ← golomb;
  frame_mbs_only ← read 1;
  (if frame_mbs_only =? 0 then read 1;; mret tt else mret tt);;
  read 1;;
  '(crop_left, crop_right, crop_top, crop_bottom) ← read_crop;
  put (set_size (frame_width width crop_left crop_right)
                (frame_height frame_mbs_only height crop_top crop_bottom)).

Definition ngx_rtmp_codec_parse_avc_header (fuel : nat) : P unit :=
  read 48;;
  v ← read_8; put (set_avc_profile v);;
  v ← read_8; put (set_avc_compat v);;
  v ← read_8; put (set_avc_level v);;
  v ← read_8; put (set_avc_nal_bytes (Z.land v 0x03 + 1));;
  nnals ← read_8;
  if Z.land nnals 0x1f =? 0 then mret tt
  else
    read 16;;
    nal_type ← read_8;
    if nal_type =? 0x67 then read_sps fuel else mret tt.

(* ------------------------------------------------------------------ *)
(** ** Audio and video messages *)

Definition parse (m : P unit) (ctx : ngx_rtmp_codec_ctx_t) (b : list Z)
  : option ngx_rtmp_codec_ctx_t :=
  '(_, (ctx, _)) ← m (ctx, ngx_rtmp_bit_init_reader b);
  Some ctx.

Definition ngx_rtmp_is_codec_header (b : list Z) : bool :=
  match b with _ :: x :: _ => x =? 0 | _ => false end.

Definition sample_rates : list Z := [5512; 11025; 22050; 44100].

(** The codec from the first byte. *)
Definition save_codec (ty fmt : Z) (ctx : ngx_rtmp_codec_ctx_t) : ngx_rtmp_codec_ctx_t :=
  if ty =? NGX_RTMP_MSG_AUDIO then
    on_audio (fun a => Audio
      (Z.shiftr (Z.land fmt 0xf0) 4)
      (if sample_rate a =? 0 then nth (Z.to_nat (Z.shiftr (Z.land fmt 0x0c) 2)) sample_rates 0
       else sample_rate a)
      (if Z.land fmt 0x02 =? 0 then 1 else 2)
      (Z.land fmt 0x01 + 1)) ctx
  else on_video (fun v => Video (Z.land fmt 0x0f) (width v) (height v)) ctx.

(** Giving up a chain that may be NULL. *)
Definition free_opt (p : pool) (l : option loc) : option pool :=
  match l with Some l => ngx_rtmp_free_shared_chain p l | None => Some p end.

(** [header] points to this field. *)
Inductive header_field := AacHeader | AvcHeader.
Definition get_header (f : header_field) (ctx : ngx_rtmp_codec_ctx_t) : option loc :=
  match f with AacHeader => aac_header (chains ctx) | AvcHeader => avc_header (chains ctx) end.
Definition set_header (f : header_field) (l : option loc) : ngx_rtmp_codec_ctx_t -> ngx_rtmp_codec_ctx_t :=
  on_chains (fun c =>
    match f with
    | AacHeader => Chains (avc_header c) l (meta c) (meta_version c)
    | AvcHeader => Chains l (aac_header c) (meta c) (meta_version c)
    end).

(** The context after the parser, and the field for the copy. *)
Definition parse_header (fuel : nat) (ty : Z) (b : list Z) (ctx : ngx_rtmp_codec_ctx_t)
  : option (option header_field * ngx_rtmp_codec_ctx_t) :=
  if ty =? NGX_RTMP_MSG_AUDIO then
    if audio_codec_id (audio ctx) =? NGX_RTMP_AUDIO_AAC then
      ctx ← parse ngx_rtmp_codec_parse_aac_header ctx b; Some (Some AacHeader, ctx)
    else Some (None, ctx)
  else
    if video_codec_id (video ctx) =? NGX_RTMP_VIDEO_H264 then
      ctx ← parse (ngx_rtmp_codec_parse_avc_header fuel) ctx b; Some (Some AvcHeader, ctx)
    else Some (None, ctx).

Definition ngx_rtmp_codec_av (fuel : nat) (p : pool) (ctx : option ngx_rtmp_codec_ctx_t)
    (h : Chunk.ngx_rtmp_header_t) (chain : list (list Z))
  : option (ngx_rc * pool * option ngx_rtmp_codec_ctx_t) :=
  let ty := Chunk.type h in
  if negb (ty =? NGX_RTMP_MSG_AUDIO) && negb (ty =? NGX_RTMP_MSG_VIDEO)
  then Some (NGX_OK, p, ctx)
  else
    let ctx := match ctx with Some c => c | None => calloc_ctx end in
    match Receive.in_buf0 chain with
    | [] => Some (NGX_OK, p, Some ctx)
    | (fmt :: _) as b =>
        let ctx := save_codec ty fmt ctx in
        if (length b <? 3)%nat then Some (NGX_OK, p, Some ctx)
        else if negb (ngx_rtmp_is_codec_header b) then Some (NGX_OK, p, Some ctx)
        else
          '(header, ctx) ← parse_header fuel ty b ctx;
          match header with
          | None => Some (NGX_OK, p, Some ctx)
          | Some f =>
              p ← free_opt p (get_header f ctx);
              '(p, l) ← ngx_rtmp_append_shared_bufs p None chain;
              Some (NGX_OK, p, Some (set_header f l ctx))
          end
    end.

Definition ngx_rtmp_codec_disconnect (p : pool) (ctx : option ngx_rtmp_codec_ctx_t)
  : option (ngx_rc * pool * option ngx_rtmp_codec_ctx_t) :=
  match ctx with
  | None => Some (NGX_OK, p, None)
  | Some c =>
      p ← free_opt p (avc_header (chains c));
      p ← free_opt p (aac_header (chains c));
      p ← free_opt p (meta (chains c));
      Some (NGX_OK, p, Some (on_chains (fun k => Chains None None None (meta_version k)) c))
  end.

(* ------------------------------------------------------------------ *)
(** ** What the parsers read *)

Implicit Types (c : ngx_rtmp_codec_ctx_t) (br : ngx_rtmp_bit_reader_t).

(** [m] reads exactly [bits], gives [v] and changes the context by [f]. *)
Definition reads {A} (m : P A) (bits : list bool) (v : A)
    (f : ngx_rtmp_codec_ctx_t -> ngx_rtmp_codec_ctx_t) : Prop :=
  forall c br rest, reader_ok br -> br_err br = 0 -> reader_bits br = bits ++ rest ->
  exists br', m (c, br) = Some (v, (f c, br')) /\ reader_ok br' /\ br_err br' = 0 /\
    reader_bits br' = rest.

Lemma reads_ret {A} (v : A) : reads (mret v) [] v id.
Proof. intros c br rest Hok He Hb. now exists br. Qed.

Lemma reads_put f : reads (put f) [] tt f.
Proof. intros c br rest Hok He Hb. now exists br. Qed.

Lemma reads_bind {A B} (m : P A) (k : A -> P B) b1 b2 v w f g :
  reads m b1 v f -> reads (k v) b2 w g -> reads (m ≫= k) (b1 ++ b2) w (g ∘ f).
Proof.
  intros Hm Hk c br rest Hok He Hb. rewrite <- app_assoc in Hb.
  destruct (Hm c br _ Hok He Hb) as (br1 & E1 & Hok1 & He1 & Hb1).
  destruct (Hk (f c) br1 _ Hok1 He1 Hb1) as (br2 & E2 & H2). exists br2.
  unfold mbind, P_bind. rewrite E1. auto.
Qed.

(** A step that leaves the context alone, and one that reads nothing. *)
Lemma reads_then {A B} (m : P A) (k : A -> P B) b1 b2 v w g :
  reads m b1 v id -> reads (k v) b2 w g -> reads (m ≫= k) (b1 ++ b2) w g.
Proof. intros H1 H2. exact (reads_bind m k b1 b2 v w id g H1 H2). Qed.

Lemma reads_write {B} f (k : unit -> P B) b w g :
  reads (k tt) b w g -> reads (put f ≫= k) b w (g ∘ f).
Proof. intros H. exact (reads_bind (put f) k [] b tt w f g (reads_put f) H). Qed.

Lemma reads_last {A B} (m : P A) (k : A -> P B) b v w g :
  reads m b v id -> reads (k v) [] w g -> reads (m ≫= k) b w g.
Proof. intros H1 H2. rewrite <- (app_nil_r b). exact (reads_then m k b [] v w g H1 H2). Qed.

Lemma read_next br n x rest : reader_ok br -> (n <= 64)%nat -> 0 <= x < 2 ^ Z.of_nat n ->
  reader_bits br = bits_of n x ++ rest ->
  exists br', ngx_rtmp_bit_read br (Z.of_nat n) = (x, br') /\ reader_ok br' /\
    br_err br' = br_err br /\ reader_bits br' = rest.
Proof.
  intros Hok Hn Hx Hb. pose proof (bit_read_next br (Z.of_nat n) Hok ltac:(lia)) as H. cbv zeta in H.
  rewrite Hb in H. rewrite decide_True in H by len. destruct H as (br' & E & Hok' & Hb' & He').
  exists br'. rewrite Nat2Z.id in *. rewrite take_app_length' in E by len.
  rewrite drop_app_length' in Hb' by len. rewrite bits_val_bits_of, Z.mod_small in E by done.
  assert (2 ^ Z.of_nat n <= 2 ^ 64) by (apply Z.pow_le_mono_r; lia).
  rewrite u64_small in E by lia. auto.
Qed.

Lemma reads_bits (n : nat) x : (n <= 64)%nat -> 0 <= x < 2 ^ Z.of_nat n ->
  reads (read (Z.of_nat n)) (bits_of n x) x id.
Proof.
  intros Hn Hx c br rest Hok He Hb.
  destruct (read_next br n x rest Hok Hn Hx Hb) as (br' & E & H1 & H2 & H3).
  exists br'. unfold read. rewrite E. split; [done|]. split; [done|]. split; [congruence|done].
Qed.

Lemma reads_flag (b : bool) : reads (read 1) [b] (Z.b2z b) id.
Proof.
  destruct b; [apply (reads_bits 1 1)|apply (reads_bits 1 0)]; cbn; lia.
Qed.

Lemma reads_byte x : 0 <= x < 256 -> reads read_8 (bits_of 8 x) x id.
Proof.
  intros Hx c br rest Hok He Hb.
  destruct (read_next br 8 x rest Hok ltac:(lia) ltac:(cbn; lia) Hb) as (br' & E & H1 & H2 & H3).
  exists br'. unfold read_8, ngx_rtmp_bit_read_8. change (Z.of_nat 8) with 8 in E.
  rewrite E, u8_small by lia.
  split; [done|]. split; [done|]. split; [congruence|done].
Qed.

Definition ue_ok (x : Z) : Prop := 0 <= x < 2 ^ 64 - 1.

Lemma reads_ue x : ue_ok x -> reads golomb (ue_bits x) x id.
Proof.
  intros Hx c br rest Hok He Hb.
  destruct (golomb_next br x rest Hok He Hx Hb) as (br' & E & H1 & H2 & H3).
  exists br'. unfold golomb. now rewrite E.
Qed.

(* ------------------------------------------------------------------ *)
(** ** The AVC header *)

(** A sequence parameter set (ITU-T H.264, 7.3.2.1.1); numbers are code
    numbers of the Exp-Golomb code, also where the standard codes them with a
    sign.  A scaling matrix has 8 or 12 lists, each of which may be present and
    is then a row of differences. *)
Record chroma := Chroma {
  chroma_format : Z; separate_plane : bool; luma_depth : Z; chroma_depth : Z;
  bypass : bool; scaling_matrix : option (list (option (list Z)))
}.
Inductive pic_order :=
  | Order0 (log2_max : Z)
  | Order1 (always_zero : bool) (non_ref top_bottom : Z) (offsets : list Z)
  | Order2.
Record sps := Sps {
  profile_idc : Z; constraints : Z; level_idc : Z; sps_id : Z;
  sps_chroma : chroma;
  log2_frame_num : Z; sps_order : pic_order; ref_frames : Z; gaps : bool;
  mbs_width : Z; map_height : Z; mbs_only : bool; adaptive : bool; direct_8x8 : bool;
  crop : option (Z * Z * Z * Z)
}.

Definition encode_list (l : option (list Z)) : list bool :=
  match l with None => [false] | Some ds => true :: (ds ≫= ue_bits) end.

Definition encode_chroma (k : chroma) : list bool :=
  ue_bits (chroma_format k) ++
  (if chroma_format k =? 3 then [separate_plane k] else []) ++
  ue_bits (luma_depth k) ++ ue_bits (chroma_depth k) ++ [bypass k] ++
  match scaling_matrix k with None => [false] | Some ls => [true] ++ (ls ≫= encode_list) end.

(** The profiles that have these fields (7.3.2.1.1). *)
Definition chroma_profiles : list Z := [100; 110; 122; 244; 44; 83; 86; 118; 128; 138; 139; 134; 135].
Definition has_chroma (profile_idc : Z) : bool := bool_decide (profile_idc ∈ chroma_profiles).

Definition encode_order (o : pic_order) : list bool :=
  match o with
  | Order0 m => ue_bits 0 ++ ue_bits m
  | Order1 z a b l =>
      ue_bits 1 ++ [z] ++ ue_bits a ++ ue_bits b ++ ue_bits (Z.of_nat (length l)) ++ (l ≫= ue_bits)
  | Order2 => ue_bits 2
  end.

Definition encode_crop (k : option (Z * Z * Z * Z)) : list bool :=
  match k with
  | None => [false]
  | Some (l, r, t, b) => [true] ++ ue_bits l ++ ue_bits r ++ ue_bits t ++ ue_bits b
  end.

Definition encode_sps (s : sps) : list bool :=
  bits_of 8 (profile_idc s) ++ bits_of 8 (constraints s) ++ bits_of 8 (level_idc s) ++
  ue_bits (sps_id s) ++
  (if has_chroma (profile_idc s) then encode_chroma (sps_chroma s) else []) ++
  ue_bits (log2_frame_num s) ++ encode_order (sps_order s) ++
  ue_bits (ref_frames s) ++ [gaps s] ++ ue_bits (mbs_width s) ++ ue_bits (map_height s) ++
  [mbs_only s] ++ (if mbs_only s then [] else [adaptive s]) ++ [direct_8x8 s] ++
  encode_crop (crop s).

Definition chroma_ok (k : chroma) : Prop :=
  ue_ok (chroma_format k) /\ ue_ok (luma_depth k) /\ ue_ok (chroma_depth k) /\
  (forall ls, scaling_matrix k = Some ls -> length ls = if chroma_format k =? 3 then 12%nat else 8%nat).
Definition order_ok (o : pic_order) : Prop :=
  match o with
  | Order0 m => ue_ok m
  | Order1 _ a b l => ue_ok a /\ ue_ok b /\ ue_ok (Z.of_nat (length l)) /\ Forall ue_ok l
  | Order2 => True
  end.
Definition crop_of (k : option (Z * Z * Z * Z)) : Z * Z * Z * Z :=
  match k with Some x => x | None => (0, 0, 0, 0) end.
Definition crop_ok (k : option (Z * Z * Z * Z)) : Prop :=
  let '(l, r, t, b) := crop_of k in ue_ok l /\ ue_ok r /\ ue_ok t /\ ue_ok b.
Record sps_ok (s : sps) : Prop := {
  ok_bytes : 0 <= profile_idc s < 256 /\ 0 <= constraints s < 256 /\ 0 <= level_idc s < 256;
  ok_chroma : chroma_ok (sps_chroma s);
  ok_order : order_ok (sps_order s);
  ok_codes : ue_ok (sps_id s) /\ ue_ok (log2_frame_num s) /\ ue_ok (ref_frames s) /\
             ue_ok (mbs_width s) /\ ue_ok (map_height s);
  ok_crop : crop_ok (crop s)
}.

(** The number of passes the loop over the offsets makes. *)
Definition offsets_of (s : sps) : nat :=
  match sps_order s with Order1 _ _ _ l => length l | _ => 0%nat end.

(** An optional flag. *)
Lemma reads_opt (t : bool) b :
  reads (if t then read 1;; mret tt else mret tt) (if t then [b] else []) tt id.
Proof.
  destruct t; [|apply reads_ret]. eapply (reads_last _ _ [b]); [apply reads_flag|apply reads_ret].
Qed.

(** What the parser knows of the syntax: it takes other profiles of the list for profiles
    without these fields, and does not read the differences of a list. *)
Definition profile_known (s : sps) : Prop := profile_idc s ∉ [128; 138; 139; 134; 135].
Definition no_lists (s : sps) : Prop :=
  has_chroma (profile_idc s) = true -> forall ls, scaling_matrix (sps_chroma s) = Some ls -> Forall (eq None) ls.

Lemma profile_high s : profile_known s -> has_chroma (profile_idc s) = is_high (profile_idc s).
Proof.
  intros H. apply bool_decide_ext. unfold profile_known, chroma_profiles in *. rewrite !elem_of_cons, elem_of_nil in *. tauto.
Qed.

Lemma reads_chroma k : chroma_ok k -> (forall ls, scaling_matrix k = Some ls -> Forall (eq None) ls) ->
  reads read_chroma (encode_chroma k) tt id.
Proof.
  intros (H1 & H2 & H3 & H4) Hn. unfold read_chroma, encode_chroma.
  eapply reads_then; [now apply reads_ue|]. eapply reads_then; [apply reads_opt|].
  eapply reads_then; [now apply reads_ue|]. eapply reads_then; [now apply reads_ue|].
  eapply reads_then; [apply reads_flag|].
  destruct (scaling_matrix k) as [ls|].
  - eapply reads_then; [apply (reads_flag true)|]. cbn [Z.b2z Z.eqb]. rewrite <- (H4 ls eq_refl).
    pose proof (Hn ls eq_refl) as Hl. clear -Hl. induction Hl as [|x ls <- Hl IH]; [apply reads_ret|].
    cbn [length read_flags]. change ((None :: ls) ≫= encode_list) with ([false] ++ (ls ≫= encode_list)).
    eapply reads_then; [apply (reads_flag false)|exact IH].
  - eapply (reads_last _ _ [false]); [apply (reads_flag false)|apply reads_ret].
Qed.

Lemma reads_offsets : forall l fuel n num, Forall ue_ok l -> (length l <= fuel)%nat ->
  num = n + Z.of_nat (length l) -> reads (offset_loop fuel n num) (l ≫= ue_bits) tt id.
Proof.
  induction l as [|x l IH]; intros fuel n num Hl Hf Hn.
  - destruct fuel; cbn [offset_loop length] in *; (case_if; [lia|apply reads_ret]).
  - destruct fuel as [|fuel]; [cbn in Hf; lia|]. apply Forall_cons in Hl as [Hx Hl].
    cbn [offset_loop length] in *. case_if; [|lia].
    change ((x :: l) ≫= ue_bits) with (ue_bits x ++ (l ≫= ue_bits)).
    eapply reads_then; [now apply reads_ue|]. apply IH; [done|lia|lia].
Qed.

Lemma reads_order fuel o : order_ok o -> ((match o with Order1 _ _ _ l => length l | _ => 0 end) <= fuel)%nat ->
  reads (read_pic_order fuel) (encode_order o) tt id.
Proof.
  unfold read_pic_order. destruct o as [m|z a b l|]; cbn [order_ok encode_order]; intros Ho Hf.
  - eapply reads_then; [apply reads_ue; unfold ue_ok; lia|]. cbn [Z.eqb].
    eapply (reads_last _ _ (ue_bits m)); [now apply reads_ue|apply reads_ret].
  - destruct Ho as (H1 & H2 & H3 & H4).
    eapply reads_then; [apply reads_ue; unfold ue_ok; lia|]. cbn [Z.eqb Pos.eqb].
    eapply reads_then; [apply reads_flag|]. eapply reads_then; [now apply reads_ue|].
    eapply reads_then; [now apply reads_ue|]. eapply reads_then; [now apply reads_ue|].
    now apply reads_offsets.
  - eapply (reads_last _ _ (ue_bits 2)); [apply reads_ue; unfold ue_ok; lia|]. apply reads_ret.
Qed.

Lemma reads_crop k : crop_ok k -> reads read_crop (encode_crop k) (crop_of k) id.
Proof.
  unfold read_crop, crop_ok. destruct k as [[[[l r] t] b]|]; cbn [crop_of encode_crop].
  - intros (H1 & H2 & H3 & H4). eapply reads_then; [apply (reads_flag true)|]. cbn [Z.b2z Z.eqb].
    do 3 (eapply reads_then; [now apply reads_ue|]).
    eapply (reads_last _ _ (ue_bits b)); [now apply reads_ue|]. apply reads_ret.
  - intros _. eapply (reads_last _ _ [false]); [apply (reads_flag false)|]. apply reads_ret.
Qed.

(** The size of the cropped frame in luma samples (H.264, 7.4.2.1.1). *)
Definition format_of (s : sps) : Z :=
  if has_chroma (profile_idc s) then chroma_format (sps_chroma s) else 1.
Definition fields (s : sps) : Z := if mbs_only s then 1 else 2.
Definition crop_unit_x (s : sps) : Z := if (format_of s =? 1) || (format_of s =? 2) then 2 else 1.
Definition crop_unit_y (s : sps) : Z := (if format_of s =? 1 then 2 else 1) * fields s.
Definition luma_width (s : sps) : Z :=
  let '(l, r, _, _) := crop_of (crop s) in 16 * (mbs_width s + 1) - crop_unit_x s * (l + r).
Definition luma_height (s : sps) : Z :=
  let '(_, _, t, b) := crop_of (crop s) in
  fields s * 16 * (map_height s + 1) - crop_unit_y s * (t + b).

(** The size as the code computes it. *)
Definition code_width (s : sps) : Z :=
  let '(l, r, _, _) := crop_of (crop s) in frame_width (mbs_width s) l r.
Definition code_height (s : sps) : Z :=
  let '(_, _, t, b) := crop_of (crop s) in
  frame_height (Z.b2z (mbs_only s)) (map_height s) t b.

Lemma reads_sps fuel s : sps_ok s -> profile_known s -> no_lists s -> (offsets_of s <= fuel)%nat ->
  reads (read_sps fuel) (encode_sps s) tt
    (set_size (code_width s) (code_height s) ∘ set_avc_ref_frames (ref_frames s)).
Proof.
  intros [(Hb1 & Hb2 & Hb3) Hch Hord (H1 & H2 & H3 & H4 & H5) Hcr] Hpr Hno Hf. unfold read_sps, encode_sps.
  eapply reads_then; [apply (reads_bits 8); cbn; lia|].
  eapply reads_then; [apply (reads_bits 8); cbn; lia|].
  eapply reads_then; [apply (reads_bits 8); cbn; lia|].
  eapply reads_then; [now apply reads_ue|].
  eapply reads_then.
  { instantiate (1 := tt). unfold no_lists in Hno. rewrite <- (profile_high s Hpr).
    destruct (has_chroma _); [apply reads_chroma; auto|apply reads_ret]. }
  eapply reads_then; [now apply reads_ue|]. eapply reads_then; [now apply reads_order|].
  eapply reads_then; [now apply reads_ue|]. apply reads_write.
  eapply reads_then; [apply reads_flag|]. eapply reads_then; [now apply reads_ue|].
  eapply reads_then; [now apply reads_ue|]. eapply reads_then; [apply reads_flag|].
  eapply reads_then.
  { instantiate (1 := tt).
    destruct (mbs_only s); [apply (reads_opt false true)|apply (reads_opt true)]. }
  eapply reads_then; [apply reads_flag|]. eapply reads_last; [now apply reads_crop|].
  unfold code_width, code_height. destruct (crop_of (crop s)) as [[[l r] t] b]. apply reads_put.
Qed.

(** The bytes of a NAL unit (7.4.1): behind two zeros a byte 3 is put in front of a byte
    of at most 3. *)
Fixpoint escape (zeros : nat) (l : list Z) : list Z :=
  match l with
  | [] => []
  | b :: l =>
      if (2 <=? zeros)%nat && (b <=? 3) then 3 :: b :: escape (if b =? 0 then 1 else 0) l
      else b :: escape (if b =? 0 then S zeros else 0) l
  end.

(** The decoder configuration record behind the five bytes of the video tag: [front] are
    these and the version, [cfg_bytes] the bytes of the parameter set up to the cropping
    and [cfg_more] those behind. *)
Record avc_config := AvcConfig {
  front : Z; cfg_profile : Z; cfg_compat : Z; cfg_level : Z; cfg_nal : Z; cfg_nnals : Z;
  cfg_sps_len : Z; cfg_ref_idc : Z; cfg_sps : sps; cfg_bytes : list Z; cfg_more : list Z
}.
Definition config_front (a : avc_config) : list bool :=
  bits_of 48 (front a) ++ bits_of 8 (cfg_profile a) ++ bits_of 8 (cfg_compat a) ++
  bits_of 8 (cfg_level a) ++ bits_of 8 (cfg_nal a) ++ bits_of 8 (cfg_nnals a) ++
  bits_of 16 (cfg_sps_len a).
Definition encode_avc (a : avc_config) : list bool :=
  config_front a ++ bits_of 8 (32 * cfg_ref_idc a + 7) ++ data_bits (escape 0 (cfg_bytes a ++ cfg_more a)).
Record avc_ok (a : avc_config) : Prop := {
  avc_front : 0 <= front a < 2 ^ 48;
  avc_bytes : 0 <= cfg_profile a < 256 /\ 0 <= cfg_compat a < 256 /\ 0 <= cfg_level a < 256;
  avc_nal : 0 <= cfg_nal a < 256;
  avc_nnals : 0 <= cfg_nnals a < 256 /\ Z.land (cfg_nnals a) 0x1f <> 0;
  avc_len : 0 <= cfg_sps_len a < 2 ^ 16;
  avc_sps : sps_ok (cfg_sps a);
  avc_sps_bits : exists t, data_bits (cfg_bytes a) = encode_sps (cfg_sps a) ++ t
}.

Lemma escape_app x y : forall n, exists m, escape n (x ++ y) = escape n x ++ escape m y.
Proof.
  induction x as [|b x IH]; intros n; cbn [escape Datatypes.app]; [now exists n|].
  destruct ((2 <=? n)%nat && (b <=? 3)).
  - destruct (IH (if b =? 0 then 1%nat else 0%nat)) as (m & ->). now exists m.
  - destruct (IH (if b =? 0 then S n else 0%nat)) as (m & ->). now exists m.
Qed.

(** Where nothing is escaped, the bits are those of the parameter set. *)
Lemma encode_plain a : avc_ok a -> escape 0 (cfg_bytes a) = cfg_bytes a -> cfg_ref_idc a = 3 ->
  exists t, encode_avc a = (config_front a ++ bits_of 8 0x67 ++ encode_sps (cfg_sps a)) ++ t.
Proof.
  intros [_ _ _ _ _ _ [t Ht]] He Hr. destruct (escape_app (cfg_bytes a) (cfg_more a) 0) as (m & E).
  exists (t ++ data_bits (escape m (cfg_more a))). unfold encode_avc. rewrite E, He, Hr.
  unfold data_bits in *. rewrite bind_app, Ht. now rewrite <- !app_assoc.
Qed.

Lemma reads_avc fuel a : avc_ok a -> profile_known (cfg_sps a) -> no_lists (cfg_sps a) -> (offsets_of (cfg_sps a) <= fuel)%nat ->
  reads (ngx_rtmp_codec_parse_avc_header fuel) (config_front a ++ bits_of 8 0x67 ++ encode_sps (cfg_sps a)) tt
    (((((set_size (code_width (cfg_sps a)) (code_height (cfg_sps a)) ∘
         set_avc_ref_frames (ref_frames (cfg_sps a))) ∘
        set_avc_nal_bytes (Z.land (cfg_nal a) 3 + 1)) ∘
       set_avc_level (cfg_level a)) ∘
      set_avc_compat (cfg_compat a)) ∘
     set_avc_profile (cfg_profile a)).
Proof.
  intros [H1 (H2 & H3 & H4) H5 [H6 H7] H8 H9 _] Hpr Hno Hf. unfold ngx_rtmp_codec_parse_avc_header, config_front.
  rewrite <- !app_assoc.
  eapply reads_then; [apply (reads_bits 48); [lia|exact H1]|].
  do 4 (eapply reads_then; [now apply reads_byte|]; apply reads_write).
  eapply reads_then; [now apply reads_byte|]. case_if; [lia|].
  eapply reads_then; [apply (reads_bits 16); [lia|exact H8]|].
  eapply reads_then; [now apply reads_byte|]. cbn [Z.eqb Pos.eqb]. now apply reads_sps.
Qed.

Lemma parse_reads (m : P unit) f bytes bits rest c :
  reads m bits tt f -> bytes_ok bytes -> data_bits bytes = bits ++ rest ->
  parse m c bytes = Some (f c).
Proof.
  intros Hm Hb Hd. destruct (Hm c (ngx_rtmp_bit_init_reader bytes) rest) as (br & E & _); auto.
  - unfold reader_ok. cbn. split; [lia|]. split; [done|]. now intros ->.
  - unfold parse. now rewrite E.
Qed.

(** The size is right for frames that are not cropped and for frames of full
    pictures with 4:2:0 sampling. *)
Definition crop_known (s : sps) : Prop := crop s = None \/ (format_of s = 1 /\ mbs_only s = true).

Lemma code_size s : crop_known s -> 0 <= luma_width s < 2 ^ 64 -> 0 <= luma_height s < 2 ^ 64 ->
  code_width s = luma_width s /\ code_height s = luma_height s.
Proof.
  intros Hk. unfold code_width, luma_width, code_height, luma_height, frame_width, frame_height,
    crop_unit_x, crop_unit_y, fields.
  destruct Hk as [-> |[-> ->]]; [cbn [crop_of]|destruct (crop_of (crop s)) as [[[l r] t] b]; cbn [Z.eqb Pos.eqb orb Z.b2z]].
  - intros Hw Hh. split; (rewrite u64_small; [|revert Hw Hh]; destruct (mbs_only s); cbn [Z.b2z]; lia).
  - intros Hw Hh. split; (rewrite u64_small; lia).
Qed.

(** C21: an AVC sequence header is understood: from the bytes of the decoder
    configuration and of the sequence parameter set that comes first in it, as H.264
    writes them, and with any kind of picture order count, the context gets the profile,
    the level, the size of the length fields, the number of reference frames and the
    size of the picture, and keeps everything else.  This holds for what the parser knows:
    any profile but 128, 134, 135, 138 and 139, which it reads as profiles without a
    chroma format; a scaling matrix only of flags, without lists; no emulation prevention
    byte up to the cropping; a parameter set with a nal_ref_idc of 3 (type byte 0x67);
    pictures that are not cropped, or full frames with 4:2:0 sampling.  What happens to
    the others is shown by [multiview_unknown], [scaling_list_unread],
    [emulation_byte_read], [other_ref_idc_unread] and [interlaced_crop]. *)
Theorem avc_header_parsed fuel c bytes a rest :
  bytes_ok bytes -> avc_ok a -> data_bits bytes = encode_avc a ++ rest ->
  profile_known (cfg_sps a) -> no_lists (cfg_sps a) -> escape 0 (cfg_bytes a) = cfg_bytes a -> cfg_ref_idc a = 3 ->
  crop_known (cfg_sps a) -> (offsets_of (cfg_sps a) <= fuel)%nat ->
  0 <= luma_width (cfg_sps a) < 2 ^ 64 -> 0 <= luma_height (cfg_sps a) < 2 ^ 64 ->
  parse (ngx_rtmp_codec_parse_avc_header fuel) c bytes =
  Some (Ctx (aac c)
    (Avc (cfg_profile a) (cfg_compat a) (cfg_level a) (Z.land (cfg_nal a) 3 + 1)
       (ref_frames (cfg_sps a)))
    (audio c)
    (Video (video_codec_id (video c)) (luma_width (cfg_sps a)) (luma_height (cfg_sps a)))
    (chains c) (info c)).
Proof.
  intros Hb Ha Hd Hpr Hno He Hr Hk Hf Hw Hh. destruct (code_size _ Hk Hw Hh) as [<- <-].
  destruct (encode_plain a Ha He Hr) as (t & Ea). rewrite Ea, <- app_assoc in Hd.
  now rewrite (parse_reads _ _ bytes _ (t ++ rest) c (reads_avc fuel a Ha Hpr Hno Hf) Hb Hd).
Qed.

(* ------------------------------------------------------------------ *)
(** ** The AAC header *)

(** The audio specific config (ISO 14496-3, 1.6.2.1) behind the two bytes of
    the audio tag. *)
Inductive rate := Index (i : Z) | Explicit (hz : Z).
Record asc := Asc {
  tag_bytes : Z; object_type : Z; asc_rate : rate; channels : Z;
  ext_rate : rate; ext_type : Z
}.
Definition extended (a : asc) : bool := (object_type a =? 5) || (object_type a =? 29).
Definition hz (r : rate) : Z :=
  match r with Index i => nth (Z.to_nat i) aac_sample_rates 0 | Explicit v => v end.

Definition encode_type (t : Z) : list bool :=
  if t <? 31 then bits_of 5 t else bits_of 5 31 ++ bits_of 6 (t - 32).
Definition encode_rate (r : rate) : list bool :=
  match r with Index i => bits_of 4 i | Explicit v => bits_of 4 15 ++ bits_of 24 v end.
Definition encode_asc (a : asc) : list bool :=
  bits_of 16 (tag_bytes a) ++ encode_type (object_type a) ++ encode_rate (asc_rate a) ++
  bits_of 4 (channels a) ++
  (if extended a then encode_rate (ext_rate a) ++ encode_type (ext_type a) else []).

Definition type_ok (t : Z) : Prop := 0 <= t < 31 \/ 32 <= t < 96.
Definition rate_ok (r : rate) : Prop :=
  match r with Index i => 0 <= i < 15 | Explicit v => 0 <= v < 2 ^ 24 end.
Record asc_ok (a : asc) : Prop := {
  asc_tag : 0 <= tag_bytes a < 2 ^ 16;
  asc_types : type_ok (object_type a) /\ type_ok (ext_type a);
  asc_rates : rate_ok (asc_rate a) /\ rate_ok (ext_rate a);
  asc_channels : 0 <= channels a < 16
}.

Lemma reads_profile t : type_ok t -> reads read_profile (encode_type t) t id.
Proof.
  intros Ht. unfold read_profile, encode_type. unfold type_ok in Ht. case_if.
  - eapply reads_last; [apply (reads_bits 5); cbn; lia|]. cbv beta. case_if; [lia|apply reads_ret].
  - eapply reads_then; [apply (reads_bits 5); cbn; lia|]. cbn [Z.eqb Pos.eqb].
    eapply reads_last; [apply (reads_bits 6); cbn; lia|]. cbv beta.
    rewrite u64_small by lia. replace (t - 32 + 32) with t by lia. apply reads_ret.
Qed.

Lemma reads_rate r : rate_ok r -> reads read_sample_rate (encode_rate r) (hz r) id.
Proof.
  unfold read_sample_rate. destruct r as [i|v]; cbn [rate_ok encode_rate hz]; intros Hr.
  - eapply reads_last; [apply (reads_bits 4); cbn; lia|]. cbv beta. case_if; [lia|apply reads_ret].
  - eapply reads_then; [apply (reads_bits 4); cbn; lia|]. cbn [Z.eqb Pos.eqb].
    apply (reads_bits 24); [lia|exact Hr].
Qed.

Lemma reads_aac a : asc_ok a ->
  reads ngx_rtmp_codec_parse_aac_header (encode_asc a) tt
    ((((if extended a then
          ((set_aac_profile (ext_type a) ∘ set_sample_rate (hz (ext_rate a))) ∘ set_aac_sbr 1) ∘
          (if object_type a =? 29 then set_aac_ps 1 else id)
        else id) ∘
       set_aac_chan_conf (channels a)) ∘ set_sample_rate (hz (asc_rate a))) ∘
     set_aac_profile (object_type a)).
Proof.
  intros [H1 [H2 H3] [H4 H5] H6]. unfold ngx_rtmp_codec_parse_aac_header, encode_asc.
  eapply reads_then; [apply (reads_bits 16); [lia|exact H1]|].
  eapply reads_then; [now apply reads_profile|]. apply reads_write.
  eapply reads_then; [now apply reads_rate|]. apply reads_write.
  eapply reads_then; [apply (reads_bits 4); cbn; lia|]. apply reads_write.
  unfold extended. destruct (_ || _); [|apply reads_ret].
  eapply (reads_bind _ _ []).
  { instantiate (1 := tt). destruct (object_type a =? 29); [apply reads_put|apply reads_ret]. }
  apply reads_write. eapply reads_then; [now apply reads_rate|]. apply reads_write.
  eapply reads_last; [now apply reads_profile|]. apply reads_put.
Qed.

(** An AAC sequence header is understood: from the audio specific config,
    with long and short object types and with explicit sample rates, the
    context gets the object type, the sample rate and the channel
    configuration; of a config with spectral band replication it gets the
    extended rate and the underlying type.  The flags for the extensions are
    set with them and otherwise left as they are. *)
Theorem aac_header_parsed c bytes a rest :
  bytes_ok bytes -> asc_ok a -> data_bits bytes = encode_asc a ++ rest ->
  parse ngx_rtmp_codec_parse_aac_header c bytes =
  Some (Ctx
    (Aac (if extended a then ext_type a else object_type a) (channels a)
       (if extended a then 1 else aac_sbr (aac c))
       (if object_type a =? 29 then 1 else aac_ps (aac c)))
    (avc c)
    (Audio (audio_codec_id (audio c)) (hz (if extended a then ext_rate a else asc_rate a))
       (sample_size (audio c)) (audio_channels (audio c)))
    (video c) (chains c) (info c)).
Proof.
  intros Hb Ha Hd. rewrite (parse_reads _ _ bytes _ rest c (reads_aac a Ha) Hb Hd). f_equal.
  unfold extended. destruct (object_type a =? 29) eqn:E; [apply Z.eqb_eq in E as ->; reflexivity|].
  now destruct (object_type a =? 5).
Qed.

(* ------------------------------------------------------------------ *)
(** ** Arbitrary headers *)

(** No 64 zero bits in a row. *)
Definition no_run (l : list bool) : Prop := forall i, take 64 (drop i l) <> replicate 64 false.

Record good br : Prop := {
  good_ok : reader_ok br;
  good_err : br_err br = 0 \/ br_data br = [];
  good_run : no_run (reader_bits br)
}.

Lemma no_run_nil : no_run [].
Proof. intros i H. now rewrite drop_nil in H. Qed.

Lemma good_end : good (BitReader [] 0 1).
Proof.
  split; [|auto|apply no_run_nil]. unfold reader_ok. cbn. split; [lia|]. split; [constructor|done].
Qed.

Lemma good_init bytes : bytes_ok bytes -> no_run (data_bits bytes) -> good (ngx_rtmp_bit_init_reader bytes).
Proof.
  intros Hb Hn. split; [|auto|done]. unfold reader_ok. cbn. split; [lia|]. split; [done|]. now intros ->.
Qed.

Lemma read_good br n : good br -> 0 <= n ->
  exists v br', ngx_rtmp_bit_read br n = (v, br') /\ good br'.
Proof.
  intros [Hok He Hn] Hn0. pose proof (bit_read_next br n Hok Hn0) as H. cbv zeta in H.
  case_decide as Hd; [|do 2 eexists; split; [exact H|apply good_end]].
  destruct H as (br' & E & Hok' & Hb' & He'). do 2 eexists. split; [exact E|]. split; [done|..].
  - destruct He as [He|He]; [left; congruence|]. right.
    assert (reader_bits br' = []) as Hb0.
    { rewrite Hb'. unfold reader_bits. rewrite He. cbn. now rewrite !drop_nil. }
    destruct Hok' as (Ho & _ & _). apply (f_equal length) in Hb0. unfold reader_bits in Hb0.
    rewrite length_drop, length_data_bits in Hb0. destruct (br_data br'); [done|]. cbn in Hb0. lia.
  - intros i. rewrite Hb', drop_drop. apply Hn.
Qed.

Lemma zeros_good fuel : forall br n n' br', good br -> golomb_zeros fuel br n = Some (n', br') -> good br' /\ n <= n'.
Proof.
  induction fuel as [|fuel IH]; intros br n n' br' Hg; cbn [golomb_zeros]; [done|].
  destruct (read_good br 1 Hg ltac:(lia)) as (v & br1 & -> & Hg1). case_if.
  - intros [H1 H2]%IH; [|done]. split; [done|lia].
  - intros [= <- <-]. split; [done|lia].
Qed.

Lemma golomb_good br : good br ->
  exists v br', ngx_rtmp_bit_read_golomb br = Some (v, br') /\ good br' /\ 0 <= v < 2 ^ 64.
Proof.
  intros Hg. assert (ngx_rtmp_bit_read_golomb br <> None) as Hne.
  { destruct Hg as [Hok [He|He] Hn].
    - rewrite golomb_total by done. apply (Hn 0%nat).
    - assert (br = BitReader [] 0 (br_err br)) as ->; [|done].
      destruct Hok as (_ & _ & Ho). destruct br; cbn in *. rewrite He, (Ho He). done. }
  unfold ngx_rtmp_bit_read_golomb in *.
  destruct (golomb_zeros _ br 0) as [[n br1]|] eqn:E; [|done]. case_if; [|done].
  destruct (zeros_good _ _ _ _ _ Hg E) as [Hg1 Hn].
  destruct (read_good br1 n Hg1 Hn) as (v & br2 & E2 & Hg2). rewrite E2. do 2 eexists.
  split; [reflexivity|]. split; [done|]. apply Z.mod_pos_bound. lia.
Qed.

(** [m] returns, with a value in [Q], and keeps the chains. *)
Definition total {A} (m : P A) (Q : A -> Prop) : Prop :=
  forall c br, good br ->
  exists v c' br', m (c, br) = Some (v, (c', br')) /\ good br' /\ chains c' = chains c /\ Q v.

Lemma parser_bind {A B} (m : P A) (k : A -> P B) Q R :
  total m Q -> (forall v, Q v -> total (k v) R) -> total (m ≫= k) R.
Proof.
  intros Hm Hk c br Hg. destruct (Hm c br Hg) as (v & c1 & br1 & E1 & Hg1 & Hc1 & Hv).
  destruct (Hk v Hv c1 br1 Hg1) as (w & c2 & br2 & E2 & Hg2 & Hc2 & Hw).
  exists w, c2, br2. unfold mbind, P_bind. rewrite E1. split; [done|]. split; [done|].
  split; [congruence|done].
Qed.

Lemma parser_ret {A} (v : A) (Q : A -> Prop) : Q v -> total (mret v) Q.
Proof. intros Hv c br Hg. now exists v, c, br. Qed.

Lemma parser_put f : (forall c, chains (f c) = chains c) -> total (put f) (fun _ => True).
Proof. intros Hf c br Hg. exists tt, (f c), br. auto. Qed.

Lemma total_read n : 0 <= n -> total (read n) (fun _ => True).
Proof.
  intros Hn c br Hg. destruct (read_good br n Hg Hn) as (v & br' & E & Hg').
  exists v, c, br'. unfold read. now rewrite E.
Qed.

Lemma total_read_8 : total read_8 (fun _ => True).
Proof.
  intros c br Hg. destruct (read_good br 8 Hg ltac:(lia)) as (v & br' & E & Hg').
  exists (u8 v), c, br'. unfold read_8, ngx_rtmp_bit_read_8. now rewrite E.
Qed.

Lemma total_golomb : total golomb (fun v => 0 <= v < 2 ^ 64).
Proof.
  intros c br Hg. destruct (golomb_good br Hg) as (v & br' & E & Hg' & Hv).
  exists v, c, br'. unfold golomb. now rewrite E.
Qed.

Ltac total_step :=
  lazymatch goal with
  | |- total (_ ≫= _) _ => eapply parser_bind; [|intros ? ?]
  | |- total (if ?b then _ else _) _ => destruct b
  | |- total (put _) _ => apply parser_put; reflexivity
  | |- total (read _) _ => apply total_read; lia
  | |- total read_8 _ => apply total_read_8
  | |- total golomb _ => apply total_golomb
  | |- total (let '(_, _) := ?x in _) _ => destruct x
  | |- total _ _ => apply (parser_ret _ (fun _ => True) Logic.I)
  end.

Lemma total_flags n : total (read_flags n) (fun _ => True).
Proof. induction n as [|n IH]; cbn [read_flags]; repeat total_step. exact IH. Qed.

Lemma total_offsets : forall fuel n num, num - n <= Z.of_nat fuel ->
  total (offset_loop fuel n num) (fun _ => True).
Proof.
  induction fuel as [|fuel IH]; intros n num Hf; cbn [offset_loop]; case_if; try lia; repeat total_step.
  apply IH. lia.
Qed.

Ltac total_steps := repeat first [apply total_flags | apply total_offsets; cbn in *; lia | total_step].

Lemma total_sps fuel : 2 ^ 64 <= Z.of_nat fuel -> total (read_sps fuel) (fun _ => True).
Proof.
  intros Hf. unfold read_sps, read_chroma, read_pic_order, read_crop. total_steps.
Qed.

Lemma total_avc fuel : 2 ^ 64 <= Z.of_nat fuel ->
  total (ngx_rtmp_codec_parse_avc_header fuel) (fun _ => True).
Proof.
  intros Hf. unfold ngx_rtmp_codec_parse_avc_header.
  repeat first [now apply total_sps | total_step].
Qed.

Lemma total_aac : total ngx_rtmp_codec_parse_aac_header (fun _ => True).
Proof. unfold ngx_rtmp_codec_parse_aac_header, read_profile, read_sample_rate. total_steps. Qed.

Lemma parse_total (m : P unit) c b : total m (fun _ => True) -> bytes_ok b -> no_run (data_bits b) ->
  exists c', parse m c b = Some c' /\ chains c' = chains c.
Proof.
  intros Hm Hb Hn. destruct (Hm c _ (good_init b Hb Hn)) as (v & c' & br & E & _ & Hc & _).
  exists c'. unfold parse. now rewrite E.
Qed.

(* ------------------------------------------------------------------ *)
(** ** The headers in the pool *)

Definition opt_list (l : option loc) : list loc := match l with Some l => [l] | None => [] end.

(** The references the context holds. *)
Definition ctx_refs (ctx : option ngx_rtmp_codec_ctx_t) : list loc :=
  match ctx with
  | Some c => opt_list (avc_header (chains c)) ++ opt_list (aac_header (chains c)) ++
              opt_list (meta (chains c))
  | None => []
  end.

Lemma free_opt_owned p live l refs : owned p live (opt_list l ++ refs) ->
  exists p' live', free_opt p l = Some p' /\ owned p' live' refs /\ chunk_size p' = chunk_size p /\
    forall k, k ∈ refs -> chain_bytes p' k = chain_bytes p k.
Proof.
  destruct l as [l|]; cbn [opt_list Datatypes.app free_opt]; [|eauto 10]. intros Ho.
  destruct (free_owned p live l refs Ho) as (p' & live' & E & Ho' & Hk).
  exists p', live'. split; [done|]. split; [done|]. split; [exact (free_chunk_size _ _ _ E)|done].
Qed.

(** The header replaced. *)
Lemma refs_header f c refs : ctx_refs (Some c) ++ refs ≡ₚ
  opt_list (get_header f c) ++ ctx_refs (Some (set_header f None c)) ++ refs.
Proof.
  destruct f; cbn [ctx_refs get_header set_header on_chains chains avc_header aac_header meta opt_list Datatypes.app];
    rewrite <- !app_assoc; [|done]. apply Permutation_app_swap_app.
Qed.

Lemma refs_set f l c refs : ctx_refs (Some (set_header f (Some l) c)) ++ refs ≡ₚ
  l :: ctx_refs (Some (set_header f None c)) ++ refs.
Proof.
  destruct f; cbn [ctx_refs get_header set_header on_chains chains avc_header aac_header meta opt_list Datatypes.app];
    [|done]. rewrite <- !app_assoc. cbn [Datatypes.app]. now rewrite <- Permutation_middle.
Qed.

(** The message is a sequence header the module keeps a copy of. *)
Definition header_of (h : Chunk.ngx_rtmp_header_t) (b : list Z) : option header_field :=
  match b with
  | fmt :: 0 :: _ :: _ =>
      if (Chunk.type h =? NGX_RTMP_MSG_AUDIO) && (Z.shiftr (Z.land fmt 0xf0) 4 =? NGX_RTMP_AUDIO_AAC)
      then Some AacHeader
      else if (Chunk.type h =? NGX_RTMP_MSG_VIDEO) && (Z.land fmt 0x0f =? NGX_RTMP_VIDEO_H264)
      then Some AvcHeader else None
  | _ => None
  end.

Definition ctx_or_new (ctx : option ngx_rtmp_codec_ctx_t) : ngx_rtmp_codec_ctx_t :=
  match ctx with Some c => c | None => calloc_ctx end.

Lemma ctx_refs_chains c c' : chains c = chains c' -> ctx_refs (Some c) = ctx_refs (Some c').
Proof. cbn [ctx_refs]. now intros ->. Qed.

Lemma ctx_refs_new ctx c : chains c = chains (ctx_or_new ctx) -> ctx_refs (Some c) = ctx_refs ctx.
Proof. intros H. rewrite (ctx_refs_chains _ _ H). now destruct ctx. Qed.

Lemma save_codec_chains ty fmt c : chains (save_codec ty fmt c) = chains c.
Proof. unfold save_codec. now case_if. Qed.

(** Parsing a header returns and keeps the chains. *)
Lemma parse_header_total fuel h fmt b c :
  Chunk.type h = NGX_RTMP_MSG_AUDIO \/ Chunk.type h = NGX_RTMP_MSG_VIDEO ->
  bytes_ok (fmt :: 0 :: b) -> b <> [] -> no_run (data_bits (fmt :: 0 :: b)) -> 2 ^ 64 <= Z.of_nat fuel ->
  exists c', parse_header fuel (Chunk.type h) (fmt :: 0 :: b) (save_codec (Chunk.type h) fmt c) =
      Some (header_of h (fmt :: 0 :: b), c') /\ chains c' = chains c.
Proof.
  intros Hty Hb Hne Hn Hf. unfold parse_header, header_of. destruct b as [|y b]; [done|].
  pose proof (save_codec_chains (Chunk.type h) fmt c) as Hs.
  destruct Hty as [Ht|Ht]; rewrite Ht in *; cbn [Z.eqb Pos.eqb andb NGX_RTMP_MSG_AUDIO NGX_RTMP_MSG_VIDEO].
  - change (audio_codec_id (audio (save_codec NGX_RTMP_MSG_AUDIO fmt c))) with (Z.shiftr (Z.land fmt 0xf0) 4).
    destruct (_ =? NGX_RTMP_AUDIO_AAC); [|eauto].
    destruct (parse_total _ (save_codec NGX_RTMP_MSG_AUDIO fmt c) _ total_aac Hb Hn) as (c' & -> & Hc).
    exists c'. split; [done|congruence].
  - change (video_codec_id (video (save_codec NGX_RTMP_MSG_VIDEO fmt c))) with (Z.land fmt 0x0f).
    destruct (_ =? NGX_RTMP_VIDEO_H264); [|eauto].
    destruct (parse_total _ (save_codec NGX_RTMP_MSG_VIDEO fmt c) _ (total_avc fuel Hf) Hb Hn) as (c' & -> & Hc).
    exists c'. split; [done|congruence].
Qed.

(** The old header is given up and the new one copied. *)
Lemma header_replaced f p live c held chain :
  owned p live (ctx_refs (Some c) ++ held) -> (0 < chunk_size p)%nat -> chain <> [] ->
  bytes_ok (concat chain) ->
  let others := ctx_refs (Some (set_header f None c)) ++ held in
  exists p1 p' l live', free_opt p (get_header f c) = Some p1 /\
    ngx_rtmp_append_shared_bufs p1 None chain = Some (p', Some l) /\
    owned p' live' (ctx_refs (Some (set_header f (Some l) c)) ++ held) /\
    kept others p p' /\ chain_bytes p' l = concat chain.
Proof.
  intros Ho Hk Hne Hb others. rewrite (refs_header f) in Ho.
  destruct (free_opt_owned p live _ _ Ho) as (p1 & live1 & E1 & Ho1 & Hk1 & Hb1).
  destruct (append_owned p1 live1 _ chain Ho1 ltac:(lia) Hne Hb) as (p' & l & live' & E2 & Ho2 & Hl & Hb2 & _).
  exists p1, p', l, live'. split; [done|]. split; [done|].
  split; [now rewrite (refs_set f l c)|]. split; [|done].
  intros k Hin. now rewrite Hb2, Hb1.
Qed.

Lemma header_other h b :
  negb (Chunk.type h =? NGX_RTMP_MSG_AUDIO) && negb (Chunk.type h =? NGX_RTMP_MSG_VIDEO) = true ->
  header_of h b = None.
Proof.
  unfold header_of. destruct (Chunk.type h =? NGX_RTMP_MSG_AUDIO), (Chunk.type h =? NGX_RTMP_MSG_VIDEO);
    try done. intros _. destruct b as [|fmt [|[] [|y b]]]; done.
Qed.

Lemma header_short h b : (length b < 3)%nat -> header_of h b = None.
Proof. destruct b as [|fmt [|[] [|y b]]]; cbn [length]; intros H; try done; lia. Qed.

(** What a message does to the chains, with [header] the field for it. *)
Definition header_case (p p' : pool) (ctx ctx' : option ngx_rtmp_codec_ctx_t) (held : list loc)
    (chain : list (list Z)) (header : option header_field) : Prop :=
  match header with
  | Some f => exists c l, ctx' = Some (set_header f (Some l) c) /\
      chains c = chains (ctx_or_new ctx) /\ chain_bytes p' l = concat chain /\
      kept (ctx_refs (Some (set_header f None c)) ++ held) p p'
  | None => p' = p /\ ctx_refs ctx' = ctx_refs ctx
  end.

(** C27: audio and video messages and the pool: every message is accepted, and
    the references the context holds are exactly those counted.  A sequence
    header of AAC or AVC is copied whole into new shared buffers and the copy
    of the one before is given up; the other chains of the context and those
    of anybody else keep their bytes.  Any other message changes no chain.
    The header must not contain 64 zero bits in a row. *)
Theorem codec_av_holds fuel p ctx h chain live held :
  owned p live (ctx_refs ctx ++ held) -> (0 < chunk_size p)%nat -> bytes_ok (concat chain) ->
  no_run (data_bits (Receive.in_buf0 chain)) -> 2 ^ 64 <= Z.of_nat fuel ->
  exists p' ctx' live', ngx_rtmp_codec_av fuel p ctx h chain = Some (NGX_OK, p', ctx') /\
    owned p' live' (ctx_refs ctx' ++ held) /\
    header_case p p' ctx ctx' held chain (header_of h (Receive.in_buf0 chain)).
Proof.
  intros Ho Hk Hb Hn Hf. unfold ngx_rtmp_codec_av. cbv zeta. fold (ctx_or_new ctx).
  destruct (negb _ && negb _) eqn:Ety.
  { rewrite header_other by done. now exists p, ctx, live. }
  assert (Chunk.type h = NGX_RTMP_MSG_AUDIO \/ Chunk.type h = NGX_RTMP_MSG_VIDEO) as Hty
    by (destruct (Chunk.type h =? _) eqn:E1; [left; lia|]; destruct (Chunk.type h =? NGX_RTMP_MSG_VIDEO) eqn:E2; [right; lia|done]).
  set (b := Receive.in_buf0 chain) in *.
  assert (forall ctx', chains ctx' = chains (ctx_or_new ctx) -> header_of h b = None ->
    exists p' ctx'' live', Some (NGX_OK, p, Some ctx') = Some (NGX_OK, p', ctx'') /\
      owned p' live' (ctx_refs ctx'' ++ held) /\ header_case p p' ctx ctx'' held chain (header_of h b)) as Hnone.
  { intros ctx' Hc ->. exists p, (Some ctx'), live. cbn [header_case].
    rewrite (ctx_refs_new ctx ctx' Hc). auto. }
  destruct b as [|fmt [|x [|y b']]] eqn:Eb; try (apply Hnone; [now rewrite ?save_codec_chains|apply header_short; cbn; lia]).
  cbn [length Nat.ltb Nat.leb ngx_rtmp_is_codec_header].
  destruct (x =? 0) eqn:Ex; cbn [negb].
  2: { apply Hnone; [now rewrite save_codec_chains|]. destruct x; done. }
  apply Z.eqb_eq in Ex as ->. assert (chain <> []) as Hne by (intros ->; discriminate Eb).
  assert (bytes_ok (fmt :: 0 :: y :: b')) as Hbb.
  { rewrite <- Eb. unfold b. destruct chain; [done|]. cbn [concat] in Hb. now apply bytes_ok_app in Hb. }
  destruct (parse_header_total fuel h fmt (y :: b') (ctx_or_new ctx) Hty Hbb ltac:(done) Hn Hf)
    as (c & -> & Hc). rewrite some_bind.
  destruct (header_of h _) as [f|] eqn:Ef; [|now apply Hnone].
  rewrite <- (ctx_refs_new ctx c Hc) in Ho.
  destruct (header_replaced f p live c held chain Ho Hk Hne Hb) as (p1 & p' & l & live' & -> & E2 & Ho' & Hkept & Hl).
  rewrite some_bind, E2, some_bind. exists p', (Some (set_header f (Some l) c)), live'.
  split; [done|]. split; [done|]. exists c, l. auto.
Qed.

(** When the session ends the context gives up every reference it holds, and
    nothing else. *)
Theorem codec_disconnect_releases p ctx live held :
  owned p live (ctx_refs ctx ++ held) ->
  exists p' ctx' live', ngx_rtmp_codec_disconnect p ctx = Some (NGX_OK, p', ctx') /\
    ctx_refs ctx' = [] /\ owned p' live' held /\ kept held p p'.
Proof.
  destruct ctx as [c|]; cbn [ctx_refs ngx_rtmp_codec_disconnect]; [|intros Ho; now exists p, None, live].
  rewrite <- !app_assoc. intros Ho.
  destruct (free_opt_owned _ _ _ _ Ho) as (p1 & live1 & -> & Ho1 & _ & Hk1). rewrite some_bind.
  destruct (free_opt_owned _ _ _ _ Ho1) as (p2 & live2 & -> & Ho2 & _ & Hk2). rewrite some_bind.
  destruct (free_opt_owned _ _ _ _ Ho2) as (p3 & live3 & -> & Ho3 & _ & Hk3). rewrite some_bind.
  eexists p3, _, live3. split; [reflexivity|]. split; [done|]. split; [done|].
  intros k Hk. rewrite Hk3, Hk2, Hk1; rewrite ?elem_of_app; auto.
Qed.

(* ------------------------------------------------------------------ *)
(** ** Concrete headers *)

(** A full HD picture: 120 by 68 macroblocks, eight lines cropped. *)
Definition hd_sps : sps :=
  Sps 100 0 40 0 (Chroma 1 false 0 0 false None) 0 (Order1 false 0 2 [3]) 4 false 119 67 true true true
    (Some (0, 0, 0, 4)).
Definition hd_config : avc_config := AvcConfig 0x170000000001 100 0 40 255 225 13 3 hd_sps
  [100; 0; 40; 172; 165; 162; 20; 7; 128; 34; 126; 95] [].
Definition hd_bytes : list Z :=
  [23; 0; 0; 0; 0; 1; 100; 0; 40; 255; 225; 0; 13; 103; 100; 0; 40; 172; 165; 162; 20; 7; 128; 34;
   126; 95].

Definition baseline (order : pic_order) (h : Z) (whole : bool) (crop : Z) : sps :=
  Sps 66 0 40 0 (Chroma 1 false 0 0 false None) 0 order 4 false 119 h whole true true (Some (0, 0, 0, crop)).
Definition high (profile : Z) (m : option (list (option (list Z)))) : sps :=
  Sps profile 0 40 0 (Chroma 1 false 0 0 false m) 0 Order2 4 false 119 67 true true true (Some (0, 0, 0, 4)).
Definition config_of (ref_idc : Z) (s : sps) (bytes : list Z) : avc_config :=
  AvcConfig 0x170000000001 (profile_idc s) 0 40 255 225 (Z.of_nat (length (escape 0 bytes)) + 1) ref_idc s bytes [].

(** The picture order count announces 2^64 - 2 offsets. *)
Definition long_bytes : list Z :=
  [23; 0; 0; 0; 0; 1; 100; 0; 40; 255; 225; 0; 23; 103; 66; 0; 40; 215; 0; 0; 0; 0; 0; 0; 0; 1;
   255; 255; 255; 255; 255; 255; 255; 255].

Lemma hd_sps_ok : sps_ok hd_sps.
Proof.
  split; cbn; unfold chroma_ok, crop_ok, ue_ok; cbn; repeat split; try lia; try done.
  constructor; [lia|constructor].
Qed.

Lemma hd_config_ok : avc_ok hd_config.
Proof.
  split; cbn [front cfg_profile cfg_compat cfg_level cfg_nal cfg_nnals cfg_sps_len cfg_sps hd_config];
    try lia; [split; [lia|discriminate]|exact hd_sps_ok|].
  exists [true; true; true; true]. vm_compute. reflexivity.
Qed.

Lemma avc_header_parsed_witness :
  parse (ngx_rtmp_codec_parse_avc_header 1) calloc_ctx hd_bytes =
  Some (Ctx (aac calloc_ctx) (Avc 100 0 40 4 4) (audio calloc_ctx) (Video 0 1920 1080)
    (chains calloc_ctx) (info calloc_ctx)).
Proof.
  apply (avc_header_parsed 1 calloc_ctx hd_bytes hd_config []).
  - refine (bool_decide_unpack _ _); exact Logic.I.
  - exact hd_config_ok.
  - vm_compute. reflexivity.
  - refine (bool_decide_unpack _ _); exact Logic.I.
  - intros _ ls. discriminate.
  - vm_compute. reflexivity.
  - reflexivity.
  - right. split; reflexivity.
  - cbn. lia.
  - vm_compute. split; [discriminate|reflexivity].
  - vm_compute. split; [discriminate|reflexivity].
Defined.

(** High efficiency AAC: 22050 Hz extended to 44100 Hz. *)
Definition he_aac : asc := Asc 0xaf00 5 (Index 7) 2 (Index 4) 2.

Lemma aac_header_parsed_witness :
  parse ngx_rtmp_codec_parse_aac_header calloc_ctx [175; 0; 43; 146; 8] =
  Some (Ctx (Aac 2 2 1 0) (avc calloc_ctx) (Audio 0 44100 0 0) (video calloc_ctx) (chains calloc_ctx) (info calloc_ctx)).
Proof.
  apply (aac_header_parsed calloc_ctx [175; 0; 43; 146; 8] he_aac [false; false]).
  - refine (bool_decide_unpack _ _); exact Logic.I.
  - split; cbn; unfold type_ok; lia.
  - vm_compute. reflexivity.
Defined.

Definition run_check (l : list bool) : bool :=
  forallb (fun i => negb (bool_decide (take 64 (drop i l) = replicate 64 false))) (seq 0 (length l)).

Lemma run_check_ok l : run_check l = true -> no_run l.
Proof.
  intros H i Hi. unfold run_check in H. rewrite forallb_forall in H.
  destruct (decide (i < length l)%nat) as [Hl|Hl].
  - assert (In i (seq 0 (length l))) as Hin by (apply in_seq; lia).
    specialize (H i Hin). now rewrite Hi in H.
  - rewrite drop_ge in Hi by lia. discriminate Hi.
Qed.

(** The header of the first stream of a session. *)
Lemma codec_av_holds_witness :
  exists fuel p' l live', ngx_rtmp_codec_av fuel (empty_pool 128) None (Chunk.Hdr 6 0 26 9 1) [hd_bytes] =
      Some (NGX_OK, p', Some l) /\ owned p' live' (ctx_refs (Some l)) /\
      exists k, avc_header (chains l) = Some k /\ chain_bytes p' k = hd_bytes.
Proof.
  exists (Z.to_nat (2 ^ 64)).
  destruct (codec_av_holds (Z.to_nat (2 ^ 64)) (empty_pool 128) None (Chunk.Hdr 6 0 26 9 1) [hd_bytes] [] [])
    as (p' & ctx' & live' & E & Ho & (c & l & -> & _ & Hl & _)).
  - split; [apply empty_pool_wf|..].
    + intros l H. now apply not_elem_of_nil in H.
    + intros ls l H. now apply not_elem_of_nil in H.
    + intros l c H. now apply not_elem_of_nil in H.
  - cbn. lia.
  - refine (bool_decide_unpack _ _); exact Logic.I.
  - apply run_check_ok. vm_compute. reflexivity.
  - rewrite Z2Nat.id; [apply Z.le_refl|]. apply Z.pow_nonneg. discriminate.
  - exists p', (set_header AvcHeader (Some l) c), live'. split; [exact E|].
    split; [rewrite app_nil_r in Ho; exact Ho|]. exists l. split; [reflexivity|exact Hl].
Defined.

Lemma codec_disconnect_releases_witness :
  exists p' ctx' live', ngx_rtmp_codec_disconnect pool1
      (Some (set_header AvcHeader (Some 0%nat) calloc_ctx)) = Some (NGX_OK, p', ctx') /\
    ctx_refs ctx' = [] /\ owned p' live' [0%nat] /\ kept [0%nat] pool1 p'.
Proof.
  apply (codec_disconnect_releases pool1 (Some (set_header AvcHeader (Some 0%nat) calloc_ctx))
    [[0%nat; 1%nat]] [0%nat]).
  exact (ok_owned _ _ _ _ _ one_queued_ok).
Defined.

(** A loop that is longer than its fuel. *)
Lemma offset_loop_short : forall fuel n num st, Z.of_nat fuel < num - n ->
  offset_loop fuel n num st = None.
Proof.
  induction fuel as [|fuel IH]; intros n num st Hf; cbn [offset_loop]; (case_if; [|lia]); [done|].
  unfold mbind, P_bind. destruct (golomb st) as [[v st']|]; [|done]. apply IH. lia.
Qed.

(** [m] does not return on input that begins with [bits]. *)
Definition stuck {A} (m : P A) (bits : list bool) : Prop :=
  forall c br rest, reader_ok br -> br_err br = 0 -> reader_bits br = bits ++ rest -> m (c, br) = None.

Lemma stuck_then {A B} (m : P A) (k : A -> P B) b1 b2 v f :
  reads m b1 v f -> stuck (k v) b2 -> stuck (m ≫= k) (b1 ++ b2).
Proof.
  intros Hm Hk c br rest Hok He Hb. rewrite <- app_assoc in Hb.
  destruct (Hm c br _ Hok He Hb) as (br1 & E1 & Hok1 & He1 & Hb1).
  unfold mbind, P_bind. rewrite E1. eapply Hk; eauto.
Qed.

Lemma stuck_write {B} f (k : unit -> P B) b : stuck (k tt) b -> stuck (put f ≫= k) b.
Proof. intros H. exact (stuck_then (put f) k [] b tt f (reads_put f) H). Qed.

Lemma stuck_first {A B} (m : P A) (k : A -> P B) b : stuck m b -> stuck (m ≫= k) b.
Proof. intros Hm c br rest Hok He Hb. unfold mbind, P_bind. now rewrite (Hm c br rest). Qed.

Lemma stuck_order fuel num : ue_ok num -> Z.of_nat fuel < num ->
  stuck (read_pic_order fuel) (ue_bits 1 ++ [true] ++ ue_bits 0 ++ ue_bits 0 ++ ue_bits num).
Proof.
  intros Hn Hf. unfold read_pic_order.
  eapply stuck_then; [apply reads_ue; unfold ue_ok; lia|]. cbn [Z.eqb Pos.eqb].
  eapply stuck_then; [apply (reads_flag true)|].
  do 2 (eapply stuck_then; [apply reads_ue; unfold ue_ok; lia|]).
  rewrite <- (app_nil_r (ue_bits num)). eapply stuck_then; [now apply reads_ue|].
  intros c br rest _ _ _. apply offset_loop_short. lia.
Qed.

(** The bits of [long_bytes] up to the number of offsets. *)
Definition long_bits : list bool :=
  bits_of 48 0x170000000001 ++ bits_of 8 100 ++ bits_of 8 0 ++ bits_of 8 40 ++ bits_of 8 255 ++
  bits_of 8 225 ++ bits_of 16 23 ++ bits_of 8 0x67 ++
  bits_of 8 66 ++ bits_of 8 0 ++ bits_of 8 40 ++ ue_bits 0 ++ [] ++ ue_bits 0 ++
  (ue_bits 1 ++ [true] ++ ue_bits 0 ++ ue_bits 0 ++ ue_bits (2 ^ 64 - 2)).

Lemma stuck_long fuel : Z.of_nat fuel < 2 ^ 64 - 2 ->
  stuck (ngx_rtmp_codec_parse_avc_header fuel) long_bits.
Proof.
  intros Hf. unfold ngx_rtmp_codec_parse_avc_header, long_bits.
  eapply stuck_then; [apply (reads_bits 48); lia|].
  do 4 (eapply stuck_then; [apply reads_byte; lia|]; apply stuck_write).
  eapply stuck_then; [apply reads_byte; lia|]. cbn [Z.land Pos.land Z.eqb Z.of_N Pos.Ndouble Pos.Nsucc_double N.double].
  eapply stuck_then; [apply (reads_bits 16); lia|]. eapply stuck_then; [apply reads_byte; lia|].
  unfold read_sps. do 3 (eapply stuck_then; [apply (reads_bits 8); cbn; lia|]).
  eapply stuck_then; [apply reads_ue; unfold ue_ok; lia|].
  eapply stuck_then; [apply reads_ret|]. eapply stuck_then; [apply reads_ue; unfold ue_ok; lia|].
  apply stuck_first, stuck_order; [unfold ue_ok|]; lia.
Qed.

(** The loop over the offsets of a picture order count is as long as the
    message says: a video message of 34 bytes, none of its codes undefined,
    keeps the worker busy for 2^64 - 2 passes, long after the bits have
    ended. *)
Theorem avc_loop_long fuel : let m := ngx_rtmp_codec_parse_avc_header fuel in
  length long_bytes = 34%nat /\
  (if Z.of_nat fuel <? 2 ^ 64 - 2 then parse m calloc_ctx long_bytes = None else True) /\
  (if 2 ^ 64 <=? Z.of_nat fuel then is_Some (parse m calloc_ctx long_bytes) else True).
Proof.
  split; [done|]. assert (bytes_ok long_bytes) as Hb by (refine (bool_decide_unpack _ _); exact Logic.I).
  assert (no_run (data_bits long_bytes)) as Hn by (apply run_check_ok; vm_compute; reflexivity).
  split; (case_if; [|done]).
  - unfold parse. rewrite (stuck_long fuel ltac:(lia) calloc_ctx (ngx_rtmp_bit_init_reader long_bytes) [true]);
      [done|apply (good_init _ Hb Hn)|done|vm_compute; reflexivity].
  - destruct (parse_total _ calloc_ctx long_bytes (total_avc fuel ltac:(lia)) Hb Hn) as (c' & -> & _).
    now eexists.
Qed.

(** The message [bytes] is the configuration [a] of a picture of [said], and the parser
    takes it for one of [heard]. *)
Definition misread (a : avc_config) (bytes : list Z) (said heard : Z * Z) : Prop :=
  data_bits bytes = encode_avc a /\
  take (length (encode_sps (cfg_sps a))) (data_bits (cfg_bytes a)) = encode_sps (cfg_sps a) /\
  (luma_width (cfg_sps a), luma_height (cfg_sps a)) = said /\
  (fun c => (width (video c), height (video c))) <$> parse (ngx_rtmp_codec_parse_avc_header 9) calloc_ctx bytes = Some heard.

(** The rows of a picture in two fields are cropped by half: 1080 lines count
    as 1084. *)
Lemma interlaced_crop :
  misread (config_of 3 (baseline Order2 33 false 2) [66; 0; 40; 217; 64; 120; 4; 79; 223])
    [23; 0; 0; 0; 0; 1; 66; 0; 40; 255; 225; 0; 10; 103; 66; 0; 40; 217; 64; 120; 4; 79; 223] (1920, 1080) (1920, 1084).
Proof. split_and!; vm_compute; reflexivity. Qed.

(** The chroma format of a profile for several views is not read. *)
Lemma multiview_unknown :
  misread (config_of 3 (high 128 None) [128; 0; 40; 172; 178; 128; 240; 4; 79; 203])
    [23; 0; 0; 0; 0; 1; 128; 0; 40; 255; 225; 0; 11; 103; 128; 0; 40; 172; 178; 128; 240; 4; 79; 203] (1920, 1080) (80, 7680).
Proof. split_and!; vm_compute; reflexivity. Qed.

(** A scaling list of 16 differences is taken for what comes behind it. *)
Lemma scaling_list_unread :
  misread (config_of 3 (high 100 (Some (Some (replicate 16 0) :: replicate 7 None)))
      [100; 0; 40; 173; 255; 255; 128; 178; 128; 240; 4; 79; 203])
    [23; 0; 0; 0; 0; 1; 100; 0; 40; 255; 225; 0; 14; 103; 100; 0; 40; 173; 255; 255; 128; 178; 128; 240; 4; 79; 203]
    (1920, 1080) (16, 16).
Proof. split_and!; vm_compute; reflexivity. Qed.

(** An emulation prevention byte is read as a byte of the parameter set. *)
Lemma emulation_byte_read :
  misread (config_of 3 (baseline (Order1 false 0 2 [33554432]) 67 true 4) [66; 0; 40; 210; 208; 0; 0; 2; 0; 0; 1; 40; 15; 0; 68; 252; 191])
    [23; 0; 0; 0; 0; 1; 66; 0; 40; 255; 225; 0; 20; 103; 66; 0; 40; 210; 208; 0; 0; 3; 2; 0; 0; 3; 1; 40; 15; 0; 68; 252; 191] (1920, 1080) (32, 32).
Proof. split_and!; vm_compute; reflexivity. Qed.

(** A parameter set with another nal_ref_idc is left unread. *)
Lemma other_ref_idc_unread :
  misread (config_of 1 (baseline Order2 67 true 4) [66; 0; 40; 217; 64; 120; 2; 39; 229])
    [23; 0; 0; 0; 0; 1; 66; 0; 40; 255; 225; 0; 10; 39; 66; 0; 40; 217; 64; 120; 2; 39; 229] (1920, 1080) (0, 0).
Proof. split_and!; vm_compute; reflexivity. Qed.

(** A header without the extensions does not take back the flags of the one
    before: plain AAC after high efficiency AAC still counts as the latter. *)
Lemma sbr_stays :
  exists c, parse ngx_rtmp_codec_parse_aac_header calloc_ctx [175; 0; 43; 146; 8] = Some c /\
    aac_sbr (aac c) = 1 /\
    option_map (fun c => aac_sbr (aac c)) (parse ngx_rtmp_codec_parse_aac_header c [175; 0; 18; 16]) = Some 1 /\
    option_map (fun c => aac_sbr (aac c)) (parse ngx_rtmp_codec_parse_aac_header calloc_ctx [175; 0; 18; 16]) = Some 0.
Proof. eexists. split_and!; vm_compute; reflexivity. Qed.

End Codec.
