(* ===== verification/Meta.v ===== *)
(** * Stream metadata (src/src/rtmp/ngx_rtmp_codec_module.c)

    The handler of "@setDataFrame" and "onMetaData": the metadata of a
    published stream is parsed into the codec context (Codec.v), and a metadata
    message for players that come later is kept in shared buffers - written
    anew from the context, or a copy of what was received.

    A context is allocated before it is used, so that none of the functions gets
    NULL.  [None] is an access the reader must not make (Amf.v), or the conversion of
    a number to an unsigned integer that cannot hold it, whose result C leaves
    open. *)

From Stdlib Require Import ZArith Lia.
From stdpp Require Import base numbers list strings gmap.
From S2P Require Import Prelude Buf Double Chunk Shared Queue Amf Receive Send AmfSend Codec.

Module Meta.

Import Shared.
Import Queue.
Import Codec.

Definition NGX_RTMP_CODEC_META_OFF : Z := 0.
Definition NGX_RTMP_CODEC_META_ON : Z := 1.
Definition NGX_RTMP_CODEC_META_COPY : Z := 2.
Definition NGX_RTMP_AUDIO_UNCOMPRESSED : Z := 16.

(** The static variable [version] and the result are the same. *)
Definition ngx_rtmp_codec_get_next_version (version : Z) : Z :=
  let v := u64 (version + 1) in
  if v =? 0 then u64 (v + 1) else v.

Definition set_meta (l : option loc) : ngx_rtmp_codec_ctx_t -> ngx_rtmp_codec_ctx_t :=
  on_chains (fun k => Chains (avc_header k) (aac_header k) l (meta_version k)).
Definition set_meta_version (v : Z) : ngx_rtmp_codec_ctx_t -> ngx_rtmp_codec_ctx_t :=
  on_chains (fun k => Chains (avc_header k) (aac_header k) (meta k) v).

(* ------------------------------------------------------------------ *)
(** ** Writing metadata *)

(** The static strings and variables, the variables set from the context. *)
Definition out_vars (c : ngx_rtmp_codec_ctx_t) : Amf.memory :=
  let num n := Double.double_bytes (Double.double_of_uint n) in
  <[0%nat := AmfSend.c_str (str "onMetaData")]>
  (<[1%nat := AmfSend.c_str (str "lmss(www.ksyun.com)")]>
  (<[2%nat := num (width (video c))]>
  (<[3%nat := num (height (video c))]>
  (<[4%nat := num (duration (info c))]>
  (<[5%nat := num (frame_rate (info c))]>
  (<[6%nat := num (video_data_rate (info c))]>
  (<[7%nat := num (video_codec_id (video c))]>
  (<[8%nat := num (audio_data_rate (info c))]>
  (<[9%nat := num (audio_codec_id (audio c))]>
  (<[10%nat := profile (info c)]>
  {[11%nat := level (info c)]})))))))))).

Definition number (name : string) (a : nat) : Amf.ngx_rtmp_amf_elt_t :=
  Amf.Elt Amf.NGX_RTMP_AMF_NUMBER (str name) (Amf.DMem a) 0.
Definition text (name : string) (a : nat) (len : Z) : Amf.ngx_rtmp_amf_elt_t :=
  Amf.Elt Amf.NGX_RTMP_AMF_STRING (str name) (Amf.DMem a) len.

Definition out_inf : list Amf.ngx_rtmp_amf_elt_t :=
  [text "Server" 1 0; number "width" 2; number "height" 3; number "displayWidth" 2;
   number "displayHeight" 3; number "duration" 4; number "framerate" 5; number "fps" 5;
   number "videodatarate" 6; number "videocodecid" 7; number "audiodatarate" 8;
   number "audiocodecid" 9; text "profile" 10 32; text "level" 11 32].
Definition out_elts : list Amf.ngx_rtmp_amf_elt_t :=
  [text EmptyString 0 0;
   Amf.Elt Amf.NGX_RTMP_AMF_OBJECT [] (Amf.DElts out_inf) (Z.of_nat (length out_inf))].

Section Conf.
Context (cscf : Chunk.ngx_rtmp_core_srv_conf_t).

Definition meta_hdr (timestamp : Z) : Chunk.ngx_rtmp_header_t :=
  Chunk.Hdr AmfSend.NGX_RTMP_CSID_AMF timestamp 0 Receive.NGX_RTMP_MSG_AMF_META AmfSend.NGX_RTMP_MSID.

Definition ngx_rtmp_codec_prepare_meta (p : pool) (c : ngx_rtmp_codec_ctx_t) (version timestamp : Z)
  : option (ngx_rc * pool * ngx_rtmp_codec_ctx_t * Z) :=
  l ← meta (chains c);
  p ← Send.prepare_chain cscf p (meta_hdr timestamp) None l;
  let v := ngx_rtmp_codec_get_next_version version in
  Some (NGX_OK, p, set_meta_version v c, v).

Definition ngx_rtmp_codec_reconstruct_meta (p : pool) (c : ngx_rtmp_codec_ctx_t) (version : Z)
  : option (ngx_rc * pool * ngx_rtmp_codec_ctx_t * Z) :=
  p ← free_opt p (meta (chains c));
  let c := set_meta None c in
  '(rc, p, first, _) ← AmfSend.ngx_rtmp_append_amf p (Some (meta (chains c))) None (out_vars c) out_elts;
  let c := set_meta (mjoin first) c in
  match rc, meta (chains c) with
  | NGX_OK, Some _ => ngx_rtmp_codec_prepare_meta p c version 0
  | _, _ => Some (NGX_ERROR, p, c, version)
  end.

Definition ngx_rtmp_codec_copy_meta (p : pool) (c : ngx_rtmp_codec_ctx_t) (version : Z)
    (h : Chunk.ngx_rtmp_header_t) (chain : list (list Z))
  : option (ngx_rc * pool * ngx_rtmp_codec_ctx_t * Z) :=
  p ← free_opt p (meta (chains c));
  '(p, l) ← ngx_rtmp_append_shared_bufs p None chain;
  let c := set_meta l c in
  match l with
  | Some _ => ngx_rtmp_codec_prepare_meta p c version (Chunk.timestamp h)
  | None => Some (NGX_ERROR, p, c, version)
  end.

(* ------------------------------------------------------------------ *)
(** ** Reading metadata *)

(** [-1] as a double. *)
Definition minus_one : Z := 0xbff0000000000000.
Definition is_zero (w : Z) : bool := (w =? 0) || (w =? 2 ^ 63).

(** The static struct [v] after [ngx_memzero] and the mark for the audio codec. *)
Definition in_vars : Amf.memory :=
  let num := Double.double_bytes 0 in
  <[0%nat := num]> (<[1%nat := num]> (<[2%nat := num]> (<[3%nat := num]> (<[4%nat := num]>
  (<[5%nat := num]> (<[6%nat := replicate 32 0]> (<[7%nat := num]>
  (<[8%nat := Double.double_bytes minus_one]> (<[9%nat := replicate 32 0]>
  (<[10%nat := replicate 32 0]> {[11%nat := replicate 32 0]})))))))))).

Definition codec_id (name : string) (n s : nat) : Amf.ngx_rtmp_amf_elt_t :=
  Amf.Elt Amf.NGX_RTMP_AMF_VARIANT (str name) (Amf.DElts [number EmptyString n; text EmptyString s 32]) 2.

Definition in_inf : list Amf.ngx_rtmp_amf_elt_t :=
  [number "width" 0; number "height" 1; number "duration" 2; number "framerate" 3; number "fps" 3;
   number "videodatarate" 4; codec_id "videocodecid" 5 6; number "audiodatarate" 7;
   codec_id "audiocodecid" 8 9; text "profile" 10 32; text "level" 11 32].
Definition in_elts : list Amf.ngx_rtmp_amf_elt_t :=
  [Amf.Elt Amf.NGX_RTMP_AMF_STRING [] Amf.DNull 0;
   Amf.Elt Amf.NGX_RTMP_AMF_OBJECT [] (Amf.DElts in_inf) (Z.of_nat (length in_inf))].

(** The members of [v] in the context. *)
Definition store_info (m : Amf.memory) (c : ngx_rtmp_codec_ctx_t) : option ngx_rtmp_codec_ctx_t :=
  let dbl (a : Amf.addr) := d ← m !! a; Some (le_val d) in
  let num (a : Amf.addr) := w ← dbl a; Double.uint_of_double w in
  w ← num 0%nat; h ← num 1%nat; dur ← num 2%nat; fr ← num 3%nat; vdr ← num 4%nat;
  vid ← num 5%nat; adr ← num 7%nat;
  a ← dbl 8%nat;
  aid ← (if a =? minus_one then Some 0
         else if is_zero a then Some NGX_RTMP_AUDIO_UNCOMPRESSED
         else Double.uint_of_double a);
  prof ← m !! (10%nat : Amf.addr); lev ← m !! (11%nat : Amf.addr);
  Some (Ctx (aac c) (avc c)
    (Audio aid (sample_rate (audio c)) (sample_size (audio c)) (audio_channels (audio c)))
    (Video vid w h) (chains c) (Info dur fr vdr adr prof lev)).

(** The elements without the first when no string is in front. *)
Definition used_elts (chain : list (list Z)) : list (option Amf.ngx_rtmp_amf_elt_t) :=
  let skip := match Receive.in_buf0 chain with
              | x :: _ => negb (x =? Amf.NGX_RTMP_AMF_STRING)
              | [] => true
              end in
  map Some (if skip : bool then drop 1 in_elts else in_elts).

(** Enough for any chain, see [amf_read_safe]. *)
Definition read_fuel (chain : list (list Z)) : nat :=
  4 * length (concat chain) + Amf.weights_opt (used_elts chain) + 1.

Definition read_meta (chain : list (list Z)) : option (Amf.result * Amf.state) :=
  Receive.ngx_rtmp_receive_amf (read_fuel chain) in_vars chain (used_elts chain).

Definition ngx_rtmp_codec_meta_data (conf : Z) (p : pool) (ctx : option ngx_rtmp_codec_ctx_t)
    (version : Z) (h : Chunk.ngx_rtmp_header_t) (chain : list (list Z))
  : option (ngx_rc * pool * ngx_rtmp_codec_ctx_t * Z) :=
  let c := ctx_or_new ctx in
  match read_meta chain with
  | Some (Amf.Ret NGX_OK, s) =>
      c ← store_info (Amf.mem s) c;
      if conf =? NGX_RTMP_CODEC_META_ON then ngx_rtmp_codec_reconstruct_meta p c version
      else if conf =? NGX_RTMP_CODEC_META_COPY then ngx_rtmp_codec_copy_meta p c version h chain
      else Some (NGX_OK, p, c, version)
  | Some (Amf.Ret _, _) => Some (NGX_OK, p, c, version)
  | _ => None
  end.

End Conf.

(* ------------------------------------------------------------------ *)
(** ** What is written *)

(** The values of the message. *)
Definition num_val (n : Z) : Amf.val := Amf.VNum (be_bytes 8 (Double.double_of_uint n)).
Definition meta_props (w h du fr vdr vid adr aid prof lev : Amf.val) : list (list Z * Amf.val) :=
  [(str "Server", Amf.VStr (str "lmss(www.ksyun.com)")); (str "width", w); (str "height", h);
   (str "displayWidth", w); (str "displayHeight", h); (str "duration", du); (str "framerate", fr);
   (str "fps", fr); (str "videodatarate", vdr); (str "videocodecid", vid);
   (str "audiodatarate", adr); (str "audiocodecid", aid); (str "profile", prof); (str "level", lev)].
Definition ctx_props (c : ngx_rtmp_codec_ctx_t) : list (list Z * Amf.val) :=
  meta_props (num_val (width (video c))) (num_val (height (video c))) (num_val (duration (info c)))
    (num_val (frame_rate (info c))) (num_val (video_data_rate (info c)))
    (num_val (video_codec_id (video c))) (num_val (audio_data_rate (info c)))
    (num_val (audio_codec_id (audio c))) (Amf.VStr (profile (info c))) (Amf.VStr (level (info c))).

(** The arrays [profile] and [level] of the context. *)
Definition info_ok (c : ngx_rtmp_codec_ctx_t) : Prop :=
  (length (profile (info c)) = 32%nat /\ bytes_ok (profile (info c))) /\
  length (level (info c)) = 32%nat /\ bytes_ok (level (info c)).

Lemma denote_array (m : Amf.memory) (a : Amf.addr) s nm : m !! a = Some s -> length s = 32%nat ->
  Amf.denote m (text nm a 32) = Some (Amf.VStr s).
Proof.
  intros E Hl. unfold text. cbn [Amf.denote].
  change (Amf.NGX_RTMP_AMF_STRING =? Amf.NGX_RTMP_AMF_NUMBER) with false.
  change (Amf.NGX_RTMP_AMF_STRING =? Amf.NGX_RTMP_AMF_BOOLEAN) with false. cbv iota.
  rewrite Z.eqb_refl. change (Amf.string_len m (Amf.DMem a) 32) with (Some 32). rewrite some_bind.
  unfold Amf.load. rewrite E, some_bind, Hl. change (Z.to_nat 32 <=? 32)%nat with true. cbv iota.
  rewrite some_bind, take_ge by (change (Z.to_nat 32) with 32%nat; lia). done.
Qed.

Lemma denote_number (m : Amf.memory) (a : Amf.addr) n nm : m !! a = Some (Double.double_bytes (Double.double_of_uint n)) ->
  Amf.denote m (number nm a) = Some (num_val n).
Proof. apply AmfSend.denote_double. Qed.

Lemma out_denotes c : info_ok c ->
  Amf.denote_items (Amf.denote (out_vars c)) out_elts =
    Some [Amf.VStr (str "onMetaData"); Amf.VObj (ctx_props c)].
Proof.
  intros [[Hp _] [Hl _]]. unfold out_elts, Amf.denote_items, text at 1.
  rewrite (AmfSend.denote_text _ 0%nat (str "onMetaData")), some_bind by (done || now apply AmfSend.str_text).
  rewrite AmfSend.denote_obj. unfold out_inf, text at 1. cbn [Amf.denote_props].
  rewrite (AmfSend.denote_text _ 1%nat (str "lmss(www.ksyun.com)")) by (done || now apply AmfSend.str_text).
  rewrite !(denote_number (out_vars c) 2%nat (width (video c))) by done.
  rewrite !(denote_number (out_vars c) 3%nat (height (video c))) by done.
  rewrite (denote_number (out_vars c) 4%nat (duration (info c))) by done.
  rewrite !(denote_number (out_vars c) 5%nat (frame_rate (info c))) by done.
  rewrite (denote_number (out_vars c) 6%nat (video_data_rate (info c))) by done.
  rewrite (denote_number (out_vars c) 7%nat (video_codec_id (video c))) by done.
  rewrite (denote_number (out_vars c) 8%nat (audio_data_rate (info c))) by done.
  rewrite (denote_number (out_vars c) 9%nat (audio_codec_id (audio c))) by done.
  rewrite (denote_array _ 10%nat (profile (info c))), (denote_array _ 11%nat (level (info c))) by done.
  reflexivity.
Qed.

Lemma meta_vars_ok c : info_ok c -> forall a d, out_vars c !! a = Some d -> bytes_ok d.
Proof.
  intros [[_ Hp] [_ Hl]]. apply Amf.vars_ok. unfold out_vars.
  repeat apply map_Forall_insert_2; try apply Double.double_bytes_ok; try done;
    refine (bool_decide_unpack _ _); exact Logic.I.
Qed.

(* ------------------------------------------------------------------ *)
(** ** What is read *)

Definition read_vars (w h du fr vdr vid adr aid prof lev : list Z) : Amf.memory :=
  <[0%nat := reverse w]> (<[1%nat := reverse h]> (<[2%nat := reverse du]> (<[3%nat := reverse fr]>
  (<[4%nat := reverse vdr]> (<[5%nat := reverse vid]> (<[6%nat := replicate 32 0]>
  (<[7%nat := reverse adr]> (<[8%nat := reverse aid]> (<[9%nat := replicate 32 0]>
  (<[10%nat := take 31 prof ++ [0]]> {[11%nat := take 31 lev ++ [0]]})))))))))).

Lemma list8 (l : list Z) : length l = 8%nat ->
  exists a b c d e f g h, l = [a; b; c; d; e; f; g; h].
Proof. do 9 (destruct l as [|? l]; try done). intros _. eauto 10. Qed.

Lemma assign_meta w h du fr vdr vid adr aid prof lev :
  Forall (fun d => length d = 8%nat) [w; h; du; fr; vdr; vid; adr; aid] ->
  length prof = 32%nat -> length lev = 32%nat ->
  Amf.assign_all in_vars (map Some (drop 1 in_elts))
    [Amf.VObj (meta_props (Amf.VNum w) (Amf.VNum h) (Amf.VNum du) (Amf.VNum fr) (Amf.VNum vdr)
       (Amf.VNum vid) (Amf.VNum adr) (Amf.VNum aid) (Amf.VStr prof) (Amf.VStr lev))] =
  Some (read_vars w h du fr vdr vid adr aid prof lev).
Proof.
  intros H Hp Hl. rewrite !Forall_cons in H. destruct H as (H1 & H2 & H3 & H4 & H5 & H6 & H7 & H8 & _).
  apply list8 in H1 as (? & ? & ? & ? & ? & ? & ? & ? & ->).
  apply list8 in H2 as (? & ? & ? & ? & ? & ? & ? & ? & ->).
  apply list8 in H3 as (? & ? & ? & ? & ? & ? & ? & ? & ->).
  apply list8 in H4 as (? & ? & ? & ? & ? & ? & ? & ? & ->).
  apply list8 in H5 as (? & ? & ? & ? & ? & ? & ? & ? & ->).
  apply list8 in H6 as (? & ? & ? & ? & ? & ? & ? & ? & ->).
  apply list8 in H7 as (? & ? & ? & ? & ? & ? & ? & ? & ->).
  apply list8 in H8 as (? & ? & ? & ? & ? & ? & ? & ? & ->).
  do 32 (destruct prof as [|? prof]; [discriminate Hp|]). destruct prof; [|discriminate Hp].
  do 32 (destruct lev as [|? lev]; [discriminate Hl|]). destruct lev; [|discriminate Hl].
  vm_compute. reflexivity.
Qed.

(** What the next server knows of the stream: the numbers, and the strings cut
    to 31 bytes; an audio codec of 0 has become "uncompressed". *)
Definition relayed (c c2 : ngx_rtmp_codec_ctx_t) : ngx_rtmp_codec_ctx_t :=
  Ctx (aac c2) (avc c2)
    (Audio (if audio_codec_id (audio c) =? 0 then NGX_RTMP_AUDIO_UNCOMPRESSED
            else audio_codec_id (audio c))
       (sample_rate (audio c2)) (sample_size (audio c2)) (audio_channels (audio c2)))
    (video c) (chains c2)
    (Info (duration (info c)) (frame_rate (info c)) (video_data_rate (info c))
       (audio_data_rate (info c))
       (take 31 (profile (info c)) ++ [0]) (take 31 (level (info c)) ++ [0])).

(** Numbers a double can hold. *)
Definition numbers_ok (c : ngx_rtmp_codec_ctx_t) : Prop :=
  Forall (fun n => 0 <= n < 2 ^ 53)
    [width (video c); height (video c); duration (info c); frame_rate (info c);
     video_data_rate (info c); video_codec_id (video c); audio_data_rate (info c);
     audio_codec_id (audio c)].

Lemma double_read n : 0 <= n < 2 ^ 53 ->
  le_val (reverse (be_bytes 8 (Double.double_of_uint n))) = Double.double_of_uint n.
Proof.
  intros Hn. unfold le_val. rewrite reverse_involutive, be_val_be_bytes.
  change (8 * Z.of_nat 8) with 64. apply Z.mod_small.
  destruct (decide (n = 0)) as [-> |H0]; [rewrite Double.double_of_zero; lia|].
  pose proof (Double.double_range n ltac:(lia)). lia.
Qed.

Lemma audio_id_read n : 0 <= n < 2 ^ 53 ->
  let a := Double.double_of_uint n in
  (if a =? minus_one then Some 0
   else if is_zero a then Some NGX_RTMP_AUDIO_UNCOMPRESSED
   else Double.uint_of_double a) =
  Some (if n =? 0 then NGX_RTMP_AUDIO_UNCOMPRESSED else n).
Proof.
  intros Hn a. destruct (decide (n = 0)) as [-> |H0]; [reflexivity|].
  pose proof (Double.double_range n ltac:(lia)) as H. fold a in H.
  destruct (a =? minus_one) eqn:E1; [unfold minus_one in E1; lia|].
  assert (is_zero a = false) as -> by (unfold is_zero; apply orb_false_iff; lia).
  unfold a. rewrite Double.uint_double by lia. now rewrite (proj2 (Z.eqb_neq n 0) H0).
Qed.

Definition ctx_vars (c : ngx_rtmp_codec_ctx_t) : Amf.memory :=
  let d n := be_bytes 8 (Double.double_of_uint n) in
  read_vars (d (width (video c))) (d (height (video c))) (d (duration (info c)))
    (d (frame_rate (info c))) (d (video_data_rate (info c))) (d (video_codec_id (video c)))
    (d (audio_data_rate (info c))) (d (audio_codec_id (audio c))) (profile (info c)) (level (info c)).

Lemma store_relayed c c2 : numbers_ok c -> store_info (ctx_vars c) c2 = Some (relayed c c2).
Proof.
  unfold numbers_ok. rewrite !Forall_cons. intros (H1 & H2 & H3 & H4 & H5 & H6 & H7 & H8 & _).
  unfold store_info. cbv zeta.
  assert (forall (a : Amf.addr) n, ctx_vars c !! a = Some (reverse (be_bytes 8 (Double.double_of_uint n))) ->
    0 <= n < 2 ^ 53 -> (w ← (d ← ctx_vars c !! a; Some (le_val d)); Double.uint_of_double w) = Some n) as Hnum.
  { intros a n -> Hn. rewrite !some_bind, double_read, Double.uint_double by done. done. }
  rewrite (Hnum 0%nat (width (video c)) eq_refl H1), some_bind.
  rewrite (Hnum 1%nat (height (video c)) eq_refl H2), some_bind.
  rewrite (Hnum 2%nat (duration (info c)) eq_refl H3), some_bind.
  rewrite (Hnum 3%nat (frame_rate (info c)) eq_refl H4), some_bind.
  rewrite (Hnum 4%nat (video_data_rate (info c)) eq_refl H5), some_bind.
  rewrite (Hnum 5%nat (video_codec_id (video c)) eq_refl H6), some_bind.
  rewrite (Hnum 7%nat (audio_data_rate (info c)) eq_refl H7), some_bind.
  change (ctx_vars c !! (8%nat : Amf.addr)) with
    (Some (reverse (be_bytes 8 (Double.double_of_uint (audio_codec_id (audio c)))))).
  rewrite !some_bind, double_read, audio_id_read, some_bind by done.
  change (ctx_vars c !! (10%nat : Amf.addr)) with (Some (take 31 (profile (info c)) ++ [0])).
  change (ctx_vars c !! (11%nat : Amf.addr)) with (Some (take 31 (level (info c)) ++ [0])).
  rewrite !some_bind. unfold relayed. now destruct (video c).
Qed.

(** The arguments of the message, as the handler reads them. *)
Lemma meta_read c chain : info_ok c -> Amf.val_ok (Amf.VObj (ctx_props c)) ->
  concat chain = Amf.encode (Amf.VObj (ctx_props c)) ->
  exists s, read_meta chain = Some (Amf.Ret NGX_OK, s) /\ Amf.mem s = ctx_vars c.
Proof.
  intros [[Hp _] [Hl _]] Hv Hc.
  assert (used_elts chain = map Some (drop 1 in_elts)) as Hu.
  { unfold used_elts. destruct chain as [|[|x b] r]; [done|done|]. cbn [Receive.in_buf0].
    rewrite Amf.encode_obj in Hc. cbn [concat Datatypes.app] in Hc. injection Hc as -> _. reflexivity. }
  unfold read_meta, read_fuel. rewrite Hu.
  apply (AmfSend.chain_read [Amf.VObj (ctx_props c)]).
  - now constructor.
  - cbn [map concat]. now rewrite app_nil_r.
  - repeat constructor.
  - reflexivity.
  - unfold ctx_vars, ctx_props, num_val. apply assign_meta; [|done|done].
    repeat (constructor; [apply length_be_bytes|]). constructor.
  - cbn [map concat]. rewrite app_nil_r, Hc. lia.
Qed.

(* ------------------------------------------------------------------ *)
(** ** The message that is kept *)

Lemma refs_meta c l refs : ctx_refs (Some (set_meta l c)) ++ refs ≡ₚ
  opt_list l ++ ctx_refs (Some (set_meta None c)) ++ refs.
Proof.
  cbn [ctx_refs set_meta on_chains chains avc_header aac_header meta opt_list].
  rewrite app_nil_r, !app_assoc. f_equiv. rewrite <- !app_assoc. rewrite (app_assoc _ _ (opt_list l)).
  apply Permutation_app_comm.
Qed.

Lemma refs_meta_self c refs : ctx_refs (Some c) ++ refs ≡ₚ
  opt_list (meta (chains c)) ++ ctx_refs (Some (set_meta None c)) ++ refs.
Proof. rewrite <- (refs_meta c (meta (chains c))). cbn. now destruct (chains c). Qed.

Section Kept.
Context (cscf : Chunk.ngx_rtmp_core_srv_conf_t).
Hypothesis streams : AmfSend.NGX_RTMP_CSID_AMF < Chunk.max_streams cscf.
Hypothesis fix_same : Chunk.play_time_fix cscf = Chunk.publish_time_fix cscf.

Lemma meta_hdr_ok ts : 0 <= ts < 2 ^ 32 -> header_ok cscf (meta_hdr ts).
Proof.
  intros Ht. unfold AmfSend.NGX_RTMP_CSID_AMF in *.
  split; cbn; unfold AmfSend.NGX_RTMP_CSID_AMF, AmfSend.NGX_RTMP_MSID, Receive.NGX_RTMP_MSG_AMF_META; lia.
Qed.

(** The message of a context and the references of the context. *)
Record holds_meta (p p' : pool) (live' : list (list loc)) (c c' : ngx_rtmp_codec_ctx_t)
    (held : list loc) (ts : Z) (x : list Z) : Prop := {
  hm_owned : owned p' live' (ctx_refs (Some c') ++ held);
  hm_kept : kept (ctx_refs (Some (set_meta None c)) ++ held) p p';
  hm_prepared : exists l ls bs, meta (chains c') = Some l /\ ls ∈ live' /\ head ls = Some l /\
    AmfSend.prepared cscf (meta_hdr ts) p' ls (chunk_size p) x bs
}.

(** The copy of a new chain that replaces the one before. *)
Lemma meta_prepared p p1 p2 live1 c held version ts ls l ds :
  owned p1 live1 (ctx_refs (Some (set_meta None c)) ++ held) -> chunk_size p1 = chunk_size p ->
  kept (ctx_refs (Some (set_meta None c)) ++ held) p p1 ->
  wf p2 (ls :: live1) -> same_chains p1 p2 live1 -> head ls = Some l ->
  view p2 ls = map new_link ds -> Chunk.chunked (Z.of_nat (chunk_size p)) ds ->
  Z.of_nat (length (concat ds)) < 2 ^ 24 -> 0 <= ts < 2 ^ 32 ->
  let v := ngx_rtmp_codec_get_next_version version in
  let c' := set_meta_version v (set_meta (Some l) c) in
  exists p', ngx_rtmp_codec_prepare_meta cscf p2 (set_meta (Some l) c) version ts =
      Some (NGX_OK, p', c', v) /\ holds_meta p p' (ls :: live1) c c' held ts (concat ds).
Proof.
  intros Ho Hk Hkept Hw Hs Hh Hv Hch Hn Hts v c'.
  destruct (AmfSend.chain_prepared cscf (meta_hdr ts) (meta_hdr_ok ts Hts) fix_same p2 live1 ls l ds
    (chunk_size p) Hw Hh Hv Hch Hn) as (p' & k & bs & E & Hw' & Hs' & Ek & Hr & Hp).
  unfold ngx_rtmp_codec_prepare_meta.
  change (meta (chains (set_meta (Some l) c))) with (Some l). rewrite some_bind, E, some_bind.
  exists p'. split; [done|].
  destruct (new_owned p1 p' live1 _ ls l k Ho Hw' (same_chains_trans _ _ _ _ Hs Hs') Hh Ek Hr) as [Ho' Hb].
  split.
  - change (ctx_refs (Some c')) with (ctx_refs (Some (set_meta (Some l) c))).
    now rewrite (refs_meta c (Some l)).
  - intros j Hj. rewrite Hb by done. now apply Hkept.
  - exists l, ls, bs. split; [done|]. split; [apply list_elem_of_here|]. done.
Qed.

(** The first step of both: the message before is given up. *)
Lemma meta_freed p live c held : owned p live (ctx_refs (Some c) ++ held) ->
  exists p1 live1, free_opt p (meta (chains c)) = Some p1 /\
    owned p1 live1 (ctx_refs (Some (set_meta None c)) ++ held) /\ chunk_size p1 = chunk_size p /\
    kept (ctx_refs (Some (set_meta None c)) ++ held) p p1.
Proof. rewrite (refs_meta_self c). apply free_opt_owned. Qed.

Definition meta_vals (c : ngx_rtmp_codec_ctx_t) : list Amf.val :=
  [Amf.VStr (str "onMetaData"); Amf.VObj (ctx_props c)].

Lemma meta_length c : info_ok c -> (length (concat (map Amf.encode (meta_vals c))) <= 1000)%nat.
Proof.
  intros [[Hp _] [Hl _]]. unfold meta_vals, ctx_props, num_val.
  repeat match goal with |- context [be_bytes 8 ?x] =>
    destruct (list8 (be_bytes 8 x) (length_be_bytes _ _)) as (? & ? & ? & ? & ? & ? & ? & ? & ->) end.
  generalize dependent (profile (info c)). generalize dependent (level (info c)). intros lev Hl prof Hp.
  do 32 (destruct prof as [|? prof]; [discriminate Hp|]). destruct prof; [|discriminate Hp].
  do 32 (destruct lev as [|? lev]; [discriminate Hl|]). destruct lev; [|discriminate Hl].
  vm_compute. lia.
Qed.

Lemma reconstruct_spec p live c held version :
  owned p live (ctx_refs (Some c) ++ held) -> (0 < chunk_size p)%nat -> info_ok c ->
  let v := ngx_rtmp_codec_get_next_version version in
  exists p' live' c', ngx_rtmp_codec_reconstruct_meta cscf p c version = Some (NGX_OK, p', c', v) /\
    set_meta None c' = set_meta None (set_meta_version v c) /\
    holds_meta p p' live' c c' held 0 (concat (map Amf.encode (meta_vals c))) /\
    Forall Amf.val_ok (meta_vals c).
Proof.
  intros Ho Hk Hi v. destruct (meta_freed p live c held Ho) as (p1 & live1 & E1 & Ho1 & Hk1 & Hkept).
  unfold ngx_rtmp_codec_reconstruct_meta. rewrite E1, some_bind. cbv zeta.
  change (meta (chains (set_meta None c))) with (@None loc).
  destruct (AmfSend.amf_written (out_vars (set_meta None c)) p1 live1 out_elts (meta_vals c)
    (meta_vars_ok (set_meta None c) Hi) (owned_wf _ _ _ Ho1) ltac:(lia) (out_denotes (set_meta None c) Hi)
    ltac:(done)) as (p2 & ls & l & ds & -> & Hh & Hw & Hs & Hv & Hch & Hcat & Hval & _).
  rewrite some_bind. cbn [mjoin option_join].
  change (set_meta (Some l) (set_meta None c)) with (set_meta (Some l) c).
  change (meta (chains (set_meta (Some l) c))) with (Some l). cbv iota.
  pose proof (meta_length c Hi) as Hlen.
  destruct (meta_prepared p p1 p2 live1 c held version 0 ls l ds Ho1 Hk1 Hkept Hw Hs Hh Hv)
    as (p' & E' & Hm); [now rewrite <- Hk1|rewrite Hcat; lia|lia|].
  exists p', (ls :: live1). eexists. split; [exact E'|]. split; [done|]. rewrite Hcat in Hm. done.
Qed.

Lemma copy_spec p live c held version h chain :
  owned p live (ctx_refs (Some c) ++ held) -> (0 < chunk_size p)%nat -> chain <> [] ->
  bytes_ok (concat chain) -> Z.of_nat (length (concat chain)) < 2 ^ 24 ->
  0 <= Chunk.timestamp h < 2 ^ 32 ->
  let v := ngx_rtmp_codec_get_next_version version in
  exists p' live' c', ngx_rtmp_codec_copy_meta cscf p c version h chain = Some (NGX_OK, p', c', v) /\
    set_meta None c' = set_meta None (set_meta_version v c) /\
    holds_meta p p' live' c c' held (Chunk.timestamp h) (concat chain).
Proof.
  intros Ho Hk Hne Hb Hn Hts v. destruct (meta_freed p live c held Ho) as (p1 & live1 & E1 & Ho1 & Hk1 & Hkept).
  unfold ngx_rtmp_codec_copy_meta. rewrite E1, some_bind.
  destruct (append_new live1 p1 chain (owned_wf _ _ _ Ho1) ltac:(lia) Hne Hb) as (p2 & l & ls & -> & Hw & Hs & _ & Hv).
  rewrite some_bind. cbv zeta.
  destruct (meta_prepared p p1 p2 live1 c held version (Chunk.timestamp h) (l :: ls) l _ Ho1 Hk1 Hkept Hw Hs
    eq_refl Hv) as (p' & E' & Hm).
  - rewrite Hk1. now apply spilled_chunked.
  - rewrite spilled_concat by lia. exact Hn.
  - exact Hts.
  - exists p', ((l :: ls) :: live1). eexists. split; [exact E'|]. split; [done|].
    rewrite spilled_concat in Hm by lia. exact Hm.
Qed.

(* ------------------------------------------------------------------ *)
(** ** Any metadata *)

Definition in_size (a : Amf.addr) : option nat := length <$> in_vars !! a.

Lemma number_safe nm a : in_size a = Some 8%nat -> Amf.safe in_size (number nm a).
Proof.
  intros E. split; [reflexivity|]. split; [reflexivity|]. exists 8%nat. split; [exact E|].
  change (8 <= 8)%nat. lia.
Qed.

Lemma text_safe nm a : in_size a = Some 32%nat -> Amf.safe in_size (text nm a 32).
Proof.
  intros E. split; [reflexivity|]. split; [reflexivity|]. exists 32%nat. split; [exact E|].
  change (1 <= 32 <= Z.of_nat 32). lia.
Qed.

Lemma elts_safe chain : Forall (Amf.safe_opt in_size) (used_elts chain).
Proof.
  assert (forall nm n t, in_size n = Some 8%nat -> in_size t = Some 32%nat ->
    Amf.safe in_size (codec_id nm n t)) as Hid.
  { intros nm n t En Et. split; [reflexivity|]. split; [reflexivity|].
    split; [now apply number_safe|]. split; [now apply text_safe|exact Logic.I]. }
  assert (Amf.safe in_size (Amf.Elt Amf.NGX_RTMP_AMF_OBJECT [] (Amf.DElts in_inf) (Z.of_nat (length in_inf)))) as Ho.
  { split; [reflexivity|]. split; [reflexivity|]. cbn [in_inf].
    repeat (split; [first [apply Hid|apply number_safe|apply text_safe]; reflexivity|]). exact Logic.I. }
  assert (Forall (Amf.safe_opt in_size) (map Some in_elts)) as Hall
    by (constructor; [exact Logic.I|]; constructor; [exact Ho|constructor]).
  unfold used_elts. destruct (Receive.in_buf0 chain) as [|x b]; [now apply Forall_cons in Hall|].
  destruct (x =? Amf.NGX_RTMP_AMF_STRING); [exact Hall|now apply Forall_cons in Hall].
Qed.

(** Reading always ends, inside the variables. *)
Lemma read_meta_total chain : bytes_ok (concat chain) ->
  exists r s, read_meta chain = Some (r, s) /\ r <> Amf.Overrun /\ Amf.vars_fit in_size (Amf.mem s).
Proof.
  intros Hb. unfold read_meta, Receive.ngx_rtmp_receive_amf.
  set (s0 := Amf.State (Amf.Ctx chain 0) in_vars ∅).
  assert (Amf.inv in_size s0) as Hi.
  { split; [destruct chain; cbn; lia|]. split; [unfold Amf.rest; cbn; now rewrite drop_0|].
    split; [reflexivity|]. apply Amf.vars_ok. refine (bool_decide_unpack _ _). exact Logic.I. }
  assert (Amf.left s0 = length (concat chain)) as Hl by (unfold Amf.left, Amf.rest; cbn; now rewrite drop_0).
  destruct (proj1 (Amf.totals_hold in_size (read_fuel chain)) s0 (used_elts chain) Hi)
    as ([r s] & E & (Hi' & _ & Hr) & _); [unfold read_fuel; lia|].
  exists r, s. split; [exact E|]. split; [apply Hr, elts_safe|apply Hi'].
Qed.

Lemma store_info_ok (m : Amf.memory) c c' : Amf.vars_fit in_size m -> store_info m c = Some c' ->
  chains c' = chains c /\ info_ok c'.
Proof.
  intros [Hs Hb]. unfold store_info.
  repeat match goal with |- (?x ≫= _) = Some _ -> _ =>
    let E := fresh "E" in destruct x eqn:E; [rewrite some_bind|done] end.
  intros [= <-]. split; [done|]. cbn [info_ok info profile level].
  assert (forall (a : Amf.addr) (d : list Z), m !! a = Some d -> in_size a = Some 32%nat ->
    length d = 32%nat /\ bytes_ok d) as H.
  { intros a d Ed Ea. specialize (Hs a). rewrite Ed, Ea in Hs. injection Hs as Hs. eauto. }
  split; (eapply H; [eassumption|reflexivity]).
Qed.

Lemma holds_others p p' live' c c' held ts x : holds_meta p p' live' c c' held ts x ->
  exists live', owned p' live' (ctx_refs (Some c') ++ held).
Proof. intros []. eauto. Qed.

Lemma meta_data_spec conf p ctx version h chain live held :
  owned p live (ctx_refs ctx ++ held) -> (0 < chunk_size p)%nat -> info_ok (ctx_or_new ctx) ->
  chain <> [] -> bytes_ok (concat chain) -> Z.of_nat (length (concat chain)) < 2 ^ 24 ->
  0 <= Chunk.timestamp h < 2 ^ 32 ->
  exists r s, read_meta chain = Some (r, s) /\ r <> Amf.Overrun /\
    forall rc, r = Amf.Ret rc ->
      (rc = NGX_OK -> is_Some (store_info (Amf.mem s) (ctx_or_new ctx))) ->
      exists p' live' c' v',
        ngx_rtmp_codec_meta_data cscf conf p ctx version h chain = Some (NGX_OK, p', c', v') /\
        owned p' live' (ctx_refs (Some c') ++ held) /\ info_ok c' /\
        kept (ctx_refs (Some (set_meta None (ctx_or_new ctx))) ++ held) p p'.
Proof.
  intros Ho Hk Hi Hne Hb Hn Hts. destruct (read_meta_total chain Hb) as (r & s & E & Hr & Hfit).
  exists r, s. split; [done|]. split; [done|]. intros rc -> Hst. unfold ngx_rtmp_codec_meta_data.
  rewrite E. cbv zeta. set (c := ctx_or_new ctx) in *.
  assert (forall c1, chains c1 = chains c -> owned p live (ctx_refs (Some c1) ++ held)) as Ho1.
  { intros c1 Hc1. now rewrite (ctx_refs_new ctx c1 Hc1). }
  assert (forall c1, info_ok c1 -> chains c1 = chains c -> exists p' live' c' v',
    Some (NGX_OK, p, c1, version) = Some (NGX_OK, p', c', v') /\
    owned p' live' (ctx_refs (Some c') ++ held) /\ info_ok c' /\
    kept (ctx_refs (Some (set_meta None c)) ++ held) p p') as Hsame.
  { intros c1 Hi1 Hc1. exists p, live, c1, version. split; [done|]. split; [now apply Ho1|]. split; [done|].
    apply kept_refl. }
  destruct rc; try now apply Hsame. destruct (Hst eq_refl) as [c1 E1]. rewrite E1, some_bind.
  destruct (store_info_ok _ _ _ Hfit E1) as [Hc1 Hi1].
  assert (ctx_refs (Some (set_meta None c1)) = ctx_refs (Some (set_meta None c))) as Hrefs
    by (cbn; now rewrite Hc1).
  assert (forall c', set_meta None c' = set_meta None (set_meta_version
    (ngx_rtmp_codec_get_next_version version) c1) -> info_ok c') as Hinfo.
  { intros c' Hc'. apply (f_equal info) in Hc'. unfold info_ok. cbn in Hc'. now rewrite Hc'. }
  destruct (conf =? NGX_RTMP_CODEC_META_ON); [|destruct (conf =? NGX_RTMP_CODEC_META_COPY)].
  - destruct (reconstruct_spec p live c1 held version (Ho1 c1 Hc1) Hk Hi1) as (p' & live' & c' & E' & Hc' & [Ho' Hk' _] & _).
    rewrite E', Hrefs in *. eauto 10.
  - destruct (copy_spec p live c1 held version h chain (Ho1 c1 Hc1) Hk Hne Hb Hn Hts)
      as (p' & live' & c' & E' & Hc' & [Ho' Hk' _]).
    rewrite E', Hrefs in *. eauto 10.
  - now apply Hsame.
Qed.

(** C28: metadata messages and the pool, whatever the bytes are: reading ends and
    stays inside the variables, and unless it follows a NULL pointer or a
    number is too big for an integer the message is accepted; the references
    the context holds are exactly those counted - a new metadata message
    replaces the one before - and the headers of the stream and the messages
    of anybody else keep their bytes. *)
Theorem codec_meta_holds conf p ctx version h chain live held :
  owned p live (ctx_refs ctx ++ held) -> (0 < chunk_size p)%nat -> info_ok (ctx_or_new ctx) ->
  chain <> [] -> bytes_ok (concat chain) -> Z.of_nat (length (concat chain)) < 2 ^ 24 ->
  0 <= Chunk.timestamp h < 2 ^ 32 ->
  exists r s, read_meta chain = Some (r, s) /\ r <> Amf.Overrun /\
    forall rc, r = Amf.Ret rc ->
      (rc = NGX_OK -> is_Some (store_info (Amf.mem s) (ctx_or_new ctx))) ->
      exists p' live' c' v',
        ngx_rtmp_codec_meta_data cscf conf p ctx version h chain = Some (NGX_OK, p', c', v') /\
        owned p' live' (ctx_refs (Some c') ++ held) /\ info_ok c' /\
        kept (ctx_refs (Some (set_meta None (ctx_or_new ctx))) ++ held) p p'.
Proof. apply meta_data_spec. Qed.

(* ------------------------------------------------------------------ *)
(** ** From one server to the next *)

Section Peer.
Context {B : Type} (hook : B -> Receive.call -> ngx_rc * B) (stale : nat -> Z).
Context (amf : list (list Z * Chunk.ngx_rtmp_handler_pt (Receive.modules B))).
Context (mods : Z -> list (Chunk.ngx_rtmp_handler_pt (Receive.modules B))) (depth : nat).
Hypothesis mods_amf : forall ty, ty ∈ Receive.amf_events -> mods ty = [].
Hypothesis names_ok : Receive.case_ok (map fst amf).
Abbreviation events := (Receive.events hook stale amf mods depth).

(** C16: metadata from server to server: the message written from the context of a
    stream, put on the wire, is given by a peer with the same chunk size to
    its handlers of "onMetaData"; there the same module reads it into a
    context with the same numbers (up to 2^53) and strings (up to 31 bytes).
    The one difference: an unknown audio codec arrives as "uncompressed". *)
Theorem meta_relayed p live c held version d st :
  owned p live (ctx_refs (Some c) ++ held) -> (0 < chunk_size p)%nat -> info_ok c -> numbers_ok c ->
  1000 <= Chunk.max_message cscf -> Chunk.d_chunk d = Z.of_nat (chunk_size p) ->
  Chunk.d_streams d !! 5%nat = Some (st, []) -> Chunk.st_len st = 0 -> Chunk.st_in st = [] ->
  let len := Z.of_nat (length (concat (map Amf.encode (meta_vals c)))) in
  exists p' live' c' v' l st' chain,
    ngx_rtmp_codec_reconstruct_meta cscf p c version = Some (NGX_OK, p', c', v') /\
    owned p' live' (ctx_refs (Some c') ++ held) /\ meta (chains c') = Some l /\
    (forall x rc a cs d',
      Receive.call_all (Chunk.d_app d) (full_header (meta_hdr 0) len) chain
        (Receive.named (str "onMetaData") amf) [] = (rc, a, cs) -> rc <> NGX_ERROR ->
      Chunk.dec_commands (Chunk.Dec (<[5%nat := (st', [])]> (Chunk.d_streams d)) (Chunk.d_chunk d) a) cs =
        Some d' ->
      Chunk.decode_all cscf events d (chain_bytes p' l ++ x) = Chunk.decode_all cscf events d' x) /\
    (forall cscf2 p2 ctx2 v2 h2,
      ngx_rtmp_codec_meta_data cscf2 NGX_RTMP_CODEC_META_OFF p2 ctx2 v2 h2 chain =
        Some (NGX_OK, p2, relayed c (ctx_or_new ctx2), v2)).
Proof.
  intros Ho Hk Hi Hnum Hmax Hd Hst Hl0 Hin0 len. pose proof (meta_length c Hi) as Hlen.
  assert (len < 2 ^ 24 /\ len <= Chunk.max_message cscf) as [L1 L2] by (unfold len; lia).
  destruct (reconstruct_spec p live c held version Ho Hk Hi)
    as (p' & live' & c' & E & _ & [Ho' _ (l & ls & bs & Hm & Hin & Hh & Hp)] & Hv).
  destruct (list_elem_of_split _ _ Hin) as (l1 & l2 & ->).
  assert (wf p' (ls :: l1 ++ l2)) as Hw
    by (eapply wf_perm; [apply Permutation_middle|exact (owned_wf _ _ _ Ho')]).
  assert (Forall (fun x => x <> 0) (str "onMetaData")) as Hz
    by (apply (AmfSend.str_text "onMetaData" eq_refl); reflexivity).
  destruct (AmfSend.message_arrives hook stale amf mods depth mods_amf names_ok cscf (meta_hdr 0)
    (meta_hdr_ok 0 ltac:(lia)) (or_intror eq_refl) fix_same p' (l1 ++ l2) ls l (chunk_size p)
    (str "onMetaData") [Amf.VObj (ctx_props c)] bs d st Hw Hh Hk Hp Hv Hz L1 L2 Hd Hst
    Hl0 Hin0) as (st' & chain & Hchain & Hdec).
  exists p', (l1 ++ ls :: l2), c', (ngx_rtmp_codec_get_next_version version), l, st', chain. split; [exact E|]. do 2 (split; [done|]).
  split; [exact Hdec|]. intros cscf2 p2 ctx2 v2 h2.
  apply Forall_cons in Hv as [_ Hv]. apply Forall_cons in Hv as [Hv _].
  cbn [map concat] in Hchain. rewrite app_nil_r in Hchain.
  destruct (meta_read c chain Hi Hv Hchain) as (s & Es & Hmem).
  unfold ngx_rtmp_codec_meta_data. rewrite Es. cbv zeta. now rewrite Hmem, (store_relayed c _ Hnum), some_bind.
Qed.

End Peer.

End Kept.

(* ------------------------------------------------------------------ *)
(** ** Concrete metadata *)

Definition hd_ctx : ngx_rtmp_codec_ctx_t :=
  Ctx (Aac 2 2 0 0) (Avc 100 0 40 4 4) (Audio 10 44100 2 2) (Video 7 1920 1080)
    (Chains None None None 0)
    (Info 0 25 2500 128 (str "High" ++ replicate 28 0) (replicate 32 0)).

Lemma hd_ctx_ok : info_ok hd_ctx /\ numbers_ok hd_ctx.
Proof.
  split; [|repeat constructor; cbn; lia].
  split; (split; [reflexivity|]); refine (bool_decide_unpack _ _); exact Logic.I.
Qed.

Lemma no_refs : owned (empty_pool 128) [] [].
Proof.
  split; [apply empty_pool_wf|..].
  - intros l H. now apply not_elem_of_nil in H.
  - intros ls l H. now apply not_elem_of_nil in H.
  - intros l c H. now apply not_elem_of_nil in H.
Qed.

(** A peer whose handler of "onMetaData" is this module, with a new session. *)
Definition meta_table : list (list Z * Chunk.ngx_rtmp_handler_pt (Receive.modules (option ngx_rtmp_codec_ctx_t))) :=
  [(str "onMetaData", fun a h chain =>
      match ngx_rtmp_codec_meta_data Chunk.conf NGX_RTMP_CODEC_META_OFF (empty_pool 128) (Receive.others a) 0 h chain with
      | Some (rc, _, c, _) => (rc, Receive.Mods (Receive.buflen a) (Some c), [])
      | None => (NGX_ERROR, a, [])
      end)].
Definition quiet {B} (b : B) (_ : Receive.call) : ngx_rc * B := (NGX_OK, b).
Definition meta_events :=
  Receive.events quiet (fun _ => 0) meta_table (fun _ => []) 0.
Definition meta_peer : Chunk.decoder :=
  Chunk.init_decoder Chunk.conf (Receive.Mods 0 (None : option ngx_rtmp_codec_ctx_t)).

Lemma meta_relayed_witness :
  exists p' live' c' v' l d', ngx_rtmp_codec_reconstruct_meta Chunk.conf (empty_pool 128) hd_ctx 0 =
      Some (NGX_OK, p', c', v') /\
    owned p' live' (ctx_refs (Some c')) /\ meta (chains c') = Some l /\
    Chunk.decode_all Chunk.conf meta_events meta_peer (chain_bytes p' l) = Some (None, d', []) /\
    Chunk.d_app d' = Receive.Mods 0 (Some (relayed hd_ctx calloc_ctx)).
Proof.
  destruct (meta_relayed Chunk.conf ltac:(reflexivity) eq_refl quiet (fun _ => 0) meta_table (fun _ => []) 0
    (fun _ _ => eq_refl)) with (p := empty_pool 128) (live := @nil (list loc)) (c := hd_ctx)
    (held := @nil loc) (version := 0) (d := meta_peer) (st := Chunk.calloc_stream)
    as (p' & live' & c' & v' & l & st' & chain & E & Ho & Hm & Hdec & Hread).
  - intros n1 n2 H1 H2 _. apply list_elem_of_singleton in H1 as ->. now apply list_elem_of_singleton in H2 as ->.
  - exact no_refs.
  - cbn. lia.
  - exact (proj1 hd_ctx_ok).
  - exact (proj2 hd_ctx_ok).
  - cbn. lia.
  - reflexivity.
  - reflexivity.
  - reflexivity.
  - reflexivity.
  - exists p', live', c', v', l. eexists. split; [exact E|]. split; [rewrite app_nil_r in Ho; exact Ho|].
    split; [exact Hm|]. split.
    + rewrite <- (app_nil_r (chain_bytes p' l)). eapply (Hdec [] NGX_OK _ [] _); [|discriminate|reflexivity].
      change (Receive.named (str "onMetaData") meta_table) with (map snd meta_table).
      cbn [map snd meta_table Receive.call_all]. rewrite Hread. reflexivity.
    + reflexivity.
Defined.

Lemma codec_meta_holds_witness :
  exists p' live' c' v',
    ngx_rtmp_codec_meta_data Chunk.conf NGX_RTMP_CODEC_META_COPY (empty_pool 128) None 0
      (Chunk.Hdr 5 7 0 18 1) [Amf.encode (Amf.VObj (ctx_props hd_ctx))] = Some (NGX_OK, p', c', v') /\
    owned p' live' (ctx_refs (Some c')).
Proof.
  destruct (codec_meta_holds Chunk.conf ltac:(reflexivity) eq_refl NGX_RTMP_CODEC_META_COPY (empty_pool 128)
    None 0 (Chunk.Hdr 5 7 0 18 1) [Amf.encode (Amf.VObj (ctx_props hd_ctx))] [] [])
    as (r & s & E & _ & H).
  - exact no_refs.
  - cbn. lia.
  - split; (split; [reflexivity|]); refine (bool_decide_unpack _ _); exact Logic.I.
  - discriminate.
  - refine (bool_decide_unpack _ _). exact Logic.I.
  - vm_compute. reflexivity.
  - cbn. lia.
  - vm_compute in E. injection E as <- <-. destruct (H NGX_OK eq_refl) as (p' & live' & c' & v' & E' & Ho & _).
    + intros _. eexists. vm_compute. reflexivity.
    + exists p', live', c', v'. split; [exact E'|]. rewrite app_nil_r in Ho. exact Ho.
Defined.

(** In copy mode the name of the message is lost when it was "onMetaData": the
    handler gets the chain behind the name, and the copy begins with the
    object. *)
Lemma copy_loses_name cscf p live c held version h chain kvs :
  AmfSend.NGX_RTMP_CSID_AMF < Chunk.max_streams cscf ->
  Chunk.play_time_fix cscf = Chunk.publish_time_fix cscf ->
  owned p live (ctx_refs (Some c) ++ held) -> (0 < chunk_size p)%nat ->
  concat chain = Amf.encode (Amf.VObj kvs) -> bytes_ok (concat chain) ->
  Z.of_nat (length (concat chain)) < 2 ^ 24 -> 0 <= Chunk.timestamp h < 2 ^ 32 ->
  exists p' c' v' live', ngx_rtmp_codec_copy_meta cscf p c version h chain = Some (NGX_OK, p', c', v') /\
    holds_meta cscf p p' live' c c' held (Chunk.timestamp h) (Amf.encode (Amf.VObj kvs)).
Proof.
  intros Hm Hf Ho Hk Hc Hb Hn Ht. assert (chain <> []) as Hne by (intros ->; discriminate Hc).
  destruct (copy_spec cscf Hm Hf p live c held version h chain Ho Hk Hne Hb Hn Ht)
    as (p' & live' & c' & E & _ & Hh). rewrite Hc in Hh. eauto 10.
Qed.

(** A negative width is not an unsigned integer. *)
Lemma negative_width : Double.uint_of_double minus_one = None.
Proof. reflexivity. Qed.

End Meta.
