(* ===== verification/Live.v ===== *)
(** * Live streams (src/src/rtmp/ngx_rtmp_live_module.c)

    A worker process with its sessions, the table of live streams and the pool
    of shared buffers.  Sessions join a stream as publisher or subscriber; what
    a publisher sends is passed on to the subscribers of its stream through
    their output queues (Queue.v).

    The process is a record, an operation a function of a state monad over it;
    [None] is an access the code must not make.  Pointers to a stream are
    numbers in [heap]; a session and its context are found by the number of the
    session.  The list [ctx] of a stream is the chain of contexts from
    [stream->ctx] through [next], the lists [streams] and [free_streams] those
    through the [next] of streams.  Of a timer the model has [timer_set].

    The handlers of other modules behind those of this one ([next_publish] and
    so on) and the notification of a missing publisher are arguments.  The
    functions of ngx_rtmp_relay_module.c this module calls are modelled over
    the table of relay contexts. *)

From Stdlib Require Import ZArith Lia.
From stdpp Require Import base numbers list strings gmap.
From S2P Require Import Prelude Buf Bandwidth Chunk Shared Queue Receive Send AmfSend Codec.

Module Live.

Import Shared.

Abbreviation sid := nat.
Abbreviation stid := nat.
Abbreviation rid := nat.

Definition NGX_RTMP_CSID_AUDIO : Z := 6.
Definition NGX_RTMP_CSID_VIDEO : Z := 7.
Definition NGX_RTMP_MSID : Z := 1.
Definition NGX_RTMP_MSG_AUDIO : Z := 8.
Definition NGX_RTMP_MSG_VIDEO : Z := 9.
Definition NGX_RTMP_VIDEO_KEY_FRAME : Z := 1.
Definition NGX_RTMP_MAX_NAME : nat := 256.
Definition NGX_NONE_RELAY : Z := 0.

(* ------------------------------------------------------------------ *)
(** ** State *)

Record ngx_rtmp_live_chunk_stream_t := Cs {
  cs_active : bool;
  cs_timestamp : Z;
  cs_csid : Z;
  cs_dropped : Z
}.

(** [stream] is [ctx->stream]; [session] is the session that has the context. *)
Record ngx_rtmp_live_ctx_t := LCtx {
  stream : option stid;
  ndropped : Z;
  cs0 : ngx_rtmp_live_chunk_stream_t;
  cs1 : ngx_rtmp_live_chunk_stream_t;
  meta_version : Z;
  idle_evt : bool;
  active : bool;
  publishing : bool;
  silent : bool;
  paused : bool;
  c_hls : bool
}.

Abbreviation bandwidth_t := Bandwidth.ngx_rtmp_bandwidth_t.

(** The counters of a stream. *)
Record stream_bandwidth := StreamBw {
  bw_in : bandwidth_t;
  bw_real : bandwidth_t;
  bw_in_audio : bandwidth_t;
  bw_in_video : bandwidth_t;
  bw_out : bandwidth_t;
  bw_billing_in : bandwidth_t;
  bw_billing_out : bandwidth_t
}.

Record ngx_rtmp_live_stream_t := LStream {
  name : list Z;
  ctx : list sid;
  bw : stream_bandwidth;
  epoch : Z;
  st_active : bool;
  st_publishing : bool;
  check_evt : bool;
  check_evt_msec : Z
}.

(** The directives of the module; the table of streams is in the process. *)
Record ngx_rtmp_live_app_conf_t := AppConf {
  nbuckets : Z;
  live : bool;
  sync : Z;
  idle_timeout : Z;
  interleave : bool;
  wait_key : bool;
  wait_video : bool;
  publish_notify : bool;
  play_restart : bool;
  idle_streams : bool;
  buflen : Z;
  check_timeout : Z
}.

(** The connection: [sock] lists what the socket does at the calls of
    [ngx_rtmp_send_message] to come, [sent] what it took so far; [closing]
    tells whether the close event is posted. *)
Record connection := Conn {
  sock : list (list Queue.send_ev);
  sent : list Z;
  destroyed : bool;
  closing : bool
}.

(** [ngx_rtmp_play_t], and the fields of the same names of a session. *)
Record ngx_rtmp_play_t := Play {
  v_name : list Z;
  v_args : list Z;
  v_start : Z;
  v_duration : Z;
  v_reset : Z;
  v_silent : bool
}.

(** [ngx_rtmp_publish_t] without the type, which is only logged. *)
Record ngx_rtmp_publish_t := Publish {
  pv_name : list Z;
  pv_args : list Z;
  pv_silent : bool
}.

Record session := Sess {
  queue : Queue.session;
  conn : connection;
  lctx : option ngx_rtmp_live_ctx_t;
  codec : option Codec.ngx_rtmp_codec_ctx_t;
  relay_type : Z;
  played : ngx_rtmp_play_t;
  current_time : Z
}.

(** A context of the relay module as far as this module looks at it; the
    bytes [r_behind] follow those of the name in memory. *)
Record relay_ctx := RCtx {
  r_name : list Z;
  r_behind : list Z;
  r_publish : option rid;
  r_play : option rid;
  hold_evt : bool;
  r_session : sid
}.

Record process := Process {
  mem : pool;
  sessions : gmap sid session;
  heap : gmap stid ngx_rtmp_live_stream_t;
  streams : list (list stid);
  free_streams : list stid;
  relay_heap : gmap rid relay_ctx;
  relays : list (list rid);
  ngx_rtmp_publishing : Z;
  ngx_rtmp_playing : Z;
  ngx_rtmp_bw_out : bandwidth_t;
  ngx_rtmp_bw_real : bandwidth_t;
  ngx_time : Z;
  ngx_current_msec : Z
}.

Definition set_mem p w :=
  Process p (sessions w) (heap w) (streams w) (free_streams w) (relay_heap w) (relays w)
    (ngx_rtmp_publishing w) (ngx_rtmp_playing w) (ngx_rtmp_bw_out w) (ngx_rtmp_bw_real w)
    (ngx_time w) (ngx_current_msec w).
Definition set_sessions ss w :=
  Process (mem w) ss (heap w) (streams w) (free_streams w) (relay_heap w) (relays w)
    (ngx_rtmp_publishing w) (ngx_rtmp_playing w) (ngx_rtmp_bw_out w) (ngx_rtmp_bw_real w)
    (ngx_time w) (ngx_current_msec w).
Definition set_heap h w :=
  Process (mem w) (sessions w) h (streams w) (free_streams w) (relay_heap w) (relays w)
    (ngx_rtmp_publishing w) (ngx_rtmp_playing w) (ngx_rtmp_bw_out w) (ngx_rtmp_bw_real w)
    (ngx_time w) (ngx_current_msec w).
Definition set_streams t f w :=
  Process (mem w) (sessions w) (heap w) t f (relay_heap w) (relays w)
    (ngx_rtmp_publishing w) (ngx_rtmp_playing w) (ngx_rtmp_bw_out w) (ngx_rtmp_bw_real w)
    (ngx_time w) (ngx_current_msec w).
Definition set_relay_heap h w :=
  Process (mem w) (sessions w) (heap w) (streams w) (free_streams w) h (relays w)
    (ngx_rtmp_publishing w) (ngx_rtmp_playing w) (ngx_rtmp_bw_out w) (ngx_rtmp_bw_real w)
    (ngx_time w) (ngx_current_msec w).
Definition set_counts a b w :=
  Process (mem w) (sessions w) (heap w) (streams w) (free_streams w) (relay_heap w) (relays w)
    a b (ngx_rtmp_bw_out w) (ngx_rtmp_bw_real w) (ngx_time w) (ngx_current_msec w).
Definition set_totals a b w :=
  Process (mem w) (sessions w) (heap w) (streams w) (free_streams w) (relay_heap w) (relays w)
    (ngx_rtmp_publishing w) (ngx_rtmp_playing w) a b (ngx_time w) (ngx_current_msec w).

Definition set_lctx c s :=
  Sess (queue s) (conn s) c (codec s) (relay_type s) (played s) (current_time s).
Definition set_conn q c s :=
  Sess q c (lctx s) (codec s) (relay_type s) (played s) (current_time s).
Definition set_played v s :=
  Sess (queue s) (conn s) (lctx s) (codec s) (relay_type s) v (current_time s).
Definition set_current_time t s :=
  Sess (queue s) (conn s) (lctx s) (codec s) (relay_type s) (played s) t.

Definition set_active a c :=
  LCtx (stream c) (ndropped c) (cs0 c) (cs1 c) (meta_version c) (idle_evt c) a (publishing c)
    (silent c) (paused c) (c_hls c).
Definition set_idle_evt b c :=
  LCtx (stream c) (ndropped c) (cs0 c) (cs1 c) (meta_version c) b (active c) (publishing c)
    (silent c) (paused c) (c_hls c).
Definition set_css a b c :=
  LCtx (stream c) (ndropped c) a b (meta_version c) (idle_evt c) (active c) (publishing c)
    (silent c) (paused c) (c_hls c).
Definition set_stream st c :=
  LCtx st (ndropped c) (cs0 c) (cs1 c) (meta_version c) (idle_evt c) (active c) (publishing c)
    (silent c) (paused c) (c_hls c).
Definition set_silent b c :=
  LCtx (stream c) (ndropped c) (cs0 c) (cs1 c) (meta_version c) (idle_evt c) (active c) (publishing c)
    b (paused c) (c_hls c).
Definition set_paused b c :=
  LCtx (stream c) (ndropped c) (cs0 c) (cs1 c) (meta_version c) (idle_evt c) (active c) (publishing c)
    (silent c) b (c_hls c).
Definition set_meta_version v c :=
  LCtx (stream c) (ndropped c) (cs0 c) (cs1 c) v (idle_evt c) (active c) (publishing c)
    (silent c) (paused c) (c_hls c).
Definition set_ndropped n c :=
  LCtx (stream c) n (cs0 c) (cs1 c) (meta_version c) (idle_evt c) (active c) (publishing c)
    (silent c) (paused c) (c_hls c).

(** [cs[csidx]]; the index is 0 for video. *)
Definition get_cs (csidx : bool) (c : ngx_rtmp_live_ctx_t) : ngx_rtmp_live_chunk_stream_t :=
  if csidx then cs1 c else cs0 c.
Definition set_cs (csidx : bool) (x : ngx_rtmp_live_chunk_stream_t) (c : ngx_rtmp_live_ctx_t) :=
  if csidx then set_css (cs0 c) x c else set_css x (cs1 c) c.

Definition set_ctx l st :=
  LStream (name st) l (bw st) (epoch st) (st_active st) (st_publishing st) (check_evt st) (check_evt_msec st).
Definition set_bw b st :=
  LStream (name st) (ctx st) b (epoch st) (st_active st) (st_publishing st) (check_evt st) (check_evt_msec st).
Definition set_st_active a st :=
  LStream (name st) (ctx st) (bw st) (epoch st) a (st_publishing st) (check_evt st) (check_evt_msec st).
Definition set_st_publishing b st :=
  LStream (name st) (ctx st) (bw st) (epoch st) (st_active st) b (check_evt st) (check_evt_msec st).
Definition set_check_evt b st :=
  LStream (name st) (ctx st) (bw st) (epoch st) (st_active st) (st_publishing st) b (check_evt_msec st).

Definition zero_cs : ngx_rtmp_live_chunk_stream_t := Cs false 0 0 0.
Definition zero_ctx : ngx_rtmp_live_ctx_t :=
  LCtx None 0 zero_cs zero_cs 0 false false false false false false.
Definition zero_stream_bw : stream_bandwidth :=
  let z := Bandwidth.bw_zero in StreamBw z z z z z z z.

(* ------------------------------------------------------------------ *)
(** ** Operations on the process *)

Definition M (A : Type) : Type := process -> option (A * process).
#[export] Instance M_ret : MRet M := fun A a w => Some (a, w).
#[export] Instance M_bind : MBind M := fun A B f m w =>
  match m w with Some (a, w) => f a w | None => None end.

Definition gets {A} (f : process -> A) : M A := fun w => Some (f w, w).
Definition modify (f : process -> process) : M unit := fun w => Some (tt, f w).
Definition access {A} (f : process -> option A) : M A := fun w =>
  match f w with Some a => Some (a, w) | None => None end.
Definition when (b : bool) (m : M unit) : M unit := if b then m else mret tt.

Definition session_of (i : sid) : M session := access (fun w => sessions w !! i).
Definition upd_session (i : sid) (f : session -> session) : M unit :=
  s ← session_of i; modify (fun w => set_sessions (<[i := f s]> (sessions w)) w).
(** [*ngx_rtmp_get_module_ctx(s, ngx_rtmp_live_module)] of a session that has
    one. *)
Definition ctx_of (i : sid) : M ngx_rtmp_live_ctx_t :=
  access (fun w => sessions w !! i ≫= lctx).
Definition upd_ctx (i : sid) (f : ngx_rtmp_live_ctx_t -> ngx_rtmp_live_ctx_t) : M unit :=
  c ← ctx_of i; upd_session i (set_lctx (Some (f c))).
Definition stream_of (st : stid) : M ngx_rtmp_live_stream_t := access (fun w => heap w !! st).
Definition upd_stream (st : stid) (f : ngx_rtmp_live_stream_t -> ngx_rtmp_live_stream_t) : M unit :=
  x ← stream_of st; modify (fun w => set_heap (<[st := f x]> (heap w)) w).

Fixpoint for_each {A} (l : list A) (body : A -> M unit) : M unit :=
  match l with [] => mret tt | x :: l => body x;; for_each l body end.
Fixpoint fold_each {A B} (l : list A) (body : A -> B -> M B) (b : B) : M B :=
  match l with [] => mret b | x :: l => b ← body x b; fold_each l body b end.

(** [ngx_rtmp_finalize_session]. *)
Definition finalize (s : session) : session :=
  if destroyed (conn s) && negb (Queue.hls (queue s)) then s
  else set_conn (queue s) (Conn (sock (conn s)) (sent (conn s)) true true) s.
Definition ngx_rtmp_finalize_session (i : sid) : M unit := upd_session i finalize.

(** [ngx_rtmp_send] counts for the process and for the stream of the session:
    the counters in front of a call, and the process behind it. *)
Definition counters (w : process) (s : session) : Queue.traffic :=
  Queue.Traffic (ngx_rtmp_bw_out w)
    (c ← lctx s; st ← stream c; x ← heap w !! st;
     Some (bw_out (bw x), bw_billing_out (bw x))).
Definition load_counters (w : process) (s : session) : Queue.session :=
  let q := queue s in
  Queue.Session (Queue.out q) (Queue.out_pos q) (Queue.out_last q) (Queue.out_chain q)
    (Queue.out_bpos q) (Queue.out_queue q) (Queue.out_cork q) (Queue.out_buffer q)
    (Queue.out_bytes q) (Queue.hls q) (Queue.is_relay q) (Queue.ping_reset q)
    (Queue.write_active q) (counters w s).
Definition set_bw_out o b x :=
  StreamBw (bw_in x) (bw_real x) (bw_in_audio x) (bw_in_video x) o (bw_billing_in x) b.
Definition store_counters (s : session) (t : Queue.traffic) (w : process) : process :=
  let w := set_totals (Queue.bw_out t) (ngx_rtmp_bw_real w) w in
  match c ← lctx s; st ← stream c; x ← heap w !! st; Some (st, x), Queue.stream_bw t with
  | Some (st, x), Some (o, b) =>
      set_heap (<[st := set_bw (set_bw_out o b (bw x)) x]> (heap w)) w
  | _, _ => w
  end.

(** [ngx_rtmp_send_message] to session [i].  A write timer that has fired has
    finalised the session, so that [timedout] makes no difference. *)
Definition ngx_rtmp_send_message (i : sid) (l : loc) (priority : Z) : M ngx_rc := fun w =>
  s ← sessions w !! i;
  let c := conn s in
  '(rc, e, p, q, wire) ← Queue.queue_message (ngx_time w) (destroyed c) false
    (default [] (head (sock c))) (mem w) (load_counters w s) l priority;
  let s' := set_conn q (Conn (tail (sock c)) (sent c ++ wire) (destroyed c) (closing c)) s in
  let s' := match e with Queue.Finalized => finalize s' | _ => s' end in
  Some (rc, store_counters s (Queue.counters q) (set_mem p (set_sessions (<[i := s']> (sessions w)) w))).

(** Functions on the pool. *)
Definition on_pool {A} (f : pool -> option (pool * A)) : M A := fun w =>
  match f (mem w) with Some (p, a) => Some (a, set_mem p w) | None => None end.
Definition free_chain (l : loc) : M unit :=
  on_pool (fun p => p ← ngx_rtmp_free_shared_chain p l; Some (p, tt)).
Definition append_bufs (ins : list (list Z)) : M (option loc) :=
  on_pool (fun p => ngx_rtmp_append_shared_bufs p None ins).

(** The contents of the buffers of a chain. *)
Definition chain_data (l : loc) : M (list (list Z)) :=
  access (fun w => ls ← Send.links (brk (mem w)) (mem w) (Some l); Some (map buf_data (bufs (mem w) ls))).

Section Conf.
Context (cscf : Chunk.ngx_rtmp_core_srv_conf_t) (lacf : ngx_rtmp_live_app_conf_t).

(** [ngx_rtmp_prepare_message(s, h, lh, l)]. *)
Definition prepare (i : sid) (h : Chunk.ngx_rtmp_header_t) (lh : option Chunk.ngx_rtmp_header_t)
    (l : loc) : M unit :=
  if Chunk.max_streams cscf <=? Chunk.csid h then ngx_rtmp_finalize_session i
  else on_pool (fun p => p ← Send.prepare_chain cscf p h lh l; Some (p, tt)).

(** [ngx_rtmp_send_shared_packet]. *)
Definition send_shared_packet (i : sid) (cl : option loc) : M ngx_rc :=
  match cl with
  | None => mret NGX_ERROR
  | Some l => rc ← ngx_rtmp_send_message i l 0; free_chain l;; mret rc
  end.

Definition create_status (code level desc : string) : M (option loc) :=
  on_pool (fun p => AmfSend.ngx_rtmp_create_status cscf p
    (AmfSend.c_str (str code)) (AmfSend.c_str (str level)) (AmfSend.c_str (str desc))).
Definition create_sample_access : M (option loc) :=
  on_pool (AmfSend.ngx_rtmp_create_sample_access cscf).
Definition ngx_rtmp_send_status (i : sid) (code level desc : string) : M ngx_rc :=
  cl ← create_status code level desc; send_shared_packet i cl.
Definition ngx_rtmp_send_sample_access (i : sid) : M ngx_rc :=
  cl ← create_sample_access; send_shared_packet i cl.

(* ------------------------------------------------------------------ *)
(** ** The table of streams *)

(** [ngx_hash_key] of src/src/core/ngx_hash.c. *)
Definition ngx_hash (key c : Z) : Z := u64 (key * 31 + c).
Definition ngx_hash_key (nm : list Z) : Z := foldl ngx_hash 0 nm.

(** The position of the stream of this name in a chain of streams. *)
Fixpoint find_name (h : gmap stid ngx_rtmp_live_stream_t) (nm : list Z) (l : list stid)
  : option (option nat) :=
  match l with
  | [] => Some None
  | st :: l =>
      x ← h !! st;
      if decide (nm = name x) then Some (Some O)
      else r ← find_name h nm l; Some (option_map S r)
  end.

Definition bucket (nm : list Z) : nat := Z.to_nat (ngx_hash_key nm mod nbuckets lacf).

Definition new_stream (nm : list Z) (now : Z) : ngx_rtmp_live_stream_t :=
  LStream (take (NGX_RTMP_MAX_NAME - 1) nm) [] zero_stream_bw now false false false
    (check_timeout lacf).

(** A stream from the free list, or the next one of the pool. *)
Definition take_stream : M stid := fun w =>
  match free_streams w with
  | st :: rest => Some (st, set_streams (streams w) rest w)
  | [] => Some (size (heap w), w)
  end.

(** The pointer to a pointer the code returns: a bucket and a position in it. *)
Definition ngx_rtmp_live_get_stream (nm : list Z) (create : bool) : M (option (nat * nat)) :=
  let b := bucket nm in
  l ← access (fun w => streams w !! b);
  r ← access (fun w => find_name (heap w) nm l);
  match r with
  | Some n => mret (Some (b, n))
  | None =>
      if negb create then mret None
      else
        st ← take_stream;
        modify (fun w => set_streams (<[b := l ++ [st]]> (streams w)) (free_streams w) w);;
        modify (fun w => set_heap (<[st := new_stream nm (ngx_current_msec w)]> (heap w)) w);;
        mret (Some (b, length l))
  end.

(** [*stream]. *)
Definition at_pos (pos : nat * nat) : M stid := access (fun w => streams w !! pos.1 ≫= lookup pos.2).

Definition ngx_rtmp_live_check_stream_source (nm : list Z) : M ngx_rc :=
  r ← ngx_rtmp_live_get_stream nm false;
  match r with
  | None => mret NGX_ERROR
  | Some pos =>
      st ← at_pos pos; x ← stream_of st;
      mret (if st_publishing x then NGX_OK else NGX_ERROR)
  end.

(** The result is the stream; a missing one is read through NULL. *)
Definition ngx_rtmp_live_get_stream_by_session (i : sid) : M (option stid) :=
  s ← session_of i;
  match lctx s with
  | None => mret None
  | Some _ =>
      r ← ngx_rtmp_live_get_stream (v_name (played s)) false;
      pos ← access (fun _ => r);
      st ← at_pos pos; mret (Some st)
  end.

(* ------------------------------------------------------------------ *)
(** ** Relay contexts (src/src/rtmp/ngx_rtmp_relay_module.c) *)

Fixpoint find_relay (h : gmap rid relay_ctx) (test : relay_ctx -> bool) (l : list rid)
  : option (option (rid * relay_ctx)) :=
  match l with
  | [] => Some None
  | r :: l => c ← h !! r; if test c then Some (Some (r, c)) else find_relay h test l
  end.

Definition relay_bucket (nm : list Z) : M (list rid) :=
  access (fun w => relays w !! Z.to_nat (ngx_hash_key nm mod Z.of_nat (length (relays w)))).

(** [ngx_strncmp] over the length of [nm]. *)
Definition ngx_rtmp_relay_relaying (nm : list Z) : M ngx_rc :=
  l ← relay_bucket nm;
  r ← access (fun w => find_relay (relay_heap w)
        (fun c => bool_decide (take (length nm) (r_name c ++ r_behind c) = nm)) l);
  mret (match r with Some _ => NGX_OK | None => NGX_ERROR end).

(** The publisher's context of a relayed stream that nobody plays. *)
Definition idle_relay (nm : list Z) : M (option (option (rid * relay_ctx))) :=
  l ← relay_bucket nm;
  r ← access (fun w => find_relay (relay_heap w) (fun c => bool_decide (r_name c = nm)) l);
  match r with
  | None => mret None
  | Some (_, c) =>
      match r_publish c with
      | None => mret (Some None)
      | Some p =>
          pc ← access (fun w => relay_heap w !! p);
          mret (Some (match r_play pc with None => Some (p, pc) | Some _ => None end))
      end
  end.
Definition set_hold_evt (b : bool) (rc : rid * relay_ctx) : M unit :=
  let '(r, c) := rc in
  modify (fun w => set_relay_heap (<[r := RCtx (r_name c) (r_behind c) (r_publish c) (r_play c) b
    (r_session c)]> (relay_heap w)) w).

Definition ngx_rtmp_relay_player_dry (i : sid) (nm : list Z) : M ngx_rc :=
  r ← idle_relay nm;
  match r with
  | None => mret NGX_ERROR
  | Some None => mret NGX_OK
  | Some (Some (p, pc)) =>
      s ← session_of i;
      (if Queue.hls (queue s) then when (negb (hold_evt pc)) (set_hold_evt true (p, pc))
       else ngx_rtmp_finalize_session (r_session pc));;
      mret NGX_OK
  end.

Definition ngx_rtmp_relay_player_new (nm : list Z) : M ngx_rc :=
  r ← idle_relay nm;
  match r with
  | None => mret NGX_ERROR
  | Some None => mret NGX_OK
  | Some (Some (p, pc)) => when (hold_evt pc) (set_hold_evt false (p, pc));; mret NGX_OK
  end.

(* ------------------------------------------------------------------ *)
(** ** Waiting for a publisher *)

Definition ngx_rtmp_live_checking_publish (st : stid) : M ngx_rc :=
  x ← stream_of st;
  if check_evt x then mret NGX_OK
  else
    player ← access (fun _ => head (ctx x));
    _ ← session_of player;
    upd_stream st (set_check_evt true);;
    mret NGX_OK.

Section Notify.
Context (ngx_rtmp_notify_play1 : sid -> ngx_rtmp_play_t -> M unit).

(** The timer has fired. *)
Definition ngx_rtmp_live_checking_callback (st : stid) : M unit :=
  upd_stream st (set_check_evt false);;
  x ← stream_of st;
  match ctx x with
  | [] => mret tt
  | i :: _ =>
      if st_publishing x then mret tt
      else
        s ← session_of i;
        ngx_rtmp_notify_play1 i (played s);;
        x ← stream_of st;
        player ← access (fun _ => head (ctx x));
        _ ← session_of player;
        upd_stream st (set_check_evt true)
  end.

End Notify.

(** The idle timer of a publisher has fired. *)
Definition ngx_rtmp_live_idle (i : sid) : M unit :=
  upd_ctx i (set_idle_evt false);;
  ngx_rtmp_finalize_session i.

(* ------------------------------------------------------------------ *)
(** ** Start and stop *)

Definition is_ok (rc : ngx_rc) : bool := bool_decide (rc = NGX_OK).

(** Sending messages that may be NULL, up to the first that fails. *)
Fixpoint send_all (i : sid) (ms : list (option loc)) : M bool :=
  match ms with
  | [] => mret true
  | None :: ms => send_all i ms
  | Some l :: ms =>
      rc ← ngx_rtmp_send_message i l 0;
      if is_ok rc then send_all i ms else mret false
  end.

Definition reset_cs (c : ngx_rtmp_live_chunk_stream_t) : ngx_rtmp_live_chunk_stream_t :=
  Cs false (cs_timestamp c) (cs_csid c) 0.

(** [ngx_rtmp_live_set_status] for a subscriber. *)
Definition set_subscriber (i : sid) (control : option loc) (status : list (option loc)) (a : bool)
  : M unit :=
  c ← ctx_of i;
  if Bool.eqb (active c) a then mret tt
  else
    upd_ctx i (set_active a);;
    ok ← send_all i (control :: if silent c then [] else status);
    if negb ok then ngx_rtmp_finalize_session i
    else upd_ctx i (fun c => set_css (reset_cs (cs0 c)) (reset_cs (cs1 c)) c).

Definition set_subscribers (control : option loc) (status : list (option loc)) (a : bool) (j : sid)
  : M unit :=
  c ← ctx_of j;
  when (negb (publishing c)) (set_subscriber j control status a).

(** The recursion of the code goes to subscribers only. *)
Definition ngx_rtmp_live_set_status (i : sid) (control : option loc) (status : list (option loc))
    (a : bool) : M unit :=
  c ← ctx_of i;
  if negb (publishing c) then set_subscriber i control status a
  else if Bool.eqb (active c) a then mret tt
  else
    upd_ctx i (set_active a);;
    when (negb (idle_timeout lacf =? 0) && Bool.eqb (idle_evt c) (negb a)) (upd_ctx i (set_idle_evt a));;
    st ← access (fun _ => stream c);
    upd_stream st (set_st_active a);;
    x ← stream_of st;
    for_each (ctx x) (set_subscribers control status a).

(** [ngx_rtmp_free_shared_chain] of a chain that must not be NULL. *)
Definition free_status (cl : option loc) : M unit := l ← access (fun _ => cl); free_chain l.

Definition ngx_rtmp_live_start (i : sid) : M unit :=
  control ← on_pool (fun p => Send.ngx_rtmp_create_stream_begin cscf p NGX_RTMP_MSID);
  st1 ← (if play_restart lacf then
           a ← create_status "NetStream.Play.Start" "status" "Start live";
           b ← create_sample_access; mret [a; b]
         else mret []);
  st2 ← (if publish_notify lacf then
           a ← create_status "NetStream.Play.PublishNotify" "status" "Start publishing"; mret [a]
         else mret []);
  ngx_rtmp_live_set_status i (Some control) (st1 ++ st2) true;;
  free_chain control;;
  for_each (st1 ++ st2) free_status.

Definition ngx_rtmp_live_stop (i : sid) : M unit :=
  control ← on_pool (fun p => Send.ngx_rtmp_create_stream_eof cscf p NGX_RTMP_MSID);
  st1 ← (if play_restart lacf then
           a ← create_status "NetStream.Play.Stop" "status" "Stop live"; mret [a]
         else mret []);
  st2 ← (if publish_notify lacf then
           a ← create_status "NetStream.Play.UnpublishNotify" "status" "Stop publishing"; mret [a]
         else mret []);
  ngx_rtmp_live_set_status i (Some control) (st1 ++ st2) false;;
  free_chain control;;
  for_each (st1 ++ st2) free_status.

(* ------------------------------------------------------------------ *)
(** ** Joining a stream *)

Definition stream_not_found (i : sid) : M unit :=
  _ ← ngx_rtmp_send_status i "NetStream.Play.StreamNotFound" "error" "No such stream";
  ngx_rtmp_finalize_session i.

Definition joined (st : stid) (publisher hls : bool) (c : ngx_rtmp_live_ctx_t) : ngx_rtmp_live_ctx_t :=
  LCtx (Some st) (ndropped c)
    (Cs (cs_active (cs0 c)) (cs_timestamp (cs0 c)) NGX_RTMP_CSID_VIDEO (cs_dropped (cs0 c)))
    (Cs (cs_active (cs1 c)) (cs_timestamp (cs1 c)) NGX_RTMP_CSID_AUDIO (cs_dropped (cs1 c)))
    (meta_version c) (idle_evt c) (active c) publisher (silent c) (paused c) hls.

Definition set_out_buffer (s : session) : session :=
  let q := queue s in
  set_conn (Queue.Session (Queue.out q) (Queue.out_pos q) (Queue.out_last q) (Queue.out_chain q)
    (Queue.out_bpos q) (Queue.out_queue q) (Queue.out_cork q) true (Queue.out_bytes q)
    (Queue.hls q) (Queue.is_relay q) (Queue.ping_reset q) (Queue.write_active q) (Queue.counters q))
    (conn s) s.
Definition set_name (nm : list Z) (s : session) : session :=
  let v := played s in
  set_played (Play nm (v_args v) (v_start v) (v_duration v) (v_reset v) (v_silent v)) s.

(** The second half of [ngx_rtmp_live_join]: the stream is found. *)
Definition join_stream (i : sid) (nm : list Z) (publisher : bool) (st : stid) : M unit :=
  (if publisher then upd_stream st (fun x => set_check_evt false (set_st_publishing true x))
   else _ ← ngx_rtmp_relay_player_new nm; mret tt);;
  s ← session_of i;
  upd_ctx i (joined st publisher (Queue.hls (queue s)));;
  upd_session i (set_name nm);;
  upd_stream st (fun x => set_ctx (i :: ctx x) x);;
  when (negb (buflen lacf =? 0)) (upd_session i set_out_buffer);;
  c ← ctx_of i;
  x ← stream_of st;
  when (negb (publishing c) && st_active x && negb (c_hls c)) (ngx_rtmp_live_start i);;
  x ← stream_of st;
  when (negb publisher && negb (st_publishing x))
    (rc ← ngx_rtmp_relay_relaying nm;
     when (bool_decide (rc = NGX_ERROR)) (_ ← ngx_rtmp_live_checking_publish st; mret tt)).

Definition ngx_rtmp_live_join (i : sid) (nm : list Z) (publisher : bool) : M unit :=
  s ← session_of i;
  if bool_decide (is_Some (lctx s ≫= stream)) then mret tt
  else
    upd_session i (set_lctx (Some zero_ctx));;
    let anyway := publisher || idle_streams lacf || negb (relay_type s =? NGX_NONE_RELAY) in
    r ← ngx_rtmp_live_get_stream nm anyway;
    match r with
    | None => stream_not_found i
    | Some pos =>
        st ← at_pos pos;
        x ← stream_of st;
        if negb (anyway || st_publishing x) then stream_not_found i
        else if publisher && st_publishing x then
          _ ← ngx_rtmp_send_status i "NetStream.Publish.BadName" "error" "Already publishing"; mret tt
        else join_stream i nm publisher st
    end.

(* ------------------------------------------------------------------ *)
(** ** Leaving a stream *)

Fixpoint remove_ctx (i : sid) (l : list sid) : list sid :=
  match l with
  | [] => []
  | j :: l => if decide (j = i) then l else j :: remove_ctx i l
  end.

Definition no_rate (b : bandwidth_t) : bandwidth_t :=
  Bandwidth.Bw (Bandwidth.bytes b) 0 (Bandwidth.intl_end b) (Bandwidth.intl_end_timestamp b)
    (Bandwidth.intl_bytes b).
Definition reset_rates (x : ngx_rtmp_live_stream_t) : ngx_rtmp_live_stream_t :=
  let b := bw x in
  set_bw (StreamBw (no_rate (bw_in b)) (no_rate (bw_real b)) (bw_in_audio b) (bw_in_video b)
    (no_rate (bw_out b)) (bw_billing_in b) (bw_billing_out b)) x.

(** A count that does not go below 0. *)
Definition decrement (n : Z) : Z := if 0 <? n then n - 1 else n.

(** The subscribers left when the publisher goes, for [idle_streams off]. *)
Definition drop_subscriber (j : sid) : M unit :=
  c ← ctx_of j; when (negb (publishing c)) (ngx_rtmp_finalize_session j).
(** The same for [idle_streams on]: relays are closed; the number of players. *)
Definition keep_subscriber (j : sid) (nplayer : Z) : M Z :=
  c ← ctx_of j;
  if publishing c then mret nplayer
  else
    s ← session_of j;
    when (Queue.is_relay (queue s)) (ngx_rtmp_finalize_session j);;
    mret (nplayer + 1).

Definition publisher_leaves (i : sid) (st : stid) : M unit :=
  _ ← ngx_rtmp_send_status i "NetStream.Unpublish.Success" "status" "Stop publishing";
  upd_stream st reset_rates;;
  modify (fun w => set_counts (decrement (ngx_rtmp_publishing w)) (ngx_rtmp_playing w) w);;
  x ← stream_of st;
  if negb (idle_streams lacf) then for_each (ctx x) drop_subscriber
  else
    nplayer ← fold_each (ctx x) keep_subscriber 0;
    when (0 <? nplayer) (_ ← ngx_rtmp_live_checking_publish st; mret tt).

Definition subscriber_leaves (i : sid) (st : stid) : M unit :=
  x ← stream_of st;
  (match ctx x with
   | [j] => c ← ctx_of j;
            when (publishing c) (_ ← ngx_rtmp_relay_player_dry i (name x); mret tt)
   | _ => mret tt
   end);;
  modify (fun w => set_counts (ngx_rtmp_publishing w) (decrement (ngx_rtmp_playing w)) w).

(** The empty stream goes to the free list. *)
Definition delete_stream (i : sid) (st : stid) : M unit :=
  upd_stream st (set_check_evt false);;
  x ← stream_of st;
  r ← ngx_rtmp_live_get_stream (name x) false;
  match r with
  | None => mret tt
  | Some (b, n) =>
      l ← access (fun w => streams w !! b);
      modify (fun w => set_streams (<[b := take n l ++ drop (S n) l]> (streams w)) (st :: free_streams w) w);;
      upd_ctx i (set_stream None);;
      c ← ctx_of i;
      when (negb (silent c) && negb (publishing c) && negb (play_restart lacf))
        (_ ← ngx_rtmp_send_status i "NetStream.Play.Stop" "status" "Stop live"; mret tt)
  end.

Definition leave_stream (i : sid) (c : ngx_rtmp_live_ctx_t) (st : stid) : M unit :=
  x ← stream_of st;
  when (st_publishing x && publishing c) (upd_stream st (set_st_publishing false));;
  upd_stream st (fun x => set_ctx (remove_ctx i (ctx x)) x);;
  x ← stream_of st;
  when (publishing c || st_active x) (ngx_rtmp_live_stop i);;
  (if publishing c then publisher_leaves i st else subscriber_leaves i st);;
  x ← stream_of st;
  match ctx x with
  | _ :: _ => upd_ctx i (set_stream None)
  | [] => delete_stream i st
  end.

Definition live_close (i : sid) : M unit :=
  s ← session_of i;
  match lctx s with
  | None => mret tt
  | Some c =>
      match stream c with
      | None => mret tt
      | Some st => leave_stream i c st
      end
  end.

(* ------------------------------------------------------------------ *)
(** ** Audio and video *)

(** What [ngx_rtmp_live_av] knows of a packet before it goes to the
    subscribers. *)
Record frame := Frame {
  f_type : Z;
  f_in : list (list Z);
  f_prio : Z;
  f_mandatory : bool;
  f_csidx : bool;
  f_ch : Chunk.ngx_rtmp_header_t;
  f_lh : Chunk.ngx_rtmp_header_t;
  f_clh : Chunk.ngx_rtmp_header_t;
  f_delta : Z;
  f_rpkt : loc;
  f_header : option loc;
  f_coheader : option loc;
  f_meta : option loc;
  f_meta_version : Z
}.

(** The packets made on the way, and the number of subscribers served. *)
Record packets := Packets {
  apkt : option loc;
  aapkt : option loc;
  acopkt : option loc;
  peers : Z
}.

Definition video (f : frame) : bool := f_type f =? NGX_RTMP_MSG_VIDEO.

Definition send_meta (f : frame) (j : sid) : M unit :=
  match f_meta f with
  | None => mret tt
  | Some l =>
      c ← ctx_of j;
      if f_meta_version f =? meta_version c then mret tt
      else
        rc ← ngx_rtmp_send_message j l 0;
        when (is_ok rc) (upd_ctx j (set_meta_version (f_meta_version f)))
  end.

Definition sync_stream (f : frame) (j : sid) : M unit :=
  c ← ctx_of j;
  let cs := get_cs (f_csidx f) c in
  when (cs_active cs && negb (sync lacf =? 0) && (sync lacf <? cs_dropped cs))
    (upd_ctx j (set_cs (f_csidx f) (reset_cs cs))).

(** A new message in shared buffers with its header. *)
Definition new_packet (i : sid) (ins : list (list Z)) (h : Chunk.ngx_rtmp_header_t)
    (lh : option Chunk.ngx_rtmp_header_t) : M loc :=
  cl ← append_bufs ins; l ← access (fun _ => cl);
  prepare i h lh l;; mret l.

Definition get_apkt (i : sid) (ins : M (list (list Z))) (h : Chunk.ngx_rtmp_header_t) (k : packets)
  : M (loc * packets) :=
  match apkt k with
  | Some l => mret (l, k)
  | None =>
      d ← ins; l ← new_packet i d h None;
      mret (l, Packets (Some l) (aapkt k) (acopkt k) (peers k))
  end.
Definition get_acopkt (i : sid) (ins : M (list (list Z))) (h : Chunk.ngx_rtmp_header_t) (k : packets)
  : M (loc * packets) :=
  match acopkt k with
  | Some l => mret (l, k)
  | None =>
      d ← ins; l ← new_packet i d h None;
      mret (l, Packets (apkt k) (aapkt k) (Some l) (peers k))
  end.
(** The empty audio packet. *)
Definition get_aapkt (i : sid) (h : Chunk.ngx_rtmp_header_t) (k : packets) : M packets :=
  match aapkt k with
  | Some _ => mret k
  | None =>
      l ← on_pool ngx_rtmp_alloc_shared_buf;
      prepare i h None l;;
      mret (Packets (apkt k) (Some l) (acopkt k) (peers k))
  end.
Definition send_aapkt (j : sid) (k : packets) (dummy_audio : bool) : M unit :=
  when dummy_audio (l ← access (fun _ => aapkt k); _ ← ngx_rtmp_send_message j l 0; mret tt).

(** [cs->timestamp = t; cs->active = 1; ss->current_time = cs->timestamp]. *)
Definition start_cs (f : frame) (j : sid) (t : Z) : M unit :=
  upd_ctx j (fun c => let cs := get_cs (f_csidx f) c in
    set_cs (f_csidx f) (Cs true t (cs_csid cs) (cs_dropped cs)) c);;
  upd_session j (set_current_time t).

(** The absolute codec header; [false] when it was dropped. *)
Definition send_header (i : sid) (f : frame) (j : sid) (k : packets) : M (packets * bool) :=
  match f_header f with
  | None => mret (k, true)
  | Some hd =>
      '(l, k) ← get_apkt i (chain_data hd) (f_lh f) k;
      rc ← ngx_rtmp_send_message j l 0;
      mret (k, is_ok rc)
  end.
(** The header of the other codec, or the empty audio packet. *)
Definition send_coheader (i : sid) (f : frame) (j : sid) (k : packets) (dummy_audio : bool)
  : M (packets * bool) :=
  match f_coheader f with
  | None => send_aapkt j k dummy_audio;; mret (k, true)
  | Some hd =>
      '(l, k) ← get_acopkt i (chain_data hd) (f_clh f) k;
      rc ← ngx_rtmp_send_message j l 0;
      mret (k, is_ok rc)
  end.

Definition send_headers (i : sid) (f : frame) (j : sid) (k : packets) (dummy_audio : bool)
  : M (packets * bool) :=
  '(k, ok) ← send_header i f j k;
  if negb ok then mret (k, false)
  else
    '(k, ok) ← send_coheader i f j k dummy_audio;
    if negb ok then mret (k, false)
    else start_cs f j (Chunk.timestamp (f_lh f));; mret (k, true).

(** The absolute packet; nothing is to follow. *)
Definition send_absolute (i : sid) (f : frame) (j : sid) (k : packets) (dummy_audio : bool) : M packets :=
  '(l, k) ← get_apkt i (mret (f_in f)) (f_ch f) k;
  rc ← ngx_rtmp_send_message j l (f_prio f);
  if negb (is_ok rc) then mret k
  else
    start_cs f j (Chunk.timestamp (f_ch f));;
    send_aapkt j k dummy_audio;;
    mret (Packets (apkt k) (aapkt k) (acopkt k) (peers k + 1)).

(** The tests that make a subscriber wait. *)
Definition must_wait (f : frame) (c : ngx_rtmp_live_ctx_t) : bool :=
  f_mandatory f
  || (wait_video lacf && negb (video f) && negb (cs_active (cs0 c)))
  || (wait_key lacf && negb (f_prio f =? NGX_RTMP_VIDEO_KEY_FRAME) && (interleave lacf || video f)).

(** A subscriber whose chunk stream is not active; [true] when the relative
    packet is to follow. *)
Definition start_subscriber (i : sid) (f : frame) (j : sid) (k : packets) : M (packets * bool) :=
  c ← ctx_of j;
  if must_wait f c then mret (k, false)
  else
    let dummy_audio := wait_video lacf && video f && negb (cs_active (cs1 c)) in
    k ← (if dummy_audio then get_aapkt i (f_clh f) k else mret k);
    match f_header f, f_coheader f with
    | None, None => k ← send_absolute i f j k dummy_audio; mret (k, false)
    | _, _ => send_headers i f j k dummy_audio
    end.

Definition send_relative (f : frame) (j : sid) (k : packets) : M packets :=
  rc ← ngx_rtmp_send_message j (f_rpkt f) (f_prio f);
  if negb (is_ok rc) then
    upd_ctx j (fun c =>
      let cs := get_cs (f_csidx f) c in
      set_ndropped (u64 (ndropped c + 1))
        (set_cs (f_csidx f) (Cs (cs_active cs) (cs_timestamp cs) (cs_csid cs)
           (u32 (cs_dropped cs + f_delta f))) c));;
    when (f_mandatory f) (ngx_rtmp_finalize_session j);;
    mret k
  else
    c ← ctx_of j;
    let cs := get_cs (f_csidx f) c in
    let t := u32 (cs_timestamp cs + f_delta f) in
    upd_ctx j (set_cs (f_csidx f) (Cs (cs_active cs) t (cs_csid cs) (cs_dropped cs)));;
    upd_session j (set_current_time t);;
    mret (Packets (apkt k) (aapkt k) (acopkt k) (peers k + 1)).

(** One pass of the loop over the contexts of the stream. *)
Definition broadcast (i : sid) (f : frame) (j : sid) (k : packets) : M packets :=
  c ← ctx_of j;
  if bool_decide (j = i) || paused c || c_hls c then mret k
  else
    send_meta f j;;
    sync_stream f j;;
    c ← ctx_of j;
    '(k, go_on) ← (if cs_active (get_cs (f_csidx f) c) then mret (k, true)
                   else start_subscriber i f j k);
    if negb go_on then mret k else send_relative f j k.

Definition free_opt (cl : option loc) : M unit :=
  match cl with Some l => free_chain l | None => mret tt end.

(** The packets are given up behind the loop. *)
Definition release_packets (rpkt : loc) (k : packets) : M unit :=
  free_chain rpkt;; free_opt (apkt k);; free_opt (aapkt k);; free_opt (acopkt k).

(** [ngx_rtmp_get_video_frame_type]; [stale] is the byte behind an empty
    buffer. *)
Definition ngx_rtmp_get_video_frame_type (stale : Z) (chain : list (list Z)) : Z :=
  Z.shiftr (Z.land (default stale (head (Receive.in_buf0 chain))) 0xf0) 4.

(** The headers and metadata the codec module has for the stream: the frame
    for the subscribers. *)
Definition codec_frame (ty prio delta : Z) (csidx : bool) (ch lh clh : Chunk.ngx_rtmp_header_t)
    (chain : list (list Z)) (rpkt : loc) (cc : option Codec.ngx_rtmp_codec_ctx_t) : frame :=
  match cc with
  | None => Frame ty chain prio false csidx ch lh clh delta rpkt None None None 0
  | Some cc =>
      let k := Codec.chains cc in
      let audio := ty =? NGX_RTMP_MSG_AUDIO in
      let known := if audio then Codec.audio_codec_id (Codec.audio cc) =? Codec.NGX_RTMP_AUDIO_AAC
                   else Codec.video_codec_id (Codec.video cc) =? Codec.NGX_RTMP_VIDEO_H264 in
      let mandatory := known && Codec.ngx_rtmp_is_codec_header (Receive.in_buf0 chain) in
      Frame ty chain (if mandatory then 0 else prio) mandatory csidx ch lh clh delta rpkt
        (if audio then Codec.aac_header k else Codec.avc_header k)
        (if interleave lacf then if audio then Codec.avc_header k else Codec.aac_header k else None)
        (Codec.meta k)
        (match Codec.meta k with Some _ => Codec.meta_version k | None => 0 end)
  end.

(** The bookkeeping at the end of [ngx_rtmp_live_av]. *)
Definition ngx_rtmp_update_total_real_bandwidth : M unit := fun w =>
  let b := ngx_rtmp_bw_real w in
  if Bandwidth.intl_end b <? ngx_time w then
    ls ← mapM (mapM (fun st => heap w !! st)) (streams w);
    let total := foldl (fun n x => u64 (n + Bandwidth.bandwidth (bw_real (bw x)))) 0 (concat ls) in
    Some (tt, set_totals (ngx_rtmp_bw_out w)
      (Bandwidth.Bw 0 total (ngx_time w + Bandwidth.NGX_RTMP_BANDWIDTH_INTERVAL)
         (Bandwidth.intl_end_timestamp b) (Bandwidth.intl_bytes b)) w)
  else Some (tt, w).

Definition count_in (i : sid) (st : stid) (h : Chunk.ngx_rtmp_header_t) : M unit :=
  now ← gets ngx_time;
  s ← session_of i;
  let up b := Bandwidth.ngx_rtmp_update_bandwidth now b (Chunk.mlen h) in
  upd_stream st (fun x => let b := bw x in
    set_bw (StreamBw (up (bw_in b))
      (Bandwidth.ngx_rtmp_update_bandwidth_real (bw_real b) (Chunk.mlen h) (Chunk.timestamp h / 1000))
      (bw_in_audio b) (bw_in_video b) (bw_out b) (bw_billing_in b) (bw_billing_out b)) x);;
  ngx_rtmp_update_total_real_bandwidth;;
  upd_stream st (fun x => let b := bw x in
    let audio := Chunk.type h =? NGX_RTMP_MSG_AUDIO in
    set_bw (StreamBw (bw_in b) (bw_real b)
      (if audio then up (bw_in_audio b) else bw_in_audio b)
      (if audio then bw_in_video b else up (bw_in_video b))
      (bw_out b) (if Queue.is_relay (queue s) then bw_billing_in b else up (bw_billing_in b))
      (bw_billing_out b)) x).

(** The packet [in] of type audio or video from the publisher [i] of [st]. *)
Definition publish_packet (stale : Z) (i : sid) (st : stid) (h : Chunk.ngx_rtmp_header_t)
    (chain : list (list Z)) : M unit :=
  let ty := Chunk.type h in
  upd_session i (set_current_time (Chunk.timestamp h));;
  c ← ctx_of i;
  let prio := if ty =? NGX_RTMP_MSG_VIDEO then ngx_rtmp_get_video_frame_type stale chain else 0 in
  let csidx := negb (interleave lacf || (ty =? NGX_RTMP_MSG_VIDEO)) in
  let cs := get_cs csidx c in
  let ch := Chunk.Hdr (cs_csid cs) (Chunk.timestamp h) 0 ty NGX_RTMP_MSID in
  let lh := Chunk.Hdr (cs_csid cs) (if cs_active cs then cs_timestamp cs else Chunk.timestamp h) 0 ty
              NGX_RTMP_MSID in
  let clh := Chunk.Hdr (cs_csid cs) (Chunk.timestamp lh) 0
               (if ty =? NGX_RTMP_MSG_AUDIO then NGX_RTMP_MSG_VIDEO else NGX_RTMP_MSG_AUDIO)
               NGX_RTMP_MSID in
  upd_ctx i (set_cs csidx (Cs true (Chunk.timestamp ch) (cs_csid cs) (cs_dropped cs)));;
  let delta := u32 (Chunk.timestamp ch - Chunk.timestamp lh) in
  rpkt ← new_packet i chain ch (Some lh);
  s ← session_of i;
  let f := codec_frame ty prio delta csidx ch lh clh chain rpkt (codec s) in
  x ← stream_of st;
  k ← fold_each (ctx x) (broadcast i f) (Packets None None None 0);
  release_packets rpkt k;;
  count_in i st h.

Definition ngx_rtmp_live_av (stale : Z) (i : sid) (h : Chunk.ngx_rtmp_header_t)
    (chain : list (list Z)) : M ngx_rc :=
  if negb (live lacf) || bool_decide (chain = []) then mret NGX_OK
  else
    s ← session_of i;
    match lctx s ≫= (fun c => st ← stream c; Some (c, st)) with
    | None => mret NGX_OK
    | Some (c, st) =>
        if negb (publishing c) then mret NGX_OK
        else
          x ← stream_of st;
          when (negb (st_active x)) (ngx_rtmp_live_start i);;
          publish_packet stale i st h chain;;
          mret NGX_OK
    end.

(* ------------------------------------------------------------------ *)
(** ** Handlers *)

(** [ctx] is joined to a stream and not one of HLS. *)
Definition live_ctx (i : sid) : M (option ngx_rtmp_live_ctx_t) :=
  s ← session_of i;
  mret (match lctx s with
        | Some c => match stream c with
                    | Some _ => if c_hls c then None else Some c
                    | None => None
                    end
        | None => None
        end).

Section Chain.
Context (next_publish : sid -> ngx_rtmp_publish_t -> M ngx_rc).
Context (next_play : sid -> ngx_rtmp_play_t -> M ngx_rc).
Context (next_close_stream next_stream_begin next_stream_eof : sid -> M ngx_rc).
Context (next_pause : sid -> bool -> M ngx_rc).

Definition ngx_rtmp_live_stream_begin (i : sid) : M ngx_rc :=
  c ← live_ctx i;
  when (match c with Some c => publishing c | None => false end) (ngx_rtmp_live_start i);;
  next_stream_begin i.

Definition ngx_rtmp_live_stream_eof (i : sid) : M ngx_rc :=
  c ← live_ctx i;
  when (match c with Some c => publishing c | None => false end) (ngx_rtmp_live_stop i);;
  next_stream_eof i.

Definition ngx_rtmp_live_close_stream (i : sid) : M ngx_rc := live_close i;; next_close_stream i.

Definition ngx_rtmp_live_pause (i : sid) (pause : bool) : M ngx_rc :=
  c ← live_ctx i;
  match c with
  | None => next_pause i pause
  | Some _ =>
      rc ← (if pause then ngx_rtmp_send_status i "NetStream.Pause.Notify" "status" "Paused live"
            else ngx_rtmp_send_status i "NetStream.Unpause.Notify" "status" "Unpaused live");
      if negb (is_ok rc) then mret NGX_ERROR
      else
        upd_ctx i (set_paused pause);;
        (if pause then ngx_rtmp_live_stop i else ngx_rtmp_live_start i);;
        next_pause i pause
  end.

Definition ngx_rtmp_live_publish (i : sid) (v : ngx_rtmp_publish_t) : M ngx_rc :=
  when (live lacf)
    (ngx_rtmp_live_join i (pv_name v) true;;
     s ← session_of i;
     match lctx s with
     | Some c =>
         when (publishing c)
           (upd_ctx i (set_silent (pv_silent v));;
            when (negb (pv_silent v))
              (_ ← ngx_rtmp_send_status i "NetStream.Publish.Start" "status" "Start publishing"; mret tt))
     | None => mret tt
     end);;
  next_publish i v.

Definition ngx_rtmp_live_play (i : sid) (v : ngx_rtmp_play_t) : M ngx_rc :=
  when (live lacf)
    (ngx_rtmp_live_join i (v_name v) false;;
     s ← session_of i;
     match lctx s with
     | Some c =>
         upd_ctx i (set_silent (v_silent v));;
         when (negb (v_silent v) && negb (play_restart lacf) && negb (c_hls c))
           (_ ← ngx_rtmp_send_status i "NetStream.Play.Start" "status" "Start live";
            _ ← ngx_rtmp_send_sample_access i;
            upd_session i (fun s => let o := played s in
              set_played (Play (v_name o) (v_args o) (v_start v) (v_duration v) (v_reset v) (v_silent v)) s));;
         modify (fun w => set_counts (ngx_rtmp_publishing w) (u64 (ngx_rtmp_playing w + 1)) w)
     | None => mret tt
     end);;
  next_play i v.

End Chain.

End Conf.
End Live.
