(* ===== verification/Recorder.v ===== *)
(** * Recording (src/src/rtmp/ngx_rtmp_record_module.c)

    A publisher's audio and video go to FLV files, one for every recorder of its
    application.  A recorder opens its file when the publisher starts, or on the
    first frame after that; a tag is written for every frame it takes, and the
    tags of the codec headers in front of the first.  It closes its file at the
    end of the stream, at a limit of size or of frames, or after an interval.

    The state is that of the worker process (Live.v), the contexts of this
    module by session, and the files (Disk.v).  [None] is an access the code
    must not make.  Allocations succeed.  [ngx_rtmp_record_done], the handlers
    behind those of this module and [strftime] are arguments. *)

From Stdlib Require Import ZArith Lia.
From stdpp Require Import base numbers list strings gmap.
From S2P Require Import Prelude Buf Chunk Shared Amf Receive Codec Dash Disk Live.

Module Recorder.

Import Disk.

Abbreviation sid := nat.

Definition NGX_RTMP_RECORD_OFF : Z := 0x01.
Definition NGX_RTMP_RECORD_AUDIO : Z := 0x02.
Definition NGX_RTMP_RECORD_VIDEO : Z := 0x04.
Definition NGX_RTMP_RECORD_KEYFRAMES : Z := 0x08.
Definition NGX_RTMP_RECORD_MANUAL : Z := 0x10.
Definition NGX_CONF_UNSET_MSEC : Z := 2 ^ 64 - 1.
Definition NGX_CONF_UNSET_UINT : Z := 2 ^ 64 - 1.
Definition NGX_MAX_PATH : Z := 4096.
Definition NGX_RTMP_MSG_AUDIO : Z := 8.
Definition NGX_RTMP_MSG_VIDEO : Z := 9.

(* ------------------------------------------------------------------ *)
(** ** State *)

(** A recorder of the configuration; [id] is [None] for the one of the
    application itself, [rec_conf] is the configuration of a recorder block.
    The advisory lock of [lock_file] changes nothing within the process. *)
Record ngx_rtmp_record_app_conf_t := Conf {
  id : option string;
  flags : Z;
  path : list Z;
  max_size : Z;
  max_frames : Z;
  interval : Z;
  suffix : list Z;
  unique : bool;
  append : bool;
  notify : bool;
  rec_conf : option nat
}.

Record ngx_rtmp_record_rec_ctx_t := Rec {
  conf : ngx_rtmp_record_app_conf_t;
  file : ngx_file_t;
  nframes : Z;
  epoch : Z;
  time_shift : Z;
  last : Z * Z;
  timestamp : Z;
  failed : bool;
  initialized : bool;
  aac_header_sent : bool;
  avc_header_sent : bool;
  video_key_sent : bool;
  audio : bool;
  video : bool
}.

(** [name] and [args] up to the terminator. *)
Record ngx_rtmp_record_ctx_t := Ctx {
  rec : list ngx_rtmp_record_rec_ctx_t;
  name : list Z;
  args : list Z
}.

(** Of a session: [auto_pushed], [app_conf], the context of this module. *)
Record rsession := RSess {
  auto_pushed : bool;
  app_conf : nat;
  rctx : option ngx_rtmp_record_ctx_t
}.

(** [ngx_cached_time] is [ngx_time] of the process and [msec]. *)
Record world := World {
  net : Live.process;
  rsess : gmap sid rsession;
  store : disk;
  msec : Z
}.

Definition set_net n w := World n (rsess w) (store w) (msec w).
Definition set_rsess m w := World (net w) m (store w) (msec w).
Definition set_store d w := World (net w) (rsess w) d (msec w).

Definition set_file f r :=
  Rec (conf r) f (nframes r) (epoch r) (time_shift r) (last r) (timestamp r) (failed r)
    (initialized r) (aac_header_sent r) (avc_header_sent r) (video_key_sent r) (audio r) (video r).
Definition set_nframes n r :=
  Rec (conf r) (file r) n (epoch r) (time_shift r) (last r) (timestamp r) (failed r)
    (initialized r) (aac_header_sent r) (avc_header_sent r) (video_key_sent r) (audio r) (video r).
Definition set_time_shift t r :=
  Rec (conf r) (file r) (nframes r) (epoch r) t (last r) (timestamp r) (failed r)
    (initialized r) (aac_header_sent r) (avc_header_sent r) (video_key_sent r) (audio r) (video r).
Definition set_failed r :=
  Rec (conf r) (file r) (nframes r) (epoch r) (time_shift r) (last r) (timestamp r) true
    (initialized r) (aac_header_sent r) (avc_header_sent r) (video_key_sent r) (audio r) (video r).
Definition set_initialized e r :=
  Rec (conf r) (file r) (nframes r) e (time_shift r) (last r) (timestamp r) (failed r)
    true (aac_header_sent r) (avc_header_sent r) (video_key_sent r) (audio r) (video r).
Definition set_aac_header_sent r :=
  Rec (conf r) (file r) (nframes r) (epoch r) (time_shift r) (last r) (timestamp r) (failed r)
    (initialized r) true (avc_header_sent r) (video_key_sent r) (audio r) (video r).
Definition set_avc_header_sent r :=
  Rec (conf r) (file r) (nframes r) (epoch r) (time_shift r) (last r) (timestamp r) (failed r)
    (initialized r) (aac_header_sent r) true (video_key_sent r) (audio r) (video r).
Definition set_video_key_sent r :=
  Rec (conf r) (file r) (nframes r) (epoch r) (time_shift r) (last r) (timestamp r) (failed r)
    (initialized r) (aac_header_sent r) (avc_header_sent r) true (audio r) (video r).
(** [rctx->video = 1] or [rctx->audio = 1]. *)
Definition set_av (is_video : bool) r :=
  Rec (conf r) (file r) (nframes r) (epoch r) (time_shift r) (last r) (timestamp r) (failed r)
    (initialized r) (aac_header_sent r) (avc_header_sent r) (video_key_sent r)
    (audio r || negb is_video) (video r || is_video).

Definition has (f flag : Z) : bool := negb (Z.land f flag =? 0).

(* ------------------------------------------------------------------ *)
(** ** The monad *)

Definition R (A : Type) : Type := world -> option (A * world).
#[export] Instance R_ret : MRet R := fun A a w => Some (a, w).
#[export] Instance R_bind : MBind R := fun A B f m w =>
  match m w with Some (a, w) => f a w | None => None end.

Definition access {A} (f : world -> option A) : R A := fun w =>
  match f w with Some a => Some (a, w) | None => None end.
Definition gets {A} (f : world -> A) : R A := fun w => Some (f w, w).
Definition modify (f : world -> world) : R unit := fun w => Some (tt, f w).
Definition when (b : bool) (m : R unit) : R unit := if b then m else mret tt.
Definition lift {A} (m : Live.M A) : R A := fun w =>
  match m (net w) with Some (a, n) => Some (a, set_net n w) | None => None end.
Definition on_disk {A} (f : disk -> A * disk) : R A := fun w =>
  let '(a, d) := f (store w) in Some (a, set_store d w).

Definition rsession_of (i : sid) : R rsession := access (fun w => rsess w !! i).
Definition upd_rsession (i : sid) (f : rsession -> rsession) : R unit :=
  s ← rsession_of i; modify (fun w => set_rsess (<[i := f s]> (rsess w)) w).
Definition set_rctx c s := RSess (auto_pushed s) (app_conf s) c.
Definition set_app_conf a s := RSess (auto_pushed s) a (rctx s).

(** [&rctx[n]] of the context of a session that has one. *)
Definition lookup_rec (w : world) (i : sid) (n : nat) : option ngx_rtmp_record_rec_ctx_t :=
  s ← rsess w !! i; c ← rctx s; rec c !! n.
Definition rec_of (i : sid) (n : nat) : R ngx_rtmp_record_rec_ctx_t := access (fun w => lookup_rec w i n).
Definition put_rec (n : nat) (r : ngx_rtmp_record_rec_ctx_t) (c : ngx_rtmp_record_ctx_t) :=
  Ctx (<[n := r]> (rec c)) (name c) (args c).
Definition upd_rec (i : sid) (n : nat) (f : ngx_rtmp_record_rec_ctx_t -> ngx_rtmp_record_rec_ctx_t) : R unit :=
  r ← rec_of i n;
  upd_rsession i (fun s => set_rctx (put_rec n (f r) <$> rctx s) s).

Section Conf.
Context (cscf : Chunk.ngx_rtmp_core_srv_conf_t).
(** The recorders of the application of a session; none without the module. *)
Context (racf : sid -> list ngx_rtmp_record_app_conf_t).
(** [strftime(p, max, suffix, localtime(timestamp))]. *)
Context (strftime : Z -> list Z -> Z -> list Z).
(** [ngx_rtmp_record_done] of recorder and path. *)
Context (ngx_rtmp_record_done : sid -> option string -> list Z -> R ngx_rc).

(* ------------------------------------------------------------------ *)
(** ** The path *)

Definition uri_component : list Z :=
  [0xffffffff; 0xfc009fff; 0x78000001; 0xb8000001; 0xffffffff; 0xffffffff; 0xffffffff; 0xffffffff].

Definition must_escape (c : Z) : bool :=
  Z.testbit (default 0 (uri_component !! Z.to_nat (Z.shiftr c 5))) (Z.land c 0x1f).

(** [ngx_escape_uri] of type [NGX_ESCAPE_URI_COMPONENT]. *)
Definition escape_byte (c : Z) : list Z :=
  if must_escape c
  then [37; Dash.hex_digit (Z.shiftr c 4); Dash.hex_digit (Z.land c 0xf)]
  else [c].
Definition ngx_escape_uri (src : list Z) : list Z := concat (map escape_byte src).

(** Writes to [pbuf], [p] being what is there; [None] behind its end. *)
Definition put (x p : list Z) : option (list Z) :=
  if Z.of_nat (length p + length x) <=? NGX_MAX_PATH + 1 then Some (p ++ x) else None.
(** [l - p]. *)
Definition left (p : list Z) : Z := NGX_MAX_PATH - Z.of_nat (length p).
(** [ngx_cpymem(p, x, n)] with an [n] that was signed. *)
Definition put_n (n : Z) (x p : list Z) : option (list Z) :=
  if n <? 0 then None else put (take (Z.to_nat n) x) p.

Definition record_path (rracf : ngx_rtmp_record_app_conf_t) (nm : list Z) (ts : Z) : option (list Z) :=
  p ← put_n (Z.min (Z.of_nat (length (path rracf))) (u64 (left [] - 1))) (path rracf) [];
  p ← put [47] p;
  p ← put (ngx_escape_uri (take (Z.to_nat (Z.min (Z.of_nat (length nm)) (u64 (left p)))) nm)) p;
  p ← (if unique rracf
       then let t := 45 :: Dash.sdec 0 48 ts in put_n (Z.min (Z.of_nat (length t)) (left p)) t p
       else Some p);
  p ← (if bool_decide (37 ∈ suffix rracf)
       then put (strftime (u64 (left p)) (suffix rracf) ts) p
       else put_n (Z.min (Z.of_nat (length (suffix rracf))) (u64 (left p))) (suffix rracf) p);
  (* the terminator *)
  q ← put [0] p; Some p.

Definition ngx_rtmp_record_make_path (i : sid) (n : nat) : R (list Z) :=
  r ← rec_of i n;
  c ← access (fun w => s ← rsess w !! i; rctx s);
  access (fun _ => record_path (conf r) (name c) (timestamp r)).

(* ------------------------------------------------------------------ *)
(** ** Opening *)

Definition send_status (i : sid) (code level : string) (rracf : ngx_rtmp_record_app_conf_t) : R unit :=
  rc ← lift (Live.ngx_rtmp_send_status cscf i code level (default EmptyString (id rracf))); mret tt.

Definition ngx_rtmp_record_notify_error (i : sid) (n : nat) : R unit :=
  upd_rec i n set_failed;;
  r ← rec_of i n;
  when (notify (conf r)) (send_status i "NetStream.Record.Failed" "error" (conf r)).

(** Where a recorder goes on in a file that is there: the offset, and the time
    of its last tag. *)
Definition append_point (f : ngx_file_t) (d : disk) : (Z * Z) * disk :=
  match lseek_end f d with
  | (None, d) => ((-1, 0), d)
  | (Some file_size, d) =>
      if file_size <? 4 then ((file_size, 0), d)
      else
        match ngx_read_file f 4 (file_size - 4) d with
        | (Some (b0 :: b1 :: b2 :: b3 :: nil), f, d) =>
            let tag_size := be_val [b0; b1; b2; b3] in
            if (tag_size =? 0) || (file_size <? u32 (tag_size + 4)) then ((0, 0), d)
            else
              match ngx_read_file f 8 (file_size - tag_size - 4) d with
              | (Some (c0 :: c1 :: c2 :: c3 :: c4 :: c5 :: c6 :: c7 :: nil), _, d) =>
                  let mlen := be_val [c1; c2; c3] in
                  if negb (tag_size =? u32 (mlen + 11)) then ((file_size, 0), d)
                  else ((file_size, be_val [c7; c4; c5; c6]), d)
              | (_, _, d) => ((file_size, 0), d)
              end
        | (_, _, d) => ((file_size, 0), d)
        end
  end.

Definition ngx_rtmp_record_node_open (i : sid) (n : nat) : R ngx_rc :=
  r ← rec_of i n;
  match fd (file r) with
  | Some _ => mret NGX_AGAIN
  | None =>
      sec ← gets (fun w => Live.ngx_time (net w));
      ms ← gets msec;
      let rracf := conf r in
      upd_rec i n (fun _ =>
        Rec rracf (NgxFile (Some 0%nat) 0) 0 0 0 (sec, ms) sec false false false false false false false);;
      p ← ngx_rtmp_record_make_path i n;
      k ← on_disk (ngx_open_file p (if append rracf then CreateOrOpen else Truncate));
      upd_rec i n (set_file (NgxFile k 0));;
      match k with
      | None => ngx_rtmp_record_notify_error i n;; mret NGX_OK
      | Some _ =>
          when (notify rracf) (send_status i "NetStream.Record.Start" "status" rracf);;
          when (append rracf) (
            '(off, t) ← on_disk (append_point (NgxFile k 0));
            upd_rec i n (fun r => set_time_shift t (set_file (NgxFile k off) r)));;
          mret NGX_OK
      end
  end.

(* ------------------------------------------------------------------ *)
(** ** Writing *)

(** [ngx_write_file(&rctx->file, buf, size, offset)]. *)
Definition write_at (i : sid) (n : nat) (buf : list Z) (off : Z) : R bool :=
  r ← rec_of i n;
  '(ok, f) ← on_disk (fun d => let '(ok, f, d) := ngx_write_file (file r) buf off d in ((ok, f), d));
  upd_rec i n (set_file f);;
  mret ok.
(** With [rctx->file.offset]. *)
Definition write (i : sid) (n : nat) (buf : list Z) : R bool :=
  r ← rec_of i n; write_at i n buf (offset (file r)).

Definition flv_header : list Z := [0x46; 0x4c; 0x56; 0x01; 0x05; 0x00; 0x00; 0x00; 0x09; 0x00; 0x00; 0x00; 0x00].

Definition ngx_rtmp_record_write_header (i : sid) (n : nat) : R bool := write_at i n flv_header 0.

(** The end of [ngx_rtmp_record_node_close]: [ngx_rtmp_record_done] with the
    configuration of the recorder in place. *)
Definition report (i : sid) (n : nat) (rracf : ngx_rtmp_record_app_conf_t) : R ngx_rc :=
  s ← rsession_of i;
  let saved := app_conf s in
  when (bool_decide (is_Some (rec_conf rracf)))
    (upd_rsession i (set_app_conf (default saved (rec_conf rracf))));;
  p ← ngx_rtmp_record_make_path i n;
  rc ← ngx_rtmp_record_done i (id rracf) p;
  upd_rsession i (set_app_conf saved);;
  mret rc.

Definition ngx_rtmp_record_node_close (i : sid) (n : nat) : R ngx_rc :=
  r ← rec_of i n;
  let rracf := conf r in
  match fd (file r) with
  | None => mret NGX_AGAIN
  | Some _ =>
      when (initialized r) (
        ok ← write_at i n [(if video r then 1 else 0) + (if audio r then 4 else 0)] 4; mret tt);;
      ok ← on_disk (ngx_close_file (fd (file r)));
      when (negb ok) (ngx_rtmp_record_notify_error i n);;
      upd_rec i n (fun r => set_file (NgxFile None (offset (file r))) r);;
      when (notify rracf) (send_status i "NetStream.Record.Stop" "status" rracf);;
      report i n rracf
  end.

(** [(ngx_int_t) x] of a [size_t]. *)
Definition to_int (x : Z) : Z := if x <? 2 ^ 63 then x else x - 2 ^ 64.

(** The 11 bytes in front of the body of a tag. *)
Definition tag_header (ty mlen ts : Z) : list Z :=
  u8 ty :: be_bytes 3 mlen ++ be_bytes 3 ts ++ [Z.land (Z.shiftr ts 24) 255] ++ [0; 0; 0].

(** The time of a frame in the file. *)
Definition frame_time (ts ep : Z) : Z :=
  let t := u32 (ts - ep) in if s32 t <? 0 then 0 else t.

Fixpoint write_body (i : sid) (n : nat) (ins : list (list Z)) : R bool :=
  match ins with
  | [] => mret true
  | [] :: ins => write_body i n ins
  | b :: ins => ok ← write i n b; if ok : bool then write_body i n ins else mret false
  end.

Definition limit_reached (r : ngx_rtmp_record_rec_ctx_t) : bool :=
  let rracf := conf r in
  (negb (max_size rracf =? 0) && (to_int (max_size rracf) <=? offset (file r)))
  || (negb (max_frames rracf =? 0) && (max_frames rracf <=? nframes r)).

Definition ngx_rtmp_record_write_frame (i : sid) (n : nat) (h : Chunk.ngx_rtmp_header_t)
    (ins : list (list Z)) (inc_nframes : Z) : R ngx_rc :=
  upd_rec i n (set_av (Chunk.type h =? NGX_RTMP_MSG_VIDEO));;
  r ← rec_of i n;
  let t := frame_time (Chunk.timestamp h) (epoch r) in
  ok ← write i n (tag_header (Chunk.type h) (Chunk.mlen h) t);
  if negb ok then
    ngx_rtmp_record_notify_error i n;;
    r ← rec_of i n;
    closed ← on_disk (ngx_close_file (fd (file r)));
    mret NGX_ERROR
  else
    ok ← write_body i n ins;
    if negb ok then mret NGX_ERROR
    else
      ok ← write i n (be_bytes 4 (u32 (11 + Chunk.mlen h)));
      if negb ok then mret NGX_ERROR
      else
        upd_rec i n (fun r => set_nframes (u64 (nframes r + inc_nframes)) r);;
        r ← rec_of i n;
        when (limit_reached r) (rc ← ngx_rtmp_record_node_close i n; mret tt);;
        mret NGX_OK.

(** [ngx_rtmp_record_get_chain_mlen]. *)
Definition ngx_rtmp_record_get_chain_mlen (ins : list (list Z)) : Z := Z.of_nat (length (concat ins)).

(* ------------------------------------------------------------------ *)
(** ** Frames *)

(** The byte behind an empty buffer. *)
Context (stale : Z).

Definition key_frame (ins : list (list Z)) : bool :=
  Live.ngx_rtmp_get_video_frame_type stale ins =? Live.NGX_RTMP_VIDEO_KEY_FRAME.

(** Whether the interval of a recorder is over. *)
Definition interval_over (r : ngx_rtmp_record_rec_ctx_t) (sec ms : Z) : bool :=
  let m := u64 (snd (last r) + interval (conf r)) in
  let next_sec := fst (last r) + m / 1000 in
  let next_msec := m mod 1000 in
  (next_sec <? sec) || ((sec =? next_sec) && (next_msec <? ms)).

(** The start of [ngx_rtmp_record_node_av]: opens and rotates the file. *)
Definition rotate (i : sid) (n : nat) (brkframe : bool) : R unit :=
  r ← rec_of i n;
  let rracf := conf r in
  when (brkframe && negb (has (flags rracf) NGX_RTMP_RECORD_MANUAL)) (
    if negb (interval rracf =? NGX_CONF_UNSET_MSEC) then
      sec ← gets (fun w => Live.ngx_time (net w));
      ms ← gets msec;
      when (interval_over r sec ms) (
        rc ← ngx_rtmp_record_node_close i n;
        rc ← ngx_rtmp_record_node_open i n; mret tt)
    else when (negb (failed r)) (rc ← ngx_rtmp_record_node_open i n; mret tt)).

(** The frames a recorder is not for. *)
Definition unwanted (rracf : ngx_rtmp_record_app_conf_t) (ty : Z) (keyframe : bool) : bool :=
  ((ty =? NGX_RTMP_MSG_AUDIO) && negb (has (flags rracf) NGX_RTMP_RECORD_AUDIO))
  || ((ty =? NGX_RTMP_MSG_VIDEO) && negb (has (flags rracf) NGX_RTMP_RECORD_VIDEO)
      && (negb (has (flags rracf) NGX_RTMP_RECORD_KEYFRAMES) || negb keyframe)).

(** The header of the file; [false] when it could not be written. *)
Definition initialize (i : sid) (n : nat) (h : Chunk.ngx_rtmp_header_t) : R bool :=
  r ← rec_of i n;
  if initialized r then mret true
  else
    upd_rec i n (set_initialized (u32 (Chunk.timestamp h - time_shift r)));;
    if negb (offset (file r) =? 0) then mret true
    else
      ok ← ngx_rtmp_record_write_header i n;
      if ok : bool then mret true
      else rc ← ngx_rtmp_record_node_close i n; mret false.

(** A codec header; [false] when it could not be written. *)
Definition codec_header (i : sid) (n : nat) (h : Chunk.ngx_rtmp_header_t) (ty : Z)
    (sent : ngx_rtmp_record_rec_ctx_t -> bool) (mark : ngx_rtmp_record_rec_ctx_t -> ngx_rtmp_record_rec_ctx_t)
    (l : option Shared.loc) (mask : Z) : R bool :=
  r ← rec_of i n;
  match l with
  | Some l =>
      if negb (sent r) && has (flags (conf r)) mask then
        ins ← lift (Live.chain_data l);
        let ch := Chunk.Hdr (Chunk.csid h) (Chunk.timestamp h) (ngx_rtmp_record_get_chain_mlen ins) ty
                    (Chunk.msid h) in
        rc ← ngx_rtmp_record_write_frame i n ch ins 0;
        if Live.is_ok rc then upd_rec i n mark;; mret true else mret false
      else mret true
  | None => mret true
  end.

Definition codec_headers (i : sid) (n : nat) (h : Chunk.ngx_rtmp_header_t)
    (cc : option Codec.ngx_rtmp_codec_ctx_t) : R bool :=
  match cc with
  | None => mret true
  | Some cc =>
      ok ← codec_header i n h NGX_RTMP_MSG_AUDIO aac_header_sent set_aac_header_sent
             (Codec.aac_header (Codec.chains cc)) NGX_RTMP_RECORD_AUDIO;
      if ok : bool then
        codec_header i n h NGX_RTMP_MSG_VIDEO avc_header_sent set_avc_header_sent
          (Codec.avc_header (Codec.chains cc)) (Z.lor NGX_RTMP_RECORD_VIDEO NGX_RTMP_RECORD_KEYFRAMES)
      else mret false
  end.

Definition codec_is (cc : option Codec.ngx_rtmp_codec_ctx_t) (f : Codec.ngx_rtmp_codec_ctx_t -> Z) (v : Z) : bool :=
  match cc with Some cc => f cc =? v | None => false end.
Definition is_h264 cc := codec_is cc (fun cc => Codec.video_codec_id (Codec.video cc)) Codec.NGX_RTMP_VIDEO_H264.
Definition is_aac cc := codec_is cc (fun cc => Codec.audio_codec_id (Codec.audio cc)) Codec.NGX_RTMP_AUDIO_AAC.

(** A key frame the recording may start with. *)
Definition starts (cc : option Codec.ngx_rtmp_codec_ctx_t) (ins : list (list Z)) : bool :=
  key_frame ins &&
  ((bool_decide (is_Some cc) && negb (is_h264 cc)) || negb (Codec.ngx_rtmp_is_codec_header (Receive.in_buf0 ins))).

(** Whether the frame is written, and what is noted of it. *)
Definition ready (cc : option Codec.ngx_rtmp_codec_ctx_t) (ty : Z) (ins : list (list Z))
    (r : ngx_rtmp_record_rec_ctx_t) : bool * ngx_rtmp_record_rec_ctx_t :=
  if ty =? NGX_RTMP_MSG_VIDEO then
    if is_h264 cc && negb (avc_header_sent r) then (false, r)
    else
      let r := if starts cc ins then set_video_key_sent r else r in
      (video_key_sent r, r)
  else (negb (is_aac cc && negb (aac_header_sent r)), r).

Definition ngx_rtmp_record_node_av (i : sid) (n : nat) (h : Chunk.ngx_rtmp_header_t) (ins : list (list Z)) : R ngx_rc :=
  r ← rec_of i n;
  let rracf := conf r in
  let ty := Chunk.type h in
  if has (flags rracf) NGX_RTMP_RECORD_OFF then rc ← ngx_rtmp_record_node_close i n; mret NGX_OK
  else
    let keyframe := (ty =? NGX_RTMP_MSG_VIDEO) && key_frame ins in
    let brkframe := if ty =? NGX_RTMP_MSG_VIDEO then keyframe
                    else negb (has (flags rracf) NGX_RTMP_RECORD_VIDEO) in
    rotate i n brkframe;;
    r ← rec_of i n;
    if has (flags rracf) NGX_RTMP_RECORD_MANUAL && negb brkframe && (nframes r =? 0) then mret NGX_OK
    else if bool_decide (fd (file r) = None) then mret NGX_OK
    else if unwanted rracf ty keyframe then mret NGX_OK
    else
      ok ← initialize i n h;
      if negb ok then mret NGX_OK
      else
        cc ← access (fun w => Live.codec <$> Live.sessions (net w) !! i);
        ok ← codec_headers i n h cc;
        if negb ok then mret NGX_OK
        else
          r ← rec_of i n;
          let '(ok, r') := ready cc ty ins r in
          upd_rec i n (fun _ => r');;
          if ok : bool then ngx_rtmp_record_write_frame i n h ins 1 else mret NGX_OK.

(** The nodes of a session. *)
Fixpoint for_nodes (l : list nat) (f : nat -> R unit) : R unit :=
  match l with [] => mret tt | n :: l => f n;; for_nodes l f end.

Definition ngx_rtmp_record_av (i : sid) (h : Chunk.ngx_rtmp_header_t) (ins : list (list Z)) : R ngx_rc :=
  s ← rsession_of i;
  match rctx s with
  | None => mret NGX_OK
  | Some c =>
      for_nodes (seq 0 (length (rec c))) (fun n => rc ← ngx_rtmp_record_node_av i n h ins; mret tt);;
      mret NGX_OK
  end.

(* ------------------------------------------------------------------ *)
(** ** Start and stop *)

Definition new_rec (rracf : ngx_rtmp_record_app_conf_t) : ngx_rtmp_record_rec_ctx_t :=
  Rec rracf (NgxFile None 0) 0 0 0 (0, 0) 0 false false false false false false false.

Definition ngx_rtmp_record_init (i : sid) : R unit :=
  s ← rsession_of i;
  match rctx s, racf i with
  | Some _, _ => mret tt
  | None, [] => mret tt
  | None, l => upd_rsession i (set_rctx (Some (Ctx (map new_rec l) [] [])))
  end.

Definition ngx_rtmp_record_start (i : sid) : R unit :=
  s ← rsession_of i;
  match racf i, rctx s with
  | [], _ => mret tt
  | _, None => mret tt
  | _, Some c =>
      for_nodes (seq 0 (length (rec c))) (fun n =>
        r ← rec_of i n;
        when (negb (has (flags (conf r)) (Z.lor NGX_RTMP_RECORD_OFF NGX_RTMP_RECORD_MANUAL)))
          (rc ← ngx_rtmp_record_node_open i n; mret tt))
  end.

Definition ngx_rtmp_record_stop (i : sid) : R unit :=
  s ← rsession_of i;
  match racf i, rctx s with
  | [], _ => mret tt
  | _, None => mret tt
  | _, Some c => for_nodes (seq 0 (length (rec c))) (fun n => rc ← ngx_rtmp_record_node_close i n; mret tt)
  end.

(** Up to the first [/../]. *)
Fixpoint cut_name (l : list Z) : list Z :=
  match l with
  | [] => []
  | 47 :: 46 :: 46 :: 47 :: _ => []
  | c :: l => c :: cut_name l
  end.

(** [NULL] when there is no such node; without recorders the code reads
    through the missing context. *)
Definition ngx_rtmp_record_get_node_ctx (i : sid) (n : Z) : R (option nat) :=
  ngx_rtmp_record_init i;;
  c ← access (fun w => s ← rsess w !! i; rctx s);
  mret (if Z.of_nat (length (rec c)) <=? n then None else Some (Z.to_nat n)).

(** The manual control; the path for the caller, when the call succeeds. *)
Definition ngx_rtmp_record_open (i : sid) (n : Z) : R (ngx_rc * option (list Z)) :=
  k ← ngx_rtmp_record_get_node_ctx i n;
  match k with
  | None => mret (NGX_ERROR, None)
  | Some k =>
      rc ← ngx_rtmp_record_node_open i k;
      if Live.is_ok rc then p ← ngx_rtmp_record_make_path i k; mret (NGX_OK, Some p) else mret (rc, None)
  end.

Definition ngx_rtmp_record_close (i : sid) (n : Z) : R (ngx_rc * option (list Z)) :=
  k ← ngx_rtmp_record_get_node_ctx i n;
  match k with
  | None => mret (NGX_ERROR, None)
  | Some k =>
      rc ← ngx_rtmp_record_node_close i k;
      if Live.is_ok rc then p ← ngx_rtmp_record_make_path i k; mret (NGX_OK, Some p) else mret (rc, None)
  end.

(** The index of the recorder called [x]. *)
Fixpoint ngx_rtmp_record_find (l : list ngx_rtmp_record_app_conf_t) (x : list Z) : option nat :=
  match l with
  | [] => None
  | c :: l =>
      let y := str (default EmptyString (id c)) in
      if (length y =? length x)%nat && Amf.strncmp_eq (length x) y x then Some 0%nat
      else S <$> ngx_rtmp_record_find l x
  end.

Section Chain.
Context (next_publish : sid -> Live.ngx_rtmp_publish_t -> R ngx_rc)
        (next_stream_begin next_stream_eof next_close_stream : sid -> R ngx_rc).

Definition unless_pushed (i : sid) (m : R unit) : R unit :=
  s ← rsession_of i; when (negb (auto_pushed s)) m.

Definition ngx_rtmp_record_publish (i : sid) (v : Live.ngx_rtmp_publish_t) : R ngx_rc :=
  unless_pushed i (when (negb (bool_decide (racf i = []))) (
    ngx_rtmp_record_init i;;
    upd_rsession i (fun s => set_rctx (
      (fun c => Ctx (rec c) (cut_name (Live.pv_name v)) (Live.pv_args v)) <$> rctx s) s);;
    ngx_rtmp_record_start i));;
  next_publish i v.

Definition ngx_rtmp_record_stream_begin (i : sid) : R ngx_rc :=
  unless_pushed i (ngx_rtmp_record_start i);; next_stream_begin i.
Definition ngx_rtmp_record_stream_eof (i : sid) : R ngx_rc :=
  unless_pushed i (ngx_rtmp_record_stop i);; next_stream_eof i.
Definition ngx_rtmp_record_close_stream (i : sid) : R ngx_rc :=
  unless_pushed i (ngx_rtmp_record_stop i);; next_close_stream i.

End Chain.
End Conf.

End Recorder.
