(* ===== verification/LiveOut.v ===== *)
(** * The output side of a worker process

    Live.v sends to many sessions over one pool of shared buffers.  Here is
    what the operations it uses promise: [pool_ok] accounts every reference to
    the queue of a session, to the codec context of a session or to the caller,
    [output] is everything a session was given to send, and [same_shape] says that
    nothing else of the process changed. *)

From Stdlib Require Import ZArith Lia.
From stdpp Require Import base numbers list strings gmap.
From S2P Require Import Prelude Buf Bandwidth Double Chunk Shared Queue Amf Receive Send AmfSend Codec Live.

Module LiveOut.

Import Shared.
Import Live.

#[local] Existing Instance Queue.owned_perm.

(* ------------------------------------------------------------------ *)
(** ** References *)

Definition sess_refs (s : session) : list loc := Queue.pending (queue s) ++ Codec.ctx_refs (codec s).
Definition refs (ss : gmap sid session) : list loc :=
  concat (map (fun x => sess_refs x.2) (map_to_list ss)).

#[export] Instance concat_perm {A} : Proper ((≡ₚ) ==> (≡ₚ)) (@concat A).
Proof.
  intros l l' H. induction H as [|x l l' H IH|x y l|l1 l2 l3 H1 IH1 H2 IH2]; cbn [concat]; [done|..].
  - now rewrite IH.
  - now rewrite !app_assoc, (Permutation_app_comm y x).
  - now rewrite IH1.
Qed.

Lemma refs_focus ss i s : ss !! i = Some s -> refs ss ≡ₚ sess_refs s ++ refs (delete i ss).
Proof.
  intros E. unfold refs. rewrite <- (map_to_list_delete ss i s E). done.
Qed.

Lemma refs_insert ss i s : refs (<[i := s]> ss) ≡ₚ sess_refs s ++ refs (delete i ss).
Proof.
  rewrite (refs_focus (<[i := s]> ss) i s) by apply lookup_insert_eq.
  now rewrite delete_insert_eq.
Qed.

Lemma refs_elem ss i s l : ss !! i = Some s -> l ∈ sess_refs s -> l ∈ refs ss.
Proof. intros E Hl. rewrite (refs_focus _ _ _ E). apply elem_of_app. auto. Qed.

Lemma refs_length ss n : (forall i s, ss !! i = Some s -> (length (sess_refs s) <= n)%nat) ->
  (length (refs ss) <= size ss * n)%nat.
Proof.
  intros H. unfold refs. rewrite <- length_map_to_list.
  assert (Forall (fun x => (length (sess_refs x.2) <= n)%nat) (map_to_list ss)) as HF.
  { apply Forall_forall. intros [i s] Hin%elem_of_map_to_list. eauto. }
  induction HF as [|x l Hx HF IH]; cbn [map concat length]; [lia|]. rewrite length_app. lia.
Qed.

Lemma occ_length l ls : Queue.occ l ls <= Z.of_nat (length ls).
Proof. induction ls as [|k ls IH]; cbn [Queue.occ length]; [lia|]. case_decide; lia. Qed.

(** The references of codec contexts. *)
Definition codec_refs (ss : gmap sid session) : list loc :=
  concat (map (fun x => Codec.ctx_refs (codec x.2)) (map_to_list ss)).

Lemma codec_refs_elem ss l : l ∈ codec_refs ss <->
  exists i s, ss !! i = Some s /\ l ∈ Codec.ctx_refs (codec s).
Proof.
  unfold codec_refs. rewrite list_elem_of_In, in_concat. split.
  - intros (x & ([i s] & <- & Hin)%in_map_iff & Hl). exists i, s.
    rewrite <- elem_of_map_to_list, !list_elem_of_In. auto.
  - intros (i & s & E & Hl). exists (Codec.ctx_refs (codec s)). split; [|now apply list_elem_of_In].
    apply in_map_iff. exists (i, s). split; [done|]. now apply list_elem_of_In, elem_of_map_to_list.
Qed.

Lemma codec_in_refs ss l : l ∈ codec_refs ss -> l ∈ refs ss.
Proof. intros (i & s & E & Hl)%codec_refs_elem. eapply refs_elem; [exact E|]. apply elem_of_app. auto. Qed.

(* ------------------------------------------------------------------ *)
(** ** What sending leaves of a session *)

Definition consts (q : Queue.session) := (Queue.hls q, Queue.is_relay q, Queue.out_queue q).

Lemma next_buf_consts p q c p' q' l : Queue.next_buf p q c = Some (p', q', l) -> consts q' = consts q.
Proof.
  unfold Queue.next_buf. destruct (next c) as [k|]; [now intros [= _ <- _]|].
  destruct (Queue.slot q (Queue.out_pos q)) as [k|]; [|done]. rewrite some_bind.
  destruct (ngx_rtmp_free_shared_chain p k) as [p1|]; [|done]. rewrite some_bind. cbv zeta.
  case_if; [now intros [= _ <- _]|].
  destruct (Queue.slot _ _) as [k'|]; [|done]. rewrite some_bind. now intros [= _ <- _].
Qed.

Lemma send_loop_consts now evs : forall p q w e p' q' w',
  Queue.send_loop now evs p q w = Some (e, p', q', w') -> consts q' = consts q.
Proof.
  induction evs as [|ev evs IH]; intros p q w e p' q' w'; cbn [Queue.send_loop];
    destruct (Queue.out_chain q) as [l|]; try (now intros [= _ _ <- _]).
  destruct ev as [n|]; [|now intros [= _ _ <- _]].
  destruct (cells p !! l) as [c|]; [|done]. rewrite some_bind. cbv zeta.
  case_if; [now intros [= _ _ <- _]|]. case_if; [|now intros H%IH].
  destruct (Queue.next_buf _ _ _) as [[[p1 q1] [l1|]]|] eqn:Eb; [..|done]; rewrite some_bind;
    apply next_buf_consts in Eb.
  - destruct (cells p1 !! l1); [|done]. rewrite some_bind. intros H%IH. etransitivity; [exact H|exact Eb].
  - intros [= _ _ <- _]. exact Eb.
Qed.

Lemma queue_message_consts now d t evs p q l prio rc e p' q' w :
  Queue.queue_message now d t evs p q l prio = Some (rc, e, p', q', w) -> consts q' = consts q.
Proof.
  unfold Queue.queue_message. case_if; [now intros [= _ _ _ <- _]|]. cbv zeta.
  case_if; [now intros [= _ _ _ <- _]|].
  destruct (ngx_rtmp_acquire_shared_chain p l) as [p1|]; [|done]. rewrite some_bind.
  case_if; [now intros [= _ _ _ <- _]|]. case_if; [|now intros [= _ _ _ <- _]].
  destruct (Queue.ngx_rtmp_send _ _ _ _ _ _) as [[[[e1 p2] q2] w2]|] eqn:Es; [|done]. rewrite some_bind.
  intros [= _ _ _ <- _]. unfold Queue.ngx_rtmp_send in Es. revert Es.
  case_if; [now intros [= _ _ <- _]|]. case_if; [now intros [= _ _ <- _]|].
  set (q1 := Queue.set_slot _ _ _). intros H.
  destruct (match Queue.out_chain q1 with Some _ => _ | None => _ end) as [q3|] eqn:Eq3; [|done].
  rewrite some_bind in H. apply send_loop_consts in H. rewrite H. revert Eq3.
  destruct (Queue.out_chain q1); [now intros [= <-]|]. case_if; [now intros [= <-]|].
  destruct (Queue.slot _ _); [|done]. rewrite some_bind. destruct (cells p1 !! _); [|done].
  rewrite some_bind. now intros [= <-].
Qed.

(* ------------------------------------------------------------------ *)
(** ** Queues over one pool *)

Section Limits.
(** The size of the shared buffers and the longest queue. *)
Context (size : nat) (qmax : Z).

Record queue_fine (p : pool) (live : list (list loc)) (s : session) : Prop := {
  qf_ring : Queue.ring (queue s) (Queue.pending (queue s));
  qf_current : Queue.current p (queue s) live (Queue.pending (queue s));
  qf_div : (Queue.out_queue (queue s) | 2 ^ 64);
  qf_max : Queue.out_queue (queue s) <= qmax
}.

(** What a session was given to send. *)
Definition output (p : pool) (s : session) : list Z :=
  sent (conn s) ++ Queue.remaining p (queue s) (Queue.pending (queue s)).

(** A queue in a pool that has changed elsewhere. *)
Lemma fine_frame p p' live live' others others' s :
  Queue.owned p live (Queue.pending (queue s) ++ others) ->
  Queue.owned p' live' (Queue.pending (queue s) ++ others') ->
  Queue.frames p p' live live' (Queue.pending (queue s)) -> queue_fine p live s ->
  queue_fine p' live' s /\ output p' s = output p s.
Proof.
  intros Ho Ho' Hf [H1 H2 H3 H4].
  destruct (Queue.queue_frame others others' p p' (queue s) live live' (Queue.pending (queue s)))
    as [[_ _ Hc] Hr]; [now split|done|done|].
  split; [now split|]. unfold output. now rewrite Hr.
Qed.

(** [ex] are the references of the caller. *)
Record pool_ok_at (live : list (list loc)) (ex : list loc) (w : process) : Prop := {
  po_owned : Queue.owned (mem w) live (refs (sessions w) ++ ex);
  po_queues : forall i s, sessions w !! i = Some s -> queue_fine (mem w) live s;
  po_size : chunk_size (mem w) = size;
  po_count : Z.of_nat (base.size (sessions w)) * (qmax + 3) < 2 ^ 31
}.
Definition pool_ok (ex : list loc) (w : process) : Prop := exists live, pool_ok_at live ex w.

Lemma refs_perm_ok live ex ex' w : ex ≡ₚ ex' -> pool_ok_at live ex w -> pool_ok_at live ex' w.
Proof. intros E []. constructor; auto. now rewrite <- E. Qed.

#[export] Instance pool_ok_perm : Proper ((≡ₚ) ==> eq ==> iff) pool_ok.
Proof.
  intros ex ex' E w ? <-. split; intros [live H]; exists live; (eapply refs_perm_ok; [|exact H]; done).
Qed.

(** The sessions other than [i] after a change of the pool. *)
Lemma others_fine live live' ex ex' w p' i s s' j sj :
  pool_ok_at live ex w -> sessions w !! i = Some s -> sessions w !! j = Some sj -> j <> i ->
  Queue.owned p' live' (refs (<[i := s']> (sessions w)) ++ ex') ->
  Queue.frames (mem w) p' live live' (refs (delete i (sessions w))) ->
  queue_fine p' live' sj /\ output p' sj = output (mem w) sj.
Proof.
  intros [Ho Hq _ _] Ei Ej Hne Ho' Hf.
  assert (delete i (sessions w) !! j = Some sj) as Ejd by now rewrite lookup_delete_ne by congruence.
  rewrite (refs_focus _ _ _ Ei), (refs_focus _ _ _ Ejd) in Ho.
  rewrite refs_insert, (refs_focus _ _ _ Ejd) in Ho'. unfold sess_refs at 2 in Ho. unfold sess_refs at 2 in Ho'.
  apply (fine_frame (mem w) p' live live'
    (sess_refs s ++ Codec.ctx_refs (codec sj) ++ refs (delete j (delete i (sessions w))) ++ ex)
    (sess_refs s' ++ Codec.ctx_refs (codec sj) ++ refs (delete j (delete i (sessions w))) ++ ex')).
  - revert Ho. apply Queue.owned_perm. solve_Permutation.
  - revert Ho'. apply Queue.owned_perm. solve_Permutation.
  - eapply Queue.frames_sub; [|exact Hf]. intros k Hk. eapply refs_elem; [exact Ejd|].
    apply elem_of_app. auto.
  - eauto.
Qed.

(** What every session was given to send. *)
Definition outs (w : process) : gmap sid (list Z) := output (mem w) <$> sessions w.

(** The pool changes, and session [i]. *)
Lemma session_step live live' ex ex' w w' i s s' :
  pool_ok_at live ex w -> sessions w !! i = Some s -> sessions w' = <[i := s']> (sessions w) ->
  Queue.owned (mem w') live' (refs (sessions w') ++ ex') ->
  Queue.frames (mem w) (mem w') live live' (refs (delete i (sessions w))) ->
  queue_fine (mem w') live' s' -> chunk_size (mem w') = size ->
  pool_ok_at live' ex' w' /\ outs w' = <[i := output (mem w') s']> (outs w).
Proof.
  intros Hp Ei Es Ho' Hf Hs' Hsz. rewrite Es in Ho'.
  assert (forall j sj, sessions w !! j = Some sj -> j <> i ->
    queue_fine (mem w') live' sj /\ output (mem w') sj = output (mem w) sj) as Hj.
  { intros j sj Ej Hne. apply (others_fine live live' ex ex' w (mem w') i s s' j sj); auto. }
  split.
  - split; [now rewrite Es| |done|].
    + intros j sj. rewrite Es. destruct (decide (j = i)) as [-> |Hne].
      * rewrite lookup_insert_eq. now intros [= <-].
      * rewrite lookup_insert_ne by done. intros Ej. now apply (Hj j sj Ej).
    + rewrite Es, map_size_insert_Some by eauto. apply Hp.
  - unfold outs. rewrite Es, fmap_insert. apply map_eq. intros j.
    destruct (decide (j = i)) as [-> |Hne]; [now rewrite !lookup_insert_eq|].
    rewrite !lookup_insert_ne, !lookup_fmap by done.
    destruct (sessions w !! j) as [sj|] eqn:Ej; [|done]. cbn. f_equal. now apply (Hj j sj Ej).
Qed.

(** Only the pool changes. *)
Lemma pool_step live live' ex ex' w p' :
  pool_ok_at live ex w -> Queue.owned p' live' (refs (sessions w) ++ ex') ->
  Queue.frames (mem w) p' live live' (refs (sessions w)) -> chunk_size p' = size ->
  pool_ok_at live' ex' (set_mem p' w) /\ outs (set_mem p' w) = outs w.
Proof.
  intros [Ho Hq Hsz Hc] Ho' Hf Hsz'.
  assert (forall j sj, sessions w !! j = Some sj ->
    queue_fine p' live' sj /\ output p' sj = output (mem w) sj) as Hj.
  { intros j sj Ej. rewrite (refs_focus _ _ _ Ej) in Ho, Ho'. unfold sess_refs in Ho, Ho'.
    rewrite <- !app_assoc in Ho, Ho'. eapply fine_frame; [exact Ho|exact Ho'| |eauto].
    eapply Queue.frames_sub; [|exact Hf]. intros k Hk. eapply refs_elem; [exact Ej|].
    apply elem_of_app. auto. }
  split.
  - split; [done| |done|done]. intros j sj Ej. now apply (Hj j sj Ej).
  - apply map_eq. intros j. unfold outs. cbn [set_mem mem sessions]. rewrite !lookup_fmap.
    destruct (sessions w !! j) as [sj|] eqn:Ej; [|done]. cbn. f_equal. now apply (Hj j sj Ej).
Qed.

(* ------------------------------------------------------------------ *)
(** ** The rest of the process *)

Definition sess_shape (s : session) :=
  (lctx s, codec s, relay_type s, played s, current_time s,
   (Queue.hls (queue s), Queue.is_relay (queue s), Queue.out_queue (queue s))).
Definition stream_shape : ngx_rtmp_live_stream_t -> ngx_rtmp_live_stream_t := set_bw zero_stream_bw.
Definition shape (w : process) :=
  (sess_shape <$> sessions w, stream_shape <$> heap w, (streams w, free_streams w),
   (relay_heap w, relays w), (ngx_rtmp_publishing w, ngx_rtmp_playing w), (ngx_time w, ngx_current_msec w)).

(** The messages the caller and the codec contexts refer to keep their bytes. *)
Definition stable (ex : list loc) (w w' : process) : Prop :=
  forall k, k ∈ ex ++ codec_refs (sessions w) -> Queue.chain_bytes (mem w') k = Queue.chain_bytes (mem w) k.

Lemma shape_session w w' i s : shape w' = shape w -> sessions w !! i = Some s ->
  exists s', sessions w' !! i = Some s' /\ sess_shape s' = sess_shape s.
Proof.
  intros [= E _ _ _ _ _ _ _ _ _] Ei. assert ((sess_shape <$> sessions w') !! i = Some (sess_shape s)) as H.
  { rewrite E, lookup_fmap, Ei. done. }
  rewrite lookup_fmap in H. destruct (sessions w' !! i) as [s'|]; [|done]. injection H. intros. exists s'.
  split; [done|]. unfold sess_shape. congruence.
Qed.

Lemma shape_codec w w' : shape w' = shape w -> forall k, k ∈ codec_refs (sessions w') <-> k ∈ codec_refs (sessions w).
Proof.
  intros H k. rewrite !codec_refs_elem. split; intros (i & s & E & Hk).
  - destruct (shape_session w' w i s (eq_sym H) E) as (s' & E' & [= _ Ec _ _ _ _ _ _]).
    exists i, s'. now rewrite Ec.
  - destruct (shape_session w w' i s H E) as (s' & E' & [= _ Ec _ _ _ _ _ _]).
    exists i, s'. now rewrite Ec.
Qed.

(** More output for session [i]. *)
Definition say (i : sid) (x : list Z) (o : gmap sid (list Z)) : gmap sid (list Z) :=
  alter (fun y => y ++ x) i o.

Lemma say_nil i o : say i [] o = o.
Proof. apply alter_id. intros y _. apply app_nil_r. Qed.

Lemma say_app i x y o : say i y (say i x o) = say i (x ++ y) o.
Proof. unfold say. rewrite alter_alter_eq. apply alter_ext. intros z _. cbn. now rewrite app_assoc. Qed.

Lemma say_lookup i x o : say i x o !! i = (fun y => y ++ x) <$> o !! i.
Proof. apply lookup_alter_eq. Qed.

Lemma say_other i j x o : i <> j -> say i x o !! j = o !! j.
Proof. apply lookup_alter_ne. Qed.

Lemma outs_session w i s : sessions w !! i = Some s -> outs w !! i = Some (output (mem w) s).
Proof. intros E. unfold outs. now rewrite lookup_fmap, E. Qed.

Lemma outs_say w i s x : sessions w !! i = Some s -> <[i := output (mem w) s ++ x]> (outs w) = say i x (outs w).
Proof.
  intros E%outs_session. apply map_eq. intros j. destruct (decide (i = j)) as [<- |Hne].
  - now rewrite lookup_insert_eq, say_lookup, E.
  - now rewrite lookup_insert_ne, say_other.
Qed.

(** Nothing but the pool, the queues and the connections changed; [added]
    went to the sessions. *)
Record quiet (ex : list loc) (w w' : process) (o : gmap sid (list Z)) : Prop := {
  q_shape : shape w' = shape w;
  q_stable : stable ex w w';
  q_outs : outs w' = o
}.

Lemma quiet_refl ex w : quiet ex w w (outs w).
Proof. split; [done| |done]. now intros k _. Qed.

Lemma quiet_trans ex w1 w2 w3 o2 o3 : quiet ex w1 w2 o2 -> quiet ex w2 w3 o3 -> quiet ex w1 w3 o3.
Proof.
  intros [H1 H2 _] [H3 H4 H5]. split; [congruence| |done]. intros k Hk. rewrite H4, H2; [done|done|].
  apply elem_of_app in Hk as [Hk|Hk]; apply elem_of_app; [auto|].
  right. now apply (shape_codec w1 w2).
Qed.

Lemma quiet_sub ex ex' w w' o : ex' ⊆ ex -> quiet ex w w' o -> quiet ex' w w' o.
Proof.
  intros Hs [H1 H2 H3]. split; [done| |done]. intros k Hk. apply H2.
  apply elem_of_app in Hk as [Hk|Hk]; apply elem_of_app; auto.
Qed.

Lemma bind_eq {A B} (f : A -> M B) (m : M A) w a w' : m w = Some (a, w') -> (m ≫= f) w = f a w'.
Proof. intros E. unfold mbind, M_bind. now rewrite E. Qed.

(** The bytes of everything that is referred to before and after. *)
Lemma frames_stable live live' ex ex' w p' :
  pool_ok_at live ex w -> Queue.owned p' live' (refs (sessions w) ++ ex') -> ex' ⊆ ex ->
  Queue.frames (mem w) p' live live' (refs (sessions w) ++ ex') -> stable ex' w (set_mem p' w).
Proof.
  intros [Ho _ _ _] Ho' Hs Hf k Hk. cbn [set_mem mem].
  eapply (Queue.frames_bytes (mem w) p' live live' _ (refs (sessions w) ++ ex')); [exact Ho|apply Ho'| |exact Hf|].
  - intros j [Hj|Hj]%elem_of_app; apply elem_of_app; auto.
  - apply elem_of_app in Hk as [Hk|Hk]; apply elem_of_app; auto using codec_in_refs.
Qed.

(** The caller gives up a reference. *)
Lemma free_chain_ok l ex w : pool_ok (l :: ex) w ->
  exists w', free_chain l w = Some (tt, w') /\ pool_ok ex w' /\ quiet ex w w' (outs w).
Proof.
  intros [lv H]. pose proof (po_owned _ _ _ H) as Ho. rewrite <- Permutation_middle in Ho.
  destruct (Queue.free_frames (mem w) lv l _ Ho) as (p' & lv' & E & Ho' & Hf).
  exists (set_mem p' w). unfold free_chain, on_pool. rewrite E, some_bind. split; [done|].
  destruct (pool_step lv lv' (l :: ex) ex w p' H Ho') as [Hok Houts].
  - eapply Queue.frames_sub; [|exact Hf]. intros k Hk. apply elem_of_app. auto.
  - rewrite (free_chunk_size _ _ _ E). apply H.
  - split; [now exists lv'|]. split; [done| |done].
    eapply (frames_stable lv lv' (l :: ex)); eauto. intros k. apply list_elem_of_further.
Qed.

(** A new chain of the caller. *)
Lemma new_chain_ok live ex w p' ls l k :
  pool_ok_at live ex w -> wf p' (ls :: live) -> same_chains (mem w) p' live -> head ls = Some l ->
  cells p' !! l = Some k -> ref k = 1 -> chunk_size p' = size ->
  pool_ok (l :: ex) (set_mem p' w) /\ quiet ex w (set_mem p' w) (outs w).
Proof.
  intros H Hw Hs Hh Ek Hr Hsz.
  destruct (Queue.new_owned (mem w) p' live _ ls l k (po_owned _ _ _ H) Hw Hs Hh Ek Hr) as [Ho' Hb].
  assert (Queue.owned p' (ls :: live) (refs (sessions w) ++ l :: ex)) as Ho2 by now rewrite <- Permutation_middle.
  pose proof (Send.same_frames _ _ _ ls (refs (sessions w)) Hs) as Hf.
  destruct (pool_step live (ls :: live) ex (l :: ex) w p' H Ho2 Hf Hsz) as [Hok Houts].
  split; [now exists (ls :: live)|]. split; [done| |done].
  intros j Hj. cbn [set_mem mem]. apply Hb.
  apply elem_of_app in Hj as [Hj|Hj]; apply elem_of_app; auto using codec_in_refs.
Qed.

(** [queue_message] in every case. *)
Lemma queue_any held now d t evs p q live ls l c prio :
  Queue.queue_ok held p q live (Queue.pending q) -> (Queue.out_queue q | 2 ^ 64) -> 0 <= prio ->
  ls ∈ live -> head ls = Some l -> cells p !! l = Some c -> ref c < 2 ^ 32 - 1 ->
  exists rc e p' q' wire live', Queue.queue_message now d t evs p q l prio = Some (rc, e, p', q', wire) /\
    Queue.queue_ok held p' q' live' (Queue.pending q') /\ Queue.frames p p' live live' held /\
    wire ++ Queue.remaining p' q' (Queue.pending q') = Queue.remaining p q (Queue.pending q) ++
      (if is_ok rc && negb (Queue.hls q) then Queue.chain_bytes p l else []) /\
    (rc = NGX_OK \/ rc = NGX_AGAIN /\ Queue.out_queue q <=
      Z.of_nat (length (Queue.pending q)) + 1 + Z.min 3 prio * Queue.out_queue q / 4).
Proof.
  intros Hq Hd Hp Hin Hh Ec Hr. destruct (Queue.hls q) eqn:Eh.
  { exists NGX_OK, Queue.Sent, p, q, [], live. unfold Queue.queue_message. rewrite Eh, app_nil_r.
    auto 10 using Queue.frames_refl. }
  destruct (Queue.queue_message_spec held now d t evs p q live _ ls l c prio Hq Eh Hd Hp Hin Hh Ec Hr)
    as (e & p' & q' & wire & E & H). rewrite E. clear E. revert H. case_if.
  - intros (-> & -> & -> & ->). exists NGX_AGAIN, Queue.Sent, p, q, [], live. rewrite app_nil_r.
    auto 10 using Queue.frames_refl.
  - intros (live' & pend' & Hq' & Hf & Hw).
    pose proof (Queue.ring_pending _ _ (Queue.ok_ring _ _ _ _ _ Hq')) as Ep. subst pend'.
    exists NGX_OK, e, p', q', wire, live'. auto 10.
Qed.

Lemma ctx_refs_length c : (length (Codec.ctx_refs c) <= 3)%nat.
Proof.
  destruct c as [c|]; cbn [Codec.ctx_refs length]; [|lia]. rewrite !length_app.
  destruct (Codec.avc_header _), (Codec.aac_header _), (Codec.meta _); cbn; lia.
Qed.

(** No reference count overflows. *)
Lemma count_bound live ex w l c : pool_ok_at live ex w -> Z.of_nat (length ex) < 2 ^ 31 - 2 ->
  l ∈ refs (sessions w) ++ ex -> cells (mem w) !! l = Some c -> ref c < 2 ^ 32 - 1.
Proof.
  intros [Ho Hq _ Hc] Hex Hl E. destruct (Queue.owned_ref _ _ _ Ho l c Hl E) as [-> _].
  pose proof (occ_length l (refs (sessions w) ++ ex)) as Hocc. rewrite length_app in Hocc.
  assert (length (refs (sessions w)) <= base.size (sessions w) * Z.to_nat (qmax + 3))%nat as Hlen.
  { apply refs_length. intros i s Ei. destruct (Hq i s Ei) as [Hring _ _ Hmax].
    pose proof (Queue.ring_free _ _ Hring). pose proof (ctx_refs_length (codec s)).
    unfold sess_refs. rewrite length_app. lia. }
  destruct (decide (base.size (sessions w) = 0%nat)) as [H0|H0]; [rewrite H0 in Hlen; lia|].
  destruct (Z.le_gt_cases 0 (qmax + 3)) as [Hm|Hm]; [nia|].
  replace (Z.to_nat (qmax + 3)) with 0%nat in Hlen by lia. lia.
Qed.

(** A chain that is referred to. *)
Lemma ref_chain p live rs l : Queue.owned p live rs -> l ∈ rs ->
  exists ls c, ls ∈ live /\ head ls = Some l /\ cells p !! l = Some c /\ fits p (buf c).
Proof.
  intros Ho Hl. destruct (Queue.owned_live _ _ _ Ho l Hl) as (ls & Hin & Hh).
  destruct (Queue.live_seg _ _ _ (Queue.owned_wf _ _ _ Ho) Hin) as [Hs _].
  destruct (seg_cell _ _ _ _ l Hs (Queue.head_elem _ _ Hh)) as [c Ec].
  exists ls, c. do 3 (split; [done|]). exact (wf_bufs _ _ (Queue.owned_wf _ _ _ Ho) l c Ec).
Qed.

Lemma frames_size p p' live live' rs rs' l : Queue.owned p live rs -> Queue.owned p' live' rs' ->
  Queue.frames p p' live live' [l] -> l ∈ rs -> chunk_size p' = chunk_size p.
Proof.
  intros Ho Ho' Hf Hl. destruct (ref_chain p live rs l Ho Hl) as (ls & c & Hin & Hh & Ec & [_ Hb]).
  destruct (Hf ls l Hin Hh (list_elem_of_here _ _)) as [_ Hj].
  specialize (Hj l (Queue.head_elem _ _ Hh)). rewrite Ec in Hj.
  destruct (cells p' !! l) as [c'|] eqn:Ec'; [|done]. injection Hj as _ Eb.
  destruct (wf_bufs _ _ (Queue.owned_wf _ _ _ Ho') l c' Ec') as [_ Hb']. rewrite Eb in Hb'. lia.
Qed.

Lemma store_counters_keeps s t w : shape (store_counters s t w) = shape w /\
  mem (store_counters s t w) = mem w /\ sessions (store_counters s t w) = sessions w.
Proof.
  unfold store_counters. cbv zeta. destruct (lctx s ≫= _) as [[st x]|] eqn:E; [|done].
  destruct (Queue.stream_bw t) as [[o b]|]; [|done]. split; [|done].
  unfold shape. cbn [set_heap set_totals sessions heap streams free_streams relay_heap relays
    ngx_rtmp_publishing ngx_rtmp_playing ngx_time ngx_current_msec].
  assert (heap w !! st = Some x) as Ex.
  { destruct (lctx s) as [c|]; [|done]. cbn in E. destruct (stream c) as [st'|]; [|done]. cbn in E.
    destruct (heap w !! st') as [x'|] eqn:Ex; [|done]. now injection E as -> ->. }
  rewrite fmap_insert. change (stream_shape (set_bw (set_bw_out o b (bw x)) x)) with (stream_shape x).
  rewrite <- fmap_insert, insert_id by done. done.
Qed.

Lemma sess_shape_insert (ss : gmap sid session) i s s' : ss !! i = Some s -> sess_shape s' = sess_shape s ->
  sess_shape <$> <[i := s']> ss = sess_shape <$> ss.
Proof. intros E H. now rewrite fmap_insert, H, <- fmap_insert, insert_id. Qed.

(** What is held beside the queue of session [i]. *)
Definition held (ss : gmap sid session) (i : sid) (s : session) (ex : list loc) : list loc :=
  Codec.ctx_refs (codec s) ++ refs (delete i ss) ++ ex.

Lemma held_elem ss i s ex k : ss !! i = Some s -> k ∈ ex ++ codec_refs ss -> k ∈ held ss i s ex.
Proof.
  intros Ei Hk. unfold held.
  apply elem_of_app in Hk as [Hk|Hk]; [apply elem_of_app; right; apply elem_of_app; auto|].
  apply codec_refs_elem in Hk as (j & sj & Ej & Hk). destruct (decide (j = i)) as [-> |Hne].
  - apply elem_of_app. left. congruence.
  - apply elem_of_app. right. apply elem_of_app. left. eapply refs_elem.
    + rewrite lookup_delete_ne by done. exact Ej.
    + apply elem_of_app. auto.
Qed.

(** The session behind a call. *)
Lemma sent_session e q wire s : consts q = consts (queue s) ->
  let c := conn s in
  let s1 := set_conn q (Conn (tail (sock c)) (sent c ++ wire) (destroyed c) (closing c)) s in
  let s' := match e with Queue.Finalized => finalize s1 | _ => s1 end in
  queue s' = q /\ sent (conn s') = sent c ++ wire /\ codec s' = codec s /\ sess_shape s' = sess_shape s.
Proof.
  intros Hk c s1 s'. assert (sess_shape s1 = sess_shape s) as E1.
  { unfold sess_shape. cbn [s1 set_conn lctx codec relay_type played current_time queue].
    injection Hk as H1 H2 H3. rewrite H1, H2, H3. done. }
  unfold s'. destruct e; [done..|]. unfold finalize. now destruct (destroyed _ && _).
Qed.

(** [ngx_rtmp_send_message]: the message goes out behind what session [i] was
    given before, or is dropped for want of room in its queue; for a session of
    HLS it goes nowhere. *)
Lemma send_message_ok ex w i s l prio :
  pool_ok ex w -> sessions w !! i = Some s -> l ∈ ex ++ codec_refs (sessions w) -> 0 <= prio ->
  Z.of_nat (length ex) < 2 ^ 31 - 2 ->
  exists rc w', ngx_rtmp_send_message i l prio w = Some (rc, w') /\ pool_ok ex w' /\
    quiet ex w w' (say i (if is_ok rc && negb (Queue.hls (queue s)) then Queue.chain_bytes (mem w) l else [])
      (outs w)) /\
    (rc = NGX_OK \/ rc = NGX_AGAIN /\ Queue.out_queue (queue s) <=
      Z.of_nat (length (Queue.pending (queue s))) + 1 + Z.min 3 prio * Queue.out_queue (queue s) / 4).
Proof.
  intros [lv H] Ei Hl Hp Hex. pose proof H as [Ho Hqs Hsz Hc].
  assert (l ∈ refs (sessions w) ++ ex) as Hl'.
  { apply elem_of_app in Hl as [Hl|Hl]; apply elem_of_app; auto using codec_in_refs. }
  destruct (ref_chain _ _ _ l Ho Hl') as (ls & c & Hin & Hh & Ec & _).
  pose proof (count_bound lv ex w l c H Hex Hl' Ec) as Hr.
  set (hd := held (sessions w) i s ex).
  assert (Queue.owned (mem w) lv (Queue.pending (queue s) ++ hd)) as Ho1.
  { revert Ho. rewrite (refs_focus _ _ _ Ei). unfold sess_refs, hd, held. now rewrite <- !app_assoc. }
  destruct (Hqs i s Ei) as [Q1 Q2 Q3 Q4].
  destruct (queue_any hd (ngx_time w) (destroyed (conn s)) false (default [] (head (sock (conn s))))
    (mem w) (load_counters w s) lv ls l c prio) as (rc & e & p' & q' & wire & lv' & E & Hq' & Hf & Hw & Hrc);
    [split; [exact (Queue.ring_eq (queue s) (load_counters w s) _ eq_refl eq_refl eq_refl eq_refl Q1)|exact Ho1|exact Q2]|done..|].
  pose proof (queue_message_consts _ _ _ _ _ _ _ _ _ _ _ _ _ E) as Hk.
  unfold ngx_rtmp_send_message. rewrite Ei. cbn [mbind option_bind]. rewrite E. cbn [mbind option_bind].
  destruct (sent_session e q' wire s Hk) as (Eq' & Esent & Ecod & Eshape). cbv zeta in *.
  set (s' := match e with Queue.Finalized => _ | _ => _ end) in *.
  set (w1 := set_mem p' _). destruct (store_counters_keeps s (Queue.counters q') w1) as (Hsh & Hm & Hss).
  set (w' := store_counters _ _ w1) in *.
  assert (chunk_size p' = size) as Hsz'.
  { rewrite (frames_size (mem w) p' lv lv' _ _ l Ho1 (Queue.ok_owned _ _ _ _ _ Hq')); [done| |].
    - eapply Queue.frames_sub; [|exact Hf]. intros k ->%list_elem_of_singleton. now apply held_elem.
    - apply elem_of_app. right. now apply held_elem. }
  destruct (session_step lv lv' ex ex w w' i s s' H Ei) as [Hok Houts].
  - now rewrite Hss.
  - rewrite Hm, Hss. cbn [w1 set_mem mem set_sessions sessions]. rewrite refs_insert. unfold sess_refs.
    rewrite Eq', Ecod, <- !app_assoc. apply Hq'.
  - rewrite Hm. eapply Queue.frames_sub; [|exact Hf]. intros k Hk'.
    apply elem_of_app. right. apply elem_of_app. auto.
  - rewrite Hm. split; rewrite ?Eq'; [apply Hq'|apply Hq'|..]; injection Hk as _ _ ->; done.
  - now rewrite Hm.
  - exists rc, w'. split; [done|]. split; [now exists lv'|]. split; [|done]. split.
    + rewrite Hsh. unfold shape. cbn [w1 set_mem set_sessions sessions heap streams free_streams relay_heap relays
        ngx_rtmp_publishing ngx_rtmp_playing ngx_time ngx_current_msec].
      now rewrite (sess_shape_insert _ i s).
    + intros k Hk'. rewrite Hm.
      eapply (Queue.frames_bytes (mem w) p' lv lv' _ hd); [exact Ho1|apply Hq'| |exact Hf|].
      * intros j Hj. apply elem_of_app. auto.
      * now apply held_elem.
    + rewrite Houts, <- (outs_say w i s) by done. f_equal. unfold output. rewrite Hm, Eq', Esent, <- !app_assoc. f_equal. exact Hw.
Qed.

(** The contents of a chain that is referred to. *)
Lemma chain_data_ok ex w l : pool_ok ex w -> l ∈ ex ++ codec_refs (sessions w) ->
  exists ins, chain_data l w = Some (ins, w) /\ ins <> [] /\ concat ins = Queue.chain_bytes (mem w) l.
Proof.
  intros [lv [Ho _ _ _]] Hl.
  assert (l ∈ refs (sessions w) ++ ex) as Hl'.
  { apply elem_of_app in Hl as [Hl|Hl]; apply elem_of_app; auto using codec_in_refs. }
  destruct (ref_chain _ _ _ l Ho Hl') as (ls & c & Hin & Hh & Ec & _).
  destruct (Queue.live_seg _ _ _ (Queue.owned_wf _ _ _ Ho) Hin) as [Hs Hlen].
  exists (map buf_data (bufs (mem w) ls)). split; [|split].
  - unfold chain_data, access. rewrite <- Hh. rewrite (Send.links_seg (mem w) ls (head ls)); done.
  - destruct ls as [|l0 ls]; [done|]. injection Hh as ->. unfold bufs. cbn [omap list_omap]. now rewrite Ec.
  - symmetry. exact (Queue.live_bytes _ _ _ _ (Queue.owned_wf _ _ _ Ho) Hin Hh).
Qed.

(** A change of a session elsewhere. *)
Lemma upd_session_ok ex w i s f : pool_ok ex w -> sessions w !! i = Some s ->
  queue (f s) = queue s -> sent (conn (f s)) = sent (conn s) -> codec (f s) = codec s ->
  let w' := set_sessions (<[i := f s]> (sessions w)) w in
  upd_session i f w = Some (tt, w') /\ pool_ok ex w' /\ outs w' = outs w.
Proof.
  intros [lv H] Ei Eq Ec Ek w'. pose proof H as [Ho Hq Hsz _]. split.
  - unfold upd_session, session_of, access, modify. unfold mbind, M_bind. now rewrite Ei.
  - destruct (session_step lv lv ex ex w w' i s (f s) H Ei eq_refl) as [Hok Houts].
    + cbn [w' set_sessions mem sessions]. rewrite refs_insert. unfold sess_refs. rewrite Eq, Ek.
      change (Queue.pending (queue s) ++ Codec.ctx_refs (codec s)) with (sess_refs s).
      now rewrite <- (refs_focus _ _ _ Ei).
    + apply Queue.frames_refl.
    + destruct (Hq i s Ei) as [Q1 Q2 Q3 Q4]. split; rewrite ?Eq; done.
    + done.
    + split; [now exists lv|]. rewrite Houts. rewrite <- (app_nil_r (output (mem w') (f s))).
      unfold output. rewrite Eq, Ec. change (mem w') with (mem w).
      change (sent (conn s) ++ Queue.remaining (mem w) (queue s) (Queue.pending (queue s))) with (output (mem w) s).
      rewrite outs_say by done. apply say_nil.
Qed.

(* ------------------------------------------------------------------ *)
(** ** New messages *)

Section Messages.
Context (cscf : Chunk.ngx_rtmp_core_srv_conf_t).
Hypothesis size_pos : (22 <= size)%nat.
Hypothesis max_streams : NGX_RTMP_CSID_VIDEO < Chunk.max_streams cscf.
Hypothesis fix_same : Chunk.play_time_fix cscf = Chunk.publish_time_fix cscf.

(** The bytes of a message with body [x] on the wire, behind one with header
    [lh]. *)
Definition wire_of (h : Chunk.ngx_rtmp_header_t) (lh : option Chunk.ngx_rtmp_header_t) (x b : list Z) : Prop :=
  exists bs out, Forall Chunk.sendable bs /\ Chunk.chunked (Z.of_nat size) (map buf_data bs) /\
    concat (map buf_data bs) = x /\ Chunk.ngx_rtmp_prepare_message cscf h lh bs = Some (Some out) /\
    b = concat (map buf_data out).

(** Headers for a chain the caller has just made. *)
Lemma prepared_ok live ex w i h lh p1 ls l ds :
  pool_ok_at live ex w -> wf p1 (ls :: live) -> same_chains (mem w) p1 live -> head ls = Some l ->
  view p1 ls = map new_link ds -> Chunk.chunked (Z.of_nat size) ds -> chunk_size p1 = size ->
  header_ok cscf h -> Z.of_nat (length (concat ds)) < 2 ^ 24 ->
  exists p', prepare cscf i h lh l (set_mem p1 w) = Some (tt, set_mem p' w) /\
    pool_ok (l :: ex) (set_mem p' w) /\ quiet ex w (set_mem p' w) (outs w) /\
    wire_of h lh (concat ds) (Queue.chain_bytes p' l).
Proof.
  intros H Hw Hs Hh Hv Hch Hsz Hhd Hn. destruct (bufs_view _ _ _ _ Hw Hv) as [Hds Hsend].
  destruct (Send.prepare_chain_spec cscf p1 live ls l ds h lh Hhd fix_same Hw Hh Hv Hn)
    as (p' & k & E & Hw2 & Hs2 & Ek & Hr & Ep).
  pose proof (Send.prepare_chunk_size _ _ _ _ _ _ E) as Hsz'.
  destruct (new_chain_ok live ex w p' ls l k H Hw2 (same_chains_trans _ _ _ _ Hs Hs2) Hh Ek Hr) as [Hok Hq];
    [congruence|].
  exists p'. split; [|split; [done|split; [done|]]].
  - unfold prepare. rewrite (proj2 (Z.leb_gt _ _) (h_max _ _ Hhd)). unfold on_pool. cbn [set_mem mem].
    now rewrite E.
  - exists (bufs p1 ls), (bufs p' ls). split; [done|]. rewrite Hds. do 3 (split; [done|]).
    exact (Queue.live_bytes _ _ _ _ Hw2 (list_elem_of_here _ _) Hh).
Qed.

Lemma new_packet_ok ex w i ins h lh :
  pool_ok ex w -> ins <> [] -> bytes_ok (concat ins) -> Z.of_nat (length (concat ins)) < 2 ^ 24 ->
  header_ok cscf h ->
  exists l w', new_packet cscf i ins h lh w = Some (l, w') /\ pool_ok (l :: ex) w' /\
    quiet ex w w' (outs w) /\ wire_of h lh (concat ins) (Queue.chain_bytes (mem w') l).
Proof.
  intros [lv H] Hne Hb Hn Hhd. pose proof H as [Ho _ Hsz _].
  destruct (append_new lv (mem w) ins (Queue.owned_wf _ _ _ Ho) ltac:(lia) Hne Hb)
    as (p1 & l & ls & E & Hw & Hs & Hsz1 & Hv).
  rewrite Hsz in Hv, Hsz1.
  destruct (prepared_ok lv ex w i h lh p1 (l :: ls) l _ H Hw Hs eq_refl Hv) as (p' & Ep & Hok & Hq & Hwire);
    [apply spilled_chunked; lia|done|done|now rewrite spilled_concat by lia|].
  exists l, (set_mem p' w). split; [|split; [done|split; [done|]]].
  - unfold new_packet, append_bufs, on_pool. unfold mbind, M_bind. rewrite E. cbn [access]. now rewrite Ep.
  - rewrite spilled_concat in Hwire by lia. exact Hwire.
Qed.

(** The empty message. *)
Lemma empty_packet_ok ex w i h : pool_ok ex w -> header_ok cscf h ->
  exists l w', (l ← on_pool ngx_rtmp_alloc_shared_buf; prepare cscf i h None l;; mret l) w = Some (l, w') /\
    pool_ok (l :: ex) w' /\ quiet ex w w' (outs w) /\ wire_of h None [] (Queue.chain_bytes (mem w') l).
Proof.
  intros [lv H] Hhd. pose proof H as [Ho _ Hsz _].
  destruct (alloc_spec (mem w) lv (Queue.owned_wf _ _ _ Ho))
    as (p1 & l & b & E & Hw & Hsz1 & Hs & _ & Ec & _ & Hp & Hd & _).
  destruct (prepared_ok lv ex w i h None p1 [l] l [[]] H Hw Hs eq_refl) as (p' & Ep & Hok & Hq & Hwire).
  - unfold view, link_view. cbn [map]. rewrite Ec. cbn. now rewrite Hp, Hd.
  - cbn. lia.
  - congruence.
  - done.
  - cbn. lia.
  - exists l, (set_mem p' w). split; [|done]. unfold on_pool, mbind, M_bind. rewrite E. now rewrite Ep.
Qed.

Lemma message_wire_ok ex w tp d :
  pool_ok ex w -> 0 <= tp < 256 -> bytes_ok d -> (length d <= 22)%nat ->
  exists l w', on_pool (fun p => Send.user_message cscf p tp d) w = Some (l, w') /\ pool_ok (l :: ex) w' /\
    quiet ex w w' (outs w) /\ Queue.chain_bytes (mem w') l = Send.control_header tp (length d) ++ d.
Proof.
  intros [lv H] Htp Hd Hlen. pose proof H as [Ho _ Hsz _]. unfold NGX_RTMP_CSID_VIDEO in max_streams.
  destruct (Send.message_created cscf (mem w) lv tp d (Queue.owned_wf _ _ _ Ho) ltac:(lia) Htp Hd
    ltac:(lia) ltac:(lia)) as (p' & l & c & b & E & Hw & Hs & Ec & _ & Hr & _ & _ & _ & Hby).
  destruct (new_chain_ok lv ex w p' [l] l c H Hw Hs eq_refl Ec Hr) as [Hok Hq].
  - unfold Send.user_message in E. destruct (ngx_rtmp_alloc_shared_buf (mem w)) as [[p1 l1]|] eqn:Ea; [|done].
    rewrite some_bind in E. destruct (alloc_spec (mem w) lv (Queue.owned_wf _ _ _ Ho))
      as (p2 & l2 & b2 & Ea2 & _ & Hsz2 & _). rewrite Ea in Ea2. injection Ea2 as <- <-.
    destruct (Send.put_bytes p1 l1 d) as [p3|] eqn:E3; [|done]. rewrite some_bind in E.
    destruct (Send.prepare_chain _ _ _ _ _) as [p4|] eqn:E4; [|done]. injection E as <- <-.
    rewrite (Send.prepare_chunk_size _ _ _ _ _ _ E4). unfold Send.put_bytes in E3.
    destruct (cells p1 !! l1); [|done]. rewrite some_bind in E3. revert E3. case_if; [|done].
    unfold set_buf. destruct (cells p1 !! l1); [|done]. intros [= <-]. cbn. congruence.
  - exists l, (set_mem p' w). unfold on_pool. rewrite E. do 3 (split; [done|]).
    cbn [set_mem mem]. rewrite (Queue.live_bytes _ _ _ _ Hw (list_elem_of_here _ _) eq_refl).
    unfold bufs. cbn [omap list_omap]. rewrite Ec. cbn. now rewrite app_nil_r.
Qed.

Lemma message_ok ex w tp d :
  pool_ok ex w -> 0 <= tp < 256 -> bytes_ok d -> (length d <= 22)%nat ->
  exists l w', on_pool (fun p => Send.user_message cscf p tp d) w = Some (l, w') /\ pool_ok (l :: ex) w' /\
    quiet ex w w' (outs w).
Proof. intros H Ht Hd Hl. destruct (message_wire_ok ex w tp d H Ht Hd Hl) as (l & w' & ? & ? & ? & _). eauto. Qed.

Lemma amf_wire_ok ex w h m es vs :
  pool_ok ex w -> (forall a d, m !! a = Some d -> bytes_ok d) -> header_ok cscf h ->
  Amf.denote_items (Amf.denote m) es = Some vs -> es <> [] ->
  Z.of_nat (length (concat (map Amf.encode vs))) < 2 ^ 24 ->
  exists l w', on_pool (fun p => AmfSend.ngx_rtmp_create_amf cscf p h m es) w = Some (Some l, w') /\
    pool_ok (l :: ex) w' /\ quiet ex w w' (outs w) /\
    wire_of h None (concat (map Amf.encode vs)) (Queue.chain_bytes (mem w') l).
Proof.
  intros [lv H] Hm Hh Hd Hne Hn. pose proof H as [Ho _ Hsz _].
  destruct (AmfSend.amf_created cscf h m Hm Hh fix_same (mem w) lv es vs (Queue.owned_wf _ _ _ Ho) ltac:(lia)
    Hd Hne Hn) as (p' & ls & l & k & bs & E & Hl & Hw & Hs & Ek & Hr & [P1 P2 P3 P4] & _ & Hsz').
  destruct (new_chain_ok lv ex w p' ls l k H Hw Hs Hl Ek Hr) as [Hok Hq]; [congruence|].
  exists l, (set_mem p' w). unfold on_pool. rewrite E. do 3 (split; [done|]).
  exists bs, (bufs p' ls). rewrite Hsz in P2. do 4 (split; [done|]).
  exact (Queue.live_bytes _ _ _ _ Hw (list_elem_of_here _ _) Hl).
Qed.

Lemma amf_new_ok ex w h m es vs :
  pool_ok ex w -> (forall a d, m !! a = Some d -> bytes_ok d) -> header_ok cscf h ->
  Amf.denote_items (Amf.denote m) es = Some vs -> es <> [] ->
  Z.of_nat (length (concat (map Amf.encode vs))) < 2 ^ 24 ->
  exists l w', on_pool (fun p => AmfSend.ngx_rtmp_create_amf cscf p h m es) w = Some (Some l, w') /\
    pool_ok (l :: ex) w' /\ quiet ex w w' (outs w).
Proof.
  intros H Hm Hh Hd Hne Hn. destruct (amf_wire_ok ex w h m es vs H Hm Hh Hd Hne Hn) as (l & w' & ? & ? & ? & _). eauto.
Qed.

(** Short texts without NUL. *)
Definition short (s : string) : bool :=
  forallb (fun c => negb (c =? 0)) (str s) && (length (str s) <=? 1000)%nat.

Lemma short_text s : short s = true -> AmfSend.text (str s) /\ (length (str s) <= 1000)%nat.
Proof.
  unfold short. intros H. apply andb_true_iff in H as [H1 H2]. apply Nat.leb_le in H2.
  split; [|done]. apply AmfSend.str_text; [done|]. lia.
Qed.

Lemma amf_hdr_ok ty : 0 <= ty < 256 -> header_ok cscf (Chunk.Hdr AmfSend.NGX_RTMP_CSID_AMF 0 0 ty AmfSend.NGX_RTMP_MSID).
Proof.
  unfold NGX_RTMP_CSID_VIDEO in max_streams. intros H.
  split; cbn; unfold AmfSend.NGX_RTMP_CSID_AMF, AmfSend.NGX_RTMP_MSID; lia.
Qed.

Lemma c_str_ok s : bytes_ok (AmfSend.c_str (str s)).
Proof.
  unfold AmfSend.c_str. apply bytes_ok_app. split; [apply str_ok|].
  constructor; [unfold byte_ok; lia|constructor].
Qed.

Lemma status_length code level desc : (length code <= 1000)%nat -> (length level <= 1000)%nat ->
  (length desc <= 1000)%nat ->
  Z.of_nat (length (concat (map Amf.encode (AmfSend.status_vals code level desc)))) < 2 ^ 24.
Proof.
  intros H1 H2 H3. unfold AmfSend.status_vals. cbn [map concat Amf.encode].
  rewrite !length_app, ?length_cons, ?length_app. len. unfold Amf.short. rewrite !length_app, !length_be_bytes.
  change (length (str "onStatus")) with 8%nat. change (length (str "level")) with 5%nat.
  change (length (str "code")) with 4%nat. change (length (str "description")) with 11%nat. lia.
Qed.

Lemma create_status_ok ex w code level desc :
  pool_ok ex w -> short code = true -> short level = true -> short desc = true ->
  exists l w', create_status cscf code level desc w = Some (Some l, w') /\ pool_ok (l :: ex) w' /\
    quiet ex w w' (outs w).
Proof.
  intros H [Hc Lc]%short_text [Hl Ll]%short_text [Hd Ld]%short_text.
  eapply (amf_new_ok ex w _ _ _ (AmfSend.status_vals (str code) (str level) (str desc))); [done|..].
  - intros a d. unfold AmfSend.status_vars.
    repeat (rewrite lookup_insert_Some; intros [[_ <-]|[_ Ha]]; [|revert Ha];
      [first [apply c_str_ok|apply Double.double_bytes_ok]|]).
    intros [_ <-]%lookup_singleton_Some. apply c_str_ok.
  - now apply amf_hdr_ok.
  - now apply AmfSend.status_denotes.
  - done.
  - now apply status_length.
Qed.

Lemma create_sample_access_ok ex w : pool_ok ex w ->
  exists l w', create_sample_access cscf w = Some (Some l, w') /\ pool_ok (l :: ex) w' /\ quiet ex w w' (outs w).
Proof.
  intros H. eapply (amf_new_ok ex w _ _ _ AmfSend.access_vals); [done|..].
  - intros a d. unfold AmfSend.access_vars. rewrite lookup_insert_Some.
    intros [[_ <-]|[_ Ha]]; [apply c_str_ok|]. apply lookup_singleton_Some in Ha as [_ <-]. auto with lmss.
  - now apply amf_hdr_ok.
  - apply AmfSend.access_denotes.
  - done.
  - reflexivity.
Qed.

(** [ngx_rtmp_send_shared_packet] of a message of the caller. *)
Lemma send_shared_said ex w i s l : pool_ok (l :: ex) w -> sessions w !! i = Some s ->
  Z.of_nat (length ex) < 2 ^ 30 ->
  exists rc w', send_shared_packet i (Some l) w = Some (rc, w') /\ pool_ok ex w' /\
    quiet ex w w' (say i (if is_ok rc && negb (Queue.hls (queue s)) then Queue.chain_bytes (mem w) l else []) (outs w)) /\
    (rc = NGX_OK \/ rc = NGX_AGAIN /\ Queue.out_queue (queue s) <= Z.of_nat (length (Queue.pending (queue s))) + 1).
Proof.
  intros H Ei Hex.
  destruct (send_message_ok (l :: ex) w i s l 0 H Ei) as (rc & w1 & E & H1 & Hq & Hrc);
    [apply elem_of_app; left; apply list_elem_of_here|lia|cbn [length]; lia|].
  destruct (free_chain_ok l ex w1 H1) as (w2 & E2 & H2 & Hq2). rewrite (q_outs _ _ _ _ Hq) in Hq2.
  eexists rc, w2. unfold send_shared_packet. rewrite (bind_eq _ _ _ _ _ E), (bind_eq _ _ _ _ _ E2).
  split; [done|]. split; [done|]. split.
  - eapply quiet_trans; [|exact Hq2]. eapply quiet_sub; [|exact Hq]. intros k. apply list_elem_of_further.
  - destruct Hrc as [Hrc|[Hrc Hf]]; [now left|right]. split; [done|]. change (Z.min 3 0) with 0 in Hf. rewrite Z.mul_0_l, Z.div_0_l in Hf by done. lia.
Qed.

Lemma send_shared_packet_ok ex w i s l : pool_ok (l :: ex) w -> sessions w !! i = Some s ->
  Z.of_nat (length ex) < 2 ^ 30 ->
  exists rc w' x, send_shared_packet i (Some l) w = Some (rc, w') /\ pool_ok ex w' /\
    quiet ex w w' (say i x (outs w)) /\ (rc = NGX_OK \/ rc = NGX_AGAIN).
Proof. intros H Ei Hex. destruct (send_shared_said ex w i s l H Ei Hex) as (rc & w' & E & H' & Hq & Hrc). eexists rc, w', _. split; [exact E|split; [exact H'|split; [exact Hq|tauto]]]. Qed.

Lemma send_status_ok ex w i s code level desc :
  pool_ok ex w -> short code = true -> short level = true -> short desc = true ->
  sessions w !! i = Some s -> Z.of_nat (length ex) < 2 ^ 30 ->
  exists rc w' x, ngx_rtmp_send_status cscf i code level desc w = Some (rc, w') /\ pool_ok ex w' /\
    quiet ex w w' (say i x (outs w)) /\ (rc = NGX_OK \/ rc = NGX_AGAIN).
Proof.
  intros H Hc Hl Hd Ei Hex.
  destruct (create_status_ok ex w code level desc H Hc Hl Hd) as (l & w1 & E & H1 & Hq).
  destruct (shape_session w w1 i s (q_shape _ _ _ _ Hq) Ei) as (s1 & E1 & _).
  destruct (send_shared_packet_ok ex w1 i s1 l H1 E1 Hex) as (rc & w2 & x & E2 & H2 & Hq2 & Hrc).
  rewrite (q_outs _ _ _ _ Hq) in Hq2.
  exists rc, w2, x. unfold ngx_rtmp_send_status. rewrite (bind_eq _ _ _ _ _ E).
  split; [done|]. split; [done|]. split; [|done]. eapply quiet_trans; eauto.
Qed.

End Messages.
End Limits.
End LiveOut.
