(* ===== verification/Broadcast.v ===== *)
(** * What subscribers hear

    [ngx_rtmp_live_av] (Live.v) passes a packet of a publisher on to the
    subscribers of its stream: metadata and codec headers first where they are
    due, then the packet with a timestamp relative to the packet before.  The
    specification is the peer of a subscriber that decodes the bytes its queue
    was given (Chunk.v) and records the messages.

    A subscriber may have missed packets, when its queue was full or while it
    waited for a key frame.  [in_step] ties the context the server keeps of it to
    the decoder of the peer and [synced] to the publisher; both are kept by every
    packet, whatever is dropped. *)

From Stdlib Require Import ZArith Lia.
From stdpp Require Import base numbers list strings gmap.
From S2P Require Import Prelude Buf Bandwidth Chunk Shared Queue Amf Receive Send AmfSend Codec Live LiveOut.

Module Broadcast.

Import Shared.
Import Live.
Import LiveOut.

(* ------------------------------------------------------------------ *)
(** ** The peer *)

(** A message as the peer records it. *)
Abbreviation message := (Chunk.ngx_rtmp_header_t * list Z)%type.
Abbreviation peer := (Chunk.decoder (A := list message)).

Section Peer.
Context (cscf : Chunk.ngx_rtmp_core_srv_conf_t) (size : nat).
Hypothesis size_pos : (0 < size)%nat.
Hypothesis fix_same : Chunk.play_time_fix cscf = Chunk.publish_time_fix cscf.

Definition record (_ : Z) : list (Chunk.ngx_rtmp_handler_pt (list message)) :=
  [fun a h chain => (NGX_OK, a ++ [(h, concat chain)], [])].

(** The bytes [x] take the peer from [d] to [d']. *)
Definition heard (d : peer) (x : list Z) (d' : peer) : Prop :=
  forall y, Chunk.decode_all cscf record d (x ++ y) = Chunk.decode_all cscf record d' y.

Lemma heard_nil d : heard d [] d.
Proof. now intros y. Qed.

Lemma heard_app d1 d2 d3 x y : heard d1 x d2 -> heard d2 y d3 -> heard d1 (x ++ y) d3.
Proof. intros H1 H2 z. now rewrite <- app_assoc, H1, H2. Qed.

(** No message is in progress on chunk stream [id]. *)
Definition idle_at (d : peer) (id : Z) (st : Chunk.ngx_rtmp_stream_t) : Prop :=
  Chunk.d_streams d !! Z.to_nat id = Some (st, []) /\ Chunk.st_len st = 0 /\ Chunk.st_in st = [].

(** The peer after a message. *)
Definition after (d : peer) (id : Z) (st : Chunk.ngx_rtmp_stream_t) (m : message) : peer :=
  Chunk.Dec (<[Z.to_nat id := (st, [])]> (Chunk.d_streams d)) (Chunk.d_chunk d) (Chunk.d_app d ++ [m]).

Lemma idle_after d id st m : is_Some (Chunk.d_streams d !! Z.to_nat id) -> Chunk.st_len st = 0 ->
  Chunk.st_in st = [] -> idle_at (after d id st m) id st.
Proof.
  intros H1 H2 H3. split; [|done]. cbn. apply list_lookup_insert_eq. now apply lookup_lt_is_Some.
Qed.

Lemma idle_other d id id' st st' m : Z.to_nat id <> Z.to_nat id' -> idle_at d id' st' ->
  idle_at (after d id st m) id' st'.
Proof. intros Hne [H1 H2]. split; [|done]. cbn. now rewrite list_lookup_insert_ne. Qed.

Lemma heard_message h lh x b d st :
  header_ok cscf h -> Chunk.type h <= Chunk.NGX_RTMP_MSG_MAX -> wire_of size cscf h lh x b ->
  Z.of_nat (length x) < 2 ^ 24 -> Z.of_nat (length x) <= Chunk.max_message cscf ->
  Chunk.d_chunk d = Z.of_nat size -> idle_at d (Chunk.csid h) st ->
  Chunk.in_sync h lh (Z.of_nat (length x)) st ->
  exists st', heard d b (after d (Chunk.csid h) st' (full_header h (Z.of_nat (length x)), x)) /\
    Chunk.st_len st' = 0 /\ Chunk.st_in st' = [] /\ Chunk.st_hdr st' = full_header h (Z.of_nat (length x)).
Proof.
  intros [] Hty (bs & out & Hs & Hch & Hx & Ep & ->) Hn Hmax Hk [Hst [Hl Hi]] Hsync.
  assert (Chunk.total (map buf_data bs) = Z.of_nat (length x)) as Ht by (unfold Chunk.total; now rewrite Hx).
  destruct (Chunk.prepared_decodes cscf record h lh ltac:(done) ltac:(done) ltac:(done) ltac:(done)
    ltac:(done) fix_same d st bs) as (out' & dt & ext & Eo & H); rewrite ?Ht, ?Hk; auto; [lia|].
  rewrite Ep in Eo. injection Eo as <-. rewrite Ht in H.
  exists (Chunk.Stream (full_header h (Z.of_nat (length x))) dt 0 ext []). split; [|done].
  intros y. apply H. unfold Chunk.dec_message. cbn [Chunk.type].
  rewrite (proj2 (Z.ltb_ge _ _)) by done. cbn [Chunk.dec_handlers record]. rewrite Hx. done.
Qed.

(** A message with a full header. *)
Lemma heard_absolute h x b d st :
  header_ok cscf h -> Chunk.type h <= Chunk.NGX_RTMP_MSG_MAX -> wire_of size cscf h None x b ->
  Z.of_nat (length x) < 2 ^ 24 -> Z.of_nat (length x) <= Chunk.max_message cscf ->
  Chunk.d_chunk d = Z.of_nat size -> idle_at d (Chunk.csid h) st ->
  exists st', heard d b (after d (Chunk.csid h) st' (full_header h (Z.of_nat (length x)), x)) /\
    Chunk.st_len st' = 0 /\ Chunk.st_in st' = [] /\ Chunk.st_hdr st' = full_header h (Z.of_nat (length x)).
Proof.
  intros Hh Hty Hw Hn Hmax Hk Hst. eapply heard_message; eauto. destruct Hst as [_ [Hl Hi]].
  split; [done|]. split; [done|]. cbn. split; [lia|]. split; lia.
Qed.

Definition at_time (h : Chunk.ngx_rtmp_header_t) (t : Z) : Chunk.ngx_rtmp_header_t :=
  Chunk.Hdr (Chunk.csid h) t (Chunk.mlen h) (Chunk.type h) (Chunk.msid h).

(** A relative header says the difference of two times, not the times. *)
Lemma wire_shift h lh x b t t' :
  Chunk.csid lh <> 0 -> Chunk.mlen lh = 0 -> Chunk.msid h = Chunk.msid lh ->
  u32 (t' - t) = u32 (Chunk.timestamp h - Chunk.timestamp lh) ->
  wire_of size cscf h (Some lh) x b -> wire_of size cscf (at_time h t') (Some (at_time lh t)) x b.
Proof.
  intros Hc Hm Hs Ht (bs & out & H1 & H2 & H3 & H4 & H5). exists bs, out. do 3 (split; [done|]).
  split; [|done]. rewrite <- H4. unfold Chunk.ngx_rtmp_prepare_message. cbn [Chunk.csid at_time].
  assert (forall n, Chunk.prep_fmt (at_time h t') (Some (at_time lh t)) n = Chunk.prep_fmt h (Some lh) n) as Hf.
  { intros n. unfold Chunk.prep_fmt. cbn [at_time Chunk.csid Chunk.msid Chunk.type Chunk.mlen Chunk.timestamp].
    rewrite Hm. destruct (n =? 0) eqn:En; [now rewrite !andb_false_r|]. now rewrite !andb_false_r. }
  assert (Chunk.prep_timestamp (at_time h t') (Some (at_time lh t)) = Chunk.prep_timestamp h (Some lh)) as ->.
  { unfold Chunk.prep_timestamp. cbn [at_time Chunk.csid Chunk.msid Chunk.timestamp].
    rewrite Hs, Z.eqb_refl, (proj2 (Z.eqb_neq _ _) Hc). exact Ht. }
  destruct bs as [|b0 bs]; [done|]. rewrite Hf. done.
Qed.

Lemma heard_relative h lh x b t t' d st :
  header_ok cscf h -> Chunk.type h <= Chunk.NGX_RTMP_MSG_MAX -> wire_of size cscf h (Some lh) x b ->
  Z.of_nat (length x) < 2 ^ 24 -> Z.of_nat (length x) <= Chunk.max_message cscf ->
  Chunk.d_chunk d = Z.of_nat size -> idle_at d (Chunk.csid h) st ->
  Chunk.csid lh <> 0 -> Chunk.mlen lh = 0 -> Chunk.msid h = Chunk.msid lh ->
  Chunk.timestamp (Chunk.st_hdr st) = t -> Chunk.msid (Chunk.st_hdr st) = Chunk.msid h ->
  0 <= t' < 2 ^ 32 -> u32 (t' - t) = u32 (Chunk.timestamp h - Chunk.timestamp lh) ->
  let m := full_header (at_time h t') (Z.of_nat (length x)) in
  exists st', heard d b (after d (Chunk.csid h) st' (m, x)) /\
    Chunk.st_len st' = 0 /\ Chunk.st_in st' = [] /\ Chunk.st_hdr st' = m.
Proof.
  intros Hh Hty Hw Hn Hmax Hk Hst Hc Hm Hs Et Ems Ht' Hdt m.
  apply (heard_message (at_time h t') (Some (at_time lh t)) x b d st); auto.
  - destruct Hh. now split.
  - now apply wire_shift.
  - destruct Hst as [_ [Hl Hi]]. split; [done|]. split; [done|].
    assert (Chunk.prep_fmt (at_time h t') (Some (at_time lh t)) (Z.of_nat (length x)) = 1) as ->.
    { unfold Chunk.prep_fmt. cbn [at_time Chunk.csid Chunk.msid Chunk.type Chunk.mlen Chunk.timestamp].
      rewrite Hs, Z.eqb_refl, (proj2 (Z.eqb_neq _ _) Hc), Hm. cbn [negb andb].
      destruct (Z.of_nat (length x) =? 0) eqn:En; now rewrite ?andb_false_r. }
    split; [|lia]. intros _. split; [done|]. exists (at_time lh t). done.
Qed.

End Peer.

(* ------------------------------------------------------------------ *)
(** ** Steps that concern one session *)

Section Limits.
Context (size : nat) (qmax : Z).
Abbreviation pool_ok := (pool_ok size qmax).

Definition sess_rest (s : session) := (codec s, relay_type s, played s, consts (queue s)).
Definition rest (w : process) :=
  (stream_shape <$> heap w, (streams w, free_streams w), (relay_heap w, relays w),
   (ngx_rtmp_publishing w, ngx_rtmp_playing w), (ngx_time w, ngx_current_msec w)).

(** The context of session [j] goes from [c] to [c'] and the session gets [x]
    to send; the rest is as it was, but for the time of session [j]. *)
Record step_on (ex : list loc) (j : sid) (w w' : process) (c c' : ngx_rtmp_live_ctx_t) (x : list Z) : Prop := {
  so_self : exists s s', sessions w !! j = Some s /\ lctx s = Some c /\ sessions w' !! j = Some s' /\
    lctx s' = Some c' /\ sess_rest s' = sess_rest s;
  so_others : forall i, i <> j -> sess_shape <$> sessions w' !! i = sess_shape <$> sessions w !! i;
  so_rest : rest w' = rest w;
  so_stable : stable ex w w';
  so_outs : outs w' = say j x (outs w)
}.

Lemma step_codec ex j w w' c c' x : step_on ex j w w' c c' x ->
  forall k, k ∈ codec_refs (sessions w') <-> k ∈ codec_refs (sessions w).
Proof.
  intros [(s & s' & E & _ & E' & _ & Hr) Ho _ _ _] k. rewrite !codec_refs_elem.
  assert (codec s' = codec s) as Hc by now injection Hr.
  assert (forall i, i <> j -> codec <$> sessions w' !! i = codec <$> sessions w !! i) as Hi.
  { intros i Hne. specialize (Ho i Hne).
    destruct (sessions w' !! i), (sessions w !! i); try done. cbn in *. now injection Ho as _ -> _ _ _ _ _ _. }
  split; intros (i & si & Ei & Hk); (destruct (decide (i = j)) as [-> |Hne]; [|specialize (Hi i Hne)]).
  - exists j, s. split; [done|]. congruence.
  - rewrite Ei in Hi. destruct (sessions w !! i) as [s0|] eqn:E0; [|done]. exists i, s0.
    split; [done|]. cbn in Hi. congruence.
  - exists j, s'. split; [done|]. congruence.
  - rewrite Ei in Hi. destruct (sessions w' !! i) as [s0|] eqn:E0; [|done]. exists i, s0.
    split; [done|]. cbn in Hi. congruence.
Qed.

(** The messages of the codec contexts stay, with their bytes. *)
Definition codecs_kept (w w' : process) : Prop :=
  stable [] w w' /\ forall k, k ∈ codec_refs (sessions w') <-> k ∈ codec_refs (sessions w).

Lemma codecs_kept_refl w : codecs_kept w w.
Proof. split; [now intros k|done]. Qed.

Lemma codecs_kept_trans w1 w2 w3 : codecs_kept w1 w2 -> codecs_kept w2 w3 -> codecs_kept w1 w3.
Proof.
  intros [H1 H2] [H3 H4]. split; [|intros k; now rewrite H4].
  intros k Hk. rewrite H3, H1; [done|done|]. now apply H2.
Qed.

Lemma stable_sub ex ex' w w' : ex' ⊆ ex -> stable ex w w' -> stable ex' w w'.
Proof. intros Hs H k Hk. apply H. apply elem_of_app in Hk as [Hk|Hk]; apply elem_of_app; auto. Qed.

Lemma quiet_codecs ex w w' o : quiet ex w w' o -> codecs_kept w w'.
Proof.
  intros [H1 H2 _]. split; [|now apply shape_codec]. eapply stable_sub; [|exact H2]. apply list_subseteq_nil.
Qed.

Lemma step_kept ex j w w' c c' x : step_on ex j w w' c c' x -> codecs_kept w w'.
Proof.
  intros H. split; [|exact (step_codec _ _ _ _ _ _ _ H)]. eapply stable_sub; [|apply H]. apply list_subseteq_nil.
Qed.

Lemma step_trans ex j w1 w2 w3 c1 c2 c3 x y :
  step_on ex j w1 w2 c1 c2 x -> step_on ex j w2 w3 c2 c3 y -> step_on ex j w1 w3 c1 c3 (x ++ y).
Proof.
  intros H1 H2. pose proof (step_codec _ _ _ _ _ _ _ H1) as Hc.
  destruct H1 as [(s & s1 & E & L & E1 & L1 & R1) O1 P1 S1 U1].
  destruct H2 as [(s1' & s2 & E1' & L1' & E2 & L2 & R2) O2 P2 S2 U2]. split.
  - exists s, s2. rewrite E1 in E1'. injection E1' as <-. rewrite R2. auto.
  - intros i Hi. rewrite O2, O1; auto.
  - congruence.
  - intros k Hk. rewrite S2, S1; auto. apply elem_of_app in Hk as [Hk|Hk]; apply elem_of_app; [auto|].
    right. now apply Hc.
  - now rewrite U2, U1, say_app.
Qed.

Lemma step_sub ex ex' j w w' c c' x : ex' ⊆ ex -> step_on ex j w w' c c' x -> step_on ex' j w w' c c' x.
Proof.
  intros Hs [H1 H2 H3 H4 H5]. split; auto. intros k Hk. apply H4.
  apply elem_of_app in Hk as [Hk|Hk]; apply elem_of_app; auto.
Qed.

Lemma step_quiet ex j w w' s c x : quiet ex w w' (say j x (outs w)) -> sessions w !! j = Some s ->
  lctx s = Some c -> step_on ex j w w' c c x.
Proof.
  intros [H1 H2 H3] Es El. split; [|..|done|done].
  - destruct (shape_session w w' j s H1 Es) as (s' & Es' & Hs). exists s, s'.
    injection Hs as Hl Hc Hr Hp _ Hh Hre Hq. split; [done|]. split; [done|]. split; [done|].
    split; [congruence|]. unfold sess_rest, consts. congruence.
  - intros i _. injection H1 as H1 _. now rewrite <- !lookup_fmap, H1.
  - unfold shape in H1. unfold rest. congruence.
Qed.

Lemma step_refl ex j w s c : sessions w !! j = Some s -> lctx s = Some c -> step_on ex j w w c c [].
Proof. intros Es El. eapply step_quiet; eauto. rewrite say_nil. apply quiet_refl. Qed.

(** A session whose context or time changes. *)
Lemma step_upd ex j w s c c' f : pool_ok ex w -> sessions w !! j = Some s -> lctx s = Some c ->
  queue (f s) = queue s -> sent (conn (f s)) = sent (conn s) -> lctx (f s) = Some c' -> sess_rest (f s) = sess_rest s ->
  exists w', upd_session j f w = Some (tt, w') /\ pool_ok ex w' /\ step_on ex j w w' c c' [].
Proof.
  intros Hp Es El Eq Ec El' Er. assert (codec (f s) = codec s) as Ek by now injection Er.
  destruct (upd_session_ok size qmax ex w j s f Hp Es Eq Ec Ek) as (E & Hok & Houts).
  eexists. split; [exact E|]. split; [exact Hok|]. split.
  - exists s, (f s). cbn [set_sessions sessions]. rewrite lookup_insert_eq. auto.
  - intros i Hi. cbn [set_sessions sessions]. now rewrite lookup_insert_ne by congruence.
  - done.
  - now intros k _.
  - now rewrite Houts, say_nil.
Qed.

Lemma step_upd_ctx ex j w s c g : pool_ok ex w -> sessions w !! j = Some s -> lctx s = Some c ->
  exists w', upd_ctx j g w = Some (tt, w') /\ pool_ok ex w' /\ step_on ex j w w' c (g c) [].
Proof.
  intros Hp Es El.
  destruct (step_upd ex j w s c (g c) (set_lctx (Some (g c))) Hp Es El) as (w' & E & H); [done..|].
  exists w'. split; [|done]. unfold upd_ctx, ctx_of, access. unfold mbind at 1, M_bind at 1.
  rewrite Es. cbn [mbind option_bind]. now rewrite El.
Qed.

Lemma step_after ex j w w' c c' x : step_on ex j w w' c c' x ->
  exists s', sessions w' !! j = Some s' /\ lctx s' = Some c'.
Proof. intros [(s & s' & _ & _ & E & L & _) _ _ _ _]. eauto. Qed.

Lemma step_hls ex j w w' c c' x s : step_on ex j w w' c c' x -> sessions w !! j = Some s ->
  exists s', sessions w' !! j = Some s' /\ lctx s' = Some c' /\ Queue.hls (queue s') = Queue.hls (queue s).
Proof.
  intros [(s0 & s' & E0 & _ & E & L & R) _ _ _ _] Es. exists s'. rewrite E0 in Es. injection Es as ->.
  split; [done|]. split; [done|]. now injection R.
Qed.

Lemma ctx_of_eq j w s c : sessions w !! j = Some s -> lctx s = Some c -> ctx_of j w = Some (c, w).
Proof. intros Es El. unfold ctx_of, access. rewrite Es. cbn. now rewrite El. Qed.

(* ------------------------------------------------------------------ *)
(** ** Passing on one packet *)

Section Frame.
Context (cscf : Chunk.ngx_rtmp_core_srv_conf_t) (lacf : ngx_rtmp_live_app_conf_t).
Hypothesis size_pos : (22 <= size)%nat.
Hypothesis max_streams : NGX_RTMP_CSID_VIDEO < Chunk.max_streams cscf.
Hypothesis fix_same : Chunk.play_time_fix cscf = Chunk.publish_time_fix cscf.

(** The packet, the publisher, what the caller holds; the bodies of the codec
    headers, and the metadata message. *)
Context (f : frame) (i : sid) (ex0 : list loc) (hb cb : list Z) (mh : Chunk.ngx_rtmp_header_t) (mb : list Z).

Definition body_ok (x : list Z) : Prop :=
  bytes_ok x /\ Z.of_nat (length x) < 2 ^ 24 /\ Z.of_nat (length x) <= Chunk.max_message cscf.

(** The packet by itself. *)
Record frame_fine : Prop := {
  ff_ch : header_ok cscf (f_ch f);
  ff_lh : header_ok cscf (f_lh f);
  ff_clh : header_ok cscf (f_clh f);
  ff_csid : Chunk.csid (f_ch f) = (if f_csidx f then NGX_RTMP_CSID_AUDIO else NGX_RTMP_CSID_VIDEO) /\
    Chunk.csid (f_lh f) = Chunk.csid (f_ch f) /\ Chunk.csid (f_clh f) = Chunk.csid (f_ch f);
  ff_types : Chunk.type (f_ch f) <= Chunk.NGX_RTMP_MSG_MAX /\ Chunk.type (f_lh f) <= Chunk.NGX_RTMP_MSG_MAX /\
    Chunk.type (f_clh f) <= Chunk.NGX_RTMP_MSG_MAX;
  ff_msid : Chunk.msid (f_ch f) = NGX_RTMP_MSID /\ Chunk.msid (f_lh f) = NGX_RTMP_MSID /\
    Chunk.msid (f_clh f) = NGX_RTMP_MSID;
  ff_mlen : Chunk.mlen (f_lh f) = 0;
  ff_time : Chunk.timestamp (f_clh f) = Chunk.timestamp (f_lh f);
  ff_delta : f_delta f = u32 (Chunk.timestamp (f_ch f) - Chunk.timestamp (f_lh f));
  ff_prio : 0 <= f_prio f;
  ff_in : f_in f <> [] /\ body_ok (concat (f_in f));
  ff_bodies : body_ok hb /\ body_ok cb /\ body_ok mb;
  ff_meta : header_ok cscf mh /\ Chunk.type mh <= Chunk.NGX_RTMP_MSG_MAX /\ Chunk.csid mh = AmfSend.NGX_RTMP_CSID_AMF;
  ff_ex : Z.of_nat (length ex0) < 2 ^ 30
}.

Abbreviation wire_of := (wire_of size cscf).
Abbreviation bytes w l := (Queue.chain_bytes (mem w) l).

(** The codec has the chain of a header. *)
Definition has_header (w : process) (l : option loc) (x : list Z) : Prop :=
  forall k, l = Some k -> k ∈ codec_refs (sessions w) /\ bytes w k = x.

(** The packet in the pool. *)
Record frame_in (w : process) : Prop := {
  fi_rpkt : wire_of (f_ch f) (Some (f_lh f)) (concat (f_in f)) (bytes w (f_rpkt f));
  fi_header : has_header w (f_header f) hb;
  fi_coheader : has_header w (f_coheader f) cb;
  fi_meta : forall k, f_meta f = Some k -> k ∈ codec_refs (sessions w) /\ wire_of mh None mb (bytes w k)
}.

(** The absolute packet is the codec header if there is one. *)
Definition abs_hdr : Chunk.ngx_rtmp_header_t := match f_header f with Some _ => f_lh f | None => f_ch f end.
Definition abs_body : list Z := match f_header f with Some _ => hb | None => concat (f_in f) end.

Record packets_in (w : process) (k : packets) : Prop := {
  pi_apkt : forall l, apkt k = Some l -> wire_of abs_hdr None abs_body (bytes w l);
  pi_aapkt : forall l, aapkt k = Some l -> wire_of (f_clh f) None [] (bytes w l);
  pi_acopkt : forall l, acopkt k = Some l -> wire_of (f_clh f) None cb (bytes w l)
}.

Definition held_by (k : packets) : list loc :=
  f_rpkt f :: Codec.opt_list (apkt k) ++ Codec.opt_list (aapkt k) ++ Codec.opt_list (acopkt k) ++ ex0.

Record going (w : process) (k : packets) : Prop := {
  g_pool : pool_ok (held_by k) w;
  g_frame : frame_in w;
  g_packets : packets_in w k
}.

Lemma opt_elem (l : option loc) k : k ∈ Codec.opt_list l <-> l = Some k.
Proof.
  destruct l; cbn; [rewrite list_elem_of_singleton|rewrite elem_of_nil]; naive_solver.
Qed.

Lemma held_apkt k l : apkt k = Some l -> l ∈ held_by k.
Proof. intros H. apply list_elem_of_further, elem_of_app. left. now apply opt_elem. Qed.
Lemma held_aapkt k l : aapkt k = Some l -> l ∈ held_by k.
Proof. intros H. apply list_elem_of_further, elem_of_app. right. apply elem_of_app. left. now apply opt_elem. Qed.
Lemma held_acopkt k l : acopkt k = Some l -> l ∈ held_by k.
Proof.
  intros H. apply list_elem_of_further, elem_of_app. right. apply elem_of_app. right.
  apply elem_of_app. left. now apply opt_elem.
Qed.

Lemma held_length k : frame_fine -> Z.of_nat (length (held_by k)) < 2 ^ 31 - 2.
Proof.
  intros []. unfold held_by. cbn [length]. rewrite !length_app.
  destruct (apkt k), (aapkt k), (acopkt k); cbn [Codec.opt_list length]; lia.
Qed.

(** A step keeps what is in the pool. *)
Lemma step_frame j w w' c c' x k : step_on (held_by k) j w w' c c' x -> frame_in w -> frame_in w'.
Proof.
  intros H [H1 H2 H3 H4]. pose proof (step_codec _ _ _ _ _ _ _ H) as Hc. pose proof (so_stable _ _ _ _ _ _ _ H) as Hs.
  assert (forall l, l ∈ codec_refs (sessions w) -> bytes w' l = bytes w l) as Hb
    by (intros l Hl; apply Hs, elem_of_app; auto).
  split.
  - rewrite Hs; [done|]. apply elem_of_app. left. apply list_elem_of_here.
  - intros l E. destruct (H2 l E) as [Hl <-]. split; [now apply Hc|auto].
  - intros l E. destruct (H3 l E) as [Hl <-]. split; [now apply Hc|auto].
  - intros l E. destruct (H4 l E) as [Hl Hw]. split; [now apply Hc|]. now rewrite Hb.
Qed.

Lemma step_packets j w w' c c' x k : step_on (held_by k) j w w' c c' x -> packets_in w k -> packets_in w' k.
Proof.
  intros H [H1 H2 H3]. pose proof (so_stable _ _ _ _ _ _ _ H) as Hs.
  assert (forall l, l ∈ held_by k -> bytes w' l = bytes w l) as Hb
    by (intros l Hl; apply Hs, elem_of_app; auto).
  split; intros l E; rewrite Hb; auto using held_apkt, held_aapkt, held_acopkt.
Qed.

Lemma step_going j w w' c c' x k : going w k -> pool_ok (held_by k) w' ->
  step_on (held_by k) j w w' c c' x -> going w' k.
Proof. intros [H1 H2 H3] Hp H. split; eauto using step_frame, step_packets. Qed.

(** From one point of the loop to another. *)
Record reaches (j : sid) (w : process) (k : packets) (c : ngx_rtmp_live_ctx_t)
    (w' : process) (k' : packets) (c' : ngx_rtmp_live_ctx_t) (x : list Z) : Prop := {
  re_going : going w' k';
  re_step : step_on (held_by k) j w w' c c' x;
  re_held : held_by k ⊆ held_by k'
}.

Lemma reaches_trans j w1 w2 w3 k1 k2 k3 c1 c2 c3 x y :
  reaches j w1 k1 c1 w2 k2 c2 x -> reaches j w2 k2 c2 w3 k3 c3 y -> reaches j w1 k1 c1 w3 k3 c3 (x ++ y).
Proof.
  intros [G1 S1 H1] [G2 S2 H2]. split; [done| |].
  - eapply step_trans; [exact S1|]. eapply step_sub; [|exact S2]. done.
  - intros l Hl. auto.
Qed.

Lemma reaches_refl j w k s c : going w k -> sessions w !! j = Some s -> lctx s = Some c -> reaches j w k c w k c [].
Proof. intros G Es El. split; [done|now apply (step_refl _ _ _ s)|done]. Qed.

(** Messages on the wire, one behind the other: header, header before, body. *)
Abbreviation utterance := (Chunk.ngx_rtmp_header_t * option Chunk.ngx_rtmp_header_t * list Z)%type.
Inductive spoken : list Z -> list utterance -> Prop :=
  | spoken_nil : spoken [] []
  | spoken_cons h lh x b y us : wire_of h lh x b -> spoken y us -> spoken (b ++ y) ((h, lh, x) :: us).

Lemma spoken_app x us y vs : spoken x us -> spoken y vs -> spoken (x ++ y) (us ++ vs).
Proof.
  induction 1 as [|h lh b0 b y0 us Hw H IH]; intros H2; [done|]. rewrite <- app_assoc. constructor; auto.
Qed.

Lemma spoken_split us vs : forall x, spoken x (us ++ vs) -> exists y z, x = y ++ z /\ spoken y us /\ spoken z vs.
Proof.
  induction us as [|u us IH]; intros x H; [exists [], x; split; [done|]; split; [constructor|done]|].
  inversion H as [|? ? ? ? ? ? Hw Hs]; subst. destruct (IH _ Hs) as (y1 & z & -> & H1 & H2).
  exists (b ++ y1), z. rewrite app_assoc. split; [done|]. split; [now constructor|done].
Qed.

Lemma spoken_one h lh x b : wire_of h lh x b -> spoken b [(h, lh, x)].
Proof. intros H. rewrite <- (app_nil_r b). constructor; [done|constructor]. Qed.

(** The session of a subscriber with context [c]. *)
Definition serves (j : sid) (w : process) (c : ngx_rtmp_live_ctx_t) : Prop :=
  exists s, sessions w !! j = Some s /\ lctx s = Some c /\ Queue.hls (queue s) = false.

Lemma reaches_serves j w k c w' k' c' x : reaches j w k c w' k' c' x -> serves j w c -> serves j w' c'.
Proof.
  intros [_ S _] (s & Es & _ & Eh). destruct (step_hls _ _ _ _ _ _ _ s S Es) as (s' & Es' & El' & Eh').
  exists s'. split; [done|]. split; [done|]. congruence.
Qed.

Lemma serves_ctx j w c : serves j w c -> ctx_of j w = Some (c, w).
Proof. intros (s & Es & El & _). eapply ctx_of_eq; eauto. Qed.

(** One message to the subscriber: said, or dropped. *)
Definition said (rc : ngx_rc) (us : list utterance) : list utterance := if is_ok rc then us else [].

Hypothesis fine : frame_fine.

Lemma send_one j w k c l prio h lh x : going w k -> serves j w c -> 0 <= prio ->
  l ∈ held_by k ++ codec_refs (sessions w) -> wire_of h lh x (bytes w l) ->
  exists rc w' b, ngx_rtmp_send_message j l prio w = Some (rc, w') /\ reaches j w k c w' k c b /\
    spoken b (said rc [(h, lh, x)]).
Proof.
  intros G (s & Es & El & Eh) Hp Hl Hw.
  destruct (send_message_ok size qmax (held_by k) w j s l prio (g_pool _ _ G) Es Hl Hp (held_length k fine))
    as (rc & w' & E & Hok & Hq & _).
  eexists rc, w', _. split; [exact E|]. pose proof (step_quiet _ _ _ _ s c _ Hq Es El) as Hs.
  split; [split; [eapply step_going; eauto|exact Hs|done]|].
  rewrite Eh, andb_true_r. unfold said. destruct (is_ok rc); [now apply spoken_one|constructor].
Qed.

(** A change of the context of the subscriber. *)
Lemma upd_one j w k c g : going w k -> serves j w c ->
  exists w', upd_ctx j g w = Some (tt, w') /\ reaches j w k c w' k (g c) [].
Proof.
  intros G (s & Es & El & _).
  destruct (step_upd_ctx (held_by k) j w s c g (g_pool _ _ G) Es El) as (w' & E & Hp & Hs).
  exists w'. split; [done|]. split; [eapply step_going; eauto|done|done].
Qed.

Lemma time_one j w k c t : going w k -> serves j w c ->
  exists w', upd_session j (set_current_time t) w = Some (tt, w') /\ reaches j w k c w' k c [].
Proof.
  intros G (s & Es & El & _).
  destruct (step_upd (held_by k) j w s c c (set_current_time t) (g_pool _ _ G) Es El)
    as (w' & E & Hp & Hs); [done..|].
  exists w'. split; [done|]. split; [eapply step_going; eauto|done|done].
Qed.

Lemma finalize_one j w k c : going w k -> serves j w c ->
  exists w', ngx_rtmp_finalize_session j w = Some (tt, w') /\ reaches j w k c w' k c [].
Proof.
  intros G (s & Es & El & _).
  destruct (step_upd (held_by k) j w s c c finalize (g_pool _ _ G) Es El) as (w' & E & Hp & Hs);
    try (unfold finalize; now destruct (destroyed _ && _)).
  exists w'. split; [done|]. split; [eapply step_going; eauto|done|done].
Qed.

(** A new message for the packets. *)
Lemma new_one j w k c w' l k' : going w k -> serves j w c -> pool_ok (l :: held_by k) w' ->
  quiet (held_by k) w w' (outs w) -> held_by k' ≡ₚ l :: held_by k -> (packets_in w' k -> packets_in w' k') ->
  reaches j w k c w' k' c [].
Proof.
  intros [G1 G2 G3] (s & Es & El & _) Hp Hq Hk Hpk.
  assert (step_on (held_by k) j w w' c c []) as Hs.
  { eapply step_quiet; [|exact Es|exact El]. now rewrite say_nil. }
  split; [split| |].
  - now rewrite Hk.
  - eapply step_frame; eauto.
  - apply Hpk. eapply step_packets; eauto.
  - done.
  - intros m Hm. rewrite Hk. now apply list_elem_of_further.
Qed.

Lemma abs_fine : header_ok cscf abs_hdr /\ body_ok abs_body.
Proof. destruct fine. unfold abs_hdr, abs_body. destruct (f_header f); tauto. Qed.

Lemma get_apkt_ok j w k c m ins : going w k -> serves j w c -> m w = Some (ins, w) -> ins <> [] ->
  concat ins = abs_body ->
  exists l k' w', get_apkt cscf i m abs_hdr k w = Some (l, k', w') /\ reaches j w k c w' k' c [] /\
    apkt k' = Some l /\ aapkt k' = aapkt k.
Proof.
  intros G Hs Em Hne Hc. unfold get_apkt. destruct (apkt k) as [l|] eqn:Ea.
  - exists l, k, w. split; [done|]. split; [|done]. destruct Hs as (s & Es & El & _). eapply reaches_refl; eauto.
  - destruct abs_fine as [Hh (Hb & Hn & _)]. rewrite <- Hc in Hb, Hn.
    destruct (new_packet_ok size qmax cscf size_pos fix_same (held_by k) w i ins abs_hdr None (g_pool _ _ G)
      Hne Hb Hn Hh) as (l & w' & E & Hp & Hq & Hw).
    exists l, (Packets (Some l) (aapkt k) (acopkt k) (peers k)), w'.
    unfold mbind, M_bind. rewrite Em, E. split; [done|]. split; [|done].
    eapply new_one; eauto.
    + unfold held_by. rewrite Ea. cbn [apkt aapkt acopkt Codec.opt_list Datatypes.app]. apply Permutation_swap.
    + intros [H1 H2 H3]. split; cbn [apkt aapkt acopkt]; [intros ? [= <-]; now rewrite <- Hc|auto..].
Qed.

Lemma get_acopkt_ok j w k c m ins : going w k -> serves j w c -> m w = Some (ins, w) -> ins <> [] ->
  concat ins = cb ->
  exists l k' w', get_acopkt cscf i m (f_clh f) k w = Some (l, k', w') /\ reaches j w k c w' k' c [] /\
    acopkt k' = Some l.
Proof.
  intros G Hs Em Hne Hc. unfold get_acopkt. destruct (acopkt k) as [l|] eqn:Ea.
  - exists l, k, w. split; [done|]. split; [|done]. destruct Hs as (s & Es & El & _). eapply reaches_refl; eauto.
  - destruct fine as [_ _ Hh _ _ _ _ _ _ _ _ (_ & (Hb & Hn & _) & _) _ _]. rewrite <- Hc in Hb, Hn.
    destruct (new_packet_ok size qmax cscf size_pos fix_same (held_by k) w i ins (f_clh f) None (g_pool _ _ G)
      Hne Hb Hn Hh) as (l & w' & E & Hp & Hq & Hw).
    exists l, (Packets (apkt k) (aapkt k) (Some l) (peers k)), w'.
    unfold mbind, M_bind. rewrite Em, E. split; [done|]. split; [|done].
    eapply new_one; eauto.
    + unfold held_by. rewrite Ea. cbn [apkt aapkt acopkt Codec.opt_list Datatypes.app]. solve_Permutation.
    + intros [H1 H2 H3]. split; cbn [apkt aapkt acopkt]; [auto..|intros ? [= <-]; now rewrite <- Hc].
Qed.

Lemma get_aapkt_ok j w k c : going w k -> serves j w c ->
  exists k' w', get_aapkt cscf i (f_clh f) k w = Some (k', w') /\ reaches j w k c w' k' c [] /\
    is_Some (aapkt k') .
Proof.
  intros G Hs. unfold get_aapkt. destruct (aapkt k) as [l|] eqn:Ea.
  - exists k, w. split; [done|]. split; [|now rewrite Ea]. destruct Hs as (s & Es & El & _). eapply reaches_refl; eauto.
  - destruct (empty_packet_ok size qmax cscf size_pos fix_same (held_by k) w i (f_clh f) (g_pool _ _ G) (ff_clh fine))
      as (l & w' & E & Hp & Hq & Hw).
    exists (Packets (apkt k) (Some l) (acopkt k) (peers k)), w'. split.
    + revert E. unfold mbind, M_bind. destruct (on_pool ngx_rtmp_alloc_shared_buf w) as [[l1 w1]|]; [|done].
      destruct (prepare cscf i (f_clh f) None l1 w1) as [[[] w2]|]; [|done]. now intros [= -> ->].
    + split; [|now eexists]. eapply new_one; eauto.
      * unfold held_by. rewrite Ea. cbn [apkt aapkt acopkt Codec.opt_list Datatypes.app]. solve_Permutation.
      * intros [H1 H2 H3]. split; cbn [apkt aapkt acopkt]; [auto|intros ? [= <-]; done|auto].
Qed.

(* ------------------------------------------------------------------ *)
(** ** What happens to a subscriber *)

(** The packet itself, with a relative header: said or dropped. *)
Inductive relative (cs : ngx_rtmp_live_chunk_stream_t) : list utterance -> ngx_rtmp_live_chunk_stream_t -> Prop :=
  | rel_said : relative cs [(f_ch f, Some (f_lh f), concat (f_in f))]
      (Cs (cs_active cs) (u32 (cs_timestamp cs + f_delta f)) (cs_csid cs) (cs_dropped cs))
  | rel_dropped : relative cs []
      (Cs (cs_active cs) (cs_timestamp cs) (cs_csid cs) (u32 (cs_dropped cs + f_delta f))).

(** A codec header, or the empty audio message, at the time of the packet
    before. *)
Definition announcement (u : utterance) : Prop :=
  u = (f_lh f, None, hb) \/ u = (f_clh f, None, cb) \/ u = (f_clh f, None, []).

(** The empty audio message is for streams with a codec header; see
    [dummy_audio_drifts] for the others. *)
Definition no_drift : Prop := wait_video lacf && video f = true -> f_header f <> None \/ f_coheader f <> None.

(** The chunk stream of a subscriber over one packet: a subscriber that is
    not active may wait, be cut off in its start, get the packet with an
    absolute header or start with codec headers. *)
Inductive serve (cs : ngx_rtmp_live_chunk_stream_t) : list utterance -> ngx_rtmp_live_chunk_stream_t -> Prop :=
  | sv_wait us : cs_active cs = false -> Forall announcement us -> serve cs us cs
  | sv_absolute : cs_active cs = false -> f_header f = None ->
      serve cs [(f_ch f, None, concat (f_in f))]
        (Cs true (Chunk.timestamp (f_ch f)) (cs_csid cs) (cs_dropped cs))
  | sv_drift us cs' : ~ no_drift -> serve cs us cs'
  | sv_start us vs cs' : cs_active cs = false -> Forall announcement us -> us <> [] ->
      relative (Cs true (Chunk.timestamp (f_lh f)) (cs_csid cs) (cs_dropped cs)) vs cs' ->
      serve cs (us ++ vs) cs'
  | sv_active vs cs' : cs_active cs = true -> relative cs vs cs' -> serve cs vs cs'.

(** What a packet leaves of a context. *)
Definition ctx_rest (c : ngx_rtmp_live_ctx_t) :=
  (stream c, idle_evt c, active c, publishing c, silent c, paused c, c_hls c, get_cs (negb (f_csidx f)) c).
Abbreviation cs_of := (get_cs (f_csidx f)).

Lemma rest_set_cs x c : ctx_rest (set_cs (f_csidx f) x c) = ctx_rest c.
Proof. unfold ctx_rest, set_cs, get_cs. now destruct (f_csidx f). Qed.
Lemma get_set_cs x c : cs_of (set_cs (f_csidx f) x c) = x.
Proof. unfold set_cs, get_cs. now destruct (f_csidx f). Qed.

(** The count of subscribers served does not matter. *)
Lemma reaches_peers j w k c w' k' c' x n : reaches j w k c w' k' c' x ->
  reaches j w k c w' (Packets (apkt k') (aapkt k') (acopkt k') n) c' x.
Proof. intros [[G1 G2 [P1 P2 P3]] S H]. split; [split; [done|done|now split]|done|done]. Qed.

Lemma reaches_self j w k c : going w k -> serves j w c -> reaches j w k c w k c [].
Proof. intros G (s & Es & El & _). eapply reaches_refl; eauto. Qed.

Lemma send_meta_ok j w k c : going w k -> serves j w c ->
  exists w' c' x us, send_meta f j w = Some (tt, w') /\ reaches j w k c w' k c' x /\ spoken x us /\
    (us = [] \/ us = [(mh, None, mb)]) /\ ctx_rest c' = ctx_rest c /\ cs_of c' = cs_of c.
Proof.
  intros G Hs. unfold send_meta. destruct (f_meta f) as [l|] eqn:Em.
  2: { exists w, c, [], []. split; [done|]. split; [now apply reaches_self|]. split; [constructor|auto]. }
  rewrite (bind_eq _ _ _ _ _ (serves_ctx _ _ _ Hs)). case_if.
  { exists w, c, [], []. split; [done|]. split; [now apply reaches_self|]. split; [constructor|auto]. }
  destruct (fi_meta _ (g_frame _ _ G) l Em) as [Hl Hw].
  destruct (send_one j w k c l 0 mh None mb G Hs ltac:(lia) ltac:(apply elem_of_app; auto) Hw)
    as (rc & w1 & x & E1 & H1 & Hx).
  rewrite (bind_eq _ _ _ _ _ E1). destruct (is_ok rc) eqn:Er; cbn [when].
  - destruct (upd_one j w1 k c (set_meta_version (f_meta_version f)) (re_going _ _ _ _ _ _ _ _ H1)
      (reaches_serves _ _ _ _ _ _ _ _ H1 Hs)) as (w2 & E2 & H2).
    exists w2, (set_meta_version (f_meta_version f) c), (x ++ []), (said rc [(mh, None, mb)]).
    split; [done|]. split; [eapply reaches_trans; eauto|]. rewrite app_nil_r. split; [done|].
    unfold said. rewrite Er. unfold ctx_rest, get_cs. destruct (f_csidx f); auto.
  - exists w1, c, x, (said rc [(mh, None, mb)]). split; [done|]. split; [done|]. split; [done|].
    unfold said. rewrite Er. auto.
Qed.

Definition synced_cs (cs : ngx_rtmp_live_chunk_stream_t) : ngx_rtmp_live_chunk_stream_t :=
  if cs_active cs && negb (sync lacf =? 0) && (sync lacf <? cs_dropped cs) then reset_cs cs else cs.

Lemma sync_stream_ok j w k c : going w k -> serves j w c ->
  exists w' c', sync_stream lacf f j w = Some (tt, w') /\ reaches j w k c w' k c' [] /\
    ctx_rest c' = ctx_rest c /\ cs_of c' = synced_cs (cs_of c).
Proof.
  intros G Hs. unfold sync_stream. rewrite (bind_eq _ _ _ _ _ (serves_ctx _ _ _ Hs)). unfold synced_cs.
  cbv zeta. case_if; cbn [when].
  - destruct (upd_one j w k c (set_cs (f_csidx f) (reset_cs (cs_of c))) G Hs) as (w' & E' & HH).
    exists w', (set_cs (f_csidx f) (reset_cs (cs_of c)) c). rewrite rest_set_cs, get_set_cs. auto.
  - exists w, c. split; [done|]. split; [now apply reaches_self|done].
Qed.

Lemma send_relative_ok j w k c : going w k -> serves j w c ->
  exists k' w' c' x us, send_relative f j k w = Some (k', w') /\ reaches j w k c w' k' c' x /\ spoken x us /\
    ctx_rest c' = ctx_rest c /\ relative (cs_of c) us (cs_of c').
Proof.
  intros G Hs. unfold send_relative.
  destruct (send_one j w k c (f_rpkt f) (f_prio f) _ _ _ G Hs (ff_prio fine)
    ltac:(apply elem_of_app; left; apply list_elem_of_here) (fi_rpkt _ (g_frame _ _ G)))
    as (rc & w1 & x & E1 & H1 & Hx).
  rewrite (bind_eq _ _ _ _ _ E1). pose proof (re_going _ _ _ _ _ _ _ _ H1) as G1.
  pose proof (reaches_serves _ _ _ _ _ _ _ _ H1 Hs) as Hs1. unfold said in Hx.
  destruct (is_ok rc) eqn:Er; cbn [negb].
  - rewrite (bind_eq _ _ _ _ _ (serves_ctx _ _ _ Hs1)). cbv zeta.
    set (cs' := Cs (cs_active (cs_of c)) _ _ _).
    destruct (upd_one j w1 k c (set_cs (f_csidx f) cs') G1 Hs1) as (w2 & E2 & H2).
    rewrite (bind_eq _ _ _ _ _ E2).
    destruct (time_one j w2 k (set_cs (f_csidx f) cs' c) (u32 (cs_timestamp (cs_of c) + f_delta f))
      (re_going _ _ _ _ _ _ _ _ H2) (reaches_serves _ _ _ _ _ _ _ _ H2 Hs1)) as (w3 & E3 & H3).
    rewrite (bind_eq _ _ _ _ _ E3).
    pose proof (reaches_trans _ _ _ _ _ _ _ _ _ _ _ _ (reaches_trans _ _ _ _ _ _ _ _ _ _ _ _ H1 H2) H3) as H.
    rewrite !app_nil_r in H. eexists _, w3, (set_cs (f_csidx f) cs' c), x, _.
    split; [done|]. split; [now apply reaches_peers|].
    split; [exact Hx|]. rewrite rest_set_cs, get_set_cs. split; [done|constructor].
  - match goal with |- context [upd_ctx j ?g0] => set (g := g0) end.
    destruct (upd_one j w1 k c g G1 Hs1) as (w2 & E2 & H2).
    rewrite (bind_eq _ _ _ _ _ E2).
    assert (exists w3, when (f_mandatory f) (ngx_rtmp_finalize_session j) w2 = Some (tt, w3) /\
      reaches j w2 k (g c) w3 k (g c) []) as (w3 & E3 & H3).
    { pose proof (re_going _ _ _ _ _ _ _ _ H2). pose proof (reaches_serves _ _ _ _ _ _ _ _ H2 Hs1).
      destruct (f_mandatory f); cbn [when]; [now apply finalize_one|]. exists w2. split; [done|now apply reaches_self]. }
    rewrite (bind_eq _ _ _ _ _ E3).
    pose proof (reaches_trans _ _ _ _ _ _ _ _ _ _ _ _ (reaches_trans _ _ _ _ _ _ _ _ _ _ _ _ H1 H2) H3) as HH.
    rewrite !app_nil_r in HH. exists k, w3, (g c), x, []. split; [done|]. split; [done|]. split; [done|].
    split; [|unfold g; cbv zeta; unfold set_ndropped, get_cs, set_cs; destruct (f_csidx f); constructor].
    unfold g, ctx_rest, set_cs, get_cs, set_ndropped. now destruct (f_csidx f).
Qed.

Lemma start_cs_ok j w k c t : going w k -> serves j w c ->
  let cs := cs_of c in
  let c' := set_cs (f_csidx f) (Cs true t (cs_csid cs) (cs_dropped cs)) c in
  exists w', start_cs f j t w = Some (tt, w') /\ reaches j w k c w' k c' [].
Proof.
  intros G Hs cs c'. unfold start_cs.
  match goal with |- context [upd_ctx j ?g0] => set (g := g0) end.
  destruct (upd_one j w k c g G Hs) as (w1 & E1 & H1). rewrite (bind_eq _ _ _ _ _ E1).
  destruct (time_one j w1 k (g c) t (re_going _ _ _ _ _ _ _ _ H1) (reaches_serves _ _ _ _ _ _ _ _ H1 Hs))
    as (w2 & E2 & H2).
  exists w2. split; [done|]. exact (reaches_trans _ _ _ _ _ _ _ _ _ _ _ _ H1 H2).
Qed.

Lemma announce_header : announcement (f_lh f, None, hb).
Proof. now left. Qed.
Lemma announce_coheader : announcement (f_clh f, None, cb).
Proof. right. now left. Qed.
Lemma announce_dummy : announcement (f_clh f, None, []).
Proof. right. now right. Qed.

Lemma said_announced rc u : announcement u -> Forall announcement (said rc [u]).
Proof. intros H. unfold said. destruct (is_ok rc); [now apply Forall_singleton|constructor]. Qed.

Lemma send_header_ok j w k c : going w k -> serves j w c ->
  exists k' b w' x us, send_header cscf i f j k w = Some (k', b, w') /\ reaches j w k c w' k' c x /\
    spoken x us /\ Forall announcement us /\ aapkt k' = aapkt k /\ (b = true -> f_header f <> None -> us <> []).
Proof.
  intros G Hs. unfold send_header. destruct (f_header f) as [hd|] eqn:Eh.
  2: { exists k, true, w, [], []. split; [done|]. split; [now apply reaches_self|]. split; [constructor|]. auto. }
  assert (abs_hdr = f_lh f /\ abs_body = hb) as [Ea Eb] by (unfold abs_hdr, abs_body; now rewrite Eh).
  destruct (fi_header _ (g_frame _ _ G) hd Eh) as [Hhd Hb].
  destruct (chain_data_ok size qmax (held_by k) w hd (g_pool _ _ G) ltac:(apply elem_of_app; auto)) as (ins & Ei & Hne & Hc).
  destruct (get_apkt_ok j w k c (chain_data hd) ins G Hs Ei Hne) as (l & k1 & w1 & E1 & H1 & El & Eaa); [congruence|].
  rewrite Ea in E1. rewrite (bind_eq _ _ _ _ _ E1). pose proof (re_going _ _ _ _ _ _ _ _ H1) as G1.
  pose proof (pi_apkt _ _ (g_packets _ _ G1) l El) as Hw.
  destruct (send_one j w1 k1 c l 0 _ _ _ G1 (reaches_serves _ _ _ _ _ _ _ _ H1 Hs) ltac:(lia)
    ltac:(apply elem_of_app; left; now apply held_apkt) Hw) as (rc & w2 & x & E2 & H2 & Hx).
  rewrite (bind_eq _ _ _ _ _ E2). eexists k1, (is_ok rc), w2, x, _. split; [done|].
  split; [exact (reaches_trans _ _ _ _ _ _ _ _ _ _ _ _ H1 H2)|]. split; [exact Hx|]. rewrite Ea, Eb.
  split; [apply said_announced, announce_header|]. split; [done|]. unfold said. now destruct (is_ok rc).
Qed.

Lemma send_aapkt_ok j w k c dummy : going w k -> serves j w c -> (dummy = true -> is_Some (aapkt k)) ->
  exists w' x us, send_aapkt j k dummy w = Some (tt, w') /\ reaches j w k c w' k c x /\ spoken x us /\
    Forall announcement us /\ (dummy = false -> us = []).
Proof.
  intros G Hs Hd. unfold send_aapkt. destruct dummy; cbn [when].
  2: { exists w, [], []. split; [done|]. split; [now apply reaches_self|]. split; [constructor|]. split; [constructor|done]. }
  destruct (Hd eq_refl) as [l El]. rewrite El.
  destruct (send_one j w k c l 0 _ _ _ G Hs ltac:(lia) ltac:(apply elem_of_app; left; now apply held_aapkt)
    (pi_aapkt _ _ (g_packets _ _ G) l El)) as (rc & w1 & x & E1 & H1 & Hx).
  exists w1, x, (said rc [(f_clh f, None, [])]). split; [|split; [done|split; [done|]]].
  - unfold mbind, M_bind, access. now rewrite E1.
  - split; [apply said_announced, announce_dummy|done].
Qed.

Lemma send_coheader_ok j w k c dummy : going w k -> serves j w c -> (dummy = true -> is_Some (aapkt k)) ->
  exists k' b w' x us, send_coheader cscf i f j k dummy w = Some (k', b, w') /\ reaches j w k c w' k' c x /\
    spoken x us /\ Forall announcement us /\ (b = true -> f_coheader f <> None -> us <> []).
Proof.
  intros G Hs Hd. unfold send_coheader. destruct (f_coheader f) as [hd|] eqn:Eh.
  2: { destruct (send_aapkt_ok j w k c dummy G Hs Hd) as (w' & x & us & E & H).
       exists k, true, w', x, us. rewrite (bind_eq _ _ _ _ _ E). tauto. }
  destruct (fi_coheader _ (g_frame _ _ G) hd Eh) as [Hhd Hb].
  destruct (chain_data_ok size qmax (held_by k) w hd (g_pool _ _ G) ltac:(apply elem_of_app; auto)) as (ins & Ei & Hne & Hc).
  destruct (get_acopkt_ok j w k c (chain_data hd) ins G Hs Ei Hne) as (l & k1 & w1 & E1 & H1 & El); [congruence|].
  rewrite (bind_eq _ _ _ _ _ E1). pose proof (re_going _ _ _ _ _ _ _ _ H1) as G1.
  destruct (send_one j w1 k1 c l 0 _ _ _ G1 (reaches_serves _ _ _ _ _ _ _ _ H1 Hs) ltac:(lia)
    ltac:(apply elem_of_app; left; now apply held_acopkt) (pi_acopkt _ _ (g_packets _ _ G1) l El))
    as (rc & w2 & x & E2 & H2 & Hx).
  rewrite (bind_eq _ _ _ _ _ E2). eexists k1, (is_ok rc), w2, x, _. split; [done|].
  split; [exact (reaches_trans _ _ _ _ _ _ _ _ _ _ _ _ H1 H2)|]. split; [exact Hx|].
  split; [apply said_announced, announce_coheader|]. unfold said. now destruct (is_ok rc).
Qed.

Lemma send_headers_ok j w k c dummy : going w k -> serves j w c -> (dummy = true -> is_Some (aapkt k)) ->
  exists k' b w' c' x us, send_headers cscf i f j k dummy w = Some (k', b, w') /\
    reaches j w k c w' k' c' x /\ spoken x us /\ Forall announcement us /\ ctx_rest c' = ctx_rest c /\
    cs_of c' = (if b then Cs true (Chunk.timestamp (f_lh f)) (cs_csid (cs_of c)) (cs_dropped (cs_of c)) else cs_of c) /\
    (b = true -> f_header f <> None \/ f_coheader f <> None -> us <> []).
Proof.
  intros G Hs Hd. unfold send_headers.
  destruct (send_header_ok j w k c G Hs) as (k1 & b1 & w1 & x1 & us1 & E1 & H1 & Hx1 & Hu1 & Ea & N1).
  rewrite (bind_eq _ _ _ _ _ E1). destruct b1; cbn [negb].
  2: { exists k1, false, w1, c, x1, us1. done. }
  pose proof (re_going _ _ _ _ _ _ _ _ H1) as G1. pose proof (reaches_serves _ _ _ _ _ _ _ _ H1 Hs) as Hs1.
  rewrite <- Ea in Hd.
  destruct (send_coheader_ok j w1 k1 c dummy G1 Hs1 Hd) as (k2 & b2 & w2 & x2 & us2 & E2 & H2 & Hx2 & Hu2 & N2).
  rewrite (bind_eq _ _ _ _ _ E2). pose proof (reaches_trans _ _ _ _ _ _ _ _ _ _ _ _ H1 H2) as H12.
  assert (Forall announcement (us1 ++ us2)) as Hu by now apply Forall_app. destruct b2; cbn [negb].
  2: { exists k2, false, w2, c, (x1 ++ x2), (us1 ++ us2). split; [done|]. split; [done|].
       split; [now apply spoken_app|done]. }
  destruct (start_cs_ok j w2 k2 c (Chunk.timestamp (f_lh f)) (re_going _ _ _ _ _ _ _ _ H12)
    (reaches_serves _ _ _ _ _ _ _ _ H12 Hs)) as (w3 & E3 & H3).
  rewrite (bind_eq _ _ _ _ _ E3). eexists k2, true, w3, _, (x1 ++ x2), (us1 ++ us2). split; [done|].
  split; [rewrite <- (app_nil_r (x1 ++ x2)); exact (reaches_trans _ _ _ _ _ _ _ _ _ _ _ _ H12 H3)|].
  split; [now apply spoken_app|]. rewrite rest_set_cs, get_set_cs. do 3 (split; [done|]).
  intros _ [Hh|Hh] [Hn1 Hn2]%app_nil; [now apply N1|now apply N2].
Qed.

Lemma send_absolute_ok j w k c dummy : going w k -> serves j w c -> (dummy = true -> is_Some (aapkt k)) ->
  f_header f = None ->
  exists k' w' c' x us, send_absolute cscf i f j k dummy w = Some (k', w') /\ reaches j w k c w' k' c' x /\
    spoken x us /\ ctx_rest c' = ctx_rest c /\
    (us = [] /\ cs_of c' = cs_of c \/ dummy = true \/
     us = [(f_ch f, None, concat (f_in f))] /\
       cs_of c' = Cs true (Chunk.timestamp (f_ch f)) (cs_csid (cs_of c)) (cs_dropped (cs_of c))).
Proof.
  intros G Hs Hd Eh. unfold send_absolute.
  assert (abs_hdr = f_ch f /\ abs_body = concat (f_in f)) as [Ea Eb] by (unfold abs_hdr, abs_body; now rewrite Eh).
  destruct (get_apkt_ok j w k c (M_ret _ (f_in f)) (f_in f) G Hs eq_refl (proj1 (ff_in fine)) (eq_sym Eb))
    as (l & k1 & w1 & E1 & H1 & El & Eaa).
  rewrite Ea in E1. rewrite (bind_eq _ _ _ _ _ E1). pose proof (re_going _ _ _ _ _ _ _ _ H1) as G1.
  destruct (send_one j w1 k1 c l (f_prio f) _ _ _ G1 (reaches_serves _ _ _ _ _ _ _ _ H1 Hs) (ff_prio fine)
    ltac:(apply elem_of_app; left; now apply held_apkt) (pi_apkt _ _ (g_packets _ _ G1) l El))
    as (rc & w2 & x & E2 & H2 & Hx).
  rewrite (bind_eq _ _ _ _ _ E2). pose proof (reaches_trans _ _ _ _ _ _ _ _ _ _ _ _ H1 H2) as H12.
  cbn [Datatypes.app] in H12. unfold said in Hx. rewrite Ea, Eb in Hx. destruct (is_ok rc); cbn [negb].
  2: { exists k1, w2, c, x, []. auto 10. }
  destruct (start_cs_ok j w2 k1 c (Chunk.timestamp (f_ch f)) (re_going _ _ _ _ _ _ _ _ H12)
    (reaches_serves _ _ _ _ _ _ _ _ H12 Hs)) as (w3 & E3 & H3).
  rewrite (bind_eq _ _ _ _ _ E3). pose proof (reaches_trans _ _ _ _ _ _ _ _ _ _ _ _ H12 H3) as H123.
  rewrite app_nil_r in H123.
  destruct (send_aapkt_ok j w3 k1 _ dummy (re_going _ _ _ _ _ _ _ _ H123) (reaches_serves _ _ _ _ _ _ _ _ H123 Hs))
    as (w4 & y & vs & E4 & H4 & Hy & _ & Hn); [now rewrite Eaa|]. rewrite (bind_eq _ _ _ _ _ E4).
  pose proof (reaches_trans _ _ _ _ _ _ _ _ _ _ _ _ H123 H4) as H1234.
  eexists _, w4, _, (x ++ y), _. split; [reflexivity|].
  split; [apply (reaches_peers _ _ _ _ _ _ _ _ (peers k1 + 1)); exact H1234|].
  split; [apply spoken_app; [exact Hx|exact Hy]|]. rewrite rest_set_cs, get_set_cs. split; [done|]. right.
  destruct dummy; [now left|right]. now rewrite (Hn eq_refl).
Qed.

Lemma start_subscriber_ok j w k c : going w k -> serves j w c -> cs_active (cs_of c) = false ->
  exists k' b w' c' x us, start_subscriber cscf lacf i f j k w = Some (k', b, w') /\
    reaches j w k c w' k' c' x /\ spoken x us /\ ctx_rest c' = ctx_rest c /\
    if b then Forall announcement us /\ us <> [] /\
      cs_of c' = Cs true (Chunk.timestamp (f_lh f)) (cs_csid (cs_of c)) (cs_dropped (cs_of c))
    else serve (cs_of c) us (cs_of c').
Proof.
  intros G Hs Hact. unfold start_subscriber. rewrite (bind_eq _ _ _ _ _ (serves_ctx _ _ _ Hs)).
  destruct (must_wait lacf f c).
  { exists k, false, w, c, [], []. split; [done|]. split; [now apply reaches_self|]. split; [constructor|].
    split; [done|]. now apply sv_wait. }
  cbv zeta. set (dummy := wait_video lacf && video f && negb (cs_active (cs1 c))).
  assert (exists k1 w1, (if dummy then get_aapkt cscf i (f_clh f) k else mret k) w = Some (k1, w1) /\
    reaches j w k c w1 k1 c [] /\ (dummy = true -> is_Some (aapkt k1))) as (k1 & w1 & E1 & H1 & Hd).
  { destruct dummy; [|exists k, w; split; [done|]; split; [now apply reaches_self|done]].
    destruct (get_aapkt_ok j w k c G Hs) as (k1 & w1 & H). exists k1, w1. tauto. }
  rewrite (bind_eq _ _ _ _ _ E1). pose proof (re_going _ _ _ _ _ _ _ _ H1) as G1.
  pose proof (reaches_serves _ _ _ _ _ _ _ _ H1 Hs) as Hs1.
  assert (forall k' w' c' x, reaches j w1 k1 c w' k' c' x -> reaches j w k c w' k' c' x) as Ht.
  { intros k' w' c' x H2. exact (reaches_trans _ _ _ _ _ _ _ _ _ _ _ _ H1 H2). }
  destruct (decide (f_header f = None /\ f_coheader f = None)) as [[Eh Eco]|Hn].
  - rewrite Eh, Eco. assert (dummy = true -> ~ no_drift) as Hdr.
    { intros Ed Hno. unfold dummy in Ed. apply andb_true_iff in Ed as [Ed _]. destruct (Hno Ed); congruence. }
    destruct (send_absolute_ok j w1 k1 c dummy G1 Hs1 Hd Eh) as (k2 & w2 & c2 & x & us & E2 & H2 & Hx & Hr & Ho).
    rewrite (bind_eq _ _ _ _ _ E2). exists k2, false, w2, c2, x, us. split; [done|].
    split; [now apply Ht|]. split; [done|]. split; [done|].
    destruct Ho as [[-> ->]|[Ed|[-> ->]]]; [now apply sv_wait|now apply sv_drift, Hdr|now apply sv_absolute].
  - destruct (send_headers_ok j w1 k1 c dummy G1 Hs1 Hd) as (k2 & b & w2 & c2 & x & us & E2 & H2 & Hx & Hu & Hr & Ho & Hne).
    exists k2, b, w2, c2, x, us. split; [destruct (f_header f), (f_coheader f); tauto|].
    split; [now apply Ht|]. split; [done|]. split; [done|].
    destruct b; [|rewrite Ho; now apply sv_wait]. split; [done|]. split; [|done]. apply Hne; [done|].
    destruct (f_header f), (f_coheader f); try (left; discriminate); try (right; discriminate). tauto.
Qed.

(** One pass of the loop. *)
Lemma broadcast_ok j w k c : going w k -> serves j w c -> j <> i -> paused c = false -> c_hls c = false ->
  exists k' w' c' x us vs, broadcast cscf lacf i f j k w = Some (k', w') /\ reaches j w k c w' k' c' x /\
    spoken x (us ++ vs) /\ (us = [] \/ us = [(mh, None, mb)]) /\ ctx_rest c' = ctx_rest c /\
    serve (synced_cs (cs_of c)) vs (cs_of c').
Proof.
  intros G Hs Hne Hp Hh. unfold broadcast. rewrite (bind_eq _ _ _ _ _ (serves_ctx _ _ _ Hs)).
  rewrite (bool_decide_eq_false_2 _ Hne), Hp, Hh. cbn [orb].
  destruct (send_meta_ok j w k c G Hs) as (w1 & c1 & x1 & us & E1 & H1 & Hx1 & Hus & Hr1 & Hc1).
  rewrite (bind_eq _ _ _ _ _ E1).
  destruct (sync_stream_ok j w1 k c1 (re_going _ _ _ _ _ _ _ _ H1) (reaches_serves _ _ _ _ _ _ _ _ H1 Hs))
    as (w2 & c2 & E2 & H2 & Hr2 & Hc2). rewrite Hc1 in Hc2.
  rewrite (bind_eq _ _ _ _ _ E2). pose proof (reaches_trans _ _ _ _ _ _ _ _ _ _ _ _ H1 H2) as H12.
  rewrite app_nil_r in H12. pose proof (re_going _ _ _ _ _ _ _ _ H12) as G2.
  pose proof (reaches_serves _ _ _ _ _ _ _ _ H12 Hs) as Hs2.
  rewrite (bind_eq _ _ _ _ _ (serves_ctx _ _ _ Hs2)).
  destruct (cs_active (cs_of c2)) eqn:Ea.
  - rewrite (bind_eq _ _ _ (k, true) w2 eq_refl). cbn [negb].
    destruct (send_relative_ok j w2 k c2 G2 Hs2) as (k3 & w3 & c3 & x3 & vs & E3 & H3 & Hx3 & Hr3 & Hv).
    exists k3, w3, c3, (x1 ++ x3), us, vs. split; [done|].
    split; [exact (reaches_trans _ _ _ _ _ _ _ _ _ _ _ _ H12 H3)|]. split; [now apply spoken_app|].
    split; [done|]. split; [congruence|]. rewrite <- Hc2. now apply sv_active.
  - destruct (start_subscriber_ok j w2 k c2 G2 Hs2 Ea) as (k3 & b & w3 & c3 & x3 & vs & E3 & H3 & Hx3 & Hr3 & Hv).
    rewrite (bind_eq _ _ _ _ _ E3). pose proof (reaches_trans _ _ _ _ _ _ _ _ _ _ _ _ H12 H3) as H13.
    destruct b; cbn [negb].
    2: { exists k3, w3, c3, (x1 ++ x3), us, vs. split; [done|]. split; [done|]. split; [now apply spoken_app|].
         split; [done|]. split; [congruence|]. now rewrite <- Hc2. }
    destruct Hv as (Hu & Hne3 & Hc3).
    destruct (send_relative_ok j w3 k3 c3 (re_going _ _ _ _ _ _ _ _ H13) (reaches_serves _ _ _ _ _ _ _ _ H13 Hs))
      as (k4 & w4 & c4 & x4 & vs' & E4 & H4 & Hx4 & Hr4 & Hv4).
    exists k4, w4, c4, ((x1 ++ x3) ++ x4), us, (vs ++ vs'). split; [done|].
    split; [exact (reaches_trans _ _ _ _ _ _ _ _ _ _ _ _ H13 H4)|].
    split; [rewrite app_assoc; now repeat apply spoken_app|]. split; [done|]. split; [congruence|].
    rewrite <- Hc2. apply sv_start; [done..|]. now rewrite <- Hc3.
Qed.

(* ------------------------------------------------------------------ *)
(** ** What its peer hears *)

Abbreviation chunk_id := (Chunk.csid (f_ch f)).
Abbreviation heard := (heard cscf).

(** The peer differs on one chunk stream only. *)
Record moved (id : Z) (d d' : peer) : Prop := {
  mv_chunk : Chunk.d_chunk d' = Chunk.d_chunk d;
  mv_streams : forall id', Z.to_nat id' <> Z.to_nat id ->
    Chunk.d_streams d' !! Z.to_nat id' = Chunk.d_streams d !! Z.to_nat id'
}.

Lemma moved_after id d st m : moved id d (after d id st m).
Proof. split; [done|]. intros id' H. cbn. now rewrite list_lookup_insert_ne by congruence. Qed.
Lemma moved_trans id d1 d2 d3 : moved id d1 d2 -> moved id d2 d3 -> moved id d1 d3.
Proof. intros [H1 H2] [H3 H4]. split; [congruence|]. intros id' H. rewrite H4, H2; done. Qed.
Lemma moved_refl id d : moved id d d.
Proof. done. Qed.

(** An utterance with an absolute header, as the peer records it. *)
Definition recorded (u : utterance) : message :=
  let '(h, _, x) := u in (full_header h (Z.of_nat (length x)), x).
(** The packet itself at time [t]. *)
Definition packet (t : Z) : message :=
  (full_header (at_time (f_ch f) t) (Z.of_nat (length (concat (f_in f)))), concat (f_in f)).

(** The chunk stream of the packet is idle; its last message was at time [t]. *)
Definition idle_time (d : peer) (t : Z) : Prop :=
  exists st, idle_at d chunk_id st /\ Chunk.timestamp (Chunk.st_hdr st) = t /\
    Chunk.msid (Chunk.st_hdr st) = NGX_RTMP_MSID.

Lemma idle_new d st m t : idle_at d chunk_id st -> forall st', Chunk.st_len st' = 0 -> Chunk.st_in st' = [] ->
  Chunk.timestamp (Chunk.st_hdr st') = t -> Chunk.msid (Chunk.st_hdr st') = NGX_RTMP_MSID ->
  idle_time (after d chunk_id st' m) t.
Proof. intros [H _] st' H1 H2 H3 H4. exists st'. split; [apply idle_after; [eexists; exact H|done|done]|done]. Qed.

(** An absolute message on the chunk stream of the packet. *)
Lemma hear_absolute d st h x b : wire_of h None x b -> header_ok cscf h -> Chunk.type h <= Chunk.NGX_RTMP_MSG_MAX ->
  body_ok x -> Chunk.csid h = chunk_id -> Chunk.msid h = NGX_RTMP_MSID -> Chunk.d_chunk d = Z.of_nat size ->
  idle_at d chunk_id st ->
  exists d', heard d b d' /\ Chunk.d_app d' = Chunk.d_app d ++ [recorded (h, None, x)] /\
    moved chunk_id d d' /\ idle_time d' (Chunk.timestamp h).
Proof.
  intros Hw Hh Hty (Hb & Hn & Hm) Hc Hms Hk Hi.
  destruct (heard_absolute cscf size ltac:(lia) fix_same h x b d st Hh Hty Hw Hn Hm Hk)
    as (st' & H & H1 & H2 & H3); [now rewrite Hc|].
  rewrite Hc in H. eexists. split; [exact H|]. split; [done|]. split; [apply moved_after|].
  eapply idle_new; [exact Hi|done|done|now rewrite H3|now rewrite H3].
Qed.

Lemma announcement_fine h lh x : announcement (h, lh, x) -> lh = None /\ header_ok cscf h /\
  Chunk.type h <= Chunk.NGX_RTMP_MSG_MAX /\ body_ok x /\ Chunk.csid h = chunk_id /\ Chunk.msid h = NGX_RTMP_MSID /\
  Chunk.timestamp h = Chunk.timestamp (f_lh f).
Proof.
  assert (body_ok []) as Hnil.
  { split; [constructor|]. destruct fine as [_ _ _ _ _ _ _ _ _ _ _ ((_ & _ & Hm) & _) _ _]. cbn. lia. }
  destruct fine. intros [[= -> -> ->]|[[= -> -> ->]|[= -> -> ->]]]; tauto.
Qed.

Lemma hear_announcements us : Forall announcement us -> forall d st x, spoken x us ->
  Chunk.d_chunk d = Z.of_nat size -> idle_at d chunk_id st ->
  exists d', heard d x d' /\ Chunk.d_app d' = Chunk.d_app d ++ map recorded us /\ moved chunk_id d d' /\
    match us with [] => d' = d | _ => idle_time d' (Chunk.timestamp (f_lh f)) end.
Proof.
  induction 1 as [|[[h lh] x0] us Hu HF IH]; intros d st x Hs Hk Hi; inversion Hs as [|? ? ? ? ? ? Hw Hs']; subst.
  - exists d. split; [apply heard_nil|]. split; [now rewrite app_nil_r|]. split; [apply moved_refl|done].
  - destruct (announcement_fine _ _ _ Hu) as (-> & Hh & Hty & Hb & Hc & Hms & Ht).
    destruct (hear_absolute d st h x0 b) as (d1 & H1 & Ha1 & Hm1 & Hi1); auto.
    pose proof Hi1 as (st1 & Hst1 & _).
    destruct (IH d1 st1 y) as (d2 & H2 & Ha2 & Hm2 & Hi2); [done|now rewrite (mv_chunk _ _ _ Hm1)|done|].
    exists d2. split; [now apply (heard_app cscf d d1 d2)|]. split; [rewrite Ha2, Ha1, <- app_assoc; done|].
    split; [now apply (moved_trans _ _ d1)|]. rewrite Ht in Hi1. destruct us; [now subst d2|done].
Qed.

(** The time of a subscriber that is active is right, and behind that of the
    publisher by what was dropped. *)
Definition cs_ok (t : Z) (cs : ngx_rtmp_live_chunk_stream_t) : Prop :=
  0 <= cs_timestamp cs < 2 ^ 32 /\
  if cs_active cs then u32 (cs_timestamp cs + cs_dropped cs) = t else cs_dropped cs = 0.

Lemma relative_time cs us cs' : cs_active cs = true -> cs_ok (Chunk.timestamp (f_lh f)) cs -> relative cs us cs' ->
  cs_active cs' = true /\ cs_ok (Chunk.timestamp (f_ch f)) cs'.
Proof.
  intros Ha [Hr Hs] H. rewrite Ha in Hs.
  assert (u32 (cs_timestamp cs + cs_dropped cs + f_delta f) = Chunk.timestamp (f_ch f)) as E.
  { rewrite (ff_delta fine). unfold u32 in *. rewrite Zplus_mod_idemp_r, <- (Zplus_mod_idemp_l (_ + _)), Hs.
    rewrite Z.mod_small; [lia|]. destruct (h_ts _ _ (ff_ch fine)). lia. }
  destruct H; cbn [cs_active]; (split; [exact Ha|]); split; cbn [cs_active cs_timestamp cs_dropped].
  - apply u32_bound.
  - rewrite Ha. unfold u32 in *. rewrite Zplus_mod_idemp_l, <- E. f_equal. lia.
  - done.
  - rewrite Ha. unfold u32 in *. rewrite Zplus_mod_idemp_r, <- E. f_equal. lia.
Qed.

(** Either the peer hears the packet at the time the server thinks, or the
    packet counts as dropped. *)
Lemma hear_relative d cs us cs' x : cs_active cs = true -> 0 <= cs_timestamp cs < 2 ^ 32 -> relative cs us cs' ->
  spoken x us -> Chunk.d_chunk d = Z.of_nat size -> idle_time d (cs_timestamp cs) ->
  exists d' post, heard d x d' /\ Chunk.d_app d' = Chunk.d_app d ++ post /\ moved chunk_id d d' /\
    idle_time d' (cs_timestamp cs') /\
    (post = [packet (cs_timestamp cs')] /\ cs_dropped cs' = cs_dropped cs \/
     post = [] /\ cs_dropped cs' = u32 (cs_dropped cs + f_delta f)).
Proof.
  intros Ha Hr H Hs Hk (st & Hi & Ht & Hms). destruct H; inversion Hs as [|? ? ? ? ? ? Hw Hs']; subst.
  - inversion Hs'; subst. rewrite app_nil_r. destruct fine as [Hch Hlh _ Hid Hty Hm Hml _ Hd _ Hin _ _ _].
    destruct Hin as (_ & Hb & Hn & Hmax).
    destruct (heard_relative cscf size ltac:(lia) fix_same (f_ch f) (f_lh f) (concat (f_in f)) b
      (Chunk.timestamp (Chunk.st_hdr st)) (u32 (cs_timestamp cs + f_delta f)) d st) as (st' & Hh & H1 & H2 & H3);
      auto; try (rewrite Ht || idtac; tauto); try lia.
    + destruct Hid as (_ & -> & _). destruct (h_csid _ _ Hch). lia.
    + apply u32_bound.
    + rewrite Ht, Hd. unfold u32. rewrite Zminus_mod_idemp_l.
      replace (cs_timestamp cs + _ - cs_timestamp cs) with
        ((Chunk.timestamp (f_ch f) - Chunk.timestamp (f_lh f)) mod 2 ^ 32) by lia. apply Z.mod_mod. lia.
    + eexists _, _. split; [exact Hh|]. split; [reflexivity|]. split; [apply moved_after|].
      split; [|left; done].
      eapply idle_new; [exact Hi|done|done|now rewrite H3|rewrite H3; cbn; tauto].
  - exists d, []. split; [apply heard_nil|]. split; [now rewrite app_nil_r|]. split; [apply moved_refl|].
    split; [now exists st|auto].
Qed.

Definition announced (m : message) : Prop := exists u, announcement u /\ m = recorded u.

Lemma announced_all us : Forall announcement us -> Forall announced (map recorded us).
Proof. intros H. apply Forall_map. eapply Forall_impl; [exact H|]. intros u Hu. now exists u. Qed.

(** The chunk stream of the peer agrees with the server's. *)
Definition cs_step (d : peer) (id : Z) (cs : ngx_rtmp_live_chunk_stream_t) : Prop :=
  exists st, idle_at d id st /\ (cs_active cs = true ->
    Chunk.timestamp (Chunk.st_hdr st) = cs_timestamp cs /\ Chunk.msid (Chunk.st_hdr st) = NGX_RTMP_MSID).

Lemma idle_time_step d t cs : idle_time d t -> (cs_active cs = true -> cs_timestamp cs = t) -> cs_step d chunk_id cs.
Proof. intros (st & H & Ht & Hm) Hc. exists st. split; [done|]. intros Ha. rewrite Hc by done. auto. Qed.

Definition outcome (cs cs' : ngx_rtmp_live_chunk_stream_t) (post : list message) : Prop :=
  post = [packet (cs_timestamp cs')] /\ cs_active cs' = true \/
  post = [] /\ (cs_active cs' = false \/ cs_dropped cs' = u32 (cs_dropped cs + f_delta f)).

Lemma hear_serve d cs us cs' x : no_drift -> serve cs us cs' -> spoken x us -> cs_ok (Chunk.timestamp (f_lh f)) cs ->
  Chunk.d_chunk d = Z.of_nat size -> cs_step d chunk_id cs ->
  exists d' pre post, heard d x d' /\ Chunk.d_app d' = Chunk.d_app d ++ pre ++ post /\ Forall announced pre /\
    moved chunk_id d d' /\ cs_ok (Chunk.timestamp (f_ch f)) cs' /\ cs_step d' chunk_id cs' /\ outcome cs cs' post.
Proof.
  intros Hno H Hs Hok Hk (st & Hi & Ht).
  destruct H as [us Ha Hu|Ha Eh|us cs' Hdr|us vs cs' Ha Hu Hne Hr|vs cs' Ha Hr]; [| |now destruct Hdr| |].
  - destruct (hear_announcements us Hu d st x Hs Hk Hi) as (d' & H & Hap & Hm & Hd).
    exists d', (map recorded us), []. rewrite app_nil_r. split; [done|]. split; [done|].
    split; [now apply announced_all|]. split; [done|]. unfold cs_ok in *. rewrite Ha in *.
    split; [done|]. split; [|right; auto]. destruct us.
    + subst d'. exists st. split; [done|]. congruence.
    + destruct Hd as (st' & Hi' & _). exists st'. split; [done|]. congruence.
  - inversion Hs as [|? ? ? ? ? ? Hw Hs']; subst. inversion Hs'; subst. rewrite app_nil_r.
    destruct fine as [Hch _ _ _ Hty Hms _ _ _ _ Hin _ _ _].
    destruct (hear_absolute d st (f_ch f) (concat (f_in f)) b) as (d' & H & Hap & Hm & Hd); try tauto.
    exists d', [], [packet (Chunk.timestamp (f_ch f))]. split; [done|]. split; [exact Hap|].
    split; [constructor|]. split; [done|]. destruct Hok as [_ Hdr]. rewrite Ha in Hdr.
    split; [|split; [eapply idle_time_step; [exact Hd|done]|now left]].
    split; cbn; [apply Hch|]. rewrite Hdr, Z.add_0_r. apply u32_small. apply Hch.
  - apply spoken_split in Hs as (x1 & x2 & -> & Hs1 & Hs2).
    destruct (hear_announcements us Hu d st x1 Hs1 Hk Hi) as (d1 & H1 & Hap1 & Hm1 & Hd1).
    assert (idle_time d1 (Chunk.timestamp (f_lh f))) as Hd by now destruct us.
    set (cs1 := Cs true _ _ _) in Hr. destruct Hok as [_ Hdr]. rewrite Ha in Hdr.
    assert (cs_ok (Chunk.timestamp (f_lh f)) cs1) as Hok1.
    { destruct fine as [_ Hlh _ _ _ _ _ _ _ _ _ _ _ _]. split; cbn; [apply Hlh|].
      rewrite Hdr, Z.add_0_r. apply u32_small. apply Hlh. }
    destruct (hear_relative d1 cs1 vs cs' x2 eq_refl (proj1 Hok1) Hr Hs2) as (d2 & post & H2 & Hap2 & Hm2 & Hd2 & Ho);
      [now rewrite (mv_chunk _ _ _ Hm1)|exact Hd|].
    destruct (relative_time cs1 vs cs' eq_refl Hok1 Hr) as [Ha' Hok'].
    exists d2, (map recorded us), post. split; [now apply (heard_app cscf d d1 d2)|].
    split; [now rewrite Hap2, Hap1, app_assoc|]. split; [now apply announced_all|].
    split; [now apply (moved_trans _ _ d1)|]. split; [done|].
    split; [eapply idle_time_step; [exact Hd2|done]|]. destruct Ho as [[-> _]|[-> Ho]]; [left|right]; auto.
  - destruct (Ht Ha) as [Ht1 Ht2].
    destruct (hear_relative d cs vs cs' x Ha (proj1 Hok) Hr Hs Hk) as (d2 & post & H2 & Hap2 & Hm2 & Hd2 & Ho);
      [now exists st|].
    destruct (relative_time cs vs cs' Ha Hok Hr) as [Ha' Hok'].
    exists d2, [], post. split; [done|]. split; [done|]. split; [constructor|]. split; [done|]. split; [done|].
    split; [eapply idle_time_step; [exact Hd2|done]|]. destruct Ho as [[-> _]|[-> Ho]]; [left|right]; auto.
Qed.

Lemma cs_step_moved id id' d d' cs : moved id d d' -> Z.to_nat id' <> Z.to_nat id -> cs_step d id' cs -> cs_step d' id' cs.
Proof. intros [_ H] Hne (st & [H1 H2] & H3). exists st. split; [|done]. split; [|done]. now rewrite H. Qed.

(** The peer of a subscriber is where the server thinks it is. *)
Definition in_step (d : peer) (c : ngx_rtmp_live_ctx_t) : Prop :=
  Chunk.d_chunk d = Z.of_nat size /\ (exists st, idle_at d AmfSend.NGX_RTMP_CSID_AMF st) /\
  forall idx : bool, cs_step d (if idx then NGX_RTMP_CSID_AUDIO else NGX_RTMP_CSID_VIDEO) (get_cs idx c).

(** Metadata, or an announcement. *)
Definition extra (m : message) : Prop := m = recorded (mh, None, mb) \/ announced m.

(** What the bytes [x] for a subscriber are to its peer. *)
Definition delivered (c c' : ngx_rtmp_live_ctx_t) (x : list Z) : Prop :=
  no_drift -> forall d, in_step d c -> cs_ok (Chunk.timestamp (f_lh f)) (cs_of c) ->
  exists d' pre post, heard d x d' /\ Chunk.d_app d' = Chunk.d_app d ++ pre ++ post /\ Forall extra pre /\
    in_step d' c' /\ cs_ok (Chunk.timestamp (f_ch f)) (cs_of c') /\ outcome (synced_cs (cs_of c)) (cs_of c') post.

Lemma hear_meta d us x : (us = [] \/ us = [(mh, None, mb)]) -> spoken x us -> Chunk.d_chunk d = Z.of_nat size ->
  (exists st, idle_at d AmfSend.NGX_RTMP_CSID_AMF st) ->
  exists d', heard d x d' /\ Chunk.d_app d' = Chunk.d_app d ++ map recorded us /\
    moved AmfSend.NGX_RTMP_CSID_AMF d d' /\ exists st, idle_at d' AmfSend.NGX_RTMP_CSID_AMF st.
Proof.
  intros [-> | ->] Hs Hk [st Hi]; inversion Hs as [|? ? ? ? ? ? Hw Hs']; subst.
  - exists d. split; [apply heard_nil|]. split; [now rewrite app_nil_r|]. split; [apply moved_refl|eauto].
  - inversion Hs'; subst. rewrite app_nil_r. destruct fine as [_ _ _ _ _ _ _ _ _ _ _ (_ & _ & Hb) (Hh & Hty & Hc) _].
    destruct Hb as (Hb & Hn & Hm).
    destruct (heard_absolute cscf size ltac:(lia) fix_same mh mb b d st Hh Hty Hw Hn Hm Hk)
      as (st' & H & H1 & H2 & _); [now rewrite Hc|].
    rewrite Hc in H. eexists. split; [exact H|]. split; [done|]. split; [apply moved_after|].
    exists st'. apply idle_after; [destruct Hi as [Hi _]; eexists; exact Hi|done|done].
Qed.

Lemma synced_ok t cs : cs_ok t cs -> cs_ok t (synced_cs cs).
Proof. unfold cs_ok, synced_cs. intros [H1 H2]. case_if; cbn; [|done]. now split. Qed.

Lemma other_cs c c' : ctx_rest c' = ctx_rest c -> get_cs (negb (f_csidx f)) c' = get_cs (negb (f_csidx f)) c.
Proof. unfold ctx_rest. congruence. Qed.

Lemma hear_subscriber c c' x us vs : spoken x (us ++ vs) -> (us = [] \/ us = [(mh, None, mb)]) ->
  ctx_rest c' = ctx_rest c -> serve (synced_cs (cs_of c)) vs (cs_of c') -> delivered c c' x.
Proof.
  intros Hs Hus Hr Hv Hno d (Hk & Hi & Hc) Hok. apply spoken_split in Hs as (x1 & x2 & -> & Hs1 & Hs2).
  destruct (hear_meta d us x1 Hus Hs1 Hk Hi) as (d1 & H1 & Ha1 & Hm1 & Hi1).
  assert (forall idx : bool, cs_step d1 (if idx then NGX_RTMP_CSID_AUDIO else NGX_RTMP_CSID_VIDEO) (get_cs idx c)) as Hc1.
  { intros idx. eapply cs_step_moved; [exact Hm1| |apply Hc]. now destruct idx. }
  assert (chunk_id = if f_csidx f then NGX_RTMP_CSID_AUDIO else NGX_RTMP_CSID_VIDEO) as Eid by apply fine.
  destruct (hear_serve d1 (synced_cs (cs_of c)) vs (cs_of c') x2 Hno Hv Hs2 (synced_ok _ _ Hok))
    as (d2 & pre & post & H2 & Ha2 & Hp2 & Hm2 & Hok2 & Hst2 & Ho2).
  { now rewrite (mv_chunk _ _ _ Hm1). }
  { rewrite Eid. destruct (Hc1 (f_csidx f)) as (st & Hst & Ht). exists st. split; [done|].
    unfold synced_cs. case_if; [done|exact Ht]. }
  exists d2, (map recorded us ++ pre), post. split; [now apply (heard_app cscf d d1 d2)|].
  split; [now rewrite Ha2, Ha1, <- !app_assoc|].
  split; [apply Forall_app; split; [destruct Hus as [-> | ->]; repeat constructor|eapply Forall_impl; [exact Hp2|]; now right]|].
  split; [|done]. split; [now rewrite (mv_chunk _ _ _ Hm2), (mv_chunk _ _ _ Hm1)|]. split.
  - destruct Hi1 as (st & H & H'). exists st. split; [|done]. rewrite (mv_streams _ _ _ Hm2); [done|].
    rewrite Eid. now destruct (f_csidx f).
  - intros idx. destruct (decide (idx = f_csidx f)) as [-> |Hne]; [now rewrite <- Eid|].
    assert (idx = negb (f_csidx f)) as -> by now destruct idx, (f_csidx f).
    rewrite (other_cs _ _ Hr). eapply cs_step_moved; [exact Hm2| |apply Hc1].
    rewrite Eid. now destruct (f_csidx f).
Qed.

(* ------------------------------------------------------------------ *)
(** ** The loop over the subscribers *)

(** A session the loop passes over, or one it serves. *)
Definition skipped (j : sid) (c : ngx_rtmp_live_ctx_t) : bool := bool_decide (j = i) || paused c || c_hls c.

Definition member (w : process) (j : sid) : Prop :=
  exists s c, sessions w !! j = Some s /\ lctx s = Some c /\ Queue.hls (queue s) = c_hls c.

(** What the loop does to session [j]. *)
Definition result_for (j : sid) (w w' : process) : Prop :=
  forall s c, sessions w !! j = Some s -> lctx s = Some c ->
  exists s' c' x, sessions w' !! j = Some s' /\ lctx s' = Some c' /\ ctx_rest c' = ctx_rest c /\
    sess_rest s' = sess_rest s /\ outs w' !! j = Some (output (mem w) s ++ x) /\
    if skipped j c then c' = c /\ x = [] else delivered c c' x.

(** The session [j] is the same to other modules, and was given nothing. *)
Definition untouched (j : sid) (w w' : process) : Prop :=
  sess_shape <$> sessions w' !! j = sess_shape <$> sessions w !! j /\ outs w' !! j = outs w !! j.

Lemma untouched_trans j w1 w2 w3 : untouched j w1 w2 -> untouched j w2 w3 -> untouched j w1 w3.
Proof. intros [H1 H2] [H3 H4]. split; congruence. Qed.

Lemma untouched_session j w w' s : untouched j w w' -> sessions w !! j = Some s ->
  exists s', sessions w' !! j = Some s' /\ sess_shape s' = sess_shape s /\ output (mem w') s' = output (mem w) s.
Proof.
  intros [H1 H2] Es. rewrite Es in H1. destruct (sessions w' !! j) as [s'|] eqn:Es'; [|done].
  rewrite (outs_session _ _ _ Es), (outs_session _ _ _ Es') in H2. exists s'. cbn in H1. split; [done|]. split; congruence.
Qed.

Lemma untouched_member j w w' : untouched j w w' -> member w j -> member w' j.
Proof.
  intros H (s & c & Es & El & Eh). destruct (untouched_session j w w' s H Es) as (s' & Es' & Hs & _).
  injection Hs as Hl _ _ _ _ Hh _ _. exists s', c. split; [done|]. split; congruence.
Qed.

Lemma untouched_before j w w1 w' : untouched j w w1 -> result_for j w1 w' -> result_for j w w'.
Proof.
  intros H Hr s c Es El. destruct (untouched_session j w w1 s H Es) as (s1 & Es1 & Hs & Ho).
  destruct (Hr s1 c Es1) as (s' & c' & x & H1 & H2 & H3 & H4 & H5); [injection Hs; congruence|].
  exists s', c', x. rewrite <- Ho, H4. do 3 (split; [done|]). split; [|done].
  injection Hs as _ ? ? ? _ ? ? ?. unfold sess_rest, consts. congruence.
Qed.

Lemma untouched_behind j w w1 w' : result_for j w w1 -> untouched j w1 w' -> result_for j w w'.
Proof.
  intros Hr H s c Es El. destruct (Hr s c Es El) as (s1 & c1 & x & Es1 & El1 & Hc & Hsr & Ho & Hx).
  destruct (untouched_session j w1 w' s1 H Es1) as (s' & Es' & Hs & _). injection Hs as Hl ? ? ? _ ? ? ?.
  exists s', c1, x. split; [done|]. split; [congruence|]. split; [done|].
  split; [rewrite <- Hsr; unfold sess_rest, consts; congruence|]. split; [|done]. destruct H as [_ ->]. done.
Qed.

(** One pass, also for a session that is passed over. *)
Lemma broadcast_one j w k : going w k -> member w j ->
  exists k' w', broadcast cscf lacf i f j k w = Some (k', w') /\ going w' k' /\ result_for j w w' /\
    (forall j', j' <> j -> untouched j' w w') /\ rest w' = rest w /\ codecs_kept w w'.
Proof.
  intros G (s & c & Es & El & Eh). destruct (skipped j c) eqn:Ek.
  - exists k, w. split.
    { unfold broadcast. rewrite (bind_eq _ _ _ _ _ (ctx_of_eq _ _ _ _ Es El)).
      unfold skipped in Ek. now rewrite Ek. }
    split; [done|]. split; [|split; [done|split; [done|apply codecs_kept_refl]]]. intros s0 c0 E0 L0. rewrite Es in E0. injection E0 as <-.
    rewrite El in L0. injection L0 as <-. exists s, c, []. rewrite Ek, app_nil_r.
    do 4 (split; [done|]). split; [now apply outs_session|done].
  - pose proof Ek as Ek'. unfold skipped in Ek'. apply orb_false_iff in Ek' as [[Hne%bool_decide_eq_false Hp]%orb_false_iff Hh].
    destruct (broadcast_ok j w k c G) as (k' & w' & c' & x & us & vs & E & [G' S _] & Hx & Hus & Hr & Hv);
      [exists s; split; [done|]; split; [done|congruence]|done..|].
    exists k', w'. split; [done|]. split; [done|]. split; [|split; [|split; [apply S|now apply step_kept in S]]].
    + intros s0 c0 E0 L0. rewrite Es in E0. injection E0 as <-. rewrite El in L0. injection L0 as <-.
      destruct (so_self _ _ _ _ _ _ _ S) as (s0 & s' & Es0 & _ & Es' & El' & Hsr).
      rewrite Es in Es0. injection Es0 as <-.
      exists s', c', x. rewrite Ek. do 4 (split; [done|]). split; [|eapply hear_subscriber; eauto].
      rewrite (so_outs _ _ _ _ _ _ _ S), say_lookup, (outs_session _ _ _ Es). done.
    + intros j' Hj. split; [now apply S|]. rewrite (so_outs _ _ _ _ _ _ _ S). now apply say_other.
Qed.

Lemma broadcast_all l : NoDup l -> forall w k, going w k -> (forall j, j ∈ l -> member w j) ->
  exists k' w', fold_each l (broadcast cscf lacf i f) k w = Some (k', w') /\ going w' k' /\
    (forall j, j ∈ l -> result_for j w w') /\ (forall j, j ∉ l -> untouched j w w') /\ rest w' = rest w /\
    codecs_kept w w'.
Proof.
  induction 1 as [|j l Hj Hnd IH]; intros w k G Hm; cbn [fold_each].
  { exists k, w. split; [done|]. split; [done|]. split; [intros j Hj; now apply not_elem_of_nil in Hj|].
    split; [done|]. split; [done|apply codecs_kept_refl]. }
  destruct (broadcast_one j w k G (Hm j (list_elem_of_here _ _))) as (k1 & w1 & E1 & G1 & R1 & U1 & P1 & K1).
  rewrite (bind_eq _ _ _ _ _ E1).
  assert (forall j', j' ∈ l -> j' <> j) as Hne by (intros j' H ->; done).
  destruct (IH w1 k1 G1) as (k2 & w2 & E2 & G2 & R2 & U2 & P2 & K2).
  { intros j' Hj'. apply (untouched_member j' w w1); [auto|]. apply Hm. now apply list_elem_of_further. }
  exists k2, w2. split; [done|]. split; [done|]. split; [|split; [|split; [congruence|now apply (codecs_kept_trans w w1)]]].
  - intros j' [-> |Hj']%elem_of_cons; [eapply untouched_behind; eauto|eapply untouched_before; eauto].
  - intros j' [Hj1 Hj2]%not_elem_of_cons. eapply untouched_trans; eauto.
Qed.

End Frame.
End Limits.
End Broadcast.
