(* ===== verification/LiveAv.v ===== *)
(** * A packet from publisher to subscribers

    [publish_packet] of Live.v, the part of [ngx_rtmp_live_av] behind its tests,
    as a whole: with the pool and the queues it works on (LiveOut.v) and the
    peers at the other end (Broadcast.v). *)

From Stdlib Require Import ZArith Lia.
From stdpp Require Import base numbers list strings gmap.
From S2P Require Import Prelude Buf Bandwidth Chunk Shared Queue Amf Receive Send AmfSend Codec Live LiveOut Broadcast.

Module LiveAv.

Import Shared.
Import Live.
Import LiveOut.
Import Broadcast.

Section Packet.
Context (size : nat) (qmax : Z).
Context (cscf : Chunk.ngx_rtmp_core_srv_conf_t) (lacf : ngx_rtmp_live_app_conf_t).
Hypothesis size_pos : (22 <= size)%nat.
Hypothesis max_streams : NGX_RTMP_CSID_VIDEO < Chunk.max_streams cscf.
Hypothesis fix_same : Chunk.play_time_fix cscf = Chunk.publish_time_fix cscf.

Abbreviation pool_ok := (pool_ok size qmax).

(** The frame [publish_packet] makes of a packet of the publisher with context
    [c] and codec context [cc]. *)
Definition csidx_of (ty : Z) : bool := negb (interleave lacf || (ty =? NGX_RTMP_MSG_VIDEO)).
Definition packet_frame (stale : Z) (h : Chunk.ngx_rtmp_header_t) (chain : list (list Z))
    (c : ngx_rtmp_live_ctx_t) (cc : option Codec.ngx_rtmp_codec_ctx_t) (rpkt : loc) : frame :=
  let ty := Chunk.type h in
  let prio := if ty =? NGX_RTMP_MSG_VIDEO then ngx_rtmp_get_video_frame_type stale chain else 0 in
  let cs := get_cs (csidx_of ty) c in
  let ch := Chunk.Hdr (cs_csid cs) (Chunk.timestamp h) 0 ty NGX_RTMP_MSID in
  let lh := Chunk.Hdr (cs_csid cs) (if cs_active cs then cs_timestamp cs else Chunk.timestamp h) 0 ty
              NGX_RTMP_MSID in
  let clh := Chunk.Hdr (cs_csid cs) (Chunk.timestamp lh) 0
               (if ty =? NGX_RTMP_MSG_AUDIO then NGX_RTMP_MSG_VIDEO else NGX_RTMP_MSG_AUDIO)
               NGX_RTMP_MSID in
  codec_frame lacf ty prio (u32 (Chunk.timestamp ch - Chunk.timestamp lh)) (csidx_of ty) ch lh clh chain rpkt cc.

(** The context of the publisher behind the packet. *)
Definition published (h : Chunk.ngx_rtmp_header_t) (c : ngx_rtmp_live_ctx_t) : ngx_rtmp_live_ctx_t :=
  let cs := get_cs (csidx_of (Chunk.type h)) c in
  set_cs (csidx_of (Chunk.type h)) (Cs true (Chunk.timestamp h) (cs_csid cs) (cs_dropped cs)) c.

(** A packet the chunk layer hands over. *)
Record packet_ok (h : Chunk.ngx_rtmp_header_t) (chain : list (list Z)) (stale : Z) : Prop := {
  pk_type : Chunk.type h = NGX_RTMP_MSG_AUDIO \/ Chunk.type h = NGX_RTMP_MSG_VIDEO;
  pk_time : 0 <= Chunk.timestamp h < 2 ^ 32;
  pk_chain : chain <> [];
  pk_body : body_ok cscf (concat chain);
  pk_stale : 0 <= stale < 256
}.

(** The chunk streams of a publisher. *)
Definition publisher_ok (c : ngx_rtmp_live_ctx_t) : Prop :=
  cs_csid (cs0 c) = NGX_RTMP_CSID_VIDEO /\ cs_csid (cs1 c) = NGX_RTMP_CSID_AUDIO /\
  0 <= cs_timestamp (cs0 c) < 2 ^ 32 /\ 0 <= cs_timestamp (cs1 c) < 2 ^ 32.

(** What the codec module has of the stream: the bodies of the headers and a
    metadata message. *)
Record codec_ok (w : process) (cc : option Codec.ngx_rtmp_codec_ctx_t) (ty : Z)
    (hb cb : list Z) (mh : Chunk.ngx_rtmp_header_t) (mb : list Z) : Prop := {
  co_header : forall rpkt stale h chain c, Chunk.type h = ty ->
    has_header w (f_header (packet_frame stale h chain c cc rpkt)) hb /\
    has_header w (f_coheader (packet_frame stale h chain c cc rpkt)) cb;
  co_meta : forall k l, cc = Some k -> Codec.meta (Codec.chains k) = Some l ->
    l ∈ codec_refs (sessions w) /\ wire_of size cscf mh None mb (Queue.chain_bytes (mem w) l);
  co_bodies : body_ok cscf hb /\ body_ok cscf cb /\ body_ok cscf mb;
  co_mh : header_ok cscf mh /\ Chunk.type mh <= Chunk.NGX_RTMP_MSG_MAX /\
    Chunk.csid mh = AmfSend.NGX_RTMP_CSID_AMF
}.

Lemma frame_type_range stale chain : 0 <= stale < 256 -> bytes_ok (concat chain) ->
  0 <= ngx_rtmp_get_video_frame_type stale chain.
Proof.
  intros Hs Hb. unfold ngx_rtmp_get_video_frame_type. apply Z.shiftr_nonneg, Z.land_nonneg. right. lia.
Qed.

Lemma packet_fine h chain stale c cc rpkt hb cb mh mb :
  packet_ok h chain stale -> publisher_ok c -> body_ok cscf hb /\ body_ok cscf cb /\ body_ok cscf mb ->
  header_ok cscf mh /\ Chunk.type mh <= Chunk.NGX_RTMP_MSG_MAX /\ Chunk.csid mh = AmfSend.NGX_RTMP_CSID_AMF ->
  frame_fine cscf (packet_frame stale h chain c cc rpkt) [] hb cb mh mb.
Proof.
  intros [Ht Hts Hne Hb Hst] (Hc0 & Hc1 & Hr0 & Hr1) Hbodies Hmh.
  set (f := packet_frame stale h chain c cc rpkt). unfold NGX_RTMP_CSID_VIDEO in max_streams.
  set (cs := get_cs (csidx_of (Chunk.type h)) c).
  set (id := if csidx_of (Chunk.type h) then NGX_RTMP_CSID_AUDIO else NGX_RTMP_CSID_VIDEO).
  assert (cs_csid cs = id) as Ecs by (unfold cs, id, get_cs; now destruct (csidx_of _)).
  assert (0 <= cs_timestamp cs < 2 ^ 32) as Hcs by (unfold cs, get_cs; now destruct (csidx_of _)).
  assert (6 <= id <= 7) as Hid by (unfold id, NGX_RTMP_CSID_AUDIO, NGX_RTMP_CSID_VIDEO; destruct (csidx_of _); lia).
  assert (exists lt ct, f_ch f = Chunk.Hdr id (Chunk.timestamp h) 0 (Chunk.type h) NGX_RTMP_MSID /\
    f_lh f = Chunk.Hdr id lt 0 (Chunk.type h) NGX_RTMP_MSID /\ f_clh f = Chunk.Hdr id lt 0 ct NGX_RTMP_MSID /\
    0 <= lt < 2 ^ 32 /\ 0 <= ct <= 9 /\ f_delta f = u32 (Chunk.timestamp h - lt) /\
    f_csidx f = csidx_of (Chunk.type h) /\ f_in f = chain /\ 0 <= f_prio f) as
    (lt & ct & E1 & E2 & E3 & Hlt & Hct & E4 & E5 & E6 & E7).
  { exists (if cs_active cs then cs_timestamp cs else Chunk.timestamp h),
      (if Chunk.type h =? NGX_RTMP_MSG_AUDIO then NGX_RTMP_MSG_VIDEO else NGX_RTMP_MSG_AUDIO).
    unfold f, packet_frame. fold cs. rewrite <- Ecs.
    assert (0 <= (if Chunk.type h =? NGX_RTMP_MSG_VIDEO then ngx_rtmp_get_video_frame_type stale chain else 0)) as Hp
      by (case_if; [apply frame_type_range; [done|apply Hb]|lia]).
    unfold codec_frame. destruct cc; cbn [f_ch f_lh f_clh f_delta f_csidx f_in f_prio];
      (split_and!; auto; try (case_if; lia); try (case_if; unfold NGX_RTMP_MSG_VIDEO, NGX_RTMP_MSG_AUDIO; lia)). }
  assert (8 <= Chunk.type h <= 9) as Hty by (unfold NGX_RTMP_MSG_AUDIO, NGX_RTMP_MSG_VIDEO in Ht; lia).
  split; rewrite ?E1, ?E2, ?E3, ?E4, ?E5, ?E6; auto;
    try (split; cbn [Chunk.csid Chunk.timestamp Chunk.type Chunk.msid]; unfold NGX_RTMP_MSID; lia);
    cbn [Chunk.csid Chunk.timestamp Chunk.type Chunk.msid length]; unfold Chunk.NGX_RTMP_MSG_MAX; try lia.
Qed.

(* ------------------------------------------------------------------ *)
(** ** Around the loop *)

Lemma quiet_untouched ex w w' : quiet ex w w' (outs w) -> forall j, untouched j w w'.
Proof.
  intros [H1 _ H3] j. split; [|now rewrite H3]. injection H1 as H1 _. now rewrite <- !lookup_fmap, H1.
Qed.

Lemma free_opt_ok l ex w : pool_ok (Codec.opt_list l ++ ex) w ->
  exists w', free_opt l w = Some (tt, w') /\ pool_ok ex w' /\ quiet ex w w' (outs w).
Proof.
  destruct l as [l|]; cbn [Codec.opt_list Datatypes.app free_opt]; [apply free_chain_ok|].
  intros H. exists w. split; [done|]. split; [done|apply quiet_refl].
Qed.

(** The packets of the loop are given up. *)
Lemma free_packets f k w : pool_ok (held_by f [] k) w ->
  exists w', release_packets (f_rpkt f) k w = Some (tt, w') /\
    pool_ok [] w' /\ quiet [] w w' (outs w).
Proof.
  intros H. unfold held_by in H. unfold release_packets.
  destruct (free_chain_ok size qmax _ _ _ H) as (w1 & E1 & H1 & Q1). rewrite (bind_eq _ _ _ _ _ E1).
  destruct (free_opt_ok _ _ _ H1) as (w2 & E2 & H2 & Q2). rewrite (bind_eq _ _ _ _ _ E2).
  destruct (free_opt_ok _ _ _ H2) as (w3 & E3 & H3 & Q3). rewrite (bind_eq _ _ _ _ _ E3).
  destruct (free_opt_ok _ _ _ H3) as (w4 & E4 & H4 & Q4). exists w4. split; [done|]. split; [done|].
  rewrite (q_outs _ _ _ _ Q1) in Q2. rewrite (q_outs _ _ _ _ Q2) in Q3. rewrite (q_outs _ _ _ _ Q3) in Q4.
  eapply quiet_sub in Q1, Q2, Q3, Q4; [|apply list_subseteq_nil..].
  eapply quiet_trans; [exact Q1|]. eapply quiet_trans; [exact Q2|]. eapply quiet_trans; [exact Q3|exact Q4].
Qed.

(** The process apart from its counters. *)
Definition counted (w w' : process) : Prop :=
  mem w' = mem w /\ sessions w' = sessions w /\ rest w' = rest w.

Lemma counted_trans w1 w2 w3 : counted w1 w2 -> counted w2 w3 -> counted w1 w3.
Proof. intros (H1 & H2 & H3) (H4 & H5 & H6). split_and!; congruence. Qed.

Lemma upd_bw_ok st w x g : heap w !! st = Some x -> (forall y, stream_shape (g y) = stream_shape y) ->
  exists w', upd_stream st g w = Some (tt, w') /\ counted w w'.
Proof.
  intros E Hg. eexists. split.
  - unfold upd_stream, stream_of, access, modify, mbind, M_bind. rewrite E. reflexivity.
  - split; [done|]. split; [done|]. unfold rest. cbn [set_heap heap streams free_streams relay_heap relays
      ngx_rtmp_publishing ngx_rtmp_playing ngx_time ngx_current_msec].
    now rewrite fmap_insert, Hg, <- fmap_insert, insert_id.
Qed.

Lemma counted_heap w w' st x : counted w w' -> heap w !! st = Some x -> exists x', heap w' !! st = Some x'.
Proof.
  intros (_ & _ & H) E. injection H as H _ _ _ _ _ _ _.
  assert ((stream_shape <$> heap w') !! st = Some (stream_shape x)) as E' by now rewrite H, lookup_fmap, E.
  rewrite lookup_fmap in E'. destruct (heap w' !! st); [eauto|done].
Qed.

(** Every stream of the table is there. *)
Definition table_ok (w : process) : Prop :=
  forall l st, l ∈ streams w -> st ∈ l -> is_Some (heap w !! st).

Lemma counted_table w w' : rest w' = rest w -> table_ok w -> table_ok w'.
Proof.
  intros H Ht l st Hl Hst. injection H as H1 H2 _ _ _ _ _ _. rewrite H2 in Hl.
  apply (fmap_is_Some stream_shape). rewrite <- lookup_fmap, H1, lookup_fmap.
  apply fmap_is_Some. now apply (Ht l).
Qed.

Lemma total_ok w : table_ok w ->
  exists w', ngx_rtmp_update_total_real_bandwidth w = Some (tt, w') /\ counted w w'.
Proof.
  intros Ht. unfold ngx_rtmp_update_total_real_bandwidth. cbv zeta. case_if; [|now exists w].
  assert (is_Some (mapM (mapM (fun st => heap w !! st)) (streams w))) as [ls E'].
  { apply mapM_is_Some_2, Forall_forall. intros l Hl. apply mapM_is_Some_2, Forall_forall.
    intros st Hst. now apply (Ht l). }
  rewrite E'. eexists. split; [reflexivity|]. done.
Qed.

Lemma count_in_ok i st h w s x : sessions w !! i = Some s -> heap w !! st = Some x -> table_ok w ->
  exists w', count_in i st h w = Some (tt, w') /\ counted w w'.
Proof.
  intros Es Ex Ht. unfold count_in. rewrite (bind_eq _ _ _ (ngx_time w) w eq_refl).
  rewrite (bind_eq _ _ _ s w) by (unfold session_of, access; now rewrite Es).
  match goal with |- context [(upd_stream st ?g0 ≫= _) w] =>
    destruct (upd_bw_ok st w x g0 Ex) as (w1 & E1 & C1); [done|] end.
  rewrite (bind_eq _ _ _ _ _ E1).
  destruct (total_ok w1 (counted_table _ _ (proj2 (proj2 C1)) Ht)) as (w2 & E2 & C2). rewrite (bind_eq _ _ _ _ _ E2).
  pose proof (counted_trans _ _ _ C1 C2) as C12. destruct (counted_heap _ _ _ _ C12 Ex) as [x2 Ex2].
  match goal with |- context [upd_stream st ?g0] => destruct (upd_bw_ok st w2 x2 g0 Ex2) as (w3 & E3 & C3); [done|] end.
  exists w3. split; [done|]. eapply counted_trans; eauto.
Qed.

Lemma counted_ok ex w w' : counted w w' -> pool_ok ex w -> pool_ok ex w' /\ forall j, untouched j w w'.
Proof.
  intros (H1 & H2 & H3) [lv [Ho Hq Hsz Hc]]. split.
  - exists lv. split; rewrite ?H1, ?H2; done.
  - intros j. split; [now rewrite H2|]. unfold outs. now rewrite H1, H2.
Qed.

(** In front of the loop. *)
Lemma front_ok i w s c h chain stale : pool_ok [] w -> sessions w !! i = Some s -> lctx s = Some c ->
  packet_ok h chain stale -> publisher_ok c ->
  let f := packet_frame stale h chain c (codec s) in
  exists rpkt w1 w2 w3, upd_session i (set_current_time (Chunk.timestamp h)) w = Some (tt, w1) /\
    upd_ctx i (fun _ => published h c) w1 = Some (tt, w2) /\ ctx_of i w1 = Some (c, w1) /\
    new_packet cscf i chain (f_ch (f 0%nat)) (Some (f_lh (f 0%nat))) w2 = Some (rpkt, w3) /\
    pool_ok [rpkt] w3 /\ step_on [] i w w3 c (published h c) [] /\
    wire_of size cscf (f_ch (f rpkt)) (Some (f_lh (f rpkt))) (concat chain) (Queue.chain_bytes (mem w3) rpkt).
Proof.
  intros Hp Es El Hpk Hpub f.
  destruct (step_upd size qmax [] i w s c c (set_current_time (Chunk.timestamp h)) Hp Es El)
    as (w1 & E1 & H1 & S1); [done..|].
  destruct (step_after _ _ _ _ _ _ _ S1) as (s1 & Es1 & El1).
  destruct (step_upd_ctx size qmax [] i w1 s1 c (fun _ => published h c) H1 Es1 El1) as (w2 & E2 & H2 & S2).
  assert (header_ok cscf (f_ch (f 0%nat))) as Hch.
  { destruct (pk_body _ _ _ Hpk) as (_ & _ & Hb).
    assert (body_ok cscf []) as Hn by (split; [constructor|]; cbn; lia).
    eapply (ff_ch cscf _ [] [] [] (Chunk.Hdr AmfSend.NGX_RTMP_CSID_AMF 0 0 8 AmfSend.NGX_RTMP_MSID) []).
    apply packet_fine; [done|done|done|].
    split; [|split; [cbn; unfold Chunk.NGX_RTMP_MSG_MAX; lia|done]]. eapply amf_hdr_ok; eauto; lia. }
  destruct (new_packet_ok size qmax cscf size_pos fix_same [] w2 i chain (f_ch (f 0%nat)) (Some (f_lh (f 0%nat))) H2
    (pk_chain _ _ _ Hpk) (proj1 (pk_body _ _ _ Hpk)) (proj1 (proj2 (pk_body _ _ _ Hpk))) Hch)
    as (rpkt & w3 & E3 & H3 & Q3 & Hw).
  exists rpkt, w1, w2, w3. do 2 (split; [done|]). split; [eapply ctx_of_eq; eauto|]. do 2 (split; [done|]).
  destruct (step_after _ _ _ _ _ _ _ S2) as (s2 & Es2 & El2).
  assert (step_on [] i w2 w3 (published h c) (published h c) []) as S3
    by (eapply step_quiet; [now rewrite say_nil|exact Es2|exact El2]).
  split; [exact (step_trans _ _ _ _ _ _ _ _ _ _ (step_trans _ _ _ _ _ _ _ _ _ _ S1 S2) S3)|].
  unfold f, packet_frame, codec_frame in *. destruct (codec s); exact Hw.
Qed.

(** The loop finds the packet in the pool. *)
Lemma front_going i w w3 s c h chain stale rpkt hb cb mh mb :
  let f := packet_frame stale h chain c (codec s) rpkt in
  pool_ok [rpkt] w3 -> step_on [] i w w3 c (published h c) [] ->
  wire_of size cscf (f_ch f) (Some (f_lh f)) (concat chain) (Queue.chain_bytes (mem w3) rpkt) ->
  codec_ok w (codec s) (Chunk.type h) hb cb mh mb ->
  going size qmax cscf f [] hb cb mh mb w3 (Packets None None None 0).
Proof.
  intros f Hp S Hw [Hh Hm _ _]. pose proof (step_codec _ _ _ _ _ _ _ S) as Hc.
  assert (f_rpkt f = rpkt /\ f_in f = chain) as [Er Ei].
  { unfold f, packet_frame, codec_frame. now destruct (codec s). }
  assert (forall l, l ∈ codec_refs (sessions w) -> Queue.chain_bytes (mem w3) l = Queue.chain_bytes (mem w) l) as Hb
    by (intros l Hl; apply (so_stable _ _ _ _ _ _ _ S), Hl).
  destruct (Hh rpkt stale h chain c eq_refl) as [H1 H2]. split.
  - unfold held_by. rewrite Er. exact Hp.
  - split; [now rewrite Er, Ei|..].
    + intros l E. destruct (H1 l E) as [Hl <-]. split; [now apply Hc|auto].
    + intros l E. destruct (H2 l E) as [Hl <-]. split; [now apply Hc|auto].
    + intros l E. assert (exists k, codec s = Some k /\ Codec.meta (Codec.chains k) = Some l) as (k & Ek & El).
      { unfold f, packet_frame, codec_frame in E. destruct (codec s) as [k|]; [eauto|done]. }
      destruct (Hm k l Ek El) as [Hl Hwm]. split; [now apply Hc|]. now rewrite Hb.
  - split; done.
Qed.

Lemma rest_stream w w' st x : rest w' = rest w -> heap w !! st = Some x ->
  exists x', heap w' !! st = Some x' /\ stream_shape x' = stream_shape x.
Proof.
  intros [= Hr _ _ _ _ _ _ _] Ex.
  assert ((stream_shape <$> heap w') !! st = Some (stream_shape x)) as Hx by now rewrite Hr, lookup_fmap, Ex.
  rewrite lookup_fmap in Hx. destruct (heap w' !! st) as [x'|]; [|done]. exists x'. split; [done|]. now apply (inj Some) in Hx.
Qed.

(** A stream that waits for video has a codec header. *)
Lemma packet_no_drift stale h chain c cc rpkt :
  (wait_video lacf && (Chunk.type h =? NGX_RTMP_MSG_VIDEO) = true ->
    exists k, cc = Some k /\ Codec.avc_header (Codec.chains k) <> None) ->
  no_drift lacf (packet_frame stale h chain c cc rpkt).
Proof.
  intros H. set (f := packet_frame stale h chain c cc rpkt). intros Hv. left. assert (video f = (Chunk.type h =? NGX_RTMP_MSG_VIDEO)) as Ev.
  { unfold f, packet_frame, codec_frame. now destruct cc. }
  rewrite Ev in Hv. destruct (H Hv) as (k & -> & Hk). apply andb_true_iff in Hv as [_ Hv]. bool_to_prop.
  unfold f, packet_frame, codec_frame. cbn [f_header]. rewrite Hv. exact Hk.
Qed.

(** The publisher stays a member of its stream. *)
Lemma publisher_member i w w3 s c h : sessions w !! i = Some s -> Queue.hls (queue s) = c_hls c ->
  step_on [] i w w3 c (published h c) [] -> forall j, (j <> i -> member w j) -> member w3 j.
Proof.
  intros Es Eh S j Hm. destruct (decide (j = i)) as [-> |Hne].
  - destruct (so_self _ _ _ _ _ _ _ S) as (s0 & s3 & Es0 & _ & Es3 & El3 & Hr3).
    rewrite Es in Es0. injection Es0 as <-. exists s3, (published h c). split; [done|]. split; [done|].
    transitivity (Queue.hls (queue s)); [now injection Hr3|].
    rewrite Eh. unfold published, set_cs. now destruct (csidx_of _).
  - apply (untouched_member j w w3); [|auto]. split; [now apply S|].
    now rewrite (so_outs _ _ _ _ _ _ _ S), say_nil.
Qed.

Lemma publish_packet_spec i st w s c x h chain stale hb cb mh mb :
  pool_ok [] w -> sessions w !! i = Some s -> lctx s = Some c -> Queue.hls (queue s) = c_hls c ->
  heap w !! st = Some x -> NoDup (ctx x) -> (forall j, j ∈ ctx x -> member w j) -> table_ok w ->
  packet_ok h chain stale -> publisher_ok c -> codec_ok w (codec s) (Chunk.type h) hb cb mh mb ->
  exists rpkt w', publish_packet cscf lacf stale i st h chain w = Some (tt, w') /\ pool_ok [] w' /\
    (exists s', sessions w' !! i = Some s' /\ lctx s' = Some (published h c) /\ sess_rest s' = sess_rest s) /\
    (forall j, j ∈ ctx x -> j <> i ->
      result_for size cscf lacf (packet_frame stale h chain c (codec s) rpkt) i hb cb mh mb j w w') /\
    (forall j, j ∉ ctx x -> j <> i -> untouched j w w') /\ rest w' = rest w /\ codecs_kept w w'.
Proof.
  intros Hp Es El Eh Ex Hnd Hmem Htab Hpk Hpub Hco.
  destruct (front_ok i w s c h chain stale Hp Es El Hpk Hpub)
    as (rpkt & w1 & w2 & w3 & E1 & E2 & Ec & E3 & Hp3 & S3 & Hw).
  pose proof (front_going i w w3 s c h chain stale rpkt hb cb mh mb Hp3 S3 Hw Hco) as G. cbv zeta in G, Hw.
  pose proof (packet_fine h chain stale c (codec s) rpkt hb cb mh mb Hpk Hpub (co_bodies _ _ _ _ _ _ _ Hco)
    (co_mh _ _ _ _ _ _ _ Hco)) as Hfine.
  set (f := packet_frame stale h chain c (codec s) rpkt) in *.
  destruct (so_self _ _ _ _ _ _ _ S3) as (s0 & s3 & Es0 & _ & Es3 & El3 & Hr3).
  rewrite Es in Es0. injection Es0 as <-. assert (codec s3 = codec s) as Ek3 by now injection Hr3.
  assert (forall j, j <> i -> untouched j w w3) as U3.
  { intros j Hj. split; [now apply S3|]. now rewrite (so_outs _ _ _ _ _ _ _ S3), say_nil. }
  destruct (rest_stream w w3 st x (so_rest _ _ _ _ _ _ _ S3) Ex) as (x3 & Ex3 & Hx3).
  assert (ctx x3 = ctx x) as Ectx by now injection Hx3.
  destruct (broadcast_all size qmax cscf lacf size_pos fix_same f i [] hb cb mh mb Hfine (ctx x) Hnd w3
    (Packets None None None 0) G) as (k4 & w4 & E4 & G4 & R4 & U4 & P4 & K4).
  { intros j Hj. apply (publisher_member i w w3 s c h Es Eh S3). auto. }
  destruct (free_packets f k4 w4 (g_pool _ _ _ _ _ _ _ _ _ _ _ G4)) as (w5 & E5 & Hp5 & Q5).
  assert (exists s4, sessions w4 !! i = Some s4 /\ lctx s4 = Some (published h c) /\ sess_rest s4 = sess_rest s3)
    as (s4 & Es4 & El4 & Hr4).
  { destruct (decide (i ∈ ctx x)) as [Hi|Hi].
    - destruct (R4 i Hi s3 _ Es3 El3) as (s4 & c4 & y & Es4 & El4 & _ & Hr4 & _ & Hsk). unfold skipped in Hsk.
      rewrite bool_decide_eq_true_2 in Hsk by done. destruct Hsk as [-> _]. eauto.
    - destruct (untouched_session i w3 w4 s3 (U4 i Hi) Es3) as (s4 & Es4 & Hs4 & _). exists s4. split; [done|].
      injection Hs4 as -> ? ? ? _ ? ? ?. split; [done|]. unfold sess_rest, consts. congruence. }
  assert (rest w5 = rest w) as P5.
  { rewrite <- (so_rest _ _ _ _ _ _ _ S3), <- P4. destruct Q5 as [Q5 _ _]. unfold shape in Q5. unfold rest. congruence. }
  destruct (untouched_session i w4 w5 s4 (quiet_untouched _ _ _ Q5 i) Es4) as (s5 & Es5 & Hs5 & _).
  destruct (rest_stream w w5 st x P5 Ex) as (x5 & Ex5 & _).
  destruct (count_in_ok i st h w5 s5 x5 Es5 Ex5 (counted_table _ _ P5 Htab)) as (w6 & E6 & C6).
  destruct (counted_ok [] w5 w6 C6 Hp5) as [Hp6 U6].
  assert (forall j, untouched j w4 w6) as U46
    by (intros j; exact (untouched_trans j w4 w5 w6 (quiet_untouched _ _ _ Q5 j) (U6 j))).
  exists rpkt, w6. split; [|split; [done|split; [|split; [|split; [|split]]]]].
  - refine (eq_trans (bind_eq _ _ _ _ _ E1) _). refine (eq_trans (bind_eq _ _ _ _ _ Ec) _). cbv zeta.
    refine (eq_trans (bind_eq _ _ _ _ w2 _) _).
    { rewrite <- E2. unfold upd_ctx. now rewrite !(bind_eq _ _ _ _ _ Ec). }
    refine (eq_trans (bind_eq _ _ _ rpkt w3 _) _).
    { rewrite <- E3. unfold packet_frame, codec_frame. now destruct (codec s). }
    rewrite (bind_eq _ _ _ s3 w3) by (unfold session_of, access; now rewrite Es3). rewrite Ek3.
    rewrite (bind_eq _ _ _ x3 w3) by (unfold stream_of, access; now rewrite Ex3). rewrite Ectx.
    refine (eq_trans (bind_eq _ _ _ k4 w4 E4) _). refine (eq_trans (bind_eq _ _ _ tt w5 _) E6).
    rewrite <- E5. unfold f, packet_frame, codec_frame. now destruct (codec s).
  - destruct (untouched_session i w4 w6 s4 (U46 i) Es4) as (s6 & Es6 & Hs6 & _). exists s6. split; [done|].
    injection Hs6 as -> ? ? ? _ ? ? ?. split; [done|]. rewrite <- Hr3, <- Hr4. unfold sess_rest, consts. congruence.
  - intros j Hj Hne. eapply untouched_before; [now apply U3|]. eapply untouched_behind; [now apply R4|auto].
  - intros j Hj Hne. exact (untouched_trans _ _ _ _ (U3 j Hne) (untouched_trans _ _ _ _ (U4 j Hj) (U46 j))).
  - rewrite <- P5. apply C6.
  - apply (codecs_kept_trans w w3); [exact (step_kept _ _ _ _ _ _ _ S3)|]. apply (codecs_kept_trans w3 w4); [done|].
    apply (codecs_kept_trans w4 w5); [exact (quiet_codecs _ _ _ _ Q5)|]. destruct C6 as (Em & Ess & _).
    split; [|now rewrite Ess]. intros k _. now rewrite Em.
Qed.

(* ------------------------------------------------------------------ *)
(** ** What subscribers hear *)

(** The subscriber with context [q] is behind the publisher with context [p]
    by what it dropped, on every chunk stream that is active. *)
Definition abreast (p q : ngx_rtmp_live_ctx_t) : Prop :=
  forall idx, 0 <= cs_timestamp (get_cs idx q) < 2 ^ 32 /\
    if cs_active (get_cs idx p) then cs_ok (cs_timestamp (get_cs idx p)) (get_cs idx q)
    else cs_active (get_cs idx q) = false /\ cs_dropped (get_cs idx q) = 0.

(** The packet as the peer hears it, later by [n] milliseconds than the
    publisher sent it. *)
Definition packet_at (h : Chunk.ngx_rtmp_header_t) (id : Z) (chain : list (list Z)) (n : Z) : message :=
  (Chunk.Hdr id (u32 (Chunk.timestamp h - n)) (Z.of_nat (length (concat chain))) (Chunk.type h) NGX_RTMP_MSID,
   concat chain).

(** What a packet is to the peer of a subscriber whose context goes from [q]
    to [q'] and which is given the bytes [x]. *)
Definition relayed (stale : Z) (h : Chunk.ngx_rtmp_header_t) (chain : list (list Z)) (p : ngx_rtmp_live_ctx_t)
    (cc : option Codec.ngx_rtmp_codec_ctx_t) (hb cb : list Z) (mh : Chunk.ngx_rtmp_header_t) (mb : list Z)
    (q q' : ngx_rtmp_live_ctx_t) (x : list Z) : Prop :=
  let f := packet_frame stale h chain p cc 0%nat in
  let idx := csidx_of (Chunk.type h) in
  forall d, in_step size d q -> abreast p q ->
  exists d' pre post, heard cscf d x d' /\ Chunk.d_app d' = Chunk.d_app d ++ pre ++ post /\
    Forall (extra f hb cb mh mb) pre /\ in_step size d' q' /\ abreast (published h p) q' /\
    (post = [packet_at h (cs_csid (get_cs idx p)) chain (cs_dropped (get_cs idx q'))] /\
       cs_active (get_cs idx q') = true \/
     post = [] /\ (cs_active (get_cs idx q') = false \/
       cs_dropped (get_cs idx q') = u32 (cs_dropped (synced_cs lacf (get_cs idx q)) + f_delta f))).

Lemma cs_time t cs : cs_ok t cs -> cs_active cs = true -> 0 <= t < 2 ^ 32 -> cs_timestamp cs = u32 (t - cs_dropped cs).
Proof.
  intros [Hr Hs] Ha Ht. rewrite Ha in Hs. rewrite <- Hs. unfold u32. rewrite Zminus_mod_idemp_l.
  replace (cs_timestamp cs + cs_dropped cs - cs_dropped cs) with (cs_timestamp cs) by lia.
  symmetry. now apply Z.mod_small.
Qed.

(** [delivered] in terms of the packet. *)
Lemma delivered_relayed stale h chain p cc rpkt hb cb mh mb q q' x :
  packet_ok h chain stale -> no_drift lacf (packet_frame stale h chain p cc rpkt) ->
  ctx_rest (packet_frame stale h chain p cc rpkt) q' = ctx_rest (packet_frame stale h chain p cc rpkt) q ->
  delivered size cscf lacf (packet_frame stale h chain p cc rpkt) hb cb mh mb q q' x ->
  relayed stale h chain p cc hb cb mh mb q q' x.
Proof.
  intros Hpk Hno Hrest Hd. intros d Hin Hab. set (f := packet_frame stale h chain p cc 0%nat). set (idx := csidx_of (Chunk.type h)). set (fr := packet_frame stale h chain p cc rpkt) in *.
  assert (f_lh fr = f_lh f /\ f_ch fr = f_ch f /\ f_clh fr = f_clh f /\ f_delta fr = f_delta f /\ f_csidx fr = idx /\
    f_in fr = chain) as (E1 & E2 & E3 & E4 & E5 & E6)
    by (unfold fr, f, idx, packet_frame, codec_frame; now destruct cc).
  assert (f_ch f = Chunk.Hdr (cs_csid (get_cs idx p)) (Chunk.timestamp h) 0 (Chunk.type h) NGX_RTMP_MSID /\
    Chunk.timestamp (f_lh f) = if cs_active (get_cs idx p) then cs_timestamp (get_cs idx p) else Chunk.timestamp h)
    as [Ech Elh] by (unfold f, idx, packet_frame, codec_frame; now destruct cc).
  assert (cs_ok (Chunk.timestamp (f_lh fr)) (get_cs (f_csidx fr) q)) as Hok.
  { rewrite E1, E5, Elh. destruct (Hab idx) as [Hr Hs]. destruct (cs_active (get_cs idx p)); [exact Hs|].
    split; [exact Hr|]. destruct Hs as [-> ->]. done. }
  destruct (Hd Hno d Hin Hok) as (d' & pre & post & H1 & H2 & H3 & H4 & H5 & H6).
  rewrite E2, E5, Ech in H5. cbn [Chunk.timestamp] in H5. exists d', pre, post. do 2 (split; [done|]).
  split; [eapply Forall_impl; [exact H3|]; intros m; unfold extra, announced, announcement; now rewrite E1, E3|].
  split; [done|]. split.
  - intros k. destruct (decide (k = idx)) as [-> |Hk].
    + split; [apply H5|]. unfold published. fold idx. unfold get_cs at 1, set_cs. destruct idx; exact H5.
    + assert (k = negb (f_csidx fr)) as Ek by (rewrite E5; now destruct k, idx).
      rewrite Ek, (other_cs _ _ _ Hrest), <- Ek. specialize (Hab k). unfold published. fold idx.
      destruct k, idx; try done; exact Hab.
  - unfold outcome in H6. rewrite E4, E5 in H6. destruct H6 as [[-> Ha]|H6]; [left|right; exact H6].
    split; [|done]. unfold packet, packet_at, full_header, at_time. rewrite E2, E6, Ech.
    cbn [Chunk.csid Chunk.timestamp Chunk.type Chunk.msid].
    now rewrite (cs_time _ _ H5 Ha (pk_time _ _ _ Hpk)).
Qed.

(** C3: a packet of a publisher reaches its subscribers.  [ngx_rtmp_live_av]
    returns, accounts for every buffer, and serves each subscriber that is not
    paused: the bytes put into its queue are, to a peer that was in step with
    what the server thought of it, first announcements - metadata, codec
    headers at the time of the packet before, the empty audio message - and then
    either the packet itself, whole, its time that of the publisher less
    what this subscriber dropped since it was last synchronised, or nothing,
    the packet being counted as dropped or the subscriber still waiting.  The
    peer is then in step again and abreast of the publisher, whatever the
    socket and the queue did, so that the theorem applies to the next packet.
    The stream has an AVC header when the server is to wait for video. *)
Theorem live_packet_relayed i st w s c x h chain stale hb cb mh mb :
  pool_ok [] w -> sessions w !! i = Some s -> lctx s = Some c -> Queue.hls (queue s) = c_hls c ->
  live lacf = true -> publishing c = true -> stream c = Some st -> heap w !! st = Some x ->
  st_active x = true -> NoDup (ctx x) -> (forall j, j ∈ ctx x -> member w j) -> table_ok w ->
  packet_ok h chain stale -> publisher_ok c -> codec_ok w (codec s) (Chunk.type h) hb cb mh mb ->
  (wait_video lacf && (Chunk.type h =? NGX_RTMP_MSG_VIDEO) = true ->
    exists k, codec s = Some k /\ Codec.avc_header (Codec.chains k) <> None) ->
  exists w', ngx_rtmp_live_av cscf lacf stale i h chain w = Some (NGX_OK, w') /\ pool_ok [] w' /\
    (exists s', sessions w' !! i = Some s' /\ lctx s' = Some (published h c)) /\
    (forall j, j ∉ ctx x -> j <> i -> untouched j w w') /\ rest w' = rest w /\
    forall j sj q, j ∈ ctx x -> j <> i -> sessions w !! j = Some sj -> lctx sj = Some q ->
      exists s' q' y, sessions w' !! j = Some s' /\ lctx s' = Some q' /\
        output (mem w') s' = output (mem w) sj ++ y /\
        if paused q || c_hls q then q' = q /\ y = []
        else relayed stale h chain c (codec s) hb cb mh mb q q' y.
Proof.
  intros Hp Es El Eh Hl Hpb Hst Ex Ha Hnd Hmem Htab Hpk Hpub Hco Hdr.
  destruct (publish_packet_spec i st w s c x h chain stale hb cb mh mb) as
    (rpkt & w' & E & Hp' & (si & Hi & Hli & _) & Hj & Hu & Hr & _); try assumption.
  exists w'. split; [|split; [done|split; [now exists si|split; [done|split; [done|]]]]].
  - unfold ngx_rtmp_live_av. rewrite Hl, bool_decide_eq_false_2 by apply Hpk. cbn [negb orb].
    rewrite (bind_eq _ _ _ s w) by (unfold session_of, access; now rewrite Es).
    rewrite El. cbn [mbind option_bind]. rewrite Hst. cbn [mbind option_bind]. rewrite Hpb. cbn [negb].
    rewrite (bind_eq _ _ _ x w) by (unfold stream_of, access; now rewrite Ex). rewrite Ha. cbn [negb when].
    rewrite (bind_eq _ _ _ tt w) by done. now rewrite (bind_eq _ _ _ _ _ E).
  - intros j sj q Hin Hne Ej Eq. destruct (Hj j Hin Hne sj q Ej Eq) as (s' & q' & y & Es' & Eq' & Hrest & _ & Ho & Hres).
    exists s', q', y. rewrite (outs_session _ _ _ Es') in Ho. injection Ho as Ho. do 3 (split; [done|]).
    unfold skipped in Hres. rewrite (bool_decide_eq_false_2 _ Hne) in Hres. cbn [orb] in Hres.
    destruct (paused q || c_hls q); [done|]. apply (delivered_relayed stale h chain c (codec s) rpkt); auto using packet_no_drift.
Qed.

End Packet.

(* ------------------------------------------------------------------ *)
(** ** Concrete processes *)

Definition free_queue : Queue.session :=
  Queue.Session (replicate 256 None) 0 0 None 0 256 0 false 0 false false false false Queue.no_traffic.
Definition new_session (c : option ngx_rtmp_live_ctx_t) : session :=
  Sess free_queue (Conn [] [] false false) c None NGX_NONE_RELAY (Play [] [] 0 0 0 false) 0.

(** The directives with their defaults; [wv] is [wait_video]. *)
Definition defaults (wv : bool) : ngx_rtmp_live_app_conf_t :=
  AppConf 4 true 300 0 false true wv false false true 0 2000.

(** Session 0 publishes the stream "a", session 1 plays it. *)
Definition joined_ctx (publisher : bool) : ngx_rtmp_live_ctx_t :=
  set_active true (joined 0%nat publisher false zero_ctx).
Definition two_sessions : gmap sid session :=
  <[0%nat := new_session (Some (joined_ctx true))]> {[1%nat := new_session (Some (joined_ctx false))]}.
Definition stream_a : ngx_rtmp_live_stream_t :=
  LStream (str "a") [1%nat; 0%nat] zero_stream_bw 0 true true false 2000.
Definition on_air : process :=
  Process (empty_pool 4096) two_sessions {[0%nat := stream_a]} [[]; [0%nat]; []; []] [] ∅ (replicate 4 []) 0 0
    Bandwidth.bw_zero Bandwidth.bw_zero 0 0.

Lemma two_sessions_lookup i s : two_sessions !! i = Some s ->
  exists b, s = new_session (Some (joined_ctx b)).
Proof.
  unfold two_sessions. rewrite lookup_insert_Some, lookup_singleton_Some. intros [[_ <-]|(_ & _ & <-)]; eauto.
Qed.

Lemma on_air_ok : pool_ok 4096 256 [] on_air.
Proof.
  exists []. split.
  - change (refs (sessions on_air) ++ []) with (@nil loc). split; [apply empty_pool_wf|..].
    + intros l H. now apply not_elem_of_nil in H.
    + intros ls l H. now apply not_elem_of_nil in H.
    + intros l c H. now apply not_elem_of_nil in H.
  - intros i s [b ->]%two_sessions_lookup. split; [|done|exists (2 ^ 56); reflexivity|cbn; lia].
    change (Queue.pending (queue (new_session (Some (joined_ctx b))))) with (@nil loc).
    split; [reflexivity|cbn; lia|reflexivity|reflexivity|done].
  - reflexivity.
  - reflexivity.
Qed.

Definition key_frame : list (list Z) := [[0x17; 1; 0; 0; 0; 1; 2; 3]].
Definition video_at (t : Z) : Chunk.ngx_rtmp_header_t := Chunk.Hdr 4 t 8 NGX_RTMP_MSG_VIDEO 1.
Definition no_meta : Chunk.ngx_rtmp_header_t := Chunk.Hdr AmfSend.NGX_RTMP_CSID_AMF 0 0 18 1.

Lemma live_packet_relayed_witness :
  exists w', ngx_rtmp_live_av Chunk.conf (defaults false) 0 0%nat (video_at 1000) key_frame on_air =
      Some (NGX_OK, w') /\ pool_ok 4096 256 [] w' /\
    exists s' q' y, sessions w' !! 1%nat = Some s' /\ lctx s' = Some q' /\ output (mem w') s' = y /\
      relayed 4096 Chunk.conf (defaults false) 0 (video_at 1000) key_frame (joined_ctx true) None [] [] no_meta []
        (joined_ctx false) q' y.
Proof.
  destruct (live_packet_relayed 4096 256 Chunk.conf (defaults false) ltac:(apply (bool_decide_unpack _); exact Logic.I)
    ltac:(reflexivity) ltac:(reflexivity) 0%nat 0%nat on_air (new_session (Some (joined_ctx true))) (joined_ctx true)
    stream_a (video_at 1000) key_frame 0 [] [] no_meta []) as (w' & E & Hp & _ & _ & _ & Hj).
  - exact on_air_ok.
  - reflexivity.
  - reflexivity.
  - reflexivity.
  - reflexivity.
  - reflexivity.
  - reflexivity.
  - reflexivity.
  - reflexivity.
  - apply (bool_decide_unpack _). exact Logic.I.
  - intros j [-> |[-> |[]%not_elem_of_nil]%elem_of_cons]%elem_of_cons; eexists _, _; (split; [reflexivity|split; reflexivity]).
  - intros l st Hl Hst. repeat (apply elem_of_cons in Hl as [-> |Hl]; [try now apply not_elem_of_nil in Hst|]);
      [|now apply not_elem_of_nil in Hl]. apply list_elem_of_singleton in Hst as ->. now eexists.
  - split; [now right|cbn; lia|done| |lia]. split; [apply (bool_decide_unpack _); exact Logic.I|]. split; cbn; lia.
  - split; [done|]. split; [done|]. split; cbn; lia.
  - split; [|done| |].
    + intros rpkt stale h chain c Hc. split; intros k; discriminate.
    + split; [|split]; (split; [constructor|split; cbn; lia]).
    + split; [split; cbn; unfold AmfSend.NGX_RTMP_CSID_AMF; lia|]. split; [cbn; unfold Chunk.NGX_RTMP_MSG_MAX; lia|reflexivity].
  - intros H. discriminate H.
  - exists w'. split; [exact E|]. split; [exact Hp|].
    destruct (Hj 1%nat _ _ (list_elem_of_here _ _) ltac:(done) eq_refl eq_refl) as (s' & q' & y & H1 & H2 & H3 & H4).
    exists s', q', y. split; [exact H1|]. split; [exact H2|]. split; [exact H3|exact H4].
Defined.

(* ------------------------------------------------------------------ *)
(** ** Runs *)

(** Two new sessions; nothing is published. *)
Definition start_of_day : process :=
  Process (empty_pool 4096) {[0%nat := new_session None; 1%nat := new_session None]} ∅ (replicate 4 []) [] ∅
    (replicate 4 []) 0 0 Bandwidth.bw_zero Bandwidth.bw_zero 0 0.
Definition no_next {A} (_ : sid) (_ : A) : M ngx_rc := mret NGX_OK.
Definition no_next1 (_ : sid) : M ngx_rc := mret NGX_OK.
Definition run {A} (m : M A) : option process := snd <$> m start_of_day.
Definition do_publish (lacf : ngx_rtmp_live_app_conf_t) (i : sid) (nm : string) : M ngx_rc :=
  ngx_rtmp_live_publish Chunk.conf lacf no_next i (Publish (str nm) [] true).
Definition do_play (lacf : ngx_rtmp_live_app_conf_t) (i : sid) (nm : string) : M ngx_rc :=
  ngx_rtmp_live_play Chunk.conf lacf no_next i (Play (str nm) [] 0 0 0 true).

(** The peer of session [i] from the beginning of the connection. *)
Definition new_peer : peer := Chunk.Dec (replicate 32 (Chunk.calloc_stream, [])) 4096 [].
Definition hears (i : sid) (w : process) : option (list (Z * Z)) :=
  s ← sessions w !! i;
  r ← Chunk.decode_all Chunk.conf record new_peer (output (mem w) s);
  Some (map (fun m => (Chunk.type m.1, Chunk.timestamp m.1)) (Chunk.d_app r.1.2)).

(** Video at the times [ts] from session 0. *)
Definition send_video (lacf : ngx_rtmp_live_app_conf_t) (ts : list Z) : M unit :=
  for_each ts (fun t => _ ← ngx_rtmp_live_av Chunk.conf lacf 0 0%nat (video_at t) key_frame; mret tt).

(** With [wait_video] and no codec header, the empty audio message behind the
    first packet goes over the same chunk stream at the time of the packet
    before it, so that a subscriber that joins in the middle of the stream
    hears 1080 as 1040 and is late from then on; without [wait_video] it is on
    time. *)
Example dummy_audio_drifts :
  let late_join lacf :=
    run (_ ← do_publish lacf 0 "a"; send_video lacf [1000];; _ ← do_play lacf 1 "a"; send_video lacf [1040; 1080]) in
  (late_join (defaults false) ≫= hears 1) = Some [(4, 0); (9, 1040); (9, 1080)] /\
  (late_join (defaults true) ≫= hears 1) = Some [(4, 0); (9, 1040); (8, 1000); (9, 1040)].
Proof. vm_compute. split; reflexivity. Qed.

(** The number of publishers is taken down when one leaves and never put up. *)
Example publishers_not_counted :
  (w ← run (do_publish (defaults false) 0 "a"); Some (ngx_rtmp_publishing w, st_publishing <$> heap w !! 0%nat)) =
  Some (0, Some true).
Proof. vm_compute. reflexivity. Qed.

(** A play that finds no stream counts as a player and still does when the
    session is closed. *)
Definition no_idle_streams : ngx_rtmp_live_app_conf_t := AppConf 4 true 300 0 false true false false false false 0 2000.

Example failed_play_counts :
  (w ← run (_ ← do_play no_idle_streams 1 "b"; ngx_rtmp_live_close_stream Chunk.conf no_idle_streams no_next1 1);
   Some (ngx_rtmp_playing w, streams w)) = Some (1, [[]; []; []; []]).
Proof. vm_compute. reflexivity. Qed.

(** The stream of a session whose play found none is read through NULL. *)
Example stream_by_session_null :
  run (_ ← do_play no_idle_streams 1 "b"; ngx_rtmp_live_get_stream_by_session (defaults false) 1) = None.
Proof. vm_compute. reflexivity. Qed.

(** A stream counts as relayed when its name is the beginning of the name of
    one that is. *)
Definition one_relay : process :=
  set_relay_heap {[0%nat := RCtx (str "ab") [0] None None false 0%nat]}
    (Process (empty_pool 4096) ∅ ∅ [] [] ∅ [[0%nat]] 0 0 Bandwidth.bw_zero Bandwidth.bw_zero 0 0).
Example relaying_prefix : fst <$> ngx_rtmp_relay_relaying (str "a") one_relay = Some NGX_OK.
Proof. vm_compute. reflexivity. Qed.

End LiveAv.
