(* ===== verification/Recording.v ===== *)
(** * What a recorder writes

    The file of a recorder (Recorder.v) is an FLV file: a header and one tag for
    every frame taken.  [node_frame] says which tags a frame adds, as a function
    of the context of the recorder alone; the operations on files refine it as
    long as no system call fails. *)

From Stdlib Require Import ZArith Lia.
From stdpp Require Import base numbers list strings gmap.
From S2P Require Import Prelude Buf Mpegts Chunk Shared Queue Receive Codec Disk Live LiveOut LiveAv Recorder.

Module Recording.

Import Disk.
Import LiveOut.
Import Recorder.

(* ------------------------------------------------------------------ *)
(** ** FLV files *)

Record tag := Tag {
  tg_type : Z;
  tg_time : Z;
  tg_body : list Z
}.

Definition tag_bytes (t : tag) : list Z :=
  tag_header (tg_type t) (Z.of_nat (length (tg_body t))) (tg_time t) ++ tg_body t ++
  be_bytes 4 (11 + Z.of_nat (length (tg_body t))).

(** The header with the mask [f] of what is in the file. *)
Definition head_bytes (f : Z) : list Z := [0x46; 0x4c; 0x56; 0x01; f; 0; 0; 0; 9; 0; 0; 0; 0].
Definition flv (f : Z) (ts : list tag) : list Z := head_bytes f ++ concat (map tag_bytes ts).

Record tag_ok (t : tag) : Prop := {
  to_type : 0 <= tg_type t < 256;
  to_time : 0 <= tg_time t < 2 ^ 32;
  to_body : bytes_ok (tg_body t);
  to_size : Z.of_nat (length (tg_body t)) < 2 ^ 24
}.

Lemma length_tag_header ty m t : length (tag_header ty m t) = 11%nat.
Proof. reflexivity. Qed.

Lemma length_tag t : length (tag_bytes t) = (15 + length (tg_body t))%nat.
Proof. unfold tag_bytes. rewrite !length_app, length_tag_header, length_be_bytes. lia. Qed.

Lemma flv_app f ts us : flv f (ts ++ us) = flv f ts ++ concat (map tag_bytes us).
Proof. unfold flv. now rewrite map_app, concat_app, app_assoc. Qed.

Lemma flv_snoc f ts t : flv f (ts ++ [t]) = flv f ts ++ tag_bytes t.
Proof. rewrite flv_app. cbn [map concat]. now rewrite app_nil_r. Qed.

Lemma length_flv f ts : length (flv f ts) = (13 + length (concat (map tag_bytes ts)))%nat.
Proof. reflexivity. Qed.

(** The mask is the byte 4. *)
Lemma mask_flv f g ts : Mpegts.pwrite 4 [g] (flv f ts) = flv g ts.
Proof.
  unfold Mpegts.pwrite, splice, flv. replace (4 - _)%nat with 0%nat by (rewrite length_app; cbn [length head_bytes]; lia).
  rewrite app_nil_r. reflexivity.
Qed.

(** The header of a new file, or over the header of an empty recording. *)
Lemma header_new : Mpegts.pwrite 0 flv_header [] = flv 5 [].
Proof. reflexivity. Qed.
Lemma header_over f : Mpegts.pwrite 0 flv_header (flv f []) = flv 5 [].
Proof. reflexivity. Qed.

(* ------------------------------------------------------------------ *)
(** ** Runs that keep the network side *)

Definition rec_at (rs : gmap sid rsession) (i : sid) (n : nat) : option ngx_rtmp_record_rec_ctx_t :=
  s ← rs !! i; c ← rctx s; rec c !! n.
Definition with_rec (rs : gmap sid rsession) (i : sid) (n : nat) (r : ngx_rtmp_record_rec_ctx_t) :=
  alter (fun s => set_rctx (put_rec n r <$> rctx s) s) i rs.
Definition put_file (p x : list Z) (d : disk) : disk := set_files (<[p := x]> (files d)) d.

Lemma rec_at_with rs i n r0 r : rec_at rs i n = Some r0 -> rec_at (with_rec rs i n r) i n = Some r.
Proof.
  unfold rec_at, with_rec. destruct (rs !! i) as [s|] eqn:E; [|done]. rewrite lookup_alter_eq, E.
  cbn. destruct (rctx s) as [c|]; [|done]. cbn. intros H. rewrite list_lookup_insert_eq; [done|].
  apply lookup_lt_is_Some. eauto.
Qed.

Lemma rec_at_other rs i n j m r : (i, n) <> (j, m) -> rec_at (with_rec rs i n r) j m = rec_at rs j m.
Proof.
  intros Hne. unfold rec_at, with_rec. destruct (decide (i = j)) as [<- |Hij]; [|now rewrite lookup_alter_ne].
  rewrite lookup_alter_eq. destruct (rs !! i) as [s|]; [|done]. cbn. destruct (rctx s) as [c|]; [|done]. cbn.
  apply list_lookup_insert_ne. congruence.
Qed.

Lemma with_with rs i n r r' : with_rec (with_rec rs i n r) i n r' = with_rec rs i n r'.
Proof.
  unfold with_rec. rewrite alter_alter_eq. apply alter_ext. intros s _. unfold compose, set_rctx. cbn. f_equal.
  destruct (rctx s) as [c|]; [|done]. cbn. unfold put_rec. cbn. now rewrite list_insert_insert_eq.
Qed.

Lemma with_same rs i n r : rec_at rs i n = Some r -> with_rec rs i n r = rs.
Proof.
  unfold rec_at, with_rec. intros H. apply alter_id. intros s E. rewrite E in H. cbn in H.
  destruct s as [a b [c|]]; [|done]. cbn in *. unfold set_rctx, put_rec. cbn.
  rewrite list_insert_id by done. now destruct c.
Qed.

Section Limits.
Context (size : nat) (qmax : Z).

(** The network side, statuses aside. *)
Definition kept (m m' : Live.process) : Prop :=
  pool_ok size qmax [] m' /\ shape m' = shape m /\ stable [] m m'.

Lemma net_kept_refl m : pool_ok size qmax [] m -> kept m m.
Proof. intros H. split; [done|]. split; [done|]. now intros k _. Qed.

Lemma net_kept_trans m1 m2 m3 : kept m1 m2 -> kept m2 m3 -> kept m1 m3.
Proof.
  intros (_ & H1 & H2) (H3 & H4 & H5). split; [done|]. split; [congruence|].
  intros k Hk. rewrite H5, H2; [done|done|]. now apply (shape_codec m1 m2).
Qed.

Lemma kept_quiet ex m m' o : pool_ok size qmax [] m' -> quiet ex m m' o -> kept m m'.
Proof.
  intros H [H1 H2 _]. split; [done|]. split; [done|]. intros k Hk. apply H2.
  apply elem_of_app. right. exact Hk.
Qed.

(** [m] ends with [a], the contexts [rs] and the files [d]. *)
Definition runs {A} (m : R A) (w : world) (a : A) (rs : gmap sid rsession) (d : disk) : Prop :=
  exists n, m w = Some (a, World n rs d (msec w)) /\ kept (net w) n.

Lemma runs_bind {A B} (m : R A) (f : A -> R B) w a rs d b rs' d' :
  runs m w a rs d ->
  (forall n, kept (net w) n -> runs (f a) (World n rs d (msec w)) b rs' d') ->
  runs (m ≫= f) w b rs' d'.
Proof.
  intros (n & E & Hk) H. destruct (H n Hk) as (n' & E' & Hk'). exists n'. split.
  - unfold mbind, R_bind. rewrite E. exact E'.
  - exact (net_kept_trans _ _ _ Hk Hk').
Qed.

Lemma ends_bind {A B} (m : R A) (f : A -> R B) w a rs d rs' d' :
  runs m w a rs d ->
  (forall n, kept (net w) n -> exists b, runs (f a) (World n rs d (msec w)) b rs' d') ->
  exists b, runs (m ≫= f) w b rs' d'.
Proof.
  intros (n & E & Hk) H. destruct (H n Hk) as (b & n' & E' & Hk'). exists b, n'. split.
  - unfold mbind, R_bind. rewrite E. exact E'.
  - exact (net_kept_trans _ _ _ Hk Hk').
Qed.

Lemma runs_ret {A} (a : A) w : pool_ok size qmax [] (net w) -> runs (mret a) w a (rsess w) (store w).
Proof. intros H. exists (net w). split; [now destruct w|]. now apply net_kept_refl. Qed.

(** A step that does not fail, in front. *)
Lemma runs_step {A B} (m : R A) (f : A -> R B) w a b rs d :
  m w = Some (a, w) -> runs (f a) w b rs d -> runs (m ≫= f) w b rs d.
Proof. intros E (n & E' & H). exists n. split; [|done]. unfold mbind, R_bind. now rewrite E. Qed.

Lemma runs_rec {B} i n r (f : ngx_rtmp_record_rec_ctx_t -> R B) w b rs d :
  rec_at (rsess w) i n = Some r -> runs (f r) w b rs d -> runs (rec_of i n ≫= f) w b rs d.
Proof.
  intros E. apply runs_step. unfold rec_of, access.
  change (lookup_rec w i n) with (rec_at (rsess w) i n). now rewrite E.
Qed.

Lemma runs_upd i n r f w : pool_ok size qmax [] (net w) -> rec_at (rsess w) i n = Some r ->
  runs (upd_rec i n f) w tt (with_rec (rsess w) i n (f r)) (store w).
Proof.
  intros H E. unfold upd_rec. apply (runs_rec i n r); [done|]. exists (net w). split; [|now apply net_kept_refl].
  unfold rec_at in E. unfold upd_rsession, rsession_of, access, modify. unfold mbind, R_bind.
  destruct (rsess w !! i) as [s|] eqn:Es; [|done]. cbn in E.
  unfold with_rec, set_rsess. do 3 f_equal.
  apply map_eq. intros j. destruct (decide (i = j)) as [<- |Hij].
  - rewrite lookup_insert_eq, lookup_alter_eq, Es. done.
  - now rewrite lookup_insert_ne, lookup_alter_ne.
Qed.

Lemma runs_disk {A} (f : disk -> A * disk) w a d : pool_ok size qmax [] (net w) -> f (store w) = (a, d) ->
  runs (on_disk f) w a (rsess w) d.
Proof. intros H E. exists (net w). split; [|now apply net_kept_refl]. unfold on_disk. now rewrite E. Qed.

Lemma runs_when b m w rs d : (b = true -> runs m w tt rs d) ->
  (b = false -> pool_ok size qmax [] (net w) /\ rs = rsess w /\ d = store w) -> runs (when b m) w tt rs d.
Proof.
  intros H1 H2. destruct b; [auto|]. destruct (H2 eq_refl) as (H & -> & ->). now apply runs_ret.
Qed.

(* ------------------------------------------------------------------ *)
(** ** Steps of one open recorder *)

Section Node.
Context (cscf : Chunk.ngx_rtmp_core_srv_conf_t).
Context (strftime : Z -> list Z -> Z -> list Z).
Context (record_done : sid -> option string -> list Z -> R ngx_rc).
Context (stale : Z).
(** Node [n] of session [i] has the file [p] open as [k]; the rest of the
    process, of the contexts and of the files. *)
Context (i : sid) (n : nat) (p : list Z) (k : nat).
Context (n0 : Live.process) (rs : gmap sid rsession) (d : disk) (ms : Z).
Hypothesis Hrec : is_Some (rec_at rs i n).
Hypothesis Hcalm : calm d.
Hypothesis Hfd : fds d !! k = Some (File p).

Definition at_state (m : Live.process) (r : ngx_rtmp_record_rec_ctx_t) (x : list Z) : world :=
  World m (with_rec rs i n r) (put_file p x d) ms.

(** [m] takes the recorder from [r] to [r'] and its file from [x] to [x']. *)
Definition does {A} (m : R A) (r : ngx_rtmp_record_rec_ctx_t) (x : list Z) (a : A)
    (r' : ngx_rtmp_record_rec_ctx_t) (x' : list Z) : Prop :=
  forall m1, kept n0 m1 -> exists m2, m (at_state m1 r x) = Some (a, at_state m2 r' x') /\ kept n0 m2.

Lemma does_bind {A B} (m : R A) (f : A -> R B) r x a r1 x1 b r2 x2 :
  does m r x a r1 x1 -> does (f a) r1 x1 b r2 x2 -> does (m ≫= f) r x b r2 x2.
Proof.
  intros H1 H2 m1 K1. destruct (H1 m1 K1) as (m2 & E & K2). destruct (H2 m2 K2) as (m3 & E' & K3).
  exists m3. split; [|done]. unfold mbind, R_bind. now rewrite E.
Qed.

Lemma does_ret {A} (a : A) r x : does (mret a) r x a r x.
Proof. intros m1 K. now exists m1. Qed.

Lemma at_rec r : rec_at (with_rec rs i n r) i n = Some r.
Proof. destruct Hrec as [r0 E]. exact (rec_at_with _ _ _ _ _ E). Qed.

Lemma does_rec {B} (f : ngx_rtmp_record_rec_ctx_t -> R B) r x b r' x' :
  does (f r) r x b r' x' -> does (rec_of i n ≫= f) r x b r' x'.
Proof.
  intros H. eapply does_bind; [|exact H]. intros m1 K. exists m1. split; [|done]. unfold rec_of, access.
  change (lookup_rec (at_state m1 r x) i n) with (rec_at (with_rec rs i n r) i n). now rewrite at_rec.
Qed.

Lemma does_upd f r x : does (upd_rec i n f) r x tt (f r) x.
Proof.
  intros m1 K. destruct (runs_upd i n r f (at_state m1 r x)) as (m2 & E & K2); [apply K|apply at_rec|].
  exists m2. rewrite E. unfold at_state. cbn [rsess store msec]. rewrite with_with. split; [done|].
  exact (net_kept_trans _ _ _ K K2).
Qed.

(** The file moves on. *)
Definition advance (m : nat) (r : ngx_rtmp_record_rec_ctx_t) : ngx_rtmp_record_rec_ctx_t :=
  set_file (NgxFile (fd (file r)) (offset (file r) + Z.of_nat m)) r.

Lemma advance_0 r : advance 0 r = r.
Proof. unfold advance. rewrite Z.add_0_r. now destruct r as [? []]. Qed.
Lemma advance_advance a b r : advance b (advance a r) = advance (a + b) r.
Proof. unfold advance, set_file. cbn. do 2 f_equal. lia. Qed.

Lemma does_write_at buf off r x : fd (file r) = Some k -> 0 <= off ->
  does (write_at i n buf off) r x true (advance (length buf) r) (Mpegts.pwrite (Z.to_nat off) buf x).
Proof.
  intros Hk Ho. unfold write_at. apply does_rec. eapply does_bind; [|].
  - intros m1 K. exists m1. split; [|done]. unfold on_disk. cbn [store at_state].
    rewrite (calm_write (put_file p x d) Hcalm (file r) p buf off); [|now unfold target; rewrite Hk; cbn; rewrite Hfd|done].
    cbn beta iota. unfold at_state, set_store. cbn [net rsess msec]. f_equal. f_equal. f_equal.
    unfold put_file, set_files, contents. cbn [files fds sys]. rewrite lookup_insert_eq, insert_insert_eq.
    cbn [default]. now rewrite Hcalm.
  - cbn beta iota. eapply does_bind; [apply does_upd|]. apply does_ret.
Qed.

Lemma does_write buf r x : fd (file r) = Some k -> offset (file r) = Z.of_nat (length x) ->
  does (write i n buf) r x true (advance (length buf) r) (x ++ buf).
Proof.
  intros Hk Ho. unfold write. apply does_rec. rewrite Ho. rewrite <- Mpegts.pwrite_end.
  pose proof (does_write_at buf (Z.of_nat (length x)) r x Hk ltac:(lia)) as H. now rewrite Nat2Z.id in H.
Qed.

Lemma does_body ins : forall r x, fd (file r) = Some k -> offset (file r) = Z.of_nat (length x) ->
  does (write_body i n ins) r x true (advance (length (concat ins)) r) (x ++ concat ins).
Proof.
  induction ins as [|b ins IH]; intros r x Hk Ho; cbn [write_body concat].
  - rewrite advance_0, app_nil_r. apply does_ret.
  - destruct b as [|c b]; [now apply IH|]. eapply does_bind; [now apply does_write|].
    rewrite app_assoc, length_app, <- advance_advance. apply IH; [done|].
    cbn [advance set_file file offset]. rewrite Ho, length_app. lia.
Qed.

(** The context behind a tag with [m] bytes of body. *)
Definition noted (ty : Z) (m : nat) (inc : Z) (r : ngx_rtmp_record_rec_ctx_t) : ngx_rtmp_record_rec_ctx_t :=
  set_nframes (u64 (nframes r + inc)) (advance (15 + m) (set_av (ty =? NGX_RTMP_MSG_VIDEO) r)).

Definition frame_tag (h : Chunk.ngx_rtmp_header_t) (body : list Z) (r : ngx_rtmp_record_rec_ctx_t) : tag :=
  Tag (Chunk.type h) (frame_time (Chunk.timestamp h) (epoch r)) body.

Lemma does_frame h ins inc r x : fd (file r) = Some k -> offset (file r) = Z.of_nat (length x) ->
  Chunk.mlen h = Z.of_nat (length (concat ins)) -> Chunk.mlen h < 2 ^ 24 ->
  limit_reached (noted (Chunk.type h) (length (concat ins)) inc r) = false ->
  does (ngx_rtmp_record_write_frame cscf strftime record_done i n h ins inc) r x NGX_OK
    (noted (Chunk.type h) (length (concat ins)) inc r) (x ++ tag_bytes (frame_tag h (concat ins) r)).
Proof.
  intros Hk Ho Hm Hlt Hl. unfold ngx_rtmp_record_write_frame. eapply does_bind; [apply does_upd|].
  apply does_rec. eapply does_bind; [now apply does_write|]. cbn [negb].
  eapply does_bind; [apply does_body|].
  { done. }
  { cbn [advance set_file file offset set_av]. rewrite Ho, length_app. lia. }
  cbn [negb]. eapply does_bind; [apply does_write|].
  { done. }
  { cbn [advance set_file file offset set_av]. rewrite Ho, !length_app, length_tag_header. lia. }
  cbn [negb]. eapply does_bind; [apply does_upd|]. apply does_rec.
  rewrite !advance_advance, length_tag_header, length_be_bytes.
  set (r' := set_nframes _ _). assert (r' = noted (Chunk.type h) (length (concat ins)) inc r) as ->.
  { unfold r', noted. f_equal. f_equal. lia. }
  rewrite Hl. eapply does_bind; [apply does_ret|].
  replace (((x ++ _) ++ _) ++ _) with (x ++ tag_bytes (frame_tag h (concat ins) r)); [apply does_ret|].
  unfold tag_bytes, frame_tag. cbn [tg_type tg_time tg_body]. rewrite <- Hm, u32_small by lia.
  now rewrite <- !app_assoc.
Qed.

(* ------------------------------------------------------------------ *)
(** ** Frames *)

(** The bytes of a codec header. *)
Definition header_bytes (l : option Shared.loc) : option (list Z) := Queue.chain_bytes (Live.mem n0) <$> l.

(** The tag of a codec header where one is due. *)
Definition header_step (h : Chunk.ngx_rtmp_header_t) (ty : Z) (sent : ngx_rtmp_record_rec_ctx_t -> bool)
    (mark : ngx_rtmp_record_rec_ctx_t -> ngx_rtmp_record_rec_ctx_t) (body : option (list Z)) (mask : Z)
    (r : ngx_rtmp_record_rec_ctx_t) : list tag * ngx_rtmp_record_rec_ctx_t :=
  match body with
  | Some b =>
      if negb (sent r) && has (flags (conf r)) mask
      then ([Tag ty (frame_time (Chunk.timestamp h) (epoch r)) b], mark (noted ty (length b) 0 r))
      else ([], r)
  | None => ([], r)
  end.

Definition headers_step (h : Chunk.ngx_rtmp_header_t) (cc : option Codec.ngx_rtmp_codec_ctx_t)
    (r : ngx_rtmp_record_rec_ctx_t) : list tag * ngx_rtmp_record_rec_ctx_t :=
  match cc with
  | None => ([], r)
  | Some cc =>
      let '(ts, r) := header_step h NGX_RTMP_MSG_AUDIO aac_header_sent set_aac_header_sent
        (header_bytes (Codec.aac_header (Codec.chains cc))) NGX_RTMP_RECORD_AUDIO r in
      let '(us, r) := header_step h NGX_RTMP_MSG_VIDEO avc_header_sent set_avc_header_sent
        (header_bytes (Codec.avc_header (Codec.chains cc)))
        (Z.lor NGX_RTMP_RECORD_VIDEO NGX_RTMP_RECORD_KEYFRAMES) r in
      (ts ++ us, r)
  end.

(** A recorder that takes its first frame. *)
Definition begun (h : Chunk.ngx_rtmp_header_t) (r : ngx_rtmp_record_rec_ctx_t) : ngx_rtmp_record_rec_ctx_t :=
  if initialized r then r
  else
    let r' := set_initialized (u32 (Chunk.timestamp h - time_shift r)) r in
    if offset (file r) =? 0 then advance 13 r' else r'.

Definition is_key (h : Chunk.ngx_rtmp_header_t) (ins : list (list Z)) : bool :=
  (Chunk.type h =? NGX_RTMP_MSG_VIDEO) && key_frame stale ins.
(** A frame a recording may be cut at. *)
Definition breaks (c : ngx_rtmp_record_app_conf_t) (h : Chunk.ngx_rtmp_header_t) (ins : list (list Z)) : bool :=
  if Chunk.type h =? NGX_RTMP_MSG_VIDEO then is_key h ins else negb (has (flags c) NGX_RTMP_RECORD_VIDEO).

(** The tags a frame adds, and the context behind it. *)
Definition node_frame (cc : option Codec.ngx_rtmp_codec_ctx_t) (h : Chunk.ngx_rtmp_header_t) (ins : list (list Z))
    (r : ngx_rtmp_record_rec_ctx_t) : list tag * ngx_rtmp_record_rec_ctx_t :=
  let c := conf r in
  if (has (flags c) NGX_RTMP_RECORD_MANUAL && negb (breaks c h ins) && (nframes r =? 0))
     || unwanted c (Chunk.type h) (is_key h ins)
  then ([], r)
  else
    let '(ts, r) := headers_step h cc (begun h r) in
    let '(ok, r) := ready stale cc (Chunk.type h) ins r in
    if ok : bool
    then (ts ++ [frame_tag h (concat ins) r], noted (Chunk.type h) (length (concat ins)) 1 r)
    else (ts, r).

(** No limits, no rotation. *)
Record plain (c : ngx_rtmp_record_app_conf_t) : Prop := {
  pl_on : has (flags c) NGX_RTMP_RECORD_OFF = false;
  pl_size : max_size c = 0;
  pl_frames : max_frames c = 0;
  pl_interval : interval c = NGX_CONF_UNSET_MSEC
}.

Lemma plain_limit r : plain (conf r) -> limit_reached r = false.
Proof. intros [_ H1 H2 _]. unfold limit_reached. now rewrite H1, H2. Qed.

(** The file [x] of a recorder holds the tags [ts]; a file without a frame of
    this recorder may still lack its header. *)
Definition holds (r : ngx_rtmp_record_rec_ctx_t) (x : list Z) (ts : list tag) : Prop :=
  fd (file r) = Some k /\ plain (conf r) /\
  (offset (file r) = Z.of_nat (length x) /\ (exists f, x = flv f ts) \/
   offset (file r) = 0 /\ initialized r = false /\ ts = [] /\ (x = [] \/ exists f, x = flv f [])).

(** Behind the first frame. *)
Definition holds_on (r : ngx_rtmp_record_rec_ctx_t) (x : list Z) (ts : list tag) : Prop :=
  fd (file r) = Some k /\ plain (conf r) /\ initialized r = true /\
  offset (file r) = Z.of_nat (length x) /\ exists f, x = flv f ts.

Lemma holds_on_holds r x ts : holds_on r x ts -> holds r x ts.
Proof. intros (H1 & H2 & _ & H3 & H4). split; [done|]. split; [done|]. left. done. Qed.

Lemma holds_note r x ts ty m inc t : holds_on r x ts -> length (tg_body t) = m ->
  holds_on (noted ty m inc r) (x ++ tag_bytes t) (ts ++ [t]).
Proof.
  intros (H1 & H2 & H3 & H4 & f & ->) Hm. do 3 (split; [done|]). split.
  - cbn [noted advance set_nframes set_file set_av file offset]. rewrite length_app, length_tag, Hm, H4. lia.
  - exists f. now rewrite flv_snoc.
Qed.

Lemma does_initialize h r x ts : holds r x ts ->
  exists x', does (initialize cscf strftime record_done i n h) r x true (begun h r) x' /\ holds_on (begun h r) x' ts.
Proof.
  intros (Hk & Hp & Hx). unfold begun. destruct (initialized r) eqn:Ei.
  - exists x. split.
    + unfold initialize. apply does_rec. rewrite Ei. apply does_ret.
    + destruct Hx as [[Ho Hf]|(_ & Hf & _)]; [|congruence]. split; [done|]. split; [done|]. done.
  - destruct (offset (file r) =? 0) eqn:E0.
    + exists (flv 5 []). split.
      * unfold initialize. apply does_rec. rewrite Ei. eapply does_bind; [apply does_upd|]. rewrite E0. cbn [negb].
        eapply does_bind.
        { unfold ngx_rtmp_record_write_header. apply does_write_at; [done|lia]. }
        cbn beta iota. change (Z.to_nat 0) with 0%nat.
        replace (Mpegts.pwrite 0 flv_header x) with (flv 5 []); [apply does_ret|].
        destruct Hx as [(Ho & f & ->)|(_ & _ & _ & [-> |[f ->]])];
          [|now rewrite header_new|now rewrite header_over].
        apply Z.eqb_eq in E0. rewrite Ho in E0. rewrite length_flv in E0. lia.
      * do 3 (split; [done|]). destruct Hx as [(Ho & f & ->)|(_ & _ & -> & _)].
        { apply Z.eqb_eq in E0. rewrite Ho, length_flv in E0. lia. }
        apply Z.eqb_eq in E0. cbn. rewrite E0. split; [done|]. now exists 5.
    + exists x. split.
      * unfold initialize. apply does_rec. rewrite Ei. eapply does_bind; [apply does_upd|]. rewrite E0. apply does_ret.
      * destruct Hx as [(Ho & Hf)|(Ho & _)]; [|rewrite Ho in E0; done]. now do 3 (split; [done|]).
Qed.

Hypothesis Hpool : pool_ok size qmax [] n0.

(** The codec context of the session, with headers that fit a tag. *)
Record codec_known (cc : option Codec.ngx_rtmp_codec_ctx_t) : Prop := {
  ck_ctx : Live.codec <$> Live.sessions n0 !! i = Some cc;
  ck_aac : forall c b, cc = Some c -> header_bytes (Codec.aac_header (Codec.chains c)) = Some b ->
    Z.of_nat (length b) < 2 ^ 24 /\ bytes_ok b;
  ck_avc : forall c b, cc = Some c -> header_bytes (Codec.avc_header (Codec.chains c)) = Some b ->
    Z.of_nat (length b) < 2 ^ 24 /\ bytes_ok b
}.

Lemma kept_codec cc m : codec_known cc -> kept n0 m -> Live.codec <$> Live.sessions m !! i = Some cc.
Proof.
  intros [H _ _] (_ & Hs & _). destruct (Live.sessions n0 !! i) as [s|] eqn:E; [|done].
  destruct (shape_session n0 m i s Hs E) as (s' & -> & Hc). cbn in *. injection Hc as _ -> _ _ _ _ _ _. exact H.
Qed.

(** The bytes of a header of the session, wherever the process is. *)
Lemma does_chain l : l ∈ codec_refs (Live.sessions n0) ->
  forall r x m1, kept n0 m1 -> exists ins, lift (Live.chain_data l) (at_state m1 r x) = Some (ins, at_state m1 r x) /\
    concat ins = Queue.chain_bytes (Live.mem n0) l.
Proof.
  intros Hl r x m1 (Hp & Hs & Hst). destruct (chain_data_ok size qmax [] m1 l Hp) as (ins & E & _ & Hc).
  - cbn [Datatypes.app]. now apply (shape_codec n0 m1).
  - exists ins. split; [|rewrite Hc; now apply Hst]. unfold lift. cbn [net at_state]. now rewrite E.
Qed.

Lemma does_header h ty sent mark l mask r x ts :
  (forall r, conf (mark r) = conf r /\ file (mark r) = file r /\ initialized (mark r) = initialized r) ->
  (forall l', l = Some l' -> l' ∈ codec_refs (Live.sessions n0)) ->
  (forall b, header_bytes l = Some b -> Z.of_nat (length b) < 2 ^ 24) ->
  holds_on r x ts ->
  let '(us, r') := header_step h ty sent mark (header_bytes l) mask r in
  exists x', does (codec_header cscf strftime record_done i n h ty sent mark l mask) r x true r' x' /\
    holds_on r' x' (ts ++ us).
Proof.
  intros Hmark Hl Hb Hh. unfold header_step, codec_header. destruct l as [l|]; cbn [header_bytes fmap option_fmap option_map].
  2:{ exists x. rewrite app_nil_r. split; [|done]. apply does_rec, does_ret. }
  destruct (negb (sent r) && _) eqn:E.
  2:{ exists x. rewrite app_nil_r. split; [|done]. apply does_rec. rewrite E. apply does_ret. }
  set (b := Queue.chain_bytes _ l). pose proof Hh as (Hk & Hp & Hi & Ho & Hf).
  set (t := Tag ty _ b). exists (x ++ tag_bytes t). split.
  - apply does_rec. rewrite E. intros m1 K.
    destruct (does_chain l (Hl l eq_refl) r x m1 K) as (ins & Ei & Hc).
    unfold mbind at 1, R_bind at 1. rewrite Ei. unfold ngx_rtmp_record_get_chain_mlen.
    set (h' := Chunk.Hdr _ _ _ _ _).
    assert (does (ngx_rtmp_record_write_frame cscf strftime record_done i n h' ins 0) r x NGX_OK
      (noted ty (length b) 0 r) (x ++ tag_bytes t)) as H.
    { pose proof (does_frame h' ins 0 r x Hk Ho eq_refl) as H. cbn [h' Chunk.mlen Chunk.type] in H. rewrite Hc in H.
      apply H; [apply Hb; done|]. now apply plain_limit. }
    clear Ei. revert m1 K.
    change (does (rc ← ngx_rtmp_record_write_frame cscf strftime record_done i n h' ins 0;
      if Live.is_ok rc then upd_rec i n mark;; mret true else mret false) r x true
      (mark (noted ty (length b) 0 r)) (x ++ tag_bytes t)).
    eapply does_bind; [exact H|]. eapply does_bind; [apply does_upd|apply does_ret].
  - pose proof (holds_note r x ts ty (length b) 0 t Hh eq_refl) as (G1 & G2 & G3 & G4 & G5).
    destruct (Hmark (noted ty (length b) 0 r)) as (M1 & M2 & M3).
    split; [now rewrite M2|]. split; [now rewrite M1|]. split; [now rewrite M3|]. split; [now rewrite M2|done].
Qed.

Lemma does_headers h cc r x ts : codec_known cc -> holds_on r x ts ->
  let '(us, r') := headers_step h cc r in
  exists x', does (codec_headers cscf strftime record_done i n h cc) r x true r' x' /\ holds_on r' x' (ts ++ us).
Proof.
  intros Hcc Hh. unfold headers_step, codec_headers. destruct cc as [cc|].
  2:{ exists x. rewrite app_nil_r. split; [apply does_ret|done]. }
  assert (forall l, Codec.aac_header (Codec.chains cc) = Some l \/ Codec.avc_header (Codec.chains cc) = Some l ->
    l ∈ codec_refs (Live.sessions n0)) as Hrefs.
  { intros l Hl. apply codec_refs_elem. destruct Hcc as [Hc _ _].
    destruct (Live.sessions n0 !! i) as [s|] eqn:Es; [|done]. exists i, s. split; [done|].
    cbn in Hc. injection Hc as ->. cbn [Codec.ctx_refs]. rewrite !elem_of_app.
    destruct Hl as [-> | ->]; cbn [Codec.opt_list]; rewrite !list_elem_of_singleton; auto. }
  pose proof (does_header h NGX_RTMP_MSG_AUDIO aac_header_sent set_aac_header_sent
    (Codec.aac_header (Codec.chains cc)) NGX_RTMP_RECORD_AUDIO r x ts) as H1.
  destruct (header_step _ _ aac_header_sent _ _ _ r) as [us r1].
  destruct H1 as (x1 & D1 & Hh1); [done|eauto|intros b Hb; now apply (ck_aac _ Hcc cc)|done|].
  pose proof (does_header h NGX_RTMP_MSG_VIDEO avc_header_sent set_avc_header_sent
    (Codec.avc_header (Codec.chains cc)) (Z.lor NGX_RTMP_RECORD_VIDEO NGX_RTMP_RECORD_KEYFRAMES) r1 x1 (ts ++ us)) as H2.
  destruct (header_step _ _ avc_header_sent _ _ _ r1) as [vs r2].
  destruct H2 as (x2 & D2 & Hh2); [done|eauto|intros b Hb; now apply (ck_avc _ Hcc cc)|done|].
  exists x2. rewrite app_assoc. split; [|done]. eapply does_bind; [exact D1|exact D2].
Qed.

Lemma does_open_again r x : fd (file r) = Some k ->
  does (ngx_rtmp_record_node_open cscf strftime i n) r x NGX_AGAIN r x.
Proof. intros H. unfold ngx_rtmp_record_node_open. apply does_rec. rewrite H. apply does_ret. Qed.

Lemma does_rotate b r x : fd (file r) = Some k -> plain (conf r) ->
  does (rotate cscf strftime record_done i n b) r x tt r x.
Proof.
  intros Hk [_ _ _ Hi]. unfold rotate. apply does_rec. rewrite Hi, Z.eqb_refl. cbn [negb].
  destruct (b && _); [|apply does_ret]. cbn [when]. destruct (failed r); cbn [negb when]; [apply does_ret|].
  eapply does_bind; [now apply does_open_again|apply does_ret].
Qed.

Lemma ready_keeps cc ty ins r ok r' : ready stale cc ty ins r = (ok, r') ->
  conf r' = conf r /\ file r' = file r /\ initialized r' = initialized r.
Proof.
  unfold ready. destruct (ty =? _); [|now intros [= _ <-]].
  destruct (is_h264 cc && _); [now intros [= _ <-]|]. destruct (starts stale cc ins); now intros [= _ <-].
Qed.

(** A message as it comes from the chunk layer. *)
Record message_ok (h : Chunk.ngx_rtmp_header_t) (ins : list (list Z)) : Prop := {
  mo_mlen : Chunk.mlen h = Z.of_nat (length (concat ins));
  mo_size : Chunk.mlen h < 2 ^ 24;
  mo_bytes : bytes_ok (concat ins);
  mo_type : Chunk.type h = NGX_RTMP_MSG_AUDIO \/ Chunk.type h = NGX_RTMP_MSG_VIDEO;
  mo_time : 0 <= Chunk.timestamp h < 2 ^ 32
}.

Lemma does_node h ins cc r x ts : message_ok h ins -> codec_known cc -> holds r x ts ->
  let '(us, r') := node_frame cc h ins r in
  exists x', does (ngx_rtmp_record_node_av cscf strftime record_done stale i n h ins) r x NGX_OK r' x' /\
    holds r' x' (ts ++ us).
Proof.
  intros Hm Hcc Hh. pose proof Hh as (Hk & Hp & _). unfold node_frame.
  destruct (_ || unwanted _ _ _) eqn:Eu.
  - exists x. rewrite app_nil_r. split; [|done]. unfold ngx_rtmp_record_node_av. apply does_rec. cbv zeta.
    fold (is_key h ins). fold (breaks (conf r) h ins). rewrite (pl_on _ Hp). eapply does_bind; [now apply does_rotate|]. apply does_rec. rewrite Hk, bool_decide_eq_false_2 by done.
    apply orb_true_iff in Eu as [-> | ->]; [apply does_ret|].
    destruct (_ && _ && _); apply does_ret.
  - apply orb_false_iff in Eu as [E1 E2].
    destruct (does_initialize h r x ts Hh) as (x1 & D1 & Hh1).
    pose proof (does_headers h cc (begun h r) x1 ts Hcc Hh1) as H2.
    destruct (headers_step h cc (begun h r)) as [us r2]. destruct H2 as (x2 & D2 & Hh2).
    destruct (ready stale cc (Chunk.type h) ins r2) as [ok r3] eqn:Er.
    destruct (ready_keeps _ _ _ _ _ _ Er) as (R1 & R2 & R3).
    assert (holds_on r3 x2 (ts ++ us)) as Hh3.
    { destruct Hh2 as (G1 & G2 & G3 & G4 & G5). unfold holds_on. now rewrite R1, R2, R3. }
    assert (forall (b : ngx_rc) r4 x4,
      does (if ok then ngx_rtmp_record_write_frame cscf strftime record_done i n h ins 1 else mret NGX_OK)
        r3 x2 b r4 x4 ->
      does (ngx_rtmp_record_node_av cscf strftime record_done stale i n h ins) r x b r4 x4) as Hall.
    { intros b r4 x4 H. unfold ngx_rtmp_record_node_av. apply does_rec. cbv zeta.
      fold (is_key h ins). fold (breaks (conf r) h ins). rewrite (pl_on _ Hp). eapply does_bind; [now apply does_rotate|].
      apply does_rec. rewrite E1, Hk, bool_decide_eq_false_2, E2 by done.
      eapply does_bind; [exact D1|]. cbn [negb]. eapply does_bind.
      { intros m1 K. exists m1. split; [|done]. unfold access. cbn [net at_state].
        now rewrite (kept_codec cc m1 Hcc K). }
      eapply does_bind; [exact D2|]. cbn [negb]. apply does_rec. rewrite Er.
      eapply does_bind; [apply does_upd|exact H]. }
    destruct ok.
    + exists (x2 ++ tag_bytes (frame_tag h (concat ins) r3)). split.
      * apply Hall. pose proof Hh3 as (G1 & G2 & G3 & G4 & G5). apply does_frame; auto; [apply Hm|apply Hm|].
        now apply plain_limit.
      * apply holds_on_holds. rewrite app_assoc. now apply holds_note.
    + exists x2. split; [apply Hall, does_ret|now apply holds_on_holds].
Qed.

End Node.

(* ------------------------------------------------------------------ *)
(** ** Opening and closing *)

(** The time a recording goes on at. *)
Definition last_time (ts : list tag) : Z := match list.last ts with Some t => tg_time t | None => 0 end.

Lemma read_four v : be_val (be_bytes 4 v) = v mod 2 ^ 32.
Proof. exact (be_val_be_bytes 4 v). Qed.

Lemma append_point_empty f d p : calm d -> target f d = Some p -> contents p d = [] ->
  append_point f d = ((0, 0), d).
Proof. intros Hc Ht Hx. unfold append_point. now rewrite (calm_seek d Hc f p Ht), Hx. Qed.

Lemma append_point_header f d p g : calm d -> target f d = Some p -> contents p d = flv g [] ->
  append_point f d = ((0, 0), d).
Proof.
  intros Hc Ht Hx. unfold append_point. rewrite (calm_seek d Hc f p Ht), Hx.
  rewrite length_flv. cbn [map concat length]. change (13 + 0)%nat with 13%nat.
  change (Z.of_nat 13 <? 4) with false. cbn iota.
  rewrite (calm_read d Hc f p _ _ Ht), Hx by lia. reflexivity.
Qed.

Lemma append_point_flv f d p g ts t : calm d -> target f d = Some p -> contents p d = flv g (ts ++ [t]) ->
  tag_ok t -> append_point f d = ((Z.of_nat (length (flv g (ts ++ [t]))), tg_time t), d).
Proof.
  intros Hc Ht Hx [Hty Htm Hb Hn]. unfold append_point. rewrite (calm_seek d Hc f p Ht), Hx.
  set (m := Z.of_nat (length (tg_body t))) in *. rewrite flv_snoc.
  assert (Z.of_nat (length (flv g ts ++ tag_bytes t)) = Z.of_nat (length (flv g ts)) + 15 + m) as El.
  { rewrite length_app, length_tag. lia. }
  rewrite El, (proj2 (Z.ltb_ge _ _)) by lia.
  rewrite (calm_read d Hc f p _ _ Ht), Hx by lia. cbv zeta.
  assert (take 4 (drop (Z.to_nat (Z.of_nat (length (flv g ts)) + 15 + m - 4)) (flv g (ts ++ [t]))) =
    be_bytes 4 (11 + m)) as E4.
  { rewrite flv_snoc. unfold tag_bytes. fold m. rewrite app_assoc, app_assoc.
    rewrite drop_app_length' by (rewrite !length_app, length_tag_header; lia).
    now rewrite take_ge by (rewrite length_be_bytes; lia). }
  change (Z.to_nat 4) with 4%nat. rewrite E4. change (be_bytes 4 (11 + m)) with
    [Z.land (Z.shiftr (11 + m) 24) 255; Z.land (Z.shiftr (11 + m) 16) 255; Z.land (Z.shiftr (11 + m) 8) 255;
     Z.land (Z.shiftr (11 + m) 0) 255]. cbv iota.
  change [Z.land (Z.shiftr (11 + m) 24) 255; Z.land (Z.shiftr (11 + m) 16) 255; Z.land (Z.shiftr (11 + m) 8) 255;
     Z.land (Z.shiftr (11 + m) 0) 255] with (be_bytes 4 (11 + m)).
  rewrite read_four, Z.mod_small by lia. rewrite (proj2 (Z.eqb_neq _ _)) by lia.
  rewrite u32_small, (proj2 (Z.ltb_ge _ _)) by lia. cbn [orb].
  replace (Z.of_nat (length (flv g ts)) + 15 + m - (11 + m) - 4) with (Z.of_nat (length (flv g ts))) by lia.
  rewrite (calm_read d Hc _ p _ _) by (done || lia). cbv zeta. rewrite Hx, Nat2Z.id.
  rewrite flv_snoc, drop_app_length. unfold tag_bytes, tag_header. fold m.
  change (Z.to_nat 8) with 8%nat. cbn [Datatypes.app take be_bytes].
  change [Z.land (Z.shiftr m (8 * Z.of_nat 2)) 255; Z.land (Z.shiftr m (8 * Z.of_nat 1)) 255;
    Z.land (Z.shiftr m (8 * Z.of_nat 0)) 255] with (be_bytes 3 m).
  rewrite (be_val_be_bytes 3 m), (Z.mod_small m) by (change (2 ^ (8 * Z.of_nat 3)) with (2 ^ 24); lia). rewrite u32_small by lia.
  replace (11 + m =? m + 11) with true by (symmetry; apply Z.eqb_eq; lia). cbn [negb].
  do 2 f_equal. change (be_val (be_bytes 4 (tg_time t)) = tg_time t). rewrite read_four. apply Z.mod_small. lia.
Qed.

Section Session.
Context (cscf : Chunk.ngx_rtmp_core_srv_conf_t).
Context (racf : sid -> list ngx_rtmp_record_app_conf_t).
Context (strftime : Z -> list Z -> Z -> list Z).
Context (record_done : sid -> option string -> list Z -> R ngx_rc).
Context (stale : Z) (i : sid).
Hypothesis size_pos : (22 <= size)%nat.
Hypothesis max_streams : Live.NGX_RTMP_CSID_VIDEO < Chunk.max_streams cscf.
Hypothesis fix_same : Chunk.play_time_fix cscf = Chunk.publish_time_fix cscf.

(** The session, with all references accounted for. *)
Definition online (m : Live.process) : Prop :=
  pool_ok size qmax [] m /\ is_Some (Live.sessions m !! i).

Lemma online_shape m m' : online m -> pool_ok size qmax [] m' -> shape m' = shape m -> online m'.
Proof.
  intros [_ [s E]] Hp Hs. split; [done|]. destruct (shape_session m m' i s Hs E) as (s' & -> & _). eauto.
Qed.

Lemma online_kept m m' : online m -> kept m m' -> online m'.
Proof. intros H (Hp & Hs & _). now apply (online_shape m). Qed.

(** What the handlers of other modules may do at the end of a recording. *)
Hypothesis done_quiet : forall x p w, online (net w) ->
  exists rc, runs (record_done i x p) w rc (rsess w) (store w).

Lemma runs_status code level c w : online (net w) -> short code = true -> short level = true ->
  short (default EmptyString (id c)) = true -> runs (send_status cscf i code level c) w tt (rsess w) (store w).
Proof.
  intros [Hp [s Es]] H1 H2 H3.
  destruct (send_status_ok size qmax cscf size_pos max_streams fix_same [] (net w) i s code level _ Hp H1 H2 H3 Es)
    as (rc & m & x & E & Hp' & Hq & _); [cbn; lia|].
  exists m. split; [|exact (kept_quiet _ _ _ _ Hp' Hq)]. unfold send_status, lift. unfold mbind, R_bind. now rewrite E.
Qed.

(** The name of the recording. *)
Definition name_at (rs : gmap sid rsession) : option (list Z) := s ← rs !! i; c ← rctx s; Some (name c).

Lemma name_with rs n r : name_at (with_rec rs i n r) = name_at rs.
Proof.
  unfold name_at, with_rec. rewrite lookup_alter_eq. destruct (rs !! i) as [s|]; [|done]. cbn. now destruct (rctx s).
Qed.

Lemma runs_path {B} n r nm p (f : list Z -> R B) w b rs d : rec_at (rsess w) i n = Some r ->
  name_at (rsess w) = Some nm -> record_path strftime (conf r) nm (timestamp r) = Some p ->
  runs (f p) w b rs d -> runs (ngx_rtmp_record_make_path strftime i n ≫= f) w b rs d.
Proof.
  intros Hr Hn Hp. apply runs_step. unfold ngx_rtmp_record_make_path, rec_of, access. unfold mbind, R_bind.
  change (lookup_rec w i n) with (rec_at (rsess w) i n). rewrite Hr.
  unfold name_at in Hn. destruct (rsess w !! i) as [s|]; [|done]. cbn in *. destruct (rctx s) as [c|]; [|done].
  cbn in *. injection Hn as ->. now rewrite Hp.
Qed.

(** A recorder that has just opened its file. *)
Definition opened (c : ngx_rtmp_record_app_conf_t) (k : nat) (off shift sec ms : Z) : ngx_rtmp_record_rec_ctx_t :=
  Rec c (NgxFile (Some k) off) 0 0 shift (sec, ms) sec false false false false false false false.

(** The tags a recorder goes on after. *)
Definition old_tags (c : ngx_rtmp_record_app_conf_t) (ts : list tag) : list tag := if append c then ts else [].

(** A closed file: missing or empty, or a recording. *)
Definition finished (x : list Z) (ts : list tag) : Prop :=
  (x = [] /\ ts = [] \/ exists f, x = flv f ts) /\ Forall tag_ok ts.

Lemma node_open_runs n r nm p ts w : online (net w) -> calm (store w) -> rec_at (rsess w) i n = Some r ->
  fd (file r) = None -> plain (conf r) -> short (default EmptyString (id (conf r))) = true ->
  name_at (rsess w) = Some nm -> record_path strftime (conf r) nm (Live.ngx_time (net w)) = Some p ->
  finished (contents p (store w)) ts ->
  exists k off x, fds (store w) !! k = None /\
    let r' := opened (conf r) k off (last_time (old_tags (conf r) ts)) (Live.ngx_time (net w)) (msec w) in
    runs (ngx_rtmp_record_node_open cscf strftime i n) w NGX_OK (with_rec (rsess w) i n r')
      (Disk (<[p := x]> (files (store w))) (<[k := File p]> (fds (store w))) []) /\
    holds k r' x (old_tags (conf r) ts).
Proof.
  intros Ho Hc Hr Hfd Hpl Hid Hnm Hp [Hx Hts].
  assert (exists k x, fds (store w) !! k = None /\
    ngx_open_file p (if append (conf r) then CreateOrOpen else Truncate) (store w) =
      (Some k, Disk (<[p := x]> (files (store w))) (<[k := File p]> (fds (store w))) []) /\
    finished x (old_tags (conf r) ts)) as (k & x & Hk & Eopen & Hfin).
  { unfold old_tags. destruct (append (conf r)).
    - destruct (open_append (store w) Hc p) as (k & Hk & E). exists k, (contents p (store w)). now split.
    - destruct (open_truncate (store w) Hc p) as (k & Hk & E). exists k, []. do 2 (split; [done|]). split; auto. }
  set (d' := Disk _ _ _) in Eopen. set (us := old_tags (conf r) ts) in *.
  assert (exists off, (append (conf r) = true -> append_point (NgxFile (Some k) 0) d' = ((off, last_time us), d')) /\
    (append (conf r) = false -> off = 0 /\ us = []) /\
    (off = Z.of_nat (length x) /\ (exists f, x = flv f us) \/ off = 0 /\ us = [] /\ (x = [] \/ exists f, x = flv f [])))
    as (off & Happ & Hno & Hoff).
  { assert (calm d') as Hc' by done.
    assert (target (NgxFile (Some k) 0) d' = Some p) as Ht by (unfold target; cbn; now rewrite lookup_insert_eq).
    assert (contents p d' = x) as Hxd by (unfold contents; cbn; now rewrite lookup_insert_eq).
    assert (append (conf r) = false -> us = []) as Hemp by (unfold us, old_tags; now intros ->).
    destruct Hfin as [[[-> E0]|[g ->]] Hok].
    - exists 0. split; [intros _; rewrite E0; now apply (append_point_empty _ _ p)|]. split; [auto|]. right. auto.
    - destruct (decide (us = [])) as [E0|Hne].
      + rewrite E0 in *. exists 0. split; [intros _; now apply (append_point_header _ _ p g)|]. split; [auto|]. right. eauto.
      + destruct us as [|t us'] using rev_ind; [done|]. clear IHus'. apply Forall_app in Hok as [_ Hok].
        inversion Hok; subst. exists (Z.of_nat (length (flv g (us' ++ [t])))).
        split; [|split; [intros E; now apply Hemp in E; destruct us'|left; eauto]].
        intros _. unfold last_time. rewrite last_snoc. now apply (append_point_flv _ _ p). }
  exists k, off, x. split; [done|]. cbv zeta. set (sec := Live.ngx_time (net w)).
  split.
  - unfold ngx_rtmp_record_node_open. apply (runs_rec i n r); [done|]. rewrite Hfd.
    apply runs_step with (a := sec); [done|]. apply runs_step with (a := msec w); [done|].
    eapply runs_bind; [apply (runs_upd i n r); [apply Ho|done]|]. intros m1 K1.
    pose proof (online_kept _ _ Ho K1) as Ho1. cbn [rsess store msec].
    set (r1 := Rec _ _ _ _ _ _ _ _ _ _ _ _ _ _).
    eapply (runs_path n r1 nm p); [now apply (rec_at_with _ _ _ r)|cbn [rsess]; now rewrite name_with|exact Hp|].
    eapply runs_bind; [apply runs_disk; [apply Ho1|exact Eopen]|]. intros m2 K2.
    pose proof (online_kept _ _ Ho1 K2) as Ho2. cbn [rsess store msec].
    eapply runs_bind; [apply (runs_upd i n r1); [apply Ho2|now apply (rec_at_with _ _ _ r)]|]. intros m3 K3.
    pose proof (online_kept _ _ Ho2 K3) as Ho3. cbn [rsess store msec]. rewrite with_with.
    set (r2 := set_file _ r1).
    eapply runs_bind with (rs := with_rec (rsess w) i n r2) (d := d').
    { apply runs_when; [|intros _; split; [apply Ho3|done]]. intros _. now apply runs_status. }
    intros m4 K4. pose proof (online_kept _ _ Ho3 K4) as Ho4. cbn [rsess store msec].
    set (r3 := opened (conf r) k off (last_time us) sec (msec w)).
    eapply runs_bind with (rs := with_rec (rsess w) i n r3) (d := d').
    + apply runs_when.
      * intros Ea. eapply runs_bind; [apply runs_disk; [apply Ho4|exact (Happ Ea)]|]. intros m5 K5.
        pose proof (online_kept _ _ Ho4 K5) as Ho5. cbn [rsess store msec].
        rewrite <- (with_with _ i n r2 r3).
        refine (runs_upd i n r2 (fun r => set_time_shift (last_time us) (set_file (NgxFile (Some k) off) r))
          (World m5 (with_rec (rsess w) i n r2) d' (msec w)) _ _); [apply Ho5|].
        now apply (rec_at_with _ _ _ r).
      * intros Ea. split; [apply Ho4|]. split; [|done]. cbn [rsess]. f_equal.
        destruct (Hno Ea) as [E1 E2]. unfold r3. rewrite E1, E2. reflexivity.
    + intros m5 K5. pose proof (online_kept _ _ Ho4 K5) as Ho5. cbn [msec]. apply (runs_ret NGX_OK (World m5 _ _ _)). apply Ho5.
  - split; [done|]. split; [done|]. cbn. destruct Hoff as [Hf|(-> & H1 & H2)]; [now left|right; auto].
Qed.

(** From the steps of a node to runs. *)
Lemma does_runs {A} n p k r x (m : R A) a r' x' w : online (net w) -> rec_at (rsess w) i n = Some r ->
  files (store w) !! p = Some x -> fds (store w) !! k = Some (File p) ->
  does i n p (net w) (rsess w) (store w) (msec w) m r x a r' x' ->
  runs m w a (with_rec (rsess w) i n r') (put_file p x' (store w)).
Proof.
  intros Ho Hr Hx Hk H. destruct (H (net w)) as (m2 & E & K); [apply net_kept_refl, Ho|]. exists m2. split; [|done].
  etransitivity; [|exact E]. f_equal. unfold at_state. rewrite (with_same _ _ _ _ Hr). unfold put_file, set_files.
  rewrite insert_id by done. now destruct w as [? ? [] ?].
Qed.

Lemma runs_session f s w : online (net w) -> rsess w !! i = Some s ->
  runs (upd_rsession i f) w tt (<[i := f s]> (rsess w)) (store w).
Proof.
  intros [Hp _] Es. exists (net w). split; [|now apply net_kept_refl].
  unfold upd_rsession, rsession_of, access, modify. unfold mbind, R_bind. now rewrite Es.
Qed.

(** The end of [ngx_rtmp_record_node_close]: the configuration of the recorder
    is in place for the notification only. *)
Lemma report_runs n r nm p w : online (net w) -> rec_at (rsess w) i n = Some r ->
  name_at (rsess w) = Some nm -> record_path strftime (conf r) nm (timestamp r) = Some p ->
  exists rc, runs (report strftime record_done i n (conf r)) w rc (rsess w) (store w).
Proof.
  intros Ho Hr Hnm Hp. assert (exists s, rsess w !! i = Some s) as [s Es].
  { unfold rec_at in Hr. destruct (rsess w !! i); [eauto|done]. }
  set (s2 := if bool_decide (is_Some (rec_conf (conf r))) then set_app_conf (default (app_conf s) (rec_conf (conf r))) s else s).
  set (rs2 := <[i := s2]> (rsess w)).
  assert (rec_at rs2 i n = Some r /\ name_at rs2 = Some nm) as [Hr2 Hnm2].
  { unfold rec_at, name_at, rs2 in *. rewrite lookup_insert_eq. rewrite Es in *. cbn in *.
    unfold s2. now destruct (bool_decide _). }
  unfold report. eapply ends_bind with (a := s) (rs := rsess w) (d := store w).
  { exists (net w). split; [|apply net_kept_refl, Ho]. unfold rsession_of, access. rewrite Es. now destruct w. }
  intros m K. pose proof (online_kept _ _ Ho K) as Ho1. cbv zeta.
  eapply ends_bind with (rs := rs2) (d := store w).
  { unfold rs2, s2. destruct (bool_decide _); cbn [when].
    - now apply (runs_session _ s (World m (rsess w) (store w) (msec w))).
    - rewrite insert_id by done. apply (runs_ret tt (World m (rsess w) (store w) (msec w))). apply Ho1. }
  cbn [net msec]. intros m1 K1. pose proof (online_kept _ _ Ho1 K1) as Ho2.
  destruct (done_quiet (id (conf r)) p (World m1 rs2 (store w) (msec w)) Ho2) as (rc & Hd). exists rc.
  eapply (runs_path n r nm p); [done..|]. eapply runs_bind; [exact Hd|]. intros m2 K2.
  pose proof (online_kept _ _ Ho2 K2) as Ho3. cbn [rsess store msec].
  eapply runs_bind; [apply (runs_session _ s2); [exact Ho3|apply lookup_insert_eq]|]. intros m3 K3.
  pose proof (online_kept _ _ Ho3 K3) as Ho4. cbn [rsess store msec].
  replace (<[i := set_app_conf (app_conf s) s2]> rs2) with (rsess w).
  { apply (runs_ret rc (World m3 (rsess w) (store w) (msec w))). apply Ho4. }
  unfold rs2. rewrite insert_insert_eq. symmetry. apply insert_id. rewrite Es. f_equal.
  unfold s2. destruct s. now destruct (bool_decide _).
Qed.

Definition av_mask (r : ngx_rtmp_record_rec_ctx_t) : Z := (if video r then 1 else 0) + (if audio r then 4 else 0).

(** A recorder behind the end of its recording. *)
Definition ended (r : ngx_rtmp_record_rec_ctx_t) : ngx_rtmp_record_rec_ctx_t :=
  let r := if initialized r then advance 1 r else r in set_file (NgxFile None (offset (file r))) r.

Lemma node_close_runs n r nm p k x ts w : online (net w) -> calm (store w) -> rec_at (rsess w) i n = Some r ->
  fds (store w) !! k = Some (File p) -> files (store w) !! p = Some x -> holds k r x ts -> Forall tag_ok ts ->
  short (default EmptyString (id (conf r))) = true ->
  name_at (rsess w) = Some nm -> record_path strftime (conf r) nm (timestamp r) = Some p ->
  exists rc x', runs (ngx_rtmp_record_node_close cscf strftime record_done i n) w rc
      (with_rec (rsess w) i n (ended r)) (Disk (<[p := x']> (files (store w))) (delete k (fds (store w))) []) /\
    finished x' ts.
Proof.
  intros Ho Hc Hr Hk Hx Hh Hts Hid Hnm Hp. pose proof Hh as (Hfd & _ & Hst).
  set (r1 := if initialized r then advance 1 r else r).
  set (x1 := if initialized r then Mpegts.pwrite 4 [av_mask r] x else x).
  set (d1 := put_file p x1 (store w)). set (d2 := set_fds (delete k (fds d1)) d1).
  assert (conf r1 = conf r /\ timestamp r1 = timestamp r /\ fd (file r1) = Some k) as (R1 & R2 & R3)
    by (unfold r1; destruct (initialized r); done).
  assert (finished x1 ts) as Hfin.
  { split; [|done]. unfold x1. destruct (initialized r) eqn:Ei.
    - destruct Hst as [(_ & f & ->)|(_ & Hf & _)]; [|congruence]. right. exists (av_mask r). apply mask_flv.
    - destruct Hst as [(_ & f & ->)|(_ & _ & -> & [-> |[f ->]])]; [right; eauto|left; auto|right; eauto]. }
  assert (forall v, rsess v = rsess w -> store v = store w -> online (net v) ->
    runs (when (initialized r) (ok ← write_at i n [av_mask r] 4; mret tt)) v tt (with_rec (rsess w) i n r1) d1) as Hmask.
  { intros v Ev1 Ev2 Hv. unfold r1, d1, x1. rewrite <- Ev1, <- Ev2 in *. apply runs_when; intros Ei; rewrite Ei.
    - eapply (does_runs n p k r x); [done..|].
      eapply does_bind; [apply (does_write_at i n p k); [eauto|done|done|done|lia]|]. apply does_ret.
    - split; [apply Hv|]. split; [now apply with_same|].
      unfold put_file, set_files. rewrite insert_id by done. now destruct (store v). }
  assert (calm d1) as Hc1 by exact Hc. assert (fds d1 !! k = Some (File p)) as Hk1 by exact Hk.
  assert (d2 = Disk (<[p := x1]> (files (store w))) (delete k (fds (store w))) []) as Ed2.
  { unfold d2, d1, put_file, set_files, set_fds. cbn [files fds sys]. now rewrite Hc. }
  set (r2 := ended r).
  assert (rec_at (with_rec (rsess w) i n r2) i n = Some r2 /\ name_at (with_rec (rsess w) i n r2) = Some nm) as [Hr2 Hn2].
  { split; [now apply (rec_at_with _ _ _ r)|]. now rewrite name_with. }
  assert (conf r2 = conf r /\ timestamp r2 = timestamp r) as [C2 T2].
  { unfold r2, ended. fold r1. cbn. now rewrite R1, R2. }
  cut (exists rc, runs (ngx_rtmp_record_node_close cscf strftime record_done i n) w rc
      (with_rec (rsess w) i n r2) d2); [intros [rc H]; exists rc, x1; now rewrite <- Ed2|].
  unfold ngx_rtmp_record_node_close. eapply ends_bind with (a := r) (rs := rsess w) (d := store w).
  { exists (net w). split; [|apply net_kept_refl, Ho]. unfold rec_of, access.
    change (lookup_rec w i n) with (rec_at (rsess w) i n). rewrite Hr. now destruct w. }
  intros m0 K0. rewrite Hfd. cbv zeta. fold (av_mask r).
  eapply ends_bind; [apply (Hmask (World m0 (rsess w) (store w) (msec w)) eq_refl eq_refl (online_kept _ _ Ho K0))|].
  intros m1 K1. pose proof (online_kept _ _ (online_kept _ _ Ho K0) K1) as Ho1. cbn [msec].
  eapply ends_bind; [apply runs_disk; [apply Ho1|exact (calm_close d1 Hc1 k _ Hk1)]|]. fold d2.
  intros m2 K2. pose proof (online_kept _ _ Ho1 K2) as Ho2. cbn [rsess msec negb].
  eapply ends_bind; [apply (runs_ret tt (World m2 (with_rec (rsess w) i n r1) d2 (msec w))), Ho2|].
  intros m3 K3. pose proof (online_kept _ _ Ho2 K3) as Ho3. cbn [rsess store msec].
  eapply ends_bind with (rs := with_rec (rsess w) i n r2) (d := d2).
  { rewrite <- (with_with _ i n r1 r2).
    refine (runs_upd i n r1 (fun r => set_file (NgxFile None (offset (file r))) r)
      (World m3 (with_rec (rsess w) i n r1) d2 (msec w)) _ _); [apply Ho3|]. now apply (rec_at_with _ _ _ r). }
  intros m4 K4. pose proof (online_kept _ _ Ho3 K4) as Ho4. cbn [msec].
  eapply ends_bind with (rs := with_rec (rsess w) i n r2) (d := d2).
  { apply runs_when; [|intros _; split; [apply Ho4|done]]. intros _. now apply runs_status. }
  intros m5 K5. pose proof (online_kept _ _ Ho4 K5) as Ho5. cbn [msec].
  pose proof (report_runs n r2 nm p (World m5 (with_rec (rsess w) i n r2) d2 (msec w)) Ho5 Hr2 Hn2) as H.
  rewrite C2, T2 in H. exact (H Hp).
Qed.

(* ------------------------------------------------------------------ *)
(** ** All recorders of a session *)

(** A recorder, the path of its file and the tags in it. *)
Record node := Node {
  nd_rec : ngx_rtmp_record_rec_ctx_t;
  nd_path : list Z;
  nd_tags : list tag
}.

Abbreviation nd_fd nd := (fd (file (nd_rec nd))).

Record node_ok (nm : list Z) (d : disk) (nd : node) : Prop := {
  no_plain : plain (conf (nd_rec nd));
  no_id : short (default EmptyString (id (conf (nd_rec nd)))) = true;
  no_tags : Forall tag_ok (nd_tags nd);
  no_file :
    match nd_fd nd with
    | Some k =>
        record_path strftime (conf (nd_rec nd)) nm (timestamp (nd_rec nd)) = Some (nd_path nd) /\
        exists x, files d !! nd_path nd = Some x /\ holds k (nd_rec nd) x (nd_tags nd)
    | None => finished (contents (nd_path nd) d) (nd_tags nd)
    end
}.

(** The descriptors are those of [t] and one for every open recorder. *)
Definition descriptors (t : gmap nat descriptor) (nds : list node) (d : disk) : Prop :=
  (forall nd k, nd ∈ nds -> nd_fd nd = Some k -> fds d !! k = Some (File (nd_path nd)) /\ t !! k = None) /\
  (forall k, (forall nd, nd ∈ nds -> nd_fd nd <> Some k) -> fds d !! k = t !! k).

Record nodes_ok (t : gmap nat descriptor) (nm : list Z) (w : world) (nds : list node) : Prop := {
  ns_ctx : exists s c, rsess w !! i = Some s /\ rctx s = Some c /\ rec c = map nd_rec nds /\
    name c = nm /\ auto_pushed s = false;
  ns_nodes : Forall (node_ok nm (store w)) nds;
  ns_paths : NoDup (map nd_path nds);
  ns_fds : descriptors t nds (store w);
  ns_calm : calm (store w);
  ns_online : online (net w)
}.

Lemma nodes_rec t nm w nds n nd : nodes_ok t nm w nds -> nds !! n = Some nd ->
  rec_at (rsess w) i n = Some (nd_rec nd) /\ name_at (rsess w) = Some nm.
Proof.
  intros [(s & c & E & Ec & Er & En & _) _ _ _ _ _] Hn. unfold rec_at, name_at. rewrite E. cbn. rewrite Ec. cbn.
  rewrite Er, En. split; [|done]. now rewrite list_lookup_fmap, Hn.
Qed.

Lemma paths_differ nds n m nd nd' : NoDup (map nd_path nds) -> nds !! n = Some nd -> nds !! m = Some nd' ->
  n <> m -> nd_path nd' <> nd_path nd.
Proof.
  intros Hd E E' Hne H. apply Hne. apply (NoDup_lookup _ _ _ (nd_path nd) Hd); rewrite list_lookup_fmap;
    [now rewrite E|]. rewrite E'. cbn. now rewrite H.
Qed.

Lemma insert_nodes (nds : list node) n nd' x : (n < length nds)%nat -> x ∈ <[n := nd']> nds ->
  x = nd' \/ exists m, m <> n /\ nds !! m = Some x.
Proof.
  intros Hl [m Hm]%list_elem_of_lookup. destruct (decide (m = n)) as [-> |Hne].
  - rewrite list_lookup_insert_eq in Hm by lia. left. congruence.
  - rewrite list_lookup_insert_ne in Hm by done. right. eauto.
Qed.

(** One recorder and its file change. *)
Lemma nodes_step t nm w w' nds n nd nd' : nodes_ok t nm w nds -> nds !! n = Some nd ->
  nd_path nd' = nd_path nd -> rsess w' = with_rec (rsess w) i n (nd_rec nd') ->
  (forall q, q <> nd_path nd -> files (store w') !! q = files (store w) !! q) ->
  fds (store w') =
    match nd_fd nd' with
    | Some k' => <[k' := File (nd_path nd)]>
    | None => fun t => t
    end (match nd_fd nd with Some k => delete k (fds (store w)) | None => fds (store w) end) ->
  (forall k', nd_fd nd' = Some k' -> nd_fd nd = Some k' \/ fds (store w) !! k' = None) ->
  calm (store w') -> online (net w') -> node_ok nm (store w') nd' -> nodes_ok t nm w' (<[n := nd']> nds).
Proof.
  intros Hns Hn Hp Ers Hfiles Hfds Hfresh Hc Ho Hok. pose proof Hns as [(s & c & E & Ec & Er & En) Hall Hd [Hf1 Hf2] _ _].
  pose proof (lookup_lt_Some _ _ _ Hn) as Hlen.
  assert (forall m x, m <> n -> nds !! m = Some x -> nd_path x <> nd_path nd) as Hdiff.
  { intros m x Hne Hm. apply (paths_differ nds n m); auto. }
  (* the descriptors of the others *)
  assert (forall m x k, m <> n -> nds !! m = Some x -> nd_fd x = Some k ->
    fds (store w') !! k = Some (File (nd_path x)) /\ nd_fd nd <> Some k /\ nd_fd nd' <> Some k) as Hothers.
  { intros m x k Hne Hm Hk. destruct (Hf1 x k (list_elem_of_lookup_2 _ _ _ Hm) Hk) as [Hk1 _].
    pose proof (Hdiff m x Hne Hm) as Hpx.
    assert (nd_fd nd <> Some k) as H1.
    { intros Hk'. destruct (Hf1 nd k (list_elem_of_lookup_2 _ _ _ Hn) Hk') as [Hk2 _]. congruence. }
    assert (nd_fd nd' <> Some k) as H2.
    { intros Hk'. destruct (Hfresh k Hk') as [H|H]; congruence. }
    split; [|done]. rewrite Hfds.
    assert (match nd_fd nd with Some k0 => delete k0 (fds (store w)) | None => fds (store w) end !! k =
      Some (File (nd_path x))) as H3.
    { destruct (nd_fd nd); [rewrite lookup_delete_ne by congruence|]; done. }
    destruct (nd_fd nd'); [rewrite lookup_insert_ne by congruence|]; done. }
  split.
  - exists (set_rctx (Some (put_rec n (nd_rec nd') c)) s), (put_rec n (nd_rec nd') c). rewrite Ers.
    unfold with_rec. rewrite lookup_alter_eq, E. cbn. rewrite Ec. split; [done|]. split; [done|]. split; [|done].
    rewrite Er. now rewrite list_fmap_insert.
  - apply Forall_forall. intros x Hx. apply insert_nodes in Hx as [-> |(m & Hne & Hm)]; [done| |lia].
    assert (node_ok nm (store w) x) as [G1 G2 G3 G4].
    { rewrite Forall_forall in Hall. apply Hall. now apply list_elem_of_lookup_2 in Hm. }
    pose proof (Hdiff m x Hne Hm) as Hpx. split; [done..|]. unfold contents in *.
    destruct (nd_fd x); [|now rewrite Hfiles]. destruct G4 as [G4 (y & Hy & G5)]. split; [done|]. exists y. now rewrite Hfiles.
  - rewrite list_fmap_insert, Hp. rewrite list_insert_id; [done|]. now rewrite list_lookup_fmap, Hn.
  - split.
    + intros x k Hx Hk. apply insert_nodes in Hx as [-> |(m & Hne & Hm)]; [| |lia].
      * rewrite Hk in Hfds. rewrite Hfds, lookup_insert_eq, Hp. split; [done|].
        destruct (Hfresh k Hk) as [H|H]; [now apply (Hf1 nd); [apply list_elem_of_lookup_2 in Hn|]|].
        rewrite <- Hf2; [done|]. intros y Hy Hky. destruct (Hf1 y k Hy Hky). congruence.
      * split; [now apply (Hothers m)|]. now apply (Hf1 x k (list_elem_of_lookup_2 _ _ _ Hm)).
    + intros k Hk. assert (nd_fd nd' <> Some k) as Hk'.
      { apply Hk. apply list_elem_of_lookup. exists n. now rewrite list_lookup_insert_eq by lia. }
      assert (forall x m, m <> n -> nds !! m = Some x -> nd_fd x <> Some k) as Hkm.
      { intros x m Hne Hm. apply Hk. apply list_elem_of_lookup. exists m. now rewrite list_lookup_insert_ne. }
      rewrite Hfds. destruct (decide (nd_fd nd = Some k)) as [Ek|Ek].
      * destruct (Hf1 nd k (list_elem_of_lookup_2 _ _ _ Hn) Ek) as [_ ->]. rewrite Ek.
        destruct (nd_fd nd'); [rewrite lookup_insert_ne by congruence|]; apply lookup_delete_eq.
      * rewrite <- Hf2.
        { destruct (nd_fd nd'), (nd_fd nd); rewrite ?lookup_insert_ne, ?lookup_delete_ne by congruence; done. }
        intros x [m Hm]%list_elem_of_lookup. destruct (decide (m = n)) as [-> |Hne]; [congruence|]. eauto.
  - done.
  - done.
Qed.

(** A loop over the recorders; [step] is what one turn does. *)
Section Loop.
Context (t : gmap nat descriptor) (nm : list Z) (m0 : Live.process) (ms : Z).
Context (body : nat -> R unit) (pre : node -> Prop) (step : node -> node -> Prop).

Definition turns (w : world) (n : nat) (nds : list node) (nd : node) : Prop :=
  exists w' nd', body n w = Some (tt, w') /\ nodes_ok t nm w' (<[n := nd']> nds) /\ step nd nd' /\
    kept m0 (net w') /\ msec w' = ms.

Hypothesis Hbody : forall w nds n nd, nodes_ok t nm w nds -> nds !! n = Some nd -> kept m0 (net w) -> msec w = ms ->
  pre nd -> turns w n nds nd.

Lemma nodes_loop todo : forall w done, nodes_ok t nm w (done ++ todo) -> kept m0 (net w) -> msec w = ms ->
  Forall pre todo ->
  exists w' todo', for_nodes (seq (length done) (length todo)) body w = Some (tt, w') /\
    nodes_ok t nm w' (done ++ todo') /\ Forall2 step todo todo' /\ kept m0 (net w') /\ msec w' = ms.
Proof.
  induction todo as [|nd todo IH]; intros w dn Hns K Em Hpre; cbn [length seq for_nodes].
  - exists w, []. auto using Forall2.
  - inversion Hpre as [|? ? Hp Hpre']; subst.
    destruct (Hbody w _ (length dn) nd Hns) as (w1 & nd' & E & Hns1 & Hs & K1 & Em1); [|done..|].
    { now rewrite lookup_app_r, Nat.sub_diag by lia. }
    rewrite insert_app_r_alt, Nat.sub_diag in Hns1 by lia. cbn [insert list_insert] in Hns1.
    change (nd' :: todo) with ([nd'] ++ todo) in Hns1. rewrite app_assoc in Hns1.
    destruct (IH w1 (dn ++ [nd']) Hns1 K1 Em1 Hpre') as (w2 & todo' & E2 & Hns2 & Hs2 & K2 & Em2).
    rewrite length_app, Nat.add_1_r in E2. exists w2, (nd' :: todo'). split.
    + unfold mbind, R_bind. now rewrite E.
    + rewrite <- app_assoc in Hns2. auto.
Qed.

End Loop.

Abbreviation node_open := (ngx_rtmp_record_node_open cscf strftime).
Abbreviation node_close := (ngx_rtmp_record_node_close cscf strftime record_done).
Abbreviation node_av := (ngx_rtmp_record_node_av cscf strftime record_done stale).

Lemma node_at_ok t nm w nds n nd : nodes_ok t nm w nds -> nds !! n = Some nd -> node_ok nm (store w) nd.
Proof. intros H Hn. pose proof (ns_nodes _ _ _ _ H) as Hall. rewrite Forall_forall in Hall.
  apply Hall. now apply list_elem_of_lookup_2 in Hn. Qed.

(** Opening. *)
Definition open_step (sec ms : Z) (nd nd' : node) : Prop :=
  exists k off, nd' = Node (opened (conf (nd_rec nd)) k off (last_time (old_tags (conf (nd_rec nd)) (nd_tags nd))) sec ms)
    (nd_path nd) (old_tags (conf (nd_rec nd)) (nd_tags nd)).

Lemma open_turns t nm m0 ms w nds n nd : nodes_ok t nm w nds -> nds !! n = Some nd -> kept m0 (net w) -> msec w = ms ->
  nd_fd nd = None /\ record_path strftime (conf (nd_rec nd)) nm (Live.ngx_time m0) = Some (nd_path nd) ->
  exists w' nd' rc, node_open i n w = Some (rc, w') /\ nodes_ok t nm w' (<[n := nd']> nds) /\
    open_step (Live.ngx_time m0) ms nd nd' /\ kept m0 (net w') /\ msec w' = ms.
Proof.
  intros Hns Hn K Em [Hfd Hp]. destruct (nodes_rec _ _ _ _ _ _ Hns Hn) as [Hr Hnm].
  destruct (node_at_ok _ _ _ _ _ _ Hns Hn) as [G1 G2 G3 G4]. rewrite Hfd in G4.
  assert (Live.ngx_time (net w) = Live.ngx_time m0) as Et by (destruct K as (_ & H & _); now injection H).
  destruct (node_open_runs n _ nm (nd_path nd) (nd_tags nd) w (ns_online _ _ _ _ Hns) (ns_calm _ _ _ _ Hns) Hr Hfd G1 G2
    Hnm) as (k & off & x & Hk & Hruns & Hh); [now rewrite Et|done|]. cbv zeta in *. rewrite Et, Em in *.
  destruct Hruns as (m & E & K'). set (r' := opened _ _ _ _ _ _) in *.
  set (us := old_tags (conf (nd_rec nd)) (nd_tags nd)) in *.
  exists (World m (with_rec (rsess w) i n r') (Disk (<[nd_path nd := x]> (files (store w)))
    (<[k := File (nd_path nd)]> (fds (store w))) []) ms), (Node r' (nd_path nd) us), NGX_OK.
  split; [now rewrite <- Em in *|]. split; [|split; [now exists k, off|split; [exact (net_kept_trans _ _ _ K K')|done]]].
  apply (nodes_step t nm w _ nds n nd); try done.
  - intros q Hq. cbn. now rewrite lookup_insert_ne.
  - cbn. now rewrite Hfd.
  - cbn. intros k' [= <-]. auto.
  - exact (online_kept _ _ (ns_online _ _ _ _ Hns) K').
  - split; [done|done| |].
    + unfold us, old_tags. now destruct (append _).
    + cbn. split; [done|]. exists x. now rewrite lookup_insert_eq.
Qed.

(** Closing. *)
Definition close_step (nd nd' : node) : Prop :=
  nd_fd nd' = None /\ nd_path nd' = nd_path nd /\ nd_tags nd' = nd_tags nd.

Lemma close_turns t nm m0 ms w nds n nd : nodes_ok t nm w nds -> nds !! n = Some nd -> kept m0 (net w) -> msec w = ms ->
  exists w' nd' rc, node_close i n w = Some (rc, w') /\ nodes_ok t nm w' (<[n := nd']> nds) /\
    close_step nd nd' /\ kept m0 (net w') /\ msec w' = ms.
Proof.
  intros Hns Hn K Em. destruct (nodes_rec _ _ _ _ _ _ Hns Hn) as [Hr Hnm].
  destruct (node_at_ok _ _ _ _ _ _ Hns Hn) as [G1 G2 G3 G4]. destruct (nd_fd nd) as [k|] eqn:Hfd.
  - destruct G4 as (Hp & x & Hx & Hh).
    destruct (ns_fds _ _ _ _ Hns) as [Hf _]. destruct (Hf nd k (list_elem_of_lookup_2 _ _ _ Hn) Hfd) as [Hk _].
    destruct (node_close_runs n _ nm (nd_path nd) k x (nd_tags nd) w (ns_online _ _ _ _ Hns) (ns_calm _ _ _ _ Hns) Hr Hk
      Hx Hh G3 G2 Hnm Hp) as (rc & x' & (m & E & K') & Hfin). rewrite Em in E.
    exists (World m (with_rec (rsess w) i n (ended (nd_rec nd))) (Disk (<[nd_path nd := x']> (files (store w)))
      (delete k (fds (store w))) []) ms), (Node (ended (nd_rec nd)) (nd_path nd) (nd_tags nd)), rc.
    split; [done|]. split; [|split; [done|split; [exact (net_kept_trans _ _ _ K K')|done]]].
    apply (nodes_step t nm w _ nds n nd); try done.
    + intros q Hq. cbn. now rewrite lookup_insert_ne.
    + cbn. now rewrite Hfd.
    + exact (online_kept _ _ (ns_online _ _ _ _ Hns) K').
    + unfold ended. destruct (initialized (nd_rec nd)); (split; [done..|]);
        cbn; unfold contents; cbn; rewrite lookup_insert_eq; done.
  - exists w, nd, NGX_AGAIN. split.
    + unfold ngx_rtmp_record_node_close. unfold rec_of, access. unfold mbind at 1, R_bind at 1.
      change (lookup_rec w i n) with (rec_at (rsess w) i n). now rewrite Hr, Hfd.
    + rewrite list_insert_id by done. now split.
Qed.

(** Frames. *)
Lemma frame_time_bound t e : 0 <= frame_time t e < 2 ^ 31.
Proof.
  unfold frame_time. cbv zeta. pose proof (u32_bound (t - e)) as H. destruct (s32 (u32 (t - e)) <? 0) eqn:E; [lia|].
  apply Z.ltb_ge in E. unfold s32 in E. revert E. destruct (Z.lt_ge_cases (u32 (t - e)) (2 ^ 31)); [lia|].
  replace (u32 (t - e) + 2 ^ 31) with (u32 (t - e) - 2 ^ 31 + 1 * 2 ^ 32) by lia.
  rewrite Z.mod_add, Z.mod_small by lia. lia.
Qed.

(** What a recorder keeps while its file is open. *)
Definition fixed (r : ngx_rtmp_record_rec_ctx_t) := (conf r, timestamp r).

Lemma header_step_ok h ty sent mark b mask r : 0 <= ty < 256 ->
  (forall x, b = Some x -> Z.of_nat (length x) < 2 ^ 24 /\ bytes_ok x) -> (forall r, fixed (mark r) = fixed r) ->
  Forall tag_ok (fst (header_step h ty sent mark b mask r)) /\
  fixed (snd (header_step h ty sent mark b mask r)) = fixed r.
Proof.
  intros Hty Hb Hm. unfold header_step. destruct b as [x|]; [|now split]. destruct (_ && _); [|now split].
  cbn [fst snd]. split; [|now rewrite Hm]. constructor; [|done]. destruct (Hb x eq_refl).
  pose proof (frame_time_bound (Chunk.timestamp h) (epoch r)). split; cbn; auto; lia.
Qed.

Lemma node_frame_ok m cc h ins r : codec_known i m cc -> message_ok h ins ->
  Forall tag_ok (fst (node_frame stale m cc h ins r)) /\ fixed (snd (node_frame stale m cc h ins r)) = fixed r.
Proof.
  intros Hcc [M1 M2 M3 M4 M5]. unfold node_frame. destruct (_ || _); [now split|].
  assert (Forall tag_ok (fst (headers_step m h cc (begun h r))) /\
    fixed (snd (headers_step m h cc (begun h r))) = fixed r) as [H1 H2].
  { assert (fixed (begun h r) = fixed r) as Hb.
    { unfold begun. destruct (initialized r); [done|]. cbv zeta. now destruct (_ =? _). }
    rewrite <- Hb. unfold headers_step. destruct cc as [cc|]; [|now split].
    destruct (header_step_ok h NGX_RTMP_MSG_AUDIO aac_header_sent set_aac_header_sent
      (header_bytes m (Codec.aac_header (Codec.chains cc))) NGX_RTMP_RECORD_AUDIO (begun h r)) as [A1 A2];
      [done|intros x Hx; now apply (ck_aac _ _ _ Hcc cc)|done|].
    destruct (header_step _ _ aac_header_sent _ _ _ _) as [us r1]. cbn [fst snd] in *.
    destruct (header_step_ok h NGX_RTMP_MSG_VIDEO avc_header_sent set_avc_header_sent
      (header_bytes m (Codec.avc_header (Codec.chains cc))) (Z.lor NGX_RTMP_RECORD_VIDEO NGX_RTMP_RECORD_KEYFRAMES) r1)
      as [B1 B2]; [done|intros x Hx; now apply (ck_avc _ _ _ Hcc cc)|done|].
    destruct (header_step _ _ avc_header_sent _ _ _ _) as [vs r2]. cbn [fst snd] in *.
    split; [now apply Forall_app|congruence]. }
  destruct (headers_step m h cc (begun h r)) as [us r1]. cbn [fst snd] in *.
  destruct (ready stale cc (Chunk.type h) ins r1) as [ok r2] eqn:Er.
  assert (fixed r2 = fixed r1) as Ht.
  { unfold ready in Er. destruct (_ =? _); [|now injection Er as _ <-].
    destruct (_ && _); [now injection Er as _ <-|]. destruct (starts _ _ _); now injection Er as _ <-. }
  destruct ok; cbn [fst snd]; [|now rewrite Ht]. split; [|transitivity (fixed r2); [done|congruence]].
  apply Forall_app. split; [done|]. constructor; [|done].
  pose proof (frame_time_bound (Chunk.timestamp h) (epoch r2)).
  split; cbn; [|lia|done|lia].
  destruct M4 as [-> | ->]; unfold NGX_RTMP_MSG_AUDIO, NGX_RTMP_MSG_VIDEO; lia.
Qed.

Definition frame_step (m : Live.process) (cc : option Codec.ngx_rtmp_codec_ctx_t) (h : Chunk.ngx_rtmp_header_t)
    (ins : list (list Z)) (nd nd' : node) : Prop :=
  let '(us, r') := node_frame stale m cc h ins (nd_rec nd) in
  is_Some (nd_fd nd') /\ nd' = Node r' (nd_path nd) (nd_tags nd ++ us).

Lemma frame_turns t nm m0 ms cc h ins w nds n nd : message_ok h ins -> codec_known i m0 cc ->
  nodes_ok t nm w nds -> nds !! n = Some nd -> kept m0 (net w) -> msec w = ms -> is_Some (nd_fd nd) ->
  exists w' nd' rc, node_av i n h ins w = Some (rc, w') /\ nodes_ok t nm w' (<[n := nd']> nds) /\
    frame_step m0 cc h ins nd nd' /\ kept m0 (net w') /\ msec w' = ms.
Proof.
  intros Hm Hcc Hns Hn K Em [k Hfd]. destruct (nodes_rec _ _ _ _ _ _ Hns Hn) as [Hr Hnm].
  destruct (node_at_ok _ _ _ _ _ _ Hns Hn) as [G1 G2 G3 G4]. rewrite Hfd in G4. destruct G4 as (Hp & x & Hx & Hh).
  destruct (ns_fds _ _ _ _ Hns) as [Hf _]. destruct (Hf nd k (list_elem_of_lookup_2 _ _ _ Hn) Hfd) as [Hk _].
  pose proof (does_node cscf strftime record_done stale i n (nd_path nd) k m0 (rsess w) (store w) ms
    ltac:(eauto) (ns_calm _ _ _ _ Hns) Hk h ins cc (nd_rec nd) x (nd_tags nd) Hm Hcc Hh) as H.
  destruct (node_frame_ok m0 cc h ins (nd_rec nd) Hcc Hm) as [Hts Hfix]. unfold frame_step.
  destruct (node_frame stale m0 cc h ins (nd_rec nd)) as [us r']. cbn [fst snd] in *.
  destruct H as (x' & Hd & Hh'). destruct (Hd (net w) K) as (m2 & E & K2).
  injection Hfix as Hconf Htm. pose proof Hh' as (Hfd' & Hpl' & _).
  exists (at_state i n (nd_path nd) (rsess w) (store w) ms m2 r' x'), (Node r' (nd_path nd) (nd_tags nd ++ us)), NGX_OK.
  split; [|split; [|split; [split; [|done]|split; [done|done]]]].
  - rewrite <- E. f_equal. unfold at_state. rewrite (with_same _ _ _ _ Hr). unfold put_file, set_files.
    rewrite insert_id, <- Em by done. now destruct w as [? ? [] ?].
  - apply (nodes_step t nm w _ nds n nd); try done.
    + intros q Hq. cbn. now rewrite lookup_insert_ne.
    + cbn. rewrite Hfd, Hfd'. rewrite insert_delete_eq. now rewrite insert_id.
    + cbn. rewrite Hfd'. intros k' [= <-]. auto.
    + exact (ns_calm _ _ _ _ Hns).
    + apply (online_shape (net w)); [apply Hns|apply K2|]. destruct K as (_ & S1 & _), K2 as (_ & S2 & _). cbn. congruence.
    + split; [done|cbn [nd_rec]; now rewrite Hconf|now apply Forall_app|]. cbn [nd_rec nd_path nd_tags]. rewrite Hfd'. rewrite Hconf, Htm. split; [done|].
      exists x'. cbn. now rewrite lookup_insert_eq.
  - cbn. rewrite Hfd'. eauto.
Qed.

(* ------------------------------------------------------------------ *)
(** ** A whole publication *)

(** A frame, and the process when it comes. *)
Record event := Event {
  ev_net : Live.process;
  ev_hdr : Chunk.ngx_rtmp_header_t;
  ev_ins : list (list Z)
}.

Definition codec_now (m : Live.process) : option Codec.ngx_rtmp_codec_ctx_t := s ← Live.sessions m !! i; Live.codec s.

Record event_ok (e : event) : Prop := {
  eo_online : online (ev_net e);
  eo_message : message_ok (ev_hdr e) (ev_ins e);
  eo_codec : codec_known i (ev_net e) (codec_now (ev_net e))
}.

(** The tags of one recorder for the frames that come. *)
Definition take_frame (e : event) (r : ngx_rtmp_record_rec_ctx_t) : list tag * ngx_rtmp_record_rec_ctx_t :=
  node_frame stale (ev_net e) (codec_now (ev_net e)) (ev_hdr e) (ev_ins e) r.
Fixpoint take_frames (es : list event) (r : ngx_rtmp_record_rec_ctx_t) : list tag * ngx_rtmp_record_rec_ctx_t :=
  match es with
  | [] => ([], r)
  | e :: es =>
      let '(ts, r) := take_frame e r in
      let '(us, r) := take_frames es r in (ts ++ us, r)
  end.

Fixpoint record_frames (es : list event) (w : world) : option world :=
  match es with
  | [] => Some w
  | e :: es =>
      '(_, w) ← ngx_rtmp_record_av cscf strftime record_done stale i (ev_hdr e) (ev_ins e) (set_net (ev_net e) w);
      record_frames es w
  end.

Lemma nodes_net t nm w nds m : nodes_ok t nm w nds -> online m -> nodes_ok t nm (set_net m w) nds.
Proof. intros [] Hm. now split. Qed.

Lemma nodes_count t nm w nds : nodes_ok t nm w nds ->
  exists s c, rsess w !! i = Some s /\ rctx s = Some c /\ length (rec c) = length nds /\ auto_pushed s = false.
Proof. intros [(s & c & E & Ec & Er & _ & Ha) _ _ _ _ _]. exists s, c. now rewrite Er, length_map. Qed.

Definition taken (es : list event) (nd nd' : node) : Prop :=
  is_Some (nd_fd nd') /\
  nd' = Node (snd (take_frames es (nd_rec nd))) (nd_path nd) (nd_tags nd ++ fst (take_frames es (nd_rec nd))).

Lemma frames_recorded t nm es : Forall event_ok es -> forall w nds, nodes_ok t nm w nds ->
  Forall (fun nd => is_Some (nd_fd nd)) nds ->
  exists w' nds', record_frames es w = Some w' /\ nodes_ok t nm w' nds' /\ Forall2 (taken es) nds nds'.
Proof.
  induction 1 as [|e es [E1 E2 E3] Hes IH]; intros w nds Hns Hopen; cbn [record_frames].
  - exists w, nds. split; [done|]. split; [done|]. apply Forall_Forall2_diag. eapply Forall_impl; [exact Hopen|].
    intros nd Hnd. split; [done|]. cbn. rewrite app_nil_r. now destruct nd.
  - pose proof (nodes_net _ _ _ _ _ Hns E1) as Hns0. set (w0 := set_net (ev_net e) w) in *.
    destruct (nodes_loop t nm (ev_net e) (msec w)
      (fun n => rc ← node_av i n (ev_hdr e) (ev_ins e); mret tt) (fun nd => is_Some (nd_fd nd))
      (frame_step (ev_net e) (codec_now (ev_net e)) (ev_hdr e) (ev_ins e))) with (todo := nds) (w := w0) (done := @nil node)
      as (w1 & nds1 & Eloop & Hns1 & Hs1 & _ & _); [|done|apply net_kept_refl, E1|done|done|].
    { intros v l n nd Hl Hn K Em Hfd.
      destruct (frame_turns t nm (ev_net e) (msec w) _ _ _ v l n nd E2 E3 Hl Hn K Em Hfd) as (v' & nd' & rc & E & G).
      exists v', nd'. split; [|done]. unfold mbind, R_bind. now rewrite E. }
    destruct (IH w1 nds1 Hns1) as (w2 & nds2 & E4 & Hns2 & Hs2).
    { eapply Forall2_Forall_r; [exact Hs1|]. apply Forall_true. intros nd y. unfold frame_step.
      destruct (node_frame _ _ _ _ _ _). now intros [H _]. }
    exists w2, nds2. split; [|split; [done|]].
    + destruct (nodes_count _ _ _ _ Hns0) as (s & c & Es & Ec & Hlen & _).
      unfold ngx_rtmp_record_av. unfold mbind at 2, R_bind at 1. unfold rsession_of, access. rewrite Es, Ec, Hlen.
      unfold mbind at 2, R_bind at 1. cbn [length] in Eloop. rewrite Eloop. cbn [mbind option_bind mret R_ret].
      unfold mret, R_ret. exact E4.
    + eapply Forall2_trans; [|exact Hs1|exact Hs2]. intros nd nd1 nd2 H1 [H3 ->]. split; [done|].
      unfold frame_step in H1. cbn [take_frames]. unfold take_frame in *.
      destruct (node_frame _ _ _ _ _ (nd_rec nd)) as [us r1]. destruct H1 as [_ ->]. cbn [nd_rec nd_path nd_tags] in *.
      destruct (take_frames es r1) as [vs r2]. cbn. now rewrite app_assoc.
Qed.

(** A recorder of the configuration with the path of its file and the tags
    that are there. *)
Abbreviation setup := (ngx_rtmp_record_app_conf_t * list Z * list tag)%type.

Record setup_ok (nm : list Z) (sec : Z) (d : disk) (x : setup) : Prop := {
  su_auto : has (flags x.1.1) (Z.lor NGX_RTMP_RECORD_OFF NGX_RTMP_RECORD_MANUAL) = false;
  su_id : short (default EmptyString (id x.1.1)) = true;
  su_path : record_path strftime x.1.1 nm sec = Some x.1.2;
  su_file : finished (contents x.1.2 d) x.2
}.

(** The recorder has no limit of size or frames, and no interval. *)
Definition unlimited (x : setup) : Prop :=
  max_size x.1.1 = 0 /\ max_frames x.1.1 = 0 /\ interval x.1.1 = NGX_CONF_UNSET_MSEC.

Lemma setup_plain nm sec d x : setup_ok nm sec d x -> unlimited x -> plain x.1.1.
Proof.
  intros [H _ _ _] (H1 & H2 & H3). split; [|done..].
  revert H. unfold has. rewrite !negb_false_iff, !Z.eqb_eq, Z.land_lor_distr_r. now intros [H _]%Z.lor_eq_0_iff.
Qed.

Definition fresh_node (x : setup) : node := Node (new_rec x.1.1) x.1.2 x.2.

Context (next_publish : sid -> Live.ngx_rtmp_publish_t -> R ngx_rc) (next_close_stream : sid -> R ngx_rc).
Hypothesis publish_quiet : forall v w, online (net w) ->
  exists rc, runs (next_publish i v) w rc (rsess w) (store w).
Hypothesis close_quiet : forall w, online (net w) ->
  exists rc, runs (next_close_stream i) w rc (rsess w) (store w).

Abbreviation publish := (ngx_rtmp_record_publish cscf racf strftime next_publish).
Abbreviation close_stream := (ngx_rtmp_record_close_stream cscf racf strftime record_done next_close_stream).

(** A session that starts to publish. *)
Record publisher (v : Live.ngx_rtmp_publish_t) (l : list setup) (w : world) : Prop := {
  pb_sess : exists s, rsess w !! i = Some s /\ auto_pushed s = false /\ rctx s = None;
  pb_conf : racf i = map (fun x => x.1.1) l;
  pb_some : l <> [];
  pb_setup : Forall (setup_ok (cut_name (Live.pv_name v)) (Live.ngx_time (net w)) (store w)) l;
  pb_paths : NoDup (map (fun x => x.1.2) l);
  pb_calm : calm (store w);
  pb_online : online (net w)
}.

Lemma nodes_end t nm w nds rc (m : R ngx_rc) : nodes_ok t nm w nds -> runs m w rc (rsess w) (store w) ->
  exists w', m w = Some (rc, w') /\ nodes_ok t nm w' nds /\ kept (net w) (net w').
Proof.
  intros Hns (m' & E & K). exists (World m' (rsess w) (store w) (msec w)). split; [done|]. split; [|done].
  pose proof (online_kept _ _ (ns_online _ _ _ _ Hns) K). destruct Hns. now split.
Qed.

Lemma publish_runs v l w : publisher v l w -> Forall unlimited l ->
  exists rc w' nds, publish i v w = Some (rc, w') /\ nodes_ok (fds (store w)) (cut_name (Live.pv_name v)) w' nds /\
    Forall2 (open_step (Live.ngx_time (net w)) (msec w)) (map fresh_node l) nds.
Proof.
  intros [(s & Es & Ha & Er) Hconf Hne Hset Hpaths Hc Ho] Hun. set (nm := cut_name _) in *.
  pose proof (proj2 (Forall_and _ _) (conj Hset Hun)) as Hmix.
  set (c := Ctx (map new_rec (map (fun x => x.1.1) l)) nm (Live.pv_args v)).
  set (w1 := set_rsess (<[i := set_rctx (Some c) s]> (rsess w)) w).
  assert (nodes_ok (fds (store w)) nm w1 (map fresh_node l)) as Hns.
  { split.
    - exists (set_rctx (Some c) s), c. cbn. rewrite lookup_insert_eq. split; [done|]. split; [done|]. split; [|done].
      now rewrite !map_map.
    - apply Forall_map. eapply Forall_impl; [exact Hmix|]. intros [[cf p] ts] [Hs Hx].
      pose proof (setup_plain _ _ _ _ Hs Hx). destruct Hs as [S2 S3 S4 S5]. split; [done|done| |done]. apply S5.
    - now rewrite map_map.
    - split; [|done]. intros nd k Hnd. apply list_elem_of_fmap in Hnd as (x & -> & _). done.
    - done.
    - done. }
  destruct (nodes_loop (fds (store w)) nm (net w) (msec w)
    (fun n => r ← rec_of i n;
      when (negb (has (flags (conf r)) (Z.lor NGX_RTMP_RECORD_OFF NGX_RTMP_RECORD_MANUAL))) (rc ← node_open i n; mret tt))
    (fun nd => (nd_fd nd = None /\ record_path strftime (conf (nd_rec nd)) nm (Live.ngx_time (net w)) = Some (nd_path nd)) /\
      has (flags (conf (nd_rec nd))) (Z.lor NGX_RTMP_RECORD_OFF NGX_RTMP_RECORD_MANUAL) = false)
    (open_step (Live.ngx_time (net w)) (msec w))) with (todo := map fresh_node l) (w := w1) (done := @nil node)
    as (w2 & nds & Eloop & Hns2 & Hs & K2 & _); [|done|apply net_kept_refl, Ho|done| |].
  { intros u nds n nd Hu Hn K Em [Hpre Hfl]. destruct (nodes_rec _ _ _ _ _ _ Hu Hn) as [Hr _].
    destruct (open_turns _ _ _ _ u nds n nd Hu Hn K Em Hpre) as (u' & nd' & rc & E & G).
    exists u', nd'. split; [|done]. unfold rec_of, access. unfold mbind at 1, R_bind at 1.
    change (lookup_rec u i n) with (rec_at (rsess u) i n). rewrite Hr, Hfl. cbn [negb when].
    unfold mbind, R_bind. now rewrite E. }
  { apply Forall_map. eapply Forall_impl; [exact Hset|]. intros [[cf p] ts] [S2 S3 S4 S5]. done. }
  destruct (publish_quiet v w2 (ns_online _ _ _ _ Hns2)) as (rc & Hnext).
  destruct (nodes_end _ _ _ _ _ _ Hns2 Hnext) as (w3 & E3 & Hns3 & _).
  exists rc, w3, nds. split; [|done].
  unfold ngx_rtmp_record_publish, unless_pushed. unfold mbind at 1, R_bind at 1.
  unfold mbind at 1, R_bind at 1. unfold rsession_of at 1, access at 1. rewrite Es, Ha. cbn [negb when].
  rewrite bool_decide_eq_false_2 by (rewrite Hconf; now destruct l). cbn [negb when].
  unfold ngx_rtmp_record_init. unfold mbind at 1, R_bind at 1. unfold mbind at 1, R_bind at 1.
  unfold rsession_of at 1, access at 1. rewrite Es, Er.
  destruct (racf i) as [|c0 cs] eqn:Eracf; [now destruct l|]. rewrite Hconf. unfold upd_rsession at 1. unfold mbind at 1, R_bind at 1.
  unfold rsession_of at 1, access at 1. rewrite Es. unfold modify at 1.
  unfold mbind at 1, R_bind at 1. unfold upd_rsession at 1. unfold mbind at 1, R_bind at 1.
  unfold rsession_of at 1, access at 1. cbn [rsess set_rsess]. rewrite lookup_insert_eq. unfold modify at 1.
  cbn [rsess set_rsess]. rewrite insert_insert_eq.
  match goal with |- context [ngx_rtmp_record_start _ _ _ _ ?u] => change u with w1 end.
  unfold ngx_rtmp_record_start. unfold mbind at 1, R_bind at 1. unfold rsession_of at 1, access at 1.
  cbn [rsess w1 set_rsess]. rewrite lookup_insert_eq. cbn [rctx set_rctx]. rewrite Eracf. cbn [rec c].
  cbn [length map] in Eloop. rewrite !length_map in *. cbn [length]. fold w1. rewrite Eloop. exact E3.
Qed.

Lemma close_runs t nm w nds : nodes_ok t nm w nds -> racf i <> [] ->
  exists rc w' nds', close_stream i w = Some (rc, w') /\ nodes_ok t nm w' nds' /\ Forall2 close_step nds nds'.
Proof.
  intros Hns Hne.
  destruct (nodes_loop t nm (net w) (msec w) (fun n => rc ← node_close i n; mret tt) (fun _ => True) close_step)
    with (todo := nds) (w := w) (done := @nil node)
    as (w2 & nds2 & Eloop & Hns2 & Hs & K2 & _); [|done|apply net_kept_refl, Hns|done|now apply Forall_true|].
  { intros u l n nd Hu Hn K Em _. destruct (close_turns _ _ _ _ u l n nd Hu Hn K Em) as (u' & nd' & rc & E & G).
    exists u', nd'. split; [|done]. unfold mbind, R_bind. now rewrite E. }
  destruct (close_quiet w2 (ns_online _ _ _ _ Hns2)) as (rc & Hnext).
  destruct (nodes_end _ _ _ _ _ _ Hns2 Hnext) as (w3 & E3 & Hns3 & _).
  exists rc, w3, nds2. split; [|done].
  destruct (nodes_count _ _ _ _ Hns) as (s & c & Es & Ec & Hlen & Ha).
  unfold ngx_rtmp_record_close_stream, unless_pushed. unfold mbind at 1, R_bind at 1.
  unfold mbind at 1, R_bind at 1. unfold rsession_of at 1, access at 1. rewrite Es, Ha. cbn [negb when].
  unfold ngx_rtmp_record_stop. unfold mbind at 1, R_bind at 1. unfold rsession_of at 1, access at 1. rewrite Es, Ec, Hlen.
  destruct (racf i); [done|]. cbn [length] in Eloop. rewrite Eloop. exact E3.
Qed.

(** Without an open recorder the descriptors are those of before. *)
Lemma all_closed t nds d : descriptors t nds d -> Forall (fun nd => nd_fd nd = None) nds -> fds d = t.
Proof.
  intros [_ H] Hall. apply map_eq. intros k. apply H. intros nd Hnd. rewrite Forall_forall in Hall.
  now rewrite Hall.
Qed.

(** What a publication leaves: every recorder has its tags in its file, behind
    those it goes on after, and no descriptor is lost. *)
Lemma publication_recorded v l es w : publisher v l w -> Forall unlimited l -> Forall event_ok es ->
  exists rc rc' w1 w2 w3, publish i v w = Some (rc, w1) /\ record_frames es w1 = Some w2 /\
    close_stream i w2 = Some (rc', w3) /\ fds (store w3) = fds (store w) /\ calm (store w3) /\
    Forall (fun '(c, p, ts) => exists k off, let us := old_tags c ts in
      finished (contents p (store w3))
        (us ++ fst (take_frames es (opened c k off (last_time us) (Live.ngx_time (net w)) (msec w))))) l.
Proof.
  intros Hp Hun Hes. destruct (publish_runs v l w Hp Hun) as (rc & w1 & nds1 & E1 & Hns1 & Hs1).
  destruct (frames_recorded _ _ es Hes w1 nds1 Hns1) as (w2 & nds2 & E2 & Hns2 & Hs2).
  { eapply Forall2_Forall_r; [exact Hs1|]. apply Forall_true. intros x y (k & off & ->). cbn. eauto. }
  destruct (close_runs _ _ _ _ Hns2) as (rc' & w3 & nds3 & E3 & Hns3 & Hs3).
  { rewrite (pb_conf _ _ _ Hp). pose proof (pb_some _ _ _ Hp). now destruct l. }
  exists rc, rc', w1, w2, w3. do 3 (split; [done|]).
  assert (Forall (fun nd => nd_fd nd = None) nds3) as Hall.
  { eapply Forall2_Forall_r; [exact Hs3|]. apply Forall_true. now intros x y [H _]. }
  split; [exact (all_closed _ _ _ (ns_fds _ _ _ _ Hns3) Hall)|]. split; [apply Hns3|].
  pose proof (ns_nodes _ _ _ _ Hns3) as Hok.
  assert (Forall2 (fun nd nd3 => nd_fd nd3 = None /\ nd_path nd3 = nd_path nd /\ exists k off,
    let us := old_tags (conf (nd_rec nd)) (nd_tags nd) in
    nd_tags nd3 = us ++ fst (take_frames es (opened (conf (nd_rec nd)) k off (last_time us) (Live.ngx_time (net w)) (msec w))))
    (map fresh_node l) nds3) as Hs.
  { eapply Forall2_trans; [|exact Hs1|]; [|eapply Forall2_trans; [|exact Hs2|exact Hs3]].
    2:{ intros x y z H1 H2. exact (ex_intro (fun y => taken es x y /\ close_step y z) y (conj H1 H2)). }
    intros x y z (k & off & ->) (? & [_ ->] & H2 & H3 & H4). split; [done|]. split; [exact H3|]. exists k, off. exact H4. }
  rewrite Forall2_fmap_l in Hs. eapply Forall2_Forall_l; [exact Hs|]. eapply Forall_impl; [exact Hok|].
  intros nd Hnd [[c p] ts] (Hfd & Hpath & k & off & Htags). exists k, off. cbv zeta in *.
  pose proof (no_file _ _ _ Hnd) as H. rewrite Hfd, Hpath, Htags in H. exact H.
Qed.

End Session.
End Limits.

(* ------------------------------------------------------------------ *)
(** ** Recordings in full *)

Section Full.
Context (stale : Z) (i : sid) (cc : option Codec.ngx_rtmp_codec_ctx_t) (aac avc : option (list Z)).

(** The codec context of the publisher is [cc] with the headers [aac] and
    [avc] when the frame comes. *)
Definition codec_same (e : event) : Prop :=
  codec_now i (ev_net e) = cc /\
  match cc with
  | Some c => header_bytes (ev_net e) (Codec.aac_header (Codec.chains c)) = aac /\
              header_bytes (ev_net e) (Codec.avc_header (Codec.chains c)) = avc
  | None => aac = None /\ avc = None
  end.

(** The header of a codec that has one is there. *)
Definition headers_there : Prop :=
  (is_aac cc = true -> is_Some aac) /\ (is_h264 cc = true -> is_Some avc).

(** A recorder of audio and video that is behind its first frame. *)
Record under_way (ep : Z) (r : ngx_rtmp_record_rec_ctx_t) : Prop := {
  uw_audio : has (flags (conf r)) NGX_RTMP_RECORD_AUDIO = true;
  uw_video : has (flags (conf r)) NGX_RTMP_RECORD_VIDEO = true;
  uw_auto : has (flags (conf r)) NGX_RTMP_RECORD_MANUAL = false;
  uw_init : initialized r = true;
  uw_epoch : epoch r = ep;
  uw_aac : is_Some aac -> aac_header_sent r = true;
  uw_avc : is_Some avc -> avc_header_sent r = true;
  uw_key : video_key_sent r = true
}.

Definition in_file (ep : Z) (e : event) : tag :=
  Tag (Chunk.type (ev_hdr e)) (frame_time (Chunk.timestamp (ev_hdr e)) ep) (concat (ev_ins e)).

Definition header_tags (t : Z) : list tag :=
  match aac with Some b => [Tag NGX_RTMP_MSG_AUDIO t b] | None => [] end ++
  match avc with Some b => [Tag NGX_RTMP_MSG_VIDEO t b] | None => [] end.

Lemma wanted c ty key : has (flags c) NGX_RTMP_RECORD_AUDIO = true -> has (flags c) NGX_RTMP_RECORD_VIDEO = true ->
  unwanted c ty key = false.
Proof. intros H1 H2. unfold unwanted. rewrite H1, H2. cbn [negb]. now rewrite !andb_false_r. Qed.

(** A frame behind the first. *)
Lemma take_next ep e r : codec_same e -> headers_there -> under_way ep r ->
  exists r', take_frame stale i e r = ([in_file ep e], r') /\ under_way ep r'.
Proof.
  intros [Hcc Hb] [Ha Hv] [U1 U2 U3 U4 U5 U6 U7 U8]. unfold take_frame, node_frame.
  rewrite Hcc, U3, (wanted _ _ _ U1 U2). cbn [andb orb]. unfold begun. rewrite U4.
  assert (headers_step (ev_net e) (ev_hdr e) cc r = ([], r)) as ->.
  { unfold headers_step. destruct cc as [c|]; [|done]. destruct Hb as [-> ->]. unfold header_step.
    destruct aac as [x|]; [rewrite U6 by eauto|]; cbn [negb andb]; (destruct avc as [y|]; [rewrite U7 by eauto|]); done. }
  unfold ready. destruct (Chunk.type (ev_hdr e) =? NGX_RTMP_MSG_VIDEO) eqn:Ety.
  - replace (is_h264 cc && negb (avc_header_sent r)) with false.
    2:{ destruct (is_h264 cc) eqn:E; [|done]. now rewrite U7 by auto. }
    set (r1 := if starts stale cc (ev_ins e) then set_video_key_sent r else r).
    assert (video_key_sent r1 = true /\ epoch r1 = epoch r) as [-> Ee]
      by (unfold r1; destruct (starts _ _ _); done).
    eexists. split; [unfold frame_tag, in_file; now rewrite Ee, U5|].
    unfold r1. destruct (starts _ _ _); now split.
  - replace (is_aac cc && negb (aac_header_sent r)) with false.
    2:{ destruct (is_aac cc) eqn:E; [|done]. now rewrite U6 by auto. }
    cbn [negb]. eexists. split; [unfold frame_tag, in_file; now rewrite U5|]. now split.
Qed.

Lemma take_rest ep es : Forall codec_same es -> headers_there -> forall r, under_way ep r ->
  fst (take_frames stale i es r) = map (in_file ep) es.
Proof.
  intros Hes Hh. induction Hes as [|e es He Hes IH]; intros r Hr; [done|]. cbn [take_frames map].
  destruct (take_next ep e r He Hh Hr) as (r' & -> & Hr'). specialize (IH r' Hr').
  destruct (take_frames stale i es r') as [us r2]. cbn in *. now rewrite IH.
Qed.

(** The first frame. *)
Lemma take_first c k off shift sec ms e : codec_same e -> headers_there ->
  has (flags c) NGX_RTMP_RECORD_AUDIO = true -> has (flags c) NGX_RTMP_RECORD_VIDEO = true ->
  has (flags c) NGX_RTMP_RECORD_MANUAL = false ->
  Chunk.type (ev_hdr e) = NGX_RTMP_MSG_VIDEO -> starts stale cc (ev_ins e) = true ->
  let ep := u32 (Chunk.timestamp (ev_hdr e) - shift) in
  exists r', take_frame stale i e (opened c k off shift sec ms) =
      (header_tags (frame_time (Chunk.timestamp (ev_hdr e)) ep) ++ [in_file ep e], r') /\ under_way ep r'.
Proof.
  intros [Hcc Hb] [Ha Hv] F1 F2 F3 Hty Hst ep. unfold take_frame, node_frame. cbn [opened conf].
  rewrite Hcc, F3, (wanted _ _ _ F1 F2). cbn [andb orb].
  set (r1 := begun (ev_hdr e) _).
  assert (conf r1 = c /\ initialized r1 = true /\ epoch r1 = ep /\ aac_header_sent r1 = false /\ avc_header_sent r1 = false)
    as (B1 & B2 & B3 & B4 & B5).
  { unfold r1, begun. cbn [opened initialized file offset]. destruct (off =? 0); done. }
  clearbody r1.
  assert (exists r2, headers_step (ev_net e) (ev_hdr e) cc r1 =
      (header_tags (frame_time (Chunk.timestamp (ev_hdr e)) ep), r2) /\
    conf r2 = c /\ initialized r2 = true /\ epoch r2 = ep /\ (is_Some aac -> aac_header_sent r2 = true) /\
    (is_Some avc -> avc_header_sent r2 = true)) as (r2 & -> & C1 & C2 & C3 & C4 & C5).
  { assert (has (flags c) (Z.lor NGX_RTMP_RECORD_VIDEO NGX_RTMP_RECORD_KEYFRAMES) = true) as F4.
    { unfold has in *. apply negb_true_iff, Z.eqb_neq in F2. apply negb_true_iff, Z.eqb_neq. intros E. apply F2.
      rewrite Z.land_lor_distr_r in E. now apply Z.lor_eq_0_iff in E as [E _]. }
    unfold headers_step, header_tags. destruct cc as [x|].
    - destruct Hb as [-> ->]. unfold header_step. destruct aac as [y|].
      + rewrite B4, B1, F1, B3. cbn [negb andb]. destruct avc as [z|].
        * cbn [set_aac_header_sent noted set_nframes advance set_file set_av avc_header_sent conf epoch].
          rewrite B5, B1, F4, B3. cbn [negb andb]. eexists. split; [done|]. cbn. rewrite B1, B2, B3. auto 10.
        * eexists. split; [done|]. cbn. rewrite B1, B2, B3. split; [done|]. split; [done|]. split; [done|]. split; [done|].
          now intros [? ?].
      + destruct avc as [z|].
        * rewrite B5, B1, F4, B3. cbn [negb andb]. eexists. split; [done|]. cbn. rewrite B1, B2, B3.
          split; [done|]. split; [done|]. split; [done|]. split; [now intros [? ?]|done].
        * exists r1. split; [done|]. rewrite B1, B2, B3. do 3 (split; [done|]). split; now intros [? ?].
    - destruct Hb as [-> ->]. exists r1. split; [done|]. rewrite B1, B2, B3. do 3 (split; [done|]). split; now intros [? ?]. }
  unfold ready. rewrite Hty, Z.eqb_refl, Hst.
  replace (is_h264 cc && negb (avc_header_sent r2)) with false.
  2:{ destruct (is_h264 cc) eqn:E; [|done]. now rewrite C5 by auto. }
  cbn [set_video_key_sent video_key_sent]. eexists. split.
  - unfold frame_tag, in_file. cbn [set_video_key_sent epoch]. now rewrite Hty, C3.
  - split; cbn; rewrite ?C1; done.
Qed.

End Full.

(** The time of a frame that is not before the start. *)
Lemma frame_time_later t t0 shift : 0 <= shift -> t0 <= t -> t - t0 + shift < 2 ^ 31 ->
  frame_time t (u32 (t0 - shift)) = t - t0 + shift.
Proof.
  intros H1 H2 H3. unfold frame_time. cbv zeta.
  assert (u32 (t - u32 (t0 - shift)) = t - t0 + shift) as ->.
  { unfold u32. rewrite Zminus_mod_idemp_r. replace (t - (t0 - shift)) with (t - t0 + shift) by lia.
    apply Z.mod_small. lia. }
  unfold s32. rewrite Z.mod_small by lia. now rewrite (proj2 (Z.ltb_ge _ _)) by lia.
Qed.

(** What a recorder of audio and video takes that starts with a key frame, while
    the codec headers are known. *)
Lemma taken_in_full stale i cc aac avc c k off shift sec ms e es :
  has (flags c) NGX_RTMP_RECORD_AUDIO = true -> has (flags c) NGX_RTMP_RECORD_VIDEO = true ->
  has (flags c) NGX_RTMP_RECORD_MANUAL = false ->
  Forall (codec_same i cc aac avc) (e :: es) -> headers_there cc aac avc ->
  Chunk.type (ev_hdr e) = NGX_RTMP_MSG_VIDEO -> starts stale cc (ev_ins e) = true -> 0 <= shift ->
  Forall (fun e' => Chunk.timestamp (ev_hdr e) <= Chunk.timestamp (ev_hdr e') /\
    Chunk.timestamp (ev_hdr e') - Chunk.timestamp (ev_hdr e) + shift < 2 ^ 31) (e :: es) ->
  fst (take_frames stale i (e :: es) (opened c k off shift sec ms)) =
    header_tags aac avc shift ++
    map (fun e' => Tag (Chunk.type (ev_hdr e')) (Chunk.timestamp (ev_hdr e') - Chunk.timestamp (ev_hdr e) + shift)
      (concat (ev_ins e'))) (e :: es).
Proof.
  intros F1 F2 F3 Hall Hh Hty Hst Hs Htm. inversion Hall as [|? ? He Hes]; subst.
  destruct (take_first stale i cc aac avc c k off shift sec ms e He Hh F1 F2 F3 Hty Hst) as (r & E & Hr).
  cbv zeta in *. set (ep := u32 (Chunk.timestamp (ev_hdr e) - shift)) in *. cbn [take_frames]. rewrite E.
  pose proof (take_rest stale i cc aac avc ep es Hes Hh r Hr) as Hrest.
  destruct (take_frames stale i es r) as [us r2]. cbn [fst] in *. rewrite Hrest, <- app_assoc.
  assert (forall e', e' ∈ e :: es -> frame_time (Chunk.timestamp (ev_hdr e')) ep =
    Chunk.timestamp (ev_hdr e') - Chunk.timestamp (ev_hdr e) + shift) as Ht.
  { intros e' Hin. rewrite Forall_forall in Htm. apply frame_time_later; [done|now apply Htm|now apply Htm]. }
  f_equal.
  - f_equal. rewrite Ht by apply list_elem_of_here. lia.
  - change ([in_file ep e] ++ map (in_file ep) es) with (map (in_file ep) (e :: es)).
    apply map_ext_in. intros e' Hin%list_elem_of_In. unfold in_file. now rewrite Ht.
Qed.

Lemma last_time_nonneg ts : Forall tag_ok ts -> 0 <= last_time ts.
Proof.
  intros H. unfold last_time. destruct (list.last ts) as [t|] eqn:E; [|lia].
  apply last_Some in E as [l ->]. apply Forall_app in H as [_ H]. apply Forall_inv in H. destruct H; lia.
Qed.

Lemma not_manual c : has (flags c) (Z.lor NGX_RTMP_RECORD_OFF NGX_RTMP_RECORD_MANUAL) = false ->
  has (flags c) NGX_RTMP_RECORD_MANUAL = false.
Proof.
  unfold has. rewrite !negb_false_iff, !Z.eqb_eq, Z.land_lor_distr_r. now intros [_ H]%Z.lor_eq_0_iff.
Qed.

(** C6: a recording without limits is complete.  The recorders of an application, each
    with a file of its own, start by themselves, and have no limit of size
    (record_max_size) or frames (record_max_frames) and no interval (record_interval):
    with a limit of size, for instance, the code starts the file anew or goes on beyond
    the limit ([max_size_restarts], [max_size_exceeded]).  A session publishes, frames come of which the first
    is a key frame, while the codec headers are known, and the stream ends; no system
    call fails.  Then every recorder of audio and video leaves a file that goes on,
    behind the tags that are kept, with the codec headers and exactly one tag for every
    frame, in order, with the type and the body of the frame and its time since the
    first frame, counted from the end of the recording that is continued; no descriptor
    is left open. *)
Theorem recorded_in_full size qmax cscf racf strftime record_done stale i next_publish next_close_stream
    v l cc aac avc e es w :
  (22 <= size)%nat -> Live.NGX_RTMP_CSID_VIDEO < Chunk.max_streams cscf ->
  Chunk.play_time_fix cscf = Chunk.publish_time_fix cscf ->
  (forall x p w, online size qmax i (net w) -> exists rc, runs size qmax (record_done i x p) w rc (rsess w) (store w)) ->
  (forall v w, online size qmax i (net w) -> exists rc, runs size qmax (next_publish i v) w rc (rsess w) (store w)) ->
  (forall w, online size qmax i (net w) -> exists rc, runs size qmax (next_close_stream i) w rc (rsess w) (store w)) ->
  publisher size qmax racf strftime i v l w -> Forall unlimited l -> Forall (event_ok size qmax i) (e :: es) ->
  Forall (codec_same i cc aac avc) (e :: es) -> headers_there cc aac avc ->
  Chunk.type (ev_hdr e) = NGX_RTMP_MSG_VIDEO -> starts stale cc (ev_ins e) = true ->
  let since e' := Chunk.timestamp (ev_hdr e') - Chunk.timestamp (ev_hdr e) in
  exists rc rc' w1 w2 w3,
    ngx_rtmp_record_publish cscf racf strftime next_publish i v w = Some (rc, w1) /\
    record_frames cscf strftime record_done stale i (e :: es) w1 = Some w2 /\
    ngx_rtmp_record_close_stream cscf racf strftime record_done next_close_stream i w2 = Some (rc', w3) /\
    fds (store w3) = fds (store w) /\
    Forall (fun '(c, p, ts) =>
      has (flags c) NGX_RTMP_RECORD_AUDIO = true -> has (flags c) NGX_RTMP_RECORD_VIDEO = true ->
      let shift := last_time (old_tags c ts) in
      Forall (fun e' => 0 <= since e' /\ since e' + shift < 2 ^ 31) (e :: es) ->
      finished (contents p (store w3)) (old_tags c ts ++ header_tags aac avc shift ++
        map (fun e' => Tag (Chunk.type (ev_hdr e')) (since e' + shift) (concat (ev_ins e'))) (e :: es))) l.
Proof.
  intros Hsz Hms Hfix Hdone Hpub Hclose Hp Hun Hes Hall Hh Hty Hst since.
  destruct (publication_recorded size qmax cscf racf strftime record_done stale i Hsz Hms Hfix Hdone next_publish
    next_close_stream Hpub Hclose v l (e :: es) w Hp Hun Hes) as (rc & rc' & w1 & w2 & w3 & E1 & E2 & E3 & Hfds & _ & Hl).
  exists rc, rc', w1, w2, w3. do 4 (split; [done|]).
  pose proof (pb_setup _ _ _ _ _ _ _ _ Hp) as Hs. rewrite Forall_forall in Hl, Hs |- *.
  intros [[c p] ts] Hin F1 F2 shift Htm. destruct (Hl _ Hin) as (k & off & H). cbv zeta in H.
  destruct (Hs _ Hin) as [Hauto _ _ [_ Hts]]. cbn in Hauto, Hts.
  rewrite (taken_in_full stale i cc aac avc c k off shift) in H; try done.
  - now apply not_manual.
  - apply last_time_nonneg. unfold old_tags. destruct (append c); [done|constructor].
  - eapply Forall_impl; [exact Htm|]. unfold since. cbn. lia.
Qed.

(* ------------------------------------------------------------------ *)
(** ** Concrete recordings *)

(** Audio and video to [/r/NAME.flv]. *)
Definition av_conf : ngx_rtmp_record_app_conf_t :=
  Conf None (Z.lor NGX_RTMP_RECORD_AUDIO NGX_RTMP_RECORD_VIDEO) (str "/r") 0 0 NGX_CONF_UNSET_MSEC (str ".flv")
    false false false None.
Definition audio_at (t : Z) : Chunk.ngx_rtmp_header_t := Chunk.Hdr 6 t 3 NGX_RTMP_MSG_AUDIO 1.
Definition sound : list (list Z) := [[0x2f; 5; 6]].
Definition two_frames : list event :=
  [Event LiveAv.on_air (LiveAv.video_at 1000) LiveAv.key_frame; Event LiveAv.on_air (audio_at 1040) sound].
Definition two_tags : list tag := [Tag 9 0 [0x17; 1; 0; 0; 0; 1; 2; 3]; Tag 8 40 [0x2f; 5; 6]].

Definition no_strftime (_ : Z) (_ : list Z) (_ : Z) : list Z := [].
(** [ngx_rtmp_record_done_init]. *)
Definition done_init (_ : sid) (_ : option string) (_ : list Z) : R ngx_rc := mret NGX_OK.
Definition next_ok {A} (_ : sid) (_ : A) : R ngx_rc := mret NGX_OK.
Definition next_ok1 (_ : sid) : R ngx_rc := mret NGX_OK.

Definition before_publish : world := World LiveAv.on_air {[0%nat := RSess false 0 None]} (Disk ∅ ∅ []) 0.
Lemma kept_ret {A} (a : A) w : online 4096 256 0 (net w) ->
  exists rc, runs 4096 256 (mret a : R A) w rc (rsess w) (store w).
Proof. intros [H _]. exists a. now apply runs_ret. Qed.

Lemma before_publish_ok : publisher 4096 256 (fun _ => [av_conf]) no_strftime 0 (Live.Publish (str "a") [] false)
  [(av_conf, str "/r/a.flv", [])] before_publish.
Proof.
  split.
  - eexists. split; [reflexivity|]. split; reflexivity.
  - reflexivity.
  - done.
  - constructor; [|constructor]. split; [reflexivity|reflexivity|vm_compute; reflexivity|].
    split; [left; split; reflexivity|constructor].
  - constructor; [apply not_elem_of_nil|constructor].
  - reflexivity.
  - split; [exact LiveAv.on_air_ok|]. now eexists.
Qed.

Lemma av_unlimited : Forall unlimited [(av_conf, str "/r/a.flv", [] : list tag)].
Proof. constructor; [|constructor]. repeat split. Qed.

Lemma two_frames_ok : Forall (event_ok 4096 256 0) two_frames.
Proof.
  assert (online 4096 256 0 LiveAv.on_air) as Hon by (split; [exact LiveAv.on_air_ok|now eexists]).
  assert (codec_known 0 LiveAv.on_air None) as Hcc by (split; [reflexivity|discriminate..]).
  constructor; [|constructor; [|constructor]]; (split; [exact Hon| |exact Hcc]);
    (split; [reflexivity|reflexivity|apply (bool_decide_unpack _); exact Logic.I|cbn; auto|cbn; lia]).
Qed.

Lemma recorded_in_full_witness :
  exists rc rc' w1 w2 w3,
    ngx_rtmp_record_publish Chunk.conf (fun _ => [av_conf]) no_strftime next_ok 0
      (Live.Publish (str "a") [] false) before_publish = Some (rc, w1) /\
    record_frames Chunk.conf no_strftime done_init 0 0 two_frames w1 = Some w2 /\
    ngx_rtmp_record_close_stream Chunk.conf (fun _ => [av_conf]) no_strftime done_init next_ok1 0 w2 = Some (rc', w3) /\
    finished (contents (str "/r/a.flv") (store w3)) two_tags.
Proof.
  destruct (recorded_in_full 4096 256 Chunk.conf (fun _ => [av_conf]) no_strftime done_init 0 0 next_ok next_ok1
    (Live.Publish (str "a") [] false) [(av_conf, str "/r/a.flv", [])] None None None
    (Event LiveAv.on_air (LiveAv.video_at 1000) LiveAv.key_frame) [Event LiveAv.on_air (audio_at 1040) sound] before_publish
    ltac:(apply (bool_decide_unpack _); exact Logic.I) ltac:(reflexivity) ltac:(reflexivity)
    (fun x p w H => kept_ret NGX_OK w H) (fun v w H => kept_ret NGX_OK w H) (fun w H => kept_ret NGX_OK w H)
    before_publish_ok av_unlimited two_frames_ok
    ltac:(constructor; [split; [reflexivity|split; reflexivity]|constructor; [split; [reflexivity|split; reflexivity]|constructor]])
    ltac:(split; discriminate) eq_refl eq_refl)
    as (rc & rc' & w1 & w2 & w3 & E1 & E2 & E3 & _ & Hall).
  exists rc, rc', w1, w2, w3. do 3 (split; [assumption|]). apply Forall_inv in Hall.
  exact (Hall eq_refl eq_refl ltac:(constructor; [cbn; lia|constructor; [cbn; lia|constructor]])).
Defined.

(** A process with two sessions that record, and the files [fs]; [es] are the
    system calls to come. *)
Definition recording (fs : gmap (list Z) (list Z)) (es : list (option nat)) : world :=
  World LiveAv.on_air {[0%nat := RSess false 0 None; 1%nat := RSess false 0 None]} (Disk fs ∅ es) 0.

Definition do_publish (c : ngx_rtmp_record_app_conf_t) (i : sid) (nm : string) : R ngx_rc :=
  ngx_rtmp_record_publish Chunk.conf (fun _ => [c]) no_strftime next_ok i (Live.Publish (str nm) [] false).
Definition do_close (c : ngx_rtmp_record_app_conf_t) (i : sid) : R ngx_rc :=
  ngx_rtmp_record_close_stream Chunk.conf (fun _ => [c]) no_strftime done_init next_ok1 i.
Definition do_video (i : sid) (t : Z) : R ngx_rc :=
  ngx_rtmp_record_av Chunk.conf no_strftime done_init 0 i (LiveAv.video_at t) LiveAv.key_frame.
(** The contents of a file behind a run. *)
Definition leaves {A} (m : R A) (w : world) (p : string) : option (list Z) :=
  x ← m w; files (store x.2) !! str p.

Definition key_tag (t : Z) : tag := Tag 9 t [0x17; 1; 0; 0; 0; 1; 2; 3].

(** A recorder that fails to write the header of a tag closes its descriptor and
    goes on to use it: the file that gets the number next, here that of the
    recorder of another session, gets the tags. *)
Example stale_descriptor :
  leaves (_ ← do_publish av_conf 0 "a"; _ ← do_video 0 1000; _ ← do_publish av_conf 1 "b"; do_video 0 1040)
    (recording ∅ [Some 0%nat; Some 99%nat; None]) "/r/b.flv" =
  Some (replicate 13 0 ++ tag_bytes (key_tag 40)).
Proof. vm_compute. reflexivity. Qed.

(** A body that can not be written leaves a part of a tag, and the next tag goes
    behind it, where no reader finds it. *)
Example partial_tag :
  leaves (_ ← do_publish av_conf 0 "a"; _ ← do_video 0 1000; do_video 0 1040)
    (recording ∅ [Some 0%nat; Some 99%nat; Some 99%nat; None]) "/r/a.flv" =
  Some (flv 5 [] ++ tag_header 9 8 0 ++ tag_bytes (key_tag 40)).
Proof. vm_compute. reflexivity. Qed.

(** A recorder closes its file at [record_max_size] and opens it again, empty, at
    the next key frame: the recording is lost. *)
Definition small_conf : ngx_rtmp_record_app_conf_t :=
  Conf None 6 (str "/r") 20 0 NGX_CONF_UNSET_MSEC (str ".flv") false false false None.
Example max_size_restarts :
  let run n := leaves (_ ← do_publish small_conf 0 "a"; for_nodes (seq 0 n) (fun k =>
    _ ← do_video 0 (1000 + 40 * Z.of_nat k); mret tt)) (recording ∅ []) "/r/a.flv" in
  run 1%nat = Some (flv 1 [key_tag 0]) /\ run 2%nat = Some (flv 1 [key_tag 0]).
Proof. vm_compute. split; reflexivity. Qed.

(** With [record_append] it opens the file to go on, so that the file grows
    beyond the limit. *)
Definition append_conf : ngx_rtmp_record_app_conf_t :=
  Conf None 6 (str "/r") 20 0 NGX_CONF_UNSET_MSEC (str ".flv") false true false None.
Example max_size_exceeded :
  leaves (_ ← do_publish append_conf 0 "a"; _ ← do_video 0 1000; _ ← do_video 0 1040; do_video 0 1080)
    (recording ∅ []) "/r/a.flv" = Some (flv 1 [key_tag 0; key_tag 0; key_tag 0]).
Proof. vm_compute. reflexivity. Qed.

(** The mask in the header of a file that is continued is that of the new part:
    here the audio of the old part is no longer announced. *)
Definition continue_conf : ngx_rtmp_record_app_conf_t :=
  Conf None 6 (str "/r") 0 0 NGX_CONF_UNSET_MSEC (str ".flv") false true false None.
Example append_forgets_audio :
  leaves (_ ← do_publish continue_conf 0 "a"; _ ← do_video 0 5000; do_close continue_conf 0)
    (recording {[str "/r/a.flv" := flv 5 two_tags]} []) "/r/a.flv" = Some (flv 1 (two_tags ++ [key_tag 40])).
Proof. vm_compute. reflexivity. Qed.

(** The name of a stream is cut to the room left in the path before it is
    escaped, and may then run over the end of the buffer. *)
Definition long_conf : ngx_rtmp_record_app_conf_t :=
  Conf None 6 (replicate 3500 97) 0 0 NGX_CONF_UNSET_MSEC (str ".flv") false false false None.
Example path_overflows :
  record_path no_strftime long_conf (replicate 255 32) 0 = None /\
  record_path no_strftime long_conf (replicate 255 97) 0 = Some (replicate 3500 97 ++ [47] ++ replicate 255 97 ++ str ".flv").
Proof. vm_compute. split; reflexivity. Qed.

End Recording.
