(* ===== verification/Flv.v ===== *)
(** * Playing FLV files (src/src/rtmp/ngx_rtmp_flv_module.c)

    The player of a session calls [ngx_rtmp_flv_send] for one tag after another;
    audio and video go to the client, the first of a kind with a full header, the
    others relative to the one before.  [ngx_rtmp_flv_start] and
    [ngx_rtmp_flv_seek] make the next call look for the place to start at, with
    the help of the index of key frames in the metadata of the file.

    The state is that of the worker process (Live.v), the contexts of this module
    and the files (Disk.v).  [None] is an access the code must not make, or a
    conversion C leaves open.  Doubles are those of the Standard Library's
    specification of IEEE 754. *)

From Stdlib Require Import ZArith Lia SpecFloat.
From stdpp Require Import base numbers list strings gmap.
From S2P Require Import Prelude Buf Double Chunk Shared Amf Receive AmfSend Disk Live.

Module Flv.

Import Disk.

Abbreviation sid := nat.

Definition NGX_RTMP_FLV_BUFFER : Z := 1024 * 1024.
Definition NGX_RTMP_FLV_BUFLEN_ADDON : Z := 1000.
Definition NGX_RTMP_FLV_TAG_HEADER : Z := 11.
Definition NGX_RTMP_FLV_DATA_OFFSET : Z := 13.
Definition NGX_RTMP_MSG_AMF_META : Z := 18.

(* ------------------------------------------------------------------ *)
(** ** State *)

Record ngx_rtmp_flv_index_t := Index { ix_nelts : Z; ix_offset : Z }.

Record ngx_rtmp_flv_ctx_t := Ctx {
  offset : Z;
  start_timestamp : Z;
  last_audio : Z;
  last_video : Z;
  msg_mask : Z;
  epoch : Z;
  meta_read : bool;
  filepositions : ngx_rtmp_flv_index_t;
  times : ngx_rtmp_flv_index_t
}.

(** Of a session: the context of this module, the file of the player, the
    [buflen] the client asked for. *)
Record fsession := FSess {
  fctx : option ngx_rtmp_flv_ctx_t;
  file : ngx_file_t;
  buflen : Z
}.

Record world := World {
  net : Live.process;
  fsess : gmap sid fsession;
  store : disk
}.

Definition set_net n w := World n (fsess w) (store w).
Definition set_fsess m w := World (net w) m (store w).
Definition set_store d w := World (net w) (fsess w) d.

Definition set_fctx c s := FSess c (file s) (buflen s).
Definition set_file f s := FSess (fctx s) f (buflen s).

Definition set_offset o c :=
  Ctx o (start_timestamp c) (last_audio c) (last_video c) (msg_mask c) (epoch c) (meta_read c) (filepositions c) (times c).
Definition set_start t c :=
  Ctx (offset c) t (last_audio c) (last_video c) (msg_mask c) (epoch c) (meta_read c) (filepositions c) (times c).
Definition set_last_audio t c :=
  Ctx (offset c) (start_timestamp c) t (last_video c) (msg_mask c) (epoch c) (meta_read c) (filepositions c) (times c).
Definition set_last_video t c :=
  Ctx (offset c) (start_timestamp c) (last_audio c) t (msg_mask c) (epoch c) (meta_read c) (filepositions c) (times c).
Definition set_msg_mask m c :=
  Ctx (offset c) (start_timestamp c) (last_audio c) (last_video c) m (epoch c) (meta_read c) (filepositions c) (times c).
Definition set_epoch e c :=
  Ctx (offset c) (start_timestamp c) (last_audio c) (last_video c) (msg_mask c) e (meta_read c) (filepositions c) (times c).
Definition set_meta_read c :=
  Ctx (offset c) (start_timestamp c) (last_audio c) (last_video c) (msg_mask c) (epoch c) true (filepositions c) (times c).
Definition set_filepositions x c :=
  Ctx (offset c) (start_timestamp c) (last_audio c) (last_video c) (msg_mask c) (epoch c) (meta_read c) x (times c).
Definition set_times x c :=
  Ctx (offset c) (start_timestamp c) (last_audio c) (last_video c) (msg_mask c) (epoch c) (meta_read c) (filepositions c) x.

(* ------------------------------------------------------------------ *)
(** ** The monad *)

Definition F (A : Type) : Type := world -> option (A * world).
#[export] Instance F_ret : MRet F := fun A a w => Some (a, w).
#[export] Instance F_bind : MBind F := fun A B f m w =>
  match m w with Some (a, w) => f a w | None => None end.

Definition access {A} (f : world -> option A) : F A := fun w =>
  match f w with Some a => Some (a, w) | None => None end.
Definition gets {A} (f : world -> A) : F A := fun w => Some (f w, w).
Definition lift {A} (m : Live.M A) : F A := fun w =>
  match m (net w) with Some (a, n) => Some (a, set_net n w) | None => None end.
Definition when (b : bool) (m : F unit) : F unit := if b then m else mret tt.

Definition fsession_of (i : sid) : F fsession := access (fun w => fsess w !! i).
Definition upd_fsession (i : sid) (f : fsession -> fsession) : F unit := fun w =>
  match fsess w !! i with Some s => Some (tt, set_fsess (<[i := f s]> (fsess w)) w) | None => None end.
Definition ctx_of (i : sid) : F ngx_rtmp_flv_ctx_t := access (fun w => s ← fsess w !! i; fctx s).
Definition upd_ctx (i : sid) (f : ngx_rtmp_flv_ctx_t -> ngx_rtmp_flv_ctx_t) : F unit :=
  c ← ctx_of i; upd_fsession i (set_fctx (Some (f c))).

(** [ngx_read_file] on the file of the player; the bytes when all of them are
    there. *)
Definition read_file (i : sid) (size off : Z) : F (option (list Z)) := fun w =>
  match fsess w !! i with
  | Some s =>
      let '(got, f, d) := ngx_read_file (file s) size off (store w) in
      Some (match got with
            | Some b => if Z.of_nat (length b) =? size then Some b else None
            | None => None
            end,
            World (net w) (<[i := set_file f s]> (fsess w)) d)
  | None => None
  end.

Section Conf.
Context (cscf : Chunk.ngx_rtmp_core_srv_conf_t).

(* ------------------------------------------------------------------ *)
(** ** The index *)

(** [None] for an error. *)
Definition ngx_rtmp_flv_fill_index (c : Amf.ngx_rtmp_amf_ctx_t) : option ngx_rtmp_flv_index_t :=
  let b := Receive.in_buf0 (Amf.link c) in
  if (length b <? Amf.offset c + 4)%nat then None
  else Some (Index (be_val (take 4 (drop (Amf.offset c) b))) (Z.of_nat (Amf.offset c) + 4)).

Definition in_keyframes : list Amf.ngx_rtmp_amf_elt_t :=
  let t := Z.lor Amf.NGX_RTMP_AMF_ARRAY Amf.NGX_RTMP_AMF_CONTEXT in
  [Amf.Elt t (str "filepositions") (Amf.DCtx 0%nat) 0; Amf.Elt t (str "times") (Amf.DCtx 1%nat) 0].
Definition in_inf : list Amf.ngx_rtmp_amf_elt_t :=
  [Amf.Elt Amf.NGX_RTMP_AMF_OBJECT (str "keyframes") (Amf.DElts in_keyframes) (Z.of_nat (length in_keyframes))].
Definition in_elts : list (option Amf.ngx_rtmp_amf_elt_t) :=
  [Some (Amf.Elt Amf.NGX_RTMP_AMF_STRING [] Amf.DNull 0);
   Some (Amf.Elt Amf.NGX_RTMP_AMF_OBJECT [] (Amf.DElts in_inf) (Z.of_nat (length in_inf)))].

(** Enough for any input, see [amf_read_safe]. *)
Definition index_fuel (b : list Z) : nat := 4 * length b + Amf.weights_opt in_elts + 1.

Definition fill (i : sid) (c : option Amf.ngx_rtmp_amf_ctx_t)
    (set : ngx_rtmp_flv_index_t -> ngx_rtmp_flv_ctx_t -> ngx_rtmp_flv_ctx_t) : F bool :=
  match c with
  | None => mret true
  | Some c =>
      match ngx_rtmp_flv_fill_index c with
      | Some x => upd_ctx i (set x);; mret true
      | None => mret false
      end
  end.

(** Of the metadata [b]; the result is not used. *)
Definition ngx_rtmp_flv_init_index (i : sid) (b : list Z) : F unit :=
  '(rc, s) ← access (fun _ => Receive.ngx_rtmp_receive_amf (index_fuel b) ∅ [b] in_elts);
  match rc with
  | Amf.Ret NGX_OK =>
      ok ← fill i (Amf.saved s !! (0%nat : Amf.addr)) set_filepositions;
      if ok : bool then ok ← fill i (Amf.saved s !! (1%nat : Amf.addr)) set_times; mret tt else mret tt
  | Amf.Ret _ => mret tt
  | _ => access (fun _ => None)
  end.

(** A message from the file with its header. *)
Definition send_message (i : sid) (body : list Z) (h : Chunk.ngx_rtmp_header_t)
    (lh : option Chunk.ngx_rtmp_header_t) : F ngx_rc :=
  l ← lift (Live.new_packet cscf i [body] h lh);
  rc ← lift (Live.ngx_rtmp_send_message i l 0);
  lift (Live.free_chain l);;
  mret rc.

Definition ngx_rtmp_flv_read_meta (i : sid) : F unit :=
  hd ← read_file i NGX_RTMP_FLV_TAG_HEADER NGX_RTMP_FLV_DATA_OFFSET;
  match hd with
  | None => mret tt
  | Some hd =>
      if negb (default 0 (head hd) =? NGX_RTMP_MSG_AMF_META) then mret tt
      else
        let h := Chunk.Hdr AmfSend.NGX_RTMP_CSID_AMF 0 0 NGX_RTMP_MSG_AMF_META Live.NGX_RTMP_MSID in
        let size := be_val (take 3 (drop 1 hd)) in
        if NGX_RTMP_FLV_BUFFER <? size then mret tt
        else
          b ← read_file i size (NGX_RTMP_FLV_TAG_HEADER + NGX_RTMP_FLV_DATA_OFFSET);
          match b with
          | None => mret tt
          | Some b =>
              ngx_rtmp_flv_init_index i b;;
              rc ← send_message i b h None; mret tt
          end
  end.

(** A double from its bits, and from an integer. *)
Definition float_of_bits (w : Z) : spec_float :=
  let s := Z.testbit w 63 in
  let e := Z.land (Z.shiftr w 52) 2047 in
  let m := Z.land w (2 ^ 52 - 1) in
  if e =? 2047 then if m =? 0 then S754_infinity s else S754_nan
  else if e =? 0 then match m with Zpos p => S754_finite s p (-1074) | _ => S754_zero s end
  else match m + 2 ^ 52 with Zpos p => S754_finite s p (e - 1075) | _ => S754_zero s end.
Definition float_of_int (n : Z) : spec_float := binary_normalize 53 1024 n 0 false.

Definition ngx_rtmp_flv_index_value (b : list Z) : Z := be_val (take 8 b).

(** [timestamp < ngx_rtmp_flv_index_value(...) * 1000]. *)
Definition before (ts : Z) (b : list Z) : bool :=
  SFltb (float_of_int ts)
    (SFmul 53 1024 (float_of_bits (ngx_rtmp_flv_index_value b)) (float_of_int 1000)).

(** The loop over [n] times. *)
Fixpoint lookup_times (n : nat) (ts : Z) (b : list Z) (index : Z) : Z :=
  match n with
  | O => index
  | S n => if before ts (drop 1 b) then index else lookup_times n ts (drop 9 b) (index + 1)
  end.

Definition ngx_rtmp_flv_timestamp_to_offset (i : sid) (ts : Z) : F Z :=
  c ← ctx_of i;
  when (negb (meta_read c)) (ngx_rtmp_flv_read_meta i;; upd_ctx i set_meta_read);;
  c ← ctx_of i;
  if (ts <=? 0) || (ix_nelts (filepositions c) =? 0) || (ix_nelts (times c) =? 0)
  then mret NGX_RTMP_FLV_DATA_OFFSET
  else
    let base := NGX_RTMP_FLV_DATA_OFFSET + NGX_RTMP_FLV_TAG_HEADER in
    let nelts := Z.min (ix_nelts (times c)) (NGX_RTMP_FLV_BUFFER / 9) in
    b ← read_file i (nelts * 9) (base + ix_offset (times c));
    match b with
    | None => mret NGX_RTMP_FLV_DATA_OFFSET
    | Some b =>
        let index := lookup_times (Z.to_nat (nelts - 1)) ts b 0 in
        if ix_nelts (filepositions c) <=? index then mret NGX_RTMP_FLV_DATA_OFFSET
        else
          v ← read_file i 8 (base + ix_offset (filepositions c) + index * 9 + 1);
          match v with
          | None => mret NGX_RTMP_FLV_DATA_OFFSET
          | Some v =>
              access (fun _ => v ← Double.uint_of_double (ngx_rtmp_flv_index_value v);
                Some (if v <? 2 ^ 63 then v else v - 2 ^ 64))
          end
    end.

(* ------------------------------------------------------------------ *)
(** ** Sending *)

(** The result of [ngx_rtmp_flv_send]: [Wait n] is a positive number. *)
Inductive send_rc := Done | Error | Again | Ok | Wait (n : Z).

(** Behind a message: how long to wait. *)
Definition pace (i : sid) (ts : Z) : F send_rc :=
  c ← ctx_of i;
  now ← gets (fun w => Live.ngx_current_msec (net w));
  if start_timestamp c =? -1 then
    upd_ctx i (fun c => set_epoch (u32 now) (set_start ts c));; mret Ok
  else
    s ← fsession_of i;
    let end_timestamp := u32 (now - epoch c + start_timestamp c + u32 (buflen s + NGX_RTMP_FLV_BUFLEN_ADDON)) in
    lift (Live.upd_session i (Live.set_current_time ts));;
    mret (if end_timestamp <? ts then Wait (ts - end_timestamp) else Ok).

(** The place to start at, when it is not known. *)
Definition seek_offset (i : sid) : F unit :=
  c ← ctx_of i;
  when (offset c =? -1) (
    off ← ngx_rtmp_flv_timestamp_to_offset i (start_timestamp c);
    upd_ctx i (fun c => set_start (-1) (set_offset off c))).

(** The chunk stream of a type with the time of the last message. *)
Definition channel (ty ts : Z) (c : ngx_rtmp_flv_ctx_t) : option (Z * Z * ngx_rtmp_flv_ctx_t) :=
  if ty =? Live.NGX_RTMP_MSG_AUDIO then Some (Live.NGX_RTMP_CSID_AUDIO, last_audio c, set_last_audio ts c)
  else if ty =? Live.NGX_RTMP_MSG_VIDEO then Some (Live.NGX_RTMP_CSID_VIDEO, last_video c, set_last_video ts c)
  else None.

(** The tag at the offset. *)
Definition send_tag (i : sid) : F send_rc :=
  c ← ctx_of i;
  hd ← read_file i NGX_RTMP_FLV_TAG_HEADER (offset c);
  match hd with
  | None => mret Done
  | Some hd =>
      let ty := default 0 (head hd) in
      let size := be_val (take 3 (drop 1 hd)) in
      let ts := be_val (take 3 (drop 4 hd)) + default 0 (hd !! 7%nat) * 2 ^ 24 in
      upd_ctx i (fun c => set_offset (offset c + NGX_RTMP_FLV_TAG_HEADER + size + 4) c);;
      c ← ctx_of i;
      match channel ty ts c with
      | None => mret Ok
      | Some (csid, last_timestamp, c) =>
          upd_ctx i (fun _ => c);;
          if NGX_RTMP_FLV_BUFFER <? size then pace i ts
          else
            b ← read_file i size (offset c - size - 4);
            match b with
            | None => mret Error
            | Some b =>
                let h := Chunk.Hdr csid ts 0 ty Live.NGX_RTMP_MSID in
                let lh := Chunk.Hdr csid last_timestamp 0 ty Live.NGX_RTMP_MSID in
                rc ← send_message i b h (if Z.testbit (msg_mask c) ty then Some lh else None);
                match rc with
                | NGX_AGAIN => mret Again
                | NGX_OK =>
                    upd_ctx i (fun c => set_msg_mask (Z.setbit (msg_mask c) ty) c);;
                    pace i ts
                | _ => mret Error
                end
            end
      end
  end.

Definition ngx_rtmp_flv_send (i : sid) : F send_rc :=
  s ← fsession_of i;
  if bool_decide (fctx s = None) then mret Error
  else seek_offset i;; send_tag i.

(* ------------------------------------------------------------------ *)
(** ** Control *)

Definition zero_ctx : ngx_rtmp_flv_ctx_t := Ctx 0 0 0 0 0 0 false (Index 0 0) (Index 0 0).

Definition ngx_rtmp_flv_init (i : sid) : F unit := upd_fsession i (set_fctx (Some zero_ctx)).

(** With a context. *)
Definition with_ctx (i : sid) (f : ngx_rtmp_flv_ctx_t -> ngx_rtmp_flv_ctx_t) : F unit :=
  s ← fsession_of i; if bool_decide (fctx s = None) then mret tt else upd_ctx i f.

Definition ngx_rtmp_flv_start (i : sid) : F unit := with_ctx i (fun c => set_msg_mask 0 (set_offset (-1) c)).

Definition ngx_rtmp_flv_seek (i : sid) (ts : Z) : F unit :=
  now ← gets (fun w => Live.ngx_current_msec (net w));
  with_ctx i (fun c => set_msg_mask 0 (set_offset (-1) (set_epoch (u32 now) (set_start ts c)))).

Definition ngx_rtmp_flv_stop (i : sid) : F unit := mret tt.

End Conf.
End Flv.
