(* ===== verification/Playback.v ===== *)
(** * What a player hears

    A recording (Recording.v) is played back (Flv.v): as long as the output queue
    of the client has room, its peer decodes the tags of the file, one message
    for each, with their types, times and bodies. *)

From Stdlib Require Import ZArith Lia.
From stdpp Require Import base numbers list strings gmap.
From S2P Require Import Prelude Buf Mpegts Chunk Shared Queue Receive Codec Disk Live LiveOut Broadcast LiveAv Recorder Recording Flv.

Module Playback.

Import Disk.
Import LiveOut.
Import Recording.
Import Flv.

#[local] Existing Instance Recorder.R_ret.

Abbreviation tag_header := Recorder.tag_header.

Section Limits.
Context (size : nat) (qmax : Z).
Context (cscf : Chunk.ngx_rtmp_core_srv_conf_t) (i : nat).
Hypothesis size_pos : (22 <= size)%nat.
Hypothesis max_streams : Live.NGX_RTMP_CSID_VIDEO < Chunk.max_streams cscf.
Hypothesis fix_same : Chunk.play_time_fix cscf = Chunk.publish_time_fix cscf.

Abbreviation pool_ok := (pool_ok size qmax).

(** The client: a session over RTMP. *)
Definition client (m : Live.process) : Prop :=
  pool_ok [] m /\ exists s, Live.sessions m !! i = Some s /\ Queue.hls (Live.queue s) = false.

Lemma client_shape m m' : client m -> pool_ok [] m' -> shape m' = shape m -> client m'.
Proof.
  intros [_ (s & E & Hh)] Hp Hs. split; [done|].
  destruct (shape_session m m' i s Hs E) as (s' & -> & [= _ _ _ _ _ Hh' _ _]). exists s'. split; [done|]. congruence.
Qed.

(* ------------------------------------------------------------------ *)
(** ** Steps of the player *)

Context (d : disk) (k : nat) (p : list Z) (g bl : Z) (all : list tag).
Hypothesis Hcalm : calm d.
Hypothesis Hfd : fds d !! k = Some (File p).
Hypothesis Hfile : contents p d = flv g all.

(** The process is [m] and the context [c]. *)
Definition at_ctx (w : world) (m : Live.process) (c : ngx_rtmp_flv_ctx_t) : Prop :=
  store w = d /\ net w = m /\
  exists s, fsess w !! i = Some s /\ fctx s = Some c /\ fd (file s) = Some k /\ buflen s = bl.

Definition goes {A} (o : F A) (m : Live.process) (c : ngx_rtmp_flv_ctx_t) (a : A) (m' : Live.process)
    (c' : ngx_rtmp_flv_ctx_t) : Prop :=
  forall w, at_ctx w m c -> exists w', o w = Some (a, w') /\ at_ctx w' m' c'.

Lemma goes_bind {A B} (o : F A) (f : A -> F B) m c a m1 c1 b m2 c2 :
  goes o m c a m1 c1 -> goes (f a) m1 c1 b m2 c2 -> goes (o ≫= f) m c b m2 c2.
Proof.
  intros H1 H2 w Hw. destruct (H1 w Hw) as (w1 & E1 & Hw1). destruct (H2 w1 Hw1) as (w2 & E2 & Hw2).
  exists w2. split; [|done]. unfold mbind, F_bind. now rewrite E1.
Qed.

Lemma goes_ret {A} (a : A) m c : goes (mret a) m c a m c.
Proof. intros w Hw. now exists w. Qed.

Lemma goes_ctx {B} (f : ngx_rtmp_flv_ctx_t -> F B) m c b m' c' : goes (f c) m c b m' c' -> goes (ctx_of i ≫= f) m c b m' c'.
Proof.
  intros H. eapply goes_bind; [|exact H]. intros w (E1 & E2 & s & Es & Ec & Ef). exists w. split; [|split; [done|eauto 6]].
  unfold ctx_of, access. rewrite Es. cbn. now rewrite Ec.
Qed.

Lemma goes_upd f m c : goes (upd_ctx i f) m c tt m (f c).
Proof.
  unfold upd_ctx. apply goes_ctx. intros w (E1 & E2 & s & Es & Ec & Ef & Eb). unfold upd_fsession. rewrite Es.
  eexists. split; [done|]. split; [done|]. split; [done|]. exists (set_fctx (Some (f c)) s). cbn.
  rewrite lookup_insert_eq. auto.
Qed.

Lemma goes_now {B} (f : Z -> F B) m c b m' c' : goes (f (Live.ngx_current_msec m)) m c b m' c' ->
  goes (gets (fun w => Live.ngx_current_msec (net w)) ≫= f) m c b m' c'.
Proof. intros H. eapply goes_bind; [|exact H]. intros w (E1 & <- & Hs). exists w. now split. Qed.

Lemma goes_present {B} (e : B) (o : F B) m c b m' c' : goes o m c b m' c' ->
  goes (s ← fsession_of i; if bool_decide (fctx s = None) then mret e else o) m c b m' c'.
Proof.
  intros H w Hw. destruct (H w Hw) as (w' & E & Hw'). exists w'. split; [|done].
  destruct Hw as (_ & _ & s & Es & Ec & _). unfold fsession_of, access. unfold mbind, F_bind. rewrite Es.
  now rewrite bool_decide_eq_false_2 by (rewrite Ec; done).
Qed.

(** What a read of the file finds. *)
Definition found (n off : Z) : option (list Z) :=
  let got := take (Z.to_nat n) (drop (Z.to_nat off) (flv g all)) in
  if Z.of_nat (length got) =? n then Some got else None.

Lemma goes_read n off m c : 0 <= off -> goes (read_file i n off) m c (found n off) m c.
Proof.
  intros Ho w (E1 & E2 & s & Es & Ec & Ef & Eb). unfold read_file. rewrite Es, E1.
  rewrite (calm_read d Hcalm (file s) p n off); [|unfold target; rewrite Ef; cbn; now rewrite Hfd|done].
  rewrite Hfile. eexists. split; [done|]. split; [done|]. split; [done|]. cbn. rewrite lookup_insert_eq.
  eexists. split; [done|]. now cbn.
Qed.

(** A message for the client. *)
Lemma goes_message b h lh m c : client m -> bytes_ok b -> Z.of_nat (length b) < 2 ^ 24 -> Shared.header_ok cscf h ->
  exists rc m' x, goes (send_message cscf i b h lh) m c rc m' c /\ client m' /\ shape m' = shape m /\
    (rc = NGX_OK /\ wire_of size cscf h lh b x \/ rc = NGX_AGAIN /\ x = []) /\ outs m' = say i x (outs m).
Proof.
  intros Hcl Hb Hn Hh. pose proof Hcl as [Hp (s & Es & Hhls)].
  destruct (new_packet_ok size qmax cscf size_pos fix_same [] m i [b] h lh Hp) as (l & m1 & E1 & H1 & Q1 & Hw);
    [done|cbn; now rewrite app_nil_r|cbn; now rewrite app_nil_r|done|]. cbn [concat] in Hw. rewrite app_nil_r in Hw.
  destruct (shape_session m m1 i s (q_shape _ _ _ _ Q1) Es) as (s1 & Es1 & [= _ _ _ _ _ Hh1 _ _]).
  destruct (send_message_ok size qmax [l] m1 i s1 l 0 H1 Es1) as (rc & m2 & E2 & H2 & Q2 & Hrc);
    [apply elem_of_app; left; apply list_elem_of_here|lia|cbn; lia|].
  destruct (free_chain_ok size qmax l [] m2 H2) as (m3 & E3 & H3 & Q3).
  rewrite Hh1, Hhls in Q2. cbn [negb] in Q2. rewrite andb_true_r in Q2.
  exists rc, m3, (if Live.is_ok rc then Queue.chain_bytes (Live.mem m1) l else []).
  assert (shape m3 = shape m) as Hs.
  { rewrite (q_shape _ _ _ _ Q3), (q_shape _ _ _ _ Q2). apply Q1. }
  split; [|split; [now apply (client_shape m)|split; [done|split]]].
  - intros w (F1 & F2 & F3). exists (World m3 (fsess w) (store w)). split; [|done].
    unfold send_message, lift. unfold mbind, F_bind. rewrite F2, E1. cbn [net set_net]. rewrite E2. cbn [net set_net].
    now rewrite E3.
  - destruct Hrc as [-> |[-> _]]; [left|right]; auto.
  - rewrite (q_outs _ _ _ _ Q3), (q_outs _ _ _ _ Q2), (q_outs _ _ _ _ Q1). done.
Qed.

(* ------------------------------------------------------------------ *)
(** ** One tag *)

Definition is_audio (t : tag) : bool := tg_type t =? Live.NGX_RTMP_MSG_AUDIO.

(** A tag the player passes on: audio or video that fits its buffer. *)
Record playable (t : tag) : Prop := {
  py_ok : tag_ok t;
  py_type : tg_type t = Live.NGX_RTMP_MSG_AUDIO \/ tg_type t = Live.NGX_RTMP_MSG_VIDEO;
  py_size : Z.of_nat (length (tg_body t)) <= NGX_RTMP_FLV_BUFFER;
  py_max : Z.of_nat (length (tg_body t)) <= Chunk.max_message cscf
}.

Definition csid_of (t : tag) : Z := if is_audio t then Live.NGX_RTMP_CSID_AUDIO else Live.NGX_RTMP_CSID_VIDEO.
Definition last_of (t : tag) (c : ngx_rtmp_flv_ctx_t) : Z := if is_audio t then last_audio c else last_video c.
Definition hdr_at (t : tag) (ts : Z) : Chunk.ngx_rtmp_header_t := Chunk.Hdr (csid_of t) ts 0 (tg_type t) Live.NGX_RTMP_MSID.

Lemma hdr_ok t ts : playable t -> 0 <= ts < 2 ^ 32 -> Shared.header_ok cscf (hdr_at t ts).
Proof.
  intros [_ Hty _ _] Hts. unfold Live.NGX_RTMP_CSID_VIDEO in max_streams.
  unfold hdr_at, csid_of, Live.NGX_RTMP_MSID. split; cbn; try lia;
    try (destruct (is_audio t); unfold Live.NGX_RTMP_CSID_AUDIO, Live.NGX_RTMP_CSID_VIDEO; lia).
  destruct Hty as [-> | ->]; unfold Live.NGX_RTMP_MSG_AUDIO, Live.NGX_RTMP_MSG_VIDEO; lia.
Qed.

Section Tag.
Context (pre post : list tag) (t : tag).
Hypothesis Hall : all = pre ++ t :: post.
Hypothesis Ht : playable t.
Abbreviation here := (Z.of_nat (length (flv g pre))).
Abbreviation len := (Z.of_nat (length (tg_body t))).

Lemma file_here : flv g all = flv g pre ++ tag_header (tg_type t) len (tg_time t) ++ tg_body t ++
  be_bytes 4 (11 + len) ++ concat (map tag_bytes post).
Proof.
  rewrite Hall, flv_app. cbn [map concat]. f_equal. unfold tag_bytes at 1. now rewrite <- !app_assoc.
Qed.

Lemma found_header : found NGX_RTMP_FLV_TAG_HEADER here = Some (tag_header (tg_type t) len (tg_time t)).
Proof.
  unfold found. rewrite Nat2Z.id, file_here, drop_app_length. change (Z.to_nat NGX_RTMP_FLV_TAG_HEADER) with 11%nat.
  rewrite take_app_length' by reflexivity. now rewrite length_tag_header.
Qed.

Lemma found_body : found len (here + 11) = Some (tg_body t).
Proof.
  unfold found. rewrite file_here, app_assoc. rewrite Nat2Z.id.
  rewrite drop_app_length' by (rewrite length_app, length_tag_header; lia).
  rewrite take_app_length. now rewrite Z.eqb_refl.
Qed.

Lemma header_size : be_val (take 3 (drop 1 (tag_header (tg_type t) len (tg_time t)))) = len.
Proof.
  change (take 3 (drop 1 (tag_header (tg_type t) len (tg_time t)))) with (be_bytes 3 len).
  rewrite be_val_be_bytes. apply Z.mod_small. pose proof (to_size _ (py_ok _ Ht)). cbn. lia.
Qed.

Lemma header_time : be_val (take 3 (drop 4 (tag_header (tg_type t) len (tg_time t)))) +
  default 0 (tag_header (tg_type t) len (tg_time t) !! 7%nat) * 2 ^ 24 = tg_time t.
Proof.
  change (take 3 (drop 4 (tag_header (tg_type t) len (tg_time t)))) with (be_bytes 3 (tg_time t)).
  change (default 0 (tag_header (tg_type t) len (tg_time t) !! 7%nat)) with (Z.land (Z.shiftr (tg_time t) 24) 255).
  pose proof (be_val_cons (Z.land (Z.shiftr (tg_time t) 24) 255) (be_bytes 3 (tg_time t))) as H.
  change (Z.land (Z.shiftr (tg_time t) 24) 255 :: be_bytes 3 (tg_time t)) with (be_bytes 4 (tg_time t)) in H.
  rewrite read_four, Z.mod_small in H by apply (to_time _ (py_ok _ Ht)). rewrite length_be_bytes in H.
  change (256 ^ Z.of_nat 3) with (2 ^ 24) in H. lia.
Qed.

Lemma header_type : default 0 (head (tag_header (tg_type t) len (tg_time t))) = tg_type t.
Proof. cbn. apply Z.mod_small. apply (py_ok _ Ht). Qed.

(** The context behind the tag, up to the clock. *)
Definition passed (c : ngx_rtmp_flv_ctx_t) : ngx_rtmp_flv_ctx_t :=
  let c := set_offset (offset c + 11 + len + 4) c in
  if is_audio t then set_last_audio (tg_time t) c else set_last_video (tg_time t) c.
Definition core (c : ngx_rtmp_flv_ctx_t) := (offset c, last_audio c, last_video c, msg_mask c).

Lemma channel_eq c : channel (tg_type t) (tg_time t) (set_offset (offset c + 11 + len + 4) c) =
  Some (csid_of t, last_of t c, passed c).
Proof.
  unfold channel, csid_of, last_of, passed, is_audio. destruct (py_type _ Ht) as [-> | ->]; reflexivity.
Qed.

Lemma goes_pace ts m c : client m -> exists rc m' c', goes (pace i ts) m c rc m' c' /\ client m' /\
  outs m' = outs m /\ core c' = core c /\ (rc = Ok \/ exists n, rc = Wait n).
Proof.
  intros Hcl. pose proof Hcl as [Hp (s & Es & Hh)]. destruct (start_timestamp c =? -1) eqn:E.
  - eexists Ok, m, _. split; [|split; [done|split; [done|split; [|now left]]]].
    + unfold pace. apply goes_ctx, goes_now. rewrite E. eapply goes_bind; [apply goes_upd|apply goes_ret].
    + done.
  - destruct (upd_session_ok size qmax [] m i s (Live.set_current_time ts) Hp Es eq_refl eq_refl eq_refl) as (E2 & Hp2 & Ho2).
    set (m' := Live.set_sessions _ m) in *.
    set (e := u32 (Live.ngx_current_msec m - epoch c + start_timestamp c + u32 (bl + NGX_RTMP_FLV_BUFLEN_ADDON))).
    exists (if e <? ts then Wait (ts - e) else Ok), m', c. split; [|split; [|split; [done|split; [done|]]]].
    + unfold pace. apply goes_ctx, goes_now. rewrite E. intros w (F1 & F2 & s' & F3 & F4 & F5 & F6).
      exists (World m' (fsess w) (store w)). unfold fsession_of, access. unfold mbind, F_bind. rewrite F3. cbv zeta.
      rewrite F6. fold e. unfold lift. rewrite F2, E2. split; [done|]. split; [done|]. split; [done|]. eauto 6.
    + split; [done|]. exists (Live.set_current_time ts s). cbn. now rewrite lookup_insert_eq.
    + destruct (e <? ts); eauto.
Qed.

Lemma goes_tag m c : client m -> offset c = here ->
  exists rc m' c' x, goes (send_tag cscf i) m c rc m' c' /\ client m' /\ outs m' = say i x (outs m) /\
    offset c' = Z.of_nat (length (flv g (pre ++ [t]))) /\
    (rc = Again \/
     (rc = Ok \/ exists n, rc = Wait n) /\
     core c' = core (set_msg_mask (Z.setbit (msg_mask c) (tg_type t)) (passed c)) /\
     wire_of size cscf (hdr_at t (tg_time t))
       (if Z.testbit (msg_mask c) (tg_type t) then Some (hdr_at t (last_of t c)) else None) (tg_body t) x).
Proof.
  intros Hcl Ho. pose proof (to_size _ (py_ok _ Ht)) as Hsz.
  assert (offset (passed c) = Z.of_nat (length (flv g (pre ++ [t])))) as Hoff.
  { rewrite flv_snoc, length_app, length_tag. unfold passed. destruct (is_audio t); cbn [set_offset set_last_audio set_last_video offset]; lia. }
  assert (msg_mask (passed c) = msg_mask c) as Hmask by (unfold passed; now destruct (is_audio t)).
  destruct (goes_message (tg_body t) (hdr_at t (tg_time t))
    (if Z.testbit (msg_mask c) (tg_type t) then Some (hdr_at t (last_of t c)) else None) m (passed c) Hcl)
    as (rc & m1 & x & G1 & Hcl1 & Hsh & Hrc & Houts);
    [apply (py_ok _ Ht)|done|apply hdr_ok; [done|apply (py_ok _ Ht)]|].
  assert (forall rc2 m2 c2, goes (match rc with
      | NGX_AGAIN => mret Again
      | NGX_OK => upd_ctx i (fun c => set_msg_mask (Z.setbit (msg_mask c) (tg_type t)) c);; pace i (tg_time t)
      | _ => mret Error
      end) m1 (passed c) rc2 m2 c2 -> goes (send_tag cscf i) m c rc2 m2 c2) as Hgo.
  { intros rc2 m2 c2 H. unfold send_tag. apply goes_ctx. rewrite Ho. eapply goes_bind; [apply goes_read; lia|]. rewrite found_header.
    rewrite header_type, header_size, header_time. eapply goes_bind; [apply goes_upd|]. apply goes_ctx.
    change NGX_RTMP_FLV_TAG_HEADER with 11. rewrite channel_eq. eapply goes_bind; [apply goes_upd|].
    rewrite (proj2 (Z.ltb_ge _ _)) by apply (py_size _ Ht).
    assert (offset (passed c) - len - 4 = here + 11) as -> by (rewrite Hoff, flv_snoc, length_app, length_tag; lia).
    eapply goes_bind; [apply goes_read; lia|]. rewrite found_body. rewrite Hmask.
    eapply goes_bind; [exact G1|]. exact H. }
  destruct Hrc as [[-> Hw]|[-> ->]].
  - destruct (goes_pace (tg_time t) m1 (set_msg_mask (Z.setbit (msg_mask (passed c)) (tg_type t)) (passed c)) Hcl1)
      as (rc2 & m2 & c2 & G2 & Hcl2 & Ho2 & Hcore & Hrc2).
    exists rc2, m2, c2, x. split; [|split; [done|split; [congruence|split]]].
    + apply Hgo. eapply goes_bind; [apply goes_upd|exact G2].
    + rewrite <- Hoff. now injection Hcore as -> _ _ _.
    + right. split; [done|]. split; [|done]. now rewrite Hcore, Hmask.
  - exists Again, m1, (passed c), []. split; [|split; [done|split; [done|split; [done|now left]]]].
    apply Hgo. apply goes_ret.
Qed.

End Tag.

(** Behind the last tag. *)
Lemma goes_end m c : offset c = Z.of_nat (length (flv g all)) -> goes (send_tag cscf i) m c Done m c.
Proof.
  intros Ho. unfold send_tag. apply goes_ctx. rewrite Ho. eapply goes_bind; [apply goes_read; lia|]. unfold found.
  rewrite Nat2Z.id, drop_all. change (take _ []) with (@nil Z). apply goes_ret.
Qed.

(* ------------------------------------------------------------------ *)
(** ** The start *)

Lemma goes_with f m c : goes (with_ctx i f) m c tt m (f c).
Proof. unfold with_ctx. apply goes_present, goes_upd. Qed.

Definition rewound (m : Live.process) (c : ngx_rtmp_flv_ctx_t) : ngx_rtmp_flv_ctx_t :=
  set_msg_mask 0 (set_offset (-1) (set_msg_mask 0 (set_offset (-1)
    (set_epoch (u32 (Live.ngx_current_msec m)) (set_start 0 c))))).

Lemma goes_rewind m c : goes (ngx_rtmp_flv_seek i 0;; ngx_rtmp_flv_start i) m c tt m (rewound m c).
Proof.
  set (f := fun c => set_msg_mask 0 (set_offset (-1) (set_epoch (u32 (Live.ngx_current_msec m)) (set_start 0 c)))).
  apply goes_bind with (a := tt) (m1 := m) (c1 := f c).
  - unfold ngx_rtmp_flv_seek. apply goes_now. exact (goes_with f m c).
  - exact (goes_with (fun c => set_msg_mask 0 (set_offset (-1) c)) m (f c)).
Qed.

Lemma goes_meta m c : Forall playable all -> goes (ngx_rtmp_flv_read_meta cscf i) m c tt m c.
Proof.
  intros Hall. unfold ngx_rtmp_flv_read_meta. eapply goes_bind; [now apply goes_read|].
  destruct all as [|t post] eqn:Eall.
  - assert (found NGX_RTMP_FLV_TAG_HEADER NGX_RTMP_FLV_DATA_OFFSET = None) as -> by (unfold found; now rewrite Eall).
    apply goes_ret.
  - inversion Hall as [|? ? Ht _]; subst.
    pose proof (found_header [] post t Eall) as H. change (Z.of_nat (length (flv g []))) with NGX_RTMP_FLV_DATA_OFFSET in H.
    rewrite H, header_type by done. destruct (py_type _ Ht) as [-> | ->]; apply goes_ret.
Qed.

(** The context that starts from the first tag. *)
Definition placed (c : ngx_rtmp_flv_ctx_t) : ngx_rtmp_flv_ctx_t :=
  set_start (-1) (set_offset 13 (if meta_read c then c else set_meta_read c)).

Lemma goes_place m c : Forall playable all -> offset c = -1 -> start_timestamp c <= 0 ->
  goes (seek_offset cscf i) m c tt m (placed c).
Proof.
  intros Hall Ho Hs. unfold seek_offset. apply goes_ctx. rewrite Ho, Z.eqb_refl. cbn [when].
  set (c1 := if meta_read c then c else set_meta_read c).
  apply goes_bind with (a := 13) (m1 := m) (c1 := c1);
    [|exact (goes_upd (fun c => set_start (-1) (set_offset 13 c)) m c1)].
  unfold ngx_rtmp_flv_timestamp_to_offset. apply goes_ctx.
  eapply goes_bind with (m1 := m) (c1 := c1) (a := tt).
  { unfold c1. destruct (meta_read c); cbn [negb when]; [apply goes_ret|].
    eapply goes_bind; [now apply goes_meta|apply goes_upd]. }
  apply goes_ctx. rewrite (proj2 (Z.leb_le _ _)) by done. apply goes_ret.
Qed.

(** The context with the offset known. *)
Definition settled (c c1 : ngx_rtmp_flv_ctx_t) : Prop :=
  c1 = c /\ 0 <= offset c \/ c1 = placed c /\ offset c = -1 /\ start_timestamp c <= 0.

Lemma goes_flv m c c1 rc m' c' : Forall playable all -> settled c c1 -> goes (send_tag cscf i) m c1 rc m' c' ->
  goes (ngx_rtmp_flv_send cscf i) m c rc m' c'.
Proof.
  intros Hall Hs H. unfold ngx_rtmp_flv_send. apply goes_present. eapply goes_bind; [|exact H].
  destruct Hs as [[-> Ho]|(-> & Ho & Hst)]; [|now apply goes_place].
  unfold seek_offset. apply goes_ctx. rewrite (proj2 (Z.eqb_neq _ _)) by lia. apply goes_ret.
Qed.

(* ------------------------------------------------------------------ *)
(** ** The peer *)

Abbreviation peer := Broadcast.peer.
Abbreviation heard := (Broadcast.heard cscf).

Definition message (t : tag) : Broadcast.message :=
  (Shared.full_header (hdr_at t (tg_time t)) (Z.of_nat (length (tg_body t))), tg_body t).

(** The chunk streams of audio and video are idle, at the time of their last
    message. *)
Definition tuned_to (dp : peer) (csid ty last mask : Z) : Prop :=
  exists st, Broadcast.idle_at dp csid st /\ (Z.testbit mask ty = true ->
    Chunk.timestamp (Chunk.st_hdr st) = last /\ Chunk.msid (Chunk.st_hdr st) = Live.NGX_RTMP_MSID).
Definition in_tune (dp : peer) (c : ngx_rtmp_flv_ctx_t) : Prop :=
  Chunk.d_chunk dp = Z.of_nat size /\
  tuned_to dp Live.NGX_RTMP_CSID_AUDIO Live.NGX_RTMP_MSG_AUDIO (last_audio c) (msg_mask c) /\
  tuned_to dp Live.NGX_RTMP_CSID_VIDEO Live.NGX_RTMP_MSG_VIDEO (last_video c) (msg_mask c).

Lemma in_tune_core dp c c' : core c' = core c -> in_tune dp c -> in_tune dp c'.
Proof. intros [= _ E1 E2 E3] H. unfold in_tune. now rewrite E1, E2, E3. Qed.

Lemma in_tune_of dp c t : playable t -> in_tune dp c -> tuned_to dp (csid_of t) (tg_type t) (last_of t c) (msg_mask c).
Proof.
  intros Ht (_ & H1 & H2). unfold csid_of, last_of, is_audio. destruct (py_type _ Ht) as [-> | ->]; cbn; assumption.
Qed.

Lemma hear_tag dp c t x : playable t -> in_tune dp c ->
  wire_of size cscf (hdr_at t (tg_time t))
    (if Z.testbit (msg_mask c) (tg_type t) then Some (hdr_at t (last_of t c)) else None) (tg_body t) x ->
  exists dp', heard dp x dp' /\ Chunk.d_app dp' = Chunk.d_app dp ++ [message t] /\
    in_tune dp' (set_msg_mask (Z.setbit (msg_mask c) (tg_type t)) (passed t c)).
Proof.
  intros Ht Htune Hw. pose proof (in_tune_of dp c t Ht Htune) as (st & Hidle & Hst).
  pose proof (py_ok _ Ht) as [_ Htm _ Hsz]. pose proof (py_max _ Ht) as Hmax.
  assert (Chunk.type (hdr_at t (tg_time t)) <= Chunk.NGX_RTMP_MSG_MAX) as Hty.
  { cbn. destruct (py_type _ Ht) as [-> | ->]; done. }
  assert (exists st', heard dp x (Broadcast.after dp (csid_of t) st' (message t)) /\
    Chunk.st_len st' = 0 /\ Chunk.st_in st' = [] /\ Chunk.st_hdr st' = (message t).1) as (st' & Hh & S1 & S2 & S3).
  { destruct (Z.testbit (msg_mask c) (tg_type t)) eqn:Eb.
    - destruct (Hst eq_refl) as [T1 T2].
      pose proof (Broadcast.heard_relative cscf size ltac:(lia) fix_same (hdr_at t (tg_time t)) (hdr_at t (last_of t c))
        (tg_body t) x (last_of t c) (tg_time t) dp st) as H. apply H; auto; [now apply hdr_ok|apply Htune|].
      cbn. unfold csid_of. now destruct (is_audio t).
    - apply (Broadcast.heard_absolute cscf size ltac:(lia) fix_same (hdr_at t (tg_time t)) (tg_body t) x dp st); auto;
        [now apply hdr_ok|apply Htune]. }
  eexists. split; [exact Hh|]. split; [done|]. pose proof Htune as (Hk & Ha & Hv). split; [exact Hk|].
  assert (tuned_to (Broadcast.after dp (csid_of t) st' (message t)) (csid_of t) (tg_type t) (tg_time t)
    (Z.setbit (msg_mask c) (tg_type t))) as Hself.
  { exists st'. split; [|intros _; now rewrite S3]. apply Broadcast.idle_after; [|done|done]. destruct Hidle as [E _]. eauto. }
  assert (forall csid ty last, Z.to_nat csid <> Z.to_nat (csid_of t) -> ty <> tg_type t ->
    tuned_to dp csid ty last (msg_mask c) ->
    tuned_to (Broadcast.after dp (csid_of t) st' (message t)) csid ty last (Z.setbit (msg_mask c) (tg_type t))) as Hother.
  { intros csid ty last Hne Hty' (st2 & I2 & T2). exists st2. split; [now apply Broadcast.idle_other|].
    rewrite Z.setbit_neq; [done| |congruence]. destruct (py_type _ Ht) as [-> | ->]; done. }
  unfold csid_of, passed, is_audio in *. destruct (py_type _ Ht) as [E | E]; rewrite E in *; cbn in *.
  - split; [exact Hself|]. now apply Hother.
  - split; [now apply Hother|exact Hself].
Qed.

(* ------------------------------------------------------------------ *)
(** ** A whole file *)

(** What happens in the process between two calls: [env j] in front of the
    last [j + 1]-th; the output of the client only goes on to its socket. *)
Context (env : nat -> Live.process -> Live.process).
Hypothesis Henv : forall j m, client m -> client (env j m) /\ outs (env j m) !! i = outs m !! i.

(** [n] calls of [ngx_rtmp_flv_send] and their results. *)
Fixpoint play (n : nat) (w : world) : option (list send_rc * world) :=
  match n with
  | O => Some ([], w)
  | S n =>
      '(rc, w) ← ngx_rtmp_flv_send cscf i (set_net (env n (net w)) w);
      '(rcs, w) ← play n w;
      Some (rc :: rcs, w)
  end.

(** The client got [x]. *)
Definition got (x : list Z) (m m' : Live.process) : Prop := outs m' !! i = (fun y => y ++ x) <$> outs m !! i.

Lemma got_trans x y m1 m2 m3 : got x m1 m2 -> got y m2 m3 -> got (x ++ y) m1 m3.
Proof. unfold got. intros H1 H2. rewrite H2, H1. destruct (outs m1 !! i); cbn; [now rewrite app_assoc|done]. Qed.

Lemma plays post : forall pre w m c c1, all = pre ++ post -> Forall playable all -> at_ctx w m c -> client m ->
  settled c c1 -> offset c1 = Z.of_nat (length (flv g pre)) ->
  exists rcs w' m' c' c1', play (length post) w = Some (rcs, w') /\ at_ctx w' m' c' /\ client m' /\
    settled c' c1' /\ offset c1' = Z.of_nat (length (flv g all)) /\ length rcs = length post /\
    (Again ∉ rcs -> forall dp, in_tune dp c1 -> exists x dp', got x m m' /\ heard dp x dp' /\
       Chunk.d_app dp' = Chunk.d_app dp ++ map message post).
Proof.
  induction post as [|t post IH]; intros pre w m c c1 Hall Hpl Hw Hcl Hset Ho.
  - exists [], w, m, c, c1. rewrite app_nil_r in Hall. rewrite Hall at 1. split; [done|]. do 5 (split; [done|]).
    intros _ dp _. exists [], dp. split; [|split; [apply Broadcast.heard_nil|now rewrite app_nil_r]].
    unfold got. destruct (outs m !! i); cbn; [now rewrite app_nil_r|done].
  - assert (playable t) as Ht. { rewrite Hall in Hpl. apply Forall_app in Hpl as [_ H]. now inversion H. }
    cbn [length play]. set (m0 := env (length post) m). destruct (Henv (length post) m Hcl) as [Hcl0 Ho0]. fold m0 in Hcl0, Ho0.
    destruct (goes_tag pre post t Hall Ht m0 c1 Hcl0 Ho) as (rc & m1 & c2 & x & G & Hcl1 & Hout & Hoff & Hrc).
    destruct (goes_flv m0 c c1 rc m1 c2 Hpl Hset G (set_net m0 w)) as (w1 & E1 & Hw1).
    { destruct Hw as (F1 & F2 & F3). now split. }
    replace (env (length post) (net w)) with m0 by (destruct Hw as (_ & -> & _); done). rewrite E1. cbn [mbind option_bind].
    destruct (IH (pre ++ [t]) w1 m1 c2 c2) as (rcs & w2 & m2 & c3 & c3' & E2 & Hw2 & Hcl2 & Hset2 & Ho2 & Hlen & Hhear);
      [now rewrite <- app_assoc|done|done|done|left; split; [done|lia]|done|].
    rewrite E2. exists (rc :: rcs), w2, m2, c3, c3'. split; [done|]. do 4 (split; [done|]). split; [cbn; congruence|].
    intros Hno dp Htune. apply not_elem_of_cons in Hno as [Hrc' Hno].
    destruct Hrc as [-> |(_ & Hcore & Hwire)]; [done|].
    destruct (hear_tag dp c1 t x Ht Htune Hwire) as (dp1 & H1 & A1 & T1).
    destruct (Hhear Hno dp1 (in_tune_core _ _ _ Hcore T1)) as (y & dp2 & Hgot & H2 & A2).
    exists (x ++ y), dp2. split; [|split; [now apply (Broadcast.heard_app cscf dp dp1 dp2)|]].
    + eapply got_trans; [|exact Hgot]. unfold got. rewrite Hout, say_lookup, Ho0. done.
    + rewrite A2, A1, <- app_assoc. done.
Qed.

End Limits.

(* ------------------------------------------------------------------ *)
(** ** From the publisher to the player *)

(** Session [j] opens the file [p] and plays it from the start: the context,
    and [n] calls. *)
Definition play_file (cscf : Chunk.ngx_rtmp_core_srv_conf_t) (j : nat) (env : nat -> Live.process -> Live.process)
    (bl : Z) (m : Live.process) (p : list Z) (n : nat) (d : disk) : option (list send_rc * world) :=
  match ngx_open_file p OpenOnly d with
  | (Some k, d) =>
      '(_, w) ← (ngx_rtmp_flv_init j;; ngx_rtmp_flv_seek j 0;; ngx_rtmp_flv_start j)
        (World m {[ j := FSess None (NgxFile (Some k) 0) bl ]} d);
      play cscf j env n w
  | (None, _) => None
  end.

(** A peer at the start: it uses the chunk size of the server and is in the
    middle of no message. *)
Definition listening (size : nat) (dp : Broadcast.peer) : Prop :=
  Chunk.d_chunk dp = Z.of_nat size /\ (exists st, Broadcast.idle_at dp Live.NGX_RTMP_CSID_AUDIO st) /\
  exists st, Broadcast.idle_at dp Live.NGX_RTMP_CSID_VIDEO st.

Lemma file_plays size qmax cscf j env bl m p d g ts : (22 <= size)%nat ->
  Live.NGX_RTMP_CSID_VIDEO < Chunk.max_streams cscf -> Chunk.play_time_fix cscf = Chunk.publish_time_fix cscf ->
  calm d -> files d !! p = Some (flv g ts) -> Forall (playable cscf) ts -> client size qmax j m ->
  (forall n m, client size qmax j m -> client size qmax j (env n m) /\ outs (env n m) !! j = outs m !! j) ->
  exists rcs w, play_file cscf j env bl m p (length ts) d = Some (rcs, w) /\ length rcs = length ts /\
    (exists w', ngx_rtmp_flv_send cscf j w = Some (Done, w')) /\
    (Again ∉ rcs -> forall dp, listening size dp -> exists x dp', got j x m (net w) /\
       Broadcast.heard cscf dp x dp' /\ Chunk.d_app dp' = Chunk.d_app dp ++ map message ts).
Proof.
  intros Hsz Hms Hfix Hc Hf Hpl Hcl Henv. unfold play_file, ngx_open_file.
  rewrite (calm_call d Hc). destruct (lowest_spec (fds d)) as (k & -> & Hk). rewrite Hf.
  set (d' := Disk _ _ _).
  assert (calm d') as Hc' by exact Hc.
  assert (fds d' !! k = Some (File p)) as Hfd by apply lookup_insert_eq.
  assert (contents p d' = flv g ts) as Hx by (unfold contents; cbn; now rewrite Hf).
  set (c := rewound m zero_ctx).
  set (w0 := World m {[ j := FSess (Some zero_ctx) (NgxFile (Some k) 0) bl ]} d').
  assert (exists w, (ngx_rtmp_flv_init j;; ngx_rtmp_flv_seek j 0;; ngx_rtmp_flv_start j)
    (World m {[ j := FSess None (NgxFile (Some k) 0) bl ]} d') = Some (tt, w) /\ at_ctx j d' k bl w m c) as (w & E & Hw).
  { destruct (goes_rewind j d' k bl m zero_ctx w0) as (w & E & Hw).
    { split; [done|]. split; [done|]. eexists. split; [apply lookup_singleton_eq|done]. }
    exists w. split; [|done]. unfold ngx_rtmp_flv_init, upd_fsession. unfold mbind at 1, F_bind at 1. cbn [fsess].
    rewrite lookup_singleton_eq. unfold set_fsess. cbn [fsess net store]. rewrite insert_singleton_eq. exact E. }
  rewrite E. cbn [mbind option_bind].
  destruct (plays size qmax cscf j Hsz Hms Hfix d' k p g bl ts Hc' Hfd Hx env Henv ts [] w m c (placed c))
    as (rcs & w' & m' & c' & c1' & Ep & Hw' & Hcl' & Hset' & Ho' & Hlen & Hhear); try done.
  { now right. }
  exists rcs, w'. split; [exact Ep|]. split; [done|]. split.
  - destruct (goes_flv size cscf j Hsz d' k p g bl ts Hc' Hfd Hx m' c' c1' Done m' c1' Hpl Hset') with (w := w') as (w2 & E2 & _);
      [now apply (goes_end size cscf j Hsz d' k p g bl ts)|done|eauto].
  - intros Hno dp (L1 & L2 & L3). destruct (Hhear Hno dp) as (x & dp' & H).
    + split; [done|]. split; [destruct L2 as [st L2]|destruct L3 as [st L3]]; exists st; (split; [done|]); discriminate.
    + exists x, dp'. destruct Hw' as (_ & -> & _). exact H.
Qed.

(** C5: from a publisher over a file to a player.  The recorders of an application
    start by themselves and have no limit of size or frames and no interval.  A session
    publishes, frames come, and the stream ends; no system call fails.  Then every recorder of the
    application has closed its file and given back its descriptor, and the file
    is an FLV file of the tags it continues, if any, and those of the frames it
    took.  A session that plays the file afterwards sends one message per tag,
    whatever else happens in the process, and then finds the end; unless its
    output queue was full at some time, its peer hears exactly these tags, with
    their types, times and bodies. *)
Theorem recording_plays_back size qmax cscf racf strftime record_done stale i next_publish next_close_stream
    v l es w :
  (22 <= size)%nat -> Live.NGX_RTMP_CSID_VIDEO < Chunk.max_streams cscf ->
  Chunk.play_time_fix cscf = Chunk.publish_time_fix cscf ->
  (forall x p w, online size qmax i (Recorder.net w) ->
     exists rc, runs size qmax (record_done i x p) w rc (Recorder.rsess w) (Recorder.store w)) ->
  (forall v w, online size qmax i (Recorder.net w) ->
     exists rc, runs size qmax (next_publish i v) w rc (Recorder.rsess w) (Recorder.store w)) ->
  (forall w, online size qmax i (Recorder.net w) ->
     exists rc, runs size qmax (next_close_stream i) w rc (Recorder.rsess w) (Recorder.store w)) ->
  publisher size qmax racf strftime i v l w -> Forall unlimited l -> Forall (event_ok size qmax i) es ->
  exists rc rc' w1 w2 w3,
    Recorder.ngx_rtmp_record_publish cscf racf strftime next_publish i v w = Some (rc, w1) /\
    record_frames cscf strftime record_done stale i es w1 = Some w2 /\
    Recorder.ngx_rtmp_record_close_stream cscf racf strftime record_done next_close_stream i w2 = Some (rc', w3) /\
    fds (Recorder.store w3) = fds (Recorder.store w) /\
    Forall (fun '(c, p, ts) => exists k off,
      let us := old_tags c ts ++ fst (take_frames stale i es (opened c k off (last_time (old_tags c ts))
        (Live.ngx_time (Recorder.net w)) (Recorder.msec w))) in
      finished (contents p (Recorder.store w3)) us /\
      (us <> [] -> Forall (playable cscf) us -> forall j env bl m, client size qmax j m ->
       (forall n m, client size qmax j m -> client size qmax j (env n m) /\ outs (env n m) !! j = outs m !! j) ->
       exists rcs wp, play_file cscf j env bl m p (length us) (Recorder.store w3) = Some (rcs, wp) /\
         length rcs = length us /\ (exists wp', ngx_rtmp_flv_send cscf j wp = Some (Done, wp')) /\
         (Again ∉ rcs -> forall dp, listening size dp -> exists x dp', got j x m (net wp) /\
            Broadcast.heard cscf dp x dp' /\ Chunk.d_app dp' = Chunk.d_app dp ++ map message us))) l.
Proof.
  intros Hsz Hms Hfix Hdone Hpub Hclose Hp Hun Hes.
  destruct (publication_recorded size qmax cscf racf strftime record_done stale i Hsz Hms Hfix Hdone next_publish
    next_close_stream Hpub Hclose v l es w Hp Hun Hes) as (rc & rc' & w1 & w2 & w3 & E1 & E2 & E3 & Hfds & Hc & Hall).
  exists rc, rc', w1, w2, w3. do 4 (split; [done|]). eapply Forall_impl; [exact Hall|].
  intros [[c p] ts] (k & off & Hfin). exists k, off. cbv zeta in *. set (us := old_tags c ts ++ _) in *.
  split; [done|]. intros Hne Hpl j env bl m Hcl Henv.
  destruct Hfin as [[[_ E]|[g E]] _]; [done|].
  apply (file_plays size qmax cscf j env bl m p (Recorder.store w3) g us); try done.
  unfold contents in E. destruct (files _ !! p) as [y|]; [now rewrite <- E|done].
Qed.

(* ------------------------------------------------------------------ *)
(** ** A concrete recording, and concrete players *)

Lemma on_air_client j : (j < 2)%nat -> client 4096 256 j LiveAv.on_air.
Proof.
  intros Hj. split; [exact LiveAv.on_air_ok|]. destruct j as [|[|j]]; [eexists; split; reflexivity..|lia].
Qed.

Lemma recording_plays_back_witness :
  exists rc rc' w1 w2 w3,
    Recorder.ngx_rtmp_record_publish Chunk.conf (fun _ => [av_conf]) no_strftime next_ok 0
      (Live.Publish (str "a") [] false) before_publish = Some (rc, w1) /\
    record_frames Chunk.conf no_strftime done_init 0 0 two_frames w1 = Some w2 /\
    Recorder.ngx_rtmp_record_close_stream Chunk.conf (fun _ => [av_conf]) no_strftime done_init next_ok1 0 w2 = Some (rc', w3) /\
    exists rcs wp, play_file Chunk.conf 1 (fun _ m => m) 1000 LiveAv.on_air (str "/r/a.flv") 2 (Recorder.store w3) =
        Some (rcs, wp) /\
      (Again ∉ rcs -> forall dp, listening 4096 dp -> exists x dp', got 1 x LiveAv.on_air (net wp) /\
         Broadcast.heard Chunk.conf dp x dp' /\ Chunk.d_app dp' = Chunk.d_app dp ++ map message two_tags).
Proof.
  destruct (recording_plays_back 4096 256 Chunk.conf (fun _ => [av_conf]) no_strftime done_init 0 0 next_ok next_ok1
    (Live.Publish (str "a") [] false) [(av_conf, str "/r/a.flv", [])] two_frames before_publish
    ltac:(apply (bool_decide_unpack _); exact Logic.I) ltac:(reflexivity) ltac:(reflexivity)
    (fun x p w H => kept_ret NGX_OK w H) (fun v w H => kept_ret NGX_OK w H) (fun w H => kept_ret NGX_OK w H)
    before_publish_ok av_unlimited two_frames_ok) as (rc & rc' & w1 & w2 & w3 & E1 & E2 & E3 & _ & Hall).
  - exists rc, rc', w1, w2, w3. do 3 (split; [assumption|]). apply Forall_inv in Hall.
    destruct Hall as (k & off & _ & Hplay). cbv zeta in Hplay.
    assert (old_tags av_conf [] ++ fst (take_frames 0 0 two_frames (opened av_conf k off (last_time (old_tags av_conf []))
      (Live.ngx_time (Recorder.net before_publish)) (Recorder.msec before_publish))) = two_tags) as Eus.
    { cbn [take_frames two_frames old_tags av_conf Recorder.append Datatypes.app]. unfold take_frame, node_frame, begun.
      cbn [opened Recorder.initialized Recorder.file offset Disk.offset]. destruct (off =? 0); reflexivity. }
    rewrite Eus in Hplay.
    destruct (Hplay ltac:(discriminate)) with (j := 1%nat) (env := fun (_ : nat) (m : Live.process) => m) (bl := 1000)
      (m := LiveAv.on_air) as (rcs & wp & Ep & _ & _ & H).
    + constructor; [|constructor; [|constructor]]; (split; [|cbn; auto|cbn; unfold NGX_RTMP_FLV_BUFFER; lia|cbn; lia]);
        (split; [cbn; lia|cbn; lia|apply (bool_decide_unpack _); exact Logic.I|cbn; lia]).
    + apply on_air_client. lia.
    + auto.
    + exists rcs, wp. split; [exact Ep|exact H].
Defined.

(** A client whose queue has room for one message, and the event of its socket
    becoming writable. *)
Definition slow_client : Live.process :=
  let q := Queue.Session [None; None] 0 0 None 0 2 0 false 0 false false false false Queue.no_traffic in
  Live.set_sessions {[0%nat := Live.Sess q (Live.Conn [] [] false false) None None Live.NGX_NONE_RELAY
    (Live.Play [] [] 0 0 0 false) 0]} LiveAv.on_air.
Definition writable (i : nat) (m : Live.process) : Live.process :=
  default m (
    s ← Live.sessions m !! i;
    '(_, p, q, wire) ← Queue.ngx_rtmp_send 0 false false (replicate 8 (Queue.Accept 4096)) (Live.mem m) (Live.queue s);
    let c := Live.conn s in
    Some (Live.set_mem p (Live.set_sessions (<[i := Live.set_conn q
      (Live.Conn (Live.sock c) (Live.sent c ++ wire) (Live.destroyed c) (Live.closing c)) s]> (Live.sessions m)) m))).

(** A file of three pictures, played by three calls to a client. *)
Definition pictures : disk :=
  Disk {[str "/r/a.flv" := flv 1 [Tag 9 0 [0x17; 1]; Tag 9 40 [0x27; 2]; Tag 9 80 [0x27; 3]]]} ∅ [].
Definition show (env : nat -> Live.process -> Live.process) (m : Live.process) : option (list send_rc * list (Z * Z)) :=
  '(rcs, w) ← play_file Chunk.conf 0 env 1000 m (str "/r/a.flv") 3 pictures;
  l ← LiveAv.hears 0 (net w);
  Some (rcs, l).

(** With room in the queue the peer hears the file. *)
Example pictures_heard :
  show (fun _ m => m) LiveAv.on_air = Some ([Ok; Ok; Ok], [(9, 0); (9, 40); (9, 80)]).
Proof. vm_compute. reflexivity. Qed.

(** The second tag finds the queue full.  The player is told to try again, but
    the offset and the time of the last message are already those behind the
    tag: the next call sends the third one, relative to the second, and the peer
    takes it to be at 40. *)
Example full_queue_drifts :
  show (fun n m => match n with O => writable 0 m | _ => m end) slow_client =
  Some ([Ok; Again; Ok], [(9, 0); (9, 40)]).
Proof. vm_compute. reflexivity. Qed.

(** [ngx_rtmp_flv_start], which the player also calls when a pause is over,
    forgets the place in the file: it is played again from where it started. *)
Example start_rewinds :
  (let s := FSess (Some zero_ctx) (NgxFile (Some 0%nat) 0) 1000 in
   let d := (ngx_open_file (str "/r/a.flv") OpenOnly pictures).2 in
   '(_, w) ← (ngx_rtmp_flv_seek 0 0;; ngx_rtmp_flv_start 0) (World LiveAv.on_air {[0%nat := s]} d);
   '(_, w) ← play Chunk.conf 0 (fun _ m => m) 2 w;
   '(_, w) ← ngx_rtmp_flv_start 0 w;
   '(_, w) ← play Chunk.conf 0 (fun _ m => m) 1 w;
   LiveAv.hears 0 (net w)) = Some [(9, 0); (9, 40); (9, 0)].
Proof. vm_compute. reflexivity. Qed.

End Playback.
