(* ===== verification/LiveState.v ===== *)
(** * The state of the live module

    The table of streams and the contexts of sessions refer to each other; the
    invariant here says how, and that every handler and timer of Live.v keeps
    it.  The first half is about the tables alone, the second about the
    operations of the process. *)

From Stdlib Require Import ZArith Lia.
From stdpp Require Import base numbers list strings gmap.
From S2P Require Import Prelude Buf Bandwidth Chunk Shared Queue Amf Receive Send AmfSend Codec Live LiveOut Broadcast LiveAv.

Module LiveState.

Import Shared.
Import Live.
Import LiveOut.
Import Broadcast.
Import LiveAv.

Abbreviation contexts := (gmap sid ngx_rtmp_live_ctx_t).
Abbreviation stream_heap := (gmap stid ngx_rtmp_live_stream_t).

(* ------------------------------------------------------------------ *)
(** ** Tables *)

Section Tables.
Context (lacf : ngx_rtmp_live_app_conf_t).
Hypothesis buckets_pos : 0 < nbuckets lacf.

(** Contexts that differ in nothing the tables depend on. *)
Definition key (c : ngx_rtmp_live_ctx_t) := (stream c, publishing c, idle_evt c, c_hls c).
Definition alike (c c' : ngx_rtmp_live_ctx_t) : Prop :=
  key c' = key c /\ (publishing c = true -> active c' = active c /\ (publisher_ok c -> publisher_ok c')).

#[export] Instance alike_preorder : PreOrder alike.
Proof.
  split; [intros c; split; auto|]. intros c1 c2 c3 [H1 H2] [H3 H4]. split; [congruence|].
  intros Hp. destruct (H2 Hp) as [H5 H6]. injection H1 as _ H1 _ _. destruct H4 as [H7 H8]; [congruence|].
  split; [congruence|auto].
Qed.

(** Session [j] is in the stream [st] with the context [c]. *)
Definition on (C : contexts) (st : stid) (j : sid) (c : ngx_rtmp_live_ctx_t) : Prop :=
  C !! j = Some c /\ stream c = Some st.

(** The chain of contexts of a stream has the sessions that are in it, once
    each.  A stream is published when one of them is its publisher, and there is
    at most one; it is active when its publisher is.  A publisher is not waited
    for. *)
Record stream_ok (C : contexts) (st : stid) (x : ngx_rtmp_live_stream_t) : Prop := {
  sk_nodup : NoDup (ctx x);
  sk_members : forall j, j ∈ ctx x <-> exists c, on C st j c;
  sk_publishing : st_publishing x = true <-> exists j c, on C st j c /\ publishing c = true;
  sk_unique : forall j k c d, on C st j c -> on C st k d -> publishing c = true -> publishing d = true -> j = k;
  sk_publisher : forall j c, on C st j c -> publishing c = true -> active c = st_active x /\ publisher_ok c;
  sk_silent : st_publishing x = false -> st_active x = false;
  sk_check : check_evt x = true -> st_publishing x = false
}.

(** The idle timer is that of an active publisher. *)
Definition idle_ok (c : ngx_rtmp_live_ctx_t) : Prop :=
  idle_evt c = true -> publishing c = true /\ active c = true /\ is_Some (stream c) /\ idle_timeout lacf <> 0.

(** Every stream is in the table or free, and in one place; a stream of the
    table is in the bucket of its name, which no other has.  Free streams have no timer
    set. *)
Record tables_ok (C : contexts) (H : stream_heap) (T : list (list stid)) (F : list stid) : Prop := {
  tb_len : length T = Z.to_nat (nbuckets lacf);
  tb_nodup : NoDup (concat T ++ F);
  tb_heap : forall st, is_Some (H !! st) <-> (st < size H)%nat;
  tb_all : forall st, is_Some (H !! st) <-> st ∈ concat T ++ F;
  tb_streams : forall st x, st ∈ concat T -> H !! st = Some x -> stream_ok C st x;
  tb_bucket : forall b l st x, T !! b = Some l -> st ∈ l -> H !! st = Some x -> bucket lacf (name x) = b;
  tb_names : forall st st' x x', st ∈ concat T -> st' ∈ concat T -> H !! st = Some x -> H !! st' = Some x' ->
    name x = name x' -> st = st';
  tb_free : forall st x, st ∈ F -> H !! st = Some x -> check_evt x = false;
  tb_joined : forall j c st, on C st j c -> st ∈ concat T;
  tb_idle : forall j c, C !! j = Some c -> idle_ok c
}.

(** Streams that nobody is in are not kept. *)
Definition no_empty (H : stream_heap) (T : list (list stid)) : Prop :=
  forall st x, st ∈ concat T -> H !! st = Some x -> ctx x <> [].

Lemma alike_on C C' st j c : option_Forall2 alike (C !! j) (C' !! j) -> on C st j c ->
  exists c', on C' st j c' /\ alike c c'.
Proof.
  intros H [E1 E2]. rewrite E1 in H. inversion H as [? c' Hc E E'|]; subst. exists c'. split; [|done].
  split; [done|]. destruct Hc as [[= -> _ _ _] _]. done.
Qed.

Lemma alike_on' C C' st j c' : option_Forall2 alike (C !! j) (C' !! j) -> on C' st j c' ->
  exists c, on C st j c /\ alike c c'.
Proof.
  intros H [E1 E2]. rewrite E1 in H. inversion H as [c ? Hc E E'|]; subst. exists c. split; [|done].
  split; [done|]. destruct Hc as [[= Hs _ _ _] _]. congruence.
Qed.

Lemma alike_publishing c c' : alike c c' -> publishing c' = publishing c.
Proof. intros [H _]. now injection H. Qed.

(** A stream whose members stay, with changes that do not matter here. *)
Lemma stream_alike C C' st x x' :
  (forall j, option_Forall2 alike (C !! j) (C' !! j)) -> stream_shape x' = stream_shape x ->
  stream_ok C st x -> stream_ok C' st x'.
Proof.
  intros HC Hx [H1 H2 H3 H4 H5 H6 H7]. unfold stream_shape, set_bw in Hx. injection Hx as En Ec _ Ea Ep Ek _.
  split; rewrite ?Ec, ?Ea, ?Ep, ?Ek; auto.
  - intros j. rewrite H2. split; intros [c Hc].
    + destruct (alike_on _ _ _ _ _ (HC j) Hc) as (c' & Hc' & _). eauto.
    + destruct (alike_on' _ _ _ _ _ (HC j) Hc) as (c' & Hc' & _). eauto.
  - rewrite H3. split; intros (j & c & Hc & Hp).
    + destruct (alike_on _ _ _ _ _ (HC j) Hc) as (c' & Hc' & Ha). exists j, c'. split; [done|].
      now rewrite (alike_publishing _ _ Ha).
    + destruct (alike_on' _ _ _ _ _ (HC j) Hc) as (c' & Hc' & Ha). exists j, c'. split; [done|].
      now rewrite <- (alike_publishing _ _ Ha).
  - intros j k c d Hc Hd. destruct (alike_on' _ _ _ _ _ (HC j) Hc) as (c' & Hc' & Ha).
    destruct (alike_on' _ _ _ _ _ (HC k) Hd) as (d' & Hd' & Hb).
    rewrite (alike_publishing _ _ Ha), (alike_publishing _ _ Hb). now apply H4.
  - intros j c Hc Hp. destruct (alike_on' _ _ _ _ _ (HC j) Hc) as (c' & Hc' & Ha).
    rewrite (alike_publishing _ _ Ha) in Hp. destruct (H5 j c' Hc' Hp) as [H8 H9].
    destruct Ha as [_ Ha]. destruct (Ha Hp) as [H10 H11]. split; [congruence|auto].
Qed.

Lemma shape_lookup (H H' : stream_heap) st x' : stream_shape <$> H' = stream_shape <$> H -> H' !! st = Some x' ->
  exists x, H !! st = Some x /\ stream_shape x' = stream_shape x.
Proof.
  intros E Ex. assert ((stream_shape <$> H) !! st = Some (stream_shape x')) as Hx by now rewrite <- E, lookup_fmap, Ex.
  rewrite lookup_fmap in Hx. destruct (H !! st) as [x|]; [|done]. exists x. split; [done|]. now apply (inj Some) in Hx.
Qed.

Lemma tables_alike C C' H H' T F :
  (forall j, option_Forall2 alike (C !! j) (C' !! j)) -> stream_shape <$> H' = stream_shape <$> H ->
  tables_ok C H T F -> tables_ok C' H' T F.
Proof.
  intros HC HH [H1 H2 H3 H4 H5 H6 H7 H8 H9 H10].
  assert (forall st, is_Some (H' !! st) <-> is_Some (H !! st)) as Hs.
  { intros st. rewrite <- (fmap_is_Some stream_shape (H' !! st)), <- (fmap_is_Some stream_shape (H !! st)).
    now rewrite <- !lookup_fmap, HH. }
  assert (size H' = size H) as Hsz by now rewrite <- (map_size_fmap stream_shape H'), HH, map_size_fmap.
  split; auto.
  - intros st. now rewrite Hs, Hsz.
  - intros st. now rewrite Hs.
  - intros st x' Hst Ex. destruct (shape_lookup _ _ _ _ HH Ex) as (x & Ex' & Hx). eapply stream_alike; eauto.
  - intros b l st x' Hb Hst Ex. destruct (shape_lookup _ _ _ _ HH Ex) as (x & Ex' & Hx).
    injection Hx as -> _ _ _ _ _ _. eauto.
  - intros st st' x y Hst Hst' Ex Ey. destruct (shape_lookup _ _ _ _ HH Ex) as (x0 & Ex' & Hx).
    destruct (shape_lookup _ _ _ _ HH Ey) as (y0 & Ey' & Hy).
    injection Hx as -> _ _ _ _ _ _. injection Hy as -> _ _ _ _ _ _. eauto.
  - intros st x' Hst Ex. destruct (shape_lookup _ _ _ _ HH Ex) as (x & Ex' & Hx). injection Hx as _ _ _ _ _ -> _. eauto.
  - intros j c st Hc. destruct (alike_on' _ _ _ _ _ (HC j) Hc) as (c' & Hc' & _). eauto.
  - intros j c' Ej Hi. specialize (HC j). rewrite Ej in HC. inversion HC as [c ? Hc E0 E1|]; subst.
    destruct Hc as [[= Hs1 Hs2 Hs3 _] Ha]. destruct (H10 j c (eq_sym E0)) as (G1 & G2 & G3 & G4); [congruence|].
    split; [congruence|]. split; [|split; [congruence|done]]. rewrite <- G2. now apply Ha.
Qed.

Lemma no_empty_shape (H H' : stream_heap) T : stream_shape <$> H' = stream_shape <$> H -> no_empty H T -> no_empty H' T.
Proof.
  intros HH Hn st x' Hst Ex. destruct (shape_lookup _ _ _ _ HH Ex) as (x & Ex' & Hx).
  injection Hx as _ -> _ _ _ _ _. eauto.
Qed.

Lemma on_insert C i c st j d : on (<[i := c]> C) st j d <-> (j = i /\ d = c /\ stream c = Some st) \/ (j <> i /\ on C st j d).
Proof.
  unfold on. destruct (decide (j = i)) as [-> |Hne].
  - rewrite lookup_insert_eq. split; [intros [[= <-] E]; auto|].
    intros [(_ & -> & E)|[[] _]]; [auto|done].
  - rewrite lookup_insert_ne by done. split; [auto|]. intros [[-> _]|[_ E]]; [done|auto].
Qed.

Lemma stream_on C C' st x : (forall j c, on C' st j c <-> on C st j c) -> stream_ok C st x -> stream_ok C' st x.
Proof.
  intros Ho [H1 H2 H3 H4 H5 H6 H7]. split; auto.
  - intros j. rewrite H2. split; intros [c Hc]; exists c; apply Ho, Hc.
  - rewrite H3. split; intros (j & c & Hc & Hp); exists j, c; (split; [apply Ho, Hc|done]).
  - intros j k c d Hc Hd. apply Ho in Hc, Hd. exact (H4 j k c d Hc Hd).
  - intros j c Hc. apply Ho in Hc. exact (H5 j c Hc).
Qed.

Lemma size_insert_some (H : stream_heap) st x x' : H !! st = Some x -> size (<[st := x']> H) = size H.
Proof. intros E. apply map_size_insert_Some. now exists x. Qed.

(** One stream of the table changes, and contexts of sessions in it. *)
Lemma tables_upd C C' H T F st x x' :
  tables_ok C H T F -> st ∈ concat T -> H !! st = Some x -> name x' = name x ->
  (forall st' j c, st' <> st -> on C' st' j c <-> on C st' j c) -> stream_ok C' st x' ->
  (forall j c, C' !! j = Some c -> idle_ok c) -> tables_ok C' (<[st := x']> H) T F.
Proof.
  intros [H1 H2 H3 H4 H5 H6 H7 H8 H9 H10] Hst Ex En Ho Hok Hi.
  assert (forall st' y, <[st := x']> H !! st' = Some y -> exists y', H !! st' = Some y' /\ name y = name y' /\
    (st' <> st -> y = y')) as Hl.
  { intros st' y [[<- <-]|[Hne E]]%lookup_insert_Some; [exists x; split; [done|]; now split|eauto]. }
  assert (forall st', is_Some (<[st := x']> H !! st') <-> is_Some (H !! st')) as Hs.
  { intros st'. rewrite lookup_insert_is_Some. destruct (decide (st = st')) as [<- |Hne]; [|tauto].
    split; [eauto|tauto]. }
  split; auto.
  - intros st'. now rewrite Hs, (size_insert_some _ _ _ _ Ex).
  - intros st'. now rewrite Hs.
  - intros st' y Hst' [[<- <-]|[Hne E]]%lookup_insert_Some; [done|].
    eapply stream_on; [|eauto]. intros j c. now apply Ho.
  - intros b l st' y Hb Hst' E. destruct (Hl _ _ E) as (y' & Ey & -> & _). eauto.
  - intros st1 st2 y z Hst1 Hst2 Ey Ez. destruct (Hl _ _ Ey) as (y' & Ey' & -> & _).
    destruct (Hl _ _ Ez) as (z' & Ez' & -> & _). eauto.
  - intros st' y Hst' [[<- <-]|[Hne E]]%lookup_insert_Some; [|eauto].
    apply NoDup_app in H2 as (_ & Hd & _). now destruct (Hd st Hst).
  - intros j c st' Hc. destruct (decide (st' = st)) as [-> |Hne]; [done|]. apply (H9 j c). now apply Ho.
Qed.

(** The timer that asks for a publisher. *)
Lemma tables_check C H T F st x b :
  tables_ok C H T F -> st ∈ concat T -> H !! st = Some x -> (b = true -> st_publishing x = false) ->
  tables_ok C (<[st := set_check_evt b x]> H) T F.
Proof.
  intros Ht Hst Ex Hb. apply (tables_upd C C H T F st x); [done..| |exact (tb_idle _ _ _ _ Ht)].
  destruct (tb_streams _ _ _ _ Ht st x Hst Ex) as [H1 H2 H3 H4 H5 H6 H7]. split; auto.
Qed.

(** The publisher starts or stops its stream. *)
Lemma tables_status C H T F st x i c a b :
  tables_ok C H T F -> H !! st = Some x -> on C st i c -> publishing c = true ->
  (b = true -> a = true /\ idle_timeout lacf <> 0) ->
  tables_ok (<[i := set_idle_evt b (set_active a c)]> C) (<[st := set_st_active a x]> H) T F.
Proof.
  intros Ht Ex Hc Hp Hb. pose proof (tb_joined _ _ _ _ Ht _ _ _ Hc) as Hst.
  destruct (tb_streams _ _ _ _ Ht st x Hst Ex) as [H1 H2 H3 H4 H5 H6 H7].
  set (c' := set_idle_evt b (set_active a c)).
  assert (forall st' j d, on (<[i := c']> C) st' j d -> exists d', on C st' j d' /\ publishing d = publishing d' /\
    (j <> i -> d = d')) as Ho.
  { intros st' j d [(-> & -> & Es)|[Hne Hd]]%on_insert; [|eauto]. destruct Hc as [Hc1 Hc2].
    exists c. split; [split; [done|exact Es]|]. split; [done|]. done. }
  assert (forall st' j d, on C st' j d -> exists d', on (<[i := c']> C) st' j d' /\ publishing d' = publishing d) as Ho'.
  { intros st' j d Hd. destruct (decide (j = i)) as [-> |Hne]; [|exists d; split; [apply on_insert; auto|done]].
    destruct Hc as [Hc1 Hc2], Hd as [Hd1 Hd2]. rewrite Hc1 in Hd1. injection Hd1 as <-.
    exists c'. split; [|done]. apply on_insert. auto. }
  assert (st_publishing x = true) as Hpx by (apply H3; eauto).
  apply (tables_upd C _ H T F st x); [done..| | |].
  - intros st' j d Hne. rewrite on_insert. split; [|intros Hd; right; split; [|done]].
    + intros [(-> & -> & Es)|[_ Hd]]; [|done]. destruct Hc as [_ Hc]. change (stream c = Some st') in Es. congruence.
    + intros ->. destruct Hc, Hd. congruence.
  - split; auto.
    + intros j. change (ctx (set_st_active a x)) with (ctx x). rewrite H2. split; intros [d Hd].
      * destruct (Ho' _ _ _ Hd) as (d' & Hd' & _). eauto.
      * destruct (Ho _ _ _ Hd) as (d' & Hd' & _). eauto.
    + change (st_publishing (set_st_active a x)) with (st_publishing x). rewrite H3. split; intros (j & d & Hd & Hpd).
      * destruct (Ho' _ _ _ Hd) as (d' & Hd' & Ep). exists j, d'. split; [done|congruence].
      * destruct (Ho _ _ _ Hd) as (d' & Hd' & Ep & _). exists j, d'. split; [done|congruence].
    + intros j k d e Hd He P1 P2. destruct (Ho _ _ _ Hd) as (d' & Hd' & Ep & _).
      destruct (Ho _ _ _ He) as (e' & He' & Ep' & _). apply (H4 j k d' e'); congruence.
    + intros j d Hd Hpd. destruct (Ho _ _ _ Hd) as (d' & Hd' & Ep & Heq).
      assert (j = i) as -> by (apply (H4 j i d' c); congruence).
      apply on_insert in Hd as [(_ & -> & _)|[[] _]]; [|done]. split; [done|].
      exact (proj2 (H5 i c Hc Hp)).
    + change (st_publishing (set_st_active a x)) with (st_publishing x). congruence.
  - intros j d [[<- <-]|[Hne Hd]]%lookup_insert_Some; [|eapply tb_idle; eauto].
    intros Hi. destruct (Hb Hi) as [-> Hto]. destruct Hc as [_ Hc]. split; [done|]. split; [done|].
    split; [|done]. now exists st.
Qed.

Lemma remove_ctx_spec i l : NoDup l -> NoDup (remove_ctx i l) /\ forall j, j ∈ remove_ctx i l <-> j ∈ l /\ j <> i.
Proof.
  induction 1 as [|k l Hk Hnd [IH1 IH2]]; cbn [remove_ctx].
  { split; [constructor|]. intros j. rewrite elem_of_nil. tauto. }
  destruct (decide (k = i)) as [-> |Hne].
  - split; [done|]. intros j. rewrite elem_of_cons. split; [|tauto]. intros Hj. split; [auto|]. now intros ->.
  - split.
    + constructor; [|done]. intros [H _]%IH2. done.
    + intros j. rewrite !elem_of_cons, IH2. split; [|tauto]. intros [-> |H]; [auto|tauto].
Qed.

(** A session joins a stream. *)
Lemma tables_join C H T F st x i c' p :
  tables_ok C H T F -> st ∈ concat T -> H !! st = Some x -> (forall c, C !! i = Some c -> stream c = None) ->
  stream c' = Some st -> publishing c' = p -> idle_evt c' = false ->
  (p = true -> st_publishing x = false /\ active c' = false /\ publisher_ok c') ->
  tables_ok (<[i := c']> C)
    (<[st := set_ctx (i :: ctx x) (if p then set_check_evt false (set_st_publishing true x) else x)]> H) T F.
Proof.
  intros Ht Hst Ex Hi Es Ep Ei Hp. destruct (tb_streams _ _ _ _ Ht st x Hst Ex) as [H1 H2 H3 H4 H5 H6 H7].
  assert (forall st' j d, on C st' j d -> j <> i) as Hne.
  { intros st' j d [E1 E2] ->. rewrite (Hi d E1) in E2. done. }
  assert (forall j d, on (<[i := c']> C) st j d <-> (j = i /\ d = c') \/ on C st j d) as Ho.
  { intros j d. rewrite on_insert. split; [tauto|]. intros [[-> ->]|Hd]; [auto|]. right. split; [|done]. eapply Hne; eauto. }
  apply (tables_upd C _ H T F st x); [done..|now destruct p| | |].
  - intros st' j d Hst'. rewrite on_insert. split; [|eauto]. intros [(_ & _ & E)|[_ Hd]]; [congruence|done].
  - split.
    + apply NoDup_cons. split; [|now destruct p]. destruct p; cbn [ctx set_check_evt set_st_publishing];
        (intros [d Hd]%H2; now apply Hne in Hd).
    + intros j. cbn [ctx set_ctx]. rewrite elem_of_cons, H2. split.
      * intros [-> |[d Hd]]; [exists c'|exists d]; apply Ho; auto.
      * intros [d [[-> _]|Hd]%Ho]; [auto|eauto].
    + split.
      * destruct p; [intros _; exists i, c'; split; [apply Ho; auto|done]|].
        intros (j & d & Hd & Hpd)%H3. exists j, d. split; [apply Ho; auto|done].
      * intros (j & d & [[-> ->]|Hd]%Ho & Hpd); [rewrite Hpd in Ep; now rewrite <- Ep|].
        destruct p; [done|]. apply H3. eauto.
    + intros j k d e [[-> ->]|Hd]%Ho [[-> ->]|He]%Ho P1 P2; [done|..|eapply H4; eauto].
      * rewrite P1 in Ep. subst p. assert (st_publishing x = true) as E by (apply H3; eauto).
        destruct (Hp eq_refl). congruence.
      * rewrite P2 in Ep. subst p. assert (st_publishing x = true) as E by (apply H3; eauto).
        destruct (Hp eq_refl). congruence.
    + intros j d [[-> ->]|Hd]%Ho Hpd.
      * rewrite Hpd in Ep. subst p. destruct (Hp eq_refl) as (Hx & Ea & Hok). split; [|done]. rewrite Ea. symmetry. now apply H6.
      * destruct p; exact (H5 j d Hd Hpd).
    + destruct p; [done|exact H6].
    + destruct p; [done|exact H7].
  - intros j d [[<- <-]|[Hn Hd]]%lookup_insert_Some; [|eapply tb_idle; eauto]. intros E. congruence.
Qed.

(** A session that is in no stream. *)
Lemma tables_off C H T F i c' : tables_ok C H T F -> (forall c, C !! i = Some c -> stream c = None) ->
  stream c' = None -> idle_evt c' = false -> tables_ok (<[i := c']> C) H T F.
Proof.
  intros Ht Hi Es Ei. assert (forall st j d, on (<[i := c']> C) st j d <-> on C st j d) as Ho.
  { intros st j d. rewrite on_insert. split; [intros [(_ & _ & E)|[_ Hd]]; [congruence|done]|].
    intros Hd. right. split; [|done]. intros ->. destruct Hd as [E1 E2]. rewrite (Hi d E1) in E2. done. }
  pose proof Ht as [H1 H2 H3 H4 H5 H6 H7 H8 H9 H10]. split; auto.
  - intros st x Hst Ex. eapply stream_on; [|eauto]. intros j d. apply Ho.
  - intros j c st Hc. apply (H9 j c), Ho, Hc.
  - intros j c [[<- <-]|[_ E]]%lookup_insert_Some; [|eauto]. intros E. congruence.
Qed.

(** A session leaves its stream. *)
Lemma tables_leave C H T F st x x' i c c' :
  tables_ok C H T F -> on C st i c -> H !! st = Some x -> stream c' = None -> idle_evt c' = false ->
  name x' = name x -> ctx x' = remove_ctx i (ctx x) -> st_publishing x' = st_publishing x && negb (publishing c) ->
  st_active x' = st_active x && negb (publishing c) -> (check_evt x' = true -> st_publishing x' = false) ->
  tables_ok (<[i := c']> C) (<[st := x']> H) T F.
Proof.
  intros Ht Hc Ex Es Ei En Ec Ep Ea Hk. pose proof (tb_joined _ _ _ _ Ht _ _ _ Hc) as Hst.
  destruct (tb_streams _ _ _ _ Ht st x Hst Ex) as [H1 H2 H3 H4 H5 H6 H7].
  destruct (remove_ctx_spec i (ctx x) H1) as [R1 R2].
  assert (forall st' j d, on (<[i := c']> C) st' j d <-> on C st' j d /\ j <> i) as Ho.
  { intros st' j d. rewrite on_insert. split; [|tauto]. intros [(_ & _ & E)|[Hne Hd]]; [congruence|auto]. }
  apply (tables_upd C _ H T F st x); [done..| | |].
  - intros st' j d Hne. rewrite Ho. split; [tauto|]. intros Hd. split; [done|]. intros ->.
    destruct Hc, Hd. congruence.
  - split; rewrite ?Ec, ?Ep, ?Ea; auto.
    + intros j. rewrite R2, H2. split.
      * intros [[d Hd] Hne]. exists d. apply Ho. auto.
      * intros [d [Hd Hne]%Ho]. eauto.
    + rewrite andb_true_iff, negb_true_iff. split.
      * intros [(j & d & Hd & Hpd)%H3 Hpc]. exists j, d. split; [|done]. apply Ho. split; [done|]. intros ->.
        destruct Hc, Hd. congruence.
      * intros (j & d & [Hd Hne]%Ho & Hpd). split; [apply H3; eauto|]. destruct (publishing c) eqn:Hpc; [|done].
        destruct Hne. eapply H4; eauto.
    + intros j k d e [Hd _]%Ho [He _]%Ho. exact (H4 j k d e Hd He).
    + intros j d [Hd Hne]%Ho Hpd. destruct (publishing c) eqn:Hpc; [destruct Hne; eapply H4; eauto|].
      rewrite andb_true_r. eauto.
    + rewrite !andb_false_iff. intros [E|E]; [left; auto|auto].
    + rewrite <- Ep. done.
  - intros j d [[<- <-]|[Hn Hd]]%lookup_insert_Some; [|eapply tb_idle; eauto]. intros E. congruence.
Qed.

(** *** Finding, making and deleting streams *)

Lemma concat_insert {A} (T : list (list A)) b l l' : T !! b = Some l ->
  exists t1 t2, concat T = t1 ++ l ++ t2 /\ concat (<[b := l']> T) = t1 ++ l' ++ t2.
Proof.
  intros E. exists (concat (take b T)), (concat (drop (S b) T)). split.
  - rewrite <- (take_drop_middle T b l E) at 1. now rewrite concat_app.
  - rewrite insert_take_drop by (eapply lookup_lt_Some; eauto). now rewrite concat_app.
Qed.

Lemma bucket_in nm C H T F : tables_ok C H T F -> is_Some (T !! bucket lacf nm).
Proof.
  intros Ht. apply lookup_lt_is_Some. rewrite (tb_len _ _ _ _ Ht). unfold bucket.
  pose proof (Z.mod_pos_bound (ngx_hash_key nm) (nbuckets lacf) buckets_pos). lia.
Qed.

Lemma bucket_elem C H T F b l st : tables_ok C H T F -> T !! b = Some l -> st ∈ l ->
  st ∈ concat T /\ is_Some (H !! st).
Proof.
  intros Ht E Hst. destruct (concat_insert T b l [] E) as (t1 & t2 & Ec & _).
  assert (st ∈ concat T) as Hin by (rewrite Ec, !elem_of_app; auto).
  split; [done|]. apply (tb_all _ _ _ _ Ht), elem_of_app. auto.
Qed.

Lemma find_name_spec (H : stream_heap) nm l : (forall st, st ∈ l -> is_Some (H !! st)) ->
  exists r, find_name H nm l = Some r /\
    match r with
    | Some n => exists st x, l !! n = Some st /\ H !! st = Some x /\ name x = nm
    | None => forall st x, st ∈ l -> H !! st = Some x -> name x <> nm
    end.
Proof.
  induction l as [|st l IH]; intros Hl; cbn [find_name].
  { exists None. split; [done|]. intros st x Hst. now apply not_elem_of_nil in Hst. }
  destruct (Hl st (list_elem_of_here _ _)) as [x Ex]. rewrite Ex. cbn [mbind option_bind].
  destruct (decide (nm = name x)) as [-> |Hne].
  { exists (Some 0%nat). split; [done|]. now exists st, x. }
  destruct IH as (r & -> & Hr); [intros k Hk; apply Hl; now apply list_elem_of_further|].
  cbn [mbind option_bind]. exists (option_map S r). split; [done|]. destruct r as [n|]; [exact Hr|].
  intros k y [-> |Hk]%elem_of_cons Ey; [|eauto]. rewrite Ex in Ey. injection Ey as <-. auto.
Qed.

(** A name that is not in its bucket is nowhere. *)
Lemma name_missing C H T F nm l : tables_ok C H T F -> T !! bucket lacf nm = Some l ->
  (forall st x, st ∈ l -> H !! st = Some x -> name x <> nm) ->
  forall st x, st ∈ concat T -> H !! st = Some x -> name x <> nm.
Proof.
  intros Ht El Hl st x Hst Ex En. apply list_elem_of_In, in_concat in Hst as (l' & Hl' & Hst).
  apply list_elem_of_In in Hl', Hst. apply list_elem_of_lookup in Hl' as [b Eb].
  pose proof (tb_bucket _ _ _ _ Ht _ _ _ _ Eb Hst Ex) as Hb. rewrite En in Hb. subst b.
  rewrite El in Eb. injection Eb as <-. exact (Hl st x Hst Ex En).
Qed.

(** The stream that [take_stream] takes. *)
Definition taken (H : stream_heap) (F : list stid) : stid * list stid :=
  match F with st :: F' => (st, F') | [] => (size H, []) end.

Lemma taken_spec C H T F : tables_ok C H T F ->
  let '(st, F') := taken H F in
  NoDup (concat T ++ st :: F') /\ (forall k, k ∈ concat T ++ F' \/ k = st <-> k ∈ concat T ++ F \/ k = st) /\
  (forall x k, is_Some (<[st := x]> H !! k) <-> (k < size (<[st := x]> H))%nat).
Proof.
  intros Ht. destruct F as [|st F']; cbn [taken].
  - split; [|split].
    + pose proof (tb_nodup _ _ _ _ Ht) as Hn. rewrite app_nil_r in Hn. apply NoDup_app. split; [done|].
      split; [|apply NoDup_singleton]. intros k Hk ->%list_elem_of_singleton.
      assert (is_Some (H !! size H)) as Hs by (apply (tb_all _ _ _ _ Ht); now rewrite app_nil_r).
      apply (tb_heap _ _ _ _ Ht) in Hs. lia.
    + intros k. tauto.
    + intros x k. assert (H !! size H = None) as En.
      { apply eq_None_not_Some. intros Hs%(tb_heap _ _ _ _ Ht). now apply Nat.lt_irrefl in Hs. }
      rewrite map_size_insert_None, lookup_insert_is_Some, (tb_heap _ _ _ _ Ht) by done. lia.
  - split; [apply (tb_nodup _ _ _ _ Ht)|]. split.
    + intros k. rewrite !elem_of_app, elem_of_cons. tauto.
    + intros x k. assert (is_Some (H !! st)) as Hs.
      { apply (tb_all _ _ _ _ Ht), elem_of_app. right. apply list_elem_of_here. }
      rewrite map_size_insert_Some, <- (tb_heap _ _ _ _ Ht), lookup_insert_is_Some by done.
      destruct (decide (st = k)) as [<- |Hne]; tauto.
Qed.

Lemma tables_new C H T F nm l st F' now :
  tables_ok C H T F -> T !! bucket lacf nm = Some l -> (forall k x, k ∈ l -> H !! k = Some x -> name x <> nm) ->
  (length nm < NGX_RTMP_MAX_NAME)%nat -> taken H F = (st, F') ->
  tables_ok C (<[st := new_stream lacf nm now]> H) (<[bucket lacf nm := l ++ [st]]> T) F'.
Proof.
  intros Ht El Hl Hn Et. pose proof (taken_spec _ _ _ _ Ht) as Hk. rewrite Et in Hk. destruct Hk as (K1 & K2 & K3).
  set (x0 := new_stream lacf nm now).
  assert (name x0 = nm) as En by (apply take_ge; unfold NGX_RTMP_MAX_NAME in *; lia).
  destruct (concat_insert T (bucket lacf nm) l (l ++ [st]) El) as (t1 & t2 & Ec & Ec').
  assert (forall k, k ∈ concat (<[bucket lacf nm := l ++ [st]]> T) <-> k ∈ concat T \/ k = st) as Hin.
  { intros k. rewrite Ec, Ec', !elem_of_app, list_elem_of_singleton. tauto. }
  assert (st ∉ concat T) as Hst.
  { apply NoDup_app in K1 as (_ & K1 & _). intros Hst. apply (K1 st Hst). apply list_elem_of_here. }
  assert (forall j c, ~ on C st j c) as Hno by (intros j c Hc; now apply Hst, (tb_joined _ _ _ _ Ht j c)).
  pose proof (name_missing _ _ _ _ nm l Ht El Hl) as Hmiss.
  pose proof Ht as [H1 H2 H3 H4 H5 H6 H7 H8 H9 H10]. split; auto.
  - now rewrite length_insert.
  - rewrite Ec'. rewrite Ec in K1. clear -K1. revert K1. apply NoDup_Permutation_proper. rewrite <- !app_assoc.
    cbn. solve_Permutation.
  - intros k. specialize (K2 k). rewrite !elem_of_app in K2. rewrite lookup_insert_is_Some, elem_of_app, Hin, H4, elem_of_app.
    destruct (decide (st = k)) as [<- |Hne]; [tauto|]. split.
    + intros [Hk|[_ Hk]]; [done|]. destruct (proj2 K2 (or_introl Hk)) as [[Hk'|Hk']|Hk']; auto.
    + intros Hk. right. split; [done|]. destruct (proj1 K2) as [Hk'|Hk']; [|done|congruence].
      destruct Hk as [[Hk|Hk]|Hk]; auto.
  - intros k x Hk [[<- <-]|[Hne Ex]]%lookup_insert_Some.
    + split; cbn; try done.
      * constructor.
      * intros j. rewrite elem_of_nil. split; [done|]. intros [c Hc]. now apply (Hno j c).
      * split; [done|]. intros (j & c & Hc & _). now destruct (Hno j c).
      * intros j k c d Hc. now destruct (Hno j c).
      * intros j c Hc. now destruct (Hno j c).
    + apply Hin in Hk as [Hk| ->]; [eauto|done].
  - intros b l' k x Hb Hk [[<- <-]|[Hne Ex]]%lookup_insert_Some.
    + rewrite En. apply list_lookup_insert_Some in Hb as [(Hb & _ & _)|[Hb Hb']]; [congruence|].
      exfalso. apply Hst. eapply bucket_elem; eauto.
    + apply list_lookup_insert_Some in Hb as [(<- & <- & _)|[Hb Hb']]; [|eauto].
      apply elem_of_app in Hk as [Hk|Hk%list_elem_of_singleton]; [eauto|congruence].
  - intros k k' x x' Hk Hk' [[<- <-]|[Hne Ex]]%lookup_insert_Some [[<- <-]|[Hne' Ex']]%lookup_insert_Some E; [done|..].
    + rewrite En in E. apply Hin in Hk' as [Hk'| ->]; [|done]. now destruct (Hmiss k' x' Hk' Ex').
    + rewrite En in E. apply Hin in Hk as [Hk| ->]; [|done]. now destruct (Hmiss k x Hk Ex).
    + apply Hin in Hk as [Hk| ->]; [|done]. apply Hin in Hk' as [Hk'| ->]; [|done]. eauto.
  - intros k x Hk [[<- <-]|[Hne Ex]]%lookup_insert_Some; [done|]. apply (H8 k x); [|done].
    specialize (K2 k). rewrite !elem_of_app in K2. destruct (proj1 K2 (or_introl (or_intror Hk))) as [[Hk'|Hk']|Hk']; [|done|done].
    apply NoDup_app in K1 as (_ & K1 & _). exfalso. apply (K1 k Hk'). now apply list_elem_of_further.
  - intros j c k Hc. apply Hin. eauto.
Qed.

Lemma tables_delete C H T F st x b l n :
  tables_ok C H T F -> T !! b = Some l -> l !! n = Some st -> H !! st = Some x -> ctx x = [] -> check_evt x = false ->
  tables_ok C H (<[b := take n l ++ drop (S n) l]> T) (st :: F).
Proof.
  intros Ht El En Ex Ec Ek. destruct (concat_insert T b l (take n l ++ drop (S n) l) El) as (t1 & t2 & E1 & E2).
  pose proof (take_drop_middle l n st En) as Hl.
  assert (concat T ++ F ≡ₚ concat (<[b := take n l ++ drop (S n) l]> T) ++ st :: F) as Hp.
  { rewrite E1, E2. rewrite <- Hl at 1. clear. solve_Permutation. }
  assert (forall k, k ∈ concat (<[b := take n l ++ drop (S n) l]> T) -> k ∈ concat T) as Hsub.
  { intros k. rewrite E1, E2. rewrite <- Hl at 3. rewrite !elem_of_app, elem_of_cons. tauto. }
  assert (st ∈ concat T) as Hst by (eapply bucket_elem; eauto; eapply list_elem_of_lookup_2; eauto).
  pose proof Ht as [H1 H2 H3 H4 H5 H6 H7 H8 H9 H10]. split; auto.
  - now rewrite length_insert.
  - now rewrite <- Hp.
  - intros k. now rewrite H4, Hp.
  - intros b' l' k y Hb Hk Ey. apply list_lookup_insert_Some in Hb as [(<- & <- & _)|[_ Hb]]; [|eauto].
    apply (H6 b l k y El); [|done]. rewrite <- Hl. revert Hk. rewrite !elem_of_app, elem_of_cons. tauto.
  - intros k k' y y' Hk Hk'. apply H7; auto.
  - intros k y [-> |Hk]%elem_of_cons Ey; [congruence|eauto].
  - intros j c k Hc. pose proof (H9 j c k Hc) as Hk. assert (k <> st) as Hne.
    { intros ->. assert (j ∈ ctx x) as Hj by (apply (sk_members _ _ _ (H5 st x Hst Ex)); eauto).
      rewrite Ec in Hj. now apply not_elem_of_nil in Hj. }
    assert (k ∈ concat T ++ F) as Hk' by (apply elem_of_app; auto). rewrite Hp in Hk'.
    apply elem_of_app in Hk' as [Hk'|[-> |Hk']%elem_of_cons]; [done|done|].
    apply NoDup_app in H2 as (_ & H2 & _). now destruct (H2 k Hk).
Qed.

End Tables.
End LiveState.
