(* ===== verification/LiveHistory.v ===== *)
(** * Histories of the live module

    The invariant of LiveState.v holds in every process that is reached by
    handlers and timers of the live module, and each of them returns: no session,
    stream or buffer is used that is not there.

    [wp m w Q] says that the operation [m] returns and leaves a process that
    satisfies [Q]; [calm w w'] that nothing changed the tables depend on. *)

From Stdlib Require Import ZArith Lia.
From stdpp Require Import base numbers list strings gmap.
From S2P Require Import Prelude Buf Bandwidth Chunk Shared Queue Amf Receive Send AmfSend Codec Live LiveOut Broadcast LiveAv LiveState.

Module LiveHistory.

Import Shared.
Import Live.
Import LiveOut.
Import Broadcast.
Import LiveAv.
Import LiveState.

#[local] Existing Instance Queue.owned_perm.

(* ------------------------------------------------------------------ *)
(** ** Operations that return *)

Definition wp {A} (m : M A) (w : process) (Q : A -> process -> Prop) : Prop :=
  exists a w', m w = Some (a, w') /\ Q a w'.

Lemma wp_eq {A} (m : M A) w a w' (Q : A -> process -> Prop) : m w = Some (a, w') -> Q a w' -> wp m w Q.
Proof. intros E H. now exists a, w'. Qed.

Lemma wp_ret {A} (a : A) w (Q : A -> process -> Prop) : Q a w -> wp (M_ret _ a) w Q.
Proof. now apply wp_eq. Qed.

Lemma wp_bind {A B} (m : M A) (f : A -> M B) w Q : wp m w (fun a w1 => wp (f a) w1 Q) -> wp (m ≫= f) w Q.
Proof. intros (a & w1 & E & b & w2 & E2 & H). exists b, w2. split; [|done]. now rewrite (bind_eq _ _ _ _ _ E). Qed.

Lemma wp_mono {A} (m : M A) w (P Q : A -> process -> Prop) : wp m w P -> (forall a w', P a w' -> Q a w') -> wp m w Q.
Proof. intros (a & w' & E & H) HQ. exists a, w'. auto. Qed.

(** A step of a sequence by a lemma about its first operation. *)
Lemma wp_step {A B} (m : M A) (f : A -> M B) w P Q :
  wp m w P -> (forall a w', P a w' -> wp (f a) w' Q) -> wp (m ≫= f) w Q.
Proof. intros H HQ. apply wp_bind. eapply wp_mono; eauto. Qed.

Lemma wp_when (b : bool) (m : M unit) w Q :
  (b = true -> wp m w Q) -> (b = false -> Q tt w) -> wp (when b m) w Q.
Proof. intros H1 H2. destruct b; [auto|]. apply wp_ret. auto. Qed.

Lemma wp_access {A} (f : process -> option A) w a (Q : A -> process -> Prop) : f w = Some a -> Q a w -> wp (access f) w Q.
Proof. intros E. apply wp_eq. unfold access. now rewrite E. Qed.

Lemma wp_session_of i w s (Q : session -> process -> Prop) : sessions w !! i = Some s -> Q s w -> wp (session_of i) w Q.
Proof. exact (wp_access (fun w => sessions w !! i) w s Q). Qed.

Lemma wp_ctx_of i w s c (Q : ngx_rtmp_live_ctx_t -> process -> Prop) :
  sessions w !! i = Some s -> lctx s = Some c -> Q c w -> wp (ctx_of i) w Q.
Proof. intros E1 E2. apply wp_access. rewrite E1. exact E2. Qed.

Lemma wp_stream_of st w x (Q : ngx_rtmp_live_stream_t -> process -> Prop) : heap w !! st = Some x -> Q x w -> wp (stream_of st) w Q.
Proof. exact (wp_access (fun w => heap w !! st) w x Q). Qed.

(* ------------------------------------------------------------------ *)
(** ** Changes that do not matter to the tables *)

Definition sess_alike (s s' : session) : Prop :=
  codec s' = codec s /\ consts (queue s') = consts (queue s) /\ option_Forall2 alike (lctx s) (lctx s').

Definition relay_shape (r : relay_ctx) : relay_ctx :=
  RCtx (r_name r) (r_behind r) (r_publish r) (r_play r) false (r_session r).

Record calm (w w' : process) : Prop := {
  cm_sessions : forall j, option_Forall2 sess_alike (sessions w !! j) (sessions w' !! j);
  cm_heap : stream_shape <$> heap w' = stream_shape <$> heap w;
  cm_tables : streams w' = streams w /\ free_streams w' = free_streams w;
  cm_relays : relay_shape <$> relay_heap w' = relay_shape <$> relay_heap w /\ relays w' = relays w;
  cm_codecs : codecs_kept w w'
}.

#[export] Instance sess_alike_preorder : PreOrder sess_alike.
Proof.
  split.
  - intros s. split; [done|]. split; [done|]. destruct (lctx s); constructor. reflexivity.
  - intros s1 s2 s3 (H1 & H2 & H3) (H4 & H5 & H6). split; [congruence|]. split; [congruence|].
    destruct H3; inversion H6; subst; constructor. etransitivity; eauto.
Qed.

#[export] Instance calm_preorder : PreOrder calm.
Proof.
  split.
  - intros w. split; [|done..|apply codecs_kept_refl]. intros j. destruct (sessions w !! j); constructor. reflexivity.
  - intros w1 w2 w3 [A1 A2 [A3 A3'] [A4 A4'] A5] [B1 B2 [B3 B3'] [B4 B4'] B5].
    split; [|congruence|split; congruence|split; congruence|eapply codecs_kept_trans; eauto].
    intros j. specialize (A1 j). specialize (B1 j). destruct A1; inversion B1; subst; constructor. etransitivity; eauto.
Qed.

Lemma calm_session w w' j s : calm w w' -> sessions w !! j = Some s ->
  exists s', sessions w' !! j = Some s' /\ sess_alike s s'.
Proof. intros H E. pose proof (cm_sessions _ _ H j) as Hj. rewrite E in Hj. inversion Hj; subst. eauto. Qed.

Lemma calm_ctx w w' j s c : calm w w' -> sessions w !! j = Some s -> lctx s = Some c ->
  exists s' c', sessions w' !! j = Some s' /\ lctx s' = Some c' /\ alike c c' /\ sess_alike s s'.
Proof.
  intros H E El. destruct (calm_session _ _ _ _ H E) as (s' & E' & Hs). pose proof Hs as (_ & _ & Hl).
  rewrite El in Hl. inversion Hl as [? c' Hc E1 E2|]; subst. eauto 10.
Qed.

Lemma calm_stream w w' st x : calm w w' -> heap w !! st = Some x ->
  exists x', heap w' !! st = Some x' /\ stream_shape x' = stream_shape x.
Proof.
  intros H Ex. destruct (shape_lookup (heap w') (heap w) st x (eq_sym (cm_heap _ _ H)) Ex) as (x' & E & Hx). eauto.
Qed.

Lemma quiet_calm ex w w' o : quiet ex w w' o -> calm w w'.
Proof.
  intros Hq. pose proof (quiet_codecs _ _ _ _ Hq) as Hk. destruct Hq as [H _ _].
  pose proof (shape_session w w') as H1. pose proof (shape_session w' w) as H2.
  unfold shape in H. injection H as E1 E2 E3 E4 E5 E6 _ _ _ _.
  split; [|done|done|now rewrite E5|done]. intros j.
  assert (sess_shape <$> sessions w' !! j = sess_shape <$> sessions w !! j) as Ej by now rewrite <- !lookup_fmap, E1.
  destruct (sessions w !! j) as [s|], (sessions w' !! j) as [s'|]; try done; constructor.
  apply (inj Some) in Ej. injection Ej as Hl Hc _ _ _ Hh Hr Hq. split; [done|].
  split; [unfold consts; congruence|]. rewrite Hl. destruct (lctx s); constructor. reflexivity.
Qed.

(** A session is replaced. *)
Definition put_session (i : sid) (s : session) (w : process) : process := set_sessions (<[i := s]> (sessions w)) w.
Definition put_stream (st : stid) (x : ngx_rtmp_live_stream_t) (w : process) : process :=
  set_heap (<[st := x]> (heap w)) w.

Lemma put_lookup i s w j sj : sessions (put_session i s w) !! j = Some sj <->
  i = j /\ s = sj \/ i <> j /\ sessions w !! j = Some sj.
Proof. apply lookup_insert_Some. Qed.
Lemma put_stream_lookup st x w k y : heap (put_stream st x w) !! k = Some y <->
  st = k /\ x = y \/ st <> k /\ heap w !! k = Some y.
Proof. apply lookup_insert_Some. Qed.

Lemma put_codecs i s s' w : sessions w !! i = Some s -> codec s' = codec s -> codecs_kept w (put_session i s' w).
Proof.
  intros E Ec. split; [now intros k _|]. intros k. rewrite !codec_refs_elem. cbn [put_session set_sessions sessions].
  split; intros (j & sj & Ej & Hk).
  - apply lookup_insert_Some in Ej as [[<- <-]|[_ Ej]]; [|eauto]. exists i, s. now rewrite <- Ec.
  - destruct (decide (i = j)) as [<- |Hne]; [|exists j, sj; now rewrite lookup_insert_ne].
    exists i, s'. rewrite lookup_insert_eq, Ec. split; [done|]. congruence.
Qed.

Lemma put_calm i s s' w : sessions w !! i = Some s -> sess_alike s s' -> calm w (put_session i s' w).
Proof.
  intros E Hs. split; [|done..|eapply put_codecs; [exact E|apply Hs]]. intros j. cbn [put_session set_sessions sessions].
  destruct (decide (i = j)) as [<- |Hne]; [rewrite lookup_insert_eq, E; now constructor|].
  rewrite lookup_insert_ne by done. destruct (sessions w !! j); constructor. reflexivity.
Qed.

Lemma put_stream_calm st x x' w : heap w !! st = Some x -> stream_shape x' = stream_shape x -> calm w (put_stream st x' w).
Proof.
  intros E Hx. split; [|..|exact (codecs_kept_refl w)]; try done.
  cbn. now rewrite fmap_insert, Hx, <- fmap_insert, insert_id.
Qed.

Lemma finalize_alike s : sess_alike s (finalize s) /\ queue (finalize s) = queue s /\ sent (conn (finalize s)) = sent (conn s).
Proof.
  unfold finalize. destruct (destroyed (conn s) && _); (split; [|done]); [reflexivity|].
  split; [done|]. split; [done|]. cbn. destruct (lctx s); constructor. reflexivity.
Qed.

(** Changes of the counts and of other fields. *)
Lemma counts_calm a b w : calm w (set_counts a b w).
Proof. now split. Qed.

Section Limits.
Context (size : nat) (qmax : Z).
Context (cscf : Chunk.ngx_rtmp_core_srv_conf_t) (lacf : ngx_rtmp_live_app_conf_t).
Hypothesis size_pos : (22 <= size)%nat.
Hypothesis max_streams : NGX_RTMP_CSID_VIDEO < Chunk.max_streams cscf.
Hypothesis fix_same : Chunk.play_time_fix cscf = Chunk.publish_time_fix cscf.
Hypothesis buckets_pos : 0 < nbuckets lacf.

(** The sessions of the process. *)
Context (ids : gset sid).

Abbreviation pool_ok := (pool_ok size qmax).

(** The outcome of an operation without effect on the tables. *)
Definition calmly {A} (ex : list loc) (w : process) (_ : A) (w' : process) : Prop := pool_ok ex w' /\ calm w w'.

Lemma calmly_after {A} ex w w1 (a : A) w2 : calm w w1 -> calmly ex w1 a w2 -> calmly ex w a w2.
Proof. intros H1 [H2 H3]. split; [done|]. etransitivity; eauto. Qed.

(** *** Updates *)

Lemma put_session_ok ex i s s' w : pool_ok ex w -> sessions w !! i = Some s ->
  queue s' = queue s -> sent (conn s') = sent (conn s) -> codec s' = codec s -> pool_ok ex (put_session i s' w).
Proof. intros Hp E H1 H2 H3. exact (proj1 (proj2 (upd_session_ok size qmax ex w i s (fun _ => s') Hp E H1 H2 H3))). Qed.

Lemma wp_upd_session ex i s f w Q : pool_ok ex w -> sessions w !! i = Some s ->
  queue (f s) = queue s -> sent (conn (f s)) = sent (conn s) -> codec (f s) = codec s ->
  (pool_ok ex (put_session i (f s) w) -> Q tt (put_session i (f s) w)) -> wp (upd_session i f) w Q.
Proof.
  intros Hp E H1 H2 H3 HQ. destruct (upd_session_ok size qmax ex w i s f Hp E H1 H2 H3) as (E1 & E2 & _).
  eapply wp_eq; [exact E1|]. auto.
Qed.

Lemma wp_upd_ctx ex i s c g w Q : pool_ok ex w -> sessions w !! i = Some s -> lctx s = Some c ->
  (pool_ok ex (put_session i (set_lctx (Some (g c)) s) w) -> Q tt (put_session i (set_lctx (Some (g c)) s) w)) ->
  wp (upd_ctx i g) w Q.
Proof.
  intros Hp E El HQ. unfold upd_ctx. apply wp_bind, (wp_ctx_of i w s c); [done..|].
  eapply wp_upd_session; eauto.
Qed.

Lemma wp_upd_stream ex st x g w Q : pool_ok ex w -> heap w !! st = Some x ->
  (pool_ok ex (put_stream st (g x) w) -> Q tt (put_stream st (g x) w)) -> wp (upd_stream st g) w Q.
Proof.
  intros Hp E HQ. unfold upd_stream. apply wp_bind, (wp_stream_of st w x); [done|].
  eapply wp_eq; [reflexivity|]. apply HQ. destruct Hp as [lv [H1 H2 H3 H4]]. exists lv. now split.
Qed.

Lemma set_alike s c' : match lctx s with Some c => alike c c' | None => False end -> sess_alike s (set_lctx (Some c') s).
Proof. intros H. split; [done|]. split; [done|]. cbn. destruct (lctx s); [now constructor|done]. Qed.

Lemma upd_ctx_calm ex i s c g w : pool_ok ex w -> sessions w !! i = Some s -> lctx s = Some c -> alike c (g c) ->
  wp (upd_ctx i g) w (calmly ex w).
Proof.
  intros Hp E El Ha. eapply wp_upd_ctx; eauto. intros Hp'. split; [done|].
  eapply put_calm; [exact E|]. apply set_alike. now rewrite El.
Qed.

Lemma finalize_calm ex i s w : pool_ok ex w -> sessions w !! i = Some s ->
  wp (ngx_rtmp_finalize_session i) w (calmly ex w).
Proof.
  intros Hp E. destruct (finalize_alike s) as (H1 & H2 & H3).
  eapply wp_upd_session; eauto; [apply H1|]. intros Hp'. split; [done|]. now apply (put_calm i s).
Qed.

(** *** Messages *)

Lemma send_calm ex i s l w : pool_ok ex w -> sessions w !! i = Some s -> l ∈ ex -> Z.of_nat (length ex) < 2 ^ 30 ->
  wp (ngx_rtmp_send_message i l 0) w (calmly ex w).
Proof.
  intros Hp E Hl Hn. destruct (send_message_ok size qmax ex w i s l 0 Hp E) as (rc & w' & E' & Hp' & Hq & _);
    [apply elem_of_app; auto|lia|lia|].
  eapply wp_eq; [exact E'|]. split; [done|]. eapply quiet_calm; eauto.
Qed.

Lemma free_calm ex l w : pool_ok (l :: ex) w -> wp (free_chain l) w (calmly ex w).
Proof.
  intros Hp. destruct (free_chain_ok size qmax l ex w Hp) as (w' & E & Hp' & Hq).
  eapply wp_eq; [exact E|]. split; [done|]. eapply quiet_calm; eauto.
Qed.

Lemma status_calm ex i s code level desc w : pool_ok ex w -> short code = true -> short level = true ->
  short desc = true -> sessions w !! i = Some s -> Z.of_nat (length ex) < 2 ^ 30 ->
  wp (ngx_rtmp_send_status cscf i code level desc) w (calmly ex w).
Proof.
  intros Hp H1 H2 H3 E Hn.
  destruct (send_status_ok size qmax cscf size_pos max_streams fix_same ex w i s code level desc Hp H1 H2 H3 E Hn)
    as (rc & w' & x & E' & Hp' & Hq & _).
  eapply wp_eq; [exact E'|]. split; [done|]. eapply quiet_calm; eauto.
Qed.

Lemma access_calm ex i s w : pool_ok ex w -> sessions w !! i = Some s -> Z.of_nat (length ex) < 2 ^ 30 ->
  wp (ngx_rtmp_send_sample_access cscf i) w (calmly ex w).
Proof.
  intros Hp E Hn. unfold ngx_rtmp_send_sample_access.
  destruct (create_sample_access_ok size qmax cscf size_pos max_streams fix_same ex w Hp) as (l & w1 & E1 & Hp1 & Q1).
  destruct (shape_session w w1 i s (q_shape _ _ _ _ Q1) E) as (s1 & Es1 & _).
  destruct (send_shared_packet_ok size qmax size_pos ex w1 i s1 l Hp1 Es1 Hn) as (rc & w2 & x & E2 & Hp2 & Q2 & _).
  apply wp_bind. eapply wp_eq; [exact E1|]. eapply wp_eq; [exact E2|]. split; [done|].
  etransitivity; eapply quiet_calm; eauto.
Qed.

(** *** Subscribers *)

(** Sessions with a context. *)
Definition has_ctx (w : process) (j : sid) : Prop := exists s c, sessions w !! j = Some s /\ lctx s = Some c.

Lemma calm_has_ctx w w' j : calm w w' -> has_ctx w j -> has_ctx w' j.
Proof. intros H (s & c & E & El). destruct (calm_ctx _ _ _ _ _ H E El) as (s' & c' & E' & El' & _). now exists s', c'. Qed.

Definition all_in (ms : list (option loc)) (ex : list loc) : Prop := forall l, Some l ∈ ms -> l ∈ ex.

Lemma send_all_calm ex i ms : Z.of_nat (length ex) < 2 ^ 30 -> all_in ms ex -> forall s w, pool_ok ex w ->
  sessions w !! i = Some s -> wp (send_all i ms) w (calmly ex w).
Proof.
  intros Hn. induction ms as [|[l|] ms IH]; intros Hin s w Hp E; cbn [send_all].
  - apply wp_ret. split; [done|reflexivity].
  - eapply wp_step; [eapply send_calm; eauto; apply Hin, list_elem_of_here|].
    intros rc w1 [Hp1 C1]. destruct (is_ok rc); [|apply wp_ret; now split].
    destruct (calm_session _ _ _ _ C1 E) as (s1 & E1 & _).
    eapply wp_mono; [apply (IH ltac:(intros k Hk; apply Hin; now apply list_elem_of_further) s1 w1 Hp1 E1)|].
    intros b w2 H2. now apply (calmly_after _ _ w1).
  - apply (IH ltac:(intros k Hk; apply Hin; now apply list_elem_of_further) s w Hp E).
Qed.

Lemma set_subscriber_calm ex i s c control status a w :
  Z.of_nat (length ex) < 2 ^ 30 -> all_in (control :: status) ex -> pool_ok ex w ->
  sessions w !! i = Some s -> lctx s = Some c -> publishing c = false ->
  wp (set_subscriber i control status a) w (calmly ex w).
Proof.
  intros Hn Hin Hp E El Hpb. unfold set_subscriber. apply wp_bind, (wp_ctx_of i w s c); [done..|].
  destruct (Bool.eqb (active c) a); [apply wp_ret; split; [done|reflexivity]|].
  eapply wp_step; [eapply upd_ctx_calm; eauto; split; [done|congruence]|]. intros _ w1 [Hp1 C1].
  destruct (calm_ctx _ _ _ _ _ C1 E El) as (s1 & c1 & E1 & El1 & A1 & _).
  eapply wp_step; [eapply send_all_calm; eauto|].
  { intros l Hl. apply Hin. destruct (silent c); [|done]. apply list_elem_of_singleton in Hl as ->. apply list_elem_of_here. }
  intros ok w2 [Hp2 C2]. destruct (calm_ctx _ _ _ _ _ C2 E1 El1) as (s2 & c2 & E2 & El2 & A2 & _).
  pose proof (alike_publishing _ _ A1) as P1. pose proof (alike_publishing _ _ A2) as P2.
  assert (calm w w2) as C12 by (etransitivity; eauto).
  destruct ok; cbn [negb].
  - eapply wp_mono; [eapply upd_ctx_calm; eauto; split; [done|congruence]|]. intros [] w3 [Hp3 C3]. split; [done|].
    etransitivity; eauto.
  - eapply wp_mono; [eapply finalize_calm; eauto|]. intros [] w3 [Hp3 C3]. split; [done|]. etransitivity; eauto.
Qed.

(** A loop whose body keeps calm for sessions with a context. *)
Lemma for_each_calm ex (l : list sid) body w :
  (forall j w, j ∈ l -> pool_ok ex w -> has_ctx w j -> wp (body j) w (calmly ex w)) -> pool_ok ex w ->
  (forall j, j ∈ l -> has_ctx w j) -> wp (for_each l body) w (calmly ex w).
Proof.
  intros Hb. revert w. induction l as [|j l IH]; intros w Hp Hl; cbn [for_each].
  { apply wp_ret. split; [done|reflexivity]. }
  eapply wp_step; [apply Hb; [apply list_elem_of_here|done|apply Hl, list_elem_of_here]|].
  intros [] w1 [Hp1 C1]. eapply wp_mono; [apply IH; [|done|]|].
  - intros k w' Hk. apply Hb. now apply list_elem_of_further.
  - intros k Hk. eapply calm_has_ctx; [exact C1|]. apply Hl. now apply list_elem_of_further.
  - intros [] w2 H2. now apply (calmly_after _ _ w1).
Qed.

(** *** Starting and stopping *)

(** The context of a publisher that starts or stops its stream. *)
Definition turned (a : bool) (c : ngx_rtmp_live_ctx_t) : ngx_rtmp_live_ctx_t :=
  set_idle_evt (if negb (idle_timeout lacf =? 0) && Bool.eqb (idle_evt c) (negb a) then a else idle_evt c)
    (set_active a c).

(** What start and stop do to the tables: nothing for a subscriber. *)
Definition switch (i : sid) (a : bool) (w : process) : process :=
  match s ← sessions w !! i; c ← lctx s; st ← stream c; x ← heap w !! st; Some (s, c, st, x) with
  | Some (s, c, st, x) =>
      if publishing c && negb (Bool.eqb (active c) a) then
        put_stream st (set_st_active a x) (put_session i (set_lctx (Some (turned a c)) s) w)
      else w
  | None => w
  end.

Lemma switch_eq i a w s c st x : sessions w !! i = Some s -> lctx s = Some c -> stream c = Some st ->
  heap w !! st = Some x ->
  switch i a w = if publishing c && negb (Bool.eqb (active c) a) then
    put_stream st (set_st_active a x) (put_session i (set_lctx (Some (turned a c)) s) w) else w.
Proof. intros E1 E2 E3 E4. unfold switch. rewrite E1. cbn. rewrite E2. cbn. rewrite E3. cbn. now rewrite E4. Qed.

Lemma switch_same i a w s c : sessions w !! i = Some s -> lctx s = Some c ->
  publishing c && negb (Bool.eqb (active c) a) = false -> switch i a w = w.
Proof.
  intros E1 E2 E3. unfold switch. rewrite E1. cbn. rewrite E2. cbn. destruct (stream c) as [st|]; [|done]. cbn.
  destruct (heap w !! st); [|done]. cbn. now rewrite E3.
Qed.

Lemma put_put i s s' w : put_session i s' (put_session i s w) = put_session i s' w.
Proof. unfold put_session. cbn. now rewrite insert_insert_eq. Qed.

Lemma put_has_ctx i s w j : is_Some (lctx s) -> has_ctx w j -> has_ctx (put_session i s w) j.
Proof.
  intros [c Ec] (sj & cj & Ej & El). unfold has_ctx. cbn. destruct (decide (i = j)) as [<- |Hne].
  - rewrite lookup_insert_eq. eauto.
  - rewrite lookup_insert_ne by done. eauto.
Qed.

(** The members of the stream of a publisher are there. *)
Definition members_there (w : process) (c : ngx_rtmp_live_ctx_t) : Prop :=
  publishing c = true -> exists st x, stream c = Some st /\ heap w !! st = Some x /\ forall j, j ∈ ctx x -> has_ctx w j.

Lemma set_status_ok ex i s c control status a w :
  Z.of_nat (length ex) < 2 ^ 30 -> all_in (control :: status) ex -> pool_ok ex w ->
  sessions w !! i = Some s -> lctx s = Some c -> members_there w c ->
  wp (ngx_rtmp_live_set_status lacf i control status a) w (calmly ex (switch i a w)).
Proof.
  intros Hn Hin Hp E El Hm. unfold ngx_rtmp_live_set_status. apply wp_bind, (wp_ctx_of i w s c); [done..|].
  destruct (publishing c) eqn:Hpb; cbn [negb].
  2: { rewrite (switch_same i a w s c E El) by now rewrite Hpb. eapply set_subscriber_calm; eauto. }
  destruct (Hm Hpb) as (st & x & Est & Ex & Hx). rewrite (switch_eq i a w s c st x E El Est Ex), Hpb.
  destruct (Bool.eqb (active c) a); cbn [negb andb]; [apply wp_ret; split; [done|reflexivity]|].
  apply wp_bind. eapply wp_upd_ctx; eauto. intros Hp1. set (s1 := set_lctx (Some (set_active a c)) s) in *.
  assert (sessions (put_session i s1 w) !! i = Some s1) as E1 by apply lookup_insert_eq.
  assert (wp (when (negb (idle_timeout lacf =? 0) && Bool.eqb (idle_evt c) (negb a)) (upd_ctx i (set_idle_evt a)))
    (put_session i s1 w) (fun _ w' => pool_ok ex w' /\ w' = put_session i (set_lctx (Some (turned a c)) s) w)) as H2.
  { apply wp_when; intros Hi.
    - eapply wp_upd_ctx; [exact Hp1|exact E1|reflexivity|]. intros Hp2. split; [done|]. rewrite put_put.
      unfold turned. now rewrite Hi.
    - split; [done|]. unfold turned. rewrite Hi. unfold s1. now destruct c. }
  eapply wp_step; [exact H2|]. intros [] w2 [Hp2 ->]. apply wp_bind. eapply wp_access; [exact Est|].
  apply wp_bind. eapply wp_upd_stream; [exact Hp2|exact Ex|]. intros Hp3. apply wp_bind.
  eapply wp_stream_of; [apply lookup_insert_eq|]. eapply for_each_calm; [|exact Hp3|].
  - intros j w' Hj Hp' (sj & cj & Ej & Elj). unfold set_subscribers. apply wp_bind, (wp_ctx_of j w' sj cj); [done..|].
    apply wp_when; intros Hpj; [|split; [done|reflexivity]]. eapply set_subscriber_calm; eauto.
    now apply negb_true_iff.
  - intros j Hj. destruct (put_has_ctx i (set_lctx (Some (turned a c)) s) w j) as (sj & cj & Ej & Elj);
      [now eexists|now apply Hx|]. now exists sj, cj.
Qed.

Lemma alike_turned a c c' : publishing c = true -> alike c c' -> alike (turned a c) (turned a c').
Proof.
  intros Hp [Hk H]. destruct (H Hp) as [Ha Hok]. injection Hk as E1 E2 E3 E4. unfold turned. rewrite E3.
  split; [unfold key; cbn; congruence|]. auto.
Qed.

Lemma stream_shape_active a x x' : stream_shape x' = stream_shape x ->
  stream_shape (set_st_active a x') = stream_shape (set_st_active a x).
Proof. unfold stream_shape, set_bw, set_st_active. cbn. intros [= -> -> -> _ -> -> ->]. done. Qed.

(** A pair of replacements in processes that differ calmly. *)
Lemma put_session_calm i s1 s1' s s' w w' : calm w w' -> sessions w !! i = Some s -> sessions w' !! i = Some s' ->
  codec s1 = codec s -> codec s1' = codec s' -> sess_alike s1 s1' -> calm (put_session i s1 w) (put_session i s1' w').
Proof.
  intros C E E' Ek Ek' Hs. pose proof C as [A1 A2 A3 A4 A5]. split; try done.
  - intros j. cbn. destruct (decide (i = j)) as [<- |Hne]; [rewrite !lookup_insert_eq; now constructor|].
    rewrite !lookup_insert_ne by done. apply A1.
  - apply (codecs_kept_trans _ w); [|apply (codecs_kept_trans _ w'); [done|eapply put_codecs; eauto]].
    destruct (put_codecs i s s1 w E Ek) as [_ H2]. split; [now intros k _|]. intros k. now rewrite H2.
Qed.

Lemma put_stream_calm2 st x x' w w' : calm w w' -> stream_shape x' = stream_shape x ->
  calm (put_stream st x w) (put_stream st x' w').
Proof.
  intros [A1 A2 A3 A4 A5] Hx. split; try done. cbn. rewrite !fmap_insert. congruence.
Qed.

Lemma switch_calm i a w w' : calm w w' -> calm (switch i a w) (switch i a w').
Proof.
  intros C. destruct (sessions w !! i) as [s|] eqn:E.
  2: { pose proof (cm_sessions _ _ C i) as Hi. rewrite E in Hi. inversion Hi as [|E1 E2].
       unfold switch. now rewrite E, <- E2. }
  destruct (calm_session _ _ _ _ C E) as (s' & E' & Hs). pose proof Hs as (Hk & _ & Hl).
  destruct (lctx s) as [c|] eqn:El.
  2: { inversion Hl as [|E1 E2]. unfold switch. rewrite E, E'. cbn. now rewrite El, <- E2. }
  inversion Hl as [? c' Ha E1 E2|]. symmetry in E2. subst.
  destruct (publishing c && negb (Bool.eqb (active c) a)) eqn:Eb.
  2: { rewrite (switch_same i a w s c), (switch_same i a w' s' c'); auto. destruct Ha as [Hkey Ha].
       injection Hkey as _ -> _ _. destruct (publishing c) eqn:Hp; [|done]. now rewrite (proj1 (Ha eq_refl)). }
  pose proof Ha as [Hkey Hact]. injection Hkey as K1 K2 K3 K4. apply andb_true_iff in Eb as [Ep Eb].
  destruct (Hact Ep) as [Eact _]. unfold switch. rewrite E, E'. cbn. rewrite El, E2. cbn. rewrite K1.
  destruct (stream c) as [st|]; [|done]. cbn. destruct (heap w !! st) as [x|] eqn:Ex.
  - destruct (calm_stream _ _ _ _ C Ex) as (x' & Ex' & Hx). rewrite Ex'. cbn. rewrite K2, Eact, Ep, Eb. cbn.
    apply put_stream_calm2; [|now apply stream_shape_active].
    apply (put_session_calm i _ _ s s'); auto. split; [done|]. split; [apply Hs|]. cbn. constructor.
    now apply alike_turned.
  - cbn. destruct (heap w' !! st) as [x'|] eqn:Ex'; [|done].
    destruct (shape_lookup _ _ _ _ (cm_heap _ _ C) Ex') as (x & Ex0 & _). congruence.
Qed.

Lemma calm_members w w' c c' : calm w w' -> alike c c' -> members_there w c -> members_there w' c'.
Proof.
  intros C Ha Hm Hp. rewrite (alike_publishing _ _ Ha) in Hp. destruct (Hm Hp) as (st & x & Est & Ex & Hx).
  destruct (calm_stream _ _ _ _ C Ex) as (x' & Ex' & Hs). exists st, x'. destruct Ha as [[= -> _ _ _] _].
  split; [done|]. split; [done|]. injection Hs as _ -> _ _ _ _ _. intros j Hj. eapply calm_has_ctx; eauto.
Qed.

(** An operation that makes messages for its caller. *)
Definition makes (m : M (list (option loc))) : Prop :=
  forall ex w, pool_ok ex w -> wp m w (fun ms w' => exists ls, ms = map Some ls /\ (length ls <= 2)%nat /\
    pool_ok (ls ++ ex) w' /\ calm w w').

Lemma makes_none : makes (M_ret _ []).
Proof. intros ex w Hp. apply wp_ret. exists []. split; [done|]. split; [cbn; lia|]. split; [done|reflexivity]. Qed.

Lemma makes_status code level desc : short code = true -> short level = true -> short desc = true ->
  makes (a ← create_status cscf code level desc; mret [a]).
Proof.
  intros H1 H2 H3 ex w Hp.
  destruct (create_status_ok size qmax cscf size_pos max_streams fix_same ex w code level desc Hp H1 H2 H3)
    as (l & w' & E & Hp' & Q). apply wp_bind. eapply wp_eq; [exact E|]. apply wp_ret. exists [l].
  split; [done|]. split; [cbn; lia|]. split; [done|]. eapply quiet_calm; eauto.
Qed.

Lemma makes_start : makes (a ← create_status cscf "NetStream.Play.Start" "status" "Start live";
  b ← create_sample_access cscf; mret [a; b]).
Proof.
  intros ex w Hp.
  destruct (create_status_ok size qmax cscf size_pos max_streams fix_same ex w "NetStream.Play.Start" "status"
    "Start live" Hp eq_refl eq_refl eq_refl) as (l & w1 & E1 & Hp1 & Q1).
  destruct (create_sample_access_ok size qmax cscf size_pos max_streams fix_same (l :: ex) w1 Hp1) as (l2 & w2 & E2 & Hp2 & Q2).
  apply wp_bind. eapply wp_eq; [exact E1|]. apply wp_bind. eapply wp_eq; [exact E2|]. apply wp_ret. exists [l; l2].
  split; [done|]. split; [cbn; lia|]. split; [|etransitivity; eapply quiet_calm; eauto].
  revert Hp2. apply pool_ok_perm; [apply Permutation_swap|done].
Qed.

Lemma free_statuses ls ex w : pool_ok (ls ++ ex) w -> wp (for_each (map Some ls) free_status) w (calmly ex w).
Proof.
  revert w. induction ls as [|l ls IH]; intros w Hp; cbn [map for_each Datatypes.app].
  { apply wp_ret. split; [done|reflexivity]. }
  apply wp_bind. unfold free_status. apply wp_bind. eapply wp_access; [reflexivity|].
  eapply wp_mono; [apply free_calm; exact Hp|]. intros [] w1 [Hp1 C1]. eapply wp_mono; [now apply IH|].
  intros [] w2 H2. now apply (calmly_after _ _ w1).
Qed.

(** The common form of start and stop. *)
Lemma status_round i s c a w (mk : M loc) m1 m2 :
  (forall ex w, pool_ok ex w -> wp mk w (fun l w' => pool_ok (l :: ex) w' /\ calm w w')) -> makes m1 -> makes m2 ->
  pool_ok [] w -> sessions w !! i = Some s -> lctx s = Some c -> members_there w c ->
  wp (control ← mk; st1 ← m1; st2 ← m2; ngx_rtmp_live_set_status lacf i (Some control) (st1 ++ st2) a;;
      free_chain control;; for_each (st1 ++ st2) free_status) w (calmly [] (switch i a w)).
Proof.
  intros Hmk Hm1 Hm2 Hp E El Hm. eapply wp_step; [exact (Hmk [] w Hp)|]. intros ctl w1 [Hp1 C1].
  eapply wp_step; [exact (Hm1 _ _ Hp1)|]. intros ms1 w2 (ls1 & -> & N1 & Hp2 & C2).
  eapply wp_step; [exact (Hm2 _ _ Hp2)|]. intros ms2 w3 (ls2 & -> & N2 & Hp3 & C3).
  assert (calm w w3) as C by (etransitivity; [exact C1|]; etransitivity; eauto).
  destruct (calm_ctx _ _ _ _ _ C E El) as (s3 & c3 & E3 & El3 & A3 & _). rewrite <- map_app.
  set (ex := ls2 ++ ls1 ++ [ctl]) in *.
  eapply wp_step; [eapply (set_status_ok ex i s3 c3); eauto|].
  - unfold ex. rewrite !length_app. cbn [length]. lia.
  - intros l Hl. apply elem_of_cons in Hl as [[= ->]|Hl].
    + unfold ex. rewrite !elem_of_app, list_elem_of_singleton. auto.
    + apply list_elem_of_fmap in Hl as (k & [= ->] & Hk). unfold ex. rewrite !elem_of_app in *. tauto.
  - eapply calm_members; eauto.
  - intros [] w4 [Hp4 C4]. assert (ex ≡ₚ ctl :: (ls1 ++ ls2) ++ []) as Hex
      by (unfold ex; rewrite app_nil_r; solve_Permutation).
    apply (pool_ok_perm size qmax _ _ Hex w4 w4 eq_refl) in Hp4.
    eapply wp_step; [apply free_calm; exact Hp4|].
    intros [] w5 [Hp5 C5]. eapply wp_mono; [apply free_statuses; exact Hp5|]. intros [] w6 [Hp6 C6].
    split; [done|]. etransitivity; [exact (switch_calm i a w w3 C)|]. etransitivity; [exact C4|].
    etransitivity; eauto.
Qed.

Lemma control_made tp d : 0 <= tp < 256 -> bytes_ok d -> (length d <= 22)%nat -> forall ex w, pool_ok ex w ->
  wp (on_pool (fun p => Send.user_message cscf p tp d)) w (fun l w' => pool_ok (l :: ex) w' /\ calm w w').
Proof.
  intros Ht Hd Hn ex w Hp. destruct (message_ok size qmax cscf size_pos max_streams ex w tp d Hp Ht Hd Hn)
    as (l & w' & E & Hp' & Q). eapply wp_eq; [exact E|]. split; [done|]. eapply quiet_calm; eauto.
Qed.

Lemma start_ok i s c w : pool_ok [] w -> sessions w !! i = Some s -> lctx s = Some c -> members_there w c ->
  wp (ngx_rtmp_live_start cscf lacf i) w (calmly [] (switch i true w)).
Proof.
  intros Hp E El Hm. unfold ngx_rtmp_live_start. eapply status_round; eauto.
  - apply control_made; [done| |cbn; lia]. apply (bool_decide_unpack _); exact Logic.I.
  - destruct (play_restart lacf); [apply makes_start|apply makes_none].
  - destruct (publish_notify lacf); [now apply makes_status|apply makes_none].
Qed.

Lemma stop_ok i s c w : pool_ok [] w -> sessions w !! i = Some s -> lctx s = Some c -> members_there w c ->
  wp (ngx_rtmp_live_stop cscf lacf i) w (calmly [] (switch i false w)).
Proof.
  intros Hp E El Hm. unfold ngx_rtmp_live_stop. eapply status_round; eauto.
  - apply control_made; [done| |cbn; lia]. apply (bool_decide_unpack _); exact Logic.I.
  - destruct (play_restart lacf); [now apply makes_status|apply makes_none].
  - destruct (publish_notify lacf); [now apply makes_status|apply makes_none].
Qed.

(* ------------------------------------------------------------------ *)
(** ** The invariant *)

Definition ctxs (w : process) : contexts := omap lctx (sessions w).

Lemma ctxs_lookup w j c : ctxs w !! j = Some c <-> exists s, sessions w !! j = Some s /\ lctx s = Some c.
Proof.
  unfold ctxs. rewrite lookup_omap. destruct (sessions w !! j) as [s|]; cbn; [|split; [done|now intros (? & ? & _)]].
  split; [eauto|]. now intros (? & [= <-] & ?).
Qed.

Lemma ctxs_put i s c w : lctx s = Some c -> ctxs (put_session i s w) = <[i := c]> (ctxs w).
Proof. intros E. unfold ctxs. cbn. now apply omap_insert_Some. Qed.

Lemma ctxs_put_stream st x w : ctxs (put_stream st x w) = ctxs w.
Proof. done. Qed.

Definition tables (w : process) : Prop := tables_ok lacf (ctxs w) (heap w) (streams w) (free_streams w).

(** Sessions of HLS are known as such. *)
Definition hls_ok (w : process) : Prop := forall j s c, sessions w !! j = Some s -> lctx s = Some c ->
  is_Some (stream c) -> Queue.hls (queue s) = c_hls c.

(** The table of the relay module. *)
Record relays_ok (w : process) : Prop := {
  rl_some : relays w <> [];
  rl_heap : forall r, r ∈ concat (relays w) -> is_Some (relay_heap w !! r);
  rl_publish : forall r c p, relay_heap w !! r = Some c -> r_publish c = Some p -> is_Some (relay_heap w !! p);
  rl_session : forall r c, relay_heap w !! r = Some c -> is_Some (sessions w !! r_session c)
}.

(** What the codec module keeps can be sent. *)
Definition meta_fine (b : list Z) : Prop := exists mh mb, wire_of size cscf mh None mb b /\ body_ok cscf mb /\
  header_ok cscf mh /\ Chunk.type mh <= Chunk.NGX_RTMP_MSG_MAX /\ Chunk.csid mh = AmfSend.NGX_RTMP_CSID_AMF.
Definition codecs_fine (w : process) : Prop := forall j s k, sessions w !! j = Some s -> codec s = Some k ->
  (forall l, Codec.avc_header (Codec.chains k) = Some l \/ Codec.aac_header (Codec.chains k) = Some l ->
    body_ok cscf (Queue.chain_bytes (mem w) l)) /\
  (forall l, Codec.meta (Codec.chains k) = Some l -> meta_fine (Queue.chain_bytes (mem w) l)).

Record env_ok (w : process) : Prop := {
  en_ids : dom (sessions w) = ids;
  en_hls : hls_ok w;
  en_relays : relays_ok w;
  en_codecs : codecs_fine w
}.

Record live_ok (w : process) : Prop := {
  lo_pool : pool_ok [] w;
  lo_tables : tables w;
  lo_full : no_empty (heap w) (streams w);
  lo_env : env_ok w
}.

Lemma calm_ctxs w w' j : calm w w' -> option_Forall2 alike (ctxs w !! j) (ctxs w' !! j).
Proof.
  intros C. unfold ctxs. rewrite !lookup_omap. pose proof (cm_sessions _ _ C j) as Hj.
  destruct Hj as [s s' (_ & _ & Hl)|]; [exact Hl|constructor].
Qed.

Lemma tables_calm w w' : calm w w' -> tables w -> tables w'.
Proof.
  intros C. unfold tables. destruct (cm_tables _ _ C) as [-> ->]. apply tables_alike; [|apply C].
  intros j. now apply calm_ctxs.
Qed.

Lemma hls_calm w w' : calm w w' -> hls_ok w -> hls_ok w'.
Proof.
  intros C H j s' c' E' El' Hs. pose proof (cm_sessions _ _ C j) as Hj. rewrite E' in Hj.
  inversion Hj as [s ? (_ & Hk & Hl) E1 E2|]; subst. rewrite El' in Hl. inversion Hl as [c ? [Hkey _] E3 E4|]; subst.
  injection Hkey as K1 K2 K3 K4. injection Hk as Hh _ _. rewrite Hh, K4. symmetry in E1, E3. eapply (H j s c E1 E3).
  now rewrite <- K1.
Qed.

Lemma relays_calm w w' : calm w w' -> relays_ok w -> relays_ok w'.
Proof.
  intros C [H1 H2 H3 H4]. destruct (cm_relays _ _ C) as [Eh Er].
  assert (forall r, is_Some (relay_heap w' !! r) <-> is_Some (relay_heap w !! r)) as Hs.
  { intros r. rewrite <- (fmap_is_Some relay_shape (relay_heap w' !! r)), <- (fmap_is_Some relay_shape (relay_heap w !! r)).
    now rewrite <- !lookup_fmap, Eh. }
  assert (forall r c, relay_heap w' !! r = Some c -> exists c0, relay_heap w !! r = Some c0 /\ relay_shape c = relay_shape c0) as Hl.
  { intros r c E. assert ((relay_shape <$> relay_heap w) !! r = Some (relay_shape c)) as E'
      by now rewrite <- Eh, lookup_fmap, E. rewrite lookup_fmap in E'. destruct (relay_heap w !! r) as [c0|]; [|done].
    exists c0. split; [done|]. now apply (inj Some) in E'. }
  split.
  - now rewrite Er.
  - intros r. rewrite Er, Hs. auto.
  - intros r c p E Ep. destruct (Hl r c E) as (c0 & E0 & Hc). rewrite Hs. injection Hc as _ _ Hp _ _.
    rewrite Hp in Ep. eauto.
  - intros r c E. destruct (Hl r c E) as (c0 & E0 & Hc). injection Hc as _ _ _ _ ->.
    destruct (H4 r c0 E0) as [s Es]. destruct (calm_session _ _ _ _ C Es) as (s' & Es' & _). eauto.
Qed.

Lemma codec_elem k l : Codec.avc_header (Codec.chains k) = Some l \/ Codec.aac_header (Codec.chains k) = Some l \/
  Codec.meta (Codec.chains k) = Some l -> l ∈ Codec.ctx_refs (Some k).
Proof.
  unfold Codec.ctx_refs. intros [E|[E|E]]; rewrite E, !elem_of_app; cbn [Codec.opt_list];
    rewrite list_elem_of_singleton; tauto.
Qed.

Lemma codecs_calm w w' : calm w w' -> codecs_fine w -> codecs_fine w'.
Proof.
  intros C H j s' k E' Ek. pose proof (cm_sessions _ _ C j) as Hj. rewrite E' in Hj.
  inversion Hj as [s ? (Hc & _ & _) E1 E2|]; subst. rewrite Hc in Ek. symmetry in E1. destruct (H j s k E1 Ek) as [H1 H2].
  assert (forall l, l ∈ Codec.ctx_refs (Some k) -> Queue.chain_bytes (mem w') l = Queue.chain_bytes (mem w) l) as Hb.
  { intros l Hl. destruct (cm_codecs _ _ C) as [Hb _]. apply Hb. cbn. apply codec_refs_elem. exists j, s.
    split; [done|]. now rewrite Ek. }
  split; intros l Hl; rewrite Hb by (apply codec_elem; tauto); auto.
Qed.

Lemma env_calm w w' : calm w w' -> env_ok w -> env_ok w'.
Proof.
  intros C [H0 H1 H2 H3]. split; [|eapply hls_calm|eapply relays_calm|eapply codecs_calm]; eauto.
  rewrite <- H0. apply set_eq. intros j. rewrite !elem_of_dom. pose proof (cm_sessions _ _ C j) as Hj.
  destruct (sessions w !! j), (sessions w' !! j); inversion Hj; (split; [eauto|]); intros [? [=]]; eauto.
Qed.

Lemma full_calm w w' : calm w w' -> no_empty (heap w) (streams w) -> no_empty (heap w') (streams w').
Proof. intros C. destruct (cm_tables _ _ C) as [-> _]. apply no_empty_shape. apply C. Qed.

(** Calm operations keep the invariant. *)
Lemma live_calm w w' : live_ok w -> pool_ok [] w' -> calm w w' -> live_ok w'.
Proof.
  intros [H1 H2 H3 H4] Hp C. split; [done|eapply tables_calm|eapply full_calm|eapply env_calm]; eauto.
Qed.

(** The environment does not depend on streams, and hardly on contexts. *)
Lemma env_put_stream st x w : env_ok w -> env_ok (put_stream st x w).
Proof. intros [H0 H1 [H2 H2' H2'' H2'''] H3]. split; [exact H0|exact H1|now split|exact H3]. Qed.

Lemma env_put_ctx i s c w : env_ok w -> sessions w !! i = Some s ->
  (is_Some (stream c) -> Queue.hls (queue s) = c_hls c) -> env_ok (put_session i (set_lctx (Some c) s) w).
Proof.
  intros [H0 H1 [R1 R2 R3 R4] H3] E Hc. split.
  - cbn. rewrite dom_insert_lookup_L by eauto. exact H0.
  - intros j sj cj [[<- <-]|[_ Ej]]%put_lookup El Hs; [|eauto]. cbn in El. injection El as <-. auto.
  - split; auto. intros r cr Er. cbn. destruct (decide (i = r_session cr)) as [<- |Hne].
    + rewrite lookup_insert_eq. eauto.
    + rewrite lookup_insert_ne by done. eauto.
  - intros j sj k [[<- <-]|[_ Ej]]%put_lookup Ek; [|eauto]. exact (H3 i s k E Ek).
Qed.

(** *** Start and stop keep the invariant *)

Lemma joined_stream w i s c st : tables w -> sessions w !! i = Some s -> lctx s = Some c -> stream c = Some st ->
  st ∈ concat (streams w) /\ exists x, heap w !! st = Some x /\ stream_ok (ctxs w) st x.
Proof.
  intros Ht E El Es. assert (on (ctxs w) st i c) as Ho by (split; [apply ctxs_lookup; eauto|done]).
  pose proof (tb_joined _ _ _ _ _ Ht _ _ _ Ho) as Hst. split; [done|].
  destruct (proj2 (tb_all _ _ _ _ _ Ht st)) as [x Ex]; [apply elem_of_app; auto|].
  exists x. split; [done|]. eapply tb_streams; eauto.
Qed.

Lemma member_ctx w st x j : stream_ok (ctxs w) st x -> j ∈ ctx x -> has_ctx w j.
Proof. intros Hs [c [(s & E & El)%ctxs_lookup _]]%(sk_members _ _ _ Hs). now exists s, c. Qed.

Lemma tables_members w i s c : tables w -> sessions w !! i = Some s -> lctx s = Some c -> is_Some (stream c) ->
  members_there w c.
Proof.
  intros Ht E El [st Es] _. destruct (joined_stream w i s c st Ht E El Es) as (Hst & x & Ex & Hok).
  exists st, x. split; [done|]. split; [done|]. intros j. now apply (member_ctx w st).
Qed.

Lemma turned_idle a c : idle_ok lacf c -> Bool.eqb (active c) a = false -> idle_evt (turned a c) = true ->
  a = true /\ idle_timeout lacf <> 0.
Proof.
  intros Hi Ha. unfold turned. cbn. destruct (_ && _) eqn:Eb.
  - intros ->. apply andb_true_iff in Eb as [Eb%negb_true_iff%Z.eqb_neq _]. done.
  - intros Hc. destruct (Hi Hc) as (_ & Hac & _ & Hto). rewrite Hac in Ha. destruct a; [done|].
    rewrite Hc in Eb. cbn in Eb. rewrite andb_true_r in Eb. apply negb_false_iff, Z.eqb_eq in Eb. done.
Qed.

Lemma tables_switch i a w : tables w -> tables (switch i a w).
Proof.
  intros Ht. unfold switch.
  destruct (sessions w !! i) as [s|] eqn:E; [|done]. cbn. destruct (lctx s) as [c|] eqn:El; [|done]. cbn.
  destruct (stream c) as [st|] eqn:Es; [|done]. cbn. destruct (heap w !! st) as [x|] eqn:Ex; [|done]. cbn.
  destruct (publishing c && negb (Bool.eqb (active c) a)) eqn:Eb; [|done].
  apply andb_true_iff in Eb as [Hp Ha%negb_true_iff].
  assert (ctxs w !! i = Some c) as Hc by (apply ctxs_lookup; eauto).
  unfold tables. rewrite ctxs_put_stream, (ctxs_put i _ (turned a c)) by done.
  apply tables_status; auto; [now split|]. apply (turned_idle a c); [|done]. eapply tb_idle; eauto.
Qed.

Lemma full_switch i a w : no_empty (heap w) (streams w) -> no_empty (heap (switch i a w)) (streams (switch i a w)).
Proof.
  intros H. unfold switch.
  destruct (sessions w !! i) as [s|]; [|done]. cbn. destruct (lctx s) as [c|]; [|done]. cbn.
  destruct (stream c) as [st|]; [|done]. cbn. destruct (heap w !! st) as [x|] eqn:Ex; [|done]. cbn.
  destruct (_ && _); [|done]. intros k y Hk [[<- <-]|[_ Ey]]%put_stream_lookup; [|now apply (H k y)].
  exact (H st x Hk Ex).
Qed.

Lemma env_switch i a w : env_ok w -> env_ok (switch i a w).
Proof.
  intros H. unfold switch.
  destruct (sessions w !! i) as [s|] eqn:E; [|done]. cbn. destruct (lctx s) as [c|] eqn:El; [|done]. cbn.
  destruct (stream c) as [st|] eqn:Es; [|done]. cbn. destruct (heap w !! st) as [x|] eqn:Ex; [|done]. cbn.
  destruct (_ && _); [|done]. apply env_put_stream, env_put_ctx; [done..|]. intros Hs. cbn.
  exact (en_hls _ H i s c E El Hs).
Qed.

Lemma live_switch i a w w' : live_ok w -> pool_ok [] w' -> calm (switch i a w) w' -> live_ok w'.
Proof.
  intros [H1 H2 H3 H4] Hp C. split; [done|..].
  - eapply tables_calm; [exact C|]. now apply tables_switch.
  - eapply full_calm; [exact C|]. now apply full_switch.
  - eapply env_calm; [exact C|]. now apply env_switch.
Qed.

Definition keeps {A} (_ : A) (w : process) : Prop := live_ok w.

Lemma turn_live (on : bool) i s c w : live_ok w -> sessions w !! i = Some s -> lctx s = Some c -> is_Some (stream c) ->
  wp (if on then ngx_rtmp_live_start cscf lacf i else ngx_rtmp_live_stop cscf lacf i) w keeps.
Proof.
  intros H E El Es. pose proof (tables_members w i s c (lo_tables _ H) E El Es) as Hm. pose proof (lo_pool _ H) as Hp.
  eapply wp_mono; [destruct on; [eapply start_ok|eapply stop_ok]; eauto|].
  intros [] w' [Hp' C]. exact (live_switch i on w w' H Hp' C).
Qed.

(** *** Relay contexts *)

Lemma find_relay_some (h : gmap rid relay_ctx) test l : (forall r, r ∈ l -> is_Some (h !! r)) ->
  exists r, find_relay h test l = Some r /\ forall x c, r = Some (x, c) -> h !! x = Some c.
Proof.
  induction l as [|r l IH]; intros Hl; cbn [find_relay]; [now exists None|].
  destruct (Hl r (list_elem_of_here _ _)) as [c Ec]. rewrite Ec. cbn [mbind option_bind].
  destruct (test c); [exists (Some (r, c)); split; [done|]; now intros ? ? [= <- <-]|].
  apply IH. intros k Hk. apply Hl. now apply list_elem_of_further.
Qed.

Lemma relay_bucket_ok nm w Q : relays_ok w -> (forall l, (forall r, r ∈ l -> is_Some (relay_heap w !! r)) -> Q l w) ->
  wp (relay_bucket nm) w Q.
Proof.
  intros [H1 H2 _ _] HQ. set (b := Z.to_nat (ngx_hash_key nm mod Z.of_nat (length (relays w)))).
  assert (is_Some (relays w !! b)) as [l El].
  { apply lookup_lt_is_Some. unfold b. destruct (relays w) as [|x t] eqn:Er; [done|]. rewrite <- Er.
    assert (0 < Z.of_nat (length (relays w))) as Hpos by (rewrite Er; cbn; lia).
    pose proof (Z.mod_pos_bound (ngx_hash_key nm) _ Hpos). lia. }
  eapply wp_access; [exact El|]. apply HQ. intros r Hr. apply H2. apply list_elem_of_In, in_concat. exists l.
  split; apply list_elem_of_In; [|done]. eapply list_elem_of_lookup_2; eauto.
Qed.

Lemma relaying_ok nm w (Q : ngx_rc -> process -> Prop) : relays_ok w -> (forall rc, Q rc w) ->
  wp (ngx_rtmp_relay_relaying nm) w Q.
Proof.
  intros H HQ. unfold ngx_rtmp_relay_relaying. apply wp_bind, relay_bucket_ok; [done|]. intros l Hl.
  destruct (find_relay_some (relay_heap w) (fun c => bool_decide (take (length nm) (r_name c ++ r_behind c) = nm)) l Hl)
    as (r & Er & _). apply wp_bind. eapply wp_access; [exact Er|]. apply wp_ret, HQ.
Qed.

Lemma idle_relay_ok nm w (Q : option (option (rid * relay_ctx)) -> process -> Prop) : relays_ok w ->
  (forall r, (forall p pc, r = Some (Some (p, pc)) -> relay_heap w !! p = Some pc) -> Q r w) -> wp (idle_relay nm) w Q.
Proof.
  intros H HQ. unfold idle_relay. apply wp_bind, relay_bucket_ok; [done|]. intros l Hl.
  destruct (find_relay_some (relay_heap w) (fun c => bool_decide (r_name c = nm)) l Hl) as (r & Er & Hr).
  apply wp_bind. eapply wp_access; [exact Er|]. destruct r as [[x c]|]; [|apply wp_ret, HQ; done].
  specialize (Hr x c eq_refl). destruct (r_publish c) as [p|] eqn:Ep; [|apply wp_ret, HQ; done].
  destruct (rl_publish _ H x c p Hr Ep) as [pc Epc]. apply wp_bind. eapply wp_access; [exact Epc|].
  apply wp_ret, HQ. intros p' pc'. now destruct (r_play pc); intros [= <- <-].
Qed.

Lemma hold_calm b p pc w : relay_heap w !! p = Some pc -> pool_ok [] w -> wp (set_hold_evt b (p, pc)) w (calmly [] w).
Proof.
  intros E Hp. eapply wp_eq; [reflexivity|]. split.
  - destruct Hp as [lv [P1 P2 P3 P4]]. exists lv. now split.
  - split; try done. cbn. split; [|done].
    now rewrite fmap_insert, (insert_id (relay_shape <$> relay_heap w)) by now rewrite lookup_fmap, E.
Qed.

Lemma player_dry_calm i s nm w : relays_ok w -> pool_ok [] w -> sessions w !! i = Some s ->
  wp (ngx_rtmp_relay_player_dry i nm) w (calmly [] w).
Proof.
  intros H Hp E. unfold ngx_rtmp_relay_player_dry. apply wp_bind, idle_relay_ok; [done|]. intros r Hr.
  assert (forall rc : ngx_rc, wp (M_ret _ rc) w (calmly [] w)) as Hret
    by (intros rc; apply wp_ret; split; [done|reflexivity]).
  destruct r as [[[p pc]|]|]; [|apply Hret..]. specialize (Hr p pc eq_refl).
  apply wp_bind, (wp_session_of i w s); [done|]. eapply wp_step with (P := calmly [] w).
  - destruct (Queue.hls (queue s)).
    + apply wp_when; intros _; [now apply hold_calm|]. split; [done|reflexivity].
    + destruct (rl_session _ H p pc Hr) as [sp Esp]. eapply finalize_calm; eauto.
  - intros [] w' Hw'. now apply wp_ret.
Qed.

Lemma player_new_calm nm w : relays_ok w -> pool_ok [] w -> wp (ngx_rtmp_relay_player_new nm) w (calmly [] w).
Proof.
  intros H Hp. unfold ngx_rtmp_relay_player_new. apply wp_bind, idle_relay_ok; [done|]. intros r Hr.
  assert (forall rc : ngx_rc, wp (M_ret _ rc) w (calmly [] w)) as Hret
    by (intros rc; apply wp_ret; split; [done|reflexivity]).
  destruct r as [[[p pc]|]|]; [|apply Hret..]. specialize (Hr p pc eq_refl).
  eapply wp_step with (P := calmly [] w); [|intros [] w' Hw'; now apply wp_ret].
  apply wp_when; intros _; [now apply hold_calm|]. split; [done|reflexivity].
Qed.

(** *** Leaving a stream *)

(** The process without session [i] in its stream. *)
Definition gone (i : sid) (w : process) : process :=
  match s ← sessions w !! i; c ← lctx s; Some (s, c) with
  | Some (s, c) => put_session i (set_lctx (Some (set_stream None c)) s) w
  | None => w
  end.

Lemma gone_eq i s c w : sessions w !! i = Some s -> lctx s = Some c ->
  gone i w = put_session i (set_lctx (Some (set_stream None c)) s) w.
Proof. intros E El. unfold gone. rewrite E. cbn. now rewrite El. Qed.

Lemma gone_ctxs i s c w : sessions w !! i = Some s -> lctx s = Some c ->
  ctxs (gone i w) = <[i := set_stream None c]> (ctxs w).
Proof. intros E El. rewrite (gone_eq i s c w E El). now apply ctxs_put. Qed.

Lemma gone_fields i w : heap (gone i w) = heap w /\ streams (gone i w) = streams w /\
  free_streams (gone i w) = free_streams w.
Proof. unfold gone. destruct (_ ≫= _) as [[s c]|]; done. Qed.

Lemma gone_put_stream i st x w : gone i (put_stream st x w) = put_stream st x (gone i w).
Proof. unfold gone. cbn. destruct (_ ≫= _) as [[s c]|]; done. Qed.

Lemma gone_calm i w w' : has_ctx w i -> calm w w' -> calm (gone i w) (gone i w').
Proof.
  intros (s & c & E & El) C. destruct (calm_ctx _ _ _ _ _ C E El) as (s' & c' & E' & El' & A & Hs).
  rewrite (gone_eq i s c w E El), (gone_eq i s' c' w' E' El').
  apply (put_session_calm i _ _ s s'); auto. split; [apply Hs|]. split; [apply Hs|]. cbn. constructor.
  destruct A as [Hk Ha]. injection Hk as K1 K2 K3 K4. split; [unfold key; cbn; congruence|exact Ha].
Qed.

(** Session [i] has left the chain of [st] but still refers to it. *)
Record leaving (i : sid) (st : stid) (w : process) : Prop := {
  lv_pool : pool_ok [] w;
  lv_tables : tables (gone i w);
  lv_full : forall k x, k <> st -> k ∈ concat (streams w) -> heap w !! k = Some x -> ctx x <> [];
  lv_env : env_ok w;
  lv_stream : st ∈ concat (streams w);
  lv_ctx : has_ctx w i
}.

Lemma leaving_calm i st w w' : leaving i st w -> pool_ok [] w' -> calm w w' -> leaving i st w'.
Proof.
  intros [H1 H2 H3 H4 H5 H6] Hp C. destruct (cm_tables _ _ C) as [Et _]. split.
  - done.
  - eapply tables_calm; [|exact H2]. now apply gone_calm.
  - rewrite Et. intros k x' Hne Hk Ex. destruct (shape_lookup _ _ _ _ (cm_heap _ _ C) Ex) as (x & Ex' & Hx).
    injection Hx as _ -> _ _ _ _ _. eauto.
  - eapply env_calm; eauto.
  - now rewrite Et.
  - eapply calm_has_ctx; eauto.
Qed.

Lemma leaving_stream i st w : leaving i st w -> exists x, heap w !! st = Some x /\ stream_ok (ctxs (gone i w)) st x.
Proof.
  intros H. destruct (gone_fields i w) as (E1 & E2 & E3). pose proof (lv_tables _ _ _ H) as Ht.
  pose proof (lv_stream _ _ _ H) as Hst. unfold tables in Ht. rewrite E1, E2, E3 in Ht.
  destruct (proj2 (tb_all _ _ _ _ _ Ht st)) as [x Ex]; [apply elem_of_app; auto|].
  exists x. split; [done|]. eapply tb_streams; eauto.
Qed.

Lemma leaving_member i st w x j : leaving i st w -> stream_ok (ctxs (gone i w)) st x -> j ∈ ctx x -> has_ctx w j.
Proof.
  intros H Hx Hj. destruct (decide (j = i)) as [-> |Hne]; [apply H|].
  destruct (member_ctx _ _ _ _ Hx Hj) as (s & c & E & El).
  destruct (lv_ctx _ _ _ H) as (si & ci & Ei & Eli). rewrite (gone_eq i si ci w Ei Eli) in E.
  apply put_lookup in E as [[? _]|[_ E]]; [congruence|]. now exists s, c.
Qed.

Lemma leaving_check i st w x b : leaving i st w -> heap w !! st = Some x -> pool_ok [] (put_stream st (set_check_evt b x) w) ->
  (b = true -> st_publishing x = false) -> leaving i st (put_stream st (set_check_evt b x) w).
Proof.
  intros [H1 H2 H3 H4 H5 H6] Ex Hp Hb. destruct (gone_fields i w) as (E1 & E2 & E3). split; try done.
  - rewrite gone_put_stream. unfold tables in *. rewrite ctxs_put_stream. cbn.
    rewrite E1, E2, E3 in *. apply tables_check; auto.
  - intros k y Hne Hk [[<- <-]|[_ Ey]]%put_stream_lookup; [done|eauto].
  - now apply env_put_stream.
Qed.

(** *** The timer that asks for a publisher *)

Lemma checking_publish_ok st x w Q : pool_ok [] w -> heap w !! st = Some x -> ctx x <> [] ->
  (forall j, j ∈ ctx x -> has_ctx w j) ->
  (forall w', pool_ok [] w' -> w' = w \/ w' = put_stream st (set_check_evt true x) w -> Q NGX_OK w') ->
  wp (ngx_rtmp_live_checking_publish st) w Q.
Proof.
  intros Hp Ex Hne Hm HQ. unfold ngx_rtmp_live_checking_publish. apply wp_bind, (wp_stream_of st w x); [done|].
  destruct (check_evt x); [apply wp_ret; auto|]. destruct (ctx x) as [|j l] eqn:Ec; [done|].
  apply wp_bind. eapply wp_access; [reflexivity|]. destruct (Hm j (list_elem_of_here _ _)) as (s & c & E & _).
  apply wp_bind, (wp_session_of j w s); [done|]. apply wp_bind. eapply wp_upd_stream; eauto. intros Hp'.
  apply wp_ret. auto.
Qed.

Lemma keep_subscribers_calm l : forall n w, pool_ok [] w -> (forall j, j ∈ l -> has_ctx w j) ->
  wp (fold_each l keep_subscriber n) w (fun m w' => pool_ok [] w' /\ calm w w' /\ (l = [] -> m = n)).
Proof.
  induction l as [|j l IH]; intros n w Hp Hl; cbn [fold_each].
  { apply wp_ret. split; [done|]. split; [reflexivity|done]. }
  assert (wp (keep_subscriber j n) w (calmly [] w)) as H1.
  { destruct (Hl j (list_elem_of_here _ _)) as (s & c & E & El). unfold keep_subscriber.
    apply wp_bind, (wp_ctx_of j w s c); [done..|].
    destruct (publishing c); [apply wp_ret; split; [done|reflexivity]|].
    apply wp_bind, (wp_session_of j w s); [done|]. eapply wp_step with (P := calmly [] w).
    - apply wp_when; intros _; [eapply finalize_calm; eauto|]. split; [done|reflexivity].
    - intros [] w' Hw. now apply wp_ret. }
  eapply wp_step; [exact H1|]. intros m w1 [Hp1 C1]. eapply wp_mono; [apply IH; [done|]|].
  - intros k Hk. eapply calm_has_ctx; [exact C1|]. apply Hl. now apply list_elem_of_further.
  - intros m' w2 (Hp2 & C2 & _). split; [done|]. split; [etransitivity; eauto|done].
Qed.

Lemma drop_subscribers_calm l w : pool_ok [] w -> (forall j, j ∈ l -> has_ctx w j) ->
  wp (for_each l drop_subscriber) w (calmly [] w).
Proof.
  intros Hp Hl. apply for_each_calm; [|done|done]. intros j w' _ Hp' (s & c & E & El). unfold drop_subscriber.
  apply wp_bind, (wp_ctx_of j w' s c); [done..|].
  apply wp_when; intros _; [eapply finalize_calm; eauto|]. split; [done|reflexivity].
Qed.

(** A leaving process whose stream has no publisher. *)
Definition leaving_unpublished (i : sid) (st : stid) (w : process) : Prop :=
  leaving i st w /\ exists x, heap w !! st = Some x /\ st_publishing x = false.

Lemma unpublished_calm i st w w' : leaving_unpublished i st w -> pool_ok [] w' -> calm w w' -> leaving_unpublished i st w'.
Proof.
  intros [H (x & Ex & Hx)] Hp C. split; [eapply leaving_calm; eauto|].
  destruct (calm_stream _ _ _ _ C Ex) as (x' & Ex' & Hs). exists x'. split; [done|]. injection Hs as _ _ _ _ Hp' _ _. congruence.
Qed.

Lemma publisher_leaves_ok i st w : leaving_unpublished i st w ->
  wp (publisher_leaves cscf lacf i st) w (fun _ w' => leaving i st w').
Proof.
  intros H. unfold publisher_leaves. destruct (lv_ctx _ _ _ (proj1 H)) as (s & c & E & _).
  eapply wp_step; [eapply status_calm; [apply H|reflexivity..|exact E|cbn; lia]|]. intros rc w1 [Hp1 C1].
  pose proof (unpublished_calm _ _ _ _ H Hp1 C1) as H1. destruct H1 as [H1 (x1 & Ex1 & Px1)].
  apply wp_bind. eapply wp_upd_stream; [exact Hp1|exact Ex1|]. intros Hp2.
  assert (leaving_unpublished i st (put_stream st (reset_rates x1) w1)) as H2.
  { eapply unpublished_calm; [|exact Hp2|now apply (put_stream_calm st x1)]. split; [done|eauto]. }
  set (w2 := put_stream st (reset_rates x1) w1) in *.
  apply wp_bind. eapply wp_eq; [reflexivity|].
  assert (leaving_unpublished i st (set_counts (decrement (ngx_rtmp_publishing w2)) (ngx_rtmp_playing w2) w2)) as H3.
  { eapply unpublished_calm; [exact H2| |apply counts_calm]. destruct Hp2 as [lv [P1 P2 P3 P4]]. exists lv. now split. }
  set (w3 := set_counts _ _ w2) in *. clearbody w3. clear - H3 size_pos max_streams fix_same buckets_pos.
  pose proof H3 as [H4 (x & Ex & Px)]. destruct (leaving_stream _ _ _ H4) as (x' & Ex' & Hx).
  rewrite Ex in Ex'. injection Ex' as <-. apply wp_bind, (wp_stream_of st w3 x); [done|].
  pose proof (fun j => leaving_member i st w3 x j H4 Hx) as Hm. destruct (idle_streams lacf); cbn [negb].
  - eapply wp_step; [apply keep_subscribers_calm; [apply H4|exact Hm]|]. intros n w4 (Hp4 & C4 & Hn).
    pose proof (unpublished_calm _ _ _ _ H3 Hp4 C4) as [H5 (x4 & Ex4 & Px4)].
    apply wp_when; intros Hn0; [|done]. destruct (leaving_stream _ _ _ H5) as (x' & Ex' & Hx4).
    rewrite Ex4 in Ex'. injection Ex' as <-. apply wp_bind. eapply (checking_publish_ok st x4); auto.
    + intros Hc. destruct (calm_stream _ _ _ _ C4 Ex) as (x' & Ex' & Hs). rewrite Ex4 in Ex'. injection Ex' as <-.
      injection Hs as _ Hc' _ _ _ _ _. rewrite Hc in Hc'. rewrite (Hn (eq_sym Hc')) in Hn0. done.
    + intros j. now apply (leaving_member i st).
    + intros w5 Hp5 [-> | ->]; apply wp_ret; [done|]. now apply leaving_check.
  - eapply wp_mono; [apply drop_subscribers_calm; [apply H4|exact Hm]|]. intros [] w4 [Hp4 C4]. eapply leaving_calm; eauto.
Qed.

Lemma subscriber_leaves_ok i st w : leaving i st w -> wp (subscriber_leaves i st) w (fun _ w' => leaving i st w').
Proof.
  intros H. unfold subscriber_leaves. destruct (leaving_stream _ _ _ H) as (x & Ex & Hx).
  destruct (lv_ctx _ _ _ H) as (s & c & E & _). apply wp_bind, (wp_stream_of st w x); [done|].
  eapply wp_step with (P := calmly [] w).
  - assert (calmly [] w tt w) as Hr by (split; [apply H|reflexivity]).
    destruct (ctx x) as [|j [|k l]] eqn:Ec; [now apply wp_ret| |now apply wp_ret].
    destruct (leaving_member i st w x j H Hx) as (sj & cj & Ej & Elj); [rewrite Ec; apply list_elem_of_here|].
    apply wp_bind, (wp_ctx_of j w sj cj); [done..|]. apply wp_when; intros _; [|done].
    eapply wp_step; [eapply player_dry_calm; [apply (en_relays _ (lv_env _ _ _ H))|apply H|exact E]|].
    intros rc w' Hw. now apply wp_ret.
  - intros [] w1 [Hp1 C1]. eapply wp_eq; [reflexivity|]. eapply leaving_calm; [exact H| |].
    + destruct Hp1 as [lv [P1 P2 P3 P4]]. exists lv. now split.
    + etransitivity; [exact C1|]. apply counts_calm.
Qed.

(** The last session leaves. *)
Lemma delete_stream_ok i st w x : leaving i st w -> heap w !! st = Some x -> ctx x = [] ->
  wp (delete_stream cscf lacf i st) w keeps.
Proof.
  intros H Ex Ec. unfold delete_stream. apply wp_bind. eapply wp_upd_stream; [apply H|exact Ex|]. intros Hp1.
  pose proof (leaving_check i st w x false H Ex Hp1 ltac:(done)) as H1. set (w1 := put_stream st _ w) in *.
  set (x1 := set_check_evt false x). assert (heap w1 !! st = Some x1) as Ex1 by apply lookup_insert_eq.
  apply wp_bind, (wp_stream_of st w1 x1); [done|]. clearbody w1. clear H Hp1.
  pose proof (lv_tables _ _ _ H1) as Ht. destruct (gone_fields i w1) as (G1 & G2 & G3). unfold tables in Ht.
  rewrite G1, G2, G3 in Ht. unfold ngx_rtmp_live_get_stream.
  destruct (bucket_in lacf buckets_pos (name x1) _ _ _ _ Ht) as [l El]. cbv zeta.
  apply wp_bind, wp_bind. eapply wp_access; [exact El|]. apply wp_bind.
  destruct (find_name_spec (heap w1) (name x1) l) as (r & Er & Hr).
  { intros k Hk. now apply (bucket_elem lacf _ _ _ _ _ _ _ Ht El). }
  eapply wp_access; [exact Er|]. pose proof (lv_stream _ _ _ H1) as Hst. destruct r as [n|].
  2: { exfalso. exact (name_missing lacf _ _ _ _ _ _ Ht El Hr st x1 Hst Ex1 eq_refl). }
  destruct Hr as (k & y & Ek & Ey & En).
  assert (k = st) as ->.
  { eapply (tb_names _ _ _ _ _ Ht); eauto. eapply (bucket_elem lacf); eauto. eapply list_elem_of_lookup_2; eauto. }
  apply wp_ret. apply wp_bind. eapply wp_access; [exact El|]. apply wp_bind. eapply wp_eq; [reflexivity|].
  set (w2 := set_streams _ _ w1).
  assert (pool_ok [] w2) as Hp2 by (destruct (lv_pool _ _ _ H1) as [lv [P1 P2 P3 P4]]; exists lv; now split).
  destruct (lv_ctx _ _ _ H1) as (s & c & E & El').
  apply wp_bind. eapply wp_upd_ctx; [exact Hp2|exact E|exact El'|]. intros Hp3.
  set (w3 := put_session i _ w2) in *.
  assert (live_ok w3) as H3.
  { pose proof (tables_delete lacf _ _ _ _ st x1 (bucket lacf (name x1)) l n Ht El Ek Ex1 Ec eq_refl) as Hd. split.
    - done.
    - unfold tables. rewrite (gone_ctxs i s c w1 E El') in Hd. unfold w3. rewrite (ctxs_put i _ (set_stream None c)) by done.
      exact Hd.
    - intros k y' Hk Ey'. cbn in Hk, Ey'. assert (k ∈ concat (streams w1) /\ k <> st) as [Hk1 Hk2].
      { pose proof (tb_nodup _ _ _ _ _ Hd) as Hnd. split.
        - assert (k ∈ concat (streams w1) ++ free_streams w1) as Hk'.
          { apply (tb_all _ _ _ _ _ Ht). now exists y'. }
          apply elem_of_app in Hk' as [Hk'|Hk']; [done|]. apply NoDup_app in Hnd as (_ & Hnd & _).
          destruct (Hnd k Hk). now apply list_elem_of_further.
        - intros ->. apply NoDup_app in Hnd as (_ & Hnd & _). destruct (Hnd st Hk). apply list_elem_of_here. }
      eapply (lv_full _ _ _ H1); eauto.
    - assert (env_ok w2) as He by (destruct (lv_env _ _ _ H1) as [He0 He1 [R1 R2 R3 R4] He3]; split; [exact He0|exact He1|now split|exact He3]).
      apply env_put_ctx; [done|exact E|]. intros [? [=]]. }
  apply wp_bind. eapply wp_ctx_of; [apply lookup_insert_eq|reflexivity|].
  apply wp_when; intros _; [|done]. eapply wp_step; [eapply status_calm; [apply H3|reflexivity..|apply lookup_insert_eq|cbn; lia]|].
  intros rc w4 [Hp4 C4]. apply wp_ret. now apply (live_calm w3).
Qed.

(** The chain of the stream without session [i], started or not. *)
Lemma leave_chain i st w s c x x2 : live_ok w -> sessions w !! i = Some s -> lctx s = Some c -> stream c = Some st ->
  heap w !! st = Some x -> name x2 = name x -> ctx x2 = remove_ctx i (ctx x) ->
  st_publishing x2 = st_publishing x && negb (publishing c) -> st_active x2 = st_active x -> check_evt x2 = check_evt x ->
  forall w', pool_ok [] w' -> calm (switch i false (put_stream st x2 w)) w' -> leaving i st w'.
Proof.
  intros H E El Es Ex En Ec Ep Ea Ek w' Hp' C.
  destruct (joined_stream w i s c st (lo_tables _ H) E El Es) as (Hst & x' & Ex' & Hx).
  rewrite Ex in Ex'. injection Ex' as <-. set (w2 := put_stream st x2 w) in *.
  assert (on (ctxs w) st i c) as Ho by (split; [apply ctxs_lookup; eauto|done]).
  pose proof (tb_idle _ _ _ _ _ (lo_tables _ H) i c (proj1 Ho)) as Hi.
  assert (heap w2 !! st = Some x2) as Ex2 by apply lookup_insert_eq.
  pose proof (switch_eq i false w2 s c st x2 E El Es Ex2) as Esw.
  assert (check_evt x2 = true -> st_publishing x2 = false) as Hck.
  { rewrite Ek, Ep. intros Hk. now rewrite (sk_check _ _ _ Hx Hk). }
  assert (exists s1 c1 x3, sessions (switch i false w2) !! i = Some s1 /\ lctx s1 = Some c1 /\
    heap (switch i false w2) = <[st := x3]> (heap w) /\ ctxs (gone i (switch i false w2)) = <[i := set_stream None c1]> (ctxs w) /\
    idle_evt c1 = false /\ name x3 = name x /\ ctx x3 = remove_ctx i (ctx x) /\
    st_publishing x3 = st_publishing x && negb (publishing c) /\ st_active x3 = st_active x && negb (publishing c) /\
    (check_evt x3 = true -> st_publishing x3 = false) /\ streams (switch i false w2) = streams w /\
    free_streams (switch i false w2) = free_streams w)
    as (s1 & c1 & x3 & E1 & El1 & Eh & Ecx & Hid & N1 & N2 & N3 & N4 & N5 & N6 & N7).
  { rewrite Esw. destruct (publishing c && negb (Bool.eqb (active c) false)) eqn:Eb.
    - apply andb_true_iff in Eb as [Hpb Hact%negb_true_iff].
      exists (set_lctx (Some (turned false c)) s), (turned false c), (set_st_active false x2).
      split; [apply lookup_insert_eq|]. split; [done|]. split; [cbn; now rewrite insert_insert_eq|].
      split; [rewrite gone_put_stream, ctxs_put_stream;
        rewrite (gone_ctxs i (set_lctx (Some (turned false c)) s) (turned false c)) by (done || apply lookup_insert_eq);
        rewrite (ctxs_put i _ (turned false c)) by done; apply insert_insert_eq|].
      split; [destruct (idle_evt (turned false c)) eqn:Et; [|done]; now destruct (turned_idle false c Hi Hact Et)|].
      rewrite Hpb, !andb_false_r in *. done.
    - exists s, c, x2. split; [done|]. split; [done|]. split; [done|]. split; [now apply (gone_ctxs i s c w2)|].
      assert (publishing c = true -> active c = false) as Hna.
      { intros Hpb. rewrite Hpb in Eb. cbn in Eb. now destruct (active c). }
      split; [destruct (idle_evt c) eqn:Et; [|done]; destruct (Hi Et) as (Q1 & Q2 & _); rewrite Hna in Q2; done|].
      do 3 (split; [done|]). split; [|done]. rewrite Ea. destruct (publishing c) eqn:Hpb; [|now rewrite andb_true_r].
      rewrite andb_false_r. destruct (sk_publisher _ _ _ Hx i c Ho Hpb) as [<- _]. auto. }
  pose proof (env_switch i false w2 (env_put_stream st x2 w (lo_env _ H))) as Henv.
  pose proof (tables_leave lacf _ _ _ _ st x x3 i c (set_stream None c1) (lo_tables _ H) Ho Ex eq_refl Hid N1 N2 N3 N4 N5) as Htab.
  assert (tables (gone i (switch i false w2))) as Htab'.
  { unfold tables. destruct (gone_fields i (switch i false w2)) as (G1 & G2 & G3). rewrite G1, G2, G3, Eh, Ecx, N6, N7. exact Htab. }
  destruct (cm_tables _ _ C) as [Ct _]. split.
  - done.
  - eapply tables_calm; [|exact Htab']. apply gone_calm; [|done]. now exists s1, c1.
  - rewrite Ct, N6. intros k y Hne Hk Ey. destruct (shape_lookup _ _ _ _ (cm_heap _ _ C) Ey) as (y' & Ey' & Hy).
    injection Hy as _ -> _ _ _ _ _. rewrite Eh, lookup_insert_ne in Ey' by done. exact (lo_full _ H k y' Hk Ey').
  - eapply env_calm; eauto.
  - now rewrite Ct, N6.
  - eapply calm_has_ctx; [exact C|]. now exists s1, c1.
Qed.

Lemma leave_stream_ok i st s c w : live_ok w -> sessions w !! i = Some s -> lctx s = Some c -> stream c = Some st ->
  wp (leave_stream cscf lacf i c st) w keeps.
Proof.
  intros H E El Es. destruct (joined_stream w i s c st (lo_tables _ H) E El Es) as (Hst & x & Ex & Hx).
  unfold leave_stream. apply wp_bind, (wp_stream_of st w x); [done|].
  set (xp := if st_publishing x && publishing c then set_st_publishing false x else x).
  eapply wp_step with (P := fun _ w1 => pool_ok [] w1 /\ w1 = put_stream st xp w).
  { apply wp_when; intros Hb; unfold xp; rewrite Hb.
    - eapply wp_upd_stream; [apply H|exact Ex|]. auto.
    - split; [apply H|]. unfold put_stream. rewrite insert_id by done. now destruct w. }
  intros [] w1 [Hp1 ->]. apply wp_bind. eapply wp_upd_stream; [exact Hp1|apply lookup_insert_eq|].
  set (x2 := set_ctx (remove_ctx i (ctx xp)) xp).
  assert (put_stream st x2 (put_stream st xp w) = put_stream st x2 w) as -> by (unfold put_stream; cbn; now rewrite insert_insert_eq).
  intros Hp2. set (w2 := put_stream st x2 w) in *.
  assert (name x2 = name x /\ ctx x2 = remove_ctx i (ctx x) /\ st_publishing x2 = st_publishing x && negb (publishing c) /\
    st_active x2 = st_active x /\ check_evt x2 = check_evt x) as (N1 & N2 & N3 & N4 & N5).
  { unfold x2, xp. destruct (st_publishing x) eqn:Ep, (publishing c) eqn:Epc; cbn; auto. }
  assert (members_there w2 c) as Hm.
  { intros _. exists st, x2. split; [done|]. split; [apply lookup_insert_eq|]. rewrite N2.
    intros j [Hj _]%(proj2 (remove_ctx_spec i (ctx x) (sk_nodup _ _ _ Hx))). exact (member_ctx w st x j Hx Hj). }
  apply wp_bind, (wp_stream_of st w2 x2); [apply lookup_insert_eq|].
  eapply wp_step with (P := fun _ w3 => leaving i st w3 /\ (publishing c = true -> leaving_unpublished i st w3)).
  { assert (forall w3, pool_ok [] w3 -> calm (switch i false w2) w3 ->
      leaving i st w3 /\ (publishing c = true -> leaving_unpublished i st w3)) as Hl.
    { intros w3 Hp3 C3. pose proof (leave_chain i st w s c x x2 H E El Es Ex N1 N2 N3 N4 N5 w3 Hp3 C3) as Hlv.
      split; [done|]. intros Hpb. split; [done|].
      assert (exists y, heap (switch i false w2) !! st = Some y /\ st_publishing y = false) as (y & Ey & Py).
      { rewrite (switch_eq i false w2 s c st x2 E El Es) by apply lookup_insert_eq.
        destruct (publishing c && negb (Bool.eqb (active c) false)); eexists; (split; [apply lookup_insert_eq|]);
          (transitivity (st_publishing x2); [done|]); rewrite N3, Hpb; apply andb_false_r. }
      destruct (calm_stream _ _ _ _ C3 Ey) as (y' & Ey' & Hy). exists y'. split; [done|]. injection Hy as _ _ _ _ Hy _ _. congruence. }
    apply wp_when; intros Hb.
    - eapply wp_mono; [eapply stop_ok; eauto|]. intros [] w3 [Hp3 C3]. auto.
    - apply orb_false_iff in Hb as [Hpb _]. apply Hl; [done|]. rewrite (switch_same i false w2 s c E El); [reflexivity|].
      now rewrite Hpb. }
  intros [] w3 [H3 H3']. eapply wp_step with (P := fun _ w4 => leaving i st w4).
  { destruct (publishing c); [now apply publisher_leaves_ok, H3'|now apply subscriber_leaves_ok]. }
  intros [] w4 H4. destruct (leaving_stream i st w4 H4) as (x4 & Ex4 & Hx4).
  apply wp_bind, (wp_stream_of st w4 x4); [done|]. destruct (ctx x4) as [|j l] eqn:Ec; [eapply delete_stream_ok; eauto|].
  destruct (lv_ctx _ _ _ H4) as (s4 & c4 & E4 & El4). eapply wp_upd_ctx; [apply H4|exact E4|exact El4|]. intros Hp5.
  rewrite <- (gone_eq i s4 c4 w4 E4 El4) in *. split.
  - done.
  - apply H4.
  - destruct (gone_fields i w4) as (-> & -> & _). intros k y Hk Ey. destruct (decide (k = st)) as [-> |Hne].
    + rewrite Ex4 in Ey. injection Ey as <-. now rewrite Ec.
    + eapply (lv_full _ _ _ H4); eauto.
  - rewrite (gone_eq i s4 c4 w4 E4 El4). apply env_put_ctx; [apply H4|done|]. now intros [? [=]].
Qed.

Lemma live_close_ok i w : live_ok w -> is_Some (sessions w !! i) -> wp (live_close cscf lacf i) w keeps.
Proof.
  intros H [s E]. unfold live_close. apply wp_bind, (wp_session_of i w s); [done|].
  destruct (lctx s) as [c|] eqn:El; [|now apply wp_ret]. destruct (stream c) as [st|] eqn:Es; [|now apply wp_ret].
  eapply leave_stream_ok; eauto.
Qed.

(** *** Joining a stream *)

Lemma live_check st x b w : live_ok w -> st ∈ concat (streams w) -> heap w !! st = Some x ->
  (b = true -> st_publishing x = false) -> pool_ok [] (put_stream st (set_check_evt b x) w) ->
  live_ok (put_stream st (set_check_evt b x) w).
Proof.
  intros [H1 H2 H3 H4] Hst Ex Hb Hp. split; [done|..].
  - unfold tables. rewrite ctxs_put_stream. now apply tables_check.
  - intros k y Hk [[<- <-]|[_ Ey]]%put_stream_lookup; [exact (H3 st x Hst Ex)|eauto].
  - now apply env_put_stream.
Qed.

Lemma out_buffer_ok ex i s w : pool_ok ex w -> sessions w !! i = Some s -> pool_ok ex (put_session i (set_out_buffer s) w).
Proof.
  intros [lv H] E. pose proof H as [Ho Hq Hsz _].
  destruct (session_step size qmax lv lv ex ex w (put_session i (set_out_buffer s) w) i s (set_out_buffer s) H E eq_refl)
    as [Hok _].
  - cbn [put_session set_sessions mem sessions]. rewrite refs_insert.
    change (sess_refs (set_out_buffer s)) with (sess_refs s). now rewrite <- (refs_focus _ _ _ E).
  - apply Queue.frames_refl.
  - destruct (Hq i s E) as [Q1 Q2 Q3 Q4]. split; [|done..].
    exact (Queue.ring_eq (queue s) (queue (set_out_buffer s)) _ eq_refl eq_refl eq_refl eq_refl Q1).
  - done.
  - now exists lv.
Qed.

Lemma wp_out_buffer ex i s w : pool_ok ex w -> sessions w !! i = Some s ->
  wp (upd_session i set_out_buffer) w (calmly ex w).
Proof.
  intros Hp E. unfold upd_session. apply wp_bind, (wp_session_of i w s); [done|]. eapply wp_eq; [reflexivity|].
  split; [now apply out_buffer_ok|]. apply (put_calm i s); [done|]. split; [done|]. split; [done|]. cbn.
  destruct (lctx s); constructor. reflexivity.
Qed.

(** Session [i] has a new context and is to be put into the stream [st]. *)
Record joining (i : sid) (st : stid) (w : process) : Prop := {
  jn_pool : pool_ok [] w;
  jn_tables : tables w;
  jn_full : forall k x, k <> st -> k ∈ concat (streams w) -> heap w !! k = Some x -> ctx x <> [];
  jn_env : env_ok w;
  jn_stream : st ∈ concat (streams w);
  jn_session : exists s, sessions w !! i = Some s /\ lctx s = Some zero_ctx
}.

Lemma joined_live i st nm p s c x w :
  pool_ok [] w -> tables w -> env_ok w -> st ∈ concat (streams w) ->
  (forall k x, k <> st -> k ∈ concat (streams w) -> heap w !! k = Some x -> ctx x <> []) ->
  sessions w !! i = Some s -> lctx s = Some c -> stream c = None -> idle_evt c = false -> heap w !! st = Some x ->
  (p = true -> st_publishing x = false /\ active c = false /\ publisher_ok (joined st p (Queue.hls (queue s)) c)) ->
  forall w', pool_ok [] w' ->
  w' = put_stream st (set_ctx (i :: ctx x) (if p then set_check_evt false (set_st_publishing true x) else x))
         (put_session i (set_name nm (set_lctx (Some (joined st p (Queue.hls (queue s)) c)) s)) w) -> live_ok w'.
Proof.
  intros Hp Ht He Hst Hf E El Es Ei Ex Hpub w' Hp' ->. set (c' := joined st p (Queue.hls (queue s)) c) in *. split; [done|..].
  - unfold tables. rewrite ctxs_put_stream, (ctxs_put i _ c') by done. apply tables_join; auto.
    intros d (s' & E' & El')%ctxs_lookup. congruence.
  - intros k y Hk [[<- <-]|[Hne Ey]]%put_stream_lookup; [done|]. apply (Hf k y); [congruence|done..].
  - apply env_put_stream. apply (env_calm (put_session i (set_lctx (Some c') s) w)).
    + apply (put_session_calm i _ _ s s); auto; [reflexivity|]. split; [done|]. split; [done|]. cbn. constructor. reflexivity.
    + now apply env_put_ctx.
Qed.

(** The end of [ngx_rtmp_live_join]. *)
Lemma join_end i st nm publisher w : live_ok w -> st ∈ concat (streams w) -> has_ctx w i ->
  (exists s c, sessions w !! i = Some s /\ lctx s = Some c /\ is_Some (stream c)) ->
  wp (when (negb (buflen lacf =? 0)) (upd_session i set_out_buffer);;
      c ← ctx_of i; x ← stream_of st;
      when (negb (publishing c) && st_active x && negb (c_hls c)) (ngx_rtmp_live_start cscf lacf i);;
      x ← stream_of st;
      when (negb publisher && negb (st_publishing x))
        (rc ← ngx_rtmp_relay_relaying nm;
         when (bool_decide (rc = NGX_ERROR)) (_ ← ngx_rtmp_live_checking_publish st; mret tt))) w keeps.
Proof.
  intros H Hst _ (s & c & E & El & Es).
  eapply wp_step with (P := calmly [] w).
  { apply wp_when; intros _; [|split; [apply H|reflexivity]]. eapply wp_out_buffer; [apply H|exact E]. }
  intros [] w1 [Hp1 C1]. pose proof (live_calm w w1 H Hp1 C1) as H1.
  destruct (calm_ctx _ _ _ _ _ C1 E El) as (s1 & c1 & E1 & El1 & A1 & _).
  assert (is_Some (stream c1)) as Es1 by (destruct A1 as [[= -> _ _ _] _]; done).
  destruct (cm_tables _ _ C1) as [Et _]. rewrite <- Et in Hst. clear - H1 Hst E1 El1 Es1 size_pos max_streams fix_same buckets_pos.
  apply wp_bind, (wp_ctx_of i w1 s1 c1); [done..|].
  assert (forall w, live_ok w -> st ∈ concat (streams w) -> exists x, heap w !! st = Some x /\ stream_ok (ctxs w) st x) as Hget.
  { intros w H Hin. destruct (proj2 (tb_all _ _ _ _ _ (lo_tables _ H) st)) as [x Ex]; [apply elem_of_app; auto|].
    exists x. split; [done|]. eapply tb_streams; [apply H|done..]. }
  destruct (Hget w1 H1 Hst) as (x1 & Ex1 & _). apply wp_bind, (wp_stream_of st w1 x1); [done|].
  eapply wp_step with (P := fun _ w2 => live_ok w2 /\ st ∈ concat (streams w2)).
  { apply wp_when; intros Hb; [|done].
    pose proof (tables_members w1 i s1 c1 (lo_tables _ H1) E1 El1 Es1) as Hm.
    eapply wp_mono; [eapply start_ok; [apply H1|eauto..]|]. intros [] w2 [Hp2 C2].
    apply andb_true_iff in Hb as [[Hb%negb_true_iff _]%andb_true_iff _].
    rewrite (switch_same i true w1 s1 c1 E1 El1) in C2 by now rewrite Hb.
    split; [exact (live_calm w1 w2 H1 Hp2 C2)|]. destruct (cm_tables _ _ C2) as [-> _]. done. }
  intros [] w2 [H2 Hst2]. destruct (Hget w2 H2 Hst2) as (x2 & Ex2 & Hx2). apply wp_bind, (wp_stream_of st w2 x2); [done|].
  apply wp_when; intros Hb; [|done]. apply andb_true_iff in Hb as [_ Hb%negb_true_iff].
  apply wp_bind, relaying_ok; [apply H2|]. intros rc. apply wp_when; intros _; [|done].
  apply wp_bind. eapply (checking_publish_ok st x2); [apply H2|done|exact (lo_full _ H2 st x2 Hst2 Ex2)| |].
  - intros j. now apply (member_ctx w2 st).
  - intros w3 Hp3 [-> | ->]; apply wp_ret; [done|]. now apply live_check.
Qed.

Lemma join_stream_ok i nm publisher st w x : joining i st w -> heap w !! st = Some x ->
  (publisher = true -> st_publishing x = false) -> wp (join_stream cscf lacf i nm publisher st) w keeps.
Proof.
  intros [H1 H2 H3 H4 H5 (s & E & El)] Ex Hp. unfold join_stream.
  set (xp := if publisher then set_check_evt false (set_st_publishing true x) else x).
  eapply wp_step with (P := fun _ w1 => pool_ok [] w1 /\ if publisher then w1 = put_stream st xp w else calm w w1).
  { unfold xp. destruct publisher.
    - eapply wp_upd_stream; [exact H1|exact Ex|]. auto.
    - eapply wp_step; [apply player_new_calm; [apply H4|done]|]. intros rc w1 [Hp1 C1]. now apply wp_ret. }
  intros [] w1 [Hp1 Hw1].
  assert (exists w0 s1 c1 x1, sessions w1 !! i = Some s1 /\ lctx s1 = Some c1 /\
    heap w1 !! st = Some (if publisher then set_check_evt false (set_st_publishing true x1) else x1) /\
    w1 = put_stream st (if publisher then set_check_evt false (set_st_publishing true x1) else x1) w0 /\
    pool_ok [] w0 /\ tables w0 /\ env_ok w0 /\ st ∈ concat (streams w0) /\
    (forall k x, k <> st -> k ∈ concat (streams w0) -> heap w0 !! k = Some x -> ctx x <> []) /\
    sessions w0 !! i = Some s1 /\ stream c1 = None /\ idle_evt c1 = false /\ heap w0 !! st = Some x1 /\
    (publisher = true -> st_publishing x1 = false /\ active c1 = false /\ publisher_ok (joined st true (Queue.hls (queue s1)) c1)))
    as (w0 & s1 & c1 & x1 & E1 & El1 & Ex1 & -> & P0 & T0 & En0 & St0 & F0 & S0 & Cs & Ci & Hx0 & Hpub).
  { destruct publisher.
    - exists w, s, zero_ctx, x. subst w1. split; [done|]. split; [done|]. split; [apply lookup_insert_eq|].
      split; [done|]. do 9 (split; [done|]). intros _. split; [auto|]. done.
    - destruct (calm_ctx _ _ _ _ _ Hw1 E El) as (s1 & c1 & E1 & El1 & [Hk _] & _). injection Hk as K1 K2 K3 K4.
      destruct (calm_stream _ _ _ _ Hw1 Ex) as (x1 & Ex1 & Hx1). destruct (cm_tables _ _ Hw1) as [Et _].
      exists w1, s1, c1, x1. split; [done|]. split; [done|]. split; [done|].
      split; [unfold put_stream; rewrite insert_id by done; now destruct w1|]. split; [done|].
      split; [eapply tables_calm; eauto|]. split; [eapply env_calm; eauto|]. rewrite Et. split; [done|].
      split; [|done]. intros k y Hne Hk' Ey. destruct (shape_lookup _ _ _ _ (cm_heap _ _ Hw1) Ey) as (y' & Ey' & Hy).
      injection Hy as _ -> _ _ _ _ _. eauto. }
  set (x1p := if publisher then _ else x1) in *.
  apply wp_bind, (wp_session_of i _ s1); [done|]. set (c' := joined st publisher (Queue.hls (queue s1)) c1).
  apply wp_bind. eapply wp_upd_ctx; [exact Hp1|exact E1|exact El1|]. intros Hp2. fold c' in Hp2 |- *.
  apply wp_bind. eapply wp_upd_session; [exact Hp2|apply lookup_insert_eq|done..|]. rewrite put_put. intros Hp3.
  apply wp_bind. eapply wp_upd_stream; [exact Hp3|exact Ex1|].
  set (w3 := put_stream st (set_ctx (i :: ctx x1p) x1p) _). intros Hp4.
  assert (w3 = put_stream st (set_ctx (i :: ctx x1) x1p)
    (put_session i (set_name nm (set_lctx (Some c') s1)) w0)) as Ew3.
  { unfold w3, put_stream, put_session. cbn. rewrite insert_insert_eq. unfold x1p. now destruct publisher. }
  assert (live_ok w3) as H5'.
  { eapply (joined_live i st nm publisher s1 c1 x1 w0); eauto. }
  assert (sessions w3 !! i = Some (set_name nm (set_lctx (Some c') s1))) as Es3 by apply lookup_insert_eq.
  apply join_end; [done|rewrite Ew3; exact St0| |].
  - eexists _, c'. split; [exact Es3|done].
  - eexists _, c'. split; [exact Es3|]. split; [done|]. now exists st.
Qed.

(** What [ngx_rtmp_live_get_stream] finds or makes. *)
Definition found (nm : list Z) (create : bool) (w : process) (r : option (nat * nat)) (w' : process) : Prop :=
  match r with
  | None => w' = w /\ create = false
  | Some pos => exists st x, streams w' !! pos.1 ≫= lookup pos.2 = Some st /\ heap w' !! st = Some x /\
      name x = nm /\ st ∈ concat (streams w') /\ sessions w' = sessions w /\ pool_ok [] w' /\ tables w' /\ env_ok w' /\
      (forall k y, k <> st -> k ∈ concat (streams w') -> heap w' !! k = Some y -> ctx y <> []) /\
      (w' = w \/ create = true /\ st_publishing x = false)
  end.

Lemma take_stream_ok w : wp take_stream w (fun st w' => exists F', taken (heap w) (free_streams w) = (st, F') /\
  w' = set_streams (streams w) F' w).
Proof.
  unfold take_stream, taken. destruct (free_streams w) as [|st F'] eqn:Ef.
  - eapply wp_eq; [now rewrite Ef|]. exists []. split; [done|]. rewrite <- Ef. now destruct w.
  - eapply wp_eq; [now rewrite Ef|]. now exists F'.
Qed.

Lemma get_stream_ok nm create w : live_ok w -> (length nm < NGX_RTMP_MAX_NAME)%nat ->
  wp (ngx_rtmp_live_get_stream lacf nm create) w (found nm create w).
Proof.
  intros H Hn. pose proof (lo_tables _ H) as Ht. unfold ngx_rtmp_live_get_stream. cbv zeta.
  destruct (bucket_in lacf buckets_pos nm _ _ _ _ Ht) as [l El]. apply wp_bind. eapply wp_access; [exact El|].
  destruct (find_name_spec (heap w) nm l) as (r & Er & Hr).
  { intros k Hk. now apply (bucket_elem lacf _ _ _ _ _ _ _ Ht El). }
  apply wp_bind. eapply wp_access; [exact Er|]. destruct r as [n|].
  { destruct Hr as (st & x & E1 & E2 & E3). apply wp_ret. exists st, x. cbn. rewrite El. cbn.
    assert (st ∈ concat (streams w)) as Hst by (eapply (bucket_elem lacf); eauto; eapply list_elem_of_lookup_2; eauto).
    do 5 (split; [done|]). split; [apply H|]. split; [done|]. split; [apply H|]. split; [|auto].
    intros k y _ Hk Ey. exact (lo_full _ H k y Hk Ey). }
  destruct create; cbn [negb]; [|now apply wp_ret].
  eapply wp_step; [apply take_stream_ok|]. intros st w1 (F' & Et & ->).
  apply wp_bind. eapply wp_eq; [reflexivity|]. apply wp_bind. eapply wp_eq; [reflexivity|]. apply wp_ret. cbn [found].
  set (now := ngx_current_msec _). pose proof (tables_new lacf _ _ _ _ nm l st F' now Ht El Hr Hn Et) as Hnew.
  exists st, (new_stream lacf nm now). cbn.
  assert (bucket lacf nm < length (streams w))%nat as Hb by (eapply lookup_lt_Some; eauto).
  split; [rewrite list_lookup_insert_eq by done; cbn; now apply list_lookup_middle|].
  split; [apply lookup_insert_eq|]. split; [apply take_ge; unfold NGX_RTMP_MAX_NAME in *; lia|].
  destruct (concat_insert (streams w) (bucket lacf nm) l (l ++ [st]) El) as (t1 & t2 & Ec & Ec').
  split; [rewrite Ec', !elem_of_app, list_elem_of_singleton; auto|]. split; [done|].
  split; [destruct (lo_pool _ H) as [lv [P1 P2 P3 P4]]; exists lv; now split|]. split; [exact Hnew|].
  split; [destruct (lo_env _ H) as [G0 G1 [R1 R2 R3 R4] G3]; split; [exact G0|exact G1|now split|exact G3]|]. split; [|auto].
  intros k y Hne Hk. rewrite lookup_insert_ne by congruence. intros Ey. apply (lo_full _ H k y); [|done].
  revert Hk. rewrite Ec, Ec', !elem_of_app, list_elem_of_singleton. tauto.
Qed.

Lemma zero_live i s w : live_ok w -> sessions w !! i = Some s -> lctx s ≫= stream = None ->
  live_ok (put_session i (set_lctx (Some zero_ctx) s) w).
Proof.
  intros [H1 H2 H3 H4] E Es. split.
  - now apply (put_session_ok [] i s).
  - unfold tables. rewrite (ctxs_put i _ zero_ctx) by done. apply tables_off; [done| |done|done].
    intros c (s' & E' & El')%ctxs_lookup. rewrite E in E'. injection E' as <-. rewrite El' in Es. exact Es.
  - exact H3.
  - apply env_put_ctx; [done|done|]. now intros [? [=]].
Qed.

Lemma join_ok i nm publisher w : live_ok w -> is_Some (sessions w !! i) -> (length nm < NGX_RTMP_MAX_NAME)%nat ->
  wp (ngx_rtmp_live_join cscf lacf i nm publisher) w keeps.
Proof.
  intros H [s E] Hn. unfold ngx_rtmp_live_join. apply wp_bind, (wp_session_of i w s); [done|].
  destruct (bool_decide (is_Some (lctx s ≫= stream))) eqn:Eb; [now apply wp_ret|].
  apply bool_decide_eq_false, eq_None_not_Some in Eb. pose proof (zero_live i s w H E Eb) as H1.
  apply wp_bind. eapply wp_upd_session; [apply H|exact E|done..|]. intros _.
  set (w1 := put_session i _ w) in *.
  assert (sessions w1 !! i = Some (set_lctx (Some zero_ctx) s)) as E1 by apply lookup_insert_eq. clearbody w1.
  set (anyway := _ || _ || _). cbv zeta. eapply wp_step; [now apply (get_stream_ok nm anyway)|].
  assert (wp (stream_not_found cscf i) w1 keeps) as Hnf.
  { eapply wp_step; [eapply status_calm; [apply H1|reflexivity..|exact E1|cbn; lia]|]. intros rc w2 [Hp2 C2].
    destruct (calm_session _ _ _ _ C2 E1) as (s2 & E2 & _).
    eapply wp_mono; [eapply finalize_calm; eauto|]. intros [] w3 [Hp3 C3].
    apply (live_calm w1); [done|done|]. etransitivity; eauto. }
  intros [pos|] w2 Hf; cbn [found] in Hf; [|now destruct Hf as [-> _]].
  destruct Hf as (st & x & Epos & Ex & Enm & Hst & Es2 & Hp2 & Ht2 & He2 & Hf2 & Hor).
  apply wp_bind. eapply wp_access; [exact Epos|]. apply wp_bind, (wp_stream_of st w2 x); [done|].
  destruct (negb (anyway || st_publishing x)) eqn:Ea.
  { destruct Hor as [-> |[Hc _]]; [exact Hnf|]. rewrite Hc in Ea. done. }
  destruct (publisher && st_publishing x) eqn:Ep.
  { destruct Hor as [-> |[_ Hc]]; [|rewrite Hc, andb_false_r in Ep; done].
    eapply wp_step; [eapply status_calm; [apply H1|reflexivity..|exact E1|cbn; lia]|]. intros rc w3 [Hp3 C3].
    apply wp_ret. exact (live_calm w1 w3 H1 Hp3 C3). }
  apply (join_stream_ok i nm publisher st w2 x); [split; auto|done|].
  - eexists. rewrite Es2. split; [exact E1|done].
  - intros ->. exact Ep.
Qed.

(** *** Packets *)

Lemma codec_ok_fine w i s ty : env_ok w -> sessions w !! i = Some s -> 0 <= Chunk.max_message cscf ->
  exists hb cb mh mb, codec_ok size cscf lacf w (codec s) ty hb cb mh mb.
Proof.
  intros He E Hmax. assert (body_ok cscf []) as Hnil by (split; [constructor|split; cbn; lia]).
  set (mh0 := Chunk.Hdr AmfSend.NGX_RTMP_CSID_AMF 0 0 18 AmfSend.NGX_RTMP_MSID).
  assert (header_ok cscf mh0 /\ Chunk.type mh0 <= Chunk.NGX_RTMP_MSG_MAX /\ Chunk.csid mh0 = AmfSend.NGX_RTMP_CSID_AMF)
    as Hmh0 by (split; [eapply amf_hdr_ok; eauto; lia|split; [cbn; unfold Chunk.NGX_RTMP_MSG_MAX; lia|done]]).
  destruct (codec s) as [k|] eqn:Ek.
  2: { exists [], [], mh0, []. split; [|done|done|done]. intros rpkt stale h chain c _. split; intros l [=]. }
  destruct (en_codecs _ He i s k E Ek) as [Hh Hm].
  set (bytes := fun o : option loc => match o with Some l => Queue.chain_bytes (mem w) l | None => [] end).
  set (hd := if ty =? NGX_RTMP_MSG_AUDIO then Codec.aac_header (Codec.chains k) else Codec.avc_header (Codec.chains k)).
  set (co := if interleave lacf then if ty =? NGX_RTMP_MSG_AUDIO then Codec.avc_header (Codec.chains k)
             else Codec.aac_header (Codec.chains k) else None).
  assert (forall l, hd = Some l \/ co = Some l ->
    Codec.avc_header (Codec.chains k) = Some l \/ Codec.aac_header (Codec.chains k) = Some l) as Hsel.
  { unfold hd, co. intros l. destruct (interleave lacf), (ty =? NGX_RTMP_MSG_AUDIO); intros [|]; auto; done. }
  assert (forall l, l ∈ Codec.ctx_refs (Some k) -> l ∈ codec_refs (sessions w)) as Hin.
  { intros l Hl. apply codec_refs_elem. exists i, s. now rewrite Ek. }
  assert (exists mh mb, (forall l, Codec.meta (Codec.chains k) = Some l ->
    wire_of size cscf mh None mb (Queue.chain_bytes (mem w) l)) /\ body_ok cscf mb /\
    header_ok cscf mh /\ Chunk.type mh <= Chunk.NGX_RTMP_MSG_MAX /\ Chunk.csid mh = AmfSend.NGX_RTMP_CSID_AMF)
    as (mh & mb & Hmw & Hmb & Hmh).
  { destruct (Codec.meta (Codec.chains k)) as [l|]; [|now exists mh0, []].
    destruct (Hm l eq_refl) as (mh & mb & Hw & Hb & Hh'). exists mh, mb. split; [|done]. now intros ? [= <-]. }
  exists (bytes hd), (bytes co), mh, mb. split.
  - intros rpkt stale h chain c <-.
    split; intros l Hl; (assert (hd = Some l \/ co = Some l) as Hl' by (first [left; exact Hl|right; exact Hl]));
      (split; [apply Hin, codec_elem; destruct (Hsel l Hl'); auto|]); [change (hd = Some l) in Hl|change (co = Some l) in Hl];
      unfold bytes; now rewrite Hl.
  - intros k' l [= <-] Hl. split; [|auto]. apply Hin, codec_elem. auto.
  - assert (forall o, (forall l, o = Some l -> hd = Some l \/ co = Some l) -> body_ok cscf (bytes o)) as Hb.
    { intros [l|] Ho; [|exact Hnil]. apply Hh, Hsel, Ho. done. }
    split; [apply Hb; auto|]. split; [apply Hb; auto|done].
  - exact Hmh.
Qed.

Lemma published_alike h c : publishing c = true -> 0 <= Chunk.timestamp h < 2 ^ 32 -> alike c (published lacf h c).
Proof.
  intros Hp Ht. unfold published. set (idx := csidx_of lacf (Chunk.type h)). split.
  - unfold key, set_cs. now destruct idx.
  - intros _. split; [unfold set_cs; now destruct idx|]. intros (P1 & P2 & P3 & P4). unfold publisher_ok, set_cs, get_cs.
    destruct idx; cbn; auto.
Qed.

Lemma packet_calm i st s c x w h chain stale : live_ok w -> sessions w !! i = Some s -> lctx s = Some c ->
  stream c = Some st -> publishing c = true -> heap w !! st = Some x -> packet_ok cscf h chain stale ->
  wp (publish_packet cscf lacf stale i st h chain) w (calmly [] w).
Proof.
  intros H E El Es Hpb Ex Hpk. destruct (joined_stream w i s c st (lo_tables _ H) E El Es) as (Hst & x' & Ex' & Hx).
  rewrite Ex in Ex'. injection Ex' as <-. assert (on (ctxs w) st i c) as Ho by (split; [apply ctxs_lookup; eauto|done]).
  destruct (codec_ok_fine w i s (Chunk.type h) (lo_env _ H) E) as (hb & cb & mh & mb & Hco).
  { destruct (pk_body _ _ _ _ Hpk) as (_ & _ & Hb). lia. }
  destruct (publish_packet_spec size qmax cscf lacf size_pos max_streams fix_same i st w s c x h chain stale hb cb mh mb)
    as (rpkt & w' & E' & Hp' & (s' & Es' & El' & Hr') & Hres & Hun & Hrest & Hk); auto.
  - apply H.
  - apply (en_hls _ (lo_env _ H) i s c E El). now exists st.
  - apply Hx.
  - intros j Hj. destruct (proj1 (sk_members _ _ _ Hx j) Hj) as (cj & (sj & Ej & Elj)%ctxs_lookup & Esj).
    exists sj, cj. split; [done|]. split; [done|]. apply (en_hls _ (lo_env _ H) j sj cj Ej Elj). now exists st.
  - intros l k Hl Hk. apply (tb_all _ _ _ _ _ (lo_tables _ H)), elem_of_app. left. apply list_elem_of_In, in_concat.
    exists l. now rewrite <- !list_elem_of_In.
  - exact (proj2 (sk_publisher _ _ _ Hx i c Ho Hpb)).
  - eapply wp_eq; [exact E'|]. split; [done|]. injection Hrest as R1 R2 R3 R4 R5 _ _ _ _.
    split; [|done|done|now rewrite R4|done]. intros j. destruct (decide (j = i)) as [-> |Hne].
    + rewrite E, Es'. constructor. split; [now injection Hr'|].
      split; [now apply (f_equal snd) in Hr'|]. rewrite El, El'. constructor.
      apply published_alike; [done|apply Hpk].
    + destruct (decide (j ∈ ctx x)) as [Hj|Hj].
      * destruct (proj1 (sk_members _ _ _ Hx j) Hj) as (cj & Hcj). pose proof Hcj as [(sj & Ej & Elj)%ctxs_lookup Esj].
        destruct (Hres j Hj Hne sj cj Ej Elj) as (sj' & cj' & y & Ej' & Elj' & Hc' & Hs' & _).
        rewrite Ej, Ej'. constructor. split; [now injection Hs'|].
        split; [now apply (f_equal snd) in Hs'|]. rewrite Elj, Elj'. constructor.
        injection Hc' as Q1 Q2 Q3 Q4 Q5 Q6 Q7 Q8. split; [unfold key; congruence|]. intros Hpj. destruct Hne.
        exact (sk_unique _ _ _ Hx j i cj c Hcj Ho Hpj Hpb).
      * destruct (Hun j Hj Hne) as [Hs _]. destruct (sessions w !! j) as [sj|], (sessions w' !! j) as [sj'|]; try done;
          constructor. apply (inj Some) in Hs. injection Hs as Q1 Q2 _ _ _ Q3 Q4 Q5. split; [done|].
        split; [unfold consts; congruence|]. rewrite Q1. destruct (lctx sj); constructor. reflexivity.
Qed.

Lemma av_ok stale i h chain w : live_ok w -> i ∈ ids -> (chain <> [] -> packet_ok cscf h chain stale) ->
  wp (ngx_rtmp_live_av cscf lacf stale i h chain) w keeps.
Proof.
  intros H Hi Hpk. rewrite <- (en_ids _ (lo_env _ H)), elem_of_dom in Hi. destruct Hi as [s E]. unfold ngx_rtmp_live_av.
  destruct (negb (live lacf) || bool_decide (chain = [])) eqn:Eb; [now apply wp_ret|].
  apply orb_false_iff in Eb as [_ Hne%bool_decide_eq_false]. specialize (Hpk Hne).
  apply wp_bind, (wp_session_of i w s); [done|]. destruct (lctx s) as [c|] eqn:El; [|now apply wp_ret]. cbn.
  destruct (stream c) as [st|] eqn:Es; [|now apply wp_ret]. cbn.
  destruct (publishing c) eqn:Hpb; cbn [negb]; [|now apply wp_ret].
  destruct (joined_stream w i s c st (lo_tables _ H) E El Es) as (Hst & x & Ex & Hx).
  apply wp_bind, (wp_stream_of st w x); [done|].
  eapply wp_step with (P := fun _ w1 => live_ok w1 /\ exists s1 c1, sessions w1 !! i = Some s1 /\ lctx s1 = Some c1 /\
    stream c1 = Some st /\ publishing c1 = true).
  { apply wp_when; intros Ha; [|eauto 10].
    eapply wp_mono; [eapply start_ok; [apply H|exact E|exact El|exact (tables_members w i s c (lo_tables _ H) E El (ex_intro _ st Es))]|].
    intros [] w1 [Hp1 C1]. split; [exact (live_switch i true w w1 H Hp1 C1)|].
    assert (exists s0 c0, sessions (switch i true w) !! i = Some s0 /\ lctx s0 = Some c0 /\ stream c0 = Some st /\
      publishing c0 = true) as (s0 & c0 & E0 & El0 & Es0 & Hp0).
    { rewrite (switch_eq i true w s c st x E El Es Ex). destruct (_ && _); [|eauto 10].
      exists (set_lctx (Some (turned true c)) s), (turned true c). split; [apply lookup_insert_eq|]. done. }
    destruct (calm_ctx _ _ _ _ _ C1 E0 El0) as (s1 & c1 & E1 & El1 & [Hk _] & _). injection Hk as K1 K2 _ _.
    exists s1, c1. split; [done|]. split; [done|]. split; congruence. }
  intros [] w1 (H1 & s1 & c1 & E1 & El1 & Es1 & Hp1).
  destruct (joined_stream w1 i s1 c1 st (lo_tables _ H1) E1 El1 Es1) as (_ & x1 & Ex1 & _).
  eapply wp_step; [eapply (packet_calm i st s1 c1 x1); eauto|]. intros [] w2 [Hp2 C2]. apply wp_ret.
  exact (live_calm w1 w2 H1 Hp2 C2).
Qed.

(** *** Timers *)

(** The idle timer of a publisher. *)
Lemma idle_timer_ok i s c w : live_ok w -> sessions w !! i = Some s -> lctx s = Some c -> idle_evt c = true ->
  wp (ngx_rtmp_live_idle i) w keeps.
Proof.
  intros H E El Hi. pose proof (lo_tables _ H) as Ht. assert (ctxs w !! i = Some c) as Ec by (apply ctxs_lookup; eauto).
  destruct (tb_idle _ _ _ _ _ Ht i c Ec Hi) as (Hp & Ha & [st Es] & _).
  destruct (joined_stream w i s c st Ht E El Es) as (Hst & x & Ex & Hx).
  destruct (sk_publisher _ _ _ Hx i c (conj Ec Es) Hp) as [Hax _].
  unfold ngx_rtmp_live_idle. apply wp_bind. eapply wp_upd_ctx; [apply H|exact E|exact El|]. intros Hp1.
  set (w1 := put_session i _ w) in *.
  assert (live_ok w1) as H1.
  { split; [done|..|exact (lo_full _ H)|].
    - unfold tables, w1. rewrite (ctxs_put i _ (set_idle_evt false c)) by done. cbn.
      pose proof (tables_status lacf _ _ _ _ st x i c (active c) false Ht Ex (conj Ec Es) Hp ltac:(done)) as Hs.
      replace (set_active (active c) c) with c in Hs by now destruct c.
      rewrite Hax, (insert_id (heap w)) in Hs; [exact Hs|]. rewrite Ex. now destruct x.
    - apply env_put_ctx; [apply H|done|]. intros Hs. exact (en_hls _ (lo_env _ H) i s c E El Hs). }
  eapply wp_mono; [eapply finalize_calm; [exact Hp1|apply lookup_insert_eq]|]. intros [] w2 [Hp2 C2].
  exact (live_calm w1 w2 H1 Hp2 C2).
Qed.

Section Requests.
Context (next_publish : sid -> ngx_rtmp_publish_t -> M ngx_rc).
Context (next_play : sid -> ngx_rtmp_play_t -> M ngx_rc).
Context (next_close_stream next_stream_begin next_stream_eof : sid -> M ngx_rc).
Context (next_pause : sid -> bool -> M ngx_rc).
Context (ngx_rtmp_notify_play1 : sid -> ngx_rtmp_play_t -> M unit).

(** The modules behind this one keep the invariant; the request for a publisher
    is sent later, and calm here. *)
Hypothesis publish_keeps : forall i v w, live_ok w -> i ∈ ids -> wp (next_publish i v) w keeps.
Hypothesis play_keeps : forall i v w, live_ok w -> i ∈ ids -> wp (next_play i v) w keeps.
Hypothesis close_keeps : forall i w, live_ok w -> i ∈ ids -> wp (next_close_stream i) w keeps.
Hypothesis begin_keeps : forall i w, live_ok w -> i ∈ ids -> wp (next_stream_begin i) w keeps.
Hypothesis eof_keeps : forall i w, live_ok w -> i ∈ ids -> wp (next_stream_eof i) w keeps.
Hypothesis pause_keeps : forall i b w, live_ok w -> i ∈ ids -> wp (next_pause i b) w keeps.
Hypothesis notify_calm : forall i v w, live_ok w -> i ∈ ids -> wp (ngx_rtmp_notify_play1 i v) w (calmly [] w).

Lemma ids_session w i : live_ok w -> i ∈ ids -> is_Some (sessions w !! i).
Proof. intros H. rewrite <- (en_ids _ (lo_env _ H)). apply elem_of_dom. Qed.

Lemma stream_there w st x : live_ok w -> heap w !! st = Some x -> check_evt x = true ->
  st ∈ concat (streams w) /\ stream_ok (ctxs w) st x.
Proof.
  intros H Ex Hc. pose proof (lo_tables _ H) as Ht.
  assert (st ∈ concat (streams w) ++ free_streams w) as Hst by (apply (tb_all _ _ _ _ _ Ht); eauto).
  apply elem_of_app in Hst as [Hst|Hst]; [|rewrite (tb_free _ _ _ _ _ Ht st x Hst Ex) in Hc; done].
  split; [done|]. eapply tb_streams; eauto.
Qed.

(** The timer of a stream without a publisher. *)
Lemma check_timer_ok st x w : live_ok w -> heap w !! st = Some x -> check_evt x = true ->
  wp (ngx_rtmp_live_checking_callback ngx_rtmp_notify_play1 st) w keeps.
Proof.
  intros H Ex Hc. destruct (stream_there w st x H Ex Hc) as [Hst Hx]. pose proof (sk_check _ _ _ Hx Hc) as Hnp.
  unfold ngx_rtmp_live_checking_callback. apply wp_bind. eapply wp_upd_stream; [apply H|exact Ex|]. intros Hp1.
  pose proof (live_check st x false w H Hst Ex ltac:(done) Hp1) as H1. set (w1 := put_stream st _ w) in *.
  apply wp_bind. eapply wp_stream_of; [apply lookup_insert_eq|]. cbn [ctx st_publishing set_check_evt].
  destruct (ctx x) as [|i l] eqn:Ecx; [now apply wp_ret|]. rewrite Hnp.
  destruct (member_ctx w st x i Hx) as (s & c & E & El); [rewrite Ecx; apply list_elem_of_here|].
  apply wp_bind, (wp_session_of i w1 s); [done|].
  assert (i ∈ ids) as Hi by (rewrite <- (en_ids _ (lo_env _ H)); apply elem_of_dom; eauto).
  eapply wp_step; [now apply notify_calm|]. intros [] w2 [Hp2 C2]. pose proof (live_calm w1 w2 H1 Hp2 C2) as H2.
  destruct (calm_stream w1 w2 st (set_check_evt false x) C2) as (x2 & Ex2 & Hx2); [apply lookup_insert_eq|].
  injection Hx2 as _ Q2 _ _ Q5 _ _. cbn in Q2, Q5. apply wp_bind, (wp_stream_of st w2 x2); [done|]. rewrite Q2, Ecx.
  apply wp_bind. eapply wp_access; [reflexivity|]. destruct (calm_session _ _ _ _ C2 E) as (s2 & E2 & _).
  apply wp_bind, (wp_session_of i w2 s2); [done|]. eapply wp_upd_stream; [exact Hp2|exact Ex2|]. intros Hp3.
  apply live_check; [done| |done|congruence|done]. destruct (cm_tables _ _ C2) as [-> _]. exact Hst.
Qed.

(** *** Handlers *)

Lemma live_ctx_ok i w s (Q : option ngx_rtmp_live_ctx_t -> process -> Prop) : sessions w !! i = Some s ->
  (forall o, (forall c, o = Some c -> lctx s = Some c /\ is_Some (stream c)) -> Q o w) -> wp (live_ctx i) w Q.
Proof.
  intros E HQ. unfold live_ctx. apply wp_bind, (wp_session_of i w s); [done|]. apply wp_ret, HQ. intros c.
  destruct (lctx s) as [c'|]; [|done]. destruct (stream c') as [st|] eqn:Es; [|done].
  destruct (c_hls c'); [done|]. intros [= <-]. rewrite Es. eauto.
Qed.

(** What happens to the process: a command of a session, a packet from it, or a
    timer. *)
Inductive request :=
  | Do_publish (i : sid) (v : ngx_rtmp_publish_t)
  | Do_play (i : sid) (v : ngx_rtmp_play_t)
  | Do_close (i : sid)
  | Do_pause (i : sid) (pause : bool)
  | Do_begin (i : sid)
  | Do_eof (i : sid)
  | Do_packet (stale : Z) (i : sid) (h : Chunk.ngx_rtmp_header_t) (chain : list (list Z))
  | Idle_timer (i : sid)
  | Check_timer (st : stid).

Definition handle (r : request) : M unit :=
  match r with
  | Do_publish i v => _ ← ngx_rtmp_live_publish cscf lacf next_publish i v; mret tt
  | Do_play i v => _ ← ngx_rtmp_live_play cscf lacf next_play i v; mret tt
  | Do_close i => _ ← ngx_rtmp_live_close_stream cscf lacf next_close_stream i; mret tt
  | Do_pause i b => _ ← ngx_rtmp_live_pause cscf lacf next_pause i b; mret tt
  | Do_begin i => _ ← ngx_rtmp_live_stream_begin cscf lacf next_stream_begin i; mret tt
  | Do_eof i => _ ← ngx_rtmp_live_stream_eof cscf lacf next_stream_eof i; mret tt
  | Do_packet stale i h chain => _ ← ngx_rtmp_live_av cscf lacf stale i h chain; mret tt
  | Idle_timer i => ngx_rtmp_live_idle i
  | Check_timer st => ngx_rtmp_live_checking_callback ngx_rtmp_notify_play1 st
  end.

(** Requests come from sessions of the process, with names that fit; timers
    fire when they are set. *)
Definition enabled (r : request) (w : process) : Prop :=
  match r with
  | Do_publish i v => i ∈ ids /\ (length (pv_name v) < NGX_RTMP_MAX_NAME)%nat
  | Do_play i v => i ∈ ids /\ (length (v_name v) < NGX_RTMP_MAX_NAME)%nat
  | Do_close i | Do_pause i _ | Do_begin i | Do_eof i => i ∈ ids
  | Do_packet stale i h chain => i ∈ ids /\ (chain <> [] -> packet_ok cscf h chain stale)
  | Idle_timer i => exists s c, sessions w !! i = Some s /\ lctx s = Some c /\ idle_evt c = true
  | Check_timer st => exists x, heap w !! st = Some x /\ check_evt x = true
  end.

Lemma then_keeps {A} (m : M A) w : wp m w keeps -> wp (_ ← m; mret tt) w (fun _ => live_ok).
Proof. intros H. eapply wp_step; [exact H|]. intros a w' Hw. now apply wp_ret. Qed.

Lemma turn_when (a : bool) i o w s : live_ok w -> sessions w !! i = Some s ->
  (forall c, o = Some c -> lctx s = Some c /\ is_Some (stream c)) ->
  wp (when (match o with Some c => publishing c | None => false end)
    (if a then ngx_rtmp_live_start cscf lacf i else ngx_rtmp_live_stop cscf lacf i)) w (fun _ => live_ok).
Proof.
  intros H E Ho. apply wp_when; intros Hb; [|done]. destruct o as [c|]; [|done]. destruct (Ho c eq_refl) as [El Es].
  exact (turn_live a i s c w H E El Es).
Qed.

Lemma publish_ok i v w : live_ok w -> i ∈ ids -> (length (pv_name v) < NGX_RTMP_MAX_NAME)%nat ->
  wp (ngx_rtmp_live_publish cscf lacf next_publish i v) w keeps.
Proof.
  intros H Hi Hn. unfold ngx_rtmp_live_publish. eapply wp_step with (P := fun _ => live_ok); [|intros [] w1 H1; now apply publish_keeps].
  apply wp_when; intros _; [|done]. eapply wp_step; [apply join_ok; [done|now apply ids_session|done]|]. intros [] w1 H1.
  destruct (ids_session w1 i H1 Hi) as [s E]. apply wp_bind, (wp_session_of i w1 s); [done|].
  destruct (lctx s) as [c|] eqn:El; [|now apply wp_ret]. apply wp_when; intros Hp; [|done].
  eapply wp_step; [eapply upd_ctx_calm; [apply H1|exact E|exact El|]|].
  { split; [done|]. intros _. split; [done|]. auto. }
  intros [] w2 [Hp2 C2]. pose proof (live_calm w1 w2 H1 Hp2 C2) as H2. apply wp_when; intros _; [|done].
  destruct (calm_session _ _ _ _ C2 E) as (s2 & E2 & _).
  eapply wp_step; [eapply status_calm; [exact Hp2|reflexivity..|exact E2|cbn; lia]|]. intros rc w3 [Hp3 C3].
  apply wp_ret. exact (live_calm w2 w3 H2 Hp3 C3).
Qed.

Lemma play_ok i v w : live_ok w -> i ∈ ids -> (length (v_name v) < NGX_RTMP_MAX_NAME)%nat ->
  wp (ngx_rtmp_live_play cscf lacf next_play i v) w keeps.
Proof.
  intros H Hi Hn. unfold ngx_rtmp_live_play. eapply wp_step with (P := fun _ => live_ok); [|intros [] w1 H1; now apply play_keeps].
  apply wp_when; intros _; [|done]. eapply wp_step; [apply join_ok; [done|now apply ids_session|done]|]. intros [] w1 H1.
  destruct (ids_session w1 i H1 Hi) as [s E]. apply wp_bind, (wp_session_of i w1 s); [done|].
  destruct (lctx s) as [c|] eqn:El; [|now apply wp_ret].
  eapply wp_step; [eapply upd_ctx_calm; [apply H1|exact E|exact El|]|].
  { split; [done|]. intros _. split; [done|]. auto. }
  intros [] w2 [Hp2 C2]. pose proof (live_calm w1 w2 H1 Hp2 C2) as H2. destruct (calm_session _ _ _ _ C2 E) as (s2 & E2 & _).
  eapply wp_step with (P := calmly [] w2).
  { apply wp_when; intros _; [|split; [done|reflexivity]].
    eapply wp_step; [eapply status_calm; [exact Hp2|reflexivity..|exact E2|cbn; lia]|]. intros rc w3 [Hp3 C3].
    destruct (calm_session _ _ _ _ C3 E2) as (s3 & E3 & _).
    eapply wp_step; [eapply access_calm; [exact Hp3|exact E3|cbn; lia]|]. intros rc' w4 [Hp4 C4].
    destruct (calm_session _ _ _ _ C4 E3) as (s4 & E4 & _). eapply wp_upd_session; [exact Hp4|exact E4|done..|]. intros Hp5.
    split; [done|]. etransitivity; [exact C3|]. etransitivity; [exact C4|]. apply (put_calm i s4); [done|].
    split; [done|]. split; [done|]. cbn. destruct (lctx s4); constructor. reflexivity. }
  intros [] w3 [Hp3 C3]. eapply wp_eq; [reflexivity|]. apply (live_calm w2); [done| |].
  - destruct Hp3 as [lv [P1 P2 P3 P4]]. exists lv. now split.
  - etransitivity; [exact C3|]. apply counts_calm.
Qed.

Lemma pause_ok i b w : live_ok w -> i ∈ ids -> wp (ngx_rtmp_live_pause cscf lacf next_pause i b) w keeps.
Proof.
  intros H Hi. destruct (ids_session w i H Hi) as [s E]. unfold ngx_rtmp_live_pause.
  apply wp_bind, (live_ctx_ok i w s); [done|]. intros [c|] Ho; [|now apply pause_keeps]. destruct (Ho c eq_refl) as [El Es].
  eapply wp_step with (P := calmly [] w).
  { destruct b; (eapply status_calm; [apply H|reflexivity..|exact E|cbn; lia]). }
  intros rc w1 [Hp1 C1]. pose proof (live_calm w w1 H Hp1 C1) as H1. destruct (is_ok rc); cbn [negb]; [|now apply wp_ret].
  destruct (calm_ctx _ _ _ _ _ C1 E El) as (s1 & c1 & E1 & El1 & A1 & _).
  eapply wp_step; [eapply upd_ctx_calm; [exact Hp1|exact E1|exact El1|]|].
  { split; [done|]. intros _. split; [done|]. auto. }
  intros [] w2 [Hp2 C2]. pose proof (live_calm w1 w2 H1 Hp2 C2) as H2.
  destruct (calm_ctx _ _ _ _ _ C2 E1 El1) as (s2 & c2 & E2 & El2 & A2 & _).
  assert (is_Some (stream c2)) as Es2.
  { destruct A1 as [[= K1 _ _ _] _], A2 as [[= K2 _ _ _] _]. rewrite K2, K1. done. }
  eapply wp_step with (P := fun _ => live_ok); [|intros [] w3 H3; now apply pause_keeps].
  destruct b; [exact (turn_live false i s2 c2 w2 H2 E2 El2 Es2)|exact (turn_live true i s2 c2 w2 H2 E2 El2 Es2)].
Qed.

Lemma handle_keeps r w : live_ok w -> enabled r w -> wp (handle r) w (fun _ => live_ok).
Proof.
  intros H. destruct r as [i v|i v|i|i b|i|i|stale i h chain|i|st]; cbn [handle enabled].
  - intros [Hi Hn]. now apply then_keeps, publish_ok.
  - intros [Hi Hn]. now apply then_keeps, play_ok.
  - intros Hi. apply then_keeps. eapply wp_step; [apply live_close_ok; [done|now apply ids_session]|].
    intros [] w1 H1. now apply close_keeps.
  - intros Hi. now apply then_keeps, pause_ok.
  - intros Hi. apply then_keeps. destruct (ids_session w i H Hi) as [s E]. apply wp_bind, (live_ctx_ok i w s); [done|].
    intros o Ho. eapply wp_step; [exact (turn_when true i o w s H E Ho)|]. intros [] w1 H1. now apply begin_keeps.
  - intros Hi. apply then_keeps. destruct (ids_session w i H Hi) as [s E]. apply wp_bind, (live_ctx_ok i w s); [done|].
    intros o Ho. eapply wp_step; [exact (turn_when false i o w s H E Ho)|]. intros [] w1 H1. now apply eof_keeps.
  - intros [Hi Hpk]. now apply then_keeps, av_ok.
  - intros (s & c & E & El & Hi). exact (idle_timer_ok i s c w H E El Hi).
  - intros (x & Ex & Hc). exact (check_timer_ok st x w H Ex Hc).
Qed.

(** Sequences of requests. *)
Inductive history : process -> process -> Prop :=
  | hist_start w : history w w
  | hist_step w1 w2 w3 r : history w1 w2 -> enabled r w2 -> handle r w2 = Some (tt, w3) -> history w1 w3.

Lemma history_keeps w w' : live_ok w -> history w w' -> live_ok w'.
Proof.
  intros H. induction 1 as [|w1 w2 w3 r Hh IH He E]; [done|]. destruct (handle_keeps r w2 (IH H) He) as ([] & w' & E' & Hw).
  rewrite E in E'. injection E' as <-. exact Hw.
Qed.

(** C4: the tables of the live module stay consistent through every history of
    commands, packets and timers, and no request fails.  In every process
    reached, each stream of the table is in the bucket of its name, which no
    other stream has, is found through its context by every session in it and by
    no other, has at most one publisher, and is active exactly when that publisher
    is; streams without sessions are free, with no timer set; an idle timer
    belongs to an active publisher, and a stream with a publisher is not waiting
    for one; every reference to a buffer is accounted for.  An enabled request is
    carried out without using a session, stream, relay context or buffer that is
    not there. *)
Theorem live_histories w w' : live_ok w -> history w w' ->
  live_ok w' /\ forall r, enabled r w' -> exists w'', handle r w' = Some (tt, w'') /\ live_ok w''.
Proof.
  intros H Hh. pose proof (history_keeps w w' H Hh) as H'. split; [done|]. intros r Hr.
  destruct (handle_keeps r w' H' Hr) as ([] & w'' & E & Hw). eauto.
Qed.

End Requests.

End Limits.

(* ------------------------------------------------------------------ *)
(** ** A day *)

Definition two_ids : gset sid := {[0%nat; 1%nat]}.

Lemma start_sessions i s : sessions start_of_day !! i = Some s -> s = new_session None.
Proof.
  cbn [start_of_day sessions]. rewrite lookup_insert_Some, lookup_singleton_Some. intros [[_ <-]|(_ & _ & <-)]; done.
Qed.

Lemma start_ctxs j : ctxs start_of_day !! j = None.
Proof.
  apply eq_None_not_Some. intros [c (s & E & El)%ctxs_lookup]. now rewrite (start_sessions j s E) in El.
Qed.

Lemma start_tables lacf : nbuckets lacf = 4 -> tables lacf start_of_day.
Proof.
  intros Hn. assert (forall st, st ∉ concat (replicate 4 (@nil stid))) as Hno by (intros st; apply not_elem_of_nil).
  assert (forall st j c, ~ on (ctxs start_of_day) st j c) as Hon by (intros st j c [E _]; rewrite start_ctxs in E; done).
  unfold tables. cbn [start_of_day heap streams free_streams]. split.
  - now rewrite Hn.
  - constructor.
  - intros st. rewrite lookup_empty, map_size_empty. split; [now intros [? [=]]|lia].
  - intros st. rewrite lookup_empty. split; [now intros [? [=]]|]. intros [H|H]%elem_of_app; [now destruct (Hno st)|].
    now apply not_elem_of_nil in H.
  - intros st x H. now destruct (Hno st).
  - intros b l st x _ _. now rewrite lookup_empty.
  - intros st st' x x' H. now destruct (Hno st).
  - intros st x H. now apply not_elem_of_nil in H.
  - intros j c st H. now destruct (Hon st j c).
  - intros j c E. rewrite start_ctxs in E. done.
Qed.

Lemma start_pool : pool_ok 4096 256 [] start_of_day.
Proof.
  exists []. split.
  - change (refs (sessions start_of_day) ++ []) with (@nil loc). split; [apply empty_pool_wf|..].
    + intros l H. now apply not_elem_of_nil in H.
    + intros ls l H. now apply not_elem_of_nil in H.
    + intros l c H. now apply not_elem_of_nil in H.
  - intros i s ->%start_sessions. split; [|done|exists (2 ^ 56); reflexivity|cbn; lia].
    change (Queue.pending (queue (new_session None))) with (@nil loc).
    split; [reflexivity|cbn; lia|reflexivity|reflexivity|done].
  - reflexivity.
  - reflexivity.
Qed.

Lemma start_live lacf : nbuckets lacf = 4 -> live_ok 4096 256 Chunk.conf lacf two_ids start_of_day.
Proof.
  intros Hn. split; [apply start_pool|now apply start_tables|..].
  - intros st x _. cbn [start_of_day heap]. now rewrite lookup_empty.
  - split.
    + apply (bool_decide_unpack _). exact Logic.I.
    + intros j s c ->%start_sessions [=].
    + split; [done|..].
      * intros r H. change (concat (relays start_of_day)) with (@nil rid) in H. now apply not_elem_of_nil in H.
      * intros r c p. cbn [start_of_day relay_heap]. now rewrite lookup_empty.
      * intros r c. cbn [start_of_day relay_heap]. now rewrite lookup_empty.
    + intros j s k ->%start_sessions [=].
Qed.

(** Handlers of other modules that do nothing. *)
Lemma no_next_keeps {A} size qmax cscf lacf ids i (v : A) w : live_ok size qmax cscf lacf ids w -> i ∈ ids ->
  wp (no_next i v) w (keeps size qmax cscf lacf ids).
Proof. intros H _. now apply wp_ret. Qed.
Lemma no_next1_keeps size qmax cscf lacf ids i w : live_ok size qmax cscf lacf ids w -> i ∈ ids ->
  wp (no_next1 i) w (keeps size qmax cscf lacf ids).
Proof. intros H _. now apply wp_ret. Qed.
Definition no_notify (_ : sid) (_ : ngx_rtmp_play_t) : M unit := mret tt.
Lemma no_notify_calm size qmax cscf lacf ids i v w : live_ok size qmax cscf lacf ids w -> i ∈ ids ->
  wp (no_notify i v) w (calmly size qmax [] w).
Proof. intros H _. apply wp_ret. split; [apply H|reflexivity]. Qed.

Definition handle_alone : request -> M unit :=
  handle Chunk.conf (defaults false) no_next no_next no_next1 no_next1 no_next1 no_next no_notify.
Definition publish_a : request := Do_publish 0%nat (Publish (str "a") [] false).
Definition play_a : request := Do_play 1%nat (Play (str "a") [] 0 0 0 false).
Definition published_a : process := default start_of_day (snd <$> handle_alone publish_a start_of_day).

Lemma live_histories_witness :
  handle_alone publish_a start_of_day = Some (tt, published_a) /\
  exists w, handle_alone play_a published_a = Some (tt, w) /\
    live_ok 4096 256 Chunk.conf (defaults false) two_ids w.
Proof.
  assert (handle_alone publish_a start_of_day = Some (tt, published_a)) as E.
  { unfold published_a. destruct (handle_alone publish_a start_of_day) as [[[] w]|] eqn:E; [reflexivity|].
    exfalso. revert E. vm_compute. discriminate. }
  split; [exact E|].
  destruct (live_histories 4096 256 Chunk.conf (defaults false) ltac:(apply (bool_decide_unpack _); exact Logic.I)
    ltac:(reflexivity) ltac:(reflexivity) ltac:(reflexivity) two_ids no_next no_next no_next1 no_next1 no_next1 no_next
    no_notify (no_next_keeps _ _ _ _ _) (no_next_keeps _ _ _ _ _) (no_next1_keeps _ _ _ _ _) (no_next1_keeps _ _ _ _ _)
    (no_next1_keeps _ _ _ _ _) (no_next_keeps _ _ _ _ _) (no_notify_calm _ _ _ _ _) start_of_day published_a
    (start_live (defaults false) eq_refl)) as [_ H].
  - eapply hist_step; [apply hist_start|instantiate (1 := publish_a); split; [|cbn; unfold NGX_RTMP_MAX_NAME; lia]|exact E].
    apply (bool_decide_unpack _). exact Logic.I.
  - destruct (H play_a) as (w & E' & Hw).
    + split; [|cbn; unfold NGX_RTMP_MAX_NAME; lia]. apply (bool_decide_unpack _). exact Logic.I.
    + exists w. split; [exact E'|exact Hw].
Defined.

End LiveHistory.
