(* ===== verification/Ping.v ===== *)
(** * Keep-alive (src/src/rtmp/ngx_rtmp_handler.c)

    [ngx_rtmp_cycle] starts the receiving side (Chunk.v) and a timer; when it
    fires, a session without traffic is asked for a sign of life with a ping
    request (Send.v, Queue.v), and closed when there was none until the timer
    fires again.

    The flag [ping_reset], which the code keeps once, is kept once for each
    direction: it is set if it is set in one of them, and cleared in both. *)

From Stdlib Require Import ZArith Lia.
From stdpp Require Import base numbers list gmap.
From S2P Require Import Prelude Buf Bandwidth Chunk Shared Queue Receive Send.

Module Ping.

Import Shared.

(** The part of the configuration for pings, in milliseconds. *)
Record ping_conf := PingConf {
  ping : Z;
  ping_timeout : Z;
  busy : bool
}.

(** [ping_evt] is the time the timer is set to. *)
Record session (A : Type) := Session {
  receiving : Chunk.session A;
  sending : Queue.session;
  ping_active : bool;
  ping_evt : option Z
}.
Arguments Session {A}.
Arguments receiving {A}.
Arguments sending {A}.
Arguments ping_active {A}.
Arguments ping_evt {A}.

Section Keepalive.
Context {A : Type} (conf : ping_conf) (cscf : Chunk.ngx_rtmp_core_srv_conf_t).
Implicit Types (s : session A).

Definition ping_reset s : bool :=
  Chunk.ping_reset (receiving s) || Queue.ping_reset (sending s).

Definition clear_recv (r : Chunk.session A) : Chunk.session A :=
  Chunk.Session (Chunk.in_streams r) (Chunk.in_csid r) (Chunk.in_chunk_size r)
    (Chunk.in_chunk_size_changing r) (Chunk.in_pool r) (Chunk.in_old_pool r) (Chunk.in_bytes r)
    (Chunk.in_last_ack r) (Chunk.ack_size r) false (Chunk.bw_in r) (Chunk.app r).
Definition clear_send (q : Queue.session) : Queue.session :=
  Queue.Session (Queue.out q) (Queue.out_pos q) (Queue.out_last q) (Queue.out_chain q)
    (Queue.out_bpos q) (Queue.out_queue q) (Queue.out_cork q) (Queue.out_buffer q)
    (Queue.out_bytes q) (Queue.hls q) (Queue.is_relay q) false (Queue.write_active q)
    (Queue.counters q).

(** [now_msec] is [ngx_current_msec]. *)
Definition ngx_rtmp_reset_ping (now_msec : Z) s : session A :=
  if ping conf =? 0 then s
  else Session (clear_recv (receiving s)) (clear_send (sending s)) false (Some (now_msec + ping conf)).

(** [Closed] is a finalised session. *)
Inductive ping_end := Kept | Closed.

(** The timer has fired and is not set. *)
Definition ngx_rtmp_ping (now now_msec : Z) (sock : list Queue.send_ev) (p : pool) s
  : option (ping_end * pool * session A * list Z) :=
  if ping_reset s then Some (Kept, p, ngx_rtmp_reset_ping now_msec s, [])
  else if ping_active s then Some (Closed, p, s, [])
  else if busy conf then Some (Closed, p, s, [])
  else
    '(rc, p, q, wire) ← Send.ngx_rtmp_send_ping_request cscf now false false sock (sending s) p
       (u32 now_msec);
    if decide (rc = NGX_OK)
    then Some (Kept, p, Session (receiving s) q true (Some (now_msec + ping_timeout conf)), wire)
    else Some (Closed, p, Session (receiving s) q (ping_active s) (ping_evt s), wire).

(** The rest of the arguments are those of [ngx_rtmp_recv]. *)
Definition ngx_rtmp_cycle (now now_msec : Z) (events : Z -> list (Chunk.ngx_rtmp_handler_pt A))
    (send_ack : A -> Z -> ngx_rc * A) (fuel : nat) (destroyed : bool) s (sock : list Chunk.sock_ev)
  : option (Chunk.outcome * session A * list Chunk.sock_ev) :=
  let s := ngx_rtmp_reset_ping now_msec s in
  '(r, rcv, sock) ← Chunk.ngx_rtmp_recv cscf now events send_ack fuel destroyed (receiving s) sock;
  Some (r, Session rcv (sending s) (ping_active s) (ping_evt s), sock).

(* ------------------------------------------------------------------ *)
(** ** What the timer does *)

Lemma clear_send_ok held p q live pend : Queue.queue_ok held p q live pend ->
  Queue.queue_ok held p (clear_send q) live pend /\
  Queue.remaining p (clear_send q) pend = Queue.remaining p q pend.
Proof. intros [[H1 H2 H3 H4 H5] Ho Hc]. split; [split; [now constructor|done|exact Hc]|reflexivity]. Qed.

Lemma reset_ping_ok held p s live pend now_msec :
  Queue.queue_ok held p (sending s) live pend ->
  let q := sending (ngx_rtmp_reset_ping now_msec s) in
  Queue.queue_ok held p q live pend /\ Queue.remaining p q pend = Queue.remaining p (sending s) pend.
Proof.
  intros Hq. unfold ngx_rtmp_reset_ping. case_if; [done|]. now apply clear_send_ok.
Qed.

(** Whether the session is asked for a sign of life, and whether it is
    closed. *)
Definition asks s : bool := negb (ping_reset s || ping_active s || busy conf).
Definition closes (full : bool) s : bool :=
  negb (ping_reset s) && (ping_active s || busy conf || full).

(** The timer of a session: with traffic since the last time it is set again;
    otherwise the session is closed if a ping is outstanding, if it must be
    busy or if its queue is full, and else gets a ping request behind its
    other messages.  No reference is lost. *)
Theorem ping_timer held now now_msec sock p s live pend :
  Queue.queue_ok held p (sending s) live pend -> Queue.hls (sending s) = false ->
  (Queue.out_queue (sending s) | 2 ^ 64) -> (22 <= chunk_size p)%nat -> 2 < Chunk.max_streams cscf ->
  let full := Queue.out_queue (sending s) <=? Z.of_nat (length pend) + 1 in
  exists p' s' w live' pend',
    ngx_rtmp_ping now now_msec sock p s = Some (if closes full s then Closed else Kept, p', s', w) /\
    Queue.queue_ok held p' (sending s') live' pend' /\ Queue.kept held p p' /\
    w ++ Queue.remaining p' (sending s') pend' = Queue.remaining p (sending s) pend ++
      (if asks s && negb full then Send.control_bytes (Send.CPingRequest (u32 now_msec)) else []).
Proof.
  intros Hq Hh Hd Hk Hmax full. unfold ngx_rtmp_ping, closes, asks.
  destruct (ping_reset s) eqn:Er.
  { destruct (reset_ping_ok held p s live pend now_msec Hq) as [Hq' Hr'].
    exists p, (ngx_rtmp_reset_ping now_msec s), [], live, pend. cbn [negb orb andb].
    rewrite app_nil_r. split; [done|]. split; [done|]. split; [apply Queue.kept_refl|done]. }
  destruct (ping_active s) eqn:Ea.
  { exists p, s, [], live, pend. cbn [negb orb andb]. rewrite app_nil_r.
    split; [done|]. split; [done|]. split; [apply Queue.kept_refl|done]. }
  destruct (busy conf) eqn:Eb.
  { exists p, s, [], live, pend. cbn [negb orb andb]. rewrite app_nil_r.
    split; [done|]. split; [done|]. split; [apply Queue.kept_refl|done]. }
  destruct (Send.control_sent_spec held cscf now sock p (sending s) live pend
    (Send.CPingRequest (u32 now_msec)) Hq Hh Hd Hk ltac:(apply Z.mod_pos_bound; lia) Hmax)
    as (p' & q & w & live' & pend' & E & Hq' & Hkept & Hw). fold full in E, Hw.
  unfold Send.ngx_rtmp_send_ping_request. cbn [Send.create] in E. rewrite E, some_bind.
  cbn [negb orb andb]. destruct full; case_decide; try done;
    (eexists p', _, w, live', pend'; split; [reflexivity|]; auto).
Qed.

(** ** A peer that does not answer *)

Lemma next_buf_reset p q c p' q' l : Queue.next_buf p q c = Some (p', q', l) ->
  Queue.ping_reset q' = Queue.ping_reset q.
Proof.
  unfold Queue.next_buf. destruct (next c); [now intros [= _ <- _]|].
  destruct (Queue.slot q _) as [l0|]; [|done]. rewrite some_bind.
  destruct (ngx_rtmp_free_shared_chain p l0); [|done]. rewrite some_bind. case_if; [now intros [= _ <- _]|].
  destruct (Queue.slot _ _); [|done]. rewrite some_bind. now intros [= _ <- _].
Qed.

(** Bytes written set the flag. *)
Lemma send_loop_reset now sock : forall p q wire e p' q' w,
  Queue.send_loop now sock p q wire = Some (e, p', q', w) ->
  (Queue.ping_reset q = true -> Queue.ping_reset q' = true) /\ (w <> wire -> Queue.ping_reset q' = true).
Proof.
  induction sock as [|ev sock IH]; intros p q wire e p' q' w; cbn [Queue.send_loop];
    (destruct (Queue.out_chain q) as [l|]; [|now intros [= _ _ <- <-]]); [now intros [= _ _ <- <-]|].
  destruct ev as [n|]; [|now intros [= _ _ <- <-]].
  destruct (cells p !! l) as [c|]; [|done]. rewrite some_bind. case_if; [now intros [= _ _ <- <-]|].
  case_if.
  - destruct (Queue.next_buf _ _ _) as [[[p1 q1] [l1|]]|] eqn:E1; [|..|done]; rewrite some_bind;
      apply next_buf_reset in E1.
    + destruct (cells p1 !! l1) as [c1|]; [|done]. rewrite some_bind. intros [Hq _]%IH.
      cbn in Hq, E1. auto.
    + intros [= _ _ <- <-]. cbn. auto.
  - intros [Hq _]%IH. cbn in Hq. auto.
Qed.

Lemma request_reset now sock q p t rc p' q' w :
  Send.ngx_rtmp_send_ping_request cscf now false false sock q p t = Some (rc, p', q', w) ->
  w <> [] -> Queue.ping_reset q' = true.
Proof.
  unfold Send.ngx_rtmp_send_ping_request, Send.ngx_rtmp_send_shared_packet.
  destruct (Send.ngx_rtmp_create_ping_request cscf p t) as [[p1 l]|]; [|done]. rewrite some_bind.
  destruct (Queue.ngx_rtmp_send_message _ _ _ _ _ _ _ _) as [[[[rc1 p2] q2] w2]|] eqn:E; [|done].
  rewrite some_bind. destruct (ngx_rtmp_free_shared_chain p2 l); [|done]. rewrite some_bind.
  intros [= <- <- <- <-] Hw. unfold Queue.ngx_rtmp_send_message in E.
  destruct (Queue.queue_message _ _ _ _ _ _ _ _) as [[[[[rc3 e3] p3] q3] w3]|] eqn:Em; [|done].
  rewrite some_bind in E. injection E as <- <- <- <-. unfold Queue.queue_message in Em. revert Em.
  case_if; [now intros [= <- _ <- <- <-]|]. cbv zeta. case_if; [now intros [= <- _ <- <- <-]|].
  destruct (ngx_rtmp_acquire_shared_chain p1 l); [|done]. rewrite some_bind.
  case_if; [now intros [= <- _ <- <- <-]|]. case_if; [|now intros [= <- _ <- <- <-]].
  destruct (Queue.ngx_rtmp_send _ _ _ _ _ _) as [[[[e p4] q4] w4]|] eqn:Es; [|done].
  rewrite some_bind. intros [= <- <- <- <- <-]. unfold Queue.ngx_rtmp_send in Es.
  destruct (match Queue.out_chain _ with Some _ => _ | None => _ end); [|done].
  rewrite some_bind in Es. apply send_loop_reset in Es as [_ Hs]. auto.
Qed.

(** A peer that reads and never writes is never closed: writing the ping
    request is itself taken for traffic, so that the timer that should miss
    the answer starts again. *)
Theorem unanswered_kept now now_msec sock p s p1 s1 w :
  ngx_rtmp_ping now now_msec sock p s = Some (Kept, p1, s1, w) -> w <> [] ->
  forall now2 now_msec2 sock2,
  ngx_rtmp_ping now2 now_msec2 sock2 p1 s1 = Some (Kept, p1, ngx_rtmp_reset_ping now_msec2 s1, []).
Proof.
  unfold ngx_rtmp_ping at 1. destruct (ping_reset s); [now intros [= <- <- <-]|].
  destruct (ping_active s); [done|]. destruct (busy conf); [done|].
  destruct (Send.ngx_rtmp_send_ping_request _ _ _ _ _ _ _ _) as [[[[rc p2] q] w2]|] eqn:E; [|done].
  rewrite some_bind. case_decide; [|done]. intros [= <- <- <-] Hw now2 now_msec2 sock2.
  pose proof (request_reset _ _ _ _ _ _ _ _ _ E Hw) as Hr.
  unfold ngx_rtmp_ping, ping_reset. cbn [receiving sending]. now rewrite Hr, orb_true_r.
Qed.

End Keepalive.

End Ping.
