(* ===== verification/Eval.v ===== *)
(** * Variables in configured strings (src/src/rtmp/ngx_rtmp_eval.c)

    The arguments of the programs the server starts hold variables of the stream:
    [$name], [${name}], and characters behind a backslash.  The result grows in a
    buffer of Buf.v; [None] is an access outside of it.  [ngx_rtmp_eval_streams]
    redirects the descriptors of the new process (Disk.v). *)

From Stdlib Require Import ZArith Lia.
From stdpp Require Import base numbers list strings gmap.
From S2P Require Import Prelude Text Buf Disk.

Module Eval.

Import Text Disk.

Definition NGX_RTMP_EVAL_BUFLEN : nat := 16.

(** What the variables are taken from: strings of the session, and the address
    of its connection. *)
Record session := Session {
  app : list Z;
  flashver : list Z;
  swf_url : list Z;
  tc_url : list Z;
  page_url : list Z;
  addr_text : list Z
}.

(** A variable: its name, and the handler at its offset; [C] is what the handlers
    get. *)
Record ngx_rtmp_eval_t (C : Type) := Var { name : list Z; handler : C -> list Z }.
Arguments Var {C}.
Arguments name {C}.
Arguments handler {C}.

Definition ngx_rtmp_eval_session : list (ngx_rtmp_eval_t session) :=
  [Var (str "app") app; Var (str "flashver") flashver; Var (str "swfurl") swf_url;
   Var (str "tcurl") tc_url; Var (str "pageurl") page_url; Var (str "addr") addr_text].

(** A buffer that is too small is replaced by one of twice the bytes in it and
    those to come. *)
Definition ngx_rtmp_eval_append (b : ngx_buf_t) (data : list Z) : option ngx_buf_t :=
  let len := length data in
  let b :=
    if (b_end b <? b_last b + len)%nat
    then buf_push (buf_alloc (2 * (b_last b - b_pos b) + len) 0) (buf_data b)
    else b in
  if (len <=? buf_room b)%nat then Some (buf_push b data) else None.

Section Vars.
Context {C : Type} (ctx : C) (e : list (list (ngx_rtmp_eval_t C))).

(** All variables of this name, in all arrays. *)
Fixpoint append_vars (vs : list (ngx_rtmp_eval_t C)) (nm : list Z) (b : ngx_buf_t) : option ngx_buf_t :=
  match vs with
  | [] => Some b
  | v :: vs =>
      b ← if bool_decide (name v = nm) then ngx_rtmp_eval_append b (handler v ctx) else Some b;
      append_vars vs nm b
  end.
Definition ngx_rtmp_eval_append_var (nm : list Z) (b : ngx_buf_t) : option ngx_buf_t :=
  append_vars (concat e) nm b.

(** The state with the place where the name begins. *)
Inductive state := NORMAL | ESCAPE | NAME (data : nat) | SNAME (data : nat).

Definition is_letter (c : Z) : bool := ((97 <=? c) && (c <=? 122)) || ((65 <=? c) && (c <=? 90)).

(** The case of [NORMAL], at the character [c] in front of [p]; that of [ESCAPE]
    is its end. *)
Definition escape (c : Z) (b : ngx_buf_t) : option (state * ngx_buf_t) :=
  b ← ngx_rtmp_eval_append b [c]; Some (NORMAL, b).
Definition normal (p : nat) (c : Z) (b : ngx_buf_t) : option (state * ngx_buf_t) :=
  if c =? 36 then Some (NAME p, b)
  else if c =? 92 then Some (ESCAPE, b)
  else escape c b.

(** One pass of the loop of [ngx_rtmp_eval] over [inp], at its [n]-th character
    [c]. *)
Definition eval_step (inp : list Z) (n : nat) (c : Z) (st : state) (b : ngx_buf_t) : option (state * ngx_buf_t) :=
  match st with
  | SNAME k =>
      if negb (c =? 125) then Some (SNAME k, b)
      else b ← ngx_rtmp_eval_append_var (take (n - k) (drop k inp)) b; Some (NORMAL, b)
  | NAME k =>
      if (c =? 123) && (k =? n)%nat then Some (SNAME (S k), b)
      else if is_letter c then Some (NAME k, b)
      else b ← ngx_rtmp_eval_append_var (take (n - k) (drop k inp)) b; normal (S n) c b
  | NORMAL => normal (S n) c b
  | ESCAPE => escape c b
  end.

Fixpoint eval_loop (inp : list Z) (n : nat) (rest : list Z) (st : state) (b : ngx_buf_t) : option (state * ngx_buf_t) :=
  match rest with
  | [] => Some (st, b)
  | c :: rest => '(st, b) ← eval_step inp n c st b; eval_loop inp (S n) rest st b
  end.

(** The string behind [pos], without the zero at its end. *)
Definition ngx_rtmp_eval (inp : list Z) : option (list Z) :=
  '(st, b) ← eval_loop inp 0 inp NORMAL (buf_alloc NGX_RTMP_EVAL_BUFLEN 0);
  b ← match st with
      | NAME k => ngx_rtmp_eval_append_var (take (length inp - k) (drop k inp)) b
      | _ => Some b
      end;
  b ← ngx_rtmp_eval_append b [0];
  Some (take (b_last b - b_pos b - 1) (drop (b_pos b) (b_mem b))).

End Vars.

(* ------------------------------------------------------------------ *)
(** ** Redirections *)

(** [dup2]: without effect when it fails. *)
Definition dup2 (src dst : Z) (d : disk) : disk :=
  if (src <? 0) || (dst <? 0) then d
  else match fds d !! Z.to_nat src with
       | Some x =>
           let '(r, d) := call d in
           match r with Some _ => set_fds (<[Z.to_nat dst := x]> (fds d)) d | None => d end
       | None => d
       end.

Fixpoint digits (l : list Z) : nat :=
  match l with c :: l => if (48 <=? c) && (c <=? 57) then S (digits l) else 0 | [] => 0 end.

(** The descriptor in front of the sign. *)
Definition target_fd (inp : list Z) (k : nat) (standard : Z) : option (option Z) :=
  if (k =? 0)%nat then Some (Some standard) else ngx_atoi (take k inp).

(** The string [inp] with a zero behind it. *)
Definition ngx_rtmp_eval_streams (inp : list Z) (d : disk) : option (ngx_rc * disk) :=
  let k := digits inp in
  let char j := default 0 (inp !! j) in
  let go v c k :=
    match v with
    | None => Some (NGX_ERROR, d)
    | Some v =>
        let dst := s32 v in
        if char k =? 38 then
          src ← ngx_atoi (drop (S k) inp);
          match src with
          | None => Some (NGX_ERROR, d)
          | Some src =>
              let src := s32 src in
              Some (NGX_OK, if src =? dst then d else dup2 src dst d)
          end
        else
          match ngx_open_file (drop k inp) c d with
          | (None, d) => Some (NGX_ERROR, d)
          | (Some src, d) =>
              Some (NGX_OK,
                if Z.of_nat src =? dst then d
                else snd (ngx_close_file (Some src) (dup2 (Z.of_nat src) dst d)))
          end
    end in
  if char k =? 62 then
    v ← target_fd inp k 1;
    if char (S k) =? 62 then go v CreateOrOpen (S (S k)) else go v Truncate (S k)
  else if char k =? 60 then
    v ← target_fd inp k 0;
    go v OpenOnly (S k)
  else Some (NGX_DONE, d).

(* ------------------------------------------------------------------ *)
(** ** Texts *)

(** A text is a sequence of these. *)
Inductive token := Plain (c : Z) | Escaped (c : Z) | Bare (nm : list Z) | Braced (nm : list Z).

Definition print1 (t : token) : list Z :=
  match t with
  | Plain c => [c]
  | Escaped c => [92; c]
  | Bare nm => 36 :: nm
  | Braced nm => [36; 123] ++ nm ++ [125]
  end.
Definition print (ts : list token) : list Z := concat (map print1 ts).

(** A bare name is made of letters and ends in front of anything else, an empty
    one not in front of a brace. *)
Definition ends (nm rest : list Z) : Prop :=
  match rest with [] => True | c :: _ => is_letter c = false /\ (nm = [] -> c <> 123) end.
Definition wf1 (t : token) (rest : list Z) : Prop :=
  match t with
  | Plain c => c <> 36 /\ c <> 92
  | Escaped _ => True
  | Bare nm => Forall (fun c => is_letter c = true) nm /\ ends nm rest
  | Braced nm => Forall (fun c => c <> 125) nm
  end.
Fixpoint wf (ts : list token) (tail : list Z) : Prop :=
  match ts with [] => True | t :: ts => wf1 t (print ts ++ tail) /\ wf ts tail end.

(** What may be left at the end: a backslash, or a braced name without its
    end. *)
Definition cut_off (tail : list Z) : Prop :=
  tail = [] \/ tail = [92] \/ exists nm, tail = [36; 123] ++ nm /\ Forall (fun c => c <> 125) nm.

Section Meaning.
Context {C : Type} (ctx : C) (e : list (list (ngx_rtmp_eval_t C))).

(** The values of all variables of this name. *)
Definition value (nm : list Z) : list Z :=
  concat (map (fun v => if bool_decide (name v = nm) then handler v ctx else []) (concat e)).

Definition mean1 (t : token) : list Z :=
  match t with Plain c => [c] | Escaped c => [c] | Bare nm => value nm | Braced nm => value nm end.
Definition mean (ts : list token) : list Z := concat (map mean1 ts).

(* ------------------------------------------------------------------ *)
(** ** The buffer *)

(** The result so far. *)
Definition holds (b : ngx_buf_t) (x : list Z) : Prop := (b_pos b <= b_last b <= b_end b)%nat /\ buf_data b = x.

Lemma holds_push b x y : holds b x -> (length y <= buf_room b)%nat -> holds (buf_push b y) (x ++ y).
Proof.
  intros [Hb <-] Hr. unfold holds, buf_data, buf_push, buf_room, b_end in *. cbn [b_mem b_pos b_last].
  rewrite length_splice by lia. split; [lia|].
  replace (b_last b + length y - b_pos b)%nat with ((b_last b - b_pos b) + length y)%nat by lia.
  rewrite !take_drop_commute. replace (b_pos b + (b_last b - b_pos b + length y))%nat with (b_last b + length y)%nat by lia.
  rewrite take_splice_end by lia. replace (b_pos b + (b_last b - b_pos b))%nat with (b_last b) by lia.
  rewrite drop_app_le; [done|]. rewrite length_take. lia.
Qed.

Lemma holds_alloc n : holds (buf_alloc n 0) [].
Proof. split; [unfold b_end; cbn; lia|]. reflexivity. Qed.

(** Whatever the size, there is room. *)
Lemma append_spec b x y : holds b x -> exists b', ngx_rtmp_eval_append b y = Some b' /\ holds b' (x ++ y).
Proof.
  intros Hb. unfold ngx_rtmp_eval_append. cbv zeta.
  assert (exists b1, (if (b_end b <? b_last b + length y)%nat
    then buf_push (buf_alloc (2 * (b_last b - b_pos b) + length y) 0) (buf_data b) else b) = b1 /\ holds b1 x /\
    (length y <= buf_room b1)%nat) as (b1 & -> & H1 & H2).
  { destruct (Nat.ltb_spec (b_end b) (b_last b + length y)) as [Hlt|Hge]; eexists; (split; [reflexivity|]).
    - destruct Hb as [Hb <-].
      assert (length (buf_data b) = (b_last b - b_pos b)%nat) as Hl.
      { unfold buf_data, b_end in *. rewrite length_take, length_drop. lia. }
      split.
      + apply (holds_push _ [] _ (holds_alloc _)). unfold buf_room, b_end. cbn. rewrite length_replicate. lia.
      + unfold buf_room, b_end, buf_push. cbn [b_mem b_last buf_alloc]. rewrite length_splice; rewrite length_replicate; lia.
    - split; [done|]. unfold buf_room. destruct Hb. lia. }
  rewrite (proj2 (Nat.leb_le _ _)) by done. eexists. split; [reflexivity|]. now apply holds_push.
Qed.

Lemma append_vars_spec vs nm : forall b x, holds b x -> exists b', append_vars ctx vs nm b = Some b' /\
  holds b' (x ++ concat (map (fun v => if bool_decide (name v = nm) then handler v ctx else []) vs)).
Proof.
  induction vs as [|v vs IH]; intros b x Hb; cbn [append_vars map concat]; [exists b; now rewrite app_nil_r|].
  destruct (bool_decide (name v = nm)); [|apply IH, Hb].
  destruct (append_spec b x (handler v ctx) Hb) as (b1 & -> & H1). cbn [mbind option_bind].
  destruct (IH b1 _ H1) as (b2 & E & H2). exists b2. now rewrite app_assoc.
Qed.

Lemma append_var_spec nm b x : holds b x ->
  exists b', ngx_rtmp_eval_append_var ctx e nm b = Some b' /\ holds b' (x ++ value nm).
Proof. apply append_vars_spec. Qed.

(* ------------------------------------------------------------------ *)
(** ** The loop *)

(** Between two tokens, with [rest] to come, the result is [x], the value of a bare
    name at the end of what was read, [pre], not yet in the buffer. *)
Inductive between (pre rest : list Z) (x : list Z) (b : ngx_buf_t) : state -> Prop :=
| between_normal : holds b x -> between pre rest x b NORMAL
| between_name pre' nm y : pre = pre' ++ nm -> x = y ++ value nm -> ends nm rest -> holds b y ->
    between pre rest x b (NAME (length pre')).

Lemma name_read (pre' nm rest : list Z) : take (length (pre' ++ nm) - length pre') (drop (length pre') ((pre' ++ nm) ++ rest)) = nm.
Proof.
  rewrite <- app_assoc, drop_app_length', length_app by done.
  replace (length pre' + length nm - length pre')%nat with (length nm) by lia. now rewrite take_app_length'.
Qed.

(** The first character of a token is treated as that of a text. *)
Lemma step_between pre c rest x b st : between pre (c :: rest) x b st ->
  exists b', holds b' x /\
    eval_step ctx e (pre ++ c :: rest) (length pre) c st b = normal (S (length pre)) c b'.
Proof.
  intros [Hb|pre' nm y -> -> [Hc Hn] Hb]; [eauto|].
  destruct (append_var_spec nm b y Hb) as (b' & E & Hb'). exists b'. split; [done|]. cbn [eval_step].
  replace ((c =? 123) && (length pre' =? length (pre' ++ nm))%nat) with false.
  2: { symmetry. apply andb_false_iff. rewrite length_app, Z.eqb_neq, Nat.eqb_neq.
       destruct nm; [left; now apply Hn|right; simpl; lia]. }
  now rewrite Hc, name_read, E.
Qed.

(** The characters of a name change nothing. *)
Lemma letters_loop inp k b rest nm : Forall (fun c => is_letter c = true) nm -> forall n,
  eval_loop ctx e inp n (nm ++ rest) (NAME k) b = eval_loop ctx e inp (n + length nm) rest (NAME k) b.
Proof.
  induction 1 as [|c nm Hc _ IH]; intros n; [cbn; f_equal; lia|].
  cbn [eval_loop eval_step Datatypes.app length].
  replace (c =? 123) with false by (symmetry; apply Z.eqb_neq; intros ->; discriminate Hc).
  rewrite Hc. cbn [mbind option_bind andb]. rewrite IH. f_equal. lia.
Qed.

Lemma braced_loop inp k b rest nm : Forall (fun c => c <> 125) nm -> forall n,
  eval_loop ctx e inp n (nm ++ rest) (SNAME k) b = eval_loop ctx e inp (n + length nm) rest (SNAME k) b.
Proof.
  induction 1 as [|c nm Hc _ IH]; intros n; [cbn; f_equal; lia|].
  cbn [eval_loop eval_step Datatypes.app length]. rewrite (proj2 (Z.eqb_neq _ _)) by done. cbn [negb mbind option_bind].
  rewrite IH. f_equal. lia.
Qed.

(** A dollar with its brace. *)
Lemma open_brace inp n rest b : eval_loop ctx e inp n (123 :: rest) (NAME n) b = eval_loop ctx e inp (S n) rest (SNAME (S n)) b.
Proof. cbn [eval_loop eval_step]. now rewrite Nat.eqb_refl. Qed.

(** The cases of a character. *)
Lemma escape_spec b x c : holds b x -> exists b', holds b' (x ++ [c]) /\ escape c b = Some (NORMAL, b').
Proof. intros Hb. unfold escape. destruct (append_spec b x [c] Hb) as (b' & -> & Hb'). now exists b'. Qed.

Lemma normal_plain n c b : c <> 36 -> c <> 92 -> normal n c b = escape c b.
Proof. intros H1 H2. unfold normal. now rewrite !(proj2 (Z.eqb_neq _ _)). Qed.

(** Reading a token. *)
Lemma token_loop t pre rest x b st : wf1 t rest -> between pre (print1 t ++ rest) x b st ->
  exists b' st', between (pre ++ print1 t) rest (x ++ mean1 t) b' st' /\
    eval_loop ctx e (pre ++ print1 t ++ rest) (length pre) (print1 t ++ rest) st b =
    eval_loop ctx e (pre ++ print1 t ++ rest) (length (pre ++ print1 t)) rest st' b'.
Proof.
  intros Hw Hbt. rewrite length_app.
  assert (exists c l, print1 t = c :: l) as (c & l & Ep) by (destruct t; cbn; eauto).
  rewrite Ep in Hbt. change ((c :: l) ++ rest) with (c :: l ++ rest) in Hbt. apply step_between in Hbt as (b1 & Hb1 & E1). rewrite Ep.
  change ((c :: l) ++ rest) with (c :: l ++ rest) in *. cbn [eval_loop]. rewrite E1. clear E1.
  destruct t as [c'|c'|nm|nm]; cbn in Ep, Hw; injection Ep as <- <-; cbn [Datatypes.app length].
  - destruct Hw. rewrite normal_plain by done. destruct (escape_spec b1 x c' Hb1) as (b2 & Hb2 & ->).
    exists b2, NORMAL. split; [now constructor|]. cbn [mbind option_bind]. f_equal. lia.
  - destruct (escape_spec b1 x c' Hb1) as (b2 & Hb2 & E2). exists b2, NORMAL. split; [now constructor|].
    cbn [mbind option_bind normal Z.eqb Pos.eqb eval_loop eval_step]. rewrite E2. cbn. f_equal. lia.
  - destruct Hw as [Hl He]. exists b1, (NAME (length (pre ++ [36]))). split.
    + apply (between_name _ _ _ _ _ nm x); try done. now rewrite <- app_assoc.
    + cbn [mbind option_bind normal Z.eqb Pos.eqb]. rewrite letters_loop by done. rewrite length_app. cbn. f_equal; [lia|f_equal; lia].
  - destruct (append_var_spec nm b1 x Hb1) as (b2 & E2 & Hb2). exists b2, NORMAL. split; [now constructor|].
    cbn [mbind option_bind normal Z.eqb Pos.eqb]. rewrite open_brace, <- app_assoc, braced_loop by done.
    cbn [Datatypes.app eval_loop eval_step Z.eqb Pos.eqb negb].
    replace (pre ++ 36 :: 123 :: nm ++ 125 :: rest) with (((pre ++ [36; 123]) ++ nm) ++ 125 :: rest) by now rewrite <- !app_assoc.
    replace (S (S (length pre)) + length nm)%nat with (length ((pre ++ [36; 123]) ++ nm)) by (rewrite !length_app; simpl; lia).
    replace (S (S (length pre))) with (length (pre ++ [36; 123])) by (rewrite length_app; simpl; lia).
    rewrite name_read, E2. cbn [mbind option_bind]. f_equal. rewrite !length_app. cbn. lia.
Qed.

(** Reading all tokens. *)
Lemma tokens_loop tail ts : forall pre x b st, wf ts tail -> between pre (print ts ++ tail) x b st ->
  exists b' st', between (pre ++ print ts) tail (x ++ mean ts) b' st' /\
    eval_loop ctx e (pre ++ print ts ++ tail) (length pre) (print ts ++ tail) st b =
    eval_loop ctx e (pre ++ print ts ++ tail) (length (pre ++ print ts)) tail st' b'.
Proof.
  induction ts as [|t ts IH]; intros pre x b st Hw Hb.
  - exists b, st. cbn. rewrite !app_nil_r. split; [done|]. reflexivity.
  - destruct Hw as [Ht Hw]. change (print (t :: ts)) with (print1 t ++ print ts) in *.
    change (mean (t :: ts)) with (mean1 t ++ mean ts). rewrite <- app_assoc in *.
    destruct (token_loop t pre _ x b st Ht Hb) as (b1 & st1 & Hb1 & ->).
    destruct (IH (pre ++ print1 t) _ b1 st1 Hw Hb1) as (b2 & st2 & Hb2 & E2).
    exists b2, st2. rewrite !app_assoc in *. split; [done|]. exact E2.
Qed.

(** The rest of [ngx_rtmp_eval]. *)
Lemma finish_spec inp st b x : between inp [] x b st ->
  exists b', holds b' x /\
    match st with NAME k => ngx_rtmp_eval_append_var ctx e (take (length inp - k) (drop k inp)) b | _ => Some b end = Some b'.
Proof.
  intros [Hb|pre' nm y -> -> _ Hb]; [eauto|].
  pose proof (name_read pre' nm []) as Hn. rewrite app_nil_r in Hn. rewrite Hn.
  destruct (append_var_spec nm b y Hb) as (b' & -> & Hb'). eauto.
Qed.

Lemma result_spec b x : holds b x ->
  (b ← ngx_rtmp_eval_append b [0]; Some (take (b_last b - b_pos b - 1) (drop (b_pos b) (b_mem b)))) = Some x.
Proof.
  intros Hb. destruct (append_spec b x [0] Hb) as (b' & -> & [Hb' E]). cbn. f_equal.
  assert (length (buf_data b') = (b_last b' - b_pos b')%nat) as Hl.
  { unfold buf_data, b_end in *. rewrite length_take, length_drop. lia. }
  rewrite E, length_app in Hl. cbn in Hl.
  transitivity (take (b_last b' - b_pos b' - 1) (buf_data b')); [unfold buf_data; rewrite take_take; f_equal; lia|].
  rewrite E. apply take_app_length'. lia.
Qed.

(** What is left at the end changes nothing. *)
Lemma tail_loop pre tail x b st : cut_off tail -> between pre tail x b st ->
  exists b' st', eval_loop ctx e (pre ++ tail) (length pre) tail st b = Some (st', b') /\
    (between (pre ++ tail) [] x b' st' \/ holds b' x /\ (st' = ESCAPE \/ exists k, st' = SNAME k)).
Proof.
  intros [->|[->|(nm & -> & Hn)]] Hb.
  - exists b, st. rewrite app_nil_r. auto.
  - apply step_between in Hb as (b1 & Hb1 & E1). exists b1, ESCAPE. cbn [eval_loop]. rewrite E1. cbn. auto.
  - change ([36; 123] ++ nm) with (36 :: 123 :: nm) in *.
    apply step_between in Hb as (b1 & Hb1 & E1). exists b1, (SNAME (S (S (length pre)))). cbn [eval_loop]. rewrite E1.
    cbn [mbind option_bind normal Z.eqb Pos.eqb eval_step]. rewrite Nat.eqb_refl. cbn [andb mbind option_bind].
    pose proof (braced_loop (pre ++ 36 :: 123 :: nm) (S (S (length pre))) b1 [] nm Hn (S (S (length pre)))) as E.
    rewrite app_nil_r in E. rewrite E. cbn. eauto 6.
Qed.

(** Every text has a meaning. *)
Lemma eval_print ts tail : wf ts tail -> cut_off tail -> ngx_rtmp_eval ctx e (print ts ++ tail) = Some (mean ts).
Proof.
  intros Hw Hc. unfold ngx_rtmp_eval.
  destruct (tokens_loop tail ts [] [] (buf_alloc NGX_RTMP_EVAL_BUFLEN 0) NORMAL Hw) as (b1 & st1 & Hb1 & E1).
  { constructor. apply holds_alloc. }
  cbn [Datatypes.app length] in E1. rewrite E1.
  destruct (tail_loop (print ts) tail (mean ts) b1 st1 Hc Hb1) as (b2 & st2 & -> & H2). cbn [mbind option_bind].
  destruct H2 as [H2|[H2 H3]].
  - destruct (finish_spec _ _ _ _ H2) as (b3 & H3 & ->). cbn [mbind option_bind]. now apply result_spec.
  - destruct H3 as [->|[k ->]]; now apply result_spec.
Qed.

End Meaning.

Lemma span (P : Z -> bool) l : exists a r, l = a ++ r /\ Forall (fun c => P c = true) a /\
  match r with [] => True | c :: _ => P c = false end.
Proof.
  induction l as [|c l (a & r & -> & Ha & Hr)]; [now exists [], []|].
  destruct (P c) eqn:E; [exists (c :: a), r|exists [], (c :: a ++ r)]; auto.
Qed.

(** And every string is a text. *)
Lemma parse n : forall l, (length l <= n)%nat -> exists ts tail, l = print ts ++ tail /\ wf ts tail /\ cut_off tail.
Proof.
  unfold cut_off. induction n as [|n IH]; intros l Hl.
  { destruct l; [|simpl in Hl; lia]. exists [], []. cbn. auto. }
  assert (forall t l', l = print1 t ++ l' -> wf1 t l' -> (length l' <= n)%nat ->
    exists ts tail, l = print ts ++ tail /\ wf ts tail /\ cut_off tail) as Hstep.
  { intros t l' -> Hw Hl'. destruct (IH l' Hl') as (ts & tail & -> & Hws & Hc). exists (t :: ts), tail.
    split; [|done]. change (print (t :: ts)) with (print1 t ++ print ts). now rewrite app_assoc. }
  destruct l as [|c l]; [exists [], []; cbn; auto|]. cbn in Hl.
  destruct (decide (c = 92)) as [->|H92].
  { destruct l as [|c l]; [exists [], [92]; cbn; auto|]. apply (Hstep (Escaped c) l); cbn in *; [done..|lia]. }
  destruct (decide (c = 36)) as [->|H36]; [|apply (Hstep (Plain c) l); cbn; [done..|lia]].
  destruct l as [|c l]; [apply (Hstep (Bare []) []); cbn; auto; lia|].
  destruct (decide (c = 123)) as [->|H123].
  - destruct (span (fun c => negb (c =? 125)) l) as (a & r & -> & Ha & Hr).
    assert (Forall (fun c => c <> 125) a) as Ha'.
    { eapply Forall_impl; [exact Ha|]. intros c. cbn. now rewrite negb_true_iff, Z.eqb_neq. }
    destruct r as [|c r]; [exists [], (36 :: 123 :: a); cbn; rewrite app_nil_r; split; [done|split; [done|]]; right; right; now exists a|].
    apply negb_false_iff, Z.eqb_eq in Hr as ->.
    apply (Hstep (Braced a) r); cbn; [now rewrite <- app_assoc|done|]. cbn in Hl. rewrite length_app in Hl. cbn in Hl. lia.
  - destruct (span is_letter (c :: l)) as (a & r & E & Ha & Hr).
    apply (Hstep (Bare a) r); cbn [print1 wf1].
    + cbn. now rewrite E.
    + split; [done|]. destruct r as [|c' r]; [done|]. split; [done|]. intros ->. now injection E as <- _.
    + apply (f_equal length) in E. rewrite length_app in E. cbn in E, Hl. lia.
Qed.

(** C37: [ngx_rtmp_eval] gives every text its meaning: characters stand for themselves,
    those behind a backslash too, a variable, with braces or without, for the values of
    all variables of its name, whatever their length; a backslash or an open brace
    without its end is dropped, and there is no access outside of the buffer.  Every
    string is such a text. *)
Theorem eval_expands {C} (ctx : C) (e : list (list (ngx_rtmp_eval_t C))) :
  (forall ts tail, wf ts tail -> cut_off tail -> ngx_rtmp_eval ctx e (print ts ++ tail) = Some (mean ctx e ts)) /\
  (forall inp, exists ts tail, inp = print ts ++ tail /\ wf ts tail /\ cut_off tail).
Proof.
  split; [intros ts tail; apply eval_print|].
  intros inp. apply (parse (length inp)). lia.
Qed.

(** The variables of a session in the arguments of a program. *)
Example command_line :
  ngx_rtmp_eval (Session (str "live") [] [] [] (str "http://host/a/long/page/url") (str "10.0.0.1")) [ngx_rtmp_eval_session]
    (str "x/$app-${pageurl}s\$addr $none ${addr") =
  Some (str "x/live-http://host/a/long/page/urls$addr  ").
Proof. vm_compute. reflexivity. Qed.

Lemma eval_expands_witness :
  ngx_rtmp_eval tt [[Var (str "a") (fun _ => str "x"); Var (str "a") (fun _ => str "y")]] (str "$a.${a}\$") = Some (str "xy.xy$").
Proof.
  apply (proj1 (eval_expands tt [[Var (str "a") (fun _ => str "x"); Var (str "a") (fun _ => str "y")]])
           [Bare (str "a"); Plain 46; Braced (str "a"); Escaped 36] []).
  - cbn. repeat split; try discriminate; repeat constructor; discriminate.
  - now left.
Defined.

(** The errors of a program go where its output goes, its output to the end of a
    file. *)
Definition shell (d : disk) (l : list (list Z)) : option disk :=
  foldl (fun d a => d ← d; '(_, d) ← ngx_rtmp_eval_streams a d; Some d) (Some d) l.
Example redirected :
  (d ← shell (Disk ∅ {[0%nat := Other; 1%nat := Other; 2%nat := Other]} []) [str ">>/log"; str "2>&1"; str "0>&9"; str "arg"];
   Some (map_to_list (fds d), files d !! str "/log")) =
  Some ([(2, File (str "/log")); (1, File (str "/log")); (0, Other)]%nat, Some []).
Proof. vm_compute. reflexivity. Qed.

End Eval.
