(* ===== verification/Handshake.v ===== *)
(** * The handshake (src/src/rtmp/ngx_rtmp_handshake.c)

    Both sides send 1537 bytes, the challenge, and then 1536, the response.  A
    challenge carries a digest of itself at a place that depends on its other
    bytes; a response ends with a digest that is keyed with that of the challenge
    it answers.  A side that finds no digest in the challenge of its peer goes on
    in the old style: the server sends the challenge back.

    HMAC-SHA256 is code of OpenSSL, and [rand] of the C library: both are
    parameters.  A buffer is that of Buf.v; [None] is an access outside a buffer
    or through NULL.  What the sockets do is a list of events.  Allocation and
    the registration of events are taken to succeed. *)

From Stdlib Require Import ZArith Lia.
From stdpp Require Import base numbers list strings.
From S2P Require Import Prelude Buf.

Module Handshake.

(* ------------------------------------------------------------------ *)
(** ** Constants *)

Definition ngx_rtmp_server_key : list Z :=
  str "Genuine Adobe Flash Media Server 001" ++
  [0xF0; 0xEE; 0xC2; 0x4A; 0x80; 0x68; 0xBE; 0xE8; 0x2E; 0x00; 0xD0; 0xD1;
   0x02; 0x9E; 0x7E; 0x57; 0x6E; 0xEC; 0x5D; 0x2D; 0x29; 0x80; 0x6F; 0xAB;
   0x93; 0xB8; 0xE6; 0x36; 0xCF; 0xEB; 0x31; 0xAE].
Definition ngx_rtmp_client_key : list Z :=
  str "Genuine Adobe Flash Player 001" ++
  [0xF0; 0xEE; 0xC2; 0x4A; 0x80; 0x68; 0xBE; 0xE8; 0x2E; 0x00; 0xD0; 0xD1;
   0x02; 0x9E; 0x7E; 0x57; 0x6E; 0xEC; 0x5D; 0x2D; 0x29; 0x80; 0x6F; 0xAB;
   0x93; 0xB8; 0xE6; 0x36; 0xCF; 0xEB; 0x31; 0xAE].

Definition ngx_rtmp_server_version : list Z := [0x0D; 0x0E; 0x0A; 0x0D].
Definition ngx_rtmp_client_version : list Z := [0x0C; 0x00; 0x0D; 0x0E].

Definition ngx_rtmp_server_full_key : list Z := ngx_rtmp_server_key.
Definition ngx_rtmp_server_partial_key : list Z := take 36 ngx_rtmp_server_key.
Definition ngx_rtmp_client_full_key : list Z := ngx_rtmp_client_key.
Definition ngx_rtmp_client_partial_key : list Z := take 30 ngx_rtmp_client_key.

Definition NGX_RTMP_HANDSHAKE_KEYLEN : nat := 32.
Definition NGX_RTMP_HANDSHAKE_BUFSIZE : nat := 1537.

Definition NGX_RTMP_HANDSHAKE_SERVER_RECV_CHALLENGE : Z := 1.
Definition NGX_RTMP_HANDSHAKE_SERVER_SEND_CHALLENGE : Z := 2.
Definition NGX_RTMP_HANDSHAKE_SERVER_SEND_RESPONSE : Z := 3.
Definition NGX_RTMP_HANDSHAKE_SERVER_RECV_RESPONSE : Z := 4.
Definition NGX_RTMP_HANDSHAKE_SERVER_DONE : Z := 5.
Definition NGX_RTMP_HANDSHAKE_CLIENT_SEND_CHALLENGE : Z := 6.
Definition NGX_RTMP_HANDSHAKE_CLIENT_RECV_CHALLENGE : Z := 7.
Definition NGX_RTMP_HANDSHAKE_CLIENT_RECV_RESPONSE : Z := 8.
Definition NGX_RTMP_HANDSHAKE_CLIENT_SEND_RESPONSE : Z := 9.
Definition NGX_RTMP_HANDSHAKE_CLIENT_DONE : Z := 10.

(* ------------------------------------------------------------------ *)
(** ** State *)

(** An event ([read] or [write] of the connection): whether it is registered,
    whether its timer runs, whether the timer has fired. *)
Record event := Event { active : bool; timer_set : bool; timedout : bool }.
Definition idle : event := Event false false false.

(** The part of [ngx_rtmp_session_t] and its connection; [destroyed] stands for
    the posted [close] event too, [cycling] for a session given to
    [ngx_rtmp_cycle]. *)
Record session := Session {
  hs_buf : option ngx_buf_t;
  hs_digest : option (list Z);
  hs_old : bool;
  hs_stage : Z;
  epoch : Z;
  peer_epoch : Z;
  read : event;
  write : event;
  conn_timedout : bool;
  destroyed : bool;
  cycling : bool
}.

(** What the socket gives: some bytes, none of them for the end of the stream,
    or an error.  Nothing more is NGX_AGAIN. *)
Inductive recv_ev := Data (x : list Z) | RecvError.
(** What it takes: up to [n] bytes, or an error. *)
Inductive send_ev := Accept (n : nat) | SendError.

(** The session in its process: the free buffers of the server, the calls of
    [rand] so far; the sockets, and the bytes [out] they took. *)
Record world := World {
  sess : session;
  free_hs : list ngx_buf_t;
  seed : nat;
  ins : list recv_ev;
  takes : list send_ev;
  out : list Z
}.

Definition set_sess s w := World s (free_hs w) (seed w) (ins w) (takes w) (out w).
Definition set_free f w := World (sess w) f (seed w) (ins w) (takes w) (out w).
Definition set_seed n w := World (sess w) (free_hs w) n (ins w) (takes w) (out w).
Definition set_input i w := World (sess w) (free_hs w) (seed w) i (takes w) (out w).
Definition set_output t o w := World (sess w) (free_hs w) (seed w) (ins w) t o.

Definition set_hs_buf b s := Session b (hs_digest s) (hs_old s) (hs_stage s) (epoch s) (peer_epoch s)
  (read s) (write s) (conn_timedout s) (destroyed s) (cycling s).
Definition set_digest d s := Session (hs_buf s) d (hs_old s) (hs_stage s) (epoch s) (peer_epoch s)
  (read s) (write s) (conn_timedout s) (destroyed s) (cycling s).
Definition set_old s := Session (hs_buf s) (hs_digest s) true (hs_stage s) (epoch s) (peer_epoch s)
  (read s) (write s) (conn_timedout s) (destroyed s) (cycling s).
Definition set_stage n s := Session (hs_buf s) (hs_digest s) (hs_old s) n (epoch s) (peer_epoch s)
  (read s) (write s) (conn_timedout s) (destroyed s) (cycling s).
Definition set_peer_epoch n s := Session (hs_buf s) (hs_digest s) (hs_old s) (hs_stage s) (epoch s) n
  (read s) (write s) (conn_timedout s) (destroyed s) (cycling s).
Definition set_read e s := Session (hs_buf s) (hs_digest s) (hs_old s) (hs_stage s) (epoch s) (peer_epoch s)
  e (write s) (conn_timedout s) (destroyed s) (cycling s).
Definition set_write e s := Session (hs_buf s) (hs_digest s) (hs_old s) (hs_stage s) (epoch s) (peer_epoch s)
  (read s) e (conn_timedout s) (destroyed s) (cycling s).
Definition set_timedout s := Session (hs_buf s) (hs_digest s) (hs_old s) (hs_stage s) (epoch s) (peer_epoch s)
  (read s) (write s) true (destroyed s) (cycling s).
Definition set_destroyed s := Session (hs_buf s) (hs_digest s) (hs_old s) (hs_stage s) (epoch s) (peer_epoch s)
  (read s) (write s) (conn_timedout s) true (cycling s).
Definition set_cycling s := Session (hs_buf s) (hs_digest s) (hs_old s) (hs_stage s) (epoch s) (peer_epoch s)
  (read s) (write s) (conn_timedout s) (destroyed s) true.

Definition no_timer (e : event) : event := Event (active e) false (timedout e).
Definition no_active (e : event) : event := Event false (timer_set e) (timedout e).
(** The timer and the registration behind NGX_AGAIN. *)
Definition armed (e : event) : event := Event true true (timedout e).

(* ------------------------------------------------------------------ *)
(** ** The monad *)

Definition H (A : Type) : Type := world -> option (A * world).
#[export] Instance H_ret : MRet H := fun A a w => Some (a, w).
#[export] Instance H_bind : MBind H := fun A B f m w =>
  match m w with Some (a, w) => f a w | None => None end.

Definition access {A} (f : world -> option A) : H A := fun w => a ← f w; Some (a, w).
Definition gets {A} (f : world -> A) : H A := fun w => Some (f w, w).
Definition modify (f : world -> world) : H unit := fun w => Some (tt, f w).
Definition upd (f : session -> session) : H unit := modify (fun w => set_sess (f (sess w)) w).
Definition when (b : bool) (m : H unit) : H unit := if b then m else mret tt.

(** [s->hs_buf], which must not be NULL. *)
Definition buf : H ngx_buf_t := access (fun w => hs_buf (sess w)).
Definition set_buf (b : ngx_buf_t) : H unit := upd (set_hs_buf (Some b)).
(** [b->pos = b->last = b->start + n], and both positions. *)
Definition place (p l : nat) : H unit := b ← buf; set_buf (Buf (b_mem b) p l).
(** Bytes written at [last]. *)
Definition put (x : list Z) : H unit :=
  b ← buf; access (fun _ => if (length x <=? buf_room b)%nat then Some tt else None);; set_buf (buf_push b x).

Definition ngx_rtmp_finalize_session : H unit := upd set_destroyed.

Section Hash.
Context (HMAC_SHA256 : list Z -> list Z -> list Z) (rand : nat -> Z).
(** Whether the handlers of NGX_RTMP_HANDSHAKE_DONE return NGX_OK. *)
Context (handshake_done_ok : bool).

(* ------------------------------------------------------------------ *)
(** ** Digests *)

(** The digest of the bytes of [src] without those at [skip]. *)
Definition ngx_rtmp_make_digest (key : list Z) (src : ngx_buf_t) (skip : option nat) : option (list Z) :=
  match skip with
  | Some k =>
      if (b_pos src <=? k)%nat && (k <=? b_last src)%nat then
        if (b_last src <? k + NGX_RTMP_HANDSHAKE_KEYLEN)%nat then None
        else Some (HMAC_SHA256 key
               (take (k - b_pos src) (drop (b_pos src) (b_mem src)) ++
                take (b_last src - (k + NGX_RTMP_HANDSHAKE_KEYLEN)) (drop (k + NGX_RTMP_HANDSHAKE_KEYLEN) (b_mem src))))
      else Some (HMAC_SHA256 key (buf_data src))
  | None => Some (HMAC_SHA256 key (buf_data src))
  end.

(** [n] bytes from [p] on. *)
Definition bytes_at (b : ngx_buf_t) (p n : nat) : option (list Z) :=
  if (p + n <=? b_end b)%nat then Some (take n (drop p (b_mem b))) else None.

(** The place that the four bytes [x] stand for. *)
Definition place_of (x : list Z) : nat := Z.to_nat (foldl Z.add 0 x mod 728).

(** [Some None] is NGX_ERROR. *)
Definition ngx_rtmp_find_digest (b : ngx_buf_t) (key : list Z) (base : nat) : option (option nat) :=
  x ← bytes_at b (b_pos b + base) 4;
  let offs := (place_of x + base + 4)%nat in
  let p := (b_pos b + offs)%nat in
  digest ← ngx_rtmp_make_digest key b (Some p);
  y ← bytes_at b p NGX_RTMP_HANDSHAKE_KEYLEN;
  Some (if bool_decide (digest = y) then Some offs else None).

(** [make_digest] with its result stored at [p]. *)
Definition store_digest (b : ngx_buf_t) (key : list Z) (p : nat) : option ngx_buf_t :=
  digest ← ngx_rtmp_make_digest key b (Some p);
  if (p + length digest <=? b_end b)%nat
  then Some (Buf (splice p digest (b_mem b)) (b_pos b) (b_last b)) else None.

Definition ngx_rtmp_write_digest (b : ngx_buf_t) (key : list Z) (base : nat) : option ngx_buf_t :=
  x ← bytes_at b (b_pos b + base + 8) 4;
  store_digest b key (b_pos b + (place_of x + base + 12)).

(* ------------------------------------------------------------------ *)
(** ** Buffers *)

Definition random_bytes (k n : nat) : list Z := map (fun j => u8 (rand j)) (seq k n).

Definition ngx_rtmp_fill_random_buffer : H unit :=
  b ← buf;
  k ← gets seed;
  modify (fun w => set_seed (k + buf_room b) w);;
  set_buf (buf_push b (random_bytes k (buf_room b))).

Definition ngx_rtmp_alloc_handshake_buffer : H ngx_buf_t :=
  f ← gets free_hs;
  match f with
  | b :: f => modify (fun w => set_free f w);; mret (Buf (b_mem b) 0 0)
  | [] => mret (buf_alloc NGX_RTMP_HANDSHAKE_BUFSIZE 0)
  end.

Definition ngx_rtmp_free_handshake_buffers : H unit :=
  s ← gets sess;
  match hs_buf s with
  | None => mret tt
  | Some b =>
      modify (fun w => set_free (b :: free_hs w) w);;
      upd (set_hs_buf None)
  end.

(* ------------------------------------------------------------------ *)
(** ** Messages *)

Definition ngx_rtmp_handshake_create_challenge (version key : list Z) : H unit :=
  place 0 0;;
  put [0x03];;
  s ← gets sess;
  put (be_bytes 4 (epoch s));;
  put version;;
  ngx_rtmp_fill_random_buffer;;
  b ← buf;
  b ← access (fun _ => ngx_rtmp_write_digest (Buf (b_mem b) (b_pos b + 1) (b_last b)) key 0);
  set_buf (Buf (b_mem b) (b_pos b - 1) (b_last b)).

(** The place of the digest in the challenge at [pos]. *)
Definition find_digest (b : ngx_buf_t) (key : list Z) : option (option nat) :=
  r ← ngx_rtmp_find_digest b key 772;
  match r with Some offs => Some (Some offs) | None => ngx_rtmp_find_digest b key 8 end.

(** [false] is NGX_ERROR. *)
Definition ngx_rtmp_handshake_parse_challenge (peer_key key : list Z) : H bool :=
  b ← buf;
  v ← access (fun _ => b_mem b !! b_pos b);
  if negb (v =? 0x03) then mret false
  else
    let b := Buf (b_mem b) (b_pos b + 1) (b_last b) in
    set_buf b;;
    e ← access (fun _ => bytes_at b (b_pos b) 4);
    upd (set_peer_epoch (be_val e));;
    p ← access (fun _ => bytes_at b (b_pos b + 4) 4);
    if bool_decide (p = [0; 0; 0; 0]) then upd set_old;; mret true
    else
      r ← access (fun _ => find_digest b peer_key);
      match r with
      | None => upd set_old;; mret true
      | Some offs =>
          let b := Buf (b_mem b) (b_pos b + offs) (b_pos b + offs + NGX_RTMP_HANDSHAKE_KEYLEN) in
          set_buf b;;
          d ← access (fun _ => ngx_rtmp_make_digest key b None);
          upd (set_digest (Some d));; mret true
      end.

Definition ngx_rtmp_handshake_create_response : H unit :=
  place 1 1;;
  ngx_rtmp_fill_random_buffer;;
  s ← gets sess;
  match hs_digest s with
  | None => mret tt
  | Some key =>
      b ← buf;
      b ← access (fun _ => store_digest b key (b_last b - NGX_RTMP_HANDSHAKE_KEYLEN));
      set_buf b
  end.

Definition ngx_rtmp_handshake_done : H unit :=
  ngx_rtmp_free_handshake_buffers;;
  if handshake_done_ok then upd set_cycling else ngx_rtmp_finalize_session.

(* ------------------------------------------------------------------ *)
(** ** Receiving and sending *)

(** How a loop over a socket ends. *)
Inductive io_end := Complete | Blocked | Failed.

(** The loop of [ngx_rtmp_handshake_recv]. *)
Fixpoint recv_loop (ins : list recv_ev) (b : ngx_buf_t) : io_end * list recv_ev * ngx_buf_t :=
  if (b_last b =? b_end b)%nat then (Complete, ins, b)
  else match ins with
  | [] => (Blocked, [], b)
  | RecvError :: ins => (Failed, ins, b)
  | Data [] :: ins => (Failed, ins, b)
  | Data x :: ins =>
      if (length x <=? buf_room b)%nat then recv_loop ins (buf_push b x)
      else (Complete, Data (drop (buf_room b) x) :: ins, buf_push b (take (buf_room b) x))
  end.

(** The loop of [ngx_rtmp_handshake_send], with the bytes [wire] sent so far. *)
Fixpoint send_loop (takes : list send_ev) (b : ngx_buf_t) (wire : list Z)
  : io_end * list send_ev * ngx_buf_t * list Z :=
  if (b_pos b =? b_last b)%nat then (Complete, takes, b, wire)
  else match takes with
  | [] => (Blocked, [], b, wire)
  | SendError :: takes => (Failed, takes, b, wire)
  | Accept n :: takes =>
      let n := Nat.min n (b_last b - b_pos b) in
      if (n =? 0)%nat then (Blocked, takes, b, wire)
      else send_loop takes (Buf (b_mem b) (b_pos b + n) (b_last b)) (wire ++ take n (drop (b_pos b) (b_mem b)))
  end.

(** What a handler calls at its end. *)
Inductive next := Recv | Send | Return.

(** The switch of [ngx_rtmp_handshake_recv]. *)
Definition received : H next :=
  s ← gets sess;
  let stage := hs_stage s in
  if stage =? NGX_RTMP_HANDSHAKE_SERVER_SEND_CHALLENGE then
    ok ← ngx_rtmp_handshake_parse_challenge ngx_rtmp_client_partial_key ngx_rtmp_server_full_key;
    if negb ok then ngx_rtmp_finalize_session;; mret Return
    else
      s ← gets sess;
      (if hs_old s then b ← buf; place 0 (b_end b)
       else ngx_rtmp_handshake_create_challenge ngx_rtmp_server_version ngx_rtmp_server_partial_key);;
      mret Send
  else if stage =? NGX_RTMP_HANDSHAKE_SERVER_DONE then ngx_rtmp_handshake_done;; mret Return
  else if stage =? NGX_RTMP_HANDSHAKE_CLIENT_RECV_RESPONSE then
    ok ← ngx_rtmp_handshake_parse_challenge ngx_rtmp_server_partial_key ngx_rtmp_client_full_key;
    if negb ok then ngx_rtmp_finalize_session;; mret Return
    else place 1 1;; mret Recv
  else if stage =? NGX_RTMP_HANDSHAKE_CLIENT_SEND_RESPONSE then
    ngx_rtmp_handshake_create_response;; mret Send
  else mret Return.

(** The switch of [ngx_rtmp_handshake_send]. *)
Definition has_sent : H next :=
  s ← gets sess;
  let stage := hs_stage s in
  if stage =? NGX_RTMP_HANDSHAKE_SERVER_SEND_RESPONSE then
    (if hs_old s then b ← buf; place 1 (b_end b) else ngx_rtmp_handshake_create_response);;
    mret Send
  else if stage =? NGX_RTMP_HANDSHAKE_SERVER_RECV_RESPONSE then place 1 1;; mret Recv
  else if stage =? NGX_RTMP_HANDSHAKE_CLIENT_RECV_CHALLENGE then place 0 0;; mret Recv
  else if stage =? NGX_RTMP_HANDSHAKE_CLIENT_DONE then ngx_rtmp_handshake_done;; mret Return
  else mret Return.

(** [ngx_rtmp_handshake_recv] up to its last call. *)
Definition recv_some : H next :=
  s ← gets sess;
  if destroyed s then mret Return
  else if timedout (read s) then upd set_timedout;; ngx_rtmp_finalize_session;; mret Return
  else
    upd (set_read (no_timer (read s)));;
    b ← buf;
    i ← gets ins;
    let '(e, i, b) := recv_loop i b in
    modify (fun w => set_input i w);;
    set_buf b;;
    match e with
    | Failed => ngx_rtmp_finalize_session;; mret Return
    | Blocked => upd (fun s => set_read (armed (read s)) s);; mret Return
    | Complete =>
        upd (fun s => set_stage (hs_stage s + 1) (set_read (no_active (read s)) s));;
        received
    end.

(** [ngx_rtmp_handshake_send] up to its last call. *)
Definition send_some : H next :=
  s ← gets sess;
  if destroyed s then mret Return
  else if timedout (write s) then upd set_timedout;; ngx_rtmp_finalize_session;; mret Return
  else
    upd (set_write (no_timer (write s)));;
    b ← buf;
    t ← gets takes;
    o ← gets out;
    let '(e, t, b, o) := send_loop t b o in
    modify (fun w => set_output t o w);;
    set_buf b;;
    match e with
    | Failed => ngx_rtmp_finalize_session;; mret Return
    | Blocked => upd (fun s => set_write (armed (write s)) s);; mret Return
    | Complete =>
        upd (fun s => set_stage (hs_stage s + 1) (set_write (no_active (write s)) s));;
        has_sent
    end.

(** The two functions call each other, each call at a later stage. *)
Fixpoint handle (fuel : nat) (n : next) : H unit :=
  match n, fuel with
  | Return, _ => mret tt
  | _, O => access (fun _ => None)
  | Recv, S fuel => n ← recv_some; handle fuel n
  | Send, S fuel => n ← send_some; handle fuel n
  end.

Definition depth : nat := 4.
Definition ngx_rtmp_handshake_recv : H unit := handle depth Recv.
Definition ngx_rtmp_handshake_send : H unit := handle depth Send.

Definition ngx_rtmp_handshake : H unit :=
  b ← ngx_rtmp_alloc_handshake_buffer;
  set_buf b;;
  upd (set_stage NGX_RTMP_HANDSHAKE_SERVER_RECV_CHALLENGE);;
  ngx_rtmp_handshake_recv.

Definition ngx_rtmp_client_handshake (async : bool) : H unit :=
  b ← ngx_rtmp_alloc_handshake_buffer;
  set_buf b;;
  upd (set_stage NGX_RTMP_HANDSHAKE_CLIENT_SEND_CHALLENGE);;
  ngx_rtmp_handshake_create_challenge ngx_rtmp_client_version ngx_rtmp_client_partial_key;;
  if async then upd (fun s => set_write (armed (write s)) s)
  else ngx_rtmp_handshake_send.

End Hash.
End Handshake.
