(* ===== verification/Greeting.v ===== *)
(** * What the handshake promises

    Both sides of Handshake.v, connected by streams of bytes: whatever pieces the
    bytes come in and however much the sockets take, the two finish, and each
    proves to the other that it has read its challenge. *)

From Stdlib Require Import ZArith Lia.
From stdpp Require Import base numbers list relations.
From S2P Require Import Prelude Buf Handshake.

Module Greeting.

Import Handshake.

(* ------------------------------------------------------------------ *)
(** ** Challenges and responses *)

Section Spec.
Context (HMAC_SHA256 : list Z -> list Z -> list Z).

(** Of the 1536 bytes of a challenge behind its version: the place the digest
    has by the four bytes at [base], the digest and the rest. *)
Definition digest_pos (base : nat) (c : list Z) : nat := place_of (take 4 (drop base c)) + base + 4.
Definition digest_in (offs : nat) (c : list Z) : list Z := take 32 (drop offs c).
Definition without (offs : nat) (c : list Z) : list Z := take offs c ++ drop (offs + 32) c.

Definition carries (key : list Z) (base : nat) (c : list Z) : bool :=
  bool_decide (HMAC_SHA256 key (without (digest_pos base c) c) = digest_in (digest_pos base c) c).

Definition found (key : list Z) (c : list Z) : option nat :=
  if carries key 772 c then Some (digest_pos 772 c)
  else if carries key 8 c then Some (digest_pos 8 c) else None.

(** The place of the digest in the challenge of a peer with the partial key
    [key]; none in the old style, with the version 0. *)
Definition reads (key : list Z) (c : list Z) : option nat :=
  if bool_decide (take 4 (drop 4 c) = [0; 0; 0; 0]) then None else found key c.

(** The response [r] proves that its sender, with the key [full], has read the
    digest of the challenge [c], which was made with the key [partial]. *)
Definition answers (partial full c r : list Z) : Prop :=
  exists offs, reads partial c = Some offs /\
    drop 1504 r = HMAC_SHA256 (HMAC_SHA256 full (digest_in offs c)) (take 1504 r).

(** A challenge as the two sides make it. *)
Record challenge (version key : list Z) (ep : Z) (x : list Z) : Prop := {
  ch_length : length x = 1537%nat;
  ch_head : head x = Some 3;
  ch_epoch : take 4 (drop 1 x) = be_bytes 4 ep;
  ch_version : take 4 (drop 5 x) = version;
  ch_digest : carries key 8 (drop 1 x) = true
}.

Lemma challenge_read version key ep x : version <> [0; 0; 0; 0] -> challenge version key ep x ->
  is_Some (reads key (drop 1 x)).
Proof.
  intros Hv [_ _ _ H1 H2]. unfold reads. rewrite drop_drop. cbn [Nat.add]. rewrite H1, bool_decide_false by done.
  unfold found. rewrite H2. destruct (carries key 772 _); eauto.
Qed.

End Spec.

Lemma place_of_bound x : (place_of x < 728)%nat.
Proof. unfold place_of. pose proof (Z.mod_pos_bound (foldl Z.add 0 x) 728). lia. Qed.

(** A buffer of the handshake. *)
Definition full_size (b : ngx_buf_t) : Prop := b_end b = 1537%nat.

Section Side.
Context (HMAC_SHA256 : list Z -> list Z -> list Z) (rand : nat -> Z).
Hypothesis hmac_length : forall k x, length (HMAC_SHA256 k x) = 32%nat.

Abbreviation find_digest := (find_digest HMAC_SHA256).
Abbreviation parse_challenge := (ngx_rtmp_handshake_parse_challenge HMAC_SHA256).
Abbreviation create_challenge := (ngx_rtmp_handshake_create_challenge HMAC_SHA256 rand).
Abbreviation create_response := (ngx_rtmp_handshake_create_response HMAC_SHA256 rand).
Abbreviation reads := (reads HMAC_SHA256).
Abbreviation carries := (carries HMAC_SHA256).

(* ------------------------------------------------------------------ *)
(** ** Digests in a buffer *)

(** Digests of the buffer with the version [v] and the challenge [c]. *)
Lemma make_digest_at key v c offs : length c = 1536%nat -> (offs + 32 <= 1536)%nat ->
  ngx_rtmp_make_digest HMAC_SHA256 key (Buf (v :: c) 1 1537) (Some (1 + offs)%nat) =
  Some (HMAC_SHA256 key (without offs c)).
Proof.
  intros Hc Ho. unfold ngx_rtmp_make_digest, NGX_RTMP_HANDSHAKE_KEYLEN. cbn [b_pos b_last b_mem].
  rewrite (proj2 (Nat.leb_le _ _)), (proj2 (Nat.leb_le _ _)), (proj2 (Nat.ltb_ge _ _)) by lia.
  cbn [andb]. unfold without. do 3 f_equal.
  - rewrite skipn_cons, drop_0. f_equal. lia.
  - change (1 + offs + 32)%nat with (S (offs + 32)). rewrite skipn_cons, take_ge; [done|]. len.
Qed.

Lemma bytes_at_tail v c p n k l : length c = 1536%nat -> (p + n <= 1536)%nat ->
  bytes_at (Buf (v :: c) k l) (1 + p) n = Some (take n (drop p c)).
Proof.
  intros Hc Hp. unfold bytes_at, b_end. cbn [b_mem length]. rewrite (proj2 (Nat.leb_le _ _)) by lia.
  now change (1 + p)%nat with (S p).
Qed.

Lemma find_digest_at key v c base : length c = 1536%nat -> (base <= 772)%nat ->
  ngx_rtmp_find_digest HMAC_SHA256 (Buf (v :: c) 1 1537) key base =
  Some (if carries key base c then Some (digest_pos base c) else None).
Proof.
  intros Hc Hb. unfold ngx_rtmp_find_digest. cbn [b_pos]. rewrite (bytes_at_tail v c) by lia. cbn [mbind option_bind].
  pose proof (place_of_bound (take 4 (drop base c))) as Hp. fold (digest_pos base c).
  assert (digest_pos base c + 32 <= 1536)%nat as Ho by (unfold digest_pos; lia).
  rewrite make_digest_at by done. cbn [mbind option_bind]. unfold NGX_RTMP_HANDSHAKE_KEYLEN.
  rewrite (bytes_at_tail v c) by done. reflexivity.
Qed.

Lemma find_digest_spec key v c : length c = 1536%nat ->
  find_digest (Buf (v :: c) 1 1537) key = Some (found HMAC_SHA256 key c).
Proof.
  intros Hc. unfold Handshake.find_digest, found. rewrite !find_digest_at by (first [done | lia]). cbn [mbind option_bind].
  now destruct (carries key 772 c).
Qed.

(** A digest stored where it is looked for. *)
Lemma store_digest_at key v c offs : length c = 1536%nat -> (offs + 32 <= 1536)%nat ->
  let d := HMAC_SHA256 key (without offs c) in
  store_digest HMAC_SHA256 (Buf (v :: c) 1 1537) key (1 + offs) =
  Some (Buf (v :: splice offs d c) 1 1537).
Proof.
  intros Hc Ho d. unfold store_digest. rewrite make_digest_at by done. cbn [mbind option_bind]. fold d.
  assert (length d = 32%nat) as Hd by apply hmac_length. unfold b_end. cbn [b_mem b_pos b_last length].
  rewrite Hd, (proj2 (Nat.leb_le _ _)) by lia. reflexivity.
Qed.

Lemma without_splice offs d c : length d = 32%nat -> (offs + 32 <= length c)%nat ->
  without offs (splice offs d c) = without offs c /\ digest_in offs (splice offs d c) = d.
Proof.
  intros Hd Hc. unfold without, digest_in. rewrite take_splice by lia. unfold splice. rewrite Hd. split.
  - f_equal. rewrite drop_app_ge by len. rewrite drop_app_ge by len. rewrite drop_drop. f_equal. len.
  - rewrite drop_app_ge by len. replace (offs - _)%nat with 0%nat by len. rewrite drop_0, take_app_length'; [done|lia].
Qed.

(* ------------------------------------------------------------------ *)
(** ** Messages *)

(** The buffer of a session that is at [b]. *)
Definition with_buf (b : ngx_buf_t) (w : world) : world := set_sess (set_hs_buf (Some b) (sess w)) w.

(** What a side knows behind the challenge [c] of its peer. *)
Definition learned (peer_key key c : list Z) (s : session) : session :=
  let s := set_peer_epoch (be_val (take 4 c)) s in
  match reads peer_key c with
  | Some offs => set_digest (Some (HMAC_SHA256 key (digest_in offs c))) s
  | None => set_old s
  end.

Lemma do_buf {A} w b (f : ngx_buf_t -> H A) : hs_buf (sess w) = Some b -> (buf ≫= f) w = f b w.
Proof. intros E. unfold buf, access, mbind, H_bind. now rewrite E. Qed.
Lemma do_set_buf {A} w b (m : H A) : (set_buf b;; m) w = m (with_buf b w).
Proof. reflexivity. Qed.
Lemma do_access {A B} w (f : world -> option A) (k : A -> H B) a : f w = Some a -> (access f ≫= k) w = k a w.
Proof. intros E. unfold access, mbind, H_bind. now rewrite E. Qed.
Lemma do_upd {A} w f (m : H A) : (upd f;; m) w = m (set_sess (f (sess w)) w).
Proof. reflexivity. Qed.
Lemma do_gets {A B} w (f : world -> A) (k : A -> H B) : (gets f ≫= k) w = k (f w) w.
Proof. reflexivity. Qed.
Lemma do_modify {A} w f (m : H A) : (modify f;; m) w = m (f w).
Proof. reflexivity. Qed.
Lemma do_step {A B} (m : H A) (k : A -> H B) w a w' : m w = Some (a, w') -> (m ≫= k) w = k a w'.
Proof. intros E. unfold mbind, H_bind. now rewrite E. Qed.

Lemma parse_spec peer_key key w c : hs_buf (sess w) = Some (Buf (3 :: c) 0 1537) -> length c = 1536%nat ->
  exists k l, parse_challenge peer_key key w =
    Some (true, with_buf (Buf (3 :: c) k l) (set_sess (learned peer_key key c (sess w)) w)).
Proof.
  intros Hb Hc. unfold ngx_rtmp_handshake_parse_challenge. rewrite (do_buf w _ _ Hb).
  rewrite (do_access w _ _ 3) by reflexivity. change (negb (3 =? 3)) with false. cbn [b_mem b_pos b_last].
  rewrite do_set_buf, (do_access _ _ _ (take 4 c)).
  2:{ cbn [b_pos b_mem]. rewrite (bytes_at_tail 3 c 0) by (first [done | lia]). now rewrite drop_0. }
  rewrite do_upd, (do_access _ _ _ (take 4 (drop 4 c))) by (apply (bytes_at_tail 3 c 4); (first [done | lia])).
  unfold learned, Greeting.reads. destruct (bool_decide (take 4 (drop 4 c) = [0; 0; 0; 0])); [eexists _, _; reflexivity|].
  rewrite (do_access _ _ _ (found HMAC_SHA256 peer_key c)) by (apply find_digest_spec; done).
  destruct (found HMAC_SHA256 peer_key c) as [offs|] eqn:Ef; [|eexists _, _; reflexivity].
  assert (offs + 32 <= 1536)%nat as Ho.
  { unfold found in Ef. pose proof (place_of_bound (take 4 (drop 772 c))). pose proof (place_of_bound (take 4 (drop 8 c))).
    destruct (carries peer_key 772 c); [|destruct (carries peer_key 8 c)]; inversion Ef; unfold digest_pos; lia. }
  rewrite do_set_buf, (do_access _ _ _ (HMAC_SHA256 key (digest_in offs c))).
  2:{ unfold ngx_rtmp_make_digest, buf_data, NGX_RTMP_HANDSHAKE_KEYLEN. cbn [b_pos b_last b_mem].
      do 3 f_equal. unfold digest_in. f_equal. lia. }
  eexists _, _. reflexivity.
Qed.

(** The first byte is not the version. *)
Lemma parse_refuses peer_key key w v c : hs_buf (sess w) = Some (Buf (v :: c) 0 1537) -> v <> 3 ->
  parse_challenge peer_key key w = Some (false, w).
Proof.
  intros Hb Hv. unfold ngx_rtmp_handshake_parse_challenge. rewrite (do_buf w _ _ Hb).
  rewrite (do_access w _ _ v) by reflexivity. now rewrite (proj2 (Z.eqb_neq v _)).
Qed.

(** Bytes written one after the other from [start] on. *)
Lemma do_put {A} w m x y (k : H A) : hs_buf (sess w) = Some (Buf (splice 0 x m) 0 (length x)) ->
  length m = 1537%nat -> (length (x ++ y) <= 1537)%nat ->
  (put y;; k) w = k (with_buf (Buf (splice 0 (x ++ y) m) 0 (length (x ++ y))) w).
Proof.
  intros Hb Hm Hl. rewrite length_app in Hl. erewrite do_step; [reflexivity|].
  unfold put. rewrite (do_buf w _ _ Hb), (do_access w _ _ tt).
  - unfold set_buf, upd, modify, with_buf, buf_push. cbn [b_mem b_pos b_last].
    rewrite <- (splice_app 0 x y m) by lia. now rewrite length_app.
  - unfold buf_room, b_end. cbn [b_mem b_last]. rewrite length_splice by lia. now rewrite (proj2 (Nat.leb_le _ _)) by lia.
Qed.

Lemma length_random k n : length (random_bytes rand k n) = n.
Proof. unfold random_bytes. now rewrite length_map, length_seq. Qed.

Lemma random_fill_spec w m p l : hs_buf (sess w) = Some (Buf m p l) ->
  length m = 1537%nat -> (l <= 1537)%nat ->
  exists n y, length y = (1537 - l)%nat /\
    ngx_rtmp_fill_random_buffer rand w = Some (tt, with_buf (Buf (take l m ++ y) p 1537) (set_seed n w)).
Proof.
  intros Hb Hm Hl. set (n := (1537 - l)%nat).
  exists (seed w + n)%nat, (random_bytes rand (seed w) n).
  split; [apply length_random|]. unfold ngx_rtmp_fill_random_buffer.
  rewrite (do_buf w _ _ Hb), do_gets, do_modify. unfold set_buf, upd, modify, with_buf, buf_push.
  assert (buf_room (Buf m p l) = n) as -> by (unfold buf_room, b_end; cbn [b_mem b_last]; lia).
  cbn [b_mem b_pos b_last]. unfold splice. rewrite length_random, drop_ge by lia.
  rewrite app_nil_r. now replace (l + n)%nat with 1537%nat by lia.
Qed.

Lemma create_challenge_spec version key w b : hs_buf (sess w) = Some b -> full_size b -> length version = 4%nat ->
  exists n x, create_challenge version key w = Some (tt, with_buf (Buf x 0 1537) (set_seed n w)) /\
    challenge HMAC_SHA256 version key (epoch (sess w)) x.
Proof.
  intros Hb Hs Hv. unfold ngx_rtmp_handshake_create_challenge, place. unfold full_size, b_end in Hs.
  set (m := b_mem b) in *. set (e := be_bytes 4 (epoch (sess w))).
  assert (length e = 4%nat) as He by apply length_be_bytes.
  rewrite (do_step _ _ w tt (with_buf (Buf m 0 0) w)) by (rewrite (do_buf w _ _ Hb); reflexivity).
  erewrite (do_put _ m [] [3]); [|unfold with_buf; cbn; now rewrite splice_nil|done|cbn; lia].
  rewrite do_gets. change (epoch (sess (with_buf _ _))) with (epoch (sess w)). fold e. cbn [Datatypes.app].
  erewrite (do_put _ m [3] e); [|reflexivity|done|cbn; lia].
  erewrite (do_put _ m ([3] ++ e) version); [|reflexivity|done|rewrite !length_app; cbn; lia].
  set (x := ([3] ++ e) ++ version).
  assert (length x = 9%nat) as Hx by (unfold x; rewrite !length_app; cbn; lia).
  set (w1 := with_buf (Buf (splice 0 x m) 0 (length x)) _).
  destruct (random_fill_spec w1 (splice 0 x m) 0 (length x)) as (n & y & Hn & E);
    [reflexivity|rewrite length_splice; cbn; lia|lia|]. rewrite (do_step _ _ _ _ _ E). clear E.
  assert (take (length x) (splice 0 x m) = x) as -> by (apply (take_splice_end 0); lia).
  rewrite (do_buf _ (Buf (x ++ y) 0 1537)) by reflexivity. cbn [b_mem b_pos b_last Nat.add].
  set (c := e ++ version ++ y).
  assert (x ++ y = 3 :: c) as Ec by (unfold x, c; rewrite <- !app_assoc; reflexivity). rewrite Ec in *.
  assert (length c = 1536%nat) as Hc by (unfold c; rewrite !length_app; lia).
  pose proof (place_of_bound (take 4 (drop 8 c))) as Hp.
  set (offs := digest_pos 8 c). set (d := HMAC_SHA256 key (without offs c)).
  assert (length d = 32%nat) as Hd by apply hmac_length.
  assert (12 <= offs <= 739)%nat as Ho by (unfold offs, digest_pos; lia).
  rewrite (do_access _ _ _ (Buf (3 :: splice offs d c) 1 1537)).
  2:{ unfold ngx_rtmp_write_digest. cbn [b_pos]. rewrite (bytes_at_tail 3 c (0 + 8)) by lia. cbn [mbind option_bind Nat.add].
      etransitivity; [|exact (store_digest_at key 3 c offs Hc ltac:(lia))]. f_equal. unfold offs, digest_pos. lia. }
  cbn [b_mem b_pos b_last]. eexists n, _. split; [reflexivity|].
  destruct (without_splice offs d c Hd ltac:(lia)) as [W1 W2].
  split; cbn [length head drop]; rewrite ?drop_0.
  - rewrite length_splice; lia.
  - done.
  - rewrite take_splice_le by lia. unfold c. now rewrite take_app_length' by lia.
  - rewrite take_drop_commute, take_splice_le by lia. unfold c. rewrite <- take_drop_commute, drop_app_length' by lia.
    now rewrite take_app_length' by lia.
  - assert (digest_pos 8 (splice offs d c) = offs) as Ep.
    { unfold offs at 2, digest_pos. do 3 f_equal. rewrite !take_drop_commute, take_splice_le by lia. done. }
    unfold Greeting.carries. rewrite Ep, W1, W2. now apply bool_decide_true.
Qed.

(** Any response; one that proves something if a digest was found. *)
Lemma create_response_spec w b : hs_buf (sess w) = Some b -> full_size b ->
  exists n v r, create_response w = Some (tt, with_buf (Buf (v :: r) 1 1537) (set_seed n w)) /\ length r = 1536%nat /\
    forall key, hs_digest (sess w) = Some key -> drop 1504 r = HMAC_SHA256 key (take 1504 r).
Proof.
  intros Hb Hs. unfold ngx_rtmp_handshake_create_response, place. unfold full_size, b_end in Hs. set (m := b_mem b) in *.
  rewrite (do_step _ _ w tt (with_buf (Buf m 1 1) w)) by (rewrite (do_buf w _ _ Hb); reflexivity).
  destruct (random_fill_spec (with_buf (Buf m 1 1) w) m 1 1) as (n & y & Hn & E); [reflexivity|exact Hs|lia|]. rewrite (do_step _ _ _ _ _ E). clear E.
  clearbody m. destruct m as [|v m]; [done|]. cbn [take Datatypes.app].
  rewrite do_gets. change (hs_digest (sess (with_buf _ _))) with (hs_digest (sess w)).
  destruct (hs_digest (sess w)) as [key|]; [|exists n, v, y; split; [reflexivity|]; split; [lia|done]].
  rewrite (do_buf _ (Buf (v :: y) 1 1537)) by reflexivity. set (d := HMAC_SHA256 key (without 1504 y)).
  assert (length d = 32%nat) as Hd by apply hmac_length.
  rewrite (do_access _ _ _ (Buf (v :: splice 1504 d y) 1 1537)) by (apply (store_digest_at key v y 1504); lia).
  exists n, v, (splice 1504 d y). split; [reflexivity|]. split; [rewrite length_splice; lia|].
  intros ? [= <-]. rewrite take_splice by lia. destruct (without_splice 1504 d y Hd ltac:(lia)) as [_ W].
  unfold digest_in in W. rewrite take_ge in W by (rewrite length_drop, length_splice; lia). rewrite W.
  unfold d, without. rewrite (drop_ge y) by lia. now rewrite app_nil_r.
Qed.

(* ------------------------------------------------------------------ *)
(** ** Loops *)

Lemma hs_recv_loop_spec xs : Forall (fun x => x <> []) xs -> forall b, full_size b -> (b_last b <= 1537)%nat ->
  exists xs', Forall (fun x => x <> []) xs' /\ concat xs' = drop (buf_room b) (concat xs) /\
    recv_loop (map Data xs) b =
      (if (length (concat xs) <? buf_room b)%nat then Blocked else Complete, map Data xs',
       buf_push b (take (buf_room b) (concat xs))).
Proof.
  intros Hxs. induction Hxs as [|x xs Hx Hxs IH]; intros b Hb Hl; unfold full_size in Hb.
  - exists []. split; [done|]. split; [cbn; now rewrite drop_nil|]. cbn [map recv_loop concat length].
    rewrite take_nil, buf_push_nil. unfold buf_room. rewrite Hb.
    destruct (Nat.eqb_spec (b_last b) 1537); [rewrite (proj2 (Nat.ltb_ge _ _)) by lia|rewrite (proj2 (Nat.ltb_lt _ _)) by lia]; done.
  - cbn [map recv_loop concat]. rewrite Hb. destruct (Nat.eqb_spec (b_last b) 1537) as [E|E].
    { assert (buf_room b = 0%nat) as -> by (unfold buf_room; lia). exists (x :: xs). cbn [take drop].
      rewrite buf_push_nil. auto. }
    destruct x as [|v x]; [done|]. set (y := v :: x) in *.
    destruct (Nat.leb_spec (length y) (buf_room b)) as [Hr|Hr].
    + assert (buf_room (buf_push b y) = buf_room b - length y)%nat as Er.
      { unfold buf_room, b_end, buf_push in *. cbn [b_mem b_last]. rewrite length_splice; lia. }
      destruct (IH (buf_push b y)) as (xs' & H1 & H2 & ->).
      { unfold full_size, buf_push, buf_room, b_end in *. cbn [b_mem]. rewrite length_splice; lia. }
      { unfold buf_room in *. cbn [buf_push b_last]. lia. }
      exists xs'. split; [done|]. split; [now rewrite H2, Er, drop_app_ge by lia|].
      rewrite Er, length_app, take_app_ge by lia. f_equal; [f_equal|].
      * destruct (Nat.ltb_spec (length (concat xs)) (buf_room b - length y));
          [rewrite (proj2 (Nat.ltb_lt _ _)) by lia|rewrite (proj2 (Nat.ltb_ge _ _)) by lia]; done.
      * unfold buf_push. cbn [b_mem b_pos b_last]. unfold buf_room in *. rewrite splice_app by (fold (b_end b); lia).
        f_equal. rewrite length_app. lia.
    + exists (drop (buf_room b) y :: xs). split; [|split].
      * constructor; [|done]. intros E0%(f_equal length). rewrite length_drop in E0. cbn in E0, Hr. lia.
      * cbn [concat]. now rewrite drop_app_le by lia.
      * rewrite take_app_le, (proj2 (Nat.ltb_ge _ _)) by (rewrite ?length_app; lia). done.
Qed.

Lemma hs_send_loop_spec ts : Forall (fun n => 0 < n)%nat ts -> forall b o, full_size b -> (b_pos b <= b_last b <= 1537)%nat ->
  let n := Nat.min (sum_list ts) (b_last b - b_pos b) in
  exists ts', Forall (fun n => 0 < n)%nat ts' /\
    send_loop (map Accept ts) b o =
      (if (sum_list ts <? b_last b - b_pos b)%nat then Blocked else Complete, map Accept ts',
       Buf (b_mem b) (b_pos b + n) (b_last b), o ++ take n (drop (b_pos b) (b_mem b))).
Proof.
  intros Hts. induction Hts as [|t ts Ht Hts IH]; intros b o Hb Hl n; unfold full_size, b_end in Hb.
  - exists []. split; [done|]. unfold n. cbn [map send_loop sum_list fold_right Nat.min take]. rewrite app_nil_r, Nat.add_0_r.
    destruct b as [m p l]. cbn [b_pos b_last b_mem] in *.
    destruct (Nat.eqb_spec p l); [rewrite (proj2 (Nat.ltb_ge _ _)) by lia|rewrite (proj2 (Nat.ltb_lt _ _)) by lia]; done.
  - destruct b as [m p l]. cbn [b_pos b_last b_mem] in *. cbn [map send_loop b_pos b_last b_mem].
    change (sum_list (t :: ts)) with (t + sum_list ts)%nat in *.
    destruct (Nat.eqb_spec p l) as [->|E].
    { exists (t :: ts). split; [now constructor|]. assert (n = 0%nat) as -> by lia.
      rewrite (proj2 (Nat.ltb_ge _ _)), Nat.add_0_r, app_nil_r by lia. done. }
    rewrite (proj2 (Nat.eqb_neq _ _)) by lia. set (k := Nat.min t (l - p)) in *.
    destruct (IH (Buf m (p + k) l) (o ++ take k (drop p m))) as (ts' & H1 & ->); cbn [b_pos b_last b_mem]; [done|lia|].
    exists ts'. split; [done|]. cbn [b_pos b_last b_mem]. f_equal; [f_equal|].
    + f_equal. destruct (Nat.ltb_spec (sum_list ts) (l - (p + k)));
        [rewrite (proj2 (Nat.ltb_lt _ _)) by lia|rewrite (proj2 (Nat.ltb_ge _ _)) by lia]; done.
    + f_equal. lia.
    + rewrite <- app_assoc. f_equal. set (j := Nat.min (sum_list ts) (l - (p + k))).
      assert (n = (k + j)%nat) as -> by lia. rewrite <- drop_drop, <- (take_drop k (take (k + j) (drop p m))).
      rewrite take_take, Nat.min_l by lia. now rewrite skipn_firstn_comm, Nat.add_sub_swap, Nat.sub_diag by lia.
Qed.

(* ------------------------------------------------------------------ *)
(** ** One call *)

Abbreviation recv_some := (recv_some HMAC_SHA256 rand true).
Abbreviation send_some := (send_some HMAC_SHA256 rand true).
Abbreviation received := (received HMAC_SHA256 rand true).
Abbreviation has_sent := (has_sent HMAC_SHA256 rand true).
Abbreviation handle := (handle HMAC_SHA256 rand true).

(** The bytes a socket still has to give. *)
Definition pending (l : list recv_ev) : list Z :=
  concat (map (fun e => match e with Data x => x | RecvError => [] end) l).

Lemma pending_data xs : pending (map Data xs) = concat xs.
Proof. unfold pending. rewrite map_map. f_equal. apply map_id. Qed.

(** No socket fails and no timer fires. *)
Record running (w : world) : Prop := {
  rn_ins : exists xs, ins w = map Data xs /\ Forall (fun x => x <> []) xs;
  rn_takes : exists ts, takes w = map Accept ts /\ Forall (fun n => 0 < n)%nat ts;
  rn_alive : destroyed (sess w) = false;
  rn_read : timedout (read (sess w)) = false;
  rn_write : timedout (write (sess w)) = false;
  rn_free : Forall full_size (free_hs w)
}.

Definition after_recv (i : list recv_ev) (b : ngx_buf_t) (e : event) (n : Z) (w : world) : world :=
  set_input i (set_sess (set_stage n (set_read e (set_hs_buf (Some b) (sess w)))) w).
Definition after_send (t : list send_ev) (o : list Z) (b : ngx_buf_t) (e : event) (n : Z) (w : world) : world :=
  set_output t o (set_sess (set_stage n (set_write e (set_hs_buf (Some b) (sess w)))) w).

Lemma recv_some_spec w b : running w -> hs_buf (sess w) = Some b -> full_size b -> (b_last b <= 1537)%nat ->
  exists i', pending (ins w) = take (buf_room b) (pending (ins w)) ++ pending i' /\
    let b' := buf_push b (take (buf_room b) (pending (ins w))) in
    (((length (pending (ins w)) < buf_room b)%nat /\
       let w1 := after_recv i' b' (Event true true false) (hs_stage (sess w)) w in
       recv_some w = Some (Return, w1) /\ running w1) \/
     ((buf_room b <= length (pending (ins w)))%nat /\
       let w1 := after_recv i' b' idle (hs_stage (sess w) + 1) w in
       recv_some w = received w1 /\ running w1)).
Proof.
  intros [(xs & Hxs & Hne) Hts Ha Hr Hw Hf] Hb Hs Hl. rewrite Hxs, pending_data.
  destruct (hs_recv_loop_spec xs Hne b Hs Hl) as (xs' & Hne' & Hc & E). exists (map Data xs').
  split; [now rewrite pending_data, Hc, take_drop|].
  unfold Handshake.recv_some. rewrite do_gets, Ha, Hr, do_upd, (do_buf _ b) by exact Hb.
  rewrite do_gets. change (ins (set_sess _ w)) with (ins w). rewrite Hxs, E.
  destruct (Nat.ltb_spec (length (concat xs)) (buf_room b)) as [H|H].
  - left. split; [done|]. cbv zeta. split.
    + destruct w as [[? ? ? ? ? ? [? ? r] ? ? ? ?] ? ? ? ? ?]. cbn in Hr. now subst r.
    + split; cbn; [eauto|done..].
  - right. split; [done|]. cbv zeta. split.
    + destruct w as [[? ? ? ? ? ? [? ? r] ? ? ? ?] ? ? ? ? ?]. cbn in Hr. now subst r.
    + split; cbn; [eauto|done..].
Qed.

Lemma send_some_spec w m p : running w -> hs_buf (sess w) = Some (Buf m p 1537) -> length m = 1537%nat -> (p <= 1537)%nat ->
  exists k t', (k <= 1537 - p)%nat /\ let o' := out w ++ take k (drop p m) in let b' := Buf m (p + k) 1537 in
    ((p + k < 1537)%nat /\ (takes w <> [] -> 0 < k)%nat /\
       let w1 := after_send t' o' b' (Event true true false) (hs_stage (sess w)) w in
       send_some w = Some (Return, w1) /\ running w1) \/
     ((p + k = 1537)%nat /\
       let w1 := after_send t' o' b' idle (hs_stage (sess w) + 1) w in
       send_some w = has_sent w1 /\ running w1).
Proof.
  intros [Hxs (ts & Hts & Hpos) Ha Hr Hw Hf] Hb Hm Hp.
  destruct (hs_send_loop_spec ts Hpos (Buf m p 1537) (out w) Hm) as (ts' & Hpos' & E); [cbn; lia|]. cbn [b_pos b_last b_mem] in E.
  exists (Nat.min (sum_list ts) (1537 - p)), (map Accept ts'). split; [lia|].
  set (k := Nat.min _ _) in *. cbv zeta. unfold Handshake.send_some. rewrite do_gets, Ha, Hw, do_upd, (do_buf _ (Buf m p 1537)) by exact Hb.
  rewrite !do_gets. change (takes (set_sess _ w)) with (takes w). change (out (set_sess _ w)) with (out w). rewrite Hts, E.
  destruct (Nat.ltb_spec (sum_list ts) (1537 - p)) as [H|H].
  - left. split; [lia|]. split.
    { intros Hn. destruct Hpos as [|t ts Ht Hpos]; [done|]. unfold k. cbn. lia. }
    split.
    + destruct w as [[? ? ? ? ? ? ? [? ? r] ? ? ?] ? ? ? ? ?]. cbn in Hw. now subst r.
    + split; cbn; [done|eauto|done..].
  - right. split; [lia|]. split.
    + destruct w as [[? ? ? ? ? ? ? [? ? r] ? ? ?] ? ? ? ? ?]. cbn in Hw. now subst r.
    + split; cbn; [done|eauto|done..].
Qed.

(** A session that waits for one event, under a timer, or has finished. *)
Inductive resting (w : world) : Prop :=
| rest_recv b : hs_buf (sess w) = Some b -> (b_last b < 1537)%nat -> read (sess w) = Event true true false ->
    active (write (sess w)) = false -> cycling (sess w) = false -> resting w
| rest_send b : hs_buf (sess w) = Some b -> (b_pos b < 1537)%nat -> write (sess w) = Event true true false ->
    active (read (sess w)) = false -> cycling (sess w) = false -> resting w
| rest_done : hs_buf (sess w) = None -> read (sess w) = idle -> write (sess w) = idle -> cycling (sess w) = true -> resting w.

(** The call [m] in a state with [i] received and [o] sent: it ends, behind at
    least [x0] received and [y0] sent, in a state to wait in. *)
Definition settles (at_ : world -> list Z -> list Z -> Prop) (m : H unit) (w : world) (i o x0 y0 : list Z) : Prop :=
  exists w' x y, m w = Some (tt, w') /\ running w' /\ pending (ins w) = x0 ++ x ++ pending (ins w') /\
    out w' = out w ++ y0 ++ y /\ at_ w' (i ++ x0 ++ x) (o ++ y0 ++ y) /\ resting w'.

Lemma settles_rest (at_ : world -> list Z -> list Z -> Prop) n w i o : running w -> at_ w i o -> resting w ->
  settles at_ (handle n Return) w i o [] [].
Proof.
  intros Hr Ha Hs. exists w, [], []. cbn [Datatypes.app]. rewrite !app_nil_r. destruct n; auto 10.
Qed.

Lemma settles_recv at_ f n w w1 i o x0 : recv_some w = Some (n, w1) -> pending (ins w) = x0 ++ pending (ins w1) ->
  out w1 = out w -> settles at_ (handle f n) w1 (i ++ x0) o [] [] -> settles at_ (handle (S f) Recv) w i o x0 [].
Proof.
  intros E Hp Ho (w' & x & y & E' & Hr & Hp' & Ho' & Ha & Hs). exists w', x, y. split.
  { cbn [Handshake.handle]. now rewrite (do_step _ _ _ _ _ E). }
  cbn [Datatypes.app] in *. rewrite Hp, Hp', Ho', Ho. rewrite <- !app_assoc in *. auto.
Qed.

Lemma settles_send at_ f n w w1 i o y0 : send_some w = Some (n, w1) -> ins w1 = ins w -> out w1 = out w ++ y0 ->
  settles at_ (handle f n) w1 i (o ++ y0) [] [] -> settles at_ (handle (S f) Send) w i o [] y0.
Proof.
  intros E Hi Ho (w' & x & y & E' & Hr & Hp' & Ho' & Ha & Hs). exists w', x, y. split.
  { cbn [Handshake.handle]. now rewrite (do_step _ _ _ _ _ E). }
  cbn [Datatypes.app] in *. rewrite <- Hi, Hp', Ho', Ho. rewrite <- !app_assoc in *. auto.
Qed.

Lemma settles_less at_ m w i o x0 y0 : settles at_ m w i o x0 y0 -> settles at_ m w i o [] [].
Proof.
  intros (w' & x & y & H). exists w', (x0 ++ x), (y0 ++ y). cbn [Datatypes.app]. now rewrite <- !app_assoc.
Qed.

(* ------------------------------------------------------------------ *)
(** ** Phases *)

(** The buffer takes bytes from [l] on, or gives those from [p] on. *)
Record receiving (w : world) (stage : Z) (m : list Z) (p l : nat) : Prop := {
  rc_stage : hs_stage (sess w) = stage;
  rc_buf : hs_buf (sess w) = Some (Buf m p l);
  rc_size : length m = 1537%nat;
  rc_last : (l <= 1537)%nat;
  rc_write : write (sess w) = idle;
  rc_cycling : cycling (sess w) = false
}.
Record sending (w : world) (stage : Z) (m : list Z) (p : nat) : Prop := {
  sn_stage : hs_stage (sess w) = stage;
  sn_buf : hs_buf (sess w) = Some (Buf m p 1537);
  sn_size : length m = 1537%nat;
  sn_pos : (p <= 1537)%nat;
  sn_read : read (sess w) = idle;
  sn_cycling : cycling (sess w) = false
}.
Record finished (w : world) (stage : Z) : Prop := {
  fi_stage : hs_stage (sess w) = stage;
  fi_buf : hs_buf (sess w) = None;
  fi_read : read (sess w) = idle;
  fi_write : write (sess w) = idle;
  fi_cycling : cycling (sess w) = true
}.

Lemma length_filled l x (m : list Z) : length m = 1537%nat -> (l + length x <= 1537)%nat -> length (splice l x m) = 1537%nat.
Proof. intros. rewrite length_splice; lia. Qed.

(** A call of [ngx_rtmp_handshake_recv]: it waits for more, or goes on. *)
Lemma receive_step at_ f w i o stage m p l : running w -> receiving w stage m p l ->
  (forall j x, length x <= 1537 - l -> at_ (after_recv j (Buf (splice l x m) p (l + length x)) (Event true true false) stage w) (i ++ x) o)%nat ->
  (forall j x, length x = 1537 - l -> pending (ins w) = x ++ pending j ->
    let w1 := after_recv j (Buf (splice l x m) p 1537) idle (stage + 1) w in running w1 ->
    exists n w2, received w1 = Some (n, w2) /\ ins w2 = j /\ out w2 = out w /\ settles at_ (handle f n) w2 (i ++ x) o [] [])%nat ->
  settles at_ (handle (S f) Recv) w i o (take (1537 - l) (pending (ins w))) [].
Proof.
  intros Hrun [H1 H2 H3 H4 H5 H6] Hmore Hnext.
  assert (buf_room (Buf m p l) = (1537 - l)%nat) as Hroom by (unfold buf_room, b_end; cbn [b_mem b_last]; lia).
  destruct (recv_some_spec w (Buf m p l) Hrun H2 H3 H4) as (j & Hp & [(Hlen & E & Hrun1)|(Hlen & E & Hrun1)]); cbv zeta in *;
    rewrite Hroom in *; unfold buf_push in *; cbn [b_mem b_pos b_last] in *; rewrite H1 in *;
    set (x := take (1537 - l) (pending (ins w))) in *.
  - assert (length x <= 1537 - l)%nat as Hx by (unfold x; rewrite length_take; lia).
    eapply settles_recv; [exact E|exact Hp|done|]. apply settles_rest; [done|now apply Hmore|].
    apply (rest_recv _ (Buf (splice l x m) p (l + length x))); cbn; [done| |done|now rewrite H5|done].
    unfold x. rewrite length_take. lia.
  - assert (length x = 1537 - l)%nat as Hx by (unfold x; rewrite length_take; lia).
    replace (l + length x)%nat with 1537%nat in * by lia.
    destruct (Hnext j x Hx Hp Hrun1) as (n & w2 & E2 & Hi & Ho & Hs). rewrite E2 in E.
    eapply settles_recv; [exact E|now rewrite Hi|exact Ho|exact Hs].
Qed.

(** A call of [ngx_rtmp_handshake_send]. *)
Lemma send_step at_ f w i o stage m p : running w -> sending w stage m p ->
  (forall t k, (k <= 1537 - p)%nat ->
    at_ (after_send t (out w ++ take k (drop p m)) (Buf m (p + k) 1537) (Event true true false) stage w) i (o ++ take k (drop p m))) ->
  (forall t, let w1 := after_send t (out w ++ drop p m) (Buf m 1537 1537) idle (stage + 1) w in running w1 ->
    exists n w2, has_sent w1 = Some (n, w2) /\ ins w2 = ins w /\ out w2 = out w ++ drop p m /\
      settles at_ (handle f n) w2 i (o ++ drop p m) [] []) ->
  exists y0, (takes w <> [] -> (p < 1537)%nat -> y0 <> []) /\ settles at_ (handle (S f) Send) w i o [] y0.
Proof.
  intros Hrun [H1 H2 H3 H4 H5 H6] Hmore Hnext.
  destruct (send_some_spec w m p Hrun H2 H3 H4) as (k & t & Hk & [(Hlt & Hpos & E & Hrun1)|(Heq & E & Hrun1)]); cbv zeta in *;
    rewrite H1 in *.
  - exists (take k (drop p m)). split.
    { intros Ht Hp He%(f_equal length). specialize (Hpos Ht). rewrite length_take, length_drop in He. cbn in He. lia. }
    eapply settles_send; [exact E|done|done|]. apply settles_rest; [done|now apply Hmore|].
    apply (rest_send _ (Buf m (p + k) 1537)); cbn; [done|lia|done|now rewrite H5|done].
  - exists (drop p m). split.
    { intros _ Hp He%(f_equal length). rewrite length_drop in He. cbn in He. lia. }
    assert (take k (drop p m) = drop p m) as Et by (rewrite take_ge; [done|rewrite length_drop; lia]).
    rewrite Et, Heq in *. destruct (Hnext t Hrun1) as (n & w2 & E2 & Hi & Ho & Hs). rewrite E2 in E.
    eapply settles_send; [exact E|exact Hi|exact Ho|exact Hs].
Qed.

(** The cases of the two switches that only move. *)
Definition closed (b : ngx_buf_t) (w : world) : world :=
  set_sess (set_cycling (set_hs_buf None (sess w))) (set_free (b :: free_hs w) w).

Lemma done_spec w b : hs_buf (sess w) = Some b -> ngx_rtmp_handshake_done true w = Some (tt, closed b w).
Proof.
  intros Hb. unfold ngx_rtmp_handshake_done, ngx_rtmp_free_handshake_buffers, mbind, H_bind. cbn. now rewrite Hb.
Qed.

Lemma place_spec w b p l : hs_buf (sess w) = Some b -> place p l w = Some (tt, with_buf (Buf (b_mem b) p l) w).
Proof. intros Hb. unfold place. now rewrite (do_buf _ _ _ Hb). Qed.

(** The whole buffer from [q] on, to be sent again. *)
Lemma replay_spec w b q : hs_buf (sess w) = Some b -> full_size b ->
  (b ← buf; place q (b_end b)) w = Some (tt, with_buf (Buf (b_mem b) q 1537) w).
Proof. intros Hb Hs. now rewrite (do_buf _ _ _ Hb), (place_spec w b _ _ Hb), Hs. Qed.

Lemma received_5 w b : hs_stage (sess w) = 5 -> hs_buf (sess w) = Some b -> received w = Some (Return, closed b w).
Proof.
  intros Hs Hb. unfold Handshake.received. rewrite do_gets, Hs. cbn -[mbind].
  now rewrite (do_step _ _ _ _ _ (done_spec w b Hb)).
Qed.

Lemma has_sent_4 w b : hs_stage (sess w) = 4 -> hs_buf (sess w) = Some b ->
  has_sent w = Some (Recv, with_buf (Buf (b_mem b) 1 1) w).
Proof.
  intros Hs Hb. unfold Handshake.has_sent. rewrite do_gets, Hs. cbn -[mbind place].
  now rewrite (do_step _ _ _ _ _ (place_spec w b 1 1 Hb)).
Qed.

Lemma has_sent_7 w b : hs_stage (sess w) = 7 -> hs_buf (sess w) = Some b ->
  has_sent w = Some (Recv, with_buf (Buf (b_mem b) 0 0) w).
Proof.
  intros Hs Hb. unfold Handshake.has_sent. rewrite do_gets, Hs. cbn -[mbind place].
  now rewrite (do_step _ _ _ _ _ (place_spec w b 0 0 Hb)).
Qed.

Lemma has_sent_10 w b : hs_stage (sess w) = 10 -> hs_buf (sess w) = Some b -> has_sent w = Some (Return, closed b w).
Proof.
  intros Hs Hb. unfold Handshake.has_sent. rewrite do_gets, Hs. cbn -[mbind place].
  now rewrite (do_step _ _ _ _ _ (done_spec w b Hb)).
Qed.

(** The rest of a response behind the part that is sent. *)
Lemma send_rest (m : list Z) c1 p k : (1 <= p)%nat ->
  (c1 ++ take (p - 1) (drop 1 m)) ++ take k (drop p m) = c1 ++ take (p + k - 1) (drop 1 m).
Proof.
  intros Hp. rewrite <- app_assoc. f_equal. rewrite <- (take_drop (p - 1) (take (p + k - 1) (drop 1 m))).
  rewrite take_take, Nat.min_l by lia. f_equal. rewrite skipn_firstn_comm, drop_drop. f_equal; [lia|f_equal; lia].
Qed.

Lemma send_all (m : list Z) c1 p : (1 <= p)%nat ->
  (c1 ++ take (p - 1) (drop 1 m)) ++ drop p m = c1 ++ drop 1 m.
Proof.
  intros Hp. rewrite <- app_assoc. f_equal. rewrite <- (take_drop (p - 1) (drop 1 m)) at 2.
  rewrite drop_drop. do 2 f_equal. lia.
Qed.

Lemma take_more (m : list Z) p k : take p m ++ take k (drop p m) = take (p + k) m.
Proof.
  rewrite <- (take_drop p (take (p + k) m)), take_take, Nat.min_l by lia.
  f_equal. rewrite skipn_firstn_comm. f_equal. lia.
Qed.

Lemma splice_full l x (m : list Z) : take l m = x -> length m = 1537%nat -> forall z, (l + length z = 1537)%nat ->
  splice l z m = x ++ z.
Proof.
  intros Hx Hm z Hz. rewrite <- Hx, <- take_splice_end by lia. rewrite take_ge; [done|]. rewrite length_filled; [lia|done|lia].
Qed.

(* ------------------------------------------------------------------ *)
(** ** The server *)

(** What a session keeps of the challenge [c] of its peer. *)
Definition knows (peer_key key c : list Z) (s : session) : Prop :=
  hs_digest s = (offs ← reads peer_key c; Some (HMAC_SHA256 key (digest_in offs c))) /\
  hs_old s = bool_decide (reads peer_key c = None).

Lemma learned_knows peer_key key c s : hs_digest s = None -> hs_old s = false ->
  knows peer_key key c (learned peer_key key c s).
Proof. intros H1 H2. unfold knows, learned. destruct (reads peer_key c); [|done]. now rewrite bool_decide_false. Qed.

(** The response to a challenge, whose bytes behind the version are [c]. *)
Definition responds (peer_key key c r : list Z) : Prop :=
  length r = 1536%nat /\ (is_Some (reads peer_key c) -> answers HMAC_SHA256 peer_key key c r).

(** The challenge and the response of the server to the challenge [x]. *)
Definition server_challenge (x s1 : list Z) : Prop :=
  length s1 = 1537%nat /\
  match reads ngx_rtmp_client_partial_key (drop 1 x) with
  | None => s1 = x
  | Some _ => exists ep, challenge HMAC_SHA256 ngx_rtmp_server_version ngx_rtmp_server_partial_key ep s1
  end.
Definition server_response (x s2 : list Z) : Prop :=
  responds ngx_rtmp_client_partial_key ngx_rtmp_server_full_key (drop 1 x) s2 /\
  (reads ngx_rtmp_client_partial_key (drop 1 x) = None -> s2 = drop 1 x).

Definition server_knows (x : list Z) (w : world) : Prop :=
  knows ngx_rtmp_client_partial_key ngx_rtmp_server_full_key (drop 1 x) (sess w).

(** The states of the server with [i] received and [o] sent. *)
Inductive server_at (w : world) (i o : list Z) : Prop :=
| server_recv_challenge m : receiving w 1 m 0 (length i) -> take (length i) m = i -> o = [] ->
    hs_digest (sess w) = None -> hs_old (sess w) = false -> server_at w i o
| server_send_challenge m p : sending w 2 m p -> length i = 1537%nat -> server_challenge i m -> server_knows i w ->
    o = take p m -> server_at w i o
| server_send_response m p s1 : sending w 3 m p -> (1 <= p)%nat -> length i = 1537%nat -> server_challenge i s1 ->
    server_response i (drop 1 m) -> o = s1 ++ take (p - 1) (drop 1 m) -> server_at w i o
| server_recv_response m l s1 s2 x y : receiving w 4 m 1 l -> (1 <= l)%nat -> i = x ++ y -> length x = 1537%nat ->
    length y = (l - 1)%nat -> server_challenge x s1 -> server_response x s2 -> o = s1 ++ s2 -> server_at w i o
| server_done s1 s2 x y : finished w 5 -> i = x ++ y -> length x = 1537%nat -> length y = 1536%nat ->
    server_challenge x s1 -> server_response x s2 -> o = s1 ++ s2 -> server_at w i o.

Lemma server_4 f w i o m l s1 s2 x y : running w -> receiving w 4 m 1 l -> (1 <= l)%nat -> i = x ++ y -> length x = 1537%nat ->
  length y = (l - 1)%nat -> server_challenge x s1 -> server_response x s2 -> o = s1 ++ s2 ->
  settles server_at (handle (S f) Recv) w i o (take (1537 - l) (pending (ins w))) [].
Proof.
  intros Hrun Hrc Hl Hi Hx Hy H1 H2 Ho. pose proof Hrc as [R1 R2 R3 R4 R5 R6].
  apply (receive_step _ _ _ _ _ 4 m 1 l Hrun Hrc).
  - intros j z Hz. apply (server_recv_response _ _ _ (splice l z m) (l + length z) s1 s2 x (y ++ z)); try done.
    + split; cbn; try done; [apply length_filled; [done|lia]|lia].
    + lia.
    + now rewrite Hi, app_assoc.
    + rewrite length_app. lia.
  - intros j z Hz Hp w1 Hrun1. eexists Return, _. split; [now eapply received_5|]. split; [done|]. split; [done|].
    apply settles_rest.
    + destruct Hrun1. split; cbn; try done. constructor; [|done]. apply length_filled; [done|lia].
    + apply (server_done _ _ _ s1 s2 x (y ++ z)); [split; done|now rewrite Hi, app_assoc|done|rewrite length_app; lia|done..].
    + now apply rest_done.
Qed.

Lemma server_3 f w i o m p s1 : running w -> sending w 3 m p -> (1 <= p)%nat -> length i = 1537%nat -> server_challenge i s1 ->
  server_response i (drop 1 m) -> o = s1 ++ take (p - 1) (drop 1 m) ->
  exists y0, (takes w <> [] -> (p < 1537)%nat -> y0 <> []) /\ settles server_at (handle (S (S f)) Send) w i o [] y0.
Proof.
  intros Hrun Hsn Hp Hi H1 H2 Ho. pose proof Hsn as [R1 R2 R3 R4 R5 R6].
  apply (send_step _ _ _ _ _ 3 m p Hrun Hsn).
  - intros t k Hk. apply (server_send_response _ _ _ m (p + k) s1); try done; [|lia|now rewrite Ho, send_rest].
    split; cbn; try done. lia.
  - intros t w1 Hrun1. eexists Recv, _. split; [now eapply has_sent_4|]. split; [done|]. split; [done|].
    eapply settles_less. eapply (server_4 f _ _ _ m 1 s1 (drop 1 m) i []); try done.
    + destruct Hrun1. now split.
    + split; try done. lia.
    + now rewrite app_nil_r.
    + now rewrite Ho, send_all.
Qed.

Lemma running_with w w' : running w -> ins w' = ins w -> takes w' = takes w -> free_hs w' = free_hs w ->
  destroyed (sess w') = destroyed (sess w) -> read (sess w') = read (sess w) -> write (sess w') = write (sess w) -> running w'.
Proof. intros [] E1 E2 E3 E4 E5 E6. split; rewrite ?E1, ?E2, ?E3, ?E4, ?E5, ?E6; assumption. Qed.

(** The response to a challenge that was read. *)
Lemma response_created w b peer_key key c : hs_buf (sess w) = Some b -> full_size b -> knows peer_key key c (sess w) ->
  exists n v r, create_response w = Some (tt, with_buf (Buf (v :: r) 1 1537) (set_seed n w)) /\
    length (v :: r) = 1537%nat /\ responds peer_key key c r.
Proof.
  intros Hb Hs [Hd _]. destruct (create_response_spec w b Hb Hs) as (n & v & r & E & Hr & Ha).
  exists n, v, r. split; [done|]. split; [cbn; lia|]. split; [done|].
  intros [offs Ho]. exists offs. split; [done|]. apply Ha. now rewrite Hd, Ho.
Qed.

Lemma server_3_start w m i : running w -> hs_stage (sess w) = 3 -> hs_buf (sess w) = Some (Buf m 1537 1537) ->
  length m = 1537%nat -> read (sess w) = idle -> cycling (sess w) = false ->
  server_challenge i m -> server_knows i w -> length i = 1537%nat ->
  exists w2 m', has_sent w = Some (Send, w2) /\ ins w2 = ins w /\ out w2 = out w /\ running w2 /\ sending w2 3 m' 1 /\
    server_response i (drop 1 m').
Proof.
  intros Hrun Hst Hb Hm Hr Hcy [_ Hch] Hk Hi. pose proof Hk as [_ Hold].
  unfold Handshake.has_sent. rewrite do_gets, Hst. cbn -[mbind place ngx_rtmp_handshake_create_response]. rewrite Hold.
  destruct (reads ngx_rtmp_client_partial_key (drop 1 i)) as [offs|] eqn:Er.
  - rewrite bool_decide_false by done.
    destruct (response_created w _ _ _ _ Hb Hm Hk) as (n & v & r & E & Hl & Hres). rewrite (do_step _ _ _ _ _ E).
    eexists _, (v :: r). split; [reflexivity|]. do 2 (split; [done|]). split; [now apply (running_with w)|]. split.
    + split; try done. lia.
    + split; [exact Hres|]. now rewrite Er.
  - rewrite bool_decide_true by done. subst m.
    rewrite (do_step _ _ _ _ _ (replay_spec w _ 1 Hb Hm)).
    eexists _, i. split; [reflexivity|]. do 2 (split; [done|]). split; [now apply (running_with w)|]. split.
    + split; try done. lia.
    + split; [|done]. split; [rewrite length_drop; lia|]. rewrite Er. now intros [? ?].
Qed.

Lemma server_2 f w i o m p : running w -> sending w 2 m p -> length i = 1537%nat -> server_challenge i m -> server_knows i w ->
  o = take p m ->
  exists y0, (takes w <> [] -> (p < 1537)%nat -> y0 <> []) /\ settles server_at (handle (S (S (S f))) Send) w i o [] y0.
Proof.
  intros Hrun Hsn Hi H1 Hk Ho. pose proof Hsn as [R1 R2 R3 R4 R5 R6].
  apply (send_step _ _ _ _ _ 2 m p Hrun Hsn).
  - intros t k Hk'. apply (server_send_challenge _ _ _ m (p + k)); try done.
    + split; cbn; try done. lia.
    + now rewrite Ho, take_more.
  - intros t w1 Hrun1.
    destruct (server_3_start w1 m i) as (w2 & m' & E & E1 & E2 & Hrun2 & Hsn2 & H2); try done.
    exists Send, w2. split; [done|]. split; [done|]. split; [now rewrite E2|].
    destruct (server_3 f w2 i (o ++ drop p m) m' 1 m Hrun2 Hsn2) as (y0 & _ & Hs); try done; [|exact (settles_less _ _ _ _ _ _ _ Hs)].
    now rewrite Ho, take_drop, app_nil_r.
Qed.

Lemma received_2 w i : running w -> hs_stage (sess w) = 2 -> hs_buf (sess w) = Some (Buf i 0 1537) ->
  length i = 1537%nat -> head i = Some 3 -> read (sess w) = idle -> cycling (sess w) = false ->
  hs_digest (sess w) = None -> hs_old (sess w) = false ->
  exists w2 m, received w = Some (Send, w2) /\ ins w2 = ins w /\ out w2 = out w /\ running w2 /\ sending w2 2 m 0 /\
    server_challenge i m /\ server_knows i w2.
Proof.
  intros Hrun Hst Hb Hi Hh Hr Hcy Hd Hold. destruct i as [|v c]; [done|]. injection Hh as ->.
  unfold Handshake.received. rewrite do_gets, Hst. cbn -[mbind place ngx_rtmp_handshake_parse_challenge ngx_rtmp_handshake_create_challenge].
  destruct (parse_spec ngx_rtmp_client_partial_key ngx_rtmp_server_full_key w c Hb) as (k & l & E); [cbn in Hi; lia|].
  rewrite (do_step _ _ _ _ _ E). cbn [negb]. rewrite do_gets. set (s := learned _ _ _ _) in *.
  assert (knows ngx_rtmp_client_partial_key ngx_rtmp_server_full_key c s) as Hk by now apply learned_knows.
  set (w1 := with_buf (Buf (3 :: c) k l) (set_sess s w)).
  assert (hs_buf (sess w1) = Some (Buf (3 :: c) k l)) as Hb1 by done.
  assert (running w1) as Hrun1.
  { apply (running_with w); try done; unfold w1, s, learned; cbn; destruct (reads _ c); done. }
  assert (hs_stage (sess w1) = 2 /\ read (sess w1) = idle /\ cycling (sess w1) = false) as (A1 & A2 & A3).
  { rewrite <- Hst, <- Hr, <- Hcy. unfold w1, s, learned. destruct (reads _ c); done. }
  change (hs_old (sess w1)) with (hs_old s). rewrite (proj2 Hk).
  destruct (reads ngx_rtmp_client_partial_key c) as [offs|] eqn:Er.
  - rewrite bool_decide_false by done.
    destruct (create_challenge_spec ngx_rtmp_server_version ngx_rtmp_server_partial_key w1 _ Hb1) as (n & x & E2 & Hch); [exact Hi|done|].
    rewrite (do_step _ _ _ _ _ E2). eexists _, x. split; [reflexivity|]. do 2 (split; [done|]).
    split; [now apply (running_with w1)|]. pose proof (ch_length _ _ _ _ _ Hch).
    split; [split; cbn; try done; lia|]. split; [|done]. split; [done|]. cbn [drop]. rewrite drop_0, Er. eauto.
  - rewrite bool_decide_true by done.
    rewrite (do_step _ _ _ _ _ (replay_spec w1 _ 0 Hb1 Hi)).
    eexists _, (3 :: c). split; [reflexivity|]. do 2 (split; [done|]).
    split; [now apply (running_with w1)|].
    split; [split; cbn; try done; lia|]. split; [|done].
    split; [done|]. cbn [drop]. now rewrite drop_0, Er.
Qed.

Lemma server_1 f w i o m : running w -> receiving w 1 m 0 (length i) -> take (length i) m = i -> o = [] ->
  hs_digest (sess w) = None -> hs_old (sess w) = false ->
  ((1537 <= length (i ++ pending (ins w)))%nat -> head (i ++ pending (ins w)) = Some 3) ->
  settles server_at (handle (S (S (S (S f)))) Recv) w i o (take (1537 - length i) (pending (ins w))) [].
Proof.
  intros Hrun Hrc Hi Ho Hd Hold Hh. pose proof Hrc as [R1 R2 R3 R4 R5 R6].
  apply (receive_step _ _ _ _ _ 1 m 0 (length i) Hrun Hrc).
  - intros j z Hz. apply (server_recv_challenge _ _ _ (splice (length i) z m)); try done.
    + split; cbn; try done; [now rewrite length_app|apply length_filled; [done|lia]|rewrite length_app; lia].
    + now rewrite length_app, take_splice_end, Hi by lia.
  - intros j z Hz Hp w1 Hrun1.
    assert (splice (length i) z m = i ++ z) as E by (apply splice_full; [done..|lia]).
    assert (length (i ++ z) = 1537%nat) as Hl by (rewrite length_app; lia).
    rewrite Hp, app_assoc in Hh. destruct (received_2 w1 (i ++ z)) as (w2 & m2 & E2 & E3 & E4 & Hrun2 & Hsn & H1 & Hk); try done.
    + unfold w1. cbn. now rewrite E.
    + destruct (i ++ z) as [|v x]; [done|]. apply Hh. rewrite length_app. lia.
    + exists Send, w2. split; [done|]. split; [done|]. split; [done|].
      destruct (server_2 f w2 (i ++ z) o m2 0 Hrun2 Hsn) as (y0 & _ & Hs); try done; exact (settles_less _ _ _ _ _ _ _ Hs).
Qed.

(* ------------------------------------------------------------------ *)
(** ** The client *)

Definition client_challenge (c1 : list Z) : Prop :=
  exists ep, challenge HMAC_SHA256 ngx_rtmp_client_version ngx_rtmp_client_partial_key ep c1.
Definition client_response (x c2 : list Z) : Prop :=
  responds ngx_rtmp_server_partial_key ngx_rtmp_client_full_key (drop 1 x) c2.
Definition client_knows (x : list Z) (w : world) : Prop :=
  knows ngx_rtmp_server_partial_key ngx_rtmp_client_full_key (drop 1 x) (sess w).

(** The states of the client with [i] received and [o] sent. *)
Inductive client_at (w : world) (i o : list Z) : Prop :=
| client_send_challenge m p : sending w 6 m p -> client_challenge m -> i = [] -> o = take p m ->
    hs_digest (sess w) = None -> hs_old (sess w) = false -> client_at w i o
| client_recv_challenge m : receiving w 7 m 0 (length i) -> take (length i) m = i -> client_challenge o ->
    hs_digest (sess w) = None -> hs_old (sess w) = false -> client_at w i o
| client_recv_response m l x y : receiving w 8 m 1 l -> (1 <= l)%nat -> i = x ++ y -> length x = 1537%nat ->
    length y = (l - 1)%nat -> client_challenge o -> client_knows x w -> client_at w i o
| client_send_response m p c1 x y : sending w 9 m p -> (1 <= p)%nat -> i = x ++ y -> length x = 1537%nat ->
    length y = 1536%nat -> client_challenge c1 -> client_response x (drop 1 m) ->
    o = c1 ++ take (p - 1) (drop 1 m) -> client_at w i o
| client_done c1 c2 x y : finished w 10 -> i = x ++ y -> length x = 1537%nat -> length y = 1536%nat ->
    client_challenge c1 -> client_response x c2 -> o = c1 ++ c2 -> client_at w i o.

Lemma client_9 f w i o m p c1 x y : running w -> sending w 9 m p -> (1 <= p)%nat -> i = x ++ y -> length x = 1537%nat ->
  length y = 1536%nat -> client_challenge c1 -> client_response x (drop 1 m) -> o = c1 ++ take (p - 1) (drop 1 m) ->
  exists y0, (takes w <> [] -> (p < 1537)%nat -> y0 <> []) /\ settles client_at (handle (S f) Send) w i o [] y0.
Proof.
  intros Hrun Hsn Hp Hi Hx Hy H1 H2 Ho. pose proof Hsn as [R1 R2 R3 R4 R5 R6].
  apply (send_step _ _ _ _ _ 9 m p Hrun Hsn).
  - intros t k Hk. apply (client_send_response _ _ _ m (p + k) c1 x y); try done; [|lia|now rewrite Ho, send_rest].
    split; cbn; try done. lia.
  - intros t w1 Hrun1. eexists Return, _. split; [now eapply has_sent_10|]. do 2 (split; [done|]).
    apply settles_rest.
    + destruct Hrun1. split; cbn; try done. now constructor.
    + apply (client_done _ _ _ c1 (drop 1 m) x y); try done. now rewrite Ho, send_all.
    + now apply rest_done.
Qed.

Lemma client_8 f w i o m l x y : running w -> receiving w 8 m 1 l -> (1 <= l)%nat -> i = x ++ y -> length x = 1537%nat ->
  length y = (l - 1)%nat -> client_challenge o -> client_knows x w ->
  settles client_at (handle (S (S f)) Recv) w i o (take (1537 - l) (pending (ins w))) [].
Proof.
  intros Hrun Hrc Hl Hi Hx Hy H1 Hk. pose proof Hrc as [R1 R2 R3 R4 R5 R6].
  apply (receive_step _ _ _ _ _ 8 m 1 l Hrun Hrc).
  - intros j z Hz. apply (client_recv_response _ _ _ (splice l z m) (l + length z) x (y ++ z)); try done.
    + split; cbn; try done; [apply length_filled; [done|lia]|lia].
    + lia.
    + now rewrite Hi, app_assoc.
    + rewrite length_app. lia.
  - intros j z Hz Hp w1 Hrun1.
    assert (length (splice l z m) = 1537%nat) as Hm by (apply length_filled; [done|lia]).
    destruct (response_created w1 (Buf (splice l z m) 1 1537) ngx_rtmp_server_partial_key ngx_rtmp_client_full_key (drop 1 x))
      as (n & v & r & E & Hr & Hres); [done|exact Hm|exact Hk|].
    eexists Send, _. split.
    { unfold Handshake.received. rewrite do_gets. change (hs_stage (sess w1)) with 9.
      cbn -[mbind ngx_rtmp_handshake_create_response]. rewrite (do_step _ _ _ _ _ E). reflexivity. }
    do 2 (split; [done|]).
    match goal with |- settles _ _ ?w2 _ _ _ _ =>
      destruct (client_9 f w2 (i ++ z) o (v :: r) 1 o x (y ++ z)) as (y0 & _ & Hs) end;
      [now apply (running_with w1)|split; first [done | lia]|lia|now rewrite Hi, app_assoc|done|rewrite length_app; lia|done|exact Hres|cbn; now rewrite app_nil_r|].
    exact (settles_less _ _ _ _ _ _ _ Hs).
Qed.

Lemma received_8 w x : running w -> hs_stage (sess w) = 8 -> hs_buf (sess w) = Some (Buf x 0 1537) ->
  length x = 1537%nat -> head x = Some 3 -> write (sess w) = idle -> cycling (sess w) = false ->
  hs_digest (sess w) = None -> hs_old (sess w) = false ->
  exists w2 m, received w = Some (Recv, w2) /\ ins w2 = ins w /\ out w2 = out w /\ running w2 /\ receiving w2 8 m 1 1 /\
    client_knows x w2.
Proof.
  intros Hrun Hst Hb Hx Hh Hr Hcy Hd Hold. destruct x as [|v c]; [done|]. injection Hh as ->.
  unfold Handshake.received. rewrite do_gets, Hst. cbn -[mbind place ngx_rtmp_handshake_parse_challenge].
  destruct (parse_spec ngx_rtmp_server_partial_key ngx_rtmp_client_full_key w c Hb) as (k & l & E); [cbn in Hx; lia|].
  rewrite (do_step _ _ _ _ _ E). cbn [negb]. set (s := learned _ _ _ _) in *.
  assert (knows ngx_rtmp_server_partial_key ngx_rtmp_client_full_key c s) as Hk by now apply learned_knows.
  set (w1 := with_buf (Buf (3 :: c) k l) (set_sess s w)).
  rewrite (do_step _ _ w1 _ _ (place_spec w1 (Buf (3 :: c) k l) 1 1 eq_refl)).
  eexists _, (3 :: c). split; [reflexivity|]. do 2 (split; [done|]).
  assert (hs_stage s = 8 /\ write s = idle /\ cycling s = false /\ destroyed s = destroyed (sess w) /\
    read s = read (sess w) /\ write s = write (sess w)) as (A1 & A2 & A3 & A4 & A5 & A6).
  { unfold s, learned. destruct (reads _ c); split_and!; done. }
  split; [now apply (running_with w)|]. split; [split; try done; lia|]. exact Hk.
Qed.

Lemma client_7 f w i o m : running w -> receiving w 7 m 0 (length i) -> take (length i) m = i -> client_challenge o ->
  hs_digest (sess w) = None -> hs_old (sess w) = false ->
  ((1537 <= length (i ++ pending (ins w)))%nat -> head (i ++ pending (ins w)) = Some 3) ->
  settles client_at (handle (S (S (S f))) Recv) w i o (take (1537 - length i) (pending (ins w))) [].
Proof.
  intros Hrun Hrc Hi Ho Hd Hold Hh. pose proof Hrc as [R1 R2 R3 R4 R5 R6].
  apply (receive_step _ _ _ _ _ 7 m 0 (length i) Hrun Hrc).
  - intros j z Hz. apply (client_recv_challenge _ _ _ (splice (length i) z m)); try done.
    + split; cbn; try done; [now rewrite length_app|apply length_filled; [done|lia]|rewrite length_app; lia].
    + now rewrite length_app, take_splice_end, Hi by lia.
  - intros j z Hz Hp w1 Hrun1.
    assert (splice (length i) z m = i ++ z) as E by (apply splice_full; [done..|lia]).
    assert (length (i ++ z) = 1537%nat) as Hl by (rewrite length_app; lia).
    rewrite Hp, app_assoc in Hh. destruct (received_8 w1 (i ++ z)) as (w2 & m2 & E2 & E3 & E4 & Hrun2 & Hrc2 & Hk); try done.
    + unfold w1. cbn. now rewrite E.
    + destruct (i ++ z) as [|v x]; [done|]. apply Hh. rewrite length_app. lia.
    + exists Recv, w2. split; [done|]. split; [done|]. split; [done|].
      apply (settles_less _ _ _ _ _ (take (1537 - 1) (pending (ins w2))) []).
      apply (client_8 f w2 (i ++ z) o m2 1 (i ++ z) []); try done. now rewrite app_nil_r.
Qed.

Lemma client_6 f w i o m p : running w -> sending w 6 m p -> client_challenge m -> i = [] -> o = take p m ->
  hs_digest (sess w) = None -> hs_old (sess w) = false ->
  ((1537 <= length (i ++ pending (ins w)))%nat -> head (i ++ pending (ins w)) = Some 3) ->
  exists y0, (takes w <> [] -> (p < 1537)%nat -> y0 <> []) /\ settles client_at (handle (S (S (S (S f)))) Send) w i o [] y0.
Proof.
  intros Hrun Hsn H1 Hi Ho Hd Hold Hh. pose proof Hsn as [R1 R2 R3 R4 R5 R6].
  apply (send_step _ _ _ _ _ 6 m p Hrun Hsn).
  - intros t k Hk. apply (client_send_challenge _ _ _ m (p + k)); try done; [|now rewrite Ho, take_more].
    split; cbn; try done. lia.
  - intros t w1 Hrun1. eexists Recv, _. split; [now eapply has_sent_7|]. do 2 (split; [done|]).
    eapply settles_less. eapply (client_7 f _ _ _ m); try done.
    + destruct Hrun1. now split.
    + subst i. split; try done. cbn. lia.
    + now subst i.
    + now rewrite Ho, take_drop.
Qed.

(* ------------------------------------------------------------------ *)
(** ** Calls in any state *)

(** The sockets at a call: the pieces [xs] to receive, room for [ts]. *)
Definition with_io (xs : list (list Z)) (ts : list nat) (w : world) : world :=
  World (sess w) (free_hs w) (seed w) (map Data xs) (map Accept ts) [].

Lemma running_io xs ts w : running w -> Forall (fun x => x <> []) xs -> Forall (fun n => 0 < n)%nat ts ->
  running (with_io xs ts w).
Proof. intros [_ _ ? ? ? ?] Hx Ht. split; try done; cbn; eauto. Qed.

Lemma server_io xs ts w i o : server_at w i o -> server_at (with_io xs ts w) i o.
Proof.
  destruct 1 as [m [] |m p []|m p s1 []|m l s1 s2 x y []|s1 s2 x y []];
    [eapply server_recv_challenge|eapply server_send_challenge|eapply server_send_response
    |eapply server_recv_response|eapply server_done]; try done; eassumption.
Qed.

Lemma client_io xs ts w i o : client_at w i o -> client_at (with_io xs ts w) i o.
Proof.
  destruct 1 as [m p [] |m []|m l x y []|m p c1 x y []|c1 c2 x y []];
    [eapply client_send_challenge|eapply client_recv_challenge|eapply client_recv_response
    |eapply client_send_response|eapply client_done]; try done; eassumption.
Qed.

(** The first byte of a challenge. *)
Definition greets (x : list Z) : Prop := (1537 <= length x)%nat -> head x = Some 3.

Lemma resting_last w b : resting w -> active (read (sess w)) = true -> hs_buf (sess w) = Some b -> (b_last b < 1537)%nat.
Proof. intros [b' E ? _ _ _|b' _ _ _ E _|_ E _ _] Ha Hb; rewrite E in *; [|done..]. now injection Hb as <-. Qed.
Lemma resting_pos w b : resting w -> active (write (sess w)) = true -> hs_buf (sess w) = Some b -> (b_pos b < 1537)%nat.
Proof. intros [b' _ _ _ E _|b' E ? _ _ _|_ _ E _] Ha Hb; rewrite E in *; [done| |done]. now injection Hb as <-. Qed.

Lemma some_taken (l : list Z) n : l <> [] -> (0 < n)%nat -> take n l <> [].
Proof. destruct l, n; [done..|lia|done]. Qed.

(** A read event with bytes to receive. *)
Lemma server_read w i o : running w -> server_at w i o -> resting w -> active (read (sess w)) = true ->
  greets (i ++ pending (ins w)) ->
  exists x0, (pending (ins w) <> [] -> x0 <> []) /\
    settles server_at (ngx_rtmp_handshake_recv HMAC_SHA256 rand true) w i o x0 [].
Proof.
  intros Hrun Hat Hrest Ha Hg. destruct Hat as [m Hrc|m p []|m p s1 []|m l s1 s2 x y Hrc|s1 s2 x y []];
    try (match goal with E : read _ = _ |- _ => now rewrite E in Ha end).
  - pose proof (resting_last _ _ Hrest Ha (rc_buf _ _ _ _ _ Hrc)) as Hl. cbn in Hl.
    eexists. split; [|now apply (server_1 0 w i o m)]. intros Hn. apply some_taken; [done|lia].
  - pose proof (resting_last _ _ Hrest Ha (rc_buf _ _ _ _ _ Hrc)) as Hl. cbn in Hl.
    eexists. split; [|now apply (server_4 3 w i o m l s1 s2 x y)]. intros Hn. apply some_taken; [done|lia].
Qed.

(** A write event with room in the socket. *)
Lemma server_write w i o : running w -> server_at w i o -> resting w -> active (write (sess w)) = true -> takes w <> [] ->
  exists y0, y0 <> [] /\ settles server_at (ngx_rtmp_handshake_send HMAC_SHA256 rand true) w i o [] y0.
Proof.
  intros Hrun Hat Hrest Ha Ht. destruct Hat as [m []|m p Hsn|m p s1 Hsn|m l s1 s2 x y []|s1 s2 x y []];
    try (match goal with E : write _ = _ |- _ => now rewrite E in Ha end).
  - pose proof (resting_pos _ _ Hrest Ha (sn_buf _ _ _ _ Hsn)) as Hl. cbn in Hl.
    destruct (server_2 1 w i o m p) as (y0 & Hy & Hs); eauto.
  - pose proof (resting_pos _ _ Hrest Ha (sn_buf _ _ _ _ Hsn)) as Hl. cbn in Hl.
    destruct (server_3 2 w i o m p s1) as (y0 & Hy & Hs); eauto.
Qed.

Lemma client_read w i o : running w -> client_at w i o -> resting w -> active (read (sess w)) = true ->
  greets (i ++ pending (ins w)) ->
  exists x0, (pending (ins w) <> [] -> x0 <> []) /\
    settles client_at (ngx_rtmp_handshake_recv HMAC_SHA256 rand true) w i o x0 [].
Proof.
  intros Hrun Hat Hrest Ha Hg. destruct Hat as [m p []|m Hrc|m l x y Hrc|m p c1 x y []|c1 c2 x y []];
    try (match goal with E : read _ = _ |- _ => now rewrite E in Ha end).
  - pose proof (resting_last _ _ Hrest Ha (rc_buf _ _ _ _ _ Hrc)) as Hl. cbn in Hl.
    eexists. split; [|now apply (client_7 1 w i o m)]. intros Hn. apply some_taken; [done|lia].
  - pose proof (resting_last _ _ Hrest Ha (rc_buf _ _ _ _ _ Hrc)) as Hl. cbn in Hl.
    eexists. split; [|now apply (client_8 2 w i o m l x y)]. intros Hn. apply some_taken; [done|lia].
Qed.

Lemma client_write w i o : running w -> client_at w i o -> resting w -> active (write (sess w)) = true -> takes w <> [] ->
  greets (i ++ pending (ins w)) ->
  exists y0, y0 <> [] /\ settles client_at (ngx_rtmp_handshake_send HMAC_SHA256 rand true) w i o [] y0.
Proof.
  intros Hrun Hat Hrest Ha Ht Hg. destruct Hat as [m p Hsn|m []|m l x y []|m p c1 x y Hsn|c1 c2 x y []];
    try (match goal with E : write _ = _ |- _ => now rewrite E in Ha end).
  - pose proof (resting_pos _ _ Hrest Ha (sn_buf _ _ _ _ Hsn)) as Hl. cbn in Hl.
    destruct (client_6 0 w i o m p) as (y0 & Hy & Hs); eauto.
  - pose proof (resting_pos _ _ Hrest Ha (sn_buf _ _ _ _ Hsn)) as Hl. cbn in Hl.
    destruct (client_9 3 w i o m p c1 x y) as (y0 & Hy & Hs); eauto.
Qed.

(** A session waits for its peer and has not had all of it, waits to send, or has
    finished. *)
Lemma server_waits w i o : server_at w i o -> resting w ->
  active (write (sess w)) = true \/
  active (read (sess w)) = true /\ ((length i < 1537)%nat /\ o = [] \/ (length i < 3073)%nat /\ length o = 3073%nat) \/
  cycling (sess w) = true /\ length i = 3073%nat /\ length o = 3073%nat.
Proof.
  intros Hat Hrest. inversion Hrest as [b Hb Hl Hr _ Hc|b Hb Hl Hw _ Hc|Hb Hr Hw Hc].
  - right; left. rewrite Hr. split; [done|].
    destruct Hat as [m []|m p []|m p s1 []|m l s1 s2 x y [] ? -> Hx Hy [H1 _] [[H2 _] _] ->|s1 s2 x y []]; unfold idle in *; try congruence;
      [left|right; rewrite !length_app];
      (split; [|lia||done]); (match goal with E : hs_buf _ = _ |- _ => rewrite E in Hb; injection Hb as <-; cbn in Hl end); lia.
  - left. now rewrite Hw.
  - right; right. split; [done|].
    destruct Hat as [m []|m p []|m p s1 []|m l s1 s2 x y []|s1 s2 x y ? -> Hx Hy [H1 _] [[H2 _] _] ->]; unfold idle in *; try congruence.
    rewrite !length_app. lia.
Qed.

Lemma client_waits w i o : client_at w i o -> resting w ->
  active (write (sess w)) = true \/
  active (read (sess w)) = true /\ (length i < 3073)%nat /\ length o = 1537%nat \/
  cycling (sess w) = true /\ length i = 3073%nat /\ length o = 3073%nat.
Proof.
  intros Hat Hrest. inversion Hrest as [b Hb Hl Hr _ Hc|b Hb Hl Hw _ Hc|Hb Hr Hw Hc].
  - right; left. rewrite Hr. split; [done|].
    destruct Hat as [m p []|m [] ? [ep []]|m l x y [] ? -> Hx Hy [ep []]|m p c1 x y []|c1 c2 x y []]; unfold idle in *; try congruence;
      rewrite ?length_app; (split; [|done]);
      (match goal with E : hs_buf _ = _ |- _ => rewrite E in Hb; injection Hb as <-; cbn in Hl end); lia.
  - left. now rewrite Hw.
  - right; right. split; [done|].
    destruct Hat as [m p []|m []|m l x y []|m p c1 x y []|c1 c2 x y ? -> Hx Hy [ep []] [H2 _] ->]; unfold idle in *; try congruence.
    rewrite !length_app. lia.
Qed.

(** What is received and sent in all. *)
Lemma server_bounds w i o : server_at w i o -> (length i <= 3073 /\ length o <= 3073)%nat.
Proof.
  destruct 1 as [m [] ? ->|m p [] ? _ _ ->|m p s1 [] ? ? [H1 _] [[H2 _] _] ->|m l s1 s2 x y [] ? -> Hx Hy [H1 _] [[H2 _] _] ->
    |s1 s2 x y ? -> Hx Hy [H1 _] [[H2 _] _] ->]; rewrite ?length_app, ?length_take; cbn; lia.
Qed.

Lemma client_bounds w i o : client_at w i o -> (length i <= 3073 /\ length o <= 3073)%nat.
Proof.
  destruct 1 as [m p [] ? -> ->|m [] ? [ep []]|m l x y [] ? -> Hx Hy [ep []]|m p c1 x y [] ? -> Hx Hy [ep []] [H2 _] ->
    |c1 c2 x y ? -> Hx Hy [ep []] [H2 _] ->]; rewrite ?length_app, ?length_take; cbn; lia.
Qed.

(* ------------------------------------------------------------------ *)
(** ** Starting *)

Definition new_session (ep : Z) : session := Session None None false 0 ep 0 idle idle false false false.

(** A new session in a process with the free buffers [f], at the [k]-th call of
    [rand]; the socket has room for [ts], and nothing to give yet. *)
Definition connected (ep : Z) (f : list ngx_buf_t) (k : nat) (ts : list nat) : world :=
  World (new_session ep) f k [] (map Accept ts) [].

Lemma hs_alloc_spec w : Forall full_size (free_hs w) ->
  exists m f, ngx_rtmp_alloc_handshake_buffer w = Some (Buf m 0 0, set_free f w) /\ length m = 1537%nat /\ Forall full_size f.
Proof.
  intros Hf. unfold ngx_rtmp_alloc_handshake_buffer. rewrite do_gets. destruct w as [s [|[m p l] f] k j t o]; cbn in *.
  - exists (replicate 1537 0), []. split; [reflexivity|]. split; [apply length_replicate|done].
  - apply Forall_cons in Hf as [Hb Hf]. exists m, f. split; [reflexivity|]. now split.
Qed.

Lemma server_starts ep f k ts : Forall full_size f -> Forall (fun n => 0 < n)%nat ts ->
  exists w, ngx_rtmp_handshake HMAC_SHA256 rand true (connected ep f k ts) = Some (tt, w) /\
    running w /\ server_at w [] (out w) /\ resting w.
Proof.
  intros Hf Hts. destruct (hs_alloc_spec (connected ep f k ts) Hf) as (m & f' & E & Hm & Hf').
  unfold ngx_rtmp_handshake. rewrite (do_step _ _ _ _ _ E), do_set_buf, do_upd. set (w := set_sess _ _).
  assert (running w) as Hrun by (split; cbn; eauto; now exists []).
  assert (receiving w 1 m 0 0) as Hrc by (split; cbn; first [done | lia]).
  destruct (server_1 0 w [] [] m Hrun Hrc) as (w' & x & y & E' & Hrun' & Hp & Ho & Hat & Hrest); try done; [cbn; lia|].
  exists w'. split; [exact E'|]. split; [done|]. split; [|done]. rewrite Ho.
  change (out w) with (@nil Z). cbn [Datatypes.app] in *. change (pending (ins w)) with (@nil Z) in Hp. rewrite take_nil in *.
  cbn [Datatypes.app] in *. symmetry in Hp. apply app_nil in Hp as [-> _]. exact Hat.
Qed.

Lemma client_starts ep f k ts async : Forall full_size f -> Forall (fun n => 0 < n)%nat ts ->
  exists w, ngx_rtmp_client_handshake HMAC_SHA256 rand true async (connected ep f k ts) = Some (tt, w) /\
    running w /\ client_at w [] (out w) /\ resting w.
Proof.
  intros Hf Hts. destruct (hs_alloc_spec (connected ep f k ts) Hf) as (m & f' & E & Hm & Hf').
  unfold ngx_rtmp_client_handshake. rewrite (do_step _ _ _ _ _ E), do_set_buf, do_upd. set (w := set_sess _ _).
  destruct (create_challenge_spec ngx_rtmp_client_version ngx_rtmp_client_partial_key w (Buf m 0 0)) as (n & x & E2 & Hch); [done..|].
  rewrite (do_step _ _ _ _ _ E2). set (w1 := with_buf _ _).
  assert (running w1) as Hrun by (split; cbn; eauto; now exists []).
  pose proof (ch_length _ _ _ _ _ Hch) as Hx.
  assert (sending w1 6 x 0) as Hsn by (split; cbn; first [done | lia]).
  destruct async.
  - eexists. split; [reflexivity|]. split; [|split].
    + destruct Hrun. now split.
    + apply (client_send_challenge _ _ _ x 0); try done; [|now exists ep]. split; try done. lia.
    + apply (rest_send _ (Buf x 0 1537)); cbn; first [done | lia].
  - destruct (client_6 0 w1 [] [] x 0 Hrun Hsn) as (y0 & _ & (w' & z & y & E' & Hrun' & Hp & Ho & Hat & Hrest)); try done.
    { now exists ep. }
    { change (pending (ins w1)) with (@nil Z). cbn. lia. }
    exists w'. split; [exact E'|]. split; [done|]. split; [|done]. rewrite Ho.
    change (out w1) with (@nil Z). cbn [Datatypes.app] in *. change (pending (ins w1)) with (@nil Z) in Hp.
    symmetry in Hp. apply app_nil in Hp as [-> _]. exact Hat.
Qed.

(* ------------------------------------------------------------------ *)
(** ** Events *)

(** An event of a connection whose peer has sent [q] that is not received yet:
    the handler that is registered for it is called, the socket gives pieces of
    [q] and takes some bytes; at least one byte can be moved.  What is left of
    [q] is [q'], and [y] is sent. *)
Inductive event_step (w : world) (q : list Z) (w' : world) (q' y : list Z) : Prop :=
| read_event xs ts rest :
    active (read (sess w)) = true -> xs <> [] -> Forall (fun x => x <> []) xs -> Forall (fun n => 0 < n)%nat ts ->
    q = concat xs ++ rest ->
    ngx_rtmp_handshake_recv HMAC_SHA256 rand true (with_io xs ts w) = Some (tt, w') ->
    q' = pending (ins w') ++ rest -> y = out w' -> event_step w q w' q' y
| write_event xs ts rest :
    active (write (sess w)) = true -> ts <> [] -> Forall (fun x => x <> []) xs -> Forall (fun n => 0 < n)%nat ts ->
    q = concat xs ++ rest ->
    ngx_rtmp_handshake_send HMAC_SHA256 rand true (with_io xs ts w) = Some (tt, w') ->
    q' = pending (ins w') ++ rest -> y = out w' -> event_step w q w' q' y.

(** What an event does, in terms of the bytes moved. *)
Definition moves (at_ : world -> list Z -> list Z -> Prop) (w : world) (i o q : list Z) (w' : world) (q' y : list Z) : Prop :=
  exists x, q = x ++ q' /\ (0 < length x + length y)%nat /\ running w' /\ at_ w' (i ++ x) (o ++ y) /\ resting w'.

Lemma greets_prefix x y : greets (x ++ y) -> greets x.
Proof. intros Hg Hl. destruct x as [|v x]; [cbn in Hl; lia|]. apply Hg. rewrite length_app. lia. Qed.

Lemma concat_some (xs : list (list Z)) : xs <> [] -> Forall (fun x => x <> []) xs -> concat xs <> [].
Proof. intros Hn Hf. destruct xs as [|x l]; [done|]. apply Forall_cons in Hf as [Hx _]. cbn. now destruct x. Qed.

(** The two sides have the same shape. *)
Class Role (at_ : world -> list Z -> list Z -> Prop) : Prop := {
  role_io xs ts w i o : at_ w i o -> at_ (with_io xs ts w) i o;
  role_read w i o : running w -> at_ w i o -> resting w -> active (read (sess w)) = true -> greets (i ++ pending (ins w)) ->
    exists x0, (pending (ins w) <> [] -> x0 <> []) /\ settles at_ (ngx_rtmp_handshake_recv HMAC_SHA256 rand true) w i o x0 [];
  role_write w i o : running w -> at_ w i o -> resting w -> active (write (sess w)) = true -> takes w <> [] ->
    greets (i ++ pending (ins w)) ->
    exists y0, y0 <> [] /\ settles at_ (ngx_rtmp_handshake_send HMAC_SHA256 rand true) w i o [] y0;
  role_bounds w i o : at_ w i o -> (length i <= 3073 /\ length o <= 3073)%nat
}.
#[export] Instance server_role : Role server_at.
Proof.
  split; [exact server_io|exact server_read| |exact server_bounds].
  intros w i o H1 H2 H3 H4 H5 _. now apply server_write.
Qed.
#[export] Instance client_role : Role client_at.
Proof. split; [exact client_io|exact client_read|exact client_write|exact client_bounds]. Qed.

Section OneSide.
Context {at_ : world -> list Z -> list Z -> Prop} `{Role at_}.

Lemma resting_io xs ts w : resting w -> resting (with_io xs ts w).
Proof. destruct 1; [eapply rest_recv|eapply rest_send|eapply rest_done]; eassumption. Qed.

Lemma event_moves w i o q w' q' y : running w -> at_ w i o -> resting w -> greets (i ++ q) -> event_step w q w' q' y ->
  moves at_ w i o q w' q' y.
Proof.
  intros Hrun Hat Hrest Hg Hev.
  destruct Hev as [xs ts rest Ha Hne Hx Ht -> E -> ->|xs ts rest Ha Hne Hx Ht -> E -> ->]; rewrite app_assoc in Hg;
    apply greets_prefix in Hg; rewrite <- pending_data in Hg.
  - destruct (role_read (with_io xs ts w) i o) as (x0 & Hx0 & (w1 & x & z & E1 & Hrun1 & Hp & Ho & Hat1 & Hr1));
      [now apply running_io|now apply role_io|now apply resting_io|done|done|].
    rewrite E in E1. injection E1 as <-. exists (x0 ++ x). change (ins (with_io xs ts w)) with (map Data xs) in *.
    rewrite pending_data in *. change (out (with_io xs ts w)) with (@nil Z) in Ho. cbn [Datatypes.app] in *.
    split; [now rewrite Hp, <- !app_assoc|]. split; [|now rewrite Ho].
    specialize (Hx0 (concat_some xs Hne Hx)). rewrite length_app. destruct x0; [done|cbn; lia].
  - destruct (role_write (with_io xs ts w) i o) as (y0 & Hy0 & (w1 & x & z & E1 & Hrun1 & Hp & Ho & Hat1 & Hr1));
      [now apply running_io|now apply role_io|now apply resting_io|done|now destruct ts|done|].
    rewrite E in E1. injection E1 as <-. exists x. change (ins (with_io xs ts w)) with (map Data xs) in *.
    rewrite pending_data in *. change (out (with_io xs ts w)) with (@nil Z) in Ho. cbn [Datatypes.app] in *.
    split; [now rewrite Hp, <- !app_assoc|]. split; [|now rewrite Ho].
    rewrite Ho, length_app. destruct y0; [done|cbn; lia].
Qed.

(** An event that can come. *)
Lemma event_exists w i o q : running w -> at_ w i o -> resting w -> greets (i ++ q) ->
  active (write (sess w)) = true \/ active (read (sess w)) = true /\ q <> [] ->
  exists w' q' y, event_step w q w' q' y.
Proof.
  intros Hrun Hat Hrest Hg [Ha|[Ha Hq]].
  - destruct (role_write (with_io [] [1%nat] w) i o) as (y0 & _ & (w1 & x & z & E1 & _));
      [apply running_io; [done|constructor|constructor; [lia|constructor]]|now apply role_io|now apply resting_io|done|done| |].
    { change (pending (ins (with_io [] [1%nat] w))) with (@nil Z). rewrite app_nil_r. exact (greets_prefix _ _ Hg). }
    eexists _, _, _. apply (write_event w q w1 _ _ [] [1%nat] q); try done. constructor; [lia|constructor].
  - destruct (role_read (with_io [q] [] w) i o) as (x0 & _ & (w1 & x & z & E1 & _));
      [apply running_io; [done|now constructor|constructor]|now apply role_io|now apply resting_io|done| |].
    { cbn. rewrite app_nil_r. exact Hg. }
    eexists _, _, _. apply (read_event w q w1 _ _ [q] [] []); try done; [now constructor|cbn; now rewrite !app_nil_r].
Qed.
End OneSide.

(** Both sides greet, the server in the old style with what it got. *)
Lemma head_app {A} (x y : list A) v : head x = Some v -> head (x ++ y) = Some v.
Proof. now destruct x. Qed.

Lemma challenge_greets x s1 : length x = 1537%nat -> greets x -> server_challenge x s1 -> head s1 = Some 3.
Proof.
  intros Hx Hg [_ Hc]. destruct (reads _ _); [now destruct Hc as [ep []]|]. subst s1. apply Hg. lia.
Qed.

Lemma server_greets w i o : server_at w i o -> greets i -> greets o.
Proof.
  intros Hat Hg Hl. destruct Hat as [m ? ? ->|m p [] Hi Hc _ ->|m p s1 ? ? Hi Hc _ ->|m l s1 s2 x y ? ? -> Hx Hy Hc _ ->
    |s1 s2 x y ? -> Hx Hy Hc _ ->].
  - cbn in Hl. lia.
  - rewrite length_take in Hl. rewrite take_ge by lia. exact (challenge_greets _ _ Hi Hg Hc).
  - apply head_app. exact (challenge_greets _ _ Hi Hg Hc).
  - apply head_app. exact (challenge_greets _ _ Hx (greets_prefix _ _ Hg) Hc).
  - apply head_app. exact (challenge_greets _ _ Hx (greets_prefix _ _ Hg) Hc).
Qed.

Lemma client_greets w i o : client_at w i o -> greets o.
Proof.
  intros Hat Hl. destruct Hat as [m p [] [ep []] ? ->|m ? ? [ep []]|m l x y ? ? ? ? ? [ep []]|m p c1 x y ? ? ? ? ? [ep []] ? ->
    |c1 c2 x y ? ? ? ? [ep []] ? ->]; try done; try now apply head_app.
  rewrite length_take in Hl. now rewrite take_ge by lia.
Qed.

End Side.

(* ------------------------------------------------------------------ *)
(** ** A client and a server *)

Section Network.
Context (HMAC_SHA256 : list Z -> list Z -> list Z) (rand_s rand_c : nat -> Z).
Hypothesis hmac_length : forall k x, length (HMAC_SHA256 k x) = 32%nat.

#[local] Instance srv_role : Role HMAC_SHA256 rand_s (server_at HMAC_SHA256) := server_role _ _ hmac_length.
#[local] Instance cli_role : Role HMAC_SHA256 rand_c (client_at HMAC_SHA256) := client_role _ _ hmac_length.

(** Two connected sessions, the bytes on the way to each, and all the bytes each
    has sent. *)
Record network := Network {
  srv : world; cli : world;
  to_srv : list Z; to_cli : list Z;
  from_srv : list Z; from_cli : list Z
}.

(** One event at one of them. *)
Inductive step : network -> network -> Prop :=
| server_event n w q y : event_step HMAC_SHA256 rand_s (srv n) (to_srv n) w q y ->
    step n (Network w (cli n) q (to_cli n ++ y) (from_srv n ++ y) (from_cli n))
| client_event n w q y : event_step HMAC_SHA256 rand_c (cli n) (to_cli n) w q y ->
    step n (Network (srv n) w (to_srv n ++ y) q (from_srv n) (from_cli n ++ y)).

(** The server has received [i] and the client [j]. *)
Record linked (n : network) (i j : list Z) : Prop := {
  ln_srv : running (srv n) /\ server_at HMAC_SHA256 (srv n) i (from_srv n) /\ resting (srv n);
  ln_cli : running (cli n) /\ client_at HMAC_SHA256 (cli n) j (from_cli n) /\ resting (cli n);
  ln_to_srv : i ++ to_srv n = from_cli n;
  ln_to_cli : j ++ to_cli n = from_srv n
}.

Lemma linked_greets n i j : linked n i j -> greets (i ++ to_srv n) /\ greets (j ++ to_cli n).
Proof.
  intros [(_ & Hs & _) (_ & Hc & _) E1 E2]. rewrite E1, E2. pose proof (client_greets _ _ _ _ Hc) as Hg. split; [done|].
  apply (server_greets _ _ _ _ Hs). rewrite <- E1 in Hg. exact (greets_prefix _ _ Hg).
Qed.

(** What has been moved. *)
Definition moved (n : network) (i j : list Z) : nat := length i + length j + length (from_srv n) + length (from_cli n).

Lemma step_linked n n' i j : linked n i j -> step n n' -> exists i' j', linked n' i' j' /\ (moved n i j < moved n' i' j')%nat.
Proof.
  intros Hl Hstep. destruct (linked_greets n i j Hl) as [Hg1 Hg2].
  destruct Hl as [(S1 & S2 & S3) (C1 & C2 & C3) E1 E2]. destruct Hstep as [n w q y Hev|n w q y Hev].
  - destruct (event_moves HMAC_SHA256 rand_s (at_ := server_at HMAC_SHA256) _ _ _ _ _ _ _ S1 S2 S3 Hg1 Hev)
      as (x & Hq & Hxy & Hrun & Hat & Hrest).
    exists (i ++ x), j. split.
    + split; cbn; [done..| |now rewrite app_assoc, E2]. now rewrite <- app_assoc, <- Hq.
    + unfold moved. cbn. rewrite !length_app. lia.
  - destruct (event_moves HMAC_SHA256 rand_c (at_ := client_at HMAC_SHA256) _ _ _ _ _ _ _ C1 C2 C3 Hg2 Hev)
      as (x & Hq & Hxy & Hrun & Hat & Hrest).
    exists i, (j ++ x). split.
    + split; cbn; [done..|now rewrite app_assoc, E1|]. now rewrite <- app_assoc, <- Hq.
    + unfold moved. cbn. rewrite !length_app. lia.
Qed.

Lemma moved_bound n i j : linked n i j -> (moved n i j <= 4 * 3073)%nat.
Proof.
  intros [(_ & Hs & _) (_ & Hc & _) _ _]. apply server_bounds in Hs. apply client_bounds in Hc. unfold moved. lia.
Qed.

Lemma steps_linked k n n' i j : linked n i j -> nsteps step k n n' ->
  exists i' j', linked n' i' j' /\ (moved n i j + k <= moved n' i' j')%nat.
Proof.
  intros Hl Hk. revert i j Hl. induction Hk as [n|k n n1 n2 Hs Hk IH]; intros i j Hl; [exists i, j; split; [done|lia]|].
  destruct (step_linked _ _ _ _ Hl Hs) as (i1 & j1 & Hl1 & H1). destruct (IH _ _ Hl1) as (i2 & j2 & Hl2 & H2).
  exists i2, j2. split; [done|lia].
Qed.

(** Both sides are done: each has sent a challenge and a response that proves
    that it has read the digest in the challenge of the other; no byte is left. *)
Record completed (n : network) : Prop := {
  co_srv : cycling (sess (srv n)) = true;
  co_cli : cycling (sess (cli n)) = true;
  co_empty : to_srv n = [] /\ to_cli n = [];
  co_sent : exists ep_s ep_c s1 s2 c1 c2, from_srv n = s1 ++ s2 /\ from_cli n = c1 ++ c2 /\
    challenge HMAC_SHA256 ngx_rtmp_server_version ngx_rtmp_server_partial_key ep_s s1 /\
    challenge HMAC_SHA256 ngx_rtmp_client_version ngx_rtmp_client_partial_key ep_c c1 /\
    length s2 = 1536%nat /\ length c2 = 1536%nat /\
    answers HMAC_SHA256 ngx_rtmp_client_partial_key ngx_rtmp_server_full_key (drop 1 c1) s2 /\
    answers HMAC_SHA256 ngx_rtmp_server_partial_key ngx_rtmp_client_full_key (drop 1 s1) c2
}.

Lemma all_received (i q o : list Z) : i ++ q = o -> length i = 3073%nat -> length o = 3073%nat -> q = [] /\ i = o.
Proof.
  intros <- Hi Ho. rewrite length_app in Ho. assert (q = []) as -> by (apply length_zero_iff_nil; lia). now rewrite app_nil_r.
Qed.

Lemma done_completed n i j : linked n i j -> cycling (sess (srv n)) = true -> cycling (sess (cli n)) = true -> completed n.
Proof.
  intros [(_ & Hs & Rs) (_ & Hc & Rc) E1 E2] Ds Dc.
  destruct Hs as [m []|m p []|m p s1 []|m l s1 s2 x y []|s1 s2 x y _ Hi Hx Hy H1 H2 Ho]; try congruence.
  destruct Hc as [m p []|m []|m l x' y' []|m p c1 x' y' []|c1 c2 x' y' _ Hj Hx' Hy' H3 H4 Ho']; try congruence.
  destruct H3 as [ep_c H3]. pose proof (ch_length _ _ _ _ _ H3) as Hc1. destruct H1 as [Hs1 H1]. destruct H2 as [[Hs2 H2] _].
  destruct H4 as [Hc2 H4].
  assert (length i = 3073 /\ length j = 3073 /\ length (from_srv n) = 3073 /\ length (from_cli n) = 3073)%nat as (L1 & L2 & L3 & L4)
    by (rewrite Hi, Hj, Ho, Ho', !length_app; lia).
  destruct (all_received _ _ _ E1 L1 L4) as [T1 I1]. destruct (all_received _ _ _ E2 L2 L3) as [T2 I2].
  rewrite Hi, Ho' in I1. apply app_inj_1 in I1 as [-> _]; [|lia]. rewrite Hj, Ho in I2. apply app_inj_1 in I2 as [-> _]; [|lia].
  assert (ngx_rtmp_client_version <> [0; 0; 0; 0] /\ ngx_rtmp_server_version <> [0; 0; 0; 0]) as [Vc Vs] by now split.
  destruct (challenge_read _ _ _ _ _ Vc H3) as [offs Hr]. rewrite Hr in *. destruct H1 as [ep_s H1].
  split; [done|done|done|]. exists ep_s, ep_c, s1, s2, c1, c2. do 6 (split; [done|]). split; [now apply H2|].
  apply H4. exact (challenge_read _ _ _ _ _ Vs H1).
Qed.

(** Somebody can go on. *)
Lemma linked_progress n i j : linked n i j -> (exists n', step n n') \/ completed n.
Proof.
  intros Hl. destruct (linked_greets n i j Hl) as [Hg1 Hg2].
  pose proof Hl as [(S1 & S2 & S3) (C1 & C2 & C3) E1 E2].
  assert (active (write (sess (srv n))) = true \/ active (read (sess (srv n))) = true /\ to_srv n <> [] ->
    exists n', step n n') as Hsrv.
  { intros Ha. destruct (event_exists HMAC_SHA256 rand_s (at_ := server_at HMAC_SHA256) _ _ _ _ S1 S2 S3 Hg1 Ha) as (w & q & y & Hev).
    eexists. eapply server_event. exact Hev. }
  assert (active (write (sess (cli n))) = true \/ active (read (sess (cli n))) = true /\ to_cli n <> [] ->
    exists n', step n n') as Hcli.
  { intros Ha. destruct (event_exists HMAC_SHA256 rand_c (at_ := client_at HMAC_SHA256) _ _ _ _ C1 C2 C3 Hg2 Ha) as (w & q & y & Hev).
    eexists. eapply client_event. exact Hev. }
  assert (forall (x q o : list Z), x ++ q = o -> (length x < length o)%nat -> q <> []) as Hmore.
  { intros x q o <- Hlt ->. rewrite app_nil_r in Hlt. lia. }
  apply (f_equal length) in E1 as L1. apply (f_equal length) in E2 as L2. rewrite length_app in L1, L2.
  destruct (server_waits _ _ _ _ S2 S3) as [Ws|[(Ws & Hs)|(Ws & Hi & Ho)]]; [left; auto| |];
    (destruct (client_waits _ _ _ _ C2 C3) as [Wc|[(Wc & Hj & Hc)|(Wc & Hj & Hc)]]; [left; auto| |]).
  - left. destruct Hs as [[Hi Ho]|[Hi Ho]].
    + apply Hsrv. right. split; [done|]. eapply Hmore; [exact E1|lia].
    + apply Hcli. right. split; [done|]. eapply Hmore; [exact E2|lia].
  - left. apply Hsrv. right. split; [done|]. eapply Hmore; [exact E1|]. destruct Hs as [[Hi _]|[Hi _]]; lia.
  - left. apply Hcli. right. split; [done|]. eapply Hmore; [exact E2|lia].
  - right. exact (done_completed n i j Hl Ws Wc).
Qed.

(** C7: the handshake completes.  A client and a server of this code, each with
    the random numbers, the epoch and the free buffers it has, are connected by
    two streams of bytes; no socket fails and no timer fires.  Whatever pieces
    the bytes arrive in, however few of them a socket takes at a time, and in
    whatever order the events of the two sides come, at most 4 * 3073 events come,
    and as long as not both sides are done there is one that can come.  In the
    end each side has proved to the other that it knows the key and has read the
    digest in its challenge. *)
Theorem handshake_completes ep_s ep_c fs fc ks kc ts tc async :
  Forall full_size fs -> Forall full_size fc -> Forall (fun n => 0 < n)%nat ts -> Forall (fun n => 0 < n)%nat tc ->
  exists s c,
    ngx_rtmp_handshake HMAC_SHA256 rand_s true (connected ep_s fs ks ts) = Some (tt, s) /\
    ngx_rtmp_client_handshake HMAC_SHA256 rand_c true async (connected ep_c fc kc tc) = Some (tt, c) /\
    forall k n, nsteps step k (Network s c (out c) (out s) (out s) (out c)) n ->
      (k <= 4 * 3073)%nat /\ ((exists n', step n n') \/ completed n).
Proof.
  intros Hfs Hfc Hts Htc. destruct (server_starts HMAC_SHA256 rand_s hmac_length ep_s fs ks ts Hfs Hts) as (s & Es & Ss).
  destruct (client_starts HMAC_SHA256 rand_c hmac_length ep_c fc kc tc async Hfc Htc) as (c & Ec & Sc).
  exists s, c. do 2 (split; [done|]). intros k n Hk.
  assert (linked (Network s c (out c) (out s) (out s) (out c)) [] []) as Hl0 by (split; done).
  destruct (steps_linked k _ n [] [] Hl0 Hk) as (i & j & Hl & Hm).
  pose proof (moved_bound _ _ _ Hl). split; [lia|]. exact (linked_progress n i j Hl).
Qed.

End Network.
(* ------------------------------------------------------------------ *)
(** ** A server and any client *)

Section Serving.
Context (HMAC_SHA256 : list Z -> list Z -> list Z) (rand : nat -> Z).
Hypothesis hmac_length : forall k x, length (HMAC_SHA256 k x) = 32%nat.

#[local] Instance any_srv_role : Role HMAC_SHA256 rand (server_at HMAC_SHA256) := server_role _ _ hmac_length.

(** A server, the bytes of its client that are still to come, and all it has
    sent. *)
Inductive serve : world * list Z * list Z -> world * list Z * list Z -> Prop :=
| serve_event w q o w' q' y : event_step HMAC_SHA256 rand w q w' q' y -> serve (w, q, o) (w', q', o ++ y).

Lemma serve_steps k x x' : nsteps serve k x x' -> forall w q o i, x = (w, q, o) -> greets (i ++ q) ->
  running w -> server_at HMAC_SHA256 w i o -> resting w ->
  exists w' q' o' z, x' = (w', q', o') /\ q = z ++ q' /\ running w' /\ server_at HMAC_SHA256 w' (i ++ z) o' /\ resting w' /\
    (length i + length o + k <= length (i ++ z) + length o')%nat.
Proof.
  induction 1 as [x|k x x1 x2 Hs Hk IH]; intros w q o i -> Hg Hrun Hat Hrest.
  - exists w, q, o, []. rewrite app_nil_r. cbn. auto 10 with lia.
  - inversion Hs as [? ? ? w1 q1 y Hev]; subst.
    destruct (event_moves HMAC_SHA256 rand (at_ := server_at HMAC_SHA256) _ _ _ _ _ _ _ Hrun Hat Hrest Hg Hev)
      as (x & -> & Hxy & Hrun1 & Hat1 & Hrest1).
    rewrite app_assoc in Hg. destruct (IH _ _ _ _ eq_refl Hg Hrun1 Hat1 Hrest1) as (w' & q' & o' & z & -> & -> & H1 & H2 & H3 & H4).
    exists w', q', o', (x ++ z). rewrite !app_assoc in *. split; [done|]. split; [done|]. do 3 (split; [done|]).
    rewrite !length_app in *. lia.
Qed.

(** C8: the server and any client that sends the bytes [q], of which the first
    has the version of the protocol: whatever pieces they arrive in, at most
    2 * 3073 events come, and unless one can come, the server waits for bytes of
    its client, under a timer, or it is done.  Then it has taken 3073 bytes and
    left the others to the receiving of chunks, and has sent a challenge and a
    response.  If the challenge of the client has a digest, the challenge of the
    server has one too and the response proves that it was read; if it has not,
    both repeat what the client has sent. *)
Theorem handshake_served ep f j ts q :
  Forall full_size f -> Forall (fun n => 0 < n)%nat ts -> greets q ->
  exists w, ngx_rtmp_handshake HMAC_SHA256 rand true (connected ep f j ts) = Some (tt, w) /\
    forall k w' q' o, nsteps serve k (w, q, out w) (w', q', o) ->
      (k <= 2 * 3073)%nat /\ exists i, q = i ++ q' /\
        ((exists x, serve (w', q', o) x) \/
         (q' = [] /\ (length i < 3073)%nat /\ read (sess w') = Event true true false) \/
         (cycling (sess w') = true /\ length i = 3073%nat /\ exists s1 s2, o = s1 ++ s2 /\
            server_challenge HMAC_SHA256 (take 1537 q) s1 /\ server_response HMAC_SHA256 (take 1537 q) s2)).
Proof.
  intros Hf Hts Hg. destruct (server_starts HMAC_SHA256 rand hmac_length ep f j ts Hf Hts) as (w & E & Hrun & Hat & Hrest).
  exists w. split; [done|]. intros k w' q' o Hk.
  destruct (serve_steps k _ _ Hk w q (out w) [] eq_refl Hg Hrun Hat Hrest)
    as (w1 & q1 & o1 & i & [= <- <- <-] & Hq & Hrun1 & Hat1 & Hrest1 & Hm). cbn [Datatypes.app] in *.
  pose proof (server_bounds _ _ _ _ Hat1) as Hb. split; [cbn in Hm; lia|]. exists i. split; [done|].
  rewrite Hq in Hg.
  assert (active (write (sess w')) = true \/ active (read (sess w')) = true /\ q' <> [] -> exists x, serve (w', q', o) x) as Hgo.
  { intros Ha. destruct (event_exists HMAC_SHA256 rand (at_ := server_at HMAC_SHA256) _ _ _ _ Hrun1 Hat1 Hrest1 Hg Ha)
      as (w2 & q2 & y & Hev). eexists. apply serve_event. exact Hev. }
  destruct (server_waits _ _ _ _ Hat1 Hrest1) as [Ha|[[Ha Hl]|(Hc & Hi & Ho)]]; [auto| |].
  - destruct q' as [|v q']; [|left; apply Hgo; right; done]. right; left. split; [done|]. split.
    + destruct Hl as [[? _]|[? _]]; lia.
    + destruct Hrest1 as [b _ _ Hr _ _|b _ _ _ Hr _|_ Hr _ _]; [done| |]; now rewrite Hr in Ha.
  - right; right. split; [done|]. split; [done|].
    destruct Hat1 as [m []|m p []|m p s1 []|m l s1 s2 x y []|s1 s2 x y _ -> Hx Hy H1 H2 ->]; try congruence.
    exists s1, s2. split; [done|]. rewrite Hq, <- app_assoc, take_app_length' by done. done.
Qed.

End Serving.

(* ------------------------------------------------------------------ *)
(** ** Concrete runs *)

(** Some function with results of 32 bytes. *)
Definition some_hash (k x : list Z) : list Z := replicate 32 (u8 (foldl (fun a b => a * 31 + b) 7 (k ++ x))).
Lemma some_hash_length k x : length (some_hash k x) = 32%nat.
Proof. apply length_replicate. Qed.

Lemma handshake_completes_witness :
  exists s c,
    ngx_rtmp_handshake some_hash Z.of_nat true (connected 1 [] 0 []) = Some (tt, s) /\
    ngx_rtmp_client_handshake some_hash Z.of_nat true true (connected 2 [] 5 [1000%nat]) = Some (tt, c) /\
    forall k n, nsteps (step some_hash Z.of_nat Z.of_nat) k (Network s c (out c) (out s) (out s) (out c)) n ->
      (k <= 4 * 3073)%nat /\ ((exists n', step some_hash Z.of_nat Z.of_nat n n') \/ completed some_hash n).
Proof.
  apply (handshake_completes some_hash Z.of_nat Z.of_nat some_hash_length 1 2 [] [] 0 5 [] [1000%nat] true);
    [constructor|constructor|constructor|constructor; [lia|constructor]].
Defined.

(** A client that sends the version 3 and zeros: the old style. *)
Definition old_client : list Z := 3 :: replicate 3072 0.
Lemma handshake_served_witness :
  exists w, ngx_rtmp_handshake some_hash Z.of_nat true (connected 1 [] 0 []) = Some (tt, w) /\
    forall k w' q' o, nsteps (serve some_hash Z.of_nat) k (w, old_client, out w) (w', q', o) ->
      (k <= 2 * 3073)%nat /\ exists i, old_client = i ++ q' /\
        ((exists x, serve some_hash Z.of_nat (w', q', o) x) \/
         (q' = [] /\ (length i < 3073)%nat /\ read (sess w') = Event true true false) \/
         (cycling (sess w') = true /\ length i = 3073%nat /\ exists s1 s2, o = s1 ++ s2 /\
            server_challenge some_hash (take 1537 old_client) s1 /\ server_response some_hash (take 1537 old_client) s2)).
Proof.
  apply (handshake_served some_hash Z.of_nat some_hash_length 1 [] 0 [] old_client); [constructor|constructor|].
  intros _. reflexivity.
Defined.

(** One call of the server with the pieces [xs] of its client and room for all it
    sends: how much it sends, and how it stands. *)
Definition served (xs : list (list Z)) : option (list Z * Z * bool * bool) :=
  '(_, w) ← ngx_rtmp_handshake some_hash Z.of_nat true
    (World (new_session 1) [] 0 (map Data xs) [Accept 4096; Accept 4096] []);
  Some (out w, hs_stage (sess w), cycling (sess w), destroyed (sess w)).

(** A client and a server that get and take all at once: the client sends, the
    server answers, the client ends, the server ends. *)
Definition call (m : H unit) (x : list Z) (w : world) : option world :=
  snd <$> m (World (sess w) (free_hs w) (seed w) [Data x] [Accept 4096; Accept 4096] []).
Definition meeting : option (world * world) :=
  s ← snd <$> ngx_rtmp_handshake some_hash Z.of_nat true (connected 1 [] 0 []);
  c ← snd <$> ngx_rtmp_client_handshake some_hash Z.of_nat true false (connected 2 [] 5 [4096%nat]);
  s ← call (ngx_rtmp_handshake_recv some_hash Z.of_nat true) (out c) s;
  c ← call (ngx_rtmp_handshake_recv some_hash Z.of_nat true) (out s) c;
  s ← call (ngx_rtmp_handshake_recv some_hash Z.of_nat true) (out c) s;
  Some (s, c).
Example meeting_done :
  (fun x => (cycling (sess x.1), cycling (sess x.2), hs_old (sess x.1) || hs_old (sess x.2), length (free_hs x.1))) <$> meeting =
  Some (true, true, false, 1%nat).
Proof. vm_compute. reflexivity. Qed.

(** A timer that fires ends the session. *)
Lemma stalled_peer HMAC_SHA256 rand ok w : destroyed (sess w) = false -> timedout (read (sess w)) = true ->
  ngx_rtmp_handshake_recv HMAC_SHA256 rand ok w = Some (tt, set_sess (set_destroyed (set_timedout (sess w))) w).
Proof.
  intros Hd Ht. unfold ngx_rtmp_handshake_recv, depth. cbn [handle].
  rewrite (do_step _ _ w Return (set_sess (set_destroyed (set_timedout (sess w))) w)); [done|].
  unfold recv_some. now rewrite do_gets, Hd, Ht.
Qed.

(** The old style: the challenge comes back. *)
Example old_style_echoed :
  served [old_client] = Some (take 1537 old_client ++ take 1536 (drop 1 old_client), 5, true, false).
Proof. vm_compute. reflexivity. Qed.

(** Another version of the protocol ends the session, without an answer. *)
Example version_refused : served [[6]; replicate 1536 0] = Some ([], 2, false, true).
Proof. vm_compute. reflexivity. Qed.

End Greeting.
