(* ===== verification/Cmd.v ===== *)
(** * Commands (src/src/rtmp/ngx_rtmp_cmd_module.c)

    The commands of a client: their arguments, read from AMF into arrays of fixed
    size, the choice of server and application, and the answers.  The module calls
    the other modules through pointers to functions ([ngx_rtmp_connect] and the like)
    and is itself at the end of their chains; these pointers are parameters here.
    [None] is an access outside of an array or a conversion C leaves open.

    All servers share one pool and one configuration of chunks, [cscf]. *)

From Stdlib Require Import ZArith Lia.
From stdpp Require Import base numbers list strings gmap.
From S2P Require Import Prelude Text Buf Double Chunk Shared Queue Amf Receive Send AmfSend Meta Live.

Module Cmd.

Import Text.
Import Shared.
Import Live.
Import Meta(number, text).

Definition NGX_RTMP_MAX_NAME : nat := 256.
Definition NGX_RTMP_MAX_URL : nat := 256.
Definition NGX_RTMP_MAX_ARGS : nat := NGX_RTMP_MAX_NAME.
Definition NGX_RTMP_FMS_VERSION : list Z := str "FMS/3,0,1,123".
Definition NGX_RTMP_CAPABILITIES : Z := 31.
Definition NGX_RTMP_RELAY_NAME : list Z := str "ngx-relay".
Definition NGX_RTMP_CSID_AMF_INI : Z := 3.
Definition NGX_RTMP_LIMIT_DYNAMIC : Z := 2.
Definition NGX_RTMP_AUTH_DONE : Z := Chunk.NGX_RTMP_MSG_MAX + 4.
Definition NGX_RTMP_AV_SENT : Z := Chunk.NGX_RTMP_MSG_MAX + 5.

(* ------------------------------------------------------------------ *)
(** ** Arguments *)

(** The arrays are whole, doubles are their bits; [ngx_rtmp_receive_amf] writes a
    double into [relay_type], an integer, too. *)
Record ngx_rtmp_connect_t := Connect {
  v_trans : Z;
  v_app : list Z;
  v_args : list Z;
  v_flashver : list Z;
  v_swf_url : list Z;
  v_tc_url : list Z;
  v_acodecs : Z;
  v_vcodecs : Z;
  v_page_url : list Z;
  v_object_encoding : Z;
  v_relay_type : Z
}.

(** [ngx_strchr]. *)
Definition c_chr (l : list Z) (c : Z) : option nat := ngx_strlchr (cstr l) c.

(** [ngx_strstr]: where the first copy of [x] begins. *)
Fixpoint c_str_at (l x : list Z) : option nat :=
  if bool_decide (take (length x) l = x) then Some 0%nat
  else match l with [] => None | _ :: l => S <$> c_str_at l x end.
Definition ngx_strstr (l x : list Z) : option nat := c_str_at (cstr l) x.

(** The C string at [k] in an array, which it must not leave. *)
Definition string_at (a : list Z) (k : nat) : option (list Z) :=
  let l := drop k a in
  if (length (cstr l) <? length l)%nat then Some (cstr l) else None.

(** [ngx_cpystrn(dst, src, n)]. *)
Definition ngx_cpystrn (dst src : list Z) (n : nat) : list Z := splice 0 (take (n - 1) src ++ [0]) dst.

Definition ngx_rtmp_cmd_fill_args (name args : list Z) : option (list Z * list Z) :=
  nm ← string_at name 0;
  match ngx_strlchr nm 63 with
  | None => Some (name, args)
  | Some k => Some (<[k := 0]> name, ngx_cpystrn args (drop (S k) nm) NGX_RTMP_MAX_ARGS)
  end.

(* ------------------------------------------------------------------ *)
(** ** State *)

(** A server: its names, its applications with their configurations, its own
    configuration of applications. *)
Record ngx_rtmp_core_srv_conf_t := Srv {
  server_names : list (list Z * list Z);
  applications : list (list Z * nat);
  ctx_app_conf : nat;
  ack_window : Z;
  chunk_size : Z
}.

(** The fields of a session the module works on, beside those in Live.v.  The
    configurations are numbers; [virtual_names] are the names of the address the
    session came in at. *)
Record csession := CSess {
  connected : bool;
  app : list Z;
  args : list Z;
  flashver : list Z;
  swf_url : list Z;
  tc_url : list Z;
  page_url : list Z;
  acodecs : Z;
  vcodecs : Z;
  host_in : list Z;
  port_in : list Z;
  s_name : list Z;
  app_conf : option nat;
  srv_conf : nat;
  virtual_names : option (list Z -> option nat)
}.

(** The process, the sessions, and the static arguments that are not cleared: the
    transaction of createStream and the streams of closeStream and deleteStream. *)
Record world := World {
  net : process;
  csess : gmap sid csession;
  servers : list ngx_rtmp_core_srv_conf_t;
  static_trans : list Z;
  static_close : list Z;
  static_delete : list Z
}.
Definition set_net n w := World n (csess w) (servers w) (static_trans w) (static_close w) (static_delete w).
Definition set_csess m w := World (net w) m (servers w) (static_trans w) (static_close w) (static_delete w).
Definition set_trans d w := World (net w) (csess w) (servers w) d (static_close w) (static_delete w).
Definition set_close d w := World (net w) (csess w) (servers w) (static_trans w) d (static_delete w).
Definition set_delete d w := World (net w) (csess w) (servers w) (static_trans w) (static_close w) d.

Definition set_host_in h s :=
  CSess (connected s) (app s) (args s) (flashver s) (swf_url s) (tc_url s) (page_url s) (acodecs s) (vcodecs s)
    h (port_in s) (s_name s) (app_conf s) (srv_conf s) (virtual_names s).
Definition set_port_in p s :=
  CSess (connected s) (app s) (args s) (flashver s) (swf_url s) (tc_url s) (page_url s) (acodecs s) (vcodecs s)
    (host_in s) p (s_name s) (app_conf s) (srv_conf s) (virtual_names s).
Definition set_page_url u s :=
  CSess (connected s) (app s) (args s) (flashver s) (swf_url s) (tc_url s) u (acodecs s) (vcodecs s)
    (host_in s) (port_in s) (s_name s) (app_conf s) (srv_conf s) (virtual_names s).
Definition set_s_name n s :=
  CSess (connected s) (app s) (args s) (flashver s) (swf_url s) (tc_url s) (page_url s) (acodecs s) (vcodecs s)
    (host_in s) (port_in s) n (app_conf s) (srv_conf s) (virtual_names s).
Definition set_confs a v s :=
  CSess (connected s) (app s) (args s) (flashver s) (swf_url s) (tc_url s) (page_url s) (acodecs s) (vcodecs s)
    (host_in s) (port_in s) (s_name s) a v (virtual_names s).

(** *** The monad *)

Definition K (A : Type) : Type := world -> option (A * world).
#[export] Instance K_ret : MRet K := fun A a w => Some (a, w).
#[export] Instance K_bind : MBind K := fun A B f m w =>
  match m w with Some (a, w) => f a w | None => None end.

Definition access {A} (f : world -> option A) : K A := fun w =>
  match f w with Some a => Some (a, w) | None => None end.
Definition gets {A} (f : world -> A) : K A := fun w => Some (f w, w).
Definition modify (f : world -> world) : K unit := fun w => Some (tt, f w).
Definition lift {A} (m : Live.M A) : K A := fun w =>
  match m (net w) with Some (a, n) => Some (a, set_net n w) | None => None end.
Definition csession_of (i : sid) : K csession := access (fun w => csess w !! i).
Definition upd_csession (i : sid) (f : csession -> csession) : K unit :=
  s ← csession_of i; modify (fun w => set_csess (<[i := f s]> (csess w)) w).
Definition server_of (n : nat) : K ngx_rtmp_core_srv_conf_t := access (fun w => servers w !! n).

(* ------------------------------------------------------------------ *)
(** ** Reading arguments *)

(** Enough for any chain, see [amf_read_safe]. *)
Definition args_fuel (chain : list (list Z)) (es : list (option Amf.ngx_rtmp_amf_elt_t)) : nat :=
  4 * length (concat chain) + Amf.weights_opt es + 1.

(** Whether the result was NGX_OK, and the variables. *)
Definition receive (chain : list (list Z)) (m : Amf.memory) (es : list Amf.ngx_rtmp_amf_elt_t)
  : option (bool * Amf.memory) :=
  match Receive.ngx_rtmp_receive_amf (args_fuel chain (map Some es)) m chain (map Some es) with
  | Some (Amf.Ret rc, s) => Some (is_ok rc, Amf.mem s)
  | _ => None
  end.

Definition num (m : Amf.memory) (a : Amf.addr) : option Z := le_val <$> m !! a.

(** An element that is read into no variable. *)
Definition skip_number : Amf.ngx_rtmp_amf_elt_t := Amf.Elt Amf.NGX_RTMP_AMF_NUMBER [] Amf.DNull 0.
Definition skip_null : Amf.ngx_rtmp_amf_elt_t := Amf.Elt Amf.NGX_RTMP_AMF_NULL [] Amf.DNull 0.
Definition optional (t : Z) (a : nat) (len : Z) : Amf.ngx_rtmp_amf_elt_t :=
  Amf.Elt (Z.lor Amf.NGX_RTMP_AMF_OPTIONAL t) [] (Amf.DMem a) len.
Definition object (es : list Amf.ngx_rtmp_amf_elt_t) : Amf.ngx_rtmp_amf_elt_t :=
  Amf.Elt Amf.NGX_RTMP_AMF_OBJECT [] (Amf.DElts es) (Z.of_nat (length es)).

(** *** connect *)

Definition connect_cmd : list Amf.ngx_rtmp_amf_elt_t :=
  [text "app" 1 256; text "flashVer" 2 32; text "swfUrl" 3 256; text "tcUrl" 4 256;
   number "audioCodecs" 5; number "videoCodecs" 6; text "pageUrl" 7 256;
   number "objectEncoding" 8; number "relayType" 9].
Definition connect_elts : list Amf.ngx_rtmp_amf_elt_t := [number EmptyString 0; object connect_cmd].

(** [v] after [ngx_memzero]. *)
Definition connect_vars : Amf.memory :=
  let num := replicate 8 0 in
  <[0%nat := num]> (<[1%nat := replicate NGX_RTMP_MAX_NAME 0]> (<[2%nat := replicate 32 0]>
  (<[3%nat := replicate NGX_RTMP_MAX_URL 0]> (<[4%nat := replicate NGX_RTMP_MAX_URL 0]> (<[5%nat := num]>
  (<[6%nat := num]> (<[7%nat := replicate NGX_RTMP_MAX_URL 0]> (<[8%nat := num]> {[9%nat := num]})))))))).

Definition connect_of (m : Amf.memory) : option ngx_rtmp_connect_t :=
  trans ← num m 0%nat; app ← m !! 1%nat; fv ← m !! 2%nat; swf ← m !! 3%nat; tc ← m !! 4%nat;
  ac ← num m 5%nat; vc ← num m 6%nat; page ← m !! 7%nat; oe ← num m 8%nat; rt ← num m 9%nat;
  Some (Connect trans app (replicate NGX_RTMP_MAX_ARGS 0) fv swf tc ac vc page oe rt).

(** An end of the name that is cut off. *)
Definition trim_app (a : list Z) : option (list Z) :=
  nm ← string_at a 0;
  let len := length nm in
  Some (if (10 <? len)%nat && bool_decide (drop (len - 10) nm = str "/_definst_") then <[(len - 10)%nat := 0]> a
        else if (0 <? len)%nat && bool_decide (list.last nm = Some 47) then <[(len - 1)%nat := 0]> a
        else a).

(* ------------------------------------------------------------------ *)
(** ** Host and server *)

(** The place and the length of the host in the URL, [Some None] for NGX_ERROR. *)
Definition tcurl_host (url : list Z) : option (option (nat * nat)) :=
  u ← string_at url 0;
  match ngx_strstr url (str "vhost=") with
  | Some k =>
      let start := (k + 6)%nat in
      let rest := drop start u in
      Some (Some (start, start + default (length rest) (ngx_strstr rest (str "&")))%nat)
  | None =>
      match ngx_strstr url (str "://") with
      | None => Some None
      | Some k =>
          let start := (k + 3)%nat in
          let rest := drop start u in
          let stop :=
            match ngx_strlchr rest 58 with
            | Some j => j
            | None => default (S (length rest)) (ngx_strlchr rest 47)
            end in
          Some (Some (start, start + stop)%nat)
      end
  end.

Definition ngx_rtmp_cmd_parse_tcurl (url : list Z) (s : csession) : option (ngx_rc * csession) :=
  r ← tcurl_host url;
  match r with
  | None => Some (NGX_ERROR, s)
  | Some (start, stop) =>
      let s := set_host_in (take (stop - start) (drop start url)) s in
      rest ← string_at url (S stop);
      match ngx_strlchr rest 47 with
      | Some k => Some (NGX_OK, set_port_in (take k rest) s)
      | None => Some (NGX_OK, s)
      end
  end.

(** [ngx_strncasecmp(a, b, length a) == 0]; [b] ends with a zero. *)
Fixpoint ngx_strncasecmp (a b : list Z) : bool :=
  match a with
  | [] => true
  | c :: a =>
      let d := default 0 (head b) in
      (Receive.lower c =? Receive.lower d) && ((c =? 0) || ngx_strncasecmp a (tail b))
  end.

(** The first server with such a name. *)
Definition named_server (host : list Z) (l : list ngx_rtmp_core_srv_conf_t) : option nat :=
  fst <$> list_find (fun sv => Exists (fun nm =>
    ngx_strncasecmp host (snd nm) || ngx_strncasecmp host (fst nm) = true) (server_names sv)) l.

Definition ngx_rtmp_find_virtual_server (s : csession) (host : list Z) : ngx_rc * option nat :=
  match virtual_names s with
  | None => (NGX_DECLINED, None)
  | Some names => match names host with Some n => (NGX_OK, Some n) | None => (NGX_ERROR, None) end
  end.

Definition ngx_rtmp_set_virtual_server (i : sid) (v : ngx_rtmp_connect_t) : K ngx_rc :=
  s ← csession_of i;
  svs ← gets servers;
  let '(rc, cscf) :=
    if bool_decide (take 9 (v_flashver v) = NGX_RTMP_RELAY_NAME) then
      match named_server (host_in s) svs with Some n => (NGX_OK, Some n) | None => (NGX_ERROR, None) end
    else ngx_rtmp_find_virtual_server s (host_in s) in
  match rc, cscf with
  | NGX_ERROR, _ => lift (Live.ngx_rtmp_finalize_session i);; mret NGX_ERROR
  | NGX_DECLINED, _ => mret NGX_OK
  | _, None => access (fun _ => None)
  | _, Some n => sv ← server_of n; upd_csession i (set_confs (Some (ctx_app_conf sv)) n);; mret NGX_OK
  end.

(* ------------------------------------------------------------------ *)
(** ** Answers *)

Section Conf.
Context (cscf : Chunk.ngx_rtmp_core_srv_conf_t).

(** A control message of Send.v to the session. *)
Definition send_control (i : sid) (create : pool -> option (pool * loc)) : Live.M ngx_rc :=
  l ← Live.on_pool create; Live.send_shared_packet i (Some l).
Definition ngx_rtmp_send_ack_size (i : sid) (n : Z) : Live.M ngx_rc :=
  send_control i (fun p => Send.ngx_rtmp_create_ack_size cscf p n).
Definition ngx_rtmp_send_bandwidth (i : sid) (n ty : Z) : Live.M ngx_rc :=
  send_control i (fun p => Send.ngx_rtmp_create_bandwidth cscf p n ty).
Definition ngx_rtmp_send_chunk_size (i : sid) (n : Z) : Live.M ngx_rc :=
  send_control i (fun p => Send.ngx_rtmp_create_chunk_size cscf p n).
Definition ngx_rtmp_send_amf (i : sid) (h : Chunk.ngx_rtmp_header_t) (m : Amf.memory)
    (es : list Amf.ngx_rtmp_amf_elt_t) : Live.M ngx_rc :=
  cl ← Live.on_pool (fun p => AmfSend.ngx_rtmp_create_amf cscf p h m es); Live.send_shared_packet i cl.

Definition amf_hdr : Chunk.ngx_rtmp_header_t :=
  Chunk.Hdr NGX_RTMP_CSID_AMF_INI 0 0 Receive.NGX_RTMP_MSG_AMF_CMD 0.

Definition connect_result_vars (trans object_encoding : Z) : Amf.memory :=
  <[0%nat := AmfSend.c_str (str "_result")]> (<[1%nat := Double.double_bytes trans]>
  (<[2%nat := AmfSend.c_str NGX_RTMP_FMS_VERSION]>
  (<[3%nat := Double.double_bytes (Double.double_of_uint NGX_RTMP_CAPABILITIES)]>
  (<[4%nat := AmfSend.c_str (str "status")]> (<[5%nat := AmfSend.c_str (str "NetConnection.Connect.Success")]>
  (<[6%nat := AmfSend.c_str (str "Connection succeeded.")]> {[7%nat := Double.double_bytes object_encoding]})))))).
Definition connect_result_elts : list Amf.ngx_rtmp_amf_elt_t :=
  [text EmptyString 0 0; number EmptyString 1; object [text "fmsVer" 2 0; number "capabilities" 3];
   object [text "level" 4 0; text "code" 5 0; text "description" 6 0; number "objectEncoding" 7]].

(** [(uint32_t)] of a double. *)
Definition to_u32 (w : Z) : option Z :=
  n ← Double.uint_of_double w; if n <? 2 ^ 32 then Some n else None.

(** A field of the session from an array. *)
Definition SET_STRPAR (a : list Z) : option (list Z) := string_at a 0.

Definition find_app (nm : list Z) (apps : list (list Z * nat)) : option nat :=
  snd <$> List.find (fun x => bool_decide (fst x = nm)) apps.

Definition fill_session (v : ngx_rtmp_connect_t) (s : csession) : option csession :=
  app ← SET_STRPAR (v_app v); args ← SET_STRPAR (v_args v); fv ← SET_STRPAR (v_flashver v);
  swf ← SET_STRPAR (v_swf_url v); tc ← SET_STRPAR (v_tc_url v); page ← SET_STRPAR (v_page_url v);
  let app := match ngx_strlchr app 63 with Some k => take k app | None => app end in
  ac ← to_u32 (v_acodecs v); vc ← to_u32 (v_vcodecs v);
  Some (CSess true app args fv swf tc page ac vc (host_in s) (port_in s) (s_name s) (app_conf s) (srv_conf s)
          (virtual_names s)).

Definition set_relay_type (rt : Z) (s : Live.session) : Live.session :=
  Sess (queue s) (conn s) (lctx s) (codec s) rt (played s) (current_time s).

Definition ngx_rtmp_cmd_connect (i : sid) (v : ngx_rtmp_connect_t) : K ngx_rc :=
  s ← csession_of i;
  if connected s then mret NGX_ERROR
  else
    sv ← server_of (srv_conf s);
    s ← access (fun _ => fill_session v s);
    upd_csession i (fun _ => s);;
    lift (Live.upd_session i (set_relay_type (v_relay_type v)));;
    let found := find_app (app s) (applications sv) in
    upd_csession i (set_confs (match found with Some a => Some a | None => app_conf s end) (srv_conf s));;
    s ← csession_of i;
    match app_conf s with
    | None => mret NGX_ERROR
    | Some _ =>
        rc ← lift (ngx_rtmp_send_ack_size i (ack_window sv));
        if negb (is_ok rc) then mret NGX_ERROR else
        rc ← lift (ngx_rtmp_send_bandwidth i (ack_window sv) NGX_RTMP_LIMIT_DYNAMIC);
        if negb (is_ok rc) then mret NGX_ERROR else
        rc ← lift (ngx_rtmp_send_chunk_size i (chunk_size sv));
        if negb (is_ok rc) then mret NGX_ERROR else
        rc ← lift (ngx_rtmp_send_amf i amf_hdr (connect_result_vars (v_trans v) (v_object_encoding v))
                     connect_result_elts);
        mret (if is_ok rc then NGX_OK else NGX_ERROR)
    end.

Definition create_stream_vars (trans : list Z) : Amf.memory :=
  <[0%nat := AmfSend.c_str (str "_result")]> (<[1%nat := trans]>
  {[2%nat := Double.double_bytes (Double.double_of_uint AmfSend.NGX_RTMP_MSID)]}).
Definition create_stream_elts : list Amf.ngx_rtmp_amf_elt_t :=
  [text EmptyString 0 0; number EmptyString 1; skip_null; number EmptyString 2].

(** [trans] is a variable of type [double]. *)
Definition ngx_rtmp_cmd_create_stream (i : sid) (trans : list Z) : K ngx_rc :=
  rc ← lift (ngx_rtmp_send_amf i amf_hdr (create_stream_vars trans) create_stream_elts);
  mret (if is_ok rc then NGX_DONE else NGX_ERROR).

(* ------------------------------------------------------------------ *)
(** ** Commands *)

Section Chain.
(** The functions the pointers of the module lead to; [ngx_rtmp_publish] gets the
    type of the publication beside the fields of Live.v. *)
Context (ngx_rtmp_connect : sid -> ngx_rtmp_connect_t -> K ngx_rc).
Context (ngx_rtmp_disconnect : sid -> K ngx_rc).
Context (ngx_rtmp_create_stream : sid -> list Z -> K ngx_rc).
Context (ngx_rtmp_close_stream : sid -> list Z -> K ngx_rc).
Context (ngx_rtmp_delete_stream : sid -> option (list Z) -> K ngx_rc).
Context (ngx_rtmp_publish : sid -> ngx_rtmp_publish_t -> list Z -> K ngx_rc).
Context (ngx_rtmp_play : sid -> ngx_rtmp_play_t -> K ngx_rc).
Context (ngx_rtmp_seek : sid -> Z -> K ngx_rc).
Context (ngx_rtmp_pause : sid -> Z -> Z -> K ngx_rc).
(** [ngx_rtmp_fire_event]. *)
Context (fire_event : sid -> Z -> K ngx_rc).

Definition ngx_rtmp_cmd_connect_init (i : sid) (chain : list (list Z)) : K ngx_rc :=
  '(ok, m) ← access (fun _ => receive chain connect_vars connect_elts);
  if negb ok then mret NGX_ERROR
  else
    v ← access (fun _ => connect_of m);
    app ← access (fun _ => trim_app (v_app v));
    '(app, args) ← access (fun _ => ngx_rtmp_cmd_fill_args app (v_args v));
    let v := Connect (v_trans v) app args (v_flashver v) (v_swf_url v) (v_tc_url v) (v_acodecs v) (v_vcodecs v)
               (v_page_url v) (v_object_encoding v) (v_relay_type v) in
    page ← access (fun _ => SET_STRPAR (v_page_url v));
    upd_csession i (set_page_url page);;
    s ← csession_of i;
    '(rc, s) ← access (fun _ => ngx_rtmp_cmd_parse_tcurl (v_tc_url v) s);
    upd_csession i (fun _ => s);;
    (if is_ok rc then ngx_rtmp_set_virtual_server i v else mret NGX_OK);;
    ngx_rtmp_connect i v.

(** A static variable that is not cleared keeps its value when the message has one
    of another type in its place. *)
Definition ngx_rtmp_cmd_create_stream_init (i : sid) (chain : list (list Z)) : K ngx_rc :=
  old ← gets static_trans;
  '(ok, m) ← access (fun _ => receive chain {[0%nat := old]} [number EmptyString 0]);
  trans ← access (fun _ => m !! 0%nat);
  modify (set_trans trans);;
  if negb ok then mret NGX_ERROR else ngx_rtmp_create_stream i trans.

Definition ngx_rtmp_cmd_close_stream_init (i : sid) (chain : list (list Z)) : K ngx_rc :=
  old ← gets static_close;
  '(ok, m) ← access (fun _ => receive chain {[0%nat := old]} [number EmptyString 0]);
  stream ← access (fun _ => m !! 0%nat);
  modify (set_close stream);;
  if negb ok then mret NGX_ERROR else ngx_rtmp_close_stream i stream.

Definition ngx_rtmp_cmd_close_stream (i : sid) (stream : list Z) : K ngx_rc := mret NGX_OK.

Definition ngx_rtmp_cmd_delete_stream_init (i : sid) (chain : list (list Z)) : K ngx_rc :=
  old ← gets static_delete;
  '(ok, m) ← access (fun _ => receive chain {[0%nat := old]} [skip_number; skip_null; number EmptyString 0]);
  stream ← access (fun _ => m !! 0%nat);
  modify (set_delete stream);;
  if negb ok then mret NGX_ERROR else ngx_rtmp_delete_stream i (Some stream).

Definition ngx_rtmp_cmd_delete_stream (i : sid) (v : option (list Z)) : K ngx_rc :=
  ngx_rtmp_close_stream i (Double.double_bytes 0).

(** The name of a stream in the session: the bytes behind a shorter name stay. *)
Definition set_stream_name (i : sid) (nm : list Z) : K unit := upd_csession i (fun s => set_s_name (splice 0 nm (s_name s)) s).

Definition publish_elts : list Amf.ngx_rtmp_amf_elt_t :=
  [skip_number; skip_null; text EmptyString 0 256; optional Amf.NGX_RTMP_AMF_STRING 1 16].
Definition publish_vars : Amf.memory :=
  <[0%nat := replicate NGX_RTMP_MAX_NAME 0]> {[1%nat := replicate 16 0]}.

Definition ngx_rtmp_cmd_publish_init (i : sid) (chain : list (list Z)) : K ngx_rc :=
  '(ok, m) ← access (fun _ => receive chain publish_vars publish_elts);
  if negb ok then mret NGX_ERROR
  else
    name ← access (fun _ => m !! 0%nat);
    type ← access (fun _ => m !! 1%nat);
    '(name, args) ← access (fun _ => ngx_rtmp_cmd_fill_args name (replicate NGX_RTMP_MAX_ARGS 0));
    nm ← access (fun _ => string_at name 0);
    set_stream_name i nm;;
    ngx_rtmp_publish i (Publish nm (cstr args) false) (cstr type).

Definition ngx_rtmp_cmd_publish (i : sid) (v : ngx_rtmp_publish_t) (type : list Z) : K ngx_rc := mret NGX_OK.

Definition ngx_rtmp_cmd_start_play (i : sid) (v : ngx_rtmp_play_t) : K ngx_rc := ngx_rtmp_play i v.
Definition ngx_rtmp_cmd_start_close (i : sid) (stream : list Z) : K ngx_rc := ngx_rtmp_close_stream i stream.

Definition play_elts : list Amf.ngx_rtmp_amf_elt_t :=
  [skip_number; skip_null; text EmptyString 0 256; optional Amf.NGX_RTMP_AMF_NUMBER 1 0;
   optional Amf.NGX_RTMP_AMF_NUMBER 2 0; optional Amf.NGX_RTMP_AMF_BOOLEAN 3 0].
Definition play_vars : Amf.memory :=
  <[0%nat := replicate NGX_RTMP_MAX_NAME 0]> (<[1%nat := replicate 8 0]> (<[2%nat := replicate 8 0]>
  {[3%nat := replicate 4 0]})).

Definition ngx_rtmp_cmd_play_init (i : sid) (chain : list (list Z)) : K ngx_rc :=
  '(ok, m) ← access (fun _ => receive chain play_vars play_elts);
  if negb ok then mret NGX_ERROR
  else
    name ← access (fun _ => m !! 0%nat);
    start ← access (fun _ => num m 1%nat);
    duration ← access (fun _ => num m 2%nat);
    reset ← access (fun _ => num m 3%nat);
    '(name, args) ← access (fun _ => ngx_rtmp_cmd_fill_args name (replicate NGX_RTMP_MAX_ARGS 0));
    nm ← access (fun _ => string_at name 0);
    set_stream_name i nm;;
    ngx_rtmp_play i (Play nm (cstr args) start duration reset false).

Definition ngx_rtmp_cmd_play (i : sid) (v : ngx_rtmp_play_t) : K ngx_rc :=
  rc ← fire_event i NGX_RTMP_AUTH_DONE;
  (if is_ok rc then mret tt else lift (Live.ngx_rtmp_finalize_session i));;
  mret NGX_OK.

Definition play2_elts : list Amf.ngx_rtmp_amf_elt_t :=
  [skip_number; skip_null; object [number "start" 1; text "streamName" 0 256]].

(** [v.start < 0] of the bits of a double. *)
Definition negative (w : Z) : bool := Z.testbit w 63 && negb (w =? 2 ^ 63) && (w mod 2 ^ 63 <=? 2047 * 2 ^ 52).

Definition ngx_rtmp_cmd_play2_init (i : sid) (chain : list (list Z)) : K ngx_rc :=
  '(ok, m) ← access (fun _ => receive chain play_vars play2_elts);
  if negb ok then mret NGX_ERROR
  else
    name ← access (fun _ => m !! 0%nat);
    start ← access (fun _ => num m 1%nat);
    '(name, args) ← access (fun _ => ngx_rtmp_cmd_fill_args name (replicate NGX_RTMP_MAX_ARGS 0));
    nm ← access (fun _ => string_at name 0);
    s ← lift (Live.session_of i);
    let start := if negative start then Double.double_of_uint (current_time s) else start in
    ngx_rtmp_close_stream i (Double.double_bytes 0);;
    ngx_rtmp_play i (Play nm (cstr args) start 0 0 false).

Definition pause_elts : list Amf.ngx_rtmp_amf_elt_t :=
  [skip_number; skip_null; Amf.Elt Amf.NGX_RTMP_AMF_BOOLEAN [] (Amf.DMem 0%nat) 0; number EmptyString 1].
Definition ngx_rtmp_cmd_pause_init (i : sid) (chain : list (list Z)) : K ngx_rc :=
  '(ok, m) ← access (fun _ => receive chain (<[0%nat := [0]]> {[1%nat := replicate 8 0]}) pause_elts);
  if negb ok then mret NGX_ERROR
  else
    pause ← access (fun _ => num m 0%nat);
    position ← access (fun _ => num m 1%nat);
    ngx_rtmp_pause i pause position.
Definition ngx_rtmp_cmd_pause (i : sid) (pause position : Z) : K ngx_rc := mret NGX_OK.

Definition ngx_rtmp_cmd_disconnect_init (i : sid) (chain : list (list Z)) : K ngx_rc := ngx_rtmp_disconnect i.
Definition ngx_rtmp_cmd_disconnect (i : sid) : K ngx_rc := ngx_rtmp_delete_stream i None.

Definition ngx_rtmp_cmd_av_sent (i : sid) (chain : list (list Z)) : K ngx_rc :=
  rc ← fire_event i NGX_RTMP_AV_SENT;
  (if is_ok rc then mret tt else lift (Live.ngx_rtmp_finalize_session i));;
  mret NGX_OK.

Definition seek_elts : list Amf.ngx_rtmp_amf_elt_t := [skip_number; skip_null; number EmptyString 0].
Definition ngx_rtmp_cmd_seek_init (i : sid) (chain : list (list Z)) : K ngx_rc :=
  '(ok, m) ← access (fun _ => receive chain {[0%nat := replicate 8 0]} seek_elts);
  if negb ok then mret NGX_ERROR else offset ← access (fun _ => num m 0%nat); ngx_rtmp_seek i offset.
Definition ngx_rtmp_cmd_seek (i : sid) (offset : Z) : K ngx_rc := mret NGX_OK.

(** The ends of the other chains, which only write to the log. *)
Definition ngx_rtmp_cmd_stream_begin (i : sid) (msid : Z) : K ngx_rc := mret NGX_OK.
Definition ngx_rtmp_cmd_stream_eof (i : sid) (msid : Z) : K ngx_rc := mret NGX_OK.
Definition ngx_rtmp_cmd_stream_dry (i : sid) (msid : Z) : K ngx_rc := mret NGX_OK.
Definition ngx_rtmp_cmd_recorded (i : sid) (recorder path : list Z) : K ngx_rc := mret NGX_OK.
Definition ngx_rtmp_cmd_set_buflen (i : sid) (msid buflen : Z) : K ngx_rc := mret NGX_OK.
Definition ngx_rtmp_cmd_start_hls_slice (i : sid) (frame time : Z) : K ngx_rc := mret NGX_OK.

(** [cmcf->amf] gets these. *)
Definition ngx_rtmp_cmd_map : list (list Z * (sid -> list (list Z) -> K ngx_rc)) :=
  [(str "connect", ngx_rtmp_cmd_connect_init); (str "createStream", ngx_rtmp_cmd_create_stream_init);
   (str "closeStream", ngx_rtmp_cmd_close_stream_init); (str "deleteStream", ngx_rtmp_cmd_delete_stream_init);
   (str "publish", ngx_rtmp_cmd_publish_init); (str "play", ngx_rtmp_cmd_play_init);
   (str "play2", ngx_rtmp_cmd_play2_init); (str "seek", ngx_rtmp_cmd_seek_init);
   (str "pause", ngx_rtmp_cmd_pause_init); (str "pauseraw", ngx_rtmp_cmd_pause_init)].

End Chain.
End Conf.
End Cmd.
