(* ===== verification/Commands.v ===== *)
(** * What commands do

    The specification of Cmd.v: names and their arguments, the host in a URL, the
    properties of an object in variables, and the commands from the values a client
    sends to the call of the next module, and from there to the answer. *)

From Stdlib Require Import ZArith Lia.
From stdpp Require Import base numbers list strings gmap.
From S2P Require Import Prelude Text Buf Bandwidth Double Chunk Shared Queue Amf Receive Send AmfSend Meta Live LiveOut LiveAv Cmd.

Module Commands.

Import Text.
Import Shared.
Import Live.
Import Meta(number, text).
Import Cmd.

(* ------------------------------------------------------------------ *)
(** ** Names and arguments *)

(** An array of [n] bytes with the string [s], cut to its room. *)
Definition fit (n : nat) (s : list Z) : list Z :=
  let s := take (n - 1) s in s ++ replicate (n - length s) 0.

(** The string at its beginning. *)
Definition clean (s : list Z) : Prop := Forall (fun c => c <> 0) s.

Lemma fit_length n s : (0 < n)%nat -> length (fit n s) = n.
Proof. intros Hn. unfold fit. len. Qed.

(** A name and the arguments behind its question mark. *)
Definition split_args (nm : list Z) : list Z * list Z :=
  match ngx_strlchr nm 63 with Some k => (take k nm, drop (S k) nm) | None => (nm, []) end.

Lemma strlchr_lt l c k : ngx_strlchr l c = Some k -> (k < length l)%nat /\ l !! k = Some c.
Proof.
  revert k. induction l as [|d l IH]; intros k; cbn [ngx_strlchr]; [done|].
  destruct (Z.eqb_spec d c) as [->|]; [intros [= <-]; cbn; split; [lia|done]|].
  destruct (ngx_strlchr l c) as [j|] eqn:E; [|done]. intros [= <-]. destruct (IH j eq_refl). cbn. split; [lia|done].
Qed.

(** An array with a string. *)
Definition holds (n : nat) (a s : list Z) : Prop := length a = n /\ clean s /\ exists tl, a = s ++ 0 :: tl.

Lemma holds_string n a s : holds n a s -> string_at a 0 = Some s.
Proof.
  intros (_ & Hc & tl & ->). unfold string_at. rewrite drop_0, cstr_app by done. rewrite (proj2 (Nat.ltb_lt _ _)) by len. done.
Qed.

Lemma cstr_split (l z : list Z) : exists tl, l ++ 0 :: z = cstr l ++ 0 :: tl.
Proof.
  induction l as [|c l [tl IH]]; cbn [cstr Datatypes.app]; [now exists z|].
  destruct (Z.eqb_spec c 0) as [->|]; [now eexists|]. exists tl. cbn [Datatypes.app]. now rewrite IH.
Qed.

Lemma fit_holds n s : (0 < n)%nat -> holds n (fit n s) (cstr (take (n - 1) s)).
Proof.
  intros Hn. split; [now apply fit_length|]. split; [apply cstr_nonzero|]. unfold fit.
  destruct (n - length (take (n - 1) s))%nat as [|k] eqn:E; [len|]. cbn [replicate]. apply cstr_split.
Qed.

Lemma fit_cstr n s : (0 < n)%nat -> cstr (fit n s) = cstr (take (n - 1) s).
Proof. intros Hn. destruct (fit_holds n s Hn) as (_ & Hc & tl & ->). now apply cstr_app. Qed.

Lemma holds_cut n a nm k : holds n a nm -> (k < length nm)%nat -> holds n (<[k := 0]> a) (take k nm).
Proof.
  intros (Hn & Hc & tl & ->) Hk. split; [len|]. split; [now apply Forall_take|].
  eexists. rewrite insert_app_l by done. rewrite (insert_take_drop nm k 0) by done. rewrite <- app_assoc. reflexivity.
Qed.

Lemma fill_args_spec n a nm : holds n a nm -> (n <= NGX_RTMP_MAX_ARGS)%nat ->
  exists a' x, ngx_rtmp_cmd_fill_args a (replicate NGX_RTMP_MAX_ARGS 0) = Some (a', x) /\
    holds n a' (fst (split_args nm)) /\ holds NGX_RTMP_MAX_ARGS x (snd (split_args nm)).
Proof.
  intros Ha Hmax. unfold ngx_rtmp_cmd_fill_args. rewrite (holds_string _ _ _ Ha). cbn [mbind option_bind].
  unfold split_args. destruct (ngx_strlchr nm 63) as [k|] eqn:Ek.
  - destruct (strlchr_lt _ _ _ Ek) as [Hk _]. eexists _, _. split; [reflexivity|]. cbn [fst snd].
    split; [now apply holds_cut|]. destruct Ha as (Hn & Hc & tl & ->).
    assert (length nm < NGX_RTMP_MAX_ARGS)%nat as Hnm by (rewrite length_app in Hn; cbn in Hn; lia).
    unfold ngx_cpystrn. rewrite (take_ge (drop (S k) nm)) by (rewrite length_drop; lia).
    split; [rewrite length_splice; len|]. split; [now apply Forall_drop|].
    eexists. unfold splice. rewrite take_0. cbn [Datatypes.app]. rewrite <- app_assoc. reflexivity.
  - eexists _, _. split; [reflexivity|]. split; [done|].
    split; [len|]. split; [constructor|]. exists (replicate (NGX_RTMP_MAX_ARGS - 1) 0). reflexivity.
Qed.

(** An instance name or a slash at the end is cut off. *)
Definition trimmed (nm : list Z) : list Z :=
  if (10 <? length nm)%nat && bool_decide (drop (length nm - 10) nm = str "/_definst_") then take (length nm - 10) nm
  else if bool_decide (list.last nm = Some 47) then take (length nm - 1) nm
  else nm.

Lemma trimmed_instance nm : nm <> [] -> trimmed (nm ++ str "/_definst_") = nm.
Proof.
  intros Hn. unfold trimmed. rewrite length_app. change (length (str "/_definst_")) with 10%nat.
  rewrite Nat.add_sub, take_app_length, drop_app_length, bool_decide_eq_true_2 by done.
  destruct nm; [done|]. rewrite (proj2 (Nat.ltb_lt _ _)) by (cbn [length]; lia). reflexivity.
Qed.

Lemma trim_app_spec n a nm : holds n a nm -> exists a', trim_app a = Some a' /\ holds n a' (trimmed nm).
Proof.
  intros Ha. unfold trim_app. rewrite (holds_string _ _ _ Ha). cbn [mbind option_bind]. unfold trimmed.
  destruct (10 <? length nm)%nat eqn:E; cbn [andb].
  - apply Nat.ltb_lt in E. case_bool_decide; [eexists; split; [reflexivity|]; apply holds_cut; [done|lia]|].
    rewrite (proj2 (Nat.ltb_lt 0 _)) by lia. cbn [andb]. case_bool_decide; (eexists; split; [reflexivity|]); [|done].
    apply holds_cut; [done|lia].
  - destruct nm as [|c nm]; [eexists; split; [reflexivity|done]|].
    case_bool_decide; (eexists; split; [reflexivity|]); [|done]. apply holds_cut; [done|cbn [length]; lia].
Qed.

(* ------------------------------------------------------------------ *)
(** ** URLs *)

(** [x] is in [l]. *)
Definition within (x l : list Z) : Prop := exists y z, l = y ++ x ++ z.

(** In [y ++ x ++ z] the first [x] is the one behind [y]. *)
Definition first_at (y x : list Z) : Prop := ~ within x (y ++ removelast x).

Lemma str_at_none x l : x <> [] -> ~ within x l -> c_str_at l x = None.
Proof.
  intros Hx. induction l as [|c l IH]; intros Hn; cbn [c_str_at].
  - rewrite bool_decide_eq_false_2; [done|]. rewrite take_nil. congruence.
  - rewrite bool_decide_eq_false_2.
    + rewrite IH; [done|]. intros (y & z & ->). apply Hn. now exists (c :: y), z.
    + intros E. apply Hn. exists [], (drop (length x) (c :: l)). rewrite <- E at 1. cbn [Datatypes.app]. now rewrite take_drop.
Qed.

Lemma not_within x l : x <> [] -> c_str_at l x = None -> ~ within x l.
Proof.
  intros Hx Hn (y & z & ->). revert Hn. clear Hx. induction y as [|c y IH]; cbn [Datatypes.app].
  - destruct (x ++ z) as [|d l] eqn:E; cbn [c_str_at]; rewrite bool_decide_eq_true_2; try done.
    + now destruct x.
    + rewrite <- E. apply take_app_length.
  - cbn [c_str_at]. case_bool_decide; [done|]. destruct (c_str_at (y ++ x ++ z) x); [done|]. intros _. now apply IH.
Qed.

Lemma str_at_prefix x z : c_str_at (x ++ z) x = Some 0%nat.
Proof.
  assert (bool_decide (take (length x) (x ++ z) = x) = true) as E by (apply bool_decide_eq_true_2, take_app_length).
  destruct (x ++ z) as [|c l] eqn:El; cbn [c_str_at]; now rewrite E.
Qed.

Lemma str_at_first x z : x <> [] -> forall y, first_at y x -> c_str_at (y ++ x ++ z) x = Some (length y).
Proof.
  intros Hx y. induction y as [|c y IH]; intros Hf; [exact (str_at_prefix x z)|].
  cbn [Datatypes.app c_str_at length]. rewrite bool_decide_eq_false_2.
  - rewrite IH; [done|]. intros (u & v & E). apply Hf. exists (c :: u), v. cbn [Datatypes.app]. now rewrite E.
  - intros E. apply Hf. destruct (exists_last Hx) as (x' & d & Ex).
    assert (removelast x = x') as -> by (rewrite Ex; apply removelast_last).
    assert (take (length x) (c :: y ++ x') = x) as E2.
    { rewrite <- E at 2. rewrite Ex at 3. rewrite <- app_assoc, (app_assoc y x').
      change (c :: (y ++ x') ++ [d] ++ z) with ((c :: y ++ x') ++ [d] ++ z).
      symmetry. apply take_app_le. rewrite Ex, length_app. cbn. rewrite length_app. lia. }
    exists [], (drop (length x) (c :: y ++ x')). cbn [Datatypes.app].
    rewrite <- E2 at 1. now rewrite take_drop.
Qed.

(** The array of a URL, and the strings in it. *)
Lemma url_at n u k : (length u < n)%nat -> clean u -> (k <= length u)%nat ->
  string_at (fit n u) k = Some (drop k u).
Proof.
  intros Hn Hc Hk. unfold string_at, fit. rewrite (take_ge u) by lia. rewrite drop_app_le by done.
  destruct (n - length u)%nat as [|j] eqn:E; [lia|]. cbn [replicate].
  rewrite cstr_app by (now apply Forall_drop). rewrite (proj2 (Nat.ltb_lt _ _)) by len. done.
Qed.

Lemma url_cstr n u : (length u < n)%nat -> clean u -> cstr (fit n u) = u.
Proof.
  intros Hn Hc. pose proof (url_at n u 0 Hn Hc ltac:(lia)) as H. unfold string_at in H. rewrite !drop_0 in H.
  revert H. case_if; congruence.
Qed.

Lemma url_part n u y h z : (length u < n)%nat -> u = y ++ h ++ z -> take (length h) (drop (length y) (fit n u)) = h.
Proof.
  intros Hn ->. unfold fit. rewrite (take_ge (y ++ h ++ z)) by lia. rewrite <- !app_assoc, drop_app_length', take_app_length' by done. done.
Qed.

Lemma str_at_char c l : c_str_at l [c] = ngx_strlchr l c.
Proof.
  induction l as [|d l IH]; [reflexivity|]. cbn [c_str_at ngx_strlchr length take]. rewrite IH.
  destruct (Z.eqb_spec d c) as [->|]; [now rewrite bool_decide_eq_true_2|]. rewrite bool_decide_eq_false_2; [done|congruence].
Qed.

Lemma url_end n u : (S (length u) < n)%nat -> string_at (fit n u) (S (length u)) = Some [].
Proof.
  intros Hn. unfold string_at, fit. rewrite (take_ge u) by lia. rewrite drop_app_ge by lia.
  replace (S (length u) - length u)%nat with 1%nat by lia. destruct (n - length u)%nat as [|[|k]] eqn:E; [lia..|reflexivity].
Qed.

Lemma no_char_chr c l : ~ In c l -> ngx_strlchr l c = None.
Proof. intros H. apply strlchr_none, Forall_forall. intros d Hd ->. now apply H, list_elem_of_In. Qed.

Lemma char_chr c l r : ~ In c l -> ngx_strlchr (l ++ c :: r) c = Some (length l).
Proof. intros H. apply strlchr_app, Forall_forall. intros d Hd ->. now apply H, list_elem_of_In. Qed.

(** The host behind the scheme ends in front of [stop]. *)
Lemma host_found scheme host rest url stop : url = scheme ++ str "://" ++ host ++ rest -> (length url < 256)%nat -> clean url ->
  ~ within (str "vhost=") url -> first_at scheme (str "://") ->
  match ngx_strlchr (host ++ rest) 58 with Some j => j | None => default (S (length (host ++ rest))) (ngx_strlchr (host ++ rest) 47) end = stop ->
  tcurl_host (fit 256 url) = Some (Some (length scheme + 3, length scheme + 3 + stop)%nat).
Proof.
  intros Eu Hn Hc Hv Hs Est. unfold tcurl_host, ngx_strstr. rewrite url_at, url_cstr by (done || lia). rewrite drop_0.
  cbn [mbind option_bind]. rewrite str_at_none by done. rewrite Eu, str_at_first by done.
  assert (drop (length scheme + 3) (scheme ++ str "://" ++ host ++ rest) = host ++ rest) as ->.
  { rewrite app_assoc, drop_app_length'; [done|]. rewrite length_app. reflexivity. }
  now rewrite Est.
Qed.

(** The host behind vhost=. *)
Lemma vhost_parsed x host rest url s : (length url < 255)%nat -> clean url ->
  url = x ++ str "vhost=" ++ host ++ rest -> first_at x (str "vhost=") -> ~ In 38 host -> rest = [] \/ head rest = Some 38 ->
  exists s', ngx_rtmp_cmd_parse_tcurl (fit 256 url) s = Some (NGX_OK, s') /\ host_in s' = host.
Proof.
  intros Hn Hc Eu Hf Hh Hr.
  unfold ngx_rtmp_cmd_parse_tcurl.
  assert (tcurl_host (fit 256 url) = Some (Some (length x + 6, length x + 6 + length host)%nat)) as ->.
  { unfold tcurl_host. rewrite url_at by (done || lia). cbn [mbind option_bind]. unfold ngx_strstr at 1. rewrite url_cstr by (done || lia).
    rewrite Eu at 1. rewrite str_at_first by done. rewrite drop_0.
    assert (drop (length x + 6) url = host ++ rest) as ->.
    { rewrite Eu, app_assoc, drop_app_length'; [done|]. rewrite length_app. reflexivity. }
    unfold ngx_strstr. rewrite cstr_id by (apply (Forall_drop _ (length x + 6)) in Hc; rewrite Eu, app_assoc, drop_app_length' in Hc; [done|rewrite length_app; reflexivity]).
    rewrite (str_at_char 38). destruct Hr as [->|Hr].
    - rewrite app_nil_r, no_char_chr by done. reflexivity.
    - destruct rest as [|d rest]; [discriminate|]. injection Hr as ->. now rewrite char_chr. }
  cbn [mbind option_bind]. rewrite Nat.add_sub_swap, Nat.sub_diag, Nat.add_0_l by lia.
  replace (length x + 6)%nat with (length (x ++ str "vhost=")) by (rewrite length_app; reflexivity).
  rewrite (url_part 256 url _ host rest) by (try lia; now rewrite <- app_assoc).
  assert (exists t, string_at (fit 256 url) (S (length (x ++ str "vhost=") + length host)) = Some t) as [t ->].
  { destruct rest as [|d rest].
    - exists []. replace (length (x ++ str "vhost=") + length host)%nat with (length url); [apply url_end; lia|].
      rewrite Eu, app_nil_r, !length_app. lia.
    - eexists. apply url_at; [lia|done|]. rewrite Eu, !length_app. cbn. lia. }
  cbn [mbind option_bind]. destruct (ngx_strlchr t 47); eauto.
Qed.

(** C15: The host in the URL of a connection is the text behind the scheme up to the
    port or the path, or that behind vhost= up to the next ampersand; the port is the
    text between the colon and the path.  Without a port the first directory of the
    path is taken for it.  A URL without a host is an error.  Each clause says for
    which URLs it speaks; one without a path, and a colon in the path of one without a
    port, are in none of them. *)
Theorem tcurl_parsed url s : (length url < 255)%nat -> clean url ->
  let parse := ngx_rtmp_cmd_parse_tcurl (fit NGX_RTMP_MAX_URL url) s in
  (forall scheme host port path, url = scheme ++ str "://" ++ host ++ str ":" ++ port ++ str "/" ++ path ->
    ~ within (str "vhost=") url -> first_at scheme (str "://") -> ~ In 58 host -> ~ In 47 port ->
    parse = Some (NGX_OK, set_port_in port (set_host_in host s))) /\
  (forall scheme host path, url = scheme ++ str "://" ++ host ++ str "/" ++ path ->
    ~ within (str "vhost=") url -> first_at scheme (str "://") -> ~ In 58 (host ++ path) -> ~ In 47 host ->
    parse = Some (NGX_OK, match ngx_strlchr path 47 with
                          | Some k => set_port_in (take k path) (set_host_in host s)
                          | None => set_host_in host s
                          end)) /\
  (forall x host rest, url = x ++ str "vhost=" ++ host ++ rest -> first_at x (str "vhost=") -> ~ In 38 host ->
    rest = [] \/ head rest = Some 38 -> exists s', parse = Some (NGX_OK, s') /\ host_in s' = host) /\
  (~ within (str "vhost=") url -> ~ within (str "://") url -> parse = Some (NGX_ERROR, s)).
Proof.
  intros Hn Hc parse. subst parse. unfold ngx_rtmp_cmd_parse_tcurl, NGX_RTMP_MAX_URL. split; [|split; [|split]].
  - intros scheme host port path Eu Hv Hs Hh Hp.
    rewrite (host_found scheme host (str ":" ++ port ++ str "/" ++ path) url (length host)) by (try done; try lia; cbn; now rewrite char_chr).
    cbn [mbind option_bind]. rewrite Nat.add_sub_swap, Nat.sub_diag, Nat.add_0_l by lia.
    replace (length scheme + 3)%nat with (length (scheme ++ str "://")) by (rewrite length_app; reflexivity).
    rewrite (url_part 256 url _ host (str ":" ++ port ++ str "/" ++ path)) by (try lia; now rewrite <- app_assoc).
    rewrite url_at by (try done; try lia; apply (f_equal length) in Eu; rewrite !length_app in *; cbn in *; lia).
    cbn [mbind option_bind]. replace (drop _ url) with (port ++ 47 :: path).
    + rewrite char_chr by done. now rewrite take_app_length.
    + rewrite Eu. rewrite (app_assoc scheme), (app_assoc (scheme ++ str "://")), (app_assoc _ (str ":")), drop_app_length'; [done|].
      rewrite !length_app. cbn. lia.
  - intros scheme host path Eu Hv Hs Hh Hp.
    assert (ngx_strlchr (host ++ str "/" ++ path) 58 = None) as E58.
    { apply no_char_chr. intros [Hin|[Hin|Hin]%in_app_iff]%in_app_iff; [|destruct Hin as [Hin|[]]; discriminate Hin|]; apply Hh, in_app_iff; auto. }
    rewrite (host_found scheme host (str "/" ++ path) url (length host)) by (try done; try lia; rewrite E58; cbn [Datatypes.app];
      change (str "/" ++ path) with (47 :: path); now rewrite char_chr).
    cbn [mbind option_bind]. rewrite Nat.add_sub_swap, Nat.sub_diag, Nat.add_0_l by lia.
    replace (length scheme + 3)%nat with (length (scheme ++ str "://")) by (rewrite length_app; reflexivity).
    rewrite (url_part 256 url _ host (str "/" ++ path)) by (try lia; now rewrite <- app_assoc).
    rewrite url_at by (try done; try lia; apply (f_equal length) in Eu; rewrite !length_app in *; cbn in *; lia).
    cbn [mbind option_bind]. replace (drop _ url) with path; [now destruct (ngx_strlchr path 47)|].
    rewrite Eu. rewrite (app_assoc scheme), (app_assoc (scheme ++ str "://")), (app_assoc _ (str "/")), drop_app_length'; [done|].
    rewrite !length_app. cbn. lia.
  - intros x host rest. exact (vhost_parsed x host rest url s Hn Hc).
  - intros Hv Hs. unfold tcurl_host, ngx_strstr. rewrite url_at, url_cstr by (done || lia). rewrite drop_0.
    cbn [mbind option_bind]. now rewrite !str_at_none by done.
Qed.

(* ------------------------------------------------------------------ *)
(** ** Objects in variables *)

(** A value that nothing is stored of. *)
Lemma assign_null : forall v m e, Amf.place_for e (Amf.vtype v) = Amf.DNull -> Amf.assign m e v = Some m.
Proof.
  fix IH 1. intros v m e Hp. destruct v as [d|b|l| | |kvs|idx kvs|l]; cbn [Amf.assign]; rewrite ?Hp; try reflexivity;
    cbn [Amf.elts_of mbind option_bind]; clear Hp.
  - revert m. induction kvs as [|[k w] kvs IHk]; intros m; [reflexivity|].
    change (Amf.find_elt [] (Z.of_nat (length k)) k) with (@None Amf.ngx_rtmp_amf_elt_t).
    rewrite (IH w m None eq_refl). apply IHk.
  - revert m. induction kvs as [|[k w] kvs IHk]; intros m; [reflexivity|].
    change (Amf.find_elt [] (Z.of_nat (length k)) k) with (@None Amf.ngx_rtmp_amf_elt_t).
    rewrite (IH w m None eq_refl). apply IHk.
  - revert m. induction l as [|w l IHl]; intros m; [reflexivity|].
    cbn [head tail]. rewrite (IH w m None eq_refl). apply IHl.
Qed.

(** A number, a boolean or a string in a variable of its own. *)
Definition at_var (e : Amf.ngx_rtmp_amf_elt_t) : Amf.addr := match Amf.data e with Amf.DMem a => a | _ => 0%nat end.
Definition kind (e : Amf.ngx_rtmp_amf_elt_t) : Z := Z.land (Amf.type e) 255.
Definition simple (e : Amf.ngx_rtmp_amf_elt_t) : Prop :=
  Amf.data e = Amf.DMem (at_var e) /\
  (kind e = Amf.NGX_RTMP_AMF_NUMBER \/ kind e = Amf.NGX_RTMP_AMF_BOOLEAN \/ kind e = Amf.NGX_RTMP_AMF_STRING).
Definition room_for (e : Amf.ngx_rtmp_amf_elt_t) (x : list Z) : Prop :=
  if kind e =? Amf.NGX_RTMP_AMF_NUMBER then (8 <= length x)%nat
  else if kind e =? Amf.NGX_RTMP_AMF_BOOLEAN then (1 <= length x)%nat
  else 0 < Amf.elt_len e <= Z.of_nat (length x).

(** The variable with contents [x] behind the reading of [v]. *)
Definition put_in (e : Amf.ngx_rtmp_amf_elt_t) (x : list Z) (v : Amf.val) : list Z :=
  match v with
  | Amf.VNum d => if kind e =? Amf.NGX_RTMP_AMF_NUMBER then splice 0 (reverse d) x else x
  | Amf.VBool b => if kind e =? Amf.NGX_RTMP_AMF_BOOLEAN then splice 0 [b] x else x
  | Amf.VStr l =>
      if kind e =? Amf.NGX_RTMP_AMF_STRING then splice 0 (take (Z.to_nat (Amf.elt_len e - 1)) l ++ [0]) x else x
  | _ => x
  end.

Lemma put_in_length e x v : simple e -> room_for e x -> Amf.val_ok v -> length (put_in e x v) = length x.
Proof.
  intros [_ Ht] Hr Hv. unfold put_in, room_for in *. destruct v; try done; cbn in Hv.
  - case_if; [|done]. rewrite length_splice; [done|]. rewrite length_reverse. lia.
  - case_if; [|done]. apply length_splice. rewrite E in Hr. cbn in *. lia.
  - case_if; [|done]. apply length_splice. rewrite E in Hr. cbn in Hr. len.
Qed.

Lemma splice_twice x k c : (length k < length x)%nat -> splice (length k) [c] (splice 0 k x) = splice 0 (k ++ [c]) x.
Proof. intros H. rewrite <- (splice_app 0 k [c]) by lia. reflexivity. Qed.

Lemma assign_simple m e x v : simple e -> m !! at_var e = Some x -> room_for e x -> Amf.val_ok v ->
  Amf.assign m (Some e) v = Some (<[at_var e := put_in e x v]> m).
Proof.
  intros [Ha Ht] Hm Hr Hv. revert Ha Hm. generalize (at_var e) as a. intros a Ha Hm.
  destruct e as [t nm d n]. unfold put_in, room_for, kind in *. cbn [Amf.data Amf.type Amf.elt_len] in *. subst d.
  assert (Amf.effective (Some (Amf.Elt t nm (Amf.DMem a) n)) (Amf.vtype v) = Some (Amf.Elt t nm (Amf.DMem a) n)) as Ee by done.
  destruct (decide (Amf.vtype v = Z.land t 255)) as [Et|Et].
  - assert (Amf.place_for (Some (Amf.Elt t nm (Amf.DMem a) n)) (Amf.vtype v) = Amf.DMem a) as Ep.
    { unfold Amf.place_for. rewrite Ee. cbn [Amf.type Amf.data]. rewrite Et. now destruct Ht as [-> |[-> | ->]]. }
    rewrite Amf.assign_eq, Ep. unfold Amf.assign_at.
    rewrite <- Et in *. destruct v; cbn [Amf.vtype] in *; try (now destruct Ht as [Ht|[Ht|Ht]]);
      cbn [Z.eqb Pos.eqb Amf.NGX_RTMP_AMF_NUMBER Amf.NGX_RTMP_AMF_STRING Amf.NGX_RTMP_AMF_BOOLEAN] in *.
    + unfold Amf.store_mem. rewrite Hm. cbn [mbind option_bind]. cbn in Hv.
      rewrite (proj2 (Nat.leb_le _ _)) by (rewrite length_reverse; lia). reflexivity.
    + unfold Amf.store_mem. rewrite Hm. cbn [mbind option_bind]. rewrite (proj2 (Nat.leb_le _ _)) by (cbn [length]; lia). reflexivity.
    + unfold Amf.store_string, Amf.len_for. rewrite Ee. cbn [Amf.len_of Amf.elt_len]. rewrite (proj2 (Z.leb_gt _ _)) by lia.
      unfold Amf.store_mem. rewrite Hm. cbn [mbind option_bind]. rewrite (proj2 (Nat.leb_le _ _)) by len. cbn [mbind option_bind].
      rewrite lookup_insert_eq. cbn [mbind option_bind]. rewrite length_splice by len.
      rewrite (proj2 (Nat.leb_le _ _)) by (cbn [length]; len). f_equal. rewrite insert_insert_eq. f_equal.
      apply splice_twice. len.
  - match goal with |- _ = Some (<[a := ?y]> m) => assert (y = x) as -> end.
    { destruct v; try done; cbn [Amf.vtype] in Et; rewrite (proj2 (Z.eqb_neq _ _)) by congruence; done. }
    rewrite insert_id by done. apply assign_null. unfold Amf.place_for. rewrite Ee. cbn [Amf.type Amf.data].
    replace (Amf.ngx_rtmp_amf_is_compatible_type (Z.land t 255) (Amf.vtype v)) with false; [done|].
    destruct Ht as [Ht|[Ht|Ht]]; rewrite Ht in *; destruct v; try done; now destruct Et.
Qed.

(** The element of a key. *)
Lemma strncmp_same a b : length a = length b -> clean b -> Amf.strncmp_eq (length a) a b = bool_decide (a = b).
Proof.
  revert b. induction a as [|x a IH]; intros [|y b] Hl Hc; try discriminate; [reflexivity|]. cbn.
  injection Hl as Hl. apply Forall_cons in Hc as [Hy Hc].
  destruct (Z.eqb_spec x y) as [->|Hxy]; cbn [andb].
  - rewrite (proj2 (Z.eqb_neq y 0)) by done. cbn [orb]. rewrite IH by done. apply bool_decide_ext. split; [now intros ->|now intros [= ->]].
  - symmetry. apply bool_decide_eq_false_2. congruence.
Qed.

Lemma find_elt_key es k : Forall (fun e => clean (Amf.name e)) es ->
  Amf.find_elt es (Z.of_nat (length k)) k = List.find (fun e => bool_decide (k = Amf.name e)) es.
Proof.
  intros Hc. unfold Amf.find_elt. rewrite Nat2Z.id. induction Hc as [|e es He _ IH]; [reflexivity|]. cbn [List.find]. rewrite IH.
  replace (_ && _) with (bool_decide (k = Amf.name e)); [done|].
  destruct (Z.eqb_spec (Z.of_nat (length k)) (Z.of_nat (length (Amf.name e)))) as [E|E]; cbn [andb].
  - symmetry. apply strncmp_same; [lia|done].
  - apply bool_decide_eq_false_2. intros ->. done.
Qed.

(** The value of a property. *)
Definition prop (k : list Z) (kvs : list (list Z * Amf.val)) : option Amf.val :=
  snd <$> List.find (fun kv => bool_decide (fst kv = k)) kvs.
Definition put_prop (e : Amf.ngx_rtmp_amf_elt_t) (kvs : list (list Z * Amf.val)) (x : list Z) : list Z :=
  match prop (Amf.name e) kvs with Some v => put_in e x v | None => x end.

Lemma prop_none k kvs : k ∉ map fst kvs -> prop k kvs = None.
Proof.
  induction kvs as [|[k' v] kvs IH]; [done|]. cbn [map fst]. rewrite not_elem_of_cons. intros [Hk Hn].
  unfold prop. cbn [List.find fst]. rewrite bool_decide_eq_false_2 by congruence. now apply IH.
Qed.

Lemma prop_cons k k' v kvs : prop k ((k', v) :: kvs) = if bool_decide (k' = k) then Some v else prop k kvs.
Proof. unfold prop. cbn [List.find fst]. now case_bool_decide. Qed.

Lemma find_name (es : list Amf.ngx_rtmp_amf_elt_t) e : NoDup (map Amf.name es) -> e ∈ es ->
  List.find (fun e' => bool_decide (Amf.name e = Amf.name e')) es = Some e.
Proof.
  induction es as [|e' es IH]; cbn [map]; rewrite ?NoDup_cons, ?elem_of_cons; [inversion 2|]. intros [Hn Hd] [<-|He]; cbn [List.find].
  - now rewrite bool_decide_eq_true_2.
  - rewrite bool_decide_eq_false_2; [auto|]. intros E. apply Hn. rewrite <- E. apply list_elem_of_fmap. eauto.
Qed.

(** Reading an object into simple elements. *)
Lemma assign_object es kvs : NoDup (map Amf.name es) -> NoDup (map at_var es) -> Forall simple es ->
  Forall (fun e => clean (Amf.name e)) es -> NoDup (map fst kvs) -> Forall (fun kv => Amf.val_ok (snd kv)) kvs ->
  forall m, (forall e, e ∈ es -> exists x, m !! at_var e = Some x /\ room_for e x) ->
  exists m', Amf.assign_props es m kvs = Some m' /\
    (forall e x, e ∈ es -> m !! at_var e = Some x -> m' !! at_var e = Some (put_prop e kvs x)) /\
    (forall a, a ∉ map at_var es -> m' !! a = m !! a).
Proof.
  intros Hn Ha Hs Hc Hk Hv. induction kvs as [|[k v] kvs IH]; intros m Hm; [exists m; done|].
  cbn [map fst] in Hk. apply NoDup_cons in Hk as [Hnk Hk]. apply Forall_cons in Hv as [Hv Hvs]. cbn [snd] in Hv.
  cbn [Amf.assign_props]. rewrite find_elt_key by done.
  destruct (List.find (fun e => bool_decide (k = Amf.name e)) es) as [e|] eqn:Ef.
  - apply List.find_some in Ef as [Hin Ek]. apply list_elem_of_In in Hin. apply bool_decide_eq_true in Ek as ->.
    destruct (Hm e Hin) as (x & Ex & Hr). pose proof (proj1 (Forall_forall _ _) Hs e Hin) as Hse.
    rewrite (assign_simple m e x v) by done. cbn [mbind option_bind].
    assert (forall e', e' ∈ es -> e' = e \/ at_var e' <> at_var e /\ Amf.name e' <> Amf.name e) as Hdiff.
    { intros e' He'. destruct (decide (Amf.name e' = Amf.name e)) as [E|E].
      - left. pose proof (find_name es e' Hn He') as F1. pose proof (find_name es e Hn Hin) as F2. rewrite E in F1. congruence.
      - right. split; [|done]. intros Ea. apply E. f_equal. revert Ha He' Hin. clear -Ea.
        induction es as [|z l IHl]; [inversion 2|]. cbn [map]. rewrite NoDup_cons, !elem_of_cons.
        intros [Hz Hd] [->|H1] [->|H2]; auto; exfalso; apply Hz, list_elem_of_fmap; eauto. }
    destruct (IH Hk Hvs (<[at_var e := put_in e x v]> m)) as (m' & -> & H1 & H2).
    { intros e' He'. destruct (Hdiff e' He') as [->|[Da _]].
      - rewrite lookup_insert_eq. eexists. split; [done|]. unfold room_for in *. now rewrite put_in_length.
      - rewrite lookup_insert_ne by congruence. now apply Hm. }
    exists m'. split; [done|]. split.
    + intros e' x' He' Ex'. unfold put_prop. rewrite prop_cons. destruct (Hdiff e' He') as [->|[Da Dn]].
      * rewrite bool_decide_eq_true_2 by done. rewrite (H1 e (put_in e x v) He') by apply lookup_insert_eq.
        unfold put_prop. rewrite prop_none by done. congruence.
      * rewrite bool_decide_eq_false_2 by congruence.
        apply H1; [done|]. now rewrite lookup_insert_ne by congruence.
    + intros a Hna. rewrite H2 by done. apply lookup_insert_ne. intros <-. apply Hna, list_elem_of_fmap. eauto.
  - rewrite assign_null by done. cbn [mbind option_bind]. destruct (IH Hk Hvs m Hm) as (m' & -> & H1 & H2).
    exists m'. split; [done|]. split; [|done]. intros e x He Ex. rewrite (H1 e x He Ex). f_equal. unfold put_prop. rewrite prop_cons.
    rewrite bool_decide_eq_false_2; [done|]. intros ->.
    pose proof (List.find_none _ _ Ef e (proj1 (list_elem_of_In _ _) He)) as F. cbn in F. now rewrite bool_decide_eq_true_2 in F.
Qed.

(* ------------------------------------------------------------------ *)
(** ** The values of a command *)

Definition optional_elt (e : Amf.ngx_rtmp_amf_elt_t) : bool := Amf.has (Amf.type e) Amf.NGX_RTMP_AMF_OPTIONAL.

(** Values for the first elements. *)
Lemma read_front : forall vs fuel s es es2 r,
  Forall Amf.val_ok vs -> Forall Amf.plain_opt es -> length es = length vs -> Amf.ctx_ok (Amf.ctx s) ->
  Amf.rest (Amf.ctx s) = concat (map Amf.encode vs) ++ r -> (4 * length (concat (map Amf.encode vs)) <= fuel)%nat ->
  Amf.reads s (Amf.ngx_rtmp_amf_read fuel s (es ++ es2)) (Amf.assign_all (Amf.mem s) es vs) r
    (fun s => Amf.ngx_rtmp_amf_read (fuel - length vs) s es2).
Proof.
  induction vs as [|v vs IH]; intros fuel s es es2 r Hv He Hlen Hc Hr Hf;
    (destruct es as [|e es]; [|try done]); cbn [map concat Amf.assign_all length Datatypes.app] in *; try done.
  - exists (Amf.ctx s). rewrite Nat.sub_0_r. now destruct s.
  - apply Forall_cons in Hv as [Hv1 Hv]. apply Forall_cons in He as [He1 He].
    rewrite <- app_assoc in Hr. rewrite length_app in Hf. pose proof (Amf.encode_pos v) as Hpos.
    pose proof (proj1 (Amf.specs_hold fuel) v s e (es ++ es2) _ Hv1 He1 Hc Hr ltac:(lia)) as H.
    destruct (Amf.assign (Amf.mem s) e v) as [m1|].
    + destruct H as (c & -> & Hc1 & Hr1). rewrite some_bind.
      replace (fuel - S (length vs))%nat with (fuel - 1 - length vs)%nat by lia.
      apply (IH (fuel - 1)%nat (Amf.State c m1 (Amf.saved s)) es es2 r); auto; lia.
    + destruct H as (s' & ->). now exists s'.
Qed.

(** The end of the message. *)
Lemma read_end fuel s e es : Amf.ctx_ok (Amf.ctx s) -> Amf.rest (Amf.ctx s) = [] -> Amf.plain e -> Amf.is_variant e = false ->
  Amf.ngx_rtmp_amf_read (S fuel) s (Some e :: es) = Some (Amf.Ret (if optional_elt e then NGX_OK else NGX_ERROR), s).
Proof.
  intros Hc Hr Hp Hv. cbn [Amf.ngx_rtmp_amf_read]. unfold Amf.read_type, optional_elt.
  destruct e as [t nm d n]. cbn [Amf.type]. cbn [Amf.plain] in Hp. rewrite Hv in Hp.
  destruct Hp as [[H1%negb_true_iff H2]%andb_true_iff _]. rewrite H1.
  pose proof (Amf.get_spec s 1 ltac:(lia) Hc) as H. rewrite Hr in H. cbn [length Z.of_nat Z.leb Z.compare] in H. rewrite H. reflexivity.
Qed.

Lemma encode_lengths vs : (length vs <= length (concat (map Amf.encode vs)))%nat.
Proof.
  induction vs as [|v vs IH]; cbn [map concat length]; [lia|]. rewrite length_app. pose proof (Amf.encode_pos v). lia.
Qed.

Lemma assign_more : forall es vs m, Amf.assign_all m (take (length vs) es) vs = Amf.assign_all m es vs.
Proof.
  induction es as [|e es IH]; intros [|v vs] m; cbn [length take Amf.assign_all]; [done..|].
  destruct (Amf.assign m e v) as [m'|]; cbn [mbind option_bind]; [apply IH|done].
Qed.

Lemma assign_fewer : forall es vs m, Amf.assign_all m es (take (length es) vs) = Amf.assign_all m es vs.
Proof.
  induction es as [|e es IH]; intros [|v vs] m; cbn [length take Amf.assign_all]; [done..|].
  destruct (Amf.assign m e v) as [m'|]; cbn [mbind option_bind]; [apply IH|done].
Qed.

(** A command is read from any cutting of its values; values behind the last element are
    left, elements behind the last value must be optional. *)
Lemma receive_values chain vs es m m' : Forall Amf.val_ok vs -> concat chain = concat (map Amf.encode vs) ->
  Forall (fun e => Amf.plain e /\ Amf.is_variant e = false) es -> Amf.assign_all m (map Some es) vs = Some m' ->
  receive chain m es = Some (match es !! length vs with Some e => optional_elt e | None => true end, m').
Proof.
  intros Hv Hc He Ha. set (n := length vs). set (vs1 := take (length es) vs).
  assert (Forall Amf.plain_opt (map Some (take n es))) as Hp.
  { apply Forall_map, Forall_take. eapply Forall_impl; [exact He|]. intros e [H _]. exact H. }
  pose proof (encode_lengths vs) as Hl. fold n in Hl.
  pose proof (read_front vs1 (args_fuel chain (map Some es)) (Amf.State (Amf.Ctx chain 0) m ∅)
    (map Some (take n es)) (map Some (drop n es)) (concat (map Amf.encode (drop (length es) vs)))) as H.
  rewrite <- map_app, take_drop in H. cbn [Amf.mem Amf.ctx Amf.saved] in H.
  unfold receive, Receive.ngx_rtmp_receive_amf.
  assert (Amf.assign_all m (map Some (take n es)) vs1 = Some m') as Ea.
  { rewrite <- Ha. unfold vs1. change (map Some (take n es)) with (Some <$> take n es). rewrite fmap_take. change (Some <$> es) with (map Some es). unfold n.
    rewrite <- (length_map Some es). rewrite <- (assign_fewer (map Some es) vs m).
    destruct (Nat.le_ge_cases (length vs) (length (map Some es))).
    - rewrite (take_ge vs (length (map Some es))) by lia. apply assign_more.
    - now rewrite (take_ge (map Some es) (length vs)) by lia. }
  rewrite Ea in H. destruct H as (c & -> & Hok & Hr).
  - now apply Forall_take.
  - exact Hp.
  - unfold vs1, n. rewrite length_map, !length_take. lia.
  - destruct chain; cbn; lia.
  - unfold Amf.rest. cbn [Amf.link Amf.offset]. rewrite drop_0, Hc, <- concat_app, <- map_app. unfold vs1. now rewrite take_drop.
  - unfold args_fuel. rewrite Hc. rewrite <- (take_drop (length es) vs) at 1. rewrite map_app, concat_app, length_app. fold vs1. lia.
  - destruct (es !! n) as [e|] eqn:Ee.
    + pose proof (lookup_lt_Some _ _ _ Ee) as Hn. rewrite (drop_S es e n Ee). cbn [map].
      destruct (proj1 (Forall_lookup _ _) He n e Ee) as [Hp1 Hp2].
      destruct (args_fuel chain (map Some es) - length vs1)%nat as [|k] eqn:Ek.
      { unfold args_fuel in Ek. rewrite Hc in Ek. unfold vs1 in Ek. rewrite length_take in Ek. lia. }
      rewrite read_end; [|done| |done|done].
      * cbn [Amf.mem]. now destruct (optional_elt e).
      * cbn [Amf.ctx]. rewrite Hr, drop_ge by (unfold n in Hn; lia). reflexivity.
    + apply lookup_ge_None in Ee. rewrite drop_ge by done. cbn [map].
      destruct (args_fuel chain (map Some es) - length vs1)%nat; reflexivity.
Qed.

(** *** Elements and values *)

Definition var (e : Amf.ngx_rtmp_amf_elt_t) : option Amf.addr := match Amf.data e with Amf.DMem a => Some a | _ => None end.
Definition put_opt (e : Amf.ngx_rtmp_amf_elt_t) (x : list Z) (v : option Amf.val) : list Z :=
  match v with Some v => put_in e x v | None => x end.

Lemma simple_var e : simple e -> var e = Some (at_var e).
Proof. intros [H _]. unfold var. now rewrite H. Qed.

Lemma assign_list : forall es vs m, NoDup (omap var es) -> Forall (fun e => Amf.data e = Amf.DNull \/ simple e) es ->
  Forall Amf.val_ok vs -> (forall e, e ∈ es -> simple e -> exists x, m !! at_var e = Some x /\ room_for e x) ->
  exists m', Amf.assign_all m (map Some es) vs = Some m' /\
    forall k e x, es !! k = Some e -> simple e -> m !! at_var e = Some x -> m' !! at_var e = Some (put_opt e x (vs !! k)).
Proof.
  enough (forall es vs m, NoDup (omap var es) -> Forall (fun e => Amf.data e = Amf.DNull \/ simple e) es ->
    Forall Amf.val_ok vs -> (forall e, e ∈ es -> simple e -> exists x, m !! at_var e = Some x /\ room_for e x) ->
    exists m', Amf.assign_all m (map Some es) vs = Some m' /\
      (forall k e x, es !! k = Some e -> simple e -> m !! at_var e = Some x -> m' !! at_var e = Some (put_opt e x (vs !! k))) /\
      forall a, a ∉ omap var es -> m' !! a = m !! a) as H.
  { intros es vs m H1 H2 H3 H4. destruct (H es vs m H1 H2 H3 H4) as (m' & E & Hm & _). eauto. }
  induction es as [|e es IH]; intros [|v vs] m Hd He Hv Hm; [exists m; done..| |].
  { exists m. split; [done|]. split; [|done]. intros k e' x _ _ Hx. now rewrite lookup_nil. }
  apply Forall_cons in He as [He Hes]. apply Forall_cons in Hv as [Hv Hvs]. cbn [map Amf.assign_all].
  assert (NoDup (omap var es)) as Hd'.
  { cbn [omap list_omap] in Hd. destruct (var e); [now apply NoDup_cons in Hd as [_ Hd]|done]. }
  destruct He as [He|He].
  - rewrite assign_null.
    2: { destruct e as [t n d l]. cbn in He. subst d. unfold Amf.place_for, Amf.effective. cbn [Amf.type Amf.data]. now case_if. }
    cbn [mbind option_bind]. destruct (IH vs m Hd' Hes Hvs) as (m' & -> & H1 & H2).
    { intros e' Hin. apply Hm. now right. }
    exists m'. split; [done|]. split.
    + intros [|k] e' x; cbn [lookup list_lookup]; [|apply H1]. intros [= <-] [Hs _]. congruence.
    + intros a Ha. apply H2. cbn [omap list_omap] in Ha. unfold var at 1 in Ha. now rewrite He in Ha.
  - pose proof (simple_var e He) as Ev. cbn [omap list_omap] in Hd. rewrite Ev in Hd. apply NoDup_cons in Hd as [Hn Hd].
    destruct (Hm e (list_elem_of_here _ _) He) as (x0 & Ex & Hr). rewrite (assign_simple m e x0 v) by done.
    cbn [mbind option_bind]. set (m1 := <[at_var e := put_in e x0 v]> m).
    assert (forall e', e' ∈ es -> simple e' -> m1 !! at_var e' = m !! at_var e') as Hold.
    { intros e' Hin Hs. apply lookup_insert_ne. intros E. apply Hn. apply list_elem_of_omap. exists e'. split; [done|].
      rewrite E. now apply simple_var. }
    destruct (IH vs m1 Hd' Hes Hvs) as (m' & -> & H1 & H2).
    { intros e' Hin Hs. rewrite Hold by done. apply Hm; [now right|done]. }
    exists m'. split; [done|]. split.
    + intros [|k] e' x; cbn [lookup list_lookup].
      * intros [= <-] _ E. rewrite H2 by done. unfold m1. rewrite lookup_insert_eq. cbn. congruence.
      * intros Hk Hs Hx. apply H1; [done|done|]. rewrite Hold; [done| |done]. now apply list_elem_of_lookup_2 in Hk.
    + intros a Ha. cbn [omap list_omap] in Ha. rewrite Ev in Ha. apply not_elem_of_cons in Ha as [Ha1 Ha2].
      rewrite H2 by done. now apply lookup_insert_ne.
Qed.

(** What an argument stands for; another type or none is that of a cleared variable. *)
Definition string_of (v : option Amf.val) : list Z := match v with Some (Amf.VStr l) => l | _ => [] end.
Definition text_of (n : nat) (v : option Amf.val) : list Z := cstr (take (n - 1) (string_of v)).
Definition number_of (v : option Amf.val) : Z := match v with Some (Amf.VNum d) => be_val d | _ => 0 end.
Definition flag_of (v : option Amf.val) : Z := match v with Some (Amf.VBool b) => b | _ => 0 end.

Lemma put_text e n v : kind e = Amf.NGX_RTMP_AMF_STRING -> Amf.elt_len e = Z.of_nat n -> (0 < n)%nat ->
  put_opt e (replicate n 0) v = fit n (string_of v).
Proof.
  intros Hk Hl Hn. unfold put_opt, put_in, string_of. rewrite Hk, Hl. cbn [Z.eqb Pos.eqb Amf.NGX_RTMP_AMF_NUMBER Amf.NGX_RTMP_AMF_STRING Amf.NGX_RTMP_AMF_BOOLEAN].
  assert (fit n [] = replicate n 0) as E0 by (unfold fit; rewrite take_nil, Nat.sub_0_r; reflexivity).
  destruct v as [[]|]; try (symmetry; exact E0).
  unfold fit. replace (Z.to_nat (Z.of_nat n - 1)) with (n - 1)%nat by lia. set (t := take (n - 1) l).
  assert (length t <= n - 1)%nat by (unfold t; len).
  unfold splice. rewrite take_0. cbn [Datatypes.app Nat.add]. rewrite drop_replicate, <- app_assoc. f_equal.
  rewrite length_app. cbn [length]. replace (n - length t)%nat with (S (n - (length t + 1)))%nat by lia. reflexivity.
Qed.

Lemma put_number e v : kind e = Amf.NGX_RTMP_AMF_NUMBER -> match v with Some v => Amf.val_ok v | None => True end ->
  le_val (put_opt e (replicate 8 0) v) = number_of v.
Proof.
  intros Hk Hv. unfold put_opt, put_in, number_of. rewrite Hk.
  cbn [Z.eqb Pos.eqb Amf.NGX_RTMP_AMF_NUMBER Amf.NGX_RTMP_AMF_STRING Amf.NGX_RTMP_AMF_BOOLEAN].
  destruct v as [[]|]; try reflexivity. cbn in Hv. unfold splice.
  rewrite take_0, drop_ge by (rewrite length_replicate, length_reverse; lia). rewrite app_nil_r. cbn [Datatypes.app].
  unfold le_val. now rewrite reverse_involutive.
Qed.

Lemma put_flag e v : kind e = Amf.NGX_RTMP_AMF_BOOLEAN -> le_val (put_opt e (replicate 4 0) v) = flag_of v.
Proof.
  intros Hk. unfold put_opt, put_in, flag_of. rewrite Hk.
  cbn [Z.eqb Pos.eqb Amf.NGX_RTMP_AMF_NUMBER Amf.NGX_RTMP_AMF_STRING Amf.NGX_RTMP_AMF_BOOLEAN].
  now destruct v as [[]|].
Qed.

Lemma num_number m e v : kind e = Amf.NGX_RTMP_AMF_NUMBER -> match v with Some v => Amf.val_ok v | None => True end ->
  m !! at_var e = Some (put_opt e (replicate 8 0) v) -> num m (at_var e) = Some (number_of v).
Proof. intros Hk Hv E. unfold num. rewrite E. cbn. now rewrite put_number. Qed.

Lemma num_flag m e v : kind e = Amf.NGX_RTMP_AMF_BOOLEAN ->
  m !! at_var e = Some (put_opt e (replicate 4 0) v) -> num m (at_var e) = Some (flag_of v).
Proof. intros Hk E. unfold num. rewrite E. cbn [fmap option_fmap option_map]. now rewrite put_flag. Qed.

(** Facts on the elements of a table. *)
Ltac each_element := repeat first [apply Forall_cons; split | apply Forall_nil_2].

Lemma read_command chain vs es m : Forall Amf.val_ok vs -> concat chain = concat (map Amf.encode vs) ->
  NoDup (omap var es) -> Forall (fun e => Amf.data e = Amf.DNull \/ simple e) es ->
  Forall (fun e => Amf.plain e /\ Amf.is_variant e = false) es ->
  Forall (fun e => simple e -> exists x, m !! at_var e = Some x /\ room_for e x) es ->
  exists m', receive chain m es = Some (match es !! length vs with Some e => optional_elt e | None => true end, m') /\
    forall k e x, es !! k = Some e -> simple e -> m !! at_var e = Some x -> m' !! at_var e = Some (put_opt e x (vs !! k)).
Proof.
  intros Hv Hc Hd He Hp Hm. destruct (assign_list es vs m Hd He Hv) as (m' & Ea & H).
  { intros e Hin. now apply (proj1 (Forall_forall _ _) Hm). }
  exists m'. split; [|done]. now apply receive_values.
Qed.

Lemma publish_read chain vs : Forall Amf.val_ok vs -> concat chain = concat (map Amf.encode vs) ->
  exists m, receive chain publish_vars publish_elts = Some ((2 <? length vs)%nat, m) /\
    m !! 0%nat = Some (fit 256 (string_of (vs !! 2%nat))) /\ m !! 1%nat = Some (fit 16 (string_of (vs !! 3%nat))).
Proof.
  intros Hv Hc. destruct (read_command chain vs publish_elts publish_vars Hv Hc) as (m & E & Hm).
  - apply (bool_decide_unpack _). vm_compute. done.
  - each_element; first [now left|right; split; [reflexivity|vm_compute; auto]].
  - each_element; repeat split.
  - each_element; intros [Hs _]; try discriminate Hs; (eexists; split; [reflexivity|]); vm_compute; split; congruence.
  - exists m. split; [|split].
    + rewrite E. do 2 f_equal. now destruct vs as [|v0 [|v1 [|v2 [|v3 vs]]]].
    + rewrite <- (put_text (text EmptyString 0 256)) by (reflexivity || lia).
      apply (Hm 2%nat (text EmptyString 0 256)); [reflexivity|split; [reflexivity|vm_compute; auto]|reflexivity].
    + rewrite <- (put_text (optional Amf.NGX_RTMP_AMF_STRING 1 16)) by (reflexivity || lia).
      apply (Hm 3%nat (optional Amf.NGX_RTMP_AMF_STRING 1 16)); [reflexivity|split; [reflexivity|vm_compute; auto]|reflexivity].
Qed.

Lemma play_read chain vs : Forall Amf.val_ok vs -> concat chain = concat (map Amf.encode vs) ->
  exists m, receive chain play_vars play_elts = Some ((2 <? length vs)%nat, m) /\
    m !! 0%nat = Some (fit 256 (string_of (vs !! 2%nat))) /\ num m 1%nat = Some (number_of (vs !! 3%nat)) /\
    num m 2%nat = Some (number_of (vs !! 4%nat)) /\ num m 3%nat = Some (flag_of (vs !! 5%nat)).
Proof.
  intros Hv Hc. destruct (read_command chain vs play_elts play_vars Hv Hc) as (m & E & Hm).
  - apply (bool_decide_unpack _). vm_compute. done.
  - each_element; first [now left|right; split; [reflexivity|vm_compute; auto]].
  - each_element; repeat split.
  - each_element; intros [Hs _]; try discriminate Hs; (eexists; split; [reflexivity|]); vm_compute; try split; try congruence; lia.
  - assert (forall k, match vs !! k with Some v => Amf.val_ok v | None => True end) as Hk.
    { intros k. destruct (vs !! k) as [v|] eqn:Ev; [|done]. exact (proj1 (Forall_lookup _ _) Hv k v Ev). }
    exists m. split; [|split; [|split; [|split]]].
    + rewrite E. do 2 f_equal. now destruct vs as [|v0 [|v1 [|v2 [|v3 [|v4 [|v5 vs]]]]]].
    + rewrite <- (put_text (text EmptyString 0 256)) by (reflexivity || lia).
      apply (Hm 2%nat (text EmptyString 0 256)); [reflexivity|split; [reflexivity|vm_compute; auto]|reflexivity].
    + apply (num_number m (optional Amf.NGX_RTMP_AMF_NUMBER 1 0)); [reflexivity|exact (Hk 3%nat)|].
      apply (Hm 3%nat); [reflexivity|split; [reflexivity|vm_compute; auto]|reflexivity].
    + apply (num_number m (optional Amf.NGX_RTMP_AMF_NUMBER 2 0)); [reflexivity|exact (Hk 4%nat)|].
      apply (Hm 4%nat); [reflexivity|split; [reflexivity|vm_compute; auto]|reflexivity].
    + apply (num_flag m (optional Amf.NGX_RTMP_AMF_BOOLEAN 3 0)); [reflexivity|].
      apply (Hm 5%nat); [reflexivity|split; [reflexivity|vm_compute; auto]|reflexivity].
Qed.

(** The name of a stream and its arguments as the session and the modules get them. *)
Definition stream_name (v : option Amf.val) : list Z * list Z := split_args (text_of 256 v).
Definition named (i : sid) (nm : list Z) (s : csession) (w : world) : world :=
  set_csess (<[i := set_s_name (splice 0 nm (s_name s)) s]> (csess w)) w.

Lemma name_filled v : exists a x, ngx_rtmp_cmd_fill_args (fit 256 (string_of v)) (replicate NGX_RTMP_MAX_ARGS 0) = Some (a, x) /\
  string_at a 0 = Some (fst (stream_name v)) /\ cstr x = snd (stream_name v).
Proof.
  destruct (fill_args_spec 256 (fit 256 (string_of v)) (text_of 256 v) (fit_holds 256 (string_of v) ltac:(lia)) (Nat.le_refl _))
    as (a & x & -> & Ha & (_ & Hc & tl & ->)).
  exists a, (snd (split_args (text_of 256 v)) ++ 0 :: tl). split; [done|].
  split; [exact (holds_string _ _ _ Ha)|]. now apply cstr_app.
Qed.

Lemma upd_csession_spec i f s w : csess w !! i = Some s ->
  upd_csession i f w = Some (tt, set_csess (<[i := f s]> (csess w)) w).
Proof. intros E. unfold upd_csession, csession_of, access, modify, mbind, K_bind. now rewrite E. Qed.

Lemma set_stream_name_spec i nm s w : csess w !! i = Some s -> set_stream_name i nm w = Some (tt, named i nm s w).
Proof. apply upd_csession_spec. Qed.

(** C14: The commands publish and play, whatever the values of the client are and
    however their bytes are cut, call the next module with the name in front of the
    question mark, the arguments behind it and the other values, each cut to the room
    of its variable, those that are missing or of another type as zero; the session
    gets the name.  A command without a name is refused and changes nothing. *)
Theorem stream_commands publish play i chain vs w s :
  csess w !! i = Some s -> Forall Amf.val_ok vs -> concat chain = concat (map Amf.encode vs) ->
  let '(nm, args) := stream_name (vs !! 2%nat) in
  ngx_rtmp_cmd_publish_init publish i chain w =
    (if (2 <? length vs)%nat
     then publish i (Publish nm args false) (text_of 16 (vs !! 3%nat)) (named i nm s w)
     else Some (NGX_ERROR, w)) /\
  ngx_rtmp_cmd_play_init play i chain w =
    (if (2 <? length vs)%nat
     then play i (Play nm args (number_of (vs !! 3%nat)) (number_of (vs !! 4%nat)) (flag_of (vs !! 5%nat)) false) (named i nm s w)
     else Some (NGX_ERROR, w)).
Proof.
  intros Es Hv Hc. destruct (stream_name (vs !! 2%nat)) as [nm args] eqn:En.
  destruct (name_filled (vs !! 2%nat)) as (a & x & Ef & Ha & Hx). rewrite En in Ha, Hx. cbn [fst snd] in Ha, Hx.
  split.
  - destruct (publish_read chain vs Hv Hc) as (m & Er & H0 & H1).
    unfold ngx_rtmp_cmd_publish_init, access. unfold mbind, K_bind. rewrite Er. destruct (2 <? length vs)%nat; cbn [negb]; [|reflexivity].
    rewrite H0, H1, Ef, Ha, (set_stream_name_spec i nm s w Es), Hx.
    rewrite (fit_cstr 16) by lia. reflexivity.
  - destruct (play_read chain vs Hv Hc) as (m & Er & H0 & H1 & H2 & H3).
    unfold ngx_rtmp_cmd_play_init, access. unfold mbind, K_bind. rewrite Er. destruct (2 <? length vs)%nat; cbn [negb]; [|reflexivity].
    now rewrite H0, H1, H2, H3, Ef, Ha, (set_stream_name_spec i nm s w Es), Hx.
Qed.

(** *** connect *)

(** The properties of the second value, and one of them. *)
Definition properties (v : option Amf.val) : list (list Z * Amf.val) :=
  match v with Some (Amf.VObj kvs) | Some (Amf.VMix _ kvs) => kvs | _ => [] end.

Lemma props_vals kvs : Amf.props_ok kvs -> Forall (fun kv => Amf.val_ok (snd kv)) kvs.
Proof. induction kvs as [|[k v] kvs IH]; [constructor|]. cbn. intros (_ & _ & Hv & Hk). auto. Qed.

Lemma properties_ok v : match v with Some v => Amf.val_ok v | None => True end ->
  Forall (fun kv => Amf.val_ok (snd kv)) (properties v).
Proof. destruct v as [[]|]; try (now constructor); cbn; intros H; apply props_vals; [exact H|apply H]. Qed.

Definition trans_elt : Amf.ngx_rtmp_amf_elt_t := number EmptyString 0.

Lemma connect_cmd_simple : Forall simple connect_cmd.
Proof. unfold connect_cmd. each_element; (split; [reflexivity|vm_compute; auto]). Qed.

Lemma connect_room e : e ∈ connect_cmd -> exists x, connect_vars !! at_var e = Some x /\ room_for e x.
Proof.
  revert e. apply Forall_forall. unfold connect_cmd.
  each_element; (eexists; split; [reflexivity|]); vm_compute; try split; try congruence; lia.
Qed.

Lemma connect_assign vs : Forall Amf.val_ok vs -> NoDup (map fst (properties (vs !! 1%nat))) ->
  exists m, Amf.assign_all connect_vars (map Some connect_elts) vs = Some m /\
    m !! 0%nat = Some (put_opt trans_elt (replicate 8 0) (vs !! 0%nat)) /\
    forall e x, e ∈ connect_cmd -> connect_vars !! at_var e = Some x ->
      m !! at_var e = Some (put_prop e (properties (vs !! 1%nat)) x).
Proof.
  intros Hv Hd.
  assert (forall e, e ∈ connect_cmd -> at_var e <> 0%nat) as H0.
  { apply Forall_forall. unfold connect_cmd. each_element; discriminate. }
  destruct vs as [|v0 vs]; [exists connect_vars; split; [reflexivity|split; [reflexivity|done]]|].
  apply Forall_cons in Hv as [Hv0 Hv]. unfold connect_elts. cbn [map Amf.assign_all]. fold trans_elt.
  rewrite (assign_simple connect_vars trans_elt (replicate 8 0) v0);
    [|split; [reflexivity|vm_compute; auto]|reflexivity|vm_compute; lia|done].
  cbn [mbind option_bind]. set (m0 := <[at_var trans_elt := _]> connect_vars).
  assert (m0 !! 0%nat = Some (put_in trans_elt (replicate 8 0) v0)) as Em by apply lookup_insert_eq.
  assert (forall e, e ∈ connect_cmd -> m0 !! at_var e = connect_vars !! at_var e) as Hold.
  { intros e He. apply lookup_insert_ne. change (at_var trans_elt) with 0%nat. intros E. now apply (H0 e He). }
  destruct vs as [|v1 vs].
  { exists m0. split; [reflexivity|]. split; [exact Em|]. intros e x He Ex. cbn [lookup list_lookup properties]. now rewrite Hold. }
  apply Forall_cons in Hv as [Hv1 _]. cbn [lookup list_lookup] in *.
  assert (exists m, Amf.assign m0 (Some (object connect_cmd)) v1 = Some m /\
    (forall e x, e ∈ connect_cmd -> m0 !! at_var e = Some x -> m !! at_var e = Some (put_prop e (properties (Some v1)) x)) /\
    (forall a, a ∉ map at_var connect_cmd -> m !! a = m0 !! a)) as (m & -> & H1 & H2).
  { pose proof (properties_ok (Some v1) Hv1) as Hp.
    destruct (assign_object connect_cmd (properties (Some v1))) with (m := m0) as (m & Ea & H1 & H2).
    - apply (bool_decide_unpack _). vm_compute. done.
    - apply (bool_decide_unpack _). vm_compute. done.
    - exact connect_cmd_simple.
    - unfold connect_cmd. each_element; apply (bool_decide_unpack _); vm_compute; done.
    - done.
    - done.
    - intros e He. rewrite Hold by done. now apply connect_room.
    - exists m. split; [|done]. destruct v1; first [rewrite assign_null; [exact Ea|reflexivity]|rewrite Amf.assign_eq; exact Ea]. }
  cbn [mbind option_bind]. exists m. split; [reflexivity|]. split.
  - rewrite H2; [exact Em|]. intros (e & E & He)%list_elem_of_fmap. now apply (H0 e He).
  - intros e x He Ex. apply H1; [done|]. now rewrite Hold.
Qed.

(** What the client says, by the names of the properties. *)
Definition said_text (kvs : list (list Z * Amf.val)) (k : string) : list Z := string_of (prop (str k) kvs).
Definition said_number (kvs : list (list Z * Amf.val)) (k : string) : Z := number_of (prop (str k) kvs).
Definition arguments (trans : Z) (kvs : list (list Z * Amf.val)) (app args : list Z) : ngx_rtmp_connect_t :=
  Connect trans app args (fit 32 (said_text kvs "flashVer")) (fit 256 (said_text kvs "swfUrl"))
    (fit 256 (said_text kvs "tcUrl")) (said_number kvs "audioCodecs") (said_number kvs "videoCodecs")
    (fit 256 (said_text kvs "pageUrl")) (said_number kvs "objectEncoding") (said_number kvs "relayType").

Lemma connect_read chain vs : Forall Amf.val_ok vs -> concat chain = concat (map Amf.encode vs) ->
  NoDup (map fst (properties (vs !! 1%nat))) ->
  exists m, receive chain connect_vars connect_elts = Some ((1 <? length vs)%nat, m) /\
    connect_of m = Some (arguments (number_of (vs !! 0%nat)) (properties (vs !! 1%nat))
      (fit 256 (said_text (properties (vs !! 1%nat)) "app")) (replicate NGX_RTMP_MAX_ARGS 0)).
Proof.
  intros Hv Hc Hd. destruct (connect_assign vs Hv Hd) as (m & Ea & H0 & H1).
  set (kvs := properties (vs !! 1%nat)) in *. exists m. split.
  - rewrite (receive_values chain vs connect_elts connect_vars m Hv Hc); [|each_element; repeat split|exact Ea].
    do 2 f_equal. now destruct vs as [|v0 [|v1 vs]].
  - assert (Forall (fun kv => Amf.val_ok (snd kv)) kvs) as Hk.
    { apply properties_ok. destruct (vs !! 1%nat) as [v|] eqn:E; [|done]. exact (proj1 (Forall_lookup _ _) Hv 1%nat v E). }
    assert (forall k, match prop k kvs with Some v => Amf.val_ok v | None => True end) as Hp.
    { intros k. unfold prop. destruct (List.find _ kvs) as [[k' v]|] eqn:E; [|done]. apply List.find_some in E as [Hin _].
      apply list_elem_of_In in Hin. exact (proj1 (Forall_forall _ _) Hk _ Hin). }
    assert (forall nm a n, text nm a (Z.of_nat n) ∈ connect_cmd -> connect_vars !! a = Some (replicate n 0) -> (0 < n)%nat ->
      m !! a = Some (fit n (said_text kvs nm))) as Ht.
    { intros nm a n Hin Ex Hn. refine (eq_trans (H1 (text nm a (Z.of_nat n)) _ Hin Ex) _).
      f_equal. now apply (put_text (text nm a (Z.of_nat n))). }
    assert (forall nm a, number nm a ∈ connect_cmd -> connect_vars !! a = Some (replicate 8 0) ->
      num m a = Some (said_number kvs nm)) as Hn.
    { intros nm a Hin Ex. apply (num_number m (number nm a)); [reflexivity|apply Hp|]. exact (H1 (number nm a) _ Hin Ex). }
    assert (num m 0%nat = Some (number_of (vs !! 0%nat))) as E0.
    { apply (num_number m trans_elt); [reflexivity| |exact H0].
      destruct (vs !! 0%nat) as [v|] eqn:E; [|done]. exact (proj1 (Forall_lookup _ _) Hv 0%nat v E). }
    unfold connect_of. rewrite E0.
    rewrite (Ht "app" 1%nat 256%nat), (Ht "flashVer" 2%nat 32%nat), (Ht "swfUrl" 3%nat 256%nat), (Ht "tcUrl" 4%nat 256%nat),
      (Hn "audioCodecs" 5%nat), (Hn "videoCodecs" 6%nat), (Ht "pageUrl" 7%nat 256%nat), (Hn "objectEncoding" 8%nat),
      (Hn "relayType" 9%nat) by (first [lia|reflexivity|unfold connect_cmd; repeat first [apply list_elem_of_here|apply list_elem_of_further]]).
    reflexivity.
Qed.

(** The server for a session: that of its address, another one, or none. *)
Inductive choice := Stay | Serve (n : nat) | Refuse.

Definition choose (relay : bool) (s : csession) (svs : list ngx_rtmp_core_srv_conf_t) : choice :=
  if relay then match named_server (host_in s) svs with Some n => Serve n | None => Refuse end
  else match virtual_names s with
       | None => Stay
       | Some names => match names (host_in s) with Some n => Serve n | None => Refuse end
       end.

(** The session, with [s] in this module and [x] in the process, behind the choice. *)
Definition settle (i : sid) (c : choice) (s : csession) (x : session) (w : world) : world :=
  match c with
  | Stay => w
  | Serve n => set_csess (<[i := set_confs (ctx_app_conf <$> servers w !! n) n s]> (csess w)) w
  | Refuse => set_net (set_sessions (<[i := finalize x]> (sessions (net w))) (net w)) w
  end.

Lemma relay_prefix t : take 9 (fit 32 t) = NGX_RTMP_RELAY_NAME <-> take 9 t = NGX_RTMP_RELAY_NAME.
Proof.
  unfold fit. change (32 - 1)%nat with 31%nat. destruct (Nat.le_gt_cases 9 (length t)) as [H|H].
  - rewrite take_app_le by len. now rewrite take_take, Nat.min_l by lia.
  - rewrite (take_ge t 31), (take_ge t 9) by lia. split; intros E.
    + exfalso. assert ((t ++ replicate (32 - length t) 0) !! length t = Some 0) as H0.
      { rewrite lookup_app_r by lia. rewrite Nat.sub_diag. apply lookup_replicate. split; [done|lia]. }
      rewrite <- (lookup_take_lt _ 9) in H0 by lia. rewrite E in H0. apply list_elem_of_lookup_2 in H0.
      revert H0. apply (bool_decide_unpack _). vm_compute. done.
    + exfalso. apply (f_equal length) in E. change (length NGX_RTMP_RELAY_NAME) with 9%nat in E. lia.
Qed.

Lemma virtual_server_set i v w s x c : csess w !! i = Some s -> sessions (net w) !! i = Some x ->
  choose (bool_decide (take 9 (v_flashver v) = NGX_RTMP_RELAY_NAME)) s (servers w) = c ->
  match c with Serve n => is_Some (servers w !! n) | _ => True end ->
  exists rc, ngx_rtmp_set_virtual_server i v w = Some (rc, settle i c s x w).
Proof.
  intros Es Ex Hc Hn. unfold ngx_rtmp_set_virtual_server, csession_of, access, gets. unfold mbind, K_bind. rewrite Es.
  unfold choose in Hc.
  assert (lift (Live.ngx_rtmp_finalize_session i) w = Some (tt, settle i Refuse s x w)) as Ef.
  { unfold lift, Live.ngx_rtmp_finalize_session, Live.upd_session, Live.session_of, Live.access, Live.modify, mbind, M_bind.
    now rewrite Ex. }
  assert (forall n sv, servers w !! n = Some sv ->
    (sv ← server_of n; upd_csession i (set_confs (Some (ctx_app_conf sv)) n);; mret NGX_OK) w = Some (NGX_OK, settle i (Serve n) s x w)) as Eo.
  { intros n sv En. unfold server_of, access, upd_csession, csession_of, access, modify, mbind, K_bind, settle. now rewrite En, Es. }
  unfold mbind, K_bind in Eo. case_bool_decide.
  - destruct (named_server (host_in s) (servers w)) as [n|]; subst c.
    + destruct Hn as [sv En]. exists NGX_OK. exact (Eo n sv En).
    + exists NGX_ERROR. now rewrite Ef.
  - unfold ngx_rtmp_find_virtual_server. destruct (virtual_names s) as [names|]; [|subst c; now exists NGX_OK].
    destruct (names (host_in s)) as [n|]; subst c.
    + destruct Hn as [sv En]. exists NGX_OK. exact (Eo n sv En).
    + exists NGX_ERROR. now rewrite Ef.
Qed.

(** The command connect up to the next module. *)
Lemma connect_parsed connect i chain vs w s x rc s2 :
  csess w !! i = Some s -> sessions (net w) !! i = Some x ->
  Forall Amf.val_ok vs -> concat chain = concat (map Amf.encode vs) ->
  let kvs := properties (vs !! 1%nat) in
  NoDup (map fst kvs) ->
  let s1 := set_page_url (text_of 256 (prop (str "pageUrl") kvs)) s in
  ngx_rtmp_cmd_parse_tcurl (fit 256 (said_text kvs "tcUrl")) s1 = Some (rc, s2) ->
  let relay := bool_decide (take 9 (said_text kvs "flashVer") = NGX_RTMP_RELAY_NAME) in
  let c := if is_ok rc then choose relay s2 (servers w) else Stay in
  match c with Serve n => is_Some (servers w !! n) | _ => True end ->
  if (1 <? length vs)%nat then
    let nm := split_args (trimmed (text_of 256 (prop (str "app") kvs))) in
    exists app args, holds 256 app (fst nm) /\ holds 256 args (snd nm) /\
      ngx_rtmp_cmd_connect_init connect i chain w =
        connect i (arguments (number_of (vs !! 0%nat)) kvs app args)
          (settle i c s2 x (set_csess (<[i := s2]> (csess w)) w))
  else ngx_rtmp_cmd_connect_init connect i chain w = Some (NGX_ERROR, w).
Proof.
  intros Es Ex Hv Hc kvs Hd s1 Ep relay c Hn. destruct (connect_read chain vs Hv Hc Hd) as (m & Er & Em). fold kvs in Em.
  unfold ngx_rtmp_cmd_connect_init, access. unfold mbind, K_bind. rewrite Er.
  destruct (1 <? length vs)%nat; cbn [negb]; [|reflexivity]. rewrite Em. cbn [v_app arguments].
  destruct (trim_app_spec 256 _ _ (fit_holds 256 (said_text kvs "app") ltac:(lia))) as (a & -> & Ha).
  destruct (fill_args_spec 256 a _ Ha (Nat.le_refl _)) as (app & args & Ef & Happ & Hargs). cbn [v_args arguments]. rewrite Ef.
  exists app, args. split; [exact Happ|]. split; [exact Hargs|].
  cbn [v_trans v_flashver v_swf_url v_tc_url v_acodecs v_vcodecs v_page_url v_object_encoding v_relay_type arguments].
  unfold SET_STRPAR. rewrite (holds_string _ _ _ (fit_holds 256 (said_text kvs "pageUrl") ltac:(lia))).
  fold (arguments (number_of (vs !! 0%nat)) kvs app args). set (v := arguments _ kvs app args).
  rewrite (upd_csession_spec i _ s w Es). change (set_page_url _ s) with s1. set (w1 := set_csess _ w).
  assert (csess w1 !! i = Some s1) as E1 by apply lookup_insert_eq.
  unfold csession_of at 1, access at 1. rewrite E1, Ep, (upd_csession_spec i _ s1 w1 E1).
  set (w2 := set_csess _ w1).
  assert (w2 = set_csess (<[i := s2]> (csess w)) w) as E2.
  { unfold w2, w1, set_csess. cbn [csess net servers static_trans static_close static_delete]. now rewrite insert_insert_eq. }
  rewrite <- E2. unfold c in *. destruct (is_ok rc); [|reflexivity].
  destruct (virtual_server_set i v w2 s2 x (choose relay s2 (servers w))) as (rc' & ->).
  - unfold w2. apply lookup_insert_eq.
  - exact Ex.
  - unfold v. cbn [v_flashver arguments]. f_equal. unfold relay. apply bool_decide_ext, relay_prefix.
  - exact Hn.
  - reflexivity.
Qed.

(** C12: The command connect, whatever its properties are and in whatever order and
    cutting they come, calls the next module with the name of the application without
    its arguments, an instance name or a slash at its end, the arguments and the other
    properties, each cut to the room of its variable; the session has the page and the
    host of the URL, and the server of this host where the address has servers.  Without
    an object it is refused and changes nothing. *)
Theorem connect_understood connect i chain vs w s x rc s2 :
  csess w !! i = Some s -> sessions (net w) !! i = Some x ->
  Forall Amf.val_ok vs -> concat chain = concat (map Amf.encode vs) ->
  let kvs := properties (vs !! 1%nat) in
  NoDup (map fst kvs) ->
  let s1 := set_page_url (text_of 256 (prop (str "pageUrl") kvs)) s in
  ngx_rtmp_cmd_parse_tcurl (fit 256 (said_text kvs "tcUrl")) s1 = Some (rc, s2) ->
  let relay := bool_decide (take 9 (said_text kvs "flashVer") = NGX_RTMP_RELAY_NAME) in
  let c := if is_ok rc then choose relay s2 (servers w) else Stay in
  match c with Serve n => is_Some (servers w !! n) | _ => True end ->
  if (1 <? length vs)%nat then
    let nm := split_args (trimmed (text_of 256 (prop (str "app") kvs))) in
    exists app args, holds 256 app (fst nm) /\ holds 256 args (snd nm) /\
      ngx_rtmp_cmd_connect_init connect i chain w =
        connect i (arguments (number_of (vs !! 0%nat)) kvs app args)
          (settle i c s2 x (set_csess (<[i := s2]> (csess w)) w))
  else ngx_rtmp_cmd_connect_init connect i chain w = Some (NGX_ERROR, w).
Proof. intros Es Ex Hv Hc kvs Hd s1 Ep relay c Hn. exact (connect_parsed connect i chain vs w s x rc s2 Es Ex Hv Hc Hd Ep Hn). Qed.

(* ------------------------------------------------------------------ *)
(** ** Answers *)

Section Answers.
Context (size : nat) (qmax : Z) (cscf : Chunk.ngx_rtmp_core_srv_conf_t).
Hypothesis size_pos : (22 <= size)%nat.
Hypothesis max_streams : NGX_RTMP_CSID_VIDEO < Chunk.max_streams cscf.
Hypothesis fix_same : Chunk.play_time_fix cscf = Chunk.publish_time_fix cscf.

#[local] Abbreviation pool_ok := (LiveOut.pool_ok size qmax []).
























(** *** The whole command *)







End Answers.

(* ------------------------------------------------------------------ *)
(** ** Examples *)

(** A session that has just come in at an address with two servers. *)
Definition calm : process :=
  Process (empty_pool 4096) {[1%nat := LiveAv.new_session None]} ∅ [] [] ∅ []
    0 0 Bandwidth.bw_zero Bandwidth.bw_zero 0 0.
Definition fresh : csession :=
  CSess false [] [] [] [] [] [] 0 0 [] [] (replicate 256 0) None 0 None.
Definition start : world := World calm {[1%nat := fresh]} [] (replicate 8 0) (replicate 8 0) (replicate 8 0).

Definition published : list Amf.val :=
  [Amf.VNum (replicate 8 0); Amf.VNull; Amf.VStr (str "cam?key=1"); Amf.VStr (str "live")].

Lemma stream_commands_witness :
  let chain := [take 20 (concat (map Amf.encode published)); drop 20 (concat (map Amf.encode published))] in
  let hook := fun i v t w => Some (NGX_OK, set_trans (pv_name v ++ [0] ++ pv_args v ++ [0] ++ t) w) in
  (static_trans <$> (snd <$> ngx_rtmp_cmd_publish_init hook 1%nat chain start)) =
    Some (str "cam" ++ [0] ++ str "key=1" ++ [0] ++ str "live").
Proof.
  intros chain hook.
  destruct (stream_commands hook (fun _ _ => mret NGX_OK) 1%nat chain published start fresh) as [E _].
  - reflexivity.
  - repeat constructor.
  - reflexivity.
  - rewrite E. vm_compute. reflexivity.
Defined.

Lemma tcurl_parsed_witness :
  let url := str "rtmp://example.com:1936/live" in
  exists s, ngx_rtmp_cmd_parse_tcurl (fit NGX_RTMP_MAX_URL url) fresh = Some (NGX_OK, s) /\
    host_in s = str "example.com" /\ port_in s = str "1936".
Proof.
  intros url.
  assert (clean url) as Hc by (apply (bool_decide_unpack _); vm_compute; done).
  destruct (tcurl_parsed url fresh ltac:(cbn; lia) Hc) as [H _].
  eexists. split.
  - apply (H (str "rtmp") (str "example.com") (str "1936") (str "live")).
    + reflexivity.
    + apply not_within; [discriminate|reflexivity].
    + apply not_within; [discriminate|reflexivity].
    + intros Hin. repeat destruct Hin as [Hin|Hin]; discriminate || done.
    + intros Hin. repeat destruct Hin as [Hin|Hin]; discriminate || done.
  - split; reflexivity.
Defined.


(** A server with the application "live". *)
Definition hall : world :=
  World calm {[1%nat := fresh]} [Srv [] [(str "live", 7%nat)] 3 5000000 4096] (replicate 8 0) (replicate 8 0) (replicate 8 0).


(** A command as a client sends it, in two buffers. *)
Definition connecting (application url : string) : list (list Z) :=
  let bytes := concat (map Amf.encode
    [Amf.VNum (be_bytes 8 (Double.double_of_uint 1));
     Amf.VObj [(str "tcUrl", Amf.VStr (str url)); (str "app", Amf.VStr (str application)); (str "flashVer", Amf.VStr (str "LNX 11"))]]) in
  [take 30 bytes; drop 30 bytes].

Lemma connect_understood_witness :
  let hook := fun i v w => Some (NGX_OK, set_trans (default [] (string_at (v_app v) 0) ++ [0] ++ default [] (string_at (v_args v) 0)) w) in
  exists w, ngx_rtmp_cmd_connect_init hook 1%nat (connecting "live?key=1" "rtmp://example.com:1936/live") hall = Some (NGX_OK, w) /\
    static_trans w = str "live" ++ [0] ++ str "key=1" /\ host_in <$> csess w !! 1%nat = Some (str "example.com").
Proof.
  intros hook.
  set (vs := [Amf.VNum (be_bytes 8 (Double.double_of_uint 1));
     Amf.VObj [(str "tcUrl", Amf.VStr (str "rtmp://example.com:1936/live")); (str "app", Amf.VStr (str "live?key=1"));
               (str "flashVer", Amf.VStr (str "LNX 11"))]]).
  destruct (connect_understood hook 1%nat (connecting "live?key=1" "rtmp://example.com:1936/live") vs hall fresh
    (LiveAv.new_session None) NGX_OK (set_port_in (str "1936") (set_host_in (str "example.com") fresh))) as (app & args & Ha & Hx & E).
  - reflexivity.
  - reflexivity.
  - repeat constructor.
  - reflexivity.
  - apply (bool_decide_unpack _). vm_compute. done.
  - vm_compute. reflexivity.
  - exact Logic.I.
  - eexists. split; [rewrite E; unfold hook; cbn [v_app v_args arguments]; rewrite (holds_string _ _ _ Ha), (holds_string _ _ _ Hx); reflexivity|].
    split; reflexivity.
Defined.

(** A second server for the name example.com. *)
Definition names (h : list Z) : option nat := if bool_decide (h = str "example.com") then Some 1%nat else None.
Definition guest (busy : bool) : csession :=
  CSess busy [] [] [] [] [] [] 0 0 [] [] (replicate 256 0) None 0 (Some names).
Definition inn (busy : bool) : world :=
  World calm {[1%nat := guest busy]} [Srv [] [(str "live", 7%nat)] 3 5000000 4096; Srv [] [(str "live", 8%nat)] 4 5000000 4096]
    (replicate 8 0) (replicate 8 0) (replicate 8 0).
Definition connect_as (application url : string) (w : world) : option (ngx_rc * world) :=
  ngx_rtmp_cmd_connect_init (ngx_rtmp_cmd_connect Chunk.conf) 1%nat (connecting application url) w.


(** A server that was found by its name puts its own configuration of applications into
    the session, and the test for an unknown application never fails. *)
Example unknown_application : exists w, connect_as "nowhere" "rtmp://example.com/nowhere" (inn false) = Some (NGX_OK, w) /\
  (csess w !! 1%nat ≫= app_conf) = Some 4%nat.
Proof. eexists. split; vm_compute; reflexivity. Qed.

(** A second connect is refused, but the session has moved to the server it names. *)
Example second_connect_moves : exists w, connect_as "live" "rtmp://example.com/live" (inn true) = Some (NGX_ERROR, w) /\
  (srv_conf <$> csess w !! 1%nat) = Some 1%nat /\ (csess w !! 1%nat ≫= app_conf) = Some 4%nat.
Proof. eexists. split; [|split]; vm_compute; reflexivity. Qed.

(** A host that no server has: the session is finalized, and connected all the same. *)
Example refused_host_connected : exists w, connect_as "live" "rtmp://example.org/live" (inn false) = Some (NGX_OK, w) /\
  (connected <$> csess w !! 1%nat) = Some true.
Proof. eexists. split; vm_compute; reflexivity. Qed.

(** The name of a stream in the session is copied without an end: the rest of a longer
    name stays behind it. *)
Example name_tail : exists w,
  ngx_rtmp_cmd_publish_init (fun _ _ _ => mret NGX_OK) 1%nat
    [concat (map Amf.encode [Amf.VNum (replicate 8 0); Amf.VNull; Amf.VStr (str "ab"); Amf.VStr (str "live")])]
    (named 1%nat (str "long name") fresh start) = Some (NGX_OK, w) /\
  ((fun s => take 9 (s_name s)) <$> csess w !! 1%nat) = Some (str "abng name").
Proof. eexists. split; vm_compute; reflexivity. Qed.

(** A relay server is found by the beginning of its name. *)
Example server_prefix : named_server (str "ex") [Srv [(str "example.com", str "EXAMPLE.COM")] [] 0 0 0] = Some 0%nat.
Proof. reflexivity. Qed.

(** A colon in the path ends the host. *)
Example colon_in_path : exists s, ngx_rtmp_cmd_parse_tcurl (fit 256 (str "rtmp://h/a:b/c")) fresh = Some (NGX_OK, s) /\
  host_in s = str "h/a" /\ port_in s = str "b".
Proof. eexists. split; [vm_compute; reflexivity|split; reflexivity]. Qed.

(** A createStream with a value that is no number gets the transaction of the last one,
    which any session may have sent. *)
Example stale_transaction :
  (fst <$> ngx_rtmp_cmd_create_stream_init (fun _ trans _ => if bool_decide (trans = repeat 7 8) then Some (NGX_OK, start) else None)
    1%nat [Amf.encode Amf.VNull] (set_trans (repeat 7 8) start)) = Some NGX_OK.
Proof. vm_compute. reflexivity. Qed.

(** A URL without a path that fills its array is read behind the end. *)
Example url_overruns : ngx_rtmp_cmd_parse_tcurl (fit 256 (str "rtmp://" ++ repeat 97 248)) fresh = None.
Proof. vm_compute. reflexivity. Qed.

End Commands.
